(* ===== verification/_CoqProject ===== *)
-Q . S2P
Prelude.v
Vaddr.v
Arith.v
KList.v
KListSort.v
Bitmap.v
Hash.v
Block.v
FileSys.v
FileSpec.v
DirSpec.v
FsDemo.v
FsSync.v
FsLayout.v
FsObjs.v
FsRoot.v
FsAbstract.v
FsMid.v
FsTable.v
FsRefine.v
FsNames.v
FsCreate.v
FsMount.v
FsCorrect.v
Kernel.v
KernelRuns.v
Sched.v
KernelSteps.v
Locks.v
KernelSpec.v
KernelDemo.v
Mem.v
CString.v
Stdio.v
CStdlib.v
HeapSort.v
Random.v
Ustar.v
Fsutil.v
FsutilSpec.v
FsutilAppend.v
FsutilDemo.v
Devices.v
DevicesSpec.v
Drivers.v
DevicesDemo.v
Ide.v
IdeSpec.v
IdeDemo.v
Timer.v
Vga.v
Jobs.v
JobsSpec.v
JobsCorrect.v
Shell.v
ShellSpec.v
Cmdline.v
ShellDemo.v
Palloc.v
Malloc.v
Arena.v
MallocRuns.v
MallocSpec.v
MallocCorrect.v
Pagedir.v
PagedirFree.v
Paging.v
ArgStack.v
Process.v
Syscall.v
UserMem.v
Fdtable.v
Wait.v
SysDemo.v
Segments.v
Exceptions.v
Boot.v
BootSpec.v
BootWords.v
BootDemo.v
