(* ===== verification/Prelude.v ===== *)
(** * The Pintos kernel of project3 and the shell of Project 1: root file

    ** The program

    project3/ is a Pintos kernel with user processes: threads and their
    synchronization (threads/), user processes and their system calls (userprog/),
    devices (devices/), a file system (filesys/), and the libraries they share (lib/,
    lib/kernel/).  Callers go down these layers: threads/init.c reads the command line,
    sets up page tables, segments and interrupt gates and runs the actions;
    userprog/syscall.c checks the arguments of a call and dispatches it to
    filesys/filesys.c or userprog/process.c; process.c loads programs into pages of
    threads/palloc.c mapped by userprog/pagedir.c and waits on the semaphores of
    threads/synch.c; filesys.c calls directory.c and free-map.c, both call inode.c
    (free-map.c through file.c and lib/kernel/bitmap.c), inode.c calls
    devices/block.c, whose drivers are partitions (devices/partition.c) or disks
    (devices/ide.c).  threads/thread.c and synch.c keep their threads on lists of
    lib/kernel/list.c.  Interrupts come from the timer (devices/timer.c), the keyboard,
    the serial port and the disks; devices/intq.c hands their bytes to sleeping threads.

    Project 1/ is a shell with job control, a program of its own: newSimpleTerm.c
    reads and parses lines and starts pipelines, jobManager.c keeps the table of
    jobs, customCommands.c has the commands jobs, fg and bg.

    ** How C is modelled

    A C function is a function into the state monad [M S A] below; it ends in
    [Done], in [Panic] (a failed ASSERT or PANIC), in [Fault] (a wild access or a
    trapping instruction) or in [NoFuel].  Integers are [Z] with the wrap-around of
    their width written out ([u32], [s32], ...) where the code can wrap.  Fuel is
    only used for loops without a structural bound; every theorem on such a loop
    states that the fuel its function passes is enough.  The bound is the length of
    a list, of a file or of a transfer, plus one; for a scan of memory it is the
    number of bytes there are ([Mem.scan_fuel]); for the loops of the shell it is
    the number of reports, processes or keys there are, plus one; for the checks of
    user pointers it is the size of the address space ([loop]); for the calibration of
    the timer it is the number of bits of a word; where the code waits for the hardware
    it is the time the hardware says it takes ([Ide.hw_delay], [Timer.turns_left],
    [Timer.yields_left]); or the theorem takes a bound on the heap as the hypothesis
    that fixes it.

    Hardware is a class: [Devices.Ports] answers the port instructions, [Ide.Ata] adds
    16-bit transfers, time and interrupts, [Timer.Clock] time, [Vga.Display] the port
    of the display.  What the code relies on is a further class with laws
    ([IdeSpec.AtaChannel], [Timer.Live], [Timer.Steady], [Vga.Cursor]), and each has an
    instance that the witnesses run on.

    ** Files

    - Prelude: the monad, machine integers, arrays, loops, tactics.
    - Vaddr: threads/vaddr.h and pte.h.  Addresses split into page number and
      offset; page-table entries are packed and read back.
    - Arith: lib/arithmetic.c.  The 64-bit division routines against [Z.div] and
      [Z.quot], with the remainder routines that truncate.
    - KList, KListSort: lib/kernel/list.c.  Nodes of a heap linked both ways;
      [KList] gives each operation the sequence it computes, [KListSort] proves
      sorting, ordered insertion, reversal and removal of duplicates.
    - Bitmap: lib/kernel/bitmap.c on 32-bit elements, against a function from
      positions to booleans.
    - Hash: lib/kernel/hash.c.  Buckets are the sequences that list.c implements;
      hash and comparison are arguments; the table invariant with rehashing.
    - Block: devices/block.c and partition.c.  [BlockDriver] is the interface of
      struct block_operations; a partition is an instance over the instance of
      the device that holds it.
    - FileSys: filesys/inode.c, file.c, free-map.c, directory.c, filesys.c on one
      state [fs] over a [BlockDriver].
    - FileSpec: reads, writes and the free map refine operations on the bytes of
      the device ([dbyte], [fbyte]).  DirSpec: directory entries and inodes
      survive storage; adding to and looking up in a directory.
    - FsDemo: a formatted RAM disk, the inputs of the file system's witnesses, and
      the leak of [filesys_create].
    - FsAbstract: the file system as its callers see it: names, contents and open
      handles; [astep] is what each call may do.  FsSync: the bytes that store the
      free map.  FsLayout: which sectors belong to which inode ([layout]), and steps
      that write only given sectors ([fs_step]).  FsObjs: the table of open inodes
      ([fs_inv]).  FsRoot: counts of open files, names of the root directory.  FsMid:
      the relation of a state to an abstract file system ([mid], [rep]).  FsTable:
      opening and closing under it.  FsRefine, FsNames, FsCreate: the calls on open
      files, on names, and filesys_create refine [astep].  FsMount: mounting.
      FsCorrect: formatting, the theorems and their concrete inputs.
    - Fsutil: filesys/fsutil.c, the actions ls, cat, rm, extract and append on the file
      system, the memory, the scratch device and the console.  FsutilSpec: extract;
      FsutilAppend: append, and that extract reads back what append wrote; FsutilDemo:
      the inputs of the witnesses.
    - Kernel: threads/thread.c, synch.c and the interrupt flag and handler of
      interrupt.c.  A thread that stops in the middle of a call keeps what is left
      of it as [frames], its kernel stack; [resume] takes the innermost one up.
    - KernelRuns: the state each operation of Kernel leaves.  Sched: the scheduler's
      invariant and that [schedule] keeps it.  KernelSteps: [step], one step of
      any interleaving of threads and timer interrupts; every step keeps the
      invariant and is a step of [sync], the abstract machine of semaphores, locks
      and condition variables.  Locks: mutual exclusion, proved on [sync].
      KernelSpec: semaphores and yielding never fail and do what they promise.
      KernelDemo: a kernel with four threads, the inputs of the witnesses.
    - Mem: the memory of C pointers, a finite map from addresses to bytes, with
      words and strings in it.  CString: lib/string.c.  Stdio: lib/stdio.c, a
      format and its arguments to the characters it prints, and lib/user/console.c,
      which writes them to a handle in pieces of 64.  CStdlib: lib/stdlib.c;
      HeapSort: its sorting and searching are correct.  Random: lib/random.c.
      Ustar: lib/ustar.c, headers of tar archives in that memory.
    - Devices: devices/intq.c, input.c, serial.c, kbd.c over the threads of Kernel.
      DevicesSpec: interrupt queues refine bounded queues.  Drivers: the keyboard types
      the text of its scan codes; the serial interrupt moves what it can.  DevicesDemo:
      the inputs, and two readers of one queue.
    - Ide: devices/ide.c.  IdeSpec: reading and writing sectors of a disk; a disk in
      service is a [BlockDriver].  IdeDemo: a simulated disk, and formatting a partition
      of it.
    - Timer: devices/timer.c, pit.c, speaker.c.  Vga: devices/vga.c, the frame buffer
      against a screen of cells.
    - Palloc: threads/palloc.c, two bitmaps of pages over that memory.  Malloc:
      threads/malloc.c on Palloc.  Arena: its invariant, and the lemma by which an
      operation on one arena keeps it; MallocRuns, MallocSpec: the runs of its
      operations; MallocCorrect: malloc, calloc, realloc and free against
      the abstract state of allocated blocks.
    - Pagedir: userprog/pagedir.c, page directories as words in pages; [pagedir]
      relates them to functions from indices to entries.  PagedirFree: destroying
      one.  Paging: paging_init of threads/init.c, against the translation of the
      processor ([walk]).
    - ArgStack: format_stack_args of userprog/process.c.
    - Process: the state [sys] of the whole system (Kernel, FileSys, Pagedir and the
      tables of process.c) and the parts of process.c that do not switch threads.
      Syscall: userprog/syscall.c and the rest of process.c.  A call that may switch
      threads leaves what it has still to do on [todo], as Kernel does on [frames];
      [sstep] is one step of the whole system.
    - UserMem: the checks of user pointers, on the address space of a process.
      Fdtable: file descriptors.  Wait: exit and wait over the kernel's
      semaphores.  SysDemo: a system with one process, the inputs of the witnesses.
    - Segments: userprog/gdt.c, tss.c and the tables of threads/interrupt.c, with the
      registrations made at boot.  Exceptions: userprog/exception.c on [sys].
    - Boot: threads/init.c (command line, options, block devices, actions),
      devices/rtc.c, and powering off with its statistics of devices/shutdown.c.
      BootSpec: the options, and what -h prints; BootWords: the words a loader leaves,
      the devices chosen, the actions, the clock; BootDemo: the inputs of the witnesses.
    - Jobs: Project 1/jobManager.c and constants.h.  What the system answers is an
      input of the state, the calls made are recorded.  JobsSpec: the table as a map
      from numbers to jobs; JobsCorrect: waiting and reaping.  Shell:
      customCommands.c and the part of newSimpleTerm.c that starts processes;
      ShellSpec: pipelines in the foreground and background, fg.  Cmdline: reading
      and parsing lines and the main loop; lines parse to what was written.
      ShellDemo: the inputs of the witnesses.

    ** What the theorems show

    - Containers: sorting a list or an array terminates with a sorted permutation;
      the hash table finds, inserts, replaces and deletes exactly; bitmap scans
      find the first group and flip exactly it; bitmaps survive a file.
    - Storage: a read returns the slice asked for and a write changes exactly the
      bytes asked for, across sectors; the free map and its file agree; names map
      to sectors; partitions lie inside their device; the disk driver reads and
      writes exactly the sector asked for.
    - The file system as a whole: every call refines the abstract file system and
      ends without a panic, formatting gives the empty one, and mounting after a
      loss of memory finds all named files.  The hypotheses are that allocations
      of memory succeed and that fewer than [FsAbstract.MAX_OPEN] files are open.
      Files appended to an archive are extracted as they were, unless the file
      system they come to refuses one.
    - Concurrency: in every reachable state one thread runs, run queue and waiters
      are exact, a lock has one token, misuse of locks stops the kernel, waiters
      wake in order.
    - Memory: pages and blocks are allocated once; malloc, realloc and free leave
      the blocks of everyone else, and the pages without an allocated block go back;
      page directories map exactly what was added to them; destroying one frees
      exactly what it reaches; the kernel's maps physical memory, its text read-only,
      if there are pages for its tables.
    - Strings and output: tokens are the words of the string; the buffer bounds of
      snprintf and of integer conversion hold for every format; atoi reads back
      what snprintf writes; a tar header parses to what it was made of, any block
      parses to an error or to a harmless name, one changed byte is an error.
    - Processes: a program's arguments lie on its stack as the program expects; only
      segments below the kernel are loaded; the checks of pointers accept exactly
      what the process can access and end; descriptors are opened and closed
      exactly; an exit status reaches the process that waits for it, once; an
      exception ends the process or stops the kernel.
    - Devices: interrupt queues are bounded queues; scan codes become the characters
      typed; the display does what a terminal does; sleeps end when their time is up;
      calibration ends within a factor of two.
    - Boot: the words of the command line become the options and actions they name;
      -h prints help and statistics before the machine is off; every vector has its
      gate, and user code may use four of them.
    - The shell: a line parses to its commands; a pipeline in the foreground is
      connected by pipes, runs in one group, is waited for in any order and leaves
      the job table as it was; in the background it gets the first free number;
      ended jobs are reaped once all their processes have ended.
    - Departures of the code from its intent are theorems too: see
      [Block.extended_scan_diverges], [Arith.umoddi3_truncates],
      [FsDemo.create_failure_leaks], [KernelDemo.created_thread_freed],
      [Wait.reused_slot_loses_waiter], [UserMem.read_only_buffer_faults],
      [Fdtable.seek_panics], [CString.memmove_correct],
      [MallocCorrect.large_requests_wrap], [ShellSpec.fg_misses_jobs],
      [ShellSpec.fg_full_table_faults], [JobsCorrect.killed_in_background_stays],
      [Cmdline.blank_line_faults], [Cmdline.sixty_four_words_fault],
      [DevicesDemo.second_reader_panics], [IdeDemo.disk_found],
      [IdeDemo.human_size_wraps], [BootWords.rtc_time_ahead],
      [Exceptions.kill_correct], [Timer.timer_calibrate_correct],
      [Timer.pit_configure_correct].

    ** Bounds of the model

    A call of Kernel runs without interruption up to the point where the code can
    switch threads or where it calls into another primitive; timer interrupts come
    between these points.  A call of Syscall likewise runs without interruption up
    to its next call of Kernel that may switch.  The interrupts of keyboard and serial
    port come between the calls of Devices, those of a disk where its driver waits; the
    lock of a disk's channel is a flag, as calls on a channel come one after the other.
    Timer and Vga are seen from one thread: what others do while it sleeps is the time
    that passes.  thread_init, thread_start, the start of idle and the bytes
    of the page of a thread are not modelled: struct thread is the records
    [Kernel.thread] and [Process.uthread].  A switch of threads in Kernel leaves out the
    page directory and the stack that process_activate sets.  User code is not modelled; a step of it
    is a system call or an exception.  Kernel addresses are addresses of the memory of
    Mem, except that the objects of filesys/ keep their own heap (FileSys) and that a
    bitmap of Palloc is kept apart from it.  Callers use the semaphore of a lock only
    through the lock ([KernelSteps.allowed]).  The scheduler's invariant holds of the
    steps of Kernel; process.c can break it by initializing a semaphore that has waiters
    ([Wait.reused_slot_loses_waiter]), so it is a hypothesis of the theorems of Wait.
    The outcomes of the allocations of filesys/ and userprog/ are an input of their
    state, not calls of Malloc; the console is the list of characters written, and its
    lock is not modelled.  The address of the array of descriptors of malloc.c and those
    of string literals are parameters that the linker decides.
    Of the shell, the parent's side of a fork is modelled and the system calls a
    child makes before it execs are one event; signals come only while the shell
    reads a line; signal dispositions are not modelled; allocation succeeds.  Lines
    are lists of characters without the 0 that ends a C string.

    ** Not modelled

    The assembly of threads/ (loader, start, context switch, interrupt stubs) and main,
    which calls the initializations in order; the loop of shutdown.c that reboots; but
    for its statistics, lib/kernel/console.c, and the debug.c files, output under a lock
    and backtraces; the rest of lib/user/, trap instructions; the contents of the pages a segment is
    loaded into; user programs, tests and utilities; Project 2, a daemon of sockets and
    signals around a copy of the shell; userprog/process-old.c and the pseudocode of vm/,
    which are not built. *)

From Stdlib Require Export ZArith Lia Bool.
From stdpp Require Export base tactics numbers list gmap fin_maps.

#[global] Open Scope Z_scope.

(** ** Outcomes and the state monad *)

(** What running a C function can come to: a value, a failed [ASSERT] or
    [PANIC] ([Panic]), a load or store through an invalid pointer or a trapping
    instruction ([Fault]), or a loop cut by the fuel of the model ([NoFuel]). *)
Inductive outcome (A : Type) : Type :=
  | Done (a : A)
  | Panic
  | Fault
  | NoFuel.
Arguments Done {A} a.
Arguments Panic {A}.
Arguments Fault {A}.
Arguments NoFuel {A}.

#[export] Instance outcome_ret : MRet outcome := fun A a => Done a.
#[export] Instance outcome_bind : MBind outcome := fun A B f m =>
  match m with
  | Done a => f a
  | Panic => Panic
  | Fault => Fault
  | NoFuel => NoFuel
  end.

(** Computations over a state [S]. *)
Definition M (S A : Type) : Type := S -> outcome (A * S).

#[export] Instance M_ret {S} : MRet (M S) := fun A a s => Done (a, s).
#[export] Instance M_bind {S} : MBind (M S) := fun A B f m s =>
  match m s with
  | Done (a, s') => f a s'
  | Panic => Panic
  | Fault => Fault
  | NoFuel => NoFuel
  end.

(** Sequencing with the computation first, so that the type of its result is
    known when the continuation is read. *)
Definition bnd {F : Type -> Type} `{MBind F} {A B} (m : F A) (f : A -> F B) : F B :=
  m ≫= f.

Declare Scope pintos_scope.
Notation "x ← y ; z" := (bnd y (fun x => z))
  (at level 20, y at level 100, z at level 200, only parsing) : pintos_scope.
Notation "' x ← y ; z" := (bnd y (fun x => z))
  (at level 20, x pattern, y at level 100, z at level 200, only parsing) : pintos_scope.
Notation "x ;; z" := (bnd x (fun _ => z))
  (at level 100, z at level 200, only parsing, right associativity) : pintos_scope.
#[global] Open Scope pintos_scope.

Definition panic {S A} : M S A := fun _ => Panic.
Definition fault {S A} : M S A := fun _ => Fault.
Definition nofuel {S A} : M S A := fun _ => NoFuel.
Definition get {S} : M S S := fun s => Done (s, s).
Definition gets {S A} (f : S -> A) : M S A := fun s => Done (f s, s).
Definition put {S} (s : S) : M S unit := fun _ => Done (tt, s).
Definition modify {S} (f : S -> S) : M S unit := fun s => Done (tt, f s).

(** [ASSERT (b)] of lib/debug.h. *)
Definition ASSERT {S} (b : bool) : M S unit :=
  fun s => if b then Done (tt, s) else Panic.

(** [ASSERT] where no state is threaded. *)
Definition assert_ok (b : bool) : outcome unit :=
  if b then Done tt else Panic.

(** Lift an [option] read of memory: [None] is a wild access. *)
Definition load {S A} (f : S -> option A) : M S A :=
  fun s => match f s with Some a => Done (a, s) | None => Fault end.

(** The null pointer. *)
Definition NULL : Z := 0.

(** Lift a state-free outcome. *)
Definition liftO {S A} (o : outcome A) : M S A :=
  fun s => match o with
           | Done a => Done (a, s)
           | Panic => Panic
           | Fault => Fault
           | NoFuel => NoFuel
           end.

Section Monad.
Context {S : Type}.

Lemma bind_done {A B} (m : M S A) (f : A -> M S B) s a s' :
  m s = Done (a, s') -> bnd m f s = f a s'.
Proof. intros H. unfold bnd, mbind, M_bind. by rewrite H. Qed.

Lemma bind_panic {A B} (m : M S A) (f : A -> M S B) s :
  m s = Panic -> bnd m f s = Panic.
Proof. intros H. unfold bnd, mbind, M_bind. by rewrite H. Qed.

Lemma bind_done_inv {A B} (m : M S A) (f : A -> M S B) s b s' :
  bnd m f s = Done (b, s') ->
  exists a s1, m s = Done (a, s1) /\ f a s1 = Done (b, s').
Proof.
  unfold bnd, mbind, M_bind. destruct (m s) as [[a s1]| | |] eqn:E; naive_solver.
Qed.

Lemma assert_done (b : bool) (s : S) :
  b = true -> ASSERT b s = Done (tt, s).
Proof. by intros ->. Qed.

Lemma assert_true (s : S) : ASSERT true s = Done (tt, s).
Proof. done. Qed.

Lemma assert_panic (s : S) : ASSERT false s = Panic.
Proof. done. Qed.
End Monad.

Lemma liftO_run {S A} (o : outcome A) (t : S) a : o = Done a -> liftO o t = Done (a, t).
Proof. intros ->. done. Qed.

Lemma obind_done {A B} (m : outcome A) (f : A -> outcome B) a :
  m = Done a -> bnd m f = f a.
Proof. by intros ->. Qed.

Lemma obind_done_inv {A B} (m : outcome A) (f : A -> outcome B) b :
  bnd m f = Done b -> exists a, m = Done a /\ f a = Done b.
Proof. destruct m; naive_solver. Qed.

(** Compute through [outcome] sequencing. *)
Ltac osimpl := cbn [bnd mbind outcome_bind mret outcome_ret assert_ok Z.eqb].

(** Run one monadic step whose result is known. *)
Ltac mstep H := erewrite bind_done; [|solve [apply H | eapply H; eauto]].
(** Run monadic steps that compute. *)
Ltac mrun := repeat (unfold bnd, mbind, M_bind, outcome_bind, mret, M_ret, outcome_ret; simpl).

(** ** Machine integers

    A C integer is a [Z] together with the wrap-around of its width. *)
Definition u8 (z : Z) : Z := z mod 2 ^ 8.
Definition u16 (z : Z) : Z := z mod 2 ^ 16.
Definition u32 (z : Z) : Z := z mod 2 ^ 32.
Definition u64 (z : Z) : Z := z mod 2 ^ 64.
Definition s8 (z : Z) : Z := (z + 2 ^ 7) mod 2 ^ 8 - 2 ^ 7.
Definition s16 (z : Z) : Z := (z + 2 ^ 15) mod 2 ^ 16 - 2 ^ 15.
Definition s32 (z : Z) : Z := (z + 2 ^ 31) mod 2 ^ 32 - 2 ^ 31.
Definition s64 (z : Z) : Z := (z + 2 ^ 63) mod 2 ^ 64 - 2 ^ 63.

Definition is_u32 (z : Z) : Prop := 0 <= z < 2 ^ 32.
Definition is_u64 (z : Z) : Prop := 0 <= z < 2 ^ 64.
Definition is_s32 (z : Z) : Prop := - 2 ^ 31 <= z < 2 ^ 31.
Definition is_s64 (z : Z) : Prop := - 2 ^ 63 <= z < 2 ^ 63.

Ltac unfold_words :=
  unfold u8, u16, u32, u64, s8, s16, s32, s64, is_u32, is_u64, is_s32, is_s64 in *.

Lemma u32_small z : 0 <= z < 2 ^ 32 -> u32 z = z.
Proof. apply Z.mod_small. Qed.
Lemma u64_small z : 0 <= z < 2 ^ 64 -> u64 z = z.
Proof. apply Z.mod_small. Qed.
Lemma u8_small z : 0 <= z < 2 ^ 8 -> u8 z = z.
Proof. apply Z.mod_small. Qed.
Lemma s32_small z : - 2 ^ 31 <= z < 2 ^ 31 -> s32 z = z.
Proof. intros. unfold s32. rewrite Z.mod_small; lia. Qed.
Lemma s64_small z : - 2 ^ 63 <= z < 2 ^ 63 -> s64 z = z.
Proof. intros. unfold s64. rewrite Z.mod_small; lia. Qed.
Lemma u32_range z : 0 <= u32 z < 2 ^ 32.
Proof. unfold u32. apply Z.mod_pos_bound. lia. Qed.
Lemma u64_range z : 0 <= u64 z < 2 ^ 64.
Proof. unfold u64. apply Z.mod_pos_bound. lia. Qed.
Lemma u8_range z : 0 <= u8 z < 2 ^ 8.
Proof. unfold u8. apply Z.mod_pos_bound. lia. Qed.
Lemma s32_range z : - 2 ^ 31 <= s32 z < 2 ^ 31.
Proof. unfold s32. pose proof (Z.mod_pos_bound (z + 2 ^ 31) (2 ^ 32)). lia. Qed.

Create HintDb words.
Create Rewrite HintDb words.
#[export] Hint Rewrite u32_small u64_small u8_small s32_small s64_small
  using lia : words.
#[export] Hint Resolve u32_range u64_range u8_range s32_range : words.

(** lib/round.h, on values that do not wrap. *)
Definition DIV_ROUND_UP (x step : Z) : Z := (x + step - 1) / step.
Definition ROUND_UP (x step : Z) : Z := (x + step - 1) / step * step.
Definition ROUND_DOWN (x step : Z) : Z := x / step * step.

(** ** Counted iteration

    [iter n f s] runs [f] [n] times; [for_nat] passes the index as C's
    [for (i = 0; i < n; i++)] does. *)
Fixpoint for_from {S} (i : Z) (n : nat) (body : Z -> M S unit) : M S unit :=
  match n with
  | O => mret tt
  | S n' => body i ;; for_from (i + 1) n' body
  end.

Definition for_z {S} (n : Z) (body : Z -> M S unit) : M S unit :=
  for_from 0 (Z.to_nat n) body.

(** The invariant rule of counted loops. *)
Lemma for_from_inv {S} (P : Z -> S -> Prop) (body : Z -> M S unit) n : forall i s,
  P i s ->
  (forall j s1, i <= j < i + Z.of_nat n -> P j s1 ->
     exists s2, body j s1 = Done (tt, s2) /\ P (j + 1) s2) ->
  exists s', for_from i n body s = Done (tt, s') /\ P (i + Z.of_nat n) s'.
Proof.
  induction n as [|n IH]; intros i s HP Hbody; simpl.
  - exists s. split; [done|]. by rewrite Z.add_0_r.
  - destruct (Hbody i s) as (s2 & Hrun & HP2); [lia|exact HP|].
    destruct (IH (i + 1) s2 HP2) as (s3 & Hrun3 & HP3).
    { intros j s1 Hj. apply Hbody. lia. }
    exists s3. erewrite bind_done by exact Hrun.
    split; [exact Hrun3|]. rewrite Nat2Z.inj_succ, <- Z.add_1_l, Z.add_assoc. exact HP3.
Qed.

(** A loop of at most [p] turns that ends when its body returns [inr]. *)
Fixpoint while_pos {S A B} (p : positive) (body : A -> M S (A + B)) (a : A) : M S (A + B) :=
  let again p (r : A + B) := match r with inl a => while_pos p body a | inr b => mret (inr b) end in
  match p with
  | xH => body a
  | xO p => r ← while_pos p body a; again p r
  | xI p => r ← body a; match r with inl a => r ← while_pos p body a; again p r | inr b => mret (inr b) end
  end.

Definition loop {S A B} (n : Z) (body : A -> M S (A + B)) (a : A) : M S B :=
  r ← while_pos (Z.to_pos n) body a;
  match r with inl _ => nofuel | inr b => mret b end.

(** The same loop with its turns counted in unary. *)
Fixpoint while_nat {S A B} (n : nat) (body : A -> M S (A + B)) (a : A) : M S (A + B) :=
  match n with
  | O => mret (inl a)
  | S n => r ← body a; match r with inl a => while_nat n body a | inr b => mret (inr b) end
  end.

Section While.
Context {S A B : Type} (body : A -> M S (A + B)).

Lemma while_nat_add n m : forall a s, while_nat (n + m) body a s =
  (r ← while_nat n body a; match r with inl a => while_nat m body a | inr b => mret (inr b) end) s.
Proof.
  induction n as [|n IH]; intros a s; [done|]. cbn. unfold bnd, mbind, M_bind in *.
  by destruct (body a s) as [[[a'|b] s']| | |].
Qed.

Lemma while_pos_nat p : forall a s, while_pos p body a s = while_nat (Pos.to_nat p) body a s.
Proof.
  induction p as [p IH|p IH|]; intros a s.
  - rewrite Pos2Nat.inj_xI. replace (2 * Pos.to_nat p)%nat with (Pos.to_nat p + Pos.to_nat p)%nat by lia.
    cbn [while_pos while_nat]. unfold bnd at 1 3, mbind, M_bind. destruct (body a s) as [[[a'|b] s']| | |]; try done.
    rewrite while_nat_add. unfold bnd, mbind, M_bind. rewrite IH.
    destruct (while_nat _ _ _ _) as [[[a2|b2] s2]| | |]; try done; apply IH.
  - rewrite Pos2Nat.inj_xO. replace (2 * Pos.to_nat p)%nat with (Pos.to_nat p + Pos.to_nat p)%nat by lia.
    rewrite while_nat_add. cbn [while_pos]. unfold bnd, mbind, M_bind. rewrite IH.
    destruct (while_nat _ _ _ _) as [[[a2|b2] s2]| | |]; try done; apply IH.
  - change (Pos.to_nat 1) with 1%nat. cbn. unfold bnd, mbind, M_bind. by destruct (body a s) as [[[a'|b] s']| | |].
Qed.
End While.

(** A counting loop that leaves the state and ends at the [k]-th turn. *)
Lemma loop_counted {S B} (body : Z -> M S (Z + B)) n k b s : 0 <= k < n ->
  (forall i, 0 <= i < k -> body i s = Done (inl (i + 1), s)) -> body k s = Done (inr b, s) ->
  loop n body 0 s = Done (b, s).
Proof.
  intros Hk Hgo Hend. unfold loop. unfold bnd at 1, mbind, M_bind. rewrite while_pos_nat.
  assert (forall j i, 0 <= i -> i + Z.of_nat j = k -> forall m, (j < m)%nat -> while_nat m body i s = Done (inr b, s)) as Hrun.
  { induction j as [|j IH]; intros i Hi Hj [|m] Hm; try lia; cbn [while_nat].
    - replace i with k by lia. by rewrite (bind_done _ _ _ _ _ Hend).
    - rewrite (bind_done _ _ _ _ _ (Hgo i ltac:(lia))). apply IH; lia. }
  rewrite (Hrun (Z.to_nat k) 0) by lia. done.
Qed.

(** ** Lists as arrays indexed by [Z] *)
Definition zget {A} (l : list A) (i : Z) : option A :=
  if decide (0 <= i) then l !! Z.to_nat i else None.
Definition zset {A} (l : list A) (i : Z) (a : A) : list A :=
  if decide (0 <= i) then <[Z.to_nat i := a]> l else l.
Definition zlen {A} (l : list A) : Z := Z.of_nat (length l).

Section Arrays.
Context {A : Type}.
Implicit Types l : list A.

Lemma zget_Some l i : 0 <= i < zlen l -> exists a, zget l i = Some a.
Proof.
  unfold zget, zlen. intros H. rewrite decide_True by lia.
  apply lookup_lt_is_Some. lia.
Qed.

Lemma zget_inv l i a : zget l i = Some a -> 0 <= i < zlen l.
Proof.
  unfold zget, zlen. case_decide; [|done]. intros Hl%lookup_lt_Some. lia.
Qed.

Lemma zget_None l i : zlen l <= i -> zget l i = None.
Proof.
  unfold zget, zlen. intros H. case_decide; [|done].
  apply lookup_ge_None. lia.
Qed.

Lemma zlen_zset l i a : zlen (zset l i a) = zlen l.
Proof. unfold zlen, zset. case_decide; [|done]. by rewrite length_insert. Qed.

Lemma length_zset l i a : length (zset l i a) = length l.
Proof. unfold zset. case_decide; [|done]. by rewrite length_insert. Qed.

Lemma zget_zset_eq l i a : 0 <= i < zlen l -> zget (zset l i a) i = Some a.
Proof.
  unfold zget, zset, zlen. intros H. rewrite !decide_True by lia.
  apply list_lookup_insert_eq. lia.
Qed.

Lemma zget_zset_ne l i j a : i <> j -> zget (zset l i a) j = zget l j.
Proof.
  unfold zget, zset. intros H. repeat case_decide; try done.
  apply list_lookup_insert_ne. lia.
Qed.

Lemma zget_zset l i j a : 0 <= i < zlen l ->
  zget (zset l i a) j = if decide (i = j) then Some a else zget l j.
Proof.
  intros H. case_decide; subst; [by apply zget_zset_eq|by apply zget_zset_ne].
Qed.

Lemma zlen_cons a l : zlen (a :: l) = 1 + zlen l.
Proof. unfold zlen. cbn. lia. Qed.

Lemma zlen_app l1 l2 : zlen (l1 ++ l2) = zlen l1 + zlen l2.
Proof. unfold zlen. rewrite length_app. lia. Qed.

Lemma zlen_nonneg l : 0 <= zlen l.
Proof. unfold zlen. lia. Qed.

Lemma zlen_to_nat l : Z.to_nat (zlen l) = length l.
Proof. unfold zlen. lia. Qed.

Lemma zlist_eq l l' :
  zlen l = zlen l' -> (forall i, 0 <= i < zlen l -> zget l i = zget l' i) -> l = l'.
Proof.
  unfold zlen. intros Hlen H. apply list_eq. intros i.
  destruct (decide (i < length l)%nat) as [Hi|Hi].
  - specialize (H (Z.of_nat i)). unfold zget in H.
    rewrite !decide_True, !Nat2Z.id in H by lia. apply H. lia.
  - rewrite !lookup_ge_None_2; [done|lia|lia].
Qed.

Lemma zset_zset l i a b : zset (zset l i a) i b = zset l i b.
Proof. unfold zset. case_decide; [apply list_insert_insert_eq|done]. Qed.

Lemma zset_same l i a : zget l i = Some a -> zset l i a = l.
Proof. unfold zget, zset. case_decide; [apply list_insert_id|done]. Qed.

Lemma zget_nat l n : zget l (Z.of_nat n) = l !! n.
Proof. unfold zget. by rewrite decide_True, Nat2Z.id by lia. Qed.

Lemma zget_replicate n (a : A) i :
  0 <= i < Z.of_nat n -> zget (replicate n a) i = Some a.
Proof.
  unfold zget. intros H. rewrite decide_True by lia.
  apply lookup_replicate_2. lia.
Qed.
End Arrays.

(** ** Exchanging two elements *)

Section Swap.
Context {A : Type}.
Implicit Types l : list A.

Lemma insert_middle l1 l2 (a b : A) : <[length l1 := b]> (l1 ++ a :: l2) = l1 ++ b :: l2.
Proof. induction l1 as [|c l1 IH]; [done|]. cbn. f_equal. apply IH. Qed.

Lemma split_twice l i j (a b : A) : (i < j)%nat -> l !! i = Some a -> l !! j = Some b ->
  exists l1 m l3, l = l1 ++ a :: m ++ b :: l3 /\ length l1 = i /\ length (l1 ++ a :: m) = j.
Proof.
  intros Hij Ha Hb. pose proof (lookup_lt_Some _ _ _ Ha). pose proof (lookup_lt_Some _ _ _ Hb).
  assert (drop (S i) l !! (j - S i)%nat = Some b) as Hd by (rewrite lookup_drop; by replace (S i + (j - S i))%nat with j by lia).
  exists (take i l), (take (j - S i) (drop (S i) l)), (drop (S (j - S i)) (drop (S i) l)). split_and!.
  - rewrite (take_drop_middle _ _ b Hd). symmetry. by apply take_drop_middle.
  - rewrite length_take. lia.
  - rewrite length_app. cbn. rewrite !length_take, length_drop. lia.
Qed.

Lemma insert_swap_perm l i j a b : (i < j)%nat -> l !! i = Some a -> l !! j = Some b -> <[j := a]> (<[i := b]> l) ≡ₚ l.
Proof.
  intros Hij Ha Hb. destruct (split_twice l i j a b Hij Ha Hb) as (l1 & m & l3 & -> & <- & <-). rewrite insert_middle.
  replace (length (l1 ++ a :: m)) with (length (l1 ++ b :: m)) by (by rewrite !length_app).
  replace (l1 ++ b :: m ++ b :: l3) with ((l1 ++ b :: m) ++ b :: l3) by (by rewrite <- app_assoc).
  rewrite insert_middle, <- app_assoc. cbn. solve_Permutation.
Qed.

Lemma zset_swap_perm l i j a b : zget l i = Some a -> zget l j = Some b -> zset (zset l i b) j a ≡ₚ l.
Proof.
  intros Ha Hb. pose proof (zget_inv _ _ _ Ha). pose proof (zget_inv _ _ _ Hb).
  destruct (decide (i = j)) as [->|Hne]; [rewrite Ha in Hb; injection Hb as ->; rewrite zset_zset; by rewrite zset_same|].
  unfold zset, zget in *. rewrite !decide_True in * by lia. destruct (decide (i < j)).
  - apply insert_swap_perm; [lia|done|done].
  - rewrite list_insert_insert_ne by lia. apply insert_swap_perm; [lia|done|done].
Qed.
End Swap.

(** Booleans of integer comparisons. *)
Ltac bool_to_prop :=
  repeat match goal with
  | H : (_ && _) = true |- _ => apply andb_prop in H as [? ?]
  | H : (_ || _) = false |- _ => apply orb_false_elim in H as [? ?]
  | H : negb _ = true |- _ => apply negb_true_iff in H
  | H : negb _ = false |- _ => apply negb_false_iff in H
  | H : (_ <? _) = true |- _ => apply Z.ltb_lt in H
  | H : (_ <? _) = false |- _ => apply Z.ltb_ge in H
  | H : (_ <=? _) = true |- _ => apply Z.leb_le in H
  | H : (_ <=? _) = false |- _ => apply Z.leb_gt in H
  | H : (_ =? _) = true |- _ => apply Z.eqb_eq in H
  | H : (_ =? _) = false |- _ => apply Z.eqb_neq in H
  end.

(** Split on the integer comparison at the head of the goal's tests. *)
Ltac zcase :=
  match goal with
  | |- context [?a <? ?b] => destruct (Z.ltb_spec a b)
  | |- context [?a <=? ?b] => destruct (Z.leb_spec a b)
  | |- context [?a =? ?b] => destruct (Z.eqb_spec a b)
  end.

(** [lia] that also knows division and remainder. *)
Ltac dlia := Z.to_euclidean_division_equations; lia.
Ltac dnia := Z.to_euclidean_division_equations; nia.

(** Settle a closed decidable proposition by evaluation. *)
Ltac by_decide :=
  match goal with |- ?P => refine (bool_decide_unpack P _); vm_compute; exact I end.
