(* ===== verification/Vaddr.v ===== *)
(** * Virtual addresses and page-table entries

    threads/vaddr.h and threads/pte.h: the page offset, page number and
    rounding of a 32-bit virtual address, the 1:1 map between physical and
    kernel virtual addresses, and the bit layout of PDEs and PTEs.  Pointers
    and [uintptr_t] are integers in [0, 2^32). *)

From S2P Require Import Prelude.

(** Bitwise complement of a 32-bit word (C's [~] on [unsigned long]). *)
Definition not32 (z : Z) : Z := Z.lxor z (2 ^ 32 - 1).

(** ** threads/vaddr.h *)

Definition BITMASK (shift cnt : Z) : Z :=
  u32 (Z.shiftl (u32 (Z.shiftl 1 cnt - 1)) shift).
Definition PGBITS : Z := 12.
Definition PGSIZE : Z := Z.shiftl 1 PGBITS.
Definition PGMASK : Z := BITMASK 0 PGBITS.

Definition pg_ofs (va : Z) : Z := Z.land va PGMASK.
Definition pg_no (va : Z) : Z := Z.shiftr va PGBITS.
Definition pg_round_up (va : Z) : Z := Z.land (u32 (va + PGSIZE - 1)) (not32 PGMASK).
Definition pg_round_down (va : Z) : Z := Z.land va (not32 PGMASK).

Definition PHYS_BASE : Z := 0xc0000000.
Definition is_user_vaddr (va : Z) : bool := va <? PHYS_BASE.
Definition is_kernel_vaddr (va : Z) : bool := PHYS_BASE <=? va.

Definition ptov (paddr : Z) : outcome Z :=
  _ ← assert_ok (paddr <? PHYS_BASE); mret (u32 (paddr + PHYS_BASE)).
Definition vtop (va : Z) : outcome Z :=
  _ ← assert_ok (is_kernel_vaddr va); mret (u32 (va - PHYS_BASE)).

(** ** threads/pte.h *)

Definition PTBITS : Z := 10.
Definition PTSHIFT : Z := PGBITS.
Definition PTMASK : Z := BITMASK PTSHIFT PTBITS.
Definition PDSHIFT : Z := PTSHIFT + PTBITS.

Definition pt_no (va : Z) : Z := Z.shiftr (Z.land va PTMASK) PTSHIFT.
Definition pd_no (va : Z) : Z := Z.shiftr va PDSHIFT.

Definition PTE_FLAGS : Z := 0xfff.
Definition PTE_ADDR : Z := 0xfffff000.
Definition PTE_P : Z := 0x1.
Definition PTE_W : Z := 0x2.
Definition PTE_U : Z := 0x4.
Definition PTE_A : Z := 0x20.
Definition PTE_D : Z := 0x40.

Definition pde_create (pt : Z) : outcome Z :=
  _ ← assert_ok (pg_ofs pt =? 0);
  p ← vtop pt;
  mret (Z.lor (Z.lor (Z.lor p PTE_U) PTE_P) PTE_W).

Definition pde_get_pt (pde : Z) : outcome Z :=
  _ ← assert_ok (negb (Z.land pde PTE_P =? 0));
  ptov (Z.land pde PTE_ADDR).

Definition pte_create_kernel (page : Z) (writable : bool) : outcome Z :=
  _ ← assert_ok (pg_ofs page =? 0);
  p ← vtop page;
  mret (Z.lor (Z.lor p PTE_P) (if writable then PTE_W else 0)).

Definition pte_create_user (page : Z) (writable : bool) : outcome Z :=
  pte ← pte_create_kernel page writable;
  mret (Z.lor pte PTE_U).

Definition pte_get_page (pte : Z) : outcome Z := ptov (Z.land pte PTE_ADDR).

(** ** Lemmas on masks *)

Lemma land_low x k : 0 <= k -> Z.land x (2 ^ k - 1) = x mod 2 ^ k.
Proof.
  intros. replace (2 ^ k - 1) with (Z.ones k) by (rewrite Z.ones_equiv; lia).
  by apply Z.land_ones.
Qed.

(** Masking off the low [k] bits of a 32-bit word. *)
Lemma land_high x k : 0 <= k <= 32 -> 0 <= x < 2 ^ 32 ->
  Z.land x (2 ^ 32 - 2 ^ k) = x / 2 ^ k * 2 ^ k.
Proof.
  intros Hk Hx.
  assert (2 ^ 32 - 2 ^ k = Z.shiftl (Z.ones (32 - k)) k) as ->.
  { rewrite Z.shiftl_mul_pow2, Z.ones_equiv by lia.
    rewrite Z.mul_pred_l, <- Z.pow_add_r by lia. do 2 f_equal. lia. }
  rewrite <- Z.shiftr_div_pow2, <- Z.shiftl_mul_pow2 by lia.
  apply Z.bits_inj'. intros n Hn.
  rewrite Z.land_spec, !Z.shiftl_spec by lia.
  destruct (decide (n < k)) as [Hnk|Hnk].
  - rewrite !(Z.testbit_neg_r _ (n - k)) by lia. apply andb_false_r.
  - rewrite Z.shiftr_spec by lia. replace (n - k + k) with n by lia.
    destruct (decide (n < 32)).
    + rewrite Z.ones_spec_low by lia. apply andb_true_r.
    + rewrite Z.ones_spec_high by lia.
      rewrite <- (Z.mod_small x (2 ^ 32)) by lia.
      rewrite Z.mod_pow2_bits_high by lia. done.
Qed.

(** Disjoint bits: or is addition. *)
Lemma lor_low q k b : 0 <= k -> 0 <= b < 2 ^ k -> Z.lor (q * 2 ^ k) b = q * 2 ^ k + b.
Proof.
  intros Hk Hb.
  assert (Z.land (q * 2 ^ k) b = 0) as Hd.
  { apply Z.bits_inj'. intros n Hn. rewrite Z.land_spec, Z.bits_0.
    destruct (decide (n < k)).
    - rewrite <- Z.shiftl_mul_pow2, Z.shiftl_spec_low by lia. done.
    - rewrite <- (Z.mod_small b (2 ^ k)), Z.mod_pow2_bits_high by lia.
      apply andb_false_r. }
  pose proof (Z.add_nocarry_lxor _ _ Hd) as ->.
  symmetry. by apply Z.lxor_lor.
Qed.

Lemma not32_PGMASK : not32 PGMASK = 2 ^ 32 - 2 ^ 12.
Proof. reflexivity. Qed.

Lemma pg_ofs_mod va : pg_ofs va = va mod PGSIZE.
Proof. unfold pg_ofs. change PGMASK with (2 ^ 12 - 1). by rewrite land_low by lia. Qed.

Lemma pg_no_div va : pg_no va = va / PGSIZE.
Proof. unfold pg_no. by rewrite Z.shiftr_div_pow2. Qed.

Lemma pg_round_down_eq va : is_u32 va -> pg_round_down va = va / PGSIZE * PGSIZE.
Proof.
  intros. unfold pg_round_down. rewrite not32_PGMASK. by apply land_high.
Qed.

Lemma pg_round_up_eq va : 0 <= va <= 2 ^ 32 - PGSIZE ->
  pg_round_up va = (va + PGSIZE - 1) / PGSIZE * PGSIZE.
Proof.
  change PGSIZE with 4096. intros. unfold pg_round_up. rewrite not32_PGMASK.
  change PGSIZE with 4096.
  rewrite u32_small by lia. by apply (land_high _ 12); lia.
Qed.

Lemma pd_no_div va : pd_no va = va / 2 ^ 22.
Proof. unfold pd_no. by rewrite Z.shiftr_div_pow2. Qed.

Lemma pt_no_div va : is_u32 va -> pt_no va = (va / 2 ^ 12) mod 2 ^ 10.
Proof.
  intros Hva. unfold pt_no. change PTMASK with (2 ^ 22 - 1 - (2 ^ 12 - 1)).
  replace (2 ^ 22 - 1 - (2 ^ 12 - 1)) with (Z.shiftl (Z.ones 10) 12) by reflexivity.
  rewrite Z.shiftr_land, Z.shiftr_shiftl_l by (unfold PTSHIFT, PGBITS; lia).
  change (12 - PTSHIFT) with 0. rewrite Z.shiftl_0_r, Z.land_ones by lia.
  by rewrite Z.shiftr_div_pow2.
Qed.

Lemma ptov_vtop va : is_u32 va -> is_kernel_vaddr va = true ->
  vtop va = Done (va - PHYS_BASE) /\ ptov (va - PHYS_BASE) = Done va.
Proof.
  unfold vtop, ptov, is_kernel_vaddr, is_u32, PHYS_BASE. intros Hva Hk.
  rewrite Hk. apply Z.leb_le in Hk.
  assert (((va - 0xc0000000) <? 0xc0000000) = true) as -> by (apply Z.ltb_lt; lia).
  osimpl. rewrite !u32_small by lia. split; [done|].
  f_equal. lia.
Qed.

(** The three fields of an address: page directory index, page table index
    and offset determine it. *)
Lemma va_fields va : is_u32 va ->
  va = pd_no va * 2 ^ 22 + pt_no va * 2 ^ 12 + pg_ofs va.
Proof.
  intros Hva. rewrite pd_no_div, pt_no_div, pg_ofs_mod by done.
  change PGSIZE with (2 ^ 12).
  pose proof (Z.div_mod va (2 ^ 12)). pose proof (Z.div_mod (va / 2 ^ 12) (2 ^ 10)).
  assert (va / 2 ^ 22 = (va / 2 ^ 12) / 2 ^ 10) as -> by (by rewrite Z.div_div).
  lia.
Qed.

Lemma page_fields_inj va va' : is_u32 va -> is_u32 va' ->
  pg_ofs va = 0 -> pg_ofs va' = 0 ->
  pd_no va = pd_no va' -> pt_no va = pt_no va' -> va = va'.
Proof.
  intros H H' Ho Ho' Hd Ht. rewrite (va_fields va), (va_fields va') by done. congruence.
Qed.

(** A kernel page address splits into a frame number: [vtop] of it is a
    multiple of the page size, so its low 12 bits are free for flags. *)
Lemma vtop_page page : is_u32 page -> is_kernel_vaddr page = true -> pg_ofs page = 0 ->
  exists q, vtop page = Done (q * 2 ^ 12) /\ 0 <= q < 2 ^ 18 /\ page = q * 2 ^ 12 + PHYS_BASE.
Proof.
  intros Hp Hk Ho. destruct (ptov_vtop page) as [-> _]; [done..|].
  rewrite pg_ofs_mod in Ho. change PGSIZE with (2 ^ 12) in Ho.
  unfold is_kernel_vaddr, PHYS_BASE, is_u32 in *. apply Z.leb_le in Hk.
  exists (page / 2 ^ 12 - 0xc0000). pose proof (Z.div_mod page (2 ^ 12)).
  split; [f_equal; lia|split]; lia.
Qed.

(** The flag bits of a PTE built on frame [q] are exactly [fl]. *)
Lemma pte_bits q fl : 0 <= q < 2 ^ 18 -> 0 <= fl < 2 ^ 12 ->
  Z.land (q * 2 ^ 12 + fl) PTE_ADDR = q * 2 ^ 12 /\
  Z.land (q * 2 ^ 12 + fl) PTE_FLAGS = fl.
Proof.
  intros Hq Hfl. split.
  - change PTE_ADDR with (2 ^ 32 - 2 ^ 12). rewrite land_high by lia.
    f_equal. rewrite Z.div_add_l by lia. rewrite (Z.div_small fl) by lia. lia.
  - change PTE_FLAGS with (2 ^ 12 - 1). rewrite land_low by lia.
    rewrite Z.add_comm, Z.mod_add by lia. by apply Z.mod_small.
Qed.

(** The flag word [pte_create_user] stores. *)
Definition user_flags (writable : bool) : Z :=
  if writable then 7 else 5.

Lemma user_flags_bound w : 0 <= user_flags w < 2 ^ 12.
Proof. destruct w; unfold user_flags; lia. Qed.

Lemma pte_create_user_eq page w : is_u32 page -> is_kernel_vaddr page = true ->
  pg_ofs page = 0 ->
  exists q, 0 <= q < 2 ^ 18 /\ page = q * 2 ^ 12 + PHYS_BASE /\
    pte_create_user page w = Done (q * 2 ^ 12 + user_flags w).
Proof.
  intros Hp Hk Ho. destruct (vtop_page page) as (q & Hv & Hq & Heq); [done..|].
  exists q. split; [done|]. split; [done|].
  unfold pte_create_user, pte_create_kernel. rewrite Ho, Hv. osimpl. rewrite <- !Z.lor_assoc. f_equal.
  destruct w.
  - change (Z.lor PTE_P (Z.lor PTE_W PTE_U)) with 7. by apply (lor_low q 12).
  - change (Z.lor PTE_P (Z.lor 0 PTE_U)) with 5. by apply (lor_low q 12).
Qed.

Lemma ptov_frame q : 0 <= q < 2 ^ 18 -> ptov (q * 2 ^ 12) = Done (q * 2 ^ 12 + PHYS_BASE).
Proof.
  intros Hq. unfold ptov, PHYS_BASE.
  assert (((q * 2 ^ 12) <? 0xc0000000) = true) as -> by (apply Z.ltb_lt; lia).
  osimpl. by rewrite u32_small by lia.
Qed.

(** An entry made for a user page gives the page back and is present. *)
Lemma pte_user_roundtrip_run page w : is_u32 page -> is_kernel_vaddr page = true -> pg_ofs page = 0 ->
  exists pte, pte_create_user page w = Done pte /\ is_u32 pte /\ pte_get_page pte = Done page /\
    (Z.land pte PTE_P =? 0) = false.
Proof.
  intros Hp Hk Ho. destruct (pte_create_user_eq page w) as (q & Hq & -> & He); [done..|].
  exists (q * 2 ^ 12 + user_flags w). pose proof (user_flags_bound w).
  destruct (pte_bits q (user_flags w)) as [Ha _]; [done|lia|].
  split; [done|]. split; [unfold is_u32; lia|]. split; [unfold pte_get_page; rewrite Ha; by apply ptov_frame|].
  apply Z.eqb_neq. change PTE_P with (2 ^ 1 - 1). rewrite land_low by lia. unfold user_flags. destruct w; dlia.
Qed.

(** For a page-aligned kernel address [pte_create_user] makes a 32-bit entry
    from which [pte_get_page] recovers the page, whose flag bits are present, user
    and (when asked) writable, and no others. *)
Theorem pte_user_roundtrip page w :
  is_u32 page -> is_kernel_vaddr page = true -> pg_ofs page = 0 ->
  exists pte, pte_create_user page w = Done pte /\
    is_u32 pte /\
    pte_get_page pte = Done page /\
    Z.land pte PTE_FLAGS = user_flags w.
Proof.
  intros Hp Hk Ho. destruct (pte_create_user_eq page w) as (q & Hq & -> & He); [done..|].
  exists (q * 2 ^ 12 + user_flags w).
  pose proof (user_flags_bound w).
  destruct (pte_bits q (user_flags w)) as [Ha Hf]; [done|lia|].
  split; [done|]. split; [unfold is_u32; lia|].
  split; [|done]. unfold pte_get_page. rewrite Ha. by apply ptov_frame.
Qed.

Lemma pte_user_roundtrip_witness : exists pte, pte_create_user 0xc0123000 true = Done pte /\
  is_u32 pte /\ pte_get_page pte = Done 0xc0123000 /\ Z.land pte PTE_FLAGS = user_flags true.
Proof. apply (pte_user_roundtrip 0xc0123000 true); [unfold is_u32; lia|reflexivity..]. Defined.
