(* ===== verification/Arith.v ===== *)
(** * lib/arithmetic.c: 64-bit division on a 32-bit machine

    The four libgcc entry points Pintos supplies itself.  [divl] is the x86
    DIVL instruction, which traps ([Fault]) when the divisor is zero or the
    quotient needs more than 32 bits; every use of it here is proved not to
    trap for a nonzero divisor. *)

From S2P Require Import Prelude.

Definition divl (n d : Z) : outcome Z :=
  let n1 := u32 (Z.shiftr n 32) in
  let n0 := u32 n in
  let q := (n1 * 2 ^ 32 + n0) / d in
  if (d =? 0) || (2 ^ 32 <=? q) then Fault else Done q.

(** One halving step of [nlz]: test against [bound], shift by [k]. *)
Definition nlz_step (bound k : Z) (st : Z * Z) : Z * Z :=
  let '(n, x) := st in
  if x <=? bound then (n + k, u32 (Z.shiftl x k)) else (n, x).

Definition nlz (x : Z) : Z :=
  let st := nlz_step 0x0000FFFF 16 (0, x) in
  let st := nlz_step 0x00FFFFFF 8 st in
  let st := nlz_step 0x0FFFFFFF 4 st in
  let '(n, x) := nlz_step 0x3FFFFFFF 2 st in
  if x <=? 0x7FFFFFFF then n + 1 else n.

Definition udiv64 (n d : Z) : outcome Z :=
  if Z.shiftr d 32 =? 0 then
    let b := Z.shiftl 1 32 in
    let n1 := u32 (Z.shiftr n 32) in
    let n0 := u32 n in
    let d0 := u32 d in
    if d0 =? 0 then Fault
    else q ← divl (u64 (b * (n1 mod d0) + n0)) d0;
         mret (u64 (q + b * (n1 / d0)))
  else if n <? d then mret 0
  else
    let d1 := u32 (Z.shiftr d 32) in
    let s := nlz d1 in
    q0 ← divl (Z.shiftr n 1) (u32 (Z.shiftr (u64 (Z.shiftl d s)) 32));
    let q := Z.shiftr q0 (31 - s) in
    mret (if u64 (n - u64 (u64 (q - 1) * d)) <? d then u64 (q - 1) else q).

Definition umod64 (n d : Z) : outcome Z :=
  q ← udiv64 n d; mret (u32 (u64 (n - u64 (d * q)))).

Definition sdiv64 (n d : Z) : outcome Z :=
  let n_abs := if 0 <=? n then n else u64 (- u64 n) in
  let d_abs := if 0 <=? d then d else u64 (- u64 d) in
  q_abs ← udiv64 n_abs d_abs;
  mret (if eqb (n <? 0) (d <? 0) then s64 q_abs else s64 (- s64 q_abs)).

Definition smod64 (n d : Z) : outcome Z :=
  q ← sdiv64 n d; mret (s32 (s64 (n - s64 (d * q)))).

Definition divdi3 (n d : Z) : outcome Z := sdiv64 n d.
Definition moddi3 (n d : Z) : outcome Z := smod64 n d.
Definition udivdi3 (n d : Z) : outcome Z := udiv64 n d.
Definition umoddi3 (n d : Z) : outcome Z := umod64 n d.

(** ** Count of leading zeros *)

(** [x] still has [k] more leading zeros to find than [st] has counted. *)
Definition nlz_inv (x0 k : Z) (st : Z * Z) : Prop :=
  0 <= st.1 /\ st.2 = x0 * 2 ^ st.1 /\ 2 ^ (32 - k) <= st.2 < 2 ^ 32.

Lemma nlz_step_inv x0 k bound st :
  0 < k <= 16 -> bound = 2 ^ (32 - k) - 1 ->
  nlz_inv x0 (2 * k) st -> nlz_inv x0 k (nlz_step bound k st).
Proof.
  destruct st as [n x]. unfold nlz_inv, nlz_step; simpl.
  intros Hk -> (Hn & Hx & Hlo & Hhi). zcase; simpl; [|lia].
  assert (2 ^ 32 = 2 ^ (32 - k) * 2 ^ k) as E
    by (rewrite <- Z.pow_add_r by lia; f_equal; lia).
  assert (2 ^ (32 - k) = 2 ^ (32 - 2 * k) * 2 ^ k) as E'
    by (rewrite <- Z.pow_add_r by lia; f_equal; lia).
  pose proof (Z.pow_pos_nonneg 2 k). pose proof (Z.pow_pos_nonneg 2 (32 - 2 * k)).
  rewrite Z.shiftl_mul_pow2, u32_small by nia.
  rewrite Z.pow_add_r by lia. nia.
Qed.

Lemma nlz_spec x : 0 < x < 2 ^ 32 ->
  0 <= nlz x <= 31 /\ 2 ^ 31 <= x * 2 ^ nlz x < 2 ^ 32.
Proof.
  intros Hx. unfold nlz.
  assert (nlz_inv x 32 (0, x)) as H0 by (unfold nlz_inv; simpl; lia).
  apply (nlz_step_inv x 16 0x0000FFFF) in H0; [|lia|reflexivity].
  apply (nlz_step_inv x 8 0x00FFFFFF) in H0; [|lia|reflexivity].
  apply (nlz_step_inv x 4 0x0FFFFFFF) in H0; [|lia|reflexivity].
  apply (nlz_step_inv x 2 0x3FFFFFFF) in H0; [|lia|reflexivity].
  destruct (nlz_step 0x3FFFFFFF 2 _) as [n y].
  destruct H0 as (Hn & Hy & Hb). simpl in *.
  set (m := if y <=? 0x7FFFFFFF then n + 1 else n).
  assert (0 <= m /\ 2 ^ 31 <= x * 2 ^ m < 2 ^ 32) as [Hm Hxm].
  { unfold m. zcase; [|lia]. rewrite Z.pow_add_r by lia. lia. }
  split; [|done]. split; [done|].
  apply Z.lt_succ_r, (Z.pow_lt_mono_r_iff 2); [lia|lia|].
  change (2 ^ Z.succ 31) with (2 ^ 32). pose proof (Z.pow_pos_nonneg 2 m). nia.
Qed.

(** ** The DIVL instruction *)

Lemma divl_ok n d : is_u64 n -> 0 < d -> n / d < 2 ^ 32 -> divl n d = Done (n / d).
Proof.
  unfold is_u64, divl. intros Hn Hd Hq.
  rewrite Z.shiftr_div_pow2 by lia.
  assert (u32 (n / 2 ^ 32) * 2 ^ 32 + u32 n = n) as ->.
  { rewrite u32_small by dlia. unfold u32. pose proof (Z.div_mod n (2 ^ 32)). lia. }
  destruct (Z.eqb_spec d 0); [lia|]. destruct (Z.leb_spec (2 ^ 32) (n / d)); [lia|done].
Qed.

(** Dividing by the top half of a 64-bit divisor: the estimate [n / D], for
    [D] the divisor with its low bits cleared, exceeds the quotient by at most
    one (Hacker's Delight, 9-5). *)
Lemma quotient_estimate n d D :
  0 <= n < 2 ^ 64 -> 0 < D <= d -> 2 ^ 64 * (d - D) <= D * D ->
  n / d <= n / D <= n / d + 1.
Proof.
  intros Hn HD Herr.
  assert (n / d <= n / D) by (apply Z.div_le_compat_l; lia).
  split; [done|]. apply Z.lt_succ_r. apply Z.div_lt_upper_bound; [lia|].
  pose proof (Z.mul_succ_div_gt n d ltac:(lia)) as Hlt.
  set (Q := n / d) in *. assert (0 <= Q) by (apply Z.div_pos; lia).
  assert (n * (d - D) <= d * D) by nia. nia.
Qed.

Lemma u64_sub n m : is_u64 n -> 0 <= m <= n -> u64 (n - m) = n - m.
Proof. intros [??] ?. apply u64_small. lia. Qed.

(** The final correction: from an estimate that is the quotient or one more. *)
Lemma quotient_correct n d q : is_u64 n -> is_u64 d -> 0 < d <= n ->
  n / d <= q <= n / d + 1 ->
  (if u64 (n - u64 (u64 (q - 1) * d)) <? d then u64 (q - 1) else q) = n / d.
Proof.
  intros Hn Hd Hdn Hq. unfold is_u64 in *.
  assert (1 <= n / d) by (apply Z.div_le_lower_bound; lia).
  pose proof (Z.mul_div_le n d ltac:(lia)).
  pose proof (Z.mul_succ_div_gt n d ltac:(lia)).
  assert (n / d <= n) by (apply Z.div_le_upper_bound; nia).
  rewrite (u64_small (q - 1)) by lia.
  assert (0 <= (q - 1) * d <= n) by nia.
  rewrite (u64_small ((q - 1) * d)) by lia. rewrite u64_sub by (unfold is_u64; lia).
  zcase; nia.
Qed.

Lemma udiv64_small n d : is_u64 n -> 0 < d < 2 ^ 32 -> udiv64 n d = Done (n / d).
Proof.
  unfold is_u64, udiv64. intros Hn Hd.
  rewrite !Z.shiftr_div_pow2 by lia. rewrite (Z.div_small d) by lia. simpl Z.eqb.
  cbv iota. rewrite (u32_small d), (u32_small (n / 2 ^ 32)) by dlia.
  change (Z.shiftl 1 32) with (2 ^ 32).
  destruct (Z.eqb_spec d 0) as [|_]; [lia|].
  pose proof (Z.div_mod n (2 ^ 32) ltac:(lia)) as En.
  pose proof (Z.mod_pos_bound n (2 ^ 32) ltac:(lia)).
  pose proof (Z.div_mod (n / 2 ^ 32) d ltac:(lia)) as Ed.
  pose proof (Z.mod_pos_bound (n / 2 ^ 32) d ltac:(lia)).
  unfold u32. set (n0 := n mod 2 ^ 32) in *. set (n1 := n / 2 ^ 32) in *.
  set (r := n1 mod d) in *. set (q1 := n1 / d) in *.
  assert (n = 2 ^ 32 * q1 * d + (2 ^ 32 * r + n0)) as E by lia.
  assert (n / d = 2 ^ 32 * q1 + (2 ^ 32 * r + n0) / d) as ->
    by (rewrite E at 1; by rewrite Z.div_add_l by lia).
  assert ((2 ^ 32 * r + n0) / d < 2 ^ 32) by (apply Z.div_lt_upper_bound; nia).
  assert (0 <= (2 ^ 32 * r + n0) / d) by (apply Z.div_pos; lia).
  assert (0 <= q1 < 2 ^ 32) by (unfold q1; split; [apply Z.div_pos|apply Z.div_lt_upper_bound]; nia).
  rewrite u64_small by nia.
  rewrite divl_ok by (unfold is_u64; nia). osimpl.
  rewrite u64_small by nia. f_equal. lia.
Qed.

(** Normalising the divisor: shifting it left by its leading zeros keeps it in
    64 bits, and the top half of the result is [d / 2 ^ (32 - s)]. *)
Lemma normalised_divisor d s : 2 ^ 32 <= d < 2 ^ 64 -> 0 <= s <= 31 ->
  2 ^ 31 <= d / 2 ^ 32 * 2 ^ s < 2 ^ 32 ->
  0 <= d * 2 ^ s < 2 ^ 64 /\ d * 2 ^ s / 2 ^ 32 = d / 2 ^ (32 - s) /\
  2 ^ 31 <= d / 2 ^ (32 - s) < 2 ^ 32.
Proof.
  intros Hd Hs Hns.
  assert (2 ^ s * 2 ^ (32 - s) = 2 ^ 32) as E32
    by (rewrite <- Z.pow_add_r by lia; f_equal; lia).
  assert (0 < 2 ^ s) by (apply Z.pow_pos_nonneg; lia).
  assert (0 < 2 ^ (32 - s)) by (apply Z.pow_pos_nonneg; lia).
  assert (d * 2 ^ s / 2 ^ 32 = d / 2 ^ (32 - s)) as E.
  { rewrite <- E32, (Z.mul_comm (2 ^ s) (2 ^ (32 - s))). apply Z.div_mul_cancel_r; lia. }
  pose proof (Z.div_mod d (2 ^ 32) ltac:(lia)) as Ed.
  pose proof (Z.mod_pos_bound d (2 ^ 32) ltac:(lia)) as Hm.
  set (d1 := d / 2 ^ 32) in *. set (m := d mod 2 ^ 32) in *. clearbody d1 m.
  set (P := 2 ^ s) in *. set (R := 2 ^ (32 - s)) in *. clearbody P R.
  assert (d1 + 1 <= R) by nia. assert ((d1 + 1) * P <= 2 ^ 32) by nia.
  assert (0 <= d * P < 2 ^ 64) as Hb by nia.
  split; [done|]. split; [done|]. rewrite <- E.
  split; [apply Z.div_le_lower_bound|apply Z.div_lt_upper_bound]; nia.
Qed.

(** Clearing the low [32 - s] bits of the divisor loses little enough for
    [quotient_estimate]. *)
Lemma divisor_error d s : 0 <= s <= 31 -> 2 ^ 31 <= d / 2 ^ (32 - s) < 2 ^ 32 ->
  let D := d / 2 ^ (32 - s) * 2 ^ (32 - s) in
  0 < D <= d /\ 2 ^ 64 * (d - D) <= D * D.
Proof.
  intros Hs Hv D.
  assert (0 < 2 ^ (32 - s)) by (apply Z.pow_pos_nonneg; lia).
  pose proof (Z.div_mod d (2 ^ (32 - s)) ltac:(lia)) as Ed.
  pose proof (Z.mod_pos_bound d (2 ^ (32 - s)) ltac:(lia)) as Hm.
  unfold D. set (v := d / 2 ^ (32 - s)) in *. set (m := d mod 2 ^ (32 - s)) in *.
  clearbody v m. subst d.
  assert (2 ^ (32 - s) = 2 \/ 4 <= 2 ^ (32 - s)) as Hcase.
  { destruct (decide (s = 31)) as [->|]; [by left|right].
    change 4 with (2 ^ 2). apply Z.pow_le_mono_r; lia. }
  set (R := 2 ^ (32 - s)) in *. clearbody R.
  assert (2 ^ 31 * R <= v * R) as HD by nia. remember (v * R) as DD eqn:EDD. rewrite (Z.mul_comm v R) in EDD. rewrite <- EDD. clear EDD.
  split; [lia|]. replace (DD + m - DD) with m by lia.
  assert (2 ^ 62 * (R * R) <= DD * DD) by nia.
  destruct Hcase as [->|]; nia.
Qed.

Lemma udiv64_large n d : is_u64 n -> 2 ^ 32 <= d < 2 ^ 64 -> d <= n ->
  udiv64 n d = Done (n / d).
Proof.
  intros Hn Hd Hdn. pose proof Hn as Hn'. unfold is_u64 in Hn.
  unfold udiv64. rewrite (Z.shiftr_div_pow2 d), (Z.shiftr_div_pow2 n) by lia.
  assert (1 <= d / 2 ^ 32 < 2 ^ 32) as Hd1 by dlia.
  destruct (Z.eqb_spec (d / 2 ^ 32) 0); [lia|].
  destruct (Z.ltb_spec n d); [lia|].
  rewrite (u32_small (d / 2 ^ 32)) by lia.
  destruct (nlz_spec (d / 2 ^ 32)) as [Hs Hns]; [lia|].
  set (s := nlz (d / 2 ^ 32)) in *. clearbody s.
  destruct (normalised_divisor d s) as (Hsh & E & Hv); [done..|].
  destruct (divisor_error d s) as [HD Herr]; [done..|].
  rewrite (Z.shiftl_mul_pow2 d), u64_small by lia.
  rewrite (Z.shiftr_div_pow2 (d * 2 ^ s)), E, u32_small by lia.
  rewrite (Z.shiftr_div_pow2 n) by lia.
  assert (0 <= n / 2 ^ 1 < 2 ^ 63) by dlia.
  rewrite divl_ok; [|unfold is_u64; lia|lia|apply Z.div_lt_upper_bound; lia].
  osimpl. cbv zeta. f_equal.
  assert (0 < 2 ^ (31 - s)) by (apply Z.pow_pos_nonneg; lia).
  rewrite Z.shiftr_div_pow2, !Z.div_div by lia.
  replace (2 ^ 1 * (d / 2 ^ (32 - s) * 2 ^ (31 - s))) with (d / 2 ^ (32 - s) * 2 ^ (32 - s)).
  2:{ replace (2 ^ (32 - s)) with (2 * 2 ^ (31 - s)) at 2; [ring|].
      rewrite <- Z.pow_succ_r by lia. f_equal. lia. }
  apply quotient_correct; [done|unfold is_u64; lia|lia|].
  apply quotient_estimate; [exact Hn|exact HD|exact Herr].
Qed.

Lemma udiv64_ok n d : is_u64 n -> is_u64 d -> d <> 0 -> udiv64 n d = Done (n / d).
Proof.
  intros Hn Hd Hd0. unfold is_u64 in Hd.
  destruct (Z.lt_ge_cases d (2 ^ 32)); [apply udiv64_small; [done|lia]|].
  destruct (Z.lt_ge_cases n d); [|apply udiv64_large; [done|lia|lia]].
  unfold is_u64 in Hn. unfold udiv64. rewrite Z.shiftr_div_pow2 by lia.
  destruct (Z.eqb_spec (d / 2 ^ 32) 0); [dlia|]. destruct (Z.ltb_spec n d); [|lia].
  rewrite (Z.div_small n d) by lia. done.
Qed.

Lemma sdiv64_ok n d : is_s64 n -> is_s64 d -> d <> 0 -> ~ (n = - 2 ^ 63 /\ d = -1) ->
  sdiv64 n d = Done (Z.quot n d).
Proof.
  unfold is_s64, sdiv64. intros Hn Hd Hd0 Hov.
  assert (forall z, - 2 ^ 63 <= z < 2 ^ 63 ->
    (if 0 <=? z then z else u64 (- u64 z)) = Z.abs z) as Habs.
  { intros z Hz. zcase; [lia|].
    unfold u64. rewrite <- (Z.mod_add z 1) by lia. rewrite (Z.mod_small (z + _)) by lia.
    rewrite <- (Z.mod_add _ 1), Z.mod_small by lia. lia. }
  rewrite !Habs by lia. rewrite udiv64_ok by (unfold is_u64; lia). osimpl. f_equal.
  pose proof (Z.quot_div n d Hd0) as Hq.
  assert (0 <= Z.abs n / Z.abs d <= Z.abs n) as Hb.
  { split; [apply Z.div_pos; lia|apply Z.div_le_upper_bound; nia]. }
  assert (Z.abs n / Z.abs d = 2 ^ 63 -> n = - 2 ^ 63 /\ Z.abs d = 1) as Hmin.
  { intros E. assert (Z.abs n = 2 ^ 63) as En by lia. rewrite En in E.
    pose proof (Z.mul_div_le (2 ^ 63) (Z.abs d) ltac:(lia)). nia. }
  rewrite Hq. set (Q := Z.abs n / Z.abs d) in *.
  destruct (decide (Q = 2 ^ 63)) as [E|E].
  - destruct (Hmin E) as [-> Hd1]. assert (d = 1) as -> by lia. rewrite E. reflexivity.
  - rewrite (s64_small Q) by lia. rewrite s64_small by lia.
    destruct (Z.ltb_spec n 0), (Z.ltb_spec d 0); simpl.
    + rewrite !Z.sgn_neg by lia. lia.
    + rewrite (Z.sgn_neg n), (Z.sgn_pos d) by lia. lia.
    + destruct (decide (n = 0)) as [->|]; [unfold Q; reflexivity|].
      rewrite (Z.sgn_pos n), (Z.sgn_neg d) by lia. lia.
    + destruct (decide (n = 0)) as [->|]; [unfold Q; reflexivity|].
      rewrite !Z.sgn_pos by lia. lia.
Qed.

(** ** Properties *)

(** [__udivdi3] computes the 64-bit quotient from 32-bit divisions, for every
    pair of operands; dividing by zero traps. *)
Theorem udivdi3_correct n d : is_u64 n -> is_u64 d ->
  udivdi3 n d = if d =? 0 then Fault else Done (n / d).
Proof.
  intros Hn Hd. unfold udivdi3. destruct (Z.eqb_spec d 0) as [->|]; [done|].
  by apply udiv64_ok.
Qed.

Lemma udivdi3_correct_witness :
  is_u64 (2 ^ 64 - 1) /\ is_u64 (2 ^ 33 + 3) /\
  udivdi3 (2 ^ 64 - 1) (2 ^ 33 + 3) = Done 2147483647.
Proof.
  split; [unfold is_u64; lia|]. split; [unfold is_u64; lia|].
  rewrite (udivdi3_correct (2 ^ 64 - 1) (2 ^ 33 + 3)) by (unfold is_u64; lia).
  reflexivity.
Defined.

(** [__divdi3] is the quotient truncated towards zero, for every pair of
    operands whose quotient is representable. *)
Theorem divdi3_correct n d : is_s64 n -> is_s64 d -> d <> 0 -> ~ (n = - 2 ^ 63 /\ d = -1) ->
  divdi3 n d = Done (Z.quot n d).
Proof. apply sdiv64_ok. Qed.

Lemma divdi3_correct_witness : divdi3 (- 2 ^ 63) 3 = Done (Z.quot (- 2 ^ 63) 3).
Proof. apply (divdi3_correct (- 2 ^ 63) 3); unfold is_s64; lia. Defined.

(** [__umoddi3] returns only the low 32 bits of the remainder, because
    [umod64] is declared [uint32_t]: it is right exactly when the remainder fits. *)
Theorem umoddi3_truncates n d : is_u64 n -> is_u64 d -> d <> 0 ->
  umoddi3 n d = Done (u32 (n mod d)) /\
  (umoddi3 n d = Done (n mod d) <-> n mod d < 2 ^ 32).
Proof.
  intros Hn Hd Hd0. unfold umoddi3, umod64. rewrite udiv64_ok by done. osimpl.
  unfold is_u64 in *.
  pose proof (Z.div_mod n d Hd0). pose proof (Z.mod_pos_bound n d ltac:(lia)).
  pose proof (Z.mul_div_le n d ltac:(lia)). pose proof (Z.div_pos n d ltac:(lia) ltac:(lia)).
  rewrite (u64_small (d * _)) by nia. rewrite u64_small by nia.
  replace (n - d * (n / d)) with (n mod d) by lia.
  split; [done|]. split.
  - intros [= E]. rewrite <- E. apply u32_range.
  - intros. by rewrite u32_small by lia.
Qed.

Lemma umoddi3_truncates_witness :
  umoddi3 (2 ^ 40 - 1) (2 ^ 40) = Done (2 ^ 32 - 1) /\
  umoddi3 (2 ^ 40 - 1) (2 ^ 40) <> Done ((2 ^ 40 - 1) mod 2 ^ 40).
Proof.
  destruct (umoddi3_truncates (2 ^ 40 - 1) (2 ^ 40)) as [H1 H2];
    [unfold is_u64; lia..|lia|].
  split; [exact H1|]. intros E. apply H2 in E. vm_compute in E. discriminate E.
Defined.
