(* ===== verification/KList.v ===== *)
(** * lib/kernel/list.c: doubly linked lists

    The heap maps the address of a [struct list_elem] to its [prev] and [next]
    pointers.  A [struct list] at address [l] is its two sentinels: the head at
    [l] and the tail at [l + 8].  NULL is 0.  Reading or writing through an
    address the heap does not map is a [Fault]; a failing ASSERT is [Panic].
    A [list_less_func] with its [aux] is a boolean function on elements. *)

From S2P Require Import Prelude.
From Stdlib Require Import Sorting.Sorted.

Abbreviation heap := (gmap Z (Z * Z)).
(** ** Memory accesses *)

Definition prev_of (e : Z) : M heap Z := load (fun h => fst <$> h !! e).
Definition next_of (e : Z) : M heap Z := load (fun h => snd <$> h !! e).
Definition set_prev (e p : Z) : M heap unit := fun h =>
  match h !! e with Some (_, n) => Done (tt, <[e := (p, n)]> h) | None => Fault end.
Definition set_next (e n : Z) : M heap unit := fun h =>
  match h !! e with Some (p, _) => Done (tt, <[e := (p, n)]> h) | None => Fault end.

(** The sentinels of the list at [l]. *)
Definition head_of (l : Z) : Z := l.
Definition tail_of (l : Z) : Z := l + 8.

(** ** Operations *)

(** [elem != NULL && elem->prev (==|!=) NULL && elem->next (==|!=) NULL]. *)
Definition is_head (e : Z) : M heap bool :=
  if e =? NULL then mret false else
  p ← prev_of e; if negb (p =? NULL) then mret false else
  n ← next_of e; mret (negb (n =? NULL)).
Definition is_interior (e : Z) : M heap bool :=
  if e =? NULL then mret false else
  p ← prev_of e; if p =? NULL then mret false else
  n ← next_of e; mret (negb (n =? NULL)).
Definition is_tail (e : Z) : M heap bool :=
  if e =? NULL then mret false else
  p ← prev_of e; if p =? NULL then mret false else
  n ← next_of e; mret (n =? NULL).

(** [a || b] with C's short-circuit. *)
Definition orM (a b : M heap bool) : M heap bool :=
  x ← a; if x then mret true else b.

Definition list_init (l : Z) : M heap unit :=
  ASSERT (negb (l =? NULL)) ;;
  set_prev (head_of l) NULL ;;
  set_next (head_of l) (tail_of l) ;;
  set_prev (tail_of l) (head_of l) ;;
  set_next (tail_of l) NULL.

Definition list_begin (l : Z) : M heap Z :=
  ASSERT (negb (l =? NULL)) ;; next_of (head_of l).

Definition list_next (e : Z) : M heap Z :=
  b ← orM (is_head e) (is_interior e); ASSERT b ;; next_of e.

Definition list_end (l : Z) : M heap Z :=
  ASSERT (negb (l =? NULL)) ;; mret (tail_of l).

Definition list_rbegin (l : Z) : M heap Z :=
  ASSERT (negb (l =? NULL)) ;; prev_of (tail_of l).

Definition list_prev (e : Z) : M heap Z :=
  b ← orM (is_interior e) (is_tail e); ASSERT b ;; prev_of e.

Definition list_rend (l : Z) : M heap Z :=
  ASSERT (negb (l =? NULL)) ;; mret (head_of l).
Definition list_head (l : Z) : M heap Z :=
  ASSERT (negb (l =? NULL)) ;; mret (head_of l).
Definition list_tail (l : Z) : M heap Z :=
  ASSERT (negb (l =? NULL)) ;; mret (tail_of l).

Definition list_insert (before elem : Z) : M heap unit :=
  b ← orM (is_interior before) (is_tail before); ASSERT b ;;
  ASSERT (negb (elem =? NULL)) ;;
  p ← prev_of before; set_prev elem p ;;
  set_next elem before ;;
  p ← prev_of before; set_next p elem ;;
  set_prev before elem.

Definition list_splice (before first last : Z) : M heap unit :=
  b ← orM (is_interior before) (is_tail before); ASSERT b ;;
  if first =? last then mret tt else
  last ← list_prev last;
  b ← is_interior first; ASSERT b ;;
  b ← is_interior last; ASSERT b ;;
  (* Cleanly remove FIRST...LAST from its current list. *)
  fp ← prev_of first; ln ← next_of last; set_next fp ln ;;
  ln ← next_of last; fp ← prev_of first; set_prev ln fp ;;
  (* Splice FIRST...LAST into new list. *)
  bp ← prev_of before; set_prev first bp ;;
  set_next last before ;;
  bp ← prev_of before; set_next bp first ;;
  set_prev before last.

Definition list_push_front (l elem : Z) : M heap unit :=
  b ← list_begin l; list_insert b elem.
Definition list_push_back (l elem : Z) : M heap unit :=
  e ← list_end l; list_insert e elem.

Definition list_remove (elem : Z) : M heap Z :=
  b ← is_interior elem; ASSERT b ;;
  p ← prev_of elem; n ← next_of elem; set_next p n ;;
  n ← next_of elem; p ← prev_of elem; set_prev n p ;;
  next_of elem.

Definition list_empty (l : Z) : M heap bool :=
  b ← list_begin l; e ← list_end l; mret (b =? e).
Definition list_front (l : Z) : M heap Z :=
  b ← list_empty l; ASSERT (negb b) ;; next_of (head_of l).
Definition list_back (l : Z) : M heap Z :=
  b ← list_empty l; ASSERT (negb b) ;; prev_of (tail_of l).
Definition list_pop_front (l : Z) : M heap Z :=
  front ← list_front l; _ ← list_remove front; mret front.
Definition list_pop_back (l : Z) : M heap Z :=
  back ← list_back l; _ ← list_remove back; mret back.

(** [for (e = ...; e != list_end (list); e = list_next (e)) cnt++]. *)
Fixpoint list_size_loop (fuel : nat) (l e cnt : Z) : M heap Z :=
  match fuel with
  | O => nofuel
  | S fuel =>
      en ← list_end l;
      if e =? en then mret cnt
      else e ← list_next e; list_size_loop fuel l e (u32 (cnt + 1))
  end.
Definition list_size (fuel : nat) (l : Z) : M heap Z :=
  b ← list_begin l; list_size_loop fuel l b 0.

(** [swap (&e->prev, &e->next)]. *)
Definition swap_links (e : Z) : M heap unit :=
  p ← prev_of e; n ← next_of e; set_prev e n ;; set_next e p.

(** [for (e = ...; e != list_end (list); e = e->prev) swap (...)]. *)
Fixpoint list_reverse_loop (fuel : nat) (l e : Z) : M heap unit :=
  match fuel with
  | O => nofuel
  | S fuel =>
      en ← list_end l;
      if e =? en then mret tt
      else swap_links e ;; e ← prev_of e; list_reverse_loop fuel l e
  end.

(** The two [swap] calls after the loop of [list_reverse]:
    [swap (&list->head.next, &list->tail.prev)] and
    [swap (&list->head.next->prev, &list->tail.prev->next)]. *)
Definition swap_sentinels (l : Z) : M heap unit :=
  hn ← next_of (head_of l); tp ← prev_of (tail_of l);
  set_next (head_of l) tp ;; set_prev (tail_of l) hn ;;
  hn ← next_of (head_of l); tp ← prev_of (tail_of l);
  x ← prev_of hn; y ← next_of tp;
  set_prev hn y ;; set_next tp x.

Definition list_reverse (fuel : nat) (l : Z) : M heap unit :=
  b ← list_empty l;
  if b then mret tt else
  e ← list_begin l;
  list_reverse_loop fuel l e ;;
  swap_sentinels l.

Section Ordered.
Variable less : Z -> Z -> bool.

Fixpoint is_sorted_loop (fuel : nat) (a b : Z) : M heap bool :=
  match fuel with
  | O => nofuel
  | S fuel =>
      a ← list_next a;
      if a =? b then mret true else
      p ← list_prev a;
      if less a p then mret false else is_sorted_loop fuel a b
  end.
Definition is_sorted (fuel : nat) (a b : Z) : M heap bool :=
  if a =? b then mret true else is_sorted_loop fuel a b.

Fixpoint find_end_of_run_loop (fuel : nat) (a b : Z) : M heap Z :=
  match fuel with
  | O => nofuel
  | S fuel =>
      a ← list_next a;
      if a =? b then mret a else
      p ← list_prev a;
      if less a p then mret a else find_end_of_run_loop fuel a b
  end.
Definition find_end_of_run (fuel : nat) (a b : Z) : M heap Z :=
  ASSERT (negb (a =? NULL)) ;; ASSERT (negb (b =? NULL)) ;;
  ASSERT (negb (a =? b)) ;;
  find_end_of_run_loop fuel a b.

Fixpoint inplace_merge_loop (fuel : nat) (a0 a1b0 b1 : Z) : M heap unit :=
  match fuel with
  | O => nofuel
  | S fuel =>
      if (a0 =? a1b0) || (a1b0 =? b1) then mret tt
      else if negb (less a1b0 a0) then
        a0 ← list_next a0; inplace_merge_loop fuel a0 a1b0 b1
      else
        a1b0 ← list_next a1b0;
        p ← list_prev a1b0;
        list_splice a0 p a1b0 ;;
        inplace_merge_loop fuel a0 a1b0 b1
  end.
Definition inplace_merge (fuel : nat) (a0 a1b0 b1 : Z) : M heap unit :=
  ASSERT (negb (a0 =? NULL)) ;; ASSERT (negb (a1b0 =? NULL)) ;;
  ASSERT (negb (b1 =? NULL)) ;;
  s ← is_sorted fuel a0 a1b0; ASSERT s ;;
  s ← is_sorted fuel a1b0 b1; ASSERT s ;;
  inplace_merge_loop fuel a0 a1b0 b1.

(** One pass of [list_sort]: merge adjacent pairs of runs, and return
    [output_run_cnt]. *)
Fixpoint list_sort_pass (fuel : nat) (l a0 cnt : Z) : M heap Z :=
  match fuel with
  | O => nofuel
  | S fuel' =>
      en ← list_end l;
      if a0 =? en then mret cnt else
      let cnt := u32 (cnt + 1) in
      a1b0 ← find_end_of_run fuel a0 en;
      if a1b0 =? en then mret cnt else
      b1 ← find_end_of_run fuel a1b0 en;
      inplace_merge fuel a0 a1b0 b1 ;;
      list_sort_pass fuel' l b1 cnt
  end.

(** [do { ... } while (output_run_cnt > 1)]; [k] bounds the passes. *)
Fixpoint list_sort_loop (k fuel : nat) (l : Z) : M heap unit :=
  match k with
  | O => nofuel
  | S k =>
      b ← list_begin l;
      cnt ← list_sort_pass fuel l b 0;
      if 1 <? cnt then list_sort_loop k fuel l else mret tt
  end.
Definition list_sort (fuel : nat) (l : Z) : M heap unit :=
  ASSERT (negb (l =? NULL)) ;;
  list_sort_loop fuel fuel l ;;
  b ← list_begin l; e ← list_end l;
  s ← is_sorted fuel b e; ASSERT s.

(** [for (...) if (less (elem, e, aux)) break;]. *)
Fixpoint insert_position (fuel : nat) (l elem e : Z) : M heap Z :=
  match fuel with
  | O => nofuel
  | S fuel =>
      en ← list_end l;
      if e =? en then mret e
      else if less elem e then mret e
      else e ← list_next e; insert_position fuel l elem e
  end.
Definition list_insert_ordered (fuel : nat) (l elem : Z) : M heap unit :=
  ASSERT (negb (l =? NULL)) ;; ASSERT (negb (elem =? NULL)) ;;
  b ← list_begin l;
  e ← insert_position fuel l elem b;
  list_insert e elem.

(** [duplicates] is NULL or the list that receives the removed elements. *)
Fixpoint list_unique_loop (fuel : nat) (l duplicates elem : Z) : M heap unit :=
  match fuel with
  | O => nofuel
  | S fuel =>
      next ← list_next elem;
      en ← list_end l;
      if next =? en then mret tt
      else if negb (less elem next) && negb (less next elem) then
        _ ← list_remove next;
        (if duplicates =? NULL then mret tt else list_push_back duplicates next) ;;
        list_unique_loop fuel l duplicates elem
      else list_unique_loop fuel l duplicates next
  end.
Definition list_unique (fuel : nat) (l duplicates : Z) : M heap unit :=
  ASSERT (negb (l =? NULL)) ;;
  b ← list_empty l;
  if b then mret tt else
  elem ← list_begin l; list_unique_loop fuel l duplicates elem.

(** The scan shared by [list_max] and [list_min]: keep the best so far,
    replacing it by [e] when [better best e]. *)
Fixpoint best_loop (better : Z -> Z -> bool) (fuel : nat) (l best e : Z) : M heap Z :=
  match fuel with
  | O => nofuel
  | S fuel =>
      en ← list_end l;
      if e =? en then mret best
      else
        let best := if better best e then e else best in
        e ← list_next e; best_loop better fuel l best e
  end.
Definition best_of (better : Z -> Z -> bool) (fuel : nat) (l : Z) : M heap Z :=
  max ← list_begin l;
  en ← list_end l;
  if max =? en then mret max else
  e ← list_next max; best_loop better fuel l max e.
Definition list_max (fuel : nat) (l : Z) : M heap Z :=
  best_of (fun max e => less max e) fuel l.
Definition list_min (fuel : nat) (l : Z) : M heap Z :=
  best_of (fun min e => less e min) fuel l.
End Ordered.

(** ** The sequence a list represents

    [dseg h p xs n]: the nodes [xs] are linked in order, the first one's [prev]
    is [p] and the last one's [next] is [n]. *)
Fixpoint dseg (h : heap) (p : Z) (xs : list Z) (n : Z) : Prop :=
  match xs with
  | [] => True
  | x :: xs' => h !! x = Some (p, List.hd n xs') /\ dseg h x xs' n
  end.

(** All the nodes of the list at [l] that holds [xs]. *)
Definition nodes (l : Z) (xs : list Z) : list Z := head_of l :: xs ++ [tail_of l].

Record is_list (h : heap) (l : Z) (xs : list Z) : Prop := {
  il_seg : dseg h NULL (nodes l xs) NULL;
  il_nodup : NoDup (nodes l xs);
  il_nonnull : Forall (fun e => e <> NULL) (nodes l xs)
}.

(** Pointer updates as pure functions. *)
Definition prv (e p : Z) (h : heap) : heap := alter (fun pn => (p, pn.2)) e h.
Definition nxt (e n : Z) (h : heap) : heap := alter (fun pn => (pn.1, n)) e h.

Section Segments.
Implicit Types (h : heap) (xs ys : list Z) (e p n d : Z).

Lemma set_prev_run h e p : is_Some (h !! e) -> set_prev e p h = Done (tt, prv e p h).
Proof.
  intros [[p0 n0] He]. unfold set_prev, prv. rewrite He. do 2 f_equal.
  apply map_eq. intros i. destruct (decide (i = e)) as [->|].
  - by rewrite lookup_insert_eq, lookup_alter_eq, He.
  - by rewrite lookup_insert_ne, lookup_alter_ne.
Qed.

Lemma set_next_run h e n : is_Some (h !! e) -> set_next e n h = Done (tt, nxt e n h).
Proof.
  intros [[p0 n0] He]. unfold set_next, nxt. rewrite He. do 2 f_equal.
  apply map_eq. intros i. destruct (decide (i = e)) as [->|].
  - by rewrite lookup_insert_eq, lookup_alter_eq, He.
  - by rewrite lookup_insert_ne, lookup_alter_ne.
Qed.

Lemma prv_other h e p i : i <> e -> prv e p h !! i = h !! i.
Proof. intros. unfold prv. by rewrite lookup_alter_ne. Qed.
Lemma nxt_other h e n i : i <> e -> nxt e n h !! i = h !! i.
Proof. intros. unfold nxt. by rewrite lookup_alter_ne. Qed.
Lemma prv_is_Some h e p i : is_Some (prv e p h !! i) <-> is_Some (h !! i).
Proof. unfold prv. rewrite <- !elem_of_dom, dom_alter_L. done. Qed.
Lemma nxt_is_Some h e n i : is_Some (nxt e n h !! i) <-> is_Some (h !! i).
Proof. unfold nxt. rewrite <- !elem_of_dom, dom_alter_L. done. Qed.

Lemma prev_of_run h e p : fst <$> h !! e = Some p -> prev_of e h = Done (p, h).
Proof. intros H. unfold prev_of, load. by rewrite H. Qed.
Lemma next_of_run h e n : snd <$> h !! e = Some n -> next_of e h = Done (n, h).
Proof. intros H. unfold next_of, load. by rewrite H. Qed.

Lemma dseg_frame h h' p xs n :
  (forall e, e ∈ xs -> h' !! e = h !! e) -> dseg h p xs n -> dseg h' p xs n.
Proof.
  revert p. induction xs as [|x xs IH]; intros p Hf; simpl; [done|].
  intros [Hx Hs]. split; [rewrite Hf; [done|set_solver]|].
  apply IH; [set_solver|done].
Qed.

Lemma last_default xs d d' : xs <> [] -> List.last xs d = List.last xs d'.
Proof.
  induction xs as [|x xs IH]; [done|]. intros _. destruct xs; [done|].
  simpl in *. by apply IH.
Qed.

Lemma dseg_app h p xs ys n :
  dseg h p (xs ++ ys) n <-> dseg h p xs (List.hd n ys) /\ dseg h (List.last xs p) ys n.
Proof.
  revert p. induction xs as [|x xs IH]; intros p; [simpl; tauto|].
  cbn [app dseg]. rewrite IH. destruct xs as [|y xs]; [simpl; tauto|].
  rewrite (last_default (y :: xs) x p) by done.
  change (List.last (x :: y :: xs) p) with (List.last (y :: xs) p).
  cbn [List.hd app]. tauto.
Qed.

Lemma last_in xs d : xs <> [] -> List.last xs d ∈ xs.
Proof.
  induction xs as [|x xs IH]; [done|]. intros _. destruct xs; simpl in *; [set_solver|].
  apply elem_of_cons. right. by apply IH.
Qed.

Lemma hd_in xs d : xs <> [] -> List.hd d xs ∈ xs.
Proof. destruct xs; [done|]. set_solver. Qed.

Lemma dseg_first h p xs n d : xs <> [] -> dseg h p xs n ->
  fst <$> h !! List.hd d xs = Some p.
Proof. destruct xs; [done|]. simpl. intros _ [-> _]. done. Qed.

Lemma dseg_last h p xs n d : xs <> [] -> dseg h p xs n ->
  snd <$> h !! List.last xs d = Some n.
Proof.
  revert p d. induction xs as [|x xs IH]; [done|]. intros p d _ [Hx Hs].
  destruct xs as [|y xs]; simpl in *; [by rewrite Hx|]. by apply (IH x).
Qed.

Lemma dseg_mapped h p xs n e : dseg h p xs n -> e ∈ xs -> is_Some (h !! e).
Proof.
  revert p. induction xs as [|x xs IH]; intros p Hs He; [set_solver|].
  destruct Hs as [Hx Hs]. apply elem_of_cons in He as [->|He]; eauto.
Qed.

Lemma dseg_prv_out h p xs n e v : e ∉ xs -> dseg h p xs n -> dseg (prv e v h) p xs n.
Proof. intros He. apply dseg_frame. intros i Hi. apply prv_other. set_solver. Qed.
Lemma dseg_nxt_out h p xs n e v : e ∉ xs -> dseg h p xs n -> dseg (nxt e v h) p xs n.
Proof. intros He. apply dseg_frame. intros i Hi. apply nxt_other. set_solver. Qed.

Lemma dseg_prv_first h p p' xs n d : NoDup xs -> xs <> [] ->
  dseg h p xs n -> dseg (prv (List.hd d xs) p' h) p' xs n.
Proof.
  destruct xs as [|x xs]; [done|]. simpl. intros [Hx _]%NoDup_cons _ [Hh Hs].
  split; [unfold prv; by rewrite lookup_alter_eq, Hh|by apply dseg_prv_out].
Qed.

Lemma dseg_nxt_last h p xs n n' d : NoDup xs -> xs <> [] ->
  dseg h p xs n -> dseg (nxt (List.last xs d) n' h) p xs n'.
Proof.
  revert p. induction xs as [|x xs IH]; [done|].
  intros p [Hx Hnd]%NoDup_cons _ [Hh Hs]. destruct xs as [|y xs].
  - simpl in *. split; [|done]. unfold nxt. by rewrite lookup_alter_eq, Hh.
  - change (List.last (x :: y :: xs) d) with (List.last (y :: xs) d).
    split; [|by apply IH]. rewrite nxt_other; [done|].
    intros ->. apply Hx. by apply last_in.
Qed.
End Segments.

(** Reads and writes of the heap under run, and node tests. *)
Ltac hread :=
  first [ erewrite bind_done; [|apply next_of_run; eassumption]
        | erewrite bind_done; [|apply prev_of_run; eassumption] ].

Section NodeTests.
Implicit Types (h : heap) (e p n : Z).

Lemma is_interior_run h e p n : e <> NULL -> h !! e = Some (p, n) ->
  is_interior e h = Done (negb (p =? NULL) && negb (n =? NULL), h).
Proof.
  intros He Hh. unfold is_interior. destruct (Z.eqb_spec e NULL); [done|].
  erewrite bind_done; [|apply prev_of_run; by rewrite Hh]. simpl.
  destruct (p =? NULL); [done|].
  erewrite bind_done; [|apply next_of_run; by rewrite Hh]. done.
Qed.

Lemma is_tail_run h e p n : e <> NULL -> h !! e = Some (p, n) ->
  is_tail e h = Done (negb (p =? NULL) && (n =? NULL), h).
Proof.
  intros He Hh. unfold is_tail. destruct (Z.eqb_spec e NULL); [done|].
  erewrite bind_done; [|apply prev_of_run; by rewrite Hh]. simpl.
  destruct (p =? NULL); [done|].
  erewrite bind_done; [|apply next_of_run; by rewrite Hh]. done.
Qed.

Lemma is_head_run h e p n : e <> NULL -> h !! e = Some (p, n) ->
  is_head e h = Done ((p =? NULL) && negb (n =? NULL), h).
Proof.
  intros He Hh. unfold is_head. destruct (Z.eqb_spec e NULL); [done|].
  erewrite bind_done; [|apply prev_of_run; by rewrite Hh]. simpl.
  destruct (p =? NULL); simpl; [|done].
  erewrite bind_done; [|apply next_of_run; by rewrite Hh]. done.
Qed.

(** [is_interior (e) || is_tail (e)] is [prev != NULL]. *)
Lemma has_prev_run h e p : e <> NULL -> p <> NULL -> fst <$> h !! e = Some p ->
  orM (is_interior e) (is_tail e) h = Done (true, h).
Proof.
  intros He Hp Hh. destruct (h !! e) as [[p' n]|] eqn:E; [|done].
  injection Hh as ->. unfold orM.
  erewrite bind_done; [|by apply is_interior_run].
  apply Z.eqb_neq in Hp. rewrite Hp. destruct (n =? NULL) eqn:En; simpl; [|done].
  erewrite is_tail_run by done. by rewrite Hp, En.
Qed.

(** [is_head (e) || is_interior (e)] is [next != NULL]. *)
Lemma has_next_run h e n : e <> NULL -> n <> NULL -> snd <$> h !! e = Some n ->
  orM (is_head e) (is_interior e) h = Done (true, h).
Proof.
  intros He Hn Hh. destruct (h !! e) as [[p n']|] eqn:E; [|done].
  injection Hh as ->. unfold orM.
  erewrite bind_done; [|by apply is_head_run].
  apply Z.eqb_neq in Hn. rewrite Hn. destruct (p =? NULL) eqn:Ep; simpl; [done|].
  erewrite is_interior_run by done. by rewrite Hn, Ep.
Qed.

Lemma list_next_run h e n : e <> NULL -> n <> NULL -> snd <$> h !! e = Some n ->
  list_next e h = Done (n, h).
Proof.
  intros He Hn Hh. unfold list_next.
  erewrite bind_done; [|by eapply has_next_run].
  erewrite bind_done; [|done]. by apply next_of_run.
Qed.

Lemma list_prev_run h e p : e <> NULL -> p <> NULL -> fst <$> h !! e = Some p ->
  list_prev e h = Done (p, h).
Proof.
  intros He Hp Hh. unfold list_prev.
  erewrite bind_done; [|by eapply has_prev_run].
  erewrite bind_done; [|done]. by apply prev_of_run.
Qed.
End NodeTests.

(** [h'] has the same nodes allocated as [h] and agrees with it outside [ns]. *)
Definition touches (h h' : heap) (ns : list Z) : Prop :=
  (forall i, i ∉ ns -> h' !! i = h !! i) /\ (forall i, is_Some (h' !! i) <-> is_Some (h !! i)).

Lemma touches_refl h ns : touches h h ns.
Proof. by split. Qed.
Lemma touches_trans h1 h2 h3 ns ns' :
  touches h1 h2 ns -> touches h2 h3 ns' -> touches h1 h3 (ns ++ ns').
Proof.
  intros [F1 D1] [F2 D2]. split.
  - intros i Hi. rewrite F2, F1 by set_solver. done.
  - intros i. rewrite D2. apply D1.
Qed.
Lemma touches_weaken h h' ns ns' :
  (forall i, i ∈ ns -> i ∈ ns') -> touches h h' ns -> touches h h' ns'.
Proof. intros Hs [F D]. split; [|done]. intros i Hi. apply F. auto. Qed.
Lemma touches_prv h h' ns e p : e ∈ ns -> touches h h' ns -> touches h (prv e p h') ns.
Proof.
  intros He [F D]. split.
  - intros i Hi. rewrite prv_other by set_solver. by apply F.
  - intros i. rewrite prv_is_Some. apply D.
Qed.
Lemma touches_nxt h h' ns e n : e ∈ ns -> touches h h' ns -> touches h (nxt e n h') ns.
Proof.
  intros He [F D]. split.
  - intros i Hi. rewrite nxt_other by set_solver. by apply F.
  - intros i. rewrite nxt_is_Some. apply D.
Qed.

(** Move a segment through updates of nodes outside it. *)
Ltac dframe :=
  repeat first [ assumption
               | apply dseg_prv_out; [assumption|]
               | apply dseg_nxt_out; [assumption|] ].
(** Membership in appended lists. *)
Ltac inl := repeat first [rewrite elem_of_app | rewrite elem_of_cons]; tauto.
Ltac mapped :=
  repeat first [ rewrite prv_is_Some | rewrite nxt_is_Some ];
  first [ assumption
        | match goal with
          | D : dseg ?h _ ?ns _, H : ?i ∈ ?ns |- is_Some (?h !! ?i) =>
              exact (dseg_mapped h _ ns _ i D H)
          end ].
Ltac touched :=
  repeat first [apply touches_prv; [inl|] | apply touches_nxt; [inl|] | apply touches_refl].

Lemma NoDup_mid (S1 S2 : list Z) e : NoDup (S1 ++ e :: S2) ->
  NoDup S1 /\ NoDup S2 /\ (e ∉ S1) /\ (e ∉ S2) /\
  (forall i, i ∈ S1 -> (i ∉ S2) /\ i <> e) /\ (forall i, i ∈ S2 -> (i ∉ S1) /\ i <> e).
Proof.
  intros (Nd1 & Hdj & [He2 Nd2]%NoDup_cons)%NoDup_app.
  assert (e ∉ S1) by (intros H; by apply (Hdj e H), elem_of_cons; left).
  split_and!; try done.
  - intros i Hi. split; [|by intros ->]. intros H2. apply (Hdj i Hi), elem_of_cons. by right.
  - intros i Hi. split; [|by intros ->]. intros H2. apply (Hdj i H2), elem_of_cons. by right.
Qed.

Lemma NoDup_quad (S1 S2 S3 S4 : list Z) : NoDup (S1 ++ S2 ++ S3 ++ S4) ->
  NoDup S1 /\ NoDup S2 /\ NoDup S3 /\ NoDup S4 /\
  (forall i, i ∈ S1 -> (i ∉ S2) /\ (i ∉ S3) /\ (i ∉ S4)) /\
  (forall i, i ∈ S2 -> (i ∉ S1) /\ (i ∉ S3) /\ (i ∉ S4)) /\
  (forall i, i ∈ S3 -> (i ∉ S1) /\ (i ∉ S2) /\ (i ∉ S4)) /\
  (forall i, i ∈ S4 -> (i ∉ S1) /\ (i ∉ S2) /\ (i ∉ S3)).
Proof.
  intros (Nd1 & Hj1 & (Nd2 & Hj2 & (Nd3 & Hj3 & Nd4)%NoDup_app)%NoDup_app)%NoDup_app.
  setoid_rewrite elem_of_app in Hj1. setoid_rewrite elem_of_app in Hj1.
  setoid_rewrite elem_of_app in Hj2.
  split_and!; try done; intros i Hi; split_and!; intros Hi';
    first [apply (Hj1 i); tauto | apply (Hj2 i); tauto | apply (Hj3 i); tauto].
Qed.

Section Relinking.
Implicit Types (h : heap).

(** A node of a segment between two nonnull nodes is an interior element. *)
Lemma dseg_interior h p xs n e : p <> NULL -> n <> NULL ->
  Forall (fun i => i <> NULL) xs -> dseg h p xs n -> e ∈ xs ->
  is_interior e h = Done (true, h).
Proof.
  intros Hp Hn Hf. revert p Hp. induction Hf as [|x xs Hx Hf IH]; intros p Hp Hs He;
    [set_solver|].
  destruct Hs as [Hh Hs]. apply elem_of_cons in He as [->|He]; [|by apply (IH x)].
  rewrite (is_interior_run h x p (List.hd n xs)) by done.
  assert (List.hd n xs <> NULL) as Hn' by (destruct Hf; done).
  apply Z.eqb_neq in Hp, Hn'. by rewrite Hp, Hn'.
Qed.

Lemma list_insert_seg h S1 S2 e :
  S1 <> [] -> S2 <> [] -> dseg h NULL (S1 ++ S2) NULL ->
  NoDup (S1 ++ e :: S2) -> Forall (fun i => i <> NULL) (S1 ++ e :: S2) ->
  is_Some (h !! e) ->
  exists h', list_insert (List.hd NULL S2) e h = Done (tt, h') /\
    dseg h' NULL (S1 ++ e :: S2) NULL /\ touches h h' (S1 ++ e :: S2).
Proof.
  intros N1 N2 Hs Hnd Hnn He.
  apply dseg_app in Hs as [D1 D2].
  set (b := List.hd NULL S2) in *. set (u := List.last S1 NULL) in *.
  assert (b ∈ S2) as Hb by by apply hd_in.
  assert (u ∈ S1) as Hu by by apply last_in.
  apply NoDup_mid in Hnd as (Nd1 & Nd2 & He1 & He2 & X1 & X2).
  destruct (X1 u Hu) as [? ?], (X2 b Hb) as [? ?].
  rewrite Forall_forall in Hnn.
  assert (b <> NULL) by (apply Hnn; inl).
  assert (u <> NULL) by (apply Hnn; inl).
  assert (e <> NULL) by (apply Hnn; inl).
  assert (u <> b) by congruence.
  assert (fst <$> h !! b = Some u) as Rb by by eapply dseg_first.
  assert (e <> b) by done. assert (e <> u) by done.
  exists (prv b e (nxt u e (nxt e b (prv e u h)))).
  split; [|split].
  - unfold list_insert.
    erewrite bind_done; [|by apply (has_prev_run h b u)].
    erewrite bind_done; [|done].
    erewrite bind_done; [|apply assert_done; by apply negb_true_iff, Z.eqb_neq].
    erewrite bind_done; [|by apply prev_of_run].
    erewrite bind_done; [|by apply set_prev_run].
    erewrite bind_done; [|apply set_next_run; mapped].
    erewrite bind_done.
    2:{ apply prev_of_run. rewrite nxt_other, prv_other by done. exact Rb. }
    erewrite bind_done; [|apply set_next_run; mapped].
    apply set_prev_run. mapped.
  - apply dseg_app. cbn [List.hd dseg]. split; [|split].
    + dframe. apply (dseg_nxt_last _ _ _ b); [done..|]. dframe.
    + rewrite prv_other, nxt_other by done. unfold nxt, prv.
      rewrite !lookup_alter_eq. destruct He as [[? ?] ->]. done.
    + apply (dseg_prv_first _ u); [done..|]. dframe.
  - touched.
Qed.

Lemma list_remove_seg h S1 S2 e :
  S1 <> [] -> S2 <> [] -> dseg h NULL (S1 ++ e :: S2) NULL ->
  NoDup (S1 ++ e :: S2) -> Forall (fun i => i <> NULL) (S1 ++ e :: S2) ->
  exists h', list_remove e h = Done (List.hd NULL S2, h') /\
    dseg h' NULL (S1 ++ S2) NULL /\ touches h h' (S1 ++ S2).
Proof.
  intros N1 N2 Hs Hnd Hnn.
  apply dseg_app in Hs as [D1 [De D2]]. cbn [List.hd] in D1.
  set (b := List.hd NULL S2) in *. set (u := List.last S1 NULL) in *.
  assert (b ∈ S2) as Hb by by apply hd_in.
  assert (u ∈ S1) as Hu by by apply last_in.
  apply NoDup_mid in Hnd as (Nd1 & Nd2 & He1 & He2 & X1 & X2).
  destruct (X1 u Hu) as [? ?], (X2 b Hb) as [? ?].
  rewrite Forall_forall in Hnn.
  assert (b <> NULL) by (apply Hnn; inl).
  assert (u <> NULL) by (apply Hnn; inl).
  assert (e <> NULL) by (apply Hnn; inl).
  assert (u <> b) by congruence.
  assert (e <> b) by done. assert (e <> u) by done.
  assert (fst <$> h !! e = Some u) as Ru by by rewrite De.
  assert (snd <$> h !! e = Some b) as Rn by by rewrite De.
  exists (prv b u (nxt u b h)).
  split; [|split].
  - unfold list_remove.
    erewrite bind_done; [|by apply is_interior_run].
    erewrite bind_done.
    2:{ apply assert_done. apply andb_true_intro. split; by apply negb_true_iff, Z.eqb_neq. }
    do 2 hread.
    erewrite bind_done; [|apply set_next_run; mapped].
    assert (nxt u b h !! e = h !! e) as E1 by by apply nxt_other.
    erewrite bind_done; [|apply next_of_run; by rewrite E1].
    erewrite bind_done; [|apply prev_of_run; by rewrite E1].
    erewrite bind_done; [|apply set_prev_run; mapped].
    apply next_of_run. by rewrite prv_other, E1 by done.
  - apply dseg_app. fold b. split.
    + dframe. apply (dseg_nxt_last _ _ _ e); done.
    + apply (dseg_prv_first _ e); [done..|]. dframe.
  - touched.
Qed.

(** [list_splice] of a later range of the same list to an earlier place. *)
Lemma list_splice_seg h S1 S2 S3 S4 :
  S1 <> [] -> S2 <> [] -> S3 <> [] -> S4 <> [] ->
  dseg h NULL (S1 ++ S2 ++ S3 ++ S4) NULL ->
  NoDup (S1 ++ S2 ++ S3 ++ S4) -> Forall (fun i => i <> NULL) (S1 ++ S2 ++ S3 ++ S4) ->
  exists h', list_splice (List.hd NULL S2) (List.hd NULL S3) (List.hd NULL S4) h = Done (tt, h') /\
    dseg h' NULL (S1 ++ S3 ++ S2 ++ S4) NULL /\ touches h h' (S1 ++ S2 ++ S3 ++ S4).
Proof.
  intros N1 N2 N3 N4 Hs Hnd Hnn.
  apply dseg_app in Hs as [D1 Hs]. apply dseg_app in Hs as [D2 Hs].
  apply dseg_app in Hs as [D3 D4].
  set (bf := List.hd NULL S2). set (fi := List.hd NULL S3). set (ln := List.hd NULL S4) in *.
  set (bp := List.last S1 NULL) in *. set (fp := List.last S2 bp) in *.
  set (la := List.last S3 fp) in *.
  assert (List.hd NULL (S2 ++ S3 ++ S4) = bf) as E2 by (destruct S2; done).
  assert (List.hd NULL (S3 ++ S4) = fi) as E3 by (destruct S3; done).
  assert (List.hd NULL (S3 ++ S2 ++ S4) = fi) as E3' by (destruct S3; done).
  assert (List.hd NULL (S2 ++ S4) = bf) as E2' by (destruct S2; done).
  rewrite E2 in D1. rewrite E3 in D2.
  assert (bf ∈ S2 /\ fi ∈ S3 /\ ln ∈ S4) as (Hbf & Hfi & Hln) by (split_and!; by apply hd_in).
  assert (bp ∈ S1 /\ fp ∈ S2 /\ la ∈ S3) as (Hbp & Hfp & Hla) by (split_and!; by apply last_in).
  apply NoDup_quad in Hnd as (Nd1 & Nd2 & Nd3 & Nd4 & X1 & X2 & X3 & X4).
  rewrite Forall_forall in Hnn.
  assert (bf <> NULL) by (apply Hnn; inl). assert (fi <> NULL) by (apply Hnn; inl).
  assert (ln <> NULL) by (apply Hnn; inl). assert (bp <> NULL) by (apply Hnn; inl).
  assert (fp <> NULL) by (apply Hnn; inl). assert (la <> NULL) by (apply Hnn; inl).
  assert (Forall (fun i => i <> NULL) S3) by (apply Forall_forall; intros; apply Hnn; inl).
  clear Hnn.
  destruct (X1 _ Hbp) as (?&?&?), (X2 _ Hbf) as (?&?&?), (X2 _ Hfp) as (?&?&?),
    (X3 _ Hfi) as (?&?&?), (X3 _ Hla) as (?&?&?), (X4 _ Hln) as (?&?&?).
  assert (fi <> ln) by congruence.
  (* the heap after each store, and the segments in it *)
  set (h1 := nxt fp ln h). set (h2 := prv ln fp h1). set (h3 := prv fi bp h2).
  set (h4 := nxt la bf h3). set (h5 := nxt bp fi h4). set (h6 := prv bf la h5).
  assert (dseg h1 bp S2 ln) as A2.
  { unfold h1. unfold fp. by apply (dseg_nxt_last _ _ _ fi). }
  assert (dseg h1 fp S3 ln) as A3 by (unfold h1; dframe).
  assert (dseg h1 la S4 NULL) as A4 by (unfold h1; dframe).
  assert (dseg h1 NULL S1 bf) as A1 by (unfold h1; dframe).
  assert (dseg h2 fp S4 NULL) as B4.
  { unfold h2, ln. by apply (dseg_prv_first _ la). }
  assert (dseg h2 bp S2 ln) as B2 by (unfold h2; dframe).
  assert (dseg h2 fp S3 ln) as B3 by (unfold h2; dframe).
  assert (dseg h2 NULL S1 bf) as B1 by (unfold h2; dframe).
  assert (dseg h3 bp S3 ln) as C3.
  { unfold h3, fi. by apply (dseg_prv_first _ fp). }
  assert (dseg h4 bp S3 bf) as F3.
  { unfold h4, la. by apply (dseg_nxt_last _ _ _ ln). }
  assert (dseg h4 bp S2 ln) as F2 by (unfold h4, h3; dframe).
  assert (dseg h4 NULL S1 bf) as F1 by (unfold h4, h3; dframe).
  assert (dseg h4 fp S4 NULL) as F4 by (unfold h4, h3; dframe).
  assert (dseg h5 NULL S1 fi) as G1.
  { unfold h5, bp. by apply (dseg_nxt_last _ _ _ bf). }
  assert (dseg h6 la S2 ln) as I2.
  { unfold h6, bf. apply (dseg_prv_first _ bp); [done..|]. unfold h5. dframe. }
  exists h6. split; [|split].
  - unfold list_splice.
    erewrite bind_done; [|apply (has_prev_run h bf bp); [done..|by eapply dseg_first]].
    erewrite bind_done; [|done].
    destruct (Z.eqb_spec fi ln); [done|].
    erewrite bind_done; [|apply (list_prev_run h ln la); [done..|by eapply dseg_first]].
    erewrite bind_done; [|by apply (dseg_interior h fp S3 ln)].
    erewrite bind_done; [|done].
    erewrite bind_done; [|by apply (dseg_interior h fp S3 ln)].
    erewrite bind_done; [|done].
    pose proof (dseg_first h fp S3 ln NULL N3 D3).
    pose proof (dseg_last h fp S3 ln fp N3 D3).
    pose proof (dseg_first h1 fp S3 ln NULL N3 A3).
    pose proof (dseg_last h1 fp S3 ln fp N3 A3).
    pose proof (dseg_first h2 bp S2 ln NULL N2 B2).
    pose proof (dseg_first h4 bp S2 ln NULL N2 F2).
    do 2 hread. erewrite bind_done; [|apply set_next_run; mapped]. fold h1.
    do 2 hread. erewrite bind_done; [|apply set_prev_run; mapped]. fold h2.
    hread. erewrite bind_done; [|apply set_prev_run; mapped]. fold h3.
    erewrite bind_done; [|apply set_next_run; mapped]. fold h4.
    hread. erewrite bind_done; [|apply set_next_run; mapped]. fold h5.
    apply set_prev_run. unfold h5. mapped.
  - apply dseg_app. rewrite E3'. split; [unfold h6; dframe|].
    apply dseg_app. rewrite E2'. split; [unfold h6, h5; dframe|].
    apply dseg_app. rewrite (last_default S3 (List.last S1 NULL) fp) by done.
    split; [done|].
    rewrite (last_default S2 (List.last S3 fp) bp) by done. unfold h6, h5; dframe.
  - unfold h6, h5, h4, h3, h2, h1.
    touched.
Qed.
End Relinking.

(** ** Specifications on sequences *)

(** The address of a cursor before the suffix [ys]: its first element or the tail. *)
Definition cur (l : Z) (ys : list Z) : Z := List.hd (tail_of l) ys.

(** An allocated element that can be linked into the list. *)
Definition fresh (h : heap) (l : Z) (xs : list Z) (e : Z) : Prop :=
  is_Some (h !! e) /\ e <> NULL /\ (e ∉ nodes l xs).

Section ListSpecs.
Implicit Types (h : heap) (l e : Z) (xs ys : list Z).

Lemma nodes_app l xs ys : nodes l (xs ++ ys) = (head_of l :: xs) ++ (ys ++ [tail_of l]).
Proof. unfold nodes. by rewrite <- app_assoc. Qed.

Lemma cur_hd l ys : List.hd NULL (ys ++ [tail_of l]) = cur l ys.
Proof. by destruct ys. Qed.

Lemma app_tail_nonnil ys (t : Z) : ys ++ [t] <> [].
Proof. by destruct ys. Qed.

Lemma is_list_l_nonnull h l xs : is_list h l xs -> (l =? NULL) = false.
Proof. intros [_ _ Hn]. apply Z.eqb_neq. by inversion Hn. Qed.

Lemma is_list_nodup h l xs : is_list h l xs -> NoDup xs.
Proof. intros [_ [_ Hn]%NoDup_cons _]. by apply NoDup_app in Hn as [? _]. Qed.

Lemma is_list_mapped h l xs e : is_list h l xs -> e ∈ nodes l xs -> is_Some (h !! e).
Proof. intros [Hs _ _]. by apply (dseg_mapped h NULL _ NULL). Qed.

Lemma elem_nonnull h l xs e : is_list h l xs -> e ∈ xs -> e <> NULL.
Proof.
  intros [_ _ Hn] He. rewrite Forall_forall in Hn. apply Hn.
  unfold nodes. inl.
Qed.

Lemma elem_not_tail h l xs e : is_list h l xs -> e ∈ xs -> e <> tail_of l.
Proof.
  intros [_ [_ Hn]%NoDup_cons _] He ->. apply NoDup_app in Hn as (_ & Hd & _).
  apply (Hd _ He). by apply list_elem_of_singleton.
Qed.

Lemma cur_nil_iff h l xs ys : is_list h l (xs ++ ys) -> (cur l ys =? tail_of l) = bool_decide (ys = []).
Proof.
  intros Hl. destruct ys as [|y ys]; [by rewrite Z.eqb_refl|].
  rewrite bool_decide_eq_false_2 by done. apply Z.eqb_neq. simpl.
  apply (elem_not_tail _ _ _ _ Hl). inl.
Qed.

Lemma is_list_touches h h' l xs ns : is_list h l xs -> touches h h' ns ->
  (forall e, e ∈ nodes l xs -> e ∉ ns) -> is_list h' l xs.
Proof.
  intros [Hs Hd Hn] [Hf _] Hdj. split; [|done..].
  apply (dseg_frame h); [|done]. intros e He. apply Hf. by apply Hdj.
Qed.

Lemma list_begin_spec h l xs : is_list h l xs -> list_begin l h = Done (cur l xs, h).
Proof.
  intros Hl. unfold list_begin. rewrite (is_list_l_nonnull _ _ _ Hl).
  erewrite bind_done; [|done]. apply next_of_run.
  destruct Hl as [[Hh _] _ _]. rewrite Hh. destruct xs; done.
Qed.

Lemma list_end_spec h l xs : is_list h l xs -> list_end l h = Done (tail_of l, h).
Proof. intros Hl. unfold list_end. by rewrite (is_list_l_nonnull _ _ _ Hl). Qed.

Lemma list_rbegin_spec h l xs : is_list h l xs ->
  list_rbegin l h = Done (List.last xs (head_of l), h).
Proof.
  intros Hl. unfold list_rbegin. rewrite (is_list_l_nonnull _ _ _ Hl).
  erewrite bind_done; [|done]. apply prev_of_run.
  destruct Hl as [Hs _ _]. unfold nodes in Hs.
  apply (dseg_app h NULL (head_of l :: xs) [tail_of l]) in Hs as [_ [Ht _]].
  rewrite Ht. simpl. f_equal. destruct xs; [done|]. by apply last_default.
Qed.

Lemma list_next_spec h l xs x ys : is_list h l (xs ++ x :: ys) ->
  list_next x h = Done (cur l ys, h).
Proof.
  intros [Hs Hd Hn]. rewrite nodes_app in *.
  apply dseg_app in Hs as [_ Hs]. destruct Hs as [Hx _].
  rewrite Forall_forall in Hn.
  apply list_next_run; [apply Hn; inl| |rewrite Hx; simpl; f_equal; apply cur_hd].
  rewrite <- (cur_hd l ys). apply Hn. rewrite elem_of_app. right.
  simpl. rewrite elem_of_cons. right. apply hd_in, app_tail_nonnil.
Qed.

Lemma last_cons xs (a d : Z) : List.last (a :: xs) d = List.last xs a.
Proof.
  destruct xs as [|x xs]; [done|]. change (List.last (x :: xs) d = List.last (x :: xs) a).
  by apply last_default.
Qed.

Lemma list_prev_spec h l xs ys : is_list h l (xs ++ ys) ->
  list_prev (cur l ys) h = Done (List.last xs (head_of l), h).
Proof.
  intros [Hs Hd Hn]. rewrite nodes_app in *.
  apply dseg_app in Hs as [_ Hs]. rewrite last_cons in Hs.
  rewrite Forall_forall in Hn. rewrite <- cur_hd.
  apply list_prev_run.
  - apply Hn. rewrite elem_of_app. right. apply hd_in, app_tail_nonnil.
  - apply Hn. rewrite elem_of_app. left. rewrite <- (last_cons xs _ NULL).
    by apply last_in.
  - eapply dseg_first; [apply app_tail_nonnil|done].
Qed.

Lemma list_insert_spec h l xs ys e : is_list h l (xs ++ ys) -> fresh h l (xs ++ ys) e ->
  exists h', list_insert (cur l ys) e h = Done (tt, h') /\
    is_list h' l (xs ++ e :: ys) /\ touches h h' (e :: nodes l (xs ++ ys)).
Proof.
  intros [Hs Hd Hn] (Hm & He & Hout). rewrite nodes_app in *.
  assert ((head_of l :: xs) ++ e :: ys ++ [tail_of l] ≡ₚ e :: (head_of l :: xs) ++ ys ++ [tail_of l])
    as Hp by (symmetry; apply Permutation_middle).
  destruct (list_insert_seg h (head_of l :: xs) (ys ++ [tail_of l]) e)
    as (h' & Hrun & Hs' & Ht); [done|apply app_tail_nonnil|done| | |done|].
  { rewrite Hp. by apply NoDup_cons. }
  { rewrite Hp. by apply Forall_cons. }
  exists h'. rewrite <- cur_hd. split; [done|]. split.
  - split; rewrite nodes_app; [done|cbn [app] in *; rewrite Hp; by apply NoDup_cons|].
    cbn [app] in *. rewrite Hp. by apply Forall_cons.
  - eapply touches_weaken; [|done]. intros i. by rewrite Hp.
Qed.

Lemma list_remove_spec h l xs e ys : is_list h l (xs ++ e :: ys) ->
  exists h', list_remove e h = Done (cur l ys, h') /\
    is_list h' l (xs ++ ys) /\ touches h h' (nodes l (xs ++ ys)) /\
    fresh h' l (xs ++ ys) e.
Proof.
  intros [Hs Hd Hn]. pose proof (dseg_mapped h NULL _ NULL e Hs) as Hm.
  rewrite nodes_app in *. cbn [app] in Hs, Hd, Hn, Hm.
  assert (head_of l :: xs ++ e :: ys ++ [tail_of l] ≡ₚ e :: (head_of l :: xs) ++ ys ++ [tail_of l])
    as Hp by (symmetry; apply (Permutation_middle (head_of l :: xs))).
  destruct (list_remove_seg h (head_of l :: xs) (ys ++ [tail_of l]) e)
    as (h' & Hrun & Hs' & Ht); [done|apply app_tail_nonnil|done..|].
  rewrite cur_hd in Hrun. rewrite Hp in Hd, Hn.
  apply NoDup_cons in Hd as [He Hd]. apply Forall_cons in Hn as [He0 Hn].
  exists h'. split; [done|]. split; [by split; rewrite nodes_app|].
  split; [done|]. split; [|split; [done|by rewrite nodes_app]].
  apply Ht. apply Hm. rewrite elem_of_cons, elem_of_app, elem_of_cons. tauto.
Qed.
End ListSpecs.

Section DerivedSpecs.
Implicit Types (h : heap) (l e : Z) (xs ys : list Z).

Lemma list_init_spec h l : l <> NULL -> tail_of l <> NULL ->
  is_Some (h !! head_of l) -> is_Some (h !! tail_of l) ->
  exists h', list_init l h = Done (tt, h') /\ is_list h' l [] /\
    touches h h' [head_of l; tail_of l].
Proof.
  intros Hl Ht Mh Mt.
  assert (tail_of l <> head_of l) as Hne by (unfold tail_of, head_of; lia).
  exists (nxt (tail_of l) NULL (prv (tail_of l) (head_of l)
           (nxt (head_of l) (tail_of l) (prv (head_of l) NULL h)))).
  split; [|split].
  - unfold list_init. apply Z.eqb_neq in Hl. rewrite Hl.
    erewrite bind_done; [|done].
    erewrite bind_done; [|by apply set_prev_run].
    erewrite bind_done; [|apply set_next_run; mapped].
    erewrite bind_done; [|apply set_prev_run; mapped].
    apply set_next_run; mapped.
  - split.
    + unfold nodes. cbn [app dseg List.hd]. split.
      * rewrite nxt_other, prv_other by done. unfold nxt, prv.
        rewrite !lookup_alter_eq. by destruct Mh as [[? ?] ->].
      * split; [|done]. unfold nxt at 1, prv at 1. rewrite !lookup_alter_eq.
        rewrite nxt_other, prv_other by done. by destruct Mt as [[? ?] ->].
    + apply NoDup_cons. split; [|apply NoDup_singleton]. cbn [app]. rewrite list_elem_of_singleton. congruence.
    + by repeat constructor.
  - touched.
Qed.

Lemma list_empty_spec h l xs : is_list h l xs ->
  list_empty l h = Done (bool_decide (xs = []), h).
Proof.
  intros Hl. unfold list_empty.
  erewrite bind_done; [|by eapply list_begin_spec].
  erewrite bind_done; [|by eapply list_end_spec].
  by rewrite (cur_nil_iff h l [] xs Hl).
Qed.

Lemma list_push_front_spec h l xs e : is_list h l xs -> fresh h l xs e ->
  exists h', list_push_front l e h = Done (tt, h') /\
    is_list h' l (e :: xs) /\ touches h h' (e :: nodes l xs).
Proof.
  intros Hl Hf. unfold list_push_front.
  erewrite bind_done; [|by eapply list_begin_spec].
  by apply (list_insert_spec h l [] xs e).
Qed.

Lemma list_push_back_spec h l xs e : is_list h l xs -> fresh h l xs e ->
  exists h', list_push_back l e h = Done (tt, h') /\
    is_list h' l (xs ++ [e]) /\ touches h h' (e :: nodes l xs).
Proof.
  intros Hl Hf. unfold list_push_back.
  erewrite bind_done; [|by eapply list_end_spec].
  rewrite <- (app_nil_r xs) in Hl, Hf.
  destruct (list_insert_spec h l xs [] e Hl Hf) as (h' & ? & ? & Ht).
  exists h'. rewrite app_nil_r in Ht. done.
Qed.

Lemma list_front_spec h l xs : is_list h l xs ->
  list_front l h = match xs with [] => Panic | x :: _ => Done (x, h) end.
Proof.
  intros Hl. unfold list_front.
  erewrite bind_done; [|by apply list_empty_spec].
  destruct xs as [|x xs]; [done|]. simpl.
  erewrite bind_done; [|done]. apply next_of_run.
  destruct Hl as [[-> _] _ _]. done.
Qed.

Lemma list_back_spec h l xs x : is_list h l (xs ++ [x]) -> list_back l h = Done (x, h).
Proof.
  intros Hl. unfold list_back.
  erewrite bind_done; [|by apply list_empty_spec].
  rewrite bool_decide_eq_false_2 by (by destruct xs). simpl.
  erewrite bind_done; [|done].
  pose proof (list_rbegin_spec _ _ _ Hl) as H. unfold list_rbegin in H.
  rewrite (is_list_l_nonnull _ _ _ Hl) in H.
  erewrite bind_done in H; [|done]. rewrite H.
  by rewrite last_last.
Qed.

Lemma list_pop_front_spec h l x xs : is_list h l (x :: xs) ->
  exists h', list_pop_front l h = Done (x, h') /\ is_list h' l xs /\
    touches h h' (nodes l xs) /\ fresh h' l xs x.
Proof.
  intros Hl. unfold list_pop_front.
  erewrite bind_done; [|exact (list_front_spec h l (x :: xs) Hl)].
  destruct (list_remove_spec h l [] x xs Hl) as (h' & Hr & ? & ? & ?).
  exists h'. erewrite bind_done; [|done]. done.
Qed.

Lemma list_pop_front_empty h l : is_list h l [] -> list_pop_front l h = Panic.
Proof.
  intros Hl. unfold list_pop_front, bnd, mbind, M_bind.
  by rewrite (list_front_spec _ _ _ Hl).
Qed.

Lemma list_pop_back_spec h l x xs : is_list h l (xs ++ [x]) ->
  exists h', list_pop_back l h = Done (x, h') /\ is_list h' l xs /\
    touches h h' (nodes l xs) /\ fresh h' l xs x.
Proof.
  intros Hl. unfold list_pop_back.
  erewrite bind_done; [|by eapply list_back_spec].
  destruct (list_remove_spec h l xs x [] Hl) as (h' & Hr & ? & ? & ?).
  rewrite app_nil_r in *.
  exists h'. erewrite bind_done; [|done]. done.
Qed.

(** Stepping a cursor through the list: the loop test and [list_next]. *)
Lemma list_size_loop_spec h l xs ys cnt fuel : is_list h l (xs ++ ys) ->
  (length ys < fuel)%nat -> 0 <= cnt ->
  list_size_loop fuel l (cur l ys) (u32 cnt) h = Done (u32 (cnt + zlen ys), h).
Proof.
  revert xs cnt fuel. induction ys as [|y ys IH]; intros xs cnt fuel Hl Hf Hc;
    (destruct fuel as [|fuel]; [simpl in Hf; lia|]); cbn [list_size_loop].
  - erewrite bind_done; [|by eapply list_end_spec]. rewrite (cur_nil_iff _ _ _ _ Hl).
    simpl. unfold zlen. simpl. by rewrite Z.add_0_r.
  - erewrite bind_done; [|by eapply list_end_spec]. rewrite (cur_nil_iff _ _ _ _ Hl).
    rewrite bool_decide_eq_false_2 by done.
    erewrite bind_done; [|by eapply list_next_spec].
    assert (u32 (u32 cnt + 1) = u32 (cnt + 1)) as -> by (unfold u32; by rewrite Zplus_mod_idemp_l).
    rewrite (IH (xs ++ [y])); [|by rewrite <- app_assoc|simpl in Hf; lia|lia].
    unfold zlen. simpl length. do 3 f_equal. lia.
Qed.

Lemma list_size_spec h l xs fuel : is_list h l xs -> (length xs < fuel)%nat ->
  list_size fuel l h = Done (u32 (zlen xs), h).
Proof.
  intros Hl Hf. unfold list_size.
  erewrite bind_done; [|by eapply list_begin_spec].
  by apply (list_size_loop_spec h l [] xs 0 fuel).
Qed.

(** The sequence-level scan behind [list_max] and [list_min]. *)
Definition best_seq (better : Z -> Z -> bool) (m : Z) (xs : list Z) : Z :=
  foldl (fun m e => if better m e then e else m) m xs.

Lemma best_loop_spec better h l xs ys m fuel : is_list h l (xs ++ ys) ->
  (length ys < fuel)%nat ->
  best_loop better fuel l m (cur l ys) h = Done (best_seq better m ys, h).
Proof.
  revert xs m fuel. induction ys as [|y ys IH]; intros xs m fuel Hl Hf;
    (destruct fuel as [|fuel]; [simpl in Hf; lia|]); cbn [best_loop];
    (erewrite bind_done; [|by eapply list_end_spec]); rewrite (cur_nil_iff _ _ _ _ Hl).
  - done.
  - rewrite bool_decide_eq_false_2 by done. cbv zeta.
    erewrite bind_done; [|by eapply list_next_spec].
    apply (IH (xs ++ [y])); [by rewrite <- app_assoc|simpl in Hf; lia].
Qed.

Lemma best_of_spec better h l xs fuel : is_list h l xs -> (length xs < fuel)%nat ->
  best_of better fuel l h =
    Done (match xs with [] => tail_of l | x :: xs' => best_seq better x xs' end, h).
Proof.
  intros Hl Hf. unfold best_of.
  erewrite bind_done; [|by eapply list_begin_spec].
  erewrite bind_done; [|by eapply list_end_spec].
  rewrite (cur_nil_iff h l [] xs Hl). destruct xs as [|x xs]; [done|].
  rewrite bool_decide_eq_false_2 by done.
  erewrite bind_done; [|by apply (list_next_spec h l [])].
  apply (best_loop_spec _ _ _ [x]); [done|simpl in Hf; lia].
Qed.

(** The first element no later one beats, for a transitive comparison whose
    negation is transitive too. *)
Lemma best_seq_spec better m xs :
  (forall a b c, better a b = false -> better b c = false -> better a c = false) ->
  (forall a b, better a b = true -> better b a = false) ->
  let r := best_seq better m xs in
  r ∈ m :: xs /\ (forall e, e ∈ m :: xs -> better r e = false).
Proof.
  intros Ht Ha. revert m. induction xs as [|x xs IH]; intros m; simpl.
  - split; [inl|]. intros e ->%list_elem_of_singleton.
    destruct (better m m) eqn:E; [|done]. by rewrite <- (Ha _ _ E), E.
  - destruct (IH (if better m x then x else m)) as [Hin Hmax]. simpl in *.
    assert (better (best_seq better (if better m x then x else m) xs)
      (if better m x then x else m) = false) as Hm by (apply Hmax; inl).
    split.
    + apply elem_of_cons in Hin as [->|]; [destruct (better m x); inl|inl].
    + intros e. rewrite !elem_of_cons. intros [->|[->|He]].
      * destruct (better m x) eqn:E; [|done]. eapply Ht; [exact Hm|]. by apply Ha.
      * destruct (better m x) eqn:E; [done|]. by eapply Ht.
      * apply Hmax. inl.
Qed.
End DerivedSpecs.
