(* ===== verification/KListSort.v ===== *)
(** * lib/kernel/list.c: sorting, ordered insertion, reversal

    The pointer programs of KList refine functions on sequences: runs are split
    off by [run_split], two runs are merged by [merge], a pass of [list_sort]
    is [pass_seq].  [list_sort] terminates with a sorted permutation for any
    asymmetric comparison; the number of runs bounds the passes. *)

From S2P Require Import Prelude KList.
From Stdlib Require Import Sorting.Sorted.

Section SortSeq.
Variable less : Z -> Z -> bool.

(** Elements in order: the later one is not less than the earlier one. *)
Definition in_order (a b : Z) : Prop := less b a = false.

(** The longest prefix of [ys] that continues a run ending in [x]. *)
Fixpoint run_split (x : Z) (ys : list Z) : list Z * list Z :=
  match ys with
  | [] => ([], [])
  | y :: ys' => if less y x then ([], ys)
                else let '(r, s) := run_split y ys' in (y :: r, s)
  end.

Fixpoint sortedb (x : Z) (ys : list Z) : bool :=
  match ys with
  | [] => true
  | y :: ys' => if less y x then false else sortedb y ys'
  end.

Fixpoint merge (A : list Z) : list Z -> list Z :=
  fix merge_aux (B : list Z) : list Z :=
    match A, B with
    | [], _ => B
    | _, [] => A
    | a :: A', b :: B' => if less b a then b :: merge_aux B' else a :: merge A' B
    end.

Fixpoint pass_seq (n : nat) (ys : list Z) : list Z * Z :=
  match n, ys with
  | _, [] => ([], 0)
  | O, _ => (ys, 0)
  | S n, x :: ys' =>
      match run_split x ys' with
      | (r, []) => (x :: r, 1)
      | (r, y :: s') =>
          let '(r2, s2) := run_split y s' in
          let '(o, c) := pass_seq n s2 in
          (merge (x :: r) (y :: r2) ++ o, 1 + c)
      end
  end.

(** The number of maximal runs. *)
Fixpoint runs_from (x : Z) (ys : list Z) : Z :=
  match ys with
  | [] => 1
  | y :: ys' => (if less y x then 1 else 0) + runs_from y ys'
  end.
Definition runs (xs : list Z) : Z :=
  match xs with [] => 0 | x :: ys => runs_from x ys end.

Lemma run_split_spec x ys r s : run_split x ys = (r, s) ->
  ys = r ++ s /\ sortedb x r = true /\ runs_from x ys = 1 + runs s.
Proof.
  revert x r s. induction ys as [|y ys IH]; intros x r s; simpl.
  - intros [= <- <-]. done.
  - destruct (less y x) eqn:E; [intros [= <- <-]; done|].
    destruct (run_split y ys) as [r' s'] eqn:Er. intros [= <- <-].
    destruct (IH _ _ _ Er) as (-> & Hs & Hr). simpl. rewrite E.
    split_and!; [done|done|]. simpl in *. lia.
Qed.

Lemma runs_from_pos x ys : 1 <= runs_from x ys.
Proof. revert x. induction ys as [|y ys IH]; intros x; simpl; [lia|]. specialize (IH y). destruct (less y x); lia. Qed.

Lemma runs_nonneg xs : 0 <= runs xs.
Proof. destruct xs as [|x xs]; simpl; [lia|]. pose proof (runs_from_pos x xs). lia. Qed.

Lemma runs_from_app x ys zs : runs_from x (ys ++ zs) <= runs_from x ys + runs zs.
Proof.
  revert x. induction ys as [|y ys IH]; intros x; simpl.
  - destruct zs as [|z zs]; simpl; [lia|]. destruct (less z x); lia.
  - specialize (IH y). lia.
Qed.

Lemma runs_app xs ys : runs (xs ++ ys) <= runs xs + runs ys.
Proof. destruct xs as [|x xs]; simpl; [lia|]. apply runs_from_app. Qed.

Lemma runs_from_length x ys : runs_from x ys <= 1 + zlen ys.
Proof.
  revert x. unfold zlen. induction ys as [|y ys IH]; intros x; simpl; [lia|].
  specialize (IH y). destruct (less y x); lia.
Qed.

Lemma runs_length xs : runs xs <= zlen xs.
Proof.
  destruct xs as [|x xs]; [done|]. simpl. pose proof (runs_from_length x xs).
  unfold zlen in *. simpl. lia.
Qed.

Lemma sortedb_runs x ys : sortedb x ys = true <-> runs_from x ys = 1.
Proof.
  revert x. induction ys as [|y ys IH]; intros x; simpl; [done|].
  pose proof (runs_from_pos y ys). destruct (less y x); [split; [done|lia]|]. by rewrite IH.
Qed.

Lemma sortedb_Sorted x ys : sortedb x ys = true <-> Sorted in_order (x :: ys).
Proof.
  revert x. induction ys as [|y ys IH]; intros x; simpl.
  - split; [|done]. intros _. by repeat constructor.
  - destruct (less y x) eqn:E.
    + split; [done|]. intros [_ Hd]%Sorted_inv. inversion Hd; subst.
      unfold in_order in *. congruence.
    + rewrite IH. split.
      * intros Hs. constructor; [done|]. by constructor.
      * by intros [Hs _]%Sorted_inv.
Qed.

Lemma merge_nil_l B : merge [] B = B.
Proof. by destruct B. Qed.
Lemma merge_nil_r A : merge A [] = A.
Proof. by destruct A. Qed.
Lemma merge_cons a A b B :
  merge (a :: A) (b :: B) = if less b a then b :: merge (a :: A) B else a :: merge A (b :: B).
Proof. done. Qed.

Lemma merge_perm A B : merge A B ≡ₚ A ++ B.
Proof.
  revert B. induction A as [|a A IHA]; intros B; [by rewrite merge_nil_l|].
  induction B as [|b B IHB]; [by rewrite merge_nil_r, app_nil_r|].
  rewrite merge_cons. destruct (less b a).
  - rewrite IHB. simpl. rewrite <- Permutation_middle. apply perm_swap.
  - rewrite IHA. done.
Qed.

Hypothesis asym : forall a b, less a b = true -> less b a = false.

Lemma merge_Sorted A B : Sorted in_order A -> Sorted in_order B ->
  Sorted in_order (merge A B).
Proof.
  revert B. induction A as [|a A IHA]; intros B HA HB; [by rewrite merge_nil_l|].
  induction B as [|b B IHB]; [by rewrite merge_nil_r|].
  rewrite merge_cons. apply Sorted_inv in HA as [HA Ha]. apply Sorted_inv in HB as [HB Hb].
  destruct (less b a) eqn:E.
  - constructor; [by apply IHB|].
    destruct B as [|b' B]; [rewrite merge_nil_r; constructor; by apply asym|].
    rewrite merge_cons. inversion Hb.
    destruct (less b' a); constructor; [done|by apply asym].
  - constructor; [apply IHA; [done|by constructor]|].
    destruct A as [|a' A]; [rewrite merge_nil_l; by constructor|].
    rewrite merge_cons. inversion Ha. destruct (less b a'); by constructor.
Qed.

Lemma Sorted_runs xs : Sorted in_order xs -> runs xs <= 1.
Proof.
  destruct xs as [|x xs]; [done|]. intros Hs%sortedb_Sorted%sortedb_runs. simpl. lia.
Qed.

(** One pass: a permutation, no more runs in the result than it counted, and
    it counts at most half of the runs it met, rounded up. *)
Lemma pass_seq_spec n ys o c : (length ys <= n)%nat -> pass_seq n ys = (o, c) ->
  o ≡ₚ ys /\ 0 <= c /\ runs o <= c /\ 2 * c <= runs ys + 1 /\
  (c <= 1 -> Sorted in_order o) /\ (c = 0 -> o = []) /\ c <= zlen ys.
Proof.
  revert ys o c. induction n as [|n IH]; intros ys o c Hn.
  { destruct ys; [|simpl in Hn; lia]. intros [= <- <-]. simpl. split_and!; done || lia. }
  destruct ys as [|x ys]; [intros [= <- <-]; simpl; split_and!; done || lia|].
  cbn [pass_seq runs]. destruct (run_split x ys) as [r s] eqn:Er.
  destruct (run_split_spec _ _ _ _ Er) as (-> & Hs & Hr). unfold zlen.
  destruct s as [|y s'].
  { intros [= <- <-]. rewrite app_nil_r in *. pose proof Hs as Hs'.
    apply sortedb_runs in Hs. apply sortedb_Sorted in Hs'.
    simpl in *. split_and!; done || lia. }
  destruct (run_split y s') as [r2 s2] eqn:Er2.
  destruct (run_split_spec _ _ _ _ Er2) as (-> & Hs2 & Hr2).
  destruct (pass_seq n s2) as [o' c'] eqn:Ep. intros Hoc.
  assert (o = merge (x :: r) (y :: r2) ++ o') as -> by congruence.
  assert (c = 1 + c') as -> by congruence. clear Hoc.
  destruct (IH s2 o' c') as (Hp & H0 & H1 & H2 & H3 & H4 & H5);
    [simpl in Hn; rewrite !length_app in Hn; simpl in Hn; rewrite length_app in Hn; lia|done|].
  assert (Sorted in_order (merge (x :: r) (y :: r2))) as Hm
    by (apply merge_Sorted; by apply sortedb_Sorted).
  pose proof (merge_perm (x :: r) (y :: r2)) as Hmp.
  pose proof (Sorted_runs _ Hm). pose proof (runs_app (merge (x :: r) (y :: r2)) o').
  set (m := merge (x :: r) (y :: r2)) in *. clearbody m.
  split_and!.
  - transitivity ((x :: r ++ y :: r2) ++ s2).
    + apply Permutation_app; [|done]. exact Hmp.
    + rewrite app_comm_cons, <- app_assoc. done.
  - lia.
  - lia.
  - rewrite Hr. change (runs (y :: r2 ++ s2)) with (runs_from y (r2 ++ s2)).
    rewrite Hr2. lia.
  - intros Hc. rewrite H4 by lia. by rewrite app_nil_r.
  - lia.
  - unfold zlen in *. simpl. rewrite !length_app. simpl. rewrite length_app. lia.
Qed.
End SortSeq.

(** ** The pointer programs *)

(** [h'] holds the list [ys] at [l], made of the nodes of [xs] in [h]. *)
Definition relinks (h : heap) (l : Z) (xs ys : list Z) (h' : heap) : Prop :=
  is_list h' l ys /\ touches h h' (nodes l xs).

Lemma nodes_perm l xs ys : xs ≡ₚ ys -> nodes l xs ≡ₚ nodes l ys.
Proof. intros Hp. unfold nodes. by rewrite Hp. Qed.

Lemma relinks_refl h l xs : is_list h l xs -> relinks h l xs xs h.
Proof. intros H. split; [done|apply touches_refl]. Qed.

Lemma relinks_trans h1 h2 h3 l xs ys zs : xs ≡ₚ ys ->
  relinks h1 l xs ys h2 -> relinks h2 l ys zs h3 -> relinks h1 l xs zs h3.
Proof.
  intros Hp [_ T1] [L2 T2]. split; [done|].
  eapply touches_weaken; [|eapply touches_trans; [exact T1|exact T2]].
  intros i. rewrite elem_of_app, (nodes_perm l xs ys Hp). tauto.
Qed.

Section Ranges.
Implicit Types (h : heap) (l : Z) (P A B F T ys : list Z).

(** Two cursors of a list are equal when nothing lies between them. *)
Lemma cur_range h l P ys T : is_list h l (P ++ ys ++ T) ->
  (cur l (ys ++ T) =? cur l T) = bool_decide (ys = []).
Proof.
  intros Hl. destruct ys as [|y ys]; [by rewrite Z.eqb_refl|].
  rewrite bool_decide_eq_false_2 by done. apply Z.eqb_neq. simpl.
  pose proof (is_list_nodup _ _ _ Hl) as (_ & _ & [Hy _]%NoDup_cons)%NoDup_app.
  destruct T as [|t T].
  - apply (elem_not_tail _ _ _ _ Hl). inl.
  - intros ->. apply Hy. simpl. inl.
Qed.

Lemma cur_nonnull h l P T : is_list h l (P ++ T) -> cur l T <> NULL.
Proof.
  intros Hl. destruct T as [|t T]; simpl.
  - destruct Hl as [_ _ Hn]. rewrite Forall_forall in Hn. apply Hn. unfold nodes. inl.
  - apply (elem_nonnull _ _ _ _ Hl). inl.
Qed.

Lemma list_prev_cons h l P x y T : is_list h l (P ++ x :: y :: T) -> list_prev y h = Done (x, h).
Proof.
  intros Hl. assert (is_list h l ((P ++ [x]) ++ y :: T)) as Hl' by by rewrite <- app_assoc.
  pose proof (list_prev_spec h l (P ++ [x]) (y :: T) Hl') as H. by rewrite last_last in H.
Qed.

Lemma list_splice_spec h l P A F T : A <> [] -> F <> [] -> is_list h l (P ++ A ++ F ++ T) ->
  exists h', list_splice (cur l (A ++ F ++ T)) (cur l (F ++ T)) (cur l T) h = Done (tt, h') /\
    relinks h l (P ++ A ++ F ++ T) (P ++ F ++ A ++ T) h'.
Proof.
  intros NA NF [Hs Hd Hn].
  assert (nodes l (P ++ A ++ F ++ T) = (head_of l :: P) ++ A ++ F ++ (T ++ [tail_of l])) as E1
    by (unfold nodes; by rewrite <- !app_assoc).
  assert (nodes l (P ++ F ++ A ++ T) = (head_of l :: P) ++ F ++ A ++ (T ++ [tail_of l])) as E2
    by (unfold nodes; by rewrite <- !app_assoc).
  rewrite E1 in Hs, Hd, Hn.
  destruct (list_splice_seg h (head_of l :: P) A F (T ++ [tail_of l]))
    as (h' & Hr & Hs' & Ht); try done; [by destruct T|].
  exists h'. rewrite <- E1, <- E2 in *. split.
  - destruct A, F, T; done.
  - assert (nodes l (P ++ A ++ F ++ T) ≡ₚ nodes l (P ++ F ++ A ++ T)) as Hp.
    { apply nodes_perm. apply Permutation_app_head. rewrite !app_assoc.
      apply Permutation_app_tail, Permutation_app_comm. }
    split; [split; [done| |]; by rewrite <- Hp|done].
Qed.
End Ranges.

(** Shift the cursor: [P ++ x :: ys] as [(P ++ [x]) ++ ys]. *)
Ltac shift_cursor := rewrite <- app_assoc; first [assumption | eassumption | done].

Section Runs.
Variable less : Z -> Z -> bool.
Implicit Types (h : heap) (l : Z) (P A B F T ys : list Z).

Lemma find_end_of_run_loop_spec h l T ys : forall P x fuel,
  is_list h l (P ++ x :: ys ++ T) -> (length ys < fuel)%nat ->
  find_end_of_run_loop less fuel x (cur l T) h =
    Done (cur l ((run_split less x ys).2 ++ T), h).
Proof.
  induction ys as [|y ys IH]; intros P x fuel Hl Hf;
    (destruct fuel as [|fuel]; [simpl in Hf; lia|]); cbn [find_end_of_run_loop];
    (erewrite bind_done; [|by eapply list_next_spec]).
  - cbn [app]. by rewrite Z.eqb_refl.
  - rewrite (cur_range h l (P ++ [x]) (y :: ys) T) by shift_cursor.
    rewrite bool_decide_eq_false_2 by done. cbn [cur app List.hd].
    erewrite bind_done; [|by eapply list_prev_cons].
    cbn [run_split]. destruct (less y x); [done|].
    rewrite (IH (P ++ [x])); [|shift_cursor|simpl in Hf; lia].
    by destruct (run_split less y ys).
Qed.

Lemma find_end_of_run_spec h l P x ys T fuel : is_list h l (P ++ x :: ys ++ T) ->
  (length ys < fuel)%nat ->
  find_end_of_run less fuel x (cur l T) h = Done (cur l ((run_split less x ys).2 ++ T), h).
Proof.
  intros Hl Hf. unfold find_end_of_run.
  pose proof (cur_range h l P (x :: ys) T Hl) as Hr. cbn [cur app List.hd] in Hr. rewrite Hr.
  pose proof (cur_nonnull h l P (x :: ys ++ T) Hl) as Hx%Z.eqb_neq. cbn [cur List.hd] in Hx.
  assert (is_list h l ((P ++ x :: ys) ++ T)) as Hl' by shift_cursor.
  pose proof (cur_nonnull h l (P ++ x :: ys) T Hl') as Ht%Z.eqb_neq.
  rewrite Hx, Ht. do 3 (erewrite bind_done; [|done]).
  by eapply find_end_of_run_loop_spec.
Qed.

Lemma is_sorted_loop_spec h l T ys : forall P x fuel,
  is_list h l (P ++ x :: ys ++ T) -> (length ys < fuel)%nat ->
  is_sorted_loop less fuel x (cur l T) h = Done (sortedb less x ys, h).
Proof.
  induction ys as [|y ys IH]; intros P x fuel Hl Hf;
    (destruct fuel as [|fuel]; [simpl in Hf; lia|]); cbn [is_sorted_loop];
    (erewrite bind_done; [|by eapply list_next_spec]).
  - cbn [app]. by rewrite Z.eqb_refl.
  - rewrite (cur_range h l (P ++ [x]) (y :: ys) T) by shift_cursor.
    rewrite bool_decide_eq_false_2 by done. cbn [cur app List.hd].
    erewrite bind_done; [|by eapply list_prev_cons].
    cbn [sortedb]. destruct (less y x); [done|].
    apply (IH (P ++ [x])); [shift_cursor|simpl in Hf; lia].
Qed.

Definition sorted_seq (ys : list Z) : bool :=
  match ys with [] => true | y :: ys => sortedb less y ys end.

Lemma sorted_seq_Sorted ys : sorted_seq ys = true <-> Sorted (in_order less) ys.
Proof. destruct ys; [split; [constructor|done]|]. apply sortedb_Sorted. Qed.

Lemma is_sorted_spec h l P ys T fuel : is_list h l (P ++ ys ++ T) ->
  (length ys <= fuel)%nat ->
  is_sorted less fuel (cur l (ys ++ T)) (cur l T) h = Done (sorted_seq ys, h).
Proof.
  intros Hl Hf. unfold is_sorted. rewrite (cur_range h l P ys T Hl).
  destruct ys as [|y ys]; [done|]. rewrite bool_decide_eq_false_2 by done.
  cbn [cur app List.hd]. apply (is_sorted_loop_spec h l T ys P); [done|].
  simpl in Hf. lia.
Qed.

Lemma inplace_merge_loop_spec l T : forall fuel h P A B,
  is_list h l (P ++ A ++ B ++ T) -> (length A + length B < fuel)%nat ->
  exists h', inplace_merge_loop less fuel (cur l (A ++ B ++ T)) (cur l (B ++ T)) (cur l T) h =
      Done (tt, h') /\
    relinks h l (P ++ A ++ B ++ T) (P ++ merge less A B ++ T) h'.
Proof.
  induction fuel as [|fuel IH]; intros h P A B Hl Hf; [lia|]. cbn [inplace_merge_loop].
  rewrite (cur_range h l P A (B ++ T) Hl).
  assert (is_list h l ((P ++ A) ++ B ++ T)) as Hl' by shift_cursor.
  rewrite (cur_range h l (P ++ A) B T Hl').
  destruct A as [|a A]; [exists h; rewrite merge_nil_l; split; [done|by apply relinks_refl]|].
  destruct B as [|b B]; [exists h; rewrite merge_nil_r; split; [done|by apply relinks_refl]|].
  rewrite !bool_decide_eq_false_2 by done. cbn [orb].
  change (cur l ((a :: A) ++ (b :: B) ++ T)) with a.
  change (cur l ((b :: B) ++ T)) with b. rewrite merge_cons.
  destruct (less b a); cbn [negb].
  - erewrite bind_done; [|apply (list_next_spec h l (P ++ a :: A) b (B ++ T)); exact Hl'].
    assert (is_list h l ((P ++ (a :: A) ++ [b]) ++ B ++ T)) as Hl2
      by (rewrite <- !app_assoc; exact Hl).
    pose proof (list_prev_spec h l _ _ Hl2) as Hp. rewrite app_assoc, last_last in Hp.
    erewrite bind_done; [|exact Hp].
    destruct (list_splice_spec h l P (a :: A) [b] (B ++ T)) as (h1 & Hr1 & Hk1); [done..|].
    cbn [app cur List.hd] in Hr1. erewrite bind_done; [|exact Hr1].
    destruct (IH h1 (P ++ [b]) (a :: A) B) as (h2 & Hr2 & Hk2).
    { destruct Hk1 as [Hk1 _]. rewrite <- app_assoc. exact Hk1. }
    { simpl in *. lia. }
    exists h2. split; [exact Hr2|]. rewrite <- !app_assoc in Hk2. cbn [app] in Hk2.
    eapply relinks_trans; [|exact Hk1|exact Hk2].
    cbn [app]. apply Permutation_app_head. symmetry. apply (Permutation_middle (a :: A)).
  - erewrite bind_done; [|apply (list_next_spec h l P a (A ++ (b :: B) ++ T)); exact Hl].
    destruct (IH h (P ++ [a]) A (b :: B)) as (h2 & Hr2 & Hk2).
    { rewrite <- app_assoc. exact Hl. }
    { simpl in *. lia. }
    exists h2. split; [exact Hr2|]. rewrite <- !app_assoc in Hk2. exact Hk2.
Qed.

Lemma inplace_merge_spec l T fuel h P A B : A <> [] -> B <> [] ->
  is_list h l (P ++ A ++ B ++ T) -> sorted_seq A = true -> sorted_seq B = true ->
  (length A + length B < fuel)%nat ->
  exists h', inplace_merge less fuel (cur l (A ++ B ++ T)) (cur l (B ++ T)) (cur l T) h =
      Done (tt, h') /\
    relinks h l (P ++ A ++ B ++ T) (P ++ merge less A B ++ T) h'.
Proof.
  intros NA NB Hl HA HB Hf. unfold inplace_merge.
  assert (is_list h l ((P ++ A) ++ B ++ T)) as Hl1 by shift_cursor.
  assert (is_list h l ((P ++ A ++ B) ++ T)) as Hl2 by (rewrite <- !app_assoc; exact Hl).
  pose proof (cur_nonnull h l _ _ Hl) as N0%Z.eqb_neq.
  pose proof (cur_nonnull h l _ _ Hl1) as N1%Z.eqb_neq.
  pose proof (cur_nonnull h l _ _ Hl2) as N2%Z.eqb_neq.
  rewrite N0, N1, N2. do 3 (erewrite bind_done; [|done]).
  erewrite bind_done; [|eapply is_sorted_spec; [exact Hl|lia]].
  rewrite HA. erewrite bind_done; [|done].
  erewrite bind_done; [|eapply is_sorted_spec; [exact Hl1|lia]].
  rewrite HB. erewrite bind_done; [|done].
  by apply inplace_merge_loop_spec.
Qed.

Hypothesis asym : forall a b, less a b = true -> less b a = false.

Lemma list_sort_pass_spec l : forall fuel h P ys cnt,
  is_list h l (P ++ ys) -> (length ys < fuel)%nat ->
  exists h', list_sort_pass less fuel l (cur l ys) (u32 cnt) h =
      Done (u32 (cnt + (pass_seq less fuel ys).2), h') /\
    relinks h l (P ++ ys) (P ++ (pass_seq less fuel ys).1) h'.
Proof.
  induction fuel as [|fuel IH]; intros h P ys cnt Hl Hf; [lia|]. cbn [list_sort_pass].
  erewrite bind_done; [|by eapply list_end_spec].
  rewrite (cur_nil_iff _ _ _ _ Hl).
  destruct ys as [|x ys].
  { exists h. rewrite Z.add_0_r. split; [done|by apply relinks_refl]. }
  rewrite bool_decide_eq_false_2 by done. cbv zeta.
  assert (u32 (u32 cnt + 1) = u32 (cnt + 1)) as -> by (unfold u32; by rewrite Zplus_mod_idemp_l).
  change (cur l (x :: ys)) with x. change (tail_of l) with (cur l []).
  erewrite bind_done.
  2:{ apply (find_end_of_run_spec h l P x ys []); [by rewrite app_nil_r|simpl in Hf; lia]. }
  cbn [pass_seq]. destruct (run_split less x ys) as [r s] eqn:Er. cbn [snd].
  destruct (run_split_spec _ _ _ _ _ Er) as (-> & Hs & _). rewrite app_nil_r.
  assert (is_list h l ((P ++ x :: r) ++ s)) as Hl1 by shift_cursor.
  change (cur l []) with (tail_of l). rewrite (cur_nil_iff _ _ _ _ Hl1).
  destruct s as [|y s].
  { rewrite app_nil_r in *. exists h. split; [done|by apply relinks_refl]. }
  rewrite bool_decide_eq_false_2 by done. change (cur l (y :: s)) with y.
  change (tail_of l) with (cur l []).
  simpl in Hf. rewrite length_app in Hf. simpl in Hf.
  erewrite bind_done.
  2:{ apply (find_end_of_run_spec h l (P ++ x :: r) y s []); [by rewrite app_nil_r|lia]. }
  destruct (run_split less y s) as [r2 s2] eqn:Er2. cbn [snd].
  destruct (run_split_spec _ _ _ _ _ Er2) as (-> & Hs2 & _). rewrite app_nil_r.
  rewrite length_app in Hf.
  destruct (inplace_merge_spec l s2 (S fuel) h P (x :: r) (y :: r2)) as (h1 & Hr1 & Hk1);
    [done|done|exact Hl|done|done|simpl; lia|].
  erewrite bind_done; [|exact Hr1].
  destruct (IH h1 (P ++ merge less (x :: r) (y :: r2)) s2 (cnt + 1)) as (h2 & Hr2 & Hk2).
  { rewrite <- app_assoc. apply Hk1. }
  { lia. }
  exists h2. rewrite Hr2. destruct (pass_seq less fuel s2) as [o c]. cbn [fst snd] in *.
  split; [do 3 f_equal; lia|]. rewrite <- !app_assoc in Hk2.
  eapply relinks_trans; [|exact Hk1|exact Hk2].
  apply Permutation_app_head. rewrite merge_perm. by rewrite <- app_assoc.
Qed.

Lemma list_sort_loop_spec l fuel : forall k h xs,
  is_list h l xs -> (length xs < fuel)%nat -> zlen xs < 2 ^ 32 -> runs less xs < Z.of_nat k ->
  exists h' ys, list_sort_loop less k fuel l h = Done (tt, h') /\
    relinks h l xs ys h' /\ ys ≡ₚ xs /\ Sorted (in_order less) ys.
Proof.
  induction k as [|k IH]; intros h xs Hl Hf Hx Hk.
  { pose proof (runs_nonneg less xs). lia. }
  cbn [list_sort_loop]. erewrite bind_done; [|by apply list_begin_spec].
  destruct (list_sort_pass_spec l fuel h [] xs 0 Hl Hf) as (h1 & Hr1 & Hk1).
  erewrite bind_done; [|exact Hr1]. cbn [app] in *.
  destruct (pass_seq less fuel xs) as [o c] eqn:Ep. cbn [fst snd] in *.
  destruct (pass_seq_spec less asym fuel xs o c) as (Hp & H0 & Hro & H2 & Hs & _ & Hc);
    [lia|done|].
  rewrite Z.add_0_l, u32_small by lia. zcase.
  - destruct (IH h1 o) as (h2 & ys & Hr2 & Hk2 & Hp2 & Hs2).
    + apply Hk1.
    + by rewrite Hp.
    + unfold zlen in *. by rewrite Hp.
    + lia.
    + exists h2, ys. split; [done|]. split; [by eapply relinks_trans; [symmetry; exact Hp| |]|].
      split; [by rewrite Hp2|done].
  - exists h1, o. split; [done|]. split; [done|]. split; [done|]. apply Hs. lia.
Qed.
End Runs.

(** ** The promises of the sorting and ordered operations *)

Section Promises.
Variable less : Z -> Z -> bool.
Implicit Types (h : heap) (l e : Z) (xs ys ds : list Z).

(** C16: [list_sort] terminates without a failing assertion and leaves a list of
    the same elements in nondecreasing order, for every asymmetric comparison
    (even one that is not transitive), touching no node outside the list. *)
Theorem list_sort_correct h l xs fuel :
  (forall a b, less a b = true -> less b a = false) ->
  is_list h l xs -> (length xs < fuel)%nat -> zlen xs < 2 ^ 32 ->
  exists h' ys, list_sort less fuel l h = Done (tt, h') /\
    is_list h' l ys /\ ys ≡ₚ xs /\ Sorted (in_order less) ys /\
    touches h h' (nodes l xs).
Proof.
  intros Ha Hl Hf Hx.
  destruct (list_sort_loop_spec less Ha l fuel fuel h xs Hl Hf Hx) as (h' & ys & Hr & [Hl' Ht] & Hp & Hs).
  { pose proof (runs_length less xs). unfold zlen in *. lia. }
  exists h', ys. split; [|done]. unfold list_sort.
  rewrite (is_list_l_nonnull _ _ _ Hl). erewrite bind_done; [|done].
  erewrite bind_done; [|exact Hr].
  erewrite bind_done; [|by apply list_begin_spec].
  erewrite bind_done; [|by eapply list_end_spec].
  assert (is_list h' l ([] ++ ys ++ [])) as Hl2 by by rewrite app_nil_r.
  pose proof (is_sorted_spec less h' l [] ys [] fuel Hl2) as Hsd. rewrite app_nil_r in Hsd.
  erewrite bind_done; [|apply Hsd; rewrite Hp; lia].
  assert (sorted_seq less ys = true) as -> by by apply sorted_seq_Sorted. done.
Qed.

(** Where [list_insert_ordered] puts [e]. *)
Fixpoint insert_seq (e : Z) (xs : list Z) : list Z :=
  match xs with
  | [] => [e]
  | x :: xs' => if less e x then e :: xs else x :: insert_seq e xs'
  end.

Lemma insert_position_spec h l e xs : forall P fuel,
  is_list h l (P ++ xs) -> (length xs < fuel)%nat ->
  exists ys zs, xs = ys ++ zs /\ insert_seq e xs = ys ++ e :: zs /\
    Forall (fun y => less e y = false) ys /\
    match zs with [] => True | z :: _ => less e z = true end /\
    insert_position less fuel l e (cur l xs) h = Done (cur l zs, h).
Proof.
  induction xs as [|x xs IH]; intros P fuel Hl Hf;
    (destruct fuel as [|fuel]; [simpl in Hf; lia|]); cbn [insert_position insert_seq];
    (erewrite bind_done; [|by eapply list_end_spec]); rewrite (cur_nil_iff _ _ _ _ Hl).
  - by exists [], [].
  - rewrite bool_decide_eq_false_2 by done. cbn [cur List.hd].
    destruct (less e x) eqn:E; [by exists [], (x :: xs)|].
    erewrite bind_done; [|by eapply list_next_spec].
    destruct (IH (P ++ [x]) fuel) as (ys & zs & -> & -> & ? & ? & ->);
      [by rewrite <- app_assoc|simpl in Hf; lia|]. exists (x :: ys), zs. auto.
Qed.

Lemma insert_seq_perm e xs : insert_seq e xs ≡ₚ e :: xs.
Proof.
  induction xs as [|x xs IH]; [done|]. simpl. destruct (less e x); [done|].
  rewrite IH. apply perm_swap.
Qed.

Lemma insert_seq_Sorted e xs : (forall a b, less a b = true -> less b a = false) ->
  Sorted (in_order less) xs -> Sorted (in_order less) (insert_seq e xs).
Proof.
  intros Ha. induction xs as [|x xs IH]; intros Hs; [by repeat constructor|]. simpl.
  destruct (less e x) eqn:E; [constructor; [done|constructor; by apply Ha]|].
  apply Sorted_inv in Hs as [Hs Hx]. constructor; [by apply IH|].
  destruct xs as [|y xs]; [by constructor|]. simpl. inversion Hx.
  destruct (less e y); by constructor.
Qed.

(** [list_insert_ordered] links an allocated new element into a sorted list
    just before the first element it is less than, and keeps it sorted. *)
Theorem list_insert_ordered_correct h l xs e fuel :
  (forall a b, less a b = true -> less b a = false) ->
  is_list h l xs -> Sorted (in_order less) xs -> fresh h l xs e -> (length xs < fuel)%nat ->
  exists h' ys zs, list_insert_ordered less fuel l e h = Done (tt, h') /\
    xs = ys ++ zs /\ is_list h' l (ys ++ e :: zs) /\ Sorted (in_order less) (ys ++ e :: zs) /\
    Forall (fun y => less e y = false) ys /\
    match zs with [] => True | z :: _ => less e z = true end.
Proof.
  intros Ha Hl Hs Hfr Hf. pose proof (insert_seq_Sorted e xs Ha Hs) as Hs'.
  destruct (insert_position_spec h l e xs [] fuel Hl Hf) as (ys & zs & -> & Hi & ? & ? & Hpos).
  destruct (list_insert_spec h l ys zs e Hl Hfr) as (h' & Hr & Hl' & _).
  exists h', ys, zs. split.
  - unfold list_insert_ordered. rewrite (is_list_l_nonnull _ _ _ Hl).
    destruct Hfr as (_ & He & _). apply Z.eqb_neq in He. rewrite He.
    do 2 (erewrite bind_done; [|done]).
    erewrite bind_done; [|by apply list_begin_spec].
    erewrite bind_done; [|exact Hpos]. exact Hr.
  - rewrite Hi in Hs'. by split_and!.
Qed.
End Promises.

(** ** list_reverse *)

Section Reverse.
Implicit Types (h : heap) (l e : Z) (xs ys P R : list Z).

Lemma swap_links_run h e p n : h !! e = Some (p, n) ->
  swap_links e h = Done (tt, <[e := (n, p)]> h).
Proof.
  intros He. unfold swap_links.
  erewrite bind_done; [|apply prev_of_run; by rewrite He].
  erewrite bind_done; [|apply next_of_run; by rewrite He].
  erewrite bind_done; [|unfold set_prev; rewrite He; done].
  unfold set_next. by rewrite lookup_insert_eq, insert_insert_eq.
Qed.

Lemma last_rev P d : List.last P d = List.hd d (rev P).
Proof. induction P as [|x P _] using rev_ind; [done|]. by rewrite last_last, rev_unit. Qed.

Lemma hd_rev P d : List.hd d P = List.last (rev P) d.
Proof. by rewrite last_rev, rev_involutive. Qed.

Lemma elem_of_rev P e : e ∈ rev P <-> e ∈ P.
Proof. by rewrite rev_alt, <- rev_alt, <- (Permutation_rev P). Qed.

(** The state in the middle of the loop: [P] is already reversed, [R] is not. *)
Definition reversing h l P R : Prop :=
  dseg h (cur l R) (rev P) (head_of l) /\
  dseg h (List.last P (head_of l)) R (tail_of l).

Lemma list_reverse_loop_spec l : forall R P h fuel,
  l <> NULL -> NoDup (P ++ R) -> (tail_of l ∉ R) -> reversing h l P R -> (length R < fuel)%nat ->
  exists h', list_reverse_loop fuel l (cur l R) h = Done (tt, h') /\
    reversing h' l (P ++ R) [] /\ touches h h' R.
Proof.
  induction R as [|x R IH]; intros P h fuel Hl Hnd Ht [D1 D2] Hf;
    (destruct fuel as [|fuel]; [simpl in Hf; lia|]); cbn [list_reverse_loop];
    unfold list_end; apply Z.eqb_neq in Hl as Hl'; rewrite Hl'; cbn [negb];
    (erewrite bind_done; [|by erewrite bind_done]).
  - cbn [cur List.hd]. rewrite Z.eqb_refl. exists h. rewrite app_nil_r.
    split; [done|]. split; [done|apply touches_refl].
  - cbn [cur List.hd]. destruct (Z.eqb_spec x (tail_of l)) as [->|_]; [exfalso; apply Ht; inl|].
    destruct D2 as [Hx D2].
    erewrite bind_done; [|by apply swap_links_run].
    erewrite bind_done; [|apply prev_of_run; by rewrite lookup_insert_eq].
    apply NoDup_mid in Hnd as Hm. destruct Hm as (_ & _ & Hx1 & Hx2 & _).
    fold (cur l R).
    destruct (IH (P ++ [x]) (<[x := (cur l R, List.last P (head_of l))]> h) fuel)
      as (h' & Hr & Hrev & Htch).
    + done.
    + by rewrite <- app_assoc.
    + intros Hin. apply Ht. inl.
    + split.
      * rewrite rev_unit. cbn [dseg]. rewrite lookup_insert_eq, <- last_rev. split; [done|].
        apply (dseg_frame h); [|done]. intros i Hi. rewrite lookup_insert_ne; [done|].
        intros <-. by apply Hx1, elem_of_rev.
      * rewrite last_last. apply (dseg_frame h); [|done]. intros i Hi.
        rewrite lookup_insert_ne; [done|]. by intros <-.
    + simpl in Hf. lia.
    + exists h'. rewrite <- app_assoc in Hrev. split; [done|]. split; [done|].
      destruct Htch as [F1 F2]. split; intros i.
      * intros Hi. rewrite F1 by (intros ?; apply Hi; inl).
        rewrite lookup_insert_ne; [done|]. intros <-. apply Hi. inl.
      * rewrite F2. destruct (decide (i = x)) as [->|Hne].
        -- rewrite lookup_insert_eq. rewrite Hx. by split; eexists.
        -- by rewrite lookup_insert_ne.
Qed.

Lemma swap_sentinels_spec h l Y : Y <> [] -> NoDup (nodes l Y) ->
  h !! head_of l = Some (NULL, List.last Y (head_of l)) ->
  h !! tail_of l = Some (List.hd (tail_of l) Y, NULL) ->
  dseg h (tail_of l) Y (head_of l) ->
  exists h', swap_sentinels l h = Done (tt, h') /\ dseg h' NULL (nodes l Y) NULL /\
    touches h h' (nodes l Y).
Proof.
  intros NY Hd Eh Et D. unfold nodes in *.
  apply NoDup_cons in Hd as [Hhd (Nd & Hdj & _)%NoDup_app].
  assert (head_of l ∉ Y) as Hh by (intros ?; apply Hhd; inl).
  assert (tail_of l ∉ Y) as Ht by (intros ?; eapply Hdj; [done|inl]).
  assert (head_of l <> tail_of l) as Hht by (intros E; apply Hhd; rewrite E; inl).
  set (A := List.hd (tail_of l) Y) in *. set (Z := List.last Y (head_of l)) in *.
  assert (A ∈ Y) as HA by by apply hd_in. assert (Z ∈ Y) as HZ by by apply last_in.
  assert (A <> head_of l) by congruence. assert (A <> tail_of l) by congruence.
  assert (Z <> head_of l) by congruence. assert (Z <> tail_of l) by congruence.
  pose proof (dseg_first h _ _ _ (tail_of l) NY D) as RA. fold A in RA.
  pose proof (dseg_last h _ _ _ (head_of l) NY D) as RZ. fold Z in RZ.
  assert (is_Some (h !! head_of l)) as Mh by by eexists.
  assert (is_Some (h !! tail_of l)) as Mt by by eexists.
  set (h2 := nxt (head_of l) A h). set (h3 := prv (tail_of l) Z h2).
  set (h4 := prv A (head_of l) h3). set (h5 := nxt Z (tail_of l) h4).
  assert (h3 !! head_of l = Some (NULL, A)) as E3h.
  { unfold h3. rewrite prv_other by done. unfold h2, nxt. by rewrite lookup_alter_eq, Eh. }
  assert (h3 !! tail_of l = Some (Z, NULL)) as E3t.
  { unfold h3, prv. rewrite lookup_alter_eq. unfold h2. by rewrite nxt_other, Et. }
  assert (dseg h3 (tail_of l) Y (head_of l)) as D3.
  { unfold h3, h2. dframe. }
  pose proof (dseg_first h3 _ _ _ (tail_of l) NY D3) as RA3. fold A in RA3.
  pose proof (dseg_last h3 _ _ _ (head_of l) NY D3) as RZ3. fold Z in RZ3.
  exists h5. split; [|split].
  - unfold swap_sentinels.
    erewrite bind_done; [|apply (next_of_run _ _ Z); by rewrite Eh].
    erewrite bind_done; [|apply (prev_of_run _ _ A); by rewrite Et].
    erewrite bind_done; [|by apply set_next_run]. fold h2.
    erewrite bind_done; [|apply set_prev_run; unfold h2; mapped]. fold h3.
    erewrite bind_done; [|apply (next_of_run _ _ A); by rewrite E3h].
    erewrite bind_done; [|apply (prev_of_run _ _ Z); by rewrite E3t].
    do 2 hread.
    erewrite bind_done; [|apply set_prev_run; mapped]. fold h4.
    apply set_next_run. unfold h4. mapped.
  - change (head_of l :: Y ++ [tail_of l]) with ([head_of l] ++ Y ++ [tail_of l]).
    apply dseg_app. split; [|apply dseg_app; split].
    + cbn [dseg List.hd]. split; [|done]. unfold h5. rewrite nxt_other by done.
      unfold h4. rewrite (prv_other h3) by done. rewrite E3h. unfold A. by destruct Y.
    + cbn [List.last List.hd]. unfold h5, Z. apply (dseg_nxt_last _ _ _ (head_of l)); [done..|].
      unfold h4, A. by apply (dseg_prv_first _ (tail_of l)).
    + cbn [dseg List.last List.hd]. split; [|done]. unfold h5. rewrite nxt_other by done.
      unfold h4. by rewrite (prv_other h3), E3t by done.
  - unfold h5, h4, h3, h2. touched.
Qed.

(** [list_reverse] reverses the list in place and touches no other node. *)
Theorem list_reverse_correct h l xs fuel : is_list h l xs -> (length xs < fuel)%nat ->
  exists h', list_reverse fuel l h = Done (tt, h') /\ relinks h l xs (rev xs) h'.
Proof.
  intros Hl Hf. unfold list_reverse.
  erewrite bind_done; [|by apply list_empty_spec].
  destruct (decide (xs = [])) as [->|Nx].
  { exists h. split; [done|]. by apply relinks_refl. }
  rewrite bool_decide_eq_false_2 by done.
  erewrite bind_done; [|by apply list_begin_spec].
  assert (nodes l (rev xs) ≡ₚ nodes l xs) as Hp by apply nodes_perm, symmetry, Permutation_rev.
  pose proof Hl as [Hs Hd Hn].
  assert (Hd' := Hd). apply NoDup_cons in Hd' as [Hhd (Nd & Hdj & _)%NoDup_app].
  assert (tail_of l ∉ xs) as Ht by (intros ?; eapply Hdj; [done|inl]).
  unfold nodes in Hs. cbn [dseg] in Hs. destruct Hs as [Eh Hs].
  apply dseg_app in Hs as [Dx [Et _]]. cbn [List.hd] in *.
  destruct (list_reverse_loop_spec l xs [] h fuel) as (h1 & Hr1 & [R1 _] & T1);
    [by inversion Hn|done|done|by split|done|].
  erewrite bind_done; [|exact Hr1]. cbn [app cur List.hd] in R1.
  destruct T1 as [F1 G1].
  destruct (swap_sentinels_spec h1 l (rev xs)) as (h2 & Hr2 & D2 & F2 & G2).
  - intros E. apply Nx. rewrite <- (rev_involutive xs), E. done.
  - by rewrite Hp.
  - rewrite F1, Eh by (intros ?; apply Hhd; inl). rewrite <- hd_rev. by destruct xs.
  - rewrite F1, Et by done. by rewrite <- last_rev, (last_default xs _ (tail_of l)).
  - exact R1.
  - exists h2. split; [done|]. split; [split; [done|by rewrite Hp..]|]. split.
    + intros i Hi. rewrite F2, F1; [done|unfold nodes in Hi; intros ?; apply Hi; inl|by rewrite Hp].
    + intros i. by rewrite G2, G1.
Qed.
End Reverse.

(** ** list_unique *)

Section Unique.
Variable less : Z -> Z -> bool.
Implicit Types (h : heap) (l d e : Z) (xs ys ds P : list Z).

Definition equivb (x y : Z) : bool := negb (less x y) && negb (less y x).

(** After [x], the elements kept and the elements removed. *)
Fixpoint unique_seq (x : Z) (ys : list Z) : list Z * list Z :=
  match ys with
  | [] => ([], [])
  | y :: ys' =>
      if equivb x y then let '(k, r) := unique_seq x ys' in (k, y :: r)
      else let '(k, r) := unique_seq y ys' in (y :: k, r)
  end.

(** The list of duplicates is absent, or holds [ds] and is disjoint from [xs]. *)
Definition dups_at h l xs d ds : Prop :=
  d = NULL \/ (d <> NULL /\ is_list h d ds /\ forall e, e ∈ nodes l xs -> e ∉ nodes d ds).

Lemma unique_step h l P y ys d ds : is_list h l (P ++ y :: ys) ->
  dups_at h l (P ++ y :: ys) d ds ->
  exists h1 h2, list_remove y h = Done (cur l ys, h1) /\
    (if d =? NULL then mret tt else list_push_back d y) h1 = Done (tt, h2) /\
    is_list h2 l (P ++ ys) /\ dups_at h2 l (P ++ ys) d (ds ++ [y]).
Proof.
  intros Hl Hd. destruct (list_remove_spec h l P y ys Hl) as (h1 & Hr & Hl1 & Ht & Hfr).
  assert (forall e, e ∈ nodes l (P ++ ys) -> e ∈ nodes l (P ++ y :: ys)) as Hsub.
  { intros e. unfold nodes. rewrite !elem_of_cons, !elem_of_app, !elem_of_cons. tauto. }
  exists h1. destruct Hd as [->|(Nd & Hds & Hdj)].
  { exists h1. split_and!; [done..|by left]. }
  apply Z.eqb_neq in Nd as Nd'. rewrite Nd'.
  assert (is_list h1 d ds) as Hds1.
  { eapply is_list_touches; [exact Hds|exact Ht|]. intros e He He'. eapply Hdj; [|exact He].
    by apply Hsub. }
  destruct Hfr as (Hm & Hy & Hny).
  assert (y ∉ nodes d ds) as Hyd by (apply Hdj; unfold nodes; inl).
  destruct (list_push_back_spec h1 d ds y Hds1) as (h2 & Hr2 & Hds2 & Ht2); [done|].
  exists h2. split_and!; [done..| |].
  - eapply is_list_touches; [exact Hl1|exact Ht2|]. intros e He [->|He']%elem_of_cons; [done|].
    eapply Hdj; [|exact He']. by apply Hsub.
  - right. split_and!; [done..|]. intros e He He'.
    assert (e = y \/ e ∈ nodes d ds) as [->|He2].
    { revert He'. unfold nodes. rewrite !elem_of_cons, !elem_of_app, !list_elem_of_singleton. tauto. }
    + done.
    + eapply Hdj; [|exact He2]. by apply Hsub.
Qed.

Lemma list_unique_loop_spec l d : forall ys h P x ds fuel,
  is_list h l (P ++ x :: ys) -> dups_at h l (P ++ x :: ys) d ds -> (length ys < fuel)%nat ->
  exists h', list_unique_loop less fuel l d x h = Done (tt, h') /\
    is_list h' l (P ++ x :: (unique_seq x ys).1) /\
    dups_at h' l (P ++ x :: (unique_seq x ys).1) d (ds ++ (unique_seq x ys).2).
Proof.
  induction ys as [|y ys IH]; intros h P x ds fuel Hl Hd Hf;
    (destruct fuel as [|fuel]; [simpl in Hf; lia|]); cbn [list_unique_loop];
    (erewrite bind_done; [|by eapply list_next_spec]);
    (erewrite bind_done; [|by eapply list_end_spec]).
  - cbn [cur List.hd]. rewrite Z.eqb_refl. exists h. by rewrite app_nil_r.
  - assert (is_list h l ((P ++ [x]) ++ y :: ys)) as Hl' by shift_cursor.
    rewrite (cur_nil_iff _ _ _ _ Hl'). rewrite bool_decide_eq_false_2 by done.
    cbn [cur List.hd unique_seq]. fold (equivb x y). simpl in Hf. destruct (equivb x y) eqn:E.
    + destruct (unique_step h l (P ++ [x]) y ys d ds) as (h1 & h2 & Hr1 & Hr2 & Hl2 & Hd2);
        [done|by rewrite <- app_assoc|].
      erewrite bind_done; [|exact Hr1]. erewrite bind_done; [|exact Hr2].
      rewrite <- app_assoc in Hl2, Hd2.
      destruct (IH h2 P x (ds ++ [y]) fuel Hl2 Hd2) as (h' & ? & ? & Hd'); [lia|].
      destruct (unique_seq x ys) as [k r]. rewrite <- app_assoc in Hd'. by exists h'.
    + destruct (IH h (P ++ [x]) y ds fuel) as (h' & ? & ? & Hd'); [by rewrite <- app_assoc..|lia|].
      destruct (unique_seq y ys) as [k r]. rewrite <- app_assoc in *. by exists h'.
Qed.

(** Adjacent elements of the result differ, and nothing is lost. *)
Lemma unique_seq_spec x ys k r : unique_seq x ys = (k, r) ->
  k ++ r ≡ₚ ys /\ Sorted (fun a b => equivb a b = false) (x :: k) /\ sublist (x :: k) (x :: ys).
Proof.
  revert x k r. induction ys as [|y ys IH]; intros x k r; simpl.
  - intros [= <- <-]. split_and!; [done|by repeat constructor|done].
  - destruct (equivb x y) eqn:E.
    + destruct (unique_seq x ys) as [k' r'] eqn:Eu. intros [= <- <-].
      destruct (IH _ _ _ Eu) as (Hp & Hs & Hsub). split_and!; [|done|].
      * rewrite <- Permutation_middle. by rewrite Hp.
      * inversion Hsub; subst; [by apply sublist_skip, sublist_cons|by do 2 apply sublist_cons].
    + destruct (unique_seq y ys) as [k' r'] eqn:Eu. intros [= <- <-].
      destruct (IH _ _ _ Eu) as (Hp & Hs & Hsub). split_and!.
      * simpl. by rewrite Hp.
      * constructor; [done|by constructor].
      * by apply sublist_skip.
Qed.

(** [list_unique] removes every element that equals the kept one before it,
    appends the removed elements in order to [duplicates] when that is not
    NULL, and leaves a list without equal neighbours. *)
Theorem list_unique_correct h l x ys d ds fuel :
  is_list h l (x :: ys) -> dups_at h l (x :: ys) d ds -> (length ys < fuel)%nat ->
  exists h' k r, list_unique less fuel l d h = Done (tt, h') /\
    is_list h' l (x :: k) /\ dups_at h' l (x :: k) d (ds ++ r) /\
    k ++ r ≡ₚ ys /\ sublist (x :: k) (x :: ys) /\
    Sorted (fun a b => less a b || less b a = true) (x :: k).
Proof.
  intros Hl Hd Hf.
  destruct (list_unique_loop_spec l d ys h [] x ds fuel Hl Hd Hf) as (h' & Hr & Hl' & Hd').
  destruct (unique_seq x ys) as [k r] eqn:Eu. destruct (unique_seq_spec _ _ _ _ Eu) as (? & Hs & ?).
  exists h', k, r. split_and!; try done.
  - unfold list_unique. rewrite (is_list_l_nonnull _ _ _ Hl). erewrite bind_done; [|done].
    erewrite bind_done; [|by apply list_empty_spec]. rewrite bool_decide_eq_false_2 by done.
    erewrite bind_done; [|by apply list_begin_spec]. exact Hr.
  - clear -Hs. induction Hs as [|a xs Hs IH Hd]; constructor; [done|].
    destruct Hd as [|b xs Hab]; constructor. unfold equivb in Hab.
    destruct (less a b), (less b a); done.
Qed.
End Unique.

(** ** Concrete inputs *)

(** Elements are addresses; the example comparison orders them by address. *)
Definition demo_heap : heap :=
  list_to_map [(64, (0, 300)); (300, (64, 100)); (100, (300, 200)); (200, (100, 72));
               (72, (200, 0)); (500, (0, 0)); (80, (0, 88)); (88, (80, 0))].

Lemma demo_list : is_list demo_heap 64 [300; 100; 200].
Proof.
  split.
  - vm_compute. repeat split.
  - by_decide.
  - by repeat constructor.
Qed.

Definition demo_sorted_heap : heap :=
  list_to_map [(64, (0, 100)); (100, (64, 200)); (200, (100, 300)); (300, (200, 72));
               (72, (300, 0)); (150, (0, 0))].

Lemma demo_sorted_list : is_list demo_sorted_heap 64 [100; 200; 300].
Proof.
  split.
  - vm_compute. repeat split.
  - by_decide.
  - by repeat constructor.
Qed.

Lemma ltb_asym a b : (a <? b) = true -> (b <? a) = false.
Proof. lia. Qed.

Lemma list_sort_correct_witness :
  exists h' ys, list_sort Z.ltb 10 64 demo_heap = Done (tt, h') /\
    is_list h' 64 ys /\ ys ≡ₚ [300; 100; 200] /\ Sorted (in_order Z.ltb) ys /\
    touches demo_heap h' (nodes 64 [300; 100; 200]).
Proof.
  apply (list_sort_correct Z.ltb demo_heap 64 [300; 100; 200] 10).
  - exact ltb_asym.
  - exact demo_list.
  - simpl. lia.
  - vm_compute. reflexivity.
Defined.

Lemma list_insert_ordered_correct_witness :
  exists h' ys zs, list_insert_ordered Z.ltb 10 64 150 demo_sorted_heap = Done (tt, h') /\
    [100; 200; 300] = ys ++ zs /\ is_list h' 64 (ys ++ 150 :: zs) /\
    Sorted (in_order Z.ltb) (ys ++ 150 :: zs) /\ Forall (fun y => (150 <? y) = false) ys /\
    match zs with [] => True | z :: _ => (150 <? z) = true end.
Proof.
  apply (list_insert_ordered_correct Z.ltb demo_sorted_heap 64 [100; 200; 300] 150 10).
  - exact ltb_asym.
  - exact demo_sorted_list.
  - repeat constructor.
  - split; [by eexists|]. split; [done|]. by_decide.
  - simpl. lia.
Defined.

Lemma list_reverse_correct_witness :
  exists h', list_reverse 10 64 demo_heap = Done (tt, h') /\
    relinks demo_heap 64 [300; 100; 200] (rev [300; 100; 200]) h'.
Proof. apply (list_reverse_correct demo_heap 64 [300; 100; 200] 10); [exact demo_list|simpl; lia]. Defined.

Lemma list_unique_correct_witness :
  exists h' k r, list_unique (fun a b => (a / 200 <? b / 200)) 10 64 80 demo_heap = Done (tt, h') /\
    is_list h' 64 (300 :: k) /\ dups_at h' 64 (300 :: k) 80 ([] ++ r) /\
    k ++ r ≡ₚ [100; 200] /\ sublist (300 :: k) [300; 100; 200] /\
    Sorted (fun a b => (a / 200 <? b / 200) || (b / 200 <? a / 200) = true) (300 :: k).
Proof.
  apply (list_unique_correct _ demo_heap 64 300 [100; 200] 80 [] 10).
  - exact demo_list.
  - right. split; [done|]. split.
    + split; [vm_compute; repeat split|by_decide|by repeat constructor].
    + intros e He. repeat (apply elem_of_cons in He as [->|He]; [by_decide|]).
      by apply not_elem_of_nil in He.
  - simpl. lia.
Defined.
