(* ===== verification/Bitmap.v ===== *)
(** * lib/kernel/bitmap.c: bitmaps

    A [struct bitmap] is its bit count and its array of 32-bit elements.  The
    operations run on the element array with the shifts and masks of the code;
    [bit b i] is the abstract bitmap, a function from indexes to booleans, that
    the theorems of this file speak about.  [size_t] arithmetic wraps at 2^32. *)

From S2P Require Import Prelude Vaddr.

Record bitmap := mk_bitmap {
  bit_cnt : Z;           (* number of bits *)
  bits : list Z          (* elements that represent bits *)
}.

Definition ELEM_BITS : Z := 32.
Definition BITMAP_ERROR : Z := 2 ^ 32 - 1.

Definition elem_idx (bit_idx : Z) : Z := bit_idx / ELEM_BITS.
Definition bit_mask (bit_idx : Z) : Z := u32 (Z.shiftl 1 (bit_idx mod ELEM_BITS)).
(** [DIV_ROUND_UP (bit_cnt, ELEM_BITS)] in [size_t]. *)
Definition elem_cnt (bit_cnt : Z) : Z := u32 (bit_cnt + ELEM_BITS - 1) / ELEM_BITS.
Definition byte_cnt (bit_cnt : Z) : Z := u32 (4 * elem_cnt bit_cnt).
Definition last_mask (b : bitmap) : Z :=
  let last_bits := bit_cnt b mod ELEM_BITS in
  if last_bits =? 0 then 2 ^ 32 - 1 else u32 (Z.shiftl 1 last_bits) - 1.

Definition bitmap_size (b : bitmap) : Z := bit_cnt b.

(** [b->bits[idx] = f (b->bits[idx])], a fault outside the array. *)
Definition update_elem (idx : Z) (f : Z -> Z) : M bitmap unit := fun b =>
  match zget (bits b) idx with
  | Some w => Done (tt, mk_bitmap (bit_cnt b) (zset (bits b) idx (f w)))
  | None => Fault
  end.

Definition bitmap_mark (bit_idx : Z) : M bitmap unit :=
  let idx := elem_idx bit_idx in
  let mask := bit_mask bit_idx in
  update_elem idx (fun w => Z.lor w mask).

Definition bitmap_reset (bit_idx : Z) : M bitmap unit :=
  let idx := elem_idx bit_idx in
  let mask := bit_mask bit_idx in
  update_elem idx (fun w => Z.land w (not32 mask)).

Definition bitmap_flip (bit_idx : Z) : M bitmap unit :=
  let idx := elem_idx bit_idx in
  let mask := bit_mask bit_idx in
  update_elem idx (fun w => Z.lxor w mask).

Definition bitmap_set (idx : Z) (value : bool) : M bitmap unit :=
  n ← gets bit_cnt; ASSERT (idx <? n) ;;
  if value then bitmap_mark idx else bitmap_reset idx.

Definition bitmap_test (idx : Z) : M bitmap bool :=
  n ← gets bit_cnt; ASSERT (idx <? n) ;;
  w ← load (fun b => zget (bits b) (elem_idx idx));
  mret (negb (Z.land w (bit_mask idx) =? 0)).

(** The assertions shared by the operations on a range of bits. *)
Definition assert_range (start cnt : Z) : M bitmap unit :=
  n ← gets bit_cnt;
  ASSERT (start <=? n) ;; ASSERT (u32 (start + cnt) <=? n).

Definition bitmap_set_multiple (start cnt : Z) (value : bool) : M bitmap unit :=
  assert_range start cnt ;;
  for_z cnt (fun i => bitmap_set (u32 (start + i)) value).

Definition bitmap_set_all (value : bool) : M bitmap unit :=
  n ← gets bitmap_size; bitmap_set_multiple 0 n value.

(** [for (i = 0; i < cnt; i++) if (bitmap_test (b, start + i) == value) value_cnt++]. *)
Fixpoint bitmap_count_loop (n : nat) (start i : Z) (value : bool) (value_cnt : Z) : M bitmap Z :=
  match n with
  | O => mret value_cnt
  | S n =>
      t ← bitmap_test (u32 (start + i));
      bitmap_count_loop n start (i + 1) value
        (if Bool.eqb t value then u32 (value_cnt + 1) else value_cnt)
  end.
Definition bitmap_count (start cnt : Z) (value : bool) : M bitmap Z :=
  assert_range start cnt ;;
  bitmap_count_loop (Z.to_nat cnt) start 0 value 0.

Fixpoint bitmap_contains_loop (n : nat) (start i : Z) (value : bool) : M bitmap bool :=
  match n with
  | O => mret false
  | S n =>
      t ← bitmap_test (u32 (start + i));
      if Bool.eqb t value then mret true
      else bitmap_contains_loop n start (i + 1) value
  end.
Definition bitmap_contains (start cnt : Z) (value : bool) : M bitmap bool :=
  assert_range start cnt ;;
  bitmap_contains_loop (Z.to_nat cnt) start 0 value.

Definition bitmap_any (start cnt : Z) : M bitmap bool := bitmap_contains start cnt true.
Definition bitmap_none (start cnt : Z) : M bitmap bool :=
  c ← bitmap_contains start cnt true; mret (negb c).
Definition bitmap_all (start cnt : Z) : M bitmap bool :=
  c ← bitmap_contains start cnt false; mret (negb c).

(** [for (i = start; i <= last; i++)]. *)
Fixpoint bitmap_scan_loop (fuel : nat) (i last cnt : Z) (value : bool) : M bitmap Z :=
  match fuel with
  | O => nofuel
  | S fuel =>
      if i <=? last then
        c ← bitmap_contains i cnt (negb value);
        if negb c then mret i else bitmap_scan_loop fuel (u32 (i + 1)) last cnt value
      else mret BITMAP_ERROR
  end.
Definition bitmap_scan (start cnt : Z) (value : bool) : M bitmap Z :=
  n ← gets bit_cnt;
  ASSERT (start <=? n) ;;
  if cnt <=? n then
    let last := n - cnt in
    bitmap_scan_loop (Z.to_nat (n + 2)) start last cnt value
  else mret BITMAP_ERROR.

Definition bitmap_scan_and_flip (start cnt : Z) (value : bool) : M bitmap Z :=
  idx ← bitmap_scan start cnt value;
  (if negb (idx =? BITMAP_ERROR) then bitmap_set_multiple idx cnt (negb value) else mret tt) ;;
  mret idx.

(** ** Creation

    [malloc] either fails or returns memory of arbitrary contents: the two calls
    are the arguments [b_ok] and [bits_at] ([None] for NULL). *)
Definition bitmap_create (b_ok : bool) (bits_at : option (list Z)) (bit_cnt : Z)
    : outcome (option bitmap) :=
  if b_ok then
    if bool_decide (is_Some bits_at) || (bit_cnt =? 0) then
      r ← bitmap_set_all false (mk_bitmap bit_cnt (default [] bits_at));
      Done (Some r.2)
    else Done None
  else Done None.

Definition bitmap_buf_size (bit_cnt : Z) : Z := u32 (8 + byte_cnt bit_cnt).

(** The elements lie in the [block] after the two-word header. *)
Definition bitmap_create_in_buf (bit_cnt : Z) (block : list Z) (block_size : Z)
    : outcome bitmap :=
  assert_ok (bitmap_buf_size bit_cnt <=? block_size) ;;
  r ← bitmap_set_all false (mk_bitmap bit_cnt (drop 2 block));
  Done r.2.

(** ** File input and output

    A file is read and written by [file_read_at] and [file_write_at] of
    filesys/file.c; an element is four bytes, the low one first. *)
Definition word_bytes (w : Z) : list Z :=
  [w mod 256; (w / 2 ^ 8) mod 256; (w / 2 ^ 16) mod 256; (w / 2 ^ 24) mod 256].
Definition elems_bytes (ws : list Z) : list Z := concat (map word_bytes ws).

(** Overwrite the front of the array [ws] with the bytes [bs] that were read. *)
Fixpoint bytes_elems (bs : list Z) : list Z :=
  match bs with
  | b0 :: b1 :: b2 :: b3 :: bs' => (b0 + 2 ^ 8 * b1 + 2 ^ 16 * b2 + 2 ^ 24 * b3) :: bytes_elems bs'
  | _ => []
  end.
Definition fill_elems (ws bs : list Z) : list Z :=
  bytes_elems (bs ++ drop (length bs) (elems_bytes ws)).

Definition bitmap_file_size (b : bitmap) : Z := byte_cnt (bit_cnt b).

(** [file_read_at size] is what reading [size] bytes at offset 0 delivers. *)
Definition bitmap_read (file_read_at : Z -> list Z) : M bitmap bool :=
  n ← gets bit_cnt;
  if 0 <? n then
    let size := byte_cnt n in
    let got := file_read_at size in
    modify (fun b => mk_bitmap (bit_cnt b) (fill_elems (bits b) got)) ;;
    mask ← gets last_mask;
    update_elem (elem_cnt n - 1) (fun w => Z.land w mask) ;;
    mret (zlen got =? size)
  else mret true.

(** [file_write_at bytes] is the number of bytes written at offset 0. *)
Definition bitmap_write (file_write_at : list Z -> Z) (b : bitmap) : bool :=
  let size := byte_cnt (bit_cnt b) in
  file_write_at (take (Z.to_nat size) (elems_bytes (bits b))) =? size.

(** ** The abstract bitmap *)

Definition bit (b : bitmap) (i : Z) : bool :=
  match zget (bits b) (i / 32) with
  | Some w => Z.testbit w (i mod 32)
  | None => false
  end.

(** A bitmap as [bitmap_create] makes it: the element array has the right size.
    The bound on the count is what [DIV_ROUND_UP] needs not to wrap. *)
Record wf (b : bitmap) : Prop := {
  wf_cnt : 0 <= bit_cnt b < 2 ^ 32 - 31;
  wf_len : zlen (bits b) = elem_cnt (bit_cnt b)
}.

Section BitLemmas.
Implicit Types (b : bitmap) (i j k w : Z) (v : bool).

Lemma elem_cnt_eq n : 0 <= n < 2 ^ 32 - 31 -> elem_cnt n = (n + 31) / 32.
Proof. intros. unfold elem_cnt, ELEM_BITS. rewrite u32_small by lia. f_equal. lia. Qed.

Lemma elem_in b i : wf b -> 0 <= i < bit_cnt b ->
  exists w, zget (bits b) (i / 32) = Some w.
Proof.
  intros [Hc Hl] Hi. apply zget_Some. rewrite Hl, elem_cnt_eq by done. dlia.
Qed.

Lemma bit_mask_eq i : bit_mask i = 2 ^ (i mod 32).
Proof.
  unfold bit_mask, ELEM_BITS. rewrite Z.shiftl_1_l.
  pose proof (Z.mod_pos_bound i 32). apply u32_small.
  split; [apply Z.pow_nonneg; lia|apply Z.pow_lt_mono_r; lia].
Qed.

Lemma mask_bit i k : 0 <= k -> Z.testbit (bit_mask i) k = (i mod 32 =? k).
Proof.
  intros. rewrite bit_mask_eq, Z.pow2_bits_eqb; [done|]. apply Z.mod_pos_bound. lia.
Qed.

Lemma not32_mask_bit i k : 0 <= k < 32 -> Z.testbit (not32 (bit_mask i)) k = negb (i mod 32 =? k).
Proof.
  intros. unfold not32. rewrite Z.lxor_spec, mask_bit by lia.
  replace (2 ^ 32 - 1) with (Z.ones 32) by done.
  rewrite Z.ones_spec_low by lia. by rewrite xorb_true_r.
Qed.

(** [w & (1 << k)] is non-zero when bit [k] of [w] is set. *)
Lemma test_mask w i : negb (Z.land w (bit_mask i) =? 0) = Z.testbit w (i mod 32).
Proof.
  pose proof (Z.mod_pos_bound i 32). destruct (Z.testbit w (i mod 32)) eqn:E.
  - apply negb_true_iff, Z.eqb_neq. intros H0.
    assert (Z.testbit (Z.land w (bit_mask i)) (i mod 32) = true) as Ht.
    { rewrite Z.land_spec, mask_bit, E, Z.eqb_refl by lia. done. }
    by rewrite H0, Z.testbit_0_l in Ht.
  - apply negb_false_iff, Z.eqb_eq. apply Z.bits_inj'. intros n Hn.
    rewrite Z.land_spec, mask_bit, Z.testbit_0_l by done.
    destruct (Z.eqb_spec (i mod 32) n) as [<-|_]; [by rewrite E|apply andb_false_r].
Qed.

Lemma index_split i j : (i / 32 = j / 32 /\ i mod 32 = j mod 32) <-> i = j.
Proof. split; [intros []; dlia|by intros ->]. Qed.

(** One element updated: bit [i] becomes [v], no other bit changes. *)
Lemma update_elem_spec b i f (v : Z -> bool) : wf b -> 0 <= i < bit_cnt b ->
  (forall w k, 0 <= k < 32 ->
     Z.testbit (f w) k = if i mod 32 =? k then v w else Z.testbit w k) ->
  exists w b', zget (bits b) (i / 32) = Some w /\ update_elem (i / 32) f b = Done (tt, b') /\
    wf b' /\ bit_cnt b' = bit_cnt b /\
    forall j, 0 <= j -> bit b' j = if i =? j then v w else bit b j.
Proof.
  intros Hwf Hi Hf. destruct (elem_in b i Hwf Hi) as [w Hw].
  exists w. eexists. split; [done|]. unfold update_elem. rewrite Hw. split; [done|].
  destruct Hwf as [Hc Hl]. pose proof (zget_inv _ _ _ Hw).
  split; [split; [done|]; cbn [bits bit_cnt]; by rewrite zlen_zset|]. split; [done|].
  intros j Hj. unfold bit. cbn [bits]. rewrite zget_zset by done.
  pose proof (Z.mod_pos_bound j 32). case_decide as E.
  - rewrite Hf by lia. destruct (Z.eqb_spec i j) as [->|Hne]; [by rewrite Z.eqb_refl|].
    destruct (Z.eqb_spec (i mod 32) (j mod 32)) as [E2|_].
    + exfalso. apply Hne. by apply index_split.
    + by rewrite <- E, Hw.
  - destruct (Z.eqb_spec i j) as [->|Hne]; [done|done].
Qed.
End BitLemmas.

(** [b'] is [b] with bit [i] set to [v]. *)
Definition bit_updated (b : bitmap) (i : Z) (v : bool) (b' : bitmap) : Prop :=
  wf b' /\ bit_cnt b' = bit_cnt b /\
  forall j, 0 <= j -> bit b' j = if i =? j then v else bit b j.

Section BitOps.
Implicit Types (b : bitmap) (i j : Z) (v : bool).

Lemma bitmap_mark_spec b i : wf b -> 0 <= i < bit_cnt b ->
  exists b', bitmap_mark i b = Done (tt, b') /\ bit_updated b i true b'.
Proof.
  intros Hwf Hi.
  destruct (update_elem_spec b i (fun w => Z.lor w (bit_mask i)) (fun _ => true))
    as (w & b' & _ & Hr & Hb); [done..| |by exists b'].
  intros w k Hk. rewrite Z.lor_spec, mask_bit by lia.
  destruct (i mod 32 =? k); [apply orb_true_r|apply orb_false_r].
Qed.

Lemma bitmap_reset_spec b i : wf b -> 0 <= i < bit_cnt b ->
  exists b', bitmap_reset i b = Done (tt, b') /\ bit_updated b i false b'.
Proof.
  intros Hwf Hi.
  destruct (update_elem_spec b i (fun w => Z.land w (not32 (bit_mask i))) (fun _ => false))
    as (w & b' & _ & Hr & Hb); [done..| |by exists b'].
  intros w k Hk. rewrite Z.land_spec, not32_mask_bit by lia.
  destruct (i mod 32 =? k); [apply andb_false_r|apply andb_true_r].
Qed.

Lemma bitmap_flip_spec b i : wf b -> 0 <= i < bit_cnt b ->
  exists b', bitmap_flip i b = Done (tt, b') /\ bit_updated b i (negb (bit b i)) b'.
Proof.
  intros Hwf Hi.
  destruct (update_elem_spec b i (fun w => Z.lxor w (bit_mask i))
              (fun w => negb (Z.testbit w (i mod 32)))) as (w & b' & Hw & Hr & Hb); [done..| |].
  - intros w k Hk. rewrite Z.lxor_spec, mask_bit by lia.
    destruct (Z.eqb_spec (i mod 32) k) as [<-|]; [apply xorb_true_r|apply xorb_false_r].
  - exists b'. split; [done|]. destruct Hb as (? & ? & Hb). split_and!; [done..|].
    intros j Hj. rewrite Hb by done. destruct (i =? j); [|done]. unfold bit. by rewrite Hw.
Qed.

Lemma bitmap_set_spec b i v : wf b -> 0 <= i < bit_cnt b ->
  exists b', bitmap_set i v b = Done (tt, b') /\ bit_updated b i v b'.
Proof.
  intros Hwf Hi. unfold bitmap_set. erewrite bind_done; [|done].
  erewrite bind_done; [|apply assert_done; lia].
  destruct v; [by apply bitmap_mark_spec|by apply bitmap_reset_spec].
Qed.

Lemma bitmap_set_out b i v : bit_cnt b <= i -> bitmap_set i v b = Panic.
Proof.
  intros Hi. unfold bitmap_set, bnd, mbind, M_bind, gets, ASSERT.
  assert ((i <? bit_cnt b) = false) as -> by lia. done.
Qed.

Lemma bitmap_test_spec b i : wf b -> 0 <= i < bit_cnt b ->
  bitmap_test i b = Done (bit b i, b).
Proof.
  intros Hwf Hi. unfold bitmap_test. erewrite bind_done; [|done].
  erewrite bind_done; [|apply assert_done; lia].
  destruct (elem_in b i Hwf Hi) as [w Hw].
  erewrite bind_done; [|unfold load, elem_idx, ELEM_BITS; rewrite Hw; done].
  rewrite test_mask. unfold bit. by rewrite Hw.
Qed.

Lemma assert_range_spec b s c : 0 <= s -> 0 <= c -> s + c <= bit_cnt b -> wf b ->
  assert_range s c b = Done (tt, b).
Proof.
  intros ? ? ? [? _]. unfold assert_range. erewrite bind_done; [|done].
  erewrite bind_done; [|apply assert_done; lia].
  apply assert_done. rewrite u32_small by lia. lia.
Qed.

(** Every [start] and [cnt] the caller may pass: outside the bitmap the
    assertions fail, unless [start + cnt] wraps. *)
Lemma assert_range_out b s c : 0 <= s -> 0 <= c -> s + c < 2 ^ 32 -> bit_cnt b < s + c ->
  assert_range s c b = Panic.
Proof.
  intros. unfold assert_range, bnd, mbind, M_bind, gets, ASSERT.
  rewrite u32_small by lia. destruct (s <=? bit_cnt b); [|done].
  assert ((s + c <=? bit_cnt b) = false) as -> by lia. done.
Qed.

Definition in_range (s c j : Z) : bool := (s <=? j) && (j <? s + c).

Lemma set_multiple_spec b s c v : wf b -> 0 <= s -> 0 <= c -> s + c <= bit_cnt b ->
  exists b', bitmap_set_multiple s c v b = Done (tt, b') /\ wf b' /\ bit_cnt b' = bit_cnt b /\
    forall j, 0 <= j -> bit b' j = if in_range s c j then v else bit b j.
Proof.
  intros Hwf Hs Hc Hb. unfold bitmap_set_multiple.
  erewrite bind_done; [|by apply assert_range_spec].
  destruct (for_from_inv
    (fun i b' => wf b' /\ bit_cnt b' = bit_cnt b /\
       forall j, 0 <= j -> bit b' j = if in_range s i j then v else bit b j)
    (fun i => bitmap_set (u32 (s + i)) v) (Z.to_nat c) 0 b) as (b' & Hr & Hp).
  - split_and!; [done..|]. intros j Hj. unfold in_range.
    assert ((s <=? j) && (j <? s + 0) = false) as -> by lia. done.
  - intros i b1 Hi (Hwf1 & Hc1 & Hb1). destruct Hwf as [Hcnt _].
    rewrite u32_small by lia.
    destruct (bitmap_set_spec b1 (s + i) v) as (b2 & Hr2 & Hwf2 & Hc2 & Hb2);
      [done|lia|]. exists b2. split; [done|]. split; [done|]. split; [lia|].
    intros j Hj. rewrite Hb2, Hb1 by done. unfold in_range.
    destruct (Z.eqb_spec (s + i) j) as [<-|].
    + assert ((s <=? s + i) && (s + i <? s + (i + 1)) = true) as -> by lia. done.
    + by assert ((s <=? j) && (j <? s + (i + 1)) = (s <=? j) && (j <? s + i)) as -> by lia.
  - rewrite Z2Nat.id, Z.add_0_l in Hp by done. by exists b'.
Qed.
End BitOps.

(** A group of [c] bits equal to [v] at [i], inside the bitmap. *)
Definition group (b : bitmap) (i c : Z) (v : bool) : Prop :=
  i + c <= bit_cnt b /\ forall j, i <= j < i + c -> bit b j = v.

Section Ranges.
Implicit Types (b : bitmap) (s c i j : Z) (v : bool).

Lemma contains_loop_spec b s v n : forall i, wf b -> 0 <= s -> 0 <= i ->
  s + i + Z.of_nat n <= bit_cnt b ->
  bitmap_contains_loop n s i v b =
    Done (existsb (fun j => Bool.eqb (bit b j) v) (seqZ (s + i) (Z.of_nat n)), b).
Proof.
  induction n as [|n IH]; intros i Hwf Hs Hi Hb; [done|]. cbn [bitmap_contains_loop].
  pose proof (wf_cnt b Hwf).
  rewrite u32_small by lia. erewrite bind_done; [|apply bitmap_test_spec; [done|lia]].
  rewrite seqZ_cons by lia. cbn [existsb]. destruct (Bool.eqb (bit b (s + i)) v); [done|].
  rewrite IH by (done || lia). cbn [orb].
  replace (Z.succ (s + i)) with (s + (i + 1)) by lia.
  by replace (Z.pred (Z.of_nat (S n))) with (Z.of_nat n) by lia.
Qed.

Lemma contains_spec b s c v : wf b -> 0 <= s -> 0 <= c -> s + c <= bit_cnt b ->
  exists r, bitmap_contains s c v b = Done (r, b) /\
    (r = true <-> exists j, s <= j < s + c /\ bit b j = v).
Proof.
  intros Hwf Hs Hc Hb. unfold bitmap_contains.
  erewrite bind_done; [|by apply assert_range_spec].
  rewrite contains_loop_spec by (done || lia). eexists. split; [done|].
  rewrite existsb_exists, Z.add_0_r, Z2Nat.id by done. split.
  - intros (j & Hj & He). apply list_elem_of_In, elem_of_seqZ in Hj.
    exists j. split; [done|]. by apply eqb_prop.
  - intros (j & Hj & He). exists j. rewrite <- list_elem_of_In, elem_of_seqZ.
    split; [done|]. rewrite He. by destruct v.
Qed.

Lemma count_loop_spec b s v n : forall i cnt, wf b -> 0 <= s -> 0 <= i ->
  s + i + Z.of_nat n <= bit_cnt b -> 0 <= cnt <= i ->
  bitmap_count_loop n s i v cnt b =
    Done (cnt + zlen (filter (fun j => bit b j = v) (seqZ (s + i) (Z.of_nat n))), b).
Proof.
  induction n as [|n IH]; intros i cnt Hwf Hs Hi Hb Hcnt.
  { simpl. unfold zlen. simpl. by rewrite Z.add_0_r. }
  cbn [bitmap_count_loop]. pose proof (wf_cnt b Hwf).
  rewrite u32_small by lia. erewrite bind_done; [|apply bitmap_test_spec; [done|lia]].
  rewrite seqZ_cons by lia. rewrite filter_cons.
  replace (Z.succ (s + i)) with (s + (i + 1)) by lia.
  replace (Z.pred (Z.of_nat (S n))) with (Z.of_nat n) by lia.
  case_decide as E.
  - rewrite E, eqb_reflx, u32_small, IH by (done || lia).
    unfold zlen. simpl length. do 2 f_equal. lia.
  - assert (Bool.eqb (bit b (s + i)) v = false) as -> by by apply eqb_false_iff.
    by rewrite IH by (done || lia).
Qed.

(** [bitmap_count] is the number of bits of the range that equal [value]. *)
Theorem bitmap_count_correct b s c v : wf b -> 0 <= s -> 0 <= c -> s + c <= bit_cnt b ->
  bitmap_count s c v b =
    Done (zlen (filter (fun j => bit b j = v) (seqZ s c)), b).
Proof.
  intros Hwf Hs Hc Hb. unfold bitmap_count.
  erewrite bind_done; [|by apply assert_range_spec].
  rewrite count_loop_spec by (done || lia). by rewrite Z.add_0_r, Z2Nat.id.
Qed.

Lemma scan_loop_spec b c v : wf b -> 0 <= c <= bit_cnt b -> forall fuel i,
  0 <= i -> i <= bit_cnt b + 1 -> Z.max 0 (bit_cnt b - c - i + 1) < Z.of_nat fuel ->
  exists r, bitmap_scan_loop fuel i (bit_cnt b - c) c v b = Done (r, b) /\
    ((r <> BITMAP_ERROR /\ i <= r /\ group b r c v /\
        forall k, i <= k < r -> ~ group b k c v) \/
     (r = BITMAP_ERROR /\ forall k, i <= k -> ~ group b k c v)).
Proof.
  intros Hwf Hc. pose proof (wf_cnt b Hwf) as Hn. unfold BITMAP_ERROR.
  induction fuel as [|fuel IH]; intros i Hi Hi2 Hf.
  { exfalso. lia. }
  cbn [bitmap_scan_loop]. destruct (Z.leb_spec i (bit_cnt b - c)) as [Hl|Hl].
  2:{ exists (2 ^ 32 - 1). split; [done|]. right. split; [done|].
      intros k Hk [Hg _]. lia. }
  destruct (contains_spec b i c (negb v)) as (r & Hr & Hrp); [done|lia..|].
  erewrite bind_done; [|exact Hr]. destruct r; cbn [negb].
  - rewrite u32_small by lia. destruct (IH (i + 1)) as (r' & Hr' & Hcase); [lia..|].
    exists r'. split; [done|].
    assert (~ group b i c v) as Hni.
    { intros [_ Hg]. destruct Hrp as [Hrp _]. destruct (Hrp eq_refl) as (j & Hj & Hjb).
      rewrite (Hg j Hj) in Hjb. by destruct v. }
    destruct Hcase as [(H1 & H2 & H3 & H4)|[H1 H2]].
    + left. split_and!; [done|lia|done|]. intros k Hk.
      destruct (decide (k = i)) as [->|]; [done|]. apply H4. lia.
    + right. split; [done|]. intros k Hk.
      destruct (decide (k = i)) as [->|]; [done|]. apply H2. lia.
  - exists i. split; [done|]. left. split_and!; [lia|lia| |lia].
    split; [lia|]. intros j Hj. destruct (Bool.bool_dec (bit b j) v) as [|Hne]; [done|].
    exfalso. assert (false = true) by (apply Hrp; exists j; split; [done|]; by destruct (bit b j), v). done.
Qed.

(** [bitmap_scan] returns the first place at or after [start] where [cnt]
    consecutive bits equal [value], or BITMAP_ERROR when there is none. *)
Lemma bitmap_scan_spec b s c v : wf b -> 0 <= s <= bit_cnt b -> 0 <= c < 2 ^ 32 ->
  exists r, bitmap_scan s c v b = Done (r, b) /\
    ((r <> BITMAP_ERROR /\ s <= r /\ group b r c v /\
        forall k, s <= k < r -> ~ group b k c v) \/
     (r = BITMAP_ERROR /\ forall k, s <= k -> ~ group b k c v)).
Proof.
  intros Hwf Hs Hc. unfold bitmap_scan. erewrite bind_done; [|done].
  erewrite bind_done; [|apply assert_done; lia].
  destruct (Z.leb_spec c (bit_cnt b)).
  - apply scan_loop_spec; [done|lia..].
  - exists BITMAP_ERROR. split; [done|]. right. split; [done|]. intros k Hk [Hg _]. lia.
Qed.

Lemma bitmap_scan_and_flip_spec b s c v : wf b -> 0 <= s <= bit_cnt b -> 0 <= c < 2 ^ 32 ->
  exists r b', bitmap_scan_and_flip s c v b = Done (r, b') /\ wf b' /\ bit_cnt b' = bit_cnt b /\
    ((r <> BITMAP_ERROR /\ s <= r /\ group b r c v /\
        (forall k, s <= k < r -> ~ group b k c v) /\
        (forall j, 0 <= j -> bit b' j = if in_range r c j then negb v else bit b j)) \/
     (r = BITMAP_ERROR /\ b' = b /\ forall k, s <= k -> ~ group b k c v)).
Proof.
  intros Hwf Hs Hc. unfold bitmap_scan_and_flip.
  destruct (bitmap_scan_spec b s c v Hwf Hs Hc) as (r & Hr & [(H1 & H2 & H3 & H4)|[H1 H2]]).
  - erewrite bind_done; [|exact Hr]. apply Z.eqb_neq in H1 as H1'. rewrite H1'. cbn [negb].
    pose proof H3 as [Hin _].
    destruct (set_multiple_spec b r c (negb v)) as (b' & Hr' & Hwf' & Hn' & Hb'); [done|lia..|].
    erewrite bind_done; [|exact Hr']. exists r, b'. split_and!; [done..|]. left. by split_and!.
  - erewrite bind_done; [|exact Hr]. subst r. exists BITMAP_ERROR, b.
    split_and!; [done..|]. by right.
Qed.

(** [bitmap_scan_and_flip] finds the same group and flips exactly its bits;
    it changes nothing when it returns BITMAP_ERROR. *)
Theorem bitmap_scan_and_flip_correct b s c v : wf b -> 0 <= s <= bit_cnt b -> 0 <= c < 2 ^ 32 ->
  exists r b', bitmap_scan_and_flip s c v b = Done (r, b') /\ wf b' /\ bit_cnt b' = bit_cnt b /\
    ((r <> BITMAP_ERROR /\ s <= r /\ group b r c v /\
        (forall k, s <= k < r -> ~ group b k c v) /\
        (forall j, 0 <= j -> bit b' j = if in_range r c j then negb v else bit b j)) \/
     (r = BITMAP_ERROR /\ b' = b /\ forall k, s <= k -> ~ group b k c v)).
Proof. apply bitmap_scan_and_flip_spec. Qed.

(** Scanning for zero bits returns [start], where the comment of
    [bitmap_scan_and_flip] promises 0. *)
Lemma scan_and_flip_zero b s v : wf b -> 0 <= s <= bit_cnt b ->
  bitmap_scan_and_flip s 0 v b = Done (s, b).
Proof.
  intros Hwf Hs. pose proof (wf_cnt b Hwf).
  destruct (bitmap_scan_spec b s 0 v) as (r & Hr & Hcase); [done|lia..|].
  assert (group b s 0 v) as Hg by (split; [lia|intros; lia]).
  destruct Hcase as [(_ & Hsr & _ & H4)|[_ H2]]; [|by destruct (H2 s)].
  assert (r = s) as ->.
  { destruct (decide (r = s)); [done|]. destruct (H4 s); [lia|done]. }
  unfold bitmap_scan_and_flip. erewrite bind_done; [|exact Hr].
  unfold BITMAP_ERROR. destruct (Z.eqb_spec s (2 ^ 32 - 1)); [lia|]. cbn [negb].
  assert (bitmap_set_multiple s 0 (negb v) b = Done (tt, b)) as Hm.
  { unfold bitmap_set_multiple. erewrite bind_done; [|apply assert_range_spec; [lia..|done]]. done. }
  by erewrite bind_done; [|exact Hm].
Qed.
End Ranges.

(** ** Creation and file input and output *)

Section Storage.
Implicit Types (b : bitmap) (ws bs : list Z).

Lemma set_all_spec b v : wf b ->
  exists b', bitmap_set_all v b = Done (tt, b') /\ wf b' /\ bit_cnt b' = bit_cnt b /\
    forall j, 0 <= j < bit_cnt b -> bit b' j = v.
Proof.
  intros Hwf. pose proof (wf_cnt b Hwf). unfold bitmap_set_all.
  erewrite bind_done; [|done]. unfold bitmap_size.
  destruct (set_multiple_spec b 0 (bit_cnt b) v) as (b' & Hr & Hwf' & Hc' & Hb'); [done|lia..|].
  exists b'. split_and!; [done..|]. intros j Hj. rewrite Hb' by lia. unfold in_range.
  assert ((0 <=? j) && (j <? 0 + bit_cnt b) = true) as -> by lia. done.
Qed.

(** [bitmap_create] returns NULL exactly when an allocation it needs fails,
    and otherwise a well-formed bitmap of [bit_cnt] clear bits, whatever the
    allocated memory held. *)
Theorem bitmap_create_correct n b_ok (ws : option (list Z)) : 0 <= n < 2 ^ 32 - 31 ->
  (forall l, ws = Some l -> zlen l = elem_cnt n) ->
  bitmap_create b_ok ws n = Done None /\ (b_ok = false \/ (ws = None /\ n <> 0)) \/
  exists b, bitmap_create b_ok ws n = Done (Some b) /\ b_ok = true /\ wf b /\ bit_cnt b = n /\
    forall j, 0 <= j < n -> bit b j = false.
Proof.
  intros Hn Hws. unfold bitmap_create. destruct b_ok; [|by left; auto].
  destruct (bool_decide (is_Some ws) || (n =? 0)) eqn:E.
  - right. assert (wf (mk_bitmap n (default [] ws))) as Hwf.
    { split; [done|]. cbn [bits bit_cnt]. destruct ws as [l|]; [by apply Hws|].
      rewrite bool_decide_eq_false_2 in E by (by intros []).
      apply Z.eqb_eq in E as ->. done. }
    destruct (set_all_spec _ false Hwf) as (b' & Hr & Hwf' & Hc' & Hb').
    exists b'. rewrite (obind_done _ _ _ Hr). by split_and!.
  - left. split; [done|]. right. apply orb_false_elim in E as [E1 E2].
    apply Z.eqb_neq in E2. apply bool_decide_eq_false in E1.
    destruct ws; [exfalso; apply E1; by eexists|done].
Qed.

Lemma word_bytes_value w : is_u32 w ->
  w mod 256 + 2 ^ 8 * ((w / 2 ^ 8) mod 256) + 2 ^ 16 * ((w / 2 ^ 16) mod 256)
    + 2 ^ 24 * ((w / 2 ^ 24) mod 256) = w.
Proof.
  intros Hw. unfold is_u32 in Hw.
  replace (w / 2 ^ 16) with (w / 2 ^ 8 / 256) by (by rewrite Z.div_div).
  replace (w / 2 ^ 24) with (w / 2 ^ 8 / 256 / 256) by (by rewrite !Z.div_div).
  change (2 ^ 8) with 256 in *. change (2 ^ 16) with 65536. change (2 ^ 24) with 16777216. 
  change (2 ^ 32) with 4294967296 in Hw. dlia.
Qed.

Lemma length_elems_bytes ws : length (elems_bytes ws) = (4 * length ws)%nat.
Proof. induction ws as [|w ws IH]; [done|]. unfold elems_bytes in *. simpl in *. lia. Qed.

Lemma bytes_elems_bytes ws : Forall is_u32 ws -> bytes_elems (elems_bytes ws) = ws.
Proof.
  induction 1 as [|w ws Hw _ IH]; [done|].
  unfold elems_bytes in *. cbn [map concat app word_bytes bytes_elems].
  f_equal; [by apply word_bytes_value|done].
Qed.

Lemma last_mask_bit b k : 0 <= k < 32 ->
  (k < bit_cnt b mod 32 \/ bit_cnt b mod 32 = 0) -> Z.testbit (last_mask b) k = true.
Proof.
  intros Hk Hc. unfold last_mask, ELEM_BITS. pose proof (Z.mod_pos_bound (bit_cnt b) 32).
  destruct (Z.eqb_spec (bit_cnt b mod 32) 0).
  - replace (2 ^ 32 - 1) with (Z.ones 32) by done. apply Z.ones_spec_low. lia.
  - rewrite Z.shiftl_1_l, u32_small.
    + rewrite Z.sub_1_r, <- Z.ones_equiv. apply Z.ones_spec_low. lia.
    + split; [apply Z.pow_nonneg; lia|apply Z.pow_lt_mono_r; lia].
Qed.

Lemma byte_cnt_eq b : wf b -> byte_cnt (bit_cnt b) = 4 * zlen (bits b).
Proof.
  intros [Hc Hl]. unfold byte_cnt. rewrite Hl, elem_cnt_eq by done.
  apply u32_small. dlia.
Qed.

(** Masking the unused bits of the last element leaves every bit in range. *)
Lemma mask_last_spec b : wf b -> 0 < bit_cnt b ->
  exists b', update_elem (elem_cnt (bit_cnt b) - 1) (fun w => Z.land w (last_mask b)) b =
      Done (tt, b') /\ wf b' /\ bit_cnt b' = bit_cnt b /\
    forall i, 0 <= i < bit_cnt b -> bit b' i = bit b i.
Proof.
  intros [Hc Hl] Hpos. rewrite elem_cnt_eq in * by done.
  destruct (zget_Some (bits b) ((bit_cnt b + 31) / 32 - 1)) as [w Hw]; [rewrite Hl; dlia|].
  unfold update_elem. rewrite Hw. eexists. split; [done|]. split; [|split; [done|]].
  - split; [done|]. cbn [bits bit_cnt]. by rewrite zlen_zset, elem_cnt_eq.
  - intros i Hi. unfold bit. cbn [bits]. rewrite zget_zset by (rewrite Hl; dlia).
    case_decide as E; [|done]. rewrite <- E, Hw, Z.land_spec, last_mask_bit.
    + apply andb_true_r.
    + apply Z.mod_pos_bound. lia.
    + dlia.
Qed.

(** Writing a bitmap to a file and reading the bytes back into a bitmap of
    the same size restores every bit; both report success. *)
Theorem bitmap_write_read_roundtrip b b0 : wf b -> wf b0 -> bit_cnt b0 = bit_cnt b ->
  Forall is_u32 (bits b) ->
  bitmap_write (fun bytes => zlen bytes) b = true /\
  exists b', bitmap_read (fun size => take (Z.to_nat size) (elems_bytes (bits b))) b0 = Done (true, b') /\
    wf b' /\ bit_cnt b' = bit_cnt b /\ forall i, 0 <= i < bit_cnt b -> bit b' i = bit b i.
Proof.
  intros Hwf Hwf0 Hcnt Hu. pose proof (byte_cnt_eq b Hwf) as Hbc.
  assert (take (Z.to_nat (byte_cnt (bit_cnt b))) (elems_bytes (bits b)) = elems_bytes (bits b)) as Htk.
  { apply take_ge. rewrite length_elems_bytes, Hbc. unfold zlen. lia. }
  assert (zlen (elems_bytes (bits b)) = byte_cnt (bit_cnt b)) as Hlen.
  { rewrite Hbc. unfold zlen. rewrite length_elems_bytes. lia. }
  split; [unfold bitmap_write; by rewrite Htk, Hlen, Z.eqb_refl|].
  unfold bitmap_read. erewrite bind_done; [|done]. rewrite Hcnt.
  destruct (Z.ltb_spec 0 (bit_cnt b)) as [Hpos|Hz].
  2:{ exists b0. pose proof (wf_cnt b Hwf). split_and!; [done..|lia]. }
  cbv zeta. rewrite Htk, Hlen, Z.eqb_refl.
  assert (fill_elems (bits b0) (elems_bytes (bits b)) = bits b) as Hfill.
  { unfold fill_elems. rewrite drop_ge; [rewrite app_nil_r; by apply bytes_elems_bytes|].
    rewrite !length_elems_bytes. pose proof (wf_len b Hwf). pose proof (wf_len b0 Hwf0) as Hl0.
    rewrite Hcnt in Hl0. unfold zlen in *. lia. }
  erewrite bind_done; [|done]. rewrite Hfill, Hcnt.
  destruct b as [n ws]. cbn [bit_cnt bits] in *.
  erewrite bind_done; [|done].
  destruct (mask_last_spec (mk_bitmap n ws) Hwf Hpos) as (b' & Hr & Hb').
  erewrite bind_done; [|exact Hr]. by exists b'.
Qed.
End Storage.

(** ** Concrete inputs *)

Definition demo_bitmap : bitmap := mk_bitmap 40 [2 ^ 31 + 5; 3].

Lemma demo_wf : wf demo_bitmap.
Proof. split; [cbv; split; congruence|by vm_compute]. Qed.

Lemma bitmap_count_correct_witness :
  bitmap_count 0 40 true demo_bitmap =
    Done (zlen (filter (fun j => bit demo_bitmap j = true) (seqZ 0 40)), demo_bitmap).
Proof. apply (bitmap_count_correct demo_bitmap 0 40 true); [exact demo_wf|by vm_compute..]. Defined.

Lemma bitmap_scan_and_flip_correct_witness :
  exists r b', bitmap_scan_and_flip 0 3 true demo_bitmap = Done (r, b') /\ wf b' /\
    bit_cnt b' = bit_cnt demo_bitmap /\
    ((r <> BITMAP_ERROR /\ 0 <= r /\ group demo_bitmap r 3 true /\
        (forall k, 0 <= k < r -> ~ group demo_bitmap k 3 true) /\
        (forall j, 0 <= j -> bit b' j = if in_range r 3 j then negb true else bit demo_bitmap j)) \/
     (r = BITMAP_ERROR /\ b' = demo_bitmap /\ forall k, 0 <= k -> ~ group demo_bitmap k 3 true)).
Proof.
  apply (bitmap_scan_and_flip_correct demo_bitmap 0 3 true); [exact demo_wf|simpl; lia|lia].
Defined.

Lemma bitmap_create_correct_witness :
  bitmap_create true (Some [7; 9]) 40 = Done None /\ (true = false \/ (Some [7; 9] = None /\ 40 <> 0)) \/
  exists b, bitmap_create true (Some [7; 9]) 40 = Done (Some b) /\ true = true /\ wf b /\ bit_cnt b = 40 /\
    forall j, 0 <= j < 40 -> bit b j = false.
Proof.
  apply (bitmap_create_correct 40 true (Some [7; 9])); [lia|]. intros l [= <-]. by vm_compute.
Defined.

Lemma bitmap_write_read_roundtrip_witness :
  bitmap_write (fun bytes => zlen bytes) demo_bitmap = true /\
  exists b', bitmap_read (fun size => take (Z.to_nat size) (elems_bytes (bits demo_bitmap)))
      (mk_bitmap 40 [0; 0]) = Done (true, b') /\
    wf b' /\ bit_cnt b' = bit_cnt demo_bitmap /\
    forall i, 0 <= i < bit_cnt demo_bitmap -> bit b' i = bit demo_bitmap i.
Proof.
  apply (bitmap_write_read_roundtrip demo_bitmap (mk_bitmap 40 [0; 0])).
  - exact demo_wf.
  - split; [simpl; lia|by vm_compute].
  - reflexivity.
  - repeat constructor; cbv; congruence.
Defined.
