(* ===== verification/Hash.v ===== *)
(** * lib/kernel/hash.c: hash tables with chaining

    A table is its element count, its bucket count and the array of its bucket
    lists.  A bucket is the sequence of elements its [struct list] holds (KList
    shows that list.c implements sequences), an element the address of its
    [hash_elem].  The hash and comparison functions with their [aux] are
    arguments.  [malloc_ok] says whether the [malloc] of the call succeeds. *)

From S2P Require Import Prelude KList.
Definition FNV_32_PRIME : Z := 16777619.
Definition FNV_32_BASIS : Z := 2166136261.

(** [while (size-- > 0) hash = (hash * FNV_32_PRIME) ^ *buf++]. *)
Definition fnv_step (hash byte : Z) : Z := Z.lxor (u32 (hash * FNV_32_PRIME)) byte.
Definition hash_bytes (buf : list Z) (size : nat) : outcome Z :=
  if (size <=? length buf)%nat then Done (foldl fnv_step FNV_32_BASIS (take size buf)) else Fault.

(** [s] is the memory from the string on; reading past it is a fault. *)
Fixpoint hash_string_loop (s : list Z) (hash : Z) : outcome Z :=
  match s with
  | [] => Fault
  | c :: s' => if c =? 0 then Done hash else hash_string_loop s' (fnv_step hash c)
  end.
Definition hash_string (s : list Z) : outcome Z := hash_string_loop s FNV_32_BASIS.

(** The four bytes of [i], the low one first. *)
Definition int_bytes (i : Z) : list Z :=
  let w := u32 i in [w mod 256; (w / 2 ^ 8) mod 256; (w / 2 ^ 16) mod 256; (w / 2 ^ 24) mod 256].
Definition hash_int (i : Z) : outcome Z := hash_bytes (int_bytes i) 4.

Definition turn_off_least_1bit (x : Z) : Z := Z.land x (u32 (x - 1)).
Definition is_power_of_2 (x : Z) : bool := negb (x =? 0) && (turn_off_least_1bit x =? 0).

Definition MIN_ELEMS_PER_BUCKET : Z := 1.
Definition BEST_ELEMS_PER_BUCKET : Z := 2.
Definition MAX_ELEMS_PER_BUCKET : Z := 4.

(** [while (!is_power_of_2 (n)) n = turn_off_least_1bit (n)]: each step clears
    one of the 32 bits. *)
Fixpoint power_of_2_below (fuel : nat) (n : Z) : outcome Z :=
  match fuel with
  | O => NoFuel
  | S fuel => if is_power_of_2 n then Done n else power_of_2_below fuel (turn_off_least_1bit n)
  end.

Definition ideal_bucket_cnt (elem_cnt : Z) : outcome Z :=
  let n := elem_cnt / BEST_ELEMS_PER_BUCKET in
  let n := if n <? 4 then 4 else n in
  power_of_2_below 33 n.

Record hash := mk_hash {
  elem_cnt : Z;                (* number of elements in table *)
  bucket_cnt : Z;              (* number of buckets, a power of 2 *)
  buckets : list (list Z)      (* array of [bucket_cnt] lists *)
}.

Definition set_elem_cnt (f : Z -> Z) (h : hash) : hash :=
  mk_hash (f (elem_cnt h)) (bucket_cnt h) (buckets h).
Definition set_buckets (bs : list (list Z)) (h : hash) : hash :=
  mk_hash (elem_cnt h) (bucket_cnt h) bs.

Section Table.
Variable hashf : Z -> Z.
Variable less : Z -> Z -> bool.

(** [&h->buckets[i]]. *)
Definition bucket_at (i : Z) : M hash (list Z) := load (fun h => zget (buckets h) i).
Definition set_bucket (i : Z) (b : list Z) : M hash unit :=
  modify (fun h => set_buckets (zset (buckets h) i b) h).

(** [hash_clear] pops every element, in the order its destructor sees them, which
    is the value returned; without a destructor the lists are only emptied. *)
Fixpoint hash_clear_loop (n : nat) (i : Z) (destructor : bool) : M hash (list Z) :=
  match n with
  | O => mret []
  | S n =>
      b ← bucket_at i;
      set_bucket i [] ;;
      rest ← hash_clear_loop n (i + 1) destructor;
      mret ((if destructor then b else []) ++ rest)
  end.
Definition hash_clear (destructor : bool) : M hash (list Z) :=
  n ← gets bucket_cnt;
  seen ← hash_clear_loop (Z.to_nat n) 0 destructor;
  modify (set_elem_cnt (fun _ => 0)) ;;
  mret seen.

(** The memory [malloc] returns holds no lists yet: four unlinked buckets. *)
Definition hash_init (malloc_ok : bool) : outcome (option hash) :=
  if malloc_ok then
    r ← hash_clear false (mk_hash 0 4 (replicate 4 []));
    Done (Some r.2)
  else Done None.

(** The elements the destructor sees; the table is gone afterwards. *)
Definition hash_destroy (destructor : bool) : M hash (list Z) :=
  if destructor then hash_clear true else mret [].

Definition find_bucket (e : Z) : M hash Z :=
  n ← gets bucket_cnt; mret (Z.land (hashf e) (u32 (n - 1))).

(** [!less (hi, e) && !less (e, hi)]. *)
Definition equal_elems (hi e : Z) : bool := negb (less hi e) && negb (less e hi).

Fixpoint find_in (b : list Z) (e : Z) : Z :=
  match b with
  | [] => NULL
  | hi :: b' => if equal_elems hi e then hi else find_in b' e
  end.
Definition find_elem (bucket e : Z) : M hash Z :=
  b ← bucket_at bucket; mret (find_in b e).

Definition insert_elem (bucket e : Z) : M hash unit :=
  modify (set_elem_cnt (fun n => u32 (n + 1))) ;;
  b ← bucket_at bucket; set_bucket bucket (e :: b).

(** [list_remove (&e->list_elem)] unlinks [e] from the bucket it is in. *)
Definition unlink (e : Z) (bs : list (list Z)) : list (list Z) :=
  map (fun b => filter (fun x => x <> e) b) bs.
Definition remove_elem (e : Z) : M hash unit :=
  modify (set_elem_cnt (fun n => u32 (n - 1))) ;;
  linked ← gets (fun h => bool_decide (e ∈ concat (buckets h)));
  ASSERT linked ;;
  modify (fun h => set_buckets (unlink e (buckets h)) h).

(** Move one element to the front of its bucket in the new array. *)
Definition move_elem (e : Z) : M hash unit :=
  bucket ← find_bucket e;
  b ← bucket_at bucket; set_bucket bucket (e :: b).

Fixpoint move_bucket (b : list Z) : M hash unit :=
  match b with
  | [] => mret tt
  | e :: b' => move_elem e ;; move_bucket b'
  end.
Fixpoint move_buckets (bs : list (list Z)) : M hash unit :=
  match bs with
  | [] => mret tt
  | b :: bs' => move_bucket b ;; move_buckets bs'
  end.

Definition rehash (malloc_ok : bool) : M hash unit :=
  old_buckets ← gets buckets;
  old_bucket_cnt ← gets bucket_cnt;
  n ← gets elem_cnt;
  new_bucket_cnt ← liftO (ideal_bucket_cnt n);
  if new_bucket_cnt =? old_bucket_cnt then mret tt
  else if negb malloc_ok then mret tt
  else
    modify (fun h => mk_hash (elem_cnt h) new_bucket_cnt (replicate (Z.to_nat new_bucket_cnt) [])) ;;
    move_buckets old_buckets.

Definition hash_insert (malloc_ok : bool) (new : Z) : M hash Z :=
  bucket ← find_bucket new;
  old ← find_elem bucket new;
  (if old =? NULL then insert_elem bucket new else mret tt) ;;
  rehash malloc_ok ;;
  mret old.

Definition hash_replace (malloc_ok : bool) (new : Z) : M hash Z :=
  bucket ← find_bucket new;
  old ← find_elem bucket new;
  (if negb (old =? NULL) then remove_elem old else mret tt) ;;
  insert_elem bucket new ;;
  rehash malloc_ok ;;
  mret old.

Definition hash_find (e : Z) : M hash Z :=
  bucket ← find_bucket e; find_elem bucket e.

Definition hash_delete (malloc_ok : bool) (e : Z) : M hash Z :=
  bucket ← find_bucket e;
  found ← find_elem bucket e;
  (if negb (found =? NULL) then remove_elem found ;; rehash malloc_ok else mret tt) ;;
  mret found.

(** [hash_apply] calls the action on the elements in this order. *)
Definition hash_apply : M hash (list Z) := gets (fun h => concat (buckets h)).

Definition hash_size : M hash Z := gets elem_cnt.
Definition hash_empty : M hash bool := n ← gets elem_cnt; mret (n =? 0).
End Table.

(** ** Iterators

    [it_pos] is the position of [i->elem] in its bucket: -1 for the list head,
    the length for the list's end; [None] stands for NULL. *)
Record hash_iterator := mk_iter {
  it_bucket : Z;
  it_pos : option Z
}.

Definition hash_first : hash_iterator := mk_iter 0 (Some (-1)).

(** [while (i->elem == list_end (i->bucket))]. *)
Fixpoint hash_next_loop (fuel : nat) (h : hash) (i : hash_iterator) : outcome hash_iterator :=
  match fuel with
  | O => NoFuel
  | S fuel =>
      match zget (buckets h) (it_bucket i), it_pos i with
      | Some b, Some p =>
          if p =? zlen b then
            let k := it_bucket i + 1 in
            if bucket_cnt h <=? k then Done (mk_iter k None)
            else hash_next_loop fuel h (mk_iter k (Some 0))
          else Done i
      | _, _ => Fault
      end
  end.

Definition hash_cur (h : hash) (i : hash_iterator) : Z :=
  match it_pos i with
  | None => NULL
  | Some p => default NULL (b ← zget (buckets h) (it_bucket i); zget b p)
  end.

Definition hash_next (h : hash) (i : hash_iterator) : outcome (Z * hash_iterator) :=
  match it_pos i with
  | None => Fault
  | Some p =>
      i' ← hash_next_loop (S (Z.to_nat (bucket_cnt h))) h (mk_iter (it_bucket i) (Some (p + 1)));
      Done (hash_cur h i', i')
  end.

(** [hash_first (&i, h); while (hash_next (&i)) ... hash_cur (&i) ...]. *)
Fixpoint iterate (fuel : nat) (h : hash) (i : hash_iterator) : outcome (list Z) :=
  match fuel with
  | O => NoFuel
  | S fuel =>
      '(e, i') ← hash_next h i;
      if e =? NULL then Done [] else es ← iterate fuel h i'; Done (e :: es)
  end.

(** ** Powers of two *)

Lemma turn_off_eq x : 0 < x < 2 ^ 32 -> turn_off_least_1bit x = Z.land x (x - 1).
Proof. intros. unfold turn_off_least_1bit. by rewrite u32_small by lia. Qed.

Lemma land_le_r x y : 0 <= y -> Z.land x y <= y.
Proof.
  intros Hy. assert (Z.ldiff (Z.land x y) y = 0) as E.
  { apply Z.bits_inj'. intros i _. rewrite Z.ldiff_spec, Z.land_spec, Z.testbit_0_l.
    by destruct (Z.testbit x i), (Z.testbit y i). }
  apply Z.sub_nocarry_ldiff in E. pose proof (proj2 (Z.ldiff_nonneg y (Z.land x y))). lia.
Qed.

(** The top bit survives while the number is no power of two. *)
Lemma turn_off_high k x : 0 <= k -> 2 ^ k < x < 2 ^ (k + 1) ->
  2 ^ k <= Z.land x (x - 1) < x.
Proof.
  intros Hk Hx. assert (0 < 2 ^ k) by lia.
  assert (forall y, 2 ^ k <= y < 2 ^ (k + 1) -> Z.testbit y k = true) as Hb.
  { intros y Hy. rewrite Z.pow_add_r in Hy by lia. apply Z.testbit_true; [lia|].
    replace (y / 2 ^ k) with 1; [done|]. apply Z.div_unique with (y - 2 ^ k); lia. }
  split.
  - destruct (Z.le_gt_cases (2 ^ k) (Z.land x (x - 1))) as [|Hlt]; [done|].
    assert (Z.testbit (Z.land x (x - 1)) k = false) as E.
    { apply Z.bits_above_log2; [apply Z.land_nonneg; lia|].
      destruct (decide (Z.land x (x - 1) = 0)) as [->|]; [simpl|].
      - destruct (decide (k = 0)) as [->|]; [simpl in *; lia|lia].
      - apply Z.log2_lt_pow2; [|lia]. pose proof (proj2 (Z.land_nonneg x (x - 1))). lia. }
    rewrite Z.land_spec, !Hb in E by lia. done.
  - pose proof (land_le_r x (x - 1)) as Hle. lia.
Qed.

(** Clearing the lowest bit adds a trailing zero. *)
Lemma turn_off_low j x : 0 <= j -> 0 < x -> x mod 2 ^ j = 0 ->
  Z.land x (x - 1) mod 2 ^ (j + 1) = 0.
Proof.
  intros Hj Hx Hm. rewrite <- Z.land_ones by lia. apply Z.bits_inj'. intros i Hi.
  rewrite !Z.land_spec, Z.testbit_0_l. destruct (Z.lt_ge_cases i (j + 1)) as [Hlt|Hge].
  2:{ rewrite Z.ones_spec_high by lia. apply andb_false_r. }
  rewrite Z.ones_spec_low, andb_true_r by lia.
  destruct (decide (i = j)) as [->|Hne].
  - apply Z.div_exact in Hm; [|lia]. set (m := x / 2 ^ j) in *.
    assert ((x - 1) / 2 ^ j = m - 1) as E.
    { symmetry. assert (0 < 2 ^ j) by lia. apply Z.div_unique with (2 ^ j - 1); lia. }
    rewrite !Z.testbit_odd, !Z.shiftr_div_pow2, E by lia. fold m.
    rewrite Z.odd_sub. by destruct (Z.odd m).
  - assert (Z.testbit x i = false) as ->; [|done].
    rewrite <- (Z.mod_pow2_bits_low x j i), Hm by lia. apply Z.testbit_0_l.
Qed.

Lemma is_power_of_2_spec k x : 0 <= k < 32 -> 2 ^ k <= x < 2 ^ (k + 1) -> x < 2 ^ 32 ->
  is_power_of_2 x = (x =? 2 ^ k).
Proof.
  intros Hk Hx Hu. assert (0 < 2 ^ k) by lia. unfold is_power_of_2.
  destruct (Z.eqb_spec x 0); [lia|]. rewrite turn_off_eq by lia. cbn [negb andb].
  destruct (Z.eqb_spec x (2 ^ k)) as [->|Hne].
  - apply Z.eqb_eq. rewrite Z.sub_1_r, <- Z.ones_equiv, Z.land_ones by lia.
    apply Z.mod_same. lia.
  - apply Z.eqb_neq. pose proof (turn_off_high k x). lia.
Qed.

Lemma power_of_2_below_spec k : 0 <= k < 32 -> forall fuel j x,
  2 ^ k <= x < 2 ^ (k + 1) -> x < 2 ^ 32 -> 0 <= j <= k -> x mod 2 ^ j = 0 ->
  k - j < Z.of_nat fuel -> power_of_2_below fuel x = Done (2 ^ k).
Proof.
  intros Hk. assert (0 < 2 ^ k) by lia.
  induction fuel as [|fuel IH]; intros j x Hx Hu Hj Hm Hf; [lia|]. cbn [power_of_2_below].
  rewrite (is_power_of_2_spec k) by done. destruct (Z.eqb_spec x (2 ^ k)) as [->|Hne]; [done|].
  rewrite turn_off_eq by lia. pose proof (turn_off_high k x).
  assert (j <> k) as Hjk.
  { intros ->. apply Z.div_exact in Hm; [|lia]. rewrite Z.pow_add_r in Hx by lia.
    change (2 ^ 1) with 2 in Hx. set (q := x / 2 ^ k) in *. assert (q = 1) by nia. lia. }
  apply (IH (j + 1)); [lia|lia|lia|apply turn_off_low; lia|lia].
Qed.

(** The bucket count chosen for [n] elements: a power of two of at least four
    that keeps between two and four elements per bucket. *)
Lemma ideal_bucket_cnt_spec n : 0 <= n < 2 ^ 32 ->
  exists k, 2 <= k < 32 /\ ideal_bucket_cnt n = Done (2 ^ k) /\
    n < 4 * 2 ^ k /\ (k = 2 \/ 2 * 2 ^ k <= n).
Proof.
  intros Hn. unfold ideal_bucket_cnt, BEST_ELEMS_PER_BUCKET. cbv zeta.
  set (m := if n / 2 <? 4 then 4 else n / 2).
  assert (4 <= m < 2 ^ 32 /\ n < 2 * m + 2 /\ (m = 4 \/ 2 * m <= n)) as (Hm & Hnm & Hm2).
  { unfold m. destruct (Z.ltb_spec (n / 2) 4); dlia. }
  pose proof (Z.log2_spec m ltac:(lia)) as Hl. set (k := Z.log2 m) in *.
  assert (2 <= k < 32) as Hk.
  { split; [apply (Z.log2_le_mono 4 m); lia|apply Z.log2_lt_pow2; lia]. }
  exists k. split; [done|]. split.
  - apply (power_of_2_below_spec k ltac:(lia) 33 0); [done|lia|lia|apply Z.mod_1_r|lia].
  - unfold Z.succ in Hl. rewrite Z.pow_add_r in Hl by lia. split; [lia|].
    destruct Hm2 as [E|]; [left|right; lia]. unfold k. by rewrite E.
Qed.

Lemma mask_range k x : 0 <= k < 32 -> 0 <= x -> 
  Z.land x (u32 (2 ^ k - 1)) = x mod 2 ^ k.
Proof.
  intros Hk Hx. assert (0 < 2 ^ k <= 2 ^ 31) by (split; [lia|apply Z.pow_le_mono_r; lia]).
  rewrite u32_small by lia. rewrite Z.sub_1_r, <- Z.ones_equiv. apply Z.land_ones. lia.
Qed.

(** ** Buckets *)

Lemma zset_split (bs : list (list Z)) i b c : zget bs i = Some b ->
  exists l1 l2, bs = l1 ++ b :: l2 /\ zset bs i c = l1 ++ c :: l2.
Proof.
  intros H. pose proof (zget_inv _ _ _ H) as Hi. unfold zget in H. rewrite decide_True in H by lia.
  exists (take (Z.to_nat i) bs), (drop (S (Z.to_nat i)) bs).
  split; [symmetry; by apply take_drop_middle|].
  unfold zset. rewrite decide_True by lia. rewrite insert_take_drop; [done|].
  unfold zlen in Hi. lia.
Qed.

Lemma concat_zset (bs : list (list Z)) i b e : zget bs i = Some b ->
  concat (zset bs i (e :: b)) ≡ₚ e :: concat bs.
Proof.
  intros H. destruct (zset_split bs i b (e :: b) H) as (l1 & l2 & -> & ->).
  rewrite !concat_app. cbn [concat]. rewrite <- app_comm_cons.
  symmetry. apply Permutation_middle.
Qed.

Lemma elem_of_concat_zget (bs : list (list Z)) e :
  e ∈ concat bs <-> exists i b, zget bs i = Some b /\ e ∈ b.
Proof.
  rewrite list_elem_of_In, in_concat. split.
  - intros (b & Hb & He). apply list_elem_of_In, list_elem_of_lookup in Hb as [n Hn].
    exists (Z.of_nat n), b. unfold zget. rewrite decide_True, Nat2Z.id by lia.
    split; [done|]. by apply list_elem_of_In.
  - intros (i & b & Hb & He). exists b. rewrite <- !list_elem_of_In. split; [|done].
    unfold zget in Hb. case_decide; [|done]. by eapply list_elem_of_lookup_2.
Qed.

Lemma concat_unlink e bs : concat (unlink e bs) = filter (fun x => x <> e) (concat bs).
Proof. induction bs as [|b bs IH]; [done|]. simpl. by rewrite filter_app, <- IH. Qed.

Lemma filter_ne_perm (e : Z) (xs : list Z) : NoDup xs -> e ∈ xs -> xs ≡ₚ e :: filter (fun x => x <> e) xs.
Proof.
  intros Hd He. apply NoDup_Permutation; [done| |].
  - constructor; [|by apply NoDup_filter]. rewrite list_elem_of_filter. by intros [? _].
  - intros x. rewrite elem_of_cons, list_elem_of_filter.
    destruct (decide (x = e)) as [->|]; tauto.
Qed.

(** ** The invariant of a table *)

Section Correct.
Variable hashf : Z -> Z.
Variable less : Z -> Z -> bool.
Implicit Types (h : hash) (e x : Z) (b : list Z) (bs : list (list Z)).

Abbreviation eqv := (equal_elems less).

(** What the callbacks promise: the hash is an [unsigned], equality (neither is
    less) is reflexive and transitive, and equal elements hash alike. *)
Record callbacks : Prop := {
  hash_u32 : forall e, is_u32 (hashf e);
  eqv_refl : forall e, eqv e e = true;
  eqv_trans : forall x y z, eqv x y = true -> eqv y z = true -> eqv x z = true;
  eqv_hash : forall x y, eqv x y = true -> hashf x = hashf y
}.

Definition elems (h : hash) : list Z := concat (buckets h).

(** Every element is in the bucket its hash selects. *)
Definition placed (k : Z) (bs : list (list Z)) : Prop :=
  zlen bs = 2 ^ k /\ forall i b e, zget bs i = Some b -> e ∈ b -> hashf e mod 2 ^ k = i.

Record wf_hash (h : hash) : Prop := {
  wf_size : exists k, 2 <= k < 32 /\ bucket_cnt h = 2 ^ k /\ placed k (buckets h);
  wf_elem_cnt : elem_cnt h = zlen (elems h) /\ elem_cnt h < 2 ^ 32;
  wf_nodup : NoDup (elems h);
  wf_distinct : forall x y, x ∈ elems h -> y ∈ elems h -> eqv x y = true -> x = y;
  wf_nonnull : NULL ∉ elems h
}.

Hypothesis cb : callbacks.

Lemma eqv_sym x y : eqv x y = eqv y x.
Proof. unfold equal_elems. apply andb_comm. Qed.

Lemma bucket_at_some k bs n e : 0 <= k -> zlen bs = 2 ^ k -> hashf e mod 2 ^ k = n ->
  exists b, zget bs n = Some b.
Proof.
  intros Hk Hl <-. apply zget_Some. rewrite Hl. apply Z.mod_pos_bound.
  apply Z.pow_pos_nonneg; lia.
Qed.

Lemma find_bucket_spec h k e : bucket_cnt h = 2 ^ k -> 0 <= k < 32 ->
  find_bucket hashf e h = Done (hashf e mod 2 ^ k, h).
Proof.
  intros Hb Hk. unfold find_bucket. erewrite bind_done; [|done]. rewrite Hb.
  rewrite mask_range; [done|done|]. apply (hash_u32 cb e).
Qed.

Lemma find_in_spec b e : (NULL ∉ b) ->
  (find_in less b e <> NULL /\ find_in less b e ∈ b /\ eqv (find_in less b e) e = true) \/
  (find_in less b e = NULL /\ forall x, x ∈ b -> eqv x e = false).
Proof.
  induction b as [|x b IH]; intros Hn; simpl.
  - right. split; [done|]. by intros x Hx%elem_of_nil.
  - destruct (eqv x e) eqn:E.
    + left. split; [|split; [inl|done]]. intros ->. apply Hn. inl.
    + destruct IH as [(H1 & H2 & H3)|[H1 H2]]; [intros Hi; apply Hn; inl| |].
      * left. split_and!; [done|inl|done].
      * right. split; [done|]. intros y [->|Hy]%elem_of_cons; [done|by apply H2].
Qed.

(** The search behind every operation: the bucket of [e], and the element of the
    table equal to [e] or NULL. *)
Lemma find_spec h e : wf_hash h ->
  exists k b r, 2 <= k < 32 /\ bucket_cnt h = 2 ^ k /\ placed k (buckets h) /\
    find_bucket hashf e h = Done (hashf e mod 2 ^ k, h) /\
    zget (buckets h) (hashf e mod 2 ^ k) = Some b /\
    find_elem less (hashf e mod 2 ^ k) e h = Done (r, h) /\
    ((r <> NULL /\ r ∈ elems h /\ eqv r e = true) \/
     (r = NULL /\ forall x, x ∈ elems h -> eqv x e = false)).
Proof.
  intros Hwf. destruct (wf_size h Hwf) as (k & Hk & Hb & Hpl & Hat).
  destruct (bucket_at_some k (buckets h) _ e ltac:(lia) Hpl eq_refl) as [b Hbk].
  assert (forall x, x ∈ b -> x ∈ elems h) as Hsub.
  { intros x Hx. apply elem_of_concat_zget. eauto. }
  exists k, b, (find_in less b e).
  refine (conj Hk (conj Hb (conj (conj Hpl Hat) _))). split; [|split; [done|split]].
  - apply find_bucket_spec; [done|lia].
  - unfold find_elem. erewrite bind_done; [|unfold bucket_at, load; by rewrite Hbk]. done.
  - destruct (find_in_spec b e) as [(H1 & H2 & H3)|[H1 H2]].
    + intros Hn. by apply (wf_nonnull h Hwf), Hsub.
    + left. auto.
    + right. split; [done|]. intros x Hx. destruct (eqv x e) eqn:E; [|done].
      apply elem_of_concat_zget in Hx as (i & b' & Hb' & Hx).
      rewrite <- E. apply H2. pose proof (Hat _ _ _ Hb' Hx) as Hi.
      rewrite (eqv_hash cb x e E) in Hi. subst i. congruence.
Qed.

Lemma put_placed k bs e b : 0 <= k -> placed k bs -> zget bs (hashf e mod 2 ^ k) = Some b ->
  placed k (zset bs (hashf e mod 2 ^ k) (e :: b)).
Proof.
  intros Hk [Hl Hp] Hb. split; [by rewrite zlen_zset|].
  intros i b' x Hb' Hx. rewrite zget_zset in Hb' by (by eapply zget_inv).
  case_decide as E; [|by eapply Hp].
  injection Hb' as <-. apply elem_of_cons in Hx as [->|Hx]; [done|]. subst i. by eapply Hp.
Qed.

(** Moving elements one by one into the new array. *)
Lemma move_elem_spec h k e : bucket_cnt h = 2 ^ k -> 0 <= k < 32 -> placed k (buckets h) ->
  exists h', move_elem hashf e h = Done (tt, h') /\ bucket_cnt h' = 2 ^ k /\
    elem_cnt h' = elem_cnt h /\ placed k (buckets h') /\ elems h' ≡ₚ e :: elems h.
Proof.
  intros Hb Hk Hpl. destruct Hpl as [Hl Hat] eqn:Heq. clear Heq.
  destruct (bucket_at_some k (buckets h) _ e ltac:(lia) Hl eq_refl) as [b Hbk].
  eexists. split.
  - unfold move_elem. erewrite bind_done; [|by apply find_bucket_spec].
    erewrite bind_done; [|unfold bucket_at, load; by rewrite Hbk]. done.
  - cbn [bucket_cnt elem_cnt buckets set_buckets]. split_and!; [done..| |].
    + apply put_placed; [lia|done|done].
    + by apply concat_zset.
Qed.

Lemma move_bucket_spec k b : 0 <= k < 32 -> forall h,
  bucket_cnt h = 2 ^ k -> placed k (buckets h) ->
  exists h', move_bucket hashf b h = Done (tt, h') /\ bucket_cnt h' = 2 ^ k /\
    elem_cnt h' = elem_cnt h /\ placed k (buckets h') /\ elems h' ≡ₚ b ++ elems h.
Proof.
  intros Hk. induction b as [|e b IH]; intros h Hb Hpl; [by exists h|]. cbn [move_bucket].
  destruct (move_elem_spec h k e Hb Hk Hpl) as (h1 & Hr1 & Hb1 & Hc1 & Hp1 & He1).
  erewrite bind_done; [|exact Hr1].
  destruct (IH h1 Hb1 Hp1) as (h2 & Hr2 & Hb2 & Hc2 & Hp2 & He2).
  exists h2. split_and!; [done|done|congruence|done|].
  rewrite He2, He1. symmetry. apply Permutation_middle.
Qed.

Lemma move_buckets_spec k bs : 0 <= k < 32 -> forall h,
  bucket_cnt h = 2 ^ k -> placed k (buckets h) ->
  exists h', move_buckets hashf bs h = Done (tt, h') /\ bucket_cnt h' = 2 ^ k /\
    elem_cnt h' = elem_cnt h /\ placed k (buckets h') /\ elems h' ≡ₚ concat bs ++ elems h.
Proof.
  intros Hk. induction bs as [|b bs IH]; intros h Hb Hpl; [by exists h|]. cbn [move_buckets].
  destruct (move_bucket_spec k b Hk h Hb Hpl) as (h1 & Hr1 & Hb1 & Hc1 & Hp1 & He1).
  erewrite bind_done; [|exact Hr1].
  destruct (IH h1 Hb1 Hp1) as (h2 & Hr2 & Hb2 & Hc2 & Hp2 & He2).
  exists h2. split_and!; [done|done|congruence|done|].
  rewrite He2, He1. cbn [concat]. rewrite !app_assoc.
  apply Permutation_app_tail, Permutation_app_comm.
Qed.

Lemma placed_empty k : 0 <= k -> placed k (replicate (Z.to_nat (2 ^ k)) []) /\
  concat (replicate (Z.to_nat (2 ^ k)) []) = ([] : list Z).
Proof.
  intros Hk. split; [split|].
  - unfold zlen. rewrite length_replicate, Z2Nat.id; [done|]. apply Z.pow_nonneg. lia.
  - intros i b e Hb He. unfold zget in Hb. case_decide; [|done].
    apply lookup_replicate in Hb as [-> _]. by apply elem_of_nil in He.
  - induction (Z.to_nat (2 ^ k)) as [|n IH]; [done|]. exact IH.
Qed.

(** The same elements in another well-placed array. *)
Lemma wf_hash_perm h h' k : wf_hash h -> elem_cnt h' = elem_cnt h -> 2 <= k < 32 ->
  bucket_cnt h' = 2 ^ k -> placed k (buckets h') -> elems h' ≡ₚ elems h -> wf_hash h'.
Proof.
  intros [Hs [Hc Hu] Hd Hx Hn] Hc' Hk Hb Hpl Hp. split.
  - by exists k.
  - rewrite Hc'. split; [|done]. rewrite Hc. unfold zlen. by rewrite Hp.
  - by rewrite Hp.
  - intros x y. rewrite Hp. apply Hx.
  - by rewrite Hp.
Qed.

(** [rehash] keeps the invariant and the contents whether or not its
    allocation succeeds; when it does, the bucket count is the ideal one: at
    least four, fewer than four elements per bucket, and at least two when there
    are more than four buckets. *)
Lemma rehash_spec h malloc_ok : wf_hash h ->
  exists h', rehash hashf malloc_ok h = Done (tt, h') /\ wf_hash h' /\
    elem_cnt h' = elem_cnt h /\ elems h' ≡ₚ elems h /\
    (malloc_ok = true -> elem_cnt h < 4 * bucket_cnt h' /\
       (bucket_cnt h' = 4 \/ 2 * bucket_cnt h' <= elem_cnt h)).
Proof.
  intros Hwf. pose proof (wf_elem_cnt h Hwf) as [Hc Hu].
  destruct (ideal_bucket_cnt_spec (elem_cnt h)) as (k & Hk & Hi & Hlo & Hhi);
    [unfold zlen in Hc; lia|].
  assert (2 ^ k = 4 \/ 2 * 2 ^ k <= elem_cnt h) as Hhi'.
  { destruct Hhi as [->|]; [by left|by right]. }
  unfold rehash. do 3 (erewrite bind_done; [|done]).
  erewrite bind_done; [|unfold liftO; by rewrite Hi].
  destruct (Z.eqb_spec (2 ^ k) (bucket_cnt h)) as [E|E].
  { exists h. rewrite <- E. by split_and!. }
  destruct malloc_ok; cbn [negb]; [|by exists h].
  erewrite bind_done; [|done].
  destruct (placed_empty k ltac:(lia)) as [Hpl Hemp].
  destruct (move_buckets_spec k (buckets h) ltac:(lia)
    (mk_hash (elem_cnt h) (2 ^ k) (replicate (Z.to_nat (2 ^ k)) []))) as (h' & Hr & Hb & Hc' & Hp & He);
    [done|exact Hpl|].
  exists h'. rewrite Hb. unfold elems at 2 in He. cbn [buckets] in He.
  rewrite Hemp, app_nil_r in He. cbn [elem_cnt] in Hc'.
  split_and!; [done|by apply (wf_hash_perm h h' k)|done..].
Qed.

Lemma insert_elem_spec h k e : wf_hash h -> 2 <= k < 32 -> bucket_cnt h = 2 ^ k ->
  placed k (buckets h) -> e <> NULL -> (forall x, x ∈ elems h -> eqv x e = false) ->
  elem_cnt h + 1 < 2 ^ 32 ->
  exists h', insert_elem (hashf e mod 2 ^ k) e h = Done (tt, h') /\ wf_hash h' /\
    elems h' ≡ₚ e :: elems h /\ bucket_cnt h' = bucket_cnt h.
Proof.
  intros [_ [Hc _] Hd Hx Hn] Hk Hb Hpl He Hnew Hu.
  assert (zlen (buckets h) = 2 ^ k) as Hl by apply Hpl.
  destruct (bucket_at_some k (buckets h) _ e ltac:(lia) Hl eq_refl) as [b Hbk].
  eexists. split.
  { unfold insert_elem. erewrite bind_done; [|done].
    erewrite bind_done; [|unfold bucket_at, load; cbn [buckets set_elem_cnt]; by rewrite Hbk]. done. }
  assert (e ∉ elems h) as Hne.
  { intros Hin. specialize (Hnew e Hin). by rewrite (eqv_refl cb) in Hnew. }
  pose proof (concat_zset (buckets h) _ b e Hbk) as Hp. unfold elems in *.
  cbn [buckets elem_cnt bucket_cnt set_elem_cnt set_buckets].
  split; [|done]. split; unfold elems; cbn [buckets elem_cnt bucket_cnt set_elem_cnt set_buckets].
  - exists k. split; [done|]. split; [done|]. apply put_placed; [lia|done|done].
  - rewrite u32_small by (unfold zlen in Hc; lia). split; [|done].
    rewrite Hc. unfold zlen. rewrite Hp. simpl length. lia.
  - rewrite Hp. by constructor.
  - intros x y. rewrite !Hp, !elem_of_cons. intros [->|Hx1] [->|Hy1] E; [done| | |by apply Hx].
    + rewrite eqv_sym, Hnew in E; done.
    + rewrite Hnew in E; done.
  - rewrite Hp, elem_of_cons. intros [?|?]; [congruence|done].
Qed.

Lemma remove_elem_spec h e : wf_hash h -> e ∈ elems h ->
  exists h', remove_elem e h = Done (tt, h') /\ wf_hash h' /\
    elems h ≡ₚ e :: elems h' /\ bucket_cnt h' = bucket_cnt h.
Proof.
  intros [(k & Hk & Hb & Hl & Hat) [Hc Hu] Hd Hx Hn] He. unfold elems in *.
  pose proof (filter_ne_perm e _ Hd He) as Hp.
  assert (zlen (concat (buckets h)) = zlen (filter (fun x => x <> e) (concat (buckets h))) + 1) as Hz.
  { unfold zlen. rewrite Hp at 1. simpl length. lia. }
  eexists. split.
  { unfold remove_elem. erewrite bind_done; [|done]. erewrite bind_done; [|done].
    cbn [buckets set_elem_cnt]. rewrite bool_decide_eq_true_2 by done.
    erewrite bind_done; [|done]. done. }
  cbn [buckets elem_cnt bucket_cnt set_elem_cnt set_buckets]. rewrite concat_unlink.
  split; [|done]. split; unfold elems; cbn [buckets elem_cnt bucket_cnt set_elem_cnt set_buckets];
    rewrite ?concat_unlink.
  - exists k. split; [done|]. split; [done|]. split.
    + rewrite <- Hl. unfold zlen, unlink. by rewrite length_map.
    + intros i b x Hbi Hxb. unfold zget in Hbi. case_decide; [|done].
      unfold unlink in Hbi. change (map ?f) with (fmap (M:=list) f) in Hbi.
      apply list_lookup_fmap_Some in Hbi as (b0 & -> & Hb0).
      apply list_elem_of_filter in Hxb as [_ Hxb].
      apply (Hat i b0 x); [|done]. unfold zget. by rewrite decide_True.
  - rewrite u32_small by (unfold zlen in *; lia). lia.
  - by apply NoDup_filter.
  - intros x y [_ Hx1]%list_elem_of_filter [_ Hy1]%list_elem_of_filter. by apply Hx.
  - intros [_ ?]%list_elem_of_filter. done.
Qed.

(** Once the element equal to [e] is gone no other is equal to it. *)
Lemma removed_distinct h h1 r e x : wf_hash h -> elems h ≡ₚ r :: elems h1 ->
  eqv r e = true -> x ∈ elems h1 -> eqv x e = false.
Proof.
  intros Hwf Hp He Hx. destruct (eqv x e) eqn:E; [|done]. exfalso.
  pose proof (wf_nodup h Hwf) as Hd. rewrite Hp in Hd. apply NoDup_cons in Hd as [Hr _].
  apply Hr. assert (x = r) as <-; [|done].
  apply (wf_distinct h Hwf); [rewrite Hp; inl|rewrite Hp; inl|].
  apply (eqv_trans cb x e r); [done|]. by rewrite eqv_sym.
Qed.

(** [hash_find] returns the element of the table equal to [e], or NULL when
    there is none, and changes nothing. *)
Theorem hash_find_correct h e : wf_hash h ->
  exists r, hash_find hashf less e h = Done (r, h) /\
    ((r <> NULL /\ r ∈ elems h /\ eqv r e = true) \/
     (r = NULL /\ forall x, x ∈ elems h -> eqv x e = false)).
Proof.
  intros Hwf. destruct (find_spec h e Hwf) as (k & b & r & _ & _ & _ & Hf & _ & Hr & Hc).
  exists r. split; [|done]. unfold hash_find. by erewrite bind_done; [|exact Hf].
Qed.

(** [hash_insert] links a new element into the table when no equal element is
    there, and returns NULL; otherwise it returns that element and keeps the
    contents.  Either way the invariant holds afterwards. *)
Theorem hash_insert_correct h e malloc_ok : wf_hash h -> e <> NULL ->
  elem_cnt h + 1 < 2 ^ 32 ->
  exists r h', hash_insert hashf less malloc_ok e h = Done (r, h') /\ wf_hash h' /\
    ((r <> NULL /\ r ∈ elems h /\ eqv r e = true /\ elems h' ≡ₚ elems h) \/
     (r = NULL /\ (forall x, x ∈ elems h -> eqv x e = false) /\ elems h' ≡ₚ e :: elems h)).
Proof.
  intros Hwf He Hu. unfold hash_insert.
  destruct (find_spec h e Hwf) as (k & b & r & Hk & Hb & Hpl & Hf & _ & Hr & Hc).
  erewrite bind_done; [|exact Hf]. erewrite bind_done; [|exact Hr].
  destruct Hc as [(H1 & H2 & H3)|[-> H2]].
  - apply Z.eqb_neq in H1 as E. rewrite E. erewrite bind_done; [|done].
    destruct (rehash_spec h malloc_ok Hwf) as (h' & Hr' & Hwf' & _ & Hp & _).
    erewrite bind_done; [|exact Hr']. exists r, h'. split; [done|]. split; [done|]. by left.
  - rewrite Z.eqb_refl.
    destruct (insert_elem_spec h k e Hwf Hk Hb Hpl He H2 Hu) as (h1 & Hr1 & Hwf1 & Hp1 & _).
    erewrite bind_done; [|exact Hr1].
    destruct (rehash_spec h1 malloc_ok Hwf1) as (h' & Hr' & Hwf' & _ & Hp & _).
    erewrite bind_done; [|exact Hr']. exists NULL, h'. split; [done|]. split; [done|].
    right. split; [done|]. split; [done|]. by rewrite Hp.
Qed.

(** [hash_delete] unlinks and returns the element equal to [e], or returns
    NULL and keeps the contents when there is none. *)
Theorem hash_delete_correct h e malloc_ok : wf_hash h ->
  exists r h', hash_delete hashf less malloc_ok e h = Done (r, h') /\ wf_hash h' /\
    ((r <> NULL /\ eqv r e = true /\ elems h ≡ₚ r :: elems h' /\
        forall x, x ∈ elems h' -> eqv x e = false) \/
     (r = NULL /\ h' = h /\ forall x, x ∈ elems h -> eqv x e = false)).
Proof.
  intros Hwf. unfold hash_delete.
  destruct (find_spec h e Hwf) as (k & b & r & Hk & Hb & Hpl & Hf & _ & Hr & Hc).
  erewrite bind_done; [|exact Hf]. erewrite bind_done; [|exact Hr].
  destruct Hc as [(H1 & H2 & H3)|[-> H2]].
  - apply Z.eqb_neq in H1 as E. rewrite E. cbn [negb].
    destruct (remove_elem_spec h r Hwf H2) as (h1 & Hr1 & Hwf1 & Hp1 & _).
    destruct (rehash_spec h1 malloc_ok Hwf1) as (h' & Hr' & Hwf' & _ & Hp & _).
    exists r, h'. split; [|split; [done|]].
    + erewrite bind_done; [|erewrite bind_done; [exact Hr'|exact Hr1]]. done.
    + left. split; [done|]. split; [done|]. rewrite Hp. split; [done|].
      intros x Hx. rewrite Hp in Hx. by apply (removed_distinct h h1 r).
  - rewrite Z.eqb_refl. exists NULL, h. split; [done|]. split; [done|]. by right.
Qed.

(** [hash_replace] always links the new element and returns the equal element
    it displaced, NULL when there was none. *)
Theorem hash_replace_correct h e malloc_ok : wf_hash h -> e <> NULL ->
  elem_cnt h + 1 < 2 ^ 32 ->
  exists r h', hash_replace hashf less malloc_ok e h = Done (r, h') /\ wf_hash h' /\
    ((r <> NULL /\ eqv r e = true /\ r :: elems h' ≡ₚ e :: elems h) \/
     (r = NULL /\ (forall x, x ∈ elems h -> eqv x e = false) /\ elems h' ≡ₚ e :: elems h)).
Proof.
  intros Hwf He Hu. unfold hash_replace.
  destruct (find_spec h e Hwf) as (k & b & r & Hk & Hb & Hpl & Hf & _ & Hr & Hc).
  erewrite bind_done; [|exact Hf]. erewrite bind_done; [|exact Hr].
  assert (exists h1, (if negb (r =? NULL) then remove_elem r else mret tt) h = Done (tt, h1) /\
    wf_hash h1 /\ bucket_cnt h1 = bucket_cnt h /\ elem_cnt h1 <= elem_cnt h /\
    (forall x, x ∈ elems h1 -> eqv x e = false) /\
    ((r <> NULL /\ eqv r e = true /\ elems h ≡ₚ r :: elems h1) \/ (r = NULL /\ h1 = h)))
    as (h1 & Hr1 & Hwf1 & Hb1 & Hc1 & Hnew & Hcase).
  { destruct Hc as [(H1 & H2 & H3)|[-> H2]].
    - apply Z.eqb_neq in H1 as E. rewrite E.
      destruct (remove_elem_spec h r Hwf H2) as (h1 & Hr1 & Hwf1 & Hp1 & Hb1).
      exists h1. split; [exact Hr1|]. split; [done|]. split; [done|]. split; [|split; [|by left]].
      + destruct (wf_elem_cnt h Hwf) as [-> _], (wf_elem_cnt h1 Hwf1) as [-> _].
        unfold zlen. rewrite Hp1. simpl length. lia.
      + intros x. by apply (removed_distinct h h1 r).
    - rewrite Z.eqb_refl. exists h. split; [done|]. split; [done|]. split; [done|].
      split; [lia|]. split; [done|]. by right. }
  erewrite bind_done; [|exact Hr1].
  destruct (wf_size h1 Hwf1) as (k1 & Hk1 & Hbk1 & Hpl1).
  assert (k1 = k) as -> by (apply (Z.pow_inj_r 2); [lia..|congruence]).
  destruct (insert_elem_spec h1 k e Hwf1 Hk Hbk1 Hpl1 He Hnew ltac:(lia)) as (h2 & Hr2 & Hwf2 & Hp2 & _).
  erewrite bind_done; [|exact Hr2].
  destruct (rehash_spec h2 malloc_ok Hwf2) as (h' & Hr' & Hwf' & _ & Hp & _).
  erewrite bind_done; [|exact Hr']. exists r, h'. split; [done|]. split; [done|].
  destruct Hcase as [(H1 & H2 & H3)|[-> ->]].
  - left. split; [done|]. split; [done|]. rewrite Hp, Hp2, H3. apply perm_swap.
  - right. split; [done|]. split; [done|]. by rewrite Hp.
Qed.
End Correct.

(** ** Iteration *)

Section Iteration.
Implicit Types (h : hash) (k p : nat) (b : list Z).

(** What is left to visit from position [p] of bucket [k] on. *)
Definition rest_from h k p : list Z :=
  drop p (default [] (buckets h !! k)) ++ concat (drop (S k) (buckets h)).

Lemma rest_next_bucket h k b : buckets h !! k = Some b ->
  rest_from h k (length b) = concat (drop (S k) (buckets h)).
Proof. intros Hb. unfold rest_from. rewrite Hb. simpl. by rewrite drop_all. Qed.

Lemma rest_bucket_start h k : (k < length (buckets h))%nat ->
  rest_from h k 0 = concat (drop k (buckets h)).
Proof.
  intros Hk. unfold rest_from. destruct (lookup_lt_is_Some_2 _ _ Hk) as [b Hb].
  rewrite Hb. simpl. by rewrite (drop_S _ _ _ Hb).
Qed.

Lemma hash_next_loop_spec h : zlen (buckets h) = bucket_cnt h -> forall fuel k p b,
  buckets h !! k = Some b -> (p <= length b)%nat -> (length (buckets h) - k < fuel)%nat ->
  match rest_from h k p with
  | [] => exists j : Z, hash_next_loop fuel h (mk_iter (Z.of_nat k) (Some (Z.of_nat p))) =
            Done (mk_iter j None)
  | e :: es => exists k' p' b', hash_next_loop fuel h (mk_iter (Z.of_nat k) (Some (Z.of_nat p))) =
            Done (mk_iter (Z.of_nat k') (Some (Z.of_nat p'))) /\
          buckets h !! k' = Some b' /\ b' !! p' = Some e /\ rest_from h k' (S p') = es
  end.
Proof.
  intros Hlen. induction fuel as [|fuel IH]; intros k p b Hb Hp Hf; [lia|].
  cbn [hash_next_loop it_bucket it_pos]. rewrite zget_nat, Hb.
  pose proof (lookup_lt_Some _ _ _ Hb) as Hk.
  destruct (Z.eqb_spec (Z.of_nat p) (zlen b)) as [E|E]; unfold zlen in E.
  - assert (p = length b) as -> by lia. rewrite (rest_next_bucket h k b Hb).
    destruct (Z.leb_spec (bucket_cnt h) (Z.of_nat k + 1)) as [Hle|Hgt].
    + rewrite drop_ge by (unfold zlen in Hlen; lia). by eexists.
    + unfold zlen in Hlen. assert (S k < length (buckets h))%nat as Hk' by lia.
      rewrite <- rest_bucket_start by done.
      destruct (lookup_lt_is_Some_2 _ _ Hk') as [b' Hb'].
      replace (Z.of_nat k + 1) with (Z.of_nat (S k)) by lia.
      apply (IH (S k) 0%nat b'); [done|lia|lia].
  - destruct (lookup_lt_is_Some_2 b p) as [e He]; [lia|].
    unfold rest_from. rewrite Hb. simpl. rewrite (drop_S _ _ _ He). cbn [app].
    exists k, p, b. split_and!; [done..|]. by rewrite Hb.
Qed.

Lemma hash_next_spec h k p b : zlen (buckets h) = bucket_cnt h ->
  buckets h !! k = Some b -> (p <= length b)%nat ->
  match rest_from h k p with
  | [] => exists i, hash_next h (mk_iter (Z.of_nat k) (Some (Z.of_nat p - 1))) = Done (NULL, i)
  | e :: es => exists k' p' b',
          hash_next h (mk_iter (Z.of_nat k) (Some (Z.of_nat p - 1))) =
            Done (e, mk_iter (Z.of_nat k') (Some (Z.of_nat p'))) /\
          buckets h !! k' = Some b' /\ (S p' <= length b')%nat /\ rest_from h k' (S p') = es
  end.
Proof.
  intros Hl Hb Hp. unfold hash_next. cbn [it_pos it_bucket]. rewrite Z.sub_add.
  pose proof (hash_next_loop_spec h Hl (S (Z.to_nat (bucket_cnt h))) k p b Hb Hp) as Hs.
  destruct (rest_from h k p) as [|e es].
  - destruct Hs as [j Hs]; [unfold zlen in Hl; lia|]. rewrite (obind_done _ _ _ Hs). by eexists.
  - destruct Hs as (k' & p' & b' & Hs & Hb' & He & Hr); [unfold zlen in Hl; lia|].
    rewrite (obind_done _ _ _ Hs). exists k', p', b'.
    split; [|split; [done|]; split; [|done]].
    + unfold hash_cur. cbn [it_pos it_bucket]. rewrite zget_nat, Hb'.
      unfold bnd, mbind, option_bind. by rewrite zget_nat, He.
    + by apply lookup_lt_Some in He.
Qed.

Lemma iterate_spec h : zlen (buckets h) = bucket_cnt h -> (NULL ∉ elems h) ->
  forall fuel k p b, buckets h !! k = Some b -> (p <= length b)%nat ->
  (length (rest_from h k p) < fuel)%nat -> (forall e, e ∈ rest_from h k p -> e <> NULL) ->
  iterate fuel h (mk_iter (Z.of_nat k) (Some (Z.of_nat p - 1))) = Done (rest_from h k p).
Proof.
  intros Hl Hn. induction fuel as [|fuel IH]; intros k p b Hb Hp Hf Hnn; [lia|].
  cbn [iterate]. pose proof (hash_next_spec h k p b Hl Hb Hp) as Hs.
  destruct (rest_from h k p) as [|e es].
  - destruct Hs as [i Hs]. by rewrite (obind_done _ _ _ Hs).
  - destruct Hs as (k' & p' & b' & Hs & Hb' & Hp' & Hr). rewrite (obind_done _ _ _ Hs).
    destruct (Z.eqb_spec e NULL) as [->|_]; [destruct (Hnn NULL); [inl|done]|].
    replace (Z.of_nat p') with (Z.of_nat (S p') - 1) by lia.
    rewrite (obind_done _ _ es); [done|]. subst es.
    apply (IH k' (S p') b'); [done|done|simpl in Hf; lia|].
    intros x Hx. apply Hnn. inl.
Qed.

(** The iteration idiom [hash_first], [hash_next], [hash_cur] visits every
    element of the table exactly once and then stops. *)
Theorem iterate_visits_all hashf less h fuel : wf_hash hashf less h ->
  (length (elems h) < fuel)%nat -> iterate fuel h hash_first = Done (elems h).
Proof.
  intros Hwf Hf. destruct (wf_size _ _ h Hwf) as (k & Hk & Hb & Hl & _).
  assert (0 < 2 ^ k) by lia.
  assert (0 < length (buckets h))%nat as H0 by (unfold zlen in Hl; lia).
  assert (rest_from h 0 0 = elems h) as E by by rewrite rest_bucket_start.
  destruct (lookup_lt_is_Some_2 _ _ H0) as [b Hb0]. rewrite <- E in *.
  apply (iterate_spec h ltac:(congruence) (wf_nonnull _ _ h Hwf) fuel 0%nat 0%nat b); [done|lia|done|].
  rewrite E. intros e He ->. by apply (wf_nonnull _ _ h Hwf).
Qed.
End Iteration.

(** ** Hash functions *)

(** On a string that a NUL ends, [hash_string] is [hash_bytes] of the bytes
    before the NUL, and both stay 32-bit values. *)
Theorem hash_string_bytes s t : Forall (fun c => 0 < c < 256) s ->
  exists v, hash_string (s ++ 0 :: t) = Done v /\ hash_bytes s (length s) = Done v /\ is_u32 v.
Proof.
  intros Hs. exists (foldl fnv_step FNV_32_BASIS s). unfold hash_string, hash_bytes.
  rewrite Nat.leb_refl, take_ge by lia.
  assert (is_u32 FNV_32_BASIS) as Hb by (unfold is_u32, FNV_32_BASIS; lia).
  revert Hb. generalize FNV_32_BASIS as v. induction Hs as [|c s Hc Hs IH]; intros v Hv; [done|].
  cbn [app hash_string_loop foldl]. destruct (Z.eqb_spec c 0); [lia|]. apply IH.
  unfold fnv_step, is_u32. pose proof (u32_range (v * FNV_32_PRIME)) as Hr.
  assert (0 <= Z.lxor (u32 (v * FNV_32_PRIME)) c) by (apply Z.lxor_nonneg; lia).
  split; [done|]. destruct (decide (Z.lxor (u32 (v * FNV_32_PRIME)) c = 0)) as [->|]; [lia|].
  apply Z.log2_lt_pow2; [lia|]. eapply Z.le_lt_trans; [apply Z.log2_lxor; lia|].
  apply Z.max_lub_lt.
  - destruct (decide (u32 (v * FNV_32_PRIME) = 0)) as [->|]; [simpl; lia|apply Z.log2_lt_pow2; lia].
  - apply Z.log2_lt_pow2; lia.
Qed.

(** ** Concrete inputs *)

(** Elements are their own keys, hashed by their value. *)
Definition demo_hash : hash := mk_hash 3 4 [[8]; [5; 9]; []; []].

Lemma demo_callbacks : callbacks u32 Z.ltb.
Proof.
  split.
  - apply u32_range.
  - intros e. unfold equal_elems. by rewrite Z.ltb_irrefl.
  - intros x y z. unfold equal_elems. lia.
  - intros x y E. unfold equal_elems in E. assert (x = y) as -> by lia. done.
Qed.

Lemma demo_wf_hash : wf_hash u32 Z.ltb demo_hash.
Proof.
  split.
  - exists 2. split; [lia|]. split; [done|]. split; [done|]. intros i b e Hb He.
    pose proof (zget_inv _ _ _ Hb) as Hi. change (zlen (buckets demo_hash)) with 4 in Hi.
    assert (i = 0 \/ i = 1 \/ i = 2 \/ i = 3) as [->|[->|[->| ->]]] by lia;
      vm_compute in Hb; injection Hb as <-;
      repeat (apply elem_of_cons in He as [->|He]; [by vm_compute|]); by apply elem_of_nil in He.
  - split; [done|simpl; lia].
  - by_decide.
  - intros x y _ _ E. unfold equal_elems in E. lia.
  - by_decide.
Qed.

Lemma hash_find_correct_witness : exists r, hash_find u32 Z.ltb 9 demo_hash = Done (r, demo_hash) /\
  ((r <> NULL /\ r ∈ elems demo_hash /\ equal_elems Z.ltb r 9 = true) \/
   (r = NULL /\ forall x, x ∈ elems demo_hash -> equal_elems Z.ltb x 9 = false)).
Proof. apply (hash_find_correct u32 Z.ltb demo_callbacks demo_hash 9 demo_wf_hash). Defined.

Lemma hash_insert_correct_witness :
  exists r h', hash_insert u32 Z.ltb true 6 demo_hash = Done (r, h') /\ wf_hash u32 Z.ltb h' /\
    ((r <> NULL /\ r ∈ elems demo_hash /\ equal_elems Z.ltb r 6 = true /\ elems h' ≡ₚ elems demo_hash) \/
     (r = NULL /\ (forall x, x ∈ elems demo_hash -> equal_elems Z.ltb x 6 = false) /\
      elems h' ≡ₚ 6 :: elems demo_hash)).
Proof.
  apply (hash_insert_correct u32 Z.ltb demo_callbacks demo_hash 6 true demo_wf_hash); [done|simpl; lia].
Defined.

Lemma hash_delete_correct_witness :
  exists r h', hash_delete u32 Z.ltb true 9 demo_hash = Done (r, h') /\ wf_hash u32 Z.ltb h' /\
    ((r <> NULL /\ equal_elems Z.ltb r 9 = true /\ elems demo_hash ≡ₚ r :: elems h' /\
        forall x, x ∈ elems h' -> equal_elems Z.ltb x 9 = false) \/
     (r = NULL /\ h' = demo_hash /\ forall x, x ∈ elems demo_hash -> equal_elems Z.ltb x 9 = false)).
Proof. apply (hash_delete_correct u32 Z.ltb demo_callbacks demo_hash 9 true demo_wf_hash). Defined.

Lemma hash_replace_correct_witness :
  exists r h', hash_replace u32 Z.ltb true 9 demo_hash = Done (r, h') /\ wf_hash u32 Z.ltb h' /\
    ((r <> NULL /\ equal_elems Z.ltb r 9 = true /\ r :: elems h' ≡ₚ 9 :: elems demo_hash) \/
     (r = NULL /\ (forall x, x ∈ elems demo_hash -> equal_elems Z.ltb x 9 = false) /\
      elems h' ≡ₚ 9 :: elems demo_hash)).
Proof.
  apply (hash_replace_correct u32 Z.ltb demo_callbacks demo_hash 9 true demo_wf_hash); [done|simpl; lia].
Defined.

Lemma iterate_visits_all_witness : iterate 10 demo_hash hash_first = Done (elems demo_hash).
Proof. apply (iterate_visits_all u32 Z.ltb demo_hash 10 demo_wf_hash). simpl. lia. Defined.

Lemma hash_string_bytes_witness :
  exists v, hash_string ([112; 105] ++ 0 :: [7]) = Done v /\ hash_bytes [112; 105] 2 = Done v /\ is_u32 v.
Proof. apply (hash_string_bytes [112; 105] [7]). repeat constructor; lia. Defined.
