(* ===== verification/Block.v ===== *)
(** * devices/block.c and devices/partition.c: block devices

    A driver is an instance of [BlockDriver]: its read and write operations with
    the law that a device is an array of sectors.  [block] wraps a driver with
    the bounds check and the counters of block.c, and is what the file system
    uses; a partition of a block is a driver again ([partition_driver]).  The
    registry keeps the blocks in probe order; a [struct block *] is a position
    in that order, since blocks are only ever appended. *)

From S2P Require Import Prelude.

Definition BLOCK_SECTOR_SIZE : Z := 512.

(** [struct block_operations]: what a driver promises.  [ready d s] says that the
    driver serves sector [s]; [contents d s] is what the sector holds. *)
Class BlockDriver (dev : Type) := {
  op_read : dev -> Z -> outcome (list Z * dev);
  op_write : dev -> Z -> list Z -> outcome dev;
  contents : dev -> Z -> list Z;
  ready : dev -> Z -> Prop;
  read_law : forall d s, ready d s -> exists d', op_read d s = Done (contents d s, d') /\
    (forall t, ready d' t <-> ready d t) /\ (forall t, ready d t -> contents d' t = contents d t);
  write_law : forall d s data, ready d s -> zlen data = BLOCK_SECTOR_SIZE ->
    exists d', op_write d s data = Done d' /\
    (forall t, ready d' t <-> ready d t) /\
    (forall t, ready d t -> contents d' t = if t =? s then data else contents d t);
  sector_law : forall d s, ready d s -> zlen (contents d s) = BLOCK_SECTOR_SIZE
}.

Inductive block_type :=
  BLOCK_KERNEL | BLOCK_FILESYS | BLOCK_SCRATCH | BLOCK_SWAP | BLOCK_RAW | BLOCK_FOREIGN.

#[export] Instance block_type_dec : EqDecision block_type.
Proof. solve_decision. Defined.

(** The numbering of the enumeration; the first four are roles. *)
Definition type_no (t : block_type) : Z :=
  match t with
  | BLOCK_KERNEL => 0 | BLOCK_FILESYS => 1 | BLOCK_SCRATCH => 2 | BLOCK_SWAP => 3
  | BLOCK_RAW => 4 | BLOCK_FOREIGN => 5
  end.
Definition BLOCK_ROLE_CNT : Z := 4.

Record block (dev : Type) := mk_block {
  name : list Z;            (* block device name, at most 15 characters *)
  type : block_type;        (* type of block device *)
  size : Z;                 (* size in sectors *)
  aux : dev;                (* the driver's data *)
  read_cnt : Z;             (* number of sectors read *)
  write_cnt : Z             (* number of sectors written *)
}.
Arguments mk_block {dev}.
Arguments name {dev}.
Arguments type {dev}.
Arguments size {dev}.
Arguments aux {dev}.
Arguments read_cnt {dev}.
Arguments write_cnt {dev}.

Section Device.
Context {dev : Type} `{BlockDriver dev}.

Definition block_size (b : block dev) : Z := size b.
Definition block_name (b : block dev) : list Z := name b.

Definition check_sector (b : block dev) (sector : Z) : outcome unit :=
  if block_size b <=? sector then Panic else Done tt.

Definition block_read (sector : Z) : M (block dev) (list Z) := fun b =>
  check_sector b sector ;;
  '(buffer, d) ← op_read (aux b) sector;
  Done (buffer, mk_block (name b) (type b) (size b) d (u64 (read_cnt b + 1)) (write_cnt b)).

Definition block_write (sector : Z) (buffer : list Z) : M (block dev) unit := fun b =>
  check_sector b sector ;;
  assert_ok (negb (bool_decide (type b = BLOCK_FOREIGN))) ;;
  d ← op_write (aux b) sector buffer;
  Done (tt, mk_block (name b) (type b) (size b) d (read_cnt b) (u64 (write_cnt b + 1))).
End Device.

(** ** The registry *)

Record registry (dev : Type) := mk_registry {
  all_blocks : list (block dev);           (* in kernel probe order *)
  block_by_role : list (option Z)          (* the block assigned to each role *)
}.
Arguments mk_registry {dev}.
Arguments all_blocks {dev}.
Arguments block_by_role {dev}.

Section Registry.
Context {dev : Type}.
Abbreviation R := (registry dev).

Definition empty_registry : R := mk_registry [] (replicate 4 None).

(** [block_type_names], as the ASCII codes of the names. *)
Definition block_type_name (t : block_type) : list Z :=
  match t with
  | BLOCK_KERNEL => [107; 101; 114; 110; 101; 108]
  | BLOCK_FILESYS => [102; 105; 108; 101; 115; 121; 115]
  | BLOCK_SCRATCH => [115; 99; 114; 97; 116; 99; 104]
  | BLOCK_SWAP => [115; 119; 97; 112]
  | BLOCK_RAW => [114; 97; 119]
  | BLOCK_FOREIGN => [102; 111; 114; 101; 105; 103; 110]
  end.

Definition block_get_role (role : block_type) : M R (option Z) :=
  ASSERT (type_no role <? BLOCK_ROLE_CNT) ;;
  load (fun r => zget (block_by_role r) (type_no role)).

Definition block_set_role (role : block_type) (b : option Z) : M R unit :=
  ASSERT (type_no role <? BLOCK_ROLE_CNT) ;;
  modify (fun r => mk_registry (all_blocks r) (zset (block_by_role r) (type_no role) b)).

(** [list_elem_to_block]: NULL at the end of the list. *)
Definition list_elem_to_block (r : R) (i : Z) : option Z :=
  if i =? zlen (all_blocks r) then None else Some i.
Definition block_first : M R (option Z) := gets (fun r => list_elem_to_block r 0).
Definition block_next (i : Z) : M R (option Z) := gets (fun r => list_elem_to_block r (i + 1)).

Fixpoint find_by_name (nm : list Z) (i : Z) (bs : list (block dev)) : option Z :=
  match bs with
  | [] => None
  | b :: bs' => if bool_decide (nm = name b) then Some i else find_by_name nm (i + 1) bs'
  end.
Definition block_get_by_name (nm : list Z) : M R (option Z) :=
  gets (fun r => find_by_name nm 0 (all_blocks r)).

(** [strlcpy] into the 16 bytes of the name keeps 15 characters.  Without memory
    for the descriptor the kernel panics. *)
Definition block_register (malloc_ok : bool) (nm : list Z) (ty : block_type) (sz : Z) (d : dev)
    : M R Z :=
  if negb malloc_ok then panic else
  i ← gets (fun r => zlen (all_blocks r));
  modify (fun r => mk_registry (all_blocks r ++ [mk_block (take 15 nm) ty sz d 0 0]) (block_by_role r)) ;;
  mret i.
End Registry.

(** ** Partitions *)

(** A partition: the underlying block device and its first sector within it. *)
Record partition (dev : Type) := mk_partition {
  p_block : block dev;
  p_start : Z
}.
Arguments mk_partition {dev}.
Arguments p_block {dev}.
Arguments p_start {dev}.

Section Partition.
Context {dev : Type} `{BlockDriver dev}.

Definition partition_read (p : partition dev) (sector : Z) : outcome (list Z * partition dev) :=
  '(buffer, b) ← block_read (u32 (p_start p + sector)) (p_block p);
  Done (buffer, mk_partition b (p_start p)).

Definition partition_write (p : partition dev) (sector : Z) (buffer : list Z)
    : outcome (partition dev) :=
  '(_, b) ← block_write (u32 (p_start p + sector)) buffer (p_block p);
  Done (mk_partition b (p_start p)).
End Partition.

(** [struct partition_table_entry], the fields that are read. *)
Record partition_table_entry := mk_pte {
  e_type : Z;
  e_offset : Z;          (* start sector offset from partition table *)
  e_size : Z             (* number of sectors *)
}.

(** A little-endian 32-bit field at byte [i] of a sector. *)
Definition le32 (data : list Z) (i : Z) : Z :=
  let byte j := default 0 (zget data (i + j)) in
  byte 0 + 2 ^ 8 * byte 1 + 2 ^ 16 * byte 2 + 2 ^ 24 * byte 3.
Definition le16 (data : list Z) (i : Z) : Z :=
  default 0 (zget data i) + 2 ^ 8 * default 0 (zget data (i + 1)).

(** Entry [i] of the table in the sector: 446 bytes of loader, 16 bytes each. *)
Definition table_entry (data : list Z) (i : Z) : partition_table_entry :=
  let at_ := 446 + 16 * i in
  mk_pte (default 0 (zget data (at_ + 4))) (le32 data (at_ + 8)) (le32 data (at_ + 12)).
Definition signature (data : list Z) : Z := le16 data 510.

Definition is_extended (ty : Z) : bool :=
  (ty =? 0x05) || (ty =? 0x0f) || (ty =? 0x85) || (ty =? 0xc5).

Definition partition_block_type (part_type : Z) : block_type :=
  if part_type =? 0x20 then BLOCK_KERNEL
  else if part_type =? 0x21 then BLOCK_FILESYS
  else if part_type =? 0x22 then BLOCK_SCRATCH
  else if part_type =? 0x23 then BLOCK_SWAP
  else BLOCK_FOREIGN.

(** A partition handed to [block_register]: its number, type, start and size. *)
Record found := mk_found { f_nr : Z; f_type : block_type; f_start : Z; f_size : Z }.

(** The state of a scan: the device, the partitions registered so far, newest
    last, and [*part_nr]. *)
Record scan (dev : Type) := mk_scan { s_block : block dev; s_found : list found; s_nr : Z }.
Arguments mk_scan {dev}.
Arguments s_block {dev}.
Arguments s_found {dev}.
Arguments s_nr {dev}.

Section Scan.
Context {dev : Type} `{BlockDriver dev}.
Abbreviation SC := (scan dev).

(** Whether the allocations of the scan succeed; one that fails panics. *)
Variable malloc_ok : bool.

Definition found_partition (part_type start sz part_nr : Z) : M SC unit :=
  n ← gets (fun s => block_size (s_block s));
  if n <=? start then mret tt
  else if (u32 (start + sz) <? start) || (n <? u32 (start + sz)) then mret tt
  else if negb malloc_ok then panic
  else
    modify (fun s => mk_scan (s_block s)
      (s_found s ++ [mk_found part_nr (partition_block_type part_type) start sz]) (s_nr s)).

(** [block_read (block, 0, pt)]: the table is always read from sector 0. *)
Definition read_table : M SC (list Z) := fun s =>
  '(data, b) ← block_read 0 (s_block s);
  Done (data, mk_scan b (s_found s) (s_nr s)).

(** The loop over the table, [i] counting up from [4 - k]; [rec] is the recursive
    call for the table of an extended partition. *)
Fixpoint scan_entries (rec : Z -> Z -> M SC unit) (data : list Z)
    (sector primary_extended_sector : Z) (k : nat) : M SC unit :=
  match k with
  | O => mret tt
  | S k =>
      let e := table_entry data (4 - Z.of_nat (S k)) in
      (if (e_size e =? 0) || (e_type e =? 0) then mret tt
       else if is_extended (e_type e) then
         if sector =? 0 then rec (e_offset e) (e_offset e)
         else rec (u32 (e_offset e + primary_extended_sector)) primary_extended_sector
       else
         modify (fun s => mk_scan (s_block s) (s_found s) (s_nr s + 1)) ;;
         nr ← gets s_nr;
         found_partition (e_type e) (u32 (e_offset e + sector)) (e_size e) nr) ;;
      scan_entries rec data sector primary_extended_sector k
  end.

Fixpoint read_partition_table (fuel : nat) (sector primary_extended_sector : Z) : M SC unit :=
  match fuel with
  | O => nofuel
  | S fuel =>
      n ← gets (fun s => block_size (s_block s));
      if n <=? sector then mret tt
      else if negb malloc_ok then panic
      else
        data ← read_table;
        if negb (signature data =? 0xaa55) then mret tt
        else scan_entries (read_partition_table fuel) data sector primary_extended_sector 4
  end.

Definition partition_scan (fuel : nat) : M SC unit :=
  modify (fun s => mk_scan (s_block s) (s_found s) 0) ;;
  read_partition_table fuel 0 0.
End Scan.

(** ** Properties *)

Section BlockSpecs.
Context {dev : Type} `{BlockDriver dev}.
Implicit Types (b : block dev) (s : Z).

(** Sector [s] of the block can be read. *)
Definition readable b s : Prop := 0 <= s < size b /\ ready (aux b) s.

Lemma block_read_out b s : size b <= s -> block_read s b = Panic.
Proof.
  intros Hs. unfold block_read, check_sector, block_size.
  assert ((size b <=? s) = true) as -> by lia. done.
Qed.

Lemma block_read_spec b s : readable b s ->
  exists b', block_read s b = Done (contents (aux b) s, b') /\
    name b' = name b /\ type b' = type b /\ size b' = size b /\
    (forall t, ready (aux b') t <-> ready (aux b) t) /\
    (forall t, ready (aux b) t -> contents (aux b') t = contents (aux b) t).
Proof.
  intros [Hs Hr]. destruct (read_law _ _ Hr) as (d' & Hd & Hrd & Hct).
  unfold block_read, check_sector, block_size.
  assert ((size b <=? s) = false) as -> by lia. osimpl. rewrite Hd. osimpl.
  eexists. split; [done|]. cbn [name type size aux]. by split_and!.
Qed.

Lemma block_write_spec b s data : readable b s -> type b <> BLOCK_FOREIGN ->
  zlen data = BLOCK_SECTOR_SIZE ->
  exists b', block_write s data b = Done (tt, b') /\
    name b' = name b /\ type b' = type b /\ size b' = size b /\
    (forall t, ready (aux b') t <-> ready (aux b) t) /\
    (forall t, ready (aux b) t -> contents (aux b') t = if t =? s then data else contents (aux b) t).
Proof.
  intros [Hs Hr] Ht Hl. destruct (write_law _ _ _ Hr Hl) as (d' & Hd & Hrd & Hct).
  unfold block_write, check_sector, block_size.
  assert ((size b <=? s) = false) as -> by lia. osimpl.
  rewrite bool_decide_eq_false_2 by done. osimpl. rewrite Hd. osimpl.
  eexists. split; [done|]. cbn [name type size aux]. by split_and!.
Qed.

Definition partition_ready (p : partition dev) s : Prop :=
  0 <= s /\ 0 <= p_start p /\ p_start p + s < 2 ^ 32 /\
  readable (p_block p) (p_start p + s) /\ type (p_block p) <> BLOCK_FOREIGN.

(** A partition of a block device is a block device: sector [s] of the partition
    is sector [start + s] of the device. *)
#[export] Program Instance partition_driver : BlockDriver (partition dev) := {
  op_read := partition_read;
  op_write := partition_write;
  contents := fun p s => contents (aux (p_block p)) (p_start p + s);
  ready := partition_ready
}.
Next Obligation.
  intros p s (H0 & H1 & H2 & Hr & Ht). unfold partition_read. rewrite u32_small by lia.
  destruct (block_read_spec _ _ Hr) as (b' & Hb & _ & Hty & Hsz & Hrd & Hct).
  rewrite (obind_done _ _ _ Hb). eexists. split; [done|].
  unfold partition_ready, readable. cbn [p_block p_start]. rewrite Hty, Hsz.
  split; intros t; [by rewrite Hrd|]. intros (_ & _ & _ & [_ ?] & _). by apply Hct.
Qed.
Next Obligation.
  intros p s data (H0 & H1 & H2 & Hr & Ht) Hl. unfold partition_write. rewrite u32_small by lia.
  destruct (block_write_spec _ _ data Hr Ht Hl) as (b' & Hb & _ & Hty & Hsz & Hrd & Hct).
  rewrite (obind_done _ _ _ Hb). eexists. split; [done|].
  unfold partition_ready, readable. cbn [p_block p_start]. rewrite Hty, Hsz.
  split; intros t; [by rewrite Hrd|]. intros (_ & _ & _ & [_ ?] & _). rewrite Hct by done.
  destruct (Z.eqb_spec (p_start p + t) (p_start p + s)), (Z.eqb_spec t s); lia || done.
Qed.
Next Obligation.
  intros p s (_ & _ & _ & [_ Hr] & _). by apply sector_law.
Qed.
End BlockSpecs.

Section ScanSpecs.
Context {dev : Type} `{BlockDriver dev}.
Implicit Types (s : scan dev).

(** A registered partition lies inside the device. *)
Definition inside (n : Z) (f : found) : Prop :=
  0 <= f_start f /\ f_start f < n /\ f_start f + f_size f <= n.

(** The device under scan: its sector 0 can be read and holds [data]. *)
Definition scanning (n : Z) (data : list Z) s : Prop :=
  size (s_block s) = n /\ readable (s_block s) 0 /\ contents (aux (s_block s)) 0 = data /\
  Forall (inside n) (s_found s).

Lemma found_partition_spec m n data ty start sz nr s s' :
  0 <= start -> 0 <= sz < 2 ^ 32 -> 0 <= n < 2 ^ 32 -> scanning n data s ->
  found_partition m ty start sz nr s = Done (tt, s') -> scanning n data s'.
Proof.
  intros H0 Hz Hn (Hs & Hr & Hd & Hf). unfold found_partition, block_size.
  erewrite bind_done; [|done]. rewrite Hs.
  destruct (Z.leb_spec n start); [intros [= <-]; by split|].
  destruct ((u32 (start + sz) <? start) || (n <? u32 (start + sz))) eqn:E;
    [intros [= <-]; by split|].
  destruct m; cbn [negb]; [|done]. intros [= <-]. split_and!; [done..|].
  apply Forall_app. split; [done|]. constructor; [|done]. unfold inside. cbn [f_start f_size].
  apply orb_false_elim in E as [E1 E2]. unfold u32 in *.
  assert (start + sz < 2 ^ 32); [|rewrite Z.mod_small in E2; lia].
  destruct (Z.lt_ge_cases (start + sz) (2 ^ 32)); [done|].
  exfalso. assert ((start + sz) mod 2 ^ 32 = start + sz - 2 ^ 32) as Em.
  { symmetry. apply Z.mod_unique with 1; lia. }
  lia.
Qed.

Lemma le32_range data i : Forall (fun c => 0 <= c < 256) data -> 0 <= le32 data i < 2 ^ 32.
Proof.
  intros Hd. unfold le32. rewrite Forall_forall in Hd.
  assert (forall j, 0 <= default 0 (zget data j) < 256) as Hb.
  { intros j. destruct (zget data j) as [c|] eqn:E; [|simpl; lia]. apply Hd.
    unfold zget in E. case_decide; [|done]. by eapply list_elem_of_lookup_2. }
  pose proof (Hb (i + 0)). pose proof (Hb (i + 1)). pose proof (Hb (i + 2)).
  pose proof (Hb (i + 3)). lia.
Qed.

Lemma read_table_spec n data s s' out : scanning n data s -> read_table s = Done (out, s') ->
  out = data /\ scanning n data s'.
Proof.
  intros (Hs & Hr & Hd & Hf). unfold read_table.
  destruct (block_read_spec _ _ Hr) as (b' & Hb & _ & _ & Hsz & Hrd & Hct).
  rewrite (obind_done _ _ _ Hb). intros [= <- <-]. split; [done|].
  unfold scanning, readable in *. cbn [s_block s_found]. rewrite Hsz, Hct by apply Hr.
  split_and!; try done; try apply Hr. apply Hrd. apply Hr.
Qed.

Lemma read_partition_table_safe m n data : 0 <= n < 2 ^ 32 ->
  Forall (fun c => 0 <= c < 256) data -> forall fuel sector prim s s',
  0 <= sector -> scanning n data s ->
  read_partition_table m fuel sector prim s = Done (tt, s') -> scanning n data s'.
Proof.
  intros Hn Hd. induction fuel as [|fuel IH]; intros sector prim s s' Hse Hsc; [done|].
  cbn [read_partition_table]. erewrite bind_done; [|done].
  destruct (block_size (s_block s) <=? sector); [by intros [= <-]|].
  destruct m; cbn [negb]; [|done].
  intros (out & s1 & Hr & Hrun)%bind_done_inv.
  destruct (read_table_spec _ _ _ _ _ Hsc Hr) as [-> Hsc1].
  destruct (signature data =? 43605); cbn [negb] in Hrun; [|by injection Hrun as <-].
  clear Hr Hsc. revert s1 Hsc1 Hrun. clear s. generalize 4%nat as k.
  induction k as [|k IHk]; intros s Hsc.
  { by intros [= <-]. }
  cbn [scan_entries].
  intros ([] & s1 & Hrun & Hrest)%bind_done_inv. apply (IHk s1); [|done]. clear IHk Hrest.
  set (e := table_entry data (4 - Z.of_nat (S k))) in *.
  assert (0 <= e_offset e < 2 ^ 32) by (apply le32_range; done).
  assert (0 <= e_size e < 2 ^ 32) by (apply le32_range; done).
  destruct ((e_size e =? 0) || (e_type e =? 0)); [by injection Hrun as <-|].
  destruct (is_extended (e_type e)).
  - destruct (sector =? 0); (eapply IH; [|exact Hsc|exact Hrun]); [lia|apply u32_range].
  - revert Hrun. erewrite bind_done; [|done]. erewrite bind_done; [|done].
    apply found_partition_spec; [apply u32_range|done|done|]. by destruct Hsc as (?&?&?&?).
Qed.

(** Every partition [partition_scan] registers lies inside the device it was
    found on, whatever the bytes of the partition table are. *)
Theorem partition_scan_inside m n data fuel s s' : 0 <= n < 2 ^ 32 ->
  Forall (fun c => 0 <= c < 256) data -> scanning n data s ->
  partition_scan m fuel s = Done (tt, s') -> Forall (inside n) (s_found s').
Proof.
  intros Hn Hd Hsc. unfold partition_scan. erewrite bind_done; [|done].
  intros Hr. eapply (read_partition_table_safe m n data Hn Hd); [| |exact Hr]; [lia|].
  by destruct Hsc as (?&?&?&?).
Qed.

(** A table that sends the scan to an extended partition inside the device. *)
Definition extended_first (n : Z) (data : list Z) : Prop :=
  let e := table_entry data 0 in
  signature data = 0xaa55 /\ e_size e <> 0 /\ is_extended (e_type e) = true /\
  0 <= e_offset e < n /\ u32 (e_offset e + e_offset e) < n.

Lemma extended_step n data fuel sector prim s : 0 <= sector < n -> scanning n data s ->
  extended_first n data ->
  (forall s1, scanning n data s1 ->
     (if sector =? 0 then read_partition_table true fuel (e_offset (table_entry data 0)) (e_offset (table_entry data 0))
      else read_partition_table true fuel (u32 (e_offset (table_entry data 0) + prim)) prim) s1 = NoFuel) ->
  read_partition_table true (S fuel) sector prim s = NoFuel.
Proof.
  intros Hse Hsc (Hsig & Hsz & Hext & _ & _) Hin. cbn [read_partition_table].
  erewrite bind_done; [|done]. unfold block_size. destruct Hsc as (Hs & Hr & Hd & Hf).
  rewrite Hs. assert ((n <=? sector) = false) as -> by lia. cbn [negb].
  destruct (block_read_spec _ _ Hr) as (b' & Hb & _ & _ & Hsz' & Hrd & Hct).
  set (s1 := mk_scan b' (s_found s) (s_nr s)).
  assert (read_table s = Done (data, s1)) as Hrt.
  { unfold read_table. by rewrite (obind_done _ _ _ Hb), Hd. }
  erewrite bind_done; [|exact Hrt]. rewrite Hsig. cbn [Z.eqb Pos.eqb negb scan_entries].
  change (4 - Z.of_nat 4) with 0. cbv zeta.
  apply Z.eqb_neq in Hsz. rewrite Hsz, Hext.
  assert ((e_type (table_entry data 0) =? 0) = false) as ->.
  { destruct (Z.eqb_spec (e_type (table_entry data 0)) 0) as [E|]; [|done].
    rewrite E in Hext. done. }
  cbn [orb]. unfold bnd, mbind, M_bind. rewrite Hin; [done|].
  destruct (read_table_spec n data s s1 data) as [_ ?]; [by split|exact Hrt|done].
Qed.

(** Because [read_partition_table] reads sector 0 whatever its [sector]
    argument is, a table whose first entry is an extended partition of the device
    sends it round for ever: no number of recursive calls is enough. *)
Theorem extended_scan_diverges n data fuel s : scanning n data s -> extended_first n data ->
  0 < n < 2 ^ 32 -> partition_scan true fuel s = NoFuel.
Proof.
  intros Hsc Hext Hn. unfold partition_scan. erewrite bind_done; [|done].
  assert (scanning n data (mk_scan (s_block s) (s_found s) 0)) as Hsc0 by (by destruct Hsc as (?&?&?&?)).
  revert Hsc0. generalize (mk_scan (s_block s) (s_found s) 0) as s0. clear s Hsc.
  pose proof Hext as (_ & _ & _ & Ho & Ho2).
  set (o := e_offset (table_entry data 0)) in *.
  assert (forall sector prim s0, (sector = 0 \/ prim = o) ->
    sector = 0 \/ sector = o \/ sector = u32 (o + o) -> scanning n data s0 ->
    read_partition_table true fuel sector prim s0 = NoFuel) as Hall; [|intros; apply Hall; auto].
  induction fuel as [|fuel IH]; intros sector prim s0 Hp Hse Hs0; [done|].
  apply (extended_step n data); [pose proof (u32_range (o + o)); lia|done|done|].
  fold o. intros s1 Hs1. destruct (Z.eqb_spec sector 0).
  - apply IH; auto.
  - assert (prim = o) as -> by (destruct Hp; [lia|done]). apply IH; auto.
Qed.
End ScanSpecs.

(** ** A driver in memory, for the examples *)

Abbreviation ramdisk := (gmap Z (list Z)).
Definition zero_sector : list Z := replicate 512 0.
Definition ram_sector (d : ramdisk) (s : Z) : list Z :=
  match d !! s with
  | Some data => if zlen data =? BLOCK_SECTOR_SIZE then data else zero_sector
  | None => zero_sector
  end.

#[export] Program Instance ram_driver : BlockDriver ramdisk := {
  op_read := fun d s => Done (ram_sector d s, d);
  op_write := fun d s data => Done (<[s := data]> d);
  contents := ram_sector;
  ready := fun d s => True
}.
Next Obligation. intros d s _. by exists d. Qed.
Next Obligation.
  intros d s data _ Hl. eexists. split; [done|]. split; [done|]. intros t _. unfold ram_sector.
  destruct (Z.eqb_spec t s) as [->|Hne].
  - by rewrite lookup_insert_eq, Hl.
  - by rewrite lookup_insert_ne.
Qed.
Next Obligation.
  intros d s _. cbn beta. unfold ram_sector. destruct (d !! s) as [data|]; [|done].
  by destruct (Z.eqb_spec (zlen data) BLOCK_SECTOR_SIZE).
Qed.

(** A table with one entry of type [ty] at sector [ofs]. *)
Definition demo_table (ty ofs : Z) : list Z :=
  replicate 446 0 ++ [0; 0; 0; 0; ty; 0; 0; 0; ofs; 0; 0; 0; 10; 0; 0; 0] ++ replicate 48 0 ++ [0x55; 0xaa].
Definition demo_scan (ty ofs : Z) : scan ramdisk :=
  mk_scan (mk_block [104; 100; 97] BLOCK_RAW 100 (<[0 := demo_table ty ofs]> ∅) 0 0) [] 0.

Lemma demo_scanning ty ofs : scanning 100 (demo_table ty ofs) (demo_scan ty ofs).
Proof.
  split; [done|]. split; [split; [simpl; lia|done]|]. split; [|done].
  cbn. unfold ram_sector. by rewrite lookup_insert_eq.
Qed.

Lemma partition_scan_inside_witness :
  exists s', partition_scan true 3 (demo_scan 0x21 2) = Done (tt, s') /\
    s_found s' = [mk_found 1 BLOCK_FILESYS 2 10] /\ Forall (inside 100) (s_found s').
Proof.
  eexists. split; [vm_compute; reflexivity|]. split; [reflexivity|].
  apply (partition_scan_inside true 100 (demo_table 0x21 2) 3 (demo_scan 0x21 2)).
  - lia.
  - by_decide.
  - apply demo_scanning.
  - vm_compute. reflexivity.
Defined.

Lemma extended_scan_diverges_witness : partition_scan true 1000 (demo_scan 0x05 3) = NoFuel.
Proof.
  apply (extended_scan_diverges 100 (demo_table 0x05 3)); [apply demo_scanning| |lia].
  unfold extended_first. repeat split; vm_compute; congruence.
Defined.
