(* ===== verification/FileSys.v ===== *)
(** * filesys/: inodes, the free map, files, directories and the file system

    One state for the module-level data of inode.c, free-map.c and filesys.c and
    for the objects they allocate.  Pointers to [struct inode], [struct file]
    and [struct dir] are addresses handed out by [malloc]; 0 is NULL.  The
    operations run in the state monad on a [block] of any driver. *)

From S2P Require Import Prelude Vaddr KList Bitmap Block.

Definition FREE_MAP_SECTOR : Z := 0.
Definition ROOT_DIR_SECTOR : Z := 1.
Definition INODE_MAGIC : Z := 0x494e4f44.
Definition NAME_MAX : Z := 14.

(** On-disk inode: 12 bytes and 500 unused ones. *)
Record inode_disk := mk_disk {
  start : Z;            (* first data sector *)
  length_ : Z;          (* file size in bytes *)
  magic : Z             (* magic number *)
}.

(** In-memory inode. *)
Record inode := mk_inode {
  sector : Z;           (* sector number of disk location *)
  open_cnt : Z;         (* number of openers *)
  removed : bool;       (* true if deleted *)
  deny_write_cnt : Z;   (* 0: writes ok, >0: deny writes *)
  data : inode_disk     (* inode content *)
}.

(** An open file. *)
Record file := mk_file {
  f_inode : Z;          (* file's inode *)
  pos : Z;              (* current position *)
  deny_write : bool     (* has file_deny_write() been called? *)
}.

(** A directory. *)
Record dir := mk_dir {
  d_inode : Z;          (* backing store *)
  d_pos : Z             (* current position *)
}.

(** A single directory entry, 20 bytes. *)
Record dir_entry := mk_entry {
  inode_sector : Z;     (* sector number of header *)
  e_name : list Z;      (* 15 bytes, null terminated file name *)
  in_use : bool         (* in use or free? *)
}.
Definition sizeof_entry : Z := 20.

(** Little-endian 32-bit values. *)
Definition le_bytes (z : Z) : list Z := word_bytes (u32 z).

Definition disk_bytes (d : inode_disk) : list Z :=
  le_bytes (start d) ++ le_bytes (length_ d) ++ le_bytes (magic d) ++ replicate 500 0.
Definition disk_of_bytes (bs : list Z) : inode_disk :=
  mk_disk (le32 bs 0) (s32 (le32 bs 4)) (le32 bs 8).

Definition entry_bytes (e : dir_entry) : list Z :=
  le_bytes (inode_sector e) ++ e_name e ++ [if in_use e then 1 else 0].
Definition entry_of_bytes (bs : list Z) : dir_entry :=
  mk_entry (le32 bs 0) (take 15 (drop 4 bs)) (negb (default 0 (zget bs 19) =? 0)).

Record fs (dev : Type) := mk_fs {
  fs_device : block dev;        (* partition that contains the file system *)
  free_map : bitmap;            (* free map, one bit per sector *)
  free_map_file : Z;            (* free map file *)
  open_inodes : list Z;         (* open inodes, most recently opened first *)
  inodes : gmap Z inode;        (* the [struct inode]s *)
  files : gmap Z file;          (* the [struct file]s *)
  dirs : gmap Z dir;            (* the [struct dir]s *)
  mem : list bool;              (* outcomes of the coming allocations, then success *)
  brk : Z                       (* the next address to allocate *)
}.
Arguments mk_fs {dev}.
Arguments fs_device {dev}.
Arguments free_map {dev}.
Arguments free_map_file {dev}.
Arguments open_inodes {dev}.
Arguments inodes {dev}.
Arguments files {dev}.
Arguments dirs {dev}.
Arguments mem {dev}.
Arguments brk {dev}.

Section Setters.
Context {dev : Type}.
Implicit Types s : fs dev.
Definition set_device (b : block dev) s :=
  mk_fs b (free_map s) (free_map_file s) (open_inodes s) (inodes s) (files s) (dirs s) (mem s) (brk s).
Definition set_free_map (m : bitmap) s :=
  mk_fs (fs_device s) m (free_map_file s) (open_inodes s) (inodes s) (files s) (dirs s) (mem s) (brk s).
Definition set_free_map_file (f : Z) s :=
  mk_fs (fs_device s) (free_map s) f (open_inodes s) (inodes s) (files s) (dirs s) (mem s) (brk s).
Definition set_open_inodes (l : list Z) s :=
  mk_fs (fs_device s) (free_map s) (free_map_file s) l (inodes s) (files s) (dirs s) (mem s) (brk s).
Definition set_inodes (m : gmap Z inode) s :=
  mk_fs (fs_device s) (free_map s) (free_map_file s) (open_inodes s) m (files s) (dirs s) (mem s) (brk s).
Definition set_files (m : gmap Z file) s :=
  mk_fs (fs_device s) (free_map s) (free_map_file s) (open_inodes s) (inodes s) m (dirs s) (mem s) (brk s).
Definition set_dirs (m : gmap Z dir) s :=
  mk_fs (fs_device s) (free_map s) (free_map_file s) (open_inodes s) (inodes s) (files s) m (mem s) (brk s).
Definition set_mem (m : list bool) (a : Z) s :=
  mk_fs (fs_device s) (free_map s) (free_map_file s) (open_inodes s) (inodes s) (files s) (dirs s) m a.
End Setters.

Section FileSystem.
Context {dev : Type} `{BlockDriver dev}.
Abbreviation F := (fs dev).

(** Run an operation of another component on its part of the state. *)
Definition on_device {A} (m : M (block dev) A) : M F A := fun s =>
  '(a, b) ← m (fs_device s); Done (a, set_device b s).
Definition on_map {A} (m : M bitmap A) : M F A := fun s =>
  '(a, b) ← m (free_map s); Done (a, set_free_map b s).

(** [malloc] or [calloc] of one object: NULL when the next outcome says so. *)
Definition malloc : M F Z := fun s =>
  match mem s with
  | false :: m => Done (NULL, set_mem m (brk s) s)
  | true :: m => Done (brk s, set_mem m (brk s + 1) s)
  | [] => Done (brk s, set_mem [] (brk s + 1) s)
  end.

Definition get_inode (i : Z) : M F inode := load (fun s => inodes s !! i).
Definition put_inode (i : Z) (n : inode) : M F unit := modify (fun s => set_inodes (<[i := n]> (inodes s)) s).
Definition get_file (f : Z) : M F file := load (fun s => files s !! f).
Definition put_file (f : Z) (n : file) : M F unit := modify (fun s => set_files (<[f := n]> (files s)) s).
Definition get_dir (d : Z) : M F dir := load (fun s => dirs s !! d).
Definition put_dir (d : Z) (n : dir) : M F unit := modify (fun s => set_dirs (<[d := n]> (dirs s)) s).

(** Bytes [ofs], ..., [ofs + cnt - 1] of a buffer. *)
Definition slice (l : list Z) (ofs cnt : Z) : option (list Z) :=
  if (0 <=? ofs) && (0 <=? cnt) && (ofs + cnt <=? zlen l)
  then Some (take (Z.to_nat cnt) (drop (Z.to_nat ofs) l)) else None.
(** Overwrite the bytes of [l] from [ofs] on with [bs]. *)
Definition patch (l : list Z) (ofs : Z) (bs : list Z) : list Z :=
  take (Z.to_nat ofs) l ++ bs ++ drop (Z.to_nat ofs + length bs) l.

(** ** Inodes: reading and writing *)

(** [DIV_ROUND_UP (size, BLOCK_SECTOR_SIZE)] in [int]. *)
Definition bytes_to_sectors (sz : Z) : Z := u32 (Z.quot (s32 (sz + 512 - 1)) 512).

Definition byte_to_sector (n : inode) (pos : Z) : Z :=
  if pos <? length_ (data n) then u32 (start (data n) + Z.quot pos 512) else 2 ^ 32 - 1.

Definition inode_length (n : inode) : Z := length_ (data n).

(** The lesser of the bytes wanted, left in the inode and left in the sector. *)
Definition chunk_size (n : inode) (sz offset : Z) : Z :=
  let inode_left := s32 (inode_length n - offset) in
  let sector_left := 512 - Z.rem offset 512 in
  let min_left := if inode_left <? sector_left then inode_left else sector_left in
  if sz <? min_left then sz else min_left.

(** [if (bounce == NULL) bounce = malloc (BLOCK_SECTOR_SIZE)]: is there one now? *)
Definition alloc_bounce (bounce : bool) : M F bool :=
  if bounce then mret true else b ← malloc; mret (negb (b =? NULL)).

(** [bounce] says whether the bounce buffer has been allocated; [buffer] is what
    has been read so far. *)
Fixpoint inode_read_loop (fuel : nat) (i sz offset : Z) (bounce : bool) (buffer : list Z)
    : M F (list Z) :=
  match fuel with
  | O => nofuel
  | S fuel =>
      if sz <=? 0 then mret buffer
      else
        n ← get_inode i;
        let sector_idx := byte_to_sector n offset in
        let sector_ofs := Z.rem offset 512 in
        let chunk := chunk_size n sz offset in
        if chunk <=? 0 then mret buffer
        else if (sector_ofs =? 0) && (chunk =? 512) then
          bs ← on_device (block_read sector_idx);
          inode_read_loop fuel i (sz - chunk) (offset + chunk) bounce (buffer ++ bs)
        else
          ok ← alloc_bounce bounce;
          if negb ok then mret buffer
          else
            bs ← on_device (block_read sector_idx);
            part ← load (fun _ => slice bs sector_ofs chunk);
            inode_read_loop fuel i (sz - chunk) (offset + chunk) true (buffer ++ part)
  end.

(** The bytes read; the return value of the code is their number. *)
Definition inode_read_at (i sz offset : Z) : M F (list Z) :=
  inode_read_loop (S (Z.to_nat sz)) i sz offset false [].

Fixpoint inode_write_loop (fuel : nat) (i : Z) (buffer : list Z) (sz offset : Z) (bounce : bool)
    (bytes_written : Z) : M F Z :=
  match fuel with
  | O => nofuel
  | S fuel =>
      if sz <=? 0 then mret bytes_written
      else
        n ← get_inode i;
        let sector_idx := byte_to_sector n offset in
        let sector_ofs := Z.rem offset 512 in
        let sector_left := 512 - sector_ofs in
        let chunk := chunk_size n sz offset in
        if chunk <=? 0 then mret bytes_written
        else
          part ← load (fun _ => slice buffer bytes_written chunk);
          if (sector_ofs =? 0) && (chunk =? 512) then
            on_device (block_write sector_idx part) ;;
            inode_write_loop fuel i buffer (sz - chunk) (offset + chunk) bounce (bytes_written + chunk)
          else
            ok ← alloc_bounce bounce;
            if negb ok then mret bytes_written
            else
              bs ← (if (0 <? sector_ofs) || (chunk <? sector_left)
                    then on_device (block_read sector_idx)
                    else mret zero_sector);
              on_device (block_write sector_idx (patch bs sector_ofs part)) ;;
              inode_write_loop fuel i buffer (sz - chunk) (offset + chunk) true (bytes_written + chunk)
  end.

Definition inode_write_at (i : Z) (buffer : list Z) (sz offset : Z) : M F Z :=
  n ← get_inode i;
  if negb (deny_write_cnt n =? 0) then mret 0
  else inode_write_loop (S (Z.to_nat sz)) i buffer sz offset false 0.

Definition inode_deny_write (i : Z) : M F unit :=
  n ← get_inode i;
  let n := mk_inode (sector n) (open_cnt n) (removed n) (deny_write_cnt n + 1) (data n) in
  put_inode i n ;;
  ASSERT (deny_write_cnt n <=? open_cnt n).

Definition inode_allow_write (i : Z) : M F unit :=
  n ← get_inode i;
  ASSERT (0 <? deny_write_cnt n) ;;
  ASSERT (deny_write_cnt n <=? open_cnt n) ;;
  put_inode i (mk_inode (sector n) (open_cnt n) (removed n) (deny_write_cnt n - 1) (data n)).

(** ** Files: reading and writing *)

Definition file_get_inode (f : Z) : M F Z := n ← get_file f; mret (f_inode n).

Definition file_read (f sz : Z) : M F (list Z) :=
  n ← get_file f;
  bs ← inode_read_at (f_inode n) sz (pos n);
  n ← get_file f;
  put_file f (mk_file (f_inode n) (s32 (pos n + zlen bs)) (deny_write n)) ;;
  mret bs.

Definition file_read_at (f sz file_ofs : Z) : M F (list Z) :=
  n ← get_file f; inode_read_at (f_inode n) sz file_ofs.

Definition file_write (f : Z) (buffer : list Z) (sz : Z) : M F Z :=
  n ← get_file f;
  w ← inode_write_at (f_inode n) buffer sz (pos n);
  n ← get_file f;
  put_file f (mk_file (f_inode n) (s32 (pos n + w)) (deny_write n)) ;;
  mret w.

Definition file_write_at (f : Z) (buffer : list Z) (sz file_ofs : Z) : M F Z :=
  n ← get_file f; inode_write_at (f_inode n) buffer sz file_ofs.

Definition file_deny_write (f : Z) : M F unit :=
  ASSERT (negb (f =? NULL)) ;;
  n ← get_file f;
  if negb (deny_write n) then
    put_file f (mk_file (f_inode n) (pos n) true) ;; inode_deny_write (f_inode n)
  else mret tt.

Definition file_allow_write (f : Z) : M F unit :=
  ASSERT (negb (f =? NULL)) ;;
  n ← get_file f;
  if deny_write n then
    put_file f (mk_file (f_inode n) (pos n) false) ;; inode_allow_write (f_inode n)
  else mret tt.

Definition file_length (f : Z) : M F Z :=
  ASSERT (negb (f =? NULL)) ;;
  n ← get_file f; i ← get_inode (f_inode n); mret (inode_length i).

Definition file_seek (f new_pos : Z) : M F unit :=
  ASSERT (negb (f =? NULL)) ;;
  ASSERT (0 <=? new_pos) ;;
  n ← get_file f; put_file f (mk_file (f_inode n) new_pos (deny_write n)).

Definition file_tell (f : Z) : M F Z :=
  ASSERT (negb (f =? NULL)) ;; n ← get_file f; mret (pos n).

(** ** The free map *)

(** [bitmap_write (free_map, f)] through the file. *)
Definition free_map_write (f : Z) : M F bool :=
  m ← gets free_map;
  let sz := byte_cnt (bit_cnt m) in
  w ← file_write_at f (elems_bytes (bits m)) sz 0;
  mret (bitmap_write (fun _ => w) m).

(** The first of [cnt] free sectors, or [None]. *)
Definition free_map_allocate (cnt : Z) : M F (option Z) :=
  sec ← on_map (bitmap_scan_and_flip 0 cnt false);
  f ← gets free_map_file;
  sec ← (if negb (sec =? BITMAP_ERROR) && negb (f =? NULL) then
           ok ← free_map_write f;
           if ok then mret sec
           else on_map (bitmap_set_multiple sec cnt false) ;; mret BITMAP_ERROR
         else mret sec);
  mret (if sec =? BITMAP_ERROR then None else Some sec).

Definition free_map_release (sec cnt : Z) : M F unit :=
  all_set ← on_map (bitmap_all sec cnt);
  ASSERT all_set ;;
  on_map (bitmap_set_multiple sec cnt false) ;;
  f ← gets free_map_file;
  _ ← free_map_write f;
  mret tt.

(** [PANIC] unless the map can be allocated; [bitmap_create] takes two blocks of
    memory. *)
Definition free_map_init : M F unit :=
  n ← gets (fun s => block_size (fs_device s));
  b ← malloc;
  bits_at ← (if b =? NULL then mret NULL else malloc);
  r ← liftO (bitmap_create (negb (b =? NULL))
               (if bits_at =? NULL then None else Some (replicate (Z.to_nat (elem_cnt n)) 0)) n);
  match r with
  | None => panic
  | Some m =>
      modify (set_free_map m) ;;
      on_map (bitmap_mark FREE_MAP_SECTOR) ;;
      on_map (bitmap_mark ROOT_DIR_SECTOR)
  end.

(** ** Inodes: creation and life time *)

Definition inode_init : M F unit := modify (set_open_inodes []).

Definition inode_create (sec len : Z) : M F bool :=
  ASSERT (0 <=? len) ;;
  d ← malloc;
  if d =? NULL then mret false
  else
    let sectors := bytes_to_sectors len in
    r ← free_map_allocate sectors;
    match r with
    | None => mret false
    | Some st =>
        on_device (block_write sec (disk_bytes (mk_disk st len INODE_MAGIC))) ;;
        for_z sectors (fun i => on_device (block_write (u32 (st + i)) zero_sector)) ;;
        mret true
    end.

Definition inode_reopen (i : Z) : M F Z :=
  if i =? NULL then mret i
  else
    n ← get_inode i;
    put_inode i (mk_inode (sector n) (s32 (open_cnt n + 1)) (removed n) (deny_write_cnt n) (data n)) ;;
    mret i.

(** The scan of the open inodes for one with this sector. *)
Fixpoint find_open (sec : Z) (l : list Z) : M F (option Z) :=
  match l with
  | [] => mret None
  | i :: l' =>
      n ← get_inode i;
      if sector n =? sec then mret (Some i) else find_open sec l'
  end.

Definition inode_open (sec : Z) : M F Z :=
  l ← gets open_inodes;
  o ← find_open sec l;
  match o with
  | Some i => inode_reopen i
  | None =>
      i ← malloc;
      if i =? NULL then mret NULL
      else
        modify (fun s => set_open_inodes (i :: open_inodes s) s) ;;
        bs ← on_device (block_read sec);
        put_inode i (mk_inode sec 1 false 0 (disk_of_bytes bs)) ;;
        mret i
  end.

Definition inode_get_inumber (i : Z) : M F Z := n ← get_inode i; mret (sector n).

Definition inode_remove (i : Z) : M F unit :=
  ASSERT (negb (i =? NULL)) ;;
  n ← get_inode i;
  put_inode i (mk_inode (sector n) (open_cnt n) true (deny_write_cnt n) (data n)).

Definition inode_close (i : Z) : M F unit :=
  if i =? NULL then mret tt
  else
    n ← get_inode i;
    let cnt := s32 (open_cnt n - 1) in
    put_inode i (mk_inode (sector n) cnt (removed n) (deny_write_cnt n) (data n)) ;;
    if cnt =? 0 then
      modify (fun s => set_open_inodes (filter (fun x => x <> i) (open_inodes s)) s) ;;
      (if removed n then
         free_map_release (sector n) 1 ;;
         free_map_release (start (data n)) (bytes_to_sectors (length_ (data n)))
       else mret tt) ;;
      modify (fun s => set_inodes (delete i (inodes s)) s)
    else mret tt.

(** ** Files: life time *)

Definition file_open (i : Z) : M F Z :=
  f ← malloc;
  if negb (i =? NULL) && negb (f =? NULL) then
    put_file f (mk_file i 0 false) ;; mret f
  else
    inode_close i ;; mret NULL.

Definition file_reopen (f : Z) : M F Z :=
  n ← get_file f;
  i ← inode_reopen (f_inode n);
  file_open i.

Definition file_close (f : Z) : M F unit :=
  if f =? NULL then mret tt
  else
    file_allow_write f ;;
    n ← get_file f;
    inode_close (f_inode n) ;;
    modify (fun s => set_files (delete f (files s)) s).

(** ** The free map file *)

Definition free_map_open : M F unit :=
  i ← inode_open FREE_MAP_SECTOR;
  f ← file_open i;
  modify (set_free_map_file f) ;;
  if f =? NULL then panic
  else
    m ← gets free_map;
    bs ← file_read_at f (byte_cnt (bit_cnt m)) 0;
    ok ← on_map (bitmap_read (fun _ => bs));
    if ok then mret tt else panic.

Definition free_map_close : M F unit := f ← gets free_map_file; file_close f.

Definition free_map_create : M F unit :=
  m ← gets free_map;
  ok ← inode_create FREE_MAP_SECTOR (bitmap_file_size m);
  if negb ok then panic
  else
    i ← inode_open FREE_MAP_SECTOR;
    f ← file_open i;
    modify (set_free_map_file f) ;;
    if f =? NULL then panic
    else
      ok ← free_map_write f;
      if ok then mret tt else panic.

(** ** Directories *)

Definition dir_create (sec entry_cnt : Z) : M F bool :=
  inode_create sec (s32 (entry_cnt * sizeof_entry)).

Definition dir_open (i : Z) : M F Z :=
  d ← malloc;
  if negb (i =? NULL) && negb (d =? NULL) then
    put_dir d (mk_dir i 0) ;; mret d
  else
    inode_close i ;; mret NULL.

Definition dir_open_root : M F Z := i ← inode_open ROOT_DIR_SECTOR; dir_open i.
Definition dir_reopen (d : Z) : M F Z :=
  n ← get_dir d; i ← inode_reopen (d_inode n); dir_open i.
Definition dir_close (d : Z) : M F unit :=
  if d =? NULL then mret tt
  else
    n ← get_dir d;
    inode_close (d_inode n) ;;
    modify (fun s => set_dirs (delete d (dirs s)) s).
Definition dir_get_inode (d : Z) : M F Z := n ← get_dir d; mret (d_inode n).

(** A C string: the characters up to the first NUL of its array. *)
Fixpoint c_string (l : list Z) : list Z :=
  match l with
  | [] => []
  | c :: l' => if c =? 0 then [] else c :: c_string l'
  end.
(** [!strcmp (name, e.name)]. *)
Definition same_name (nm : list Z) (e : dir_entry) : bool := bool_decide (nm = c_string (e_name e)).

(** [strlcpy (e.name, name, sizeof e.name)]: at most 14 characters and a NUL; the
    bytes after it stay. *)
Definition copy_name (old nm : list Z) : list Z :=
  let s := take 14 nm ++ [0] in s ++ drop (length s) old.

(** The entries are read in order until one matches; a short read is the end. *)
Fixpoint lookup_loop (fuel : nat) (i : Z) (nm : list Z) (ofs : Z) : M F (option (dir_entry * Z)) :=
  match fuel with
  | O => nofuel
  | S fuel =>
      bs ← inode_read_at i sizeof_entry ofs;
      if negb (zlen bs =? sizeof_entry) then mret None
      else
        let e := entry_of_bytes bs in
        if in_use e && same_name nm e then mret (Some (e, ofs))
        else lookup_loop fuel i nm (ofs + sizeof_entry)
  end.

(** Enough for every whole entry of the directory and one short read. *)
Definition entries_fuel (i : Z) : M F nat :=
  n ← get_inode i; mret (S (Z.to_nat (inode_length n / sizeof_entry))).

Definition lookup (d : Z) (nm : list Z) : M F (option (dir_entry * Z)) :=
  ASSERT (negb (d =? NULL)) ;;
  n ← get_dir d;
  fuel ← entries_fuel (d_inode n);
  lookup_loop fuel (d_inode n) nm 0.

Definition dir_lookup (d : Z) (nm : list Z) : M F Z :=
  ASSERT (negb (d =? NULL)) ;;
  r ← lookup d nm;
  match r with
  | Some (e, _) => inode_open (inode_sector e)
  | None => mret NULL
  end.

(** The first free slot, or the end of the directory; the second component is
    what the local [e] holds there (a short read overwrites only its front). *)
Fixpoint free_slot_loop (fuel : nat) (i : Z) (e : list Z) (ofs : Z) : M F (Z * list Z) :=
  match fuel with
  | O => nofuel
  | S fuel =>
      bs ← inode_read_at i sizeof_entry ofs;
      let e := patch e 0 bs in
      if negb (zlen bs =? sizeof_entry) then mret (ofs, e)
      else if negb (in_use (entry_of_bytes e)) then mret (ofs, e)
      else free_slot_loop fuel i e (ofs + sizeof_entry)
  end.

(** [junk] is what the uninitialised local [e] holds. *)
Definition dir_add (junk : list Z) (d : Z) (nm : list Z) (sec : Z) : M F bool :=
  ASSERT (negb (d =? NULL)) ;;
  if bool_decide (nm = []) || (NAME_MAX <? zlen nm) then mret false
  else
    r ← lookup d nm;
    match r with
    | Some _ => mret false
    | None =>
        n ← get_dir d;
        fuel ← entries_fuel (d_inode n);
        '(ofs, e) ← free_slot_loop fuel (d_inode n) junk 0;
        let e := entry_of_bytes e in
        let e := mk_entry sec (copy_name (e_name e) nm) true in
        w ← inode_write_at (d_inode n) (entry_bytes e) sizeof_entry ofs;
        mret (w =? sizeof_entry)
    end.

Definition dir_remove (d : Z) (nm : list Z) : M F bool :=
  ASSERT (negb (d =? NULL)) ;;
  r ← lookup d nm;
  match r with
  | None => inode_close NULL ;; mret false
  | Some (e, ofs) =>
      i ← inode_open (inode_sector e);
      if i =? NULL then inode_close i ;; mret false
      else
        n ← get_dir d;
        let e := mk_entry (inode_sector e) (e_name e) false in
        w ← inode_write_at (d_inode n) (entry_bytes e) sizeof_entry ofs;
        if negb (w =? sizeof_entry) then inode_close i ;; mret false
        else
          inode_remove i ;; inode_close i ;; mret true
  end.

(** The next used name, or [None] at the end of the directory. *)
Fixpoint dir_readdir_loop (fuel : nat) (d : Z) : M F (option (list Z)) :=
  match fuel with
  | O => nofuel
  | S fuel =>
      n ← get_dir d;
      bs ← inode_read_at (d_inode n) sizeof_entry (d_pos n);
      if negb (zlen bs =? sizeof_entry) then mret None
      else
        put_dir d (mk_dir (d_inode n) (d_pos n + sizeof_entry)) ;;
        let e := entry_of_bytes bs in
        if in_use e then mret (Some (take 14 (c_string (e_name e))))
        else dir_readdir_loop fuel d
  end.
Definition dir_readdir (d : Z) : M F (option (list Z)) :=
  n ← get_dir d; fuel ← entries_fuel (d_inode n); dir_readdir_loop fuel d.

(** ** The file system *)

Definition do_format : M F unit :=
  free_map_create ;;
  ok ← dir_create ROOT_DIR_SECTOR 16;
  if negb ok then panic else free_map_close.

(** [fs_device] has been found by [block_get_role (BLOCK_FILESYS)]. *)
Definition filesys_init (format : bool) : M F unit :=
  inode_init ;;
  free_map_init ;;
  (if format then do_format else mret tt) ;;
  free_map_open.

Definition filesys_done : M F unit := free_map_close.

(** [success] is the conjunction of four calls, cut short at the first failure;
    [inode_sector] stays 0 when the allocation fails. *)
Definition filesys_create (junk nm : list Z) (initial_size : Z) : M F bool :=
  d ← dir_open_root;
  r ← (if d =? NULL then mret (false, 0)
       else
         a ← free_map_allocate 1;
         match a with
         | None => mret (false, 0)
         | Some sec =>
             ok ← inode_create sec initial_size;
             if negb ok then mret (false, sec)
             else ok ← dir_add junk d nm sec; mret (ok, sec)
         end);
  let '(success, sec) := r in
  (if negb success && negb (sec =? 0) then free_map_release sec 1 else mret tt) ;;
  dir_close d ;;
  mret success.

Definition filesys_open (nm : list Z) : M F Z :=
  d ← dir_open_root;
  i ← (if d =? NULL then mret NULL else dir_lookup d nm);
  dir_close d ;;
  file_open i.

Definition filesys_remove (nm : list Z) : M F bool :=
  d ← dir_open_root;
  success ← (if d =? NULL then mret false else dir_remove d nm);
  dir_close d ;;
  mret success.
End FileSystem.
