(* ===== verification/FileSpec.v ===== *)
(** * What the inode layer promises

    A device is read and written as an array of bytes ([dbyte]); an inode is a
    range of it.  [inode_read_at] returns a slice of the range, [inode_write_at]
    replaces one, and the free map hands out ranges of free sectors. *)

From S2P Require Import Prelude Vaddr KList Bitmap Block FileSys.

Section Bytes.
Context {dev : Type} `{BlockDriver dev}.
Implicit Types (b : block dev) (s : fs dev) (n : inode) (p k : Z).

(** Byte [p] of the device. *)
Definition dbyte b p : Z := default 0 (zget (contents (aux b) (p / 512)) (p mod 512)).

(** The same device up to the driver's data and the counters. *)
Record same_device b b' : Prop := {
  sd_type : type b' = type b;
  sd_size : size b' = size b;
  sd_ready : forall t, ready (aux b') t <-> ready (aux b) t
}.

(** ... with the bytes [g]. *)
Definition device_bytes b b' (g : Z -> Z) : Prop :=
  same_device b b' /\ forall p, 0 <= p -> ready (aux b) (p / 512) -> dbyte b' p = g p.

Lemma same_device_refl b : same_device b b.
Proof. done. Qed.

Lemma same_device_trans b1 b2 b3 : same_device b1 b2 -> same_device b2 b3 -> same_device b1 b3.
Proof. intros [T1 S1 R1] [T2 S2 R2]. split; [congruence..|]. intros t. by rewrite R2, R1. Qed.

Lemma readable_same b b' t : same_device b b' -> readable b t -> readable b' t.
Proof. intros [_ E Hr] [? ?]. split; [by rewrite E|by apply Hr]. Qed.

Lemma read_sector b t : readable b t ->
  exists b', block_read t b = Done (contents (aux b) t, b') /\ device_bytes b b' (dbyte b).
Proof.
  intros Hr. destruct (block_read_spec b t Hr) as (b' & Hb & _ & ? & ? & ? & Hc).
  exists b'. split; [done|]. split; [done|]. intros p Hp Hrp. unfold dbyte. by rewrite Hc.
Qed.

Lemma write_sector b t bs : readable b t -> type b <> BLOCK_FOREIGN -> zlen bs = 512 ->
  exists b', block_write t bs b = Done (tt, b') /\
    device_bytes b b' (fun p => if p / 512 =? t then default 0 (zget bs (p mod 512)) else dbyte b p).
Proof.
  intros Hr Ht Hl. destruct (block_write_spec b t bs Hr Ht Hl) as (b' & Hb & _ & ? & ? & ? & Hc).
  exists b'. split; [done|]. split; [done|]. intros p Hp Hrp. unfold dbyte. rewrite Hc by done.
  by destruct (p / 512 =? t).
Qed.

(** ** Lists of bytes *)

Lemma zget_take (l : list Z) c i : 0 <= i < c -> zget (take (Z.to_nat c) l) i = zget l i.
Proof. intros. unfold zget. rewrite !decide_True by lia. apply lookup_take_lt. lia. Qed.

Lemma zget_drop (l : list Z) c i : 0 <= c -> 0 <= i -> zget (drop (Z.to_nat c) l) i = zget l (c + i).
Proof.
  intros. unfold zget. rewrite !decide_True by lia. rewrite lookup_drop. f_equal. lia.
Qed.

Lemma zget_app_l (l l' : list Z) i : i < zlen l -> zget (l ++ l') i = zget l i.
Proof.
  intros Hi. unfold zget, zlen in *. case_decide; [|done]. apply lookup_app_l. lia.
Qed.

Lemma zget_app_r (l l' : list Z) i : zlen l <= i -> zget (l ++ l') i = zget l' (i - zlen l).
Proof.
  intros Hi. unfold zget, zlen in *. rewrite !decide_True by lia.
  rewrite lookup_app_r by lia. f_equal. lia.
Qed.

Lemma zlen_take (l : list Z) c : 0 <= c <= zlen l -> zlen (take (Z.to_nat c) l) = c.
Proof. unfold zlen. intros. rewrite length_take. lia. Qed.

Lemma zlen_map_seqZ (f : Z -> Z) a c : 0 <= c -> zlen (map f (seqZ a c)) = c.
Proof. intros. unfold zlen. rewrite length_map, length_seqZ. lia. Qed.

Lemma zget_map_seqZ (f : Z -> Z) a c i : 0 <= i < c -> zget (map f (seqZ a c)) i = Some (f (a + i)).
Proof.
  intros. unfold zget. rewrite decide_True by lia.
  change (map f) with (fmap (M:=list) f). rewrite list_lookup_fmap, lookup_seqZ_lt by lia.
  simpl. do 2 f_equal. lia.
Qed.

Lemma slice_some (l : list Z) o c : 0 <= o -> 0 <= c -> o + c <= zlen l ->
  exists q, slice l o c = Some q /\ zlen q = c /\ forall i, 0 <= i < c -> zget q i = zget l (o + i).
Proof.
  intros Ho Hc Hl. unfold slice.
  assert ((0 <=? o) && (0 <=? c) && (o + c <=? zlen l) = true) as -> by lia.
  eexists. split; [done|]. split.
  - apply zlen_take. unfold zlen in *. rewrite length_drop. lia.
  - intros i Hi. by rewrite zget_take, zget_drop by lia.
Qed.

Lemma zlen_patch (l bs : list Z) o : 0 <= o -> o + zlen bs <= zlen l -> zlen (patch l o bs) = zlen l.
Proof.
  intros. unfold patch, zlen in *. rewrite !length_app, length_take, length_drop. lia.
Qed.

Lemma zget_patch (l bs : list Z) o i : 0 <= o -> o + zlen bs <= zlen l -> 0 <= i < zlen l ->
  zget (patch l o bs) i = if (o <=? i) && (i <? o + zlen bs) then zget bs (i - o) else zget l i.
Proof.
  intros Ho Hb Hi. unfold patch.
  assert (zlen (take (Z.to_nat o) l) = o) as Ht by (apply zlen_take; unfold zlen in *; lia).
  destruct (Z.leb_spec o i); cbn [andb].
  2:{ rewrite zget_app_l by lia. apply zget_take. lia. }
  rewrite zget_app_r by lia. rewrite Ht.
  destruct (Z.ltb_spec i (o + zlen bs)); [apply zget_app_l; lia|].
  rewrite zget_app_r by lia. replace (Z.to_nat o + length bs)%nat with (Z.to_nat (o + zlen bs)) by (unfold zlen; lia).
  rewrite zget_drop by (unfold zlen in *; lia). f_equal. lia.
Qed.

(** ** Inodes *)

(** The sectors of the inode are on the device, and its length is in range. *)
Record wf_inode b n : Prop := {
  wi_length : 0 <= length_ (data n) < 2 ^ 31 - 512;
  wi_start : 0 <= start (data n) /\ start (data n) + length_ (data n) / 512 + 1 < 2 ^ 32;
  wi_sectors : forall j, 0 <= j -> 512 * j < length_ (data n) -> readable b (start (data n) + j)
}.

(** Byte [k] of the inode is byte [base n + k] of the device. *)
Definition base n : Z := 512 * start (data n).
Definition fbyte b n k : Z := dbyte b (base n + k).

Lemma wf_inode_same b b' n : same_device b b' -> wf_inode b n -> wf_inode b' n.
Proof.
  intros Hs [H1 H2 H3]. split; [done..|]. intros. eapply readable_same; [done|]. by apply H3.
Qed.

Lemma byte_to_sector_spec b n o : wf_inode b n -> 0 <= o < length_ (data n) ->
  byte_to_sector n o = start (data n) + o / 512 /\ readable b (start (data n) + o / 512).
Proof.
  intros [H1 H2 H3] Ho. unfold byte_to_sector.
  assert ((o <? length_ (data n)) = true) as -> by lia.
  rewrite Z.quot_div_nonneg by lia. split; [apply u32_small; dlia|apply H3; dlia].
Qed.

(** A chunk lies inside one sector and inside the inode. *)
Lemma chunk_spec b n sz o : wf_inode b n -> 0 < sz -> 0 <= o < 2 ^ 31 ->
  chunk_size n sz o = Z.min sz (Z.min (length_ (data n) - o) (512 - o mod 512)).
Proof.
  intros [H1 _ _] Hsz Ho. unfold chunk_size, inode_length. rewrite Z.rem_mod_nonneg by lia.
  rewrite s32_small by lia.
  destruct (Z.ltb_spec (length_ (data n) - o) (512 - o mod 512)); zcase; lia.
Qed.

Lemma sector_index n o i : 0 <= o -> 0 <= i -> o mod 512 + i < 512 ->
  (base n + (o + i)) / 512 = start (data n) + o / 512 /\ (base n + (o + i)) mod 512 = o mod 512 + i.
Proof. intros. unfold base. dlia. Qed.

(** Part of a sector, as bytes of the inode. *)
Lemma slice_sector b n o c q : 0 <= o -> 0 <= c -> o mod 512 + c <= 512 ->
  zlen (contents (aux b) (start (data n) + o / 512)) = 512 -> zlen q = c ->
  (forall i, 0 <= i < c -> zget q i = zget (contents (aux b) (start (data n) + o / 512)) (o mod 512 + i)) ->
  q = map (fbyte b n) (seqZ o c).
Proof.
  intros Ho Hc Hoc Hl Hq Hg. apply zlist_eq; [by rewrite zlen_map_seqZ|].
  intros i Hi. rewrite Hq in Hi. rewrite zget_map_seqZ, Hg by done.
  unfold fbyte, dbyte. destruct (sector_index n o i) as [-> ->]; [lia..|].
  pose proof (Z.mod_pos_bound o 512).
  destruct (zget_Some (contents (aux b) (start (data n) + o / 512)) (o mod 512 + i)) as [v ->]; [lia|done].
Qed.

(** Reads leave the state alone, up to the driver, the counters and the bounce
    buffer; [write_effect] also allows other bytes on the device. *)
Record only_device s s' (g : Z -> Z) : Prop := {
  od_device : device_bytes (fs_device s) (fs_device s') g;
  od_map : free_map s' = free_map s;
  od_map_file : free_map_file s' = free_map_file s;
  od_open : open_inodes s' = open_inodes s;
  od_inodes : inodes s' = inodes s;
  od_files : files s' = files s;
  od_dirs : dirs s' = dirs s;
  od_mem : mem s' = mem s;
  od_brk : brk s <= brk s'
}.

Lemma only_device_refl s : only_device s s (dbyte (fs_device s)).
Proof. by split. Qed.

Lemma only_device_trans s1 s2 s3 g g' : only_device s1 s2 g -> only_device s2 s3 g' ->
  only_device s1 s3 g'.
Proof.
  intros [[D1 B1] ? ? ? ? ? ? ? ?] [[D2 B2] ? ? ? ? ? ? ? ?]. split; try congruence; [|lia].
  split; [by eapply same_device_trans|]. intros p Hp Hr. apply B2; [done|]. by apply (sd_ready _ _ D1).
Qed.

Lemma only_device_ext s s' g g' : only_device s s' g ->
  (forall p, 0 <= p -> ready (aux (fs_device s)) (p / 512) -> g p = g' p) -> only_device s s' g'.
Proof.
  intros [[D1 B1] ? ? ? ? ? ? ? ?] Hg. split; try done. split; [done|].
  intros p Hp Hr. by rewrite B1, Hg.
Qed.

(** [malloc] when allocations succeed. *)
Lemma malloc_spec s : mem s = [] -> 0 < brk s ->
  exists s', malloc s = Done (brk s, s') /\
    only_device s s' (dbyte (fs_device s)) /\ brk s' = brk s + 1 /\ fs_device s' = fs_device s.
Proof.
  intros Hm Hb. unfold malloc. rewrite Hm. eexists. split; [done|].
  split; [|done]. split; try done. cbn. lia.
Qed.

(** The bounce buffer is allocated once. *)
Lemma bounce_spec (bounce : bool) s : mem s = [] -> 0 < brk s ->
  exists s', alloc_bounce bounce s = Done (true, s') /\
    only_device s s' (dbyte (fs_device s)) /\ fs_device s' = fs_device s.
Proof.
  intros Hm Hb. unfold alloc_bounce.
  destruct bounce; [exists s; split; [done|split; [apply only_device_refl|done]]|].
  destruct (malloc_spec s Hm Hb) as (s' & Hr & Ho & _ & Hd). exists s'.
  erewrite bind_done; [|exact Hr]. unfold NULL.
  destruct (Z.eqb_spec (brk s) 0); [lia|]. done.
Qed.

Lemma on_device_read s t : readable (fs_device s) t ->
  exists s', on_device (block_read t) s = Done (contents (aux (fs_device s)) t, s') /\
    only_device s s' (dbyte (fs_device s)).
Proof.
  intros Hr. destruct (read_sector _ _ Hr) as (b' & Hb & Hd).
  unfold on_device. rewrite (obind_done _ _ _ Hb). eexists. split; [done|]. by split.
Qed.

Lemma on_device_write s t bs : readable (fs_device s) t -> type (fs_device s) <> BLOCK_FOREIGN ->
  zlen bs = 512 ->
  exists s', on_device (block_write t bs) s = Done (tt, s') /\
    only_device s s' (fun p => if p / 512 =? t then default 0 (zget bs (p mod 512)) else dbyte (fs_device s) p).
Proof.
  intros Hr Ht Hl. destruct (write_sector _ _ bs Hr Ht Hl) as (b' & Hb & Hd).
  unfold on_device. rewrite (obind_done _ _ _ Hb). eexists. split; [done|]. by split.
Qed.

Lemma sector_512 b t : readable b t -> zlen (contents (aux b) t) = 512.
Proof. intros [_ Hr]. by apply sector_law. Qed.

(** The number of bytes a read or write of [sz] bytes at [o] transfers. *)
Definition transfer n sz o : Z := Z.max 0 (Z.min sz (length_ (data n) - o)).

Lemma fbyte_ext b b' n a c : same_device b b' -> wf_inode b n -> 0 <= a -> a + c <= length_ (data n) ->
  device_bytes b b' (dbyte b) -> map (fbyte b' n) (seqZ a c) = map (fbyte b n) (seqZ a c).
Proof.
  intros Hs [H1 H2 H3] Ha Hc [_ Hd]. apply map_ext_in. intros k Hk%list_elem_of_In%elem_of_seqZ.
  unfold fbyte. apply Hd; [unfold base; lia|].
  replace ((base n + k) / 512) with (start (data n) + k / 512) by (unfold base; dlia).
  apply H3; dlia.
Qed.

Lemma inode_read_loop_spec n i : forall fuel sz o bounce buf s,
  inodes s !! i = Some n -> wf_inode (fs_device s) n -> mem s = [] -> 0 < brk s ->
  0 <= o -> 0 <= sz -> o + sz < 2 ^ 31 -> sz < Z.of_nat fuel ->
  exists s', inode_read_loop fuel i sz o bounce buf s =
      Done (buf ++ map (fbyte (fs_device s) n) (seqZ o (transfer n sz o)), s') /\
    only_device s s' (dbyte (fs_device s)).
Proof.
  induction fuel as [|fuel IH]; intros sz o bounce buf s Hi Hwf Hm Hbrk Ho Hsz Hs31 Hf; [lia|].
  cbn [inode_read_loop]. unfold transfer. destruct (Z.leb_spec sz 0).
  { exists s. rewrite seqZ_nil by lia. rewrite app_nil_r. split; [done|apply only_device_refl]. }
  erewrite bind_done; [|unfold get_inode, load; by rewrite Hi]. cbv zeta.
  rewrite (chunk_spec (fs_device s)) by (done || lia).
  set (c := Z.min sz (Z.min (length_ (data n) - o) (512 - o mod 512))).
  pose proof (Z.mod_pos_bound o 512). destruct (Z.leb_spec c 0).
  { exists s. rewrite seqZ_nil by lia. rewrite app_nil_r. split; [done|apply only_device_refl]. }
  destruct (byte_to_sector_spec (fs_device s) n o Hwf) as [-> Hrd]; [lia|].
  pose proof (sector_512 _ _ Hrd) as H512. rewrite Z.rem_mod_nonneg by lia.
  replace (Z.max 0 (Z.min sz (length_ (data n) - o)))
    with (c + transfer n (sz - c) (o + c)) by (unfold transfer; lia).
  rewrite seqZ_app by (unfold transfer; lia). rewrite map_app, app_assoc.
  assert (forall s2 bounce', only_device s s2 (dbyte (fs_device s)) ->
    exists s', inode_read_loop fuel i (sz - c) (o + c) bounce'
        (buf ++ map (fbyte (fs_device s) n) (seqZ o c)) s2 =
      Done ((buf ++ map (fbyte (fs_device s) n) (seqZ o c)) ++
             map (fbyte (fs_device s) n) (seqZ (o + c) (transfer n (sz - c) (o + c))), s') /\
    only_device s s' (dbyte (fs_device s))) as Hrec.
  { intros s2 bounce' Ho2. pose proof (od_device _ _ _ Ho2) as [Hsd Hb2].
    destruct (IH (sz - c) (o + c) bounce' (buf ++ map (fbyte (fs_device s) n) (seqZ o c)) s2)
      as (s' & Hr & Ho'); try lia.
    - by rewrite (od_inodes _ _ _ Ho2).
    - by eapply wf_inode_same.
    - by rewrite (od_mem _ _ _ Ho2).
    - pose proof (od_brk _ _ _ Ho2). lia.
    - exists s'. split.
      + rewrite Hr. do 3 f_equal. apply fbyte_ext; [done|done|lia|unfold transfer; lia|done].
      + eapply only_device_ext; [by eapply only_device_trans|]. intros p Hp Hrp. by apply Hb2. }
  destruct ((o mod 512 =? 0) && (c =? 512)) eqn:E.
  - destruct (on_device_read s _ Hrd) as (s2 & Hr2 & Ho2).
    erewrite bind_done; [|exact Hr2].
    rewrite (slice_sector (fs_device s) n o c (contents (aux (fs_device s)) (start (data n) + o / 512)));
      [by apply Hrec|lia|lia|lia|done|lia|].
    intros j Hj. f_equal. lia.
  - destruct (bounce_spec bounce s Hm Hbrk) as (s1 & Hr1 & Ho1 & Hd1).
    erewrite bind_done; [|exact Hr1]. cbn [negb]. rewrite <- Hd1 in Hrd.
    destruct (on_device_read s1 _ Hrd) as (s2 & Hr2 & Ho2).
    erewrite bind_done; [|exact Hr2]. rewrite Hd1 in *.
    destruct (slice_some (contents (aux (fs_device s)) (start (data n) + o / 512)) (o mod 512) c)
      as (q & Hq & Hql & Hqg); [lia..|].
    erewrite bind_done; [|unfold load; by rewrite Hq].
    rewrite (slice_sector (fs_device s) n o c q); [|lia|lia|lia|done|done|done].
    apply Hrec. by eapply only_device_trans.
Qed.

Lemma inode_read_at_spec s i n sz o :
  inodes s !! i = Some n -> wf_inode (fs_device s) n -> mem s = [] -> 0 < brk s ->
  0 <= o -> 0 <= sz -> o + sz < 2 ^ 31 ->
  exists s', inode_read_at i sz o s =
      Done (map (fbyte (fs_device s) n) (seqZ o (transfer n sz o)), s') /\
    only_device s s' (dbyte (fs_device s)).
Proof.
  intros. unfold inode_read_at.
  destruct (inode_read_loop_spec n i (S (Z.to_nat sz)) sz o false [] s) as (s' & Hr & Ho);
    [done|done|done|done|done|done|done|lia|]. by exists s'.
Qed.

(** [inode_read_at] returns the bytes of the inode from the offset on, as
    many as were asked for and exist, across any number of sectors, and changes
    nothing but the device counters. *)
Theorem inode_read_at_correct s i n sz o :
  inodes s !! i = Some n -> wf_inode (fs_device s) n -> mem s = [] -> 0 < brk s ->
  0 <= o -> 0 <= sz -> o + sz < 2 ^ 31 ->
  exists s', inode_read_at i sz o s =
      Done (map (fbyte (fs_device s) n) (seqZ o (transfer n sz o)), s') /\
    only_device s s' (dbyte (fs_device s)).
Proof. apply inode_read_at_spec. Qed.

(** [c] bytes of [buf] from [w] on, stored at byte [a] of the device. *)
Definition stored (buf : list Z) (w a c : Z) (g : Z -> Z) : Z -> Z :=
  fun p => if (a <=? p) && (p <? a + c) then default 0 (zget buf (w + (p - a))) else g p.

Lemma stored_sector b n o c buf w new :
  0 <= o -> 0 <= c -> o mod 512 + c <= 512 -> zlen new = 512 ->
  (forall i, 0 <= i < 512 -> zget new i =
     if (o mod 512 <=? i) && (i <? o mod 512 + c) then zget buf (w + (i - o mod 512))
     else zget (contents (aux b) (start (data n) + o / 512)) i) ->
  forall p, 0 <= p ->
  (if p / 512 =? start (data n) + o / 512 then default 0 (zget new (p mod 512)) else dbyte b p) =
  stored buf w (base n + o) c (dbyte b) p.
Proof.
  intros Ho Hc Hoc Hl Hg p Hp. unfold stored.
  pose proof (Z.div_mod o 512 ltac:(lia)). pose proof (Z.mod_pos_bound o 512 ltac:(lia)).
  pose proof (Z.div_mod p 512 ltac:(lia)). pose proof (Z.mod_pos_bound p 512 ltac:(lia)).
  unfold base. destruct (Z.eqb_spec (p / 512) (start (data n) + o / 512)) as [E|E].
  - rewrite Hg by lia.
    assert ((o mod 512 <=? p mod 512) && (p mod 512 <? o mod 512 + c) =
            (512 * start (data n) + o <=? p) && (p <? 512 * start (data n) + o + c)) as -> by lia.
    destruct ((512 * start (data n) + o <=? p) && (p <? 512 * start (data n) + o + c)).
    + do 3 f_equal. lia.
    + unfold dbyte. by rewrite E.
  - assert ((512 * start (data n) + o <=? p) && (p <? 512 * start (data n) + o + c) = false) as ->; [|done].
    lia.
Qed.

Lemma patch_sector b n o c (bs part buf : list Z) w :
  zlen bs = 512 -> bs = contents (aux b) (start (data n) + o / 512) -> zlen part = c ->
  0 <= o -> 0 <= c -> o mod 512 + c <= 512 ->
  (forall i, 0 <= i < c -> zget part i = zget buf (w + i)) ->
  zlen (patch bs (o mod 512) part) = 512 /\
  forall i, 0 <= i < 512 -> zget (patch bs (o mod 512) part) i =
     if (o mod 512 <=? i) && (i <? o mod 512 + c) then zget buf (w + (i - o mod 512))
     else zget (contents (aux b) (start (data n) + o / 512)) i.
Proof.
  intros Hl -> Hc Ho Hc0 Hoc Hg. pose proof (Z.mod_pos_bound o 512 ltac:(lia)).
  split; [rewrite zlen_patch; lia|]. intros i Hi. rewrite zget_patch by lia. rewrite Hc.
  destruct ((o mod 512 <=? i) && (i <? o mod 512 + c)) eqn:E; [|done]. apply Hg. lia.
Qed.

(** One chunk, by either branch of the loop. *)
Lemma write_chunk_spec s n i buf o c w bounce :
  wf_inode (fs_device s) n -> type (fs_device s) <> BLOCK_FOREIGN -> mem s = [] -> 0 < brk s ->
  0 <= o -> 0 < c -> o mod 512 + c <= 512 -> o + c <= length_ (data n) ->
  0 <= w -> w + c <= zlen buf ->
  forall fuel sz, exists s2 bounce',
    only_device s s2 (stored buf w (base n + o) c (dbyte (fs_device s))) /\
    (part ← load (fun _ => slice buf w c);
     if (o mod 512 =? 0) && (c =? 512) then
       on_device (block_write (start (data n) + o / 512) part) ;;
       inode_write_loop fuel i buf (sz - c) (o + c) bounce (w + c)
     else
       ok ← alloc_bounce bounce;
       if negb ok then mret w
       else
         bs ← (if (0 <? o mod 512) || (c <? 512 - o mod 512)
               then on_device (block_read (start (data n) + o / 512))
               else mret zero_sector);
         on_device (block_write (start (data n) + o / 512) (patch bs (o mod 512) part)) ;;
         inode_write_loop fuel i buf (sz - c) (o + c) true (w + c)) s =
    inode_write_loop fuel i buf (sz - c) (o + c) bounce' (w + c) s2.
Proof.
  intros Hwf Hty Hm Hbrk Ho Hc Hoc Hoc2 Hw Hwc fuel sz.
  destruct (byte_to_sector_spec (fs_device s) n o Hwf) as [_ Hrd]; [lia|].
  pose proof (sector_512 _ _ Hrd) as H512. pose proof (Z.mod_pos_bound o 512 ltac:(lia)).
  destruct (slice_some buf w c) as (part & Hq & Hql & Hqg); [lia..|].
  destruct (patch_sector (fs_device s) n o c _ part buf w H512 eq_refl Hql) as [Hpl Hpg]; [lia..|done|].
  destruct ((o mod 512 =? 0) && (c =? 512)) eqn:E.
  - assert (o mod 512 = 0) as E0 by lia. assert (c = 512) as E1 by lia.
    destruct (on_device_write s (start (data n) + o / 512) part Hrd Hty) as (s2 & Hr2 & Ho2); [lia|].
    exists s2, bounce. split.
    + eapply only_device_ext; [exact Ho2|]. intros p Hp _. apply stored_sector; try lia.
      intros k Hk. rewrite E0. assert ((0 <=? k) && (k <? 0 + c) = true) as -> by lia.
      rewrite Z.sub_0_r. apply Hqg. lia.
    + erewrite bind_done; [|unfold load; by rewrite Hq]. by erewrite bind_done; [|exact Hr2].
  - destruct (bounce_spec bounce s Hm Hbrk) as (s1 & Hr1 & Ho1 & Hd1). rewrite <- Hd1 in Hrd, Hty.
    destruct (on_device_read s1 _ Hrd) as (s2 & Hr2 & Ho2). rewrite Hd1 in *.
    pose proof (od_device _ _ _ Ho2) as [Hsd Hdb].
    assert (readable (fs_device s2) (start (data n) + o / 512)) as Hrd2.
    { eapply readable_same; [exact Hsd|]. by rewrite Hd1. }
    destruct (on_device_write s2 _ (patch (contents (aux (fs_device s)) (start (data n) + o / 512)) (o mod 512) part) Hrd2)
      as (s3 & Hr3 & Ho3); [rewrite (sd_type _ _ Hsd), Hd1; done|done|].
    exists s3, true. split.
    + eapply only_device_trans; [exact Ho1|]. eapply only_device_trans; [exact Ho2|].
      eapply only_device_ext; [exact Ho3|]. intros p Hp Hrp. cbn beta.
      assert (dbyte (fs_device s2) p = dbyte (fs_device s) p) as ->.
      { rewrite Hdb; [by rewrite ?Hd1|done|]. by apply (sd_ready _ _ Hsd). }
      apply stored_sector; done || lia.
    + erewrite bind_done; [|unfold load; by rewrite Hq].
      erewrite bind_done; [|exact Hr1]. cbn [negb].
      assert ((0 <? o mod 512) || (c <? 512 - o mod 512) = true) as -> by lia.
      erewrite bind_done; [|exact Hr2]. by erewrite bind_done; [|exact Hr3].
Qed.

Lemma inode_write_loop_spec n i buf : forall fuel sz o bounce w s,
  inodes s !! i = Some n -> wf_inode (fs_device s) n -> type (fs_device s) <> BLOCK_FOREIGN ->
  mem s = [] -> 0 < brk s -> 0 <= o -> 0 <= sz -> o + sz < 2 ^ 31 -> sz < Z.of_nat fuel ->
  0 <= w -> w + sz <= zlen buf ->
  exists s', inode_write_loop fuel i buf sz o bounce w s = Done (w + transfer n sz o, s') /\
    only_device s s' (stored buf w (base n + o) (transfer n sz o) (dbyte (fs_device s))).
Proof.
  induction fuel as [|fuel IH]; intros sz o bounce w s Hi Hwf Hty Hm Hbrk Ho Hsz Hs31 Hf Hw Hbuf; [lia|].
  cbn [inode_write_loop].
  assert (forall t, t <= 0 -> only_device s s (stored buf w (base n + o) t (dbyte (fs_device s)))) as Hnone.
  { intros t Ht. eapply only_device_ext; [apply only_device_refl|]. intros p Hp _. unfold stored.
    assert ((base n + o <=? p) && (p <? base n + o + t) = false) as -> by lia. done. }
  destruct (Z.leb_spec sz 0).
  { exists s. assert (transfer n sz o = 0) as E by (unfold transfer; lia). rewrite E, Z.add_0_r.
    split; [done|]. by apply Hnone. }
  erewrite bind_done; [|unfold get_inode, load; by rewrite Hi]. cbv zeta.
  rewrite (chunk_spec (fs_device s)) by (done || lia).
  set (c := Z.min sz (Z.min (length_ (data n) - o) (512 - o mod 512))).
  pose proof (Z.mod_pos_bound o 512 ltac:(lia)). destruct (Z.leb_spec c 0).
  { exists s. assert (transfer n sz o = 0) as E by (unfold transfer; lia). rewrite E, Z.add_0_r.
    split; [done|]. by apply Hnone. }
  destruct (byte_to_sector_spec (fs_device s) n o Hwf) as [-> Hrd]; [lia|].
  rewrite Z.rem_mod_nonneg by lia.
  destruct (write_chunk_spec s n i buf o c w bounce Hwf Hty Hm Hbrk Ho) with (fuel := fuel) (sz := sz)
    as (s2 & bounce' & Ho2 & Hrun); [lia..|].
  rewrite Hrun. pose proof (od_device _ _ _ Ho2) as [Hsd Hdb].
  destruct (IH (sz - c) (o + c) bounce' (w + c) s2) as (s' & Hr & Ho'); try lia.
  - by rewrite (od_inodes _ _ _ Ho2).
  - by eapply wf_inode_same.
  - by rewrite (sd_type _ _ Hsd).
  - by rewrite (od_mem _ _ _ Ho2).
  - pose proof (od_brk _ _ _ Ho2). lia.
  - assert (transfer n sz o = c + transfer n (sz - c) (o + c)) as Et by (unfold transfer; lia).
    exists s'. split; [rewrite Hr; do 2 f_equal; lia|].
    eapply only_device_ext; [by eapply only_device_trans|]. intros p Hp Hrp.
    unfold stored at 1. rewrite Hdb by done. unfold stored.
    assert (0 <= transfer n (sz - c) (o + c)) by (unfold transfer; lia).
    rewrite Et. destruct (Z.leb_spec (base n + (o + c)) p); cbn [andb].
    + assert ((base n + o <=? p) && (p <? base n + o + c) = false) as -> by lia.
      assert ((base n + o <=? p) && (p <? base n + o + (c + transfer n (sz - c) (o + c))) =
              (p <? base n + (o + c) + transfer n (sz - c) (o + c))) as -> by lia.
      destruct (p <? base n + (o + c) + transfer n (sz - c) (o + c)); [|done]. do 2 f_equal. lia.
    + assert ((base n + o <=? p) && (p <? base n + o + (c + transfer n (sz - c) (o + c))) =
              (base n + o <=? p) && (p <? base n + o + c)) as -> by lia. done.
Qed.

Lemma inode_write_at_spec s i n buf sz o :
  inodes s !! i = Some n -> wf_inode (fs_device s) n -> type (fs_device s) <> BLOCK_FOREIGN ->
  mem s = [] -> 0 < brk s -> 0 <= o -> 0 <= sz -> o + sz < 2 ^ 31 -> sz <= zlen buf ->
  exists s', inode_write_at i buf sz o s =
      Done (if deny_write_cnt n =? 0 then transfer n sz o else 0, s') /\
    only_device s s' (if deny_write_cnt n =? 0
      then stored buf 0 (base n + o) (transfer n sz o) (dbyte (fs_device s)) else dbyte (fs_device s)).
Proof.
  intros Hi Hwf Hty Hm Hbrk Ho Hsz Hs31 Hbuf. unfold inode_write_at.
  erewrite bind_done; [|unfold get_inode, load; by rewrite Hi].
  destruct (deny_write_cnt n =? 0); cbn [negb].
  - apply (inode_write_loop_spec n i buf); try done; lia.
  - exists s. split; [done|]. apply only_device_refl.
Qed.

(** C11: [inode_write_at] stores the bytes of the buffer in the inode from the
    offset on, as many as fit before its end, leaves every other byte of the
    device as it was, and returns the number stored; while writes are denied it
    stores nothing and returns 0. *)
Theorem inode_write_at_correct s i n buf sz o :
  inodes s !! i = Some n -> wf_inode (fs_device s) n -> type (fs_device s) <> BLOCK_FOREIGN ->
  mem s = [] -> 0 < brk s -> 0 <= o -> 0 <= sz -> o + sz < 2 ^ 31 -> sz <= zlen buf ->
  exists s', inode_write_at i buf sz o s =
      Done (if deny_write_cnt n =? 0 then transfer n sz o else 0, s') /\
    only_device s s' (if deny_write_cnt n =? 0
      then stored buf 0 (base n + o) (transfer n sz o) (dbyte (fs_device s)) else dbyte (fs_device s)).
Proof. apply inode_write_at_spec. Qed.

(** ** The free map *)

(** The free map file is an open file of inode [n], large enough for the map. *)
Definition map_file s n : Prop :=
  exists fl, files s !! free_map_file s = Some fl /\ inodes s !! f_inode fl = Some n /\
    wf_inode (fs_device s) n /\ deny_write_cnt n = 0 /\
    byte_cnt (bit_cnt (free_map s)) <= length_ (data n).

(** The state the allocation functions run in: a well-formed map, either without
    a file (while formatting) or with one. *)
Record map_ready s : Prop := {
  mr_wf : wf (free_map s);
  mr_type : type (fs_device s) <> BLOCK_FOREIGN;
  mr_mem : mem s = [];
  mr_brk : 0 < brk s;
  mr_file : free_map_file s = NULL \/ (free_map_file s <> NULL /\ exists n, map_file s n)
}.

(** The bytes of the free map file are the map in memory. *)
Definition map_on_disk s n : Prop :=
  forall k, 0 <= k < byte_cnt (bit_cnt (free_map s)) ->
    fbyte (fs_device s) n k = default 0 (zget (elems_bytes (bits (free_map s))) k).

Lemma zlen_elems_bytes ws : zlen (elems_bytes ws) = 4 * zlen ws.
Proof. unfold zlen. rewrite length_elems_bytes. lia. Qed.

Lemma free_map_write_spec s n : wf (free_map s) -> type (fs_device s) <> BLOCK_FOREIGN ->
  mem s = [] -> 0 < brk s -> map_file s n ->
  exists s', free_map_write (free_map_file s) s = Done (true, s') /\
    only_device s s' (stored (elems_bytes (bits (free_map s))) 0 (base n)
      (byte_cnt (bit_cnt (free_map s))) (dbyte (fs_device s))) /\
    map_on_disk s' n.
Proof.
  intros Hwf Hty Hm Hb (fl & Hf & Hi & Hwi & Hdw & Hlen).
  pose proof (byte_cnt_eq _ Hwf) as Hbc. pose proof (wi_length _ _ Hwi) as Hl.
  assert (0 <= byte_cnt (bit_cnt (free_map s))) as H0 by (rewrite Hbc; unfold zlen; lia).
  destruct (inode_write_at_spec s (f_inode fl) n (elems_bytes (bits (free_map s)))
    (byte_cnt (bit_cnt (free_map s))) 0) as (s' & Hr & Ho); try done; try lia.
  { rewrite zlen_elems_bytes. lia. }
  rewrite Hdw, Z.eqb_refl in Hr, Ho. rewrite Z.add_0_r in Ho.
  assert (transfer n (byte_cnt (bit_cnt (free_map s))) 0 = byte_cnt (bit_cnt (free_map s))) as Et
    by (unfold transfer; lia). rewrite Et in *.
  exists s'. split; [|split; [done|]].
  - unfold free_map_write. erewrite bind_done; [|done]. cbv zeta.
    assert (file_write_at (free_map_file s) (elems_bytes (bits (free_map s)))
      (byte_cnt (bit_cnt (free_map s))) 0 s = Done (byte_cnt (bit_cnt (free_map s)), s')) as Hw.
    { unfold file_write_at. erewrite bind_done; [|unfold get_file, load; by rewrite Hf]. exact Hr. }
    erewrite bind_done; [|exact Hw]. unfold bitmap_write. by rewrite Z.eqb_refl.
  - intros k Hk. rewrite (od_map _ _ _ Ho) in *. unfold fbyte.
    destruct (od_device _ _ _ Ho) as [_ ->].
    + unfold stored.
      assert ((base n <=? base n + k) && (base n + k <? base n + byte_cnt (bit_cnt (free_map s))) = true)
        as -> by lia. do 2 f_equal. lia.
    + pose proof (wi_start _ _ Hwi). unfold base. lia.
    + replace ((base n + k) / 512) with (start (data n) + k / 512) by (unfold base; dlia).
      apply (wi_sectors _ _ Hwi); dlia.
Qed.

Lemma on_map_done {A} s (m : M bitmap A) a (b : bitmap) : m (free_map s) = Done (a, b) ->
  on_map m s = Done (a, set_free_map b s).
Proof. intros Hr. unfold on_map. by rewrite (obind_done _ _ _ Hr). Qed.

(** [free_map_allocate] finds the first [cnt] consecutive free sectors, marks
    exactly those, and leaves the free map file on disk equal to the map in
    memory; it fails, changing no bit, exactly when there is no such group. *)
Theorem free_map_allocate_correct s cnt : map_ready s -> 0 <= cnt < 2 ^ 32 ->
  exists r s', free_map_allocate cnt s = Done (r, s') /\
    wf (free_map s') /\ bit_cnt (free_map s') = bit_cnt (free_map s) /\
    match r with
    | Some sec => 0 <= sec /\ group (free_map s) sec cnt false /\
        (forall k, 0 <= k < sec -> ~ group (free_map s) k cnt false) /\
        (forall j, 0 <= j -> bit (free_map s') j = if in_range sec cnt j then true else bit (free_map s) j) /\
        (forall n, free_map_file s <> NULL -> map_file s n -> map_on_disk s' n)
    | None => free_map s' = free_map s /\ forall k, 0 <= k -> ~ group (free_map s) k cnt false
    end.
Proof.
  intros [Hwf Hty Hm Hb Hf] Hc. pose proof (wf_cnt _ Hwf).
  destruct (bitmap_scan_and_flip_spec (free_map s) 0 cnt false Hwf)
    as (r & b' & Hr & Hwf' & Hn' & Hcase); [lia|lia|].
  unfold free_map_allocate. erewrite bind_done; [|by apply on_map_done].
  erewrite bind_done; [|done]. cbn [free_map_file set_free_map].
  destruct Hcase as [(H1 & H2 & H3 & H4 & H5)|(-> & -> & H2)].
  2:{ rewrite Z.eqb_refl. cbn [negb andb]. erewrite bind_done; [|done]. rewrite Z.eqb_refl.
      exists None. eexists. by split_and!. }
  apply Z.eqb_neq in H1 as H1'. rewrite H1'. cbn [negb andb].
  destruct Hf as [Hf|[Hf [n Hn]]].
  - rewrite Hf, Z.eqb_refl. cbn [negb]. erewrite bind_done; [|done]. rewrite H1'.
    exists (Some r). eexists. split; [done|]. by split_and!.
  - apply Z.eqb_neq in Hf as Hf'. rewrite Hf'. cbn [negb].
    destruct (free_map_write_spec (set_free_map b' s) n) as (s' & Hw & Ho & _); try done.
    { destruct Hn as (fl & ? & ? & ? & ? & ?). exists fl. cbn. by rewrite Hn'. }
    cbn [free_map_file set_free_map] in Hw.
    erewrite bind_done; [|erewrite bind_done; [|exact Hw]; done]. rewrite H1'.
    exists (Some r), s'. split; [done|]. rewrite (od_map _ _ _ Ho). cbn [free_map set_free_map].
    split; [done|]. split; [done|]. split; [done|]. split; [done|]. split; [done|]. split; [done|].
    intros n' Hn0 Hn2.
    destruct (free_map_write_spec (set_free_map b' s) n') as (s'' & Hw2 & Ho2 & Hd); try done.
    { destruct Hn2 as (fl & ? & ? & ? & ? & ?). exists fl. cbn. by rewrite Hn'. }
    cbn [free_map_file set_free_map] in Hw2. rewrite Hw in Hw2. injection Hw2 as <-. done.
Qed.

(** [free_map_release] clears exactly the bits of the sectors it is given and
    writes the map to its file; releasing a sector that is not allocated fails an
    assertion. *)
Theorem free_map_release_correct s sec cnt n : map_ready s -> free_map_file s <> NULL ->
  map_file s n -> 0 <= sec -> 0 <= cnt -> sec + cnt <= bit_cnt (free_map s) ->
  if bool_decide (Forall (fun j => bit (free_map s) j = true) (seqZ sec cnt))
  then exists s', free_map_release sec cnt s = Done (tt, s') /\
    wf (free_map s') /\ bit_cnt (free_map s') = bit_cnt (free_map s) /\
    (forall j, 0 <= j -> bit (free_map s') j = if in_range sec cnt j then false else bit (free_map s) j) /\
    map_on_disk s' n
  else free_map_release sec cnt s = Panic.
Proof.
  intros [Hwf Hty Hm Hb _] Hf Hn Hs Hc Hsc.
  destruct (contains_spec (free_map s) sec cnt false Hwf Hs Hc Hsc) as (r & Hr & Hrp).
  assert (bitmap_all sec cnt (free_map s) = Done (negb r, free_map s)) as Hall.
  { unfold bitmap_all. by erewrite bind_done; [|exact Hr]. }
  unfold free_map_release. destruct (decide (Forall (fun j => bit (free_map s) j = true) (seqZ sec cnt))) as [Ha|Ha].
  - rewrite bool_decide_eq_true_2 by done. assert (r = false) as ->.
    { destruct r; [|done]. destruct Hrp as [Hrp _]. destruct (Hrp eq_refl) as (j & Hj & Hjb).
      rewrite Forall_forall in Ha. rewrite Ha in Hjb; [done|]. apply elem_of_seqZ. lia. }
    destruct (set_multiple_spec (free_map s) sec cnt false Hwf Hs Hc Hsc) as (b' & Hr' & Hwf' & Hn' & Hb').
    destruct (free_map_write_spec (set_free_map b' s) n) as (s' & Hw & Ho & Hd); try done.
    { destruct Hn as (fl & ? & ? & ? & ? & ?). exists fl. cbn. by rewrite Hn'. }
    exists s'. split.
    + erewrite bind_done; [|by apply on_map_done]. erewrite bind_done; [|done].
      erewrite bind_done; [|apply on_map_done; cbn; exact Hr'].
      erewrite bind_done; [|done]. cbn [free_map_file set_free_map] in *.
      by erewrite bind_done; [|exact Hw].
    + rewrite (od_map _ _ _ Ho). by split_and!.
  - rewrite bool_decide_eq_false_2 by done. assert (r = true) as ->.
    { destruct r; [done|]. exfalso. apply Ha. apply Forall_forall. intros j Hj%elem_of_seqZ.
      destruct (bit (free_map s) j) eqn:E; [done|]. apply Hrp. by exists j. }
    unfold bnd, mbind, M_bind. by rewrite (on_map_done _ _ _ _ Hall).
Qed.
End Bytes.
