(* ===== verification/DirSpec.v ===== *)
(** * What directories promise

    A directory is the array of the 20-byte entries of its inode.  [lookup]
    finds the first entry in use with a name, [dir_add] fills the first free
    one; both are shown against the array ([entry]). *)

From S2P Require Import Prelude Vaddr KList Bitmap Block FileSys FileSpec.

(** ** Encodings *)

Lemma le32_word w rest : is_u32 w -> le32 (le_bytes w ++ rest) 0 = w.
Proof.
  intros Hw. unfold le32, le_bytes. rewrite u32_small by done. apply (word_bytes_value w Hw).
Qed.

Lemma le32_drop l l' i : zlen l = i -> le32 (l ++ l') i = le32 l' 0.
Proof.
  intros <-. unfold le32. rewrite !zget_app_r by lia.
  rewrite Z.add_0_r, Z.sub_diag. do 4 f_equal; do 3 f_equal; f_equal; lia.
Qed.

(** Names that fit a directory entry: no NUL inside, at most 14 characters. *)
Record valid_name (nm : list Z) : Prop := {
  vn_nonempty : nm <> [];
  vn_length : zlen nm <= NAME_MAX;
  vn_chars : Forall (fun c => 0 < c < 256) nm
}.

Lemma c_string_app nm rest : Forall (fun c => 0 < c < 256) nm -> c_string (nm ++ 0 :: rest) = nm.
Proof.
  induction 1 as [|c nm Hc _ IH]; [done|]. cbn [app c_string].
  destruct (Z.eqb_spec c 0); [lia|]. by rewrite IH.
Qed.

Lemma copy_name_spec old nm : valid_name nm -> zlen old = 15 ->
  c_string (copy_name old nm) = nm /\ zlen (copy_name old nm) = 15.
Proof.
  intros [_ Hl Hc] Ho. unfold copy_name, NAME_MAX, zlen in *. rewrite take_ge by lia.
  split.
  - rewrite <- app_assoc. by apply c_string_app.
  - rewrite !length_app, length_drop. simpl. lia.
Qed.

Lemma zlen_le_bytes z : zlen (le_bytes z) = 4.
Proof. done. Qed.

Lemma take_drop_app_mid (l1 l2 l3 : list Z) n m : length l1 = n -> length l2 = m ->
  take m (drop n (l1 ++ l2 ++ l3)) = l2.
Proof. intros <- <-. by rewrite drop_app_length, take_app_length. Qed.

Lemma entry_roundtrip_lemma e : is_u32 (inode_sector e) -> zlen (e_name e) = 15 ->
  entry_of_bytes (entry_bytes e) = e.
Proof.
  intros Hs Hn. destruct e as [sec nm u]. cbn [inode_sector e_name] in *.
  unfold entry_of_bytes, entry_bytes. cbn [inode_sector e_name in_use].
  rewrite le32_word by done.
  rewrite (take_drop_app_mid (le_bytes sec) nm) by (done || (unfold zlen in Hn; lia)).
  rewrite app_assoc, zget_app_r by (rewrite zlen_app, zlen_le_bytes; lia).
  rewrite zlen_app, zlen_le_bytes, Hn. change (19 - (4 + 15)) with 0. by destruct u.
Qed.

(** A directory entry written to disk is read back as it was. *)
Theorem entry_roundtrip e : is_u32 (inode_sector e) -> zlen (e_name e) = 15 ->
  entry_of_bytes (entry_bytes e) = e.
Proof. apply entry_roundtrip_lemma. Qed.

Lemma disk_roundtrip_run d : is_u32 (start d) -> 0 <= length_ d < 2 ^ 31 -> is_u32 (magic d) ->
  disk_of_bytes (disk_bytes d) = d /\ zlen (disk_bytes d) = 512.
Proof.
  intros Hs Hl Hm. destruct d as [st len mg]. cbn [start length_ magic] in *. split; [|done].
  unfold disk_of_bytes, disk_bytes. cbn [start length_ magic].
  rewrite le32_word by done.
  rewrite le32_drop, le32_word by (done || (unfold is_u32; lia)).
  rewrite app_assoc, le32_drop, le32_word by done. f_equal. apply s32_small. lia.
Qed.

(** An inode written to its sector is read back as it was, for every start
    sector and every length a file can have. *)
Theorem disk_inode_roundtrip d : is_u32 (start d) -> 0 <= length_ d < 2 ^ 31 -> is_u32 (magic d) ->
  disk_of_bytes (disk_bytes d) = d /\ zlen (disk_bytes d) = 512.
Proof. apply disk_roundtrip_run. Qed.

Section Directory.
Context {dev : Type} `{BlockDriver dev}.
Implicit Types (b : block dev) (s : fs dev) (n : inode) (k : Z) (e : dir_entry) (nm : list Z).

(** Entry [k] of the directory whose inode is [n]. *)
Definition entry b n k : dir_entry :=
  entry_of_bytes (map (fbyte b n) (seqZ (20 * k) 20)).

(** The number of whole entries. *)
Definition entry_cnt n : Z := length_ (data n) / 20.

(** The entry is in use under this name. *)
Definition matches nm e : bool := in_use e && same_name nm e.

Lemma entry_same b b' n k : same_device b b' -> wf_inode b n -> device_bytes b b' (dbyte b) ->
  0 <= k < entry_cnt n -> entry b' n k = entry b n k.
Proof.
  intros Hs Hwf Hd Hk. unfold entry. f_equal. apply fbyte_ext; [done|done|lia| |done].
  unfold entry_cnt in Hk. dlia.
Qed.

(** One read of the loops over a directory. *)
Lemma read_entry s i n k :
  inodes s !! i = Some n -> wf_inode (fs_device s) n -> mem s = [] -> 0 < brk s ->
  0 <= k <= entry_cnt n ->
  exists bs s', inode_read_at i sizeof_entry (20 * k) s = Done (bs, s') /\
    only_device s s' (dbyte (fs_device s)) /\
    (zlen bs =? sizeof_entry) = (k <? entry_cnt n) /\ zlen bs <= 20 /\
    (k < entry_cnt n -> entry_of_bytes bs = entry (fs_device s) n k).
Proof.
  intros Hi Hwf Hm Hb Hk. pose proof (wi_length _ _ Hwf). unfold entry_cnt in *.
  destruct (inode_read_at_spec s i n sizeof_entry (20 * k)) as (s' & Hr & Ho);
    [done|done|done|done|lia|done|unfold sizeof_entry; dlia|].
  eexists _, s'. split; [exact Hr|]. split; [done|].
  rewrite zlen_map_seqZ by (unfold transfer; lia). unfold transfer, sizeof_entry.
  split; [|split; [lia|]].
  - apply Bool.eq_true_iff_eq. rewrite Z.eqb_eq, Z.ltb_lt. split; intros; dlia.
  - intros Hlt. unfold entry. do 3 f_equal. dlia.
Qed.

Lemma lookup_loop_spec i n nm : forall fuel k s,
  inodes s !! i = Some n -> wf_inode (fs_device s) n -> mem s = [] -> 0 < brk s ->
  0 <= k <= entry_cnt n -> entry_cnt n - k < Z.of_nat fuel ->
  exists r s', lookup_loop fuel i nm (20 * k) s = Done (r, s') /\
    only_device s s' (dbyte (fs_device s)) /\
    match r with
    | Some (e, ofs) => exists j, k <= j < entry_cnt n /\ ofs = 20 * j /\
        e = entry (fs_device s) n j /\ matches nm e = true /\
        forall j', k <= j' < j -> matches nm (entry (fs_device s) n j') = false
    | None => forall j, k <= j < entry_cnt n -> matches nm (entry (fs_device s) n j) = false
    end.
Proof.
  induction fuel as [|fuel IH]; intros k s Hi Hwf Hm Hb Hk Hf; [lia|]. cbn [lookup_loop].
  destruct (read_entry s i n k Hi Hwf Hm Hb Hk) as (bs & s1 & Hr & Ho & Hlen & _ & He).
  erewrite bind_done; [|exact Hr]. rewrite Hlen.
  destruct (Z.ltb_spec k (entry_cnt n)) as [Hlt|Hge]; cbn [negb].
  2:{ exists None, s1. split; [done|]. split; [done|]. intros j Hj. lia. }
  rewrite He by done. fold (matches nm (entry (fs_device s) n k)).
  destruct (matches nm (entry (fs_device s) n k)) eqn:Em.
  { exists (Some (entry (fs_device s) n k, 20 * k)), s1. split; [done|]. split; [done|].
    exists k. split_and!; try done; lia. }
  pose proof (od_device _ _ _ Ho) as Hd. pose proof Hd as [Hsd _].
  replace (20 * k + sizeof_entry) with (20 * (k + 1)) by (unfold sizeof_entry; lia).
  destruct (IH (k + 1) s1) as (r & s' & Hr' & Ho' & Hcase); try lia.
  - by rewrite (od_inodes _ _ _ Ho).
  - by eapply wf_inode_same.
  - by rewrite (od_mem _ _ _ Ho).
  - pose proof (od_brk _ _ _ Ho). lia.
  - exists r, s'. split; [done|]. split.
    { eapply only_device_ext; [by eapply only_device_trans|]. intros p Hp Hrp. by apply Hd. }
    assert (forall j, k + 1 <= j < entry_cnt n -> entry (fs_device s1) n j = entry (fs_device s) n j) as Hsame.
    { intros j Hj. apply entry_same; [done|done|done|lia]. }
    destruct r as [[e ofs]|].
    + destruct Hcase as (j & Hj & -> & -> & Hm1 & Hm2). exists j. rewrite Hsame in * by lia.
      split_and!; [lia|lia|done|done|done|]. intros j' Hj'.
      destruct (decide (j' = k)) as [->|]; [done|]. rewrite <- Hsame by lia. apply Hm2. lia.
    + intros j Hj. destruct (decide (j = k)) as [->|]; [done|].
      rewrite <- Hsame by lia. apply Hcase. lia.
Qed.

Lemma entries_fuel_spec s i n : inodes s !! i = Some n ->
  entries_fuel i s = Done (S (Z.to_nat (entry_cnt n)), s).
Proof. intros Hi. unfold entries_fuel. erewrite bind_done; [|unfold get_inode, load; by rewrite Hi]. done. Qed.

(** A directory object in a state where the file system runs. *)
Record dir_ready s (d : Z) (i : Z) n : Prop := {
  dr_nonnull : d <> NULL;
  dr_dir : exists p, dirs s !! d = Some (mk_dir i p);
  dr_inode : inodes s !! i = Some n;
  dr_wf : wf_inode (fs_device s) n;
  dr_type : type (fs_device s) <> BLOCK_FOREIGN;
  dr_mem : mem s = [];
  dr_brk : 0 < brk s
}.

Lemma dir_ready_only s s' g d i n : dir_ready s d i n -> only_device s s' g -> dir_ready s' d i n.
Proof.
  intros [N D I W T M B] Ho. pose proof (od_device _ _ _ Ho) as [Hsd _]. split; try done.
  - by rewrite (od_dirs _ _ _ Ho).
  - by rewrite (od_inodes _ _ _ Ho).
  - by eapply wf_inode_same.
  - by rewrite (sd_type _ _ Hsd).
  - by rewrite (od_mem _ _ _ Ho).
  - pose proof (od_brk _ _ _ Ho). lia.
Qed.

(** [lookup] returns the first entry in use under the name, with its offset. *)
Lemma lookup_spec s d i n nm : dir_ready s d i n ->
  exists r s', lookup d nm s = Done (r, s') /\
    only_device s s' (dbyte (fs_device s)) /\
    match r with
    | Some (e, ofs) => exists j, 0 <= j < entry_cnt n /\ ofs = 20 * j /\
        e = entry (fs_device s) n j /\ matches nm e = true /\
        forall j', 0 <= j' < j -> matches nm (entry (fs_device s) n j') = false
    | None => forall j, 0 <= j < entry_cnt n -> matches nm (entry (fs_device s) n j) = false
    end.
Proof.
  intros [Hd [p Hp] Hi Hwf _ Hm Hb]. unfold lookup.
  apply Z.eqb_neq in Hd. rewrite Hd. erewrite bind_done; [|done].
  erewrite bind_done; [|unfold get_dir, load; by rewrite Hp]. cbn [d_inode].
  erewrite bind_done; [|by apply entries_fuel_spec].
  assert (0 <= entry_cnt n) by (pose proof (wi_length _ _ Hwf); unfold entry_cnt; dlia).
  apply (lookup_loop_spec i n nm _ 0 s); [done|done|done|done|lia|lia].
Qed.

Lemma patch_front (e bs : list Z) : zlen bs <= zlen e ->
  zlen (patch e 0 bs) = zlen e /\ (zlen bs = zlen e -> patch e 0 bs = bs).
Proof.
  intros Hl. split; [apply zlen_patch; lia|]. intros E. unfold patch. cbn [Z.to_nat take app Nat.add].
  rewrite drop_ge; [apply app_nil_r|]. unfold zlen in E. lia.
Qed.

(** The scan for a free slot stops at the first entry not in use, or at the end. *)
Lemma free_slot_loop_spec i n : forall fuel k ebuf s,
  inodes s !! i = Some n -> wf_inode (fs_device s) n -> mem s = [] -> 0 < brk s ->
  0 <= k <= entry_cnt n -> entry_cnt n - k < Z.of_nat fuel -> zlen ebuf = 20 ->
  exists j ebuf' s', free_slot_loop fuel i ebuf (20 * k) s = Done ((20 * j, ebuf'), s') /\
    only_device s s' (dbyte (fs_device s)) /\ zlen ebuf' = 20 /\ k <= j <= entry_cnt n /\
    (j < entry_cnt n -> in_use (entry (fs_device s) n j) = false) /\
    forall j', k <= j' < j -> in_use (entry (fs_device s) n j') = true.
Proof.
  induction fuel as [|fuel IH]; intros k ebuf s Hi Hwf Hm Hb Hk Hf He; [lia|]. cbn [free_slot_loop].
  destruct (read_entry s i n k Hi Hwf Hm Hb Hk) as (bs & s1 & Hr & Ho & Hlen & Hl20 & Hent).
  erewrite bind_done; [|exact Hr]. cbv zeta. rewrite Hlen.
  destruct (patch_front ebuf bs) as [Hpl Hpe]; [lia|].
  destruct (Z.ltb_spec k (entry_cnt n)) as [Hlt|Hge]; cbn [negb].
  2:{ exists k, (patch ebuf 0 bs), s1. split; [done|]. split; [done|]. split_and!; lia. }
  assert (zlen bs = 20) as E20 by (unfold sizeof_entry in Hlen; lia).
  rewrite (Hpe ltac:(lia)). rewrite Hent by done.
  destruct (in_use (entry (fs_device s) n k)) eqn:Eu; cbn [negb].
  2:{ exists k, bs, s1. split; [done|]. split; [done|]. split; [done|]. split; [lia|].
      split; [done|]. intros; lia. }
  pose proof (od_device _ _ _ Ho) as Hd. pose proof Hd as [Hsd _].
  replace (20 * k + sizeof_entry) with (20 * (k + 1)) by (unfold sizeof_entry; lia).
  destruct (IH (k + 1) bs s1) as (j & e' & s' & Hr' & Ho' & He' & Hj & Hfree & Hused); try lia.
  - by rewrite (od_inodes _ _ _ Ho).
  - by eapply wf_inode_same.
  - by rewrite (od_mem _ _ _ Ho).
  - pose proof (od_brk _ _ _ Ho). lia.
  - assert (forall j, k + 1 <= j < entry_cnt n -> entry (fs_device s1) n j = entry (fs_device s) n j) as Hsame.
    { intros j' Hj'. apply entry_same; [done|done|done|lia]. }
    exists j, e', s'. split; [done|]. split.
    { eapply only_device_ext; [by eapply only_device_trans|]. intros p Hp Hrp. by apply Hd. }
    split; [done|]. split; [lia|]. split.
    + intros Hjc. rewrite <- Hsame by lia. by apply Hfree.
    + intros j' Hj'. destruct (decide (j' = k)) as [->|]; [done|].
      rewrite <- Hsame by lia. apply Hused. lia.
Qed.

Lemma stored_slice b b' n a c bs t o : same_device b b' -> wf_inode b n ->
  (forall p, 0 <= p -> ready (aux b) (p / 512) -> dbyte b' p = stored bs 0 (base n + o) t (dbyte b) p) ->
  0 <= a -> a + c <= length_ (data n) -> (a + c <= o \/ o + t <= a) ->
  map (fbyte b' n) (seqZ a c) = map (fbyte b n) (seqZ a c).
Proof.
  intros Hs Hwf Hd Ha Hac Hdj. apply map_ext_in. intros k Hk%list_elem_of_In%elem_of_seqZ.
  pose proof (wi_start _ _ Hwf). unfold fbyte. rewrite Hd; [|unfold base; lia|].
  - unfold stored. assert ((base n + o <=? base n + k) && (base n + k <? base n + o + t) = false) as -> by lia.
    done.
  - replace ((base n + k) / 512) with (start (data n) + k / 512) by (unfold base; dlia).
    apply (wi_sectors _ _ Hwf); dlia.
Qed.

Lemma stored_same b b' n a c bs : same_device b b' -> wf_inode b n ->
  (forall p, 0 <= p -> ready (aux b) (p / 512) -> dbyte b' p = stored bs 0 (base n + a) c (dbyte b) p) ->
  0 <= a -> a + c <= length_ (data n) -> zlen bs = c ->
  map (fbyte b' n) (seqZ a c) = bs.
Proof.
  intros Hs Hwf Hd Ha Hac Hl. pose proof (wi_start _ _ Hwf).
  apply zlist_eq; [rewrite zlen_map_seqZ; unfold zlen in *; lia|].
  intros k Hk. rewrite zlen_map_seqZ in Hk by (unfold zlen in *; lia).
  rewrite zget_map_seqZ by lia. unfold fbyte. rewrite Hd; [|unfold base; lia|].
  - unfold stored.
    assert ((base n + a <=? base n + (a + k)) && (base n + (a + k) <? base n + a + c) = true) as -> by lia.
    replace (0 + (base n + (a + k) - (base n + a))) with k by lia.
    destruct (zget_Some bs k) as [v ->]; [lia|done].
  - replace ((base n + (a + k)) / 512) with (start (data n) + (a + k) / 512) by (unfold base; dlia).
    apply (wi_sectors _ _ Hwf); dlia.
Qed.

(** The device changes within the bytes of inode [n] only. *)
Definition within_inode s s' n : Prop := exists g, only_device s s' g /\
  forall p, ~ (base n <= p < base n + length_ (data n)) -> g p = dbyte (fs_device s) p.

Lemma within_read s s' n : only_device s s' (dbyte (fs_device s)) -> within_inode s s' n.
Proof. intros Ho. by exists (dbyte (fs_device s)). Qed.

Lemma within_trans s1 s2 s3 n : wf_inode (fs_device s1) n -> within_inode s1 s2 n -> within_inode s2 s3 n -> within_inode s1 s3 n.
Proof.
  intros Hwf (g1 & O1 & G1) (g2 & O2 & G2). pose proof (od_device _ _ _ O1) as [D1 B1].
  exists (fun p => if (base n <=? p) && (p <? base n + length_ (data n)) then g2 p else dbyte (fs_device s1) p).
  split.
  - eapply only_device_ext; [eapply only_device_trans; [exact O1|exact O2]|]. intros p Hp Hr.
    destruct ((base n <=? p) && (p <? base n + length_ (data n))) eqn:E; [done|].
    rewrite G2 by lia. rewrite B1 by done. apply G1. lia.
  - intros p Hp. by replace ((base n <=? p) && (p <? base n + length_ (data n))) with false by lia.
Qed.

(** Writing one entry at slot [j]; at the end of the directory it does not fit. *)
Lemma write_entry s d i n j e : dir_ready s d i n -> deny_write_cnt n = 0 ->
  is_u32 (inode_sector e) -> zlen (e_name e) = 15 -> 0 <= j <= entry_cnt n ->
  exists w s', inode_write_at i (entry_bytes e) sizeof_entry (20 * j) s = Done (w, s') /\
    dir_ready s' d i n /\ within_inode s s' n /\ (w =? sizeof_entry) = (j <? entry_cnt n) /\
    forall k, 0 <= k < entry_cnt n ->
      entry (fs_device s') n k = if k =? j then e else entry (fs_device s) n k.
Proof.
  intros Hd Hdw Hsec Hnm Hj. pose proof (dr_wf _ _ _ _ Hd) as Hwf.
  pose proof (wi_length _ _ Hwf). unfold entry_cnt in *.
  assert (zlen (entry_bytes e) = 20) as Hl.
  { unfold entry_bytes. rewrite !zlen_app, zlen_le_bytes, Hnm. done. }
  destruct (inode_write_at_spec s i n (entry_bytes e) sizeof_entry (20 * j)) as (s' & Hr & Ho);
    [apply Hd|done|apply Hd|apply Hd|apply Hd|lia|done|unfold sizeof_entry; dlia|unfold sizeof_entry; lia|].
  rewrite Hdw, Z.eqb_refl in Hr, Ho. pose proof (od_device _ _ _ Ho) as [Hsd Hb].
  eexists _, s'. split; [exact Hr|]. split; [by eapply dir_ready_only|].
  unfold transfer, sizeof_entry in *. split; [|split].
  - eexists. split; [exact Ho|]. intros p Hp. unfold stored.
    match goal with |- (if ?c then _ else _) = _ => destruct c eqn:E end; [exfalso; lia|done].
  - apply Bool.eq_true_iff_eq. rewrite Z.eqb_eq, Z.ltb_lt. split; intros; dlia.
  - intros k Hk. unfold entry. destruct (Z.eqb_spec k j) as [->|Hne].
    + rewrite (stored_same (fs_device s) (fs_device s') n (20 * j) 20 (entry_bytes e)).
      * by apply entry_roundtrip_lemma.
      * done.
      * done.
      * assert (Z.max 0 (Z.min 20 (length_ (data n) - 20 * j)) = 20) as E20 by dlia.
        rewrite E20 in Hb. exact Hb.
      * lia.
      * dlia.
      * done.
    + f_equal. eapply stored_slice; [done|done|exact Hb|lia|dlia|dlia].
Qed.

Lemma dir_add_run s d i n junk nm sec : dir_ready s d i n -> deny_write_cnt n = 0 ->
  valid_name nm -> is_u32 sec -> zlen junk = 20 ->
  exists r s', dir_add junk d nm sec s = Done (r, s') /\ dir_ready s' d i n /\ within_inode s s' n /\
    ((exists j, 0 <= j < entry_cnt n /\ matches nm (entry (fs_device s) n j) = true /\ r = false /\
        forall k, 0 <= k < entry_cnt n -> entry (fs_device s') n k = entry (fs_device s) n k) \/
     (forall j, 0 <= j < entry_cnt n -> matches nm (entry (fs_device s) n j) = false) /\
     ((exists j, 0 <= j < entry_cnt n /\ r = true /\
         in_use (entry (fs_device s) n j) = false /\
         (forall k, 0 <= k < j -> in_use (entry (fs_device s) n k) = true) /\
         matches nm (entry (fs_device s') n j) = true /\
         inode_sector (entry (fs_device s') n j) = sec /\
         forall k, 0 <= k < entry_cnt n -> k <> j -> entry (fs_device s') n k = entry (fs_device s) n k) \/
      ((forall j, 0 <= j < entry_cnt n -> in_use (entry (fs_device s) n j) = true) /\ r = false /\
         forall k, 0 <= k < entry_cnt n -> entry (fs_device s') n k = entry (fs_device s) n k))).
Proof.
  intros Hd Hdw Hnm Hsec Hjunk.
  destruct (lookup_spec s d i n nm Hd) as (r & s1 & Hr & Ho1 & Hcase).
  pose proof (od_device _ _ _ Ho1) as Hdev1. pose proof Hdev1 as [Hsd1 _].
  assert (forall k, 0 <= k < entry_cnt n -> entry (fs_device s1) n k = entry (fs_device s) n k) as Hs1.
  { intros k Hk. apply entry_same; [done|apply Hd|done|done]. }
  pose proof (dir_ready_only _ _ _ _ _ _ Hd Ho1) as Hd1.
  assert (0 <= entry_cnt n) by (pose proof (wi_length _ _ (dr_wf _ _ _ _ Hd)); unfold entry_cnt; dlia).
  unfold dir_add. pose proof (dr_nonnull _ _ _ _ Hd) as Hnn%Z.eqb_neq. rewrite Hnn.
  erewrite bind_done; [|done].
  rewrite bool_decide_eq_false_2 by apply Hnm.
  pose proof (vn_length _ Hnm). assert ((NAME_MAX <? zlen nm) = false) as -> by lia.
  cbn [orb]. erewrite bind_done; [|exact Hr].
  destruct r as [[e ofs]|].
  { destruct Hcase as (j & Hj & _ & -> & Hmt & _). exists false, s1. split; [done|]. split; [done|].
    split; [by apply within_read|].
    left. by exists j. }
  destruct (dr_dir _ _ _ _ Hd1) as [p Hp].
  erewrite bind_done; [|unfold get_dir, load; by rewrite Hp]. cbn [d_inode].
  erewrite bind_done; [|apply entries_fuel_spec; apply Hd1].
  destruct (free_slot_loop_spec i n (S (Z.to_nat (entry_cnt n))) 0 junk s1)
    as (j & eb & s2 & Hr2 & Ho2 & Hel & Hj & Hfree & Hused); [apply Hd1..|lia|lia|done|].
  change (20 * 0) with 0 in Hr2. erewrite bind_done; [|exact Hr2]. cbv zeta.
  pose proof (od_device _ _ _ Ho2) as Hdev2. pose proof Hdev2 as [Hsd2 _].
  pose proof (dir_ready_only _ _ _ _ _ _ Hd1 Ho2) as Hd2.
  assert (forall k, 0 <= k < entry_cnt n -> entry (fs_device s2) n k = entry (fs_device s) n k) as Hs2.
  { intros k Hk. rewrite <- Hs1 by done. apply entry_same; [done|apply Hd1|done|done]. }
  set (e' := mk_entry sec (copy_name (e_name (entry_of_bytes eb)) nm) true).
  destruct (copy_name_spec (e_name (entry_of_bytes eb)) nm Hnm) as [Hcs Hcl].
  { cbn [entry_of_bytes e_name]. unfold zlen in *. rewrite length_take, length_drop. lia. }
  destruct (write_entry s2 d i n j e' Hd2 Hdw Hsec Hcl ltac:(lia)) as (w & s3 & Hr3 & Hd3 & Hin3 & Hw & Hent).
  erewrite bind_done; [|exact Hr3]. rewrite Hw.
  exists (j <? entry_cnt n), s3. split; [done|]. split; [done|]. split.
  { eapply within_trans; [apply Hd|by apply within_read|]. eapply within_trans; [apply Hd1|by apply within_read|done]. }
  right. split; [done|].
  destruct (Z.ltb_spec j (entry_cnt n)) as [Hlt|Hge].
  - left. exists j. split; [lia|]. split; [done|].
    split; [rewrite <- Hs1 by lia; by apply Hfree|].
    split; [intros k Hk; rewrite <- Hs1 by lia; apply Hused; lia|].
    rewrite Hent, Z.eqb_refl by lia.
    split; [unfold matches, same_name; cbn [in_use e_name e']; rewrite Hcs; by rewrite bool_decide_eq_true_2|].
    split; [done|]. intros k Hk Hne. rewrite Hent by done.
    destruct (Z.eqb_spec k j); [done|]. by apply Hs2.
  - right. split; [intros k Hk; rewrite <- Hs1 by lia; apply Hused; lia|]. split; [done|].
    intros k Hk. rewrite Hent by done. destruct (Z.eqb_spec k j); [lia|]. by apply Hs2.
Qed.

(** [dir_add] refuses a name that is taken, and otherwise puts an entry with
    the name and the inode's sector in the first free slot, leaves all other
    entries as they were and returns true; with every slot in use it returns
    false and changes no entry.  (Directories do not grow.) *)
Theorem dir_add_correct s d i n junk nm sec : dir_ready s d i n -> deny_write_cnt n = 0 ->
  valid_name nm -> is_u32 sec -> zlen junk = 20 ->
  exists r s', dir_add junk d nm sec s = Done (r, s') /\ dir_ready s' d i n /\
    ((exists j, 0 <= j < entry_cnt n /\ matches nm (entry (fs_device s) n j) = true /\ r = false /\
        forall k, 0 <= k < entry_cnt n -> entry (fs_device s') n k = entry (fs_device s) n k) \/
     (forall j, 0 <= j < entry_cnt n -> matches nm (entry (fs_device s) n j) = false) /\
     ((exists j, 0 <= j < entry_cnt n /\ r = true /\
         in_use (entry (fs_device s) n j) = false /\
         (forall k, 0 <= k < j -> in_use (entry (fs_device s) n k) = true) /\
         matches nm (entry (fs_device s') n j) = true /\
         inode_sector (entry (fs_device s') n j) = sec /\
         forall k, 0 <= k < entry_cnt n -> k <> j -> entry (fs_device s') n k = entry (fs_device s) n k) \/
      ((forall j, 0 <= j < entry_cnt n -> in_use (entry (fs_device s) n j) = true) /\ r = false /\
         forall k, 0 <= k < entry_cnt n -> entry (fs_device s') n k = entry (fs_device s) n k))).
Proof.
  intros Hd Hdw Hnm Hsec Hjunk. destruct (dir_add_run s d i n junk nm sec Hd Hdw Hnm Hsec Hjunk) as (r & s' & Hr & Hd' & _ & Hcase).
  exists r, s'. split; [done|]. split; [done|]. exact Hcase.
Qed.

(** [lookup] returns the first entry in use under the name and its offset, or
    fails when no entry of the directory is; it changes nothing. *)
Theorem lookup_correct s d i n nm : dir_ready s d i n ->
  exists r s', lookup d nm s = Done (r, s') /\ only_device s s' (dbyte (fs_device s)) /\
    match r with
    | Some (e, ofs) => exists j, 0 <= j < entry_cnt n /\ ofs = 20 * j /\
        e = entry (fs_device s) n j /\ matches nm e = true /\
        forall j', 0 <= j' < j -> matches nm (entry (fs_device s) n j') = false
    | None => forall j, 0 <= j < entry_cnt n -> matches nm (entry (fs_device s) n j) = false
    end.
Proof. apply lookup_spec. Qed.
End Directory.
