(* ===== verification/FsDemo.v ===== *)
(** * A formatted file system on a small disk

    The concrete inputs of the theorems on the file system: a 64-sector disk in
    memory, formatted, with one file of 600 bytes and the root directory open.
    Everything here evaluates. *)

From S2P Require Import Prelude Vaddr KList Bitmap Block FileSys FileSpec DirSpec.

Definition blank_fs : fs ramdisk :=
  mk_fs (mk_block [] BLOCK_FILESYS 64 ∅ 0 0) (mk_bitmap 0 []) 0 [] ∅ ∅ ∅ [] 1.

(** The file is named "ab". *)
Definition demo_setup : M (fs ramdisk) Z :=
  filesys_init true ;;
  _ ← filesys_create (replicate 20 0) [97; 98] 600;
  _ ← filesys_open [97; 98];
  dir_open_root.

Definition demo_fs : fs ramdisk :=
  match demo_setup blank_fs with Done (_, s) => s | _ => blank_fs end.

Definition demo_file : inode := mk_inode 4 1 false 0 (mk_disk 5 600 INODE_MAGIC).
Definition demo_map_file : inode := mk_inode 0 1 false 0 (mk_disk 2 8 INODE_MAGIC).
Definition demo_root : inode := mk_inode 1 1 false 0 (mk_disk 3 320 INODE_MAGIC).

Lemma demo_size : size (fs_device demo_fs) = 64.
Proof. by vm_compute. Qed.

Lemma demo_wf_inode n : 0 <= length_ (data n) < 30000 -> 0 <= start (data n) ->
  start (data n) + length_ (data n) / 512 + 1 < 64 -> wf_inode (fs_device demo_fs) n.
Proof.
  intros H1 H2 H3. split; [lia|lia|]. intros j Hj Hjl. split; [|done]. rewrite demo_size. dlia.
Qed.

Lemma inode_read_at_correct_witness :
  exists s', inode_read_at 38 5 510 demo_fs =
      Done (map (fbyte (fs_device demo_fs) demo_file) (seqZ 510 (transfer demo_file 5 510)), s') /\
    only_device demo_fs s' (dbyte (fs_device demo_fs)).
Proof.
  apply (inode_read_at_correct demo_fs 38 demo_file 5 510).
  - vm_compute. reflexivity.
  - apply demo_wf_inode; vm_compute; intuition congruence.
  - vm_compute. reflexivity.
  - vm_compute. reflexivity.
  - lia.
  - lia.
  - lia.
Defined.

Lemma inode_write_at_correct_witness :
  exists s', inode_write_at 38 [1; 2; 3; 4; 5] 5 510 demo_fs =
      Done (if deny_write_cnt demo_file =? 0 then transfer demo_file 5 510 else 0, s') /\
    only_device demo_fs s' (if deny_write_cnt demo_file =? 0
      then stored [1; 2; 3; 4; 5] 0 (base demo_file + 510) (transfer demo_file 5 510) (dbyte (fs_device demo_fs))
      else dbyte (fs_device demo_fs)).
Proof.
  apply (inode_write_at_correct demo_fs 38 demo_file [1; 2; 3; 4; 5] 5 510).
  - vm_compute. reflexivity.
  - apply demo_wf_inode; vm_compute; intuition congruence.
  - vm_compute. discriminate.
  - vm_compute. reflexivity.
  - vm_compute. reflexivity.
  - lia.
  - lia.
  - lia.
  - vm_compute. discriminate.
Defined.

Lemma demo_map_wf : wf (free_map demo_fs).
Proof. split; [vm_compute; split; congruence|vm_compute; reflexivity]. Qed.

Lemma demo_map_file_ok : map_file demo_fs demo_map_file.
Proof.
  exists (mk_file 9 0 false).
  split; [vm_compute; reflexivity|]. split; [vm_compute; reflexivity|].
  split; [apply demo_wf_inode; vm_compute; intuition congruence|]. split; [reflexivity|].
  vm_compute. congruence.
Qed.

Lemma demo_map_ready : map_ready demo_fs.
Proof.
  split.
  - exact demo_map_wf.
  - vm_compute. discriminate.
  - vm_compute. reflexivity.
  - vm_compute. reflexivity.
  - right. split; [vm_compute; discriminate|]. exists demo_map_file. exact demo_map_file_ok.
Qed.

Lemma free_map_allocate_correct_witness :
  exists r s', free_map_allocate 3 demo_fs = Done (r, s') /\
    wf (free_map s') /\ bit_cnt (free_map s') = bit_cnt (free_map demo_fs) /\
    match r with
    | Some sec => 0 <= sec /\ group (free_map demo_fs) sec 3 false /\
        (forall k, 0 <= k < sec -> ~ group (free_map demo_fs) k 3 false) /\
        (forall j, 0 <= j -> bit (free_map s') j = if in_range sec 3 j then true else bit (free_map demo_fs) j) /\
        (forall n, free_map_file demo_fs <> NULL -> map_file demo_fs n -> map_on_disk s' n)
    | None => free_map s' = free_map demo_fs /\ forall k, 0 <= k -> ~ group (free_map demo_fs) k 3 false
    end.
Proof. apply (free_map_allocate_correct demo_fs 3 demo_map_ready). lia. Defined.

Lemma free_map_release_correct_witness :
  if bool_decide (Forall (fun j => bit (free_map demo_fs) j = true) (seqZ 5 2))
  then exists s', free_map_release 5 2 demo_fs = Done (tt, s') /\
    wf (free_map s') /\ bit_cnt (free_map s') = bit_cnt (free_map demo_fs) /\
    (forall j, 0 <= j -> bit (free_map s') j = if in_range 5 2 j then false else bit (free_map demo_fs) j) /\
    map_on_disk s' demo_map_file
  else free_map_release 5 2 demo_fs = Panic.
Proof.
  apply (free_map_release_correct demo_fs 5 2 demo_map_file demo_map_ready).
  - vm_compute. discriminate.
  - exact demo_map_file_ok.
  - lia.
  - lia.
  - vm_compute. discriminate.
Defined.

Lemma demo_dir_ready : dir_ready demo_fs 41 40 demo_root.
Proof.
  split.
  - done.
  - exists 0. vm_compute. reflexivity.
  - vm_compute. reflexivity.
  - apply demo_wf_inode; vm_compute; intuition congruence.
  - vm_compute. discriminate.
  - vm_compute. reflexivity.
  - vm_compute. reflexivity.
Qed.

Lemma entry_roundtrip_witness :
  entry_of_bytes (entry_bytes (mk_entry 4 ([97; 98] ++ replicate 13 0) true)) =
    mk_entry 4 ([97; 98] ++ replicate 13 0) true.
Proof. apply (entry_roundtrip (mk_entry 4 ([97; 98] ++ replicate 13 0) true)); [unfold is_u32; simpl; lia|reflexivity]. Defined.

Lemma disk_inode_roundtrip_witness :
  disk_of_bytes (disk_bytes (mk_disk 5 600 INODE_MAGIC)) = mk_disk 5 600 INODE_MAGIC /\
  zlen (disk_bytes (mk_disk 5 600 INODE_MAGIC)) = 512.
Proof.
  apply (disk_inode_roundtrip (mk_disk 5 600 INODE_MAGIC)); unfold is_u32, INODE_MAGIC; simpl; lia.
Defined.

Lemma lookup_correct_witness :
  exists r s', lookup 41 [97; 98] demo_fs = Done (r, s') /\
    only_device demo_fs s' (dbyte (fs_device demo_fs)) /\
    match r with
    | Some (e, ofs) => exists j, 0 <= j < entry_cnt demo_root /\ ofs = 20 * j /\
        e = entry (fs_device demo_fs) demo_root j /\ matches [97; 98] e = true /\
        forall j', 0 <= j' < j -> matches [97; 98] (entry (fs_device demo_fs) demo_root j') = false
    | None => forall j, 0 <= j < entry_cnt demo_root ->
        matches [97; 98] (entry (fs_device demo_fs) demo_root j) = false
    end.
Proof. apply (lookup_correct demo_fs 41 40 demo_root [97; 98] demo_dir_ready). Defined.

Lemma dir_add_correct_witness :
  exists r s', dir_add (replicate 20 7) 41 [99] 9 demo_fs = Done (r, s') /\ dir_ready s' 41 40 demo_root /\
    ((exists j, 0 <= j < entry_cnt demo_root /\ matches [99] (entry (fs_device demo_fs) demo_root j) = true /\ r = false /\
        forall k, 0 <= k < entry_cnt demo_root ->
          entry (fs_device s') demo_root k = entry (fs_device demo_fs) demo_root k) \/
     (forall j, 0 <= j < entry_cnt demo_root -> matches [99] (entry (fs_device demo_fs) demo_root j) = false) /\
     ((exists j, 0 <= j < entry_cnt demo_root /\ r = true /\
         in_use (entry (fs_device demo_fs) demo_root j) = false /\
         (forall k, 0 <= k < j -> in_use (entry (fs_device demo_fs) demo_root k) = true) /\
         matches [99] (entry (fs_device s') demo_root j) = true /\
         inode_sector (entry (fs_device s') demo_root j) = 9 /\
         forall k, 0 <= k < entry_cnt demo_root -> k <> j ->
           entry (fs_device s') demo_root k = entry (fs_device demo_fs) demo_root k) \/
      ((forall j, 0 <= j < entry_cnt demo_root -> in_use (entry (fs_device demo_fs) demo_root j) = true) /\ r = false /\
         forall k, 0 <= k < entry_cnt demo_root ->
           entry (fs_device s') demo_root k = entry (fs_device demo_fs) demo_root k))).
Proof.
  apply (dir_add_correct demo_fs 41 40 demo_root (replicate 20 7) [99] 9 demo_dir_ready).
  - reflexivity.
  - split; [done|vm_compute; discriminate|repeat constructor; lia].
  - unfold is_u32. lia.
  - reflexivity.
Defined.

(** Creating a file whose name does not fit a directory entry fails after
    [inode_create] has allocated its data; only the inode's sector is released:
    the two data sectors 8 and 9 stay marked in the free map. *)
Lemma create_failure_leaks :
  match filesys_create (replicate 20 0) (replicate 15 97) 600 demo_fs with
  | Done (r, s) => r = false /\ bit (free_map demo_fs) 8 = false /\ bit (free_map s) 7 = false /\
      bit (free_map s) 8 = true /\ bit (free_map s) 9 = true
  | _ => False
  end.
Proof. vm_compute. repeat split. Qed.
