(* ===== verification/FsSync.v ===== *)
(** * A bitmap and the bytes that store it

    [synced]: the bytes of a file hold the bits of a map.  Writing a map makes
    them so, and [bitmap_read] of such bytes gives a map with the same bits. *)

From S2P Require Import Prelude Vaddr Bitmap Block FileSpec.

(** Bit [i] is bit [i mod 8] of byte [i / 8]. *)
Definition synced (g : Z -> Z) (m : bitmap) : Prop :=
  (forall k, 0 <= k < byte_cnt (bit_cnt m) -> 0 <= g k < 256) /\
  forall i, 0 <= i < bit_cnt m -> Z.testbit (g (i / 8)) (i mod 8) = bit m i.

Section Sync.
Implicit Types (m : bitmap) (g : Z -> Z) (ws bs : list Z).

Lemma byte_of_bit m i : wf m -> 0 <= i < bit_cnt m -> 0 <= i / 8 < byte_cnt (bit_cnt m).
Proof. intros Hw Hi. rewrite (byte_cnt_eq m Hw), (wf_len m Hw), elem_cnt_eq by apply Hw. dlia. Qed.

Lemma synced_ext g g' m : wf m -> (forall k, 0 <= k < byte_cnt (bit_cnt m) -> g' k = g k) -> synced g m -> synced g' m.
Proof.
  intros Hw E [H1 H2]. split; [intros k Hk; rewrite E by done; by apply H1|].
  intros i Hi. rewrite E by by apply byte_of_bit. by apply H2.
Qed.

Lemma zget_later x (l : list Z) i : 0 < i -> zget (x :: l) i = zget l (i - 1).
Proof.
  intros Hi. unfold zget. rewrite !decide_True by lia. by replace (Z.to_nat i) with (S (Z.to_nat (i - 1))) by lia.
Qed.

(** Byte [r] of a word. *)
Lemma word_bytes_get w r : 0 <= r < 4 -> zget (word_bytes w) r = Some ((w / 2 ^ (8 * r)) mod 256).
Proof.
  intros Hr. assert (r = 0 \/ r = 1 \/ r = 2 \/ r = 3) as [->|[->|[->| ->]]] by lia; unfold word_bytes, zget; try done.
  cbn. by rewrite Z.div_1_r.
Qed.

Lemma elems_bytes_get : forall ws k, 0 <= k < 4 * zlen ws ->
  zget (elems_bytes ws) k = Some ((default 0 (zget ws (k / 4)) / 2 ^ (8 * (k mod 4))) mod 256).
Proof.
  induction ws as [|w ws IH]; intros k Hk; [unfold zlen in Hk; cbn in Hk; lia|].
  change (elems_bytes (w :: ws)) with (word_bytes w ++ elems_bytes ws). assert (zlen (word_bytes w) = 4) as E4 by done.
  assert (zlen (w :: ws) = zlen ws + 1) as El by (unfold zlen; cbn [length]; lia).
  destruct (decide (k < 4)) as [Hlt|Hge].
  - rewrite zget_app_l, word_bytes_get by lia. by rewrite (Z.div_small k 4), (Z.mod_small k 4) by lia.
  - rewrite zget_app_r, E4, IH by lia. replace ((k - 4) mod 4) with (k mod 4) by dlia. do 4 f_equal.
    rewrite zget_later by dlia. f_equal. dlia.
Qed.

Lemma byte_testbit w r j : 0 <= r -> 0 <= j < 8 -> Z.testbit ((w / 2 ^ (8 * r)) mod 256) j = Z.testbit w (8 * r + j).
Proof.
  intros Hr Hj. change 256 with (2 ^ 8). rewrite Z.mod_pow2_bits_low by lia. rewrite Z.div_pow2_bits by lia. f_equal. lia.
Qed.

Lemma elems_synced m : wf m -> synced (fun k => default 0 (zget (elems_bytes (bits m)) k)) m.
Proof.
  intros Hw. pose proof (byte_cnt_eq m Hw) as Hb. split.
  - intros k Hk. rewrite elems_bytes_get by lia. cbn. apply Z.mod_pos_bound. lia.
  - intros i Hi. pose proof (byte_of_bit m i Hw Hi). rewrite elems_bytes_get by lia. cbn [default id].
    rewrite byte_testbit by dlia. unfold bit. replace (i / 8 / 4) with (i / 32) by dlia.
    replace (8 * ((i / 8) mod 4) + i mod 8) with (i mod 32) by dlia. by destruct (elem_in m i Hw Hi) as [w ->].
Qed.

(** ** Reading *)

Lemma bytes_elems_len : forall n bs, length bs = (4 * n)%nat -> length (bytes_elems bs) = n.
Proof.
  induction n as [|n IH]; intros bs Hl; [by destruct bs|].
  do 4 (destruct bs as [|? bs]; [cbn in Hl; lia|]). cbn [bytes_elems length]. rewrite IH; [done|]. cbn in Hl. lia.
Qed.

Lemma bytes_elems_get : forall n bs j, length bs = (4 * n)%nat -> 0 <= j < Z.of_nat n ->
  zget (bytes_elems bs) j = Some (le32 bs (4 * j)).
Proof.
  induction n as [|n IH]; intros bs j Hl Hj; [lia|].
  do 4 (destruct bs as [|? bs]; [cbn in Hl; lia|]). cbn [bytes_elems].
  destruct (decide (j = 0)) as [->|Hne]; [done|].
  rewrite zget_later, (IH bs) by (cbn in Hl; lia). f_equal. unfold le32. rewrite !zget_later by lia.
  do 4 f_equal; do 3 f_equal; f_equal; lia.
Qed.

Lemma le32_testbit bs k r : (forall i, 0 <= i < 4 -> 0 <= default 0 (zget bs (k + i)) < 256) -> 0 <= r < 32 ->
  Z.testbit (le32 bs k) r = Z.testbit (default 0 (zget bs (k + r / 8))) (r mod 8).
Proof.
  intros Hb Hr. pose proof (Hb 0 ltac:(lia)) as B0. pose proof (Hb 1 ltac:(lia)) as B1. pose proof (Hb 2 ltac:(lia)) as B2. pose proof (Hb 3 ltac:(lia)) as B3.
  rewrite Z.add_0_r in B0. set (q := r / 8). assert (0 <= q < 4) as Hq by (unfold q; dlia).
  replace r with (8 * q + r mod 8) at 1 by (unfold q; dlia). rewrite <- byte_testbit by dlia. f_equal.
  unfold le32. rewrite Z.add_0_r. set (b0 := default 0 (zget bs k)) in *. set (b1 := default 0 (zget bs (k + 1))) in *.
  set (b2 := default 0 (zget bs (k + 2))) in *. set (b3 := default 0 (zget bs (k + 3))) in *.
  change (2 ^ 8) with 256. change (2 ^ 16) with 65536. change (2 ^ 24) with 16777216.
  assert (q = 0 \/ q = 1 \/ q = 2 \/ q = 3) as [-> |[-> |[-> | ->]]] by lia.
  - rewrite Z.add_0_r. fold b0. change (2 ^ (8 * 0)) with 1. dlia.
  - fold b1. change (2 ^ (8 * 1)) with 256. dlia.
  - fold b2. change (2 ^ (8 * 2)) with 65536. dlia.
  - fold b3. change (2 ^ (8 * 3)) with 16777216. dlia.
Qed.

(** [bitmap_read] of as many bytes as it asks for. *)
Lemma bitmap_read_run m bs : wf m -> 0 < bit_cnt m -> zlen bs = byte_cnt (bit_cnt m) ->
  (forall k, 0 <= k < zlen bs -> 0 <= default 0 (zget bs k) < 256) ->
  exists m', bitmap_read (fun _ => bs) m = Done (true, m') /\ wf m' /\ bit_cnt m' = bit_cnt m /\
    synced (fun k => default 0 (zget bs k)) m'.
Proof.
  intros Hw Hpos Hl Hb. pose proof (byte_cnt_eq m Hw) as Hbc. pose proof (wf_len m Hw) as Hwl.
  assert (length bs = (4 * length (bits m))%nat) as Hlen by (unfold zlen in *; lia).
  assert (fill_elems (bits m) bs = bytes_elems bs) as Hfill.
  { unfold fill_elems. rewrite drop_ge; [by rewrite app_nil_r|]. rewrite length_elems_bytes. lia. }
  set (m1 := mk_bitmap (bit_cnt m) (bytes_elems bs)).
  assert (wf m1) as Hw1.
  { split; [apply Hw|]. cbn [bits bit_cnt m1]. unfold zlen in *. by rewrite (bytes_elems_len (length (bits m))). }
  destruct (mask_last_spec m1 Hw1 Hpos) as (m' & Hr & Hw' & Hc' & Hb').
  exists m'. split; [|split; [done|split; [done|split]]].
  - unfold bitmap_read. erewrite bind_done by done. rewrite (proj2 (Z.ltb_lt _ _) Hpos). cbv zeta. rewrite Hl, Z.eqb_refl.
    erewrite bind_done by done. rewrite Hfill. fold m1. erewrite bind_done by done. by erewrite bind_done by exact Hr.
  - intros k Hk. apply Hb. rewrite Hl. by rewrite Hc' in Hk.
  - rewrite Hc'. intros i Hi. change (bit_cnt m1) with (bit_cnt m) in Hi. rewrite Hb' by (change (bit_cnt m1) with (bit_cnt m); done). unfold bit, m1. cbn [bits bit_cnt] in *.
    assert (0 <= i / 32 < Z.of_nat (length (bits m))) as Hj.
    { rewrite elem_cnt_eq in Hwl by apply Hw. unfold zlen in Hwl. dlia. }
    rewrite (bytes_elems_get (length (bits m))) by (done || lia). rewrite le32_testbit; [|intros k Hk; apply Hb; unfold zlen; lia|dlia].
    replace (4 * (i / 32) + i mod 32 / 8) with (i / 8) by dlia. by replace ((i mod 32) mod 8) with (i mod 8) by dlia.
Qed.
End Sync.
