(* ===== verification/FsLayout.v ===== *)
(** * The layout of the file system on its device

    Which sectors belong to which inode ([layout]), and the steps that change the
    device only in given sectors ([fs_step]): reading and writing a file, changing
    the free map, creating an inode. *)

From S2P Require Import Prelude Vaddr KList Bitmap Block FileSys FileSpec DirSpec FsSync.

Section Layout.
Context {dev : Type} `{BlockDriver dev}.
Implicit Types (b : block dev) (s : fs dev) (n : inode) (d : inode_disk) (L : gmap Z inode_disk) (W : Z -> Prop).

(** ** Sectors as bytes *)

Definition sec_bytes b t : list Z := map (fun k => dbyte b (512 * t + k)) (seqZ 0 512).
Definition disk_at b t : inode_disk := disk_of_bytes (sec_bytes b t).

Lemma sector_bytes b t : readable b t -> contents (aux b) t = sec_bytes b t.
Proof.
  intros Hr. pose proof (sector_512 _ _ Hr) as Hl. apply zlist_eq; [unfold sec_bytes; by rewrite zlen_map_seqZ|].
  intros k Hk. rewrite Hl in Hk. unfold sec_bytes. rewrite zget_map_seqZ by done. unfold dbyte.
  replace ((512 * t + (0 + k)) / 512) with t by dlia. replace ((512 * t + (0 + k)) mod 512) with k by dlia.
  destruct (zget_Some (contents (aux b) t) k) as [v ->]; [lia|done].
Qed.

(** The same device, with the same bytes outside the sectors [W]. *)
Definition agrees b b' W : Prop :=
  same_device b b' /\ forall p, 0 <= p -> ready (aux b) (p / 512) -> ~ W (p / 512) -> dbyte b' p = dbyte b p.

Lemma agrees_refl b W : agrees b b W.
Proof. by split. Qed.

Lemma agrees_trans b1 b2 b3 W : agrees b1 b2 W -> agrees b2 b3 W -> agrees b1 b3 W.
Proof.
  intros [S1 A1] [S2 A2]. split; [by eapply same_device_trans|]. intros p Hp Hr Hw.
  rewrite A2, A1; try done. by apply (sd_ready _ _ S1).
Qed.

Lemma agrees_weaken b b' W W' : agrees b b' W -> (forall t, W t -> W' t) -> agrees b b' W'.
Proof. intros [S1 A1] Hw. split; [done|]. intros p Hp Hr Hn. apply A1; auto. Qed.

Lemma agrees_sector b b' W t : agrees b b' W -> readable b t -> ~ W t -> sec_bytes b' t = sec_bytes b t.
Proof.
  intros [_ Ha] [Ht Hr] Hw. unfold sec_bytes. apply map_ext_in. intros k Hk%list_elem_of_In%elem_of_seqZ.
  assert ((512 * t + k) / 512 = t) as E by dlia. apply Ha; [lia|by rewrite E..].
Qed.

(** ** Steps that keep the objects in memory *)

Record fs_step W s s' : Prop := {
  st_dev : agrees (fs_device s) (fs_device s') W;
  st_file : free_map_file s' = free_map_file s;
  st_open : open_inodes s' = open_inodes s;
  st_inodes : inodes s' = inodes s;
  st_files : files s' = files s;
  st_dirs : dirs s' = dirs s;
  st_mem : mem s' = mem s;
  st_brk : brk s <= brk s'
}.

Lemma fs_step_refl W s : fs_step W s s.
Proof. by split. Qed.

Lemma fs_step_trans W s1 s2 s3 : fs_step W s1 s2 -> fs_step W s2 s3 -> fs_step W s1 s3.
Proof.
  intros [] []. split; try congruence; try lia. by eapply agrees_trans.
Qed.

Lemma fs_step_weaken W W' s s' : fs_step W s s' -> (forall t, W t -> W' t) -> fs_step W' s s'.
Proof. intros [] Hw. split; try done. by eapply agrees_weaken. Qed.

Lemma only_device_step s s' g W : only_device s s' g ->
  (forall p, 0 <= p -> ~ W (p / 512) -> g p = dbyte (fs_device s) p) -> fs_step W s s' /\ free_map s' = free_map s.
Proof.
  intros [[Hs Hb] ? ? ? ? ? ? ? ?] Hg. split; [|done]. split; try done. split; [done|].
  intros p Hp Hr Hw. rewrite Hb by done. by apply Hg.
Qed.

(** ** Layouts *)

(** The number of data sectors. *)
Definition sectors d : Z := (length_ d + 511) / 512.

Definition data_sector d (t : Z) : Prop := start d <= t < start d + sectors d.

(** Sector [t] belongs to the inode of sector [sec]. *)
Definition owns (sec : Z) d (t : Z) : Prop := t = sec \/ data_sector d t.

Record disk_ok (cnt : Z) (sec : Z) d : Prop := {
  dk_length : 0 <= length_ d < 2 ^ 31 - 512;
  dk_start : 0 <= start d /\ start d + sectors d <= cnt;
  dk_sec : 0 <= sec < cnt;
  dk_own : ~ data_sector d sec
}.

Record layout L b (fm : bitmap) : Prop := {
  ly_ok : forall sec d, L !! sec = Some d -> disk_ok (bit_cnt fm) sec d;
  ly_disk : forall sec d, L !! sec = Some d -> disk_at b sec = d;
  ly_used : forall sec d t, L !! sec = Some d -> owns sec d t -> bit fm t = true;
  ly_apart : forall sec sec' d d' t, L !! sec = Some d -> L !! sec' = Some d' -> sec <> sec' ->
    owns sec d t -> owns sec' d' t -> False
}.

(** The device of a file system: all sectors that the free map has. *)
Record device_ok b (fm : bitmap) : Prop := {
  dv_type : type b <> BLOCK_FOREIGN;
  dv_size : size b = bit_cnt fm;
  dv_ready : forall t, 0 <= t < size b -> ready (aux b) t;
  dv_map : wf fm
}.

Lemma device_readable b fm t : device_ok b fm -> 0 <= t < bit_cnt fm -> readable b t.
Proof. intros [_ Hs Hr _] Ht. split; [by rewrite Hs|]. apply Hr. by rewrite Hs. Qed.

Lemma device_ok_step b b' fm fm' W : device_ok b fm -> agrees b b' W -> wf fm' -> bit_cnt fm' = bit_cnt fm -> device_ok b' fm'.
Proof.
  intros [H1 H2 H3 H4] [[T S R] _] Hwf Hc. split; [congruence|congruence| |done]. intros t Ht. rewrite S in Ht. by apply R, H3.
Qed.

Lemma bytes_to_sectors_eq d : 0 <= length_ d < 2 ^ 31 - 512 -> bytes_to_sectors (length_ d) = sectors d.
Proof.
  intros Hl. unfold bytes_to_sectors, sectors. rewrite s32_small by lia. rewrite Z.quot_div_nonneg by lia.
  rewrite u32_small by dlia. f_equal. lia.
Qed.

Lemma owned_range L b fm sec d t : layout L b fm -> L !! sec = Some d -> owns sec d t -> 0 <= t < bit_cnt fm.
Proof. intros Hl Hd Ho. destruct (ly_ok _ _ _ Hl _ _ Hd) as [_ ? ? _]. destruct Ho as [->|[? ?]]; lia. Qed.

Lemma layout_wf_inode L b fm n : layout L b fm -> device_ok b fm -> L !! sector n = Some (data n) -> wf_inode b n.
Proof.
  intros Hl Hv Hd. destruct (ly_ok _ _ _ Hl _ _ Hd) as [H1 H2 H3 _]. pose proof (wf_cnt _ (dv_map _ _ Hv)).
  unfold sectors in *. split; [done|split; [lia|dlia]|]. intros j Hj Hjl. apply (device_readable _ fm); [done|]. dlia.
Qed.

(** A step that writes no inode sector and keeps the bits of all owned sectors. *)
Lemma layout_step L b b' fm fm' W : layout L b fm -> device_ok b fm -> agrees b b' W -> bit_cnt fm' = bit_cnt fm ->
  (forall sec d, L !! sec = Some d -> ~ W sec) ->
  (forall sec d t, L !! sec = Some d -> owns sec d t -> bit fm' t = true) -> layout L b' fm'.
Proof.
  intros [H1 H2 H3 H4] Hv Ha Hc Hw Hb. split; try done.
  - intros sec d Hd. rewrite Hc. by apply H1.
  - intros sec d Hd. unfold disk_at. rewrite (agrees_sector b b' W).
    + by apply H2.
    + done.
    + apply (device_readable _ fm); [done|]. by apply (dk_sec _ _ _ (H1 _ _ Hd)).
    + by eapply Hw.
Qed.

Lemma layout_insert L b fm sec d : layout L b fm -> disk_ok (bit_cnt fm) sec d -> disk_at b sec = d ->
  (forall t, owns sec d t -> bit fm t = true) ->
  (forall sec' d' t, L !! sec' = Some d' -> owns sec' d' t -> ~ owns sec d t) -> layout (<[sec := d]> L) b fm.
Proof.
  intros [H1 H2 H3 H4] Hok Hd Hb Ha. split.
  - intros sec' d' [[<- <-]|[_ E]]%lookup_insert_Some; [done|by apply H1].
  - intros sec' d' [[<- <-]|[_ E]]%lookup_insert_Some; [done|by apply H2].
  - intros sec' d' t [[<- <-]|[_ E]]%lookup_insert_Some; [apply Hb|by eapply H3].
  - intros s1 s2 d1 d2 t [[<- <-]|[? E1]]%lookup_insert_Some [[<- <-]|[? E2]]%lookup_insert_Some Hne O1 O2.
    + done.
    + exact (Ha _ _ _ E2 O2 O1).
    + exact (Ha _ _ _ E1 O1 O2).
    + by eapply (H4 s1 s2).
Qed.

Lemma layout_delete L b fm fm' sec : layout L b fm -> bit_cnt fm' = bit_cnt fm ->
  (forall sec' d' t, sec' <> sec -> L !! sec' = Some d' -> owns sec' d' t -> bit fm' t = true) -> layout (delete sec L) b fm'.
Proof.
  intros [H1 H2 H3 H4] Hc Hb. split.
  - intros sec' d' [_ E]%lookup_delete_Some. rewrite Hc. by apply H1.
  - intros sec' d' [_ E]%lookup_delete_Some. by apply H2.
  - intros sec' d' t [? E]%lookup_delete_Some. by apply Hb.
  - intros s1 s2 d1 d2 t [_ E1]%lookup_delete_Some [_ E2]%lookup_delete_Some. by apply H4.
Qed.

(** ** Contents *)

Definition fcontent b d : list Z := map (fun k => dbyte b (512 * start d + k)) (seqZ 0 (length_ d)).

Lemma data_byte L b fm sec d k : layout L b fm -> device_ok b fm -> L !! sec = Some d -> 0 <= k < length_ d ->
  0 <= 512 * start d + k /\ ready (aux b) ((512 * start d + k) / 512) /\ data_sector d ((512 * start d + k) / 512).
Proof.
  intros Hl Hv Hd Hk. destruct (ly_ok _ _ _ Hl _ _ Hd) as [H1 H2 _ _]. unfold data_sector, sectors in *.
  assert ((512 * start d + k) / 512 = start d + k / 512) as -> by dlia.
  split; [lia|]. assert (start d <= start d + k / 512 < start d + (length_ d + 511) / 512) as Hr by dlia.
  split; [|done]. apply (device_readable _ fm); [done|lia].
Qed.

Lemma content_step L b b' fm W sec d : layout L b fm -> device_ok b fm -> agrees b b' W -> L !! sec = Some d ->
  (forall t, data_sector d t -> ~ W t) -> fcontent b' d = fcontent b d.
Proof.
  intros Hl Hv [_ Ha] Hd Hw. unfold fcontent. apply map_ext_in. intros k Hk%list_elem_of_In%elem_of_seqZ.
  destruct (data_byte L b fm sec d k) as (? & ? & ?); [done..|lia|]. apply Ha; [done|done|by apply Hw].
Qed.
End Layout.

(** ** Steps of the file system on its device

    What changing the free map and creating an inode do to the device and to the
    free map, as [fs_step]s. *)

Section Steps.
Context {dev : Type} `{BlockDriver dev}.
Implicit Types (b : block dev) (s : fs dev) (n : inode) (d : inode_disk) (L : gmap Z inode_disk) (W : Z -> Prop).

(** A state in which allocations succeed, with its device. *)
Record fs_ready s : Prop := {
  rd_mem : mem s = [];
  rd_brk : 0 < brk s;
  rd_device : device_ok (fs_device s) (free_map s)
}.

Lemma ready_step W s s' : fs_ready s -> fs_step W s s' -> wf (free_map s') -> bit_cnt (free_map s') = bit_cnt (free_map s) -> fs_ready s'.
Proof.
  intros [H1 H2 H3] [] Hwf Hc. split; [congruence|lia|]. by eapply device_ok_step.
Qed.

Lemma ready_only s s' g : fs_ready s -> only_device s s' g -> fs_ready s'.
Proof.
  intros Hr Ho. assert (fs_step (fun _ => True) s s' /\ free_map s' = free_map s) as [Hs E].
  { eapply only_device_step; [exact Ho|]. intros p _ []. done. }
  eapply ready_step; [exact Hr|exact Hs|rewrite E; apply Hr|by rewrite E].
Qed.

(** ** The free map *)

(** The free map's file is open on inode 0 and holds the bits of the map. *)
Definition map_synced s n : Prop := synced (fbyte (fs_device s) n) (free_map s).

Record map_inv s n : Prop := {
  mi_null : free_map_file s <> NULL;
  mi_file : map_file s n;
  mi_sync : map_synced s n
}.

Lemma on_disk_synced s n : wf (free_map s) -> map_on_disk s n -> map_synced s n.
Proof. intros Hw Hd. eapply synced_ext; [done|exact Hd|by apply elems_synced]. Qed.

(** Before the file exists, the map is in memory only. *)
Definition map_opt s (o : option inode) : Prop :=
  match o with Some n => map_inv s n | None => free_map_file s = NULL end.
Definition opt_data (o : option inode) (t : Z) : Prop :=
  match o with Some n => data_sector (data n) t | None => False end.

Lemma map_file_step W s s' n : map_file s n -> fs_step W s s' -> bit_cnt (free_map s') = bit_cnt (free_map s) -> map_file s' n.
Proof.
  intros (fl & H1 & H2 & H3 & H4 & H5) [Hd Hf Ho Hi Hfs _ _ _] Hc. exists fl. rewrite Hf, Hi, Hfs, Hc.
  split; [done|]. split; [done|]. split; [apply (wf_inode_same _ _ _ (proj1 Hd) H3)|done].
Qed.

Lemma stored_outside_sectors s n buf c p : 0 <= length_ (data n) < 2 ^ 31 - 512 -> 0 <= c <= length_ (data n) ->
  0 <= p -> ~ data_sector (data n) (p / 512) -> stored buf 0 (base n) c (dbyte (fs_device s)) p = dbyte (fs_device s) p.
Proof.
  intros Hl Hc Hp Hn. unfold stored. destruct ((base n <=? p) && (p <? base n + c)) eqn:E; [|done].
  exfalso. apply Hn. unfold data_sector, sectors, base in *. dlia.
Qed.

Lemma map_write_step s n : fs_ready s -> map_file s n -> free_map_file s <> NULL ->
  exists s', free_map_write (free_map_file s) s = Done (true, s') /\ fs_step (data_sector (data n)) s s' /\
    free_map s' = free_map s /\ map_synced s' n.
Proof.
  intros [Hm Hb Hd] Hf Hn. destruct (free_map_write_spec s n) as (s' & Hr & Ho & Hs); [apply Hd|apply Hd|done..|].
  destruct Hf as (fl & _ & _ & Hw & _ & Hlen). pose proof (byte_cnt_eq _ (dv_map _ _ Hd)) as Hbc.
  pose proof (zlen_nonneg (bits (free_map s))). exists s'. split; [done|].
  destruct (only_device_step s s' _ (data_sector (data n)) Ho) as [Hst E].
  2:{ split; [done|]. split; [done|]. apply on_disk_synced; [rewrite E; apply Hd|done]. }
  intros p Hp Hnp. apply stored_outside_sectors; [apply Hw|lia|done|done].
Qed.

(** Changing the map in memory only. *)
Lemma set_map_step W s m : fs_step W s (set_free_map m s).
Proof. split; try done. Qed.

Lemma map_file_set s m n : map_file s n -> bit_cnt m = bit_cnt (free_map s) -> map_file (set_free_map m s) n.
Proof. intros Hf Hc. eapply (map_file_step (fun _ => False)); [done|apply set_map_step|done]. Qed.

Lemma ready_set s m : fs_ready s -> wf m -> bit_cnt m = bit_cnt (free_map s) -> fs_ready (set_free_map m s).
Proof. intros Hr Hw Hc. eapply (ready_step (fun _ => False)); [done|apply set_map_step|done|done]. Qed.

Lemma alloc_step s o cnt : fs_ready s -> map_opt s o -> 0 <= cnt < 2 ^ 32 ->
  exists r s', free_map_allocate cnt s = Done (r, s') /\ fs_step (opt_data o) s s' /\ fs_ready s' /\ map_opt s' o /\
    bit_cnt (free_map s') = bit_cnt (free_map s) /\
    match r with
    | Some sec => 0 <= sec /\ group (free_map s) sec cnt false /\
        forall j, 0 <= j -> bit (free_map s') j = if in_range sec cnt j then true else bit (free_map s) j
    | None => s' = s /\ forall k, 0 <= k -> ~ group (free_map s) k cnt false
    end.
Proof.
  intros Hr Ho Hc. pose proof (dv_map _ _ (rd_device _ Hr)) as Hwf. pose proof (wf_cnt _ Hwf).
  destruct (bitmap_scan_and_flip_spec (free_map s) 0 cnt false Hwf) as (r & m & Hrun & Hwf' & Hc' & Hcase); [lia|lia|].
  unfold free_map_allocate. erewrite bind_done by by apply on_map_done. erewrite bind_done by done. cbn [free_map_file set_free_map].
  destruct Hcase as [(H1 & H2 & H3 & H4 & H5)|(-> & -> & H2)].
  - rewrite (proj2 (Z.eqb_neq _ _) H1). cbn [negb andb]. destruct o as [n|].
    + destruct Ho as [Hn Hf Hs]. rewrite (proj2 (Z.eqb_neq _ _) Hn). cbn [negb].
      destruct (map_write_step (set_free_map m s) n) as (s' & Hw & Hst & E & Hsy); [by apply ready_set|by apply map_file_set|done|].
      assert (fs_step (data_sector (data n)) s s') as Hss by (eapply fs_step_trans; [apply set_map_step|exact Hst]).
      exists (Some r), s'. split.
      { erewrite bind_done; [|erewrite bind_done by exact Hw; done]. by rewrite (proj2 (Z.eqb_neq _ _) H1). }
      split; [done|]. rewrite E. cbn [free_map set_free_map].
      split; [eapply ready_step; [exact Hr|exact Hss|by rewrite E|by rewrite E]|].
      split; [split; [by rewrite (st_file _ _ _ Hss)|by eapply map_file_step; [exact Hf|exact Hss|rewrite E]|done]|]. done.
    + cbn in Ho. rewrite Ho, Z.eqb_refl. cbn [negb]. erewrite bind_done by done. rewrite (proj2 (Z.eqb_neq _ _) H1).
      exists (Some r), (set_free_map m s). split; [done|]. split; [apply set_map_step|]. split; [by apply ready_set|]. done.
  - rewrite Z.eqb_refl. cbn [negb andb]. erewrite bind_done by done. rewrite Z.eqb_refl.
    assert (set_free_map (free_map s) s = s) as -> by by destruct s.
    exists None, s. split; [done|]. split; [apply fs_step_refl|]. done.
Qed.

Lemma release_step s n sec cnt : fs_ready s -> map_inv s n -> 0 <= sec -> 0 <= cnt -> sec + cnt <= bit_cnt (free_map s) ->
  (forall j, sec <= j < sec + cnt -> bit (free_map s) j = true) ->
  exists s', free_map_release sec cnt s = Done (tt, s') /\ fs_step (data_sector (data n)) s s' /\ fs_ready s' /\ map_inv s' n /\
    bit_cnt (free_map s') = bit_cnt (free_map s) /\
    forall j, 0 <= j -> bit (free_map s') j = if in_range sec cnt j then false else bit (free_map s) j.
Proof.
  intros Hr [Hn Hf Hs] H1 H2 H3 Hall. pose proof (dv_map _ _ (rd_device _ Hr)) as Hwf.
  destruct (contains_spec (free_map s) sec cnt false Hwf H1 H2 H3) as (r & Hrun & Hrp).
  assert (r = false) as ->.
  { destruct r; [|done]. destruct (proj1 Hrp eq_refl) as (j & Hj & Hjb). by rewrite Hall in Hjb. }
  assert (bitmap_all sec cnt (free_map s) = Done (true, free_map s)) as Hba.
  { unfold bitmap_all. by erewrite bind_done by exact Hrun. }
  destruct (set_multiple_spec (free_map s) sec cnt false Hwf H1 H2 H3) as (m & Hset & Hwf' & Hc' & Hb').
  assert (set_free_map (free_map s) s = s) as Es by by destruct s.
  destruct (map_write_step (set_free_map m s) n) as (s' & Hw & Hst & E & Hsy); [by apply ready_set|by apply map_file_set|done|].
  assert (fs_step (data_sector (data n)) s s') as Hss by (eapply fs_step_trans; [apply set_map_step|exact Hst]).
  exists s'. split.
  - unfold free_map_release. erewrite bind_done by by apply on_map_done. rewrite Es. erewrite bind_done by done.
    erewrite bind_done by by apply on_map_done. erewrite bind_done by done. by erewrite bind_done by exact Hw.
  - split; [done|]. rewrite E. cbn [free_map set_free_map].
    split; [eapply ready_step; [exact Hr|exact Hss|by rewrite E|by rewrite E]|].
    split; [split; [by rewrite (st_file _ _ _ Hss)|by eapply map_file_step; [exact Hf|exact Hss|rewrite E]|done]|]. done.
Qed.

(** ** Creating an inode *)

Lemma device_write_step s t bs : fs_ready s -> 0 <= t < bit_cnt (free_map s) -> zlen bs = 512 ->
  exists s', on_device (block_write t bs) s = Done (tt, s') /\ fs_step (fun t' => t' = t) s s' /\ free_map s' = free_map s /\
    fs_ready s' /\ forall k, 0 <= k < 512 -> dbyte (fs_device s') (512 * t + k) = default 0 (zget bs k).
Proof.
  intros Hr Ht Hl. pose proof (rd_device _ Hr) as Hd. pose proof (device_readable _ _ t Hd Ht) as Hrd.
  destruct (on_device_write s t bs Hrd (dv_type _ _ Hd) Hl) as (s' & Hw & Ho).
  destruct (only_device_step s s' _ (fun t' => t' = t) Ho) as [Hs E].
  { intros p Hp Hn. by rewrite (proj2 (Z.eqb_neq _ _) Hn). }
  exists s'. split; [done|]. split; [done|]. split; [done|]. split; [by eapply ready_only|].
  intros k Hk. destruct (od_device _ _ _ Ho) as [_ Hb]. assert ((512 * t + k) / 512 = t) as Ed by dlia.
  rewrite Hb by (rewrite ?Ed; lia || apply Hrd). rewrite Ed, Z.eqb_refl. do 2 f_equal. dlia.
Qed.

(** The loop that clears the data of a new inode. *)
Lemma zero_loop_step s st c : fs_ready s -> 0 <= st -> 0 <= c -> st + c <= bit_cnt (free_map s) ->
  exists s', for_z c (fun i => on_device (block_write (u32 (st + i)) zero_sector)) s = Done (tt, s') /\
    fs_step (fun t => st <= t < st + c) s s' /\ free_map s' = free_map s /\ fs_ready s' /\
    forall t k, st <= t < st + c -> 0 <= k < 512 -> dbyte (fs_device s') (512 * t + k) = 0.
Proof.
  intros Hr H1 H2 H3. pose proof (wf_cnt _ (dv_map _ _ (rd_device _ Hr))).
  destruct (for_from_inv (fun i s' => fs_step (fun t => st <= t < st + c) s s' /\ free_map s' = free_map s /\ fs_ready s' /\
      forall t k, st <= t < st + i -> 0 <= k < 512 -> dbyte (fs_device s') (512 * t + k) = 0)
    (fun i => on_device (block_write (u32 (st + i)) zero_sector)) (Z.to_nat c) 0 s) as (s' & Hrun & Hs & E & Hr' & Hz).
  - split; [apply fs_step_refl|]. split; [done|]. split; [done|]. intros; lia.
  - intros i s1 Hi (Hs1 & E1 & Hr1 & Hz1). rewrite u32_small by lia.
    destruct (device_write_step s1 (st + i) zero_sector Hr1) as (s2 & Hw & Hs2 & E2 & Hr2 & Hb2); [rewrite E1; lia|done|].
    exists s2. split; [done|].
    assert (fs_step (fun t => st <= t < st + c) s1 s2) as Hs2' by (eapply fs_step_weaken; [exact Hs2|]; intros t ->; lia).
    split; [by eapply fs_step_trans|]. split; [congruence|]. split; [done|].
    intros t k Ht Hk. destruct (decide (t = st + i)) as [->|Hne].
    + rewrite Hb2 by done. unfold zero_sector. by rewrite zget_replicate by lia.
    + destruct (st_dev _ _ _ Hs2) as [_ Ha]. assert ((512 * t + k) / 512 = t) as Ed by dlia.
      rewrite Ha; rewrite ?Ed; [apply Hz1; lia|lia| |lia].
      apply (device_readable _ _ t (rd_device _ Hr1)). rewrite E1. lia.
  - exists s'. split; [exact Hrun|]. split; [done|]. split; [done|]. split; [done|]. intros t k Ht. apply Hz. lia.
Qed.

Lemma disk_at_bytes b t bs : zlen bs = 512 -> (forall k, 0 <= k < 512 -> dbyte b (512 * t + k) = default 0 (zget bs k)) ->
  disk_at b t = disk_of_bytes bs.
Proof.
  intros Hl Hb. unfold disk_at. f_equal. apply zlist_eq; [unfold sec_bytes; by rewrite zlen_map_seqZ|].
  intros k Hk. unfold sec_bytes in *. rewrite zlen_map_seqZ in Hk by lia. rewrite zget_map_seqZ by done.
  rewrite Z.add_0_l, Hb by lia. destruct (zget_Some bs k) as [v Hv]; [lia|]. by rewrite Hv.
Qed.

Lemma malloc_step s : fs_ready s -> exists s', malloc s = Done (brk s, s') /\ fs_step (fun _ => False) s s' /\
  free_map s' = free_map s /\ fs_ready s' /\ brk s' = brk s + 1.
Proof.
  intros Hr. destruct (malloc_spec s (rd_mem _ Hr) (rd_brk _ Hr)) as (s' & Hm & Ho & Hb & Hd). exists s'. split; [done|].
  destruct (only_device_step s s' _ (fun _ => False) Ho) as [Hs E]; [done|].
  split; [done|]. split; [done|]. split; [by eapply ready_only|done].
Qed.

Lemma map_inv_step W s s' n : map_inv s n -> fs_step W s s' -> free_map s' = free_map s -> device_ok (fs_device s) (free_map s) ->
  (forall t, data_sector (data n) t -> ~ W t) -> map_inv s' n.
Proof.
  intros [H1 H2 H3] Hs E Hd Hw. split; [by rewrite (st_file _ _ _ Hs)|by eapply map_file_step; [exact H2|exact Hs|rewrite E]|].
  unfold map_synced. rewrite E. eapply synced_ext; [apply Hd| |exact H3]. intros k Hk. destruct H2 as (fl & _ & _ & Hwi & _ & Hlen).
  destruct (st_dev _ _ _ Hs) as [_ Ha]. unfold fbyte, base. pose proof (wi_start _ _ Hwi).
  assert ((512 * start (data n) + k) / 512 = start (data n) + k / 512) as Ed by dlia.
  apply Ha; rewrite ?Ed; [lia| |].
  - apply (wi_sectors _ _ Hwi); dlia.
  - apply Hw. unfold data_sector, sectors. dlia.
Qed.

(** The sectors that creating an inode may write. *)
Definition created_in (W : Z -> Prop) (d : inode_disk) (sec t : Z) : Prop := W t \/ t = sec \/ data_sector d t.

Lemma map_opt_step W s s' o : map_opt s o -> fs_step W s s' -> free_map s' = free_map s -> device_ok (fs_device s) (free_map s) ->
  (forall t, opt_data o t -> ~ W t) -> map_opt s' o.
Proof.
  intros Ho Hs E Hd Hw. destruct o as [n|]; [by eapply map_inv_step|]. cbn. by rewrite (st_file _ _ _ Hs).
Qed.

Lemma inode_create_step s o sec len : fs_ready s -> map_opt s o -> 0 <= len < 2 ^ 31 - 512 ->
  0 <= sec < bit_cnt (free_map s) -> bit (free_map s) sec = true -> ~ opt_data o sec ->
  (forall t, opt_data o t -> bit (free_map s) t = true) ->
  exists r s', inode_create sec len s = Done (r, s') /\ fs_ready s' /\ map_opt s' o /\ bit_cnt (free_map s') = bit_cnt (free_map s) /\
    if r : bool then exists st, let d := mk_disk st len INODE_MAGIC in
      0 <= st /\ group (free_map s) st (sectors d) false /\
      (forall j, 0 <= j -> bit (free_map s') j = if in_range st (sectors d) j then true else bit (free_map s) j) /\
      fs_step (created_in (opt_data o) d sec) s s' /\ disk_at (fs_device s') sec = d /\
      forall t k, data_sector d t -> 0 <= k < 512 -> dbyte (fs_device s') (512 * t + k) = 0
    else fs_step (fun _ => False) s s' /\ free_map s' = free_map s /\
      forall k, 0 <= k -> ~ group (free_map s) k (sectors (mk_disk 0 len 0)) false.
Proof.
  intros Hr Hmi Hlen Hsec Hbit Hnm Hmd. unfold inode_create. rewrite (proj2 (Z.leb_le 0 len)) by lia. erewrite bind_done by done.
  destruct (malloc_step s Hr) as (s1 & Hm & Hs1 & E1 & Hr1 & Hb1). erewrite bind_done by exact Hm.
  pose proof (rd_brk _ Hr). unfold NULL. rewrite (proj2 (Z.eqb_neq (brk s) 0)) by lia.
  assert (map_opt s1 o) as Hmi1 by (eapply map_opt_step; [exact Hmi|exact Hs1|done|apply Hr|tauto]).
  change (bytes_to_sectors len) with (bytes_to_sectors (length_ (mk_disk 0 len 0))). rewrite bytes_to_sectors_eq by done.
  set (c := sectors (mk_disk 0 len 0)). assert (0 <= c < 2 ^ 32) as Hc by (unfold c, sectors; cbn; dlia).
  destruct (alloc_step s1 o c Hr1 Hmi1 Hc) as (r & s2 & Ha & Hs2 & Hr2 & Hmi2 & Hc2 & Hcase). erewrite bind_done by exact Ha.
  rewrite E1 in *. destruct r as [st|].
  2:{ destruct Hcase as [-> Hno]. exists false, s1. split; [done|]. split; [done|]. split; [done|]. split; [by rewrite E1|]. done. }
  destruct Hcase as (Hst & [Hg1 Hg2] & Hbits). set (d := mk_disk st len INODE_MAGIC). change c with (sectors d) in *.
  destruct (disk_roundtrip_run d) as [Hdr Hdl]; [unfold is_u32; cbn; pose proof (wf_cnt _ (dv_map _ _ (rd_device _ Hr))); lia|cbn; lia|by vm_compute|].
  destruct (device_write_step s2 sec (disk_bytes d) Hr2) as (s3 & Hw & Hs3 & E3 & Hr3 & Hb3); [by rewrite Hc2|done|].
  destruct (zero_loop_step s3 st (sectors d) Hr3) as (s4 & Hz & Hs4 & E4 & Hr4 & Hb4); [done|lia|by rewrite E3, Hc2|].
  assert (~ data_sector d sec) as Hnd by (intros Ht; by rewrite (Hg2 sec Ht) in Hbit).
  assert (forall t, opt_data o t -> ~ data_sector d t) as Hdis.
  { intros t Ht Ht'. specialize (Hmd t Ht). by rewrite (Hg2 t Ht') in Hmd. }
  exists true, s4. split; [by erewrite bind_done by exact Hw; erewrite bind_done by exact Hz|]. split; [done|]. split.
  { eapply map_opt_step; [|exact Hs4|done|apply Hr3|exact Hdis].
    eapply map_opt_step; [exact Hmi2|exact Hs3|done|apply Hr2|]. by intros t Ht ->. }
  split; [by rewrite E4, E3|]. exists st. split; [done|]. split; [done|]. split; [by rewrite E4, E3|]. split; [|split].
  - eapply fs_step_trans; [eapply fs_step_weaken; [exact Hs1|tauto]|].
    eapply fs_step_trans; [eapply fs_step_weaken; [exact Hs2|unfold created_in; tauto]|].
    eapply fs_step_trans; [eapply fs_step_weaken; [exact Hs3|unfold created_in; tauto]|].
    eapply fs_step_weaken; [exact Hs4|]. intros t Ht. right. by right.
  - fold d. rewrite <- Hdr at 1. apply disk_at_bytes; [done|]. intros k Hk. rewrite <- Hb3 by done.
    destruct (st_dev _ _ _ Hs4) as [_ Ha4]. assert ((512 * sec + k) / 512 = sec) as Ed by dlia.
    apply Ha4; rewrite ?Ed; [lia| |done]. apply (device_readable _ _ sec (rd_device _ Hr3)). by rewrite E3, Hc2.
  - exact Hb4.
Qed.
End Steps.
