(* ===== verification/FsObjs.v ===== *)
(** * Open inodes

    The table of open inodes: each is open once, holds what its sector has on the
    device, and counts its openers.  [fs_inv] joins it with the layout, the free
    map and its file; opening and closing an inode keep it. *)

From S2P Require Import Prelude Vaddr KList Bitmap Block FileSys FileSpec DirSpec FsSync FsLayout.

(** One more or one fewer at [i]. *)
Definition bump (c : Z -> Z) (i k : Z) : Z -> Z := fun j => if j =? i then c j + k else c j.

Lemma bump_eq c i k : bump c i k i = c i + k.
Proof. unfold bump. by rewrite Z.eqb_refl. Qed.

Lemma bump_ne c i k j : j <> i -> bump c i k j = c j.
Proof. unfold bump. intros Hj. by rewrite (proj2 (Z.eqb_neq j i) Hj). Qed.

Section Objs.
Context {dev : Type} `{BlockDriver dev}.
Implicit Types (b : block dev) (s : fs dev) (n : inode) (d : inode_disk) (L : gmap Z inode_disk) (c : Z -> Z).

(** The open inodes: [c i] openers of inode [i]. *)
Record objs L c s : Prop := {
  ob_nodup : NoDup (open_inodes s);
  ob_open : forall i, i ∈ open_inodes s -> exists n, inodes s !! i = Some n /\ L !! sector n = Some (data n) /\
    0 < i < brk s /\ open_cnt n = c i /\ 0 < c i;
  ob_inodes : forall i n, inodes s !! i = Some n -> i ∈ open_inodes s;
  ob_sector : forall i j n m, inodes s !! i = Some n -> inodes s !! j = Some m -> sector n = sector m -> i = j;
  ob_zero : forall i, i ∉ open_inodes s -> c i = 0
}.

Lemma objs_inode L c s i n : objs L c s -> inodes s !! i = Some n ->
  L !! sector n = Some (data n) /\ 0 < i < brk s /\ open_cnt n = c i /\ 0 < c i.
Proof.
  intros Ho Hi. destruct (ob_open _ _ _ Ho i (ob_inodes _ _ _ Ho i n Hi)) as (n' & Hn & Hr). rewrite Hi in Hn. by injection Hn as <-.
Qed.

Lemma objs_mono L L' c s s' : objs L c s -> open_inodes s' = open_inodes s -> inodes s' = inodes s -> brk s <= brk s' ->
  (forall i n, inodes s !! i = Some n -> L' !! sector n = L !! sector n) -> objs L' c s'.
Proof.
  intros [H1 H2 H3 H4 H5] E1 E2 E3 HL. split; rewrite ?E1, ?E2; try done.
  intros i Hi. destruct (H2 i Hi) as (n & Hn & Hd & Hb & Hc). exists n. rewrite (HL i n Hn). split; [done|]. split; [done|]. split; [lia|done].
Qed.

Record fs_inv L c s : Prop := {
  fi_ready : fs_ready s;
  fi_layout : layout L (fs_device s) (free_map s);
  fi_objs : objs L c s;
  fi_map : exists n, map_inv s n /\ sector n = 0 /\ L !! 0 = Some (data n)
}.

(** The contents of all files but the free map's stay. *)
Definition same_content L s s' : Prop := forall sec d, L !! sec = Some d -> sec <> 0 ->
  fcontent (fs_device s') d = fcontent (fs_device s) d.

Lemma same_content_refl L s : same_content L s s.
Proof. done. Qed.

Lemma same_content_trans L s1 s2 s3 : same_content L s1 s2 -> same_content L s2 s3 -> same_content L s1 s3.
Proof. intros H1 H2 sec d Hd Hn. by rewrite (H2 sec d Hd Hn), (H1 sec d Hd Hn). Qed.

Lemma step_same_content L c s s' W : fs_inv L c s -> fs_step W s s' ->
  (forall sec d t, L !! sec = Some d -> sec <> 0 -> data_sector d t -> ~ W t) -> same_content L s s'.
Proof.
  intros Hi Hs Hw sec d Hd Hn. eapply content_step; [apply Hi|apply Hi|exact (st_dev _ _ _ Hs)|exact Hd|].
  intros t Ht. by eapply Hw.
Qed.

(** ** Finding an open inode *)

Lemma find_open_run s sec : forall l, (forall i, i ∈ l -> is_Some (inodes s !! i)) ->
  exists o, find_open sec l s = Done (o, s) /\
    match o with
    | Some i => i ∈ l /\ exists n, inodes s !! i = Some n /\ sector n = sec
    | None => forall i n, i ∈ l -> inodes s !! i = Some n -> sector n <> sec
    end.
Proof.
  induction l as [|i l IH]; intros Hl.
  - exists None. split; [done|]. by intros i n ?%elem_of_nil.
  - destruct (Hl i) as [n Hn]; [left|]. cbn [find_open].
    erewrite bind_done by (unfold get_inode, load; by rewrite Hn). destruct (Z.eqb_spec (sector n) sec) as [E|E].
    + exists (Some i). split; [done|]. split; [left|]. by exists n.
    + destruct IH as (o & Hr & Ho); [intros j Hj; apply Hl; by right|]. exists o. split; [done|]. destruct o as [j|].
      * destruct Ho as [Hj Ho]. split; [by right|done].
      * intros j m [->|Hj]%elem_of_cons Hm; [congruence|by apply (Ho j)].
Qed.

(** What opening and closing an inode leave alone. *)
Record keeps s s' : Prop := {
  kp_dev : agrees (fs_device s) (fs_device s') (fun _ => False);
  kp_map : free_map s' = free_map s;
  kp_file : free_map_file s' = free_map_file s;
  kp_files : files s' = files s;
  kp_dirs : dirs s' = dirs s;
  kp_mem : mem s' = mem s;
  kp_brk : brk s <= brk s'
}.

Lemma keeps_refl s : keeps s s.
Proof. by split. Qed.

Lemma keeps_trans s1 s2 s3 : keeps s1 s2 -> keeps s2 s3 -> keeps s1 s3.
Proof. intros [] []. split; try congruence; try lia. by eapply agrees_trans. Qed.

Lemma step_keeps s s' : fs_step (fun _ => False) s s' -> free_map s' = free_map s -> keeps s s'.
Proof. intros [] E. by split. Qed.

Lemma keeps_ready s s' : fs_ready s -> keeps s s' -> fs_ready s'.
Proof.
  intros [H1 H2 H3] []. split; [congruence|lia|]. eapply device_ok_step; [exact H3|done| |congruence].
  rewrite kp_map0. apply H3.
Qed.

Lemma keeps_layout L s s' : layout L (fs_device s) (free_map s) -> device_ok (fs_device s) (free_map s) -> keeps s s' ->
  layout L (fs_device s') (free_map s').
Proof.
  intros Hl Hd [Hdv Hm _ _ _ _ _]. eapply layout_step; [exact Hl|exact Hd|exact Hdv|by rewrite Hm|tauto|].
  rewrite Hm. intros sec d t. apply (ly_used _ _ _ Hl).
Qed.

Lemma keeps_content L s s' : layout L (fs_device s) (free_map s) -> device_ok (fs_device s) (free_map s) -> keeps s s' ->
  same_content L s s'.
Proof. intros Hl Hd [Hdv _ _ _ _ _ _] sec d Hsec _. eapply content_step; [exact Hl|exact Hd|exact Hdv|exact Hsec|tauto]. Qed.

(** The free map's file while other inodes change. *)
Lemma keeps_map_inv s s' n : map_inv s n -> keeps s s' -> device_ok (fs_device s) (free_map s) ->
  (forall fl, files s !! free_map_file s = Some fl -> inodes s !! f_inode fl = Some n -> inodes s' !! f_inode fl = Some n) -> map_inv s' n.
Proof.
  intros [H1 H2 H3] [Hdv Hm Hf Hfs _ _ _] Hd Hi. destruct H2 as (fl & F1 & F2 & F3 & F4 & F5). split; [by rewrite Hf| |].
  - exists fl. rewrite Hf, Hfs, Hm. split; [done|]. split; [by apply Hi|]. split; [|done]. by apply (wf_inode_same _ _ _ (proj1 Hdv)).
  - unfold map_synced. rewrite Hm. eapply synced_ext; [apply Hd| |exact H3]. intros k Hk. destruct Hdv as [_ Ha]. unfold fbyte, base. pose proof (wi_start _ _ F3).
    assert ((512 * start (data n) + k) / 512 = start (data n) + k / 512) as Ed by dlia.
    apply Ha; rewrite ?Ed; [lia| |tauto]. apply (wi_sectors _ _ F3); dlia.
Qed.

(** The inode with its count of openers changed by [k]. *)
Definition add_open n (k : Z) : inode := mk_inode (sector n) (open_cnt n + k) (removed n) (deny_write_cnt n) (data n).

(** ** inode_open *)

(** What [inode_open] does to the table: a new inode, or one more opener. *)
Definition opened L (sec : Z) s i s' : Prop :=
  (exists n, inodes s !! i = Some n /\ sector n = sec /\ inodes s' = <[i := add_open n 1]> (inodes s) /\
     open_inodes s' = open_inodes s) \/
  (exists d, L !! sec = Some d /\ i = brk s /\ (forall j n, inodes s !! j = Some n -> sector n <> sec) /\
     inodes s' = <[i := mk_inode sec 1 false 0 d]> (inodes s) /\ open_inodes s' = i :: open_inodes s).

Lemma inode_open_run L c s sec d : fs_ready s -> layout L (fs_device s) (free_map s) -> objs L c s -> L !! sec = Some d ->
  (forall i, c i < 2 ^ 31 - 1) ->
  exists i s', inode_open sec s = Done (i, s') /\ 0 < i < brk s' /\ keeps s s' /\ opened L sec s i s'.
Proof.
  intros Hr Hl Ho Hd Hc. unfold inode_open. erewrite bind_done by done.
  destruct (find_open_run s sec (open_inodes s)) as (o & Hf & Hcase).
  { intros i Hi. destruct (ob_open _ _ _ Ho i Hi) as (n & Hn & _). by exists n. }
  erewrite bind_done by exact Hf. destruct o as [i|].
  - destruct Hcase as (Hi & n & Hn & Hsec). destruct (objs_inode _ _ _ _ _ Ho Hn) as (_ & Hir & Hcnt & Hpos).
    assert (inode_reopen i s = Done (i, set_inodes (<[i := add_open n 1]> (inodes s)) s)) as Hro.
    { unfold inode_reopen, NULL. rewrite (proj2 (Z.eqb_neq i 0)) by lia.
      erewrite bind_done by (unfold get_inode, load; by rewrite Hn). pose proof (Hc i).
      rewrite s32_small by lia. by erewrite bind_done by done. }
    eexists _, _. split; [exact Hro|]. split; [cbn; lia|]. split; [by split|]. left. exists n. done.
  - destruct (malloc_step s Hr) as (s1 & Hm & Hs1 & E1 & Hr1 & Hb1). erewrite bind_done by exact Hm.
    pose proof (rd_brk _ Hr). unfold NULL. rewrite (proj2 (Z.eqb_neq (brk s) 0)) by lia.
    erewrite bind_done by done. set (s2 := set_open_inodes (brk s :: open_inodes s1) s1).
    pose proof (step_keeps _ _ Hs1 E1) as Hk1.
    assert (readable (fs_device s2) sec) as Hrd.
    { apply (device_readable _ (free_map s1)); [apply Hr1|]. rewrite E1. by apply (dk_sec _ _ _ (ly_ok _ _ _ Hl _ _ Hd)). }
    destruct (on_device_read s2 sec Hrd) as (s3 & Hrun & Ho3). erewrite bind_done by exact Hrun. erewrite bind_done by done.
    destruct (only_device_step s2 s3 _ (fun _ => False) Ho3) as [Hs3 E3]; [done|].
    assert (disk_of_bytes (contents (aux (fs_device s2)) sec) = d) as ->.
    { rewrite sector_bytes by done. change (disk_at (fs_device s1) sec = d). rewrite <- (ly_disk _ _ _ Hl _ _ Hd).
      unfold disk_at. f_equal. eapply agrees_sector; [exact (st_dev _ _ _ Hs1)| |tauto].
      apply (device_readable _ (free_map s)); [apply Hr|]. by apply (dk_sec _ _ _ (ly_ok _ _ _ Hl _ _ Hd)). }
    eexists _, _. split; [done|]. pose proof (st_brk _ _ _ Hs3) as Hb3. cbn in Hb3.
    split; [cbn; lia|]. split.
    + eapply keeps_trans; [exact Hk1|]. eapply (keeps_trans _ s3); [|by split].
      destruct Hs3. split; try done.
    + right. exists d. split; [done|]. split; [done|]. split.
      { intros j n Hj. apply (Hcase j n); [by eapply ob_inodes|done]. }
      cbn. rewrite (st_inodes _ _ _ Hs3), (st_open _ _ _ Hs3). cbn. rewrite (st_inodes _ _ _ Hs1), (st_open _ _ _ Hs1). done.
Qed.

Lemma opened_objs L c s i s' sec : objs L c s -> 0 < i < brk s' -> keeps s s' -> opened L sec s i s' ->
  objs L (bump c i 1) s' /\ exists n, inodes s' !! i = Some n /\ sector n = sec.
Proof.
  intros Ho Hi Hk [(n & Hn & <- & E1 & E2)|(d & Hd & -> & Hnew & E1 & E2)].
  - destruct (objs_inode _ _ _ _ _ Ho Hn) as (HL & Hr & Hcnt & Hpos). destruct Ho as [H1 H2 H3 H4 H5].
    split; [split; rewrite ?E1, ?E2|exists (add_open n 1); rewrite E1, lookup_insert_eq; done]; try done.
    + intros j Hj. destruct (decide (j = i)) as [->|Hne].
      * exists (add_open n 1). rewrite lookup_insert_eq, bump_eq. cbn. repeat split; try done; lia.
      * destruct (H2 j Hj) as (m & Hm & ? & ? & ?). exists m. rewrite lookup_insert_ne, bump_ne by done.
        pose proof (kp_brk _ _ Hk). repeat split; try done; lia.
    + intros j m [[<- _]|[_ Hm]]%lookup_insert_Some; [by eapply H3|by eapply H3].
    + intros j k m m' [[<- <-]|[Hj Hm]]%lookup_insert_Some [[<- <-]|[Hk' Hm']]%lookup_insert_Some Es; try done.
      * by apply (H4 i k n m').
      * by apply (H4 j i m n).
      * by apply (H4 j k m m').
    + intros j Hj. rewrite bump_ne; [by apply H5|]. intros ->. apply Hj. by eapply H3.
  - destruct Ho as [H1 H2 H3 H4 H5].
    assert (brk s ∉ open_inodes s) as Hfr.
    { intros Hin. destruct (H2 _ Hin) as (_ & _ & _ & ? & _). lia. }
    split; [split; rewrite ?E1, ?E2|exists (mk_inode sec 1 false 0 d); rewrite E1, lookup_insert_eq; done].
    + by apply NoDup_cons.
    + intros j [->|Hj]%elem_of_cons.
      * exists (mk_inode sec 1 false 0 d). rewrite lookup_insert_eq, bump_eq, (H5 _ Hfr). cbn. repeat split; try done; lia.
      * destruct (H2 j Hj) as (m & Hm & ? & ? & ?). assert (j <> brk s) by (intros ->; done). exists m.
        rewrite lookup_insert_ne, bump_ne by done. pose proof (kp_brk _ _ Hk). repeat split; try done; lia.
    + intros j m [[<- _]|[_ Hm]]%lookup_insert_Some; [left|right; by eapply H3].
    + intros j k m m' [[<- <-]|[Hj Hm]]%lookup_insert_Some [[<- <-]|[Hk' Hm']]%lookup_insert_Some Es; try done.
      * cbn in Es. by destruct (Hnew k m' Hm').
      * cbn in Es. by destruct (Hnew j m Hm).
      * by apply (H4 j k m m').
    + intros j [Hne Hj]%not_elem_of_cons. rewrite bump_ne by done. by apply H5.
Qed.

Lemma inv_open L c s sec d : fs_inv L c s -> L !! sec = Some d -> (sec = 0 -> False) -> (forall i, c i < 2 ^ 31 - 1) ->
  exists i s', inode_open sec s = Done (i, s') /\ 0 < i /\ keeps s s' /\ opened L sec s i s' /\ fs_inv L (bump c i 1) s' /\
    (exists n, inodes s' !! i = Some n /\ sector n = sec) /\ same_content L s s'.
Proof.
  intros [Hr Hl Ho (nm & Hmi & Hm0 & HL0)] Hd Hsec Hc.
  destruct (inode_open_run L c s sec d Hr Hl Ho Hd Hc) as (i & s' & Hrun & Hi & Hk & Hop).
  destruct (opened_objs L c s i s' sec Ho Hi Hk Hop) as [Ho' Hex].
  exists i, s'. split; [done|]. split; [lia|]. split; [done|]. split; [done|]. split; [|split; [done|by eapply keeps_content; [|apply Hr|]]].
  split; [by eapply keeps_ready|by eapply keeps_layout; [|apply Hr|]|done|].
  exists nm. split; [|done]. eapply keeps_map_inv; [exact Hmi|exact Hk|apply Hr|]. intros fl Hfl Hn.
  assert (f_inode fl <> i) as Hne; [|by destruct Hop as [(?&?&?&->&?)|(?&?&?&?&->&?)]; rewrite lookup_insert_ne].
  intros E. rewrite E in Hn. destruct Hop as [(n & Hn' & <- & _)|(d' & _ & -> & _)].
  - rewrite Hn in Hn'. injection Hn' as <-. by apply Hsec.
  - destruct (objs_inode _ _ _ _ _ Ho Hn) as (_ & ? & _). lia.
Qed.

(** ** inode_close *)

(** The layout after the last opener has gone. *)
Definition closed_layout L n : gmap Z inode_disk := if (open_cnt n =? 1) && removed n then delete (sector n) L else L.

Definition closed s i n s' : Prop :=
  files s' = files s /\ dirs s' = dirs s /\ free_map_file s' = free_map_file s /\ brk s <= brk s' /\
  if open_cnt n =? 1
  then inodes s' = delete i (inodes s) /\ open_inodes s' = filter (fun x => x <> i) (open_inodes s)
  else inodes s' = <[i := add_open n (-1)]> (inodes s) /\ open_inodes s' = open_inodes s.

Lemma closed_objs L c s i n s' : objs L c s -> inodes s !! i = Some n -> closed s i n s' ->
  objs (closed_layout L n) (bump c i (-1)) s'.
Proof.
  intros Ho Hn (_ & _ & _ & Hb & Hc). destruct (objs_inode _ _ _ _ _ Ho Hn) as (HL & Hr & Hcnt & Hpos).
  assert (forall j m, j <> i -> inodes s !! j = Some m -> closed_layout L n !! sector m = L !! sector m) as HL'.
  { intros j m Hne Hm. unfold closed_layout. destruct ((open_cnt n =? 1) && removed n); [|done].
    rewrite lookup_delete_ne; [done|]. intros E. apply Hne. symmetry. by apply (ob_sector _ _ _ Ho i j n m). }
  pose proof Ho as [H1 H2 H3 H4 H5]. destruct (Z.eqb_spec (open_cnt n) 1) as [E1|E1]; destruct Hc as [Ei Eo].
  - split; rewrite ?Ei, ?Eo.
    + by apply NoDup_filter.
    + intros j [Hne Hj]%list_elem_of_filter. destruct (H2 j Hj) as (m & Hm & ? & ? & ? & ?). exists m.
      rewrite lookup_delete_ne, bump_ne by done. rewrite (HL' j m) by done. repeat split; try done; lia.
    + intros j m [Hne Hm]%lookup_delete_Some. apply list_elem_of_filter. split; [done|by eapply H3].
    + intros j k m m' [_ Hm]%lookup_delete_Some [_ Hm']%lookup_delete_Some. by apply (H4 j k m m').
    + intros j Hj. destruct (decide (j = i)) as [->|Hne]; [rewrite bump_eq; lia|]. rewrite bump_ne by done. apply H5.
      intros Hin. apply Hj. by apply list_elem_of_filter.
  - assert (closed_layout L n = L) as EL by (unfold closed_layout; by rewrite (proj2 (Z.eqb_neq _ _) E1)).
    split; rewrite ?Ei, ?Eo; try done.
    + intros j Hj. destruct (decide (j = i)) as [->|Hne].
      * exists (add_open n (-1)). rewrite lookup_insert_eq, bump_eq, EL. cbn. repeat split; try done; lia.
      * destruct (H2 j Hj) as (m & Hm & ? & ? & ? & ?). exists m.
        rewrite lookup_insert_ne, bump_ne by done. rewrite (HL' j m) by done. repeat split; try done; lia.
    + intros j m [[<- _]|[_ Hm]]%lookup_insert_Some; [by eapply H3|by eapply H3].
    + intros j k m m' [[<- <-]|[Hj Hm]]%lookup_insert_Some [[<- <-]|[Hk' Hm']]%lookup_insert_Some Es; try done.
      * by apply (H4 i k n m').
      * by apply (H4 j i m n).
      * by apply (H4 j k m m').
    + intros j Hj. rewrite bump_ne; [by apply H5|]. intros ->. apply Hj. by eapply H3.
Qed.

(** The map file's inode is not the one that closes. *)
Lemma map_inode_other s s' i n nm : inodes s !! i = Some n -> sector n <> 0 -> sector nm = 0 ->
  (inodes s' = delete i (inodes s) \/ exists n', inodes s' = <[i := n']> (inodes s)) ->
  forall fl, files s !! free_map_file s = Some fl -> inodes s !! f_inode fl = Some nm -> inodes s' !! f_inode fl = Some nm.
Proof.
  intros Hi Hs Hm Hc fl Hfl Hn. assert (f_inode fl <> i) as Hne.
  { intros E. rewrite E, Hi in Hn. injection Hn as ->. done. }
  destruct Hc as [->|[n' ->]]; [by rewrite lookup_delete_ne|by rewrite lookup_insert_ne].
Qed.

Lemma get_inode_run s i n : inodes s !! i = Some n -> get_inode i s = Done (n, s).
Proof. intros E. unfold get_inode, load. by rewrite E. Qed.

(** Closing an inode that stays open, or one that is not removed. *)
Lemma inv_close_plain L c s i n : fs_inv L c s -> inodes s !! i = Some n -> sector n <> 0 -> c i < 2 ^ 31 ->
  (open_cnt n =? 1) && removed n = false ->
  exists s', inode_close i s = Done (tt, s') /\ keeps s s' /\ closed s i n s' /\ fs_inv L (bump c i (-1)) s'.
Proof.
  intros [Hr Hl Ho (nm & Hmi & Hm0 & HL0)] Hn Hsec Hc Hcase. destruct (objs_inode _ _ _ _ _ Ho Hn) as (HL & Hir & Hcnt & Hpos).
  assert (exists s', inode_close i s = Done (tt, s') /\ keeps s s' /\ closed s i n s') as (s' & Hrun & Hk & Hcl).
  { unfold inode_close, NULL. rewrite (proj2 (Z.eqb_neq i 0)) by lia. erewrite bind_done by by apply get_inode_run.
    rewrite s32_small by lia. erewrite bind_done by done. unfold closed.
    destruct (Z.eqb_spec (open_cnt n) 1) as [E1|E1]; cbn [andb] in Hcase.
    - rewrite E1. change (1 - 1 =? 0) with true. cbn iota. erewrite bind_done by done. rewrite Hcase.
      erewrite bind_done by done. eexists. split; [done|]. split; [by split|].
      cbn. split; [done|]. split; [done|]. split; [done|]. split; [lia|]. split; [apply delete_insert_eq|done].
    - rewrite (proj2 (Z.eqb_neq _ 0)) by lia. eexists. split; [done|]. split; [by split|].
      cbn. split; [done|]. split; [done|]. split; [done|]. split; [lia|]. done. }
  exists s'. split; [done|]. split; [done|]. split; [done|].
  pose proof (closed_objs L c s i n s' Ho Hn Hcl) as Ho'. unfold closed_layout in Ho'. rewrite Hcase in Ho'.
  split; [by eapply keeps_ready|by eapply keeps_layout; [|apply Hr|]|done|].
  exists nm. split; [|done]. eapply keeps_map_inv; [exact Hmi|exact Hk|apply Hr|].
  apply (map_inode_other s s' i n nm Hn Hsec Hm0). destruct Hcl as (_ & _ & _ & _ & Hcl).
  destruct (open_cnt n =? 1); destruct Hcl as [-> _]; [by left|right; by eexists].
Qed.

(** Giving back the sectors of an inode. *)
Lemma release_inode_step L s n nm : fs_ready s -> layout L (fs_device s) (free_map s) -> map_inv s nm ->
  L !! sector n = Some (data n) ->
  exists s', (free_map_release (sector n) 1 ;; free_map_release (start (data n)) (bytes_to_sectors (length_ (data n)))) s = Done (tt, s') /\
    fs_step (data_sector (data nm)) s s' /\ fs_ready s' /\ map_inv s' nm /\ bit_cnt (free_map s') = bit_cnt (free_map s) /\
    forall t, 0 <= t -> ~ owns (sector n) (data n) t -> bit (free_map s') t = bit (free_map s) t.
Proof.
  intros Hr Hl Hmi HL. destruct (ly_ok _ _ _ Hl _ _ HL) as [H1 H2 H3 H4]. rewrite bytes_to_sectors_eq by done.
  assert (0 <= sectors (data n)) as Hns by (unfold sectors; dlia).
  destruct (release_step s nm (sector n) 1 Hr Hmi) as (s1 & Hr1 & Hs1 & Hrd1 & Hmi1 & Hc1 & Hb1); [lia|lia|lia| |].
  { intros j Hj. apply (ly_used _ _ _ Hl _ _ j HL). left. lia. }
  destruct (release_step s1 nm (start (data n)) (sectors (data n)) Hrd1 Hmi1) as (s2 & Hr2 & Hs2 & Hrd2 & Hmi2 & Hc2 & Hb2);
    [lia|done|rewrite Hc1; lia| |].
  { intros j Hj. rewrite Hb1 by lia. unfold in_range. destruct (decide (j = sector n)) as [->|Hne]; [by destruct H4|].
    replace ((sector n <=? j) && (j <? sector n + 1)) with false by lia. apply (ly_used _ _ _ Hl _ _ j HL). by right. }
  exists s2. split; [by erewrite bind_done by exact Hr1|]. split; [by eapply fs_step_trans|].
  split; [done|]. split; [done|]. split; [by rewrite Hc2|]. intros t Ht Hno. unfold owns, data_sector in Hno.
  rewrite Hb2, Hb1 by done. unfold in_range.
  replace ((start (data n) <=? t) && (t <? start (data n) + sectors (data n))) with false by lia.
  by replace ((sector n <=? t) && (t <? sector n + 1)) with false by lia.
Qed.

(** The last opener of a removed file goes: its sectors are free again. *)
Lemma inv_close_removed L c s i n : fs_inv L c s -> inodes s !! i = Some n -> sector n <> 0 -> c i < 2 ^ 31 ->
  open_cnt n = 1 -> removed n = true ->
  exists s', inode_close i s = Done (tt, s') /\ closed s i n s' /\ fs_inv (delete (sector n) L) (bump c i (-1)) s' /\
    same_content (delete (sector n) L) s s' /\ mem s' = mem s.
Proof.
  intros [Hr Hl Ho (nm & Hmi & Hm0 & HL0)] Hn Hsec Hc Hcnt1 Hrm. destruct (objs_inode _ _ _ _ _ Ho Hn) as (HL & Hir & Hcnt & Hpos).
  set (s2 := set_open_inodes (filter (fun x => x <> i) (open_inodes s)) (set_inodes (<[i := add_open n (-1)]> (inodes s)) s)).
  assert (keeps s s2) as Hk2 by by split.
  assert (map_inv s2 nm) as Hmi2.
  { eapply keeps_map_inv; [exact Hmi|exact Hk2|apply Hr|]. apply (map_inode_other s s2 i n nm Hn Hsec Hm0). right. by eexists. }
  destruct (release_inode_step L s2 n nm (keeps_ready _ _ Hr Hk2) Hl Hmi2 HL) as (s3 & Hrun & Hs3 & Hr3 & Hmi3 & Hc3 & Hb3).
  set (s' := set_inodes (delete i (inodes s3)) s3). destruct Hs3 as [D3 F3 O3 I3 FS3 DS3 M3 B3].
  assert (inodes s' = delete i (inodes s)) as Ei by (cbn; rewrite I3; cbn; apply delete_insert_eq).
  exists s'. split; [|].
  { unfold inode_close, NULL. rewrite (proj2 (Z.eqb_neq i 0)) by lia. erewrite bind_done by by apply get_inode_run.
    rewrite Hcnt1, s32_small by lia. erewrite bind_done by done. change (1 - 1 =? 0) with true. cbn iota.
    erewrite bind_done by done. rewrite Hrm. cbn in Hrun. unfold s2, add_open in Hrun. rewrite Hcnt1, Hrm in Hrun.
    erewrite bind_done by exact Hrun. done. }
  assert (closed s i n s') as Hcl.
  { unfold closed. rewrite Hcnt1. cbn in *. split; [done|]. split; [done|]. split; [done|]. split; [lia|done]. }
  split; [done|]. pose proof (closed_objs L c s i n s' Ho Hn Hcl) as Ho'. unfold closed_layout in Ho'. rewrite Hcnt1, Hrm in Ho'.
  cbn [andb Z.eqb Pos.eqb] in Ho'.
  assert (forall sec' d' t, sec' <> sector n -> L !! sec' = Some d' -> owns sec' d' t -> bit (free_map s3) t = true) as Hbits.
  { intros sec' d' t Hne Hd' Hown. rewrite Hb3.
    - by apply (ly_used _ _ _ Hl sec' d').
    - by apply (owned_range L (fs_device s) (free_map s) sec' d' t Hl Hd').
    - intros Ho2. by apply (ly_apart _ _ _ Hl sec' (sector n) d' (data n) t). }
  split; [|split; [|done]].
  - split; [by split; apply Hr3| |done|].
    + eapply layout_step; [apply (layout_delete L (fs_device s) (free_map s) (free_map s3) (sector n) Hl Hc3); exact Hbits| |exact D3|done| |].
      * split; [apply (rd_device _ Hr)|rewrite Hc3; apply (rd_device _ Hr)|apply (rd_device _ Hr)|apply Hr3].
      * intros sec' d' [Hne Hd']%lookup_delete_Some Hw. destruct (decide (sec' = 0)) as [->|H0].
        { rewrite HL0 in Hd'. injection Hd' as <-. by apply (dk_own _ _ _ (ly_ok _ _ _ Hl _ _ HL0)). }
        eapply (ly_apart _ _ _ Hl sec' 0); [exact Hd'|exact HL0|done|by left|by right].
      * intros sec' d' t [Hne Hd']%lookup_delete_Some. by apply Hbits.
    + exists nm. rewrite lookup_delete_ne by congruence. split; [|done].
      eapply keeps_map_inv; [exact Hmi3|by split|apply Hr3|]. intros fl Hfl Hfn. cbn in Hfl. rewrite F3, FS3 in Hfl.
      rewrite Ei. rewrite I3 in Hfn. cbn in Hfn. apply lookup_insert_Some in Hfn as [[E1 E2]|[Hne Hfn]].
      * exfalso. rewrite <- E2 in Hm0. done.
      * by rewrite lookup_delete_ne.
  - intros sec' d' [Hne Hd']%lookup_delete_Some H0. eapply content_step; [exact Hl|apply Hr|exact D3|exact Hd'|].
    intros t Ht Hw. eapply (ly_apart _ _ _ Hl sec' 0); [exact Hd'|exact HL0|done|by right|by right].
Qed.
End Objs.
