(* ===== verification/FsRoot.v ===== *)
(** * Open files and the root directory

    How often an inode is open as a file ([refs]) and how many of these openings
    deny writes ([denies]); the names in the root directory ([names_ok]), which
    depend on its bytes only. *)

From S2P Require Import Prelude Vaddr KList Bitmap Block FileSys FileSpec DirSpec FsLayout FsObjs.

(** ** Counting the files of a table *)

Definition count (P : file -> bool) (m : gmap Z file) : Z := Z.of_nat (base.size (filter (fun x => P x.2 = true) m)).

(** The contribution of one file. *)
Abbreviation one b := (if b : bool then 1 else 0).

Lemma count_insert P m f x : m !! f = None -> count P (<[f := x]> m) = count P m + one (P x).
Proof.
  intros Hf. unfold count. destruct (P x) eqn:E.
  - rewrite map_filter_insert_True by done. rewrite map_size_insert_None; [lia|].
    apply map_lookup_filter_None. by left.
  - rewrite map_filter_insert_False by (cbn; by rewrite E). by rewrite delete_id, Z.add_0_r.
Qed.

Lemma count_delete P m f x : m !! f = Some x -> count P (delete f m) = count P m - one (P x).
Proof.
  intros Hf. pose proof (count_insert P (delete f m) f x (lookup_delete_eq _ _)) as Hc.
  rewrite insert_delete_eq, insert_id in Hc by done. lia.
Qed.

Lemma count_update P m f x y : m !! f = Some x -> count P (<[f := y]> m) = count P m - one (P x) + one (P y).
Proof.
  intros Hf. rewrite <- insert_delete_eq, count_insert by apply lookup_delete_eq. by rewrite (count_delete P m f x Hf).
Qed.

Lemma count_le P Q m : (forall x, P x = true -> Q x = true) -> count P m <= count Q m.
Proof.
  intros HPQ. unfold count. apply Nat2Z.inj_le, map_subseteq_size, map_filter_subseteq_ext. intros f x _. apply HPQ.
Qed.

Lemma count_size P m : 0 <= count P m <= Z.of_nat (base.size m).
Proof. unfold count. split; [lia|]. apply Nat2Z.inj_le, map_subseteq_size, map_filter_subseteq. Qed.

Lemma count_pos P m f x : m !! f = Some x -> P x = true -> 0 < count P m.
Proof.
  intros Hf Hp. pose proof (count_delete P m f x Hf) as Hd. rewrite Hp in Hd.
  pose proof (count_size P (delete f m)). lia.
Qed.

Lemma count_zero P m : (forall f x, m !! f = Some x -> P x = false) -> count P m = 0.
Proof.
  intros Hm. unfold count. rewrite (proj2 (map_empty_filter _ m)); [done|].
  intros f x Hf. cbn. by rewrite (Hm f x Hf).
Qed.

Lemma count_only P m f x : m !! f = Some x -> count P m = 1 -> P x = true ->
  forall g y, m !! g = Some y -> g <> f -> P y = false.
Proof.
  intros Hf Hc Hp g y Hg Hne. destruct (P y) eqn:Ey; [|done]. pose proof (count_delete P m f x Hf) as Hd. rewrite Hp in Hd.
  pose proof (count_pos P (delete f m) g y). rewrite lookup_delete_ne in * by done. specialize (H Hg Ey). lia.
Qed.

(** Files open on inode [i], and those of them that deny writes. *)
Definition on_inode (i : Z) (x : file) : bool := f_inode x =? i.
Definition refs (m : gmap Z file) (i : Z) : Z := count (on_inode i) m.
Definition denies (m : gmap Z file) (i : Z) : Z := count (fun x => on_inode i x && deny_write x) m.

Lemma refs_insert m f x j : m !! f = None -> refs (<[f := x]> m) j = bump (refs m) (f_inode x) 1 j.
Proof.
  intros Hf. unfold refs, bump. rewrite count_insert by done. unfold on_inode. rewrite Z.eqb_sym. destruct (j =? f_inode x); lia.
Qed.

Lemma refs_delete m f x j : m !! f = Some x -> refs (delete f m) j = bump (refs m) (f_inode x) (-1) j.
Proof.
  intros Hf. unfold refs, bump. rewrite (count_delete _ _ _ _ Hf). unfold on_inode. rewrite Z.eqb_sym. destruct (j =? f_inode x); lia.
Qed.

Lemma refs_update m f x y j : m !! f = Some x -> f_inode y = f_inode x -> refs (<[f := y]> m) j = refs m j.
Proof. intros Hf E. unfold refs. rewrite (count_update _ _ _ _ _ Hf). unfold on_inode. rewrite E. lia. Qed.

Lemma denies_le m i : denies m i <= refs m i.
Proof. apply count_le. by intros x [? _]%andb_prop. Qed.

Lemma denies_update m f x y j : m !! f = Some x -> f_inode y = f_inode x ->
  denies (<[f := y]> m) j = denies m j + if f_inode x =? j then one (deny_write y) - one (deny_write x) else 0.
Proof.
  intros Hf E. unfold denies. rewrite (count_update _ _ _ _ _ Hf). unfold on_inode. rewrite E.
  destruct (f_inode x =? j); cbn [andb]; lia.
Qed.

Lemma denies_plain m f x : deny_write x = false ->
  (m !! f = None -> forall j, denies (<[f := x]> m) j = denies m j) /\
  (m !! f = Some x -> forall j, denies (delete f m) j = denies m j).
Proof.
  intros Hx. split; intros Hf j; unfold denies; [rewrite count_insert by done|rewrite (count_delete _ _ _ _ Hf)];
    rewrite Hx, andb_false_r; lia.
Qed.

(** ** The names of the root directory *)

Section Root.
Context {dev : Type} `{BlockDriver dev}.
Implicit Types (b : block dev) (s : fs dev) (n : inode) (d : inode_disk) (L : gmap Z inode_disk) (c : Z -> Z) (N : gmap (list Z) Z).

(** Entry [k] of the directory stored as [d], and the number of entries. *)
Definition rentry b d k : dir_entry := entry_of_bytes (map (fun j => dbyte b (512 * start d + j)) (seqZ (20 * k) 20)).
Definition entries d : Z := length_ d / 20.

Lemma entry_rentry b n k : entry b n k = rentry b (data n) k.
Proof. done. Qed.

Lemma entry_cnt_entries n : entry_cnt n = entries (data n).
Proof. done. Qed.

(** The entries in use are the names of [N], each once. *)
Record names_ok b d N : Prop := {
  nm_iff : forall nm sec, N !! nm = Some sec <->
    exists k, 0 <= k < entries d /\ matches nm (rentry b d k) = true /\ inode_sector (rentry b d k) = sec;
  nm_once : forall nm k k', 0 <= k < entries d -> 0 <= k' < entries d ->
    matches nm (rentry b d k) = true -> matches nm (rentry b d k') = true -> k = k'
}.

Lemma fcontent_byte b b' d j : fcontent b' d = fcontent b d -> 0 <= j < length_ d ->
  dbyte b' (512 * start d + j) = dbyte b (512 * start d + j).
Proof.
  intros E Hj. apply (f_equal (fun l => zget l j)) in E. unfold fcontent in E. rewrite !zget_map_seqZ in E by done.
  by injection E.
Qed.

Lemma rentry_same b b' d k : fcontent b' d = fcontent b d -> 0 <= k < entries d -> rentry b' d k = rentry b d k.
Proof.
  intros E Hk. unfold rentry. f_equal. apply map_ext_in. intros j Hj%list_elem_of_In%elem_of_seqZ.
  apply fcontent_byte; [done|]. unfold entries in Hk. dlia.
Qed.

Lemma names_ext b b' d N : (forall k, 0 <= k < entries d -> rentry b' d k = rentry b d k) -> names_ok b d N -> names_ok b' d N.
Proof.
  intros He [H1 H2]. split.
  - intros nm sec. rewrite H1. split; intros (k & Hk & Hm & Hs); exists k; (split; [done|]);
      [rewrite He by done|rewrite He in Hm, Hs by done]; done.
  - intros nm k k' Hk Hk'. rewrite !He by done. by apply H2.
Qed.

Lemma names_content b b' d N : fcontent b' d = fcontent b d -> names_ok b d N -> names_ok b' d N.
Proof. intros E. apply names_ext. intros k. by apply rentry_same. Qed.

Lemma matches_name nm nm' e : matches nm e = true -> matches nm' e = true -> nm = nm'.
Proof. unfold matches, same_name. intros [_ ->%bool_decide_eq_true]%andb_prop [_ ->%bool_decide_eq_true]%andb_prop. done. Qed.

Lemma matches_unused nm e : in_use e = false -> matches nm e = false.
Proof. unfold matches. by intros ->. Qed.

Lemma names_lookup b d N nm : names_ok b d N ->
  (forall k, 0 <= k < entries d -> matches nm (rentry b d k) = false) <-> N !! nm = None.
Proof.
  intros [H1 _]. split.
  - intros Hno. destruct (N !! nm) as [sec|] eqn:E; [|done]. apply H1 in E as (k & Hk & Hm & _). by rewrite Hno in Hm.
  - intros E k Hk. destruct (matches nm (rentry b d k)) eqn:Em; [|done].
    assert (N !! nm = Some (inode_sector (rentry b d k))) as E' by (apply H1; by exists k). by rewrite E in E'.
Qed.

(** A free entry has been filled. *)
Lemma names_insert b b' d N nm j : names_ok b d N -> N !! nm = None -> 0 <= j < entries d ->
  in_use (rentry b d j) = false -> matches nm (rentry b' d j) = true ->
  (forall k, 0 <= k < entries d -> k <> j -> rentry b' d k = rentry b d k) ->
  names_ok b' d (<[nm := inode_sector (rentry b' d j)]> N).
Proof.
  intros HN Hnm Hj Hfree Hm He. pose proof (proj2 (names_lookup b d N nm HN) Hnm) as Hno. destruct HN as [H1 H2]. split.
  - intros nm' sec. rewrite lookup_insert_Some. split.
    + intros [[<- <-]|[Hne E]]; [by exists j|]. apply H1 in E as (k & Hk & Hmk & Hs).
      exists k. rewrite He; [done|done|]. intros ->. by rewrite (matches_unused nm' _ Hfree) in Hmk.
    + intros (k & Hk & Hmk & Hs). destruct (decide (k = j)) as [->|Hkj].
      * left. split; [by eapply matches_name|done].
      * rewrite He in Hmk, Hs by done. right. split; [|apply H1; by exists k]. intros <-. by rewrite Hno in Hmk.
  - intros nm' k k' Hk Hk' Hmk Hmk'. destruct (decide (k = j)) as [->|Hkj], (decide (k' = j)) as [->|Hkj']; [done| | |].
    + rewrite He in Hmk' by done. assert (nm = nm') as <- by by eapply matches_name. by rewrite Hno in Hmk'.
    + rewrite He in Hmk by done. assert (nm = nm') as <- by by eapply matches_name. by rewrite Hno in Hmk.
    + rewrite He in Hmk, Hmk' by done. by apply (H2 nm').
Qed.

(** The entry of a name has been freed. *)
Lemma names_delete b b' d N nm j : names_ok b d N -> 0 <= j < entries d -> matches nm (rentry b d j) = true ->
  in_use (rentry b' d j) = false -> (forall k, 0 <= k < entries d -> k <> j -> rentry b' d k = rentry b d k) ->
  names_ok b' d (delete nm N).
Proof.
  intros [H1 H2] Hj Hm Hfree He. split.
  - intros nm' sec. rewrite lookup_delete_Some, H1. split.
    + intros (Hne & k & Hk & Hmk & Hs). exists k. rewrite He; [done|done|]. intros ->. by apply Hne, (matches_name _ _ (rentry b d j)).
    + intros (k & Hk & Hmk & Hs). destruct (decide (k = j)) as [->|Hkj]; [by rewrite (matches_unused _ _ Hfree) in Hmk|].
      rewrite He in Hmk, Hs by done. split; [|by exists k]. intros ->. by apply Hkj, (H2 nm').
  - intros nm' k k' Hk Hk' Hmk Hmk'.
    destruct (decide (k = j)) as [->|Hkj]; [by rewrite (matches_unused _ _ Hfree) in Hmk|].
    destruct (decide (k' = j)) as [->|Hkj']; [by rewrite (matches_unused _ _ Hfree) in Hmk'|].
    rewrite He in Hmk, Hmk' by done. by apply (H2 nm').
Qed.

(** With every entry in use there are as many names as entries. *)
Lemma names_full b d N : names_ok b d N -> (forall k, 0 <= k < entries d -> in_use (rentry b d k) = true) ->
  entries d <= Z.of_nat (base.size N).
Proof.
  intros [H1 H2] Hu. set (name := fun k => c_string (e_name (rentry b d k))).
  assert (forall k, 0 <= k < entries d -> matches (name k) (rentry b d k) = true) as Hm.
  { intros k Hk. unfold matches, same_name. rewrite Hu by done. by apply bool_decide_eq_true_2. }
  assert (name <$> seqZ 0 (entries d) ⊆+ (map_to_list N).*1) as Hsub.
  { apply NoDup_submseteq.
    - apply NoDup_fmap_2_strong; [|apply NoDup_seqZ]. intros x y Hx%elem_of_seqZ Hy%elem_of_seqZ E.
      apply (H2 (name x)); [lia|lia|apply Hm; lia|]. rewrite E. apply Hm. lia.
    - intros nm (k & -> & Hk%elem_of_seqZ)%list_elem_of_fmap. apply list_elem_of_fmap.
      exists (name k, inode_sector (rentry b d k)). split; [done|]. apply elem_of_map_to_list, H1.
      exists k. split; [lia|]. split; [|done]. apply Hm. lia. }
  apply submseteq_length in Hsub. rewrite !length_fmap, length_seqZ, length_map_to_list in Hsub. lia.
Qed.
End Root.
