(* ===== verification/FsAbstract.v ===== *)
(** * What the file system promises

    Files as byte strings of fixed length, a flat table of names, and open
    handles with their positions.  [fs_op] are the calls of filesys.c and file.c,
    [run_op] the detailed operations, and [astep] what a call may do to an
    abstract file system and what it returns. *)

From S2P Require Import Prelude Vaddr KList Bitmap Block FileSys FileSpec DirSpec.

(** An open file: which one, where, and whether it denies writes to the file. *)
Record handle := mk_handle { h_id : Z; h_pos : Z; h_deny : bool }.

(** Names of files, contents of files (also of those that have lost their name
    and are still open), and handles. *)
Record afs := mk_afs {
  a_names : gmap (list Z) Z;
  a_data : gmap Z (list Z);
  a_open : gmap Z handle
}.

Inductive fs_op :=
| Create (nm : list Z) (initial_size : Z)
| Open (nm : list Z)
| Remove (nm : list Z)
| Close (f : Z)
| Read (f sz : Z)
| Write (f : Z) (buffer : list Z)
| Seek (f new_pos : Z)
| Tell (f : Z)
| Length (f : Z)
| Deny (f : Z)
| Allow (f : Z).

Inductive fs_res :=
| RUnit
| RBool (r : bool)
| RFile (f : Z)
| RBytes (bs : list Z)
| RInt (z : Z).

(** ** The calls *)

Section Run.
Context {dev : Type} `{BlockDriver dev}.

(** [junk] is what the uninitialised local of [dir_add] holds. *)
Definition run_op (junk : list Z) (o : fs_op) : M (fs dev) fs_res :=
  match o with
  | Create nm sz => r ← filesys_create junk nm sz; mret (RBool r)
  | Open nm => f ← filesys_open nm; mret (RFile f)
  | Remove nm => r ← filesys_remove nm; mret (RBool r)
  | Close f => file_close f ;; mret RUnit
  | Read f sz => bs ← file_read f sz; mret (RBytes bs)
  | Write f buf => w ← file_write f buf (zlen buf); mret (RInt w)
  | Seek f p => file_seek f p ;; mret RUnit
  | Tell f => p ← file_tell f; mret (RInt p)
  | Length f => l ← file_length f; mret (RInt l)
  | Deny f => file_deny_write f ;; mret RUnit
  | Allow f => file_allow_write f ;; mret RUnit
  end.
End Run.

(** ** The abstract file system *)

(** Bytes from [p] on, at most [n]; and [l] with [bs] stored from [p] on, as
    much as fits. *)
Definition bytes_at (l : list Z) (p n : Z) : list Z := take (Z.to_nat n) (drop (Z.to_nat p) l).
Definition splice (l : list Z) (p : Z) (bs : list Z) : list Z :=
  take (Z.to_nat p) l ++ take (length l - Z.to_nat p) bs ++ drop (Z.to_nat p + length bs) l.
Definition fits (l : list Z) (p : Z) (bs : list Z) : Z := zlen (take (length l - Z.to_nat p) bs).

(** Does the file still have a name?  Is it open?  Are writes to it denied? *)
Definition named (a : afs) (id : Z) : bool := bool_decide (map_Exists (fun _ i => i = id) (a_names a)).
Definition opened_id (a : afs) (id : Z) : bool := bool_decide (map_Exists (fun _ h => h_id h = id) (a_open a)).
Definition denied (a : afs) (id : Z) : bool :=
  bool_decide (map_Exists (fun _ h => h_id h = id /\ h_deny h = true) (a_open a)).

(** The contents of a file with neither name nor handle are dropped. *)
Definition collect (id : Z) (a : afs) : afs :=
  if named a id || opened_id a id then a else mk_afs (a_names a) (delete id (a_data a)) (a_open a).

Definition set_open (f : Z) (h : handle) (a : afs) : afs := mk_afs (a_names a) (a_data a) (<[f := h]> (a_open a)).

(** [astep room cap a o r a']: call [o] may take [a] to [a'] and return [r], when
    the directory has [cap] entries and [room] says for which lengths the device
    has space. *)
Inductive astep (room : Z -> Prop) (cap : Z) (a : afs) : fs_op -> fs_res -> afs -> Prop :=
| A_create nm sz id : valid_name nm -> a_names a !! nm = None -> a_data a !! id = None ->
    astep room cap a (Create nm sz) (RBool true)
      (mk_afs (<[nm := id]> (a_names a)) (<[id := replicate (Z.to_nat sz) 0]> (a_data a)) (a_open a))
| A_create_fails nm sz : ~ valid_name nm \/ is_Some (a_names a !! nm) \/ cap <= Z.of_nat (base.size (a_names a)) \/ ~ room sz ->
    astep room cap a (Create nm sz) (RBool false) a
| A_open_file nm id f : a_names a !! nm = Some id -> a_open a !! f = None -> f <> NULL ->
    astep room cap a (Open nm) (RFile f) (set_open f (mk_handle id 0 false) a)
| A_open_fails nm : a_names a !! nm = None -> astep room cap a (Open nm) (RFile NULL) a
| A_remove nm id : a_names a !! nm = Some id ->
    astep room cap a (Remove nm) (RBool true) (collect id (mk_afs (delete nm (a_names a)) (a_data a) (a_open a)))
| A_remove_fails nm : a_names a !! nm = None -> astep room cap a (Remove nm) (RBool false) a
| A_close f h : a_open a !! f = Some h ->
    astep room cap a (Close f) RUnit (collect (h_id h) (mk_afs (a_names a) (a_data a) (delete f (a_open a))))
| A_close_null : astep room cap a (Close NULL) RUnit a
| A_read f id p dw l sz : a_open a !! f = Some (mk_handle id p dw) -> a_data a !! id = Some l ->
    astep room cap a (Read f sz) (RBytes (bytes_at l p sz)) (set_open f (mk_handle id (p + zlen (bytes_at l p sz)) dw) a)
| A_write f id p dw l bs : a_open a !! f = Some (mk_handle id p dw) -> a_data a !! id = Some l -> denied a id = false ->
    astep room cap a (Write f bs) (RInt (fits l p bs))
      (mk_afs (a_names a) (<[id := splice l p bs]> (a_data a)) (<[f := mk_handle id (p + fits l p bs) dw]> (a_open a)))
| A_write_denied f h bs : a_open a !! f = Some h -> denied a (h_id h) = true ->
    astep room cap a (Write f bs) (RInt 0) a
| A_seek f id p dw p' : a_open a !! f = Some (mk_handle id p dw) ->
    astep room cap a (Seek f p') RUnit (set_open f (mk_handle id p' dw) a)
| A_tell f h : a_open a !! f = Some h -> astep room cap a (Tell f) (RInt (h_pos h)) a
| A_length f h l : a_open a !! f = Some h -> a_data a !! h_id h = Some l -> astep room cap a (Length f) (RInt (zlen l)) a
| A_deny f id p dw : a_open a !! f = Some (mk_handle id p dw) ->
    astep room cap a (Deny f) RUnit (set_open f (mk_handle id p true) a)
| A_allow f id p dw : a_open a !! f = Some (mk_handle id p dw) ->
    astep room cap a (Allow f) RUnit (set_open f (mk_handle id p false) a).

(** The counts of openers are 32-bit [int]s. *)
Definition MAX_OPEN : Z := 2 ^ 31 - 4.

(** What callers owe: names are C strings, lengths and positions stay in [off_t],
    handles are open, and not 2^31 files are. *)
Definition op_pre (a : afs) (o : fs_op) : Prop :=
  match o with
  | Create nm sz => Forall (fun c => 0 < c < 256) nm /\ 0 <= sz < 2 ^ 31 - 512
  | Open _ => Z.of_nat (base.size (a_open a)) < MAX_OPEN
  | Remove _ => True
  | Close f => f = NULL \/ is_Some (a_open a !! f)
  | Read f sz => exists h, a_open a !! f = Some h /\ 0 <= sz /\ h_pos h + sz < 2 ^ 31
  | Write f bs => exists h, a_open a !! f = Some h /\ h_pos h + zlen bs < 2 ^ 31
  | Seek f p => is_Some (a_open a !! f) /\ 0 <= p < 2 ^ 31
  | Tell f | Length f | Deny f | Allow f => is_Some (a_open a !! f)
  end.

(** ** Facts *)

Lemma named_true a id : named a id = true <-> exists nm, a_names a !! nm = Some id.
Proof. unfold named. rewrite bool_decide_eq_true, map_Exists_lookup. naive_solver. Qed.

Lemma named_false a id : named a id = false <-> forall nm, a_names a !! nm <> Some id.
Proof. rewrite <- not_true_iff_false, named_true. naive_solver. Qed.

Lemma opened_id_true a id : opened_id a id = true <-> exists f h, a_open a !! f = Some h /\ h_id h = id.
Proof. unfold opened_id. by rewrite bool_decide_eq_true, map_Exists_lookup. Qed.

Lemma denied_true a id : denied a id = true <-> exists f h, a_open a !! f = Some h /\ h_id h = id /\ h_deny h = true.
Proof. unfold denied. by rewrite bool_decide_eq_true, map_Exists_lookup. Qed.

Lemma length_splice l p bs : 0 <= p -> length (splice l p bs) = length l.
Proof. intros Hp. unfold splice. rewrite !length_app, !length_take, length_drop. lia. Qed.
