(* ===== verification/FsMid.v ===== *)
(** * The file system stands for an abstract one

    [mid] relates a state to an abstract file system, given the layout of its
    device, the openers of each inode and the files that are open; each step of
    the calls keeps it.  Between calls ([rep]) the openers are the open files. *)

From S2P Require Import Prelude Vaddr KList Bitmap Block FileSys FileSpec DirSpec FsLayout FsObjs FsRoot FsAbstract.

Section Mid.
Context {dev : Type} `{BlockDriver dev}.
Implicit Types (b : block dev) (s : fs dev) (n : inode) (d : inode_disk) (L : gmap Z inode_disk) (c : Z -> Z) (a : afs) (F : gmap Z file).

(** The handle of an open file. *)
Definition handle_of F (I : gmap Z inode) (f : Z) : option handle :=
  fl ← F !! f; n ← I !! f_inode fl; Some (mk_handle (sector n) (pos fl) (deny_write fl)).

Record mid (cap : Z) L c F a s : Prop := {
  md_inv : fs_inv L c s;
  md_files : F ⊆ files s;
  md_root : exists d, L !! 1 = Some d /\ entries d = cap /\ names_ok (fs_device s) d (a_names a);
  md_named : forall nm sec, a_names a !! nm = Some sec -> 1 < sec /\ is_Some (L !! sec);
  md_inj : forall nm nm' sec, a_names a !! nm = Some sec -> a_names a !! nm' = Some sec -> nm = nm';
  md_data : forall sec, a_data a !! sec = if sec <=? 1 then None else fcontent (fs_device s) <$> L !! sec;
  md_inode : forall i n, inodes s !! i = Some n -> deny_write_cnt n = denies F i /\
    removed n = if 1 <? sector n then negb (named a (sector n)) else false;
  md_file : forall f fl, F !! f = Some fl -> 0 < f < brk s /\ 0 <= pos fl /\
    exists n, inodes s !! f_inode fl = Some n /\ if f =? free_map_file s then sector n = 0 else 1 < sector n;
  md_open : forall f, a_open a !! f = if f =? free_map_file s then None else handle_of F (inodes s) f
}.

(** The openers are exactly the files, and the root directory is closed. *)
Record rep (cap : Z) a s : Prop := {
  rp_mid : exists L, mid cap L (refs (files s)) (files s) a s;
  rp_closed : forall i n, inodes s !! i = Some n -> sector n <> 1;
  rp_few : Z.of_nat (base.size (files s)) <= MAX_OPEN + 1
}.

(** ** Extensionality in the counts *)

Lemma objs_ext L c c' s : (forall i, c' i = c i) -> objs L c s -> objs L c' s.
Proof. intros E [H1 H2 H3 H4 H5]. split; try done; intros i; rewrite ?E; auto. Qed.

Lemma inv_ext L c c' s : (forall i, c' i = c i) -> fs_inv L c s -> fs_inv L c' s.
Proof. intros E [H1 H2 H3 H4]. split; [done|done|by eapply objs_ext|done]. Qed.

Lemma mid_ext cap L c c' F a s : (forall i, c' i = c i) -> mid cap L c F a s -> mid cap L c' F a s.
Proof. intros E []. split; try done. by eapply inv_ext. Qed.

(** ** Steps on the device *)

(** A step keeps the invariant when it writes no inode's sector and not the free
    map, which may have more or fewer bits, but not for owned sectors. *)
Lemma inv_device L c s s' W nm : fs_inv L c s -> fs_step W s s' -> fs_ready s' -> map_inv s' nm -> L !! 0 = Some (data nm) -> sector nm = 0 ->
  bit_cnt (free_map s') = bit_cnt (free_map s) ->
  (forall sec d, L !! sec = Some d -> ~ W sec) ->
  (forall sec d t, L !! sec = Some d -> owns sec d t -> bit (free_map s') t = true) -> fs_inv L c s'.
Proof.
  intros [Hr Hl Ho _] Hs Hr' Hm H0 Hz Hc Hw Hb. split; [done| | |by exists nm].
  - eapply layout_step; [exact Hl|apply Hr|exact (st_dev _ _ _ Hs)|done|exact Hw|exact Hb].
  - eapply objs_mono; [exact Ho|apply Hs|apply Hs|apply Hs|done].
Qed.

(** The free map stays as it is. *)
Lemma fs_inv_step L c s s' W : fs_inv L c s -> fs_step W s s' -> free_map s' = free_map s ->
  (forall sec d, L !! sec = Some d -> ~ W sec) -> (forall d t, L !! 0 = Some d -> data_sector d t -> ~ W t) -> fs_inv L c s'.
Proof.
  intros Hi Hs E Hw H0. pose proof Hi as [Hr Hl Ho (nm & Hm & Hz & HL)].
  assert (map_inv s' nm) as Hm' by (eapply map_inv_step; [exact Hm|exact Hs|done|apply Hr|intros t; by apply H0]).
  eapply inv_device; [exact Hi|exact Hs| |exact Hm'|done|done|by rewrite E|exact Hw|rewrite E; apply Hl].
  eapply ready_step; [exact Hr|exact Hs|rewrite E; apply Hr|by rewrite E].
Qed.

(** What a step of the device does to the relation: contents change as the bytes
    do, and the root keeps its names. *)
Lemma mid_device cap L c F a s s' W D : mid cap L c F a s -> fs_step W s s' -> fs_inv L c s' ->
  (forall d, L !! 1 = Some d -> names_ok (fs_device s') d (a_names a)) ->
  (forall sec, D !! sec = if sec <=? 1 then None else fcontent (fs_device s') <$> L !! sec) ->
  mid cap L c F (mk_afs (a_names a) D (a_open a)) s'.
Proof.
  intros [Hi Hf (d & Hd & Hcap & Hn) Hnm Hij Hda Hin Hfl Hop] [Sd Sf So Si Sfs Sds Sm Sb] Hi' Hroot HD. split; try done; rewrite ?Si, ?Sf, ?Sfs; try done.
  - exists d. split; [done|]. split; [done|]. by apply Hroot.
  - intros f fl E. destruct (Hfl f fl E) as (? & ? & ?). split; [lia|done].
Qed.

Lemma afs_eta a : mk_afs (a_names a) (a_data a) (a_open a) = a.
Proof. by destruct a. Qed.

Lemma same_data L s s' (D : gmap Z (list Z)) : same_content L s s' ->
  (forall sec, D !! sec = if sec <=? 1 then None else fcontent (fs_device s) <$> L !! sec) ->
  forall sec, D !! sec = if sec <=? 1 then None else fcontent (fs_device s') <$> L !! sec.
Proof.
  intros Hs HD sec. rewrite HD. destruct (Z.leb_spec sec 1); [done|]. destruct (L !! sec) as [d|] eqn:E; [|done].
  cbn. by rewrite (Hs sec d E) by lia.
Qed.

(** A step that changes no contents. *)
Lemma mid_same cap L c F a s s' W : mid cap L c F a s -> fs_step W s s' -> fs_inv L c s' -> same_content L s s' -> mid cap L c F a s'.
Proof.
  intros Hm Hs Hi' Hc. rewrite <- (afs_eta a). eapply mid_device; [exact Hm|exact Hs|done| |].
  - intros d Hd. destruct (md_root _ _ _ _ _ _ Hm) as (d' & Hd' & _ & Hn). rewrite Hd in Hd'. injection Hd' as <-.
    eapply names_content; [|exact Hn]. by apply (Hc 1 d Hd).
  - eapply same_data; [exact Hc|]. apply Hm.
Qed.

(** Nothing is written. *)
Lemma mid_quiet cap L c F a s s' : mid cap L c F a s -> fs_step (fun _ => False) s s' -> free_map s' = free_map s -> mid cap L c F a s'.
Proof.
  intros Hm Hs E. pose proof (md_inv _ _ _ _ _ _ Hm) as Hi.
  eapply mid_same; [exact Hm|exact Hs|by eapply fs_inv_step; eauto|]. by eapply step_same_content; eauto.
Qed.

Lemma only_quiet s s' : only_device s s' (dbyte (fs_device s)) -> fs_step (fun _ => False) s s' /\ free_map s' = free_map s.
Proof. intros Ho. eapply only_device_step; [exact Ho|done]. Qed.

Lemma mid_only cap L c F a s s' : mid cap L c F a s -> only_device s s' (dbyte (fs_device s)) -> mid cap L c F a s'.
Proof. intros Hm Ho. destruct (only_quiet _ _ Ho). by eapply mid_quiet. Qed.

Lemma mid_malloc cap L c F a s : mid cap L c F a s -> exists s', malloc s = Done (brk s, s') /\ mid cap L c F a s' /\
  fs_step (fun _ => False) s s' /\ brk s' = brk s + 1 /\ 0 < brk s.
Proof.
  intros Hm. pose proof (fi_ready _ _ _ (md_inv _ _ _ _ _ _ Hm)) as Hr.
  destruct (malloc_step s Hr) as (s' & Hrun & Hs & E & _ & Hb). exists s'. split; [done|]. split; [by eapply mid_quiet|].
  split; [done|]. split; [done|]. apply Hr.
Qed.

Lemma inv_set_dirs L c s D : fs_inv L c s -> fs_inv L c (set_dirs D s).
Proof.
  intros [[R1 R2 R3] Hl [O1 O2 O3 O4 O5] (nm & [M1 M2 M3] & Hz & HL)]. split; [by split|done|by split|].
  exists nm. split; [|done]. split; [done| |done]. destruct M2 as (fl & ? & ? & ? & ? & ?). by exists fl.
Qed.

Lemma mid_set_dirs cap L c F a s D : mid cap L c F a s -> mid cap L c F a (set_dirs D s).
Proof. intros []. split; try done. by apply inv_set_dirs. Qed.

(** ** Open files and their inodes *)

Lemma mid_inode cap L c F a s i n : mid cap L c F a s -> inodes s !! i = Some n ->
  L !! sector n = Some (data n) /\ 0 < i < brk s /\ open_cnt n = c i /\ 0 < c i /\ wf_inode (fs_device s) n.
Proof.
  intros Hm Hi. destruct (md_inv _ _ _ _ _ _ Hm) as [Hr Hl Ho _].
  destruct (objs_inode _ _ _ _ _ Ho Hi) as (HL & ? & ? & ?). repeat (split; [done|]).
  eapply layout_wf_inode; [exact Hl|apply Hr|done].
Qed.

(** A handle, with the file, the inode and the contents behind it. *)
Lemma mid_handle cap L c F a s f h : mid cap L c F a s -> a_open a !! f = Some h ->
  exists fl n, F !! f = Some fl /\ files s !! f = Some fl /\ inodes s !! f_inode fl = Some n /\ f <> free_map_file s /\ f <> NULL /\
    h = mk_handle (sector n) (pos fl) (deny_write fl) /\ 1 < sector n /\ 0 <= pos fl /\
    a_data a !! sector n = Some (fcontent (fs_device s) (data n)).
Proof.
  intros Hm Hh. rewrite (md_open _ _ _ _ _ _ Hm) in Hh. destruct (Z.eqb_spec f (free_map_file s)) as [|Hf]; [done|].
  unfold handle_of in Hh. destruct (F !! f) as [fl|] eqn:Ef; [|done]. cbn in Hh.
  destruct (inodes s !! f_inode fl) as [n|] eqn:En; [|done]. cbn in Hh. injection Hh as <-. exists fl, n.
  destruct (md_file _ _ _ _ _ _ Hm f fl Ef) as (Hb & Hp & n' & Hn' & Hs). rewrite En in Hn'. injection Hn' as <-.
  rewrite (proj2 (Z.eqb_neq _ _) Hf) in Hs. split; [done|]. split; [by eapply lookup_weaken; [|apply Hm]|]. split; [done|].
  split; [done|]. split; [unfold NULL; lia|]. repeat (split; [done|]).
  rewrite (md_data _ _ _ _ _ _ Hm). rewrite (proj2 (Z.leb_gt _ _) Hs).
  destruct (mid_inode _ _ _ _ _ _ _ _ Hm En) as (-> & _). done.
Qed.

(** An inode has a handle exactly when a file is open on it. *)
Lemma mid_opened cap L c F a s i n : mid cap L c F a s -> inodes s !! i = Some n -> 1 < sector n ->
  opened_id a (sector n) = (0 <? refs F i).
Proof.
  intros Hm Hn Hs. apply eq_true_iff_eq. rewrite opened_id_true, Z.ltb_lt. split.
  - intros (f & h & Hf & Hid). destruct (mid_handle _ _ _ _ _ _ _ _ Hm Hf) as (fl & n' & Hfl & _ & Hn' & _ & _ & -> & _). cbn in Hid.
    apply (count_pos _ _ f fl Hfl). apply Z.eqb_eq. by eapply (ob_sector _ _ _ (fi_objs _ _ _ (md_inv _ _ _ _ _ _ Hm))).
  - intros Hr. destruct (decide (map_Exists (fun _ fl => f_inode fl = i) F)) as [He|He].
    + apply map_Exists_lookup in He as (f & fl & Hf & <-). exists f, (mk_handle (sector n) (pos fl) (deny_write fl)).
      split; [|done]. rewrite (md_open _ _ _ _ _ _ Hm). destruct (md_file _ _ _ _ _ _ Hm f fl Hf) as (_ & _ & n' & Hn' & Hc).
      rewrite Hn in Hn'. injection Hn' as <-. destruct (f =? free_map_file s); [lia|]. unfold handle_of. rewrite Hf. cbn. by rewrite Hn.
    + unfold refs in Hr. rewrite count_zero in Hr; [done|]. intros f fl Hf. apply Z.eqb_neq. intros E. apply He.
      apply map_Exists_lookup. by exists f, fl.
Qed.

Lemma mid_denied cap L c F a s i n : mid cap L c F a s -> inodes s !! i = Some n -> 1 < sector n ->
  denied a (sector n) = negb (deny_write_cnt n =? 0).
Proof.
  intros Hm Hn Hs. destruct (md_inode _ _ _ _ _ _ Hm i n Hn) as [-> _]. apply eq_true_iff_eq. rewrite denied_true, negb_true_iff, Z.eqb_neq. split.
  - intros (f & h & Hf & Hid & Hd). destruct (mid_handle _ _ _ _ _ _ _ _ Hm Hf) as (fl & n' & Hfl & _ & Hn' & _ & _ & -> & _). cbn in Hid, Hd.
    assert (0 < denies F i); [|lia]. apply (count_pos _ _ f fl Hfl). rewrite Hd, andb_true_r. apply Z.eqb_eq.
    by eapply (ob_sector _ _ _ (fi_objs _ _ _ (md_inv _ _ _ _ _ _ Hm))).
  - intros Hr. destruct (decide (map_Exists (fun _ fl => f_inode fl = i /\ deny_write fl = true) F)) as [He|He].
    + apply map_Exists_lookup in He as (f & fl & Hf & <- & Hd). exists f, (mk_handle (sector n) (pos fl) (deny_write fl)).
      split; [|done]. rewrite (md_open _ _ _ _ _ _ Hm). destruct (md_file _ _ _ _ _ _ Hm f fl Hf) as (_ & _ & n' & Hn' & Hc).
      rewrite Hn in Hn'. injection Hn' as <-. destruct (f =? free_map_file s); [lia|]. unfold handle_of. rewrite Hf. cbn. by rewrite Hn.
    + exfalso. apply Hr. apply count_zero. intros f fl Hf. apply andb_false_iff. destruct (deny_write fl) eqn:Ed; [left|by right].
      apply Z.eqb_neq. intros E. apply He. apply map_Exists_lookup. by exists f, fl.
Qed.

(** There are at most as many files as handles and the free map's. *)
Lemma mid_size cap L c F a s : mid cap L c F a s -> Z.of_nat (base.size F) <= Z.of_nat (base.size (a_open a)) + 1.
Proof.
  intros Hm. assert (base.size (delete (free_map_file s) F) <= base.size (a_open a))%nat as Hle.
  { rewrite <- !size_dom. apply subseteq_size. intros f Hf. apply elem_of_dom in Hf as [fl [Hne Hf]%lookup_delete_Some].
    apply elem_of_dom. rewrite (md_open _ _ _ _ _ _ Hm). rewrite (proj2 (Z.eqb_neq _ _)) by done.
    destruct (md_file _ _ _ _ _ _ Hm f fl Hf) as (_ & _ & n & Hn & _). unfold handle_of. rewrite Hf. cbn. rewrite Hn. by eexists. }
  pose proof (map_size_delete (free_map_file s) F) as Hd. destruct (F !! free_map_file s) as [x|]; cbn in Hd; lia.
Qed.
End Mid.
