(* ===== verification/FsTable.v ===== *)
(** * Opening and closing under the abstraction

    What [inode_open], [inode_close], a change of an open file, a new file and
    the removal of a name do to the relation [mid]. *)

From S2P Require Import Prelude Vaddr KList Bitmap Block FileSys FileSpec DirSpec FsLayout FsObjs FsRoot FsAbstract FsMid.

Section Table.
Context {dev : Type} `{BlockDriver dev}.
Implicit Types (b : block dev) (s : fs dev) (n : inode) (d : inode_disk) (L : gmap Z inode_disk) (c : Z -> Z) (a : afs) (F : gmap Z file).

Lemma handle_of_same F (I I' : gmap Z inode) f :
  (forall fl n, F !! f = Some fl -> I !! f_inode fl = Some n -> exists n', I' !! f_inode fl = Some n' /\ sector n' = sector n) ->
  (forall fl, F !! f = Some fl -> is_Some (I !! f_inode fl)) -> handle_of F I' f = handle_of F I f.
Proof.
  intros Hn Hs. unfold handle_of. destruct (F !! f) as [fl|]; [|done]. cbn. destruct (Hs fl eq_refl) as [n En].
  destruct (Hn fl n eq_refl En) as (n' & -> & Es). rewrite En. cbn. by rewrite Es.
Qed.

(** The inode table changes, and with it the openers. *)
Lemma mid_table cap L c c' F a s s' : mid cap L c F a s -> keeps s s' -> fs_inv L c' s' ->
  (forall f fl n, F !! f = Some fl -> inodes s !! f_inode fl = Some n ->
     exists n', inodes s' !! f_inode fl = Some n' /\ sector n' = sector n) ->
  (forall i n, inodes s' !! i = Some n -> deny_write_cnt n = denies F i /\
     removed n = if 1 <? sector n then negb (named a (sector n)) else false) -> mid cap L c' F a s'.
Proof.
  intros [Hi Hf (d & Hd & Hcap & Hn) Hnm Hij Hda Hin Hfl Hop] Hk Hi' Hsec Hin'.
  pose proof (keeps_content L s s' (fi_layout _ _ _ Hi) (rd_device _ (fi_ready _ _ _ Hi)) Hk) as Hc. split; try done.
  - by rewrite (kp_files _ _ Hk).
  - exists d. split; [done|]. split; [done|]. eapply names_content; [|exact Hn]. by apply (Hc 1 d Hd).
  - by eapply same_data.
  - intros f fl Ef. destruct (Hfl f fl Ef) as (Hb & Hp & n & En & Hs). pose proof (kp_brk _ _ Hk).
    split; [lia|]. split; [done|]. destruct (Hsec f fl n Ef En) as (n' & En' & Es). exists n'. by rewrite (kp_file _ _ Hk), Es.
  - intros f. rewrite Hop, (kp_file _ _ Hk). destruct (f =? free_map_file s); [done|]. symmetry. apply handle_of_same.
    + intros fl n. apply Hsec.
    + intros fl Ef. destruct (Hfl f fl Ef) as (_ & _ & n & En & _). by exists n.
Qed.

(** No file is open on an inode that is not there. *)
Lemma mid_no_refs cap L c F a s i : mid cap L c F a s -> inodes s !! i = None -> denies F i = 0.
Proof.
  intros Hm Hi. apply count_zero. intros f fl Ef. apply andb_false_iff. left. apply Z.eqb_neq. intros <-.
  destruct (md_file _ _ _ _ _ _ Hm f fl Ef) as (_ & _ & n & En & _). by rewrite Hi in En.
Qed.

Lemma mid_open cap L c F a s sec d : mid cap L c F a s -> L !! sec = Some d -> sec = 1 \/ (1 < sec /\ named a sec = true) ->
  (forall i, c i < 2 ^ 31 - 1) ->
  exists i s' n, inode_open sec s = Done (i, s') /\ 0 < i /\ keeps s s' /\ opened L sec s i s' /\ mid cap L (bump c i 1) F a s' /\
    inodes s' !! i = Some n /\ sector n = sec /\ L !! sec = Some (data n).
Proof.
  intros Hm Hd Hsec Hc. destruct (inv_open L c s sec d (md_inv _ _ _ _ _ _ Hm) Hd ltac:(lia) Hc)
    as (i & s' & Hrun & Hi & Hk & Hop & Hinv & (n & Hn & Hns) & _).
  exists i, s', n. split; [done|]. split; [done|]. split; [done|]. split; [done|]. split.
  2:{ split; [done|]. split; [done|]. destruct (objs_inode _ _ _ _ _ (fi_objs _ _ _ Hinv) Hn) as (HL & _). by rewrite <- Hns. }
  eapply mid_table; [exact Hm|exact Hk|exact Hinv| |].
  - intros f fl m Ef Em. destruct Hop as [(m' & Em' & _ & -> & _)|(d' & _ & Ei & _ & -> & _)].
    + destruct (decide (f_inode fl = i)) as [E|E].
      * rewrite E in *. rewrite Em in Em'. injection Em' as <-. exists (add_open m 1). by rewrite lookup_insert_eq.
      * exists m. by rewrite lookup_insert_ne.
    + exists m. rewrite lookup_insert_ne; [done|]. intros E. destruct (mid_inode _ _ _ _ _ _ _ _ Hm Em) as (_ & ? & _). lia.
  - intros j m Em. destruct Hop as [(m' & Em' & _ & E & _)|(d' & _ & Ei & _ & E & _)]; rewrite E in Em;
      apply lookup_insert_Some in Em as [[<- <-]|[_ Em]]; try by eapply md_inode.
    + cbn. by eapply md_inode.
    + cbn. assert (inodes s !! i = None) as Hno.
      { destruct (inodes s !! i) as [m|] eqn:Em; [|done]. destruct (mid_inode _ _ _ _ _ _ _ _ Hm Em) as (_ & ? & _). lia. }
      rewrite (mid_no_refs _ _ _ _ _ _ _ Hm Hno). split; [done|]. destruct Hsec as [->|[Hs1 ->]]; [done|].
      by rewrite (proj2 (Z.ltb_lt 1 sec) Hs1).
Qed.

(** ** inode_close *)

(** Inodes after closing [i]: those of the files are still there. *)
Lemma closed_inodes cap L c F a s i n s' : mid cap L c F a s -> inodes s !! i = Some n -> refs F i < c i -> closed s i n s' ->
  (forall f fl m, F !! f = Some fl -> inodes s !! f_inode fl = Some m ->
     exists m', inodes s' !! f_inode fl = Some m' /\ sector m' = sector m) /\
  (forall j m, inodes s' !! j = Some m -> exists m', inodes s !! j = Some m' /\ sector m = sector m' /\
     deny_write_cnt m = deny_write_cnt m' /\ removed m = removed m' /\ (open_cnt n = 1 -> j <> i)).
Proof.
  intros Hm Hn Hr (_ & _ & _ & _ & Hc). destruct (mid_inode _ _ _ _ _ _ _ _ Hm Hn) as (_ & _ & Hcnt & Hpos & _).
  destruct (Z.eqb_spec (open_cnt n) 1) as [E1|E1]; destruct Hc as [-> _]; split.
  - intros f fl m Ef Em. exists m. rewrite lookup_delete_ne; [done|]. intros ->.
    pose proof (count_pos (on_inode (f_inode fl)) F f fl Ef (Z.eqb_refl _)). unfold refs in Hr. lia.
  - intros j m [Hne Em]%lookup_delete_Some. exists m. repeat (split; [done|]). by intros _ ->.
  - intros f fl m Ef Em. destruct (decide (f_inode fl = i)) as [E|E].
    + rewrite E in *. rewrite Em in Hn. injection Hn as ->. exists (add_open n (-1)). by rewrite lookup_insert_eq.
    + exists m. by rewrite lookup_insert_ne.
  - intros j m [[<- <-]|[Hne Em]]%lookup_insert_Some; [by exists n|by exists m].
Qed.

Lemma mid_close_plain cap L c F a s i n : mid cap L c F a s -> inodes s !! i = Some n -> sector n <> 0 -> c i < 2 ^ 31 ->
  refs F i < c i -> (open_cnt n =? 1) && removed n = false ->
  exists s', inode_close i s = Done (tt, s') /\ closed s i n s' /\ mid cap L (bump c i (-1)) F a s'.
Proof.
  intros Hm Hn Hs Hc Hr Hcase. destruct (inv_close_plain L c s i n (md_inv _ _ _ _ _ _ Hm) Hn Hs Hc Hcase) as (s' & Hrun & Hk & Hcl & Hinv).
  exists s'. split; [done|]. split; [done|]. destruct (closed_inodes _ _ _ _ _ _ _ _ _ Hm Hn Hr Hcl) as [H1 H2].
  eapply mid_table; [exact Hm|exact Hk|exact Hinv|exact H1|]. intros j m Em. destruct (H2 j m Em) as (m' & Em' & -> & -> & -> & _).
  by eapply md_inode.
Qed.

(** The last opener of a file without a name: the contents go. *)
Lemma mid_close_removed cap L c F a s i n : mid cap L c F a s -> inodes s !! i = Some n -> c i < 2 ^ 31 ->
  refs F i < c i -> open_cnt n = 1 -> removed n = true ->
  exists s', inode_close i s = Done (tt, s') /\ closed s i n s' /\ 1 < sector n /\
    mid cap (delete (sector n) L) (bump c i (-1)) F (mk_afs (a_names a) (delete (sector n) (a_data a)) (a_open a)) s'.
Proof.
  intros Hm Hn Hc Hr H1 Hrm. destruct (md_inode _ _ _ _ _ _ Hm i n Hn) as [_ Hre]. rewrite Hrm in Hre.
  destruct (Z.ltb_spec 1 (sector n)) as [Hs|]; [|done]. symmetry in Hre. apply negb_true_iff in Hre. rewrite named_false in Hre.
  destruct (inv_close_removed L c s i n (md_inv _ _ _ _ _ _ Hm) Hn ltac:(lia) Hc H1 Hrm) as (s' & Hrun & Hcl & Hinv & Hsame & _).
  exists s'. split; [done|]. split; [done|]. split; [done|]. destruct (closed_inodes _ _ _ _ _ _ _ _ _ Hm Hn Hr Hcl) as [I1 I2].
  destruct Hcl as (Hf & _ & Hff & Hb & _). destruct Hm as [Hi HF (d & Hd & Hcap & HN) Hnm Hij Hda Hin Hfl Hop]. split; try done.
  - by rewrite Hf.
  - exists d. rewrite lookup_delete_ne by lia. split; [done|]. split; [done|]. eapply names_content; [|exact HN].
    apply (Hsame 1); [by rewrite lookup_delete_ne by lia|done].
  - intros nm sec E. destruct (Hnm nm sec E) as [? HL]. split; [done|]. rewrite lookup_delete_ne; [done|]. intros <-. by apply (Hre nm).
  - apply (same_data _ s); [done|]. intros sec. cbn. destruct (decide (sec = sector n)) as [->|Hne].
    + rewrite !lookup_delete_eq. by destruct (sector n <=? 1).
    + by rewrite !lookup_delete_ne by done.
  - intros j m Em. destruct (I2 j m Em) as (m' & Em' & -> & -> & -> & _). by apply Hin.
  - intros f fl Ef. destruct (Hfl f fl Ef) as (? & ? & m & Em & Hsm). split; [lia|]. split; [done|].
    destruct (I1 f fl m Ef Em) as (m' & Em' & Es). exists m'. by rewrite Hff, Es.
  - intros f. cbn. rewrite Hop, Hff. destruct (f =? free_map_file s); [done|]. symmetry. apply handle_of_same.
    + intros fl m. apply I1.
    + intros fl Ef. destruct (Hfl f fl Ef) as (_ & _ & m & Em & _). by exists m.
Qed.

(** One opener beside the files goes. *)
Lemma mid_close cap L c F a s i n : mid cap L c F a s -> inodes s !! i = Some n -> 1 < sector n -> c i < 2 ^ 31 ->
  c i = refs F i + 1 ->
  exists L' s', inode_close i s = Done (tt, s') /\ closed s i n s' /\ mid cap L' (bump c i (-1)) F (collect (sector n) a) s'.
Proof.
  intros Hm Hn Hs Hc Hr. pose proof (mid_opened _ _ _ _ _ _ _ _ Hm Hn Hs) as Ho. destruct (md_inode _ _ _ _ _ _ Hm i n Hn) as [_ Hre].
  rewrite (proj2 (Z.ltb_lt _ _) Hs) in Hre. destruct (mid_inode _ _ _ _ _ _ _ _ Hm Hn) as (_ & _ & Hcnt & _).
  unfold collect. rewrite Ho. destruct (named a (sector n)) eqn:En; cbn [orb negb] in *.
  - destruct (mid_close_plain cap L c F a s i n Hm Hn) as (s' & Hrun & Hcl & Hm'); [lia|done|lia|by rewrite Hre, andb_false_r|].
    by exists L, s'.
  - destruct (Z.ltb_spec 0 (refs F i)) as [Hp|Hp].
    + destruct (mid_close_plain cap L c F a s i n Hm Hn) as (s' & Hrun & Hcl & Hm'); [lia|done|lia| |by exists L, s'].
      rewrite Hcnt. by rewrite (proj2 (Z.eqb_neq _ _)) by lia.
    + pose proof (count_size (on_inode i) F) as Hcz. unfold refs in Hp, Hr.
      destruct (mid_close_removed cap L c F a s i n Hm Hn) as (s' & Hrun & Hcl & _ & Hm'); [done|unfold refs; lia|lia|done|].
      by exists (delete (sector n) L), s'.
Qed.

(** ** Files *)

Lemma inv_set_files L c s m : fs_inv L c s -> m !! free_map_file s = files s !! free_map_file s -> fs_inv L c (set_files m s).
Proof.
  intros [[R1 R2 R3] Hl [O1 O2 O3 O4 O5] (nm & [M1 M2 M3] & Hz & HL)] Hf. split; [by split|done|by split|].
  exists nm. split; [|done]. split; [done| |done]. destruct M2 as (fl & ? & ? & ? & ? & ?). exists fl. cbn. by rewrite Hf.
Qed.

(** The free map's file is one of the table. *)
Lemma inv_map_file L c s : fs_inv L c s -> is_Some (files s !! free_map_file s).
Proof. intros [_ _ _ (nm & [_ (fl & Hf & _) _] & _)]. by exists fl. Qed.

(** An inode changes what it says besides its sector, its data and its openers. *)
Lemma inv_inode L c s i n n' : fs_inv L c s -> inodes s !! i = Some n -> sector n <> 0 ->
  sector n' = sector n -> open_cnt n' = open_cnt n -> data n' = data n -> fs_inv L c (set_inodes (<[i := n']> (inodes s)) s).
Proof.
  intros [[R1 R2 R3] Hl [O1 O2 O3 O4 O5] (nm & [M1 M2 M3] & Hz & HL)] Hn Hs E1 E2 E3. split; [by split|done| |].
  - split; try done.
    + intros j Hj. destruct (O2 j Hj) as (m & Em & ? & ? & ? & ?). destruct (decide (j = i)) as [->|Hne].
      * rewrite Em in Hn. injection Hn as ->. exists n'. cbn. by rewrite lookup_insert_eq, E1, E2, E3.
      * exists m. cbn. by rewrite lookup_insert_ne.
    + cbn. intros j m [[<- _]|[_ Em]]%lookup_insert_Some; by eapply O3.
    + cbn. intros j k' m m' [[<- <-]|[Hj Em]]%lookup_insert_Some [[<- <-]|[Hk' Em']]%lookup_insert_Some Es; try done.
      * apply (O4 i k' n m'); congruence.
      * apply (O4 j i m n); congruence.
      * by apply (O4 j k' m m').
  - exists nm. split; [|done]. split; [done| |done]. destruct M2 as (fl & Hfl & Hn' & ? & ? & ?). exists fl. cbn.
    rewrite lookup_insert_ne; [done|]. intros E. rewrite <- E, Hn in Hn'. injection Hn' as <-. done.
Qed.

Lemma handle_of_insert F I f fl f' : handle_of (<[f := fl]> F) I f' =
  if f' =? f then (n ← I !! f_inode fl; Some (mk_handle (sector n) (pos fl) (deny_write fl))) else handle_of F I f'.
Proof.
  unfold handle_of. destruct (Z.eqb_spec f' f) as [->|Hne]; [by rewrite lookup_insert_eq|by rewrite lookup_insert_ne].
Qed.

(** An open file changes its position, or whether it denies writes, of which its
    inode keeps count. *)
Lemma mid_update cap L c F a s f fl fl' n : mid cap L c F a s -> F !! f = Some fl -> f <> free_map_file s ->
  f_inode fl' = f_inode fl -> 0 <= pos fl' -> inodes s !! f_inode fl = Some n ->
  let n' := mk_inode (sector n) (open_cnt n) (removed n) (deny_write_cnt n + (one (deny_write fl') - one (deny_write fl))) (data n) in
  mid cap L c (<[f := fl']> F) (set_open f (mk_handle (sector n) (pos fl') (deny_write fl')) a)
    (set_files (<[f := fl']> (files s)) (set_inodes (<[f_inode fl := n']> (inodes s)) s)).
Proof.
  intros Hm Hf Hff Ei Hp Hn n'. destruct (md_file _ _ _ _ _ _ Hm f fl Hf) as (Hfb & _ & n2 & Hn2 & Hs).
  rewrite Hn in Hn2. injection Hn2 as <-. rewrite (proj2 (Z.eqb_neq _ _) Hff) in Hs.
  assert (forall f' g, F !! f' = Some g -> exists m, inodes s !! f_inode g = Some m /\ exists m',
    (<[f_inode fl := n']> (inodes s)) !! f_inode g = Some m' /\ sector m' = sector m) as Hsec.
  { intros f' g Eg. destruct (md_file _ _ _ _ _ _ Hm f' g Eg) as (_ & _ & m & Em & _). exists m. split; [done|].
    destruct (decide (f_inode g = f_inode fl)) as [E|E].
    - rewrite E in *. rewrite Em in Hn. injection Hn as ->. exists n'. by rewrite lookup_insert_eq.
    - exists m. by rewrite lookup_insert_ne. }
  destruct Hm as [Hi HF (d & Hd & Hcap & HN) Hnm Hij Hda Hin Hfl Hop]. split; try done.
  - apply (inv_set_files L c (set_inodes _ s)); [eapply inv_inode; [done|exact Hn|lia|done..]|]. cbn. by rewrite lookup_insert_ne.
  - by apply insert_mono.
  - by exists d.
  - intros j m. cbn. rewrite lookup_insert_Some, (denies_update F f fl fl' j Hf Ei). intros [[<- <-]|[Hne Em]].
    + rewrite Z.eqb_refl. cbn. destruct (Hin _ _ Hn) as [-> ->]. done.
    + rewrite (proj2 (Z.eqb_neq _ _)) by done. rewrite Z.add_0_r. by apply Hin.
  - intros f' g. cbn. rewrite lookup_insert_Some. intros [[<- <-]|[Hne Eg]].
    + split; [lia|]. split; [done|]. rewrite Ei. exists n'. rewrite lookup_insert_eq. split; [done|].
      by rewrite (proj2 (Z.eqb_neq _ _) Hff).
    + destruct (Hfl f' g Eg) as (? & ? & m & Em & Hsm). split; [lia|]. split; [done|].
      destruct (Hsec f' g Eg) as (m2 & Em2 & m' & Em' & Es). rewrite Em in Em2. injection Em2 as <-. exists m'. by rewrite Es.
  - intros f'. cbn. rewrite handle_of_insert, Ei, lookup_insert_eq. destruct (Z.eqb_spec f' f) as [->|Hne].
    + rewrite lookup_insert_eq. by rewrite (proj2 (Z.eqb_neq _ _) Hff).
    + rewrite lookup_insert_ne by done. rewrite Hop. destruct (f' =? free_map_file s); [done|]. symmetry. apply handle_of_same.
      * intros g m Eg Em. destruct (Hsec f' g Eg) as (m2 & Em2 & Hx). rewrite Em in Em2. by injection Em2 as <-.
      * intros g Eg. destruct (Hsec f' g Eg) as (m & Em & _). by exists m.
Qed.

(** The case of a new position. *)
Lemma mid_seek cap L c F a s f fl n p : mid cap L c F a s -> F !! f = Some fl -> f <> free_map_file s ->
  0 <= p -> inodes s !! f_inode fl = Some n ->
  let fl' := mk_file (f_inode fl) p (deny_write fl) in
  mid cap L c (<[f := fl']> F) (set_open f (mk_handle (sector n) p (deny_write fl)) a) (set_files (<[f := fl']> (files s)) s).
Proof.
  intros Hm Hf Hff Hp Hn fl'. pose proof (mid_update cap L c F a s f fl fl' n Hm Hf Hff eq_refl Hp Hn) as Hu. cbn in Hu.
  rewrite Z.sub_diag, Z.add_0_r in Hu. destruct n as [? ? ? ? ?]. cbn in Hu. rewrite (insert_id (inodes s)) in Hu by done. exact Hu.
Qed.

(** A file is opened on an inode. *)
Lemma mid_new_file cap L c a s f i n : mid cap L c (files s) a s -> files s !! f = None -> 0 < f < brk s ->
  inodes s !! i = Some n -> 1 < sector n ->
  let fl := mk_file i 0 false in
  mid cap L c (<[f := fl]> (files s)) (set_open f (mk_handle (sector n) 0 false) a) (set_files (<[f := fl]> (files s)) s).
Proof.
  intros Hm Hf Hfb Hn Hs fl. assert (f <> free_map_file s) as Hff.
  { intros ->. destruct (inv_map_file _ _ _ (md_inv _ _ _ _ _ _ Hm)) as [x E]. by rewrite Hf in E. }
  destruct Hm as [Hi HF (d & Hd & Hcap & HN) Hnm Hij Hda Hin Hfl Hop]. split; try done.
  - apply inv_set_files; [done|]. by rewrite lookup_insert_ne.
  - by exists d.
  - intros j m Em. rewrite (proj1 (denies_plain (files s) f fl eq_refl)) by done. by apply Hin.
  - intros f' g. rewrite lookup_insert_Some. intros [[<- <-]|[Hne Eg]]; [|by apply Hfl].
    cbn. split; [lia|]. split; [done|]. exists n. by rewrite (proj2 (Z.eqb_neq _ _) Hff).
  - intros f'. cbn. rewrite handle_of_insert. destruct (Z.eqb_spec f' f) as [->|Hne].
    + rewrite lookup_insert_eq. rewrite (proj2 (Z.eqb_neq _ _) Hff). cbn. by rewrite Hn.
    + rewrite lookup_insert_ne by done. apply Hop.
Qed.

(** A file counts no more as open, and then leaves the table. *)
Lemma mid_forget cap L c F a s f fl : mid cap L c F a s -> F !! f = Some fl -> deny_write fl = false -> f <> free_map_file s ->
  mid cap L c (delete f F) (mk_afs (a_names a) (a_data a) (delete f (a_open a))) s.
Proof.
  intros [Hi HF (d & Hd & Hcap & HN) Hnm Hij Hda Hin Hfl Hop] Hf Hdw Hff. split; try done.
  - etrans; [apply delete_subseteq|done].
  - by exists d.
  - intros j m Em. rewrite (proj2 (denies_plain F f fl Hdw)) by done. by apply Hin.
  - intros f' g [_ Eg]%lookup_delete_Some. by apply Hfl.
  - intros f'. cbn. unfold handle_of. destruct (decide (f' = f)) as [->|Hne].
    + rewrite !lookup_delete_eq. by rewrite (proj2 (Z.eqb_neq _ _) Hff).
    + rewrite !lookup_delete_ne by done. apply Hop.
Qed.

Lemma mid_delete_file cap L c F a s f : mid cap L c F a s -> F !! f = None -> f <> free_map_file s ->
  mid cap L c F a (set_files (delete f (files s)) s).
Proof.
  intros [Hi HF (d & Hd & Hcap & HN) Hnm Hij Hda Hin Hfl Hop] Hf Hff. split; try done.
  - apply inv_set_files; [done|]. by rewrite lookup_delete_ne.
  - cbn. apply map_subseteq_spec. intros f' g Eg. rewrite lookup_delete_ne; [by eapply lookup_weaken|]. intros <-. by rewrite Hf in Eg.
  - by exists d.
Qed.
End Table.
