(* ===== verification/FsRefine.v ===== *)
(** * The calls on open files refine the abstract ones

    Reading, writing, seeking, denying writes and closing, from a state that
    stands for an abstract file system: the call ends, returns what the abstract
    step says, and the state stands for the new one. *)

From S2P Require Import Prelude Vaddr KList Bitmap Block FileSys FileSpec DirSpec FsLayout FsObjs FsRoot FsAbstract FsMid FsTable.

Section Refine.
Context {dev : Type} `{BlockDriver dev}.
Implicit Types (b : block dev) (s : fs dev) (n : inode) (d : inode_disk) (L : gmap Z inode_disk) (c : Z -> Z) (a : afs) (F : gmap Z file).

(** Is there room for a file of [sz] bytes: a free sector, and whichever is taken
    for the inode, enough others in a row? *)
Definition room (fm : bitmap) (sz : Z) : Prop :=
  (exists t, 0 <= t /\ group fm t 1 false) /\
  forall t, 0 <= t -> group fm t 1 false ->
    exists k, 0 <= k /\ group fm k (sectors (mk_disk 0 sz 0)) false /\ ~ (k <= t < k + sectors (mk_disk 0 sz 0)).

(** The operation, run from [s], does a step of the abstract one. *)
Definition simulates (cap : Z) a s (o : fs_op) (m : M (fs dev) fs_res) : Prop :=
  exists r s' a', m s = Done (r, s') /\ astep (room (free_map s)) cap a o r a' /\ rep cap a' s'.

Lemma rep_of cap L c a s : mid cap L c (files s) a s -> (forall i, refs (files s) i = c i) ->
  (forall i n, inodes s !! i = Some n -> sector n <> 1) -> Z.of_nat (base.size (files s)) <= MAX_OPEN + 1 -> rep cap a s.
Proof. intros Hm E Hc Hs. split; [exists L; by eapply mid_ext|done|done]. Qed.

Lemma rep_refs cap a s i : rep cap a s -> 0 <= refs (files s) i <= 2 ^ 31 - 3.
Proof. intros [_ _ Hf]. pose proof (count_size (on_inode i) (files s)). unfold refs, MAX_OPEN in *. lia. Qed.

Lemma rep_handle cap a s f h : rep cap a s -> a_open a !! f = Some h ->
  exists L fl n, mid cap L (refs (files s)) (files s) a s /\ files s !! f = Some fl /\ inodes s !! f_inode fl = Some n /\
    f <> free_map_file s /\ f <> NULL /\ h = mk_handle (sector n) (pos fl) (deny_write fl) /\ 1 < sector n /\ 0 <= pos fl /\
    a_data a !! sector n = Some (fcontent (fs_device s) (data n)).
Proof.
  intros [[L Hm] _ _] Hh. destruct (mid_handle _ _ _ _ _ _ _ _ Hm Hh) as (fl & n & Hf & _ & Hr). by exists L, fl, n.
Qed.

Lemma get_file_run s f fl : files s !! f = Some fl -> get_file f s = Done (fl, s).
Proof. intros E. unfold get_file, load. by rewrite E. Qed.

Lemma set_open_id f h a : a_open a !! f = Some h -> set_open f h a = a.
Proof. intros E. unfold set_open. rewrite insert_id by done. apply afs_eta. Qed.

(** A new position. *)
Lemma rep_seek cap L a s f fl n p : mid cap L (refs (files s)) (files s) a s -> rep cap a s -> files s !! f = Some fl ->
  f <> free_map_file s -> inodes s !! f_inode fl = Some n -> 0 <= p ->
  rep cap (set_open f (mk_handle (sector n) p (deny_write fl)) a)
    (set_files (<[f := mk_file (f_inode fl) p (deny_write fl)]> (files s)) s).
Proof.
  intros Hm Hr Hf Hff Hn Hp. eapply rep_of; [by apply mid_seek| |by apply (rp_closed _ _ _ Hr)|].
  - intros i. by apply refs_update with fl.
  - cbn. rewrite map_size_insert_Some by done. apply Hr.
Qed.

(** ** Seek, tell, length *)

Lemma sim_seek cap junk a s f p : rep cap a s -> op_pre a (Seek f p) -> simulates cap a s (Seek f p) (run_op junk (Seek f p)).
Proof.
  intros Hr [[h Hh] Hp]. destruct (rep_handle _ _ _ _ _ Hr Hh) as (L & fl & n & Hm & Hf & Hn & Hff & Hf0 & -> & _).
  eexists RUnit, _, _. split; [|split; [by eapply A_seek|apply (rep_seek cap L a s f fl n p); try done; lia]].
  unfold run_op, file_seek. rewrite (proj2 (Z.eqb_neq _ _) Hf0), (proj2 (Z.leb_le 0 p)) by lia. cbn [negb].
  erewrite bind_done; [done|]. erewrite bind_done by done. erewrite bind_done by done. by erewrite bind_done by by apply get_file_run.
Qed.

Lemma sim_tell cap junk a s f : rep cap a s -> op_pre a (Tell f) -> simulates cap a s (Tell f) (run_op junk (Tell f)).
Proof.
  intros Hr [h Hh]. destruct (rep_handle _ _ _ _ _ Hr Hh) as (L & fl & n & Hm & Hf & Hn & Hff & Hf0 & E & _).
  eexists (RInt (pos fl)), s, a. split; [|split; [|done]].
  - unfold run_op, file_tell. rewrite (proj2 (Z.eqb_neq _ _) Hf0). cbn [negb].
    erewrite bind_done; [done|]. erewrite bind_done by done. by erewrite bind_done by by apply get_file_run.
  - pose proof (A_tell (room (free_map s)) cap a f h Hh) as Ha. by rewrite E in Ha.
Qed.

Lemma sim_length cap junk a s f : rep cap a s -> op_pre a (Length f) -> simulates cap a s (Length f) (run_op junk (Length f)).
Proof.
  intros Hr [h Hh]. destruct (rep_handle _ _ _ _ _ Hr Hh) as (L & fl & n & Hm & Hf & Hn & Hff & Hf0 & E & Hs & _ & Hd).
  eexists (RInt (length_ (data n))), s, a. split; [|split; [|done]].
  - unfold run_op, file_length. rewrite (proj2 (Z.eqb_neq _ _) Hf0). cbn [negb].
    erewrite bind_done; [done|]. erewrite bind_done by done. erewrite bind_done by by apply get_file_run.
    by erewrite bind_done by by apply get_inode_run.
  - rewrite E in Hh. pose proof (A_length (room (free_map s)) cap a f _ _ Hh Hd) as Ha. unfold fcontent in Ha.
    rewrite zlen_map_seqZ in Ha; [done|]. destruct (mid_inode _ _ _ _ _ _ _ _ Hm Hn) as (_ & _ & _ & _ & Hw). apply Hw.
Qed.

(** ** Reading and writing *)

Lemma bytes_at_content b n p sz : 0 <= p -> 0 <= sz -> 0 <= length_ (data n) ->
  map (fbyte b n) (seqZ p (transfer n sz p)) = bytes_at (fcontent b (data n)) p sz /\
  zlen (bytes_at (fcontent b (data n)) p sz) = transfer n sz p.
Proof.
  intros Hp Hsz Hl. assert (zlen (bytes_at (fcontent b (data n)) p sz) = transfer n sz p) as E.
  { unfold bytes_at, fcontent, zlen, transfer. rewrite length_take, length_drop, length_map, length_seqZ. lia. }
  split; [|done]. apply zlist_eq; [rewrite zlen_map_seqZ by (unfold transfer; lia); done|].
  intros k Hk. rewrite zlen_map_seqZ in Hk by (unfold transfer; lia). rewrite zget_map_seqZ by done.
  unfold bytes_at. unfold transfer in Hk. rewrite zget_take, zget_drop by lia. unfold fcontent. by rewrite zget_map_seqZ by lia.
Qed.

(** The bytes of an inode after a write of [bs] at [p]. *)
Lemma content_write L b b' fm n p bs : layout L b fm -> device_ok b fm -> L !! sector n = Some (data n) -> 0 <= p ->
  device_bytes b b' (stored bs 0 (base n + p) (transfer n (zlen bs) p) (dbyte b)) ->
  fcontent b' (data n) = splice (fcontent b (data n)) p bs /\ transfer n (zlen bs) p = fits (fcontent b (data n)) p bs.
Proof.
  intros Hl Hv Hd Hp [_ Hb]. destruct (ly_ok _ _ _ Hl _ _ Hd) as [Hlen _ _ _].
  assert (zlen (fcontent b (data n)) = length_ (data n)) as El by (unfold fcontent; rewrite zlen_map_seqZ by lia; done).
  assert (transfer n (zlen bs) p = fits (fcontent b (data n)) p bs) as Et.
  { unfold transfer, fits, zlen in *. rewrite length_take. lia. }
  split; [|done]. apply zlist_eq.
  { unfold zlen. rewrite length_splice by done. unfold fcontent. by rewrite !length_map. }
  intros k Hk. unfold fcontent in Hk at 1. rewrite zlen_map_seqZ in Hk by lia.
  unfold fcontent at 1. rewrite zget_map_seqZ, Z.add_0_l by done. destruct (data_byte L b fm (sector n) (data n) k Hl Hv Hd Hk) as (H0 & Hr & _).
  rewrite Hb by done. unfold stored, base. rewrite Et. unfold splice, fits, zlen in *.
  set (l := fcontent b (data n)) in *. assert (zget l k = Some (dbyte b (512 * start (data n) + k))) as Ek.
  { unfold l, fcontent. by rewrite zget_map_seqZ. }
  destruct ((512 * start (data n) + p <=? 512 * start (data n) + k) &&
    (512 * start (data n) + k <? 512 * start (data n) + p + Z.of_nat (length (take (length l - Z.to_nat p) bs)))) eqn:Ein.
  - rewrite length_take in Ein. rewrite zget_app_r by (unfold zlen; rewrite length_take; lia).
    assert (p <= k < p + Z.of_nat ((length l - Z.to_nat p) `min` length bs)) as Hin.
    { apply andb_prop in Ein as [?%Z.leb_le ?%Z.ltb_lt]. lia. }
    unfold zlen at 1. rewrite length_take, Nat.min_l, Z2Nat.id by lia. rewrite zget_app_l by (unfold zlen; rewrite length_take; lia).
    replace (0 + (512 * start (data n) + k - (512 * start (data n) + p))) with (k - p) by lia.
    rewrite <- (Nat2Z.id (length l - Z.to_nat p)), zget_take by lia.
    destruct (zget_Some bs (k - p)) as [v ->]; [unfold zlen; lia|done].
  - rewrite length_take in Ein. assert (k < p \/ p + Z.of_nat ((length l - Z.to_nat p) `min` length bs) <= k) as Hout.
    { apply andb_false_iff in Ein as [?%Z.leb_gt|?%Z.ltb_ge]; lia. }
    clear Ein. destruct (decide (k < p)) as [Hkp|Hkp].
    + rewrite zget_app_l by (unfold zlen; rewrite length_take; lia). by rewrite zget_take by lia.
    + rewrite app_assoc, zget_app_r by (unfold zlen; rewrite length_app, !length_take; lia).
      unfold zlen. rewrite length_app, !length_take.
      replace (Z.to_nat p + length bs)%nat with (Z.to_nat (p + zlen bs)) by (unfold zlen; lia).
      rewrite zget_drop by (unfold zlen; lia). rewrite <- Ek. f_equal. unfold zlen. lia.
Qed.

Lemma sim_read cap junk a s f sz : rep cap a s -> op_pre a (Read f sz) -> simulates cap a s (Read f sz) (run_op junk (Read f sz)).
Proof.
  intros Hr (h & Hh & Hsz & Hps). destruct (rep_handle _ _ _ _ _ Hr Hh) as (L & fl & n & Hm & Hf & Hn & Hff & Hf0 & -> & Hs & Hp & Hd).
  cbn in Hps. destruct (mid_inode _ _ _ _ _ _ _ _ Hm Hn) as (_ & _ & _ & _ & Hw).
  destruct (md_inv _ _ _ _ _ _ Hm) as [[Hmem Hbrk _] _ _ _].
  destruct (inode_read_at_spec s (f_inode fl) n sz (pos fl)) as (s1 & Hrun & Ho); [done..|].
  destruct (bytes_at_content (fs_device s) n (pos fl) sz Hp Hsz) as [Eb El]; [apply Hw|]. rewrite Eb in Hrun.
  assert (0 <= transfer n sz (pos fl) <= sz) as Ht by (unfold transfer; lia).
  pose proof (od_files _ _ _ Ho) as Ef. pose proof (od_inodes _ _ _ Ho) as Ei. pose proof (od_map_file _ _ _ Ho) as Em.
  eexists (RBytes (bytes_at (fcontent (fs_device s) (data n)) (pos fl) sz)), _, _. split; [|split; [by eapply A_read|]].
  - unfold run_op, file_read. erewrite bind_done; [done|]. erewrite bind_done by by apply get_file_run.
    erewrite bind_done by exact Hrun. erewrite bind_done by (apply get_file_run; by rewrite Ef).
    rewrite El, s32_small by lia. erewrite bind_done by done. done.
  - rewrite El. apply (rep_seek cap L a s1 f fl n); rewrite ?Ef, ?Em, ?Ei; try done; [by eapply mid_only| |lia].
    eapply rep_of; [rewrite Ef; by eapply mid_only|by rewrite Ef|rewrite Ei; apply Hr|rewrite Ef; apply Hr].
Qed.

(** No inode has its sector among the data of another, or of itself. *)
Lemma data_not_sector L b fm sec d sec' d' : layout L b fm -> L !! sec = Some d -> L !! sec' = Some d' -> ~ data_sector d sec'.
Proof.
  intros Hl Hd Hd' Hs. destruct (decide (sec' = sec)) as [->|Hne].
  - by apply (dk_own _ _ _ (ly_ok _ _ _ Hl _ _ Hd)).
  - eapply (ly_apart _ _ _ Hl sec' sec); [exact Hd'|exact Hd|done|by left|by right].
Qed.

Lemma data_apart L b fm sec d sec' d' t : layout L b fm -> L !! sec = Some d -> L !! sec' = Some d' -> sec <> sec' ->
  data_sector d t -> ~ data_sector d' t.
Proof. intros Hl Hd Hd' Hne Ht Ht'. eapply (ly_apart _ _ _ Hl sec sec'); [exact Hd|exact Hd'|done|by right|by right]. Qed.

(** Writing to the data of one file, which is not the free map. *)
Lemma inv_write L c s s' sec d : fs_inv L c s -> L !! sec = Some d -> sec <> 0 -> fs_step (data_sector d) s s' -> free_map s' = free_map s ->
  fs_inv L c s' /\ forall sec' d', L !! sec' = Some d' -> sec' <> sec -> fcontent (fs_device s') d' = fcontent (fs_device s) d'.
Proof.
  intros Hi Hd Hne Hs E. pose proof (fi_layout _ _ _ Hi) as Hl. split.
  - eapply fs_inv_step; [exact Hi|exact Hs|done| |].
    + intros sec' d' Hd'. by eapply data_not_sector.
    + intros d' t Hd'. by eapply data_apart.
  - intros sec' d' Hd' Hne'. eapply content_step; [exact Hl|apply Hi|exact (st_dev _ _ _ Hs)|exact Hd'|]. intros t. by eapply data_apart.
Qed.

Lemma mid_write cap L c F a s s' n l : mid cap L c F a s -> L !! sector n = Some (data n) -> 1 < sector n ->
  fs_step (data_sector (data n)) s s' -> free_map s' = free_map s -> fcontent (fs_device s') (data n) = l ->
  mid cap L c F (mk_afs (a_names a) (<[sector n := l]> (a_data a)) (a_open a)) s'.
Proof.
  intros Hm HL Hs Hst E Hl. destruct (inv_write L c s s' _ _ (md_inv _ _ _ _ _ _ Hm) HL ltac:(lia) Hst E) as [Hi' Hc].
  eapply mid_device; [exact Hm|exact Hst|exact Hi'| |].
  - intros d Hd. destruct (md_root _ _ _ _ _ _ Hm) as (d' & Hd' & _ & HN). rewrite Hd in Hd'. injection Hd' as <-.
    eapply names_content; [|exact HN]. apply (Hc 1 d Hd). lia.
  - intros sec. destruct (decide (sec = sector n)) as [->|Hne].
    + rewrite lookup_insert_eq, (proj2 (Z.leb_gt _ _)) by done. rewrite HL. cbn. by rewrite Hl.
    + rewrite lookup_insert_ne by done. rewrite (md_data _ _ _ _ _ _ Hm). destruct (sec <=? 1); [done|].
      destruct (L !! sec) as [d|] eqn:Ed; [|done]. cbn. by rewrite (Hc sec d Ed Hne).
Qed.

Lemma sim_write cap junk a s f bs : rep cap a s -> op_pre a (Write f bs) -> simulates cap a s (Write f bs) (run_op junk (Write f bs)).
Proof.
  intros Hr (h & Hh & Hps). destruct (rep_handle _ _ _ _ _ Hr Hh) as (L & fl & n & Hm & Hf & Hn & Hff & Hf0 & Eh & Hs & Hp & Hd).
  rewrite Eh in Hps. cbn in Hps. destruct (mid_inode _ _ _ _ _ _ _ _ Hm Hn) as (HL & _ & _ & _ & Hw).
  destruct (md_inv _ _ _ _ _ _ Hm) as [[Hmem Hbrk Hv] Hl _ _]. pose proof (zlen_nonneg bs).
  destruct (inode_write_at_spec s (f_inode fl) n bs (zlen bs) (pos fl)) as (s1 & Hrun & Ho); [done|done|apply Hv|done|done|done|lia|lia|lia|].
  pose proof (od_files _ _ _ Ho) as Ef. pose proof (od_inodes _ _ _ Ho) as Ei. pose proof (od_map_file _ _ _ Ho) as Em.
  assert (forall w, inode_write_at (f_inode fl) bs (zlen bs) (pos fl) s = Done (w, s1) -> 0 <= w -> pos fl + w < 2 ^ 31 ->
    run_op junk (Write f bs) s = Done (RInt w, set_files (<[f := mk_file (f_inode fl) (pos fl + w) (deny_write fl)]> (files s1)) s1)) as Hgo.
  { intros w Hwr Hw0 Hwp. unfold run_op, file_write. erewrite bind_done; [done|]. erewrite bind_done by by apply get_file_run.
    erewrite bind_done by exact Hwr. erewrite bind_done by (apply get_file_run; by rewrite Ef).
    rewrite s32_small by lia. by erewrite bind_done by done. }
  pose proof (mid_denied _ _ _ _ _ _ _ _ Hm Hn Hs) as Hden. destruct (deny_write_cnt n =? 0); cbn [negb] in Hden.
  - assert (0 <= transfer n (zlen bs) (pos fl) <= zlen bs) as Ht by (unfold transfer; lia).
    destruct (content_write L (fs_device s) (fs_device s1) (free_map s) n (pos fl) bs Hl Hv HL Hp (od_device _ _ _ Ho)) as [Ec Etr].
    destruct (only_device_step s s1 _ (data_sector (data n)) Ho) as [Hst E].
    { intros p Hp0 Hnp. unfold stored. destruct ((base n + pos fl <=? p) && _) eqn:Ein; [|done]. exfalso. apply Hnp.
      unfold data_sector, sectors, base, transfer in *. pose proof (wi_length _ _ Hw). dlia. }
    pose proof (mid_write cap L _ _ a s s1 n _ Hm HL Hs Hst E Ec) as Hm1. rewrite Etr in *.
    eexists _, _, _. split; [apply Hgo; [exact Hrun|lia|lia]|]. split; [eapply A_write; [by rewrite Hh, Eh|exact Hd|done]|].
    apply (rep_seek cap L (mk_afs _ _ (a_open a)) s1 f fl n); rewrite ?Ef, ?Em, ?Ei; try done; [|lia].
    eapply rep_of; [rewrite Ef; exact Hm1|by rewrite Ef|rewrite Ei; apply Hr|rewrite Ef; apply Hr].
  - eexists _, _, a. split; [apply Hgo; [exact Hrun|lia|lia]|]. split; [eapply A_write_denied; [exact Hh|by rewrite Eh]|].
    rewrite Z.add_0_r. rewrite <- (set_open_id f h a Hh), Eh. apply (rep_seek cap L a s1 f fl n); rewrite ?Ef, ?Em, ?Ei; try done; [by eapply mid_only|].
    eapply rep_of; [rewrite Ef; by eapply mid_only|by rewrite Ef|rewrite Ei; apply Hr|rewrite Ef; apply Hr].
Qed.

(** ** Denying and allowing writes *)

(** A file that changes whether it denies writes; its inode counts it. *)
Lemma rep_deny cap L a s f fl n v : mid cap L (refs (files s)) (files s) a s -> rep cap a s -> files s !! f = Some fl ->
  f <> free_map_file s -> inodes s !! f_inode fl = Some n -> 0 <= pos fl ->
  let fl' := mk_file (f_inode fl) (pos fl) v in
  let n' := mk_inode (sector n) (open_cnt n) (removed n) (deny_write_cnt n + (one v - one (deny_write fl))) (data n) in
  rep cap (set_open f (mk_handle (sector n) (pos fl) v) a)
    (set_inodes (<[f_inode fl := n']> (inodes s)) (set_files (<[f := fl']> (files s)) s)) /\
  0 <= deny_write_cnt n' <= open_cnt n'.
Proof.
  intros Hm Hr Hf Hff Hn Hp fl' n'. pose proof (mid_update cap L _ _ a s f fl fl' n Hm Hf Hff eq_refl Hp Hn) as Hu. split.
  - eapply (rep_of cap L); [exact Hu| | |].
    + intros i. by apply refs_update with fl.
    + intros i m. cbn. rewrite lookup_insert_Some. intros [[<- <-]|[_ Em]]; [|by apply (rp_closed _ _ _ Hr i)].
      cbn. by apply (rp_closed _ _ _ Hr (f_inode fl)).
    + cbn. rewrite map_size_insert_Some by done. apply Hr.
  - destruct (md_inode _ _ _ _ _ _ Hu (f_inode fl) n') as [-> _]; [cbn; by rewrite lookup_insert_eq|].
    pose proof (denies_le (<[f := fl']> (files s)) (f_inode fl)) as Hle. rewrite (refs_update _ _ _ _ _ Hf) in Hle by done.
    destruct (mid_inode _ _ _ _ _ _ _ _ Hm Hn) as (_ & _ & Hc & _). cbn [open_cnt n']. rewrite Hc. split; [unfold denies, count; lia|done].
Qed.

Lemma allow_run cap a s f id p dw : rep cap a s -> a_open a !! f = Some (mk_handle id p dw) ->
  exists s', file_allow_write f s = Done (tt, s') /\ rep cap (set_open f (mk_handle id p false) a) s' /\ free_map s' = free_map s.
Proof.
  intros Hr Hh. destruct (rep_handle _ _ _ _ _ Hr Hh) as (L & fl & n & Hm & Hf & Hn & Hff & Hf0 & [= -> -> ->] & Hs & Hp & _).
  unfold file_allow_write. rewrite (proj2 (Z.eqb_neq _ _) Hf0). cbn [negb]. destruct (deny_write fl) eqn:Ed.
  - destruct (rep_deny cap L a s f fl n false Hm Hr Hf Hff Hn Hp) as [Hr' Hb]. rewrite Ed in Hr', Hb. cbn in Hb.
    assert (0 < deny_write_cnt n <= open_cnt n) as Hd.
    { destruct (md_inode _ _ _ _ _ _ Hm _ _ Hn) as [-> _]. destruct (mid_inode _ _ _ _ _ _ _ _ Hm Hn) as (_ & _ & -> & _).
      split; [|apply denies_le]. apply (count_pos _ _ f fl Hf). unfold on_inode. by rewrite Z.eqb_refl, Ed. }
    eexists. split; [|split; [exact Hr'|done]]. erewrite bind_done by done. erewrite bind_done by by apply get_file_run.
    rewrite Ed. erewrite bind_done by done. unfold inode_allow_write. erewrite bind_done by by apply get_inode_run.
    rewrite (proj2 (Z.ltb_lt 0 _)), (proj2 (Z.leb_le _ (open_cnt n))) by lia. erewrite bind_done by done. erewrite bind_done by done. done.
  - exists s. split; [|split; [|done]].
    + erewrite bind_done by done. erewrite bind_done by by apply get_file_run. by rewrite Ed.
    + by rewrite set_open_id.
Qed.

Lemma sim_allow cap junk a s f : rep cap a s -> op_pre a (Allow f) -> simulates cap a s (Allow f) (run_op junk (Allow f)).
Proof.
  intros Hr [[id p dw] Hh]. destruct (allow_run cap a s f id p dw Hr Hh) as (s' & Hrun & Hr' & _).
  eexists RUnit, s', _. split; [|split; [by eapply A_allow|exact Hr']]. unfold run_op. by erewrite bind_done by exact Hrun.
Qed.

Lemma sim_deny cap junk a s f : rep cap a s -> op_pre a (Deny f) -> simulates cap a s (Deny f) (run_op junk (Deny f)).
Proof.
  intros Hr [[id p dw] Hh]. destruct (rep_handle _ _ _ _ _ Hr Hh) as (L & fl & n & Hm & Hf & Hn & Hff & Hf0 & [= -> -> ->] & Hs & Hp & _).
  assert (exists s', file_deny_write f s = Done (tt, s') /\ rep cap (set_open f (mk_handle (sector n) (pos fl) true) a) s') as (s' & Hrun & Hr').
  { unfold file_deny_write. rewrite (proj2 (Z.eqb_neq _ _) Hf0). cbn [negb]. destruct (deny_write fl) eqn:Ed.
    - exists s. split; [|by rewrite set_open_id]. erewrite bind_done by done. erewrite bind_done by by apply get_file_run. by rewrite Ed.
    - destruct (rep_deny cap L a s f fl n true Hm Hr Hf Hff Hn Hp) as [Hr' Hb]. rewrite Ed in Hr', Hb. cbn in Hb.
      eexists. split; [|exact Hr']. erewrite bind_done by done. erewrite bind_done by by apply get_file_run.
      rewrite Ed. cbn [negb]. erewrite bind_done by done. unfold inode_deny_write. erewrite bind_done by by apply get_inode_run.
      erewrite bind_done by done. cbn. rewrite (proj2 (Z.leb_le _ (open_cnt n))) by lia. done. }
  eexists RUnit, s', _. split; [|split; [by eapply A_deny|exact Hr']]. unfold run_op. by erewrite bind_done by exact Hrun.
Qed.

(** ** Closing a file *)

Lemma refs_forget s f fl i : files s !! f = Some fl -> f_inode fl = i -> refs (delete f (files s)) i + 1 = refs (files s) i.
Proof. intros Hf <-. rewrite (refs_delete _ _ _ _ Hf), bump_eq. lia. Qed.

(** After writes are allowed: the inode goes and then the file. *)
Lemma close_run cap a s f id p : rep cap a s -> a_open a !! f = Some (mk_handle id p false) ->
  exists s', (n ← get_file f; inode_close (f_inode n) ;; modify (fun s => set_files (delete f (files s)) s)) s = Done (tt, s') /\
    rep cap (collect id (mk_afs (a_names a) (a_data a) (delete f (a_open a)))) s'.
Proof.
  intros Hr Hh. destruct (rep_handle _ _ _ _ _ Hr Hh) as (L & fl & n & Hm & Hf & Hn & Hff & Hf0 & [= -> -> Hdw] & Hs & _).
  pose proof (mid_forget cap L _ _ a s f fl Hm Hf ltac:(done) Hff) as Hm1.
  pose proof (refs_forget s f fl _ Hf eq_refl) as Hrf. pose proof (rep_refs cap a s (f_inode fl) Hr).
  destruct (mid_close cap L _ _ _ s (f_inode fl) n Hm1 Hn Hs) as (L' & s1 & Hrun & Hcl & Hm2); [lia|lia|].
  pose proof Hcl as (Ef & _ & Em & _).
  exists (set_files (delete f (files s1)) s1). split.
  - erewrite bind_done by by apply get_file_run. by erewrite bind_done by exact Hrun.
  - eapply rep_of.
    + cbn [files set_files]. rewrite Ef. rewrite <- Ef at 2. apply (mid_delete_file cap L' _ _ _ s1 f Hm2); [apply lookup_delete_eq|by rewrite Em].
    + intros i. cbn. rewrite Ef. by apply refs_delete.
    + cbn. destruct (closed_inodes _ _ _ _ _ _ _ _ _ Hm1 Hn ltac:(lia) Hcl) as [_ H2]. intros i m Hi.
      destruct (H2 i m Hi) as (m' & Hm' & -> & _). by apply (rp_closed _ _ _ Hr i).
    + cbn. rewrite Ef, map_size_delete_Some by done. pose proof (rp_few _ _ _ Hr). lia.
Qed.

Lemma sim_close cap junk a s f : rep cap a s -> op_pre a (Close f) -> simulates cap a s (Close f) (run_op junk (Close f)).
Proof.
  intros Hr Hp. unfold run_op, file_close. destruct (Z.eqb_spec f NULL) as [->|Hf].
  { exists RUnit, s, a. split; [by erewrite bind_done by done|]. split; [constructor|done]. }
  destruct Hp as [|[[id p dw] Hh]]; [done|].
  destruct (allow_run cap a s f id p dw Hr Hh) as (s1 & Hrun1 & Hr1 & _).
  destruct (close_run cap _ s1 f id p Hr1) as (s2 & Hrun2 & Hr2); [cbn; by rewrite lookup_insert_eq|]. cbn in Hr2. rewrite delete_insert_eq in Hr2.
  eexists RUnit, s2, _. split; [|split; [by eapply A_close|exact Hr2]].
  erewrite bind_done; [done|]. erewrite bind_done by exact Hrun1. exact Hrun2.
Qed.
End Refine.
