(* ===== verification/FsNames.v ===== *)
(** * The calls on names refine the abstract ones

    Opening the root directory and closing it again, and between the two the
    lookup, creation and removal of a name. *)

From S2P Require Import Prelude Vaddr KList Bitmap Block FileSys FileSpec DirSpec FsLayout FsObjs FsRoot FsAbstract FsMid FsTable FsRefine.

Section Names.
Context {dev : Type} `{BlockDriver dev}.
Implicit Types (b : block dev) (s : fs dev) (n : inode) (d : inode_disk) (L : gmap Z inode_disk) (c : Z -> Z) (a : afs) (F : gmap Z file).

(** The root directory is open, once, as [dp] on inode [ri]. *)
Record at_root (cap : Z) L c F a s (dp ri : Z) n : Prop := {
  ar_mid : mid cap L c F a s;
  ar_null : dp <> NULL;
  ar_dir : exists p, dirs s !! dp = Some (mk_dir ri p);
  ar_inode : inodes s !! ri = Some n;
  ar_sector : sector n = 1;
  ar_cnt : c ri = 1
}.

Lemma root_facts cap L c F a s dp ri n : at_root cap L c F a s dp ri n ->
  dir_ready s dp ri n /\ deny_write_cnt n = 0 /\ L !! 1 = Some (data n) /\ refs F ri = 0 /\ ri <> NULL /\
  open_cnt n = 1 /\ removed n = false /\ entries (data n) = cap /\ names_ok (fs_device s) (data n) (a_names a).
Proof.
  intros [Hm Hd Hp Hn Hs Hc]. destruct (mid_inode _ _ _ _ _ _ _ _ Hm Hn) as (HL & Hb & Hcnt & _ & Hw). rewrite Hs in HL.
  destruct (md_inv _ _ _ _ _ _ Hm) as [[? ? Hv] _ _ _]. destruct (md_inode _ _ _ _ _ _ Hm ri n Hn) as [Hdn Hrm]. rewrite Hs in Hrm.
  assert (forall f fl, F !! f = Some fl -> on_inode ri fl = false) as Hno.
  { intros f fl Ef. apply Z.eqb_neq. intros E. destruct (md_file _ _ _ _ _ _ Hm f fl Ef) as (_ & _ & m & Em & Hsm).
    rewrite E, Hn in Em. injection Em as <-. rewrite Hs in Hsm. destruct (f =? free_map_file s); lia. }
  destruct (md_root _ _ _ _ _ _ Hm) as (d & Hd1 & Hcap & HN). rewrite HL in Hd1. injection Hd1 as <-.
  split; [split; try done; apply Hv|]. split; [|split; [done|split; [by apply count_zero|split; [unfold NULL; lia|split; [lia|done]]]]].
  rewrite Hdn. apply count_zero. intros f fl Ef. by rewrite (Hno f fl Ef).
Qed.

(** The only inode of sector 1. *)
Lemma root_only cap L c F a s dp ri n i m : at_root cap L c F a s dp ri n -> inodes s !! i = Some m -> sector m = 1 -> i = ri.
Proof.
  intros [Hm _ _ Hn Hs _] Hi Es. eapply (ob_sector _ _ _ (fi_objs _ _ _ (md_inv _ _ _ _ _ _ Hm))); [exact Hi|exact Hn|congruence].
Qed.

Lemma root_quiet cap L c F a s s' dp ri n : at_root cap L c F a s dp ri n -> only_device s s' (dbyte (fs_device s)) ->
  at_root cap L c F a s' dp ri n.
Proof.
  intros [Hm Hd Hp Hn Hs Hc] Ho. split; try done; [by eapply mid_only|by rewrite (od_dirs _ _ _ Ho)|by rewrite (od_inodes _ _ _ Ho)].
Qed.

Lemma dir_open_root_run cap a s : rep cap a s ->
  exists L dp ri n s', dir_open_root s = Done (dp, s') /\
    at_root cap L (bump (refs (files s)) ri 1) (files s) a s' dp ri n /\ files s' = files s /\ free_map s' = free_map s.
Proof.
  intros Hr. pose proof Hr as [[L Hm] Hcl Hfew]. destruct (md_root _ _ _ _ _ _ Hm) as (d & Hd & _).
  destruct (mid_open cap L _ _ a s 1 d Hm Hd (or_introl eq_refl)) as (ri & s1 & n & Hrun & Hri & Hk & Hop & Hm1 & Hn & Hs & _).
  { intros i. pose proof (rep_refs cap a s i Hr). lia. }
  destruct (mid_malloc cap L _ _ a s1 Hm1) as (s2 & Hrun2 & Hm2 & Hst & Hb & Hpos).
  exists L, (brk s1), ri, n, (set_dirs (<[brk s1 := mk_dir ri 0]> (dirs s2)) s2). split.
  - unfold dir_open_root. erewrite bind_done by exact Hrun. unfold dir_open. erewrite bind_done by exact Hrun2.
    unfold NULL. rewrite !(proj2 (Z.eqb_neq _ 0)) by lia. cbn [negb andb]. by erewrite bind_done by done.
  - split; [|cbn; rewrite (st_files _ _ _ Hst); split; [apply (kp_files _ _ Hk)|]].
    2:{ destruct Hk as [_ E _ _ _ _ _]. rewrite <- E. pose proof (malloc_step s1 (fi_ready _ _ _ (md_inv _ _ _ _ _ _ Hm1))) as (s3 & Hr3 & _ & E3 & _).
        rewrite Hrun2 in Hr3. injection Hr3 as <-. done. }
    split.
    + by apply mid_set_dirs.
    + unfold NULL. lia.
    + exists 0. cbn. by rewrite lookup_insert_eq.
    + cbn. by rewrite (st_inodes _ _ _ Hst).
    + done.
    + rewrite bump_eq. destruct Hop as [(m & Em & Es & _)|(d' & _ & Ei & Hnew & _)]; [by destruct (Hcl ri m Em)|].
      unfold refs. rewrite count_zero; [done|]. intros f fl Ef. apply Z.eqb_neq. intros E.
      destruct (md_file _ _ _ _ _ _ Hm f fl Ef) as (_ & _ & m & Em & _). destruct (mid_inode _ _ _ _ _ _ _ _ Hm Em) as (_ & ? & _). lia.
Qed.

Lemma dir_close_run cap L c F a s dp ri n : at_root cap L c F a s dp ri n ->
  exists s', dir_close dp s = Done (tt, s') /\ mid cap L (bump c ri (-1)) F a s' /\ files s' = files s /\
    (forall i m, inodes s' !! i = Some m -> sector m <> 1) /\
    (forall i m, inodes s !! i = Some m -> i <> ri -> inodes s' !! i = Some m).
Proof.
  intros Har. destruct (root_facts _ _ _ _ _ _ _ _ _ Har) as (_ & _ & _ & Hrf & _ & Hcnt & Hrm & _).
  pose proof Har as [Hm Hd [p Hp] Hn Hs Hc].
  destruct (mid_close_plain cap L c F a s ri n Hm Hn) as (s1 & Hrun & Hcl & Hm1); [lia|lia|lia|by rewrite Hrm, andb_false_r|].
  pose proof Hcl as (Ef & Ed & _ & _ & Hi). rewrite Hcnt in Hi. cbn in Hi. destruct Hi as [Ei _].
  exists (set_dirs (delete dp (dirs s1)) s1). split; [|split; [by apply mid_set_dirs|]].
  - unfold dir_close. rewrite (proj2 (Z.eqb_neq _ _) Hd). erewrite bind_done by (unfold get_dir, load; by rewrite Hp).
    by erewrite bind_done by exact Hrun.
  - cbn. split; [done|]. rewrite Ei. split.
    + intros i m [Hne Em]%lookup_delete_Some Es. apply Hne. symmetry. by eapply root_only.
    + intros i m Em Hne. by rewrite lookup_delete_ne.
Qed.

(** An inode of another sector is opened beside the root. *)
Lemma root_open cap L c F a s dp ri n sec d : at_root cap L c F a s dp ri n -> L !! sec = Some d -> 1 < sec -> named a sec = true ->
  (forall i, c i < 2 ^ 31 - 1) ->
  exists i s' m, inode_open sec s = Done (i, s') /\ i <> NULL /\ i <> ri /\ files s' = files s /\ free_map s' = free_map s /\
    at_root cap L (bump c i 1) F a s' dp ri n /\ same_content L s s' /\
    inodes s' !! i = Some m /\ sector m = sec /\ L !! sec = Some (data m).
Proof.
  intros [Hm Hd Hp Hn Hs Hc] HL Hsec Hnd Hb.
  destruct (mid_open cap L c F a s sec d Hm HL (or_intror (conj Hsec Hnd)) Hb) as (i & s' & m & Hrun & Hi & Hk & Hop & Hm' & Hi' & Hs' & HL').
  assert (i <> ri) as Hne.
  { intros ->. destruct Hop as [(m' & Em' & Es' & _)|(d' & _ & Ei & _)].
    - rewrite Hn in Em'. injection Em' as <-. lia.
    - destruct (mid_inode _ _ _ _ _ _ _ _ Hm Hn) as (_ & ? & _). lia. }
  exists i, s', m. split; [done|]. split; [unfold NULL; lia|]. split; [done|]. split; [apply Hk|]. split; [apply Hk|].
  destruct (md_inv _ _ _ _ _ _ Hm) as [[_ _ Hv] Hl _ _]. split; [|split; [by apply keeps_content|done]].
  split; try done.
  - by rewrite (kp_dirs _ _ Hk).
  - destruct Hop as [(m' & _ & _ & -> & _)|(d' & _ & _ & _ & -> & _)]; by rewrite lookup_insert_ne.
  - by rewrite bump_ne.
Qed.

(** What [lookup] finds in the root directory is what the names say. *)
Lemma root_lookup cap L c F a s dp ri n nm : at_root cap L c F a s dp ri n ->
  exists r s', lookup dp nm s = Done (r, s') /\ only_device s s' (dbyte (fs_device s)) /\
    match r with
    | Some (e, ofs) => a_names a !! nm = Some (inode_sector e) /\ exists j, 0 <= j < cap /\ ofs = 20 * j /\
        e = rentry (fs_device s') (data n) j /\ matches nm e = true
    | None => a_names a !! nm = None
    end.
Proof.
  intros Har. pose proof (md_inv _ _ _ _ _ _ (ar_mid _ _ _ _ _ _ _ _ _ Har)) as Hinv. destruct (root_facts _ _ _ _ _ _ _ _ _ Har) as (Hdr & _ & HL & _ & _ & _ & _ & Hcap & HN).
  destruct (lookup_spec s dp ri n nm Hdr) as (r & s' & Hrun & Ho & Hcase). exists r, s'. split; [done|]. split; [done|].
  rewrite entry_cnt_entries, Hcap in Hcase. destruct r as [[e ofs]|].
  - destruct Hcase as (j & Hj & -> & -> & Hmt & _). split.
    + apply (nm_iff _ _ _ HN). exists j. by rewrite Hcap.
    + exists j. destruct (only_quiet _ _ Ho) as [Hst _]. rewrite (rentry_same (fs_device s) (fs_device s')); [done| |by rewrite Hcap].
      apply (step_same_content _ _ _ _ _ Hinv Hst ltac:(tauto) 1); [done|lia].
  - apply (names_lookup _ _ _ nm HN). rewrite Hcap. exact Hcase.
Qed.

(** ** filesys_open *)

Lemma file_open_null cap L c F a s : mid cap L c F a s -> exists s', file_open NULL s = Done (NULL, s') /\ mid cap L c F a s' /\
  files s' = files s /\ inodes s' = inodes s.
Proof.
  intros Hm. destruct (mid_malloc cap L c F a s Hm) as (s' & Hrun & Hm' & Hst & _). exists s'. split; [|split; [done|split; apply Hst]].
  unfold file_open. erewrite bind_done by exact Hrun. rewrite Z.eqb_refl. cbn [negb andb].
  by erewrite bind_done by done.
Qed.

Lemma file_open_run cap L c a s i n : mid cap L c (files s) a s -> inodes s !! i = Some n -> 1 < sector n ->
  exists f s', file_open i s = Done (f, s') /\ f <> NULL /\ a_open a !! f = None /\
    mid cap L c (files s') (set_open f (mk_handle (sector n) 0 false) a) s' /\ inodes s' = inodes s /\
    files s !! f = None /\ files s' = <[f := mk_file i 0 false]> (files s).
Proof.
  intros Hm Hn Hs. destruct (mid_malloc cap L c _ a s Hm) as (s1 & Hrun & Hm1 & Hst & Hb & Hpos).
  assert (files s !! brk s = None) as Hfr.
  { destruct (files s !! brk s) as [fl|] eqn:E; [|done]. destruct (md_file _ _ _ _ _ _ Hm _ _ E) as (? & _). lia. }
  pose proof (st_files _ _ _ Hst) as Ef. pose proof (st_inodes _ _ _ Hst) as Ei. pose proof (st_file _ _ _ Hst) as Em.
  destruct (mid_inode _ _ _ _ _ _ _ _ Hm Hn) as (_ & Hib & _).
  exists (brk s), (set_files (<[brk s := mk_file i 0 false]> (files s1)) s1). split; [|split; [unfold NULL; lia|split; [|split]]].
  - unfold file_open. erewrite bind_done by exact Hrun. unfold NULL. rewrite !(proj2 (Z.eqb_neq _ 0)) by lia. cbn [negb andb]. by erewrite bind_done by done.
  - rewrite (md_open _ _ _ _ _ _ Hm). destruct (brk s =? free_map_file s); [done|]. unfold handle_of. by rewrite Hfr.
  - cbn [files set_files]. rewrite Ef. pose proof (mid_new_file cap L c a s1 (brk s) i n) as Hnew. cbv zeta in Hnew. rewrite Ef, Ei in Hnew.
    apply Hnew; [done|done|lia|done|done].
  - cbn. rewrite Ef. done.
Qed.

Lemma sim_open cap junk a s nm : rep cap a s -> op_pre a (Open nm) -> simulates cap a s (Open nm) (run_op junk (Open nm)).
Proof.
  intros Hr Hpre. cbn in Hpre. destruct (dir_open_root_run cap a s Hr) as (L & dp & ri & n & s1 & Hrun1 & Har1 & Ef1 & _).
  pose proof (rp_few _ _ _ Hr) as Hfew. pose proof Hr as [[L0 Hm0] Hcl _].
  pose proof (mid_size _ _ _ _ _ _ Hm0) as Hsz.
  unfold run_op, filesys_open. pose proof (ar_null _ _ _ _ _ _ _ _ _ Har1) as Hd.
  destruct (root_lookup _ _ _ _ _ _ _ _ _ nm Har1) as (r & s2 & Hrun2 & Ho & Hcase).
  pose proof (root_quiet _ _ _ _ _ _ _ _ _ _ Har1 Ho) as Har2. destruct r as [[e ofs]|].
  - destruct Hcase as [Hnm _]. destruct (md_named _ _ _ _ _ _ (ar_mid _ _ _ _ _ _ _ _ _ Har2) _ _ Hnm) as [Hs [d HL]].
    assert (named a (inode_sector e) = true) as Hnd by (apply named_true; by exists nm).
    destruct (root_open _ _ _ _ _ _ _ _ _ _ _ Har2 HL Hs Hnd) as (i & s3 & m & Hrun3 & Hi & Hne & Ef3 & _ & Har3 & Hsc & Hm3 & Hsm & _).
    { intros i. unfold bump. pose proof (rep_refs cap a s i Hr). destruct (i =? ri); lia. }
    destruct (dir_close_run _ _ _ _ _ _ _ _ _ Har3) as (s4 & Hrun4 & Hm4 & Ef4 & Hcl4 & Hin4).
    assert (files s4 = files s) as Ef by (by rewrite Ef4, Ef3, (od_files _ _ _ Ho)). rewrite <- Ef in Hm4.
    destruct (file_open_run _ _ _ _ _ i m Hm4) as (f & s5 & Hrun5 & Hf & Hfo & Hm5 & Ei5 & Hfr & Ef5); [by apply Hin4|by rewrite Hsm|].
    eexists (RFile f), s5, _. split; [|split; [by eapply A_open_file|]].
    + erewrite bind_done; [done|]. erewrite bind_done by exact Hrun1. rewrite (proj2 (Z.eqb_neq _ _) Hd).
      erewrite bind_done by (unfold dir_lookup; rewrite (proj2 (Z.eqb_neq _ _) Hd); erewrite bind_done by done; erewrite bind_done by exact Hrun2; exact Hrun3).
      erewrite bind_done by exact Hrun4. exact Hrun5.
    + rewrite Hsm in Hm5. eapply rep_of; [exact Hm5| |by rewrite Ei5|].
      * intros j. rewrite Ef5, refs_insert by done. rewrite Ef. cbn. unfold bump. destruct (j =? ri), (j =? i); lia.
      * rewrite Ef5, map_size_insert_None by done. rewrite Ef. lia.
  - destruct (dir_close_run _ _ _ _ _ _ _ _ _ Har2) as (s3 & Hrun3 & Hm3 & Ef3 & Hcl3 & _).
    destruct (file_open_null _ _ _ _ _ _ Hm3) as (s4 & Hrun4 & Hm4 & Ef4 & Ei4).
    assert (files s4 = files s) as Ef by (by rewrite Ef4, Ef3, (od_files _ _ _ Ho)).
    eexists (RFile NULL), s4, a. split; [|split; [by eapply A_open_fails|]].
    + erewrite bind_done; [done|]. erewrite bind_done by exact Hrun1. rewrite (proj2 (Z.eqb_neq _ _) Hd).
      erewrite bind_done by (unfold dir_lookup; rewrite (proj2 (Z.eqb_neq _ _) Hd); erewrite bind_done by done; erewrite bind_done by exact Hrun2; done).
      erewrite bind_done by exact Hrun3. exact Hrun4.
    + eapply rep_of; [rewrite Ef; exact Hm4| |by rewrite Ei4|by rewrite Ef].
      intros j. rewrite Ef. unfold bump. destruct (j =? ri); lia.
Qed.

(** ** filesys_remove *)

Lemma within_step s s' n : wf_inode (fs_device s) n -> within_inode s s' n ->
  fs_step (data_sector (data n)) s s' /\ free_map s' = free_map s.
Proof.
  intros Hw (g & Ho & Hg). eapply only_device_step; [exact Ho|]. intros p Hp Hnp. apply Hg. intros Hb. apply Hnp.
  unfold data_sector, sectors, base in *. pose proof (wi_length _ _ Hw). dlia.
Qed.

(** The entry of a name is freed and its inode marked as removed. *)
Lemma mid_unlink cap L c F a s s' dr nm i m : mid cap L c F a s -> a_names a !! nm = Some (sector m) -> inodes s !! i = Some m ->
  L !! 1 = Some dr -> fs_step (data_sector dr) s s' -> free_map s' = free_map s ->
  names_ok (fs_device s') dr (delete nm (a_names a)) ->
  mid cap L c F (mk_afs (delete nm (a_names a)) (a_data a) (a_open a))
    (set_inodes (<[i := mk_inode (sector m) (open_cnt m) true (deny_write_cnt m) (data m)]> (inodes s')) s').
Proof.
  intros Hm Hnm Hi Hdr Hst E HN'. destruct (inv_write L c s s' 1 dr (md_inv _ _ _ _ _ _ Hm) Hdr ltac:(lia) Hst E) as [Hinv Hc].
  destruct (md_named _ _ _ _ _ _ Hm nm _ Hnm) as [Hs HL]. destruct Hst as [Sd Sf So Si Sfs Sds Sm Sb].
  destruct Hm as [_ HF (d & Hd & Hcap & HN) Hnamed Hij Hda Hin Hfl Hop]. rewrite Hdr in Hd. injection Hd as <-.
  assert (forall nm' sec, delete nm (a_names a) !! nm' = Some sec <-> a_names a !! nm' = Some sec /\ sec <> sector m) as Hdel.
  { intros nm' sec. rewrite lookup_delete_Some. split; intros [H1 H2].
    - split; [done|]. intros ->. apply H1. by apply (Hij _ _ (sector m)).
    - split; [|done]. intros ->. rewrite Hnm in H1. by injection H1 as <-. }
  split; cbn [a_names a_data a_open files inodes fs_device set_inodes free_map_file brk]; rewrite ?Si, ?Sf, ?Sfs.
  - rewrite <- Si. eapply inv_inode; [exact Hinv|by rewrite Si|lia|done..].
  - done.
  - by exists dr.
  - intros nm' sec [E1 _]%Hdel. by apply (Hnamed nm').
  - intros nm1 nm2 sec [E1 _]%Hdel [E2 _]%Hdel. by apply (Hij nm1 nm2 sec).
  - intros sec. rewrite Hda. destruct (Z.leb_spec sec 1); [done|]. destruct (L !! sec) as [d|] eqn:Ed; [|done]. cbn. by rewrite (Hc sec d Ed) by lia.
  - intros j m'. rewrite lookup_insert_Some. intros [[<- <-]|[Hne Em]].
    + cbn. destruct (Hin i m Hi) as [-> _]. split; [done|]. rewrite (proj2 (Z.ltb_lt _ _) Hs).
      symmetry. apply negb_true_iff, named_false. cbn. intros nm' [_ E1]%Hdel. done.
    + destruct (Hin j m' Em) as [-> ->]. split; [done|]. destruct (1 <? sector m') eqn:E1; [|done]. f_equal.
      apply eq_true_iff_eq. rewrite !named_true. cbn. apply base.exist_proper. intros nm'. rewrite Hdel. split; [|by intros [? _]].
      intros E2. split; [done|]. intros E3. apply Hne. symmetry. by apply (ob_sector _ _ _ (fi_objs _ _ _ Hinv) j i m' m); rewrite ?Si.
  - intros f fl Ef. destruct (Hfl f fl Ef) as (? & ? & m' & Em & Hsm). split; [lia|]. split; [done|].
    destruct (decide (f_inode fl = i)) as [E1|Hne].
    + rewrite E1 in *. eexists. rewrite lookup_insert_eq. split; [done|]. cbn. rewrite Hi in Em. by injection Em as <-.
    + exists m'. by rewrite lookup_insert_ne.
  - intros f. rewrite Hop. destruct (f =? free_map_file s); [done|]. symmetry. apply handle_of_same.
    + intros fl m' Ef Em. destruct (decide (f_inode fl = i)) as [E1|Hne].
      * rewrite E1 in *. eexists. rewrite lookup_insert_eq. split; [done|]. cbn. rewrite Hi in Em. by injection Em as <-.
      * exists m'. by rewrite lookup_insert_ne.
    + intros fl Ef. destruct (Hfl f fl Ef) as (_ & _ & m' & Em & _). by exists m'.
Qed.

(** Closing an inode beside the root directory. *)
Lemma root_close cap L c F a s dp ri n i m : at_root cap L c F a s dp ri n -> inodes s !! i = Some m -> i <> ri -> 1 < sector m ->
  c i < 2 ^ 31 -> c i = refs F i + 1 ->
  exists L' s', inode_close i s = Done (tt, s') /\ at_root cap L' (bump c i (-1)) F (collect (sector m) a) s' dp ri n /\ files s' = files s.
Proof.
  intros [Hm Hd Hp Hn Hs Hc] Hi Hne Hsm Hb Hci. destruct (mid_close cap L c F a s i m Hm Hi Hsm Hb Hci) as (L' & s' & Hrun & Hcl & Hm').
  exists L', s'. split; [done|]. destruct Hcl as (Ef & Ed & _ & _ & Hin). split; [|done]. split; try done; [by rewrite Ed| |by rewrite bump_ne].
  destruct (open_cnt m =? 1); destruct Hin as [-> _]; [by rewrite lookup_delete_ne|by rewrite lookup_insert_ne].
Qed.

(** The body of [dir_remove] once the name has been found. *)
Lemma unlink_run cap L c F a s dp ri n i m nm e j : at_root cap L c F a s dp ri n -> inodes s !! i = Some m -> i <> ri ->
  a_names a !! nm = Some (sector m) -> 0 <= j < cap -> e = rentry (fs_device s) (data n) j -> matches nm e = true ->
  inode_sector e = sector m -> i <> NULL ->
  exists w s1 s2, inode_write_at ri (entry_bytes (mk_entry (inode_sector e) (e_name e) false)) sizeof_entry (20 * j) s = Done (w, s1) /\
    (w =? sizeof_entry) = true /\ inode_remove i s1 = Done (tt, s2) /\ files s2 = files s /\
    at_root cap L c F (mk_afs (delete nm (a_names a)) (a_data a) (a_open a)) s2 dp ri n /\
    exists m', inodes s2 !! i = Some m' /\ sector m' = sector m.
Proof.
  intros Har Hi Hne Hnm Hj -> Hmt Hsec Hnull. destruct (root_facts _ _ _ _ _ _ _ _ _ Har) as (Hdr & Hdw & HL & _ & _ & _ & _ & Hcap & HN).
  pose proof Har as [Hm Hd Hp Hn Hs Hc]. destruct (mid_inode _ _ _ _ _ _ _ _ Hm Hi) as (HLm & _).
  destruct (md_inv _ _ _ _ _ _ Hm) as [[_ _ Hv] Hl _ _]. pose proof (wf_cnt _ (dv_map _ _ Hv)).
  pose proof (dk_sec _ _ _ (ly_ok _ _ _ Hl _ _ HLm)) as Hss.
  set (e := rentry (fs_device s) (data n) j) in *. set (e' := mk_entry (inode_sector e) (e_name e) false).
  destruct (write_entry s dp ri n j e' Hdr Hdw) as (w & s1 & Hrun & Hdr1 & Hin & Hw & Hent).
  { unfold is_u32. cbn [inode_sector e']. lia. }
  { unfold e', e, rentry, entry_of_bytes. cbn [e_name]. unfold zlen. rewrite length_take, length_drop, length_map, length_seqZ. lia. }
  { rewrite entry_cnt_entries. lia. }
  rewrite entry_cnt_entries, Hcap in Hw, Hent. destruct (within_step _ _ _ (dr_wf _ _ _ _ Hdr) Hin) as [Hst E].
  assert (names_ok (fs_device s1) (data n) (delete nm (a_names a))) as HN1.
  { eapply (names_delete (fs_device s)); [exact HN|by rewrite Hcap|exact Hmt| |].
    - rewrite <- entry_rentry, Hent by done. by rewrite Z.eqb_refl.
    - intros k Hk Hkj. rewrite Hcap in Hk. rewrite <- !entry_rentry, Hent by done. by rewrite (proj2 (Z.eqb_neq _ _) Hkj). }
  pose proof (mid_unlink cap L c F a s s1 (data n) nm i m Hm Hnm Hi HL Hst E HN1) as Hm2.
  exists w, s1. eexists. split; [exact Hrun|]. split; [rewrite Hw; lia|]. split; [|split; [|split]].
  - unfold inode_remove. rewrite (proj2 (Z.eqb_neq _ _) Hnull). cbn [negb]. erewrite bind_done by done.
    erewrite bind_done by (apply get_inode_run; by rewrite (st_inodes _ _ _ Hst)). done.
  - cbn. apply Hst.
  - split; [exact Hm2|done|cbn; by rewrite (st_dirs _ _ _ Hst)| |done|done]. cbn. by rewrite lookup_insert_ne, (st_inodes _ _ _ Hst).
  - eexists. cbn. by rewrite lookup_insert_eq.
Qed.

Lemma sim_remove cap junk a s nm : rep cap a s -> simulates cap a s (Remove nm) (run_op junk (Remove nm)).
Proof.
  intros Hr. destruct (dir_open_root_run cap a s Hr) as (L & dp & ri & n & s1 & Hrun1 & Har1 & Ef1 & _).
  unfold run_op, filesys_remove. pose proof (ar_null _ _ _ _ _ _ _ _ _ Har1) as Hd.
  destruct (root_lookup _ _ _ _ _ _ _ _ _ nm Har1) as (r & s2 & Hrun2 & Ho & Hcase).
  pose proof (root_quiet _ _ _ _ _ _ _ _ _ _ Har1 Ho) as Har2. destruct r as [[e ofs]|].
  - destruct Hcase as (Hnm & j & Hj & -> & He & Hmt). destruct (md_named _ _ _ _ _ _ (ar_mid _ _ _ _ _ _ _ _ _ Har2) _ _ Hnm) as [Hs [d HL]].
    assert (named a (inode_sector e) = true) as Hnd by (apply named_true; by exists nm).
    destruct (root_open _ _ _ _ _ _ _ _ _ _ _ Har2 HL Hs Hnd) as (i & s3 & m & Hrun3 & Hi & Hne & Ef3 & _ & Har3 & Hsc & Hm3 & Hsm & _).
    { intros i. unfold bump. pose proof (rep_refs cap a s i Hr). destruct (i =? ri); lia. }
    destruct (unlink_run _ _ _ _ _ _ _ _ _ i m nm e j Har3 Hm3 Hne) as (w & s4 & s5 & Hrun4 & Hw & Hrun5 & Ef5 & Har5 & m' & Hm5 & Hsm');
      [by rewrite Hsm|done| |done|done|done|].
    { rewrite He. symmetry. destruct (root_facts _ _ _ _ _ _ _ _ _ Har2) as (_ & _ & HL1 & _ & _ & _ & _ & Hcap & _).
      apply rentry_same; [apply (Hsc 1); [done|lia]|by rewrite Hcap]. }
    destruct (root_close _ _ _ _ _ _ _ _ _ i m' Har5 Hm5 Hne) as (L' & s6 & Hrun6 & Har6 & Ef6); [lia| | |].
    { unfold bump. rewrite Z.eqb_refl. pose proof (rep_refs cap a s i Hr). destruct (i =? ri); lia. }
    { unfold bump. rewrite Z.eqb_refl. rewrite (proj2 (Z.eqb_neq _ _) Hne). done. }
    destruct (dir_close_run _ _ _ _ _ _ _ _ _ Har6) as (s7 & Hrun7 & Hm7 & Ef7 & Hcl7 & _).
    assert (files s7 = files s) as Ef by (by rewrite Ef7, Ef6, Ef5, Ef3, (od_files _ _ _ Ho)).
    rewrite Hsm', Hsm in Hm7. eexists (RBool true), s7, _. split; [|split; [by eapply A_remove|]].
    + destruct (ar_dir _ _ _ _ _ _ _ _ _ Har3) as [p Hp].
      erewrite bind_done; [done|]. erewrite bind_done by exact Hrun1. rewrite (proj2 (Z.eqb_neq _ _) Hd).
      erewrite bind_done; [erewrite bind_done by exact Hrun7; done|]. unfold dir_remove. rewrite (proj2 (Z.eqb_neq _ _) Hd).
      erewrite bind_done by done. erewrite bind_done by exact Hrun2. cbv iota. erewrite bind_done by exact Hrun3. rewrite (proj2 (Z.eqb_neq _ _) Hi).
      erewrite bind_done by (unfold get_dir, load; by rewrite Hp). erewrite bind_done by exact Hrun4. rewrite Hw. cbn [negb].
      erewrite bind_done by exact Hrun5. by erewrite bind_done by exact Hrun6.
    + eapply rep_of; [rewrite Ef; exact Hm7| |done|rewrite Ef; apply Hr].
      intros k. rewrite Ef. unfold bump. destruct (k =? ri), (k =? i); lia.
  - destruct (dir_close_run _ _ _ _ _ _ _ _ _ Har2) as (s3 & Hrun3 & Hm3 & Ef3 & Hcl3 & _).
    assert (files s3 = files s) as Ef by (by rewrite Ef3, (od_files _ _ _ Ho)).
    eexists (RBool false), s3, a. split; [|split; [by eapply A_remove_fails|]].
    + erewrite bind_done; [done|]. erewrite bind_done by exact Hrun1. rewrite (proj2 (Z.eqb_neq _ _) Hd).
      erewrite bind_done; [erewrite bind_done by exact Hrun3; done|]. unfold dir_remove. rewrite (proj2 (Z.eqb_neq _ _) Hd).
      erewrite bind_done by done. by erewrite bind_done by exact Hrun2.
    + eapply rep_of; [rewrite Ef; exact Hm3| |done|rewrite Ef; apply Hr].
      intros k. rewrite Ef. unfold bump. destruct (k =? ri); lia.
Qed.
End Names.
