(* ===== verification/FsCreate.v ===== *)
(** * filesys_create refines the abstract one

    A sector for the inode, the inode with its data, and the entry in the root
    directory; a failure on the way gives the sector back. *)

From S2P Require Import Prelude Vaddr KList Bitmap Block FileSys FileSpec DirSpec FsLayout FsObjs FsRoot FsAbstract FsMid FsTable FsRefine FsNames.

Section Create.
Context {dev : Type} `{BlockDriver dev}.
Implicit Types (b : block dev) (s : fs dev) (n : inode) (d : inode_disk) (L : gmap Z inode_disk) (c : Z -> Z) (a : afs) (F : gmap Z file).

(** No inode owns the sector. *)
Definition unowned L (t : Z) : Prop := forall sec d, L !! sec = Some d -> ~ owns sec d t.

Lemma unowned_bit L b fm t : layout L b fm -> bit fm t = false -> unowned L t.
Proof. intros Hl Hb sec d Hd Ho. by rewrite (ly_used _ _ _ Hl _ _ _ Hd Ho) in Hb. Qed.

Lemma unowned_none L t : unowned L t -> L !! t = None.
Proof. intros Hu. destruct (L !! t) as [d|] eqn:E; [|done]. destruct (Hu t d E). by left. Qed.

Lemma unowned_range L c F a cap s dp ri n t : at_root cap L c F a s dp ri n -> unowned L t -> 0 <= t -> 1 < t.
Proof.
  intros Har Hu Ht. destruct (root_facts _ _ _ _ _ _ _ _ _ Har) as (_ & _ & H1 & _).
  destruct (md_inv _ _ _ _ _ _ (ar_mid _ _ _ _ _ _ _ _ _ Har)) as [_ _ _ (nm & _ & _ & H0)].
  assert (t <> 0) by (intros ->; destruct (Hu _ _ H0); by left). assert (t <> 1) by (intros ->; destruct (Hu _ _ H1); by left). lia.
Qed.

(** ** The free map *)

(** The free map's file is written and unowned bits change. *)
Lemma root_map cap L c F a s s' dp ri n nm : at_root cap L c F a s dp ri n -> L !! 0 = Some (data nm) -> sector nm = 0 ->
  fs_step (data_sector (data nm)) s s' -> fs_ready s' -> map_inv s' nm -> bit_cnt (free_map s') = bit_cnt (free_map s) ->
  (forall t, 0 <= t -> ~ unowned L t -> bit (free_map s') t = bit (free_map s) t) -> at_root cap L c F a s' dp ri n.
Proof.
  intros [Hm Hd Hp Hn Hs Hc] H0 Hz Hst Hr Hmi Hcnt Hbits. pose proof (md_inv _ _ _ _ _ _ Hm) as Hinv. pose proof (fi_layout _ _ _ Hinv) as Hl.
  split; [|done|by rewrite (st_dirs _ _ _ Hst)|by rewrite (st_inodes _ _ _ Hst)|done|done].
  eapply mid_same; [exact Hm|exact Hst| |].
  - eapply inv_device; [exact Hinv|exact Hst|done|exact Hmi|done|done|done| |].
    + intros sec d Hd'. by eapply data_not_sector.
    + intros sec d t Hd' Ho. rewrite Hbits; [by apply (ly_used _ _ _ Hl sec d)| |].
      * by apply (owned_range _ _ _ _ _ _ Hl Hd' Ho).
      * intros Hu. by apply (Hu sec d).
  - eapply step_same_content; [exact Hinv|exact Hst|]. intros sec d t Hd' Hne Ht. by eapply data_apart.
Qed.

Lemma root_alloc cap L c F a s dp ri n : at_root cap L c F a s dp ri n ->
  exists r s', free_map_allocate 1 s = Done (r, s') /\ at_root cap L c F a s' dp ri n /\ inodes s' = inodes s /\ files s' = files s /\
    match r with
    | Some sec => 1 < sec < bit_cnt (free_map s') /\ unowned L sec /\ group (free_map s) sec 1 false /\
        bit_cnt (free_map s') = bit_cnt (free_map s) /\
        forall j, 0 <= j -> bit (free_map s') j = if in_range sec 1 j then true else bit (free_map s) j
    | None => s' = s /\ forall k, 0 <= k -> ~ group (free_map s) k 1 false
    end.
Proof.
  intros Har. destruct (md_inv _ _ _ _ _ _ (ar_mid _ _ _ _ _ _ _ _ _ Har)) as [Hr Hl Ho (nm & Hmi & Hz & H0)].
  destruct (alloc_step s (Some nm) 1 Hr Hmi) as (r & s' & Hrun & Hst & Hr' & Hmi' & Hcnt & Hcase); [lia|].
  exists r, s'. split; [done|]. destruct r as [sec|].
  - destruct Hcase as (Hsec & [Hg1 Hg2] & Hbits). assert (unowned L sec) as Hu by (eapply unowned_bit; [exact Hl|apply Hg2; lia]).
    split; [|split; [apply Hst|split; [apply Hst|]]].
    + eapply root_map; [exact Har|exact H0|done|exact Hst|done|done|done|]. intros t Ht Hnu. rewrite Hbits by done.
      destruct (in_range sec 1 t) eqn:E; [|done]. unfold in_range in E. assert (t = sec) as -> by lia. done.
    + split; [split; [by eapply unowned_range|lia]|]. done.
  - destruct Hcase as [-> Hno]. done.
Qed.

Lemma root_release cap L c F a s dp ri n sec : at_root cap L c F a s dp ri n -> unowned L sec -> 0 <= sec < bit_cnt (free_map s) ->
  bit (free_map s) sec = true ->
  exists s', free_map_release sec 1 s = Done (tt, s') /\ at_root cap L c F a s' dp ri n /\ files s' = files s.
Proof.
  intros Har Hu Hsec Hb. destruct (md_inv _ _ _ _ _ _ (ar_mid _ _ _ _ _ _ _ _ _ Har)) as [Hr Hl Ho (nm & Hmi & Hz & H0)].
  destruct (release_step s nm sec 1 Hr Hmi) as (s' & Hrun & Hst & Hr' & Hmi' & Hcnt & Hbits); [lia|lia|lia| |].
  { intros j Hj. by replace j with sec by lia. }
  exists s'. split; [done|]. split; [|apply Hst]. eapply root_map; [exact Har|exact H0|done|exact Hst|done|done|done|].
  intros t Ht Hnu. rewrite Hbits by done. destruct (in_range sec 1 t) eqn:E; [|done]. unfold in_range in E. assert (t = sec) as -> by lia. done.
Qed.

(** ** The inode *)

Lemma zero_content b d : 0 <= length_ d -> (forall t k, data_sector d t -> 0 <= k < 512 -> dbyte b (512 * t + k) = 0) ->
  fcontent b d = replicate (Z.to_nat (length_ d)) 0.
Proof.
  intros Hl Hz. apply zlist_eq; [unfold fcontent; rewrite zlen_map_seqZ by done; unfold zlen; rewrite length_replicate; lia|].
  intros k Hk. unfold fcontent in *. rewrite zlen_map_seqZ in Hk by done. rewrite zget_map_seqZ, zget_replicate by lia.
  replace (512 * start d + (0 + k)) with (512 * (start d + k / 512) + k mod 512) by dlia.
  rewrite Hz; [done| |apply Z.mod_pos_bound; lia]. unfold data_sector, sectors. dlia.
Qed.

(** What creating an inode writes belongs to no other. *)
Lemma created_apart L b fm dm d sec sec' d' t : layout L b fm -> L !! 0 = Some dm -> unowned L sec -> (forall t, data_sector d t -> bit fm t = false) ->
  L !! sec' = Some d' -> created_in (data_sector dm) d sec t -> ~ (data_sector d' t /\ sec' <> 0) /\ t <> sec'.
Proof.
  intros Hl H0 Hu Hf Hd' [Hm|[->|Hd]].
  - split; [intros [Ht Hne]; by apply (data_apart L b fm 0 dm sec' d' t Hl H0 Hd' ltac:(done))|]. intros ->. by apply (data_not_sector L b fm 0 dm sec' d' Hl H0 Hd').
  - split; [intros [Ht _]; by apply (Hu sec' d'); [|right]|]. intros ->. by apply (Hu sec' d'); [|left].
  - assert (unowned L t) as Hut by (eapply unowned_bit; [exact Hl|by apply Hf]).
    split; [intros [Ht _]|intros ->]; apply (Hut _ d' Hd'); [by right|by left].
Qed.

Lemma inv_insert L c s s' dm nm sec d : fs_inv L c s -> L !! 0 = Some dm -> unowned L sec -> bit (free_map s) sec = true ->
  0 <= sec < bit_cnt (free_map s) -> data nm = dm -> sector nm = 0 -> fs_ready s' -> map_inv s' nm ->
  bit_cnt (free_map s') = bit_cnt (free_map s) -> 0 <= start d -> 0 <= length_ d < 2 ^ 31 - 512 ->
  group (free_map s) (start d) (sectors d) false ->
  (forall j, 0 <= j -> bit (free_map s') j = if in_range (start d) (sectors d) j then true else bit (free_map s) j) ->
  fs_step (created_in (data_sector dm) d sec) s s' -> disk_at (fs_device s') sec = d ->
  fs_inv (<[sec := d]> L) c s' /\ same_content L s s'.
Proof.
  intros Hinv H0 Hu Hsb Hsec <- Hz Hr' Hmi Hcnt Hst Hlen [Hg1 Hg2] Hbits Hstep Hdisk. pose proof (fi_layout _ _ _ Hinv) as Hl.
  assert (forall t, data_sector d t -> bit (free_map s) t = false) as Hfree by (intros t Ht; by apply Hg2).
  assert (fs_inv L c s') as Hinv'.
  { eapply inv_device; [exact Hinv|exact Hstep|done|exact Hmi|done|done|done| |].
    - intros sec' d' Hd' Hw. by destruct (created_apart L _ _ (data nm) d sec sec' d' sec' Hl H0 Hu Hfree Hd' Hw).
    - intros sec' d' t Hd' Ho. rewrite Hbits by by apply (owned_range _ _ _ _ _ _ Hl Hd' Ho).
      destruct (in_range _ _ t); [done|]. by apply (ly_used _ _ _ Hl sec' d'). }
  split.
  - destruct Hinv' as [_ Hl' Ho' _]. split; [done| | |].
    + apply layout_insert; [done| |done| |].
      * split; [done|rewrite Hcnt; by split|by rewrite Hcnt|]. intros Hd. by rewrite (Hfree sec Hd) in Hsb.
      * intros t [->|Ht]; rewrite Hbits by (unfold data_sector in *; lia).
        -- by destruct (in_range _ _ sec).
        -- unfold in_range, data_sector in *. by replace ((start d <=? t) && (t <? start d + sectors d)) with true by lia.
      * intros sec' d' t Hd' Ho [->|Ht]; [by apply (Hu sec' d')|].
        pose proof (ly_used _ _ _ Hl sec' d' t Hd' Ho) as Hb. by rewrite Hfree in Hb.
    + eapply objs_mono; [exact Ho'|done|done|done|]. intros i n Hn. rewrite lookup_insert_ne; [done|]. intros E.
      destruct (objs_inode _ _ _ _ _ Ho' Hn) as (HL & _). by rewrite <- E, (unowned_none L sec Hu) in HL.
    + exists nm. rewrite lookup_insert_ne; [done|]. intros ->. destruct (Hu 0 (data nm) H0). by left.
  - eapply step_same_content; [exact Hinv|exact Hstep|]. intros sec' d' t Hd' Hne Ht Hw.
    destruct (created_apart L _ _ (data nm) d sec sec' d' t Hl H0 Hu Hfree Hd' Hw) as [Hx _]. by apply Hx.
Qed.

Lemma root_create cap L c F a s dp ri n sec len : at_root cap L c F a s dp ri n -> unowned L sec -> 0 <= sec < bit_cnt (free_map s) ->
  bit (free_map s) sec = true -> 0 <= len < 2 ^ 31 - 512 ->
  exists r s', inode_create sec len s = Done (r, s') /\ inodes s' = inodes s /\ files s' = files s /\
    bit_cnt (free_map s') = bit_cnt (free_map s) /\
    if r : bool
    then exists d, at_root cap (<[sec := d]> L) c F (mk_afs (a_names a) (<[sec := replicate (Z.to_nat len) 0]> (a_data a)) (a_open a)) s' dp ri n
    else at_root cap L c F a s' dp ri n /\ free_map s' = free_map s /\
      forall k, 0 <= k -> ~ group (free_map s) k (sectors (mk_disk 0 len 0)) false.
Proof.
  intros Har Hu Hsec Hb Hlen. pose proof (unowned_range _ _ _ _ _ _ _ _ _ _ Har Hu ltac:(lia)) as Hs1. pose proof Har as [Hm Hd Hp Hn Hs Hc].
  pose proof (md_inv _ _ _ _ _ _ Hm) as Hinv. pose proof Hinv as [Hr Hl Ho (nm & Hmi & Hz & H0)].
  destruct (inode_create_step s (Some nm) sec len Hr Hmi Hlen Hsec Hb) as (r & s' & Hrun & Hr' & Hmi' & Hcnt & Hcase).
  { intros Ht. apply (Hu 0 (data nm) H0). by right. }
  { intros t Ht. apply (ly_used _ _ _ Hl 0 (data nm) t H0). by right. }
  exists r, s'. split; [done|]. destruct r; cycle 1.
  { destruct Hcase as (Hst & E & Hno). split; [apply Hst|]. split; [apply Hst|]. split; [done|]. split; [|done].
    split; [by eapply mid_quiet|done|by rewrite (st_dirs _ _ _ Hst)|by rewrite (st_inodes _ _ _ Hst)|done|done]. }
  destruct Hcase as (st & Hst0 & Hg & Hbits & Hst & Hdisk & Hzero). set (d := mk_disk st len INODE_MAGIC) in *.
  split; [apply Hst|]. split; [apply Hst|]. split; [done|]. exists d.
  destruct (inv_insert L c s s' (data nm) nm sec d) as [Hinv' Hsame]; try done.
  pose proof (zero_content (fs_device s') d ltac:(cbn; lia) Hzero) as Hz0.
  destruct Hm as [_ HF (dr & Hdr & Hcap & HN) Hnm Hij Hda Hin Hfl Hop]. pose proof (unowned_none L sec Hu) as Hnone.
  split; [|done|by rewrite (st_dirs _ _ _ Hst)|by rewrite (st_inodes _ _ _ Hst)|done|done].
  split; cbn [a_names a_data a_open]; rewrite ?(st_inodes _ _ _ Hst), ?(st_files _ _ _ Hst), ?(st_file _ _ _ Hst); try done.
  - exists dr. rewrite lookup_insert_ne by lia. split; [done|]. split; [done|]. eapply names_content; [|exact HN]. by apply (Hsame 1 dr Hdr).
  - intros nm' sec' E. destruct (Hnm nm' sec' E) as [? HL]. split; [done|]. apply lookup_insert_is_Some'. by right.
  - intros sec'. destruct (decide (sec' = sec)) as [->|Hne].
    + rewrite !lookup_insert_eq, (proj2 (Z.leb_gt _ _)) by lia. cbn. by rewrite Hz0.
    + rewrite !lookup_insert_ne by done. by apply (same_data L s s' (a_data a)).
  - intros f fl Ef. destruct (Hfl f fl Ef) as (? & ? & ?). pose proof (st_brk _ _ _ Hst). split; [lia|done].
Qed.

(** The file is given up: its sectors stay marked, but belong to no file. *)
Lemma root_drop cap L c F a s dp ri n sec d l : at_root cap (<[sec := d]> L) c F (mk_afs (a_names a) (<[sec := l]> (a_data a)) (a_open a)) s dp ri n ->
  L !! sec = None -> a_data a !! sec = None -> 1 < sec -> (forall i m, inodes s !! i = Some m -> sector m <> sec) ->
  (forall nm, a_names a !! nm <> Some sec) -> at_root cap L c F a s dp ri n /\ bit (free_map s) sec = true /\ unowned L sec.
Proof.
  intros [Hm Hd Hp Hn Hs Hc] Hno Hnd Hsec Hin0 Hnn. pose proof (md_inv _ _ _ _ _ _ Hm) as [Hr Hl Ho (nmm & Hmi & Hz & H0)].
  assert (delete sec (<[sec := d]> L) = L) as EL by by apply delete_insert_id.
  split; [|split].
  - split; try done. destruct Hm as [_ HF (dr & Hdr & Hcap & HN) Hnm Hij Hda Hin Hfl Hop]. cbn [a_names a_data a_open] in *. split; try done.
    + split; [done| | |].
      * rewrite <- EL. apply (layout_delete _ _ (free_map s)); [done|done|]. intros sec' d' t _. apply (ly_used _ _ _ Hl).
      * eapply objs_mono; [exact Ho|done|done|done|]. intros i m Em. rewrite lookup_insert_ne; [done|]. intros E. by apply (Hin0 i m).
      * exists nmm. rewrite lookup_insert_ne in H0 by lia. done.
    + exists dr. by rewrite lookup_insert_ne in Hdr by lia.
    + intros nm' sec' E. destruct (Hnm nm' sec' E) as [? HL]. split; [done|]. rewrite lookup_insert_ne in HL; [done|]. intros <-. by apply (Hnn nm').
    + intros sec'. specialize (Hda sec'). destruct (decide (sec' = sec)) as [->|Hne].
      * rewrite Hnd, Hno. by destruct (sec <=? 1).
      * by rewrite !lookup_insert_ne in Hda by done.
  - apply (ly_used _ _ _ Hl sec d); [by rewrite lookup_insert_eq|by left].
  - intros sec' d' Hd' Hown. assert (sec' <> sec) as Hne by (intros ->; by rewrite Hno in Hd').
    eapply (ly_apart _ _ _ Hl sec' sec d' d sec); [by rewrite lookup_insert_ne|by rewrite lookup_insert_eq|done|done|by left].
Qed.

(** ** The entry *)

Lemma mid_link cap L c F a s s' dr nm sec : mid cap L c F a s -> a_names a !! nm = None -> 1 < sec -> is_Some (L !! sec) ->
  (forall nm', a_names a !! nm' <> Some sec) -> (forall i m, inodes s !! i = Some m -> sector m <> sec) ->
  L !! 1 = Some dr -> fs_step (data_sector dr) s s' -> free_map s' = free_map s ->
  names_ok (fs_device s') dr (<[nm := sec]> (a_names a)) ->
  mid cap L c F (mk_afs (<[nm := sec]> (a_names a)) (a_data a) (a_open a)) s'.
Proof.
  intros Hm Hnm Hsec HL Hnn Hin0 Hdr Hst E HN'. destruct (inv_write L c s s' 1 dr (md_inv _ _ _ _ _ _ Hm) Hdr ltac:(lia) Hst E) as [Hinv Hc].
  destruct Hst as [Sd Sf So Si Sfs Sds Sm Sb]. destruct Hm as [_ HF (d & Hd & Hcap & HN) Hnamed Hij Hda Hin Hfl Hop].
  rewrite Hdr in Hd. injection Hd as <-.
  split; cbn [a_names a_data a_open]; rewrite ?Si, ?Sf, ?Sfs; try done.
  - by exists dr.
  - intros nm' sec'. rewrite lookup_insert_Some. intros [[_ <-]|[_ E']]; [done|by apply (Hnamed nm')].
  - intros nm1 nm2 sec'. rewrite !lookup_insert_Some. intros [[<- <-]|[? E1]] [[<- E2]|[? E2]]; [done| | |by apply (Hij nm1 nm2 sec')].
    + by destruct (Hnn nm2).
    + subst sec'. by destruct (Hnn nm1).
  - intros sec'. rewrite Hda. destruct (Z.leb_spec sec' 1); [done|]. destruct (L !! sec') as [d|] eqn:Ed; [|done]. cbn. by rewrite (Hc sec' d Ed) by lia.
  - intros j m Em. destruct (Hin j m Em) as [-> ->]. split; [done|]. destruct (1 <? sector m) eqn:E1; [|done]. f_equal.
    apply eq_true_iff_eq. rewrite !named_true. cbn. apply base.exist_proper. intros nm'. rewrite lookup_insert_Some. split.
    + intros E2. right. split; [|done]. intros <-. by rewrite Hnm in E2.
    + intros [[_ E2]|[_ E2]]; [|done]. by destruct (Hin0 j m Em).
  - intros f fl Ef. destruct (Hfl f fl Ef) as (? & ? & ?). split; [lia|done].
Qed.

(** Names too long or empty. *)
Lemma valid_name_dec nm : Forall (fun ch => 0 < ch < 256) nm ->
  bool_decide (nm = []) || (NAME_MAX <? zlen nm) = false /\ valid_name nm \/
  bool_decide (nm = []) || (NAME_MAX <? zlen nm) = true /\ ~ valid_name nm.
Proof.
  intros Hch. destruct (decide (nm = [])) as [->|Hne]; [right; by split; [|intros []]|]. rewrite bool_decide_eq_false_2 by done. cbn [orb].
  destruct (Z.ltb_spec NAME_MAX (zlen nm)) as [Hl|Hl]; [right; split; [done|intros [_ Hx _]; lia]|by left].
Qed.

Lemma root_add cap L c F a s dp ri n junk nm sec : at_root cap L c F a s dp ri n -> zlen junk = 20 -> 1 < sec -> is_Some (L !! sec) ->
  (forall nm', a_names a !! nm' <> Some sec) -> (forall i m, inodes s !! i = Some m -> sector m <> sec) ->
  Forall (fun ch => 0 < ch < 256) nm ->
  exists r s', dir_add junk dp nm sec s = Done (r, s') /\ inodes s' = inodes s /\ files s' = files s /\ free_map s' = free_map s /\
    if r : bool
    then valid_name nm /\ a_names a !! nm = None /\
      at_root cap L c F (mk_afs (<[nm := sec]> (a_names a)) (a_data a) (a_open a)) s' dp ri n
    else at_root cap L c F a s' dp ri n /\ (~ valid_name nm \/ is_Some (a_names a !! nm) \/ cap <= Z.of_nat (base.size (a_names a))).
Proof.
  intros Har Hjunk Hsec HL Hnn Hin0 Hch. destruct (root_facts _ _ _ _ _ _ _ _ _ Har) as (Hdr & Hdw & HL1 & _ & _ & _ & _ & Hcap & HN).
  pose proof Har as [Hm Hd Hp Hn Hs Hc]. destruct (valid_name_dec nm Hch) as [[_ Hv]|[E Hv]]; cycle 1.
  { exists false, s. split; [|split; [done|split; [done|split; [done|split; [done|by left]]]]]. unfold dir_add. rewrite (proj2 (Z.eqb_neq _ _) Hd).
    erewrite bind_done by done. by rewrite E. }
  assert (is_u32 sec) as Hu.
  { destruct HL as [d' Hd']. destruct (md_inv _ _ _ _ _ _ Hm) as [[_ _ Hdv] Hl _ _]. pose proof (wf_cnt _ (dv_map _ _ Hdv)).
    pose proof (dk_sec _ _ _ (ly_ok _ _ _ Hl _ _ Hd')). unfold is_u32. lia. }
  destruct (dir_add_run s dp ri n junk nm sec Hdr Hdw Hv Hu Hjunk) as (r & s' & Hrun & Hdr' & Hwi & Hcase).
  destruct (within_step _ _ _ (dr_wf _ _ _ _ Hdr) Hwi) as [Hst E].
  rewrite !entry_cnt_entries, Hcap in Hcase. exists r, s'. split; [done|]. split; [apply Hst|]. split; [apply Hst|]. split; [done|].
  assert (forall a', mid cap L c F a' s' -> at_root cap L c F a' s' dp ri n) as Hroot.
  { intros a' Hm'. split; try done; [by rewrite (st_dirs _ _ _ Hst)|by rewrite (st_inodes _ _ _ Hst)]. }
  assert ((forall k, 0 <= k < cap -> entry (fs_device s') n k = entry (fs_device s) n k) -> at_root cap L c F a s' dp ri n) as Hsame.
  { intros He. apply Hroot. destruct (inv_write L c s s' 1 (data n) (md_inv _ _ _ _ _ _ Hm) HL1 ltac:(lia) Hst E) as [Hinv Hcs].
    rewrite <- (afs_eta a). eapply mid_device; [exact Hm|exact Hst|exact Hinv| |].
    - intros d Hd'. rewrite HL1 in Hd'. injection Hd' as <-. eapply names_ext; [|exact HN]. intros k Hk. rewrite <- !entry_rentry. apply He. lia.
    - intros sec'. rewrite (md_data _ _ _ _ _ _ Hm). destruct (Z.leb_spec sec' 1); [done|]. destruct (L !! sec') as [d|] eqn:Ed; [|done].
      cbn. by rewrite (Hcs sec' d Ed) by lia. }
  destruct Hcase as [(j & Hj & Hmt & -> & He)|[Hno [(j & Hj & -> & Hfree & _ & Hmt & Hse & He)|(Hfull & -> & He)]]].
  - split; [by apply Hsame|]. right. left. exists (inode_sector (rentry (fs_device s) (data n) j)). apply (nm_iff _ _ _ HN). exists j. by rewrite Hcap.
  - assert (a_names a !! nm = None) as Hnone by (apply (names_lookup _ _ _ nm HN); by rewrite Hcap).
    split; [done|]. split; [done|]. apply Hroot. eapply mid_link; try done. rewrite <- Hse.
    apply (names_insert (fs_device s)); try done; [by rewrite Hcap|]. intros k Hk. rewrite Hcap in Hk. by apply He.
  - split; [by apply Hsame|]. right. right. rewrite <- Hcap. apply (names_full _ _ _ HN). intros k Hk. rewrite Hcap in Hk. by apply Hfull.
Qed.

(** ** filesys_create *)

(** The end of [filesys_create]: the directory is closed, and before that a
    failure gives back the sector of the inode. *)
Lemma create_end cap L F a s dp ri n s0 : rep cap a s0 -> F = files s0 -> files s = files s0 ->
  forall a', at_root cap L (bump (refs (files s0)) ri 1) F a' s dp ri n ->
  exists s', dir_close dp s = Done (tt, s') /\ rep cap a' s'.
Proof.
  intros Hr -> Ef a' Har. destruct (dir_close_run _ _ _ _ _ _ _ _ _ Har) as (s' & Hrun & Hm & Ef' & Hcl & _).
  exists s'. split; [done|]. eapply rep_of; [rewrite Ef', Ef; exact Hm| |done|rewrite Ef', Ef; apply Hr].
  intros i. rewrite Ef', Ef. unfold bump. destruct (i =? ri); lia.
Qed.

(** The steps before that. *)
Definition create_body (junk nm : list Z) (sz dp : Z) : M (fs dev) (bool * Z) :=
  r ← free_map_allocate 1;
  match r with
  | None => mret (false, 0)
  | Some sec =>
      ok ← inode_create sec sz;
      if negb ok then mret (false, sec)
      else ok ← dir_add junk dp nm sec; mret (ok, sec)
  end.

Definition create_undo (r : bool * Z) : M (fs dev) unit :=
  if negb r.1 && negb (r.2 =? 0) then free_map_release r.2 1 else mret tt.

Lemma create_body_run cap L c F a s dp ri n junk nm sz : at_root cap L c F a s dp ri n -> zlen junk = 20 ->
  op_pre a (Create nm sz) ->
  exists r s1 s2, create_body junk nm sz dp s = Done (r, s1) /\ create_undo r s1 = Done (tt, s2) /\ files s2 = files s /\
    exists a' L', astep (room (free_map s)) cap a (Create nm sz) (RBool r.1) a' /\ at_root cap L' c F a' s2 dp ri n.
Proof.
  intros Har Hjunk [Hch Hsz]. unfold create_body, create_undo.
  destruct (root_alloc _ _ _ _ _ _ _ _ _ Har) as (r & s1 & Hrun1 & Har1 & Ei1 & Ef1 & Hcase). destruct r as [sec|]; cycle 1.
  { destruct Hcase as [-> Hno]. exists (false, 0), s, s. split; [by erewrite bind_done by exact Hrun1|]. split; [done|]. split; [done|].
    exists a, L. split; [|done]. apply A_create_fails. right. right. right. intros [(t & Ht & Hg) _]. by apply (Hno t). }
  destruct Hcase as (Hsec & Hu & Hg & Hcnt1 & Hbits). assert (bit (free_map s1) sec = true) as Hb1.
  { rewrite Hbits by lia. unfold in_range. by replace ((sec <=? sec) && (sec <? sec + 1)) with true by lia. }
  assert (a_data a !! sec = None) as Hnd.
  { rewrite (md_data _ _ _ _ _ _ (ar_mid _ _ _ _ _ _ _ _ _ Har)), (unowned_none L sec Hu). by destruct (sec <=? 1). }
  assert (forall nm', a_names a !! nm' <> Some sec) as Hnn.
  { intros nm' Hx. destruct (md_named _ _ _ _ _ _ (ar_mid _ _ _ _ _ _ _ _ _ Har) nm' sec Hx) as [_ [d Hd]]. by rewrite (unowned_none L sec Hu) in Hd. }
  assert (forall i m, inodes s1 !! i = Some m -> sector m <> sec) as Hin0.
  { intros i m Em E. destruct (mid_inode _ _ _ _ _ _ _ _ (ar_mid _ _ _ _ _ _ _ _ _ Har1) Em) as (HLm & _). by rewrite E, (unowned_none L sec Hu) in HLm. }
  destruct (root_create cap L c F a s1 dp ri n sec sz Har1 Hu ltac:(lia) Hb1 Hsz) as (ok & s2 & Hrun2 & Ei2 & Ef2 & Hcnt2 & Hcase). destruct ok; cycle 1.
  { destruct Hcase as (Har2 & Em2 & Hno). destruct (root_release cap L c F a s2 dp ri n sec Har2 Hu) as (s3 & Hrun3 & Har3 & Ef3);
      [rewrite Em2; lia|by rewrite Em2|]. exists (false, sec), s2, s3. cbn [fst snd negb andb]. rewrite (proj2 (Z.eqb_neq sec 0)) by lia.
    split; [erewrite bind_done by exact Hrun1; cbv beta iota; by erewrite bind_done by exact Hrun2|]. split; [done|]. split; [congruence|].
    exists a, L. split; [|done]. apply A_create_fails. right. right. right. intros [_ Hroom].
    destruct (Hroom sec ltac:(lia) Hg) as (k & Hk & [Hk1 Hk2] & Hki). apply (Hno k Hk). split; [by rewrite Hcnt1|].
    intros j Hj. rewrite Hbits by lia. unfold in_range. replace ((sec <=? j) && (j <? sec + 1)) with false by lia. by apply Hk2. }
  destruct Hcase as [d Har2].
  destruct (root_add cap (<[sec := d]> L) c F _ s2 dp ri n junk nm sec Har2 Hjunk) as (ok & s3 & Hrun3 & Ei3 & Ef3 & Em3 & Hcase);
    [lia|by rewrite lookup_insert_eq|done|by rewrite Ei2|done|]. cbn [a_names a_data a_open] in Hcase. destruct ok.
  - destruct Hcase as (Hv & Hnone & Har3). exists (true, sec), s3, s3.
    split; [erewrite bind_done by exact Hrun1; cbv iota; erewrite bind_done by exact Hrun2; cbn [negb]; by erewrite bind_done by exact Hrun3|].
    split; [done|]. split; [congruence|]. eexists _, _. split; [by apply A_create|exact Har3].
  - destruct Hcase as [Har3 Hwhy]. destruct (root_drop cap L c F a s3 dp ri n sec d _ Har3) as (Har4 & Hb4 & _);
      [by apply unowned_none|done|lia|by rewrite Ei3, Ei2|done|].
    destruct (root_release cap L c F a s3 dp ri n sec Har4 Hu) as (s4 & Hrun4 & Har5 & Ef4); [rewrite Em3, Hcnt2; lia|done|].
    exists (false, sec), s3, s4. cbn [fst snd negb andb]. rewrite (proj2 (Z.eqb_neq sec 0)) by lia.
    split; [erewrite bind_done by exact Hrun1; cbv iota; erewrite bind_done by exact Hrun2; cbn [negb]; by erewrite bind_done by exact Hrun3|].
    split; [done|]. split; [congruence|]. exists a, L. split; [|done]. apply A_create_fails. tauto.
Qed.

Lemma sim_create cap junk a s nm sz : rep cap a s -> zlen junk = 20 -> op_pre a (Create nm sz) ->
  simulates cap a s (Create nm sz) (run_op junk (Create nm sz)).
Proof.
  intros Hr Hjunk Hpre. destruct (dir_open_root_run cap a s Hr) as (L & dp & ri & n & s1 & Hrun1 & Har1 & Ef1 & Em1).
  destruct (create_body_run _ _ _ _ _ _ _ _ _ junk nm sz Har1 Hjunk Hpre) as ([ok sec] & s2 & s3 & Hrun2 & Hrun3 & Ef3 & a' & L' & Hstep & Har3).
  destruct (create_end cap L' _ a s3 dp ri n s Hr eq_refl ltac:(congruence) a' Har3) as (s4 & Hrun4 & Hr').
  exists (RBool ok), s4, a'. split; [|split; [by rewrite Em1 in Hstep|done]].
  unfold run_op, filesys_create. erewrite bind_done; [done|]. erewrite bind_done by exact Hrun1.
  rewrite (proj2 (Z.eqb_neq _ _) (ar_null _ _ _ _ _ _ _ _ _ Har1)). fold (create_body junk nm sz dp). erewrite bind_done by exact Hrun2. cbv beta iota.
  erewrite bind_done by exact Hrun3. by erewrite bind_done by exact Hrun4.
Qed.
End Create.
