(* ===== verification/FsMount.v ===== *)
(** * Formatting, mounting and recovering

    Formatting a device makes it an empty file system, and mounting a device
    that holds a file system ([stored]) gives that file system.  A state that
    stands for a file system leaves on the device, at any time between calls, all
    files with a name ([crash]): the next mount finds them. *)

From S2P Require Import Prelude Vaddr KList Bitmap Block FileSys FileSpec DirSpec FsSync FsLayout FsObjs FsRoot FsAbstract FsMid FsRefine FsCreate.

Section Mount.
Context {dev : Type} `{BlockDriver dev}.
Implicit Types (b : block dev) (s : fs dev) (n : inode) (d : inode_disk) (L : gmap Z inode_disk) (a : afs) (m : bitmap).

(** A device that can hold a file system, and a machine just booted with it. *)
Record usable b : Prop := {
  us_type : type b <> BLOCK_FOREIGN;
  us_size : 2 <= size b < 2 ^ 32 - 31;
  us_ready : forall t, 0 <= t < size b -> ready (aux b) t
}.

Record booted s : Prop := {
  bt_file : free_map_file s = NULL;
  bt_inodes : inodes s = ∅;
  bt_files : files s = ∅;
  bt_mem : mem s = [];
  bt_brk : 0 < brk s
}.

(** ** free_map_init *)

Lemma on_map_quiet s m : fs_step (fun _ => False) s (set_free_map m s).
Proof. apply set_map_step. Qed.

(** Two sectors are marked, those of the free map and of the root directory. *)
Lemma init_map_run s : booted s -> usable (fs_device s) ->
  exists s', free_map_init (set_open_inodes [] s) = Done (tt, s') /\ fs_step (fun _ => False) (set_open_inodes [] s) s' /\ fs_ready s' /\
    bit_cnt (free_map s') = size (fs_device s) /\ forall t, 0 <= t < size (fs_device s) -> bit (free_map s') t = (t <? 2).
Proof.
  intros [_ _ _ Hmem Hb] [Ht Hsz Hrd]. set (s0 := set_open_inodes [] s). set (n := size (fs_device s)) in *.
  destruct (malloc_spec s0 Hmem Hb) as (s1 & Hm1 & Ho1 & Hb1 & Hd1).
  destruct (malloc_spec s1) as (s2 & Hm2 & Ho2 & Hb2 & Hd2); [by rewrite (od_mem _ _ _ Ho1)|cbn in *; lia|].
  destruct (only_device_step s0 s1 _ (fun _ => False) Ho1) as [Hs1 _]; [done|].
  destruct (only_device_step s1 s2 _ (fun _ => False) Ho2) as [Hs2 _]; [done|].
  set (m0 := mk_bitmap n (replicate (Z.to_nat (elem_cnt n)) 0)). assert (wf m0) as Hw0.
  { split; [cbn; lia|]. cbn [bits bit_cnt m0]. unfold zlen. rewrite length_replicate, elem_cnt_eq by lia. dlia. }
  destruct (set_all_spec m0 false Hw0) as (m1 & Hr1 & Hw1 & Hc1 & Hbit1). change (bit_cnt m0) with n in Hc1, Hbit1.
  destruct (bitmap_mark_spec m1 0 Hw1) as (m2 & Hr2 & Hw2 & Hc2 & Hbit2); [lia|].
  destruct (bitmap_mark_spec m2 1 Hw2) as (m3 & Hr3 & Hw3 & Hc3 & Hbit3); [lia|].
  exists (set_free_map m3 (set_free_map m2 (set_free_map m1 s2))). split; [|split; [|split; [|split]]].
  - unfold free_map_init. erewrite bind_done by done. erewrite bind_done by exact Hm1. unfold NULL.
    rewrite (proj2 (Z.eqb_neq (brk s0) 0)) by (cbn; lia). erewrite bind_done by exact Hm2.
    rewrite (proj2 (Z.eqb_neq (brk s1) 0)) by (cbn in *; lia). unfold block_size. fold n. cbn [negb].
    erewrite bind_done; [|unfold liftO, bitmap_create; rewrite bool_decide_eq_true_2 by (by eexists); cbn [orb default]; fold m0; by rewrite (obind_done _ _ _ Hr1)].
    cbv iota. erewrite bind_done by done. erewrite bind_done by (apply on_map_done; exact Hr2). apply on_map_done. exact Hr3.
  - eapply fs_step_trans; [exact Hs1|]. eapply fs_step_trans; [exact Hs2|]. split; try done; apply agrees_refl.
  - split; [cbn; by rewrite (st_mem _ _ _ Hs2), (st_mem _ _ _ Hs1)|cbn in *; lia|]. cbn. rewrite Hd2, Hd1. split; [done|cbn; lia|done|done].
  - cbn. lia.
  - intros t Hts. cbn. rewrite Hbit3, Hbit2, Hbit1 by lia. destruct (Z.eqb_spec 1 t), (Z.eqb_spec 0 t); lia.
Qed.

(** ** Opening the free map's file *)

Record map_opened s s' (i f : Z) d : Prop := {
  mo_dev : agrees (fs_device s) (fs_device s') (fun _ => False);
  mo_map : free_map s' = free_map s;
  mo_file : free_map_file s' = f;
  mo_open : open_inodes s' = [i];
  mo_inodes : inodes s' = {[i := mk_inode 0 1 false 0 d]};
  mo_files : files s' = {[f := mk_file i 0 false]};
  mo_ready : fs_ready s';
  mo_range : 0 < i < brk s' /\ 0 < f < brk s'
}.

Lemma open_map_run {A} s (k : Z -> M (fs dev) A) : fs_ready s -> open_inodes s = [] -> inodes s = ∅ -> files s = ∅ -> 0 < bit_cnt (free_map s) ->
  exists i f s', (i ← inode_open FREE_MAP_SECTOR; f ← file_open i; modify (set_free_map_file f) ;; k f) s = k f s' /\
    map_opened s s' i f (disk_at (fs_device s) 0).
Proof.
  intros Hr Ho Hi Hf Hpos. destruct (malloc_step s Hr) as (s1 & Hm1 & Hs1 & E1 & Hr1 & Hb1).
  set (i := brk s) in *. set (s2 := set_open_inodes (i :: open_inodes s1) s1). assert (0 < i) as Hi0 by apply Hr.
  assert (fs_ready s2) as Hr2 by (split; apply Hr1).
  assert (readable (fs_device s2) 0) as Hrd.
  { apply (device_readable _ (free_map s1)); [apply Hr1|]. rewrite E1. lia. }
  destruct (on_device_read s2 0 Hrd) as (s3 & Hrun3 & Ho3).
  destruct (only_device_step s2 s3 _ (fun _ => False) Ho3) as [Hs3 E3]; [done|].
  pose proof (ready_only _ _ _ Hr2 Ho3) as Hr3.
  set (n := mk_inode 0 1 false 0 (disk_at (fs_device s) 0)). set (s4 := set_inodes (<[i := n]> (inodes s3)) s3).
  assert (fs_ready s4) as Hr4 by (split; apply Hr3).
  destruct (malloc_step s4 Hr4) as (s5 & Hm5 & Hs5 & E5 & Hr5 & Hb5). set (f := brk s4) in *.
  pose proof (st_brk _ _ _ Hs3) as Hb3. cbn in Hb3. assert (f = brk s3) as Ef by done.
  exists i, f, (set_free_map_file f (set_files (<[f := mk_file i 0 false]> (files s5)) s5)). split.
  - unfold inode_open. erewrite bind_done.
    2:{ erewrite bind_done by done. rewrite Ho. cbn [find_open]. erewrite bind_done by done. cbv iota. erewrite bind_done by exact Hm1.
        unfold NULL. rewrite (proj2 (Z.eqb_neq i 0)) by lia. erewrite bind_done by done. fold s2. erewrite bind_done by exact Hrun3.
        rewrite sector_bytes by done. fold (disk_at (fs_device s2) 0).
        replace (disk_at (fs_device s2) 0) with (disk_at (fs_device s) 0); [by erewrite bind_done by done|].
        unfold disk_at. f_equal. symmetry. apply (agrees_sector _ _ (fun _ => False)); [exact (st_dev _ _ _ Hs1)| |tauto].
        apply (device_readable _ (free_map s)); [apply Hr|lia]. }
    fold n s4. erewrite bind_done.
    2:{ unfold file_open. erewrite bind_done by exact Hm5. unfold NULL. rewrite (proj2 (Z.eqb_neq i 0)), (proj2 (Z.eqb_neq f 0)) by lia. cbn [negb andb].
        by erewrite bind_done by done. }
    by erewrite bind_done by done.
  - split; cbn.
    + eapply agrees_trans; [exact (st_dev _ _ _ Hs1)|]. eapply agrees_trans; [exact (st_dev _ _ _ Hs3)|exact (st_dev _ _ _ Hs5)].
    + rewrite E5. cbn. rewrite E3. exact E1.
    + done.
    + rewrite (st_open _ _ _ Hs5). cbn. rewrite (st_open _ _ _ Hs3). cbn. by rewrite (st_open _ _ _ Hs1), Ho.
    + rewrite (st_inodes _ _ _ Hs5). cbn. rewrite (st_inodes _ _ _ Hs3). cbn. by rewrite (st_inodes _ _ _ Hs1), Hi.
    + rewrite (st_files _ _ _ Hs5). cbn. rewrite (st_files _ _ _ Hs3). cbn. by rewrite (st_files _ _ _ Hs1), Hf.
    + split; apply Hr5.
    + rewrite Hb5. split; [change (brk s4) with (brk s3)|]; lia.
Qed.

Lemma refs_one f i j : refs {[f := mk_file i 0 false]} j = if j =? i then 1 else 0.
Proof.
  rewrite <- (insert_empty f), refs_insert by done. unfold bump. cbn. destruct (j =? i); [|done].
  unfold refs, count. by rewrite map_filter_empty, map_size_empty.
Qed.

(** With the map read or written, the invariant holds. *)
Lemma opened_inv L s i f d : free_map_file s = f -> open_inodes s = [i] -> inodes s = {[i := mk_inode 0 1 false 0 d]} ->
  files s = {[f := mk_file i 0 false]} -> 0 < i < brk s -> 0 < f -> fs_ready s -> layout L (fs_device s) (free_map s) -> L !! 0 = Some d ->
  byte_cnt (bit_cnt (free_map s)) <= length_ d -> map_synced s (mk_inode 0 1 false 0 d) -> fs_inv L (refs (files s)) s.
Proof.
  intros Ef Eo Ei Efs Hib Hf0 Hr Hl HL Hlen Hsy. split; [done|done| |].
  - split.
    + rewrite Eo. apply NoDup_singleton.
    + rewrite Eo, Ei, Efs. intros j ->%list_elem_of_singleton. eexists. rewrite lookup_singleton_eq. split; [done|]. cbn.
      rewrite refs_one, Z.eqb_refl. repeat split; done || lia.
    + rewrite Eo, Ei. intros j n [<- _]%lookup_singleton_Some. left.
    + rewrite Ei. intros j k n n' [<- _]%lookup_singleton_Some [<- _]%lookup_singleton_Some. done.
    + rewrite Eo, Efs. intros j Hj. rewrite refs_one. destruct (Z.eqb_spec j i) as [->|]; [|done]. by destruct Hj; left.
  - exists (mk_inode 0 1 false 0 d). split; [|done]. split; [rewrite Ef; unfold NULL; lia| |done].
    exists (mk_file i 0 false). rewrite Ef, Efs, Ei. rewrite lookup_singleton_eq. split; [done|]. cbn. rewrite lookup_singleton_eq.
    split; [done|]. split; [|done]. eapply layout_wf_inode; [exact Hl|apply Hr|done].
Qed.

(** ** What a device holds *)

(** The file system [a], without open files, on the device alone. *)
Record on_disk (cap : Z) L d0 m a b : Prop := {
  sd_layout : layout L b m;
  sd_device : device_ok b m;
  sd_zero : L !! 0 = Some d0;
  sd_length : byte_cnt (bit_cnt m) <= length_ d0;
  sd_sync : synced (fun k => dbyte b (512 * start d0 + k)) m;
  sd_root : exists d, L !! 1 = Some d /\ entries d = cap /\ names_ok b d (a_names a);
  sd_named : forall nm sec, a_names a !! nm = Some sec -> 1 < sec /\ is_Some (L !! sec);
  sd_inj : forall nm nm' sec, a_names a !! nm = Some sec -> a_names a !! nm' = Some sec -> nm = nm';
  sd_data : forall sec, a_data a !! sec = if sec <=? 1 then None else fcontent b <$> L !! sec;
  sd_open : a_open a = ∅
}.
Definition stored (cap : Z) a b : Prop := exists L d0 m, on_disk cap L d0 m a b.

Lemma layout_sub L L' b m : layout L b m -> L' ⊆ L -> layout L' b m.
Proof.
  intros [H1 H2 H3 H4] Hs. split; intros; eauto using lookup_weaken.
Qed.

(** The bits of a layout may be those of another map with the same bits. *)
Lemma layout_bits L b m m' : layout L b m -> bit_cnt m' = bit_cnt m -> (forall t, 0 <= t < bit_cnt m -> bit m' t = bit m t) -> layout L b m'.
Proof.
  intros Hl Hc Hb. pose proof Hl as [H1 H2 H3 H4]. split; try done.
  - intros sec d Hd. rewrite Hc. by apply H1.
  - intros sec d t Hd Ho. rewrite Hb; [by apply (H3 sec d)|]. by apply (owned_range _ _ _ _ _ _ Hl Hd Ho).
Qed.

(** From the device and the open map file to the relation. *)
Lemma disk_rep cap L d0 m a b s i f : on_disk cap L d0 m a b -> agrees b (fs_device s) (fun _ => False) ->
  fs_inv L (refs (files s)) s -> free_map_file s = f -> inodes s = {[i := mk_inode 0 1 false 0 d0]} ->
  files s = {[f := mk_file i 0 false]} -> 0 < f < brk s -> rep cap a s.
Proof.
  intros [Hl Hv H0 Hlen Hsy (d & Hd & Hcap & HN) Hnm Hij Hda Hop] Ha Hinv Ef Ei Efs Hfb.
  assert (forall sec d', L !! sec = Some d' -> fcontent (fs_device s) d' = fcontent b d') as Hc.
  { intros sec d' Hd'. eapply content_step; [exact Hl|exact Hv|exact Ha|exact Hd'|]. tauto. }
  split.
  - exists L. split; try done.
    + exists d. split; [done|]. split; [done|]. eapply names_content; [|exact HN]. by apply (Hc 1).
    + intros sec. rewrite Hda. destruct (sec <=? 1); [done|]. destruct (L !! sec) as [d'|] eqn:E; [|done]. cbn. by rewrite (Hc sec d' E).
    + rewrite Ei. intros j n [<- <-]%lookup_singleton_Some. cbn. split; [|done]. rewrite Efs.
      symmetry. apply count_zero. intros g x [_ <-]%lookup_singleton_Some. apply andb_false_r.
    + rewrite Efs, Ei. intros g x [<- <-]%lookup_singleton_Some. split; [lia|]. split; [done|]. cbn. eexists. rewrite lookup_singleton_eq.
      split; [done|]. by rewrite Ef, Z.eqb_refl.
    + intros g. rewrite Hop, lookup_empty, Ef. destruct (Z.eqb_spec g f) as [|Hne]; [done|]. unfold handle_of.
      by rewrite Efs, lookup_singleton_ne.
  - rewrite Ei. intros j n [_ <-]%lookup_singleton_Some. done.
  - rewrite Efs, map_size_singleton. unfold MAX_OPEN. lia.
Qed.

(** ** Mounting *)

(** Reading the map through its open file: the bits are those on the device. *)
Lemma read_map_run L d0 m s i f : layout L (fs_device s) m -> device_ok (fs_device s) m -> L !! 0 = Some d0 ->
  byte_cnt (bit_cnt m) <= length_ d0 -> synced (fun k => dbyte (fs_device s) (512 * start d0 + k)) m ->
  inodes s = {[i := mk_inode 0 1 false 0 d0]} -> files s = {[f := mk_file i 0 false]} -> fs_ready s -> bit_cnt (free_map s) = bit_cnt m ->
  exists bs s2 m', file_read_at f (byte_cnt (bit_cnt (free_map s))) 0 s = Done (bs, s2) /\ only_device s s2 (dbyte (fs_device s)) /\
    bitmap_read (fun _ => bs) (free_map s) = Done (true, m') /\ wf m' /\ bit_cnt m' = bit_cnt m /\
    (forall t, 0 <= t < bit_cnt m -> bit m' t = bit m t) /\
    synced (fun k => dbyte (fs_device s2) (512 * start d0 + k)) m'.
Proof.
  intros Hl Hv H0 Hlen [Hsb Hsi] Hi Hf Hr Hcnt. pose proof (dk_sec _ _ _ (ly_ok _ _ _ Hl _ _ H0)) as Hpos.
  set (n := mk_inode 0 1 false 0 d0) in *. assert (wf_inode (fs_device s) n) as Hw by by eapply layout_wf_inode.
  rewrite Hcnt. set (c := byte_cnt (bit_cnt m)) in *.
  assert (0 <= c) as Hc0 by (unfold c; rewrite (byte_cnt_eq m (dv_map _ _ Hv)); pose proof (zlen_nonneg (bits m)); lia).
  destruct (inode_read_at_spec s i n c 0) as (s2 & Hrd & Hod); [by rewrite Hi, lookup_singleton_eq|done|apply Hr|apply Hr|lia|done| |].
  { pose proof (wi_length _ _ Hw). cbn in *. lia. }
  assert (transfer n c 0 = c) as Et by (unfold transfer; cbn; lia). rewrite Et in Hrd. set (bs := map (fbyte (fs_device s) n) (seqZ 0 c)) in *.
  assert (zlen bs = c) as Hbl by (unfold bs; by rewrite zlen_map_seqZ).
  assert (forall k, 0 <= k < c -> default 0 (zget bs k) = dbyte (fs_device s) (512 * start d0 + k)) as Hbs.
  { intros k Hk. unfold bs. by rewrite zget_map_seqZ by done. }
  destruct (bitmap_read_run (free_map s) bs) as (m' & Hbr & Hw' & Hc' & Hsy'); [apply Hr|lia|by rewrite Hcnt| |].
  { intros k Hk. rewrite Hbl in Hk. rewrite (Hbs k Hk). by apply Hsb. }
  exists bs, s2, m'. split.
  { unfold file_read_at. erewrite bind_done by (apply get_file_run; by rewrite Hf, lookup_singleton_eq). exact Hrd. }
  split; [done|]. split; [done|]. split; [done|]. split; [congruence|]. split.
  - intros t Ht. destruct Hsy' as [_ Hs']. rewrite <- Hs' by lia. rewrite <- Hsi by done. f_equal.
    apply Hbs. by apply byte_of_bit; [apply Hv|].
  - eapply synced_ext; [done| |exact Hsy']. intros k Hk. rewrite Hc', Hcnt in Hk. cbn beta. rewrite (Hbs k Hk).
    destruct (od_device _ _ _ Hod) as [_ Hdb]. pose proof (data_byte L (fs_device s) m 0 d0 k Hl Hv H0 ltac:(unfold c in Hk; lia)) as (? & ? & _). by apply Hdb.
Qed.

Lemma map_open_run cap L d0 m a s : on_disk cap L d0 m a (fs_device s) -> fs_ready s -> bit_cnt (free_map s) = bit_cnt m ->
  open_inodes s = [] -> inodes s = ∅ -> files s = ∅ -> exists s', free_map_open s = Done (tt, s') /\ rep cap a s'.
Proof.
  intros Hd Hr Hcnt Ho Hi Hf. pose proof Hd as [Hl Hv H0 Hlen Hsy _ _ _ _ _].
  pose proof (dk_sec _ _ _ (ly_ok _ _ _ Hl _ _ H0)) as Hpos. unfold free_map_open.
  match goal with |- context [bnd (inode_open _) (fun i => bnd (file_open i) (fun f => bnd (modify (set_free_map_file f)) (fun _ => @?k f)))] =>
    destruct (open_map_run s k) as (i & f & s1 & Hrun & Hmo); [done|done|done|done|lia|] end.
  rewrite Hrun. clear Hrun. rewrite (ly_disk _ _ _ Hl _ _ H0) in Hmo. destruct Hmo as [Mdev Mmap Mfile Mopen Minodes Mfiles Mready [Mi Mf]].
  assert (layout L (fs_device s1) m) as Hl1 by (eapply layout_step; [exact Hl|exact Hv|exact Mdev|done|tauto|apply Hl]).
  assert (device_ok (fs_device s1) m) as Hv1 by (eapply device_ok_step; [exact Hv|exact Mdev|apply Hv|done]).
  assert (synced (fun k => dbyte (fs_device s1) (512 * start d0 + k)) m) as Hsy1.
  { eapply synced_ext; [apply Hv| |exact Hsy]. intros k Hk. apply (fcontent_byte _ _ d0); [|lia].
    eapply content_step; [exact Hl|exact Hv|exact Mdev|exact H0|tauto]. }
  destruct (read_map_run L d0 m s1 i f Hl1 Hv1 H0 Hlen Hsy1 Minodes Mfiles Mready) as (bs & s2 & m' & Hrd & Hod & Hbr & Hw' & Hc' & Hbits & Hsy2);
    [by rewrite Mmap|].
  pose proof (od_map _ _ _ Hod) as Em2. exists (set_free_map m' s2). split.
  { unfold NULL. rewrite (proj2 (Z.eqb_neq f 0)) by lia. erewrite bind_done by done. erewrite bind_done by exact Hrd.
    by erewrite bind_done by (apply on_map_done; rewrite Em2; exact Hbr). }
  destruct (only_quiet _ _ Hod) as [Hst2 _]. pose proof (ready_only _ _ _ Mready Hod) as Hr2.
  assert (agrees (fs_device s) (fs_device s2) (fun _ => False)) as Ha2 by (eapply agrees_trans; [exact Mdev|exact (st_dev _ _ _ Hst2)]).
  pose proof (st_brk _ _ _ Hst2).
  eapply (disk_rep cap L d0 m a (fs_device s) _ i f); [exact Hd|exact Ha2| | | | |cbn; lia];
    cbn; rewrite ?(st_file _ _ _ Hst2), ?(st_inodes _ _ _ Hst2), ?(st_files _ _ _ Hst2); try done.
  rewrite <- (st_files _ _ _ Hst2).
  apply (opened_inv L (set_free_map m' s2) i f d0); cbn; rewrite ?(st_file _ _ _ Hst2), ?(st_open _ _ _ Hst2), ?(st_inodes _ _ _ Hst2), ?(st_files _ _ _ Hst2); try done; try lia.
  - apply ready_set; [done|done|by rewrite Em2, Mmap, Hcnt].
  - eapply (layout_bits L _ m); [|done|done]. eapply layout_step; [exact Hl|exact Hv|exact Ha2|done|tauto|apply Hl].
  - by rewrite Hc'.
Qed.

Lemma mount_run cap a s : booted s -> stored cap a (fs_device s) -> exists s', filesys_init false s = Done (tt, s') /\ rep cap a s'.
Proof.
  intros Hb (L & d0 & m & Hd). pose proof Hd as [Hl Hv H0 _ _ (d1 & H1 & _) _ _ _ _].
  assert (usable (fs_device s)) as Hu.
  { destruct Hv as [Ht Hs Hr Hw]. split; [done| |done]. pose proof (wf_cnt _ Hw). pose proof (dk_sec _ _ _ (ly_ok _ _ _ Hl _ _ H1)). lia. }
  destruct (init_map_run s Hb Hu) as (s1 & Hrun & Hst & Hr & Hcnt & _).
  assert (on_disk cap L d0 m a (fs_device s1)) as Hd1.
  { pose proof (st_dev _ _ _ Hst) as Ha. cbn in Ha. destruct Hd as [_ _ _ Hlen Hsy (d & Hd & Hcap & HN) Hnm Hij Hda Hop].
    assert (forall sec d', L !! sec = Some d' -> fcontent (fs_device s1) d' = fcontent (fs_device s) d') as Hc.
    { intros sec d' Hd'. eapply content_step; [exact Hl|exact Hv|exact Ha|exact Hd'|tauto]. }
    split; try done.
    - eapply layout_step; [exact Hl|exact Hv|exact Ha|done|tauto|apply Hl].
    - eapply device_ok_step; [exact Hv|exact Ha|apply Hv|done].
    - eapply synced_ext; [apply Hv| |exact Hsy]. intros k Hk. apply (fcontent_byte _ _ d0); [by apply (Hc 0)|lia].
    - exists d. split; [done|]. split; [done|]. eapply names_content; [|exact HN]. by apply (Hc 1).
    - intros sec. rewrite Hda. destruct (sec <=? 1); [done|]. destruct (L !! sec) as [d'|] eqn:E; [|done]. cbn. by rewrite (Hc sec d' E). }
  destruct (map_open_run cap L d0 m a s1 Hd1 Hr) as (s2 & Hrun2 & Hrep).
  - rewrite Hcnt. apply Hv.
  - by rewrite (st_open _ _ _ Hst).
  - rewrite (st_inodes _ _ _ Hst). apply Hb.
  - rewrite (st_files _ _ _ Hst). apply Hb.
  - exists s2. split; [|done]. unfold filesys_init. erewrite bind_done by done. erewrite bind_done by exact Hrun.
    by erewrite bind_done by done.
Qed.

(** ** Recovery *)

(** What survives the loss of memory: the files that have a name. *)
Definition crash a : afs := mk_afs (a_names a) (filter (fun x => named a x.1 = true) (a_data a)) ∅.

Lemma named_layout L a sec : filter (fun x : Z * inode_disk => x.1 <= 1 \/ named a x.1 = true) L !! sec =
  if (sec <=? 1) || named a sec then L !! sec else None.
Proof.
  destruct (L !! sec) as [d|] eqn:E.
  - destruct ((sec <=? 1) || named a sec) eqn:Ec.
    + apply map_lookup_filter_Some. split; [done|]. cbn. apply orb_prop in Ec as [?%Z.leb_le|?]; [by left|by right].
    + apply map_lookup_filter_None. right. intros d' _ [?|Hn]; cbn in *; [lia|]. rewrite Hn, orb_true_r in Ec. done.
  - transitivity (None : option inode_disk); [|by destruct (_ || _)]. apply map_lookup_filter_None. by left.
Qed.

Lemma rep_stored cap a s : rep cap a s -> stored cap (crash a) (fs_device s).
Proof.
  intros [[L Hm] _ _]. pose proof Hm as [[Hr Hl Ho (nm & [Hn0 Hmf Hsy] & Hz & H0)] _ (d & Hd & Hcap & HN) Hnm Hij Hda _ _ _].
  destruct Hmf as (fl & _ & _ & _ & _ & Hlen). set (L' := filter (fun x : Z * inode_disk => x.1 <= 1 \/ named a x.1 = true) L).
  assert (forall sec, sec <= 1 \/ named a sec = true -> L' !! sec = L !! sec) as Hin.
  { intros sec Hs. unfold L'. rewrite named_layout. destruct Hs as [Hs|Hs]; [by rewrite (proj2 (Z.leb_le _ _) Hs)|by rewrite Hs, orb_true_r]. }
  exists L', (data nm), (free_map s). split; try done.
  - eapply layout_sub; [exact Hl|]. apply map_filter_subseteq.
  - apply Hr.
  - rewrite Hin; [done|lia].
  - exists d. rewrite Hin by lia. done.
  - intros nm' sec E. destruct (Hnm nm' sec E) as [? HL]. split; [done|]. rewrite Hin; [done|]. right. apply named_true. by exists nm'.
  - intros sec. cbn [a_data crash]. specialize (Hda sec). unfold L'. rewrite named_layout. destruct (Z.leb_spec sec 1); cbn [orb].
    + apply map_lookup_filter_None. by left.
    + destruct (named a sec) eqn:En.
      * rewrite <- Hda. destruct (a_data a !! sec) as [l|] eqn:El; [by apply map_lookup_filter_Some|]. apply map_lookup_filter_None. by left.
      * apply map_lookup_filter_None. right. intros l _. cbn. by rewrite En.
Qed.
End Mount.
