(* ===== verification/FsCorrect.v ===== *)
(** * The file system is what it promises

    The refinement of [FsAbstract] by filesys/, formatting and recovery, with a
    formatted RAM disk as the concrete input. *)

From S2P Require Import Prelude Vaddr KList Bitmap Block FileSys FileSpec DirSpec FsDemo FsSync FsLayout FsObjs FsRoot FsAbstract FsMid FsRefine FsNames FsCreate FsMount.

(** ** Formatting *)

Section Format.
Context {dev : Type} `{BlockDriver dev}.
Implicit Types (b : block dev) (s : fs dev) (n : inode) (d : inode_disk) (L : gmap Z inode_disk) (a : afs) (m : bitmap).

(** The device has two sectors for the inodes, those of the map and one for the
    root directory. *)
Definition roomy (cnt : Z) : Prop := 0 <= cnt < 2 ^ 32 - 31 /\ 3 + (byte_cnt cnt + 511) / 512 <= cnt.

Lemma byte_cnt_val cnt : 0 <= cnt < 2 ^ 32 - 31 -> byte_cnt cnt = 4 * ((cnt + 31) / 32) /\ 0 <= byte_cnt cnt <= 2 ^ 30.
Proof. intros Hc. unfold byte_cnt. rewrite elem_cnt_eq by done. rewrite u32_small by dlia. split; dlia. Qed.

(** ** free_map_create *)

(** The state in which only the free map's file exists, open as [f] on [i]. *)
Record map_made s (cnt i f : Z) d : Prop := {
  mm_inv : fs_inv {[0 := d]} (refs (files s)) s;
  mm_map : map_inv s (mk_inode 0 1 false 0 d);
  mm_open : open_inodes s = [i];
  mm_inodes : inodes s = {[i := mk_inode 0 1 false 0 d]};
  mm_files : files s = {[f := mk_file i 0 false]};
  mm_file : free_map_file s = f;
  mm_range : 0 < i /\ 0 < f;
  mm_cnt : bit_cnt (free_map s) = cnt;
  mm_disk : 2 <= start d /\ start d + sectors d <= cnt /\ length_ d = byte_cnt cnt;
  mm_bits : forall t, 0 <= t < cnt -> bit (free_map s) t = (t <? 2) || in_range (start d) (sectors d) t
}.

Lemma layout_single b m d : disk_ok (bit_cnt m) 0 d -> disk_at b 0 = d -> (forall t, owns 0 d t -> bit m t = true) -> layout {[0 := d]} b m.
Proof.
  intros H1 H2 H3. split.
  - intros sec d' [<- <-]%lookup_singleton_Some. done.
  - intros sec d' [<- <-]%lookup_singleton_Some. done.
  - intros sec d' t [<- <-]%lookup_singleton_Some. apply H3.
  - intros s1 s2 d1 d2 t [<- _]%lookup_singleton_Some [<- _]%lookup_singleton_Some. done.
Qed.

(** The inode of the free map's file is made while the map is in memory only. *)
Lemma map_inode_run s cnt : fs_ready s -> free_map_file s = NULL -> bit_cnt (free_map s) = cnt -> roomy cnt ->
  (forall t, 0 <= t < cnt -> bit (free_map s) t = (t <? 2)) ->
  exists d s', inode_create FREE_MAP_SECTOR (bitmap_file_size (free_map s)) s = Done (true, s') /\ fs_ready s' /\
    2 <= start d /\ start d + sectors d <= cnt /\ length_ d = byte_cnt cnt /\ 1 <= sectors d /\
    layout {[0 := d]} (fs_device s') (free_map s') /\ bit_cnt (free_map s') = cnt /\
    fs_step (created_in (fun _ => False) d 0) s s' /\
    forall t, 0 <= t < cnt -> bit (free_map s') t = (t <? 2) || in_range (start d) (sectors d) t.
Proof.
  intros Hr Hf Hcnt [Hmax Hroom] Hbits. destruct (byte_cnt_val cnt Hmax) as [Hbv Hbb].
  assert (1 <= (byte_cnt cnt + 511) / 512 <= cnt - 3) as Hns by dlia.
  destruct (inode_create_step s None 0 (byte_cnt cnt) Hr) as (r & s' & Hrun & Hr' & Hf' & Hcnt' & Hcase); [done|lia|lia| |tauto|done|].
  { by rewrite Hbits by lia. }
  destruct r; cycle 1.
  { destruct Hcase as (_ & _ & Hno). destruct (Hno 2); [lia|]. unfold sectors. cbn. split; [lia|]. intros t Ht. rewrite Hbits by lia. lia. }
  destruct Hcase as (st & Hst0 & [Hg1 Hg2] & Hb & Hst & Hd & _). set (d := mk_disk st (byte_cnt cnt) INODE_MAGIC) in *.
  assert (sectors d = (byte_cnt cnt + 511) / 512) as Es by done.
  assert (2 <= st) as Hst2.
  { destruct (decide (2 <= st)); [done|]. specialize (Hg2 st ltac:(lia)). rewrite Hbits in Hg2 by lia. lia. }
  exists d, s'. cbn [start length_ d]. unfold bitmap_file_size. rewrite Hcnt.
  split; [done|]. split; [done|]. split; [done|]. split; [lia|]. split; [done|]. split; [lia|]. split; [|split; [by rewrite Hcnt'|split; [done|]]].
  - apply layout_single; [|done|].
    + split; [cbn; lia|cbn [start d]; lia|lia|]. unfold data_sector. cbn. lia.
    + intros t [->|[Ht1 Ht2]]; rewrite Hb by (cbn in *; lia).
      * destruct (in_range _ _ 0); [done|]. by rewrite Hbits by lia.
      * unfold in_range. cbn in Ht1, Ht2. by replace ((st <=? t) && (t <? st + sectors d)) with true by lia.
  - intros t Ht. rewrite Hb, Hbits by lia. destruct (in_range st (sectors d) t); [by rewrite orb_true_r|by rewrite orb_false_r].
Qed.

Lemma create_map_run s cnt : fs_ready s -> free_map_file s = NULL -> open_inodes s = [] -> inodes s = ∅ -> files s = ∅ ->
  bit_cnt (free_map s) = cnt -> roomy cnt -> (forall t, 0 <= t < cnt -> bit (free_map s) t = (t <? 2)) ->
  exists i f d s', free_map_create s = Done (tt, s') /\ map_made s' cnt i f d.
Proof.
  intros Hr Hf Ho Hi Hfs Hcnt Hroom Hbits.
  destruct (map_inode_run s cnt Hr Hf Hcnt Hroom Hbits) as (d & s1 & Hrun & Hr1 & Hd1 & Hd2 & Hd3 & Hd4 & Hl1 & Hc1 & Hst1 & Hb1).
  unfold free_map_create. erewrite bind_done by done. erewrite bind_done by exact Hrun. cbn [negb].
  match goal with |- context [bnd (inode_open _) (fun i => bnd (file_open i) (fun f => bnd (modify (set_free_map_file f)) (fun _ => @?k f)))] =>
    destruct (open_map_run s1 k) as (i & f & s2 & Hrun2 & Hmo) end; [done|by rewrite (st_open _ _ _ Hst1)|by rewrite (st_inodes _ _ _ Hst1)|
    by rewrite (st_files _ _ _ Hst1)|destruct Hroom; lia|].
  rewrite Hrun2. clear Hrun2. rewrite (ly_disk _ _ _ Hl1 0 d) in Hmo by by rewrite lookup_singleton_eq.
  destruct Hmo as [Mdev Mmap Mfile Mopen Minodes Mfiles Mready [Mi Mf]]. set (n := mk_inode 0 1 false 0 d) in *.
  assert (layout {[0 := d]} (fs_device s2) (free_map s2)) as Hl2.
  { rewrite Mmap. eapply layout_step; [exact Hl1|apply Hr1|exact Mdev|done|tauto|apply Hl1]. }
  assert (map_file s2 n) as Hmf.
  { exists (mk_file i 0 false). rewrite Mfile, Mfiles, Minodes. rewrite lookup_singleton_eq. cbn. rewrite lookup_singleton_eq.
    split; [done|]. split; [done|]. split; [eapply layout_wf_inode; [exact Hl2|apply Mready|by rewrite lookup_singleton_eq]|].
    split; [done|]. rewrite Mmap, Hc1. lia. }
  destruct (map_write_step s2 n Mready Hmf) as (s3 & Hrun3 & Hst3 & E3 & Hsy3); [rewrite Mfile; unfold NULL; lia|].
  exists i, f, d, s3. split.
  { unfold NULL. rewrite (proj2 (Z.eqb_neq f 0)) by lia. rewrite Mfile in Hrun3. by erewrite bind_done by exact Hrun3. }
  assert (fs_ready s3) as Hr3 by (eapply ready_step; [exact Mready|exact Hst3|rewrite E3; apply Mready|by rewrite E3]).
  assert (layout {[0 := d]} (fs_device s3) (free_map s3)) as Hl3.
  { rewrite E3. eapply layout_step; [exact Hl2|apply Mready|exact (st_dev _ _ _ Hst3)|done| |apply Hl2].
    intros sec d' [<- <-]%lookup_singleton_Some. unfold data_sector. cbn. lia. }
  pose proof (st_brk _ _ _ Hst3).
  assert (fs_inv {[0 := d]} (refs (files s3)) s3) as Hinv.
  { apply (opened_inv _ s3 i f d); rewrite ?(st_file _ _ _ Hst3), ?(st_open _ _ _ Hst3), ?(st_inodes _ _ _ Hst3), ?(st_files _ _ _ Hst3), ?E3, ?Mmap; try done; try lia.
    - by rewrite E3, Mmap in Hl3.
    - rewrite Hc1. lia. }
  split; rewrite ?(st_file _ _ _ Hst3), ?(st_open _ _ _ Hst3), ?(st_inodes _ _ _ Hst3), ?(st_files _ _ _ Hst3), ?E3, ?Mmap; try done; try lia.
  - by rewrite <- (st_files _ _ _ Hst3).
  - split; [rewrite (st_file _ _ _ Hst3), Mfile; unfold NULL; lia| |done]. eapply map_file_step; [exact Hmf|exact Hst3|by rewrite E3].
Qed.

(** ** The root directory, and closing the map's file *)

Lemma root_entry_free b d k : fcontent b d = replicate (Z.to_nat (length_ d)) 0 -> 0 <= k < entries d -> in_use (rentry b d k) = false.
Proof.
  intros Hz Hk. unfold entries in Hk. assert (map (fun j => dbyte b (512 * start d + j)) (seqZ (20 * k) 20) = replicate 20 0) as E.
  { apply zlist_eq; [by rewrite zlen_map_seqZ|]. intros j Hj. rewrite zlen_map_seqZ in Hj by lia. rewrite zget_map_seqZ, zget_replicate by lia.
    assert (zget (fcontent b d) (20 * k + j) = Some 0) as E by (rewrite Hz; apply zget_replicate; dlia).
    unfold fcontent in E. rewrite zget_map_seqZ in E by dlia. exact E. }
  unfold rentry. by rewrite E.
Qed.

Lemma names_none b d : fcontent b d = replicate (Z.to_nat (length_ d)) 0 -> names_ok b d ∅.
Proof.
  intros Hz. assert (forall nm k, 0 <= k < entries d -> matches nm (rentry b d k) = false) as Hno.
  { intros nm k Hk. apply matches_unused. by apply root_entry_free. }
  split.
  - intros nm sec. split; [by rewrite lookup_empty|]. intros (k & Hk & Hm & _). by rewrite Hno in Hm.
  - intros nm k k' Hk Hk' Hm. by rewrite Hno in Hm.
Qed.

Lemma root_made_run s cnt i f d : map_made s cnt i f d -> roomy cnt ->
  exists d1 s', dir_create ROOT_DIR_SECTOR 16 s = Done (true, s') /\ fs_inv (<[1 := d1]> {[0 := d]}) (refs (files s)) s' /\
    map_inv s' (mk_inode 0 1 false 0 d) /\ entries d1 = 16 /\ names_ok (fs_device s') d1 ∅ /\
    open_inodes s' = open_inodes s /\ inodes s' = inodes s /\ files s' = files s /\ free_map_file s' = free_map_file s /\
    bit_cnt (free_map s') = cnt.
Proof.
  intros [Hinv Hmi Ho Hi Hf Hff _ Hcnt (Hd1 & Hd2 & Hd3) Hb] [Hmax Hroom]. set (n := mk_inode 0 1 false 0 d) in *.
  pose proof Hinv as [Hr Hl _ _]. destruct (byte_cnt_val cnt Hmax) as [Hbv Hbb].
  assert (bit (free_map s) 1 = true) as Hb1 by by rewrite Hb by dlia.
  assert (unowned {[0 := d]} 1) as Hun.
  { intros sec d' [<- <-]%lookup_singleton_Some [Ho1|Ho1]; [done|]. unfold data_sector in Ho1. lia. }
  assert (exists k, 0 <= k /\ group (free_map s) k 1 false) as (k0 & Hk0 & Hg0).
  { assert (sectors d = (byte_cnt cnt + 511) / 512) as Es by (unfold sectors; by rewrite Hd3).
    destruct (decide (start d = 2)) as [E2|E2]; [exists (2 + sectors d)|exists 2]; (split; [dlia|]); (split; [rewrite Hcnt; dlia|]);
      intros j Hj; rewrite Hb by dlia; unfold in_range; dlia. }
  destruct (inode_create_step s (Some n) 1 320 Hr Hmi) as (r & s' & Hrun & Hr' & Hmi' & Hcnt' & Hcase); [lia|rewrite Hcnt; dlia|done| | |].
  { cbn. unfold data_sector. lia. }
  { cbn. intros t Ht. apply (ly_used _ _ _ Hl 0 d t); [by rewrite lookup_singleton_eq|by right]. }
  destruct r; cycle 1.
  { destruct Hcase as (_ & _ & Hno). by destruct (Hno k0). }
  destruct Hcase as (st & Hst0 & Hg & Hbits & Hst & Hdisk & Hzero). set (d1 := mk_disk st 320 INODE_MAGIC) in *.
  destruct (inv_insert {[0 := d]} (refs (files s)) s s' d n 1 d1) as [Hinv' _]; try done; [rewrite Hcnt; dlia|].
  exists d1, s'. split; [exact Hrun|]. split; [done|]. split; [done|]. split; [done|]. split.
  { apply names_none. apply zero_content; [cbn; lia|done]. }
  split; [apply Hst|]. split; [apply Hst|]. split; [apply Hst|]. split; [apply Hst|]. by rewrite Hcnt'.
Qed.

Lemma map_close_run s i f d : open_inodes s = [i] -> inodes s = {[i := mk_inode 0 1 false 0 d]} -> files s = {[f := mk_file i 0 false]} ->
  free_map_file s = f -> i <> NULL -> f <> NULL -> exists s', free_map_close s = Done (tt, s') /\ fs_device s' = fs_device s /\
    free_map s' = free_map s /\ mem s' = mem s /\ brk s' = brk s /\ open_inodes s' = [] /\ inodes s' = ∅ /\ files s' = ∅.
Proof.
  intros Ho Hi Hf Hff Hi0 Hf0. eexists. split.
  - unfold free_map_close. erewrite bind_done by done. rewrite Hff. unfold file_close, file_allow_write. rewrite !(proj2 (Z.eqb_neq _ _) Hf0).
    cbn [negb]. assert (get_file f s = Done (mk_file i 0 false, s)) as Hg by (apply get_file_run; by rewrite Hf, lookup_singleton_eq).
    erewrite bind_done by (erewrite bind_done by done; by erewrite bind_done by exact Hg).
    erewrite bind_done by exact Hg. cbn [f_inode]. erewrite bind_done; [done|]. unfold inode_close. rewrite (proj2 (Z.eqb_neq _ _) Hi0).
    erewrite bind_done by (apply get_inode_run; by rewrite Hi, lookup_singleton_eq). cbn [open_cnt].
    erewrite bind_done by done. change (s32 (1 - 1) =? 0) with true. cbv iota. erewrite bind_done by done. cbn [removed].
    by erewrite bind_done by done.
  - cbn. rewrite Ho, Hi, Hf. repeat (split; [done|]). split; [by rewrite filter_cons_False, filter_nil by (by intros [])|].
    split; [|apply delete_singleton_eq]. rewrite insert_singleton_eq. apply delete_singleton_eq.
Qed.

(** ** filesys_init *)

Lemma format_run s : booted s -> usable (fs_device s) -> roomy (size (fs_device s)) ->
  exists s', filesys_init true s = Done (tt, s') /\ rep 16 (mk_afs ∅ ∅ ∅) s'.
Proof.
  intros Hb Hu Hroom. destruct (init_map_run s Hb Hu) as (s1 & Hrun1 & Hst1 & Hr1 & Hcnt1 & Hbits1).
  destruct (create_map_run s1 (size (fs_device s)) Hr1) as (i & f & d & s2 & Hrun2 & Hmm); try done.
  { rewrite (st_file _ _ _ Hst1). apply Hb. } { by rewrite (st_open _ _ _ Hst1). }
  { rewrite (st_inodes _ _ _ Hst1). apply Hb. } { rewrite (st_files _ _ _ Hst1). apply Hb. }
  destruct (root_made_run s2 _ i f d Hmm Hroom) as (d1 & s3 & Hrun3 & Hinv3 & Hmi3 & Hent & HN3 & Ho3 & Hi3 & Hf3 & Hff3 & Hcnt3).
  destruct Hmm as [_ _ Mo Mi Mf Mff [Mi0 Mf0] _ _ _].
  destruct (map_close_run s3 i f d) as (s4 & Hrun4 & Ed & Em & Eme & Eb & Eo & Ei & Ef); [congruence..|unfold NULL; lia|unfold NULL; lia|].
  pose proof Hinv3 as [Hr3 Hl3 _ _]. destruct Hmi3 as [_ (fl & _ & _ & _ & _ & Hlen) Hsy]. cbn [data] in Hlen.
  assert (on_disk 16 (<[1 := d1]> {[0 := d]}) d (free_map s4) (mk_afs ∅ ∅ ∅) (fs_device s4)) as Hdisk.
  { rewrite Em, Ed. split; try done.
    - apply Hr3.
    - exists d1. by rewrite lookup_insert_eq.
    - intros sec. cbn. rewrite lookup_empty. destruct (Z.leb_spec sec 1); [done|]. rewrite lookup_insert_ne, lookup_singleton_ne by lia. done. }
  destruct (map_open_run 16 _ d (free_map s4) _ s4 Hdisk) as (s5 & Hrun5 & Hrep); [|done|done|done|done|].
  { split; [by rewrite Eme; apply Hr3|rewrite Eb; apply Hr3|]. rewrite Em, Ed. apply Hr3. }
  exists s5. split; [|done]. unfold filesys_init, do_format. erewrite bind_done by done. erewrite bind_done by exact Hrun1.
  erewrite bind_done; [exact Hrun5|]. erewrite bind_done by exact Hrun2. erewrite bind_done by exact Hrun3. exact Hrun4.
Qed.
End Format.

(** ** The refinement *)

Section Correct.
Context {dev : Type} `{BlockDriver dev}.
Implicit Types (s : fs dev) (a : afs).

(** C1: Every call of the file system, from a state that stands for an abstract
    file system of named byte strings and open handles, ends without a panic or
    a fault, returns what the abstract file system allows and reaches a state
    that stands for its next one: files created are zero-filled and found by
    name, reads return what was last written, writes are denied while a handle
    denies them, a file removed while open keeps its contents until its last
    handle is closed, and a failed call changes nothing. *)
Theorem filesys_refines cap junk a s o : rep cap a s -> zlen junk = 20 -> op_pre a o ->
  exists r s' a', run_op junk o s = Done (r, s') /\ astep (room (free_map s)) cap a o r a' /\ rep cap a' s'.
Proof.
  intros Hr Hj Hp. destruct o.
  - by apply (sim_create cap junk a s).
  - by apply (sim_open cap junk a s).
  - by apply (sim_remove cap junk a s).
  - by apply (sim_close cap junk a s).
  - by apply (sim_read cap junk a s).
  - by apply (sim_write cap junk a s).
  - by apply (sim_seek cap junk a s).
  - by apply (sim_tell cap junk a s).
  - by apply (sim_length cap junk a s).
  - by apply (sim_deny cap junk a s).
  - by apply (sim_allow cap junk a s).
Qed.

(** C5: Formatting a device with room for the free map's file and the root
    directory succeeds and makes it the empty file system, with a directory of
    16 entries. *)
Theorem format_correct s : booted s -> usable (fs_device s) -> roomy (size (fs_device s)) ->
  exists s', filesys_init true s = Done (tt, s') /\ rep 16 (mk_afs ∅ ∅ ∅) s'.
Proof. apply format_run. Qed.

(** C4: Whatever calls have been made, a machine that loses its memory between two
    of them and mounts the device again finds every file that has a name, with
    its contents, and no others. *)
Theorem mount_recovers cap a s s0 : rep cap a s -> booted s0 -> fs_device s0 = fs_device s ->
  exists s', filesys_init false s0 = Done (tt, s') /\ rep cap (crash a) s'.
Proof. intros Hr Hb Hd. apply mount_run; [done|]. rewrite Hd. by apply rep_stored. Qed.
End Correct.

(** ** Concrete inputs *)

Lemma blank_booted : booted blank_fs.
Proof. by split. Qed.

Lemma blank_usable : usable (fs_device blank_fs).
Proof. split; [done|cbn; lia|done]. Qed.

Lemma blank_roomy : roomy (size (fs_device blank_fs)).
Proof. split; [cbn; lia|by vm_compute]. Qed.

(** An empty file system on the RAM disk. *)
Lemma blank_formatted : exists s, filesys_init true blank_fs = Done (tt, s) /\ rep 16 (mk_afs ∅ ∅ ∅) s.
Proof. exact (format_run blank_fs blank_booted blank_usable blank_roomy). Qed.

Lemma format_correct_witness : exists s', filesys_init true blank_fs = Done (tt, s') /\ rep 16 (mk_afs ∅ ∅ ∅) s'.
Proof. exact (format_correct blank_fs blank_booted blank_usable blank_roomy). Defined.

(** Creating "ab" with 600 bytes. *)
Lemma filesys_refines_witness : exists s, filesys_init true blank_fs = Done (tt, s) /\
  exists r s' a', run_op (replicate 20 7) (Create [97; 98] 600) s = Done (r, s') /\
    astep (room (free_map s)) 16 (mk_afs ∅ ∅ ∅) (Create [97; 98] 600) r a' /\ rep 16 a' s'.
Proof.
  destruct blank_formatted as (s & Hrun & Hr). exists s. split; [exact Hrun|].
  apply (filesys_refines 16 (replicate 20 7) (mk_afs ∅ ∅ ∅) s (Create [97; 98] 600) Hr); [reflexivity|].
  split; [repeat constructor; lia|lia].
Defined.

Lemma mount_recovers_witness : exists s, filesys_init true blank_fs = Done (tt, s) /\
  exists s', filesys_init false (set_device (fs_device s) blank_fs) = Done (tt, s') /\ rep 16 (crash (mk_afs ∅ ∅ ∅)) s'.
Proof.
  destruct blank_formatted as (s & Hrun & Hr). exists s. split; [exact Hrun|].
  apply (mount_recovers 16 (mk_afs ∅ ∅ ∅) s (set_device (fs_device s) blank_fs) Hr); [|reflexivity]. split; reflexivity.
Defined.
