(* ===== verification/Kernel.v ===== *)
(** * threads/thread.c, threads/synch.c, threads/interrupt.c: the kernel's threads

    One processor.  The state holds the threads, the run queue, the semaphores,
    locks and condition variables, and the interrupt flag.  A call that may sleep
    is cut where the running thread can change: what is left of it is pushed on
    the [frames] of its thread, which stand for its kernel stack, and taken up by
    [resume] when the thread runs again.  The kernel list a thread or a waiter is
    linked in is the sequence the list holds (KList).  Pointers to threads,
    semaphores, locks and condition variables are numbers; 0 is NULL. *)

From S2P Require Import Prelude KList.

Inductive thread_status := THREAD_RUNNING | THREAD_READY | THREAD_BLOCKED | THREAD_DYING.

#[export] Instance thread_status_dec : EqDecision thread_status.
Proof. solve_decision. Defined.

Definition THREAD_MAGIC : Z := 0xcd6abf4b.
Definition TID_ERROR : Z := -1.
Definition PRI_MIN : Z := 0.
Definition PRI_DEFAULT : Z := 31.
Definition PRI_MAX : Z := 63.
Definition TIME_SLICE : Z := 4.

(** What a thread still has to do in calls it was in when it stopped running. *)
Inductive frame :=
  | FStart (creator : Z)            (* a new thread: kernel_thread enables interrupts *)
  | FDown (s : Z)                   (* call sema_down (s) *)
  | FSema (s : Z) (old_level : bool)  (* in the loop of sema_down, after thread_block *)
  | FUp (s : Z)                     (* call sema_up (s) *)
  | FHold (l : Z)                   (* lock_acquire after sema_down: set the holder *)
  | FAcquire (l : Z)                (* cond_wait after sema_down: lock_acquire *)
  | FBroadcast (c l : Z)            (* the loop of cond_broadcast *)
  | FTid (t : Z)                    (* allocate_tid with tid_lock held *)
  | FCreated (t n : Z)            (* ptr_thread_create after allocate_tid *)
  | FResult (t : Z)                 (* thread_create: return t->tid *)
  | FYield (old_level : bool)       (* thread_yield after schedule *)
  | FIret.                          (* return from an interrupt *)

Record thread := mk_thread {
  tid : Z;                    (* thread identifier *)
  status : thread_status;     (* thread state *)
  t_name : list Z;            (* name *)
  stack : Z;                  (* saved stack pointer, from the page's start *)
  priority : Z;               (* priority *)
  user : bool;                (* pagedir != NULL *)
  t_magic : Z;                (* detects stack overflow *)
  frames : list frame         (* the calls it is in, innermost first *)
}.

Record semaphore := mk_sema {
  value : Z;                  (* current value *)
  waiters : list Z            (* waiting threads *)
}.

Record lock := mk_lock {
  holder : Z;                 (* thread holding lock *)
  l_sema : Z                  (* the semaphore controlling access *)
}.

Record kernel := mk_kernel {
  threads : gmap Z thread;
  semas : gmap Z semaphore;
  locks : gmap Z lock;
  conds : gmap Z (list Z);    (* the semaphores of the waiters *)
  ready_list : list Z;
  all_list : list Z;
  current : Z;                (* the thread whose stack the processor is on *)
  idle_thread : Z;
  initial_thread : Z;
  tid_lock : Z;
  next_tid : Z;
  next_addr : Z;              (* the next address of a variable *)
  intr_on : bool;             (* interrupts are enabled *)
  in_external_intr : bool;
  yield_on_return : bool;
  thread_ticks : Z;           (* timer ticks since last yield *)
  idle_ticks : Z;
  kernel_ticks : Z;
  user_ticks : Z
}.

Abbreviation K := kernel.

Definition set_threads m (k : K) := mk_kernel m (semas k) (locks k) (conds k) (ready_list k) (all_list k) (current k) (idle_thread k) (initial_thread k) (tid_lock k) (next_tid k) (next_addr k) (intr_on k) (in_external_intr k) (yield_on_return k) (thread_ticks k) (idle_ticks k) (kernel_ticks k) (user_ticks k).
Definition set_semas m (k : K) := mk_kernel (threads k) m (locks k) (conds k) (ready_list k) (all_list k) (current k) (idle_thread k) (initial_thread k) (tid_lock k) (next_tid k) (next_addr k) (intr_on k) (in_external_intr k) (yield_on_return k) (thread_ticks k) (idle_ticks k) (kernel_ticks k) (user_ticks k).
Definition set_locks m (k : K) := mk_kernel (threads k) (semas k) m (conds k) (ready_list k) (all_list k) (current k) (idle_thread k) (initial_thread k) (tid_lock k) (next_tid k) (next_addr k) (intr_on k) (in_external_intr k) (yield_on_return k) (thread_ticks k) (idle_ticks k) (kernel_ticks k) (user_ticks k).
Definition set_conds m (k : K) := mk_kernel (threads k) (semas k) (locks k) m (ready_list k) (all_list k) (current k) (idle_thread k) (initial_thread k) (tid_lock k) (next_tid k) (next_addr k) (intr_on k) (in_external_intr k) (yield_on_return k) (thread_ticks k) (idle_ticks k) (kernel_ticks k) (user_ticks k).
Definition set_ready l (k : K) := mk_kernel (threads k) (semas k) (locks k) (conds k) l (all_list k) (current k) (idle_thread k) (initial_thread k) (tid_lock k) (next_tid k) (next_addr k) (intr_on k) (in_external_intr k) (yield_on_return k) (thread_ticks k) (idle_ticks k) (kernel_ticks k) (user_ticks k).
Definition set_all l (k : K) := mk_kernel (threads k) (semas k) (locks k) (conds k) (ready_list k) l (current k) (idle_thread k) (initial_thread k) (tid_lock k) (next_tid k) (next_addr k) (intr_on k) (in_external_intr k) (yield_on_return k) (thread_ticks k) (idle_ticks k) (kernel_ticks k) (user_ticks k).
Definition set_current t (k : K) := mk_kernel (threads k) (semas k) (locks k) (conds k) (ready_list k) (all_list k) t (idle_thread k) (initial_thread k) (tid_lock k) (next_tid k) (next_addr k) (intr_on k) (in_external_intr k) (yield_on_return k) (thread_ticks k) (idle_ticks k) (kernel_ticks k) (user_ticks k).
Definition set_idle t (k : K) := mk_kernel (threads k) (semas k) (locks k) (conds k) (ready_list k) (all_list k) (current k) t (initial_thread k) (tid_lock k) (next_tid k) (next_addr k) (intr_on k) (in_external_intr k) (yield_on_return k) (thread_ticks k) (idle_ticks k) (kernel_ticks k) (user_ticks k).
Definition set_next_tid n (k : K) := mk_kernel (threads k) (semas k) (locks k) (conds k) (ready_list k) (all_list k) (current k) (idle_thread k) (initial_thread k) (tid_lock k) n (next_addr k) (intr_on k) (in_external_intr k) (yield_on_return k) (thread_ticks k) (idle_ticks k) (kernel_ticks k) (user_ticks k).
Definition set_next_addr n (k : K) := mk_kernel (threads k) (semas k) (locks k) (conds k) (ready_list k) (all_list k) (current k) (idle_thread k) (initial_thread k) (tid_lock k) (next_tid k) n (intr_on k) (in_external_intr k) (yield_on_return k) (thread_ticks k) (idle_ticks k) (kernel_ticks k) (user_ticks k).
Definition set_intr (on ext yld : bool) (k : K) := mk_kernel (threads k) (semas k) (locks k) (conds k) (ready_list k) (all_list k) (current k) (idle_thread k) (initial_thread k) (tid_lock k) (next_tid k) (next_addr k) on ext yld (thread_ticks k) (idle_ticks k) (kernel_ticks k) (user_ticks k).
Definition set_ticks (n i kt u : Z) (k : K) := mk_kernel (threads k) (semas k) (locks k) (conds k) (ready_list k) (all_list k) (current k) (idle_thread k) (initial_thread k) (tid_lock k) (next_tid k) (next_addr k) (intr_on k) (in_external_intr k) (yield_on_return k) n i kt u.

(** ** Interrupts *)

Definition intr_get_level : M K bool := gets intr_on.
Definition intr_context : M K bool := gets in_external_intr.
Definition intr_enable : M K bool :=
  old ← intr_get_level;
  c ← intr_context; ASSERT (negb c) ;;
  modify (fun k => set_intr true (in_external_intr k) (yield_on_return k) k) ;;
  mret old.
Definition intr_disable : M K bool :=
  old ← intr_get_level;
  modify (fun k => set_intr false (in_external_intr k) (yield_on_return k) k) ;;
  mret old.
Definition intr_set_level (level : bool) : M K bool :=
  if level then intr_enable else intr_disable.
Definition intr_yield_on_return : M K unit :=
  c ← intr_context; ASSERT c ;;
  modify (fun k => set_intr (intr_on k) (in_external_intr k) true k).

(** [ASSERT (!intr_context ())] and [ASSERT (intr_get_level () == INTR_OFF)]. *)
Definition assert_no_context : M K unit := c ← intr_context; ASSERT (negb c).
Definition assert_intr_off : M K unit := l ← intr_get_level; ASSERT (negb l).

(** ** Threads *)

Definition get_thread (t : Z) : M K thread := load (fun k => threads k !! t).
Definition put_thread (t : Z) (th : thread) : M K unit :=
  modify (fun k => set_threads (<[t := th]> (threads k)) k).
Definition with_status (st : thread_status) (th : thread) : thread :=
  mk_thread (tid th) st (t_name th) (stack th) (priority th) (user th) (t_magic th) (frames th).
Definition with_frames (fr : list frame) (th : thread) : thread :=
  mk_thread (tid th) (status th) (t_name th) (stack th) (priority th) (user th) (t_magic th) fr.
Definition set_status (t : Z) (st : thread_status) : M K unit :=
  th ← get_thread t; put_thread t (with_status st th).

(** The running thread's stack of unfinished calls. *)
Definition push_frame (f : frame) : M K unit :=
  t ← gets current; th ← get_thread t; put_thread t (with_frames (f :: frames th) th).

Definition is_thread (t : Z) (th : thread) : bool := negb (t =? NULL) && (t_magic th =? THREAD_MAGIC).

Definition running_thread : M K Z := gets current.

Definition thread_current : M K Z :=
  t ← running_thread;
  th ← get_thread t;
  ASSERT (is_thread t th) ;;
  ASSERT (bool_decide (status th = THREAD_RUNNING)) ;;
  mret t.

Definition thread_tid : M K Z := t ← thread_current; th ← get_thread t; mret (tid th).
Definition thread_name : M K (list Z) := t ← thread_current; th ← get_thread t; mret (t_name th).
Definition thread_get_priority : M K Z := t ← thread_current; th ← get_thread t; mret (priority th).
Definition thread_set_priority (new_priority : Z) : M K unit :=
  t ← thread_current; th ← get_thread t;
  put_thread t (mk_thread (tid th) (status th) (t_name th) (stack th) new_priority (user th) (t_magic th) (frames th)).

Definition next_thread_to_run : M K Z :=
  l ← gets ready_list;
  match l with
  | [] => gets idle_thread
  | t :: l' => modify (set_ready l') ;; mret t
  end.

(** Runs on the new thread.  [process_activate] loads the page directory. *)
Definition thread_schedule_tail (prev : Z) : M K unit :=
  cur ← running_thread;
  assert_intr_off ;;
  set_status cur THREAD_RUNNING ;;
  modify (fun k => set_ticks 0 (idle_ticks k) (kernel_ticks k) (user_ticks k) k) ;;
  if prev =? NULL then mret tt
  else
    p ← get_thread prev;
    init ← gets initial_thread;
    if bool_decide (status p = THREAD_DYING) && negb (prev =? init) then
      ASSERT (negb (prev =? cur)) ;;
      modify (fun k => set_threads (delete prev (threads k)) k)
    else mret tt.

Definition schedule : M K unit :=
  cur ← running_thread;
  next ← next_thread_to_run;
  assert_intr_off ;;
  c ← get_thread cur; ASSERT (negb (bool_decide (status c = THREAD_RUNNING))) ;;
  n ← get_thread next; ASSERT (is_thread next n) ;;
  if negb (cur =? next) then
    modify (set_current next) ;; thread_schedule_tail cur
  else thread_schedule_tail NULL.

Definition thread_block : M K unit :=
  assert_no_context ;;
  assert_intr_off ;;
  t ← thread_current; set_status t THREAD_BLOCKED ;;
  schedule.

Definition thread_unblock (t : Z) : M K unit :=
  th ← get_thread t; ASSERT (is_thread t th) ;;
  old_level ← intr_disable;
  ASSERT (bool_decide (status th = THREAD_BLOCKED)) ;;
  modify (fun k => set_ready (ready_list k ++ [t]) k) ;;
  set_status t THREAD_READY ;;
  _ ← intr_set_level old_level;
  mret tt.

Definition thread_yield : M K unit :=
  cur ← thread_current;
  assert_no_context ;;
  old_level ← intr_disable;
  idle ← gets idle_thread;
  (if negb (cur =? idle) then modify (fun k => set_ready (ready_list k ++ [cur]) k) else mret tt) ;;
  set_status cur THREAD_READY ;;
  push_frame (FYield old_level) ;;
  schedule.

(** After [process_exit], whose calls the thread has made before. *)
Definition thread_exit : M K unit :=
  assert_no_context ;;
  _ ← intr_disable;
  t ← thread_current;
  modify (fun k => set_all (filter (fun x => x <> t) (all_list k)) k) ;;
  set_status t THREAD_DYING ;;
  schedule.

(** The threads [thread_foreach] visits, in order. *)
Definition thread_foreach : M K (list Z) := assert_intr_off ;; gets all_list.

Definition thread_tick : M K unit :=
  t ← thread_current; th ← get_thread t;
  k ← get;
  (if t =? idle_thread k then
     modify (fun k => set_ticks (thread_ticks k) (idle_ticks k + 1) (kernel_ticks k) (user_ticks k) k)
   else if user th then
     modify (fun k => set_ticks (thread_ticks k) (idle_ticks k) (kernel_ticks k) (user_ticks k + 1) k)
   else
     modify (fun k => set_ticks (thread_ticks k) (idle_ticks k) (kernel_ticks k + 1) (user_ticks k) k)) ;;
  modify (fun k => set_ticks (u32 (thread_ticks k + 1)) (idle_ticks k) (kernel_ticks k) (user_ticks k) k) ;;
  n ← gets thread_ticks;
  if TIME_SLICE <=? n then intr_yield_on_return else mret tt.

(** The timer interrupt: the processor clears the interrupt flag, the handler of
    interrupt.c calls [thread_tick], may yield, and returns. *)
Definition timer_interrupt : M K unit :=
  on ← intr_get_level;
  ASSERT on ;;
  push_frame FIret ;;
  modify (fun k => set_intr false true false k) ;;
  thread_tick ;;
  modify (fun k => set_intr false false (yield_on_return k) k) ;;
  y ← gets yield_on_return;
  if y then thread_yield else mret tt.

(** [memset] clears the page; [alloc_frame] then takes the three frames that
    [switch_threads] unwinds off the top of the stack. *)
Definition alloc_frame (t sz : Z) : M K unit :=
  th ← get_thread t; ASSERT (is_thread t th) ;;
  ASSERT (sz mod 4 =? 0) ;;
  put_thread t (mk_thread (tid th) (status th) (t_name th) (stack th - sz) (priority th) (user th) (t_magic th) (frames th)).

Definition init_thread (t : Z) (nm : list Z) (prio : Z) : M K unit :=
  creator ← running_thread;
  ASSERT (negb (t =? NULL)) ;;
  ASSERT ((PRI_MIN <=? prio) && (prio <=? PRI_MAX)) ;;
  put_thread t (mk_thread 0 THREAD_BLOCKED (take 15 nm) 4096 prio false THREAD_MAGIC [FStart creator]) ;;
  old_level ← intr_disable;
  modify (fun k => set_all (all_list k ++ [t]) k) ;;
  _ ← intr_set_level old_level;
  mret tt.

(** The address of a new variable on the stack. *)
Definition new_addr : M K Z :=
  a ← gets next_addr; modify (set_next_addr (a + 1)) ;; mret a.

(** ** Semaphores *)

Definition get_sema (s : Z) : M K semaphore := load (fun k => semas k !! s).
Definition put_sema (s : Z) (sm : semaphore) : M K unit :=
  modify (fun k => set_semas (<[s := sm]> (semas k)) k).

Definition sema_init (s val : Z) : M K unit :=
  ASSERT (negb (s =? NULL)) ;; put_sema s (mk_sema val []).

(** One turn of [while (sema->value == 0)] and, when it ends, the decrement. *)
Definition sema_down_loop (s : Z) (old_level : bool) : M K unit :=
  sm ← get_sema s;
  if value sm =? 0 then
    t ← thread_current;
    put_sema s (mk_sema (value sm) (waiters sm ++ [t])) ;;
    push_frame (FSema s old_level) ;;
    thread_block
  else
    put_sema s (mk_sema (u32 (value sm - 1)) (waiters sm)) ;;
    _ ← intr_set_level old_level;
    mret tt.

Definition sema_down (s : Z) : M K unit :=
  ASSERT (negb (s =? NULL)) ;;
  assert_no_context ;;
  old_level ← intr_disable;
  sema_down_loop s old_level.

Definition sema_try_down (s : Z) : M K bool :=
  ASSERT (negb (s =? NULL)) ;;
  old_level ← intr_disable;
  sm ← get_sema s;
  success ← (if 0 <? value sm then
               put_sema s (mk_sema (u32 (value sm - 1)) (waiters sm)) ;; mret true
             else mret false);
  _ ← intr_set_level old_level;
  mret success.

Definition sema_up (s : Z) : M K unit :=
  ASSERT (negb (s =? NULL)) ;;
  old_level ← intr_disable;
  sm ← get_sema s;
  match waiters sm with
  | [] => mret tt
  | t :: ws => put_sema s (mk_sema (value sm) ws) ;; thread_unblock t
  end ;;
  sm ← get_sema s;
  put_sema s (mk_sema (u32 (value sm + 1)) (waiters sm)) ;;
  _ ← intr_set_level old_level;
  mret tt.

(** ** Locks *)

Definition get_lock (l : Z) : M K lock := load (fun k => locks k !! l).
Definition put_lock (l : Z) (lk : lock) : M K unit :=
  modify (fun k => set_locks (<[l := lk]> (locks k)) k).

Definition lock_init (l s : Z) : M K unit :=
  ASSERT (negb (l =? NULL)) ;; put_lock l (mk_lock NULL s) ;; sema_init s 1.

Definition lock_held_by_current_thread (l : Z) : M K bool :=
  ASSERT (negb (l =? NULL)) ;;
  lk ← get_lock l; t ← thread_current; mret (holder lk =? t).

Definition lock_acquire (l : Z) : M K unit :=
  ASSERT (negb (l =? NULL)) ;;
  assert_no_context ;;
  held ← lock_held_by_current_thread l; ASSERT (negb held) ;;
  lk ← get_lock l;
  push_frame (FHold l) ;;
  push_frame (FDown (l_sema lk)).

(** [lock->holder = thread_current ()]. *)
Definition set_holder (l : Z) : M K unit :=
  lk ← get_lock l; t ← thread_current; put_lock l (mk_lock t (l_sema lk)).

Definition lock_try_acquire (l : Z) : M K unit :=
  ASSERT (negb (l =? NULL)) ;;
  held ← lock_held_by_current_thread l; ASSERT (negb held) ;;
  lk ← get_lock l;
  success ← sema_try_down (l_sema lk);
  if success then push_frame (FHold l) else mret tt.

Definition lock_release (l : Z) : M K unit :=
  ASSERT (negb (l =? NULL)) ;;
  held ← lock_held_by_current_thread l; ASSERT held ;;
  lk ← get_lock l;
  put_lock l (mk_lock NULL (l_sema lk)) ;;
  push_frame (FUp (l_sema lk)).

(** ** Condition variables *)

Definition get_cond (c : Z) : M K (list Z) := load (fun k => conds k !! c).
Definition put_cond (c : Z) (ws : list Z) : M K unit :=
  modify (fun k => set_conds (<[c := ws]> (conds k)) k).

Definition cond_init (c : Z) : M K unit := ASSERT (negb (c =? NULL)) ;; put_cond c [].

(** The waiter's semaphore is a new local variable. *)
Definition cond_wait (c l : Z) : M K unit :=
  ASSERT (negb (c =? NULL)) ;; ASSERT (negb (l =? NULL)) ;;
  assert_no_context ;;
  held ← lock_held_by_current_thread l; ASSERT held ;;
  w ← new_addr;
  sema_init w 0 ;;
  ws ← get_cond c; put_cond c (ws ++ [w]) ;;
  push_frame (FAcquire l) ;;
  push_frame (FDown w) ;;
  lock_release l.

Definition cond_signal (c l : Z) : M K unit :=
  ASSERT (negb (c =? NULL)) ;; ASSERT (negb (l =? NULL)) ;;
  assert_no_context ;;
  held ← lock_held_by_current_thread l; ASSERT held ;;
  ws ← get_cond c;
  match ws with
  | [] => mret tt
  | w :: ws' => put_cond c ws' ;; push_frame (FUp w)
  end.

Definition cond_broadcast (c l : Z) : M K unit :=
  ASSERT (negb (c =? NULL)) ;; ASSERT (negb (l =? NULL)) ;;
  ws ← get_cond c;
  if bool_decide (ws = []) then mret tt
  else push_frame (FBroadcast c l) ;; cond_signal c l.

(** ** Creating threads *)

(** [page] is the page palloc.c gives, if it has one. *)
Definition thread_create (page : option Z) (nm : list Z) (prio : Z) : M K unit :=
  match page with
  | None => mret tt
  | Some t =>
      init_thread t nm prio ;;
      lk ← gets tid_lock;
      push_frame (FTid t) ;;
      lock_acquire lk
  end.

(** [allocate_tid] once it holds the lock. *)
Definition take_tid (t : Z) : M K unit :=
  n ← gets next_tid;
  modify (set_next_tid (s32 (n + 1))) ;;
  lk ← gets tid_lock;
  push_frame (FCreated t n) ;;
  lock_release lk.

(** The rest of [ptr_thread_create]: the frames of 12, 4 and 28 bytes.  Then
    [thread_create] reads the new thread's page. *)
Definition finish_create (t n : Z) : M K unit :=
  push_frame (FResult t) ;;
  th ← get_thread t;
  put_thread t (mk_thread n (status th) (t_name th) (stack th) (priority th) (user th) (t_magic th) (frames th)) ;;
  alloc_frame t 12 ;; alloc_frame t 4 ;; alloc_frame t 28 ;;
  thread_unblock t.

(** The body of the loop of the idle thread. *)
Definition idle_step : M K unit := _ ← intr_disable; push_frame (FYield true) ;; thread_block.

(** ** Taking up an unfinished call *)

Definition resume_frame (f : frame) : M K unit :=
  match f with
  | FStart _ => _ ← intr_enable; mret tt
  | FDown s => sema_down s
  | FSema s old => sema_down_loop s old
  | FUp s => sema_up s
  | FHold l => set_holder l
  | FAcquire l => lock_acquire l
  | FBroadcast c l => cond_broadcast c l
  | FTid t => take_tid t
  | FCreated t n => finish_create t n
  | FResult t => th ← get_thread t; mret tt
  | FYield old => _ ← intr_set_level old; mret tt
  | FIret => modify (fun k => set_intr true (in_external_intr k) (yield_on_return k) k)
  end.

Definition resume : M K unit :=
  t ← gets current; th ← get_thread t;
  match frames th with
  | [] => mret tt
  | f :: fr => put_thread t (with_frames fr th) ;; resume_frame f
  end.

(** The calls a thread makes. *)
Inductive call :=
  | CSemaDown (s : Z) | CSemaUp (s : Z) | CSemaTryDown (s : Z)
  | CAcquire (l : Z) | CTryAcquire (l : Z) | CRelease (l : Z)
  | CWait (c l : Z) | CSignal (c l : Z) | CBroadcast (c l : Z)
  | CYield | CExit | CSetPriority (p : Z)
  | CCreate (page : option Z) (nm : list Z) (prio : Z).

Definition run_call (c : call) : M K unit :=
  match c with
  | CSemaDown s => push_frame (FDown s)
  | CSemaUp s => push_frame (FUp s)
  | CSemaTryDown s => _ ← sema_try_down s; mret tt
  | CAcquire l => lock_acquire l
  | CTryAcquire l => lock_try_acquire l
  | CRelease l => lock_release l
  | CWait c l => cond_wait c l
  | CSignal c l => cond_signal c l
  | CBroadcast c l => cond_broadcast c l
  | CYield => thread_yield
  | CExit => thread_exit
  | CSetPriority p => thread_set_priority p
  | CCreate page nm prio => thread_create page nm prio
  end.
