(* ===== verification/KernelRuns.v ===== *)
(** * What the runs of the kernel's operations leave

    For each operation of Kernel.v that ends, the state it ends in, as one
    update of the state it began in.  The invariants are proved on these updates. *)

From S2P Require Import Prelude KList Kernel.

(** ** Inverting runs of the monad *)

Lemma gets_inv {S A} (f : S -> A) s a s' : gets f s = Done (a, s') -> a = f s /\ s' = s.
Proof. by intros [= <- <-]. Qed.
Lemma ret_inv {S A} (x : A) (s : S) a s' : (mret x : M S A) s = Done (a, s') -> a = x /\ s' = s.
Proof. by intros [= <- <-]. Qed.
Lemma modify_inv {S} (f : S -> S) s a s' : modify f s = Done (a, s') -> s' = f s.
Proof. by intros [= <-]. Qed.
Lemma assert_inv {S} b (s : S) a s' : ASSERT b s = Done (a, s') -> b = true /\ s' = s.
Proof. unfold ASSERT. destruct b; by intros [= <-]. Qed.
Lemma load_inv {S A} (f : S -> option A) s a s' : load f s = Done (a, s') -> f s = Some a /\ s' = s.
Proof. unfold load. destruct (f s); naive_solver. Qed.


(** ** The updates *)

Definition with_thread (t : Z) (th : thread) (k : K) : K := set_threads (<[t := th]> (threads k)) k.
Definition with_intr (on : bool) (k : K) : K := set_intr on (in_external_intr k) (yield_on_return k) k.
Definition with_sema (s : Z) (sm : semaphore) (k : K) : K := set_semas (<[s := sm]> (semas k)) k.
Definition with_lock (l : Z) (lk : lock) (k : K) : K := set_locks (<[l := lk]> (locks k)) k.
Definition with_cond (c : Z) (ws : list Z) (k : K) : K := set_conds (<[c := ws]> (conds k)) k.

(** The running thread's frames. *)
Definition with_stack (fr : list frame) (th : thread) (k : K) : K :=
  with_thread (current k) (with_frames fr th) k.

(** [t], whose structure is [th], on the run queue. *)
Definition made_ready (t : Z) (th : thread) (k : K) : K :=
  with_thread t (with_status THREAD_READY th) (set_ready (ready_list k ++ [t]) k).

Lemma with_intr_id k : with_intr (intr_on k) k = k.
Proof. by destruct k. Qed.

(** ** Single operations *)

Lemma get_thread_inv t k th k' : get_thread t k = Done (th, k') -> threads k !! t = Some th /\ k' = k.
Proof. unfold get_thread, get_sema, get_lock, get_cond. intros H. by apply load_inv in H. Qed.
Lemma get_sema_inv s k sm k' : get_sema s k = Done (sm, k') -> semas k !! s = Some sm /\ k' = k.
Proof. unfold get_thread, get_sema, get_lock, get_cond. intros H. by apply load_inv in H. Qed.
Lemma get_lock_inv l k lk k' : get_lock l k = Done (lk, k') -> locks k !! l = Some lk /\ k' = k.
Proof. unfold get_thread, get_sema, get_lock, get_cond. intros H. by apply load_inv in H. Qed.
Lemma get_cond_inv c k ws k' : get_cond c k = Done (ws, k') -> conds k !! c = Some ws /\ k' = k.
Proof. unfold get_thread, get_sema, get_lock, get_cond. intros H. by apply load_inv in H. Qed.
Lemma put_thread_inv t th k a k' : put_thread t th k = Done (a, k') -> k' = with_thread t th k.
Proof. by intros [= <-]. Qed.
Lemma put_sema_inv s sm k a k' : put_sema s sm k = Done (a, k') -> k' = with_sema s sm k.
Proof. by intros [= <-]. Qed.
Lemma put_lock_inv l lk k a k' : put_lock l lk k = Done (a, k') -> k' = with_lock l lk k.
Proof. by intros [= <-]. Qed.
Lemma put_cond_inv c ws k a k' : put_cond c ws k = Done (a, k') -> k' = with_cond c ws k.
Proof. by intros [= <-]. Qed.

Lemma intr_disable_inv k a k' : intr_disable k = Done (a, k') -> a = intr_on k /\ k' = with_intr false k.
Proof. by intros [= <- <-]. Qed.

Lemma intr_enable_inv k a k' : intr_enable k = Done (a, k') -> k' = with_intr true k.
Proof.
  unfold intr_enable, intr_get_level, intr_context, gets, ASSERT, modify, bnd, mbind, M_bind.
  cbn. by destruct (in_external_intr k) eqn:E; intros [= <- <-].
Qed.

Lemma intr_set_level_inv b k a k' : intr_set_level b k = Done (a, k') -> k' = with_intr b k.
Proof. destruct b; [apply intr_enable_inv|]. by intros [_ ->]%intr_disable_inv. Qed.

Lemma thread_current_inv k t k' : thread_current k = Done (t, k') ->
  t = current k /\ k' = k /\ exists th, threads k !! current k = Some th /\ status th = THREAD_RUNNING.
Proof.
  unfold thread_current. intros H.
  apply bind_done_inv in H as (t0 & k0 & [= <- <-] & H).
  apply bind_done_inv in H as (th & k0 & [Hl ->]%get_thread_inv & H).
  apply bind_done_inv in H as (? & ? & [_ ->]%assert_inv & H).
  apply bind_done_inv in H as (? & ? & [Hr ->]%assert_inv & H).
  apply ret_inv in H as [-> ->]. apply bool_decide_eq_true in Hr. split_and!; [done..|by exists th].
Qed.

Lemma no_context_inv k a k' : assert_no_context k = Done (a, k') -> in_external_intr k = false /\ k' = k.
Proof.
  unfold assert_no_context, intr_context, gets, bnd, mbind, M_bind. intros H.
  apply assert_inv in H as [H ->]. by apply negb_true_iff in H.
Qed.

Lemma intr_off_inv k a k' : assert_intr_off k = Done (a, k') -> intr_on k = false /\ k' = k.
Proof.
  unfold assert_intr_off, intr_get_level, gets, bnd, mbind, M_bind. intros H.
  apply assert_inv in H as [H ->]. by apply negb_true_iff in H.
Qed.

Lemma push_frame_inv f k a k' : push_frame f k = Done (a, k') ->
  exists th, threads k !! current k = Some th /\ k' = with_stack (f :: frames th) th k.
Proof.
  unfold push_frame. intros H.
  apply bind_done_inv in H as (t0 & k0 & [= <- <-] & H).
  apply bind_done_inv in H as (th & k0 & [Hl ->]%get_thread_inv & H).
  apply put_thread_inv in H as ->. by exists th.
Qed.

Lemma set_status_inv t st k a k' : set_status t st k = Done (a, k') ->
  exists th, threads k !! t = Some th /\ k' = with_thread t (with_status st th) k.
Proof.
  unfold set_status. intros H. apply bind_done_inv in H as (th & k0 & [Hl ->]%get_thread_inv & H).
  apply put_thread_inv in H as ->. by exists th.
Qed.

Lemma new_addr_inv k a k' : new_addr k = Done (a, k') -> a = next_addr k /\ k' = set_next_addr (next_addr k + 1) k.
Proof. by intros [= <- <-]. Qed.

(** Invert one step of a run. *)
Ltac minv1 H1 :=
  first
  [ apply intr_disable_inv in H1 as [-> ->]
  | apply intr_set_level_inv in H1 as ->
  | apply intr_enable_inv in H1 as ->
  | apply thread_current_inv in H1 as (-> & -> & ?)
  | apply no_context_inv in H1 as [? ->]
  | apply intr_off_inv in H1 as [? ->]
  | apply push_frame_inv in H1 as (? & ? & ->)
  | apply set_status_inv in H1 as (? & ? & ->)
  | apply new_addr_inv in H1 as [-> ->]
  | apply get_thread_inv in H1 as [? ->]
  | apply get_sema_inv in H1 as [? ->]
  | apply get_lock_inv in H1 as [? ->]
  | apply get_cond_inv in H1 as [? ->]
  | apply put_thread_inv in H1 as ->
  | apply put_sema_inv in H1 as ->
  | apply put_lock_inv in H1 as ->
  | apply put_cond_inv in H1 as ->
  | apply gets_inv in H1 as [-> ->]
  | apply ret_inv in H1 as [-> ->]
  | apply assert_inv in H1 as [H1 ->]
  | apply load_inv in H1 as [H1 ->]
  | apply modify_inv in H1 as ->
  | idtac ].

(** Invert every step of a run. *)
Ltac minv H :=
  repeat match type of H with
  | bnd _ _ _ = Done _ =>
      let a := fresh "a" in let k := fresh "k" in let H1 := fresh "Hr" in
      apply bind_done_inv in H as (a & k & H1 & H); minv1 H1
  end.

Lemma thread_block_inv k a k' : thread_block k = Done (a, k') ->
  in_external_intr k = false /\ intr_on k = false /\
  exists th, threads k !! current k = Some th /\ status th = THREAD_RUNNING /\
    schedule (with_thread (current k) (with_status THREAD_BLOCKED th) k) = Done (a, k').
Proof.
  unfold thread_block. intros H. minv H. match goal with Hx : exists th, _ /\ _ |- _ => destruct Hx as (th & Ht & Hr) end.
  match goal with Hx : threads k !! current k = Some ?y |- _ => assert (y = th) as -> by congruence end. split_and!; [done..|]. by exists th.
Qed.

Lemma thread_unblock_inv t k a k' : thread_unblock t k = Done (a, k') ->
  exists th, threads k !! t = Some th /\ status th = THREAD_BLOCKED /\ k' = made_ready t th k.
Proof.
  unfold thread_unblock. intros H. minv H. apply bool_decide_eq_true in Hr0. exists a0. split_and!; [done..|].
  apply ret_inv in H as [_ ->]. assert (x = a0) as -> by (cbn in *; congruence).
  by destruct k.
Qed.

Lemma sema_up_inv s k a k' : sema_up s k = Done (a, k') ->
  exists sm, semas k !! s = Some sm /\
   ((waiters sm = [] /\ k' = with_sema s (mk_sema (u32 (value sm + 1)) []) k) \/
    exists t ws th, waiters sm = t :: ws /\ threads k !! t = Some th /\ status th = THREAD_BLOCKED /\
      k' = with_sema s (mk_sema (u32 (value sm + 1)) ws) (made_ready t th k)).
Proof.
  unfold sema_up. intros H. apply bind_done_inv in H as (? & ? & [Hs ->]%assert_inv & H).
  apply bind_done_inv in H as (? & ? & [-> ->]%intr_disable_inv & H).
  apply bind_done_inv in H as (sm & ? & [Hsm ->]%get_sema_inv & H).
  exists sm. split; [done|]. apply bind_done_inv in H as (? & k1 & H1 & H).
  destruct (waiters sm) as [|t ws] eqn:E; [left|right].
  - apply ret_inv in H1 as [_ ->]. minv H. apply ret_inv in H as [_ ->]. split; [done|].
    assert (a0 = sm) as -> by (cbn in *; congruence). rewrite E. by destruct k.
  - apply bind_done_inv in H1 as (? & ? & ->%put_sema_inv & H1).
    apply thread_unblock_inv in H1 as (th & Ht & Hb & ->).
    apply bind_done_inv in H as (sm' & ? & [Hsm' ->]%get_sema_inv & H). minv H. apply ret_inv in H as [_ ->].
    exists t, ws, th. split_and!; [done..|].
    cbn in Hsm'. rewrite lookup_insert_eq in Hsm'. injection Hsm' as <-. cbn.
    unfold with_sema, made_ready, with_thread, with_intr, set_semas, set_intr; cbn. by rewrite insert_insert_eq.
Qed.

Lemma sema_try_down_inv s k b k' : sema_try_down s k = Done (b, k') ->
  exists sm, semas k !! s = Some sm /\
   (b = true /\ 0 < value sm /\ k' = with_sema s (mk_sema (u32 (value sm - 1)) (waiters sm)) k \/
    b = false /\ value sm <= 0 /\ k' = k).
Proof.
  unfold sema_try_down. intros H. apply bind_done_inv in H as (? & ? & [Hs ->]%assert_inv & H).
  apply bind_done_inv in H as (? & ? & [-> ->]%intr_disable_inv & H).
  apply bind_done_inv in H as (sm & ? & [Hsm ->]%get_sema_inv & H).
  apply bind_done_inv in H as (b' & ? & H1 & H). minv H. apply ret_inv in H as [-> ->].
  exists sm. split; [done|]. destruct (Z.ltb_spec 0 (value sm)).
  - minv H1. apply ret_inv in H1 as [-> ->]. left. by destruct k.
  - apply ret_inv in H1 as [-> ->]. right. by destruct k.
Qed.

(** [sema_down] and its loop: the decrement, or the switch to another thread
    with the running one at the end of the waiters. *)
Definition sleeping (s : Z) (sm : semaphore) (old : bool) (th : thread) (k : K) : K :=
  with_thread (current k) (with_status THREAD_BLOCKED (with_frames (FSema s old :: frames th) th))
    (with_sema s (mk_sema (value sm) (waiters sm ++ [current k])) k).

Lemma sema_down_loop_inv s old k a k' : sema_down_loop s old k = Done (a, k') ->
  exists sm, semas k !! s = Some sm /\
   ((value sm <> 0 /\ k' = with_intr old (with_sema s (mk_sema (u32 (value sm - 1)) (waiters sm)) k)) \/
    (value sm = 0 /\ exists th, threads k !! current k = Some th /\ status th = THREAD_RUNNING /\
      intr_on k = false /\ schedule (sleeping s sm old th k) = Done (a, k'))).
Proof.
  unfold sema_down_loop. intros H. apply bind_done_inv in H as (sm & ? & [Hsm ->]%get_sema_inv & H).
  exists sm. split; [done|]. destruct (Z.eqb_spec (value sm) 0) as [E|E]; [right|left].
  - split; [done|]. apply bind_done_inv in H as (? & ? & (-> & -> & th & Ht & Hr)%thread_current_inv & H).
    apply bind_done_inv in H as (? & ? & ->%put_sema_inv & H).
    apply bind_done_inv in H as (? & ? & (th' & Ht' & ->)%push_frame_inv & H).
    cbn in Ht'. assert (th' = th) as -> by congruence.
    apply thread_block_inv in H as (_ & Hi & thc & Hc & _ & H). cbn in Hc.
    rewrite lookup_insert_eq in Hc. injection Hc as <-. exists th. split_and!; [done..|].
    revert H. unfold sleeping, with_stack, with_thread, with_sema, set_threads, set_semas; cbn. by rewrite insert_insert_eq.
  - minv H. apply ret_inv in H as [_ ->]. done.
Qed.

Lemma sema_down_inv s k a k' : sema_down s k = Done (a, k') ->
  in_external_intr k = false /\ sema_down_loop s (intr_on k) (with_intr false k) = Done (a, k').
Proof. unfold sema_down. intros H. minv H. done. Qed.

(** ** Locks *)

Lemma held_inv l k b k' : lock_held_by_current_thread l k = Done (b, k') ->
  k' = k /\ exists lk, locks k !! l = Some lk /\ b = (holder lk =? current k) /\ l <> 0.
Proof.
  unfold lock_held_by_current_thread. intros H. minv H. apply ret_inv in H as [-> ->].
  split; [done|]. eexists. split_and!; [done..|]. by apply negb_true_iff, Z.eqb_neq in Hr.
Qed.

Lemma lock_acquire_inv l k a k' : lock_acquire l k = Done (a, k') ->
  exists lk th, locks k !! l = Some lk /\ holder lk <> current k /\ threads k !! current k = Some th /\
    in_external_intr k = false /\
    k' = with_stack (FDown (l_sema lk) :: FHold l :: frames th) th k.
Proof.
  unfold lock_acquire. intros H. minv H. apply held_inv in Hr0 as (-> & lk & Hl & -> & _). minv H.
  apply push_frame_inv in H as (th' & Ht' & ->). simplify_eq. bool_to_prop.
  cbn in Ht'. rewrite lookup_insert_eq in Ht'. injection Ht' as <-.
  eexists lk, _. split_and!; [done..|].
  unfold with_stack, with_thread, set_threads; cbn. by rewrite insert_insert_eq.
Qed.

Lemma lock_release_inv l k a k' : lock_release l k = Done (a, k') ->
  exists lk th, locks k !! l = Some lk /\ holder lk = current k /\ threads k !! current k = Some th /\
    k' = with_stack (FUp (l_sema lk) :: frames th) th (with_lock l (mk_lock NULL (l_sema lk)) k).
Proof.
  unfold lock_release. intros H. minv H. apply held_inv in Hr0 as (-> & lk & Hl & -> & _). minv H.
  apply push_frame_inv in H as (th & Ht & ->). simplify_eq. bool_to_prop. by exists lk, th.
Qed.

Lemma lock_try_acquire_inv l k a k' : lock_try_acquire l k = Done (a, k') ->
  exists lk sm, locks k !! l = Some lk /\ holder lk <> current k /\ semas k !! l_sema lk = Some sm /\
   (value sm <= 0 /\ k' = k \/
    0 < value sm /\ exists th, threads k !! current k = Some th /\
    k' = with_stack (FHold l :: frames th) th
           (with_sema (l_sema lk) (mk_sema (u32 (value sm - 1)) (waiters sm)) k)).
Proof.
  unfold lock_try_acquire. intros H. minv H. apply held_inv in Hr0 as (-> & lk & Hl & -> & _). minv H.
  simplify_eq. bool_to_prop. match goal with Hx : sema_try_down _ _ = _ |- _ => apply sema_try_down_inv in Hx as (sm & Hsm & Hor) end.
  exists lk, sm. split_and!; [done..|].
  destruct Hor as [(-> & Hv & ->)|(-> & Hv & ->)].
  - apply push_frame_inv in H as (th & Ht & ->). right. split; [done|]. by exists th.
  - apply ret_inv in H as [_ ->]. by left.
Qed.

Lemma set_holder_inv l k a k' : set_holder l k = Done (a, k') ->
  exists lk, locks k !! l = Some lk /\ k' = with_lock l (mk_lock (current k) (l_sema lk)) k.
Proof. unfold set_holder. intros H. minv H. apply put_lock_inv in H as ->. by eexists. Qed.

(** ** Condition variables *)

(** Updates of the same frames, around updates of something else. *)
Lemma with_stack_stack fr fr' th th' k : with_stack fr th (with_stack fr' th' k) = with_stack fr th k.
Proof.
  destruct k. unfold with_stack, with_thread. unfold set_threads at 1. cbn. by rewrite insert_insert_eq.
Qed.
Lemma with_stack_lock fr th l lk k : with_lock l lk (with_stack fr th k) = with_stack fr th (with_lock l lk k).
Proof. by destruct k. Qed.
Lemma with_stack_cond fr th c ws k : with_cond c ws (with_stack fr th k) = with_stack fr th (with_cond c ws k).
Proof. by destruct k. Qed.
Lemma with_stack_frames fr fr' th k : with_stack fr (with_frames fr' th) k = with_stack fr th k.
Proof. done. Qed.
Lemma with_thread_twice t th th' k : with_thread t th (with_thread t th' k) = with_thread t th k.
Proof. destruct k. unfold with_thread. unfold set_threads at 1. cbn. by rewrite insert_insert_eq. Qed.

Ltac stack_norm :=
  rewrite ?with_stack_lock, ?with_stack_cond, ?with_stack_stack, ?with_stack_frames.

(** The waiter's new semaphore. *)
Definition cond_queued (c : Z) (ws : list Z) (k : K) : K :=
  with_cond c (ws ++ [next_addr k]) (with_sema (next_addr k) (mk_sema 0 []) (set_next_addr (next_addr k + 1) k)).

Lemma cond_wait_inv c l k a k' : cond_wait c l k = Done (a, k') ->
  exists ws lk th, conds k !! c = Some ws /\ locks k !! l = Some lk /\ holder lk = current k /\
    threads k !! current k = Some th /\
    k' = with_stack (FUp (l_sema lk) :: FDown (next_addr k) :: FAcquire l :: frames th) th
           (with_lock l (mk_lock NULL (l_sema lk)) (cond_queued c ws k)).
Proof.
  unfold cond_wait, sema_init. intros H. minv H. apply held_inv in Hr1 as (-> & lk & Hl & -> & _). minv H.
  bool_to_prop.
  repeat match goal with Hx : bnd (ASSERT _) _ _ = _ |- _ => apply bind_done_inv in Hx as (? & ? & [_ ->]%assert_inv & Hx);
    apply put_sema_inv in Hx as -> end.
  apply lock_release_inv in H as (lk' & th & Hl' & Hh & Hth & ->).
  cbn in *. rewrite lookup_insert_eq in *. simplify_eq.
  eexists _, _, _. split_and!; [done..|]. by stack_norm.
Qed.

Lemma cond_signal_inv c l k a k' : cond_signal c l k = Done (a, k') ->
  exists ws lk, conds k !! c = Some ws /\ locks k !! l = Some lk /\ holder lk = current k /\
   (ws = [] /\ k' = k \/
    exists w ws' th, ws = w :: ws' /\ threads k !! current k = Some th /\
      k' = with_stack (FUp w :: frames th) th (with_cond c ws' k)).
Proof.
  unfold cond_signal. intros H. minv H. apply held_inv in Hr1 as (-> & lk & Hl & -> & _). minv H.
  bool_to_prop. match goal with Hx : conds k !! c = Some ?ws |- _ => exists ws, lk; split_and!; [done..|];
    destruct ws as [|w ws'] end.
  - apply ret_inv in H as [_ ->]. by left.
  - minv H. apply push_frame_inv in H as (th & Ht & ->). right. by exists w, ws', th.
Qed.

Lemma cond_broadcast_inv c l k a k' : cond_broadcast c l k = Done (a, k') ->
  exists ws, conds k !! c = Some ws /\
   (ws = [] /\ k' = k \/
    exists w ws' lk th, ws = w :: ws' /\ locks k !! l = Some lk /\ holder lk = current k /\
      threads k !! current k = Some th /\
      k' = with_stack (FUp w :: FBroadcast c l :: frames th) th (with_cond c ws' k)).
Proof.
  unfold cond_broadcast. intros H. minv H.
  match goal with Hx : conds k !! c = Some ?ws |- _ => exists ws; split; [done|]; rename Hx into Hc end.
  case_bool_decide as Hn.
  - apply ret_inv in H as [_ ->]. by left.
  - right. minv H. apply cond_signal_inv in H as (ws & lk & Hc' & Hl & Hh & Hor). cbn in Hc', Hl, Hh.
    simplify_eq. destruct Hor as [[-> _]|(w & ws' & th & -> & Ht & ->)]; [done|]. cbn in Ht.
    rewrite lookup_insert_eq in Ht. simplify_eq. eexists w, ws', lk, _. split_and!; [done..|].
    by stack_norm.
Qed.

(** ** Threads *)

(** [init_thread]: a blocked thread that is on the list of all threads. *)
Definition new_thread (nm : list Z) (prio creator : Z) : thread :=
  mk_thread 0 THREAD_BLOCKED (take 15 nm) 4096 prio false THREAD_MAGIC [FStart creator].

Definition born (t : Z) (nm : list Z) (prio : Z) (k : K) : K :=
  set_all (all_list k ++ [t]) (with_thread t (new_thread nm prio (current k)) k).

Lemma init_thread_inv t nm prio k a k' : init_thread t nm prio k = Done (a, k') ->
  t <> 0 /\ PRI_MIN <= prio <= PRI_MAX /\ k' = born t nm prio k.
Proof.
  unfold init_thread, running_thread. intros H. minv H. apply ret_inv in H as [_ ->]. bool_to_prop.
  split_and!; try done.
Qed.

Lemma thread_create_inv page nm prio k a k' : thread_create page nm prio k = Done (a, k') ->
  page = None /\ k' = k \/
  exists t lk th, page = Some t /\ t <> 0 /\ threads (born t nm prio k) !! current k = Some th /\
    locks k !! tid_lock k = Some lk /\
    k' = with_stack (FDown (l_sema lk) :: FHold (tid_lock k) :: FTid t :: frames th) th (born t nm prio k).
Proof.
  destruct page as [t|]; cbn [thread_create]; intros H; [right|apply ret_inv in H as [_ ->]; by left].
  apply bind_done_inv in H as (? & ? & (Hn0 & Hp & ->)%init_thread_inv & H).
  apply bind_done_inv in H as (? & ? & [-> ->]%gets_inv & H).
  apply bind_done_inv in H as (? & ? & (th0 & Ht0 & ->)%push_frame_inv & H).
  apply lock_acquire_inv in H as (lk & th & Hl & _ & Ht & _ & ->).
  exists t, lk, th0. split_and!; [done..|].
  cbn in Ht. rewrite lookup_insert_eq in Ht. simplify_eq. by stack_norm.
Qed.

Lemma take_tid_inv t k a k' : take_tid t k = Done (a, k') ->
  exists lk th, locks k !! tid_lock k = Some lk /\ holder lk = current k /\ threads k !! current k = Some th /\
    k' = with_stack (FUp (l_sema lk) :: FCreated t (next_tid k) :: frames th) th
           (with_lock (tid_lock k) (mk_lock NULL (l_sema lk)) (set_next_tid (s32 (next_tid k + 1)) k)).
Proof.
  unfold take_tid. intros H. minv H. apply lock_release_inv in H as (lk & th & Hl & Hh & Ht & ->).
  cbn in *. rewrite lookup_insert_eq in Ht. simplify_eq. eexists lk, _. split_and!; [done..|].
  by stack_norm.
Qed.

Definition with_tid (n : Z) (th : thread) : thread :=
  mk_thread n (status th) (t_name th) (stack th - 44) (priority th) (user th) (t_magic th) (frames th).

Lemma alloc_frame_inv t sz k a k' : alloc_frame t sz k = Done (a, k') ->
  exists th, threads k !! t = Some th /\
   k' = with_thread t (mk_thread (tid th) (status th) (t_name th) (stack th - sz) (priority th) (user th)
                         (t_magic th) (frames th)) k.
Proof. unfold alloc_frame. intros H. minv H. apply put_thread_inv in H as ->. by eexists. Qed.

Lemma finish_create_inv t n k a k' : finish_create t n k = Done (a, k') ->
  exists c k1 th, threads k !! current k = Some c /\ k1 = with_stack (FResult t :: frames c) c k /\
    threads k1 !! t = Some th /\ status th = THREAD_BLOCKED /\ k' = made_ready t (with_tid n th) k1.
Proof.
  unfold finish_create. intros H.
  apply bind_done_inv in H as (? & k1 & (c & Hc & E)%push_frame_inv & H). exists c, k1.
  apply bind_done_inv in H as (th & ? & [Ht ->]%get_thread_inv & H).
  apply bind_done_inv in H as (? & ? & ->%put_thread_inv & H).
  apply bind_done_inv in H as (? & ? & (th1 & Ht1 & ->)%alloc_frame_inv & H).
  apply bind_done_inv in H as (? & ? & (th2 & Ht2 & ->)%alloc_frame_inv & H).
  apply bind_done_inv in H as (? & ? & (th3 & Ht3 & ->)%alloc_frame_inv & H).
  apply thread_unblock_inv in H as (th4 & Ht4 & Hb & ->).
  cbn in Ht1, Ht2, Ht3, Ht4. rewrite lookup_insert_eq in Ht1, Ht2, Ht3, Ht4.
  injection Ht1 as <-. injection Ht2 as <-. injection Ht3 as <-. injection Ht4 as <-. cbn in Hb.
  exists th. split_and!; [done..|]. clear E Ht Hc.
  rewrite !with_thread_twice. unfold made_ready, with_status, with_tid. cbn.
  replace (stack th - 12 - 4 - 28) with (stack th - 44) by lia.
  destruct k1; unfold with_thread; unfold set_threads at 1; cbn. by rewrite insert_insert_eq.
Qed.

Lemma thread_yield_inv k a k' : thread_yield k = Done (a, k') ->
  exists th, threads k !! current k = Some th /\ status th = THREAD_RUNNING /\ in_external_intr k = false /\
    schedule (with_thread (current k) (with_status THREAD_READY (with_frames (FYield (intr_on k) :: frames th) th))
      (set_ready (if current k =? idle_thread k then ready_list k else ready_list k ++ [current k])
        (with_intr false k))) = Done (a, k').
Proof.
  unfold thread_yield. intros H. minv H.
  match goal with Hx : exists th, _ /\ _ |- _ => destruct Hx as (th & Ht & Hrun) end.
  exists th. split_and!; [done..|].
  match goal with Hx : (if _ then _ else _) _ = Done (_, ?k0) |- _ => rename Hx into Hif;
  assert (k0 = set_ready (if current k =? idle_thread k then ready_list k else ready_list k ++ [current k])
    (with_intr false k)) as -> end.
  { cbn in Hif. destruct (current k =? idle_thread k); cbn in Hif; [apply ret_inv in Hif as [_ ->]|apply modify_inv in Hif as ->];
      [by destruct k|done]. }
  cbn in *. rewrite !lookup_insert_eq in *. simplify_eq. cbn in *.
  revert H. unfold with_stack, with_thread, set_threads; cbn. by rewrite insert_insert_eq.
Qed.

Lemma thread_exit_inv k a k' : thread_exit k = Done (a, k') ->
  exists th, threads k !! current k = Some th /\ status th = THREAD_RUNNING /\
    schedule (with_thread (current k) (with_status THREAD_DYING th)
      (set_all (filter (fun x => x <> current k) (all_list k)) (with_intr false k))) = Done (a, k').
Proof.
  unfold thread_exit. intros H. minv H.
  match goal with Hx : exists th, _ /\ _ |- _ => destruct Hx as (th & Ht & Hr) end.
  exists th. cbn in *. simplify_eq. done.
Qed.

Lemma set_priority_inv p k a k' : thread_set_priority p k = Done (a, k') ->
  exists th, threads k !! current k = Some th /\
    k' = with_thread (current k)
      (mk_thread (tid th) (status th) (t_name th) (stack th) p (user th) (t_magic th) (frames th)) k.
Proof.
  unfold thread_set_priority. intros H. minv H. apply put_thread_inv in H as ->. by eexists.
Qed.

(** The counters of the timer and the flag it may set. *)
Lemma thread_tick_inv k a k' : thread_tick k = Done (a, k') ->
  exists n i kt u y, k' = set_ticks n i kt u (set_intr (intr_on k) (in_external_intr k) y k).
Proof.
  unfold thread_tick. intros H.
  apply bind_done_inv in H as (t & ? & (-> & -> & _)%thread_current_inv & H).
  apply bind_done_inv in H as (th & ? & [_ ->]%get_thread_inv & H).
  apply bind_done_inv in H as (? & ? & [= <- <-] & H).
  apply bind_done_inv in H as (? & k1 & Hr0 & H).
  assert (exists n i kt u, k1 = set_ticks n i kt u k) as (n & i & kt & u & ->).
  { destruct (current k =? idle_thread k); [|destruct (user th)]; apply modify_inv in Hr0 as ->; eauto. }
  minv H. cbn in H. destruct (TIME_SLICE <=? _).
  - unfold intr_yield_on_return, intr_context in H. minv H. apply modify_inv in H as ->. by eexists _, _, _, _, _.
  - apply ret_inv in H as [_ ->]. exists (u32 (n + 1)), i, kt, u, (yield_on_return k). by destruct k.
Qed.
