(* ===== verification/Sched.v ===== *)
(** * The scheduler's invariant

    [sched k run] says where every thread is: the running one on the processor,
    the ready ones on the run queue, the blocked ones on the list of exactly one
    semaphore, waiting to be started by their creator, or idle.  Every step of
    every interleaving keeps it. *)

From S2P Require Import Prelude KList Kernel KernelRuns.

(** ** The invariant *)

(** The threads being created by a thread that has these frames. *)
Definition created (fr : list frame) : list Z :=
  omap (fun f => match f with FTid t => Some t | FCreated t _ => Some t | _ => None end) fr.

Arguments created : simpl never.

Definition is_status (k : K) (t : Z) (st : thread_status) : Prop :=
  exists th, threads k !! t = Some th /\ status th = st.

(** [run]: the current thread is running (it is not between its change of status
    and the switch).  [ex]: a blocked thread about to be made ready, linked
    nowhere. *)
Record sched (k : K) (run : bool) (ex : option Z) : Prop := {
  sc_cur : exists th, threads k !! current k = Some th /\ (status th = THREAD_RUNNING <-> run = true);
  sc_running : forall t, is_status k t THREAD_RUNNING -> t = current k;
  sc_valid : forall t th, threads k !! t = Some th ->
    t <> 0 /\ t_magic th = THREAD_MAGIC;
  sc_idle : is_Some (threads k !! idle_thread k);
  sc_ready_nodup : NoDup (ready_list k);
  sc_ready : forall t, t ∈ ready_list k -> t <> idle_thread k /\ is_status k t THREAD_READY;
  sc_ready_all : forall t, is_status k t THREAD_READY -> t = idle_thread k \/ t ∈ ready_list k;
  sc_wait_nodup : forall s sm, semas k !! s = Some sm -> NoDup (waiters sm);
  sc_wait : forall s sm t, semas k !! s = Some sm -> t ∈ waiters sm ->
    t <> idle_thread k /\ exists th o fr, threads k !! t = Some th /\ status th = THREAD_BLOCKED /\
      frames th = FSema s o :: fr;
  sc_blocked : forall t, is_status k t THREAD_BLOCKED ->
    ex = Some t \/ t = idle_thread k \/ (exists s sm, semas k !! s = Some sm /\ t ∈ waiters sm) \/
    (exists t' th', threads k !! t' = Some th' /\ t ∈ created (frames th'));
  sc_created : forall t' th' t, threads k !! t' = Some th' -> t ∈ created (frames th') ->
    t <> idle_thread k /\ exists th, threads k !! t = Some th /\ status th = THREAD_BLOCKED /\
      frames th = [FStart t'];
  sc_created_one : forall t' th', threads k !! t' = Some th' -> NoDup (created (frames th'));
  sc_dying : forall t th, threads k !! t = Some th -> status th = THREAD_DYING ->
    frames th = [] /\ t <> idle_thread k /\ (t = initial_thread k \/ (t = current k /\ run = false));
  sc_ex : forall t, ex = Some t -> t <> idle_thread k /\ is_status k t THREAD_BLOCKED /\
    (forall s sm, semas k !! s = Some sm -> t ∉ waiters sm) /\
    (forall t' th', threads k !! t' = Some th' -> t ∉ created (frames th'));
  sc_all_nodup : NoDup (all_list k);
  sc_all : forall t, t ∈ all_list k <-> exists st, is_status k t st /\ st <> THREAD_DYING;
  sc_fresh : forall s, next_addr k <= s -> semas k !! s = None
}.

(** What the invariant says of a kernel that runs a thread. *)
Lemma current_running k ex : sched k true ex -> is_status k (current k) THREAD_RUNNING.
Proof. intros Hs. destruct (sc_cur _ _ _ Hs) as (th & Ht & Hst). exists th. split; [done|by apply Hst]. Qed.

(** Two kernels whose threads, run queue and waiters are the same. *)
Record same_threads (k k' : K) : Prop := {
  st_threads : threads k' = threads k;
  st_ready : ready_list k' = ready_list k;
  st_all : all_list k' = all_list k;
  st_current : current k' = current k;
  st_idle : idle_thread k' = idle_thread k;
  st_initial : initial_thread k' = initial_thread k;
  st_addr : next_addr k <= next_addr k';
  st_semas : forall s sm', semas k' !! s = Some sm' ->
    waiters sm' = [] \/ exists sm, semas k !! s = Some sm /\ waiters sm' = waiters sm;
  st_semas' : forall s sm, semas k !! s = Some sm -> waiters sm <> [] ->
    exists sm', semas k' !! s = Some sm' /\ waiters sm' = waiters sm;
  st_fresh : forall s, next_addr k' <= s -> semas k !! s = None -> semas k' !! s = None
}.

Lemma sched_same k k' run ex : same_threads k k' -> sched k run ex -> sched k' run ex.
Proof.
  intros [E1 E2 E3 E4 E5 E6 E7 E8 E9 E10] [H1 H2 H3 H4 H5 H6 H7 H8 H9 H10 H11 H12 H13 H14 H15 H16 H17].
  split; unfold is_status in *; rewrite ?E1, ?E2, ?E3, ?E4, ?E5, ?E6 in *; try done.
  - intros s sm' Hs. destruct (E8 s sm' Hs) as [->|(sm & Hsm & ->)]; [constructor|by eapply H8].
  - intros s sm' t Hs Ht. destruct (E8 s sm' Hs) as [E|(sm & Hsm & E)]; rewrite E in Ht.
    + by apply elem_of_nil in Ht.
    + by eapply H9.
  - intros t Ht. destruct (H10 t Ht) as [?|[?|[(s & sm & Hsm & Hin)|?]]];
      [by left|by right; left| |by right; right; right].
    right. right. left. destruct (E9 s sm Hsm) as (sm' & ? & E); [by intros E; rewrite E in Hin; apply elem_of_nil in Hin|].
    exists s, sm'. by rewrite E.
  - intros t Hex. destruct (H14 t Hex) as (? & ? & Hw & ?). split_and!; [done..| |done].
    intros s sm' Hs. destruct (E8 s sm' Hs) as [->|(sm & Hsm & ->)]; [by apply not_elem_of_nil|by eapply Hw].
  - intros s Hs. apply E10; [done|]. apply H17. lia.
Qed.

Ltac not_in :=
  match goal with
  | H : ?x ∈ [] |- _ => by apply elem_of_nil in H
  end.

(** The rest of an update of one thread. *)
Lemma is_status_insert k t th' u st : is_status (set_threads (<[t := th']> (threads k)) k) u st <->
  (u = t /\ status th' = st) \/ (u <> t /\ is_status k u st).
Proof.
  unfold is_status. cbn [threads set_threads]. split.
  - intros (th & Hu & Hst). apply lookup_insert_Some in Hu as [[<- <-]|[Hne Hu]]; [by left|].
    right. split; [done|]. by exists th.
  - intros [[-> Hst]|[Hne (th & Hu & Hst)]].
    + exists th'. by rewrite lookup_insert_eq.
    + exists th. by rewrite lookup_insert_ne.
Qed.

(** The running thread changes, but not its status, nor the threads it creates. *)
Lemma sched_current k th th' ex : sched k true ex -> threads k !! current k = Some th ->
  status th' = status th -> t_magic th' = t_magic th -> created (frames th') = created (frames th) ->
  sched (set_threads (<[current k := th']> (threads k)) k) true ex.
Proof.
  intros Hs Hc Est Em Ecr. pose proof (current_running k ex Hs) as (thc & Hc' & Hst).
  assert (thc = th) as -> by congruence.
  assert (forall u st, is_status (set_threads (<[current k := th']> (threads k)) k) u st <-> is_status k u st) as Hstat.
  { intros u st. rewrite is_status_insert. split.
    - intros [[-> <-]|[_ ?]]; [|done]. exists th. by rewrite Est.
    - intros Hu. destruct (decide (u = current k)) as [->|]; [left|by right].
      destruct Hu as (? & ? & ?). split; congruence. }
  assert (forall u, u <> current k -> threads (set_threads (<[current k := th']> (threads k)) k) !! u = threads k !! u) as Hne
    by (intros u Hu; cbn; by rewrite lookup_insert_ne).
  assert (forall u thu, threads (set_threads (<[current k := th']> (threads k)) k) !! u = Some thu ->
    exists thu0, threads k !! u = Some thu0 /\ status thu = status thu0 /\ t_magic thu = t_magic thu0 /\
      created (frames thu) = created (frames thu0)) as Hold.
  { intros u thu Hu. cbn in Hu. apply lookup_insert_Some in Hu as [[<- <-]|[_ Hu]]; [by exists th|by exists thu]. }
  assert (forall u, is_status k u THREAD_BLOCKED -> u <> current k) as Hbc.
  { intros u (? & ? & ?) ->. congruence. }
  destruct Hs as [H1 H2 H3 H4 H5 H6 H7 H8 H9 H10 H11 H12 H13 H14 H15 H16 H17].
  split; try done; cbn [current idle_thread ready_list all_list semas next_addr initial_thread set_threads].
  - exists th'. cbn. rewrite lookup_insert_eq. split; [done|]. rewrite Est. by rewrite Hst.
  - intros t Ht. by apply H2, Hstat.
  - intros t tht Ht. destruct (Hold t tht Ht) as (th0 & H0 & _ & -> & _). by apply H3.
  - cbn. apply lookup_insert_is_Some'. by right.
  - intros t Ht. rewrite Hstat. by apply H6.
  - intros t. rewrite Hstat. apply H7.
  - intros s sm t Hsm Ht. destruct (H9 s sm t Hsm Ht) as (Hni & tht & o & fr & Hl & Hb & Hf).
    split; [done|]. exists tht, o, fr. rewrite Hne; [done|]. apply Hbc. by exists tht.
  - intros t Ht%Hstat. destruct (H10 t Ht) as [?|[?|[?|(t' & tht & Hl & Hin)]]]; [by left|by right; left|by right; right; left|].
    right. right. right. destruct (decide (t' = current k)) as [->|Hn].
    + exists (current k), th'. cbn. rewrite lookup_insert_eq, Ecr. split; [done|]. congruence.
    + exists t', tht. by rewrite Hne.
  - intros t' tht t Hl Hin. destruct (Hold _ _ Hl) as (th0 & H0 & _ & _ & E). rewrite E in Hin.
    destruct (H11 t' th0 t H0 Hin) as (Hni & tc & Hlc & Hb & Hf). split; [done|].
    exists tc. rewrite Hne; [done|]. apply Hbc. by exists tc.
  - intros t' tht Hl. destruct (Hold _ _ Hl) as (th0 & H0 & _ & _ & ->). by eapply H12.
  - intros t tht Hl Hd. cbn in Hl. apply lookup_insert_Some in Hl as [[<- <-]|[Hn Hl]]; [congruence|].
    by apply H13.
  - intros t Hex. destruct (H14 t Hex) as (Hni & Hb & Hw & Hcr). rewrite Hstat. split_and!; [done..|].
    intros t' tht Hl. destruct (Hold _ _ Hl) as (th0 & H0 & _ & _ & ->). by eapply Hcr.
  - intros t. setoid_rewrite Hstat. apply H16.
Qed.

(** A frame that creates no thread is pushed or popped. *)
Lemma sched_frames k th fr ex : sched k true ex -> threads k !! current k = Some th ->
  created fr = created (frames th) ->
  sched (set_threads (<[current k := with_frames fr th]> (threads k)) k) true ex.
Proof. intros Hs Hc E. by eapply sched_current. Qed.

(** ** A thread made ready *)

Lemma sched_unblock k t th th' : sched k true (Some t) -> threads k !! t = Some th ->
  t_magic th' = t_magic th -> frames th' = frames th ->
  sched (made_ready t th' k) true None.
Proof.
  unfold made_ready, with_thread. set (th1 := with_status THREAD_READY th'). intros Hs Ht Em Ef.
  assert (t_magic th1 = t_magic th /\ frames th1 = frames th /\ status th1 = THREAD_READY) as (Em1 & Ef1 & Es1) by done.
  clearbody th1. clear th' Em Ef. revert Hs Ht.
  intros [H1 H2 H3 H4 H5 H6 H7 H8 H9 H10 H11 H12 H13 H14 H15 H16 H17] Ht.
  destruct (H14 t eq_refl) as (Hni & (th0 & Ht0 & Hb) & Hw & Hcr).
  assert (th0 = th) as -> by congruence.
  set (k' := set_threads _ _).
  assert (forall u st, is_status k' u st <->
    (u = t /\ st = THREAD_READY) \/ (u <> t /\ is_status k u st)) as Hstat.
  { intros u st. unfold k'. change (threads k) with (threads (set_ready (ready_list k ++ [t]) k)).
    rewrite is_status_insert. naive_solver. }
  assert (t <> current k) as Htc.
  { intros ->. destruct H1 as (thc & Hc & Hst). assert (thc = th) as -> by congruence.
    destruct Hst as [_ Hst]. specialize (Hst eq_refl). congruence. }
  assert (forall u, u <> t -> threads k' !! u = threads k !! u) as Hne
    by (intros u Hu; cbn; by rewrite lookup_insert_ne).
  assert (forall u thu, threads k' !! u = Some thu -> exists thu0, threads k !! u = Some thu0 /\
    t_magic thu = t_magic thu0 /\ frames thu = frames thu0 /\ (u <> t -> thu = thu0)) as Hold.
  { intros u thu Hu. cbn in Hu. apply lookup_insert_Some in Hu as [[<- <-]|[_ Hu]]; [by exists th|by exists thu]. }
  assert (t ∉ ready_list k) as Hnr.
  { intros Hin. destruct (H6 t Hin) as (_ & thr & Hr & Hst). congruence. }
  split; try done.
  - destruct H1 as (thc & Hc & Hst). exists thc. by rewrite Hne.
  - intros u Hu. apply Hstat in Hu as [[_ E]|[_ Hu]]; [done|by apply H2].
  - intros u thu Hu. destruct (Hold u thu Hu) as (thu0 & Hu0 & -> & _). by apply H3.
  - cbn. apply lookup_insert_is_Some'. by right.
  - cbn. apply NoDup_app. split; [done|]. split; [|apply NoDup_singleton].
    intros u Hu Hu2. apply list_elem_of_singleton in Hu2. by subst.
  - cbn [ready_list k' set_threads set_ready idle_thread]. intros u [Hu| ->%list_elem_of_singleton]%elem_of_app.
    + destruct (H6 u Hu) as [? Hr]. split; [done|]. rewrite Hstat. right. split; [|done]. by intros ->.
    + split; [done|]. rewrite Hstat. by left.
  - intros u Hu. cbn. rewrite elem_of_app, list_elem_of_singleton.
    apply Hstat in Hu as [[-> _]|[_ Hu]]; [by right; right|]. destruct (H7 u Hu); [by left|by right; left].
  - intros s sm u Hsm Hin. destruct (H9 s sm u Hsm Hin) as (? & thu & o & fr & Hu & ? & ?).
    split; [done|]. exists thu, o, fr. rewrite Hne; [done|]. intros ->. by eapply Hw.
  - intros u Hu. apply Hstat in Hu as [[_ ?]|[Hn Hu]]; [done|].
    destruct (H10 u Hu) as [[= ?]|[?|[?|(t' & tht & Hl & Hin)]]]; [congruence|by right; left|by right; right; left|].
    right. right. right. destruct (decide (t' = t)) as [->|Hn'].
    + assert (tht = th) as -> by congruence. exists t, th1. cbn.
      by rewrite lookup_insert_eq, Ef1.
    + exists t', tht. by rewrite Hne.
  - intros t' tht u Hl Hin. destruct (Hold _ _ Hl) as (th0 & H0 & _ & E & _). rewrite E in Hin.
    destruct (H11 t' th0 u H0 Hin) as (? & tc & Hlc & ? & ?). split; [done|].
    exists tc. rewrite Hne; [done|]. intros ->. by apply (Hcr t' th0).
  - intros t' tht Hl. destruct (Hold _ _ Hl) as (th0 & H0 & _ & -> & _). by eapply H12.
  - intros u thu Hl Hd. cbn in Hl. apply lookup_insert_Some in Hl as [[<- <-]|[_ Hl]]; [congruence|by apply H13].
  - intros u. cbn [all_list k' set_threads set_ready]. rewrite H16. split; intros (st & Hu & Hd).
    + destruct (decide (u = t)) as [->|Hn].
      * exists THREAD_READY. rewrite Hstat. split; [by left|done].
      * exists st. rewrite Hstat. split; [by right|done].
    + apply Hstat in Hu as [[-> ->]|[_ Hu]]; [|by exists st]. exists THREAD_BLOCKED. split; [by exists th|done].
Qed.

(** The first waiter taken off the list of a semaphore. *)
Lemma sched_pop_waiter k s sm t ws : sched k true None -> semas k !! s = Some sm ->
  waiters sm = t :: ws ->
  sched (set_semas (<[s := mk_sema (value sm) ws]> (semas k)) k) true (Some t) /\
  exists th o fr, threads k !! t = Some th /\ frames th = FSema s o :: fr.
Proof.
  intros [H1 H2 H3 H4 H5 H6 H7 H8 H9 H10 H11 H12 H13 H14 H15 H16 H17] Hsm Hws.
  destruct (H9 s sm t Hsm) as (Hni & th & o & fr & Ht & Hb & Hf); [rewrite Hws; inl|].
  split; [|by exists th, o, fr].
  pose proof (H8 s sm Hsm) as Hnd. rewrite Hws in Hnd. apply NoDup_cons in Hnd as [Htw Hnd].
  set (k' := set_semas _ _).
  assert (forall s' sm', semas k' !! s' = Some sm' -> exists sm0, semas k !! s' = Some sm0 /\
    (forall u, u ∈ waiters sm' -> u ∈ waiters sm0) /\ (NoDup (waiters sm0) -> NoDup (waiters sm')) /\
    (forall u, u ∈ waiters sm0 -> u <> t -> u ∈ waiters sm')) as Hold.
  { intros s' sm' Hs'. cbn in Hs'. apply lookup_insert_Some in Hs' as [[<- <-]|[_ Hs']]; [|by exists sm'].
    exists sm. cbn [waiters]. rewrite Hws. split; [done|]. split; [intros u ?; inl|].
    split; [by intros [_ ?]%NoDup_cons|]. intros u [->|?]%elem_of_cons ?; done. }
  split; try done.
  - intros s' sm' Hs'. destruct (Hold _ _ Hs') as (sm0 & H0 & _ & Hn & _). by eapply Hn, H8.
  - intros s' sm' u Hs' Hu. destruct (Hold _ _ Hs') as (sm0 & H0 & Hin & _). eapply H9; [done|by apply Hin].
  - intros u Hu. destruct (decide (u = t)) as [->|Hn]; [by left|].
    destruct (H10 u Hu) as [?|[?|[(s' & sm0 & Hs' & Hin)|?]]]; [done|by right; left| |by right; right; right].
    right. right. left. destruct (decide (s' = s)) as [->|Hns].
    + exists s, (mk_sema (value sm) ws). cbn. rewrite lookup_insert_eq. split; [done|].
      assert (sm0 = sm) as -> by congruence. rewrite Hws in Hin. by apply elem_of_cons in Hin as [?|?].
    + exists s', sm0. cbn. by rewrite lookup_insert_ne.
  - intros u [= <-]. split; [done|]. split; [by exists th|]. split.
    + intros s' sm' Hs' Hin. cbn in Hs'. apply lookup_insert_Some in Hs' as [[<- <-]|[Hns Hs']]; [done|].
      destruct (H9 s' sm' t Hs' Hin) as (_ & th0 & o0 & fr0 & Ht0 & _ & Hf0). congruence.
    + intros t' tht Hl Hin. destruct (H11 t' tht t Hl Hin) as (_ & tc & Hlc & _ & Hfc). congruence.
  - intros s' Hs'. cbn in *. destruct (decide (s' = s)) as [->|]; [|rewrite lookup_insert_ne; auto].
    rewrite H17 in Hsm; done.
Qed.

(** ** Leaving the processor *)

Lemma waiters_of_current k ex s sm : sched k true ex -> semas k !! s = Some sm -> current k ∉ waiters sm.
Proof.
  intros Hs Hsm Hin. destruct (sc_wait _ _ _ Hs s sm _ Hsm Hin) as (_ & th & o & fr & Ht & Hb & _).
  destruct (current_running k ex Hs) as (? & ? & ?). congruence.
Qed.

Lemma ready_of_current k ex : sched k true ex -> current k ∉ ready_list k.
Proof.
  intros Hs Hin. destruct (sc_ready _ _ _ Hs _ Hin) as (_ & ? & ? & ?).
  destruct (current_running k ex Hs) as (? & ? & ?). congruence.
Qed.

(** The running thread gets another status and is linked where that status wants it. *)
Section Leave.
Variables (k k' : K) (th th' : thread).
Hypothesis Hs : sched k true None.
Hypothesis Hc : threads k !! current k = Some th.
Hypothesis Eth : threads k' = <[current k := th']> (threads k).
Hypothesis Ecur : current k' = current k.
Hypothesis Eidle : idle_thread k' = idle_thread k.
Hypothesis Einit : initial_thread k' = initial_thread k.
Hypothesis Eaddr : next_addr k' = next_addr k.
Hypothesis Hnr : status th' <> THREAD_RUNNING.
Hypothesis Em : t_magic th' = t_magic th.
Hypothesis Ecr : created (frames th') = created (frames th).
Hypothesis Hready :
  ready_list k' = ready_list k /\ (status th' = THREAD_READY -> current k = idle_thread k) \/
  ready_list k' = ready_list k ++ [current k] /\ status th' = THREAD_READY /\ current k <> idle_thread k.
Hypothesis Hwait :
  semas k' = semas k /\ (status th' = THREAD_BLOCKED -> current k = idle_thread k) \/
  exists s sm o fr, semas k !! s = Some sm /\
    semas k' = <[s := mk_sema (value sm) (waiters sm ++ [current k])]> (semas k) /\
    frames th' = FSema s o :: fr /\ status th' = THREAD_BLOCKED /\ current k <> idle_thread k.
Hypothesis Hall :
  all_list k' = all_list k /\ status th' <> THREAD_DYING \/
  all_list k' = filter (fun x => x <> current k) (all_list k) /\ status th' = THREAD_DYING /\
    frames th' = [] /\ current k <> idle_thread k.

Lemma leave_status u st : is_status k' u st <->
  (u = current k /\ status th' = st) \/ (u <> current k /\ is_status k u st).
Proof. rewrite <- (is_status_insert k (current k) th'). unfold is_status. by rewrite Eth. Qed.

Lemma leave_other u : u <> current k -> threads k' !! u = threads k !! u.
Proof. intros Hu. by rewrite Eth, lookup_insert_ne. Qed.

Lemma leave_old u thu : threads k' !! u = Some thu -> exists thu0, threads k !! u = Some thu0 /\
  t_magic thu = t_magic thu0 /\ created (frames thu) = created (frames thu0).
Proof.
  intros Hu. rewrite Eth in Hu. apply lookup_insert_Some in Hu as [[<- <-]|[_ Hu]]; [by exists th|by exists thu].
Qed.

Lemma leave_not_current u st : st <> THREAD_RUNNING -> is_status k u st -> u <> current k.
Proof.
  destruct (current_running k None Hs) as (? & ? & ?). intros Hst (? & ? & ?) ->. congruence.
Qed.

Lemma leave_kept u thu : threads k !! u = Some thu -> status thu = THREAD_BLOCKED -> threads k' !! u = Some thu.
Proof.
  intros Hu Hb. rewrite leave_other; [done|]. apply (leave_not_current u THREAD_BLOCKED); [done|]. by exists thu.
Qed.

Lemma leave_semas_old s sm' : semas k' !! s = Some sm' -> exists sm, semas k !! s = Some sm /\
  (waiters sm' = waiters sm \/ (waiters sm' = waiters sm ++ [current k] /\ current k <> idle_thread k /\
     status th' = THREAD_BLOCKED /\ exists o fr, frames th' = FSema s o :: fr)).
Proof.
  intros Hsm'. destruct Hwait as [[E _]|(s0 & sm0 & o & fr & H0 & E & Hf & Hb & Hni)]; rewrite E in Hsm'.
  - exists sm'. split; [done|by left].
  - apply lookup_insert_Some in Hsm' as [[<- <-]|[_ Hs']]; [|exists sm'; split; [done|by left]].
    exists sm0. split; [done|]. right. split_and!; [done..|]. by exists o, fr.
Qed.

Lemma leave_semas_new s sm u : semas k !! s = Some sm -> u ∈ waiters sm ->
  exists sm', semas k' !! s = Some sm' /\ u ∈ waiters sm'.
Proof.
  intros Hsm Hu. destruct Hwait as [[E _]|(s0 & sm0 & o & fr & H0 & E & _)]; rewrite E; [by exists sm|].
  destruct (decide (s = s0)) as [->|]; [|exists sm; by rewrite lookup_insert_ne].
  eexists. rewrite lookup_insert_eq. split; [done|]. cbn. apply elem_of_app. left. congruence.
Qed.

Lemma leave_ready_old u : u ∈ ready_list k' ->
  u ∈ ready_list k \/ u = current k /\ status th' = THREAD_READY /\ current k <> idle_thread k.
Proof.
  intros Hu. destruct Hready as [[E _]|(E & ? & ?)]; rewrite E in Hu; [by left|].
  apply elem_of_app in Hu as [?|Hu]; [by left|]. apply list_elem_of_singleton in Hu. by right.
Qed.

Lemma leave_ready : NoDup (ready_list k') /\
  (forall u, u ∈ ready_list k' -> u <> idle_thread k /\ is_status k' u THREAD_READY) /\
  (forall u, is_status k' u THREAD_READY -> u = idle_thread k \/ u ∈ ready_list k').
Proof.
  split; [|split].
  - destruct Hready as [[-> _]|(-> & _)]; [apply Hs|]. apply NoDup_app. split; [apply Hs|].
    split; [|apply NoDup_singleton]. intros u Hu Hu2. apply list_elem_of_singleton in Hu2. subst.
    by apply (ready_of_current k None Hs).
  - intros u [Hu|(-> & Hst & Hni)]%leave_ready_old; (split; [|rewrite leave_status]).
    + by apply (sc_ready _ _ _ Hs).
    + right. apply (sc_ready _ _ _ Hs) in Hu as [_ Hu]. split; [by apply (leave_not_current u THREAD_READY)|done].
    + done.
    + by left.
  - intros u [[-> Hst]|[_ Hu]]%leave_status.
    + destruct Hready as [[_ Hr]|(-> & _)]; [left; by apply Hr|right]. apply elem_of_app. right. inl.
    + apply (sc_ready_all _ _ _ Hs) in Hu as [?|Hin]; [by left|right].
      destruct Hready as [[-> _]|(-> & _)]; [done|]. apply elem_of_app. by left.
Qed.

Lemma leave_waits : (forall s sm, semas k' !! s = Some sm -> NoDup (waiters sm)) /\
  (forall s sm t, semas k' !! s = Some sm -> t ∈ waiters sm -> t <> idle_thread k /\
    exists th o fr, threads k' !! t = Some th /\ status th = THREAD_BLOCKED /\ frames th = FSema s o :: fr).
Proof.
  split.
  - intros s sm' Hsm'. destruct (leave_semas_old s sm' Hsm') as (sm & Hsm & [->|(-> & _)]);
      [by eapply (sc_wait_nodup _ _ _ Hs)|].
    apply NoDup_app. split; [by eapply (sc_wait_nodup _ _ _ Hs)|]. split; [|apply NoDup_singleton].
    intros u Hu Hu2. apply list_elem_of_singleton in Hu2. subst. by eapply (waiters_of_current k None).
  - intros s sm' u Hsm' Hu. destruct (leave_semas_old s sm' Hsm') as (sm & Hsm & Hsw).
    assert (u ∈ waiters sm \/ u = current k /\ current k <> idle_thread k /\
       status th' = THREAD_BLOCKED /\ exists o fr, frames th' = FSema s o :: fr) as [Hin|(-> & Hni & Hb & o & fr & Hf)].
    { destruct Hsw as [E|(E & Hr)]; rewrite E in Hu; [by left|].
      apply elem_of_app in Hu as [?|Hu]; [by left|]. apply list_elem_of_singleton in Hu. by right. }
    + destruct (sc_wait _ _ _ Hs s sm u Hsm Hin) as (? & thu & o & fr & Hu' & ? & ?). split; [done|].
      exists thu, o, fr. split; [by apply leave_kept|done].
    + split; [done|]. exists th', o, fr. by rewrite Eth, lookup_insert_eq.
Qed.

Lemma leave_blocked u : is_status k' u THREAD_BLOCKED ->
  u = idle_thread k \/ (exists s sm, semas k' !! s = Some sm /\ u ∈ waiters sm) \/
  (exists t' th', threads k' !! t' = Some th' /\ u ∈ created (frames th')).
Proof.
  intros [[-> Hst]|[Hn Hu]]%leave_status.
  - destruct Hwait as [[_ Hi]|(s & sm & o & fr & Hsm & E & _)]; [left; by apply Hi|].
    right. left. eexists s, _. rewrite E, lookup_insert_eq. split; [done|]. cbn. apply elem_of_app. right. inl.
  - destruct (sc_blocked _ _ _ Hs u Hu) as [?|[?|[(s & sm & Hsm & Hin)|(t' & tht & Hl & Hin)]]]; [done|by left| |].
    + right. left. destruct (leave_semas_new s sm u Hsm Hin) as (sm' & ? & ?). by exists s, sm'.
    + right. right. destruct (decide (t' = current k)) as [->|Hn'].
      * assert (tht = th) as -> by congruence. exists (current k), th'. rewrite Eth, lookup_insert_eq. by rewrite Ecr.
      * exists t', tht. by rewrite leave_other.
Qed.

Lemma leave_all : NoDup (all_list k') /\
  (forall u, u ∈ all_list k' <-> exists st, is_status k' u st /\ st <> THREAD_DYING).
Proof.
  split; [destruct Hall as [[-> _]|(-> & _)]; [apply Hs|apply NoDup_filter, Hs]|].
  intros u. destruct (decide (u = current k)) as [->|Hn].
  - destruct Hall as [[-> Hnd]|(-> & Hd & _)].
    + rewrite (sc_all _ _ _ Hs). split; intros _; [exists (status th')|exists THREAD_RUNNING]; (split; [|done]).
      * apply leave_status. by left.
      * apply (current_running k None Hs).
    + rewrite list_elem_of_filter. split; [by intros []|]. intros (st & Hst & Hnd).
      apply leave_status in Hst as [[_ <-]|[? _]]; done.
  - assert (u ∈ all_list k' <-> u ∈ all_list k) as ->.
    { destruct Hall as [[-> _]|(-> & _)]; [done|]. rewrite list_elem_of_filter. naive_solver. }
    rewrite (sc_all _ _ _ Hs). split; intros (st & Hst & Hd); exists st; (split; [|done]); [apply leave_status; by right|].
    by apply leave_status in Hst as [[? _]|[_ ?]].
Qed.

Lemma sched_leave : sched k' false None.
Proof.
  destruct leave_ready as (R1 & R2 & R3), leave_waits as [W1 W2], leave_all as [A1 A2].
  split; rewrite ?Ecur, ?Eidle, ?Einit, ?Eaddr; try done.
  - exists th'. by rewrite Eth, lookup_insert_eq.
  - intros u [[-> _]|[_ Hu]]%leave_status; [done|by apply (sc_running _ _ _ Hs)].
  - intros u thu Hu. destruct (leave_old u thu Hu) as (thu0 & Hu0 & -> & _). by apply (sc_valid _ _ _ Hs).
  - rewrite Eth. apply lookup_insert_is_Some'. right. apply Hs.
  - intros u Hu. right. by apply leave_blocked.
  - intros t' tht u Hl Hin. destruct (leave_old _ _ Hl) as (th0 & H0 & _ & E). rewrite E in Hin.
    destruct (sc_created _ _ _ Hs t' th0 u H0 Hin) as (? & tc & Hlc & ? & ?). split; [done|].
    exists tc. split; [by apply leave_kept|done].
  - intros t' tht Hl. destruct (leave_old _ _ Hl) as (th0 & H0 & _ & ->). by eapply (sc_created_one _ _ _ Hs).
  - intros u thu Hl Hd. rewrite Eth in Hl. apply lookup_insert_Some in Hl as [[<- <-]|[Hn Hl]].
    + destruct Hall as [[_ ?]|(_ & _ & Hf & Hni)]; [done|]. split; [done|]. split; [done|by right].
    + destruct (sc_dying _ _ _ Hs u thu Hl Hd) as (? & ? & [?|[? ?]]); [|done]. split; [done|]. split; [done|by left].
  - intros s Hs'. pose proof (sc_fresh _ _ _ Hs) as Hf.
    destruct Hwait as [[-> _]|(s0 & sm & o & fr & Hsm & -> & _)]; [by apply Hf|].
    rewrite lookup_insert_ne; [by apply Hf|]. intros ->. rewrite Hf in Hsm; done.
Qed.
End Leave.

(** ** Taking the processor *)

(** The switch: [next], the thread at the head of the run queue or else the idle
    thread, runs; a dying thread, unless it is the initial one, is freed. *)
Record switched (k k' : K) : Prop := {
  sw_next : exists next, ready_list k = next :: ready_list k' /\ current k' = next \/
    ready_list k = [] /\ ready_list k' = [] /\ current k' = idle_thread k;
  sw_threads : forall u th, threads k' !! u = Some th -> exists th0, threads k !! u = Some th0 /\
    t_magic th = t_magic th0 /\ frames th = frames th0 /\ tid th = tid th0;
  sw_status : forall u st, is_status k' u st <-> (u = current k' /\ st = THREAD_RUNNING) \/
    (u <> current k' /\ is_status k u st /\
     ~ (u = current k /\ st = THREAD_DYING /\ u <> initial_thread k));
  sw_alive : forall u th, threads k !! u = Some th -> status th <> THREAD_DYING ->
    exists th', threads k' !! u = Some th' /\ frames th' = frames th;
  sw_semas : semas k' = semas k;
  sw_locks : locks k' = locks k;
  sw_conds : conds k' = conds k;
  sw_all : all_list k' = all_list k;
  sw_idle : idle_thread k' = idle_thread k;
  sw_init : initial_thread k' = initial_thread k;
  sw_addr : next_addr k' = next_addr k;
  sw_tid : tid_lock k' = tid_lock k;
  sw_next_tid : next_tid k' = next_tid k;
  sw_intr : intr_on k' = intr_on k
}.

Lemma next_is k k' : sched k false None -> switched k k' ->
  (forall t, t = current k' -> t <> idle_thread k -> t ∈ ready_list k) /\
  is_Some (threads k !! current k') /\ ~ is_status k (current k') THREAD_DYING.
Proof.
  intros Hs [(next & [[E1 E2]|(E1 & E2 & E3)]) _ _ _ _ _ _ _ _ _ _ _ _ _].
  - rewrite E2, E1. destruct (sc_ready _ _ _ Hs next) as (_ & th & Ht & Hst); [rewrite E1; inl|].
    split; [intros ? -> _; inl|]. split; [by exists th|]. intros (? & ? & ?). congruence.
  - rewrite E3. split; [intros ? -> ?; done|]. split; [apply (sc_idle _ _ _ Hs)|].
    intros (th & Ht & Hst). by destruct (sc_dying _ _ _ Hs _ th Ht Hst) as (_ & ? & _).
Qed.

Lemma switched_blocked k k' u th : sched k false None -> switched k k' -> u <> idle_thread k ->
  threads k !! u = Some th -> status th = THREAD_BLOCKED ->
  exists th', threads k' !! u = Some th' /\ status th' = THREAD_BLOCKED /\ frames th' = frames th.
Proof.
  intros Hs Hsw Hni Hu Hb. destruct (next_is k k' Hs Hsw) as (Hnr & _).
  assert (is_status k' u THREAD_BLOCKED) as (th' & Hu' & Hb').
  { apply (sw_status _ _ Hsw). right. split_and!; [|by exists th|by intros (_ & ? & _)].
    intros ->. destruct (sc_ready _ _ _ Hs (current k')) as (_ & ? & ? & ?); [by apply (Hnr (current k'))|]. congruence. }
  exists th'. destruct (sw_threads _ _ Hsw u th' Hu') as (th1 & Hu1 & _ & Ef & _). split_and!; [done..|congruence].
Qed.

Lemma sched_switched k k' : sched k false None -> switched k k' -> sched k' true None.
Proof.
  intros Hs Hsw. destruct (next_is k k' Hs Hsw) as (Hnr & [nth Hn] & Hnd).
  pose proof Hsw as [Hnext Hold Hstat Halive Es _ _ Ea Ei Einit Eaddr _ _ _].
  pose proof (fun u th => switched_blocked k k' u th Hs Hsw) as Hblk.
  destruct Hs as [H1 H2 H3 H4 H5 H6 H7 H8 H9 H10 H11 H12 H13 H14 H15 H16 H17].
  assert (forall u th, threads k !! u = Some th -> status th <> THREAD_RUNNING) as Hno.
  { intros u th Hu Hst. assert (u = current k) as -> by (apply H2; by exists th).
    destruct H1 as (thc & Hc & Hrun). assert (thc = th) as -> by congruence. by apply Hrun in Hst. }
  split; rewrite ?Es, ?Ea, ?Ei, ?Einit, ?Eaddr; try done.
  - assert (is_status k' (current k') THREAD_RUNNING) as (th & Ht & Hst) by (apply Hstat; by left).
    by exists th.
  - intros t Ht. apply Hstat in Ht as [[? _]|(_ & (th & Ht & Hr) & _)]; [done|]. by apply Hno in Ht.
  - intros t th Ht. destruct (Hold t th Ht) as (th0 & Ht0 & -> & _). by apply H3.
  - destruct H4 as [th Ht]. destruct (decide (status th = THREAD_DYING)) as [Hd|Hd].
    + by destruct (H13 _ th Ht Hd) as (_ & ? & _).
    + destruct (Halive _ _ Ht Hd) as (th' & ? & _). by exists th'.
  - destruct Hnext as (n & [[E _]|(_ & -> & _)]); [|constructor]. rewrite E in H5. by apply NoDup_cons in H5 as [_ ?].
  - intros t Ht. destruct Hnext as (n & [[E E2]|(_ & E & _)]); [|rewrite E in Ht; by apply elem_of_nil in Ht].
    destruct (H6 t) as (Hni & th & Hth & Hst); [rewrite E; inl|]. split; [done|]. apply Hstat. right.
    split_and!; [|by exists th|by intros (_ & ? & _)]. rewrite E2. intros ->.
    rewrite E in H5. by apply NoDup_cons in H5 as [? _].
  - intros t Ht. apply Hstat in Ht as [[_ ?]|(Hn' & Ht & _)]; [done|]. destruct (H7 t Ht) as [?|Hin]; [by left|right].
    destruct Hnext as (n & [[E E2]|(E & _ & _)]); rewrite E in Hin; [|by apply elem_of_nil in Hin].
    apply elem_of_cons in Hin as [->|?]; [by rewrite E2 in Hn'|done].
  - intros s sm t Hsm Hin. destruct (H9 s sm t Hsm Hin) as (Hni & th & o & fr & Ht & Hb & Hf). split; [done|].
    destruct (Hblk t th Hni Ht Hb) as (th' & ? & ? & ?). exists th', o, fr. by rewrite <- Hf.
  - intros t Ht. apply Hstat in Ht as [[_ ?]|(Hn' & Ht & _)]; [done|].
    destruct (H10 t Ht) as [?|[?|[?|(t' & tht & Hl & Hin)]]]; [done|by right; left|by right; right; left|].
    right. right. right. destruct (Halive t' tht Hl) as (th' & Hl' & Hf).
    { intros Hd. destruct (H13 t' tht Hl Hd) as (Hf & _). rewrite Hf in Hin. by apply elem_of_nil in Hin. }
    exists t', th'. by rewrite Hf.
  - intros t' th' t Hl Hin. destruct (Hold t' th' Hl) as (th0 & Hl0 & _ & E & _). rewrite E in Hin.
    destruct (H11 t' th0 t Hl0 Hin) as (Hni & tc & Ht & Hb & Hf). split; [done|].
    destruct (Hblk t tc Hni Ht Hb) as (th1 & ? & ? & ?). exists th1. by rewrite <- Hf.
  - intros t' th' Hl. destruct (Hold t' th' Hl) as (th0 & Hl0 & _ & -> & _). by eapply H12.
  - intros t th Hl Hd. assert (is_status k' t THREAD_DYING) as Ht by (by exists th).
    apply Hstat in Ht as [[_ ?]|(_ & (th0 & Ht0 & Hd0) & Hno')]; [done|].
    destruct (H13 t th0 Ht0 Hd0) as (Hf & Hni & Hor). destruct (Hold t th Hl) as (th1 & ? & _ & Ef & _).
    split; [congruence|]. split; [done|]. left. destruct Hor as [?|[-> _]]; [done|].
    destruct (decide (current k = initial_thread k)) as [->|Hne]; [done|]. by destruct Hno'.
  - intros t. rewrite H16. split; intros (st & Ht & Hd).
    + destruct (decide (t = current k')) as [->|Hn'].
      * exists THREAD_RUNNING. split; [apply Hstat; by left|done].
      * exists st. split; [|done]. apply Hstat. right. split_and!; [done..|by intros (_ & ? & _)].
    + apply Hstat in Ht as [[-> ->]|(_ & Ht & _)]; [|by exists st].
      exists (status nth). split; [by exists nth|]. intros Hdd. apply Hnd. by exists nth.
Qed.

Lemma next_thread_run k : exists next l,
  (ready_list k = next :: l \/ ready_list k = [] /\ l = [] /\ next = idle_thread k) /\
  next_thread_to_run k = Done (next, set_ready l k).
Proof.
  unfold next_thread_to_run, bnd, mbind, M_bind, gets.
  destruct (ready_list k) as [|next l] eqn:E.
  - exists (idle_thread k), []. split; [by right|]. destruct k. cbn in *. by subst.
  - exists next, l. split; [by left|done].
Qed.

(** What [schedule] leaves when [next] runs. *)
Definition switch_state (next : Z) (n : thread) (l : list Z) (k : K) : K :=
  set_ticks 0 (idle_ticks k) (kernel_ticks k) (user_ticks k)
    (set_threads (<[next := with_status THREAD_RUNNING n]> (threads k)) (set_current next (set_ready l k))).

Definition free_dying (cur : Z) (k : K) : K := set_threads (delete cur (threads k)) k.

Lemma schedule_run k next n l c :
  next_thread_to_run k = Done (next, set_ready l k) -> intr_on k = false ->
  threads k !! current k = Some c -> status c <> THREAD_RUNNING ->
  threads k !! next = Some n -> next <> 0 -> t_magic n = THREAD_MAGIC ->
  current k <> 0 ->
  schedule k = Done (tt,
    if negb (current k =? next) && bool_decide (status c = THREAD_DYING) && negb (current k =? initial_thread k)
    then free_dying (current k) (switch_state next n l k) else switch_state next n l k).
Proof.
  intros Hnext Hi Hc Hr Hn H0 Hm Hc0. unfold schedule, running_thread.
  erewrite bind_done by done. rewrite (bind_done _ _ _ _ _ Hnext).
  unfold assert_intr_off, intr_get_level, get_thread, load, gets, bnd, mbind, M_bind, ASSERT.
  cbn [set_ready intr_on threads]. rewrite Hi. cbn [negb]. change (threads (set_ready l k)) with (threads k). rewrite Hc, bool_decide_false by done. cbn [negb].
  change (threads (set_ready l k)) with (threads k). rewrite Hn. unfold is_thread, NULL. rewrite Hm, Z.eqb_refl. destruct (Z.eqb_spec next 0); [done|]. cbn [negb andb].
  destruct (Z.eqb_spec (current k) next) as [E|E]; cbn [negb andb].
  - rewrite E in *. unfold thread_schedule_tail, running_thread, assert_intr_off, intr_get_level, set_status, put_thread,
      get_thread, load, gets, modify, bnd, mbind, M_bind, ASSERT. cbn. rewrite Hi. cbn. rewrite E, Hn. cbn.
    unfold switch_state. destruct k; cbn in *. by subst.
  - unfold thread_schedule_tail, running_thread, assert_intr_off, intr_get_level, set_status, put_thread,
      get_thread, load, gets, modify, bnd, mbind, M_bind, ASSERT. cbn. rewrite Hi. cbn. rewrite Hn. cbn.
    unfold NULL. destruct (Z.eqb_spec (current k) 0); [done|]. cbn. rewrite lookup_insert_ne by done. rewrite Hc. cbn.
    case_bool_decide; cbn; [|done]. destruct (Z.eqb_spec (current k) (initial_thread k)); cbn; [done|].
    destruct (Z.eqb_spec (current k) next); done.
Qed.

Lemma switch_status next n l k u st : is_status (switch_state next n l k) u st <->
  (u = next /\ st = THREAD_RUNNING) \/ (u <> next /\ is_status k u st).
Proof.
  change (is_status (switch_state next n l k) u st) with
    (is_status (set_threads (<[next := with_status THREAD_RUNNING n]> (threads k)) k) u st).
  rewrite is_status_insert. cbn. naive_solver.
Qed.

Lemma switch_old next n l k u th : threads k !! next = Some n -> threads (switch_state next n l k) !! u = Some th ->
  exists th0, threads k !! u = Some th0 /\ t_magic th = t_magic th0 /\ frames th = frames th0 /\ tid th = tid th0.
Proof.
  intros Hn Hu. cbn in Hu. apply lookup_insert_Some in Hu as [[<- <-]|[_ Hu]]; [by exists n|by exists th].
Qed.

Lemma switch_new next n l k u th : threads k !! next = Some n -> threads k !! u = Some th ->
  exists th', threads (switch_state next n l k) !! u = Some th' /\ frames th' = frames th.
Proof.
  intros Hn Hu. cbn. destruct (decide (u = next)) as [->|Hne].
  - rewrite lookup_insert_eq. eexists. split; [done|]. cbn. congruence.
  - rewrite lookup_insert_ne by done. by exists th.
Qed.

(** The scheduler never fails, and switches to the head of the run queue. *)
Lemma schedule_switched k : sched k false None -> intr_on k = false ->
  exists k', schedule k = Done (tt, k') /\ switched k k'.
Proof.
  intros Hs Hi. destruct (next_thread_run k) as (next & l & Hl & Hnext).
  assert (exists n, threads k !! next = Some n /\ status n <> THREAD_DYING) as (n & Hn & Hnd).
  { destruct Hl as [E|(_ & _ & ->)].
    - destruct (sc_ready _ _ _ Hs next) as (_ & n & Hn & Hst); [rewrite E; inl|]. exists n. split; congruence.
    - destruct (sc_idle _ _ _ Hs) as [n Hn]. exists n. split; [done|]. intros Hd.
      by destruct (sc_dying _ _ _ Hs _ n Hn Hd) as (_ & ? & _). }
  destruct (sc_valid _ _ _ Hs _ _ Hn) as [Hn0 Hm]. destruct (sc_cur _ _ _ Hs) as (c & Hc & Hrun).
  destruct (sc_valid _ _ _ Hs _ _ Hc) as [Hc0 _].
  eexists. split.
  { apply (schedule_run k next n l c); try done; by intros E%Hrun. }
  destruct (negb (current k =? next) && _ && _) eqn:Eb.
  - apply andb_prop in Eb as [[E1 E2]%andb_prop E3]. apply bool_decide_eq_true in E2.
    apply negb_true_iff, Z.eqb_neq in E1, E3.
    split; try done.
    + exists next. cbn. destruct Hl as [?|(? & -> & ->)]; [by left|by right].
    + intros u th Hu. apply (switch_old next n l); [done|]. unfold free_dying in Hu. cbn [threads set_threads] in Hu.
      by apply lookup_delete_Some in Hu as [_ ?].
    + intros u st. cbn [current free_dying switch_state set_threads set_ticks set_current].
      destruct (decide (u = current k)) as [->|Hne].
      * unfold is_status. cbn [threads free_dying set_threads]. rewrite lookup_delete_eq.
        split; [by intros (? & ? & _)|]. intros [[? _]|(_ & (th & Ht & Hst) & Hno)]; [done|].
        destruct Hno. split_and!; [done| |done]. congruence.
      * transitivity (is_status (switch_state next n l k) u st).
        { unfold is_status, free_dying. cbn [threads set_threads]. by rewrite lookup_delete_ne by done. }
        rewrite switch_status. naive_solver.
    + intros u th Hu Hd. destruct (switch_new next n l k u th Hn Hu) as (th' & ? & ?). exists th'. split; [|done].
      unfold free_dying. cbn [threads set_threads]. rewrite lookup_delete_ne; [done|]. intros <-. congruence.
  - split; try done.
    + exists next. cbn. destruct Hl as [?|(? & -> & ->)]; [by left|by right].
    + intros u th Hu. by apply (switch_old next n l).
    + intros u st. rewrite switch_status. cbn [current switch_state set_threads set_ticks set_current].
      split; [|naive_solver]. intros [?|[Hne (th & Ht & Hst)]]; [by left|]. right. split_and!; [done|by exists th|].
      intros (-> & -> & Hni). assert (th = c) as -> by congruence.
      rewrite (proj2 (Z.eqb_neq _ _) Hne), (proj2 (Z.eqb_neq _ _) Hni), bool_decide_true in Eb; done.
    + intros u th Hu _. by apply switch_new.
Qed.

(** ** Creating a thread *)

(** The new thread is linked nowhere until its creator holds it in a frame. *)
Definition unborn (t : Z) (k : K) : Prop :=
  sched k true (Some t) /\ exists th, threads k !! t = Some th /\ frames th = [FStart (current k)].

Lemma sched_born k t nm prio : sched k true None -> threads k !! t = None -> t <> 0 ->
  unborn t (born t nm prio k).
Proof.
  intros [H1 H2 H3 H4 H5 H6 H7 H8 H9 H10 H11 H12 H13 H14 H15 H16 H17] Ht Ht0.
  set (k' := born t nm prio k).
  assert (forall u st, is_status k' u st <->
    (u = t /\ st = THREAD_BLOCKED) \/ (u <> t /\ is_status k u st)) as Hstat.
  { intros u st. change (is_status k' u st) with
      (is_status (set_threads (<[t := new_thread nm prio (current k)]> (threads k)) k) u st).
    rewrite is_status_insert. cbn. naive_solver. }
  assert (forall u st, is_status k u st -> u <> t) as Hlive.
  { intros u st (? & ? & ?) ->. congruence. }
  assert (forall u th, threads k !! u = Some th -> threads k' !! u = Some th) as Hne.
  { intros u th Hu. cbn. rewrite lookup_insert_ne; [done|]. intros ->. congruence. }
  assert (forall u th, threads k' !! u = Some th -> u = t /\ th = new_thread nm prio (current k) \/
    threads k !! u = Some th) as Hold.
  { intros u th Hu. cbn in Hu. apply lookup_insert_Some in Hu as [[<- <-]|[_ Hu]]; [by left|by right]. }
  split; [|exists (new_thread nm prio (current k)); split; [cbn; by rewrite lookup_insert_eq|done]].
  split; try done.
  - destruct H1 as (thc & Hc & Hst). exists thc. split; [|done]. by apply Hne.
  - intros u Hu. apply Hstat in Hu as [[_ ?]|[_ ?]]; [done|by apply H2].
  - intros u th Hu. destruct (Hold u th Hu) as [[-> ->]|Hu']; [done|by apply H3].
  - destruct H4 as [thi Hi]. exists thi. by apply Hne.
  - intros u Hu. destruct (H6 u Hu) as [? Hr]. split; [done|]. apply Hstat. right. split; [by eapply Hlive|done].
  - intros u Hu. apply Hstat in Hu as [[_ ?]|[_ ?]]; [done|by apply H7].
  - intros s sm u Hsm Hin. destruct (H9 s sm u Hsm Hin) as (? & th & o & fr & Hu & ? & ?). split; [done|].
    exists th, o, fr. split_and!; [by apply Hne|done..].
  - intros u Hu. apply Hstat in Hu as [[-> _]|[_ Hu]]; [by left|].
    destruct (H10 u Hu) as [?|[?|[?|(t' & th & Hl & Hin)]]]; [done|by right; left|by right; right; left|].
    right. right. right. exists t', th. split; [by apply Hne|done].
  - intros t' th u Hl Hin. destruct (Hold _ _ Hl) as [[-> ->]|Hl']; [by apply elem_of_nil in Hin|].
    destruct (H11 t' th u Hl' Hin) as (? & tc & Htc & ? & ?). split; [done|].
    exists tc. split_and!; [by apply Hne|done..].
  - intros t' th Hl. destruct (Hold _ _ Hl) as [[-> ->]|Hl']; [constructor|by eapply H12].
  - intros u th Hl Hd. destruct (Hold _ _ Hl) as [[-> ->]|Hl']; [done|by apply H13].
  - intros u [= <-]. split; [intros E; cbn in E; rewrite E in Ht; destruct H4; congruence|].
    split; [apply Hstat; by left|]. split.
    + intros s sm Hsm Hin. destruct (H9 s sm t Hsm Hin) as (_ & ? & ? & ? & ? & _). congruence.
    + intros t' th Hl Hin. destruct (Hold _ _ Hl) as [[-> ->]|Hl']; [by apply elem_of_nil in Hin|].
      destruct (H11 t' th t Hl' Hin) as (_ & ? & ? & _). congruence.
  - cbn. apply NoDup_app. split; [done|]. split; [|apply NoDup_singleton].
    intros u Hu Hu2. apply list_elem_of_singleton in Hu2. subst.
    apply H16 in Hu as (? & Hu & _). by apply Hlive in Hu.
  - intros u. cbn [all_list k' born set_all]. rewrite elem_of_app, list_elem_of_singleton, H16.
    split.
    + intros [(st & Hu & Hd)| ->]; [exists st|exists THREAD_BLOCKED]; (split; [apply Hstat|done]); [right|by left].
      split; [by eapply Hlive|done].
    + intros (st & Hu & Hd). apply Hstat in Hu as [[-> _]|[_ Hu]]; [by right|left; by exists st].
Qed.

(** New frames for the running thread. *)
Section Stack.
Variables (k : K) (ex : option Z) (th : thread) (fr : list frame).
Hypothesis Hs : sched k true ex.
Hypothesis Hc : threads k !! current k = Some th.

Abbreviation k' := (with_stack fr th k).

Lemma stack_status u st : is_status k' u st <-> is_status k u st.
Proof.
  change k' with (set_threads (<[current k := with_frames fr th]> (threads k)) k).
  rewrite is_status_insert. split.
  - intros [[-> <-]|[_ ?]]; [by exists th|done].
  - intros (thu & Hu & Hst). destruct (decide (u = current k)) as [->|]; [left|right; by split; [|exists thu]].
    split; [done|]. cbn. congruence.
Qed.

Lemma stack_current : threads k' !! current k = Some (with_frames fr th).
Proof. cbn. by rewrite lookup_insert_eq. Qed.

Lemma stack_other u : u <> current k -> threads k' !! u = threads k !! u.
Proof. intros Hu. cbn. by rewrite lookup_insert_ne. Qed.

Lemma stack_blocked u thu : threads k !! u = Some thu -> status thu = THREAD_BLOCKED -> threads k' !! u = Some thu.
Proof.
  intros Hu Hb. rewrite stack_other; [done|]. intros ->.
  destruct (current_running k ex Hs) as (? & ? & ?). congruence.
Qed.

Lemma stack_old u thu : threads k' !! u = Some thu ->
  u = current k /\ thu = with_frames fr th \/ u <> current k /\ threads k !! u = Some thu.
Proof. intros Hu. cbn in Hu. apply lookup_insert_Some in Hu as [[<- <-]|[Hn Hu]]; [by left|by right]. Qed.

Lemma stack_not_current u : is_status k u THREAD_BLOCKED -> u <> current k.
Proof. intros (? & ? & ?) ->. destruct (current_running k ex Hs) as (? & ? & ?). congruence. Qed.

(** What does not depend on the threads being created. *)
Lemma sched_stack_from ex' :
  (forall t, is_status k t THREAD_BLOCKED -> ex' = Some t \/ t = idle_thread k \/
    (exists s sm, semas k !! s = Some sm /\ t ∈ waiters sm) \/
    (exists t' th', threads k' !! t' = Some th' /\ t ∈ created (frames th'))) ->
  (forall t' th' t, threads k' !! t' = Some th' -> t ∈ created (frames th') ->
    t <> idle_thread k /\ exists th, threads k !! t = Some th /\ status th = THREAD_BLOCKED /\
      frames th = [FStart t']) ->
  (forall t' th', threads k' !! t' = Some th' -> NoDup (created (frames th'))) ->
  (forall t, ex' = Some t -> t <> idle_thread k /\ is_status k t THREAD_BLOCKED /\
    (forall s sm, semas k !! s = Some sm -> t ∉ waiters sm) /\
    (forall t' th', threads k' !! t' = Some th' -> t ∉ created (frames th'))) ->
  sched k' true ex'.
Proof.
  intros Hb Hcr Hone Hex. destruct (current_running k ex Hs) as (thc & Hc' & Hrun).
  assert (thc = th) as -> by congruence.
  destruct Hs as [H1 H2 H3 H4 H5 H6 H7 H8 H9 H10 H11 H12 H13 H14 H15 H16 H17].
  split; try done.
  - exists (with_frames fr th). split; [apply stack_current|done].
  - intros u Hu. by apply H2, stack_status.
  - intros u thu [[-> ->]|[_ Hu]]%stack_old; [by apply (H3 (current k) th)|by apply H3].
  - cbn. apply lookup_insert_is_Some'. by right.
  - intros u Hu. rewrite stack_status. by apply H6.
  - intros u. rewrite stack_status. apply H7.
  - intros s sm u Hsm Hin. destruct (H9 s sm u Hsm Hin) as (? & thu & o & f & Hu & ? & ?). split; [done|].
    exists thu, o, f. split; [by apply stack_blocked|done].
  - intros u Hu%stack_status. by apply Hb.
  - intros t' th' u Hl Hin. destruct (Hcr t' th' u Hl Hin) as (? & tc & Htc & ? & ?). split; [done|].
    exists tc. split; [by apply stack_blocked|done].
  - intros u thu [[-> ->]|[_ Hu]]%stack_old Hd; [cbn in Hd; congruence|by apply H13].
  - intros t Ht. rewrite stack_status. by apply Hex.
  - intros u. setoid_rewrite stack_status. apply H16.
Qed.

(** A thread that the frames [f] have, but not [th], or the other way round. *)
Lemma stack_creators t' tht t : threads k !! t' = Some tht -> t ∈ created (frames tht) ->
  (t' = current k -> t ∈ created fr) -> exists t' th', threads k' !! t' = Some th' /\ t ∈ created (frames th').
Proof.
  intros Hl Hin Hcur. destruct (decide (t' = current k)) as [E|Hn].
  - exists (current k), (with_frames fr th). split; [apply stack_current|by apply Hcur].
  - exists t', tht. by rewrite stack_other.
Qed.
End Stack.

(** The creator's frames take the new thread up. *)
Lemma sched_adopt k t th fr : unborn t k -> threads k !! current k = Some th ->
  created fr = t :: created (frames th) -> sched (with_stack fr th k) true None.
Proof.
  intros [Hs (tht & Ht & Hft)] Hc Efr.
  destruct (sc_ex _ _ _ Hs t eq_refl) as (Hni & (th0 & Ht0 & Hb) & Hw & Hcr).
  assert (th0 = tht) as -> by congruence.
  apply (sched_stack_from k (Some t) th fr Hs Hc); [| | |done].
  - intros u Hu. right. destruct (sc_blocked _ _ _ Hs u Hu) as [[= <-]|[?|[?|(t' & tht' & Hl & Hin)]]];
      [|by left|by right; left|]; right; right.
    + exists (current k), (with_frames fr th). split; [apply stack_current|cbn; rewrite Efr; inl].
    + apply (stack_creators k th fr t' tht'); [done|done|]. intros ->. rewrite Efr. apply elem_of_cons. right. congruence.
  - intros t' th' u [[-> ->]|[Hn Hl]]%stack_old Hin; [|by apply (sc_created _ _ _ Hs t' th')].
    cbn in Hin. rewrite Efr in Hin. apply elem_of_cons in Hin as [->|Hin]; [|by apply (sc_created _ _ _ Hs _ th)].
    split; [done|]. by exists tht.
  - intros t' th' [[-> ->]|[Hn Hl]]%stack_old; [|by eapply (sc_created_one _ _ _ Hs)].
    cbn. rewrite Efr. apply NoDup_cons. split; [by apply (Hcr _ _ Hc)|by eapply (sc_created_one _ _ _ Hs)].
Qed.

(** Such a frame is taken off. *)
Lemma sched_orphan k t th fr : sched k true None -> threads k !! current k = Some th ->
  created (frames th) = t :: created fr -> unborn t (with_stack fr th k).
Proof.
  intros Hs Hc Efr. destruct (sc_created _ _ _ Hs _ _ t Hc) as (Hni & tht & Ht & Hb & Hft); [rewrite Efr; inl|].
  assert (is_status k t THREAD_BLOCKED) as Htb by (by exists tht).
  pose proof (sc_created_one _ _ _ Hs _ _ Hc) as Hnd. rewrite Efr in Hnd. apply NoDup_cons in Hnd as [Htn Hnd].
  assert (forall u, u ∈ created fr -> u ∈ created (frames th)) as Hsub.
  { intros u Hu. rewrite Efr. apply elem_of_cons. by right. }
  split; [|exists tht; split; [by apply (stack_blocked k None)|done]].
  apply (sched_stack_from k None th fr Hs Hc).
  - intros u Hu. destruct (sc_blocked _ _ _ Hs u Hu) as [?|[?|[?|(t' & tht' & Hl & Hin)]]];
      [done|by right; left|by right; right; left|].
    destruct (decide (u = t)) as [->|Hne]; [by left|]. right. right. right.
    apply (stack_creators k th fr t' tht'); [done|done|]. intros ->.
    assert (tht' = th) as -> by congruence. rewrite Efr in Hin. by apply elem_of_cons in Hin as [?|?].
  - intros t' th' u [[-> ->]|[Hn Hl]]%stack_old Hin; [|by apply (sc_created _ _ _ Hs t' th')].
    apply (sc_created _ _ _ Hs _ th); [done|by apply Hsub].
  - intros t' th' [[-> ->]|[Hn Hl]]%stack_old; [done|by eapply (sc_created_one _ _ _ Hs)].
  - intros u [= <-]. split; [done|]. split; [done|]. split.
    + intros s sm Hsm Hin. destruct (sc_wait _ _ _ Hs s sm t Hsm Hin) as (_ & th0 & o & f & ? & _ & ?). congruence.
    + intros t' th' [[-> ->]|[Hn Hl]]%stack_old Hin; [done|].
      destruct (sc_created _ _ _ Hs t' th' t Hl Hin) as (_ & tc & Htc & _ & Hfc). congruence.
Qed.

(** ** Changes the invariant does not see *)

Ltac quiet :=
  match goal with Hs : sched ?k ?r ?ex |- sched _ ?r ?ex => apply (sched_same k _ r ex); [|exact Hs] end;
  split; try done; eauto.

Lemma sched_intr k r ex a b c : sched k r ex -> sched (set_intr a b c k) r ex.
Proof. intros Hs. quiet. Qed.
Lemma sched_ticks k r ex a b c d : sched k r ex -> sched (set_ticks a b c d k) r ex.
Proof. intros Hs. quiet. Qed.
Lemma sched_next_tid k r ex n : sched k r ex -> sched (set_next_tid n k) r ex.
Proof. intros Hs. quiet. Qed.
Lemma sched_lock k r ex l lk : sched k r ex -> sched (with_lock l lk k) r ex.
Proof. intros Hs. quiet. Qed.
Lemma sched_cond k r ex c ws : sched k r ex -> sched (with_cond c ws k) r ex.
Proof. intros Hs. quiet. Qed.

(** Another value of a semaphore. *)
Lemma sched_value k r ex s sm v : sched k r ex -> semas k !! s = Some sm ->
  sched (with_sema s (mk_sema v (waiters sm)) k) r ex.
Proof.
  intros Hs Hsm. apply (sched_same k); [|done]. split; try done; cbn.
  - intros s' sm' H. right. apply lookup_insert_Some in H as [[<- <-]|[_ H]]; eauto.
  - intros s' sm' H Hw. destruct (decide (s' = s)) as [->|Hn].
    + eexists. rewrite lookup_insert_eq. split; [done|]. cbn. congruence.
    + exists sm'. by rewrite lookup_insert_ne.
  - intros s' Hn Hs'. destruct (decide (s' = s)) as [->|]; [congruence|]. by rewrite lookup_insert_ne.
Qed.

(** A new semaphore. *)
Lemma sched_new_sema k r ex v : sched k r ex ->
  sched (with_sema (next_addr k) (mk_sema v []) (set_next_addr (next_addr k + 1) k)) r ex.
Proof.
  intros Hs. pose proof (sc_fresh _ _ _ Hs (next_addr k)) as Hf.
  apply (sched_same k); [|done]. split; try done; cbn.
  - lia.
  - intros s' sm' H. apply lookup_insert_Some in H as [[<- <-]|[_ H]]; eauto.
  - intros s' sm' H Hw. destruct (decide (s' = next_addr k)) as [->|Hn].
    + rewrite Hf in H; [done|lia].
    + exists sm'. by rewrite lookup_insert_ne.
  - intros s' Hn Hs'. rewrite lookup_insert_ne; [done|lia].
Qed.

Lemma sched_stack k ex fr th : sched k true ex -> threads k !! current k = Some th ->
  created fr = created (frames th) -> sched (with_stack fr th k) true ex.
Proof. apply sched_frames. Qed.

(** ** Operations that switch *)

Lemma schedule_keeps k a k' : sched k false None -> schedule k = Done (a, k') ->
  switched k k' /\ sched k' true None.
Proof.
  intros Hs H. destruct (intr_on k) eqn:Ei.
  - exfalso. unfold schedule, running_thread in H. destruct (next_thread_run k) as (next & l & _ & Hn).
    apply bind_done_inv in H as (? & ? & [-> ->]%gets_inv & H).
    rewrite (bind_done _ _ _ _ _ Hn) in H.
    apply bind_done_inv in H as (? & ? & [Hi _]%intr_off_inv & H). cbn in Hi. congruence.
  - destruct (schedule_switched k Hs Ei) as (k1 & H1 & Hsw). rewrite H1 in H. injection H as _ <-.
    split; [done|]. by eapply sched_switched.
Qed.

Lemma sched_sleeping k s sm old th : sched k true None -> semas k !! s = Some sm ->
  threads k !! current k = Some th -> current k <> idle_thread k -> sched (sleeping s sm old th k) false None.
Proof.
  intros Hs Hsm Ht Hni. eapply (sched_leave k); [done|done|reflexivity|done..| | |].
  - left. by split.
  - right. exists s, sm, old, (frames th). by split_and!.
  - by left.
Qed.

Lemma sched_yielding k th old : sched k true None -> threads k !! current k = Some th ->
  sched (with_thread (current k) (with_status THREAD_READY (with_frames (FYield old :: frames th) th))
    (set_ready (if current k =? idle_thread k then ready_list k else ready_list k ++ [current k])
      (with_intr false k))) false None.
Proof.
  intros Hs Ht. eapply (sched_leave k); [done|done|reflexivity|done..| | |].
  - cbn. destruct (Z.eqb_spec (current k) (idle_thread k)); [left|right]; by split_and!.
  - by left.
  - by left.
Qed.

Lemma sched_idling k th : sched k true None -> threads k !! current k = Some th ->
  current k = idle_thread k -> sched (with_thread (current k) (with_status THREAD_BLOCKED th) k) false None.
Proof.
  intros Hs Ht Hi. eapply (sched_leave k); [done|done|reflexivity|done..| | |].
  - left. by split.
  - by left.
  - by left.
Qed.

Lemma sched_dying k th : sched k true None -> threads k !! current k = Some th ->
  current k <> idle_thread k -> frames th = [] ->
  sched (with_thread (current k) (with_status THREAD_DYING th)
    (set_all (filter (fun x => x <> current k) (all_list k)) (with_intr false k))) false None.
Proof.
  intros Hs Ht Hi Hf. eapply (sched_leave k); [done|done|reflexivity|done..| | |].
  - left. by split.
  - left. by split.
  - right. by split_and!.
Qed.
