(* ===== verification/KernelSteps.v ===== *)
(** * Interleavings of the kernel's threads

    [step]: the running thread takes up its unfinished call, makes a new one, is
    idle, or is interrupted by the timer.  Every state reachable from one that
    satisfies [kinv] satisfies it: the scheduler's invariant holds between any two
    steps of any interleaving, and the idle thread never sleeps on a semaphore. *)

From S2P Require Import Prelude KList Kernel KernelRuns Sched.

(** ** The frames of a thread *)

Definition frames_of (k : K) (t : Z) : list frame :=
  match threads k !! t with Some th => frames th | None => [] end.

Lemma frames_of_same k k' : threads k' = threads k -> forall u, frames_of k' u = frames_of k u.
Proof. intros E u. unfold frames_of. by rewrite E. Qed.

Lemma frames_of_thread k t th u : frames_of (with_thread t th k) u =
  if decide (u = t) then frames th else frames_of k u.
Proof.
  unfold frames_of. cbn. destruct (decide (u = t)) as [->|].
  - by rewrite lookup_insert_eq.
  - by rewrite lookup_insert_ne.
Qed.

Lemma frames_of_keep k t th th' u : threads k !! t = Some th -> frames th' = frames th ->
  frames_of (with_thread t th' k) u = frames_of k u.
Proof.
  intros Ht E. rewrite frames_of_thread. destruct (decide (u = t)) as [->|]; [|done].
  unfold frames_of. by rewrite Ht.
Qed.

Lemma frames_of_stack k fr th u : frames_of (with_stack fr th k) u =
  if decide (u = current k) then fr else frames_of k u.
Proof. apply frames_of_thread. Qed.

Lemma frames_of_switched k k' : sched k false None -> switched k k' -> forall u, frames_of k' u = frames_of k u.
Proof.
  intros Hs Hsw u. unfold frames_of. destruct (threads k' !! u) as [th'|] eqn:E'.
  - destruct (sw_threads _ _ Hsw _ _ E') as (th & -> & _ & ? & _). done.
  - destruct (threads k !! u) as [th|] eqn:E; [|done]. destruct (decide (status th = THREAD_DYING)) as [Hd|Hd].
    + by destruct (sc_dying _ _ _ Hs _ _ E Hd) as [-> _].
    + destruct (sw_alive _ _ Hsw _ _ E Hd) as (th' & ? & _). congruence.
Qed.

(** ** Steps *)

(** The semaphore of a lock. *)
Definition lsema_of (k : K) (l : Z) : option Z := l_sema <$> locks k !! l.
Definition lock_sema (k : K) (s : Z) : Prop := exists l, lsema_of k l = Some s.

(** What callers do: a lock's semaphore is used through the lock; a page that
    palloc.c gives holds no thread. *)
Definition allowed (c : call) (k : K) : Prop :=
  match c with
  | CSemaDown s | CSemaUp s | CSemaTryDown s => ~ lock_sema k s
  | CCreate (Some t) _ _ => threads k !! t = None
  | _ => True
  end.

Inductive step (k k' : K) : Prop :=
  | step_call c : frames_of k (current k) = [] -> current k <> idle_thread k -> allowed c k ->
      run_call c k = Done (tt, k') -> step k k'
  | step_resume : frames_of k (current k) <> [] -> resume k = Done (tt, k') -> step k k'
  | step_idle : frames_of k (current k) = [] -> current k = idle_thread k ->
      idle_step k = Done (tt, k') -> step k k'
  | step_timer : timer_interrupt k = Done (tt, k') -> step k k'.

Definition steps : K -> K -> Prop := rtc step.

(** ** The invariant *)

(** Frames of a thread that never sleeps on a semaphore. *)
Definition idle_frame (f : frame) : Prop :=
  match f with FStart _ | FYield _ | FIret => True | _ => False end.

Record kinv (k : K) : Prop := {
  ki_sched : sched k true None;
  ki_idle : Forall idle_frame (frames_of k (idle_thread k))
}.

Lemma timer_interrupt_inv k a k' : timer_interrupt k = Done (a, k') ->
  exists th k1, threads k !! current k = Some th /\ intr_on k = true /\
    (exists n i kt u y, k1 = set_ticks n i kt u (set_intr false false y (with_stack (FIret :: frames th) th k))) /\
    (k' = k1 \/ thread_yield k1 = Done (a, k')).
Proof.
  unfold timer_interrupt. intros H.
  apply bind_done_inv in H as (on & ? & [-> ->]%gets_inv & H).
  apply bind_done_inv in H as (? & ? & [Hon ->]%assert_inv & H).
  apply bind_done_inv in H as (? & ? & (th & Ht & ->)%push_frame_inv & H).
  apply bind_done_inv in H as (? & ? & ->%modify_inv & H).
  apply bind_done_inv in H as (? & ? & (n & i & kt & u & y & ->)%thread_tick_inv & H).
  apply bind_done_inv in H as (? & ? & ->%modify_inv & H).
  apply bind_done_inv in H as (? & ? & [-> ->]%gets_inv & H).
  exists th. eexists. split; [done|]. split; [done|]. split; [by exists n, i, kt, u, y|].
  cbn in H. destruct y; [by right|]. apply ret_inv in H as [_ ->]. by left.
Qed.

(** [resume] takes the innermost frame off and runs it. *)
Lemma resume_inv k a k' : resume k = Done (a, k') -> frames_of k (current k) <> [] ->
  exists th f fr, threads k !! current k = Some th /\ frames th = f :: fr /\
    resume_frame f (with_stack fr th k) = Done (a, k').
Proof.
  unfold resume, frames_of. intros H Hf.
  apply bind_done_inv in H as (t & ? & [-> ->]%gets_inv & H).
  apply bind_done_inv in H as (th & ? & [Ht ->]%get_thread_inv & H). rewrite Ht in Hf.
  destruct (frames th) as [|f fr] eqn:E; [done|].
  apply bind_done_inv in H as (? & ? & ->%put_thread_inv & H). by exists th, f, fr.
Qed.

Lemma idle_step_inv k a k' : idle_step k = Done (a, k') ->
  exists th, threads k !! current k = Some th /\
    schedule (with_thread (current k) (with_status THREAD_BLOCKED (with_frames (FYield true :: frames th) th))
      (with_intr false k)) = Done (a, k').
Proof.
  unfold idle_step. intros H.
  apply bind_done_inv in H as (? & ? & [-> ->]%intr_disable_inv & H).
  apply bind_done_inv in H as (? & ? & (th & Ht & ->)%push_frame_inv & H).
  apply thread_block_inv in H as (_ & _ & th' & Ht' & _ & H). cbn in Ht'.
  rewrite lookup_insert_eq in Ht'. simplify_eq. exists th. split; [done|].
  revert H. change (current (with_stack ?f ?t (with_intr false k))) with (current k).
  change (with_stack (FYield true :: frames th) th (with_intr false k)) with
    (with_thread (current k) (with_frames (FYield true :: frames th) th) (with_intr false k)).
  by rewrite with_thread_twice.
Qed.

(** ** The operations keep the scheduler's invariant *)

Section Keep.
Variable k : K.
Hypothesis Hs : sched k true None.

Lemma keep_sema_down_loop s old a k' : current k <> idle_thread k ->
  sema_down_loop s old k = Done (a, k') -> sched k' true None.
Proof.
  intros Hni H. apply sema_down_loop_inv in H as (sm & Hsm & [(_ & ->)|(_ & th & Ht & _ & _ & H)]).
  - by apply sched_intr, sched_value.
  - eapply schedule_keeps; [|exact H]. by apply sched_sleeping.
Qed.

Lemma keep_sema_up s a k' : sema_up s k = Done (a, k') -> sched k' true None.
Proof.
  intros H. apply sema_up_inv in H as (sm & Hsm & [(Hw & ->)|(t & ws & th & Hw & Ht & _ & ->)]).
  - rewrite <- Hw. by apply sched_value.
  - destruct (sched_pop_waiter k s sm t ws Hs Hsm Hw) as [Hp _].
    pose proof (sched_unblock _ t th th Hp Ht eq_refl eq_refl) as Hu.
    apply (sched_value _ _ _ s (mk_sema (value sm) ws) (u32 (value sm + 1))) in Hu.
    + replace (with_sema s _ (made_ready t th k)) with
        (with_sema s (mk_sema (u32 (value sm + 1)) ws) (made_ready t th (with_sema s (mk_sema (value sm) ws) k)));
        [exact Hu|].
      destruct k. unfold made_ready, with_thread, with_sema. unfold set_semas at 1. cbn. by rewrite insert_insert_eq.
    + cbn. by rewrite lookup_insert_eq.
Qed.

Lemma keep_lock_acquire l a k' : lock_acquire l k = Done (a, k') -> sched k' true None.
Proof. intros H. apply lock_acquire_inv in H as (lk & th & _ & _ & Ht & _ & ->). by apply sched_stack. Qed.

Lemma keep_lock_release l a k' : lock_release l k = Done (a, k') -> sched k' true None.
Proof.
  intros H. apply lock_release_inv in H as (lk & th & _ & _ & Ht & ->).
  apply sched_stack; [by apply sched_lock|done|done].
Qed.

Lemma keep_yield a k' : thread_yield k = Done (a, k') -> sched k' true None.
Proof.
  intros H. apply thread_yield_inv in H as (th & Ht & _ & _ & H).
  eapply schedule_keeps; [|exact H]. by apply sched_yielding.
Qed.

Lemma keep_broadcast c l a k' : cond_broadcast c l k = Done (a, k') -> sched k' true None.
Proof.
  intros H. apply cond_broadcast_inv in H as (ws & _ & [(_ & ->)|(w & ws' & lk & th & _ & _ & _ & Ht & ->)]); [done|].
  apply sched_stack; [by apply sched_cond|done|done].
Qed.

Lemma keep_call c a k' : frames_of k (current k) = [] -> current k <> idle_thread k -> allowed c k ->
  run_call c k = Done (a, k') -> sched k' true None.
Proof.
  intros Hf Hni Ha H. destruct c; cbn [run_call] in H.
  - apply push_frame_inv in H as (th & Ht & ->). by apply sched_stack.
  - apply push_frame_inv in H as (th & Ht & ->). by apply sched_stack.
  - apply bind_done_inv in H as (b & ? & (sm & Hsm & [(_ & _ & ->)|(_ & _ & ->)])%sema_try_down_inv & H);
      apply ret_inv in H as [_ ->]; [by apply sched_value|done].
  - by eapply keep_lock_acquire.
  - apply lock_try_acquire_inv in H as (lk & sm & _ & _ & Hsm & [(_ & ->)|(_ & th & Ht & ->)]); [done|].
    apply sched_stack; [by apply sched_value|done|done].
  - by eapply keep_lock_release.
  - apply cond_wait_inv in H as (ws & lk & th & _ & _ & _ & Ht & ->).
    apply sched_stack; [by apply sched_lock, sched_cond, sched_new_sema|done|done].
  - apply cond_signal_inv in H as (ws & lk & _ & _ & _ & [(_ & ->)|(w & ws' & th & _ & Ht & ->)]); [done|].
    apply sched_stack; [by apply sched_cond|done|done].
  - by eapply keep_broadcast.
  - by eapply keep_yield.
  - apply thread_exit_inv in H as (th & Ht & _ & H). eapply schedule_keeps; [|exact H].
    apply sched_dying; try done. unfold frames_of in Hf. by rewrite Ht in Hf.
  - apply set_priority_inv in H as (th & Ht & ->). by eapply sched_current.
  - apply thread_create_inv in H as [(_ & ->)|(t & lk & th & -> & H0 & Ht & _ & ->)]; [done|].
    cbn in Ha. by apply (sched_adopt _ t); [apply sched_born| |].
Qed.
End Keep.

Lemma created_cons f fr : created (f :: fr) = created [f] ++ created fr.
Proof. by destruct f. Qed.

(** Taking up the frame of a thread's creation. *)
Lemma keep_creation k f fr th t a k' : sched k true None -> threads k !! current k = Some th ->
  frames th = f :: fr -> created [f] = [t] -> resume_frame f (with_stack fr th k) = Done (a, k') ->
  sched k' true None.
Proof.
  intros Hs Ht Hf Ec H.
  assert (created (frames th) = t :: created fr) as Efr by (rewrite Hf, created_cons, Ec; done).
  pose proof (sched_orphan k t th fr Hs Ht Efr) as Hu. pose proof Hu as [Hse (tht & Htt & Hft)].
  destruct f; try discriminate Ec; cbn [resume_frame] in H; injection Ec as ->.
  - apply take_tid_inv in H as (lk & thc & _ & _ & Hc & ->).
    apply (sched_adopt _ t); [|done|].
    + split; [by apply sched_lock, sched_next_tid|]. by exists tht.
    + done.
  - apply finish_create_inv in H as (c & k1 & tht' & Hc & Ek & Htt' & _ & ->).
    apply (sched_unblock _ t tht'); [|done..]. rewrite Ek. by apply sched_stack.
Qed.

(** Taking up any frame. *)
Lemma keep_resume k a k' : kinv k -> frames_of k (current k) <> [] -> resume k = Done (a, k') ->
  sched k' true None.
Proof.
  intros [Hs Hi] Hne H. apply resume_inv in H as (th & f & fr & Ht & Hf & H); [|done].
  assert (idle_frame f \/ current k <> idle_thread k) as Hor.
  { destruct (decide (current k = idle_thread k)) as [E|]; [left|by right].
    rewrite <- E in Hi. unfold frames_of in Hi. rewrite Ht, Hf in Hi. by inversion Hi. }
  destruct (created [f]) as [|t [|]] eqn:Ec; [|by eapply keep_creation|by destruct f].
  assert (sched (with_stack fr th k) true None) as Hp.
  { apply sched_stack; [done|done|]. by rewrite Hf, created_cons, Ec. }
  destruct f; try discriminate Ec; cbn [resume_frame] in H.
  - apply bind_done_inv in H as (? & ? & ->%intr_enable_inv & H). apply ret_inv in H as [_ ->]. by apply sched_intr.
  - apply sema_down_inv in H as [_ H]. destruct Hor as [[]|Hni].
    refine (keep_sema_down_loop _ _ s _ a k' _ H); [by apply sched_intr|exact Hni].
  - destruct Hor as [[]|Hni]. refine (keep_sema_down_loop _ Hp s _ a k' _ H). exact Hni.
  - by eapply keep_sema_up.
  - apply set_holder_inv in H as (lk & _ & ->). by apply sched_lock.
  - by eapply keep_lock_acquire.
  - by eapply keep_broadcast.
  - by apply bind_done_inv in H as (? & ? & [_ ->]%get_thread_inv & [_ ->]%ret_inv).
  - apply bind_done_inv in H as (? & ? & ->%intr_set_level_inv & H). apply ret_inv in H as [_ ->]. by apply sched_intr.
  - apply modify_inv in H as ->. by apply sched_intr.
Qed.

Lemma sched_idle_block k th : sched k true None -> threads k !! current k = Some th -> current k = idle_thread k ->
  sched (with_thread (current k) (with_status THREAD_BLOCKED (with_frames (FYield true :: frames th) th))
    (with_intr false k)) false None.
Proof.
  intros Hs Ht Hi.
  assert (sched (with_stack (FYield true :: frames th) th (with_intr false k)) true None) as Hp.
  { apply sched_stack; [by apply sched_intr|done|done]. }
  eapply (sched_idling _ (with_frames (FYield true :: frames th) th)) in Hp; [|cbn; by rewrite lookup_insert_eq|done].
  revert Hp. change (current (with_stack ?f ?t (with_intr false k))) with (current k).
  change (with_stack (FYield true :: frames th) th (with_intr false k)) with
    (with_thread (current k) (with_frames (FYield true :: frames th) th) (with_intr false k)).
  by rewrite with_thread_twice.
Qed.

Lemma keep_idle k a k' : sched k true None -> current k = idle_thread k -> idle_step k = Done (a, k') ->
  sched k' true None.
Proof.
  intros Hs Hi H. apply idle_step_inv in H as (th & Ht & H). eapply schedule_keeps; [|exact H].
  by apply sched_idle_block.
Qed.

Lemma keep_timer k a k' : sched k true None -> timer_interrupt k = Done (a, k') -> sched k' true None.
Proof.
  intros Hs H. apply timer_interrupt_inv in H as (th & k1 & Ht & _ & (n & i & kt & u & y & ->) & Hor).
  assert (sched (set_ticks n i kt u (set_intr false false y (with_stack (FIret :: frames th) th k))) true None) as Hp.
  { by apply sched_ticks, sched_intr, sched_stack. }
  destruct Hor as [->|H]; [done|]. by eapply keep_yield.
Qed.

Lemma step_sched k k' : kinv k -> step k k' -> sched k' true None.
Proof.
  intros Hk [c Hf Hni Ha H|Hf H|Hf Hi H|H].
  - by eapply keep_call; [apply Hk|..].
  - by eapply keep_resume.
  - by eapply keep_idle; [apply Hk|..].
  - by eapply keep_timer; [apply Hk|..].
Qed.

(** ** What an operation does to frames, values, locks and condition variables *)

Definition val_of (k : K) (s : Z) : option Z := value <$> semas k !! s.

(** [f] with the value [v] at [s]. *)
Definition upd (s v : Z) (f : Z -> option Z) : Z -> option Z := fun s' => if decide (s' = s) then Some v else f s'.

(** The running thread's frames become [fr]; another thread keeps its frames, and
    a new one starts with [FStart]; the values of the semaphores become [vs], the
    locks [ls] and the condition variables [cs]. *)
Record eff (k k' : K) (fr : list frame) (vs : Z -> option Z) (ls : gmap Z lock) (cs : gmap Z (list Z)) : Prop := {
  e_idle : idle_thread k' = idle_thread k;
  e_tid : tid_lock k' = tid_lock k;
  e_cur : frames_of k' (current k) = fr;
  e_other : forall u, u <> current k -> frames_of k' u = frames_of k u \/
    frames_of k u = [] /\ exists x, frames_of k' u = [FStart x];
  e_vals : forall s, val_of k' s = vs s;
  e_locks : locks k' = ls;
  e_conds : conds k' = cs
}.

Section Eff.
Variables (k k1 : K) (fr : list frame) (vs : Z -> option Z) (ls : gmap Z lock) (cs : gmap Z (list Z)).

Lemma eff_refl : eff k k (frames_of k (current k)) (val_of k) (locks k) (conds k).
Proof. split; auto. Qed.

Hypothesis He : eff k k1 fr vs ls cs.

Lemma eff_trans k' fr' vs' ls' cs' : current k1 = current k -> eff k1 k' fr' vs' ls' cs' -> eff k k' fr' vs' ls' cs'.
Proof.
  destruct He as [E1 E2 E3 E4 _ _ _]. intros Ec [E1' E2' E3' E4' ? ? ?]. rewrite Ec in *.
  split; try done; [congruence..|].
  intros u Hu. destruct (E4 u Hu) as [E|(E & x & Ex)], (E4' u Hu) as [E'|(E' & y & Ey)].
  - left. congruence.
  - right. split; [congruence|by exists y].
  - right. split; [done|]. exists x. congruence.
  - congruence.
Qed.

Lemma eff_threads k' : idle_thread k' = idle_thread k1 -> tid_lock k' = tid_lock k1 ->
  semas k' = semas k1 -> locks k' = locks k1 -> conds k' = conds k1 ->
  (forall u, frames_of k' u = frames_of k1 u) -> eff k k' fr vs ls cs.
Proof.
  destruct He as [E1 E2 E3 E4 E5 E6 E7]. intros Ei Et Es El Ec Ef. split; try congruence; try by rewrite Ef.
  - intros u Hu. rewrite Ef. by apply E4.
  - intros s. unfold val_of. rewrite Es. apply E5.
Qed.

Lemma eff_quiet k' : threads k' = threads k1 -> idle_thread k' = idle_thread k1 -> tid_lock k' = tid_lock k1 ->
  semas k' = semas k1 -> locks k' = locks k1 -> conds k' = conds k1 -> eff k k' fr vs ls cs.
Proof. intros E **. apply eff_threads; try done. by apply frames_of_same. Qed.

Lemma eff_intr a b c : eff k (set_intr a b c k1) fr vs ls cs.
Proof. by apply eff_quiet. Qed.
Lemma eff_ticks a b c d : eff k (set_ticks a b c d k1) fr vs ls cs.
Proof. by apply eff_quiet. Qed.
Lemma eff_next_tid n : eff k (set_next_tid n k1) fr vs ls cs.
Proof. by apply eff_quiet. Qed.
Lemma eff_next_addr n : eff k (set_next_addr n k1) fr vs ls cs.
Proof. by apply eff_quiet. Qed.

Lemma eff_stack fr' th : current k1 = current k -> eff k (with_stack fr' th k1) fr' vs ls cs.
Proof.
  destruct He as [E1 E2 E3 E4 E5 E6 E7]. intros Ec. split; try done.
  - by rewrite frames_of_stack, Ec, decide_True.
  - intros u Hu. rewrite frames_of_stack, Ec, decide_False by done. by apply E4.
Qed.

Lemma eff_ready t th th' : threads k1 !! t = Some th -> frames th' = frames th ->
  eff k (made_ready t th' k1) fr vs ls cs.
Proof.
  intros Ht Ef. apply eff_threads; [done..|]. intros u. unfold made_ready. by rewrite (frames_of_keep _ t th).
Qed.

Lemma eff_switched k' : sched k1 false None -> switched k1 k' -> eff k k' fr vs ls cs.
Proof. intros Hs Hsw. apply eff_threads; try apply Hsw. by apply frames_of_switched. Qed.

Lemma eff_sema s v ws : eff k (with_sema s (mk_sema v ws) k1) fr (upd s v vs) ls cs.
Proof.
  destruct He as [E1 E2 E3 E4 E5 E6 E7]. split; try done.
  intros s'. unfold val_of, upd. cbn. destruct (decide (s' = s)) as [->|].
  - by rewrite lookup_insert_eq.
  - rewrite lookup_insert_ne by done. apply E5.
Qed.

Lemma eff_lock l lk : eff k (with_lock l lk k1) fr vs (<[l := lk]> ls) cs.
Proof. destruct He as [E1 E2 E3 E4 E5 E6 E7]. split; try done. cbn. by rewrite E6. Qed.

Lemma eff_cond c ws : eff k (with_cond c ws k1) fr vs ls (<[c := ws]> cs).
Proof. destruct He as [E1 E2 E3 E4 E5 E6 E7]. split; try done. cbn. by rewrite E7. Qed.

Lemma eff_vals vs' : (forall s, vs s = vs' s) -> eff k k1 fr vs' ls cs.
Proof. destruct He as [E1 E2 E3 E4 E5 E6 E7]. intros Hv. split; try done. intros s. by rewrite E5. Qed.
End Eff.

Lemma upd_id s v k : val_of k s = Some v -> forall s', upd s v (val_of k) s' = val_of k s'.
Proof. intros H s'. unfold upd. by destruct (decide (s' = s)) as [->|]. Qed.

Lemma eff_born k t nm prio : threads k !! t = None -> t <> current k ->
  eff k (born t nm prio k) (frames_of k (current k)) (val_of k) (locks k) (conds k).
Proof.
  intros Ht Hn. assert (forall u, frames_of (born t nm prio k) u = frames_of (with_thread t (new_thread nm prio (current k)) k) u)
    as E by done.
  split; try done.
  - by rewrite E, frames_of_thread, decide_False.
  - intros u Hu. rewrite E, frames_of_thread. destruct (decide (u = t)) as [->|]; [right|by left].
    split; [unfold frames_of; by rewrite Ht|by exists (current k)].
Qed.

Lemma frames_of_current k th : threads k !! current k = Some th -> frames_of k (current k) = frames th.
Proof. unfold frames_of. by intros ->. Qed.

(** ** The effect of each operation *)

Section Operations.
Variable k : K.
Hypothesis Hs : sched k true None.

Abbreviation F := (frames_of k (current k)).

Lemma sema_down_loop_eff s old a k' : current k <> idle_thread k -> sema_down_loop s old k = Done (a, k') ->
  exists v, val_of k s = Some v /\
   (v <> 0 /\ eff k k' F (upd s (u32 (v - 1)) (val_of k)) (locks k) (conds k) \/
    v = 0 /\ eff k k' (FSema s old :: F) (val_of k) (locks k) (conds k)).
Proof.
  intros Hni H. apply sema_down_loop_inv in H as (sm & Hsm & Hor).
  assert (val_of k s = Some (value sm)) as Hv by (unfold val_of; by rewrite Hsm).
  exists (value sm). split; [done|]. destruct Hor as [(Hn & ->)|(Hz & th & Ht & _ & _ & H)]; [left|right]; (split; [done|]).
  - apply eff_intr, eff_sema, eff_refl.
  - pose proof (sched_sleeping k s sm old th Hs Hsm Ht Hni) as Hsl.
    destruct (schedule_keeps _ _ _ Hsl H) as [Hsw _]. eapply eff_switched; [|exact Hsl|exact Hsw].
    rewrite (frames_of_current k th Ht).
    apply (eff_threads k (with_stack (FSema s old :: frames th) th (with_sema s (mk_sema (value sm) (waiters sm ++ [current k])) k)));
      [|done..|].
    + apply (eff_vals _ _ _ (upd s (value sm) (val_of k))); [|by apply upd_id].
      eapply eff_stack; [apply eff_sema, eff_refl|done].
    + intros u. unfold sleeping. by rewrite frames_of_stack, frames_of_thread.
Qed.

Lemma sema_up_eff s a k' : sema_up s k = Done (a, k') ->
  exists v, val_of k s = Some v /\ eff k k' F (upd s (u32 (v + 1)) (val_of k)) (locks k) (conds k).
Proof.
  intros H. apply sema_up_inv in H as (sm & Hsm & Hor). exists (value sm).
  split; [unfold val_of; by rewrite Hsm|]. destruct Hor as [(_ & ->)|(t & ws & th & _ & Ht & _ & ->)].
  - apply eff_sema, eff_refl.
  - apply eff_sema. by apply (eff_ready k k F _ _ _ (eff_refl k) t th).
Qed.

Lemma lock_acquire_eff l a k' : lock_acquire l k = Done (a, k') ->
  exists lk, locks k !! l = Some lk /\
    eff k k' (FDown (l_sema lk) :: FHold l :: F) (val_of k) (locks k) (conds k).
Proof.
  intros H. apply lock_acquire_inv in H as (lk & th & Hl & _ & Ht & _ & ->). exists lk. split; [done|].
  rewrite (frames_of_current k th Ht). by eapply eff_stack; [apply eff_refl|].
Qed.

Lemma lock_release_eff l a k' : lock_release l k = Done (a, k') ->
  exists lk, locks k !! l = Some lk /\ holder lk = current k /\
    eff k k' (FUp (l_sema lk) :: F) (val_of k) (<[l := mk_lock NULL (l_sema lk)]> (locks k)) (conds k).
Proof.
  intros H. apply lock_release_inv in H as (lk & th & Hl & Hh & Ht & ->). exists lk. split; [done|]. split; [done|].
  rewrite (frames_of_current k th Ht). by eapply eff_stack; [apply eff_lock, eff_refl|].
Qed.

Lemma set_holder_eff l a k' : set_holder l k = Done (a, k') ->
  exists lk, locks k !! l = Some lk /\
    eff k k' F (val_of k) (<[l := mk_lock (current k) (l_sema lk)]> (locks k)) (conds k).
Proof. intros H. apply set_holder_inv in H as (lk & Hl & ->). exists lk. split; [done|]. apply eff_lock, eff_refl. Qed.

Lemma try_acquire_eff l a k' : lock_try_acquire l k = Done (a, k') ->
  exists lk v, locks k !! l = Some lk /\ val_of k (l_sema lk) = Some v /\
   (k' = k \/ 0 < v /\ eff k k' (FHold l :: F) (upd (l_sema lk) (u32 (v - 1)) (val_of k)) (locks k) (conds k)).
Proof.
  intros H. apply lock_try_acquire_inv in H as (lk & sm & Hl & _ & Hsm & Hor). exists lk, (value sm).
  split; [done|]. split; [unfold val_of; by rewrite Hsm|].
  destruct Hor as [(_ & ->)|(Hv & th & Ht & ->)]; [by left|right]. split; [done|].
  rewrite (frames_of_current k th Ht). by eapply eff_stack; [apply eff_sema, eff_refl|].
Qed.

Lemma cond_wait_eff c l a k' : cond_wait c l k = Done (a, k') ->
  exists ws lk, conds k !! c = Some ws /\ locks k !! l = Some lk /\ holder lk = current k /\
    eff k k' (FUp (l_sema lk) :: FDown (next_addr k) :: FAcquire l :: F) (upd (next_addr k) 0 (val_of k))
      (<[l := mk_lock NULL (l_sema lk)]> (locks k)) (<[c := ws ++ [next_addr k]]> (conds k)).
Proof.
  intros H. apply cond_wait_inv in H as (ws & lk & th & Hc & Hl & Hh & Ht & ->). exists ws, lk.
  split_and!; [done..|]. rewrite (frames_of_current k th Ht).
  eapply eff_stack; [|done]. apply eff_lock. unfold cond_queued. apply eff_cond, eff_sema, eff_next_addr, eff_refl.
Qed.

Lemma cond_signal_eff c l a k' : cond_signal c l k = Done (a, k') ->
  exists ws, conds k !! c = Some ws /\
   (k' = k \/ exists w ws', ws = w :: ws' /\
      eff k k' (FUp w :: F) (val_of k) (locks k) (<[c := ws']> (conds k))).
Proof.
  intros H. apply cond_signal_inv in H as (ws & lk & Hc & _ & _ & Hor). exists ws. split; [done|].
  destruct Hor as [(_ & ->)|(w & ws' & th & -> & Ht & ->)]; [by left|right]. exists w, ws'. split; [done|].
  rewrite (frames_of_current k th Ht). by eapply eff_stack; [apply eff_cond, eff_refl|].
Qed.

Lemma cond_broadcast_eff c l a k' : cond_broadcast c l k = Done (a, k') ->
  exists ws, conds k !! c = Some ws /\
   (k' = k \/ exists w ws', ws = w :: ws' /\
      eff k k' (FUp w :: FBroadcast c l :: F) (val_of k) (locks k) (<[c := ws']> (conds k))).
Proof.
  intros H. apply cond_broadcast_inv in H as (ws & Hc & Hor). exists ws. split; [done|].
  destruct Hor as [(_ & ->)|(w & ws' & lk & th & -> & _ & _ & Ht & ->)]; [by left|right]. exists w, ws'. split; [done|].
  rewrite (frames_of_current k th Ht). by eapply eff_stack; [apply eff_cond, eff_refl|].
Qed.

Lemma thread_yield_eff a k' : thread_yield k = Done (a, k') ->
  exists b, eff k k' (FYield b :: F) (val_of k) (locks k) (conds k).
Proof.
  intros H. apply thread_yield_inv in H as (th & Ht & _ & _ & H). exists (intr_on k).
  pose proof (sched_yielding k th (intr_on k) Hs Ht) as Hsy.
  destruct (schedule_keeps _ _ _ Hsy H) as [Hsw _]. eapply eff_switched; [|exact Hsy|exact Hsw].
  rewrite (frames_of_current k th Ht).
  apply (eff_threads k (with_stack (FYield (intr_on k) :: frames th) th k)); [|done..|].
  - by eapply eff_stack; [apply eff_refl|].
  - intros u. by rewrite frames_of_stack, frames_of_thread.
Qed.

Lemma thread_exit_eff a k' : current k <> idle_thread k -> F = [] -> thread_exit k = Done (a, k') ->
  eff k k' F (val_of k) (locks k) (conds k).
Proof.
  intros Hni Hf H. apply thread_exit_inv in H as (th & Ht & _ & H).
  assert (frames th = []) as Hft by (by rewrite <- (frames_of_current k th Ht)).
  pose proof (sched_dying k th Hs Ht Hni Hft) as Hsd.
  destruct (schedule_keeps _ _ _ Hsd H) as [Hsw _]. eapply eff_switched; [|exact Hsd|exact Hsw].
  apply (eff_threads k k); [apply eff_refl|done..|]. intros u.
  transitivity (frames_of (with_thread (current k) (with_status THREAD_DYING th) k) u); [done|].
  by rewrite (frames_of_keep _ _ th).
Qed.

Lemma take_tid_eff t a k' : take_tid t k = Done (a, k') ->
  exists lk, locks k !! tid_lock k = Some lk /\ holder lk = current k /\
    eff k k' (FUp (l_sema lk) :: FCreated t (next_tid k) :: F) (val_of k)
      (<[tid_lock k := mk_lock NULL (l_sema lk)]> (locks k)) (conds k).
Proof.
  intros H. apply take_tid_inv in H as (lk & th & Hl & Hh & Ht & ->). exists lk. split_and!; [done..|].
  rewrite (frames_of_current k th Ht). eapply eff_stack; [|done]. apply eff_lock, eff_next_tid, eff_refl.
Qed.
End Operations.

(** ** The synchronization machine

    What a step does to the synchronization primitives, whatever the scheduler
    does: the specification that the lock theorems are proved against. *)

(** Frames without synchronization. *)
Definition plain (f : frame) : Prop :=
  match f with FDown _ | FSema _ _ | FHold _ | FUp _ => False | _ => True end.

Section Sync.
Variables k k' : K.

Abbreviation F := (frames_of k (current k)).
Abbreviation becomes := (eff k k').

Inductive sync : Prop :=
  | sy_plain p q r : F = p ++ r -> Forall plain p -> Forall plain q ->
      becomes (q ++ r) (val_of k) (locks k) (conds k) -> sync
  | sy_call f s : F = [] -> f = FDown s \/ f = FUp s -> ~ lock_sema k s ->
      becomes [f] (val_of k) (locks k) (conds k) -> sync
  | sy_value s v : ~ lock_sema k s -> becomes F (upd s v (val_of k)) (locks k) (conds k) -> sync
  | sy_down f s r v : F = f :: r -> f = FDown s \/ (exists o, f = FSema s o) -> val_of k s = Some v ->
      v <> 0 -> becomes r (upd s (u32 (v - 1)) (val_of k)) (locks k) (conds k) -> sync
  | sy_sleep f s o r : F = f :: r -> f = FDown s \/ (exists o, f = FSema s o) -> val_of k s = Some 0 ->
      becomes (FSema s o :: r) (val_of k) (locks k) (conds k) -> sync
  | sy_up s r v : F = FUp s :: r -> val_of k s = Some v ->
      becomes r (upd s (u32 (v + 1)) (val_of k)) (locks k) (conds k) -> sync
  | sy_hold l lk r : F = FHold l :: r -> locks k !! l = Some lk ->
      becomes r (val_of k) (<[l := mk_lock (current k) (l_sema lk)]> (locks k)) (conds k) -> sync
  | sy_acquire l lk p q r : F = p ++ r -> Forall plain p -> Forall plain q -> locks k !! l = Some lk ->
      becomes (FDown (l_sema lk) :: FHold l :: q ++ r) (val_of k) (locks k) (conds k) -> sync
  | sy_try l lk v : locks k !! l = Some lk -> val_of k (l_sema lk) = Some v -> 0 < v ->
      becomes (FHold l :: F) (upd (l_sema lk) (u32 (v - 1)) (val_of k)) (locks k) (conds k) -> sync
  | sy_release l lk p q r : F = p ++ r -> Forall plain p -> Forall plain q -> locks k !! l = Some lk ->
      holder lk = current k ->
      becomes (FUp (l_sema lk) :: q ++ r) (val_of k) (<[l := mk_lock NULL (l_sema lk)]> (locks k)) (conds k) -> sync
  | sy_wait c l lk ws : locks k !! l = Some lk -> holder lk = current k -> conds k !! c = Some ws ->
      becomes (FUp (l_sema lk) :: FDown (next_addr k) :: FAcquire l :: F) (upd (next_addr k) 0 (val_of k))
        (<[l := mk_lock NULL (l_sema lk)]> (locks k)) (<[c := ws ++ [next_addr k]]> (conds k)) -> sync
  | sy_signal c w ws p q r : F = p ++ r -> Forall plain p -> Forall plain q -> conds k !! c = Some (w :: ws) ->
      becomes (FUp w :: q ++ r) (val_of k) (locks k) (<[c := ws]> (conds k)) -> sync.

Lemma sync_eff : sync -> exists fr vs ls cs, becomes fr vs ls cs.
Proof. by intros []; eexists _, _, _, _. Qed.
End Sync.

#[export] Hint Constructors Forall : core.

Lemma step_call_sync k k' c : sched k true None -> frames_of k (current k) = [] -> current k <> idle_thread k ->
  allowed c k -> run_call c k = Done (tt, k') -> sync k k'.
Proof.
  intros Hs Hf Hni Ha H. pose proof (eff_refl k) as Hr. destruct c; cbn [run_call allowed] in H, Ha.
  - apply push_frame_inv in H as (th & Ht & ->). apply (sy_call _ _ (FDown s) s); [done|by left|done|].
    rewrite <- (frames_of_current k th Ht), Hf. by eapply eff_stack.
  - apply push_frame_inv in H as (th & Ht & ->). apply (sy_call _ _ (FUp s) s); [done|by right|done|].
    rewrite <- (frames_of_current k th Ht), Hf. by eapply eff_stack.
  - apply bind_done_inv in H as (b & ? & (sm & Hsm & [(_ & _ & ->)|(_ & _ & ->)])%sema_try_down_inv & H);
      apply ret_inv in H as [_ ->].
    + apply (sy_value _ _ s (u32 (value sm - 1))); [done|]. by apply eff_sema.
    + by apply (sy_plain _ _ [] [] (frames_of k (current k))).
  - apply lock_acquire_eff in H as (lk & Hl & He). by apply (sy_acquire _ _ l lk [] [] (frames_of k (current k))).
  - apply try_acquire_eff in H as (lk & v & Hl & Hv & [->|(H0 & He)]).
    + by apply (sy_plain _ _ [] [] (frames_of k (current k))).
    + by apply (sy_try _ _ l lk v).
  - apply lock_release_eff in H as (lk & Hl & Hh & He). by apply (sy_release _ _ l lk [] [] (frames_of k (current k))).
  - apply cond_wait_eff in H as (ws & lk & Hc & Hl & Hh & He). by apply (sy_wait _ _ c l lk ws).
  - apply cond_signal_eff in H as (ws & Hc & [->|(w & ws' & -> & He)]).
    + by apply (sy_plain _ _ [] [] (frames_of k (current k))).
    + by apply (sy_signal _ _ c w ws' [] [] (frames_of k (current k))).
  - apply cond_broadcast_eff in H as (ws & Hc & [->|(w & ws' & -> & He)]).
    + by apply (sy_plain _ _ [] [] (frames_of k (current k))).
    + apply (sy_signal _ _ c w ws' [] [FBroadcast c l] (frames_of k (current k))); auto.
  - apply thread_yield_eff in H as (b & He); [|done].
    apply (sy_plain _ _ [] [FYield b] (frames_of k (current k))); auto.
  - apply thread_exit_eff in H; [|done..]. by apply (sy_plain _ _ [] [] (frames_of k (current k))).
  - apply set_priority_inv in H as (th & Ht & ->). apply (sy_plain _ _ [] [] (frames_of k (current k))); auto.
    apply (eff_threads k k); auto. intros u. by apply (frames_of_keep _ _ th).
  - apply thread_create_inv in H as [(_ & ->)|(t & lk & th & -> & H0 & Ht & Hl & ->)].
    + by apply (sy_plain _ _ [] [] (frames_of k (current k))).
    + assert (t <> current k) as Hn.
      { intros ->. destruct (current_running k _ Hs) as (? & ? & _). congruence. }
      assert (frames th = frames_of k (current k)) as ->.
      { cbn in Ht. rewrite lookup_insert_ne in Ht by done. by rewrite (frames_of_current k th Ht). }
      apply (sy_acquire _ _ (tid_lock k) lk [] [FTid t] (frames_of k (current k))); [done|done|by repeat constructor|done|].
      eapply eff_stack; [by apply eff_born|done].
Qed.

Lemma sy_pop k k' f r : frames_of k (current k) = f :: r -> plain f ->
  eff k k' r (val_of k) (locks k) (conds k) -> sync k k'.
Proof. intros E Hp He. apply (sy_plain _ _ [f] [] r); auto. Qed.

(** Taking up a frame, from the state in which it is off the stack. *)
Section Resume.
Variables (k : K) (f : frame) (fr : list frame) (th : thread).
Hypothesis HF : frames_of k (current k) = f :: fr.

Abbreviation k0 := (with_stack fr th k).

Lemma popped_eff : eff k k0 fr (val_of k) (locks k) (conds k).
Proof. eapply eff_stack; [apply eff_refl|done]. Qed.

Lemma popped_frames : frames_of k0 (current k0) = fr.
Proof. apply popped_eff. Qed.

Lemma popped_then b k' fr' vs' ls' cs' : eff (with_intr b k0) k' fr' vs' ls' cs' -> eff k k' fr' vs' ls' cs'.
Proof. apply (eff_trans _ _ fr (val_of k) (locks k) (conds k)); [|done]. by apply eff_intr, popped_eff. Qed.

Lemma popped_then0 k' fr' vs' ls' cs' : eff k0 k' fr' vs' ls' cs' -> eff k k' fr' vs' ls' cs'.
Proof. by apply (eff_trans _ _ fr (val_of k) (locks k) (conds k)); [apply popped_eff|]. Qed.

Lemma down_sync b s old a k' : f = FDown s \/ (exists o, f = FSema s o) -> sched k0 true None ->
  current k <> idle_thread k -> sema_down_loop s old (with_intr b k0) = Done (a, k') -> sync k k'.
Proof.
  intros Hf Hs Hni H.
  apply sema_down_loop_eff in H as (v & Hv & [(Hn & He)|(-> & He)]); [| |by apply sched_intr|done].
  - apply popped_then in He. change (frames_of (with_intr b k0) (current (with_intr b k0))) with (frames_of k0 (current k0)) in He.
    rewrite popped_frames in He. by apply (sy_down _ _ f s fr v).
  - apply popped_then in He. change (frames_of (with_intr b k0) (current (with_intr b k0))) with (frames_of k0 (current k0)) in He.
    rewrite popped_frames in He. by apply (sy_sleep _ _ f s old fr).
Qed.

Lemma resume_sync a k' : (created [f] = [] -> sched k0 true None) ->
  idle_frame f \/ current k <> idle_thread k -> resume_frame f k0 = Done (a, k') -> sync k k'.
Proof.
  intros Hs Hor H. pose proof popped_eff as He0. pose proof popped_frames as E0. pose proof popped_then0 as Htr. pose proof down_sync as Hdown.
  destruct f; cbn [resume_frame] in H.
  - apply bind_done_inv in H as (? & ? & ->%intr_enable_inv & H). apply ret_inv in H as [_ ->].
    eapply sy_pop; [exact HF|done|]. by apply eff_intr.
  - destruct Hor as [[]|Hni]. apply sema_down_inv in H as [_ H]. eapply Hdown; eauto.
  - destruct Hor as [[]|Hni]. eapply (Hdown (intr_on k0)); eauto.
  - apply sema_up_eff in H as (v & Hv & He). rewrite E0 in He. apply (sy_up _ _ s fr v); [done|done|by apply Htr].
  - apply set_holder_eff in H as (lk & Hl & He). rewrite E0 in He. apply (sy_hold _ _ l lk fr); [done|done|by apply Htr].
  - apply lock_acquire_eff in H as (lk & Hl & He). rewrite E0 in He.
    apply (sy_acquire _ _ l lk [FAcquire l] [] fr); [done|by repeat constructor..|done|by apply Htr].
  - apply cond_broadcast_eff in H as (ws & Hc & [->|(w & ws' & -> & He)]).
    + eapply sy_pop; [exact HF|done|exact He0].
    + rewrite E0 in He. apply (sy_signal _ _ c w ws' [FBroadcast c l] [FBroadcast c l] fr);
        [done|by repeat constructor..|done|by apply Htr].
  - apply take_tid_eff in H as (lk & Hl & Hh & He). rewrite E0 in He.
    apply (sy_release _ _ (tid_lock k) lk [FTid t] [FCreated t (next_tid k)] fr);
      [done|by repeat constructor..|done|done|by apply Htr].
  - apply finish_create_inv in H as (c & k1 & tht & Hc & Ek & Ht & _ & ->).
    apply (sy_plain _ _ [FCreated t n] [FResult t] fr); [done|by repeat constructor..|].
    eapply eff_ready; [|exact Ht|done]. rewrite Ek. cbn [app].
    assert (frames c = fr) as -> by (rewrite <- (frames_of_current _ c Hc); exact E0).
    by apply (eff_stack k k0 fr).
  - apply bind_done_inv in H as (? & ? & [_ ->]%get_thread_inv & H). apply ret_inv in H as [_ ->].
    eapply sy_pop; [exact HF|done|exact He0].
  - apply bind_done_inv in H as (? & ? & ->%intr_set_level_inv & H). apply ret_inv in H as [_ ->].
    eapply sy_pop; [exact HF|done|]. by apply eff_intr.
  - apply modify_inv in H as ->. eapply sy_pop; [exact HF|done|]. by apply eff_intr.
Qed.
End Resume.

(** What holds of the frame a thread takes up. *)
Lemma resume_cases k k' : kinv k -> frames_of k (current k) <> [] -> resume k = Done (tt, k') ->
  exists th f fr, threads k !! current k = Some th /\ frames_of k (current k) = f :: fr /\
    (created [f] = [] -> sched (with_stack fr th k) true None) /\
    (idle_frame f \/ current k <> idle_thread k) /\ resume_frame f (with_stack fr th k) = Done (tt, k').
Proof.
  intros [Hs Hi] Hne H. apply resume_inv in H as (th & f & fr & Ht & Hf & H); [|done].
  assert (frames_of k (current k) = f :: fr) as EF by (by rewrite (frames_of_current k th Ht)).
  exists th, f, fr. split_and!; [done..| | |done].
  - intros Ec. apply sched_stack; [done|done|]. by rewrite Hf, created_cons, Ec.
  - destruct (decide (current k = idle_thread k)) as [E|]; [left|by right].
    rewrite <- E, EF in Hi. by inversion Hi.
Qed.

Lemma idle_eff k a k' : sched k true None -> current k = idle_thread k -> idle_step k = Done (a, k') ->
  eff k k' (FYield true :: frames_of k (current k)) (val_of k) (locks k) (conds k).
Proof.
  intros Hs Hi H. apply idle_step_inv in H as (th & Ht & H).
  pose proof (sched_idle_block k th Hs Ht Hi) as Hb. destruct (schedule_keeps _ _ _ Hb H) as [Hsw _].
  eapply eff_switched; [|exact Hb|exact Hsw]. rewrite (frames_of_current k th Ht).
  apply (eff_threads k (with_stack (FYield true :: frames th) th k)); [|done..|].
  - eapply eff_stack; [apply eff_refl|done].
  - intros u. by rewrite frames_of_stack, frames_of_thread.
Qed.

Lemma timer_eff k a k' : sched k true None -> timer_interrupt k = Done (a, k') ->
  exists p, Forall idle_frame p /\ eff k k' (p ++ frames_of k (current k)) (val_of k) (locks k) (conds k).
Proof.
  intros Hs H. apply timer_interrupt_inv in H as (th & k1 & Ht & _ & (n & i & kt & u & y & ->) & Hor).
  set (k1 := set_ticks _ _ _ _ _) in Hor.
  assert (eff k k1 (FIret :: frames_of k (current k)) (val_of k) (locks k) (conds k)) as He.
  { apply eff_ticks, eff_intr. rewrite (frames_of_current k th Ht). eapply eff_stack; [apply eff_refl|done]. }
  destruct Hor as [->|H]; [exists [FIret]; split; [by repeat constructor|done]|].
  assert (sched k1 true None) as Hp by (by apply sched_ticks, sched_intr, sched_stack).
  apply thread_yield_eff in H as (b & He'); [|done]. exists [FYield b; FIret]. split; [by repeat constructor|].
  assert (frames_of k1 (current k1) = FIret :: frames_of k (current k)) as E by apply He.
  rewrite E in He'. by apply (eff_trans _ _ _ _ _ _ He).
Qed.

(** Every step is a step of the synchronization machine. *)
Lemma step_sync k k' : kinv k -> step k k' -> sync k k'.
Proof.
  intros Hk [c Hf Hni Ha H|Hf H|Hf Hi H|H].
  - eapply step_call_sync; [apply Hk|done..].
  - destruct (resume_cases k k' Hk Hf H) as (th & f & fr & _ & HF & Hs & Hor & Hr). by eapply resume_sync.
  - apply idle_eff in H; [|apply Hk|done].
    apply (sy_plain _ _ [] [FYield true] (frames_of k (current k))); [done|done|by repeat constructor|done].
  - apply timer_eff in H as (p & Hp & He); [|apply Hk].
    apply (sy_plain _ _ [] p (frames_of k (current k))); [done|done| |done].
    eapply Forall_impl; [exact Hp|]. by intros [].
Qed.

Lemma idle_frame_resume k f fr th a k' : idle_frame f -> frames_of k (current k) = f :: fr ->
  resume_frame f (with_stack fr th k) = Done (a, k') -> eff k k' fr (val_of k) (locks k) (conds k).
Proof.
  intros Hf HF H. pose proof (popped_eff k fr th) as He0. destruct f; try done; cbn [resume_frame] in H.
  - apply bind_done_inv in H as (? & ? & ->%intr_enable_inv & H). apply ret_inv in H as [_ ->]. by apply eff_intr.
  - apply bind_done_inv in H as (? & ? & ->%intr_set_level_inv & H). apply ret_inv in H as [_ ->]. by apply eff_intr.
  - apply modify_inv in H as ->. by apply eff_intr.
Qed.

Lemma eff_idle k k' fr vs ls cs : eff k k' fr vs ls cs -> Forall idle_frame (frames_of k (idle_thread k)) ->
  (current k = idle_thread k -> Forall idle_frame fr) -> Forall idle_frame (frames_of k' (idle_thread k')).
Proof.
  intros [Ei _ Ec Eo _ _ _] Hi Hc. rewrite Ei. destruct (decide (idle_thread k = current k)) as [E|Hn].
  - rewrite E, Ec. by apply Hc.
  - destruct (Eo _ Hn) as [->|(_ & x & ->)]; [done|by repeat constructor].
Qed.

Lemma step_kinv k k' : kinv k -> step k k' -> kinv k'.
Proof.
  intros Hk Hst. split; [by eapply step_sched|]. pose proof Hk as [Hs Hi].
  destruct (sync_eff _ _ (step_sync k k' Hk Hst)) as (fr & vs & ls & cs & He).
  destruct (decide (current k = idle_thread k)) as [Ec|Hn]; [|by eapply eff_idle; [exact He|..]].
  rewrite <- Ec in Hi. destruct Hst as [c Hf Hni Ha H|Hf H|Hf _ H|H]; [done|..].
  - destruct (resume_cases k k' Hk Hf H) as (th & f & r & _ & HF & _ & [Hif|?] & Hr); [|done].
    rewrite HF in Hi. inversion Hi; subst. eapply eff_idle; [by eapply idle_frame_resume|apply Hk|done].
  - eapply eff_idle; [by eapply idle_eff|apply Hk|]. intros _. constructor; done.
  - apply timer_eff in H as (p & Hp & He'); [|done]. eapply eff_idle; [exact He'|apply Hk|].
    intros _. by apply Forall_app.
Qed.

(** In every state that the interleavings of the kernel's threads reach, the
    scheduler's invariant holds. *)
Lemma steps_kinv k k' : kinv k -> steps k k' -> kinv k'.
Proof. intros Hk Hst. induction Hst as [|k k1 k2 H _ IH]; [done|]. by apply IH, (step_kinv k). Qed.

(** C3: from a state that satisfies the scheduler's invariant, whatever the
    threads call, however they are interrupted and whichever of them runs, one
    thread is running and it is the current one; the run queue holds each ready
    thread but the idle one, once; a blocked thread is on the waiters of exactly
    one semaphore, or is being created, or is the idle thread; and the list of all
    threads holds each thread that has not exited, once. *)
Theorem steps_scheduled k k' : kinv k -> steps k k' ->
  (forall t, is_status k' t THREAD_RUNNING <-> t = current k') /\
  NoDup (ready_list k') /\
  (forall t, t <> idle_thread k' -> t ∈ ready_list k' <-> is_status k' t THREAD_READY) /\
  (forall t, t <> idle_thread k' -> is_status k' t THREAD_BLOCKED ->
    (exists s sm, semas k' !! s = Some sm /\ t ∈ waiters sm /\
      forall s2 sm2, semas k' !! s2 = Some sm2 -> t ∈ waiters sm2 -> s2 = s) \/
    exists u, t ∈ created (frames_of k' u)) /\
  NoDup (all_list k') /\
  (forall t, t ∈ all_list k' <-> exists st, is_status k' t st /\ st <> THREAD_DYING).
Proof.
  intros Hk Hst. destruct (steps_kinv k k' Hk Hst) as [Hs _].
  split; [|split; [|split; [|split; [|split]]]]; try apply Hs.
  - intros t. split; [apply Hs|]. intros ->. by eapply current_running.
  - intros t Hni. split; [intros Ht; by apply Hs|]. intros Ht. by destruct (sc_ready_all _ _ _ Hs t Ht).
  - intros t Hni Ht. destruct (sc_blocked _ _ _ Hs t Ht) as [?|[?|[(s & sm & Hsm & Hin)|(u & th & Hu & Hin)]]]; [done..| |].
    + left. exists s, sm. split; [done|]. split; [done|]. intros s2 sm2 Hsm2 Hin2.
      destruct (sc_wait _ _ _ Hs s sm t Hsm Hin) as (_ & th & o & fr & Hl & _ & Hf).
      destruct (sc_wait _ _ _ Hs s2 sm2 t Hsm2 Hin2) as (_ & th2 & o2 & fr2 & Hl2 & _ & Hf2). congruence.
    + right. exists u. unfold frames_of. by rewrite Hu.
Qed.
