(* ===== verification/Locks.v ===== *)
(** * Mutual exclusion of the kernel's locks

    A lock is a semaphore of value 1 and a holder.  [lock_inv] gives each lock
    one token: it is in the semaphore, with the holder, or in the frame of the one
    thread between taking the semaphore and setting the holder or between
    clearing the holder and giving the semaphore back.  Every step of the
    synchronization machine, hence of every interleaving, moves the token and
    never makes another. *)

From S2P Require Import Prelude KList Kernel KernelRuns Sched KernelSteps.

(** ** Tokens in a thread's frames *)

(** The tokens for the lock [l] with semaphore [s].  [req]: the frame above is a
    [sema_down] that has not returned. *)
Fixpoint tokens (l s : Z) (req : bool) (fr : list frame) : nat :=
  match fr with
  | [] => 0
  | FDown _ :: fr' | FSema _ _ :: fr' => tokens l s true fr'
  | FHold l' :: fr' => (if negb req && (l' =? l) then 1 else 0) + tokens l s false fr'
  | FUp s' :: fr' => (if s' =? s then 1 else 0) + tokens l s false fr'
  | _ :: fr' => tokens l s false fr'
  end.

(** A [sema_down] is on the semaphore of the lock whose [FHold] follows it, or on
    the semaphore of no lock. *)
Definition good_down (ls : Z -> option Z) (s : Z) (fr : list frame) : Prop :=
  match fr with
  | FHold l :: _ => ls l = Some s
  | _ => forall l, ls l <> Some s
  end.

Fixpoint good (ls : Z -> option Z) (fr : list frame) : Prop :=
  match fr with
  | [] => True
  | (FDown s | FSema s _) :: fr' => good_down ls s fr' /\ good ls fr'
  | _ :: fr' => good ls fr'
  end.

Lemma plain_tokens l s p fr : Forall plain p -> p <> [] -> tokens l s false (p ++ fr) = tokens l s false fr.
Proof.
  intros Hp. induction Hp as [|f p Hf Hp IH]; [done|]. intros _.
  destruct f, p; try destruct Hf; cbn in *; try done; by apply IH.
Qed.

Lemma plain_tokens0 l s p fr : Forall plain p -> tokens l s false (p ++ fr) = tokens l s false fr.
Proof. destruct p; [done|]. intros. by apply plain_tokens. Qed.

Lemma plain_good ls p fr : Forall plain p -> good ls (p ++ fr) <-> good ls fr.
Proof.
  intros Hp. induction Hp as [|f p Hf Hp IH]; [done|]. by destruct f; try destruct Hf; cbn.
Qed.

Lemma tokens_req l s fr : match fr with FHold _ :: _ => False | _ => True end ->
  tokens l s true fr = tokens l s false fr.
Proof. by destruct fr as [|[] ?]. Qed.

Lemma good_down_cases ls s fr : good_down ls s fr ->
  (exists l fr', fr = FHold l :: fr' /\ ls l = Some s) \/
  ((forall l, ls l <> Some s) /\ forall l s', tokens l s' true fr = tokens l s' false fr).
Proof. destruct fr as [|[] fr]; cbn; intros H; eauto; right; by split. Qed.

Lemma good_ext ls ls' fr : (forall l, ls l = ls' l) -> good ls fr -> good ls' fr.
Proof.
  intros E. induction fr as [|f fr IH]; [done|].
  destruct f; cbn; try done; intros [Hd Hg]; (split; [|by apply IH]);
    destruct fr as [|[] ?]; cbn in *; rewrite <- ?E; try done; intros l'; by rewrite <- E.
Qed.

(** ** The life of one lock *)

(** A step of the running thread [c], by the semaphore's value, the holder and
    the tokens of [c]. *)
Inductive lock_step (c v h : Z) (n : nat) (v' h' : Z) (n' : nat) : Prop :=
  | ls_none : v' = v -> h' = h -> n' = n -> lock_step c v h n v' h' n'
  | ls_down : v <> 0 -> v' = u32 (v - 1) -> h' = h -> n' = S n -> lock_step c v h n v' h' n'
  | ls_hold : v' = v -> h' = c -> n = S n' -> lock_step c v h n v' h' n'
  | ls_release : v' = v -> h = c -> h' = NULL -> n' = S n -> lock_step c v h n v' h' n'
  | ls_up : v' = u32 (v + 1) -> h' = h -> n = S n' -> lock_step c v h n v' h' n'.

(** One token: [T] counts those of each thread. *)
Definition one_token (v h : Z) (T : Z -> nat) : Prop :=
  v = 1 /\ h = 0 /\ (forall u, T u = 0%nat) \/
  v = 0 /\ exists t, (forall u, u <> t -> T u = 0%nat) /\
    (h = t /\ t <> 0 /\ T t = 0%nat \/ h = 0 /\ T t = 1%nat).

Lemma one_token_step c v h T v' h' T' : c <> 0 -> one_token v h T ->
  lock_step c v h (T c) v' h' (T' c) -> (forall u, u <> c -> T' u = T u) -> one_token v' h' T'.
Proof.
  intros Hc Hone Hst Hoth.
  assert (forall u, T u = 0%nat -> u <> c -> T' u = 0%nat) as H0 by (intros u E Hu; by rewrite Hoth).
  assert (T c <> 0%nat -> v = 0 /\ (forall u, u <> c -> T u = 0%nat) /\ h = 0 /\ T c = 1%nat) as Hmine.
  { intros Hn. destruct Hone as [(_ & _ & HT)|(-> & t & HT & Hor)]; [by rewrite HT in Hn|].
    destruct (decide (t = c)) as [->|Hne]; [|by rewrite (HT c) in Hn by auto].
    destruct Hor as [(_ & _ & ?)|(-> & ?)]; [lia|done]. }
  destruct Hst as [-> -> Hn|Hv -> -> Hn| -> -> Hn| -> <- -> Hn| -> -> Hn].
  - assert (forall u, T' u = T u) as E by (intros u; destruct (decide (u = c)) as [->|]; auto).
    destruct Hone as [(-> & -> & HT)|(-> & t & HT & Hor)]; [left|right].
    + split_and!; [done..|]. intros u. by rewrite E.
    + split; [done|]. exists t. split; [intros u Hu; rewrite E; auto|by rewrite E].
  - destruct Hone as [(-> & -> & HT)|(-> & _)]; [|done]. right. split; [done|]. exists c.
    split; [intros u Hu; auto|]. right. split; [done|]. by rewrite Hn, HT.
  - destruct Hmine as (-> & HT & -> & E); [lia|]. right. split; [done|]. exists c.
    split; [intros u Hu; auto|]. left. split_and!; [done..|lia].
  - destruct Hone as [(_ & ? & _)|(-> & t & HT & [(<- & _ & HT0)|(? & _)])]; [done| |done].
    right. split; [done|]. exists h. split; [intros u Hu; auto|]. right. split; [done|]. lia.
  - destruct Hmine as (-> & HT & -> & E); [lia|]. left. split_and!; [done..|].
    intros u. destruct (decide (u = c)) as [->|]; [lia|auto].
Qed.

(** ** The invariant *)

Definition held_tokens (k : K) (l : Z) (lk : lock) (u : Z) : nat := tokens l (l_sema lk) false (frames_of k u).

Record lock_inv (k : K) : Prop := {
  li_inj : forall l1 l2 s, lsema_of k l1 = Some s -> lsema_of k l2 = Some s -> l1 = l2;
  li_good : forall u, good (lsema_of k) (frames_of k u);
  li_conds : forall c ws w, conds k !! c = Some ws -> w ∈ ws -> ~ lock_sema k w;
  li_one : forall l lk, locks k !! l = Some lk ->
    exists v, val_of k (l_sema lk) = Some v /\ one_token v (holder lk) (held_tokens k l lk)
}.

Lemma lsema_of_Some k l lk : locks k !! l = Some lk -> lsema_of k l = Some (l_sema lk).
Proof. unfold lsema_of. by intros ->. Qed.

(** A step moves the tokens of each lock by [lock_step]. *)
Lemma lock_inv_step k k' fr vs ls cs : current k <> 0 -> lock_inv k -> eff k k' fr vs ls cs ->
  good (lsema_of k) fr ->
  (forall l, l_sema <$> ls !! l = lsema_of k l) ->
  (forall c ws w, cs !! c = Some ws -> w ∈ ws -> ~ lock_sema k w) ->
  (forall l lk' lk v, ls !! l = Some lk' -> locks k !! l = Some lk -> l_sema lk' = l_sema lk ->
    val_of k (l_sema lk) = Some v -> exists v', vs (l_sema lk) = Some v' /\
    lock_step (current k) v (holder lk) (held_tokens k l lk (current k)) v' (holder lk')
      (tokens l (l_sema lk) false fr)) ->
  lock_inv k'.
Proof.
  intros Hc [I1 I2 I3 I4] [_ _ E1 E2 E3 E4 E5] Hg Hls Hcs Hstep.
  assert (forall l, lsema_of k' l = lsema_of k l) as El by (intros l; unfold lsema_of at 1; by rewrite E4).
  assert (forall s, lock_sema k' s <-> lock_sema k s) as Els.
  { intros s. unfold lock_sema. by setoid_rewrite El. }
  split.
  - intros l1 l2 s. rewrite !El. apply I1.
  - intros u. apply (good_ext (lsema_of k)); [by intros l; rewrite El|].
    destruct (decide (u = current k)) as [->|Hn]; [by rewrite E1|].
    destruct (E2 u Hn) as [->|(_ & x & ->)]; [apply I2|done].
  - intros c ws w. rewrite E5, Els. apply Hcs.
  - intros l lk' Hl'. rewrite E4 in Hl'. pose proof (Hls l) as Hsl. rewrite Hl' in Hsl.
    unfold lsema_of in Hsl. destruct (locks k !! l) as [lk|] eqn:Hl; [|done]. injection Hsl as Hsl.
    destruct (I4 l lk Hl) as (v & Hv & Hone). destruct (Hstep l lk' lk v) as (v' & Hv' & Hlst); [done..|].
    exists v'. rewrite E3, Hsl. split; [done|]. eapply one_token_step; [exact Hc|exact Hone| |].
    + unfold held_tokens at 2. rewrite E1, Hsl. exact Hlst.
    + intros u Hu. unfold held_tokens. rewrite Hsl. destruct (E2 u Hu) as [->|(-> & x & ->)]; done.
Qed.

(** The same where no lock's structure changes. *)
Lemma lock_inv_frames k k' fr vs cs : current k <> 0 -> lock_inv k -> eff k k' fr vs (locks k) cs ->
  good (lsema_of k) fr ->
  (forall c ws w, cs !! c = Some ws -> w ∈ ws -> ~ lock_sema k w) ->
  (forall l lk v, locks k !! l = Some lk -> val_of k (l_sema lk) = Some v ->
    exists v', vs (l_sema lk) = Some v' /\
    lock_step (current k) v (holder lk) (held_tokens k l lk (current k)) v' (holder lk)
      (tokens l (l_sema lk) false fr)) ->
  lock_inv k'.
Proof.
  intros Hc HI He Hg Hcs Hstep. eapply lock_inv_step; [done|done|exact He|done|done|done|].
  intros l lk' lk v Hl' Hl _ Hv. simplify_eq. by apply Hstep.
Qed.

Section Step.
Variables k k' : K.
Hypothesis HI : lock_inv k.
Hypothesis Hc : current k <> 0.

Abbreviation F := (frames_of k (current k)).

Lemma good_F : good (lsema_of k) F.
Proof. apply HI. Qed.

Lemma not_lock_sema s l lk : ~ lock_sema k s -> locks k !! l = Some lk -> l_sema lk <> s.
Proof. intros Hn Hl <-. apply Hn. exists l. by apply lsema_of_Some. Qed.

Lemma same_lock l1 lk1 l2 lk2 : locks k !! l1 = Some lk1 -> locks k !! l2 = Some lk2 ->
  l_sema lk1 = l_sema lk2 -> l1 = l2.
Proof. intros H1 H2 E. eapply (li_inj k HI); [by apply lsema_of_Some|rewrite E; by apply lsema_of_Some]. Qed.

Lemma inv_plain p q r : F = p ++ r -> Forall plain p -> Forall plain q ->
  eff k k' (q ++ r) (val_of k) (locks k) (conds k) -> lock_inv k'.
Proof.
  intros HF Hp Hq He. pose proof good_F as Hg. rewrite HF in Hg.
  eapply lock_inv_frames; [done|done|exact He| |apply HI|].
  - apply plain_good; [done|]. by apply plain_good in Hg.
  - intros l lk v Hl Hv. exists v. split; [done|]. apply ls_none; [done..|].
    unfold held_tokens. by rewrite HF, !plain_tokens0.
Qed.

(** Values of semaphores that belong to no lock. *)
Lemma inv_other fr s v cs : ~ lock_sema k s -> eff k k' fr (upd s v (val_of k)) (locks k) cs ->
  good (lsema_of k) fr -> (forall c ws w, cs !! c = Some ws -> w ∈ ws -> ~ lock_sema k w) ->
  (forall l lk, locks k !! l = Some lk -> tokens l (l_sema lk) false fr = held_tokens k l lk (current k)) ->
  lock_inv k'.
Proof.
  intros Hn He Hg Hcs HT. eapply lock_inv_frames; [done|done|exact He|done|done|].
  intros l lk w Hl Hw. exists w. unfold upd. rewrite decide_False by (by eapply not_lock_sema).
  split; [done|]. apply ls_none; [done..|]. by apply HT.
Qed.

(** The frames change, and the tokens do not. *)
Lemma inv_frames fr cs : eff k k' fr (val_of k) (locks k) cs ->
  good (lsema_of k) fr -> (forall c ws w, cs !! c = Some ws -> w ∈ ws -> ~ lock_sema k w) ->
  (forall l lk, locks k !! l = Some lk -> tokens l (l_sema lk) false fr = held_tokens k l lk (current k)) ->
  lock_inv k'.
Proof.
  intros He Hg Hcs HT. eapply lock_inv_frames; [done|done|exact He|done|done|].
  intros l lk w Hl Hw. exists w. split; [done|]. apply ls_none; [done..|]. by apply HT.
Qed.

Lemma inv_down f s r v : F = f :: r -> f = FDown s \/ (exists o, f = FSema s o) -> val_of k s = Some v -> v <> 0 ->
  eff k k' r (upd s (u32 (v - 1)) (val_of k)) (locks k) (conds k) -> lock_inv k'.
Proof.
  intros HF Hf Hv Hn He. pose proof good_F as Hg. rewrite HF in Hg.
  assert (good_down (lsema_of k) s r /\ good (lsema_of k) r) as [Hd Hr] by (by destruct Hf as [->|[o ->]]).
  assert (forall l lk, held_tokens k l lk (current k) = tokens l (l_sema lk) true r) as HT.
  { intros l lk. unfold held_tokens. rewrite HF. by destruct Hf as [->|[o ->]]. }
  apply good_down_cases in Hd as [(l0 & r' & -> & Hl0)|[Hls Hreq]].
  - unfold lsema_of in Hl0. destruct (locks k !! l0) as [lk0|] eqn:Hlk0; [|done]. injection Hl0 as Hs0.
    eapply lock_inv_frames; [done|done|exact He|done|apply HI|].
    intros l lk w Hl Hw. rewrite HT. cbn [tokens negb andb].
    destruct (Z.eqb_spec l0 l) as [<-|Hne].
    + assert (lk = lk0) as -> by congruence. assert (w = v) as -> by congruence.
      exists (u32 (v - 1)). unfold upd. rewrite decide_True by done. split; [done|]. by apply ls_down.
    + exists w. unfold upd. rewrite decide_False; [|intros E; by apply Hne, (same_lock l0 lk0 l lk); congruence].
      split; [done|]. by apply ls_none.
  - eapply inv_other; [|exact He|done|apply HI|].
    + intros (l & E). by apply (Hls l).
    + intros l lk Hl. by rewrite HT, Hreq.
Qed.

Lemma inv_sleep f s o r : F = f :: r -> f = FDown s \/ (exists o, f = FSema s o) ->
  eff k k' (FSema s o :: r) (val_of k) (locks k) (conds k) -> lock_inv k'.
Proof.
  intros HF Hf He. pose proof good_F as Hg. rewrite HF in Hg.
  eapply inv_frames; [exact He| |apply HI|].
  - by destruct Hf as [->|[o' ->]].
  - intros l lk Hl. unfold held_tokens. rewrite HF. by destruct Hf as [->|[o' ->]].
Qed.

Lemma inv_up s r v : F = FUp s :: r -> val_of k s = Some v ->
  eff k k' r (upd s (u32 (v + 1)) (val_of k)) (locks k) (conds k) -> lock_inv k'.
Proof.
  intros HF Hv He. pose proof good_F as Hg. rewrite HF in Hg.
  eapply lock_inv_frames; [done|done|exact He|done|apply HI|].
  intros l lk w Hl Hw. unfold held_tokens. rewrite HF. cbn [tokens]. unfold upd.
  destruct (Z.eqb_spec s (l_sema lk)) as [->|Hne].
  - assert (w = v) as -> by congruence. exists (u32 (v + 1)). rewrite decide_True by done. split; [done|]. by apply ls_up.
  - exists w. rewrite decide_False by done. split; [done|]. by apply ls_none.
Qed.

(** A change of the holder of [l0]. *)
Lemma inv_holder l0 lk0 h fr vs cs : locks k !! l0 = Some lk0 ->
  eff k k' fr vs (<[l0 := mk_lock h (l_sema lk0)]> (locks k)) cs -> good (lsema_of k) fr ->
  (forall c ws w, cs !! c = Some ws -> w ∈ ws -> ~ lock_sema k w) ->
  (forall s, lock_sema k s -> vs s = val_of k s) ->
  (forall v, lock_step (current k) v (holder lk0) (held_tokens k l0 lk0 (current k)) v h
    (tokens l0 (l_sema lk0) false fr)) ->
  (forall l lk, locks k !! l = Some lk -> l <> l0 ->
    tokens l (l_sema lk) false fr = held_tokens k l lk (current k)) -> lock_inv k'.
Proof.
  intros Hl0 He Hg Hcs Hvs Hst HT. eapply lock_inv_step; [done|done|exact He|done| |done|].
  - intros l. unfold lsema_of. destruct (decide (l = l0)) as [->|Hn].
    + by rewrite lookup_insert_eq, Hl0.
    + by rewrite lookup_insert_ne.
  - intros l lk' lk v Hl' Hl _ Hv. exists v. split; [rewrite Hvs; [done|exists l; by apply lsema_of_Some]|].
    destruct (decide (l = l0)) as [->|Hn].
    + rewrite lookup_insert_eq in Hl'. simplify_eq. apply Hst.
    + rewrite lookup_insert_ne in Hl' by done. simplify_eq. apply ls_none; [done..|by apply HT].
Qed.

Lemma inv_hold l lk r : F = FHold l :: r -> locks k !! l = Some lk ->
  eff k k' r (val_of k) (<[l := mk_lock (current k) (l_sema lk)]> (locks k)) (conds k) -> lock_inv k'.
Proof.
  intros HF Hl He. pose proof good_F as Hg. rewrite HF in Hg.
  eapply inv_holder; [exact Hl|exact He|done|apply HI|done| |].
  - intros v. apply ls_hold; [done..|]. unfold held_tokens. rewrite HF. cbn. by rewrite Z.eqb_refl.
  - intros l' lk' Hl' Hn. unfold held_tokens. rewrite HF. cbn. by destruct (Z.eqb_spec l l') as [->|].
Qed.

Lemma inv_acquire l lk p q r : F = p ++ r -> Forall plain p -> Forall plain q -> locks k !! l = Some lk ->
  eff k k' (FDown (l_sema lk) :: FHold l :: q ++ r) (val_of k) (locks k) (conds k) -> lock_inv k'.
Proof.
  intros HF Hp Hq Hl He. pose proof good_F as Hg. rewrite HF in Hg. apply plain_good in Hg; [|done].
  eapply inv_frames; [exact He| |apply HI|].
  - cbn. split; [by apply lsema_of_Some|]. by apply plain_good.
  - intros l' lk' Hl'. unfold held_tokens. rewrite HF. cbn. by rewrite !plain_tokens0.
Qed.

Lemma inv_try l lk v : locks k !! l = Some lk -> val_of k (l_sema lk) = Some v -> 0 < v ->
  eff k k' (FHold l :: F) (upd (l_sema lk) (u32 (v - 1)) (val_of k)) (locks k) (conds k) -> lock_inv k'.
Proof.
  intros Hl Hv H0 He. pose proof good_F as Hg.
  eapply lock_inv_frames; [done|done|exact He|done|apply HI|].
  intros l' lk' w Hl' Hw. unfold held_tokens. cbn [tokens negb andb]. unfold upd.
  destruct (Z.eqb_spec l l') as [<-|Hne].
  - assert (lk' = lk) as -> by congruence. assert (w = v) as -> by congruence. exists (u32 (v - 1)). rewrite decide_True by done. split; [done|]. apply ls_down; [lia|done..].
  - exists w. rewrite decide_False by (intros E; by apply Hne, (same_lock l lk l' lk')). split; [done|]. by apply ls_none.
Qed.

Lemma inv_release l lk p q r : F = p ++ r -> Forall plain p -> Forall plain q -> locks k !! l = Some lk ->
  holder lk = current k ->
  eff k k' (FUp (l_sema lk) :: q ++ r) (val_of k) (<[l := mk_lock NULL (l_sema lk)]> (locks k)) (conds k) ->
  lock_inv k'.
Proof.
  intros HF Hp Hq Hl Hh He. pose proof good_F as Hg. rewrite HF in Hg. apply plain_good in Hg; [|done].
  eapply inv_holder; [exact Hl|exact He|by apply plain_good|apply HI|done| |].
  - intros v. apply ls_release; [done..|]. unfold held_tokens. rewrite HF. cbn. by rewrite Z.eqb_refl, !plain_tokens0.
  - intros l' lk' Hl' Hn. unfold held_tokens. rewrite HF. cbn [tokens]. rewrite !plain_tokens0 by done.
    destruct (Z.eqb_spec (l_sema lk) (l_sema lk')) as [E|]; [|done]. by destruct Hn; apply (same_lock l' lk' l lk).
Qed.

Lemma inv_wait c l lk ws : (forall s, next_addr k <= s -> semas k !! s = None) ->
  locks k !! l = Some lk -> holder lk = current k -> conds k !! c = Some ws ->
  eff k k' (FUp (l_sema lk) :: FDown (next_addr k) :: FAcquire l :: F) (upd (next_addr k) 0 (val_of k))
    (<[l := mk_lock NULL (l_sema lk)]> (locks k)) (<[c := ws ++ [next_addr k]]> (conds k)) -> lock_inv k'.
Proof.
  intros Hfresh Hl Hh Hcw He. pose proof good_F as Hg.
  assert (~ lock_sema k (next_addr k)) as Hnew.
  { intros (l' & Hl'). unfold lsema_of in Hl'. destruct (locks k !! l') as [lk'|] eqn:E; [|done]. injection Hl' as Hl'.
    destruct (li_one k HI l' lk' E) as (v & Hv & _). unfold val_of in Hv. rewrite Hl', Hfresh in Hv by lia. done. }
  eapply inv_holder; [exact Hl|exact He| | | | |].
  - cbn. split; [|done]. intros l' Hl'. apply Hnew. by exists l'.
  - intros c' ws' w Hc' Hw. apply lookup_insert_Some in Hc' as [[<- <-]|[_ Hc']]; [|by eapply (li_conds k HI)].
    apply elem_of_app in Hw as [Hw|Hw]; [by eapply (li_conds k HI)|]. by apply list_elem_of_singleton in Hw as ->.
  - intros s Hs. unfold upd. destruct (decide (s = next_addr k)) as [->|]; done.
  - intros v. apply ls_release; [done..|]. cbn. by rewrite Z.eqb_refl.
  - intros l' lk' Hl' Hn. cbn [tokens].
    destruct (Z.eqb_spec (l_sema lk) (l_sema lk')) as [E|]; [|done]. by destruct Hn; apply (same_lock l' lk' l lk).
Qed.

Lemma inv_signal c w ws p q r : F = p ++ r -> Forall plain p -> Forall plain q -> conds k !! c = Some (w :: ws) ->
  eff k k' (FUp w :: q ++ r) (val_of k) (locks k) (<[c := ws]> (conds k)) -> lock_inv k'.
Proof.
  intros HF Hp Hq Hcw He. pose proof good_F as Hg. rewrite HF in Hg. apply plain_good in Hg; [|done].
  eapply inv_frames; [exact He|by apply plain_good| |].
  - intros c' ws' x Hc' Hx. apply lookup_insert_Some in Hc' as [[<- <-]|[_ Hc']]; [|by eapply (li_conds k HI)].
    eapply (li_conds k HI); [exact Hcw|]. apply elem_of_cons. by right.
  - intros l lk Hl. unfold held_tokens. rewrite HF. cbn [tokens]. rewrite !plain_tokens0 by done.
    destruct (Z.eqb_spec w (l_sema lk)) as [E|]; [|done]. exfalso.
    eapply (li_conds k HI c _ w Hcw); [apply elem_of_cons; by left|]. exists l. rewrite E. by apply lsema_of_Some.
Qed.

Lemma inv_call f s : F = [] -> f = FDown s \/ f = FUp s -> ~ lock_sema k s ->
  eff k k' [f] (val_of k) (locks k) (conds k) -> lock_inv k'.
Proof.
  intros HF Hf Hn He. eapply inv_frames; [exact He| |apply HI|].
  - destruct Hf as [->| ->]; cbn; [|done]. split; [|done]. intros l Hl. apply Hn. by exists l.
  - intros l lk Hl. unfold held_tokens. rewrite HF. destruct Hf as [->| ->]; cbn; [done|].
    destruct (Z.eqb_spec s (l_sema lk)) as [->|]; [|done]. by destruct (not_lock_sema (l_sema lk) l lk).
Qed.

(** Every step of the synchronization machine. *)
Lemma sync_lock_inv : (forall s, next_addr k <= s -> semas k !! s = None) -> sync k k' -> lock_inv k'.
Proof.
  intros Hfresh Hst. destruct Hst; first
  [ by eapply inv_plain | by eapply inv_call | by eapply inv_down | by eapply inv_sleep | by eapply inv_up
  | by eapply inv_hold | by eapply inv_acquire | by eapply inv_try | by eapply inv_release | by eapply inv_wait
  | by eapply inv_signal | idtac ].
  eapply inv_other; [eassumption|eassumption|apply good_F|apply HI|done].
Qed.
End Step.

(** ** Interleavings *)

Definition safe (k : K) : Prop := kinv k /\ lock_inv k.

Lemma safe_steps k k' : safe k -> steps k k' -> safe k'.
Proof.
  intros Hk Hst. induction Hst as [|k k1 k2 H _ IH]; [done|]. apply IH. destruct Hk as [Hk Hl].
  split; [by eapply step_kinv|]. pose proof Hk as [Hs _]. eapply sync_lock_inv; [done| | |by apply step_sync].
  - destruct (sc_cur _ _ _ Hs) as (th & Ht & _). by apply (sc_valid _ _ _ Hs) in Ht as [? _].
  - apply (sc_fresh _ _ _ Hs).
Qed.

(** A thread holds a lock, or is about to return from acquiring it, or has not
    finished releasing it. *)
Definition inside (k : K) (l : Z) (lk : lock) (t : Z) : Prop :=
  holder lk = t /\ t <> NULL \/ held_tokens k l lk t <> 0%nat.

(** C2: however the threads are interleaved, two threads are never inside the same
    lock, the lock's semaphore is 0 or 1, and it is 0 while a thread is inside. *)
Theorem mutual_exclusion k k' l lk : safe k -> steps k k' -> locks k' !! l = Some lk ->
  (forall t1 t2, inside k' l lk t1 -> inside k' l lk t2 -> t1 = t2) /\
  (val_of k' (l_sema lk) = Some 0 \/ val_of k' (l_sema lk) = Some 1) /\
  (forall t, inside k' l lk t -> val_of k' (l_sema lk) = Some 0).
Proof.
  intros Hk Hst Hl. destruct (safe_steps k k' Hk Hst) as [_ HI].
  destruct (li_one k' HI l lk Hl) as (v & Hv & [(-> & Hh & HT)|(-> & t & HT & Hor)]).
  - assert (forall u, ~ inside k' l lk u) as Hno.
    { intros u [[<- Hu]|Hu]; [by rewrite Hh in Hu|by apply Hu, HT]. }
    split; [intros t1 t2 H1; by apply Hno in H1|]. split; [by right|]. intros u Hu. by apply Hno in Hu.
  - assert (forall u, inside k' l lk u -> u = t) as Hone.
    { intros u [[<- Hu]|Hu].
      - destruct Hor as [(? & _)|(E & _)]; [done|by rewrite E in Hu].
      - destruct (decide (u = t)) as [|Hn]; [done|]. by destruct Hu; apply HT. }
    split; [|by split; [left|]]. intros t1 t2 H1 H2. by rewrite (Hone t1 H1), (Hone t2 H2).
Qed.

(** A lock acquired again by its holder, or released by a thread that does not
    hold it, stops the kernel. *)
Theorem lock_misuse k l lk : sched k true None -> l <> NULL -> locks k !! l = Some lk ->
  (holder lk = current k -> lock_acquire l k = Panic /\ lock_try_acquire l k = Panic) /\
  (holder lk <> current k -> lock_release l k = Panic).
Proof.
  intros Hs Hl Hlk.
  assert (thread_current k = Done (current k, k)) as Hcur.
  { destruct (current_running k None Hs) as (th & Ht & Hr). destruct (sc_valid _ _ _ Hs _ _ Ht) as [Hn Hm].
    unfold thread_current, running_thread, get_thread, load, gets, bnd, mbind, M_bind, ASSERT, is_thread.
    rewrite Ht, Hm, Hr, Z.eqb_refl. destruct (Z.eqb_spec (current k) NULL); [done|]. cbn. done. }
  assert (lock_held_by_current_thread l k = Done (holder lk =? current k, k)) as Hheld.
  { unfold lock_held_by_current_thread. erewrite bind_done by (apply assert_done; destruct (Z.eqb_spec l NULL); done).
    erewrite bind_done by (unfold get_lock, load; by rewrite Hlk). by erewrite bind_done by exact Hcur. }
  unfold lock_acquire, lock_try_acquire, lock_release.
  assert (negb (l =? NULL) = true) as El by (destruct (Z.eqb_spec l NULL); done). rewrite !El. split.
  - intros E. rewrite E, Z.eqb_refl in Hheld. split; erewrite bind_done by done.
    + assert (assert_no_context k = if in_external_intr k then Panic else Done (tt, k)) as E1.
      { unfold assert_no_context, intr_context, gets, ASSERT, bnd, mbind, M_bind. by destruct (in_external_intr k). }
      destruct (in_external_intr k); [unfold bnd, mbind, M_bind; by rewrite E1|].
      erewrite bind_done by exact E1. by erewrite bind_done by exact Hheld.
    + by erewrite bind_done by exact Hheld.
  - intros E. apply Z.eqb_neq in E. rewrite E in Hheld. erewrite bind_done by done. by erewrite bind_done by exact Hheld.
Qed.
