(* ===== verification/KernelSpec.v ===== *)
(** * What the semaphore and scheduling operations do

    The result of each operation in a state of the scheduler's invariant, on every
    branch: none of them fails there. *)

From S2P Require Import Prelude KList Kernel KernelRuns Sched.

Lemma thread_current_run k th : threads k !! current k = Some th -> status th = THREAD_RUNNING ->
  t_magic th = THREAD_MAGIC -> current k <> NULL -> thread_current k = Done (current k, k).
Proof.
  intros Ht Hr Hm Hn. unfold thread_current, running_thread, get_thread, load, gets, bnd, mbind, M_bind, ASSERT, is_thread.
  rewrite Ht, Hm, Hr, Z.eqb_refl. destruct (Z.eqb_spec (current k) NULL); [done|]. cbn. done.
Qed.

Lemma current_thread k : sched k true None -> exists th, threads k !! current k = Some th /\
  status th = THREAD_RUNNING /\ t_magic th = THREAD_MAGIC /\ current k <> NULL.
Proof.
  intros Hs. destruct (current_running k None Hs) as (th & Ht & Hr). destruct (sc_valid _ _ _ Hs _ _ Ht) as [Hn Hm].
  by exists th.
Qed.

Lemma no_context_run k : in_external_intr k = false -> assert_no_context k = Done (tt, k).
Proof. intros E. unfold assert_no_context, intr_context, gets, bnd, mbind, M_bind. by rewrite E. Qed.

Lemma intr_off_run k : intr_on k = false -> assert_intr_off k = Done (tt, k).
Proof. intros E. unfold assert_intr_off, intr_get_level, gets, bnd, mbind, M_bind. by rewrite E. Qed.

Lemma push_frame_run f k th : threads k !! current k = Some th ->
  push_frame f k = Done (tt, with_stack (f :: frames th) th k).
Proof. intros Ht. unfold push_frame. erewrite bind_done by done. by erewrite bind_done by (unfold get_thread, load; by rewrite Ht). Qed.

Lemma intr_set_level_run b k1 : in_external_intr k1 = false -> exists old, intr_set_level b k1 = Done (old, with_intr b k1).
Proof.
  intros E. exists (intr_on k1). destruct b; [|done].
  unfold intr_set_level, intr_enable, intr_get_level, intr_context, gets, bnd, mbind, M_bind, ASSERT. cbn. by rewrite E.
Qed.

(** A blocked thread goes to the end of the run queue. *)
Lemma thread_unblock_run k1 t th : threads k1 !! t = Some th -> t <> 0 -> t_magic th = THREAD_MAGIC ->
  status th = THREAD_BLOCKED -> in_external_intr k1 = false ->
  thread_unblock t k1 = Done (tt, made_ready t th k1).
Proof.
  intros Ht H0 Hm Hb E. unfold thread_unblock.
  erewrite bind_done by (unfold get_thread, load; by rewrite Ht).
  erewrite bind_done by (apply assert_done; unfold is_thread; rewrite Hm, Z.eqb_refl; by destruct (Z.eqb_spec t NULL)).
  erewrite bind_done by done. erewrite bind_done by (apply assert_done; by rewrite Hb).
  erewrite bind_done by done.
  erewrite bind_done by (unfold set_status; erewrite bind_done by (unfold get_thread, load; cbn; by rewrite Ht); done).
  destruct (intr_set_level_run (intr_on k1) (with_thread t (with_status THREAD_READY th) (set_ready (ready_list k1 ++ [t]) (with_intr false k1)))) as [old Ho]; [done|].
  erewrite bind_done by exact Ho. by destruct k1.
Qed.
Lemma sema_up_run k s sm : sched k true None -> in_external_intr k = false -> s <> NULL ->
  semas k !! s = Some sm ->
  sema_up s k = Done (tt, match waiters sm with
    | [] => with_sema s (mk_sema (u32 (value sm + 1)) []) k
    | t :: ws => with_sema s (mk_sema (u32 (value sm + 1)) ws)
        (match threads k !! t with Some th => made_ready t th k | None => k end)
    end).
Proof.
  intros Hs Hx Hn Hsm. unfold sema_up.
  erewrite bind_done by (apply assert_done; by destruct (Z.eqb_spec s NULL)).
  erewrite bind_done by done. erewrite bind_done by (unfold get_sema, load; cbn; by rewrite Hsm).
  destruct (waiters sm) as [|t ws] eqn:Hw.
  - erewrite bind_done by done. erewrite bind_done by (unfold get_sema, load; cbn; by rewrite Hsm).
    erewrite bind_done by done.
    destruct (intr_set_level_run (intr_on k) (with_sema s (mk_sema (u32 (value sm + 1)) (waiters sm)) (with_intr false k))) as [old Ho]; [done|].
    erewrite bind_done by exact Ho. rewrite Hw. by destruct k.
  - destruct (sc_wait _ _ _ Hs s sm t Hsm) as (_ & th & o & fr & Ht & Hb & _); [rewrite Hw; inl|].
    destruct (sc_valid _ _ _ Hs _ _ Ht) as [H0 Hm]. rewrite Ht.
    set (k1 := with_sema s (mk_sema (value sm) ws) (with_intr false k)).
    erewrite bind_done; [|erewrite bind_done by done; by apply (thread_unblock_run k1 t th)].
    erewrite bind_done by (unfold get_sema, load; cbn; by rewrite lookup_insert_eq).
    erewrite bind_done by done.
    match goal with |- bnd _ _ ?k2 = _ => destruct (intr_set_level_run (intr_on k) k2) as [old Ho]; [done|] end.
    erewrite bind_done by exact Ho. cbn [value]. destruct k. unfold k1, with_sema. unfold set_semas at 1. cbn.
    unfold with_intr, set_intr, mret, M_ret. cbn. rewrite insert_insert_eq. done.
Qed.

(** [sema_up] adds 1 to the value and, if threads wait, takes the one that
    waits longest off the waiters and puts it at the end of the run queue; it does
    not switch threads. *)
Theorem sema_up_correct k s sm : sched k true None -> in_external_intr k = false -> s <> NULL ->
  semas k !! s = Some sm ->
  sema_up s k = Done (tt, match waiters sm with
    | [] => with_sema s (mk_sema (u32 (value sm + 1)) []) k
    | t :: ws => with_sema s (mk_sema (u32 (value sm + 1)) ws)
        (match threads k !! t with Some th => made_ready t th k | None => k end)
    end).
Proof. apply sema_up_run. Qed.

Lemma sema_down_run k s sm : sched k true None -> in_external_intr k = false -> s <> NULL ->
  current k <> idle_thread k -> semas k !! s = Some sm ->
  (value sm <> 0 -> sema_down s k = Done (tt, with_sema s (mk_sema (u32 (value sm - 1)) (waiters sm)) k)) /\
  (value sm = 0 -> exists th k', threads k !! current k = Some th /\
     sema_down s k = Done (tt, k') /\ switched (sleeping s sm (intr_on k) th (with_intr false k)) k' /\
     sched k' true None).
Proof.
  intros Hs Hx Hn Hni Hsm. destruct (current_thread k Hs) as (th & Ht & Hr & Hm & H0).
  assert (sema_down s k = sema_down_loop s (intr_on k) (with_intr false k)) as ->.
  { unfold sema_down. erewrite bind_done by (apply assert_done; by destruct (Z.eqb_spec s NULL)).
    erewrite bind_done by (by apply no_context_run). by erewrite bind_done by done. }
  unfold sema_down_loop. erewrite bind_done by (unfold get_sema, load; cbn; by rewrite Hsm). split; intros Hv.
  - rewrite (proj2 (Z.eqb_neq _ _) Hv). erewrite bind_done by done.
    match goal with |- bnd _ _ ?k2 = _ => destruct (intr_set_level_run (intr_on k) k2) as [old Ho]; [done|] end.
    erewrite bind_done by exact Ho. by destruct k.
  - assert (sched (with_intr false k) true None) as Hs1 by (by apply sched_intr).
    pose proof (sched_sleeping (with_intr false k) s sm (intr_on k) th Hs1 Hsm Ht Hni) as Hsl.
    destruct (schedule_switched _ Hsl) as (k' & Hrun & Hsw); [done|].
    exists th, k'. split; [done|]. split; [|split; [done|by eapply sched_switched]].
    rewrite Hv, Z.eqb_refl. erewrite bind_done by (by eapply (thread_current_run (with_intr false k))).
    erewrite bind_done by done. erewrite bind_done by (by apply push_frame_run).
    unfold thread_block. erewrite bind_done by (by apply no_context_run). erewrite bind_done by (by apply intr_off_run).
    erewrite bind_done; [|eapply thread_current_run; [cbn; by rewrite lookup_insert_eq|done..]].
    erewrite bind_done; [|unfold set_status; erewrite bind_done by
      (unfold get_thread, load; cbn; by rewrite lookup_insert_eq); done].
    rewrite <- Hrun. f_equal. unfold sleeping. rewrite Hv.
    match goal with |- set_threads _ (with_stack ?f ?t ?k2) = _ =>
      change (with_stack f t k2) with (with_thread (current k) (with_frames f t) k2) end.
    apply with_thread_twice.
Qed.

(** [sema_down] on a positive value takes 1 from it and returns; on 0 the
    running thread is blocked at the end of the waiters and the head of the run
    queue runs.  It never fails. *)
Theorem sema_down_correct k s sm : sched k true None -> in_external_intr k = false -> s <> NULL ->
  current k <> idle_thread k -> semas k !! s = Some sm ->
  (value sm <> 0 -> sema_down s k = Done (tt, with_sema s (mk_sema (u32 (value sm - 1)) (waiters sm)) k)) /\
  (value sm = 0 -> exists th k', threads k !! current k = Some th /\
     sema_down s k = Done (tt, k') /\ switched (sleeping s sm (intr_on k) th (with_intr false k)) k' /\
     sched k' true None).
Proof. apply sema_down_run. Qed.

(** [thread_yield] puts the running thread, unless it is the idle one, at the
    end of the run queue and runs the thread at its head; it never fails. *)
Theorem thread_yield_correct k : sched k true None -> in_external_intr k = false ->
  exists th k1 k', threads k !! current k = Some th /\
    k1 = with_thread (current k) (with_status THREAD_READY (with_frames (FYield (intr_on k) :: frames th) th))
      (set_ready (if current k =? idle_thread k then ready_list k else ready_list k ++ [current k])
        (with_intr false k)) /\
    thread_yield k = Done (tt, k') /\ switched k1 k' /\ sched k' true None.
Proof.
  intros Hs Hx. destruct (current_thread k Hs) as (th & Ht & Hr & Hm & H0).
  pose proof (sched_yielding k th (intr_on k) Hs Ht) as Hsy.
  destruct (schedule_switched _ Hsy) as (k' & Hrun & Hsw); [done|].
  eexists th, _, k'. split; [done|]. split; [done|]. split; [|split; [exact Hsw|by eapply sched_switched]].
  unfold thread_yield. erewrite bind_done by (by eapply thread_current_run).
  erewrite bind_done by (by apply no_context_run). erewrite bind_done by done. erewrite bind_done by done.
  erewrite bind_done; [|instantiate (1 := set_ready (if current k =? idle_thread k then ready_list k else ready_list k ++ [current k]) (with_intr false k));
    instantiate (1 := tt); cbn [idle_thread with_intr set_intr]; destruct (current k =? idle_thread k); by destruct k].
  erewrite bind_done; [|unfold set_status; erewrite bind_done by (unfold get_thread, load; cbn; by rewrite Ht); done].
  erewrite bind_done; [|eapply push_frame_run; cbn; by rewrite lookup_insert_eq].
  rewrite <- Hrun. f_equal.
  match goal with |- with_stack ?f ?t ?k2 = _ => change (with_stack f t k2) with (with_thread (current k) (with_frames f t) k2) end.
  apply with_thread_twice.
Qed.
