(* ===== verification/KernelDemo.v ===== *)
(** * A kernel with four threads

    Concrete states for the theorems on threads and locks: the initial thread
    runs, the idle thread is blocked, one thread is ready and one sleeps on a
    semaphore; two locks are free. *)

From S2P Require Import Prelude KList Kernel KernelRuns Sched KernelSteps Locks KernelSpec.

Definition demo_thread (n : Z) (st : thread_status) (fr : list frame) : thread :=
  mk_thread n st [109] 4052 PRI_DEFAULT false THREAD_MAGIC fr.

Definition demo_threads : list (Z * thread) :=
  [(1, demo_thread 1 THREAD_RUNNING []); (2, demo_thread 2 THREAD_BLOCKED [FYield true]);
   (3, demo_thread 3 THREAD_READY [FStart 1]); (4, demo_thread 4 THREAD_BLOCKED [FSema 14 true])].
Definition demo_semas : list (Z * semaphore) := [(11, mk_sema 1 []); (13, mk_sema 1 []); (14, mk_sema 0 [4])].
Definition demo_locks : list (Z * lock) := [(10, mk_lock 0 11); (12, mk_lock 0 13)].

Definition demo_kernel : K :=
  mk_kernel (list_to_map demo_threads) (list_to_map demo_semas) (list_to_map demo_locks) ∅
    [3] [1; 2; 3; 4] 1 2 1 10 5 20 true false false 0 0 0 0.

Ltac in_list H :=
  repeat (apply elem_of_cons in H as [H|H]; [try (injection H as -> ->); try subst|]); try (by apply elem_of_nil in H).
Ltac in_map H := apply elem_of_list_to_map_2 in H; unfold demo_threads, demo_semas, demo_locks in H; in_list H.

Lemma demo_status t st : is_status demo_kernel t st ->
  t = 1 /\ st = THREAD_RUNNING \/ t = 2 /\ st = THREAD_BLOCKED \/ t = 3 /\ st = THREAD_READY \/
  t = 4 /\ st = THREAD_BLOCKED.
Proof. intros (th & H & <-). in_map H; cbn; auto 10. Qed.

Lemma demo_waiter s sm t : semas demo_kernel !! s = Some sm -> t ∈ waiters sm -> s = 14 /\ t = 4.
Proof. intros H Hin. in_map H; cbn in Hin; in_list Hin; done. Qed.

Lemma demo_created t th : threads demo_kernel !! t = Some th -> created (frames th) = [].
Proof. intros H. in_map H; done. Qed.

Lemma demo_sched : sched demo_kernel true None.
Proof.
  split.
  - by exists (demo_thread 1 THREAD_RUNNING []).
  - intros t H. by apply demo_status in H as [[-> _]|[[_ ?]|[[_ ?]|[_ ?]]]].
  - intros t th H. in_map H; done.
  - by exists (demo_thread 2 THREAD_BLOCKED [FYield true]).
  - by_decide.
  - intros t H. cbn in H. in_list H. split; [done|]. by exists (demo_thread 3 THREAD_READY [FStart 1]).
  - intros t H. apply demo_status in H as [[_ ?]|[[_ ?]|[[-> _]|[_ ?]]]]; try done. right. cbn. inl.
  - intros s sm H. in_map H; by_decide.
  - intros s sm t H Hin. apply (demo_waiter _ _ _ H) in Hin as [-> ->]. split; [done|].
    by exists (demo_thread 4 THREAD_BLOCKED [FSema 14 true]), true, [].
  - intros t H. apply demo_status in H as [[_ ?]|[[-> _]|[[_ ?]|[-> _]]]]; try done; right; [by left|].
    right. left. exists 14, (mk_sema 0 [4]). split; [done|by_decide].
  - intros t' th t H Hin. rewrite (demo_created _ _ H) in Hin. by apply elem_of_nil in Hin.
  - intros t' th H. rewrite (demo_created _ _ H). constructor.
  - intros t th H Hd. in_map H; done.
  - done.
  - by_decide.
  - intros t. cbn [all_list demo_kernel]. split.
    + intros H. in_list H; eexists; (split; [eexists; split; [by vm_compute|done]|done]).
    + intros (st & H & _). apply demo_status in H as [[-> _]|[[-> _]|[[-> _]|[-> _]]]]; by_decide.
  - intros s H. cbn in H. destruct (semas demo_kernel !! s) eqn:E; [|done]. in_map E; lia.
Qed.

Lemma demo_kinv : kinv demo_kernel.
Proof. split; [apply demo_sched|]. repeat constructor. Qed.

Lemma demo_tokens l lk u : locks demo_kernel !! l = Some lk -> held_tokens demo_kernel l lk u = 0%nat.
Proof.
  intros _. unfold held_tokens, frames_of. destruct (threads demo_kernel !! u) eqn:E; [|done]. in_map E; done.
Qed.

Lemma demo_lsema l s : lsema_of demo_kernel l = Some s -> l = 10 /\ s = 11 \/ l = 12 /\ s = 13.
Proof. unfold lsema_of. destruct (locks demo_kernel !! l) eqn:E; [|done]. in_map E; intros [= <-]; auto. Qed.

Lemma demo_safe : safe demo_kernel.
Proof.
  split; [apply demo_kinv|]. split.
  - intros l1 l2 s H1 H2. apply demo_lsema in H1, H2. lia.
  - intros u. unfold frames_of. destruct (threads demo_kernel !! u) eqn:E; [|done]. in_map E; cbn; try done.
    split; [|done]. intros l H. apply demo_lsema in H. lia.
  - done.
  - intros l lk H. pose proof (fun u => demo_tokens l lk u H) as HT. exists 1.
    split; [in_map H; done|]. left. split; [done|]. split; [in_map H; done|done].
Qed.

(** The initial thread acquires the lock 12: the call and the two frames it leaves. *)
Definition ran (o : outcome (unit * K)) (k : K) : K := match o with Done (_, k') => k' | _ => k end.
Definition demo1 : K := ran (run_call (CAcquire 12) demo_kernel) demo_kernel.
Definition demo2 : K := ran (resume demo1) demo1.
Definition demo3 : K := ran (resume demo2) demo2.

Lemma demo_steps : steps demo_kernel demo3.
Proof.
  eapply rtc_l; [apply (step_call demo_kernel demo1 (CAcquire 12)); by vm_compute|].
  eapply rtc_l; [apply (step_resume demo1 demo2); by vm_compute|].
  eapply rtc_l; [apply (step_resume demo2 demo3); by vm_compute|]. constructor.
Qed.

(** ** Witnesses *)

Lemma steps_scheduled_witness : is_status demo3 1 THREAD_RUNNING.
Proof.
  apply (proj2 (proj1 (steps_scheduled demo_kernel demo3 demo_kinv demo_steps) 1)). vm_compute. reflexivity.
Defined.

Lemma mutual_exclusion_witness :
  locks demo3 !! 12 = Some (mk_lock 1 13) /\ val_of demo3 13 = Some 0 /\ (forall t, inside demo3 12 (mk_lock 1 13) t -> t = 1).
Proof.
  assert (locks demo3 !! 12 = Some (mk_lock 1 13)) as Hl by (vm_compute; reflexivity).
  destruct (mutual_exclusion demo_kernel demo3 12 (mk_lock 1 13) demo_safe demo_steps Hl) as (H1 & _ & H2).
  assert (inside demo3 12 (mk_lock 1 13) 1) as Hin by (left; split; [reflexivity|discriminate]).
  split; [exact Hl|]. split; [exact (H2 1 Hin)|]. intros t Ht. exact (H1 t 1 Ht Hin).
Defined.

Lemma lock_misuse_witness : lock_acquire 12 demo3 = Panic /\ lock_release 12 demo_kernel = Panic.
Proof.
  split.
  - refine (proj1 (proj1 (lock_misuse demo3 12 (mk_lock 1 13) _ _ _) _)); try by vm_compute.
    apply ki_sched, (steps_kinv demo_kernel demo3 demo_kinv demo_steps).
  - refine (proj2 (lock_misuse demo_kernel 12 (mk_lock 0 13) demo_sched _ _) _); by vm_compute.
Defined.

Lemma sema_up_correct_witness : ready_list (ran (sema_up 14 demo_kernel) demo_kernel) = [3; 4].
Proof.
  rewrite (sema_up_correct demo_kernel 14 (mk_sema 0 [4]) demo_sched); [vm_compute; reflexivity|reflexivity|discriminate|reflexivity].
Defined.

Lemma sema_down_correct_witness :
  val_of (ran (sema_down 13 demo_kernel) demo_kernel) 13 = Some 0 /\
  exists k', sema_down 14 demo_kernel = Done (tt, k') /\ sched k' true None.
Proof.
  split.
  - rewrite (proj1 (sema_down_correct demo_kernel 13 (mk_sema 1 []) demo_sched eq_refl ltac:(discriminate) ltac:(discriminate) eq_refl));
      [vm_compute; reflexivity|discriminate].
  - destruct (proj2 (sema_down_correct demo_kernel 14 (mk_sema 0 [4]) demo_sched eq_refl ltac:(discriminate) ltac:(discriminate) eq_refl) eq_refl)
      as (th & k' & _ & H & _ & Hk). exists k'. split; assumption.
Defined.

Lemma thread_yield_correct_witness : exists k', thread_yield demo_kernel = Done (tt, k') /\ current k' = 3.
Proof.
  destruct (thread_yield_correct demo_kernel demo_sched eq_refl) as (th & k1 & k' & Ht & E & H & Hsw & _).
  exists k'. split; [exact H|]. destruct (sw_next _ _ Hsw) as (next & [[Hr Hc]|[Hr _]]); rewrite E in Hr; vm_compute in Hr.
  - rewrite Hc. injection Hr as <- _. reflexivity.
  - discriminate Hr.
Defined.

(** ** A thread created and gone *)

Inductive act := Call (c : call) | Resume | Idle | Timer.

Definition run_act (a : act) : M K unit :=
  match a with Call c => run_call c | Resume => resume | Idle => idle_step | Timer => timer_interrupt end.

Definition may_act (a : act) (k : K) : bool :=
  match a with
  | Call c => bool_decide (frames_of k (current k) = [] /\ current k <> idle_thread k) &&
      match c with CCreate (Some t) _ _ => bool_decide (threads k !! t = None) | CExit => true | _ => false end
  | Resume => bool_decide (frames_of k (current k) <> [])
  | Idle => bool_decide (frames_of k (current k) = [] /\ current k = idle_thread k)
  | Timer => true
  end.

Fixpoint run_acts (l : list act) (k : K) : option K :=
  match l with
  | [] => Some k
  | a :: l' => if may_act a k then match run_act a k with Done (_, k') => run_acts l' k' | _ => None end else None
  end.

#[export] Instance frame_dec : EqDecision frame.
Proof. solve_decision. Defined.
#[export] Instance thread_dec : EqDecision thread.
Proof. solve_decision. Defined.

Lemma run_acts_steps l k k' : run_acts l k = Some k' -> steps k k'.
Proof.
  revert k. induction l as [|a l IH]; intros k H; cbn in H; [injection H as ->; constructor|].
  destruct (may_act a k) eqn:Ha; [|done]. destruct (run_act a k) as [[[] k1]| | |] eqn:Hr; try done.
  apply (rtc_l _ _ k1); [|by apply IH]. destruct a as [c| | |]; cbn in Ha, Hr.
  - apply andb_prop in Ha as [[Hf Hi]%bool_decide_eq_true Ha]. apply (step_call k k1 c); [done|done| |done].
    destruct c as [| | | | | | | | | | | |[t|]]; try done. by apply bool_decide_eq_true in Ha.
  - apply step_resume; [|done]. by apply bool_decide_eq_true in Ha.
  - apply bool_decide_eq_true in Ha as [Hf Hi]. by apply step_idle.
  - by apply step_timer.
Qed.

(** The initial thread creates a thread at page 5 and is preempted when the
    thread is on the run queue; the other threads run until they exit. *)
Definition gone_acts : list act :=
  [Call (CCreate (Some 5) [110] PRI_DEFAULT); Resume; Resume; Resume; Resume; Resume;
   Timer; Resume; Timer; Resume; Timer; Resume; Timer;
   Resume; Call CExit; Resume; Call CExit; Resume; Resume].

Definition gone : K := match run_acts gone_acts demo_kernel with Some k => k | None => demo_kernel end.

(** [thread_create] returns [t->tid] after [thread_unblock (t)]: when the new
    thread has run to its end by then, the page it reads has been freed. *)
Lemma created_thread_freed :
  steps demo_kernel gone /\ current gone = 1 /\ frames_of gone 1 = [FResult 5] /\ threads gone !! 5 = None /\
  resume gone = Fault.
Proof.
  split; [apply (run_acts_steps gone_acts); vm_compute; reflexivity|].
  repeat split; vm_compute; reflexivity.
Qed.
