(* ===== verification/Mem.v ===== *)
(** * Byte-addressed memory

    The memory that C pointers address: a finite map from addresses to bytes.  A
    load or store at an address the map does not hold is a [Fault].  Words are
    little-endian.  A C string is the list of its characters; [cstr m p s] says
    that it lies at [p], with its terminator. *)

From S2P Require Import Prelude.

Abbreviation mem := (gmap Z Z).

Definition load8 (p : Z) : M mem Z := load (fun m => m !! p).

Definition store8 (p v : Z) : M mem unit := fun m =>
  match m !! p with Some _ => Done (tt, <[p := u8 v]> m) | None => Fault end.

(** [n] bytes from [p] on. *)
Fixpoint load_bytes (n : nat) (p : Z) : M mem (list Z) :=
  match n with
  | O => mret []
  | S n => b ← load8 p; bs ← load_bytes n (p + 1); mret (b :: bs)
  end.

Fixpoint store_bytes (p : Z) (bs : list Z) : M mem unit :=
  match bs with
  | [] => mret tt
  | b :: bs => store8 p b ;; store_bytes (p + 1) bs
  end.

Definition le_bytes (v : Z) : list Z := [u8 v; u8 (v / 2 ^ 8); u8 (v / 2 ^ 16); u8 (v / 2 ^ 24)].
Definition le_word (bs : list Z) : Z :=
  match bs with
  | [a; b; c; d] => a + b * 2 ^ 8 + c * 2 ^ 16 + d * 2 ^ 24
  | _ => 0
  end.

Definition load32 (p : Z) : M mem Z := bs ← load_bytes 4 p; mret (le_word bs).
Definition store32 (p v : Z) : M mem unit := store_bytes p (le_bytes v).

(** ** What memory holds *)

Fixpoint bytes_at (m : mem) (p : Z) (bs : list Z) : Prop :=
  match bs with
  | [] => True
  | b :: bs => m !! p = Some b /\ bytes_at m (p + 1) bs
  end.

(** The characters a string can have. *)
Definition is_char (c : Z) : Prop := 0 < c < 2 ^ 8.

Definition cstr (m : mem) (p : Z) (s : list Z) : Prop := bytes_at m p (s ++ [0]) /\ Forall is_char s.

Definition mapped (m : mem) (p n : Z) : Prop := forall a, p <= a < p + n -> is_Some (m !! a).

(** Two memories that agree outside [n] bytes from [p] on. *)
Definition outside (m m' : mem) (p n : Z) : Prop :=
  forall a, ~ (p <= a < p + n) -> m' !! a = m !! a.

Definition is_byte (b : Z) : Prop := 0 <= b < 2 ^ 8.

Section Bytes.
Implicit Types (m : mem) (p : Z) (bs : list Z).

Lemma bytes_at_app m bs1 : forall p bs2,
  bytes_at m p (bs1 ++ bs2) <-> bytes_at m p bs1 /\ bytes_at m (p + zlen bs1) bs2.
Proof.
  induction bs1 as [|b bs1 IH]; intros p bs2.
  - cbn. unfold zlen. cbn. rewrite Z.add_0_r. tauto.
  - cbn. rewrite IH. replace (p + 1 + zlen bs1) with (p + zlen (b :: bs1)) by (unfold zlen; cbn; lia). tauto.
Qed.

Lemma bytes_at_lookup m bs : forall p i b, bytes_at m p bs -> bs !! i = Some b -> m !! (p + Z.of_nat i) = Some b.
Proof.
  induction bs as [|c bs IH]; intros p [|i] b H Hi; try done; cbn in Hi; destruct H as [H1 H2].
  - injection Hi as <-. by rewrite Z.add_0_r.
  - rewrite <- (IH (p + 1) i b); [f_equal; lia|done|done].
Qed.

Lemma bytes_at_intro m bs : forall p, (forall i b, bs !! i = Some b -> m !! (p + Z.of_nat i) = Some b) -> bytes_at m p bs.
Proof.
  induction bs as [|c bs IH]; intros p H; [done|]. split.
  - rewrite <- (H O c eq_refl). f_equal. lia.
  - apply IH. intros i b Hi. rewrite <- (H (S i) b Hi). f_equal. lia.
Qed.

(** A part of memory that does not change. *)
Lemma bytes_at_frame m m' bs p : (forall a, p <= a < p + zlen bs -> m' !! a = m !! a) ->
  bytes_at m p bs -> bytes_at m' p bs.
Proof.
  intros E H. apply bytes_at_intro. intros i b Hi. rewrite E; [by eapply bytes_at_lookup|].
  apply lookup_lt_Some in Hi. unfold zlen. lia.
Qed.

Lemma bytes_at_insert m p bs a v : a < p \/ p + zlen bs <= a -> bytes_at m p bs -> bytes_at (<[a := v]> m) p bs.
Proof. intros Ha. apply (bytes_at_frame m). intros x Hx. rewrite lookup_insert_ne; [done|lia]. Qed.

Lemma bytes_at_mapped m p bs : bytes_at m p bs -> mapped m p (zlen bs).
Proof.
  intros H a Ha. unfold zlen in Ha. destruct (lookup_lt_is_Some_2 bs (Z.to_nat (a - p))) as [b Hb]; [lia|].
  exists b. rewrite <- (bytes_at_lookup m bs p _ b H Hb). f_equal. lia.
Qed.

Lemma bytes_at_inj m bs : forall p bs', bytes_at m p bs -> bytes_at m p bs' -> length bs = length bs' -> bs = bs'.
Proof.
  induction bs as [|b bs IH]; intros p [|b' bs']; cbn; try done. intros [H1 H2] [H1' H2'] [= Hl].
  f_equal; [congruence|by eapply IH].
Qed.

Lemma cstr_cons m p c s : cstr m p (c :: s) <-> m !! p = Some c /\ is_char c /\ cstr m (p + 1) s.
Proof. unfold cstr. cbn. rewrite Forall_cons. tauto. Qed.

Lemma cstr_nil m p : cstr m p [] <-> m !! p = Some 0.
Proof. unfold cstr. cbn. split; [tauto|intros; repeat split; auto]. Qed.

Lemma cstr_drop m p s1 s2 : cstr m p (s1 ++ s2) -> cstr m (p + zlen s1) s2.
Proof.
  unfold cstr. rewrite <- app_assoc, bytes_at_app, Forall_app. tauto.
Qed.

Lemma cstr_frame m m' p s : (forall a, p <= a <= p + zlen s -> m' !! a = m !! a) -> cstr m p s -> cstr m' p s.
Proof.
  intros E [H Hn]. split; [|done]. eapply bytes_at_frame; [|exact H].
  intros a Ha. apply E. unfold zlen in *. rewrite length_app in Ha. cbn in Ha. lia.
Qed.

(** A string read by its terminator is unique. *)
Lemma cstr_inj m p s s' : cstr m p s -> cstr m p s' -> s = s'.
Proof.
  revert p s'. induction s as [|c s IH]; intros p [|c' s'] H H'; [done| | |].
  - apply cstr_nil in H. apply cstr_cons in H' as (? & [? _] & _). simplify_eq; lia.
  - apply cstr_nil in H'. apply cstr_cons in H as (? & [? _] & _). simplify_eq; lia.
  - apply cstr_cons in H as (H & _ & Hs), H' as (H' & _ & Hs'). f_equal; [congruence|by eapply IH].
Qed.
End Bytes.

(** ** Loads and stores *)

Lemma load8_run m p b : m !! p = Some b -> load8 p m = Done (b, m).
Proof. unfold load8, load. by intros ->. Qed.

Lemma store8_run m p v : is_Some (m !! p) -> store8 p v m = Done (tt, <[p := u8 v]> m).
Proof. unfold store8. by intros [? ->]. Qed.

Lemma load_bytes_run m bs : forall p, bytes_at m p bs -> load_bytes (length bs) p m = Done (bs, m).
Proof.
  induction bs as [|b bs IH]; intros p H; [done|]. destruct H as [H1 H2]. cbn [length load_bytes].
  erewrite bind_done by (by apply load8_run). by erewrite bind_done by (by apply IH).
Qed.

(** The memory after [bs] has been stored. *)
Fixpoint stored (m : mem) (p : Z) (bs : list Z) : mem :=
  match bs with [] => m | b :: bs => stored (<[p := u8 b]> m) (p + 1) bs end.

Lemma stored_outside bs : forall m p, outside m (stored m p bs) p (zlen bs).
Proof.
  induction bs as [|b bs IH]; intros m p a Ha; [done|]. cbn. unfold zlen in *. cbn in Ha.
  rewrite IH by (unfold zlen; lia). rewrite lookup_insert_ne; [done|lia].
Qed.

Lemma stored_bytes bs : forall m p, Forall is_byte bs -> bytes_at (stored m p bs) p bs.
Proof.
  induction bs as [|b bs IH]; intros m p Hb; [done|]. apply Forall_cons in Hb as [Hb Hbs]. split; [|by apply IH].
  cbn. rewrite (stored_outside bs) by (unfold zlen; lia). rewrite lookup_insert_eq. by rewrite u8_small.
Qed.

Lemma mapped_insert m p n a v : mapped m p n -> mapped (<[a := v]> m) p n.
Proof. intros H x Hx. apply lookup_insert_is_Some'. right. by apply H. Qed.

Lemma stored_is_Some bs : forall m p a, is_Some (m !! a) -> is_Some (stored m p bs !! a).
Proof.
  induction bs as [|b bs IH]; intros m p a H; [done|]. cbn. apply IH. apply lookup_insert_is_Some'. by right.
Qed.

Lemma stored_mapped bs m p q n : mapped m q n -> mapped (stored m p bs) q n.
Proof. intros H a Ha. by apply stored_is_Some, H. Qed.

Lemma store_bytes_run bs : forall m p, mapped m p (zlen bs) -> store_bytes p bs m = Done (tt, stored m p bs).
Proof.
  induction bs as [|b bs IH]; intros m p H; [done|]. cbn [store_bytes stored].
  erewrite bind_done; [|apply store8_run, H; unfold zlen; cbn; lia].
  apply IH. apply mapped_insert. intros x Hx. apply H. unfold zlen in *. cbn. lia.
Qed.

Lemma le_bytes_byte v : Forall is_byte (le_bytes v).
Proof. unfold le_bytes. repeat constructor; apply u8_range. Qed.

Lemma bytes_le_bytes v : le_word (le_bytes v) = u32 v.
Proof. unfold le_bytes, le_word, u8, u32. Z.div_mod_to_equations. lia. Qed.

Lemma load32_run m p bs : bytes_at m p bs -> length bs = 4%nat -> load32 p m = Done (le_word bs, m).
Proof. intros H E. unfold load32. rewrite <- E. by erewrite bind_done by (by apply load_bytes_run). Qed.

Definition word_at (m : mem) (p v : Z) : Prop := bytes_at m p (le_bytes v) /\ is_u32 v.

Lemma load32_word m p v : word_at m p v -> load32 p m = Done (v, m).
Proof. intros [H Hv]. rewrite (load32_run m p _ H) by done. rewrite bytes_le_bytes, u32_small; done. Qed.

Lemma word_mapped m p v : word_at m p v -> mapped m p 4.
Proof. intros [H _]. by apply bytes_at_mapped in H. Qed.

Lemma store32_run m p v : mapped m p 4 -> store32 p v m = Done (tt, stored m p (le_bytes v)).
Proof. apply (store_bytes_run (le_bytes v)). Qed.

Lemma store32_word m p v : is_u32 v -> word_at (stored m p (le_bytes v)) p v.
Proof. intros Hv. split; [apply stored_bytes, le_bytes_byte|done]. Qed.

Lemma word_at_frame m m' p v : (forall a, p <= a < p + 4 -> m' !! a = m !! a) -> word_at m p v -> word_at m' p v.
Proof. intros E [H Hv]. split; [|done]. by apply (bytes_at_frame m). Qed.

(** ** Fuel of loops that stop at a terminator

    Consecutive mapped addresses are at most as many as the map has. *)
Definition scan_fuel : M mem nat := gets (fun m => S (size m)).

Lemma mapped_size m p n : mapped m p (Z.of_nat n) -> (n <= size m)%nat.
Proof.
  intros H. rewrite <- (size_dom (D := gset Z)).
  assert (list_to_set ((fun i => p + Z.of_nat i) <$> seq 0 n) ⊆ dom (D := gset Z) m) as Hsub.
  { intros a Ha. apply elem_of_list_to_set, list_elem_of_fmap in Ha as (i & -> & Hi).
    apply elem_of_seq in Hi. apply elem_of_dom. apply H. lia. }
  apply subseteq_size in Hsub. rewrite size_list_to_set in Hsub.
  - by rewrite length_fmap, length_seq in Hsub.
  - apply NoDup_fmap_2; [intros i j E; lia|apply NoDup_seq].
Qed.

Lemma cstr_size m p s : cstr m p s -> (length s < size m)%nat.
Proof.
  intros [H _]. apply bytes_at_mapped in H. unfold zlen in H. rewrite length_app in H. cbn in H.
  apply mapped_size in H. lia.
Qed.

(** A scan that has read a string has its fuel. *)
Lemma cstr_fuel m p s : cstr m p s -> (length s < S (size m))%nat.
Proof. intros H%cstr_size. lia. Qed.

(** ** Pointers *)

Lemma assert_nonnull p (m : mem) : 0 < p -> ASSERT (negb (p =? NULL)) m = Done (tt, m).
Proof. intros H. unfold NULL. by rewrite (proj2 (Z.eqb_neq p 0)) by lia. Qed.

Lemma is_char_byte c : is_char c -> is_byte c.
Proof. unfold is_char, is_byte. lia. Qed.

Lemma chars_bytes s : Forall is_char s -> Forall is_byte s.
Proof. intros H. eapply Forall_impl; [exact H|apply is_char_byte]. Qed.

#[export] Hint Resolve is_char_byte chars_bytes : words.

(** Run a load whose byte is known, a store to a mapped byte, a check that a
    pointer is not null. *)
Ltac ld := erewrite bind_done by (apply load8_run; eassumption).
Ltac nn := erewrite bind_done by (apply assert_nonnull; lia).
(** Decide the comparison that the computation is at. *)
Ltac dec := match goal with
  | |- context [?a =? ?b] => (rewrite (proj2 (Z.eqb_eq a b)) by lia) || (rewrite (proj2 (Z.eqb_neq a b)) by lia)
  | |- context [?a <? ?b] => (rewrite (proj2 (Z.ltb_lt a b)) by lia) || (rewrite (proj2 (Z.ltb_ge a b)) by lia)
  | |- context [?a <=? ?b] => (rewrite (proj2 (Z.leb_le a b)) by lia) || (rewrite (proj2 (Z.leb_gt a b)) by lia)
  end; cbn [negb andb orb].
(** A literal list of bytes or characters. *)
Ltac all_bytes := repeat (apply Forall_cons; split; [unfold is_byte, is_char; lia|]); apply Forall_nil; exact I.
