(* ===== verification/CString.v ===== *)
(** * lib/string.c: blocks and strings

    The functions run on the bytes of Mem; a pointer is an address and 0 is NULL.
    Characters are compared as the bytes they are stored as.  A loop that stops at
    a terminator takes its fuel from the size of the memory, which holds more
    bytes than any string in it.  [strtok_r] takes and returns the value of the
    variable [save_ptr] points to. *)

From S2P Require Import Prelude Mem.

(** ** Blocks *)

(** [while (size-- > 0) *dst++ = *src++] *)
Fixpoint copy_up (n : nat) (dst src : Z) : M mem unit :=
  match n with
  | O => mret tt
  | S n => b ← load8 src; store8 dst b ;; copy_up n (dst + 1) (src + 1)
  end.

(** [while (size-- > 0) *--dst = *--src] *)
Fixpoint copy_down (n : nat) (dst src : Z) : M mem unit :=
  match n with
  | O => mret tt
  | S n => b ← load8 (src - 1); store8 (dst - 1) b ;; copy_down n (dst - 1) (src - 1)
  end.

(** [ASSERT (p != NULL || size == 0)] *)
Definition assert_block (p size : Z) : M mem unit := ASSERT (negb (p =? NULL) || (size =? 0)).

Definition memcpy (dst src size : Z) : M mem Z :=
  assert_block dst size ;; assert_block src size ;;
  copy_up (Z.to_nat size) dst src ;; mret dst.

Definition memmove (dst src size : Z) : M mem Z :=
  assert_block dst size ;; assert_block src size ;;
  if dst <? src then copy_up (Z.to_nat size) dst src ;; mret (dst + size)
  else copy_down (Z.to_nat size) (dst + size) (src + size) ;; mret dst.

Fixpoint memcmp_loop (n : nat) (a b : Z) : M mem Z :=
  match n with
  | O => mret 0
  | S n =>
      x ← load8 a; y ← load8 b;
      if negb (x =? y) then mret (if y <? x then 1 else -1) else memcmp_loop n (a + 1) (b + 1)
  end.

Definition memcmp (a b size : Z) : M mem Z :=
  assert_block a size ;; assert_block b size ;; memcmp_loop (Z.to_nat size) a b.

Fixpoint memchr_loop (n : nat) (block ch : Z) : M mem Z :=
  match n with
  | O => mret NULL
  | S n => x ← load8 block; if x =? ch then mret block else memchr_loop n (block + 1) ch
  end.

Definition memchr (block ch size : Z) : M mem Z :=
  assert_block block size ;; memchr_loop (Z.to_nat size) block (u8 ch).

Fixpoint memset_loop (n : nat) (dst v : Z) : M mem unit :=
  match n with
  | O => mret tt
  | S n => store8 dst v ;; memset_loop n (dst + 1) v
  end.

Definition memset (dst v size : Z) : M mem Z :=
  assert_block dst size ;; memset_loop (Z.to_nat size) dst v ;; mret dst.

(** ** Strings *)

Fixpoint strlen_loop (fuel : nat) (p : Z) : M mem Z :=
  match fuel with
  | O => nofuel
  | S fuel => c ← load8 p; if negb (c =? 0) then strlen_loop fuel (p + 1) else mret p
  end.

Definition strlen (string : Z) : M mem Z :=
  ASSERT (negb (string =? NULL)) ;;
  fuel ← scan_fuel; p ← strlen_loop fuel string; mret (p - string).

Fixpoint strnlen_loop (fuel : nat) (string maxlen length : Z) : M mem Z :=
  match fuel with
  | O => nofuel
  | S fuel =>
      c ← load8 (string + length);
      if negb (c =? 0) && (length <? maxlen) then strnlen_loop fuel string maxlen (length + 1) else mret length
  end.

Definition strnlen (string maxlen : Z) : M mem Z :=
  fuel ← scan_fuel; strnlen_loop fuel string maxlen 0.

Fixpoint strcmp_loop (fuel : nat) (a b : Z) : M mem Z :=
  match fuel with
  | O => nofuel
  | S fuel =>
      x ← load8 a;
      if x =? 0 then y ← load8 b; mret (if x <? y then -1 else if y <? x then 1 else 0)
      else
        y ← load8 b;
        if x =? y then strcmp_loop fuel (a + 1) (b + 1)
        else mret (if x <? y then -1 else if y <? x then 1 else 0)
  end.

Definition strcmp (a b : Z) : M mem Z :=
  ASSERT (negb (a =? NULL)) ;; ASSERT (negb (b =? NULL)) ;;
  fuel ← scan_fuel; strcmp_loop fuel a b.

Fixpoint strchr_loop (fuel : nat) (string c : Z) : M mem Z :=
  match fuel with
  | O => nofuel
  | S fuel =>
      x ← load8 string;
      if x =? c then mret string else if x =? 0 then mret NULL else strchr_loop fuel (string + 1) c
  end.

Definition strchr (string c : Z) : M mem Z :=
  ASSERT (negb (string =? NULL)) ;;
  fuel ← scan_fuel; strchr_loop fuel string (u8 c).

Fixpoint strcspn_loop (fuel : nat) (string stop length : Z) : M mem Z :=
  match fuel with
  | O => nofuel
  | S fuel =>
      c ← load8 (string + length);
      if negb (c =? 0) then
        q ← strchr stop c;
        if negb (q =? NULL) then mret length else strcspn_loop fuel string stop (length + 1)
      else mret length
  end.

Definition strcspn (string stop : Z) : M mem Z := fuel ← scan_fuel; strcspn_loop fuel string stop 0.

Fixpoint strspn_loop (fuel : nat) (string skip length : Z) : M mem Z :=
  match fuel with
  | O => nofuel
  | S fuel =>
      c ← load8 (string + length);
      if negb (c =? 0) then
        q ← strchr skip c;
        if q =? NULL then mret length else strspn_loop fuel string skip (length + 1)
      else mret length
  end.

Definition strspn (string skip : Z) : M mem Z := fuel ← scan_fuel; strspn_loop fuel string skip 0.

Fixpoint strpbrk_loop (fuel : nat) (string stop : Z) : M mem Z :=
  match fuel with
  | O => nofuel
  | S fuel =>
      c ← load8 string;
      if c =? 0 then mret NULL
      else q ← strchr stop c; if negb (q =? NULL) then mret string else strpbrk_loop fuel (string + 1) stop
  end.

Definition strpbrk (string stop : Z) : M mem Z := fuel ← scan_fuel; strpbrk_loop fuel string stop.

Fixpoint strrchr_loop (fuel : nat) (string c p : Z) : M mem Z :=
  match fuel with
  | O => nofuel
  | S fuel =>
      x ← load8 string;
      if x =? 0 then mret p else strrchr_loop fuel (string + 1) c (if x =? c then string else p)
  end.

Definition strrchr (string c : Z) : M mem Z := fuel ← scan_fuel; strrchr_loop fuel string (u8 c) NULL.

(** The loop of [strstr] over the [n] positions that are left. *)
Fixpoint strstr_loop (n : nat) (haystack needle needle_len : Z) : M mem Z :=
  match n with
  | O => mret NULL
  | S n =>
      r ← memcmp haystack needle needle_len;
      if r =? 0 then mret haystack else strstr_loop n (haystack + 1) needle needle_len
  end.

Definition strstr (haystack needle : Z) : M mem Z :=
  haystack_len ← strlen haystack;
  needle_len ← strlen needle;
  if needle_len <=? haystack_len then
    strstr_loop (Z.to_nat (haystack_len - needle_len + 1)) haystack needle needle_len
  else mret NULL.

(** The first loop of [strtok_r]: [None] at the end of the string. *)
Fixpoint skip_delimiters (fuel : nat) (s delimiters : Z) : M mem (Z * bool) :=
  match fuel with
  | O => nofuel
  | S fuel =>
      c ← load8 s;
      q ← strchr delimiters c;
      if q =? NULL then mret (s, true)
      else
        c ← load8 s;
        if c =? 0 then mret (s, false) else skip_delimiters fuel (s + 1) delimiters
  end.

(** The second loop. *)
Fixpoint skip_token (fuel : nat) (s delimiters : Z) : M mem Z :=
  match fuel with
  | O => nofuel
  | S fuel =>
      c ← load8 s;
      q ← strchr delimiters c;
      if q =? NULL then skip_token fuel (s + 1) delimiters else mret s
  end.

(** The token, or NULL, and the new value of [*save_ptr]. *)
Definition strtok_r (s delimiters save : Z) : M mem (Z * Z) :=
  ASSERT (negb (delimiters =? NULL)) ;;
  let s := if s =? NULL then save else s in
  ASSERT (negb (s =? NULL)) ;;
  fuel ← scan_fuel;
  '(s, found) ← skip_delimiters fuel s delimiters;
  if negb found then mret (NULL, s)
  else
    let token := s in
    s ← skip_token fuel s delimiters;
    c ← load8 s;
    if negb (c =? 0) then store8 s 0 ;; mret (token, s + 1) else mret (token, s).

Definition strlcpy (dst src size : Z) : M mem Z :=
  ASSERT (negb (dst =? NULL)) ;; ASSERT (negb (src =? NULL)) ;;
  src_len ← strlen src;
  (if 0 <? size then
     let dst_len := if src_len <? size - 1 then src_len else size - 1 in
     _ ← memcpy dst src dst_len;
     store8 (dst + dst_len) 0
   else mret tt) ;;
  mret src_len.

Definition strlcat (dst src size : Z) : M mem Z :=
  ASSERT (negb (dst =? NULL)) ;; ASSERT (negb (src =? NULL)) ;;
  src_len ← strlen src;
  dst_len ← strlen dst;
  (if (0 <? size) && (dst_len <? size) then
     let copy_cnt := size - dst_len - 1 in
     let copy_cnt := if src_len <? copy_cnt then src_len else copy_cnt in
     _ ← memcpy (dst + dst_len) src copy_cnt;
     store8 (dst + dst_len + copy_cnt) 0
   else mret tt) ;;
  mret (src_len + dst_len).

(** ** Blocks: what they compute *)

Section Blocks.
Implicit Types (m : mem) (bs : list Z).

Lemma assert_block_run m p n : 0 < p -> assert_block p n m = Done (tt, m).
Proof. intros H. unfold assert_block, NULL. by rewrite (proj2 (Z.eqb_neq p 0)) by lia. Qed.

Lemma copy_up_run bs : forall m dst src,
  bytes_at m src bs -> Forall is_byte bs -> mapped m dst (zlen bs) -> dst <= src \/ src + zlen bs <= dst ->
  copy_up (length bs) dst src m = Done (tt, stored m dst bs).
Proof.
  induction bs as [|b bs IH]; intros m dst src Hs Hb Hm Ho; [done|]. destruct Hs as [Hs1 Hs2].
  apply Forall_cons in Hb as [Hb Hbs]. rewrite zlen_cons in *. pose proof (zlen_nonneg bs).
  cbn [length copy_up stored]. ld.
  erewrite bind_done by (apply store8_run, Hm; lia). apply IH; [|done| |lia].
  - apply bytes_at_insert; [lia|done].
  - apply mapped_insert. intros x Hx. apply Hm. lia.
Qed.

Lemma copy_down_run bs : forall m dst src,
  bytes_at m src bs -> Forall is_byte bs -> mapped m dst (zlen bs) -> src <= dst \/ dst + zlen bs <= src ->
  exists m', copy_down (length bs) (dst + zlen bs) (src + zlen bs) m = Done (tt, m') /\
    bytes_at m' dst bs /\ outside m m' dst (zlen bs).
Proof.
  induction bs as [|b bs IH] using rev_ind; intros m dst src Hs Hb Hm Ho; [by exists m|].
  apply bytes_at_app in Hs as (Hs1 & Hs2 & _). apply Forall_app in Hb as [Hbs [Hb _]%Forall_cons].
  rewrite zlen_app in *. change (zlen [b]) with 1 in *. pose proof (zlen_nonneg bs).
  rewrite length_app, Nat.add_comm. cbn [length Nat.add copy_down].
  replace (src + (zlen bs + 1) - 1) with (src + zlen bs) by lia.
  replace (dst + (zlen bs + 1) - 1) with (dst + zlen bs) by lia.
  ld. erewrite bind_done by (apply store8_run, Hm; lia). rewrite (u8_small b) by done.
  destruct (IH (<[dst + zlen bs := b]> m) dst src) as (m' & -> & H1 & H2).
  - apply bytes_at_insert; [lia|done].
  - done.
  - apply mapped_insert. intros x Hx. apply Hm. lia.
  - lia.
  - exists m'. split; [done|]. split.
    + apply bytes_at_app. split; [done|]. split; [|done]. rewrite H2 by lia. apply lookup_insert_eq.
    + intros a Ha. rewrite H2 by lia. apply lookup_insert_ne. lia.
Qed.

Lemma memcpy_run m dst src bs :
  bytes_at m src bs -> Forall is_byte bs -> mapped m dst (zlen bs) -> 0 < dst -> 0 < src ->
  dst <= src \/ src + zlen bs <= dst -> memcpy dst src (zlen bs) m = Done (dst, stored m dst bs).
Proof.
  intros Hs Hb Hm Hd Hp Ho. unfold memcpy. do 2 (erewrite bind_done by by apply assert_block_run).
  rewrite zlen_to_nat. by erewrite bind_done by by apply copy_up_run.
Qed.

(** Memmove leaves the old contents of the source at the destination, however
    the two blocks overlap, and changes no other byte.  What it returns is the end
    of the destination when the copy goes upwards. *)
Theorem memmove_correct m dst src bs :
  bytes_at m src bs -> Forall is_byte bs -> mapped m dst (zlen bs) -> 0 < dst -> 0 < src ->
  exists m', memmove dst src (zlen bs) m = Done (if dst <? src then dst + zlen bs else dst, m') /\
    bytes_at m' dst bs /\ outside m m' dst (zlen bs).
Proof.
  intros Hs Hb Hm Hd Hp. unfold memmove. do 2 (erewrite bind_done by by apply assert_block_run).
  rewrite zlen_to_nat. destruct (Z.ltb_spec dst src).
  - exists (stored m dst bs). erewrite bind_done by (apply copy_up_run; try done; lia).
    split; [done|]. split; [by apply stored_bytes|apply stored_outside].
  - destruct (copy_down_run bs m dst src) as (m' & Hc & Hm'); try done; [lia|].
    exists m'. by erewrite bind_done by apply Hc.
Qed.

(** The order of blocks: that of their first difference. *)
Fixpoint block_compare (xs ys : list Z) : Z :=
  match xs, ys with
  | x :: xs, y :: ys => if x =? y then block_compare xs ys else if y <? x then 1 else -1
  | _, _ => 0
  end.

Lemma memcmp_run xs : forall ys m a b, bytes_at m a xs -> bytes_at m b ys -> length xs = length ys ->
  memcmp_loop (length xs) a b m = Done (block_compare xs ys, m).
Proof.
  induction xs as [|x xs IH]; intros [|y ys] m a b Hx Hy Hl; try done. destruct Hx, Hy. injection Hl as Hl.
  cbn [length memcmp_loop block_compare]. do 2 ld. destruct (Z.eqb_spec x y); cbn [negb]; [by apply IH|done].
Qed.

Lemma block_compare_eq xs : forall ys, length xs = length ys -> block_compare xs ys = 0 <-> xs = ys.
Proof.
  induction xs as [|x xs IH]; intros [|y ys] Hl; try done. injection Hl as Hl. cbn.
  destruct (Z.eqb_spec x y) as [->|]; [rewrite IH by done; naive_solver|].
  split; [|naive_solver]. by destruct (y <? x).
Qed.

Lemma memset_run n : forall m dst v, mapped m dst (Z.of_nat n) ->
  memset_loop n dst v m = Done (tt, stored m dst (replicate n v)).
Proof.
  induction n as [|n IH]; intros m dst v H; [done|]. cbn [memset_loop replicate stored].
  erewrite bind_done by (apply store8_run, H; lia). apply IH, mapped_insert. intros x Hx. apply H. lia.
Qed.

Lemma memset_correct m dst v n : 0 < dst -> 0 <= n -> mapped m dst n ->
  memset dst v n m = Done (dst, stored m dst (replicate (Z.to_nat n) v)).
Proof.
  intros Hd Hn H. unfold memset. erewrite bind_done by by apply assert_block_run.
  by erewrite bind_done by (apply memset_run; by rewrite Z2Nat.id).
Qed.
End Blocks.

(** ** Strings: what they compute *)

Section Strings.
Implicit Types (m : mem) (s t : list Z).

Lemma strlen_run s : forall m p fuel, cstr m p s -> (length s < fuel)%nat ->
  strlen_loop fuel p m = Done (p + zlen s, m).
Proof.
  induction s as [|c s IH]; intros m p [|fuel] H Hf; cbn in Hf; try lia; cbn [strlen_loop].
  - apply cstr_nil in H. ld. cbn. by rewrite Z.add_0_r.
  - apply cstr_cons in H as (H & [Hc _] & Hs). ld. dec. rewrite (IH m) by (done || lia).
    rewrite zlen_cons. do 2 f_equal. lia.
Qed.

Lemma strlen_correct m p s : cstr m p s -> 0 < p -> strlen p m = Done (zlen s, m).
Proof.
  intros H Hp. unfold strlen. nn. unfold scan_fuel. erewrite bind_done by done.
  erewrite bind_done by (apply (strlen_run s); [done|by eapply cstr_fuel]).
  unfold mret, M_ret. do 2 f_equal. lia.
Qed.

(** The position of the first [c], the terminator included. *)
Fixpoint char_pos (c : Z) (s : list Z) : option Z :=
  match s with
  | [] => if c =? 0 then Some 0 else None
  | x :: s => if x =? c then Some 0 else i ← char_pos c s; Some (1 + i)
  end.

(** A position relative to [p], or NULL. *)
Definition found_at (p : Z) (o : option Z) : Z := match o with Some i => p + i | None => NULL end.

Lemma cstr_end m p s : cstr m p s -> m !! (p + zlen s) = Some 0.
Proof. intros [H _]. apply bytes_at_app in H as [_ [H _]]. done. Qed.

Lemma strnlen_run s : forall m p fuel max k t, cstr m p (t ++ s) -> zlen t = k -> k + zlen s <= max -> (length s < fuel)%nat ->
  strnlen_loop fuel p max k m = Done (k + zlen s, m).
Proof.
  induction s as [|c s IH]; intros m p [|fuel] max k t Hs Hk Hm Hf; cbn in Hf; try lia; cbn [strnlen_loop].
  - pose proof (cstr_end _ _ _ Hs) as H0. rewrite app_nil_r in H0. rewrite Hk in H0. ld. cbn [negb andb Z.eqb]. by rewrite Z.add_0_r.
  - pose proof (cstr_drop _ _ _ _ Hs) as Hd. rewrite Hk in Hd. apply cstr_cons in Hd as (Hc & [Hc0 _] & _). rewrite zlen_cons in Hm.
    pose proof (zlen_nonneg s). ld. dec. dec. rewrite (IH m p fuel max (k + 1) (t ++ [c])).
    + rewrite zlen_cons. do 2 f_equal. lia.
    + by rewrite <- app_assoc.
    + rewrite zlen_app, Hk. done.
    + lia.
    + lia.
Qed.

Lemma strnlen_all m p s : cstr m p s -> zlen s < 2 ^ 32 -> strnlen p (u32 (-1)) m = Done (zlen s, m).
Proof.
  intros Hs Hl. unfold strnlen, scan_fuel. erewrite bind_done by done.
  rewrite (strnlen_run s m p _ _ 0 []); [done|done|done|change (u32 (-1)) with (2 ^ 32 - 1); lia|by eapply cstr_fuel].
Qed.

Lemma strchr_loop_run s : forall m p c fuel, cstr m p s -> (length s < fuel)%nat ->
  strchr_loop fuel p c m = Done (found_at p (char_pos c s), m).
Proof.
  induction s as [|x s IH]; intros m p c [|fuel] H Hf; cbn in Hf; try lia; cbn [strchr_loop char_pos].
  - apply cstr_nil in H. ld. rewrite (Z.eqb_sym c 0). destruct (Z.eqb_spec 0 c); [|done].
    cbn. by rewrite Z.add_0_r.
  - apply cstr_cons in H as (H & [Hc _] & Hs). ld. destruct (Z.eqb_spec x c); [cbn; by rewrite Z.add_0_r|].
    dec. rewrite (IH m) by (done || lia). destruct (char_pos c s); [|done]. cbn. do 2 f_equal. lia.
Qed.

Lemma strchr_run m p c s : cstr m p s -> 0 < p -> strchr p c m = Done (found_at p (char_pos (u8 c) s), m).
Proof.
  intros H Hp. unfold strchr. nn. unfold scan_fuel. erewrite bind_done by done.
  apply strchr_loop_run; [done|by eapply cstr_fuel].
Qed.

Lemma char_pos_range c s i : char_pos c s = Some i -> 0 <= i <= zlen s.
Proof.
  revert i. induction s as [|x s IH]; intros i; cbn; [case_match; naive_solver lia|].
  rewrite zlen_cons. pose proof (zlen_nonneg s). destruct (x =? c); [intros [= <-]; lia|].
  destruct (char_pos c s) as [j|]; [|done]. intros [= <-]. specialize (IH j eq_refl). lia.
Qed.

(** [*s] is a delimiter, or the terminator. *)
Lemma strchr_test m p c s : cstr m p s -> 0 < p -> is_byte c ->
  exists q, strchr p c m = Done (q, m) /\ (q =? NULL) = negb (bool_decide (c ∈ 0 :: s)).
Proof.
  intros H Hp Hc. eexists. split; [by apply strchr_run|]. rewrite (u8_small c) by done.
  assert (forall o, char_pos c s = o -> (o = None <-> c ∉ 0 :: s)) as E.
  { intros o <-. clear. induction s as [|x s IH]; cbn.
    - rewrite !not_elem_of_cons. destruct (Z.eqb_spec c 0); split; try done; [naive_solver|].
      intros _. split; [done|apply not_elem_of_nil].
    - rewrite !not_elem_of_cons in *. destruct (Z.eqb_spec x c) as [->|]; [naive_solver|].
      destruct (char_pos c s); cbn; [|naive_solver]. split; [done|]. intros (? & ? & ?). destruct IH. naive_solver. }
  destruct (char_pos c s) as [i|] eqn:Ei; specialize (E _ eq_refl); cbn.
  - apply char_pos_range in Ei. unfold NULL. dec. rewrite bool_decide_true; [done|].
    destruct (decide (c ∈ 0 :: s)); [done|]. destruct E as [_ E]. by discriminate E.
  - rewrite bool_decide_false; [done|]. by apply E.
Qed.

(** The order of strings. *)
Fixpoint str_compare (s t : list Z) : Z :=
  match s, t with
  | [], [] => 0
  | [], _ :: _ => -1
  | _ :: _, [] => 1
  | x :: s, y :: t => if x =? y then str_compare s t else if x <? y then -1 else 1
  end.

Lemma strcmp_run s : forall t m a b fuel, cstr m a s -> cstr m b t -> (length s < fuel)%nat ->
  strcmp_loop fuel a b m = Done (str_compare s t, m).
Proof.
  induction s as [|x s IH]; intros t m a b [|fuel] Ha Hb Hf; cbn in Hf; try lia; cbn [strcmp_loop].
  - apply cstr_nil in Ha. ld. cbn [Z.eqb]. destruct t as [|y t].
    + apply cstr_nil in Hb. by ld.
    + apply cstr_cons in Hb as (Hb & [Hy _] & _). ld. by dec.
  - apply cstr_cons in Ha as (Ha & [Hx _] & Hs). ld. dec. destruct t as [|y t].
    + apply cstr_nil in Hb. ld. by repeat dec.
    + apply cstr_cons in Hb as (Hb & [Hy _] & Ht). ld. cbn [str_compare].
      destruct (Z.eqb_spec x y); [apply IH; done || lia|].
      destruct (Z.ltb_spec x y); [done|]. by dec.
Qed.

Lemma strcmp_correct m a b s t : cstr m a s -> cstr m b t -> 0 < a -> 0 < b ->
  strcmp a b m = Done (str_compare s t, m).
Proof.
  intros Ha Hb Hpa Hpb. unfold strcmp. do 2 nn. unfold scan_fuel. erewrite bind_done by done.
  apply strcmp_run; [done|done|by eapply cstr_fuel].
Qed.

Lemma str_compare_eq s : forall t, str_compare s t = 0 <-> s = t.
Proof.
  induction s as [|x s IH]; intros [|y t]; try done. cbn.
  destruct (Z.eqb_spec x y) as [->|]; [rewrite IH; naive_solver|].
  split; [|naive_solver]. by destruct (x <? y).
Qed.

Lemma str_compare_sym s : forall t, str_compare t s = - str_compare s t.
Proof.
  induction s as [|x s IH]; intros [|y t]; try done. cbn. rewrite (Z.eqb_sym y x).
  destruct (Z.eqb_spec x y); [done|]. destruct (Z.ltb_spec x y), (Z.ltb_spec y x); lia || done.
Qed.

Lemma strlcpy_run m dst src s size :
  cstr m src s -> 0 < src -> 0 < dst -> 0 < size -> mapped m dst (Z.min size (zlen s + 1)) ->
  dst + size <= src \/ src + zlen s < dst ->
  exists m', strlcpy dst src size m = Done (zlen s, m') /\
    cstr m' dst (take (Z.to_nat (size - 1)) s) /\ outside m m' dst (Z.min size (zlen s + 1)).
Proof.
  intros H Hs Hd Hz Hm Ho. unfold strlcpy. do 2 nn. erewrite bind_done by by apply strlen_correct. dec.
  pose proof (zlen_nonneg s). set (n := if zlen s <? size - 1 then _ else _).
  assert (n = Z.min (zlen s) (size - 1)) as En by (unfold n; destruct (Z.ltb_spec (zlen s) (size - 1)); lia).
  set (t := take (Z.to_nat (size - 1)) s).
  assert (zlen t = n) as Et by (unfold t, zlen in *; rewrite length_take; lia).
  destruct H as [H Hc]. assert (Forall is_char t) as Hct by by apply Forall_take.
  assert (bytes_at m src t) as Ht.
  { rewrite <- (take_drop (Z.to_nat (size - 1)) s), <- app_assoc in H. by apply bytes_at_app in H as [H _]. }
  exists (<[dst + n := 0]> (stored m dst t)).
  assert (memcpy dst src n m = Done (dst, stored m dst t)) as Hcpy.
  { rewrite <- Et. apply memcpy_run; auto with words; [|lia]. intros a Ha. apply Hm. lia. }
  erewrite bind_done; [|erewrite bind_done by exact Hcpy; apply store8_run].
  - split; [done|]. split.
    + split; [|done]. apply bytes_at_app. split; [apply bytes_at_insert; [lia|apply stored_bytes; auto with words]|].
      split; [|done]. rewrite Et. apply lookup_insert_eq.
    + intros a Ha. rewrite lookup_insert_ne by lia. apply stored_outside. lia.
  - rewrite stored_outside by lia. apply Hm. lia.
Qed.

(** Strlcpy copies as much of the source as fits before a terminator in the
    [size] bytes, writes nothing else, and returns the length of the source. *)
Theorem strlcpy_correct m dst src s size :
  cstr m src s -> 0 < src -> 0 < dst -> 0 < size -> mapped m dst (Z.min size (zlen s + 1)) ->
  dst + size <= src \/ src + zlen s < dst ->
  exists m', strlcpy dst src size m = Done (zlen s, m') /\
    cstr m' dst (take (Z.to_nat (size - 1)) s) /\ outside m m' dst (Z.min size (zlen s + 1)).
Proof. apply strlcpy_run. Qed.
End Strings.

(** ** Tokens *)

(** The longest prefix whose characters pass [f], and the rest. *)
Fixpoint span (f : Z -> bool) (s : list Z) : list Z * list Z :=
  match s with
  | [] => ([], [])
  | c :: s' => if f c then let '(a, b) := span f s' in (c :: a, b) else ([], s)
  end.

Lemma span_app f s : s = (span f s).1 ++ (span f s).2.
Proof. induction s as [|c s IH]; [done|]. cbn. destruct (f c); [|done]. destruct (span f s). cbn in *. by rewrite <- IH. Qed.

Lemma span_stops f s : match (span f s).2 with [] => True | c :: _ => f c = false end.
Proof. induction s as [|c s IH]; [done|]. cbn. destruct (f c) eqn:E; [|done]. by destruct (span f s). Qed.

Definition delim (ds : list Z) (c : Z) : bool := bool_decide (c ∈ ds).

(** The words of a string, each a longest run of characters that are not
    delimiters; [w] is the part of the word being read. *)
Fixpoint words_from (ds w s : list Z) : list (list Z) :=
  match s with
  | [] => if w is [] then [] else [w]
  | c :: s =>
      if delim ds c then if w is [] then words_from ds [] s else w :: words_from ds [] s
      else words_from ds (w ++ [c]) s
  end.
Definition words (ds s : list Z) : list (list Z) := words_from ds [] s.

(** [for (token = strtok_r (s, d, &save); token != NULL; token = strtok_r (NULL, d, &save))]:
    the tokens. *)
Fixpoint tokenize (fuel : nat) (s d save : Z) : M mem (list Z) :=
  match fuel with
  | O => nofuel
  | S fuel =>
      '(token, save) ← strtok_r s d save;
      if token =? NULL then mret []
      else ts ← tokenize fuel NULL d save; mret (token :: ts)
  end.

Section Tokens.
Implicit Types (m : mem) (s ds : list Z).

Lemma delim_test m d ds c : cstr m d ds -> 0 < d -> is_char c ->
  exists q, strchr d c m = Done (q, m) /\ (q =? NULL) = negb (delim ds c).
Proof.
  intros H Hd Hc. destruct (strchr_test m d c ds) as (q & Hq & E); auto with words.
  exists q. split; [done|]. rewrite E. unfold delim. f_equal. apply bool_decide_ext.
  rewrite elem_of_cons. destruct Hc. naive_solver lia.
Qed.

Lemma nul_test m d ds : cstr m d ds -> 0 < d -> exists q, strchr d 0 m = Done (q, m) /\ (q =? NULL) = false.
Proof.
  intros H Hd. destruct (strchr_test m d 0 ds) as (q & Hq & E); [done|done|done|].
  exists q. split; [done|]. rewrite E. rewrite bool_decide_true; [done|left].
Qed.

Lemma skip_delimiters_run s : forall m p d ds fuel, cstr m p s -> cstr m d ds -> 0 < d -> (length s < fuel)%nat ->
  skip_delimiters fuel p d m =
    let '(pre, r) := span (delim ds) s in Done ((p + zlen pre, negb (bool_decide (r = []))), m).
Proof.
  induction s as [|c s IH]; intros m p d ds [|fuel] H Hd Hp Hf; cbn in Hf; try lia; cbn [skip_delimiters span].
  - apply cstr_nil in H. destruct (nul_test m d ds) as (q & Hq & E); [done|done|].
    ld. erewrite bind_done by exact Hq. rewrite E. ld. cbn. by rewrite Z.add_0_r.
  - apply cstr_cons in H as (H & Hc & Hs). destruct (delim_test m d ds c) as (q & Hq & E); [done|done|done|].
    ld. erewrite bind_done by exact Hq. rewrite E. destruct (delim ds c); cbn [negb].
    + ld. destruct Hc. dec. rewrite (IH m _ d ds) by (done || lia). destruct (span (delim ds) s) as [pre r].
      rewrite zlen_cons. do 3 f_equal. lia.
    + rewrite bool_decide_false by done. cbn. by rewrite Z.add_0_r.
Qed.

Lemma skip_token_run s : forall m p d ds fuel, cstr m p s -> cstr m d ds -> 0 < d -> (length s < fuel)%nat ->
  skip_token fuel p d m = Done (p + zlen (span (fun c => negb (delim ds c)) s).1, m).
Proof.
  induction s as [|c s IH]; intros m p d ds [|fuel] H Hd Hp Hf; cbn in Hf; try lia; cbn [skip_token span].
  - apply cstr_nil in H. destruct (nul_test m d ds) as (q & Hq & E); [done|done|].
    ld. erewrite bind_done by exact Hq. rewrite E. cbn. by rewrite Z.add_0_r.
  - apply cstr_cons in H as (H & Hc & Hs). destruct (delim_test m d ds c) as (q & Hq & E); [done|done|done|].
    ld. erewrite bind_done by exact Hq. rewrite E. destruct (delim ds c); cbn [negb].
    + cbn. by rewrite Z.add_0_r.
    + rewrite (IH m _ d ds) by (done || lia). destruct (span _ s) as [tok suf]. cbn [fst].
      rewrite zlen_cons. do 2 f_equal. lia.
Qed.

(** One call: the delimiters before the token, the token, the rest after the
    delimiter that ends it. *)
Definition next_token ds s : list Z * list Z * list Z :=
  let '(pre, r) := span (delim ds) s in
  let '(tok, suf) := span (fun c => negb (delim ds c)) r in (pre, tok, suf).

Definition disjoint_from (d : Z) ds (p : Z) s : Prop := d + zlen ds < p \/ p + zlen s < d.

Lemma strtok_r_run m p d ds save str :
  let cur := if p =? NULL then save else p in
  cstr m cur str -> 0 < cur -> cstr m d ds -> 0 < d -> disjoint_from d ds cur str ->
  let '(pre, tok, suf) := next_token ds str in
  let next := cur + zlen pre + zlen tok + (if suf is [] then 0 else 1) in
  exists m', strtok_r p d save m = Done (if tok is [] then (NULL, cur + zlen pre) else (cur + zlen pre, next), m') /\
    outside m m' cur (zlen str) /\ cstr m' (cur + zlen pre) tok /\ cstr m' next (tail suf).
Proof.
  intros cur Hs Hcur Hd Hpd Hdis. unfold strtok_r, next_token. nn. fold cur. nn. unfold scan_fuel.
  erewrite bind_done by done. pose proof (skip_delimiters_run str m cur d ds (S (size m)) Hs Hd Hpd) as Hskip.
  pose proof (span_app (delim ds) str) as Estr. pose proof (span_stops (delim ds) str) as Hstop.
  destruct (span (delim ds) str) as [pre r]. cbn [fst snd] in *. subst str.
  erewrite bind_done by (apply Hskip; by eapply cstr_fuel). apply cstr_drop in Hs.
  pose proof (zlen_nonneg pre). unfold disjoint_from in Hdis. rewrite zlen_app in *.
  destruct r as [|c r]; [exists m; cbn; rewrite !Z.add_0_r; by eauto|].
  rewrite bool_decide_false by done. cbn [negb].
  pose proof (skip_token_run (c :: r) m (cur + zlen pre) d ds (S (size m)) Hs Hd Hpd) as Htok.
  pose proof (span_app (fun c => negb (delim ds c)) (c :: r)) as Er. cbn [span] in Htok, Er |- *.
  rewrite Hstop in *. cbn [negb] in *. destruct (span _ r) as [tok suf]. cbn [fst snd app] in *. injection Er as ->.
  erewrite bind_done by (apply Htok; by eapply cstr_fuel).
  change (c :: tok ++ suf) with ((c :: tok) ++ suf) in *. pose proof Hs as [Hall Hch].
  rewrite <- app_assoc in Hall. apply bytes_at_app in Hall as [Hct Hsuf]. apply Forall_app in Hch as [Hch1 Hch2].
  rewrite zlen_app in *. pose proof (zlen_nonneg (c :: tok)). pose proof (zlen_nonneg suf).
  destruct suf as [|x suf]; cbn [tail].
  - destruct Hsuf as [Hsuf _]. ld. cbn. exists m. rewrite Z.add_0_r. split; [done|]. split; [done|].
    rewrite app_nil_r in Hs. split; [done|]. by apply cstr_nil.
  - destruct Hsuf as [Hx Hsuf]. apply Forall_cons in Hch2 as [[Hxc _] Hch2]. ld. dec.
    erewrite bind_done by by apply store8_run. eexists. split; [done|]. rewrite zlen_cons in *. split; [|split].
    + intros a Ha. rewrite ?zlen_cons in *. apply lookup_insert_ne. pose proof (zlen_nonneg suf). lia.
    + split; [|done]. apply bytes_at_app. rewrite ?zlen_cons. split; [apply bytes_at_insert; [rewrite zlen_cons; lia|done]|]. split; [|done].
      apply lookup_insert_eq.
    + split; [|done]. apply bytes_at_insert; [lia|]. done.
Qed.

Lemma words_delims ds w s : Forall (fun c => delim ds c = true) s ->
  words_from ds w s = if w is [] then [] else [w].
Proof. intros H. revert w. induction H as [|c s Hc _ IH]; intros w; [done|]. cbn. rewrite Hc, IH. by destruct w. Qed.

Lemma words_skip ds pre s : Forall (fun c => delim ds c = true) pre -> words ds (pre ++ s) = words ds s.
Proof. unfold words. induction 1 as [|c pre Hc _ IH]; [done|]. cbn. by rewrite Hc. Qed.

Lemma words_token ds tok suf : forall w, Forall (fun c => delim ds c = false) tok -> w ++ tok <> [] ->
  match suf with [] => True | c :: _ => delim ds c = true end ->
  words_from ds w (tok ++ suf) = (w ++ tok) :: words ds (tail suf).
Proof.
  induction tok as [|c tok IH]; intros w Ht Hw Hs; cbn.
  - rewrite app_nil_r in *. destruct suf as [|c suf]; cbn; [by destruct w|]. rewrite Hs. by destruct w.
  - apply Forall_cons in Ht as [Hc Ht]. rewrite Hc, IH; [by rewrite <- app_assoc|done| |done].
    by destruct w.
Qed.

Lemma span_passes f s : Forall (fun c => f c = true) (span f s).1.
Proof. induction s as [|c s IH]; [constructor|]. cbn. destruct (f c) eqn:E; [|constructor]. destruct (span f s). by constructor. Qed.

Lemma words_from_nonempty ds s : forall w, Forall (fun x => x <> []) (words_from ds w s).
Proof.
  induction s as [|c s IH]; intros w; cbn; [destruct w; by repeat constructor|].
  destruct (delim ds c); [destruct w; [done|by constructor]|done].
Qed.

Lemma words_next ds s :
  let '(pre, tok, suf) := next_token ds s in
  s = pre ++ tok ++ suf /\ words ds s = if tok is [] then [] else tok :: words ds (tail suf).
Proof.
  unfold next_token. pose proof (span_app (delim ds) s) as E. pose proof (span_passes (delim ds) s) as Hp.
  pose proof (span_stops (delim ds) s) as Hs. destruct (span (delim ds) s) as [pre r]. cbn [fst snd] in *.
  pose proof (span_app (fun c => negb (delim ds c)) r) as Er. pose proof (span_passes (fun c => negb (delim ds c)) r) as Hr.
  pose proof (span_stops (fun c => negb (delim ds c)) r) as Ht. destruct (span _ r) as [tok suf] eqn:Es. cbn [fst snd] in *.
  subst r. split; [done|]. rewrite E, words_skip by done. destruct tok as [|c tok].
  - destruct suf as [|c suf]; [done|]. cbn in Hs, Ht. by rewrite Hs in Ht.
  - unfold words at 1. rewrite (words_token ds (c :: tok) suf []); [done| |done|].
    + eapply Forall_impl; [exact Hr|]. intros x. apply negb_true_iff.
    + destruct suf; [done|]. by apply negb_false_iff in Ht.
Qed.

(** The string from [cur] on lies inside the string from [p] on and ends with it. *)
Definition within (p : Z) (s : list Z) (cur : Z) (r : list Z) : Prop := p <= cur /\ cur + zlen r = p + zlen s.

(** One call, seen from the words: there are none left, or the next one is
    returned and the others are those of the string that is left. *)
Lemma strtok_next m p d ds save str :
  let cur := if p =? NULL then save else p in
  cstr m cur str -> 0 < cur -> cstr m d ds -> 0 < d -> disjoint_from d ds cur str ->
  exists m' t save', strtok_r p d save m = Done ((t, save'), m') /\ outside m m' cur (zlen str) /\
    ((words ds str = [] /\ t = NULL) \/
     (exists w rest, words ds str = w :: words ds rest /\ t <> NULL /\ 0 < zlen w /\ cur <= t /\ t + zlen w <= cur + zlen str /\
        cstr m' t w /\ cstr m' save' rest /\ within cur str save' rest /\
        (t + zlen w < save' \/ (save' = t + zlen w /\ rest = [])))).
Proof.
  intros cur Hs Hcur Hd Hpd Hdis. pose proof (strtok_r_run m p d ds save str Hs Hcur Hd Hpd Hdis) as Hrun. fold cur in Hrun.
  pose proof (words_next ds str) as Hw. destruct (next_token ds str) as [[pre tok] suf]. destruct Hw as [-> ->].
  destruct Hrun as (m1 & Hrun & Hout & Htok & Hnext). pose proof (zlen_nonneg pre). pose proof (zlen_nonneg suf).
  destruct tok as [|c tok]; [exists m1, NULL, (cur + zlen pre); split; [done|]; split; [done|by left]|].
  eexists m1, _, _. split; [exact Hrun|]. split; [done|]. right. exists (c :: tok), (tail suf).
  rewrite !zlen_app. pose proof (zlen_nonneg (c :: tok)). split; [done|]. split; [unfold NULL; lia|].
  split; [rewrite zlen_cons; pose proof (zlen_nonneg tok); lia|]. split; [lia|]. split; [lia|]. split; [done|]. split; [done|]. unfold within. rewrite !zlen_app.
  destruct suf as [|x suf]; cbn [tail]; [|rewrite (zlen_cons x)]; change (zlen []) with 0; split; [lia|right|lia|left; lia].
  split; [lia|done].
Qed.

Lemma tokenize_run n : forall m p d save ds str,
  let cur := if p =? NULL then save else p in
  (length str < n)%nat -> cstr m cur str -> 0 < cur -> cstr m d ds -> 0 < d -> disjoint_from d ds cur str ->
  exists ts m', tokenize n p d save m = Done (ts, m') /\ Forall2 (cstr m') ts (words ds str) /\
    outside m m' cur (zlen str).
Proof.
  induction n as [|n IH]; intros m p d save ds str cur Hn Hs Hcur Hd Hpd Hdis; [lia|]. cbn [tokenize].
  destruct (strtok_next m p d ds save str Hs Hcur Hd Hpd Hdis)
    as (m1 & t & save' & Hrun & Hout & [[-> ->]|(w & rest & -> & Ht & Hlen & Hlo & Hhi & Hw & Hrest & [Hin1 Hin2] & Hsep)]);
    fold cur in Hout; erewrite bind_done by exact Hrun; [exists [], m1; by repeat split|].
  fold cur in Hlo, Hhi, Hin1, Hin2. cbn beta iota. rewrite (proj2 (Z.eqb_neq t NULL)) by done.
  pose proof (zlen_nonneg rest). pose proof (zlen_nonneg w). unfold disjoint_from in *.
  assert (0 < save') by (destruct Hsep as [|[? _]]; lia).
  destruct (IH m1 NULL d save' ds rest) as (ts & m2 & Hts & HF & Hout2); cbn [Z.eqb NULL] in *; try done.
  - unfold zlen in *. destruct Hsep as [|[_ ->]]; cbn [length] in *; lia.
  - apply (cstr_frame m); [|done]. intros a Ha. apply Hout. lia.
  - destruct Hsep as [|[? _]]; lia.
  - erewrite bind_done by exact Hts. exists (t :: ts), m2. split; [done|]. split; [constructor; [|done]|].
    + apply (cstr_frame m1); [|done]. intros a Ha. apply Hout2. destruct Hsep as [|[? ->]]; [lia|]. change (zlen []) with 0. lia.
    + intros a Ha. rewrite Hout2; [apply Hout; lia|]. destruct Hsep as [|[? _]]; lia.
Qed.

(** Between two calls: [t] is the next of the words [ws], or NULL; they all lie
    between [lo] and [hi]. *)
Definition token_at m ds (lo hi t save : Z) (ws : list (list Z)) : Prop :=
  (ws = [] /\ t = NULL) \/
  (exists w rest, ws = w :: words ds rest /\ t <> NULL /\ 0 < zlen w /\ lo <= t /\ t + zlen w <= hi /\
     cstr m t w /\ cstr m save rest /\ lo <= save /\ save + zlen rest = hi).

Lemma strtok_start m p d ds str : cstr m p str -> 0 < p -> cstr m d ds -> 0 < d -> disjoint_from d ds p str ->
  exists m' t save', strtok_r p d p m = Done ((t, save'), m') /\ outside m m' p (zlen str) /\
    token_at m' ds p (p + zlen str) t save' (words ds str).
Proof.
  intros Hs Hp Hd Hpd Hdis. assert ((p =? NULL) = false) as E by (apply Z.eqb_neq; unfold NULL; lia).
  destruct (strtok_next m p d ds p str) as (m' & t & save' & Hr & Hout & Hcase); rewrite ?E; try done.
  rewrite E in *. exists m', t, save'. split; [done|]. split; [done|].
  destruct Hcase as [[-> ->]|(w & rest & -> & H1 & H2 & H3 & H4 & H5 & H6 & [H7 H8] & H9)]; [by left|right].
  exists w, rest. auto 10.
Qed.

Lemma strtok_again m lo hi t save d ds w ws : token_at m ds lo hi t save (w :: ws) -> 0 < lo ->
  cstr m d ds -> 0 < d -> d + zlen ds < lo \/ hi < d ->
  exists m' t' save', strtok_r NULL d save m = Done ((t', save'), m') /\ outside m m' lo (hi - lo) /\
    token_at m' ds lo hi t' save' ws.
Proof.
  intros [[? _]|(w' & rest & [= <- ->] & Ht & Hlen & Hlo & Hhi & Hw & Hr & Hs & He)] Hl Hd Hpd Hdis; [done|].
  pose proof (zlen_nonneg rest).
  destruct (strtok_next m NULL d ds save rest) as (m' & t' & save' & Hrun & Hout & Hcase); cbn [Z.eqb NULL] in *; try done; [lia| |].
  { unfold disjoint_from. lia. }
  exists m', t', save'. split; [done|]. split; [intros a Ha; apply Hout; lia|].
  destruct Hcase as [[-> ->]|(w1 & rest1 & -> & H1 & H2 & H3 & H4 & H5 & H6 & [H7 H8] & H9)]; [by left|right].
  exists w1, rest1. repeat (split; [done || lia|]). lia.
Qed.

Lemma token_at_frame m m' ds lo hi t save ws : (forall a, lo <= a <= hi -> m' !! a = m !! a) ->
  token_at m ds lo hi t save ws -> token_at m' ds lo hi t save ws.
Proof.
  intros E [?|(w & rest & -> & H1 & H2 & H3 & H4 & H5 & H6 & H7 & H8)]; [by left|right]. exists w, rest.
  repeat (split; [done|]). split; [apply (cstr_frame m); [intros; apply E; lia|done]|].
  split; [apply (cstr_frame m); [intros; apply E; lia|done]|]. done.
Qed.

(** Tokenizing a string with strtok_r, as its comment shows, yields the
    words of the string in order, each terminated in place. *)
Theorem strtok_r_words m p str d ds : cstr m p str -> 0 < p -> cstr m d ds -> 0 < d -> disjoint_from d ds p str ->
  exists ts m', tokenize (S (length str)) p d NULL m = Done (ts, m') /\ Forall2 (cstr m') ts (words ds str).
Proof.
  intros H Hp Hd Hpd Hdis. assert ((p =? NULL) = false) as E by (apply Z.eqb_neq; unfold NULL; lia).
  destruct (tokenize_run (S (length str)) m p d NULL ds str) as (ts & m' & Hr & HF & _); rewrite ?E; try done; [lia|].
  by exists ts, m'.
Qed.

(** The hypotheses can hold: the example of strtok_r's comment. *)
Lemma strtok_r_words_witness : exists ts m',
  tokenize 4 16 48 NULL (stored ∅ 16 ([32; 65; 32; 0] ++ replicate 28 0 ++ [32; 0])) = Done (ts, m') /\
  Forall2 (cstr m') ts [[65]].
Proof.
  apply (strtok_r_words _ 16 [32; 65; 32] 48 [32]); [|lia| |lia|vm_compute; auto].
  - split; [vm_compute; auto|all_bytes].
  - split; [vm_compute; auto|all_bytes].
Defined.

Lemma memmove_correct_witness : exists m', memmove 18 16 4 (stored ∅ 16 [1; 2; 3; 4; 5; 6]) = Done (18, m') /\ bytes_at m' 18 [1; 2; 3; 4].
Proof.
  destruct (memmove_correct (stored ∅ 16 [1; 2; 3; 4; 5; 6]) 18 16 [1; 2; 3; 4]) as (m' & H1 & H2 & _);
    [vm_compute; auto|all_bytes| |lia|lia|exists m'; exact (conj H1 H2)].
  intros a Ha. change (zlen [1; 2; 3; 4]) with 4 in Ha.
  assert (a = 18 \/ a = 19 \/ a = 20 \/ a = 21) as [-> | [-> | [-> | ->]]] by lia; vm_compute; eexists; reflexivity.
Defined.

Lemma strlcpy_correct_witness : exists m', strlcpy 48 16 3 (stored ∅ 16 ([65; 66; 67; 0] ++ replicate 40 0)) = Done (3, m') /\ cstr m' 48 [65; 66].
Proof.
  destruct (strlcpy_correct (stored ∅ 16 ([65; 66; 67; 0] ++ replicate 40 0)) 48 16 [65; 66; 67] 3) as (m' & H1 & H2 & _);
    [split; [vm_compute; auto|all_bytes]|lia|lia|lia| |right; reflexivity|exists m'; exact (conj H1 H2)].
  intros a Ha. change (Z.min 3 (zlen [65; 66; 67] + 1)) with 3 in Ha.
  assert (a = 48 \/ a = 49 \/ a = 50) as [-> | [-> | ->]] by lia; vm_compute; eexists; reflexivity.
Defined.
End Tokens.

