(* ===== verification/Stdio.v ===== *)
(** * lib/stdio.c: formatted output

    A format is the list of its characters.  The variable arguments are the 32-bit
    words of the stack, two for a 64-bit integer, the low one first.  [output] is
    called with the characters of a result one after the other, so a function
    that calls it returns the list of them.  The buffer of [format_integer] is a
    list that may not grow beyond its 64 characters.  [UserConsole] is
    lib/user/console.c, where output is written to a handle in pieces. *)

From Stdlib Require Import Ascii.
From Stdlib Require Import(notations) String.
From S2P Require Import Prelude Mem CString.

(** Character codes. *)
Definition chr (c : ascii) : Z := Z.of_N (N_of_ascii c).
Definition codes (s : String.string) : list Z := chr <$> String.list_ascii_of_string s.

(** lib/ctype.h *)
Definition isdigit (c : Z) : bool := (chr "0" <=? c) && (c <=? chr "9").
Definition isspace (c : Z) : bool :=
  (c =? chr " ") || (c =? 12) || (c =? 10) || (c =? 13) || (c =? 9) || (c =? 11).
Definition isprint (c : Z) : bool := (32 <=? c) && (c <? 127).

(** ** Conversions *)

Definition MINUS : Z := 1.
Definition PLUS : Z := 2.
Definition SPACE : Z := 4.
Definition POUND : Z := 8.
Definition ZERO : Z := 16.
Definition GROUP : Z := 32.

Inductive length_type := CHAR | SHORT | INT | INTMAX | LONG | LONGLONG | PTRDIFFT | SIZET.

Record printf_conversion := mk_conv {
  flags : Z;
  width : Z;                  (* minimum field width *)
  precision : Z;              (* -1: none *)
  type : length_type
}.

Definition flag (c : printf_conversion) (f : Z) : bool := negb (Z.land (flags c) f =? 0).

Record integer_base := mk_base {
  ibase : Z;
  digits : list Z;
  xchar : Z;                  (* 0 for none *)
  group : Z
}.
Definition base_d : integer_base := mk_base 10 (codes "0123456789") 0 3.
Definition base_o : integer_base := mk_base 8 (codes "01234567") 0 3.
Definition base_x : integer_base := mk_base 16 (codes "0123456789abcdef") (chr "x") 4.
Definition base_X : integer_base := mk_base 16 (codes "0123456789ABCDEF") (chr "X") 4.

(** [va_arg]: reading past the arguments is a wild access. *)
Definition arg32 (args : list Z) : outcome (Z * list Z) :=
  match args with a :: args => Done (a, args) | [] => Fault end.
Definition arg64 (args : list Z) : outcome (Z * list Z) :=
  match args with lo :: hi :: args => Done (lo + 2 ^ 32 * hi, args) | _ => Fault end.

Definition flag_of (c : Z) : option Z :=
  if c =? chr "-" then Some MINUS else if c =? chr "+" then Some PLUS else if c =? chr " " then Some SPACE
  else if c =? chr "#" then Some POUND else if c =? chr "0" then Some ZERO else if c =? 39 then Some GROUP else None.

Fixpoint parse_flags (format : list Z) (fl : Z) : Z * list Z :=
  match format with
  | [] => (fl, [])
  | c :: rest => match flag_of c with Some f => parse_flags rest (Z.lor fl f) | None => (fl, format) end
  end.

(** The loop over decimal digits. *)
Fixpoint parse_digits (format : list Z) (n : Z) : Z * list Z :=
  match format with
  | [] => (n, [])
  | c :: rest => if isdigit c then parse_digits rest (s32 (n * 10 + c - chr "0")) else (n, format)
  end.

Definition clear_if (b : bool) (f fl : Z) : Z := if b then Z.land fl (Z.lnot f) else fl.

Definition parse_width (format args : list Z) : outcome (Z * list Z * list Z) :=
  match format with
  | c :: rest =>
      if c =? chr "*" then '(w, args) ← arg32 args; Done (s32 w, rest, args)
      else let '(w, rest) := parse_digits format 0 in Done (w, rest, args)
  | [] => Done (0, [], args)
  end.

Definition parse_precision (format args : list Z) : outcome (Z * list Z * list Z) :=
  match format with
  | c :: rest =>
      if c =? chr "." then
        '(p, rest, args) ← parse_width rest args;
        Done (if p <? 0 then -1 else p, rest, args)
      else Done (-1, format, args)
  | [] => Done (-1, [], args)
  end.

Definition parse_type (format : list Z) : length_type * list Z :=
  match format with
  | c :: rest =>
      let twice d := match rest with c' :: rest' => if c' =? d then Some rest' else None | [] => None end in
      if c =? chr "h" then match twice (chr "h") with Some r => (CHAR, r) | None => (SHORT, rest) end
      else if c =? chr "j" then (INTMAX, rest)
      else if c =? chr "l" then match twice (chr "l") with Some r => (LONGLONG, r) | None => (LONG, rest) end
      else if c =? chr "t" then (PTRDIFFT, rest)
      else if c =? chr "z" then (SIZET, rest)
      else (INT, format)
  | [] => (INT, [])
  end.

Definition parse_conversion (format args : list Z) : outcome (printf_conversion * list Z * list Z) :=
  let '(fl, format) := parse_flags format 0 in
  let fl := clear_if (negb (Z.land fl MINUS =? 0)) ZERO fl in
  let fl := clear_if (negb (Z.land fl PLUS =? 0)) SPACE fl in
  '(w, format, args) ← parse_width format args;
  let '(w, fl) := if w <? 0 then (s32 (- w), Z.lor fl MINUS) else (w, fl) in
  '(p, format, args) ← parse_precision format args;
  let fl := clear_if (0 <=? p) ZERO fl in
  let '(ty, format) := parse_type format in
  Done (mk_conv fl w p ty, format, args).

(** ** Integers *)

(** [*cp++ = c] in [char buf[64]]; the buffer is its contents in reverse. *)
Definition push (c : Z) (buf : list Z) : outcome (list Z) :=
  if Nat.ltb (length buf) 64 then Done (c :: buf) else Fault.

(** The loop that accumulates digits. *)
Fixpoint digit_loop (fuel : nat) (grouping : bool) (b : integer_base) (value digit_cnt : Z) (buf : list Z) : outcome (list Z) :=
  match fuel with
  | O => NoFuel
  | S fuel =>
      if 0 <? value then
        buf ← (if grouping && (0 <? digit_cnt) && (digit_cnt mod group b =? 0) then push (chr ",") buf else Done buf);
        buf ← push (nth (Z.to_nat (value mod ibase b)) (digits b) 0) buf;
        digit_loop fuel grouping b (value / ibase b) (digit_cnt + 1) buf
      else Done buf
  end.

(** Zeros up to the precision, leaving one place. *)
Fixpoint zero_loop (fuel : nat) (prec : Z) (buf : list Z) : outcome (list Z) :=
  match fuel with
  | O => NoFuel
  | S fuel =>
      if (zlen buf <? prec) && (zlen buf <? 63) then buf ← push (chr "0") buf; zero_loop fuel prec buf else Done buf
  end.

Definition output_dup (ch cnt : Z) : list Z := replicate (Z.to_nat cnt) ch.

(** The characters from the buffer: last written first. *)
Definition render_digits (value : Z) (b : integer_base) (c : printf_conversion) : outcome (list Z) :=
  buf ← digit_loop 65 (flag c GROUP) b value 0 [];
  let prec := if precision c <? 0 then 1 else precision c in
  buf ← zero_loop 65 prec buf;
  if flag c POUND && (ibase b =? 8) && (match buf with [] => true | d :: _ => negb (d =? chr "0") end)
  then push (chr "0") buf else Done buf.

Definition sign_of (is_signed negative : bool) (c : printf_conversion) : Z :=
  if is_signed then
    if flag c PLUS then if negative then chr "-" else chr "+"
    else if flag c SPACE then if negative then chr "-" else chr " "
    else if negative then chr "-" else 0
  else 0.

Definition format_integer (value : Z) (is_signed negative : bool) (b : integer_base) (c : printf_conversion) : outcome (list Z) :=
  let sign := sign_of is_signed negative c in
  let x := if flag c POUND && negb (value =? 0) then xchar b else 0 in
  buf ← render_digits value b c;
  let pad_cnt := width c - zlen buf - (if x =? 0 then 0 else 2) - (if sign =? 0 then 0 else 1) in
  let pad_cnt := if pad_cnt <? 0 then 0 else pad_cnt in
  Done ((if negb (flag c MINUS) && negb (flag c ZERO) then output_dup (chr " ") pad_cnt else []) ++
        (if sign =? 0 then [] else [sign]) ++
        (if x =? 0 then [] else [chr "0"; x]) ++
        (if flag c ZERO then output_dup (chr "0") pad_cnt else []) ++
        buf ++
        (if flag c MINUS then output_dup (chr " ") pad_cnt else [])).

(** ** Strings *)

Definition format_string (string : list Z) (length : Z) (c : printf_conversion) : list Z :=
  (if (length <? width c) && negb (flag c MINUS) then output_dup (chr " ") (width c - length) else []) ++
  string ++
  (if (length <? width c) && flag c MINUS then output_dup (chr " ") (width c - length) else []).

(** ** The conversions of [__vprintf] *)

Definition signed_arg (ty : length_type) (args : list Z) : outcome (Z * list Z) :=
  match ty with
  | CHAR => '(v, args) ← arg32 args; Done (s8 v, args)
  | SHORT => '(v, args) ← arg32 args; Done (s16 v, args)
  | INT | LONG | PTRDIFFT => '(v, args) ← arg32 args; Done (s32 v, args)
  | INTMAX | LONGLONG => '(v, args) ← arg64 args; Done (s64 v, args)
  | SIZET => '(v, args) ← arg32 args; Done (if (2 ^ 32 - 1) / 2 <? v then v - (2 ^ 32 - 1) - 1 else v, args)
  end.

Definition unsigned_arg (ty : length_type) (args : list Z) : outcome (Z * list Z) :=
  match ty with
  | CHAR => '(v, args) ← arg32 args; Done (u8 v, args)
  | SHORT => '(v, args) ← arg32 args; Done (u16 v, args)
  | INT | LONG | SIZET => '(v, args) ← arg32 args; Done (u32 v, args)
  | INTMAX | LONGLONG => '(v, args) ← arg64 args; Done (u64 v, args)
  | PTRDIFFT => '(v, args) ← arg32 args; Done (Z.land (u64 (s32 v)) (Z.lor (Z.shiftl (2 ^ 31 - 1) 1) 1), args)
  end.

Definition unsigned_base (f : Z) : integer_base :=
  if f =? chr "o" then base_o else if f =? chr "u" then base_d else if f =? chr "x" then base_x else base_X.

Definition one_of (c : Z) (s : String.string) : bool := bool_decide (c ∈ codes s).

Fixpoint __vprintf_loop (fuel : nat) (format args : list Z) : M mem (list Z) :=
  match fuel with
  | O => nofuel
  | S fuel =>
      match format with
      | [] => mret []
      | ch :: format =>
          if negb (ch =? chr "%") then out ← __vprintf_loop fuel format args; mret (ch :: out)
          else if bool_decide (head format = Some (chr "%")) then
            out ← __vprintf_loop fuel (tail format) args; mret (chr "%" :: out)
          else
            '(c, format, args) ← liftO (parse_conversion format args);
            match format with
            | [] =>
                (* the terminator is taken as a conversion and the loop goes on behind it *)
                fault
            | f :: format =>
                '(text, args) ←
                  (if one_of f "di" then
                     '(value, args) ← liftO (signed_arg (type c) args);
                     text ← liftO (format_integer (if value <? 0 then u64 (- value) else value) true (value <? 0) base_d c);
                     mret (text, args)
                   else if one_of f "ouxX" then
                     '(value, args) ← liftO (unsigned_arg (type c) args);
                     text ← liftO (format_integer value false false (unsigned_base f) c);
                     mret (text, args)
                   else if f =? chr "c" then
                     '(v, args) ← liftO (arg32 args); mret (format_string [u8 v] 1 c, args)
                   else if f =? chr "s" then
                     '(s, args) ← liftO (arg32 args);
                     if s =? NULL then
                       let len := if precision c <? 0 then 6 else Z.min 6 (precision c) in
                       mret (format_string (take (Z.to_nat len) (codes "(null)")) len c, args)
                     else
                       len ← strnlen s (u32 (precision c));
                       str ← load_bytes (Z.to_nat len) s;
                       mret (format_string str len c, args)
                   else if f =? chr "p" then
                     '(p, args) ← liftO (arg32 args);
                     text ← liftO (format_integer p false false base_x (mk_conv POUND (width c) (precision c) (type c)));
                     mret (text, args)
                   else if one_of f "feEgGn" then
                     text ← __vprintf_loop fuel (codes "<<no %%%c in kernel>>") [f]; mret (text, args)
                   else
                     text ← __vprintf_loop fuel (codes "<<no %%%c conversion>>") [f]; mret (text, args));
                out ← __vprintf_loop fuel format args; mret (text ++ out)
            end
      end
  end.

(** A turn takes a character of the format; a message has at most 23. *)
Definition __vprintf (format args : list Z) : M mem (list Z) := __vprintf_loop (length format + 30) format args.

(** ** Output to a buffer *)

Record vsnprintf_aux := mk_aux { aux_p : Z; aux_length : Z; max_length : Z }.

Definition vsnprintf_helper (ch : Z) (a : vsnprintf_aux) : M mem vsnprintf_aux :=
  if aux_length a <? max_length a then
    store8 (aux_p a) ch ;; mret (mk_aux (aux_p a + 1) (s32 (aux_length a + 1)) (max_length a))
  else mret (mk_aux (aux_p a) (s32 (aux_length a + 1)) (max_length a)).

Fixpoint output_all (out : list Z) (a : vsnprintf_aux) : M mem vsnprintf_aux :=
  match out with [] => mret a | ch :: out => a ← vsnprintf_helper ch a; output_all out a end.

(** The arguments [%s] reads are not in the buffer. *)
Definition vsnprintf (buffer buf_size : Z) (format args : list Z) : M mem Z :=
  out ← __vprintf format args;
  a ← output_all out (mk_aux buffer 0 (if 0 <? buf_size then s32 (buf_size - 1) else 0));
  (if 0 <? buf_size then store8 (aux_p a) 0 else mret tt) ;;
  mret (aux_length a).

Definition snprintf (buffer buf_size : Z) (format args : list Z) : M mem Z := vsnprintf buffer buf_size format args.

(** What [printf] writes to the console. *)
Definition printf (format args : list Z) : M mem (list Z) := __vprintf format args.

(** ** Dumps *)

(** [for (; i < end; i++)] over the bytes of a line. *)
Fixpoint each_byte (f : Z -> Z -> M mem (list Z)) (i : Z) (bs : list Z) : M mem (list Z) :=
  match bs with
  | [] => mret []
  | b :: bs => out ← f i b; rest ← each_byte f (i + 1) bs; mret (out ++ rest)
  end.

Definition repeat_codes (n : Z) (s : list Z) : list Z := concat (replicate (Z.to_nat n) s).

Fixpoint hex_dump_loop (fuel : nat) (ofs : Z) (buf : list Z) (ascii : bool) : M mem (list Z) :=
  match fuel with
  | O => nofuel
  | S fuel =>
      if 0 <? zlen buf then
        let start := ofs mod 16 in
        let end_ := if zlen buf <? 16 - start then start + zlen buf else 16 in
        let n := end_ - start in
        let line := take (Z.to_nat n) buf in
        head ← printf (codes "%08jx  ") [u32 (ROUND_DOWN ofs 16); 0];
        hex ← each_byte (fun i b => printf (codes "%02hhx%c") [b; if i =? 7 then chr "-" else chr " "]) start line;
        text ← (if ascii then
                  chars ← each_byte (fun _ b => printf (codes "%c") [if isprint b then b else chr "."]) start line;
                  mret (repeat_codes (16 - end_) (codes "   ") ++ codes "|" ++ repeat_codes start (codes " ") ++ chars ++
                        repeat_codes (16 - end_) (codes " ") ++ codes "|")
                else mret []);
        rest ← hex_dump_loop fuel (u32 (ofs + n)) (drop (Z.to_nat n) buf) ascii;
        mret (head ++ repeat_codes start (codes "   ") ++ hex ++ text ++ [10] ++ rest)
      else mret []
  end.

(** The bytes [buf] from offset [ofs] on; a turn prints at least one of them. *)
Definition hex_dump (ofs : Z) (buf : list Z) (ascii : bool) : M mem (list Z) :=
  hex_dump_loop (S (length buf)) ofs buf ascii.

Fixpoint scale (size : Z) (factors : list (list Z)) : Z * list Z :=
  match factors with
  | [] => (size, [])
  | f :: rest => if (1024 <=? size) && bool_decide (rest <> []) then scale (size / 1024) rest else (size, f)
  end.

Definition print_human_readable_size (size : Z) : M mem (list Z) :=
  if size =? 1 then printf (codes "1 byte") []
  else
    let '(size, f) := scale size [codes "bytes"; codes "kB"; codes "MB"; codes "GB"; codes "TB"] in
    out ← printf (codes "%llu ") [u32 size; size / 2 ^ 32]; mret (out ++ f).

Example printf_d : printf (codes "%s: exit(%d)%5u|%-5x|%#o|%'d|%p|%q") [0; 2 ^ 32 - 12; 42; 255; 8; 1234567; 0; 1] ∅ =
  Done (codes "(null): exit(-12)   42|ff   |010|1,234,567|0|<<no %q conversion>>", ∅).
Proof. vm_compute. reflexivity. Qed.

Example human_size : print_human_readable_size 3000000 ∅ = Done (codes "2 MB", ∅).
Proof. vm_compute. reflexivity. Qed.

Example hex_dump_line : hex_dump 8 [65; 66; 0] true ∅ =
  Done (codes "00000000                          41 42 00                |        AB.     |" ++ [10], ∅).
Proof. vm_compute. reflexivity. Qed.

(** ** The buffer of 64 characters *)

Section Integers.
Implicit Types (buf : list Z) (b : integer_base) (c : printf_conversion).

Lemma push_run d buf : (length buf < 64)%nat -> push d buf = Done (d :: buf).
Proof. intros H. unfold push. by rewrite (proj2 (Nat.ltb_lt _ _)). Qed.

(** A value below 8^k has at most [k] digits in any of the bases, and a comma for
    each at most. *)
Lemma digit_loop_run k : forall fuel g b value cnt buf, 0 <= value < 8 ^ Z.of_nat k -> 8 <= ibase b ->
  (length buf + 2 * k <= 64)%nat -> (k < fuel)%nat ->
  exists buf', digit_loop fuel g b value cnt buf = Done buf' /\ (length buf' <= length buf + 2 * k)%nat.
Proof.
  induction k as [|k IH]; intros [|fuel] g b value cnt buf Hv Hb Hl Hf; try lia; cbn [digit_loop].
  - change (8 ^ Z.of_nat 0) with 1 in Hv. assert (value = 0) as -> by lia. exists buf. split; [done|lia].
  - destruct (Z.ltb_spec 0 value); [|exists buf; split; [done|lia]].
    assert (exists buf1, (if g && (0 <? cnt) && (cnt mod group b =? 0) then push (chr ",") buf else Done buf) = Done buf1 /\
      (length buf1 <= length buf + 1)%nat) as (buf1 & E & Hl1).
    { destruct (g && (0 <? cnt) && (cnt mod group b =? 0)); [rewrite push_run by lia; eexists; split; [done|cbn [length]; lia]|exists buf; split; [done|lia]]. }
    rewrite (obind_done _ _ _ E). rewrite (obind_done _ _ _ (push_run _ buf1 ltac:(lia))).
    destruct (IH fuel g b (value / ibase b) (cnt + 1) (nth (Z.to_nat (value mod ibase b)) (digits b) 0 :: buf1)) as (buf' & Hr & Hl').
    + rewrite Nat2Z.inj_succ, Z.pow_succ_r in Hv by lia. split; [apply Z.div_pos; lia|].
      apply Z.div_lt_upper_bound; [lia|]. nia.
    + done.
    + cbn. lia.
    + lia.
    + exists buf'. rewrite Hr. split; [done|]. cbn in Hl'. lia.
Qed.

Lemma zero_loop_run n : forall fuel prec buf, (length buf + n = 63)%nat -> (n < fuel)%nat ->
  exists k, zero_loop fuel prec buf = Done (replicate k (chr "0") ++ buf) /\ (length buf + k <= 63)%nat.
Proof.
  induction n as [|n IH]; intros [|fuel] prec buf Hn Hf; try lia; cbn [zero_loop].
  - assert ((zlen buf <? 63) = false) as -> by (apply Z.ltb_ge; unfold zlen; lia). rewrite andb_false_r.
    exists O. split; [done|lia].
  - destruct ((zlen buf <? prec) && (zlen buf <? 63)); [|exists O; split; [done|lia]].
    rewrite (obind_done _ _ _ (push_run _ buf ltac:(lia))).
    destruct (IH fuel prec (chr "0" :: buf)) as (k & Hr & Hk); [cbn; lia|lia|].
    exists (S k). rewrite Hr. cbn in *. split; [|lia]. f_equal.
    change (chr "0" :: buf) with ([chr "0"] ++ buf). rewrite app_assoc, <- replicate_cons_app. done.
Qed.

(** The bases of [__vprintf]. *)
Definition a_base b : Prop := b = base_d \/ b = base_o \/ b = base_x \/ b = base_X.

Lemma render_digits_run value b c : 0 <= value < 2 ^ 64 -> a_base b ->
  exists buf, render_digits value b c = Done buf /\ zlen buf <= 64.
Proof.
  intros Hv Hb. assert (8 <= ibase b) as Hb8 by (destruct Hb as [->|[->|[->| ->]]]; done).
  unfold render_digits. destruct (digit_loop_run 22 65 (flag c GROUP) b value 0 []) as (buf & Hr & Hl).
  { change (8 ^ Z.of_nat 22) with (2 ^ 66). lia. }
  { done. }
  { cbn. lia. }
  { lia. }
  rewrite (obind_done _ _ _ Hr). cbn [length Nat.add] in Hl. set (prec := if precision c <? 0 then _ else _).
  destruct (zero_loop_run (63 - length buf) 65 prec buf) as (k & Hz & Hk); [lia|lia|].
  rewrite (obind_done _ _ _ Hz). set (buf1 := replicate k (chr "0") ++ buf).
  assert (length buf1 <= 63)%nat as Hl1 by (unfold buf1; rewrite length_app, length_replicate; lia).
  match goal with |- context [if ?t then _ else _] => destruct t end; [|exists buf1; split; [done|unfold zlen; lia]].
  rewrite push_run by lia. eexists. split; [done|]. unfold zlen. cbn. lia.
Qed.

(** The 64-character buffer of format_integer never overflows and its loops
    end, for every 64-bit value, base, width and precision; the text has at least
    the field width and at most the larger of the width and 67 characters. *)
Theorem format_integer_bounds value is_signed negative b c : 0 <= value < 2 ^ 64 -> a_base b ->
  flag c MINUS && flag c ZERO = false ->
  exists text, format_integer value is_signed negative b c = Done text /\
    width c <= zlen text <= Z.max (width c) 67.
Proof.
  intros Hv Hb Hf. destruct (render_digits_run value b c Hv Hb) as (buf & Hr & Hl).
  unfold format_integer. rewrite (obind_done _ _ _ Hr). set (sign := sign_of _ _ _). set (x := if flag c POUND && negb (value =? 0) then xchar b else 0).
  set (pad := if _ <? 0 then 0 else _). eexists. split; [done|]. pose proof (zlen_nonneg buf).
  assert (0 <= pad) as Hpad by (unfold pad; destruct (Z.ltb_spec (width c - zlen buf - (if x =? 0 then 0 else 2) - (if sign =? 0 then 0 else 1)) 0); lia).
  assert (forall ch, zlen (output_dup ch pad) = pad) as Epad.
  { intros ch. unfold output_dup, zlen. rewrite length_replicate. lia. }
  assert (width c <= pad + zlen buf + (if x =? 0 then 0 else 2) + (if sign =? 0 then 0 else 1) /\
    (pad = 0 \/ width c = pad + zlen buf + (if x =? 0 then 0 else 2) + (if sign =? 0 then 0 else 1))) as [H1 H2].
  { unfold pad. destruct (Z.ltb_spec (width c - zlen buf - (if x =? 0 then 0 else 2) - (if sign =? 0 then 0 else 1)) 0); lia. }
  clearbody pad x sign. rewrite !zlen_app.
  destruct (flag c MINUS), (flag c ZERO), (x =? 0), (sign =? 0); try discriminate Hf; cbn [negb andb]; rewrite ?Epad, ?zlen_cons;
    change (zlen (@nil Z)) with 0; lia.
Qed.
End Integers.

(** ** Output to a buffer *)

Lemma output_all_run out : forall m p len max, 0 <= len -> len + zlen out < 2 ^ 31 -> Forall is_byte out ->
  mapped m p (Z.max 0 (Z.min (zlen out) (max - len))) ->
  let n := Z.to_nat (Z.max 0 (Z.min (zlen out) (max - len))) in
  output_all out (mk_aux p len max) m = Done (mk_aux (p + Z.of_nat n) (len + zlen out) max, stored m p (take n out)).
Proof.
  induction out as [|ch out IH]; intros m p len max Hlen Hb Hby Hm n.
  - subst n. change (zlen (@nil Z)) with 0 in *. rewrite take_nil, Z.add_0_r.
    replace (Z.max 0 (Z.min 0 (max - len))) with 0 by lia. cbn. by rewrite Z.add_0_r.
  - pose proof (zlen_nonneg out). rewrite zlen_cons in *. apply Forall_cons in Hby as [Hch Hby].
    cbn [output_all]. unfold vsnprintf_helper at 1. cbn [aux_length max_length aux_p]. rewrite s32_small by lia.
    destruct (Z.ltb_spec len max).
    + erewrite bind_done; [|by (erewrite bind_done by (apply store8_run, Hm; lia))].
      rewrite IH; [|lia|lia|done|apply mapped_insert; intros x Hx; apply Hm; lia].
      assert (n = S (Z.to_nat (Z.max 0 (Z.min (zlen out) (max - (len + 1)))))) as -> by (subst n; rewrite zlen_cons; lia).
      cbn [take stored]. do 2 f_equal. f_equal; lia.
    + erewrite bind_done by done. rewrite IH; [|lia|lia|done|intros x Hx; apply Hm; lia].
      assert (n = O) as -> by (subst n; rewrite zlen_cons; lia). replace (Z.to_nat _) with O by lia. cbn [take stored].
      do 2 f_equal. f_equal; lia.
Qed.

Lemma vsnprintf_run m buffer size format args out : __vprintf format args m = Done (out, m) -> Forall is_byte out ->
  zlen out < 2 ^ 31 -> 0 < size <= 2 ^ 31 -> mapped m buffer (Z.min size (zlen out + 1)) ->
  exists m', vsnprintf buffer size format args m = Done (zlen out, m') /\
    bytes_at m' buffer (take (Z.to_nat (size - 1)) out ++ [0]) /\ outside m m' buffer (Z.min size (zlen out + 1)).
Proof.
  intros Hout Hby Hlen Hs Hm. pose proof (zlen_nonneg out). unfold vsnprintf. erewrite bind_done by exact Hout. dec.
  rewrite s32_small by lia. erewrite bind_done by (apply output_all_run; [lia|lia|done|intros x Hx; apply Hm; lia]).
  cbn [aux_p aux_length]. rewrite Z.sub_0_r, Z.add_0_l.
  set (n := Z.to_nat (Z.max 0 (Z.min (zlen out) (size - 1)))).
  assert (Z.of_nat n = Z.min (zlen out) (size - 1)) as En by (unfold n; lia).
  assert (take (Z.to_nat (size - 1)) out = take n out) as ->.
  { destruct (decide (zlen out <= size - 1)); [rewrite !take_ge by (unfold zlen in *; lia); done|]. f_equal. lia. }
  assert (zlen (take n out) = Z.of_nat n) as El by (unfold zlen in *; rewrite length_take; lia).
  erewrite bind_done by (apply store8_run, stored_is_Some, Hm; lia). eexists. split; [done|]. change (u8 0) with 0. split.
  - apply bytes_at_app. rewrite El. split; [apply bytes_at_insert; [lia|apply stored_bytes, Forall_take; done]|].
    split; [apply lookup_insert_eq|done].
  - intros a Ha. rewrite lookup_insert_ne by lia. apply stored_outside. lia.
Qed.

(** Vsnprintf returns the length of the whole text, writes as much of it as
    fits before the terminator, and no byte beyond [buf_size]. *)
Theorem vsnprintf_correct m buffer size format args out : __vprintf format args m = Done (out, m) -> Forall is_byte out ->
  zlen out < 2 ^ 31 -> 0 < size <= 2 ^ 31 -> mapped m buffer (Z.min size (zlen out + 1)) ->
  exists m', vsnprintf buffer size format args m = Done (zlen out, m') /\
    bytes_at m' buffer (take (Z.to_nat (size - 1)) out ++ [0]) /\ outside m m' buffer (Z.min size (zlen out + 1)).
Proof. apply vsnprintf_run. Qed.

(** ** Messages are printed *)

(** The conversions of a format end and leave the memory. *)
Definition prints (m : mem) (fuel : nat) (fmt args : list Z) : Prop := exists out, __vprintf_loop fuel fmt args m = Done (out, m).

Lemma prints_nil m fuel args : prints m (S fuel) [] args.
Proof. by eexists. Qed.

Lemma prints_char m fuel c fmt args : c <> chr "%" -> prints m fuel fmt args -> prints m (S fuel) (c :: fmt) args.
Proof.
  intros Hc [out E]. exists (c :: out). cbn [__vprintf_loop]. rewrite (proj2 (Z.eqb_neq _ _) Hc). cbn [negb]. by erewrite bind_done by exact E.
Qed.

(** A conversion of an unsigned integer. *)
Lemma prints_unsigned m fuel spec f fmt args args' c w : head (spec ++ f :: fmt) <> Some (chr "%") ->
  one_of f "di" = false -> one_of f "ouxX" = true -> parse_conversion (spec ++ f :: fmt) args = Done (c, f :: fmt, args) ->
  unsigned_arg (type c) args = Done (w, args') -> 0 <= w < 2 ^ 64 -> flag c MINUS && flag c ZERO = false ->
  prints m fuel fmt args' -> prints m (S fuel) (chr "%" :: spec ++ f :: fmt) args.
Proof.
  intros Hh Hd Hu Hp Ew Hw Hf [out E].
  assert (a_base (unsigned_base f)) as Hb by (unfold unsigned_base, a_base; repeat (destruct (f =? _); [tauto|]); tauto).
  destruct (format_integer_bounds w false false (unsigned_base f) c Hw Hb Hf) as (text & Et & _).
  exists (text ++ out). cbn [__vprintf_loop]. rewrite Z.eqb_refl. cbn [negb]. rewrite bool_decide_false by done.
  erewrite bind_done by (apply liftO_run; exact Hp). cbn iota beta. rewrite Hd, Hu. erewrite bind_done.
  2: { erewrite bind_done by (apply liftO_run; exact Ew). cbn iota beta. erewrite bind_done by (apply liftO_run; exact Et). reflexivity. }
  cbn iota beta. by erewrite bind_done by exact E.
Qed.

(** %x of a type as wide as int or half of it. *)
Lemma prints_hex m fuel spec v fmt args c : head (spec ++ chr "x" :: fmt) <> Some (chr "%") ->
  parse_conversion (spec ++ chr "x" :: fmt) (v :: args) = Done (c, chr "x" :: fmt, v :: args) -> type c = INT \/ type c = SHORT ->
  flag c MINUS && flag c ZERO = false -> prints m fuel fmt args -> prints m (S fuel) (chr "%" :: spec ++ chr "x" :: fmt) (v :: args).
Proof.
  intros Hh Hp Ht Hf Hr. assert (exists w, unsigned_arg (type c) (v :: args) = Done (w, args) /\ 0 <= w < 2 ^ 64) as (w & Ew & Hw).
  { destruct Ht as [->| ->]; eexists; (split; [reflexivity|]); unfold u32, u16; pose proof (Z.mod_pos_bound v (2 ^ 32)); pose proof (Z.mod_pos_bound v (2 ^ 16)); lia. }
  by eapply prints_unsigned.
Qed.

Lemma prints_pointer m fuel v fmt args : is_u32 v -> prints m fuel fmt args -> prints m (S fuel) (chr "%" :: chr "p" :: fmt) (v :: args).
Proof.
  intros Hv [out E]. destruct (format_integer_bounds v false false base_x (mk_conv POUND 0 (-1) INT)) as (text & Et & _); [unfold is_u32 in *; lia|right; right; by left|done|].
  exists (text ++ out). cbn [__vprintf_loop]. rewrite Z.eqb_refl. cbn [negb head]. rewrite bool_decide_false by done.
  erewrite bind_done by (apply (liftO_run _ _ (mk_conv 0 0 (-1) INT, chr "p" :: fmt, v :: args)); reflexivity). cbn iota beta.
  change (one_of (chr "p") "di") with false. change (one_of (chr "p") "ouxX") with false. change (chr "p" =? chr "c") with false.
  change (chr "p" =? chr "s") with false. rewrite Z.eqb_refl. cbn iota.
  erewrite bind_done.
  2: { erewrite bind_done by (apply liftO_run; reflexivity). cbn iota beta. cbn [width precision type].
       erewrite bind_done by (apply liftO_run; exact Et). reflexivity. }
  cbn iota beta. by erewrite bind_done by exact E.
Qed.

Lemma prints_string m fuel p str fmt args : cstr m p str -> 0 < p < 2 ^ 32 -> zlen str < 2 ^ 32 -> prints m fuel fmt args ->
  prints m (S fuel) (chr "%" :: chr "s" :: fmt) (p :: args).
Proof.
  intros Hs Hp Hl [out E]. exists (str ++ out). cbn [__vprintf_loop]. rewrite Z.eqb_refl. cbn [negb head]. rewrite bool_decide_false by done.
  erewrite bind_done by (apply (liftO_run _ _ (mk_conv 0 0 (-1) INT, chr "s" :: fmt, p :: args)); reflexivity). cbn iota beta.
  change (one_of (chr "s") "di") with false. change (one_of (chr "s") "ouxX") with false. change (chr "s" =? chr "c") with false. rewrite Z.eqb_refl. cbn iota. cbn [precision].
  pose proof (strnlen_all m p str Hs Hl) as Rn.
  pose proof Hs as [Hb _]. apply bytes_at_app in Hb as [Hb _]. pose proof (load_bytes_run _ _ _ Hb) as Rl. rewrite <- zlen_to_nat in Rl.
  erewrite bind_done.
  2: { erewrite bind_done by (apply (liftO_run _ _ (p, args)); reflexivity). cbn beta iota. rewrite (proj2 (Z.eqb_neq p NULL)) by (unfold NULL; lia).
       erewrite bind_done by exact Rn. erewrite bind_done by exact Rl. reflexivity. }
  cbn beta iota. erewrite bind_done by exact E. unfold format_string. cbn [width].
  rewrite (proj2 (Z.ltb_ge _ _)) by apply zlen_nonneg. cbn [andb app]. by rewrite app_nil_r.
Qed.

(** One character or conversion of a concrete format after the other. *)
Ltac hex_spec spec := eapply (prints_hex _ _ spec); [by vm_compute|vm_compute; reflexivity|cbn; tauto|reflexivity|].
Ltac printing :=
  match goal with
  | |- prints _ _ [] _ => apply prints_nil
  | |- prints _ _ (37 :: 115 :: _) _ => eapply prints_string; [eassumption|eassumption|eassumption|printing]
  | |- prints _ _ (37 :: 112 :: _) _ => apply prints_pointer; [done|printing]
  | |- prints _ _ (37 :: 48 :: 56 :: 120 :: _) _ => hex_spec [48; 56]; printing
  | |- prints _ _ (37 :: 35 :: 48 :: 52 :: 120 :: _) _ => hex_spec [35; 48; 52]; printing
  | |- prints _ _ (37 :: 48 :: 52 :: 104 :: 120 :: _) _ => hex_spec [48; 52; 104]; printing
  | |- prints _ _ (37 :: 48 :: 52 :: 120 :: _) _ => hex_spec [48; 52]; printing
  | |- prints _ _ (_ :: _) _ => apply prints_char; [by vm_compute|printing]
  end.

Ltac evaluate_format :=
  match goal with |- exists out, printf ?f ?args ?m = _ =>
    let k := eval vm_compute in (length f + 30)%nat in let g := eval vm_compute in f in change (prints m k g args) end.

(** ** Concrete inputs *)

(** A 5-byte buffer for a text of 7 characters. *)
Lemma vsnprintf_correct_witness :
  exists m', vsnprintf 16 5 (codes "%s!") [0] (stored ∅ 16 (replicate 8 7)) = Done (7, m') /\ bytes_at m' 16 (codes "(nul" ++ [0]).
Proof.
  destruct (vsnprintf_correct (stored ∅ 16 (replicate 8 7)) 16 5 (codes "%s!") [0] (codes "(null)!")) as (m' & H1 & H2 & _).
  - vm_compute. reflexivity.
  - change (codes "(null)!") with [40; 110; 117; 108; 108; 41; 33]. all_bytes.
  - done.
  - lia.
  - intros x Hx. apply (bytes_at_mapped _ 16 (replicate 8 7)); [apply stored_bytes; cbn; all_bytes|].
    change (zlen _) with 8. change (Z.min _ _) with 5 in Hx. lia.
  - exists m'. exact (conj H1 H2).
Defined.

Lemma format_integer_bounds_witness :
  exists text, format_integer (2 ^ 64 - 1) false false base_o (mk_conv (Z.lor POUND GROUP) 80 60 LONGLONG) = Done text /\
    80 <= zlen text <= 80.
Proof.
  apply (format_integer_bounds (2 ^ 64 - 1) false false base_o (mk_conv (Z.lor POUND GROUP) 80 60 LONGLONG));
    [lia|right; left; reflexivity|reflexivity].
Defined.

(** ** lib/user/console.c: output of a user program

    The system calls write are recorded, each with its handle and its bytes. *)

Module UserConsole.
Definition calls : Type := list (Z * list Z).

Definition write (handle : Z) (bytes : list Z) : M calls unit := modify (fun w => w ++ [(handle, bytes)]).

Record vhprintf_aux := mk_vh {
  vh_buf : list Z;            (* char buf[64] *)
  vh_p : Z;                   (* current position in buffer *)
  char_cnt : Z;               (* total characters written so far *)
  vh_handle : Z               (* output file handle *)
}.

Definition flush (a : vhprintf_aux) : M calls vhprintf_aux :=
  (if 0 <? vh_p a then write (vh_handle a) (take (Z.to_nat (vh_p a)) (vh_buf a)) else mret tt) ;;
  mret (mk_vh (vh_buf a) 0 (char_cnt a) (vh_handle a)).

Definition add_char (c : Z) (a : vhprintf_aux) : M calls vhprintf_aux :=
  if (0 <=? vh_p a) && (vh_p a <? zlen (vh_buf a)) then
    let a := mk_vh (zset (vh_buf a) (vh_p a) c) (vh_p a + 1) (char_cnt a) (vh_handle a) in
    a ← (if zlen (vh_buf a) <=? vh_p a then flush a else mret a);
    mret (mk_vh (vh_buf a) (vh_p a) (s32 (char_cnt a + 1)) (vh_handle a))
  else fault.

Fixpoint add_chars (out : list Z) (a : vhprintf_aux) : M calls vhprintf_aux :=
  match out with [] => mret a | c :: out => a ← add_char c a; add_chars out a end.

(** [buf] is not initialized; it holds what was there. *)
Definition vhprintf (buf : list Z) (handle : Z) (format args : list Z) : M (mem * calls) Z := fun '(m, w) =>
  '(out, m) ← __vprintf format args m;
  '(a, w) ← add_chars out (mk_vh buf 0 0 handle) w;
  '(a, w) ← flush a w;
  Done (char_cnt a, (m, w)).

Definition STDOUT_FILENO : Z := 1.
Definition user_vprintf (buf format args : list Z) : M (mem * calls) Z := vhprintf buf STDOUT_FILENO format args.
Definition hprintf (buf : list Z) (handle : Z) (format args : list Z) : M (mem * calls) Z := vhprintf buf handle format args.

Definition user_putchar (c : Z) : M calls Z := write STDOUT_FILENO [u8 c] ;; mret c.

Definition user_puts (s : Z) : M (mem * calls) Z := fun '(m, w) =>
  '(n, m) ← strlen s m;
  '(bytes, m) ← load_bytes (Z.to_nat n) s m;
  '(_, w) ← write STDOUT_FILENO bytes w;
  '(_, w) ← user_putchar 10 w;
  Done (0, (m, w)).

(** ** Output of a user program *)

(** Full buffers before [rest], which is what the buffer holds. *)
Definition buffered (handle : Z) (out : list Z) (w0 w : calls) (a : vhprintf_aux) : Prop :=
  exists full rest, w = w0 ++ map (pair handle) full /\ concat full ++ rest = out /\ Forall (fun b => zlen b = 64) full /\
    zlen rest < 64 /\ zlen (vh_buf a) = 64 /\ vh_p a = zlen rest /\ take (length rest) (vh_buf a) = rest /\ vh_handle a = handle.

Lemma take_zset (l : list Z) k c rest : take k l = rest -> (k < length l)%nat -> take (S k) (zset l (Z.of_nat k) c) = rest ++ [c].
Proof.
  intros <- Hk. unfold zset. rewrite decide_True, Nat2Z.id by lia. rewrite (take_S_r _ _ c) by by apply list_lookup_insert_eq.
  by rewrite take_insert_ge by lia.
Qed.

Lemma add_char_run handle out w0 w a c : buffered handle out w0 w a ->
  exists a' w', add_char c a w = Done (a', w') /\ buffered handle (out ++ [c]) w0 w' a' /\ char_cnt a' = s32 (char_cnt a + 1).
Proof.
  intros (full & rest & -> & <- & Hf & Hr & Hl & Hp & Ht & Hh). unfold add_char. rewrite Hp, Hl.
  pose proof (zlen_nonneg rest). rewrite (proj2 (Z.leb_le 0 _)), (proj2 (Z.ltb_lt _ 64)) by lia. cbn [andb vh_buf vh_p char_cnt vh_handle].
  assert (take (S (length rest)) (zset (vh_buf a) (zlen rest) c) = rest ++ [c]) as Ht' by (apply take_zset; [done|unfold zlen in *; lia]).
  rewrite zlen_zset, Hl. destruct (Z.leb_spec 64 (zlen rest + 1)).
  - unfold flush. cbn [vh_p vh_buf char_cnt vh_handle]. rewrite (proj2 (Z.ltb_lt 0 _)) by lia.
    replace (Z.to_nat (zlen rest + 1)) with (S (length rest)) by (unfold zlen; lia). rewrite Ht', Hh. eexists _, _. split; [reflexivity|]. split; [|done].
    exists (full ++ [rest ++ [c]]), []. cbn [vh_p vh_buf vh_handle length take]. rewrite zlen_zset, map_app, concat_app, <- !app_assoc. cbn [map concat app]. rewrite !app_nil_r.
    split_and!; try done. apply Forall_app. split; [done|]. apply Forall_singleton. rewrite zlen_app. unfold zlen in *. cbn. lia.
  - eexists _, _. split; [reflexivity|]. split; [|done]. exists full, (rest ++ [c]). cbn [vh_p vh_buf vh_handle]. rewrite zlen_zset, length_app, zlen_app, app_assoc.
    change (zlen [c]) with 1. cbn [length]. rewrite Nat.add_1_r. split_and!; try done; lia.
Qed.

Lemma add_chars_run handle out : forall done_ w0 w a, buffered handle done_ w0 w a -> char_cnt a = s32 (zlen done_) ->
  exists a' w', add_chars out a w = Done (a', w') /\ buffered handle (done_ ++ out) w0 w' a' /\ char_cnt a' = s32 (zlen (done_ ++ out)).
Proof.
  induction out as [|c out IH]; intros dn w0 w a Hb Hc; cbn [add_chars]; [rewrite app_nil_r; by exists a, w|].
  destruct (add_char_run handle dn w0 w a c Hb) as (a1 & w1 & R1 & B1 & C1). erewrite bind_done by exact R1.
  destruct (IH (dn ++ [c]) w0 w1 a1 B1) as (a2 & w2 & R2 & B2 & C2).
  - rewrite C1, Hc, zlen_app. change (zlen [c]) with 1. unfold s32. f_equal.
    replace (_ - _ + 1 + 2 ^ 31) with ((zlen dn + 2 ^ 31) mod 2 ^ 32 + 1) by lia. rewrite Zplus_mod_idemp_l. f_equal. lia.
  - exists a2, w2. rewrite <- app_assoc in *. done.
Qed.

(** What a user program prints is written to its handle in order: in calls of write of
    64 characters, and a last one with what is left, if anything is; it returns the number
    of characters. *)
Theorem vhprintf_correct buf handle format args out m w (Hb : zlen buf = 64) (Hout : __vprintf format args m = Done (out, m)) :
  exists full rest, vhprintf buf handle format args (m, w) = Done (s32 (zlen out), (m, w ++ map (pair handle) (full ++ if decide (rest = []) then [] else [rest]))) /\
    concat full ++ rest = out /\ Forall (fun b => zlen b = 64) full /\ zlen rest < 64.
Proof.
  destruct (add_chars_run handle out [] w w (mk_vh buf 0 0 handle)) as (a & w1 & R & (full & rest & -> & Eo & Hf & Hr & Hl & Hp & Ht & Hh) & Hc); [|done|].
  { exists [], []. cbn. rewrite app_nil_r. done. }
  exists full, rest. split; [|done]. unfold vhprintf, bnd, mbind, outcome_bind. rewrite Hout, R. unfold flush. rewrite Hp, Hh. cbn [app] in *. rewrite Hc.
  destruct (decide (rest = [])) as [->|Hne].
  - change (0 <? zlen []) with false. cbn. by rewrite app_nil_r.
  - assert (0 < zlen rest) as Hpos by (destruct rest; [done|unfold zlen; cbn; lia]). rewrite (proj2 (Z.ltb_lt _ _)) by done.
    rewrite zlen_to_nat, Ht. cbn. rewrite map_app, app_assoc. done.
Qed.

Lemma vhprintf_correct_witness : exists full rest, vhprintf (replicate 64 0) 5 (replicate 70 (chr "a") ++ codes "%d") [42] (∅, []) =
    Done (72, (∅, map (pair 5) (full ++ if decide (rest = []) then [] else [rest]))) /\ concat full ++ rest = replicate 70 (chr "a") ++ codes "42".
Proof.
  destruct (vhprintf_correct (replicate 64 0) 5 (replicate 70 (chr "a") ++ codes "%d") [42] (replicate 70 (chr "a") ++ codes "42") ∅ []) as (full & rest & Hr & Hc & _).
  - reflexivity.
  - vm_compute. reflexivity.
  - exists full, rest. split; [exact Hr|exact Hc].
Defined.
End UserConsole.
