(* ===== verification/CStdlib.v ===== *)
(** * lib/stdlib.c: numbers, sorting and searching

    [atoi] reads a string of memory.  [sort] and [binary_search] work on the list of
    an array's elements, each the SIZE bytes that move together; [compare] is the
    comparison function with its auxiliary data. *)

From Stdlib Require Import Ascii.
From Stdlib Require Import(notations) String.
From S2P Require Import Prelude Mem CString Stdio.

(** ** atoi *)

Fixpoint skip_space (fuel : nat) (s : Z) : M mem Z :=
  match fuel with
  | O => nofuel
  | S fuel => c ← load8 s; if isspace c then skip_space fuel (s + 1) else mret s
  end.

(** The digits, accumulated as a negative number. *)
Fixpoint atoi_digits (fuel : nat) (s value : Z) : M mem Z :=
  match fuel with
  | O => nofuel
  | S fuel =>
      c ← load8 s;
      if isdigit c then atoi_digits fuel (s + 1) (s32 (value * 10 - (c - chr "0"))) else mret value
  end.

Definition atoi (s : Z) : M mem Z :=
  ASSERT (negb (s =? NULL)) ;;
  fuel ← scan_fuel;
  s ← skip_space fuel s;
  c ← load8 s;
  let negative := negb (c =? chr "+") && (c =? chr "-") in
  let s := if (c =? chr "+") || (c =? chr "-") then s + 1 else s in
  value ← atoi_digits fuel s 0;
  mret (if negative then value else s32 (- value)).

(** ** Heap sort: elements have indexes from 1 *)

Section Arrays.
Context {A : Type} (compare : A -> A -> Z).

Definition do_swap (a_idx b_idx : Z) : M (list A) unit := fun l =>
  match zget l (a_idx - 1), zget l (b_idx - 1) with
  | Some a, Some b => Done (tt, zset (zset l (a_idx - 1) b) (b_idx - 1) a)
  | _, _ => Fault
  end.

Definition do_compare (a_idx b_idx : Z) : M (list A) Z :=
  a ← load (fun l => zget l (a_idx - 1));
  b ← load (fun l => zget l (b_idx - 1));
  mret (compare a b).

Fixpoint heapify (fuel : nat) (i cnt : Z) : M (list A) unit :=
  match fuel with
  | O => nofuel
  | S fuel =>
      let left := 2 * i in
      let right := 2 * i + 1 in
      max ← (if left <=? cnt then r ← do_compare left i; mret (if 0 <? r then left else i) else mret i);
      max ← (if right <=? cnt then r ← do_compare right max; mret (if 0 <? r then right else max) else mret max);
      if max =? i then mret tt
      else do_swap i max ;; heapify fuel max cnt
  end.

(** [for (i = cnt / 2; i > 0; i--)] *)
Fixpoint build_heap (n : nat) (cnt : Z) : M (list A) unit :=
  match n with
  | O => mret tt
  | S n' => heapify (S (Z.to_nat cnt)) (Z.of_nat n) cnt ;; build_heap n' cnt
  end.

(** [for (i = cnt; i > 1; i--)]; an index moves down the heap at most [cnt] times. *)
Fixpoint sort_heap (n : nat) : M (list A) unit :=
  match n with
  | O => mret tt
  | S n' =>
      let i := Z.of_nat n in
      if 1 <? i then do_swap 1 i ;; heapify (S (Z.to_nat (i - 1))) 1 (i - 1) ;; sort_heap n' else mret tt
  end.

Definition sort (cnt size : Z) : M (list A) unit :=
  ASSERT (0 <? size) ;;
  build_heap (Z.to_nat (cnt / 2)) cnt ;;
  sort_heap (Z.to_nat cnt).

(** ** Binary search: [first] and [last] are element numbers *)

Section Search.
Context {K : Type} (compare_key : K -> A -> Z) (key : K).

Fixpoint search_loop (fuel : nat) (first last : Z) : M (list A) (option Z) :=
  match fuel with
  | O => nofuel
  | S fuel =>
      if first <? last then
        let range := last - first in
        let middle := first + range / 2 in
        a ← load (fun l => zget l middle);
        let cmp := compare_key key a in
        if cmp <? 0 then search_loop fuel first middle
        else if 0 <? cmp then search_loop fuel (middle + 1) last
        else mret (Some middle)
      else mret None
  end.

Definition binary_search (cnt : Z) : M (list A) (option Z) := search_loop (S (Z.to_nat cnt)) 0 cnt.
End Search.
End Arrays.

(** [qsort] and [bsearch] pass a comparison without auxiliary data. *)
Definition qsort {A} (compare : A -> A -> Z) (cnt size : Z) : M (list A) unit := sort compare cnt size.
Definition bsearch {A K} (compare_key : K -> A -> Z) (key : K) (cnt : Z) : M (list A) (option Z) :=
  binary_search compare_key key cnt.

Example sort_ex : sort (fun a b => a - b) 7 4 [5; 3; 9; 1; 7; 3; 8] = Done (tt, [1; 3; 3; 5; 7; 8; 9]).
Proof. vm_compute. reflexivity. Qed.

(** ** Numerals *)

Definition value_in (base : Z) (s : list Z) : Z := fold_left (fun v c => v * base + (c - 48)) s 0.
Definition decimal_value (s : list Z) : Z := fold_left (fun v c => v * 10 + (c - 48)) s 0.
Definition digits_in (base : Z) (s : list Z) : Prop := Forall (fun c => 48 <= c < 48 + base) s.

Lemma value_in_snoc base s c : value_in base (s ++ [c]) = value_in base s * base + (c - 48).
Proof. unfold value_in. by rewrite fold_left_app. Qed.

(** A base whose digits are the first decimal ones. *)
Definition plain_base (b : integer_base) : Prop :=
  2 <= ibase b <= 10 /\ forall v, 0 <= v < ibase b -> nth (Z.to_nat v) (digits b) 0 = 48 + v.

Lemma plain_d : plain_base base_d.
Proof.
  split; [done|]. intros v Hv. change (ibase base_d) with 10 in Hv.
  assert (v = 0 \/ v = 1 \/ v = 2 \/ v = 3 \/ v = 4 \/ v = 5 \/ v = 6 \/ v = 7 \/ v = 8 \/ v = 9) as Hc by lia.
  by repeat (destruct Hc as [->|Hc]; [done|]); subst.
Qed.

Lemma plain_o : plain_base base_o.
Proof.
  split; [done|]. intros v Hv. change (ibase base_o) with 8 in Hv.
  assert (v = 0 \/ v = 1 \/ v = 2 \/ v = 3 \/ v = 4 \/ v = 5 \/ v = 6 \/ v = 7) as Hc by lia.
  by repeat (destruct Hc as [->|Hc]; [done|]); subst.
Qed.

(** The digits [format_integer] writes have the value. *)
Lemma digit_loop_value b k : plain_base b -> forall fuel value cnt buf,
  0 <= value < ibase b ^ Z.of_nat k -> (length buf + k <= 64)%nat -> (k < fuel)%nat ->
  exists ds, digit_loop fuel false b value cnt buf = Done (ds ++ buf) /\ digits_in (ibase b) ds /\ value_in (ibase b) ds = value /\
    (0 < value -> ds <> []) /\ (length ds <= k)%nat.
Proof.
  intros [Hb Hdig]. induction k as [|k IH]; intros [|fuel] value cnt buf Hv Hl Hf; try lia; cbn [digit_loop].
  - change (ibase b ^ Z.of_nat 0) with 1 in Hv. assert (value = 0) as -> by lia. exists [].
    split; [done|]. split; [constructor|]. split; [done|]. split; [lia|cbn; lia].
  - destruct (Z.ltb_spec 0 value) as [Hpos|]; last first.
    { assert (value = 0) as -> by lia. exists []. split; [done|]. split; [constructor|]. split; [done|]. split; [lia|cbn; lia]. }
    cbn [andb]. rewrite (obind_done _ _ buf) by done.
    pose proof (Z.mod_pos_bound value (ibase b)). rewrite Hdig by lia.
    rewrite (obind_done _ _ _ (push_run (48 + value mod ibase b) buf ltac:(lia))).
    destruct (IH fuel (value / ibase b) (cnt + 1) (48 + value mod ibase b :: buf)) as (ds & Hr & Hd & Hval & _ & Hlen).
    + rewrite Nat2Z.inj_succ, Z.pow_succ_r in Hv by lia. split; [apply Z.div_pos; lia|].
      apply Z.div_lt_upper_bound; lia.
    + cbn. lia.
    + lia.
    + exists (ds ++ [48 + value mod ibase b]). rewrite Hr, <- app_assoc. split; [done|]. split; [|split; [|split]].
      * apply Forall_app. split; [done|]. apply Forall_cons. split; [lia|constructor].
      * rewrite value_in_snoc, Hval. pose proof (Z.div_mod value (ibase b)). lia.
      * intros _. by destruct ds.
      * rewrite length_app. cbn. lia.
Qed.

(** ** Decimal numbers *)

Section Decimal.
Implicit Types (m : mem) (s : list Z).

Definition is_digits s : Prop := Forall (fun c => 48 <= c < 58) s.

Lemma digit_loop_decimal k fuel value cnt buf : 0 <= value < 10 ^ Z.of_nat k -> (length buf + k <= 64)%nat -> (k < fuel)%nat ->
  exists ds, digit_loop fuel false base_d value cnt buf = Done (ds ++ buf) /\ is_digits ds /\ decimal_value ds = value /\
    (0 < value -> ds <> []) /\ (length ds <= k)%nat.
Proof. apply (digit_loop_value base_d k plain_d). Qed.

(** Parsing digits: the accumulated value never leaves the range of int. *)
Lemma atoi_digits_run s : forall m p v fuel, cstr m p s -> is_digits s -> (length s < fuel)%nat ->
  0 <= v -> fold_left (fun v c => v * 10 + (c - 48)) s v <= 2 ^ 31 ->
  atoi_digits fuel p (- v) m = Done (- fold_left (fun v c => v * 10 + (c - 48)) s v, m).
Proof.
  induction s as [|c s IH]; intros m p v [|fuel] Hs Hd Hf Hv Hb; cbn in Hf; try lia; cbn [atoi_digits fold_left].
  - apply cstr_nil in Hs. ld. done.
  - apply cstr_cons in Hs as (Hc & _ & Hs). apply Forall_cons in Hd as [Hdc Hd]. cbn [fold_left] in Hb. ld.
    assert (isdigit c = true) as -> by (unfold isdigit; change (chr "0") with 48; change (chr "9") with 57; lia).
    change (chr "0") with 48.
    assert (forall w, 0 <= w -> w <= fold_left (fun v c => v * 10 + (c - 48)) s w) as Hmono.
    { clear - Hd. induction Hd as [|x s Hx Hd IH]; intros w Hw; cbn; [done|].
      etrans; [|apply IH]; lia. }
    pose proof (Hmono (v * 10 + (c - 48)) ltac:(lia)).
    replace (- v * 10 - (c - 48)) with (- (v * 10 + (c - 48))) by lia. rewrite s32_small by lia.
    apply IH; (done || lia).
Qed.
(** A sign and digits. *)
Definition signed_digits (neg : bool) s : list Z := (if neg then [chr "-"] else []) ++ s.

Lemma atoi_run m p neg s : cstr m p (signed_digits neg s) -> 0 < p -> is_digits s -> s <> [] ->
  decimal_value s <= 2 ^ 31 - (if neg then 0 else 1) ->
  atoi p m = Done (if neg then - decimal_value s else decimal_value s, m).
Proof.
  intros Hs Hp Hd Hne Hb. unfold atoi. nn. unfold scan_fuel. erewrite bind_done by done.
  pose proof (cstr_size _ _ _ Hs) as Hsize. assert (0 <= decimal_value s) as H0.
  { unfold decimal_value. clear - Hd. assert (forall w, 0 <= w -> 0 <= fold_left (fun v c => v * 10 + (c - 48)) s w) as H; [|by apply H].
    induction Hd as [|x s Hx Hd IH]; intros w Hw; cbn; [done|]. apply IH. lia. }
  destruct neg; cbn [signed_digits app] in Hs, Hsize.
  - apply cstr_cons in Hs as (Hc & _ & Hs). cbn in Hsize.
    erewrite bind_done; [|cbn [skip_space]; by ld]. ld. cbn [Z.eqb negb andb orb]. change (chr "-" =? chr "+") with false.
    change (chr "-" =? chr "-") with true. cbn [negb andb orb].
    pose proof (atoi_digits_run s m (p + 1) 0 (S (size m)) Hs Hd ltac:(lia) ltac:(lia) ltac:(fold (decimal_value s); lia)) as Hr.
    rewrite Z.opp_0 in Hr. by erewrite bind_done by exact Hr.
  - destruct s as [|c s]; [done|]. pose proof Hs as (Hc & _ & _)%cstr_cons. pose proof Hd as [Hdc _]%Forall_cons.
    assert (isspace c = false) as Hsp by (unfold isspace; change (chr " ") with 32; lia).
    erewrite bind_done; [|cbn [skip_space]; ld; rewrite Hsp; done]. ld.
    assert ((c =? chr "+") = false /\ (c =? chr "-") = false) as [-> ->] by (change (chr "+") with 43; change (chr "-") with 45; lia).
    cbn [negb andb orb].
    pose proof (atoi_digits_run (c :: s) m p 0 (S (size m)) Hs Hd ltac:(lia) ltac:(lia) ltac:(fold (decimal_value (c :: s)); lia)) as Hr.
    rewrite Z.opp_0 in Hr. erewrite bind_done by exact Hr. fold (decimal_value (c :: s)).
    rewrite Z.opp_involutive, s32_small by lia. done.
Qed.

(** What [%d] writes. *)
Lemma vprintf_d m n : is_s32 n ->
  exists s, __vprintf (codes "%d") [u32 n] m = Done (signed_digits (n <? 0) s, m) /\
    is_digits s /\ s <> [] /\ decimal_value s = Z.abs n /\ (length s <= 10)%nat.
Proof.
  intros Hn. unfold is_s32 in Hn.
  destruct (digit_loop_decimal 10 65 (Z.abs n) 0 []) as (ds & Hr & Hd & Hv & Hne & Hlen);
    [change (10 ^ Z.of_nat 10) with 10000000000; lia|cbn; lia|lia|].
  rewrite app_nil_r in Hr.
  assert (exists s, format_integer (if n <? 0 then u64 (- n) else n) true (n <? 0) base_d (mk_conv 0 0 (-1) INT) =
      Done (signed_digits (n <? 0) s) /\ is_digits s /\ s <> [] /\ decimal_value s = Z.abs n /\ (length s <= 10)%nat) as (s & Hf & Hs).
  { assert ((if n <? 0 then u64 (- n) else n) = Z.abs n) as ->.
    { destruct (Z.ltb_spec n 0); [rewrite u64_small; lia|lia]. }
    exists (if decide (n = 0) then [48] else ds). unfold format_integer, render_digits.
    change (flag _ _) with false. cbn [andb precision Z.ltb Z.compare]. rewrite (obind_done _ _ _ Hr).
    destruct (decide (n = 0)) as [->|Hn0].
    - split; [|split; [repeat constructor; lia|split; [done|split; [done|cbn; lia]]]].
      cbn in Hv. destruct ds as [|d ds]; [done|]. exfalso. cbn in Hr. by injection Hr.
    - assert (ds <> []) as Hds by (apply Hne; lia). split; [|done].
      assert (zero_loop 65 1 ds = Done ds) as Hz.
      { cbn [zero_loop]. assert ((zlen ds <? 1) = false) as -> by (apply Z.ltb_ge; unfold zlen; destruct ds; [done|cbn; lia]). done. }
      rewrite (obind_done _ _ _ Hz). cbn [bnd mbind outcome_bind width negb andb sign_of].
      unfold sign_of. change (flag _ _) with false. cbn [Z.eqb].
      rewrite app_nil_r. unfold signed_digits. f_equal.
      assert ((if 0 - zlen ds - 0 - (if (if n <? 0 then chr "-" else 0) =? 0 then 0 else 1) <? 0 then 0
               else 0 - zlen ds - 0 - (if (if n <? 0 then chr "-" else 0) =? 0 then 0 else 1)) = 0) as ->.
      { pose proof (zlen_nonneg ds).
        destruct (n <? 0); change (chr "-" =? 0) with false; change (0 =? 0) with true; cbn iota; zcase; lia. }
      by destruct (n <? 0). }
  exists s. split; [|done].
  unfold __vprintf. change (length (codes "%d") + 30)%nat with 32%nat. change (codes "%d") with [chr "%"; chr "d"].
  change 32%nat with (S (S 30)). generalize 30%nat as k. intros k.
  cbn [__vprintf_loop]. change (negb (chr "%" =? chr "%")) with false. cbn [head tail].
  rewrite bool_decide_false by done.
  erewrite bind_done; [|apply (liftO_run _ m (mk_conv 0 0 (-1) INT, [chr "d"], [u32 n])); reflexivity].
  cbn beta iota. change (one_of (chr "d") "di") with true. cbn iota. cbn [type].
  assert (signed_arg INT [u32 n] = Done (n, [])) as Hsa.
  { unfold signed_arg. cbn. do 2 f_equal. unfold s32, u32. rewrite Z.add_mod_idemp_l by done. rewrite Z.mod_small; lia. }
  erewrite bind_done; [|erewrite bind_done by (by apply liftO_run); cbn beta iota; erewrite bind_done by (by apply liftO_run); done].
  cbn beta iota. erewrite bind_done by done. unfold mret, M_ret. by rewrite app_nil_r.
Qed.

(** Printing any int with "%d" and reading the text with atoi gives the number
    back. *)
Theorem atoi_snprintf_roundtrip m buffer size n : is_s32 n -> 0 < buffer -> 12 <= size <= 2 ^ 31 -> mapped m buffer 12 ->
  exists len m', snprintf buffer size (codes "%d") [u32 n] m = Done (len, m') /\ atoi buffer m' = Done (n, m').
Proof.
  intros Hn Hb Hs Hm. destruct (vprintf_d m n Hn) as (s & Hr & Hd & Hne & Hv & Hl).
  set (out := signed_digits (n <? 0) s) in *. assert (zlen out <= 11) as Hlen.
  { unfold out, signed_digits. rewrite zlen_app. unfold zlen. destruct (n <? 0); cbn; lia. }
  assert (Forall is_char out) as Hc.
  { unfold out, signed_digits. apply Forall_app. split; [destruct (n <? 0); [change (chr "-") with 45; all_bytes|constructor]|].
    eapply Forall_impl; [exact Hd|]. intros c Hc. unfold is_char. cbn in Hc. lia. }
  pose proof (zlen_nonneg out).
  destruct (vsnprintf_run m buffer size (codes "%d") [u32 n] out Hr) as (m' & Hrun & Hat & _); [auto with words|lia|lia| |].
  { intros x Hx. apply Hm. lia. }
  rewrite take_ge in Hat by (unfold zlen in *; lia).
  exists (zlen out), m'. split; [exact Hrun|]. unfold is_s32 in Hn.
  rewrite (atoi_run m' buffer (n <? 0) s); [|by split|done|done|done|].
  - rewrite Hv. destruct (Z.ltb_spec n 0); do 2 f_equal; lia.
  - rewrite Hv. destruct (Z.ltb_spec n 0); lia.
Qed.
End Decimal.

Lemma atoi_snprintf_roundtrip_witness :
  exists len m', snprintf 16 12 (codes "%d") [u32 (- 2 ^ 31)] (stored ∅ 16 (replicate 12 7)) = Done (len, m') /\
    atoi 16 m' = Done (- 2 ^ 31, m').
Proof.
  apply (atoi_snprintf_roundtrip (stored ∅ 16 (replicate 12 7)) 16 12 (- 2 ^ 31)); [by_decide|lia|lia|].
  apply (bytes_at_mapped _ 16 (replicate 12 7)). apply stored_bytes. cbn. all_bytes.
Defined.
