(* ===== verification/HeapSort.v ===== *)
(** * lib/stdlib.c: heap sort and binary search are correct

    Elements have indexes from 1, as in the code; the parent of [c] is [c / 2]. *)

From Stdlib Require Import Sorting.Sorted.
From S2P Require Import Prelude Mem CString Stdio CStdlib.

(** What sort's comment asks of the comparison. *)
Class Comparison {A} (compare : A -> A -> Z) : Prop := {
  compare_sym : forall a b, 0 < compare a b -> compare b a <= 0;
  compare_trans : forall a b c, compare a b <= 0 -> compare b c <= 0 -> compare a c <= 0
}.

Section HeapSort.
Context {A : Type} (compare : A -> A -> Z) `{!Comparison compare}.
Implicit Types l : list A.

Definition at_most (a b : A) : Prop := compare a b <= 0.

(** The element with index [i]. *)
Definition elem (l : list A) (i : Z) : option A := zget l (i - 1).

(** Every element from [k]'s children on is at most its parent, but for the children
    of [hole]. *)
Definition heap_but (hole k cnt : Z) (l : list A) : Prop := forall c x y,
  2 <= c <= cnt -> k <= c / 2 -> c / 2 <> hole -> elem l c = Some x -> elem l (c / 2) = Some y -> at_most x y.

(** The children of [i] are at most [i]'s parent. *)
Definition under (i k cnt : Z) (l : list A) : Prop := forall c x y,
  2 <= c <= cnt -> c / 2 = i -> k <= i / 2 -> elem l c = Some x -> elem l (i / 2) = Some y -> at_most x y.

(** [l'] is [l] with elements up to [cnt] exchanged. *)
Record shuffled (cnt : Z) (l l' : list A) : Prop := {
  sh_perm : l' ≡ₚ l;
  sh_rest : forall i, cnt < i -> elem l' i = elem l i
}.

Lemma shuffled_refl cnt l : shuffled cnt l l.
Proof. by split. Qed.

Lemma shuffled_trans cnt l1 l2 l3 : shuffled cnt l1 l2 -> shuffled cnt l2 l3 -> shuffled cnt l1 l3.
Proof. intros [H1 H2] [H3 H4]. split; [by rewrite H3|]. intros i Hi. by rewrite H4, H2. Qed.

Lemma shuffled_weaken cnt cnt' l l' : cnt <= cnt' -> shuffled cnt l l' -> shuffled cnt' l l'.
Proof. intros Hc [H1 H2]. split; [done|]. intros i Hi. apply H2. lia. Qed.

Lemma shuffled_len cnt l l' : shuffled cnt l l' -> zlen l' = zlen l.
Proof. intros [Hp _]. unfold zlen. by rewrite (Permutation_length Hp). Qed.

Lemma at_most_refl a : at_most a a.
Proof. unfold at_most. destruct (decide (0 < compare a a)) as [H|H]; [by apply compare_sym|lia]. Qed.

Lemma elem_some l i : 1 <= i <= zlen l -> exists a, elem l i = Some a.
Proof. intros Hi. apply zget_Some. lia. Qed.

Lemma elem_range l i a : elem l i = Some a -> 1 <= i <= zlen l.
Proof. intros H. apply zget_inv in H. lia. Qed.

Lemma do_swap_run l i j a b : i <> j -> elem l i = Some a -> elem l j = Some b ->
  exists l', do_swap i j l = Done (tt, l') /\ l' ≡ₚ l /\
    forall n, elem l' n = if decide (n = j) then Some a else if decide (n = i) then Some b else elem l n.
Proof.
  intros Hij Ha Hb. exists (zset (zset l (i - 1) b) (j - 1) a). unfold elem in *. pose proof (zget_inv _ _ _ Ha) as Hi.
  pose proof (zget_inv _ _ _ Hb) as Hj. split; [unfold do_swap; by rewrite Ha, Hb|]. split.
  - by apply zset_swap_perm.
  - intros n. rewrite zget_zset by (rewrite zlen_zset; lia). destruct (decide (n = j)) as [->|Hn]; [by rewrite decide_True|].
    rewrite decide_False by lia. rewrite zget_zset by lia. destruct (decide (n = i)) as [->|]; [by rewrite decide_True|].
    by rewrite decide_False by lia.
Qed.

Lemma do_compare_run l i j a b : elem l i = Some a -> elem l j = Some b -> do_compare compare i j l = Done (compare a b, l).
Proof.
  unfold elem. intros Ha Hb. unfold do_compare. erewrite bind_done by (unfold load; by rewrite Ha).
  by erewrite bind_done by (unfold load; by rewrite Hb).
Qed.

(** The larger of [m] and its rival [c]. *)
Definition larger (c m cnt : Z) : M (list A) Z :=
  if c <=? cnt then r ← do_compare compare c m; mret (if 0 <? r then c else m) else mret m.

Lemma larger_run l c m cnt x : 1 <= c -> cnt <= zlen l -> elem l m = Some x -> exists n y,
  larger c m cnt l = Done (n, l) /\ elem l n = Some y /\ (n = m \/ n = c /\ c <= cnt) /\ at_most x y /\
  forall z, c <= cnt -> elem l c = Some z -> at_most z y.
Proof.
  intros Hc Hcnt Hx. unfold larger. destruct (Z.leb_spec c cnt) as [Hle|Hgt].
  - destruct (elem_some l c) as [z Hz]; [lia|]. erewrite bind_done by (by apply do_compare_run).
    destruct (Z.ltb_spec 0 (compare z x)) as [Hlt|Hge].
    + exists c, z. split_and!; [done|done|by right|by apply compare_sym|]. intros z' _ Hz'. rewrite Hz in Hz'. injection Hz' as <-. apply at_most_refl.
    + exists m, x. split_and!; [done|done|by left|apply at_most_refl|]. intros z' _ Hz'. rewrite Hz in Hz'. injection Hz' as <-. done.
  - exists m, x. split_and!; [done|done|by left|apply at_most_refl|lia].
Qed.

(** ** Floating down *)

Lemma heapify_run fuel : forall i k cnt l, 1 <= k <= i -> i <= cnt -> cnt <= zlen l -> cnt - i < Z.of_nat fuel ->
  heap_but i k cnt l -> under i k cnt l ->
  exists l', heapify compare fuel i cnt l = Done (tt, l') /\ shuffled cnt l l' /\ heap_but 0 k cnt l'.
Proof.
  induction fuel as [|fuel IH]; intros i k cnt l Hk Hi Hcnt Hfuel Hheap Hunder; [lia|]. cbn [heapify].
  destruct (elem_some l i) as [x Hx]; [lia|].
  destruct (larger_run l (2 * i) i cnt x) as (m & y & Hrun & Hy & Hm & Hxy & Hleft); [lia|lia|done|].
  unfold larger in Hrun. erewrite bind_done by exact Hrun.
  destruct (larger_run l (2 * i + 1) m cnt y) as (n & z & Hrun' & Hz & Hn & Hyz & Hright); [lia|lia|done|].
  unfold larger in Hrun'. erewrite bind_done by exact Hrun'.
  assert (at_most x z) as Hxz by (by apply (compare_trans _ y)).
  assert (forall c w, 2 <= c <= cnt -> c / 2 = i -> elem l c = Some w -> at_most w z) as Hchild.
  { intros c w Hc Hp Hw. assert (c = 2 * i \/ c = 2 * i + 1) as [-> | ->] by dlia; [|by apply Hright; [lia|]].
    apply (compare_trans _ y); [|done]. by apply Hleft; [lia|]. }
  destruct (Z.eqb_spec n i) as [->|Hni].
  - exists l. split; [done|]. split; [apply shuffled_refl|]. intros c a b Hc Hkc _ Ha Hb.
    destruct (decide (c / 2 = i)) as [E|E]; [|by apply (Hheap c)]. rewrite E, Hx in Hb. injection Hb as <-.
    rewrite Hx in Hz. injection Hz as <-. by apply (Hchild c).
  - assert (n = 2 * i \/ n = 2 * i + 1) as Hn2 by lia. assert (n <= cnt) as Hncnt by lia. assert (n / 2 = i) as Hnp by dlia.
    destruct (do_swap_run l i n x z) as (l1 & Hsw & Hperm & Hl1); [lia|done|done|]. erewrite bind_done by exact Hsw.
    assert (shuffled cnt l l1) as Hsh by (split; [done|]; intros j Hj; rewrite Hl1; by rewrite !decide_False by lia).
    destruct (IH n k cnt l1) as (l' & Hrun2 & Hsh' & Hheap'); [lia|lia|by rewrite (shuffled_len _ _ _ Hsh)|lia| | |].
    + intros c a b Hc Hkc Hne Ha Hb. rewrite Hl1 in Ha, Hb. rewrite (decide_False (P := c / 2 = n)) in Hb by done.
      destruct (decide (c = n)) as [->|Hcn].
      { rewrite Hnp in Hb. rewrite decide_True in Hb by done. by simplify_eq. }
      destruct (decide (c = i)) as [->|Hci].
      { injection Ha as <-. rewrite decide_False in Hb by dlia. by apply (Hunder n z b); [lia|done|done|..]. }
      destruct (decide (c / 2 = i)) as [E|E]; [injection Hb as <-; by apply (Hchild c)|by apply (Hheap c)].
    + intros c a b Hc Hp Hkn Ha Hb. rewrite Hl1 in Ha, Hb. rewrite Hnp in Hb.
      rewrite (decide_False (P := i = n)), (decide_True (P := i = i)) in Hb by lia. injection Hb as <-.
      rewrite !decide_False in Ha by dlia. apply (Hheap c); [done|lia|lia|done|by rewrite Hp].
    + exists l'. split; [exact Hrun2|]. split; [by eapply shuffled_trans|done].
Qed.

Lemma build_heap_run n : forall cnt l, Z.of_nat n <= cnt / 2 -> cnt <= zlen l -> heap_but 0 (Z.of_nat n + 1) cnt l ->
  exists l', build_heap compare n cnt l = Done (tt, l') /\ shuffled cnt l l' /\ heap_but 0 1 cnt l'.
Proof.
  induction n as [|n IH]; intros cnt l Hn Hcnt Hheap; cbn [build_heap].
  - exists l. split; [done|]. split; [apply shuffled_refl|done].
  - destruct (heapify_run (S (Z.to_nat cnt)) (Z.of_nat (S n)) (Z.of_nat (S n)) cnt l) as (l1 & Hrun & Hsh & Hheap1);
      [lia|dlia|done|dlia| | |].
    + intros c x y Hc Hk Hne Hx Hy. apply (Hheap c); [done|lia|lia|done|done].
    + intros c x y Hc Hp Hk. exfalso. dlia.
    + erewrite bind_done by exact Hrun. destruct (IH cnt l1) as (l' & Hrun' & Hsh' & Hheap'); [lia|by rewrite (shuffled_len _ _ _ Hsh)| |].
      { replace (Z.of_nat n + 1) with (Z.of_nat (S n)) by lia. done. }
      exists l'. split; [exact Hrun'|]. split; [by eapply shuffled_trans|done].
Qed.

(** ** Sorting the heap *)

Lemma root_largest cnt l r : heap_but 0 1 cnt l -> elem l 1 = Some r -> cnt <= zlen l ->
  forall n i x, i <= Z.of_nat n -> 1 <= i <= cnt -> elem l i = Some x -> at_most x r.
Proof.
  intros Hheap Hr Hcnt. induction n as [|n IH]; intros i x Hn Hi Hx; [lia|].
  destruct (decide (i = 1)) as [->|]; [rewrite Hr in Hx; injection Hx as <-; apply at_most_refl|].
  destruct (elem_some l (i / 2)) as [y Hy]; [dlia|]. apply (compare_trans _ y); [by apply (Hheap i); [lia|dlia|dlia|..]|].
  apply (IH (i / 2)); [dlia|dlia|done].
Qed.

(** The elements after [n] are sorted and none is less than one up to [n]. *)
Definition sorted_from (n : Z) (l : list A) : Prop :=
  forall i j x y, 1 <= i < j -> n < j -> elem l i = Some x -> elem l j = Some y -> at_most x y.

(** What holds of the elements up to [cnt] still holds after a shuffle. *)
Lemma shuffled_all cnt l l' (P : A -> Prop) : cnt <= zlen l -> shuffled cnt l l' ->
  (forall i x, 1 <= i <= cnt -> elem l i = Some x -> P x) -> forall i x, 1 <= i <= cnt -> elem l' i = Some x -> P x.
Proof.
  intros Hcnt Hsh HP i x Hi Hx. destruct Hsh as [Hp Hr]. set (n := Z.to_nat cnt).
  assert (drop n l' = drop n l) as Hd.
  { apply list_eq. intros j. rewrite !lookup_drop. specialize (Hr (Z.of_nat (n + j) + 1)). unfold elem in Hr.
    rewrite Z.add_simpl_r, !zget_nat in Hr. apply Hr. lia. }
  assert (take n l' ≡ₚ take n l) as Ht.
  { apply (Permutation_app_inv_r (drop n l)). rewrite take_drop. rewrite <- Hd. by rewrite take_drop. }
  assert (x ∈ take n l') as Hin.
  { apply list_elem_of_lookup. exists (Z.to_nat (i - 1)). unfold elem, zget in Hx. rewrite decide_True in Hx by lia.
    rewrite lookup_take_lt by lia. done. }
  rewrite Ht in Hin. apply list_elem_of_lookup in Hin as [j Hj]. apply lookup_take_Some in Hj as [Hj Hjn].
  apply (HP (Z.of_nat j + 1)); [lia|]. unfold elem. by rewrite Z.add_simpl_r, zget_nat.
Qed.

Lemma sort_heap_run n : forall l, Z.of_nat n <= zlen l -> heap_but 0 1 (Z.of_nat n) l -> sorted_from (Z.of_nat n) l ->
  exists l', sort_heap compare n l = Done (tt, l') /\ l' ≡ₚ l /\ sorted_from 1 l'.
Proof.
  induction n as [|n IH]; intros l Hn Hheap Hsorted; cbn [sort_heap].
  { exists l. split; [done|]. split; [done|]. intros i j x y Hi Hj. by apply (Hsorted i j); lia. }
  destruct (Z.ltb_spec 1 (Z.of_nat (S n))) as [H1|H1].
  2: { exists l. split; [done|]. split; [done|]. intros i j x y Hi Hj. by apply (Hsorted i j); lia. }
  set (i := Z.of_nat (S n)) in *. replace (Z.of_nat n) with (i - 1) in IH by lia.
  destruct (elem_some l 1) as [r Hr]; [lia|]. destruct (elem_some l i) as [e He]; [lia|].
  destruct (do_swap_run l 1 i r e) as (l1 & Hsw & Hperm & Hl1); [lia|done|done|]. erewrite bind_done by exact Hsw.
  assert (zlen l1 = zlen l) as Hlen1 by (unfold zlen; by rewrite (Permutation_length Hperm)).
  destruct (heapify_run (S (Z.to_nat (i - 1))) 1 1 (i - 1) l1) as (l2 & Hrun2 & Hsh2 & Hheap2); [lia|lia|lia|lia| | |].
  { intros c x y Hc _ Hne Hx Hy. rewrite Hl1 in Hx, Hy. rewrite !decide_False in Hx by dlia. rewrite !decide_False in Hy by dlia.
    apply (Hheap c); [lia|dlia|dlia|done|done]. }
  { intros c x y _ _ Hk. exfalso. change (1 / 2) with 0 in Hk. lia. }
  erewrite bind_done by exact Hrun2.
  destruct (IH l2) as (l' & Hrun' & Hperm' & Hsort'); [rewrite (shuffled_len _ _ _ Hsh2); lia|done| |].
  { assert (forall j, i <= j -> elem l2 j = elem l1 j) as Hrest by (intros j Hj; apply Hsh2; lia).
    assert (forall p x, 1 <= p <= i - 1 -> elem l2 p = Some x -> forall j y, i <= j -> elem l1 j = Some y -> at_most x y) as Hlow.
    { apply (shuffled_all (i - 1) l1 l2 (fun x => forall j y, i <= j -> elem l1 j = Some y -> at_most x y)); [lia|done|].
      intros p x Hp Hx j y Hj Hy. rewrite Hl1 in Hx, Hy. rewrite (decide_False (P := p = i)) in Hx by lia.
      assert (exists q, 1 <= q <= i /\ elem l q = Some x) as (q & Hq & Hxq).
      { destruct (decide (p = 1)) as [->|]; [injection Hx as <-; exists i; split; [lia|done]|exists p; split; [lia|done]]. }
      destruct (decide (j = i)) as [->|].
      - injection Hy as <-. apply (root_largest i l r Hheap Hr ltac:(lia) (Z.to_nat q) q); [lia|lia|done].
      - rewrite decide_False in Hy by lia. apply (Hsorted q j); [lia|lia|done|done]. }
    intros p q x y Hp Hq Hx Hy. rewrite (Hrest q) in Hy by lia. destruct (decide (p < i)) as [Hpi|Hpi]; [by apply (Hlow p x ltac:(lia) Hx q y); [lia|]|].
    rewrite (Hrest p) in Hx by lia. rewrite Hl1 in Hx, Hy. rewrite !(decide_False (P := q = _)) in Hy by lia.
    destruct (decide (p = i)) as [->|].
    - injection Hx as <-. apply (Hsorted 1 q); [lia|lia|done|done].
    - rewrite decide_False in Hx by lia. by apply (Hsorted p q); [lia|lia|..]. }
  exists l'. split; [exact Hrun'|]. split; [|done]. rewrite Hperm', (sh_perm _ _ _ Hsh2). done.
Qed.

Lemma sorted_from_StronglySorted l : sorted_from 1 l -> StronglySorted at_most l.
Proof.
  intros Hs. assert (forall i j x y, (i < j)%nat -> l !! i = Some x -> l !! j = Some y -> at_most x y) as Hl.
  { intros i j x y Hij Hx Hy. apply (Hs (Z.of_nat i + 1) (Z.of_nat j + 1)); [lia|lia| |]; unfold elem; by rewrite Z.add_simpl_r, zget_nat. }
  clear Hs. induction l as [|a l IH]; constructor.
  - apply IH. intros i j x y Hij Hx Hy. by apply (Hl (S i) (S j)); [lia|..].
  - apply Forall_forall. intros x Hx. apply list_elem_of_lookup in Hx as [j Hj]. by apply (Hl 0%nat (S j)); [lia|..].
Qed.

(** C36: sort, a heap sort, terminates on every array and leaves a sorted
    permutation of it, for every comparison that orders the elements. *)
Theorem sort_correct l size : 0 < size -> exists l', sort compare (zlen l) size l = Done (tt, l') /\
  l' ≡ₚ l /\ StronglySorted at_most l'.
Proof.
  intros Hs. unfold sort. rewrite (proj2 (Z.ltb_lt _ _) Hs). erewrite bind_done by done. pose proof (zlen_nonneg l) as H0.
  destruct (build_heap_run (Z.to_nat (zlen l / 2)) (zlen l) l) as (l1 & Hrun & Hsh & Hheap); [dlia|done| |].
  { intros c x y Hc Hk. exfalso. dlia. }
  erewrite bind_done by exact Hrun. pose proof (shuffled_len _ _ _ Hsh) as Hlen.
  destruct (sort_heap_run (Z.to_nat (zlen l)) l1) as (l' & Hrun' & Hperm & Hsort); [lia|by rewrite Z2Nat.id| |].
  { intros i j x y Hi Hj _ Hy. apply elem_range in Hy. lia. }
  exists l'. split; [exact Hrun'|]. split; [by rewrite Hperm, (sh_perm _ _ _ Hsh)|]. by apply sorted_from_StronglySorted.
Qed.
End HeapSort.

(** ** Binary search *)

Section Search.
Context {A K : Type} (compare_key : K -> A -> Z) (key : K).
Implicit Types l : list A.

(** The array is in order: the key compares the same way with all elements on one
    side of a given one. *)
Definition in_order (l : list A) : Prop := forall i j x y, i <= j -> zget l i = Some x -> zget l j = Some y ->
  (compare_key key x < 0 -> compare_key key y < 0) /\ (0 < compare_key key y -> 0 < compare_key key x).

Definition matches (l : list A) (i : Z) : Prop := exists x, zget l i = Some x /\ compare_key key x = 0.

Lemma search_loop_run fuel : forall l first last, in_order l -> 0 <= first <= last -> last <= zlen l -> last - first < Z.of_nat fuel ->
  (forall i, matches l i -> first <= i < last) ->
  exists r, search_loop compare_key key fuel first last l = Done (r, l) /\
    match r with Some i => matches l i | None => forall i, ~ matches l i end.
Proof.
  induction fuel as [|fuel IH]; intros l first last Hord Hf Hl Hfuel Hin.
  { lia. }
  cbn [search_loop]. destruct (Z.ltb_spec first last) as [Hlt|Hge].
  2: { exists None. split; [done|]. intros i Hi%Hin. lia. }
  set (middle := first + (last - first) / 2). assert (first <= middle < last) as Hmid by (unfold middle; dlia).
  destruct (zget_Some l middle) as [a Ha]; [lia|]. erewrite bind_done by (unfold load; by rewrite Ha).
  destruct (Z.ltb_spec (compare_key key a) 0) as [Hneg|Hneg].
  - apply IH; [done|lia|lia|lia|]. intros i Hi. pose proof (Hin i Hi). destruct Hi as (x & Hx & Ex).
    destruct (decide (i < middle)); [lia|]. destruct (Hord middle i a x) as [Hbelow _]; [lia|done|done|]. lia.
  - destruct (Z.ltb_spec 0 (compare_key key a)) as [Hpos|Hpos].
    + apply IH; [done|lia|lia|lia|]. intros i Hi. pose proof (Hin i Hi). destruct Hi as (x & Hx & Ex).
      destruct (decide (middle < i)); [lia|]. destruct (Hord i middle x a) as [_ Habove]; [lia|done|done|]. lia.
    + exists (Some middle). split; [done|]. exists a. split; [done|lia].
Qed.

(** Binary_search ends on every sorted array; it returns the position of an
    element that matches the key, and NULL exactly when there is none. *)
Theorem binary_search_correct l : in_order l -> exists r, binary_search compare_key key (zlen l) l = Done (r, l) /\
  match r with Some i => matches l i | None => forall i, ~ matches l i end.
Proof.
  intros Hord. pose proof (zlen_nonneg l). apply search_loop_run; [done|lia|done|lia|]. intros i (x & Hx & _). by apply zget_inv in Hx.
Qed.
End Search.

#[export] Instance difference_comparison : Comparison (fun a b : Z => a - b).
Proof. split; intros; lia. Qed.

Lemma sort_correct_witness : exists l', sort (fun a b => a - b) 5 4 [3; 9; 1; 3; 2] = Done (tt, l') /\ l' ≡ₚ [3; 9; 1; 3; 2].
Proof.
  destruct (sort_correct (fun a b => a - b) [3; 9; 1; 3; 2] 4) as (l' & H1 & H2 & _); [reflexivity|].
  exists l'. exact (conj H1 H2).
Defined.

Lemma binary_search_correct_witness : exists r, binary_search (fun k x => k - x) 9 5 [1; 2; 3; 9; 12] = Done (r, [1; 2; 3; 9; 12]).
Proof.
  destruct (binary_search_correct (fun k x => k - x) 9 [1; 2; 3; 9; 12]) as (r & H & _); [|exists r; exact H].
  intros i j x y Hij Hx Hy. pose proof (zget_inv _ _ _ Hx) as Hi. pose proof (zget_inv _ _ _ Hy) as Hj.
  change (zlen _) with 5 in Hi, Hj.
  assert (i = 0 \/ i = 1 \/ i = 2 \/ i = 3 \/ i = 4) as [-> | [-> | [-> | [-> | ->]]]] by lia; injection Hx as <-;
    assert (j = 0 \/ j = 1 \/ j = 2 \/ j = 3 \/ j = 4) as [-> | [-> | [-> | [-> | ->]]]] by lia; injection Hy as <-; lia.
Defined.
