(* ===== verification/Random.v ===== *)
(** * lib/random.c: the pseudo-random number generator

    The state of RC4: an array [s] of 256 bytes and two indices, all of type
    [uint8_t].  The array is a permutation of the bytes from the first
    initialization on, so every index computed from it is inside it. *)

From S2P Require Import Prelude.

Record rc4 := mk_rc4 {
  s : list Z;           (* S[] *)
  s_i : Z;
  s_j : Z;
  inited : bool         (* already initialized? *)
}.

(** [s[i]]: a wild access outside the array. *)
Definition get_s (i : Z) : M rc4 Z := load (fun r => zget (s r) i).
Definition put_s (i v : Z) : M rc4 unit := fun r =>
  match zget (s r) i with
  | Some _ => Done (tt, mk_rc4 (zset (s r) i v) (s_i r) (s_j r) (inited r))
  | None => Fault
  end.
Definition set_ij (i j : Z) : M rc4 unit := modify (fun r => mk_rc4 (s r) i j (inited r)).
Definition set_inited : M rc4 unit := modify (fun r => mk_rc4 (s r) (s_i r) (s_j r) true).

(** [swap_byte (s + a, s + b)]. *)
Definition swap_byte (a b : Z) : M rc4 unit :=
  t ← get_s a; vb ← get_s b; put_s a vb ;; put_s b t.

(** Byte [k] of the seed in memory, the low one first. *)
Definition seed_byte (seed k : Z) : Z := (seed / 2 ^ (8 * k)) mod 256.

(** The loop that mixes the seed in; [j] is local and a byte. *)
Fixpoint mix (n : nat) (seed i j : Z) : M rc4 Z :=
  match n with
  | O => mret j
  | S n =>
      v ← get_s i;
      let j := u8 (j + v + seed_byte seed (i mod 4)) in
      swap_byte i j ;;
      mix n seed (i + 1) j
  end.

Definition random_init (seed : Z) : M rc4 unit :=
  for_z 256 (fun i => put_s i (u8 i)) ;;
  _ ← mix 256 seed 0 0;
  set_ij 0 0 ;;
  set_inited.

(** The next byte of the stream. *)
Definition random_byte : M rc4 Z :=
  r ← get;
  let i := u8 (s_i r + 1) in
  v ← get_s i;
  let j := u8 (s_j r + v) in
  set_ij i j ;;
  swap_byte i j ;;
  a ← get_s i; b ← get_s j;
  get_s (u8 (a + b)).

Fixpoint random_loop (n : nat) : M rc4 (list Z) :=
  match n with
  | O => mret []
  | S n => b ← random_byte; bs ← random_loop n; mret (b :: bs)
  end.

(** The bytes written to the buffer. *)
Definition random_bytes (size : Z) : M rc4 (list Z) :=
  r ← get;
  (if inited r then mret tt else random_init 0) ;;
  random_loop (Z.to_nat size).

(** An [unsigned long] of four bytes. *)
Definition random_ulong : M rc4 Z :=
  bs ← random_bytes 4;
  mret (fold_right (fun b v => b + 256 * v) 0 bs).

(** ** The type of the state *)

Definition bytes : list Z := seqZ 0 256.
Definition is_perm (l : list Z) : Prop := l ≡ₚ bytes.

(** Static zeros before the first initialization, a permutation after it. *)
Record ok (r : rc4) : Prop := {
  ok_i : 0 <= s_i r < 256;
  ok_j : 0 <= s_j r < 256;
  ok_len : zlen (s r) = 256;
  ok_perm : inited r = true -> is_perm (s r)
}.

Section Facts.
Implicit Types (r : rc4) (l : list Z).

Lemma perm_len l : is_perm l -> zlen l = 256.
Proof. intros Hp. unfold zlen. by rewrite (Permutation_length Hp). Qed.

Lemma perm_get l i : is_perm l -> 0 <= i < 256 -> exists v, zget l i = Some v /\ 0 <= v < 256.
Proof.
  intros Hp Hi. destruct (zget_Some l i) as [v Hv]; [rewrite (perm_len l Hp); lia|]. exists v. split; [done|].
  unfold zget in Hv. rewrite decide_True in Hv by lia. apply list_elem_of_lookup_2 in Hv. unfold is_perm in Hp. rewrite Hp in Hv.
  apply elem_of_seqZ in Hv. lia.
Qed.

(** Exchanging two elements, or one with itself. *)
Lemma swap_run l a b : is_perm l -> 0 <= a < 256 -> 0 <= b < 256 ->
  exists l', (forall si sj f, swap_byte a b (mk_rc4 l si sj f) = Done (tt, mk_rc4 l' si sj f)) /\ is_perm l'.
Proof.
  intros Hp Ha Hb. destruct (perm_get l a Hp Ha) as (x & Hx & _), (perm_get l b Hp Hb) as (y & Hy & _).
  assert (exists z, zget (zset l a y) b = Some z) as [z Hz].
  { apply zget_Some. rewrite zlen_zset, (perm_len l Hp). lia. }
  exists (zset (zset l a y) b x). split.
  - intros si' sj' f'. unfold swap_byte, get_s, put_s, load, bnd, mbind, M_bind. cbn. rewrite Hx. cbn. rewrite Hy. cbn. rewrite Hx. cbn. by rewrite Hz.
  - unfold is_perm. transitivity l; [by apply zset_swap_perm|done].
Qed.

Lemma mix_run n seed : forall i j l, is_perm l -> 0 <= i -> i + Z.of_nat n <= 256 ->
  exists j' l', is_perm l' /\ forall si sj f, mix n seed i j (mk_rc4 l si sj f) = Done (j', mk_rc4 l' si sj f).
Proof.
  induction n as [|n IH]; intros i j l Hp Hi Hn; [by exists j, l|].
  destruct (perm_get l i Hp) as (v & Hv & _); [lia|]. set (j1 := u8 (j + v + seed_byte seed (i mod 4))).
  destruct (swap_run l i j1 Hp) as (l1 & Hs & Hp1); [lia|apply u8_range|].
  destruct (IH (i + 1) j1 l1 Hp1) as (j' & l' & Hp' & Hr); [lia|lia|]. exists j', l'. split; [done|]. intros si sj f.
  cbn [mix]. erewrite bind_done by (unfold get_s, load; cbn; by rewrite Hv). cbv zeta. fold j1. erewrite bind_done by apply Hs. apply Hr.
Qed.

(** The first loop of [random_init]. *)
Lemma identity_run l si sj f : zlen l = 256 ->
  for_z 256 (fun i => put_s i (u8 i)) (mk_rc4 l si sj f) = Done (tt, mk_rc4 bytes si sj f).
Proof.
  intros Hl. destruct (for_from_inv (fun i r => exists l', r = mk_rc4 l' si sj f /\ zlen l' = 256 /\ forall k, 0 <= k < i -> zget l' k = Some k)
    (fun i => put_s i (u8 i)) 256 0 (mk_rc4 l si sj f)) as (r & Hrun & l' & -> & Hl' & Hg).
  - exists l. split; [done|]. split; [done|]. intros; lia.
  - intros i r Hi (l1 & -> & Hl1 & Hg1). destruct (zget_Some l1 i) as [x Hx]; [lia|].
    exists (mk_rc4 (zset l1 i i) si sj f). split; [unfold put_s; cbn; rewrite Hx, u8_small by lia; done|].
    exists (zset l1 i i). split; [done|]. split; [by rewrite zlen_zset|]. intros k Hk. rewrite zget_zset by lia.
    case_decide; [congruence|]. apply Hg1. lia.
  - unfold for_z. change (Z.to_nat 256) with 256%nat. rewrite Hrun. assert (l' = bytes) as ->; [|done]. apply zlist_eq; [rewrite Hl'; by vm_compute|].
    intros k Hk. rewrite Hg by lia. unfold bytes, zget. rewrite decide_True by lia. rewrite lookup_seqZ_lt by lia. f_equal. lia.
Qed.

Lemma random_init_run seed : exists l, is_perm l /\
  forall r, zlen (s r) = 256 -> random_init seed r = Done (tt, mk_rc4 l 0 0 true).
Proof.
  destruct (mix_run 256 seed 0 0 bytes) as (j & l & Hp & Hr); [unfold is_perm; reflexivity|lia|lia|]. exists l. split; [done|].
  intros [l0 si sj f] Hl. unfold random_init. erewrite bind_done by by apply identity_run. erewrite bind_done by apply Hr. done.
Qed.

Lemma random_byte_run r : ok r -> inited r = true ->
  exists b r', random_byte r = Done (b, r') /\ 0 <= b < 256 /\ ok r' /\ inited r' = true.
Proof.
  intros [_ _ _ Hp] Hin. destruct r as [l si sj f]. cbn in *. specialize (Hp Hin). set (i := u8 (si + 1)).
  destruct (perm_get l i Hp) as (v & Hv & _); [apply u8_range|]. set (j := u8 (sj + v)).
  destruct (swap_run l i j Hp) as (l' & Hs & Hp'); [apply u8_range..|].
  destruct (perm_get l' i Hp') as (x & Hx & _); [apply u8_range|]. destruct (perm_get l' j Hp') as (y & Hy & _); [apply u8_range|].
  destruct (perm_get l' (u8 (x + y)) Hp') as (b & Hb & Hbr); [apply u8_range|]. exists b, (mk_rc4 l' i j f).
  split; [|split; [done|split; [split; [apply u8_range|apply u8_range|by apply perm_len|done]|done]]].
  unfold random_byte. erewrite bind_done by done. cbn [s_i s_j]. fold i. cbv zeta. erewrite bind_done by (unfold get_s, load; cbn; by rewrite Hv).
  fold j. erewrite bind_done by done. cbn [s inited]. erewrite bind_done by apply Hs.
  erewrite bind_done by (unfold get_s, load; cbn; by rewrite Hx). erewrite bind_done by (unfold get_s, load; cbn; by rewrite Hy).
  unfold get_s, load. cbn. by rewrite Hb.
Qed.

Lemma random_loop_run n : forall r, ok r -> inited r = true ->
  exists bs r', random_loop n r = Done (bs, r') /\ length bs = n /\ Forall (fun b => 0 <= b < 256) bs /\ ok r' /\ inited r' = true.
Proof.
  induction n as [|n IH]; intros r Hr Hin; [by exists [], r|]. cbn [random_loop].
  destruct (random_byte_run r Hr Hin) as (b & r1 & Hrun & Hb & Hr1 & Hin1). destruct (IH r1 Hr1 Hin1) as (bs & r2 & Hrun2 & Hl & HF & Hr2 & Hin2).
  exists (b :: bs), r2. split; [erewrite bind_done by exact Hrun; by erewrite bind_done by exact Hrun2|].
  split; [cbn; lia|]. split; [by constructor|done].
Qed.

Lemma random_bytes_run r n : ok r -> 0 <= n ->
  exists bs r', random_bytes n r = Done (bs, r') /\ zlen bs = n /\ Forall (fun b => 0 <= b < 256) bs /\ ok r' /\ inited r' = true.
Proof.
  intros Hr Hn. unfold random_bytes. erewrite bind_done by done. destruct (inited r) eqn:Ei.
  - erewrite bind_done by done. destruct (random_loop_run (Z.to_nat n) r Hr Ei) as (bs & r' & Hrun & Hl & HF & Hr' & Hin).
    exists bs, r'. split; [done|]. split; [unfold zlen; lia|done].
  - destruct (random_init_run 0) as (l & Hp & Hi). erewrite bind_done by apply Hi, Hr.
    destruct (random_loop_run (Z.to_nat n) (mk_rc4 l 0 0 true)) as (bs & r' & Hrun & Hl & HF & Hr' & Hin); [|done|].
    { split; [cbn; lia|cbn; lia|by apply perm_len|done]. }
    exists bs, r'. split; [done|]. split; [unfold zlen; lia|done].
Qed.

(** C40: The generator never leaves its arrays: [random_bytes] from any state of
    its type, initialized or not, ends with as many bytes as were asked for, each
    below 256, and a state of the type in which [s] is a permutation of the
    bytes; [random_ulong] is below 2^32. *)
Theorem random_bytes_typed r n : ok r -> 0 <= n ->
  (exists bs r', random_bytes n r = Done (bs, r') /\ zlen bs = n /\ Forall (fun b => 0 <= b < 256) bs /\ ok r' /\ is_perm (s r')) /\
  exists v r', random_ulong r = Done (v, r') /\ is_u32 v /\ ok r'.
Proof.
  intros Hr Hn. split.
  - destruct (random_bytes_run r n Hr Hn) as (bs & r' & Hrun & Hl & HF & Hr' & Hin). exists bs, r'.
    split; [done|]. split; [done|]. split; [done|]. split; [done|]. by apply Hr'.
  - destruct (random_bytes_run r 4 Hr) as (bs & r' & Hrun & Hl & HF & Hr' & Hin); [lia|].
    unfold random_ulong. erewrite bind_done by exact Hrun. eexists _, r'. split; [done|]. split; [|done].
    assert (length bs = 4%nat) as Hlen by (unfold zlen in Hl; lia). do 4 (destruct bs as [|? bs]; [done|]). destruct bs; [|done].
    repeat (apply Forall_cons in HF as [? HF]). unfold is_u32. cbn. lia.
Qed.

(** Equal seeds give equal streams, whatever the generator did before. *)
Theorem random_init_resets seed r1 r2 : ok r1 -> ok r2 -> random_init seed r1 = random_init seed r2 /\ random_init seed r1 <> Fault.
Proof.
  intros H1 H2. destruct (random_init_run seed) as (l & _ & Hi). rewrite !Hi by (apply H1 || apply H2). done.
Qed.
End Facts.

(** The state of the program when it starts. *)
Definition start_rc4 : rc4 := mk_rc4 (replicate 256 0) 0 0 false.

Lemma random_bytes_typed_witness :
  (exists bs r', random_bytes 5 start_rc4 = Done (bs, r') /\ zlen bs = 5 /\ Forall (fun b => 0 <= b < 256) bs /\ ok r' /\ is_perm (s r')) /\
  exists v r', random_ulong start_rc4 = Done (v, r') /\ is_u32 v /\ ok r'.
Proof. apply (random_bytes_typed start_rc4 5); [split; [cbn; lia|cbn; lia|reflexivity|discriminate]|lia]. Defined.

Lemma random_init_resets_witness :
  random_init 7 start_rc4 = random_init 7 (mk_rc4 bytes 3 9 true) /\ random_init 7 start_rc4 <> Fault.
Proof.
  apply (random_init_resets 7 start_rc4 (mk_rc4 bytes 3 9 true)).
  - split; [cbn; lia|cbn; lia|reflexivity|discriminate].
  - split; [cbn; lia|cbn; lia|reflexivity|intros _; cbn; unfold is_perm; reflexivity].
Defined.

