(* ===== verification/Ustar.v ===== *)
(** * lib/ustar.c: headers of tar archives

    A header is 512 bytes of the memory of Mem.  The literals of ustar.c are strings
    in memory as well; [lit] gives the address of each, which the linker decides.
    [ustar_parse_header] returns the values of its three output parameters, or the
    message of its error. *)

From Stdlib Require Import Ascii.
From Stdlib Require Import(notations) String.
From S2P Require Import Prelude Mem CString Stdio CStdlib.

(** ** struct ustar_header *)

Inductive ustar_header :=
  | h_name | h_mode | h_uid | h_gid | h_size | h_mtime | h_chksum | h_typeflag | h_linkname
  | h_magic | h_version | h_uname | h_gname | h_devmajor | h_devminor | h_prefix | h_padding.

#[export] Instance ustar_header_eq : EqDecision ustar_header.
Proof. solve_decision. Defined.

Definition sizeof (f : ustar_header) : Z :=
  match f with
  | h_name | h_linkname => 100
  | h_mode | h_uid | h_gid | h_chksum | h_devmajor | h_devminor => 8
  | h_size | h_mtime | h_padding => 12
  | h_typeflag => 1
  | h_magic => 6
  | h_version => 2
  | h_uname | h_gname => 32
  | h_prefix => 155
  end.

(** The fields in order, without padding between them. *)
Definition fields : list ustar_header :=
  [h_name; h_mode; h_uid; h_gid; h_size; h_mtime; h_chksum; h_typeflag; h_linkname;
   h_magic; h_version; h_uname; h_gname; h_devmajor; h_devminor; h_prefix; h_padding].
Fixpoint offset_in (l : list ustar_header) (f : ustar_header) : Z :=
  match l with [] => 0 | g :: l => if decide (g = f) then 0 else sizeof g + offset_in l f end.
Definition offsetof (f : ustar_header) : Z := offset_in fields f.
Definition sizeof_header : Z := fold_right (fun f n => sizeof f + n) 0 fields.

Definition USTAR_HEADER_SIZE : Z := 512.
Definition USTAR_REGULAR : Z := chr "0".
Definition USTAR_DIRECTORY : Z := chr "5".
Definition USTAR_EOF : Z := -1.

(** ** Checksum *)

Definition in_chksum_field (i : Z) : bool :=
  (offsetof h_chksum <=? i) && (i <? offsetof h_chksum + sizeof h_chksum).

Fixpoint chksum_loop (n : nat) (h i chksum : Z) : M mem Z :=
  match n with
  | O => mret chksum
  | S n =>
      b ← (if in_chksum_field i then mret (chr " ") else load8 (h + i));
      chksum_loop n h (i + 1) (u32 (chksum + b))
  end.

Definition calculate_chksum (h : Z) : M mem Z := chksum_loop (Z.to_nat USTAR_HEADER_SIZE) h 0 0.

(** ** Octal fields *)

(** Success and the value stored. *)
Fixpoint octal_loop (n : nat) (s ofs value : Z) : M mem (bool * Z) :=
  match n with
  | O => mret (false, value)
  | S n =>
      c ← load8 (s + ofs);
      if (chr "0" <=? c) && (c <=? chr "7") then
        if (2 ^ 32 - 1) / 8 <? value then mret (false, value)
        else octal_loop n s (ofs + 1) (u32 (c - chr "0" + value * 8))
      else if (c =? chr " ") || (c =? 0) then mret (0 <? ofs, value)
      else mret (false, value)
  end.

Definition parse_octal_field (s size : Z) : M mem (bool * Z) := octal_loop (Z.to_nat size) s 0 0.

Fixpoint zeros_loop (n : nat) (block : Z) : M mem bool :=
  match n with
  | O => mret true
  | S n => b ← load8 block; if negb (b =? 0) then mret false else zeros_loop n (block + 1)
  end.

Definition is_all_zeros (block cnt : Z) : M mem bool := zeros_loop (Z.to_nat cnt) block.

Inductive parse_result :=
  | Header (file_name type size : Z)
  | Error (message : String.string).

Section Ustar.
Context (lit : String.string -> Z).

(** The condition of the loop of [strip_antisocial_prefixes]. *)
Definition antisocial (file_name : Z) : M mem bool :=
  c ← load8 file_name;
  if c =? chr "/" then mret true
  else
    r ← memcmp file_name (lit "./") 2;
    if r =? 0 then mret true
    else r ← memcmp file_name (lit "../") 3; mret (r =? 0).

Fixpoint strip_loop (fuel : nat) (file_name : Z) : M mem Z :=
  match fuel with
  | O => nofuel
  | S fuel =>
      b ← antisocial file_name;
      if b then q ← strchr file_name (chr "/"); strip_loop fuel (q + 1) else mret file_name
  end.

Definition strip_antisocial_prefixes (file_name : Z) : M mem Z :=
  fuel ← scan_fuel;
  file_name ← strip_loop fuel file_name;
  c ← load8 file_name;
  if c =? 0 then mret (lit ".")
  else r ← strcmp file_name (lit ".."); mret (if r =? 0 then lit "." else file_name).

(** Success and what is written to the console. *)
Definition ustar_make_header (file_name type size header : Z) : M mem (bool * list Z) :=
  let h := header in
  ASSERT (sizeof_header =? USTAR_HEADER_SIZE) ;;
  ASSERT ((type =? USTAR_REGULAR) || (type =? USTAR_DIRECTORY)) ;;
  file_name ← strip_antisocial_prefixes file_name;
  len ← strlen file_name;
  if 99 <? len then
    out ← printf (codes "%s: file name too long" ++ [10]) [file_name];
    mret (false, out)
  else
    _ ← memset h 0 sizeof_header;
    _ ← strlcpy (h + offsetof h_name) file_name (sizeof h_name);
    _ ← snprintf (h + offsetof h_mode) (sizeof h_mode) (codes "%07o") [if type =? USTAR_REGULAR then 420 else 493];
    _ ← strlcpy (h + offsetof h_uid) (lit "0000000") (sizeof h_uid);
    _ ← strlcpy (h + offsetof h_gid) (lit "0000000") (sizeof h_gid);
    _ ← snprintf (h + offsetof h_size) (sizeof h_size) (codes "%011o") [u32 size];
    _ ← snprintf (h + offsetof h_mtime) (sizeof h_size) (codes "%011o") [1136102400];
    store8 (h + offsetof h_typeflag) type ;;
    _ ← strlcpy (h + offsetof h_magic) (lit "ustar") (sizeof h_magic);
    store8 (h + offsetof h_version + 1) (chr "0") ;;
    store8 (h + offsetof h_version) (chr "0") ;;
    _ ← strlcpy (h + offsetof h_gname) (lit "root") (sizeof h_gname);
    _ ← strlcpy (h + offsetof h_uname) (lit "root") (sizeof h_uname);
    chksum ← calculate_chksum h;
    _ ← snprintf (h + offsetof h_chksum) (sizeof h_chksum) (codes "%07o") [chksum];
    mret (true, []).

(** The last part of [ustar_parse_header], from the type on. *)
Definition parse_type_size (h : Z) : M mem parse_result :=
  t ← load8 (h + offsetof h_typeflag);
  if negb (t =? USTAR_REGULAR) && negb (t =? USTAR_DIRECTORY) then mret (Error "unimplemented file type")
  else
    size ← (if t =? USTAR_REGULAR then
              '(ok, size_ul) ← parse_octal_field (h + offsetof h_size) (sizeof h_size);
              mret (if negb ok then inl "corrupt file size field"%string
                    else if 2 ^ 31 - 1 <? size_ul then inl "file too large"%string else inr size_ul)
            else mret (inr 0));
    match size with
    | inl message => mret (Error message)
    | inr size_ul =>
        file_name ← strip_antisocial_prefixes (h + offsetof h_name);
        mret (Header file_name t (s32 size_ul))
    end.

Definition ustar_parse_header (header : Z) : M mem parse_result :=
  let h := header in
  ASSERT (sizeof_header =? USTAR_HEADER_SIZE) ;;
  zeros ← is_all_zeros header USTAR_HEADER_SIZE;
  if zeros then mret (Header NULL USTAR_EOF 0)
  else
    r ← memcmp (h + offsetof h_magic) (lit "ustar") 6;
    if negb (r =? 0) then mret (Error "not a ustar archive")
    else
      v0 ← load8 (h + offsetof h_version);
      bad ← (if negb (v0 =? chr "0") then mret true
             else v1 ← load8 (h + offsetof h_version + 1); mret (negb (v1 =? chr "0")));
      if bad then mret (Error "invalid ustar version")
      else
        '(ok, chksum) ← parse_octal_field (h + offsetof h_chksum) (sizeof h_chksum);
        if negb ok then mret (Error "corrupt chksum field")
        else
          sum ← calculate_chksum h;
          if negb (chksum =? sum) then mret (Error "checksum mismatch")
          else
            c ← load8 (h + offsetof h_name + sizeof h_name - 1);
            long ← (if negb (c =? 0) then mret true
                    else p ← load8 (h + offsetof h_prefix); mret (negb (p =? 0)));
            if long then mret (Error "file name too long") else parse_type_size h.
End Ustar.

(** ** Names *)

(** [pre] is a prefix of [s]. *)
Definition starts (pre s : list Z) : bool := bool_decide (pre `prefix_of` s).

Definition antisocial_name (s : list Z) : bool :=
  starts (codes "/") s || starts (codes "./") s || starts (codes "../") s.

(** What follows the first slash. *)
Fixpoint after_slash (s : list Z) : list Z :=
  match s with [] => [] | c :: s => if c =? chr "/" then s else after_slash s end.

Fixpoint strip_name (n : nat) (s : list Z) : list Z :=
  match n with O => s | S n => if antisocial_name s then strip_name n (after_slash s) else s end.

Definition clean_name (s : list Z) : list Z :=
  let r := strip_name (length s) s in
  if bool_decide (r = [] \/ r = codes "..") then codes "." else r.

(** A name that names a file below the directory an archive is unpacked in, or
    that directory; only its start is checked. *)
Definition safe_name (s : list Z) : Prop := antisocial_name s = false /\ s <> [] /\ s <> codes "..".

Section Names.
Implicit Types s : list Z.

Lemma starts_nil s : starts [] s = true.
Proof. apply bool_decide_true, prefix_nil. Qed.

Lemma starts_cons c pre d s : starts (c :: pre) (d :: s) = (c =? d) && starts pre s.
Proof.
  unfold starts. destruct (Z.eqb_spec c d) as [->|]; cbn [andb].
  - apply bool_decide_ext. split; [apply prefix_cons_inv_2|apply prefix_cons].
  - apply bool_decide_false. intros H. by apply prefix_cons_inv_1 in H.
Qed.

Lemma starts_end c pre : starts (c :: pre) [] = false.
Proof. apply bool_decide_false. intros [k H]. done. Qed.

Lemma starts_app pre s : starts pre s = true -> exists r, s = pre ++ r.
Proof. intros H%bool_decide_eq_true. exact H. Qed.

(** A slash ends each of the prefixes. *)
Lemma after_slash_spec s : antisocial_name s = true ->
  exists pre, s = pre ++ chr "/" :: after_slash s /\ char_pos (chr "/") s = Some (zlen pre).
Proof.
  intros H. assert (exists pre r, s = pre ++ r /\ In pre [codes "/"; codes "./"; codes "../"]) as (pre & r & -> & Hin).
  { unfold antisocial_name in H. apply orb_true_iff in H as [H|H]; [apply orb_true_iff in H as [H|H]|];
      apply starts_app in H as (r & ->); eexists _, r; (split; [reflexivity|cbn; tauto]). }
  destruct Hin as [<-|[<-|[<-|[]]]].
  - by exists [].
  - by exists (codes ".").
  - by exists (codes "..").
Qed.

Lemma strip_name_done n : forall s, (length s <= n)%nat -> antisocial_name (strip_name n s) = false.
Proof.
  induction n as [|n IH]; intros s Hl; cbn [strip_name]; [destruct s; [done|cbn in Hl; lia]|].
  destruct (antisocial_name s) eqn:E; [|done]. apply IH. destruct (after_slash_spec s E) as (pre & Hs & _).
  apply (f_equal length) in Hs. rewrite length_app in Hs. cbn in Hs. lia.
Qed.

Lemma strip_name_fix n s : antisocial_name s = false -> strip_name n s = s.
Proof. intros E. destruct n; cbn; [done|by rewrite E]. Qed.

Lemma clean_name_safe s : safe_name (clean_name s).
Proof.
  unfold clean_name. case_bool_decide as H; [by split|]. apply Decidable.not_or in H as [H1 H2].
  split; [|done]. by apply strip_name_done.
Qed.

Lemma clean_safe s : safe_name s -> clean_name s = s.
Proof.
  intros (H1 & H2 & H3). unfold clean_name. rewrite strip_name_fix by done. rewrite bool_decide_false by tauto. done.
Qed.

(** Cleaning a name twice is cleaning it once. *)
Lemma clean_idem s : clean_name (clean_name s) = clean_name s.
Proof. apply clean_safe, clean_name_safe. Qed.
End Names.

(** ** Literals *)

Definition literals : list String.string := ["."%string; "./"%string; "../"%string; ".."%string; "0000000"%string; "ustar"%string; "root"%string].

Section UstarFacts.
Context (lit : String.string -> Z).
Implicit Types (m : mem) (s : list Z) (p h : Z).

(** The literals are in memory; they do not lie in a block. *)
Definition rodata m : Prop := Forall (fun l => 0 < lit l /\ cstr m (lit l) (codes l)) literals.
Definition lits_apart h n : Prop := Forall (fun l => h + n <= lit l \/ lit l + zlen (codes l) < h) literals.

Lemma rodata_at m l : rodata m -> In l literals -> 0 < lit l /\ cstr m (lit l) (codes l).
Proof. intros H Hl. unfold rodata in H. rewrite List.Forall_forall in H. by apply H. Qed.

Lemma rodata_frame m m' h n : rodata m -> lits_apart h n -> outside m m' h n -> rodata m'.
Proof.
  intros H Ha Ho. unfold rodata, lits_apart in *. rewrite List.Forall_forall in *. intros l Hl.
  destruct (H l Hl) as [Hp Hc]. split; [done|]. apply (cstr_frame m); [|done]. intros a Hx. apply Ho.
  destruct (Ha l Hl); lia.
Qed.

(** The terminator. *)
(** Comparing a string with the [n] characters of a literal. *)
Lemma prefix_run pre : forall m p q s, Forall is_char pre -> cstr m p s -> bytes_at m q pre ->
  exists r, memcmp_loop (length pre) p q m = Done (r, m) /\ (r =? 0) = starts pre s.
Proof.
  induction pre as [|c pre IH]; intros m p q s Hc Hs Hq; cbn [length memcmp_loop].
  - exists 0. split; [done|]. by rewrite starts_nil.
  - apply Forall_cons in Hc as [[Hc _] Hcs]. destruct Hq as [Hq Hqs]. destruct s as [|d s].
    + apply cstr_nil in Hs. do 2 ld. dec. eexists. split; [done|]. rewrite starts_end. by destruct (c <? 0).
    + apply cstr_cons in Hs as (Hd & _ & Hs). do 2 ld. rewrite starts_cons, (Z.eqb_sym c).
      destruct (Z.eqb_spec d c); cbn [negb andb]; [by apply IH|]. eexists. split; [done|]. by destruct (c <? d).
Qed.

Lemma literal_prefix m p s l : rodata m -> In l literals -> cstr m p s -> 0 < p ->
  exists r, memcmp p (lit l) (zlen (codes l)) m = Done (r, m) /\ (r =? 0) = starts (codes l) s.
Proof.
  intros Hro Hl Hs Hp. destruct (rodata_at m l Hro Hl) as [Hq [Hb Hc]]. apply bytes_at_app in Hb as [Hb _].
  unfold memcmp. do 2 (erewrite bind_done by by apply assert_block_run). rewrite zlen_to_nat. by apply prefix_run.
Qed.

Lemma antisocial_run m p s : rodata m -> cstr m p s -> 0 < p -> antisocial lit p m = Done (antisocial_name s, m).
Proof.
  intros Hro Hs Hp. unfold antisocial, antisocial_name. assert (exists c, m !! p = Some c /\ (c =? chr "/") = starts (codes "/") s) as (c & Hc & E).
  { change (codes "/") with [chr "/"]. destruct s as [|c s].
    - exists 0. split; [by apply cstr_nil in Hs|]. by rewrite starts_end.
    - exists c. apply cstr_cons in Hs as (Hc & _). split; [done|]. by rewrite starts_cons, starts_nil, andb_true_r, Z.eqb_sym. }
  ld. rewrite E. destruct (starts (codes "/") s); [done|].
  destruct (literal_prefix m p s "./" Hro) as (r & Hr & Er); [cbn; tauto|done|done|].
  erewrite bind_done by exact Hr. rewrite Er. destruct (starts (codes "./") s); [done|].
  destruct (literal_prefix m p s "../" Hro) as (r' & Hr' & Er'); [cbn; tauto|done|done|].
  erewrite bind_done by exact Hr'. by rewrite Er'.
Qed.

(** The loop ends: every turn moves behind a slash. *)
Lemma strip_loop_run n : forall m p s fuel, (length s <= n)%nat -> (n < fuel)%nat -> rodata m -> cstr m p s -> 0 < p ->
  exists q, strip_loop lit fuel p m = Done (q, m) /\ cstr m q (strip_name n s) /\ p <= q /\ q + zlen (strip_name n s) = p + zlen s.
Proof.
  induction n as [|n IH]; intros m p s [|fuel] Hl Hf Hro Hs Hp; try lia; cbn [strip_loop strip_name];
    (erewrite bind_done by by apply antisocial_run).
  - destruct s; [|cbn in Hl; lia]. exists p. split; [done|]. split; [done|lia].
  - destruct (antisocial_name s) eqn:E; [|exists p; split; [done|]; split; [done|lia]].
    destruct (after_slash_spec s E) as (pre & Es & Hpos). erewrite bind_done by by apply strchr_run.
    rewrite (u8_small (chr "/")) by done. rewrite Hpos. cbn [found_at]. set (r := after_slash s) in *.
    pose proof (zlen_nonneg pre). assert (zlen s = zlen pre + 1 + zlen r) as El by (rewrite Es, zlen_app, zlen_cons; lia).
    destruct (IH m (p + zlen pre + 1) r fuel) as (q & Hq & Hc & Hle & Hlen); [unfold zlen in El; lia|lia|done| |lia|].
    + pose proof Hs as Hs'. rewrite Es in Hs'. apply cstr_drop in Hs'. by apply cstr_cons in Hs' as (_ & _ & Hs').
    + exists q. split; [done|]. split; [done|]. lia.
Qed.

(** A pointer into the name or to the literal ".". *)
Lemma strip_run m p s : rodata m -> cstr m p s -> 0 < p ->
  exists q, strip_antisocial_prefixes lit p m = Done (q, m) /\ cstr m q (clean_name s) /\ 0 < q /\
    (q = lit "." \/ (p <= q /\ q + zlen (clean_name s) = p + zlen s)).
Proof.
  intros Hro Hs Hp. unfold strip_antisocial_prefixes, scan_fuel. erewrite bind_done by done.
  destruct (strip_loop_run (length s) m p s (S (size m))) as (q & Hq & Hc & Hle & Hlen); try done; [by eapply cstr_fuel|].
  erewrite bind_done by exact Hq. unfold clean_name. set (r := strip_name (length s) s) in *.
  destruct (rodata_at m "." Hro) as [Hp1 Hc1]; [cbn; tauto|]. destruct r as [|c r].
  - pose proof Hc as Hc0. apply cstr_nil in Hc. ld. cbn [Z.eqb]. rewrite bool_decide_true by auto. exists (lit "."). auto.
  - pose proof Hc as (Hc0 & [Hcc _] & _)%cstr_cons. ld. dec.
    destruct (rodata_at m ".." Hro) as [Hp2 Hc2]; [cbn; tauto|].
    erewrite bind_done by (apply (strcmp_correct m q (lit "..") (c :: r) (codes "..")); done || lia).
    pose proof (str_compare_eq (c :: r) (codes "..")) as E. destruct (Z.eqb_spec (str_compare (c :: r) (codes "..")) 0) as [E0|E0].
    + rewrite bool_decide_true by (right; tauto). exists (lit "."). auto.
    + rewrite bool_decide_false by naive_solver. exists q. split; [done|]. split; [done|]. split; [lia|]. right. lia.
Qed.

(** ** Reading a block *)

(** [n] bytes from [p] on. *)
Definition block_at m p n : Prop := forall a, p <= a < p + n -> exists b, m !! a = Some b /\ is_byte b.

Lemma block_sub m p n q k : block_at m p n -> p <= q -> q + k <= p + n -> block_at m q k.
Proof. intros H H1 H2 a Ha. apply H. lia. Qed.

Lemma block_mapped m p n : block_at m p n -> mapped m p n.
Proof. intros H a Ha. destruct (H a Ha) as (b & Hb & _). by exists b. Qed.

Lemma block_bytes m p n : block_at m p (Z.of_nat n) -> exists bs, length bs = n /\ bytes_at m p bs /\ Forall is_byte bs.
Proof.
  revert p. induction n as [|n IH]; intros p H; [by exists []|].
  destruct (H p) as (b & Hb & Hby); [lia|]. destruct (IH (p + 1)) as (bs & Hl & Hbs & HF); [intros a Ha; apply H; lia|].
  exists (b :: bs). split; [cbn; lia|]. split; [done|by constructor].
Qed.

(** A block that holds a zero holds a string. *)
Lemma block_cstr n : forall m p, block_at m p (Z.of_nat n + 1) -> m !! (p + Z.of_nat n) = Some 0 ->
  exists s, cstr m p s /\ zlen s <= Z.of_nat n.
Proof.
  induction n as [|n IH]; intros m p Hb H0.
  - exists []. rewrite Z.add_0_r in H0. split; [by apply cstr_nil|done].
  - destruct (Hb p) as (c & Hc & Hby); [lia|]. destruct (decide (c = 0)) as [->|Hne].
    + exists []. split; [by apply cstr_nil|]. unfold zlen. cbn [length]. lia.
    + destruct (IH m (p + 1)) as (s & Hs & Hl); [intros a Ha; apply Hb; lia|rewrite <- H0; f_equal; lia|].
      exists (c :: s). split; [|rewrite zlen_cons; lia]. apply cstr_cons. split; [done|]. split; [unfold is_byte, is_char in *; lia|done].
Qed.

(** The sum of the bytes from [i] on, the checksum field read as spaces. *)
Fixpoint sum_from m h (n : nat) (i : Z) : Z :=
  match n with
  | O => 0
  | S n => (if in_chksum_field i then chr " " else default 0 (m !! (h + i))) + sum_from m h n (i + 1)
  end.
Definition header_sum m h : Z := sum_from m h 512 0.

Lemma chksum_loop_run m h n : forall i acc, mapped m (h + i) (Z.of_nat n) -> 0 <= acc < 2 ^ 32 ->
  chksum_loop n h i acc m = Done (u32 (acc + sum_from m h n i), m).
Proof.
  induction n as [|n IH]; intros i acc Hm Ha; cbn [chksum_loop sum_from].
  - by rewrite Z.add_0_r, u32_small.
  - destruct (Hm (h + i)) as [b Hb]; [lia|]. rewrite Hb. cbn [default].
    assert ((if in_chksum_field i then mret (chr " ") else load8 (h + i)) m = Done (if in_chksum_field i then chr " " else b, m)) as Hr.
    { destruct (in_chksum_field i); [done|by apply load8_run]. }
    erewrite bind_done by exact Hr. rewrite IH; [|intros a Hx; apply Hm; lia|apply u32_range].
    do 2 f_equal. unfold u32. rewrite Z.add_mod_idemp_l by done. f_equal. unfold default, id. lia.
Qed.

Lemma sum_from_bound m h n : forall i, block_at m (h + i) (Z.of_nat n) -> 0 <= sum_from m h n i <= 255 * Z.of_nat n.
Proof.
  induction n as [|n IH]; intros i Hb; cbn [sum_from]; [lia|]. destruct (Hb (h + i)) as (b & -> & Hby); [lia|].
  specialize (IH (i + 1) ltac:(intros a Ha; apply Hb; lia)). unfold is_byte in Hby. change (chr " ") with 32.
  cbn [default]. unfold default, id. destruct (in_chksum_field i); lia.
Qed.

Lemma calculate_chksum_run m h : block_at m h 512 -> calculate_chksum h m = Done (header_sum m h, m) /\ 0 <= header_sum m h <= 130560.
Proof.
  intros Hb. pose proof (sum_from_bound m h 512 0) as Hs. rewrite Z.add_0_r in Hs. specialize (Hs Hb). fold (header_sum m h) in Hs.
  split; [|lia]. unfold calculate_chksum. change (Z.to_nat USTAR_HEADER_SIZE) with 512%nat.
  rewrite chksum_loop_run; [|rewrite Z.add_0_r; by apply block_mapped|lia]. fold (header_sum m h). rewrite Z.add_0_l, u32_small; [done|lia].
Qed.

Lemma sum_from_ext m m' h n : forall i, (forall k, i <= k < i + Z.of_nat n -> in_chksum_field k = false -> m' !! (h + k) = m !! (h + k)) ->
  sum_from m' h n i = sum_from m h n i.
Proof.
  induction n as [|n IH]; intros i E; cbn [sum_from]; [done|]. f_equal; [|apply IH; intros k Hk; apply E; lia].
  destruct (in_chksum_field i) eqn:Hi; [done|]. by rewrite E by (lia || done).
Qed.

(** The checksum does not depend on its own field. *)
Lemma header_sum_outside m m' h : outside m m' (h + offsetof h_chksum) (sizeof h_chksum) -> header_sum m' h = header_sum m h.
Proof.
  intros Ho. apply sum_from_ext. intros k Hk Hi. apply Ho. unfold in_chksum_field in Hi. lia.
Qed.

(** Octal fields: a result for every content. *)
Lemma octal_loop_total n : forall m p ofs v, block_at m (p + ofs) (Z.of_nat n) -> is_u32 v ->
  exists ok w, octal_loop n p ofs v m = Done ((ok, w), m) /\ is_u32 w.
Proof.
  induction n as [|n IH]; intros m p ofs v Hb Hv; cbn [octal_loop]; [by exists false, v|].
  destruct (Hb (p + ofs)) as (c & Hc & _); [lia|]. ld.
  destruct ((chr "0" <=? c) && (c <=? chr "7")); [|destruct ((c =? chr " ") || (c =? 0)); by eexists _, v].
  destruct ((2 ^ 32 - 1) / 8 <? v); [by exists false, v|]. apply IH; [intros a Ha; apply Hb; lia|apply u32_range].
Qed.

Lemma zeros_loop_total n : forall m p, block_at m p (Z.of_nat n) -> exists b, zeros_loop n p m = Done (b, m) /\
  (b = true <-> forall a, p <= a < p + Z.of_nat n -> m !! a = Some 0).
Proof.
  induction n as [|n IH]; intros m p Hb; cbn [zeros_loop]; [exists true; split; [done|]; split; [intros; lia|done]|].
  destruct (Hb p) as (c & Hc & _); [lia|]. ld. destruct (Z.eqb_spec c 0) as [->|Hne]; cbn [negb].
  - destruct (IH m (p + 1)) as (b & Hr & E); [intros a Ha; apply Hb; lia|]. exists b. split; [done|]. rewrite E. split; intros H a Ha.
    + destruct (decide (a = p)) as [->|]; [done|]. apply H. lia.
    + apply H. lia.
  - exists false. split; [done|]. split; [done|]. intros H. specialize (H p ltac:(lia)). congruence.
Qed.

(** ** Parsing any block *)

(** Offsets as numbers. *)
Ltac offsets :=
  repeat match goal with
  | |- context [offsetof ?f] => let v := eval vm_compute in (offsetof f) in change (offsetof f) with v in *
  | H : context [offsetof ?f] |- _ => let v := eval vm_compute in (offsetof f) in change (offsetof f) with v in *
  end; cbn [sizeof] in *.

(** The end of the archive, or an entry whose name can be opened below the
    directory the archive is unpacked in. *)
Definition good_entry m h (r : parse_result) : Prop :=
  match r with
  | Error _ => True
  | Header p type size =>
      (p = NULL /\ type = USTAR_EOF /\ size = 0 /\ forall a, h <= a < h + 512 -> m !! a = Some 0) \/
      (exists s, cstr m p s /\ safe_name s /\ zlen s <= 99 /\ 0 <= size < 2 ^ 31 /\
         (type = USTAR_REGULAR \/ (type = USTAR_DIRECTORY /\ size = 0)))
  end.

Lemma clean_name_len s : zlen s <= 99 -> zlen (clean_name s) <= 99.
Proof.
  intros Hl. unfold clean_name. case_bool_decide; [done|]. etrans; [|exact Hl]. generalize (length s) as n. intros n.
  clear. revert s. induction n as [|n IH]; intros s; cbn [strip_name]; [done|]. destruct (antisocial_name s) eqn:E; [|done].
  etrans; [apply IH|]. destruct (after_slash_spec s E) as (pre & Hs & _). apply (f_equal zlen) in Hs.
  rewrite zlen_app, zlen_cons in Hs. pose proof (zlen_nonneg pre). lia.
Qed.

Lemma parse_type_size_good m h : rodata m -> 0 < h -> block_at m h 512 -> m !! (h + 99) = Some 0 ->
  exists r, parse_type_size lit h m = Done (r, m) /\ good_entry m h r.
Proof.
  intros Hro Hh Hb H99. unfold parse_type_size. offsets. destruct (Hb (h + 156)) as (t & Ht & _); [lia|]. ld.
  destruct (block_cstr 99 m h) as (s & Hs & Hl); [by eapply block_sub; [exact Hb|lia|lia]|done|].
  destruct (strip_run m h s Hro Hs Hh) as (q & Hq & Hqc & _). apply clean_name_len in Hl.
  assert (forall sz, 0 <= sz < 2 ^ 31 -> t = USTAR_REGULAR \/ (t = USTAR_DIRECTORY /\ sz = 0) ->
    exists r, (file_name ← strip_antisocial_prefixes lit (h + 0); mret (Header file_name t (s32 sz))) m = Done (r, m) /\ good_entry m h r) as Hend.
  { intros sz Hsz Ht'. rewrite Z.add_0_r. erewrite bind_done by exact Hq. eexists. split; [done|]. right. exists (clean_name s).
    rewrite s32_small by lia. split; [done|]. split; [apply clean_name_safe|done]. }
  destruct (Z.eqb_spec t USTAR_REGULAR) as [->|Hr]; cbn [negb andb].
  - destruct (octal_loop_total 12 m (h + 124) 0 0) as (ok & w & Ho & Hw); [by eapply block_sub; [exact Hb|lia|lia]|done|].
    erewrite bind_done; [|erewrite bind_done by exact Ho; done]. destruct ok; cbn [negb]; [|by eexists].
    destruct (Z.ltb_spec (2 ^ 31 - 1) w); [by eexists|]. apply Hend; [unfold is_u32 in Hw; lia|by left].
  - destruct (Z.eqb_spec t USTAR_DIRECTORY) as [->|Hd]; cbn [negb]; [|by eexists].
    erewrite bind_done by done. apply Hend; [lia|by right].
Qed.

(** Stop at an error. *)
Ltac or_error b := destruct b; cbn [negb]; [|by eexists].

Lemma parse_header_run m h : rodata m -> 0 < h -> block_at m h 512 ->
  exists r, ustar_parse_header lit h m = Done (r, m) /\ good_entry m h r.
Proof.
  intros Hro Hh Hb. unfold ustar_parse_header. change (sizeof_header =? USTAR_HEADER_SIZE) with true.
  erewrite bind_done by done. destruct (zeros_loop_total 512 m h Hb) as (z & Hz & Hall).
  erewrite bind_done by exact Hz. destruct z; [eexists; split; [done|]; left; split; [done|]; split; [done|]; split; [done|]; by apply Hall|].
  destruct (rodata_at m "ustar" Hro) as [Hup [Hub _]]; [cbn; tauto|]. offsets.
  destruct (block_bytes m (h + 257) 6) as (bs & Hbl & Hbs & _); [by eapply block_sub; [exact Hb|lia|lia]|].
  assert (memcmp (h + 257) (lit "ustar") 6 m = Done (block_compare bs (codes "ustar" ++ [0]), m)) as Hc.
  { unfold memcmp. do 2 (erewrite bind_done by (apply assert_block_run; lia)). change (Z.to_nat 6) with 6%nat. rewrite <- Hbl. by apply memcmp_run. }
  erewrite bind_done by exact Hc. or_error (block_compare bs (codes "ustar" ++ [0]) =? 0).
  destruct (Hb (h + 263)) as (v0 & Hv0 & _), (Hb (h + 263 + 1)) as (v1 & Hv1 & _); try lia. ld.
  erewrite (bind_done _ _ m (negb (v0 =? chr "0") || negb (v1 =? chr "0"))); [|destruct (v0 =? chr "0"); cbn [negb orb]; [by ld|done]].
  destruct (negb (v0 =? chr "0") || negb (v1 =? chr "0")); [by eexists|].
  destruct (octal_loop_total 8 m (h + 148) 0 0) as (ok & w & Ho & _); [by eapply block_sub; [exact Hb|lia|lia]|done|].
  erewrite bind_done by exact Ho. or_error ok.
  erewrite bind_done by by apply calculate_chksum_run. or_error (w =? header_sum m h).
  destruct (Hb (h + 0 + 100 - 1)) as (c & Hc99 & _), (Hb (h + 345)) as (p0 & Hp0 & _); try lia. ld.
  erewrite (bind_done _ _ m (negb (c =? 0) || negb (p0 =? 0))); [|destruct (c =? 0); cbn [negb orb]; [by ld|done]].
  destruct (Z.eqb_spec c 0) as [->|]; cbn [negb orb]; [|by eexists].
  destruct (negb (p0 =? 0)); [by eexists|]. apply parse_type_size_good; try done. rewrite <- Hc99. f_equal. lia.
Qed.

(** ** Octal numbers: printed and read back *)

Lemma value_in_zeros base k s : value_in base (replicate k (chr "0") ++ s) = value_in base s.
Proof.
  unfold value_in. rewrite fold_left_app. f_equal. change (chr "0") with 48. induction k as [|k IH]; [done|]. cbn [replicate fold_left].
  by replace (0 * base + (48 - 48)) with 0 by lia.
Qed.

Lemma format_octal w v : 0 <= v < 8 ^ w -> 0 < w <= 60 ->
  exists ds, format_integer v false false base_o (mk_conv ZERO w (-1) INT) = Done ds /\
    digits_in 8 ds /\ value_in 8 ds = v /\ zlen ds = w.
Proof.
  intros Hv Hw. destruct (digit_loop_value base_o (Z.to_nat w) plain_o 65 v 0 []) as (ds & Hr & Hd & Hval & Hne & Hlen);
    [rewrite Z2Nat.id by lia; done|cbn; lia|lia|]. rewrite app_nil_r in Hr. change (ibase base_o) with 8 in *.
  set (buf := if decide (v = 0) then [chr "0"] else ds).
  assert (zero_loop 65 1 ds = Done buf /\ digits_in 8 buf /\ value_in 8 buf = v /\ 0 < zlen buf <= w) as (Hz & Hbd & Hbv & Hbl).
  { unfold buf. case_decide as H0.
    - rewrite H0 in *. assert (Done ds = Done []) as [= ->] by (rewrite <- Hr; reflexivity). split; [done|]. split; [repeat constructor; done|]. split; [done|]. change (zlen [chr "0"]) with 1. lia.
    - assert (0 < zlen ds) by (destruct ds; [exfalso; apply Hne; lia || done|rewrite zlen_cons; pose proof (zlen_nonneg ds); lia]).
      cbn [zero_loop]. assert ((zlen ds <? 1) = false) as -> by lia. split; [done|]. split; [done|]. split; [done|unfold zlen in *; lia]. }
  exists (output_dup (chr "0") (w - zlen buf) ++ buf). split; [|split; [|split]].
  - unfold format_integer, render_digits. change (flag _ GROUP) with false. cbn [precision Z.ltb Z.compare].
    rewrite (obind_done _ _ _ Hr), (obind_done _ _ _ Hz). change (flag _ POUND) with false. cbn [andb].
    rewrite (obind_done _ _ buf) by done. change (flag _ MINUS) with false. change (flag _ ZERO) with true. cbn [width sign_of negb andb].
    change (0 =? 0) with true. cbn iota. rewrite !Z.sub_0_r. rewrite (proj2 (Z.ltb_ge _ _)) by lia. cbn [app]. by rewrite app_nil_r.
  - apply Forall_app. split; [|done]. apply Forall_replicate. change (chr "0") with 48. lia.
  - unfold output_dup. by rewrite value_in_zeros.
  - unfold output_dup. rewrite zlen_app. unfold zlen at 1. rewrite length_replicate. lia.
Qed.

(** "%07o" and "%011o". *)
Lemma vprintf_octal m w rest v : 0 <= v < 8 ^ w -> 0 < w <= 60 -> is_u32 v -> head rest = Some (chr "0") ->
  parse_conversion rest [v] = Done (mk_conv ZERO w (-1) INT, [chr "o"], [v]) ->
  exists ds, __vprintf (chr "%" :: rest) [v] m = Done (ds, m) /\ digits_in 8 ds /\ value_in 8 ds = v /\ zlen ds = w.
Proof.
  intros Hv Hw Hu Hh Hp. destruct (format_octal w v Hv Hw) as (ds & Hf & Hds). exists ds. split; [|done].
  unfold __vprintf. change (length (chr "%" :: rest) + 30)%nat with (S (length rest + 30)).
  replace (length rest + 30)%nat with (S (length rest + 29)) by lia. generalize (length rest + 29)%nat as k. intros k.
  cbn [__vprintf_loop]. change (negb (chr "%" =? chr "%")) with false. rewrite Hh. cbn iota. rewrite bool_decide_false by done.
  erewrite bind_done by (apply liftO_run; exact Hp). cbn beta iota. change (one_of (chr "o") "di") with false.
  change (one_of (chr "o") "ouxX") with true. cbn iota. cbn [type].
  assert (unsigned_arg INT [v] = Done (v, [])) as Ha by (cbn; by rewrite u32_small).
  erewrite bind_done; [|erewrite bind_done by (apply liftO_run; exact Ha); cbn beta iota; erewrite bind_done by (apply liftO_run; exact Hf); done].
  cbn beta iota. erewrite bind_done by done. unfold mret, M_ret. by rewrite app_nil_r.
Qed.

Lemma octal_bytes ds : digits_in 8 ds -> Forall is_char ds.
Proof. intros H. eapply Forall_impl; [exact H|]. unfold is_char. cbn. lia. Qed.

(** What is written to a field of [w + 1] bytes. *)
Lemma snprintf_octal m p w rest v : 0 <= v < 8 ^ w -> 0 < w <= 60 -> is_u32 v -> head rest = Some (chr "0") ->
  parse_conversion rest [v] = Done (mk_conv ZERO w (-1) INT, [chr "o"], [v]) -> mapped m p (w + 1) ->
  exists ds m', snprintf p (w + 1) (chr "%" :: rest) [v] m = Done (w, m') /\ bytes_at m' p (ds ++ [0]) /\ outside m m' p (w + 1) /\
    digits_in 8 ds /\ value_in 8 ds = v /\ zlen ds = w.
Proof.
  intros Hv Hw Hu Hh Hp Hm. destruct (vprintf_octal m w rest v Hv Hw Hu Hh Hp) as (ds & Hf & Hd & Hval & Hl).
  destruct (vsnprintf_run m p (w + 1) (chr "%" :: rest) [v] ds Hf) as (m' & Hr & Hb & Ho); [by apply chars_bytes, octal_bytes|lia|lia| |].
  { intros a Ha. apply Hm. lia. }
  exists ds, m'. rewrite Hl in Hr. split; [exact Hr|]. rewrite take_ge in Hb by (unfold zlen in Hl; lia). split; [done|].
  split; [|done]. intros a Ha. apply Ho. lia.
Qed.

Lemma octal_loop_run ds : forall m p ofs v n, bytes_at m (p + ofs) (ds ++ [0]) -> digits_in 8 ds -> (length ds < n)%nat ->
  0 <= v -> fold_left (fun v c => v * 8 + (c - 48)) ds v < 2 ^ 32 -> 0 < ofs + zlen ds ->
  octal_loop n p ofs v m = Done ((true, fold_left (fun v c => v * 8 + (c - 48)) ds v), m).
Proof.
  induction ds as [|c ds IH]; intros m p ofs v [|n] Hb Hd Hn Hv Hlt Hofs; cbn in Hn; try lia; cbn [octal_loop fold_left].
  - destruct Hb as [Hb _]. ld. change ((chr "0" <=? 0) && (0 <=? chr "7")) with false. cbn iota. change ((0 =? chr " ") || (0 =? 0)) with true.
    cbn iota. rewrite (proj2 (Z.ltb_lt 0 ofs)) by (unfold zlen in Hofs; cbn in Hofs; lia). done.
  - destruct Hb as [Hc Hb]. apply Forall_cons in Hd as [Hdc Hd]. ld. change (chr "0") with 48. change (chr "7") with 55.
    assert ((48 <=? c) && (c <=? 55) = true) as -> by lia. cbn [fold_left] in Hlt.
    assert (forall w, 0 <= w -> w <= fold_left (fun v c => v * 8 + (c - 48)) ds w) as Hmono.
    { clear - Hd. induction Hd as [|x s Hx Hd IH]; intros w Hw; cbn; [done|]. etrans; [|apply IH]; lia. }
    pose proof (Hmono (v * 8 + (c - 48)) ltac:(lia)). rewrite (proj2 (Z.ltb_ge _ _)) by (change ((2 ^ 32 - 1) / 8) with 536870911; lia).
    rewrite u32_small by lia. replace (c - 48 + v * 8) with (v * 8 + (c - 48)) by lia. rewrite zlen_cons in Hofs.
    apply IH; try (done || lia). by rewrite Z.add_assoc.
Qed.

Lemma parse_octal_run m p w ds : bytes_at m p (ds ++ [0]) -> digits_in 8 ds -> zlen ds = w -> 0 < w -> value_in 8 ds < 2 ^ 32 ->
  parse_octal_field p (w + 1) m = Done ((true, value_in 8 ds), m).
Proof.
  intros Hb Hd Hl Hw Hlt. unfold parse_octal_field. apply (octal_loop_run ds); try done; [by rewrite Z.add_0_r|unfold zlen in Hl; lia|lia].
Qed.

(** ** Composing a header *)

(** [m'] is [m] with [bs] at [p]. *)
Definition wrote m m' p (bs : list Z) : Prop := bytes_at m' p bs /\ outside m m' p (zlen bs).

(** The composition so far: only the block changed, and it holds bytes. *)
Record composing m0 h m : Prop := {
  comp_ro : rodata m;
  comp_block : block_at m h 512;
  comp_out : outside m0 m h 512
}.

Section Compose.
Context (m0 : mem) (h : Z) (Hh : 0 < h) (Hapart : lits_apart h 512).

Lemma wrote_composing m m' p bs : composing m0 h m -> wrote m m' p bs -> h <= p -> p + zlen bs <= h + 512 ->
  Forall is_byte bs -> composing m0 h m'.
Proof.
  intros [Hro Hb Ho] [Hbs Hout] H1 H2 HF. assert (outside m m' h 512) as Hout' by (intros a Ha; apply Hout; lia). split.
  - by eapply rodata_frame.
  - intros a Ha. destruct (decide (p <= a < p + zlen bs)) as [Hin|Hin]; [|rewrite Hout by done; by apply Hb].
    destruct (lookup_lt_is_Some_2 bs (Z.to_nat (a - p))) as [b Hl]; [unfold zlen in Hin; lia|]. exists b. split.
    + rewrite <- (bytes_at_lookup m' bs p _ b Hbs Hl). f_equal. lia.
    + by eapply Forall_lookup_1.
  - intros a Ha. rewrite Hout' by done. by apply Ho.
Qed.

Lemma composing_mapped m p n : composing m0 h m -> h <= p -> p + n <= h + 512 -> mapped m p n.
Proof. intros [_ Hb _] H1 H2 a Ha. apply (block_mapped m h 512 Hb). lia. Qed.

(** strlcpy of a string that fits. *)
Lemma set_string m q s p size : composing m0 h m -> cstr m q s -> 0 < q -> h + 512 <= q \/ q + zlen s < h ->
  h <= p -> p + size <= h + 512 -> zlen s < size ->
  exists m', strlcpy p q size m = Done (zlen s, m') /\ wrote m m' p (s ++ [0]) /\ composing m0 h m'.
Proof.
  intros Hc Hs Hq Hdis H1 H2 Hl. pose proof (zlen_nonneg s).
  destruct (strlcpy_run m p q s size Hs Hq) as (m' & Hr & [Hb _] & Ho); [lia|lia| |lia|].
  { eapply composing_mapped; [done|lia|lia]. }
  rewrite take_ge in Hb by (unfold zlen in Hl; lia). assert (wrote m m' p (s ++ [0])) as Hw.
  { split; [done|]. intros a Ha. apply Ho. rewrite zlen_app in Ha. change (zlen [0]) with 1 in Ha. lia. }
  exists m'. split; [done|]. split; [done|]. destruct Hs as [_ Hch]. eapply wrote_composing; try done.
  - rewrite zlen_app. change (zlen [0]) with 1. lia.
  - apply Forall_app. split; [by apply chars_bytes|all_bytes].
Qed.

Lemma set_literal m l p size : composing m0 h m -> In l literals -> h <= p -> p + size <= h + 512 -> zlen (codes l) < size ->
  exists m', strlcpy p (lit l) size m = Done (zlen (codes l), m') /\ wrote m m' p (codes l ++ [0]) /\ composing m0 h m'.
Proof.
  intros Hc Hl H1 H2 H3. destruct (rodata_at m l (comp_ro _ _ _ Hc) Hl) as [Hp Hs]. apply set_string; try done.
  unfold lits_apart in Hapart. rewrite List.Forall_forall in Hapart. by apply Hapart.
Qed.

Lemma set_octal m p w rest v : composing m0 h m -> 0 <= v < 8 ^ w -> 0 < w <= 60 -> is_u32 v -> head rest = Some (chr "0") ->
  parse_conversion rest [v] = Done (mk_conv ZERO w (-1) INT, [chr "o"], [v]) -> h <= p -> p + (w + 1) <= h + 512 ->
  exists ds m', snprintf p (w + 1) (chr "%" :: rest) [v] m = Done (w, m') /\ wrote m m' p (ds ++ [0]) /\ composing m0 h m' /\
    digits_in 8 ds /\ value_in 8 ds = v /\ zlen ds = w.
Proof.
  intros Hc Hv Hw Hu Hhd Hp H1 H2. destruct (snprintf_octal m p w rest v Hv Hw Hu Hhd Hp) as (ds & m' & Hr & Hb & Ho & Hd & Hval & Hl).
  { eapply composing_mapped; [done|lia|lia]. }
  assert (zlen (ds ++ [0]) = w + 1) as Hl' by (rewrite zlen_app, Hl; done).
  exists ds, m'. split; [done|]. assert (wrote m m' p (ds ++ [0])) as Hwr by (split; [done|by rewrite Hl']). split; [done|].
  split; [|done]. eapply wrote_composing; try done; [lia|]. apply Forall_app. split; [by apply chars_bytes, octal_bytes|all_bytes].
Qed.

Lemma set_byte m p v : composing m0 h m -> is_byte v -> h <= p < h + 512 ->
  exists m', store8 p v m = Done (tt, m') /\ wrote m m' p [v] /\ composing m0 h m'.
Proof.
  intros Hc Hv Hp. destruct (comp_block _ _ _ Hc p Hp) as (b & Hb & _). exists (<[p := v]> m).
  assert (wrote m (<[p := v]> m) p [v]) as Hw.
  { split; [split; [apply lookup_insert_eq|done]|]. change (zlen [v]) with 1. intros a Ha. rewrite lookup_insert_ne by lia. done. }
  split; [rewrite store8_run by (by exists b); by rewrite u8_small|]. split; [done|].
  eapply wrote_composing; try done; [lia|change (zlen [v]) with 1; lia|]. apply Forall_cons. by split; [|apply Forall_nil].
Qed.

(** The fields of a complete header that parsing reads. *)
Record composed m name type size : Prop := {
  c_comp : composing m0 h m;
  c_name : cstr m h name;
  c_name_end : m !! (h + 99) = Some 0;
  c_size : exists ds, bytes_at m (h + 124) (ds ++ [0]) /\ digits_in 8 ds /\ value_in 8 ds = u32 size /\ zlen ds = 11;
  c_chksum : exists ds, bytes_at m (h + 148) (ds ++ [0]) /\ digits_in 8 ds /\ value_in 8 ds = header_sum m h /\ zlen ds = 7;
  c_type : m !! (h + 156) = Some type;
  c_magic : bytes_at m (h + 257) (codes "ustar" ++ [0]);
  c_version : bytes_at m (h + 263) [chr "0"; chr "0"];
  c_prefix : m !! (h + 345) = Some 0
}.
End Compose.

(** Bytes that later steps did not write. *)
Ltac lens :=
  rewrite ?zlen_app, ?zlen_cons in *; change (zlen (@nil Z)) with 0 in *;
  try change (zlen (codes "0000000")) with 7 in *; try change (zlen (codes "ustar")) with 5 in *; try change (zlen (codes "root")) with 4 in *.
Ltac back :=
  repeat match goal with
  | |- ?x = ?x => reflexivity
  | O : wrote _ ?m _ _ |- ?m !! _ = _ => rewrite (proj2 O) by (lens; lia)
  end.
Ltac later H := eapply bytes_at_frame; [|exact (proj1 H)]; intros a Ha; back.

Section Composed.
Context (m0 : mem) (h : Z) (Hh : 0 < h) (Hapart : lits_apart h 512).

Lemma start_composing m : rodata m -> mapped m h 512 ->
  memset h 0 sizeof_header m = Done (h, stored m h (replicate 512 0)) /\
  wrote m (stored m h (replicate 512 0)) h (replicate 512 0) /\ composing m h (stored m h (replicate 512 0)).
Proof.
  intros Hro Hm. assert (wrote m (stored m h (replicate 512 0)) h (replicate 512 0)) as Hw.
  { split; [apply stored_bytes, Forall_replicate; unfold is_byte; lia|apply stored_outside]. }
  split; [by apply memset_correct|]. split; [done|]. destruct Hw as [Hb Ho]. split.
  - eapply rodata_frame; [done|done|]. intros a Ha. by apply Ho.
  - intros a Ha. exists 0. split; [|unfold is_byte; lia].
    rewrite <- (bytes_at_lookup _ _ h (Z.to_nat (a - h)) 0 Hb); [f_equal; lia|]. apply lookup_replicate_2. lia.
  - intros a Ha. by apply Ho.
Qed.

(** The writes after [memset]. *)
Lemma fill_header m q name type size : composing m0 h m -> (forall a, h <= a < h + 512 -> m !! a = Some 0) ->
  cstr m q name -> 0 < q -> h + 512 <= q \/ q + zlen name < h -> zlen name <= 99 ->
  type = USTAR_REGULAR \/ type = USTAR_DIRECTORY -> is_s32 size ->
  exists m', (forall k, (_ ← strlcpy (h + offsetof h_name) q (sizeof h_name);
    _ ← snprintf (h + offsetof h_mode) (sizeof h_mode) (codes "%07o") [if type =? USTAR_REGULAR then 420 else 493];
    _ ← strlcpy (h + offsetof h_uid) (lit "0000000") (sizeof h_uid);
    _ ← strlcpy (h + offsetof h_gid) (lit "0000000") (sizeof h_gid);
    _ ← snprintf (h + offsetof h_size) (sizeof h_size) (codes "%011o") [u32 size];
    _ ← snprintf (h + offsetof h_mtime) (sizeof h_size) (codes "%011o") [1136102400];
    k) m = (k : M mem (bool * list Z)) m') /\ composing m0 h m' /\ cstr m' h name /\
    (exists ds, bytes_at m' (h + 124) (ds ++ [0]) /\ digits_in 8 ds /\ value_in 8 ds = u32 size /\ zlen ds = 11) /\
    (forall a, h <= a < h + 512 -> zlen name < a - h < 100 \/ 148 <= a - h -> m' !! a = Some 0).
Proof.
  intros Hc Hz Hn Hq Hdis Hlen Hty Hsz. pose proof (zlen_nonneg name). offsets.
  destruct (set_string m0 h Hh Hapart m q name (h + 0) 100) as (m1 & R1 & W1 & C1); [done..|lia|lia|lia|].
  destruct (set_octal m0 h Hapart m1 (h + 100) 7 (codes "07o") (if type =? USTAR_REGULAR then 420 else 493))
    as (d2 & m2 & R2 & W2 & C2 & _ & _ & L2); [done|by destruct (type =? USTAR_REGULAR)|lia|by destruct (type =? USTAR_REGULAR)|done|by destruct (type =? USTAR_REGULAR)|lia|lia|].
  destruct (set_literal m0 h Hh Hapart m2 "0000000" (h + 108) 8) as (m3 & R3 & W3 & C3); [done|cbn; tauto|lia|lia|done|].
  destruct (set_literal m0 h Hh Hapart m3 "0000000" (h + 116) 8) as (m4 & R4 & W4 & C4); [done|cbn; tauto|lia|lia|done|].
  destruct (set_octal m0 h Hapart m4 (h + 124) 11 (codes "011o") (u32 size)) as (d5 & m5 & R5 & W5 & C5 & D5 & V5 & L5);
    [done|pose proof (u32_range size); change (8 ^ 11) with (2 ^ 33); lia|lia|apply u32_range|done|done|lia|lia|].
  destruct (set_octal m0 h Hapart m5 (h + 136) 11 (codes "011o") 1136102400) as (d6 & m6 & R6 & W6 & C6 & _ & _ & L6); [done..|lia|lia|].
  exists m6. change (zlen (codes "0000000")) with 7 in *. split; [|split; [done|split; [|split]]].
  - intros k. erewrite bind_done by exact R1. erewrite bind_done by exact R2. erewrite bind_done by exact R3.
    erewrite bind_done by exact R4. erewrite bind_done by exact R5. by erewrite bind_done by exact R6.
  - split; [|apply Hn]. rewrite <- (Z.add_0_r h). later W1.
  - exists d5. split; [later W5|done].
  - intros a Ha Ha'. transitivity (m !! a); [|by apply Hz]. back.
Qed.

(** The writes from the type on. *)
Lemma finish_header m name type size ds : composing m0 h m -> cstr m h name -> zlen name <= 99 ->
  bytes_at m (h + 124) (ds ++ [0]) -> digits_in 8 ds -> value_in 8 ds = u32 size -> zlen ds = 11 ->
  (forall a, h <= a < h + 512 -> zlen name < a - h < 100 \/ 148 <= a - h -> m !! a = Some 0) ->
  type = USTAR_REGULAR \/ type = USTAR_DIRECTORY ->
  exists m', (store8 (h + offsetof h_typeflag) type ;;
    _ ← strlcpy (h + offsetof h_magic) (lit "ustar") (sizeof h_magic);
    store8 (h + offsetof h_version + 1) (chr "0") ;;
    store8 (h + offsetof h_version) (chr "0") ;;
    _ ← strlcpy (h + offsetof h_gname) (lit "root") (sizeof h_gname);
    _ ← strlcpy (h + offsetof h_uname) (lit "root") (sizeof h_uname);
    chksum ← calculate_chksum h;
    _ ← snprintf (h + offsetof h_chksum) (sizeof h_chksum) (codes "%07o") [chksum];
    mret (true, [])) m = Done ((true, @nil Z), m') /\ composed m0 h m' name type size.
Proof.
  intros Hc Hn Hlen Hds Hd Hv Hl Hz Hty. pose proof (zlen_nonneg name). offsets.
  destruct (set_byte m0 h Hapart m (h + 156) type) as (m1 & R1 & W1 & C1); [done|by destruct Hty as [-> | ->]|lia|].
  destruct (set_literal m0 h Hh Hapart m1 "ustar" (h + 257) 6) as (m2 & R2 & W2 & C2); [done|cbn; tauto|lia|lia|done|].
  destruct (set_byte m0 h Hapart m2 (h + 263 + 1) (chr "0")) as (m3 & R3 & W3 & C3); [done|done|lia|].
  destruct (set_byte m0 h Hapart m3 (h + 263) (chr "0")) as (m4 & R4 & W4 & C4); [done|done|lia|].
  destruct (set_literal m0 h Hh Hapart m4 "root" (h + 297) 32) as (m5 & R5 & W5 & C5); [done|cbn; tauto|lia|lia|done|].
  destruct (set_literal m0 h Hh Hapart m5 "root" (h + 265) 32) as (m6 & R6 & W6 & C6); [done|cbn; tauto|lia|lia|done|].
  destruct (calculate_chksum_run m6 h (comp_block _ _ _ C6)) as [R7 Hsum].
  destruct (set_octal m0 h Hapart m6 (h + 148) 7 (codes "07o") (header_sum m6 h)) as (d8 & m8 & R8 & W8 & C8 & D8 & V8 & L8);
    [done|change (8 ^ 7) with 2097152; lia|lia|unfold is_u32; lia|done|done|lia|lia|].
  exists m8. split.
  - erewrite bind_done by exact R1. erewrite bind_done by exact R2. erewrite bind_done by exact R3. erewrite bind_done by exact R4.
    erewrite bind_done by exact R5. erewrite bind_done by exact R6. erewrite bind_done by exact R7. by erewrite bind_done by exact R8.
  - split.
    + done.
    + eapply cstr_frame; [|exact Hn]. intros a Ha. back.
    + transitivity (m !! (h + 99)); [back|]. destruct (decide (zlen name = 99)) as [E|]; [|apply Hz; lia].
      rewrite <- E. by apply cstr_end.
    + exists ds. split; [|done]. eapply bytes_at_frame; [|exact Hds]. intros a Ha. back.
    + exists d8. split; [exact (proj1 W8)|]. split; [done|]. split; [|done]. rewrite V8. symmetry. apply header_sum_outside.
      intros a Ha. offsets. back.
    + destruct W1 as [[W1 _] _]. rewrite <- W1. back.
    + later W2.
    + destruct W3 as [[W3 _] O3], W4 as [[W4 _] O4]. split; [rewrite <- W4; back|]. split; [|done]. rewrite <- W3.
      transitivity (m4 !! (h + 263 + 1)); [back|]. rewrite O4 by (lens; lia). done.
    + rewrite <- (Hz (h + 345)) by lia. back.
Qed.
End Composed.

(** ** Reading a composed header *)

Lemma memcmp_eq m a b bs : 0 < a -> 0 < b -> bytes_at m a bs -> bytes_at m b bs -> memcmp a b (zlen bs) m = Done (0, m).
Proof.
  intros Ha Hb H1 H2. unfold memcmp. do 2 (erewrite bind_done by by apply assert_block_run). rewrite zlen_to_nat.
  rewrite (memcmp_run bs bs) by done. by rewrite (proj2 (block_compare_eq bs bs eq_refl) eq_refl).
Qed.

Lemma parse_composed m0 h m name type size : 0 < h -> composed m0 h m name type size -> safe_name name ->
  type = USTAR_REGULAR \/ type = USTAR_DIRECTORY -> 0 <= size < 2 ^ 31 ->
  exists q, ustar_parse_header lit h m = Done (Header q type (if type =? USTAR_REGULAR then size else 0), m) /\ cstr m q name /\
    0 < q /\ (q = lit "." \/ (h <= q /\ q + zlen name = h + zlen name)).
Proof.
  intros Hh [[Hro Hb Ho] Hn H99 (ds & Hds & Hd & Hv & Hl) (cs & Hcs & Hcd & Hcv & Hcl) Ht Hmg [Hv0 [Hv1 _]] Hpx] Hsafe Hty Hsz.
  destruct (calculate_chksum_run m h Hb) as [Rsum Hsum]. destruct (rodata_at m "ustar" Hro) as [Hup [Hub _]]; [cbn; tauto|].
  unfold ustar_parse_header. change (sizeof_header =? USTAR_HEADER_SIZE) with true. erewrite bind_done by done.
  destruct (zeros_loop_total 512 m h Hb) as ([|] & Hz & Hall).
  { exfalso. rewrite (proj1 Hall eq_refl) in Ht by lia. injection Ht as <-. by destruct Hty. }
  erewrite bind_done by exact Hz. offsets. erewrite bind_done by (apply (memcmp_eq m (h + 257) (lit "ustar") (codes "ustar" ++ [0])); done || lia).
  change (0 =? 0) with true. cbn [negb]. ld. change (chr "0" =? chr "0") with true. cbn [negb].
  erewrite bind_done by by ld. change (chr "0" =? chr "0") with true. cbn [negb].
  erewrite bind_done by (apply (parse_octal_run m (h + 148) 7 cs); done || lia). cbn [negb].
  erewrite bind_done by exact Rsum. rewrite Hcv, Z.eqb_refl. cbn [negb].
  erewrite bind_done by (apply load8_run; rewrite <- H99; f_equal; lia). change (0 =? 0) with true. cbn [negb].
  erewrite bind_done by by ld. change (0 =? 0) with true. cbn [negb]. unfold parse_type_size. offsets. ld.
  destruct (strip_run m h name Hro Hn Hh) as (q & Rq & Hq & Hq0). rewrite (clean_safe _ Hsafe) in Hq, Hq0. exists q. split; [|done].
  rewrite u32_small in Hv by lia. destruct Hty as [-> | ->].
  - change (negb (USTAR_REGULAR =? USTAR_REGULAR) && _) with false. change (USTAR_REGULAR =? USTAR_REGULAR) with true. cbn iota.
    erewrite bind_done; [|erewrite bind_done by (apply (parse_octal_run m (h + 124) 11 ds); done || lia); cbn [negb]; done].
    rewrite Hv, (proj2 (Z.ltb_ge _ _)) by lia. rewrite Z.add_0_r. erewrite bind_done by exact Rq. by rewrite s32_small by lia.
  - change (negb (USTAR_DIRECTORY =? USTAR_REGULAR) && _) with false. change (USTAR_DIRECTORY =? USTAR_REGULAR) with false. cbn iota.
    erewrite bind_done by done. rewrite Z.add_0_r. erewrite bind_done by exact Rq. done.
Qed.

(** ** Names that are too long *)

(** Characters of a format that stand for themselves. *)
Lemma vprintf_plain fmt : forall m fuel args, Forall (fun c => c <> chr "%") fmt -> (length fmt < fuel)%nat ->
  __vprintf_loop fuel fmt args m = Done (fmt, m).
Proof.
  induction fmt as [|c fmt IH]; intros m [|fuel] args HF Hf; cbn in Hf; try lia; [done|]. apply Forall_cons in HF as [Hc HF].
  cbn [__vprintf_loop]. rewrite (proj2 (Z.eqb_neq c (chr "%"))) by done. cbn [negb]. by erewrite bind_done by (apply IH; done || lia).
Qed.

(** A format that starts with "%s", and one with a text before it. *)
Lemma vprintf_loop_string m p s rest k : cstr m p s -> 0 < p < 2 ^ 32 -> zlen s < 2 ^ 32 -> Forall (fun c => c <> chr "%") rest ->
  (length rest < k)%nat -> __vprintf_loop (S k) (codes "%s" ++ rest) [p] m = Done (s ++ rest, m).
Proof.
  intros Hs Hp Hl HF Hf. change (codes "%s" ++ rest) with (chr "%" :: chr "s" :: rest).
  cbn [__vprintf_loop]. change (negb (chr "%" =? chr "%")) with false. cbn [head]. cbn iota. rewrite bool_decide_false by done.
  erewrite bind_done by (apply (liftO_run _ _ (mk_conv 0 0 (-1) INT, chr "s" :: rest, [p])); reflexivity). cbn beta iota.
  change (one_of (chr "s") "di") with false. change (one_of (chr "s") "ouxX") with false. change (chr "s" =? chr "c") with false.
  change (chr "s" =? chr "s") with true. cbn iota. cbn [precision].
  pose proof (strnlen_all m p s Hs Hl) as Rn.
  pose proof Hs as [Hb _]. apply bytes_at_app in Hb as [Hb _]. pose proof (load_bytes_run _ _ _ Hb) as Rl. rewrite <- zlen_to_nat in Rl.
  erewrite bind_done; [|erewrite bind_done by (apply (liftO_run _ _ (p, [])); reflexivity); cbn beta iota;
    rewrite (proj2 (Z.eqb_neq p NULL)) by (unfold NULL; lia); erewrite bind_done by exact Rn; erewrite bind_done by exact Rl; reflexivity].
  cbn beta iota. erewrite bind_done by by apply vprintf_plain. unfold format_string. cbn [width].
  rewrite (proj2 (Z.ltb_ge _ _)) by apply zlen_nonneg. cbn [andb app]. by rewrite app_nil_r.
Qed.

Lemma printf_string m p s pre rest : cstr m p s -> 0 < p < 2 ^ 32 -> zlen s < 2 ^ 32 -> Forall (fun c => c <> chr "%") pre ->
  Forall (fun c => c <> chr "%") rest -> printf (pre ++ codes "%s" ++ rest) [p] m = Done (pre ++ s ++ rest, m).
Proof.
  intros Hs Hp Hl HP HF. unfold printf, __vprintf. rewrite !length_app.
  assert (length pre + length rest + 1 < length pre + (length (codes "%s") + length rest) + 30)%nat as Hf by lia.
  revert Hf. generalize (length pre + (length (codes "%s") + length rest) + 30)%nat. clear -Hs Hp Hl HP HF.
  induction HP as [|c pre Hc _ IH]; intros [|k] Hf; cbn in Hf; try lia; [apply (vprintf_loop_string m p s rest k); try done; lia|].
  cbn [app __vprintf_loop]. rewrite (proj2 (Z.eqb_neq c (chr "%"))) by done. cbn [negb].
  by erewrite bind_done by (apply IH; lia).
Qed.

Lemma make_long m p s type size h : rodata m -> cstr m p s -> 0 < p -> p + zlen s < 2 ^ 32 -> lit "." < 2 ^ 32 ->
  type = USTAR_REGULAR \/ type = USTAR_DIRECTORY -> 99 < zlen (clean_name s) ->
  ustar_make_header lit p type size h m = Done ((false, clean_name s ++ codes ": file name too long" ++ [10]), m).
Proof.
  intros Hro Hs Hp Hlo Hdot Hty Hlen. unfold ustar_make_header. change (sizeof_header =? USTAR_HEADER_SIZE) with true.
  erewrite bind_done by done. erewrite bind_done by (apply assert_done; by destruct Hty as [-> | ->]).
  destruct (strip_run m p s Hro Hs Hp) as (q & Rq & Hq & Hq0 & Hpos). erewrite bind_done by exact Rq.
  erewrite bind_done by by apply strlen_correct. rewrite (proj2 (Z.ltb_lt _ _)) by done. pose proof (zlen_nonneg s).
  assert (zlen (clean_name s) <= zlen s /\ q < 2 ^ 32) as [Hle Hq32].
  { destruct Hpos as [->|[? ?]]; [|lia]. exfalso. destruct (rodata_at m "." Hro) as [_ Hd]; [cbn; tauto|].
    rewrite (cstr_inj _ _ _ _ Hq Hd) in Hlen. done. }
  erewrite bind_done; [done|]. apply (printf_string m q _ [] (codes ": file name too long" ++ [10])); [done|lia|lia|done|by_decide].
Qed.

(** ** What the checksum detects *)

Lemma octal_loop_ext m m' n : forall p ofs v r, (forall a, p + ofs <= a < p + ofs + Z.of_nat n -> m' !! a = m !! a) ->
  octal_loop n p ofs v m = Done (r, m) -> octal_loop n p ofs v m' = Done (r, m').
Proof.
  induction n as [|n IH]; intros p ofs v r E H; cbn [octal_loop] in *; [by injection H as <-|].
  apply bind_done_inv in H as (c & m1 & Hc & H). unfold load8, load in Hc. destruct (m !! (p + ofs)) as [c'|] eqn:Hm; [|done].
  injection Hc as -> <-. rewrite <- E in Hm by lia. ld.
  destruct ((chr "0" <=? c) && (c <=? chr "7")); [|by destruct ((c =? chr " ") || (c =? 0)); injection H as <-].
  destruct ((2 ^ 32 - 1) / 8 <? v); [by injection H as <-|]. apply IH; [|done]. intros a Ha. apply E. lia.
Qed.

Lemma sum_from_change m h x b n : forall i old, m !! (h + x) = Some old -> in_chksum_field x = false -> i <= x < i + Z.of_nat n ->
  sum_from (<[h + x := b]> m) h n i = sum_from m h n i + (b - old).
Proof.
  induction n as [|n IH]; intros i old Hm Hx Hi; cbn [sum_from]; [lia|]. destruct (decide (i = x)) as [->|Hne].
  - rewrite Hx, lookup_insert_eq, Hm. cbn [default]. unfold default, id.
    rewrite (sum_from_ext m) by (intros k Hk _; apply lookup_insert_ne; lia). lia.
  - rewrite (IH (i + 1) old Hm Hx) by lia. rewrite lookup_insert_ne by lia. lia.
Qed.

(** The block is taken for an entry only if its checksum is right. *)
Lemma parse_header_inv m h p type size : rodata m -> 0 < h -> block_at m h 512 ->
  ustar_parse_header lit h m = Done (Header p type size, m) -> type <> USTAR_EOF ->
  m !! (h + 257) = Some (chr "u") /\ m !! (h + 258) = Some (chr "s") /\
  parse_octal_field (h + 148) 8 m = Done ((true, header_sum m h), m).
Proof.
  intros Hro Hh Hb H Hne. unfold ustar_parse_header in H. change (sizeof_header =? USTAR_HEADER_SIZE) with true in H.
  erewrite bind_done in H by done. destruct (zeros_loop_total 512 m h Hb) as (z & Hz & _). erewrite bind_done in H by exact Hz.
  destruct z; [injection H as <- <- <-; done|]. destruct (rodata_at m "ustar" Hro) as [Hup [Hub _]]; [cbn; tauto|]. offsets.
  destruct (block_bytes m (h + 257) 6) as (bs & Hbl & Hbs & _); [by eapply block_sub; [exact Hb|lia|lia]|].
  erewrite bind_done in H; [|unfold memcmp; do 2 (erewrite bind_done by (apply assert_block_run; lia));
    change (Z.to_nat 6) with 6%nat; rewrite <- Hbl; by apply (memcmp_run bs (codes "ustar" ++ [0]))].
  destruct (Z.eqb_spec (block_compare bs (codes "ustar" ++ [0])) 0) as [E|]; [|done]. cbn [negb] in H.
  apply (block_compare_eq bs (codes "ustar" ++ [0])) in E; [|done]. subst bs. destruct Hbs as (Hu & Hs & _).
  split; [done|]. split; [rewrite <- Hs; f_equal; lia|]. clear Hz Hbl Hu Hs.
  apply bind_done_inv in H as (v0 & m1 & H0 & H). unfold load8, load in H0. destruct (m !! (h + 263)); [|done]. injection H0 as <- <-.
  destruct (octal_loop_total 8 m (h + 148) 0 0) as (ok & w & Ho & _); [by eapply block_sub; [exact Hb|lia|lia]|done|].
  destruct (Hb (h + 263 + 1)) as (v1 & Hv1 & _); [lia|].
  erewrite (bind_done _ _ m (negb (z =? chr "0") || negb (v1 =? chr "0"))) in H; [|destruct (z =? chr "0"); cbn [negb orb]; [by ld|done]].
  destruct (negb (z =? chr "0") || negb (v1 =? chr "0")); [done|].
  erewrite bind_done in H by exact Ho. destruct ok; [|done]. cbn [negb] in H.
  erewrite bind_done in H by by apply calculate_chksum_run. destruct (Z.eqb_spec w (header_sum m h)) as [<-|]; [exact Ho|done].
Qed.

(** ** A header read at another address *)

Lemma bytes_at_shift m m' bs p q : (forall i, 0 <= i < zlen bs -> m' !! (q + i) = m !! (p + i)) -> bytes_at m p bs -> bytes_at m' q bs.
Proof.
  intros E H. apply bytes_at_intro. intros i b Hi. pose proof (lookup_lt_Some _ _ _ Hi). rewrite E by (unfold zlen; lia).
  by eapply bytes_at_lookup.
Qed.

Lemma sum_from_shift m m' h h' n : forall i, (forall k, i <= k < i + Z.of_nat n -> m' !! (h' + k) = m !! (h + k)) ->
  sum_from m' h' n i = sum_from m h n i.
Proof.
  induction n as [|n IH]; intros i E; [done|]. cbn [sum_from]. rewrite E by lia. f_equal. apply IH. intros k Hk. apply E. lia.
Qed.

Lemma composed_shift m0 h m h' m' name type size : composed m0 h m name type size -> zlen name < 512 -> rodata m' ->
  (forall i, 0 <= i < 512 -> m' !! (h' + i) = m !! (h + i)) -> composed m' h' m' name type size.
Proof.
  intros [[_ Hb _] [Hn HF] H99 (ds & Hds & Hd & Hv & Hl) (cs & Hcs & Hcd & Hcv & Hcl) Ht Hmg Hver Hpx] Hlen Hro E.
  assert (forall i bs, 0 <= i -> i + zlen bs <= 512 -> bytes_at m (h + i) bs -> bytes_at m' (h' + i) bs) as Hsh.
  { intros i bs Hi Hle. apply bytes_at_shift. intros j Hj. rewrite <- !Z.add_assoc. apply E. lia. }
  split; try (by rewrite E by lia).
  - split; [done| |done]. intros a Ha. destruct (Hb (h + (a - h'))) as (b & Hb' & ?); [lia|]. exists b. split; [|done].
    rewrite <- Hb', <- E by lia. f_equal. lia.
  - split; [|done]. rewrite <- (Z.add_0_r h'). rewrite <- (Z.add_0_r h) in Hn. apply Hsh; [lia| |done].
    rewrite zlen_app. change (zlen [0]) with 1. lia.
  - exists ds. split; [|done]. apply Hsh; [lia| |done]. rewrite zlen_app, Hl. done.
  - exists cs. split; [apply Hsh; [lia| |done]; by rewrite zlen_app, Hcl|]. split; [done|]. split; [|done]. rewrite Hcv.
    symmetry. apply sum_from_shift. intros k Hk. apply E. lia.
  - by apply Hsh.
  - by apply Hsh.
Qed.

(** ** Theorems *)

(** C18: Whatever the 512 bytes are, parsing them ends; an entry it finds has a
    name of at most 99 characters that starts with none of "/", "./" and "../" and
    is neither empty nor "..", a size that is an int, and one of the two types. *)
Theorem parse_header_safe m h : rodata m -> 0 < h -> block_at m h 512 ->
  exists r, ustar_parse_header lit h m = Done (r, m) /\ good_entry m h r.
Proof. apply parse_header_run. Qed.

(** The header made for a name that is not too long. *)
Lemma make_header_run m p s type size h : rodata m -> lits_apart h 512 -> cstr m p s -> 0 < p ->
  h + 512 <= p \/ p + zlen s < h -> 0 < h -> mapped m h 512 ->
  type = USTAR_REGULAR \/ type = USTAR_DIRECTORY -> 0 <= size < 2 ^ 31 -> zlen (clean_name s) <= 99 ->
  exists m', ustar_make_header lit p type size h m = Done ((true, []), m') /\ composed m h m' (clean_name s) type size.
Proof.
  intros Hro Hap Hs Hp Hdis Hh Hm Hty Hsz Hlen.
  destruct (strip_run m p s Hro Hs Hp) as (q & Rq & Hq & Hq0 & Hpos). pose proof (zlen_nonneg (clean_name s)).
  assert (h + 512 <= q \/ q + zlen (clean_name s) < h) as Hqd.
  { destruct Hpos as [->|[? ?]]; [|lia]. destruct (rodata_at m "." Hro) as [_ Hd]; [cbn; tauto|].
    rewrite (cstr_inj _ _ _ _ Hq Hd). unfold lits_apart in Hap. rewrite List.Forall_forall in Hap. apply Hap. cbn. tauto. }
  destruct (start_composing h Hh Hap m Hro Hm) as (R0 & W0 & C0). set (m1 := stored m h (replicate 512 0)) in *.
  destruct (fill_header m h Hh Hap m1 q (clean_name s) type size C0) as (m2 & R2 & C2 & Hn & (ds & Hds & Hd & Hv & Hl) & Hz);
    [|eapply cstr_frame; [|exact Hq]; intros a Ha; apply W0; change (zlen (replicate 512 0)) with 512; lia|done|done|done|done|unfold is_s32; lia|].
  { intros a Ha. rewrite <- (bytes_at_lookup _ _ h (Z.to_nat (a - h)) 0 (proj1 W0)); [f_equal; lia|]. apply lookup_replicate_2. lia. }
  destruct (finish_header m h Hh Hap m2 (clean_name s) type size ds) as (m3 & R3 & C3); try done. exists m3. split; [|exact C3].
  unfold ustar_make_header. change (sizeof_header =? USTAR_HEADER_SIZE) with true.
  erewrite bind_done by done. erewrite bind_done by (apply assert_done; by destruct Hty as [-> | ->]).
  erewrite bind_done by exact Rq. erewrite bind_done by by apply strlen_correct. rewrite (proj2 (Z.ltb_ge _ _)) by done.
  erewrite bind_done by exact R0. by rewrite R2.
Qed.

(** C17: A header made for a file parses to its cleaned name, type and size;
    only the header is written.  A name that is too long is refused, nothing is
    written and the message names it. *)
Theorem make_parse_roundtrip m p s type size h : rodata m -> lits_apart h 512 -> lit "." < 2 ^ 32 ->
  cstr m p s -> 0 < p -> p + zlen s < 2 ^ 32 -> h + 512 <= p \/ p + zlen s < h -> 0 < h -> mapped m h 512 ->
  type = USTAR_REGULAR \/ type = USTAR_DIRECTORY -> 0 <= size < 2 ^ 31 ->
  if zlen (clean_name s) <=? 99 then
    exists m' q, ustar_make_header lit p type size h m = Done ((true, []), m') /\ outside m m' h 512 /\
      ustar_parse_header lit h m' = Done (Header q type (if type =? USTAR_REGULAR then size else 0), m') /\
      cstr m' q (clean_name s)
  else ustar_make_header lit p type size h m = Done ((false, clean_name s ++ codes ": file name too long" ++ [10]), m).
Proof.
  intros Hro Hap Hdot Hs Hp Hp32 Hdis Hh Hm Hty Hsz. destruct (Z.leb_spec (zlen (clean_name s)) 99) as [Hlen|]; [|by apply make_long].
  destruct (make_header_run m p s type size h) as (m' & R & C); try done.
  destruct (parse_composed m h m' (clean_name s) type size Hh C (clean_name_safe s) Hty Hsz) as (q & Rp & Hq & _).
  exists m', q. split; [done|]. split; [apply C|done].
Qed.

(** The checksum rejects any block that differs from an entry in one byte
    outside the checksum field. *)
Theorem changed_byte_rejected m h p type size x b : rodata m -> lits_apart h 512 -> 0 < h -> block_at m h 512 ->
  ustar_parse_header lit h m = Done (Header p type size, m) -> type <> USTAR_EOF ->
  0 <= x < 512 -> in_chksum_field x = false -> is_byte b -> m !! (h + x) <> Some b ->
  exists message, ustar_parse_header lit h (<[h + x := b]> m) = Done (Error message, <[h + x := b]> m).
Proof.
  intros Hro Hap Hh Hb Hparse Hne Hx Hf Hby Hnew. set (m' := <[h + x := b]> m).
  destruct (parse_header_inv m h p type size Hro Hh Hb Hparse Hne) as (Hu & Hs & Ho).
  assert (outside m m' h 512) as Hout by (intros a Ha; apply lookup_insert_ne; lia).
  assert (rodata m') as Hro' by by eapply rodata_frame. assert (block_at m' h 512) as Hb'.
  { intros a Ha. destruct (decide (a = h + x)) as [->|]; [exists b; split; [apply lookup_insert_eq|done]|].
    unfold m'. rewrite lookup_insert_ne by done. by apply Hb. }
  destruct (parse_header_run m' h Hro' Hh Hb') as ([p' type' size'|message] & Hr & Hg); [exfalso|by exists message].
  assert (type' <> USTAR_EOF) as Hne'.
  { intros ->. destruct Hg as [(_ & _ & _ & Hz)|(s & _ & _ & _ & _ & [?|[? _]])]; [|done|done].
    destruct (decide (x = 257)) as [->|].
    - specialize (Hz (h + 258) ltac:(lia)). unfold m' in Hz. rewrite lookup_insert_ne, Hs in Hz by lia. done.
    - specialize (Hz (h + 257) ltac:(lia)). unfold m' in Hz. rewrite lookup_insert_ne, Hu in Hz by lia. done. }
  destruct (parse_header_inv m' h p' type' size' Hro' Hh Hb' Hr Hne') as (_ & _ & Ho').
  assert (parse_octal_field (h + 148) 8 m' = Done ((true, header_sum m h), m')) as Ho2.
  { eapply octal_loop_ext; [|exact Ho]. intros a Ha. apply lookup_insert_ne. unfold in_chksum_field in Hf. offsets. lia. }
  rewrite Ho2 in Ho'. injection Ho' as Hsum. destruct (Hb (h + x)) as (old & Hold & _); [lia|].
  unfold header_sum, m' in Hsum. rewrite (sum_from_change m h x b 512 0 old) in Hsum by (done || lia). apply Hnew. rewrite Hold. f_equal. lia.
Qed.
End UstarFacts.

(** ** Concrete inputs *)

(** Addresses of the literals for the examples. *)
Definition example_literals : list (String.string * Z) :=
  [("."%string, 16); ("./"%string, 24); ("../"%string, 32); (".."%string, 40); ("0000000"%string, 48); ("ustar"%string, 56); ("root"%string, 64)].
Definition example_lit (s : String.string) : Z :=
  match list_find (fun p => p.1 = s) example_literals with Some (_, (_, a)) => a | None => 0 end.
Definition example_mem (name : String.string) : mem :=
  foldr (fun p m => stored m p.2 (codes p.1 ++ [0])) (stored ∅ 1024 (replicate 512 7))
    (("x"%string, 12) :: (name, 128) :: example_literals).

Definition example_trip (name : String.string) (type size : Z) : outcome (option (list Z * Z * Z)) :=
  ('(ok, _) ← ustar_make_header example_lit 128 type size 1024;
   r ← ustar_parse_header example_lit 1024;
   match r with
   | Header p t s => n ← strlen p; text ← load_bytes (Z.to_nat n) p; mret (Some (text, t, s))
   | Error _ => mret None
   end) (example_mem name) ≫= fun p => Done p.1.

Example trip_regular : example_trip ".././/a/../b" USTAR_REGULAR 1000 = Done (Some (codes "a/../b", USTAR_REGULAR, 1000)).
Proof. vm_compute. reflexivity. Qed.
Example trip_directory : example_trip "./.." USTAR_DIRECTORY 7 = Done (Some (codes ".", USTAR_DIRECTORY, 0)).
Proof. vm_compute. reflexivity. Qed.
Example trip_negative : example_trip "a" USTAR_REGULAR (- 1) = Done None.
Proof. vm_compute. reflexivity. Qed.

Lemma block_at_check m p n :
  forallb (fun a => match m !! a with Some b => (0 <=? b) && (b <? 2 ^ 8) | None => false end) (seqZ p n) = true -> block_at m p n.
Proof.
  intros H a Ha. rewrite forallb_forall in H. specialize (H a). destruct (m !! a) as [b|] eqn:E.
  - exists b. split; [done|]. unfold is_byte. assert (In a (seqZ p n)) as Hin by (apply list_elem_of_In, elem_of_seqZ; lia). specialize (H Hin). lia.
  - assert (In a (seqZ p n)) as Hin by (apply list_elem_of_In, elem_of_seqZ; lia). by specialize (H Hin).
Qed.

Ltac literal_in_memory := apply Forall_cons; split; [split; [reflexivity|split; [vm_compute; repeat split|unfold is_char; by_decide]]|].

Lemma example_rodata : rodata example_lit (example_mem "../a").
Proof. unfold rodata, literals. do 7 literal_in_memory. by apply Forall_nil. Qed.

Lemma example_apart : lits_apart example_lit 1024 512.
Proof. by_decide. Qed.

(** A block that is no header, and one that was made for a file of 1000 bytes. *)
Lemma parse_header_safe_witness :
  (exists r, ustar_parse_header example_lit 1024 (example_mem "../a") = Done (r, example_mem "../a") /\ good_entry (example_mem "../a") 1024 r) /\
  exists m' q, ustar_make_header example_lit 128 USTAR_REGULAR 1000 1024 (example_mem "../a") = Done ((true, []), m') /\
    ustar_parse_header example_lit 1024 m' = Done (Header q USTAR_REGULAR 1000, m') /\ good_entry m' 1024 (Header q USTAR_REGULAR 1000).
Proof.
  split; [apply (parse_header_safe example_lit); [apply example_rodata|lia|apply block_at_check; vm_compute; reflexivity]|].
  destruct (make_header_run example_lit (example_mem "../a") 128 (codes "../a") USTAR_REGULAR 1000 1024) as (m' & Hmk & Hc);
    [apply example_rodata|apply example_apart| |lia|right; reflexivity|lia| |by left|lia|by_decide|].
  - split; [vm_compute; repeat split|unfold is_char; by_decide].
  - apply block_mapped, block_at_check. vm_compute. reflexivity.
  - destruct (parse_composed example_lit _ 1024 m' (clean_name (codes "../a")) USTAR_REGULAR 1000 ltac:(lia) Hc (clean_name_safe _) (or_introl eq_refl) ltac:(lia)) as (q & Hp & _).
    pose proof (c_comp _ _ _ _ _ _ _ Hc) as [Hro Hblk _].
    destruct (parse_header_safe example_lit m' 1024 Hro ltac:(lia) Hblk) as (r & Hr & Hg).
    exists m', q. split; [exact Hmk|]. split; [exact Hp|]. rewrite Hp in Hr. injection Hr as <-. exact Hg.
Defined.

Lemma make_parse_roundtrip_witness :
  exists m' q, ustar_make_header example_lit 128 USTAR_REGULAR 1000 1024 (example_mem "../a") = Done ((true, []), m') /\
    outside (example_mem "../a") m' 1024 512 /\
    ustar_parse_header example_lit 1024 m' = Done (Header q USTAR_REGULAR 1000, m') /\ cstr m' q (codes "a").
Proof.
  apply (make_parse_roundtrip example_lit (example_mem "../a") 128 (codes "../a") USTAR_REGULAR 1000 1024);
    [apply example_rodata|apply example_apart|reflexivity| |lia|reflexivity|right; reflexivity|lia| |by left|lia].
  - split; [vm_compute; repeat split|unfold is_char; by_decide].
  - apply block_mapped, block_at_check. vm_compute. reflexivity.
Defined.

(** The memory with a header for a file of five bytes. *)
Definition example_header : mem :=
  match ustar_make_header example_lit 128 USTAR_REGULAR 5 1024 (example_mem "../a") with Done (_, m) => m | _ => ∅ end.

Lemma changed_byte_rejected_witness :
  exists message, ustar_parse_header example_lit 1024 (<[1024 + 0 := chr "b"]> example_header) =
    Done (Error message, <[1024 + 0 := chr "b"]> example_header).
Proof.
  apply (changed_byte_rejected example_lit example_header 1024 1024 USTAR_REGULAR 5 0 (chr "b"));
    [|apply example_apart|lia|apply block_at_check; vm_compute; reflexivity|vm_compute; reflexivity|done|lia|done|done|vm_compute; discriminate].
  unfold rodata, literals. do 7 literal_in_memory. by apply Forall_nil.
Defined.
