(* ===== verification/Fsutil.v ===== *)
(** * filesys/fsutil.c: actions of the kernel's command line on files

    Listing, dumping and removing files, and moving files between the file system
    and a ustar archive on the scratch device.  The state joins the file system of
    FileSys, the memory of Mem with the argument vector, the names and the buffers,
    the scratch device and the console.  Buffers come from malloc and palloc: their
    addresses are arguments, NULL when there is no memory; freeing them changes
    nothing here. *)

From Stdlib Require Import(notations) String.
From S2P Require Import Prelude Bitmap Block FileSys Mem CString Stdio CStdlib Ustar.

Record util (dev sdev : Type) := mk_util {
  u_fs : fs dev;                        (* the file system *)
  u_mem : mem;
  u_scratch : option (block sdev);      (* the device with the role BLOCK_SCRATCH *)
  extract_sector : Z;                   (* the static [sector] of fsutil_extract *)
  append_sector : Z;                    (* the static [sector] of fsutil_append *)
  console : list Z                      (* what has been printed *)
}.
Arguments mk_util {dev sdev}.
Arguments u_fs {dev sdev}.
Arguments u_mem {dev sdev}.
Arguments u_scratch {dev sdev}.
Arguments extract_sector {dev sdev}.
Arguments append_sector {dev sdev}.
Arguments console {dev sdev}.

Section Fsutil.
Context {dev sdev : Type} `{BlockDriver dev} `{BlockDriver sdev} (lit : String.string -> Z).
Abbreviation U := (util dev sdev).

Definition with_fs (s : fs dev) (u : U) : U :=
  mk_util s (u_mem u) (u_scratch u) (extract_sector u) (append_sector u) (console u).
Definition with_mem (m : mem) (u : U) : U :=
  mk_util (u_fs u) m (u_scratch u) (extract_sector u) (append_sector u) (console u).
Definition with_scratch (b : block sdev) (u : U) : U :=
  mk_util (u_fs u) (u_mem u) (Some b) (extract_sector u) (append_sector u) (console u).
Definition with_sectors (e a : Z) (u : U) : U :=
  mk_util (u_fs u) (u_mem u) (u_scratch u) e a (console u).

(** Calls of the parts. *)
Definition on_fs {A} (m : M (fs dev) A) : M U A := fun u =>
  '(a, s) ← m (u_fs u); Done (a, with_fs s u).
Definition on_mem {A} (m : M mem A) : M U A := fun u =>
  '(a, s) ← m (u_mem u); Done (a, with_mem s u).
Definition on_scratch {A} (m : M (block sdev) A) : M U A := fun u =>
  match u_scratch u with
  | Some b => '(a, b') ← m b; Done (a, with_scratch b' u)
  | None => Fault
  end.

Definition put_console (out : list Z) : M U unit :=
  modify (fun u => mk_util (u_fs u) (u_mem u) (u_scratch u) (extract_sector u) (append_sector u) (console u ++ out)).
Definition say (format args : list Z) : M U unit := out ← on_mem (printf format args); put_console out.

(** The characters of a string in memory. *)
Definition load_string (p : Z) : M mem (list Z) := n ← strlen p; load_bytes (Z.to_nat n) p.

(** [argv[1]]. *)
Definition argv_1 (argv : Z) : M U Z := on_mem (load32 (argv + 4)).

(** [block_get_role (BLOCK_SCRATCH)] and the check of its result. *)
Definition get_scratch : M U unit := b ← gets u_scratch; if b then mret tt else panic.

(** [block_read (src, sector, buffer)] and [block_write (dst, sector, buffer)]. *)
Definition read_scratch (sec buffer : Z) : M U unit :=
  bs ← on_scratch (block_read sec); on_mem (store_bytes buffer bs).
Definition write_scratch (sec buffer : Z) : M U unit :=
  bs ← on_mem (load_bytes (Z.to_nat BLOCK_SECTOR_SIZE) buffer); on_scratch (block_write sec bs).

(** [sector++] of each function. *)
Definition next_extract : M U Z :=
  sec ← gets extract_sector;
  modify (fun u => with_sectors (u32 (sec + 1)) (append_sector u) u) ;; mret sec.
Definition next_append : M U Z :=
  sec ← gets append_sector;
  modify (fun u => with_sectors (extract_sector u) (u32 (sec + 1)) u) ;; mret sec.

(** ** ls, cat and rm *)

Fixpoint ls_loop (fuel : nat) (d : Z) : M U unit :=
  match fuel with
  | O => nofuel
  | S fuel =>
      r ← on_fs (dir_readdir d);
      match r with
      | Some name => put_console (name ++ [10]) ;; ls_loop fuel d
      | None => mret tt
      end
  end.

(** At most one name for each entry. *)
Definition fsutil_ls : M U unit :=
  say (codes "Files in the root directory:" ++ [10]) [] ;;
  d ← on_fs dir_open_root;
  if d =? NULL then panic
  else
    fuel ← on_fs (n ← get_dir d; entries_fuel (d_inode n));
    ls_loop fuel d ;;
    on_fs (dir_close d) ;;
    say (codes "End of listing." ++ [10]) [].

Definition PGSIZE : Z := 4096.

Fixpoint cat_loop (fuel : nat) (f : Z) : M U unit :=
  match fuel with
  | O => nofuel
  | S fuel =>
      pos ← on_fs (file_tell f);
      bs ← on_fs (file_read f PGSIZE);
      if zlen bs =? 0 then mret tt
      else out ← on_mem (hex_dump pos bs true); put_console out ;; cat_loop fuel f
  end.

(** [page_ok]: palloc has a page for the buffer.  Every turn but the last reads
    at least a byte of the file. *)
Definition fsutil_cat (page_ok : bool) (argv : Z) : M U unit :=
  file_name ← argv_1 argv;
  say (codes "Printing '%s' to the console..." ++ [10]) [file_name] ;;
  name ← on_mem (load_string file_name);
  f ← on_fs (filesys_open name);
  if f =? NULL then panic
  else
    ASSERT page_ok ;;
    len ← on_fs (file_length f);
    cat_loop (S (Z.to_nat len)) f ;;
    on_fs (file_close f).

Definition fsutil_rm (argv : Z) : M U unit :=
  file_name ← argv_1 argv;
  say (codes "Deleting '%s'..." ++ [10]) [file_name] ;;
  name ← on_mem (load_string file_name);
  ok ← on_fs (filesys_remove name);
  if ok then mret tt else panic.

(** ** extract *)

(** The bytes of one turn of a copy. *)
Definition chunk (size : Z) : Z := if BLOCK_SECTOR_SIZE <? size then BLOCK_SECTOR_SIZE else size.

Fixpoint put_loop (fuel : nat) (dst data size : Z) : M U unit :=
  match fuel with
  | O => nofuel
  | S fuel =>
      if 0 <? size then
        let chunk_size := chunk size in
        sec ← next_extract;
        read_scratch sec data ;;
        bs ← on_mem (load_bytes (Z.to_nat chunk_size) data);
        w ← on_fs (file_write dst bs chunk_size);
        if negb (w =? chunk_size) then panic
        else put_loop fuel dst data (size - chunk_size)
      else mret tt
  end.

(** A sector for each 512 bytes. *)
Definition sectors_fuel (size : Z) : nat := S (Z.to_nat (bytes_to_sectors size)).

(** An entry that is a file.  [junk] is what the uninitialised local of [dir_add]
    holds. *)
Definition extract_file (junk : list Z) (data file_name size : Z) : M U unit :=
  say (codes "Putting '%s' into the file system..." ++ [10]) [file_name] ;;
  name ← on_mem (load_string file_name);
  ok ← on_fs (filesys_create junk name size);
  if negb ok then panic
  else
    name ← on_mem (load_string file_name);
    dst ← on_fs (filesys_open name);
    if dst =? NULL then panic
    else
      put_loop (sectors_fuel size) dst data size ;;
      on_fs (file_close dst).

(** A turn of the loop; [true] at the end of the archive. *)
Definition extract_turn (junk : list Z) (header data : Z) : M U bool :=
  sec ← next_extract;
  read_scratch sec header ;;
  r ← on_mem (ustar_parse_header lit header);
  match r with
  | Error _ => panic
  | Header file_name type size =>
      if type =? USTAR_EOF then mret true
      else
        (if type =? USTAR_DIRECTORY then say (codes "ignoring directory %s" ++ [10]) [file_name]
         else if type =? USTAR_REGULAR then extract_file junk data file_name size
         else mret tt) ;;
        mret false
  end.

Fixpoint extract_loop (fuel : nat) (junk : list Z) (header data : Z) : M U unit :=
  match fuel with
  | O => nofuel
  | S fuel =>
      ended ← extract_turn junk header data;
      if ended then mret tt else extract_loop fuel junk header data
  end.

(** Every turn reads another sector, and a sector beyond the device panics. *)
Definition fsutil_extract (junk : list Z) (header data : Z) : M U unit :=
  if (header =? NULL) || (data =? NULL) then panic
  else
    get_scratch ;;
    say (codes "Extracting ustar archive from scratch device into file system..." ++ [10]) [] ;;
    n ← on_scratch (gets block_size);
    extract_loop (S (Z.to_nat n)) junk header data ;;
    say (codes "Erasing ustar archive..." ++ [10]) [] ;;
    _ ← on_mem (memset header 0 BLOCK_SECTOR_SIZE);
    write_scratch 0 header ;;
    write_scratch 1 header.

(** ** append *)

Fixpoint get_loop (fuel : nat) (src buffer size : Z) : M U unit :=
  match fuel with
  | O => nofuel
  | S fuel =>
      if 0 <? size then
        let chunk_size := chunk size in
        sec ← gets append_sector;
        n ← on_scratch (gets block_size);
        if n <=? sec then panic
        else
          bs ← on_fs (file_read src chunk_size);
          on_mem (store_bytes buffer bs) ;;
          if negb (zlen bs =? chunk_size) then panic
          else
            _ ← on_mem (memset (buffer + chunk_size) 0 (BLOCK_SECTOR_SIZE - chunk_size));
            sec ← next_append;
            write_scratch sec buffer ;;
            get_loop fuel src buffer (size - chunk_size)
      else mret tt
  end.

Definition fsutil_append (buffer argv : Z) : M U unit :=
  file_name ← argv_1 argv;
  say (codes "Appending '%s' to ustar archive on scratch device..." ++ [10]) [file_name] ;;
  if buffer =? NULL then panic
  else
    name ← on_mem (load_string file_name);
    src ← on_fs (filesys_open name);
    if src =? NULL then panic
    else
      size ← on_fs (file_length src);
      get_scratch ;;
      '(ok, out) ← on_mem (ustar_make_header lit file_name USTAR_REGULAR size buffer);
      put_console out ;;
      if negb ok then panic
      else
        sec ← next_append;
        write_scratch sec buffer ;;
        get_loop (sectors_fuel size) src buffer size ;;
        _ ← on_mem (memset buffer 0 BLOCK_SECTOR_SIZE);
        sec ← gets append_sector;
        write_scratch sec buffer ;;
        write_scratch sec (buffer + 1) ;;
        on_fs (file_close src).
End Fsutil.
