(* ===== verification/FsutilSpec.v ===== *)
(** * What the actions on archives do

    Extracting the archive on the scratch device creates its files with their
    contents, one after the other; it panics exactly when filesys_create refuses one
    of them, in the state the extraction of those before it has left. *)

From Stdlib Require Import Ascii.
From Stdlib Require Import(notations) String.
From S2P Require Import Prelude Bitmap Block FileSys DirSpec FsAbstract FsMid FsRefine FsNames FsCreate FsCorrect Mem CString Stdio CStdlib Ustar Fsutil.

(** ** Archives *)

Inductive entry :=
| File (name bytes : list Z)
| Directory (name : list Z).

Section Archive.
Context (lit : String.string -> Z).

(** The sector [bs] is read as a header with this name, type and size, wherever it
    is put. *)
Definition header_of (bs name : list Z) (type size : Z) : Prop :=
  forall m h, rodata lit m -> 0 < h -> bytes_at m h bs ->
    exists q, ustar_parse_header lit h m = Done (Header q type size, m) /\ cstr m q name /\ 0 < q /\
      (q = lit "." \/ (h <= q /\ q + zlen name < h + BLOCK_SECTOR_SIZE)).

(** The sectors that hold [bytes], and that the sectors [C] from [pos] on do. *)
Definition sector_cnt (bytes : list Z) : Z := (zlen bytes + 511) / 512.
Definition holds_bytes (C : Z -> list Z) (pos : Z) (bytes : list Z) : Prop :=
  forall k, 0 <= k < sector_cnt bytes -> exists rest, C (pos + k) = take 512 (drop (Z.to_nat (512 * k)) bytes) ++ rest.

Definition zero_sector : list Z := replicate 512 0.

(** The device [C] has from [pos] on, below sector [n], an archive with these
    entries, ended by a sector of zeros. *)
Fixpoint archive (C : Z -> list Z) (n pos : Z) (es : list entry) : Prop :=
  match es with
  | [] => pos < n /\ C pos = zero_sector
  | Directory name :: es => header_of (C pos) name USTAR_DIRECTORY 0 /\ archive C n (pos + 1) es
  | File name bytes :: es =>
      header_of (C pos) name USTAR_REGULAR (zlen bytes) /\ zlen bytes < 2 ^ 31 - 512 /\
      holds_bytes C (pos + 1) bytes /\ archive C n (pos + 1 + sector_cnt bytes) es
  end.

(** The end of the archive. *)
Fixpoint archive_end (pos : Z) (es : list entry) : Z :=
  match es with
  | [] => pos
  | Directory _ :: es => archive_end (pos + 1) es
  | File _ bytes :: es => archive_end (pos + 1 + sector_cnt bytes) es
  end.
End Archive.

(** ** What extraction promises *)

(** A new file under a new name. *)
Definition with_file (nm : list Z) (id : Z) (bytes : list Z) (a : afs) : afs :=
  mk_afs (<[nm := id]> (a_names a)) (<[id := bytes]> (a_data a)) (a_open a).

(** The files of the entries are added, in order. *)
Inductive unpacked : list entry -> afs -> afs -> Prop :=
| Unpacked_end a : unpacked [] a a
| Unpacked_directory nm es a a' : unpacked es a a' -> unpacked (Directory nm :: es) a a'
| Unpacked_file nm bytes id es a a' : valid_name nm -> a_names a !! nm = None -> a_data a !! id = None ->
    unpacked es (with_file nm id bytes a) a' -> unpacked (File nm bytes :: es) a a'.

(** The file system does not take the entry. *)
Definition refused (cap : Z) (fm : bitmap) (a : afs) (e : entry) : Prop :=
  match e with
  | Directory _ => False
  | File nm bytes => ~ valid_name nm \/ is_Some (a_names a !! nm) \/ cap <= Z.of_nat (base.size (a_names a)) \/ ~ room fm (zlen bytes)
  end.

(** The bytes of the file with a name. *)
Definition file_bytes (a : afs) (nm : list Z) : option (list Z) := id ← a_names a !! nm; a_data a !! id.

Fixpoint entry_bytes (es : list entry) (nm : list Z) : option (list Z) :=
  match es with
  | [] => None
  | Directory _ :: es => entry_bytes es nm
  | File nm' bytes :: es => if decide (nm' = nm) then Some bytes else entry_bytes es nm
  end.

(** Handles stay, and a name leads to the bytes of its entry if it has one. *)
Lemma unpacked_files es : forall a a', unpacked es a a' ->
  a_open a' = a_open a /\ forall nm, (forall id, a_names a !! nm = Some id -> is_Some (a_data a !! id)) ->
    file_bytes a' nm = match entry_bytes es nm with Some bs => Some bs | None => file_bytes a nm end.
Proof.
  induction 1 as [a|nm es a a' _ [IHo IH]|nm bytes id es a a' Hv Hn Hd Hu [IHo IH]]; [by split|by split|].
  split; [done|]. intros nm' Hok. cbn [entry_bytes]. rewrite IH.
  - unfold file_bytes, with_file. cbn [a_names a_data]. destruct (decide (nm = nm')) as [<-|Hne].
    + rewrite lookup_insert_eq. cbn. rewrite lookup_insert_eq.
      assert (entry_bytes es nm = None) as ->; [|done]. clear -Hu. remember (with_file nm id bytes a) as b eqn:E.
      assert (is_Some (a_names b !! nm)) as Hs by (subst; cbn; rewrite lookup_insert_eq; by eexists). clear E.
      induction Hu as [|? ? ? ? ? IH|nm' ? ? ? ? ? _ Hn' _ _ IH]; [done|by apply IH|]. cbn. destruct Hs as [x Hx].
      rewrite decide_False by congruence. apply IH. cbn. exists x. rewrite lookup_insert_ne by congruence. done.
    + rewrite lookup_insert_ne by done. destruct (entry_bytes es nm'); [done|]. destruct (a_names a !! nm') as [i|] eqn:E; [|done].
      cbn. destruct (Hok i eq_refl) as [bs Hbs]. rewrite lookup_insert_ne by congruence. done.
  - intros i. cbn. intros [[-> ->]|[Hne Hi]]%lookup_insert_Some; [rewrite lookup_insert_eq; by eexists|].
    destruct (Hok i Hi) as [bs Hbs]. exists bs. rewrite lookup_insert_ne by congruence. done.
Qed.

(** ** Calls of the parts *)

Section Runs.
Context {dev sdev : Type} `{BlockDriver dev} `{BlockDriver sdev} (lit : String.string -> Z).
Implicit Types (s : fs dev) (m : mem) (b : block sdev) (u : util dev sdev) (a : afs) (ob : option (block sdev)).

Lemma on_fs_run {A} (op : M (fs dev) A) s m ob e ap co x s' : op s = Done (x, s') ->
  on_fs op (mk_util s m ob e ap co) = Done (x, mk_util (sdev := sdev) s' m ob e ap co).
Proof. intros E. unfold on_fs. cbn [u_fs]. by rewrite E. Qed.

Lemma in_mem_run {A} (op : M mem A) s m ob e ap co x m' : op m = Done (x, m') ->
  on_mem op (mk_util s m ob e ap co) = Done (x, mk_util (dev := dev) (sdev := sdev) s m' ob e ap co).
Proof. intros E. unfold on_mem. cbn [u_mem]. by rewrite E. Qed.

Lemma on_scratch_run {A} (op : M (block sdev) A) s m b e ap co x b' : op b = Done (x, b') ->
  on_scratch op (mk_util s m (Some b) e ap co) = Done (x, mk_util (dev := dev) s m (Some b') e ap co).
Proof. intros E. unfold on_scratch. cbn [u_scratch]. by rewrite E. Qed.

Lemma say_run s m ob e ap co format args out : printf format args m = Done (out, m) ->
  say format args (mk_util s m ob e ap co) = Done (tt, mk_util (dev := dev) (sdev := sdev) s m ob e ap (co ++ out)).
Proof. intros E. unfold say. by erewrite bind_done by (apply in_mem_run; exact E). Qed.

Lemma say_plain s m ob e ap co format : Forall (fun c => c <> chr "%") format ->
  say format [] (mk_util s m ob e ap co) = Done (tt, mk_util (dev := dev) (sdev := sdev) s m ob e ap (co ++ format)).
Proof.
  intros HF. apply say_run. unfold printf, __vprintf. apply vprintf_plain; [done|lia].
Qed.

Lemma load_string_run m p name : cstr m p name -> 0 < p -> load_string p m = Done (name, m).
Proof.
  intros Hc Hp. unfold load_string. erewrite bind_done by by apply strlen_correct. rewrite zlen_to_nat.
  apply load_bytes_run. destruct Hc as [Hb _]. by apply bytes_at_app in Hb as [Hb _].
Qed.

(** *** The scratch device *)

(** The device holds the sectors [C], below [n]. *)
Record scratch_is (n : Z) (C : Z -> list Z) b : Prop := {
  sc_size : Block.size b = n;
  sc_type : Block.type b <> BLOCK_FOREIGN;
  sc_sector : forall t, 0 <= t < n -> ready (aux b) t /\ contents (aux b) t = C t
}.

Lemma scratch_len n C b t : scratch_is n C b -> 0 <= t < n -> zlen (C t) = 512.
Proof. intros [_ _ Hs] Ht. destruct (Hs t Ht) as [Hr <-]. by apply sector_law. Qed.

Lemma read_scratch_run n C s m b e ap co t buf : scratch_is n C b -> 0 <= t < n -> mapped m buf 512 ->
  exists b', read_scratch t buf (mk_util s m (Some b) e ap co) = Done (tt, mk_util (dev := dev) s (stored m buf (C t)) (Some b') e ap co) /\
    scratch_is n C b'.
Proof.
  intros Hb Ht Hm. pose proof (scratch_len n C b t Hb Ht) as Hl. destruct Hb as [Hz Hty Hs]. destruct (Hs t Ht) as [Hr Hc].
  destruct (block_read_spec b t) as (b' & Hrun & _ & Hty' & Hz' & Hr' & Hc'); [split; [lia|done]|].
  exists b'. split.
  - unfold read_scratch. erewrite bind_done by (apply on_scratch_run; exact Hrun). rewrite Hc. apply in_mem_run.
    apply store_bytes_run. by rewrite Hl.
  - split; [lia|congruence|]. intros t' Ht'. destruct (Hs t' Ht') as [Hr1 Hc1]. split; [by apply Hr'|]. by rewrite Hc'.
Qed.

Definition set_sector (t : Z) (bs : list Z) (C : Z -> list Z) : Z -> list Z := fun x => if x =? t then bs else C x.

Lemma write_scratch_run n C s m b e ap co t buf bs : scratch_is n C b -> 0 <= t < n -> bytes_at m buf bs -> zlen bs = 512 ->
  exists b', write_scratch t buf (mk_util s m (Some b) e ap co) = Done (tt, mk_util (dev := dev) s m (Some b') e ap co) /\
    scratch_is n (set_sector t bs C) b'.
Proof.
  intros [Hz Hty Hs] Ht Hm Hl. destruct (Hs t Ht) as [Hr Hc].
  destruct (block_write_spec b t bs) as (b' & Hrun & _ & Hty' & Hz' & Hr' & Hc'); [split; [lia|done]|done|done|].
  exists b'. split.
  - unfold write_scratch. change BLOCK_SECTOR_SIZE with 512. rewrite <- Hl, zlen_to_nat.
    erewrite bind_done by (apply in_mem_run, load_bytes_run; exact Hm). by apply on_scratch_run.
  - split; [lia|congruence|]. intros t' Ht'. destruct (Hs t' Ht') as [Hr1 Hc1]. split; [by apply Hr'|].
    unfold set_sector. rewrite Hc' by done. by destruct (t' =? t).
Qed.

(** *** The file system *)

(** The calls of [run_op] one at a time. *)
Lemma create_cases cap a s junk nm sz : rep cap a s -> zlen junk = 20 -> Forall (fun c => 0 < c < 256) nm -> 0 <= sz < 2 ^ 31 - 512 ->
  (exists s' id, filesys_create junk nm sz s = Done (true, s') /\ valid_name nm /\ a_names a !! nm = None /\ a_data a !! id = None /\
     rep cap (with_file nm id (replicate (Z.to_nat sz) 0) a) s') \/
  (exists s', filesys_create junk nm sz s = Done (false, s') /\
     (~ valid_name nm \/ is_Some (a_names a !! nm) \/ cap <= Z.of_nat (base.size (a_names a)) \/ ~ room (free_map s) sz)).
Proof.
  intros Hr Hj Hnm Hsz. destruct (sim_create cap junk a s nm sz Hr Hj) as (r & s' & a' & Hrun & Hst & Hr'); [by split|].
  unfold run_op in Hrun. apply bind_done_inv in Hrun as (ok & s1 & Hrun & [= <- <-]). inversion Hst; subst; [left|right]; by eauto 10.
Qed.

Lemma open_named cap a s nm id : rep cap a s -> a_names a !! nm = Some id -> Z.of_nat (base.size (a_open a)) < MAX_OPEN ->
  exists f s', filesys_open nm s = Done (f, s') /\ f <> NULL /\ a_open a !! f = None /\ rep cap (set_open f (mk_handle id 0 false) a) s'.
Proof.
  intros Hr Hn Hm. destruct (sim_open cap [] a s nm Hr Hm) as (r & s' & a' & Hrun & Hst & Hr').
  unfold run_op in Hrun. apply bind_done_inv in Hrun as (f & s1 & Hrun & [= <- <-]). exists f, s1. inversion Hst; subst; [|congruence].
  split; [done|]. split; [done|]. split; [done|]. by assert (id0 = id) as -> by congruence.
Qed.

Lemma handle_pos cap a s f id p dw : rep cap a s -> a_open a !! f = Some (mk_handle id p dw) -> 0 <= p.
Proof.
  intros Hr Hf. destruct (rep_handle _ _ _ _ _ Hr Hf) as (L & fl & n & _ & _ & _ & _ & _ & E & _ & Hp & _).
  by injection E as _ -> _.
Qed.

Lemma write_handle cap a s f id p dw l bs : rep cap a s -> a_open a !! f = Some (mk_handle id p dw) -> a_data a !! id = Some l ->
  denied a id = false -> p + zlen bs <= zlen l -> p + zlen bs < 2 ^ 31 ->
  exists s', file_write f bs (zlen bs) s = Done (zlen bs, s') /\
    rep cap (mk_afs (a_names a) (<[id := splice l p bs]> (a_data a)) (<[f := mk_handle id (p + zlen bs) dw]> (a_open a))) s'.
Proof.
  intros Hr Hf Hd Hdn Hle Hlt. destruct (sim_write cap [] a s f bs Hr) as (r & s' & a' & Hrun & Hst & Hr'); [by eexists|].
  unfold run_op in Hrun. apply bind_done_inv in Hrun as (w & s1 & Hrun & [= <- <-]).
  pose proof (handle_pos _ _ _ _ _ _ _ Hr Hf) as Hp. inversion Hst; simplify_eq.
  - assert (fits l p bs = zlen bs) as E; [|rewrite E in *; eauto].
    unfold fits. rewrite take_ge; [done|]. unfold zlen in *. lia.
  - cbn in *. congruence.
Qed.

Lemma close_named cap a s f h nm : rep cap a s -> a_open a !! f = Some h -> a_names a !! nm = Some (h_id h) ->
  exists s', file_close f s = Done (tt, s') /\ rep cap (mk_afs (a_names a) (a_data a) (delete f (a_open a))) s'.
Proof.
  intros Hr Hf Hn. destruct (sim_close cap [] a s f Hr) as (r & s' & a' & Hrun & Hst & Hr'); [by right; eexists|].
  unfold run_op in Hrun. apply bind_done_inv in Hrun as ([] & s1 & Hrun & [= <- <-]). exists s1. split; [done|].
  inversion Hst; simplify_eq.
  - unfold collect in Hr'.
    rewrite (proj2 (named_true (mk_afs (a_names a) _ _) (h_id h))) in Hr' by by exists nm. done.
  - destruct (rep_handle _ _ _ _ _ Hr Hf) as (_ & _ & _ & _ & _ & _ & _ & Hnull & _). done.
Qed.

(** A file that is new has no handles. *)
Lemma fresh_not_denied cap a s id : rep cap a s -> a_data a !! id = None -> denied a id = false.
Proof.
  intros Hr Hd. apply not_true_iff_false. intros (f & h & Hf & <- & _)%denied_true.
  destruct (rep_handle _ _ _ _ _ Hr Hf) as (L & fl & n & _ & _ & _ & _ & _ & E & _ & _ & Hs). subst h. cbn in Hd. congruence.
Qed.

(** Nothing else changes when bytes are appended to a handle that writes. *)
Lemma not_denied_insert a id f p N D : denied a id = false -> denied (mk_afs N D (<[f := mk_handle id p false]> (a_open a))) id = false.
Proof.
  intros Hd. apply not_true_iff_false. intros (f' & h & Hf & Hid & Hw)%denied_true. cbn in Hf.
  apply lookup_insert_Some in Hf as [[<- <-]|[_ Hf]]; [done|]. apply not_true_iff_false in Hd. apply Hd, denied_true. eauto.
Qed.
End Runs.

(** ** Extracting *)

Lemma sector_cnt_cons (bs : list Z) : 0 < zlen bs -> sector_cnt bs = 1 + sector_cnt (drop (Z.to_nat (chunk (zlen bs))) bs).
Proof.
  intros Hp. unfold sector_cnt, chunk. change BLOCK_SECTOR_SIZE with 512. unfold zlen. rewrite length_drop. unfold zlen in *.
  destruct (Z.ltb_spec 512 (Z.of_nat (length bs))).
  - rewrite Nat2Z.inj_sub by lia. rewrite Z2Nat.id by lia.
    replace (Z.of_nat (length bs) + 511) with (Z.of_nat (length bs) - 512 + 511 + 1 * 512) by lia. rewrite Z.div_add by lia. lia.
  - rewrite Nat2Z.id, Nat.sub_diag. change ((Z.of_nat 0 + 511) / 512) with 0. dlia.
Qed.

Lemma sector_cnt_nonneg bs : 0 <= sector_cnt bs.
Proof. unfold sector_cnt. pose proof (zlen_nonneg bs). dlia. Qed.

Lemma chunk_take (bs : list Z) : take (Z.to_nat (chunk (zlen bs))) bs = take 512 bs.
Proof.
  unfold chunk. change BLOCK_SECTOR_SIZE with 512. destruct (Z.ltb_spec 512 (zlen bs)); [done|].
  rewrite !take_ge; [done|unfold zlen in *; lia|unfold zlen in *; lia].
Qed.

(** The first of the sectors, and the others. *)
Lemma holds_bytes_cons C pos bs : 0 < zlen bs -> holds_bytes C pos bs ->
  (exists rest, C pos = take (Z.to_nat (chunk (zlen bs))) bs ++ rest) /\ holds_bytes C (pos + 1) (drop (Z.to_nat (chunk (zlen bs))) bs).
Proof.
  intros Hp Hh. pose proof (sector_cnt_cons bs Hp) as E. pose proof (sector_cnt_nonneg (drop (Z.to_nat (chunk (zlen bs))) bs)). split.
  - destruct (Hh 0 ltac:(lia)) as [rest Hr]. exists rest. rewrite Z.add_0_r in Hr. by rewrite Hr, chunk_take.
  - intros k Hk. destruct (Hh (k + 1) ltac:(lia)) as [rest Hr]. exists rest.
    replace (pos + 1 + k) with (pos + (k + 1)) by lia. rewrite Hr. f_equal. rewrite drop_drop. do 2 f_equal.
    assert (chunk (zlen bs) = 512); [|lia]. unfold chunk. change BLOCK_SECTOR_SIZE with 512. destruct (Z.ltb_spec 512 (zlen bs)); [done|].
    unfold chunk in Hk. change BLOCK_SECTOR_SIZE with 512 in Hk. rewrite (proj2 (Z.ltb_ge _ _)) in Hk by done.
    rewrite drop_ge in Hk by (unfold zlen; lia). change (sector_cnt []) with 0 in Hk. lia.
Qed.

Section Extract.
Context {dev sdev : Type} `{BlockDriver dev} `{BlockDriver sdev} (lit : String.string -> Z).
Implicit Types (s : fs dev) (m : mem) (b : block sdev) (u : util dev sdev) (a : afs).

(** The buffers are 512 bytes each, apart from the literals and in the 32-bit
    address space; the scratch device holds the sectors [C]. *)
Context (cap n : Z) (C : Z -> list Z) (header data : Z).
Context (Hheader : 0 < header /\ header + 512 < 2 ^ 32 /\ lits_apart lit header 512).
Context (Hdata : 0 < data /\ lits_apart lit data 512) (Hdot : lit "." < 2 ^ 32).
Context (Hn : n < 2 ^ 32) (Hbytes : forall t, 0 <= t < n -> Forall is_byte (C t)).

Record buffers m : Prop := {
  bf_lits : rodata lit m;
  bf_header : mapped m header 512;
  bf_data : mapped m data 512
}.

Lemma buffers_stored m buf bs : buffers m -> buf = header \/ buf = data -> zlen bs = 512 -> buffers (stored m buf bs).
Proof.
  intros [Hl Hh Hd] Hb E. split; [|by apply stored_mapped|by apply stored_mapped].
  eapply (rodata_frame lit m _ buf 512); [done|destruct Hb as [-> | ->]; tauto|]. rewrite <- E. apply stored_outside.
Qed.

(** The rest [bs] of a file is copied to the end of what is written. *)
Lemma put_loop_run f id : forall fuel bs s m b e ap co a p l,
  rep cap a s -> a_open a !! f = Some (mk_handle id p false) -> a_data a !! id = Some l -> denied a id = false ->
  zlen l = p + zlen bs -> zlen l < 2 ^ 31 -> buffers m -> scratch_is n C b -> holds_bytes C e bs -> 0 <= e ->
  e + sector_cnt bs <= n -> (Z.to_nat (sector_cnt bs) < fuel)%nat ->
  exists s' m' b', put_loop fuel f data (zlen bs) (mk_util s m (Some b) e ap co) = Done (tt, mk_util s' m' (Some b') (e + sector_cnt bs) ap co) /\
    rep cap (mk_afs (a_names a) (<[id := take (Z.to_nat p) l ++ bs]> (a_data a)) (<[f := mk_handle id (zlen l) false]> (a_open a))) s' /\
    buffers m' /\ scratch_is n C b'.
Proof.
  induction fuel as [|fuel IH]; intros bs s m b e ap co a p l Hr Hf Hd Hdn Hl Hl31 Hm Hb Hh He Hen Hfu; [lia|].
  pose proof (handle_pos _ _ _ _ _ _ _ Hr Hf) as Hp. cbn [put_loop]. destruct (Z.ltb_spec 0 (zlen bs)) as [Hpos|Hz].
  2:{ assert (bs = []) as -> by (destruct bs; [done|rewrite zlen_cons in Hz; pose proof (zlen_nonneg bs); lia]).
      exists s, m, b. change (sector_cnt []) with 0. rewrite Z.add_0_r. split; [done|]. split; [|done]. change (zlen []) with 0 in Hl.
      rewrite app_nil_r, take_ge by (unfold zlen in Hl; lia). replace (zlen l) with p by lia. rewrite !insert_id by done. by destruct a. }
  destruct (holds_bytes_cons _ _ _ Hpos Hh) as [[rest HC] Hh']. rewrite (sector_cnt_cons _ Hpos) in *.
  set (c := chunk (zlen bs)) in *. set (bs1 := take (Z.to_nat c) bs) in *. set (bs2 := drop (Z.to_nat c) bs) in *.
  pose proof (sector_cnt_nonneg bs2). assert (0 < c <= zlen bs) as Hc.
  { unfold c, chunk. change BLOCK_SECTOR_SIZE with 512. destruct (Z.ltb_spec 512 (zlen bs)); lia. }
  assert (zlen bs1 = c) as Hl1 by (unfold bs1, zlen in *; rewrite length_take; lia).
  assert (zlen bs2 = zlen bs - c) as Hl2 by (unfold bs2, zlen in *; rewrite length_drop; lia).
  unfold next_extract. erewrite bind_done by done. cbn [extract_sector]. rewrite u32_small by lia.
  destruct (read_scratch_run n C s m b (e + 1) ap co e data Hb ltac:(lia) (bf_data _ Hm)) as (b1 & Hrd & Hb1).
  erewrite bind_done by exact Hrd. pose proof (stored_bytes (C e) m data (Hbytes e ltac:(lia))) as Hst. rewrite HC in Hst at 2.
  apply bytes_at_app in Hst as [Hst _]. assert (Z.to_nat c = length bs1) as -> by (unfold zlen in Hl1; lia).
  erewrite bind_done by (apply in_mem_run, load_bytes_run; exact Hst).
  destruct (write_handle cap a s f id p false l bs1 Hr Hf Hd Hdn ltac:(lia) ltac:(lia)) as (s1 & Hw & Hr1).
  rewrite <- Hl1. erewrite bind_done by (apply on_fs_run; exact Hw). rewrite Z.eqb_refl. cbn [negb]. rewrite Hl1, <- Hl2.
  assert (length (take (Z.to_nat p) l) = Z.to_nat p) as Htk by (rewrite length_take; unfold zlen in *; lia).
  edestruct (IH bs2 s1 (stored m data (C e)) b1 (e + 1) ap co _ (p + c) (splice l p bs1) Hr1) as (s2 & m2 & b2 & Hrun & Hr2 & Hm2 & Hb2); cbn [a_open a_data a_names].
  - by rewrite lookup_insert_eq, Hl1.
  - by rewrite lookup_insert_eq.
  - by apply not_denied_insert.
  - unfold zlen at 1. rewrite length_splice by lia. fold (zlen l). lia.
  - unfold zlen at 1. rewrite length_splice by lia. fold (zlen l). lia.
  - apply buffers_stored; [done|by right|]. eapply scratch_len; [exact Hb|lia].
  - done.
  - done.
  - lia.
  - lia.
  - lia.
  - exists s2, m2, b2. rewrite Hrun. split; [do 3 f_equal; lia|]. split; [|done]. cbn [a_names a_data a_open] in Hr2.
    rewrite !insert_insert_eq in Hr2. unfold zlen in Hr2 at 1. rewrite length_splice in Hr2 by lia. fold (zlen l) in Hr2.
    assert (take (Z.to_nat (p + c)) (splice l p bs1) ++ bs2 = take (Z.to_nat p) l ++ bs) as E; [|by rewrite E in Hr2].
    unfold splice. rewrite (take_ge bs1) by (unfold zlen in *; lia).
    rewrite app_assoc, take_app_length' by (rewrite length_app; unfold zlen in *; lia). rewrite <- app_assoc. unfold bs1, bs2. by rewrite take_drop.
Qed.

(** What the console shows of an entry. *)
Definition entry_message (en : entry) : list Z :=
  match en with
  | File nm _ => codes "Putting '" ++ nm ++ codes "' into the file system..." ++ [10]
  | Directory nm => codes "ignoring directory " ++ nm ++ [10]
  end.

Lemma extract_file_run junk s m b e ap co a q nm bytes : zlen junk = 20 -> Z.of_nat (base.size (a_open a)) < MAX_OPEN ->
  rep cap a s -> buffers m -> scratch_is n C b -> cstr m q nm -> 0 < q < 2 ^ 32 -> zlen nm < 2 ^ 32 ->
  zlen bytes < 2 ^ 31 - 512 -> holds_bytes C e bytes -> 0 <= e -> e + sector_cnt bytes <= n ->
  (extract_file junk data q (zlen bytes) (mk_util s m (Some b) e ap co) = Panic /\ refused cap (free_map s) a (File nm bytes) /\
   exists s1, filesys_create junk nm (zlen bytes) s = Done (false, s1)) \/
  exists s1 s' m' b' id, extract_file junk data q (zlen bytes) (mk_util s m (Some b) e ap co) =
      Done (tt, mk_util s' m' (Some b') (e + sector_cnt bytes) ap (co ++ entry_message (File nm bytes))) /\
    filesys_create junk nm (zlen bytes) s = Done (true, s1) /\
    valid_name nm /\ a_names a !! nm = None /\ a_data a !! id = None /\ rep cap (with_file nm id bytes a) s' /\
    buffers m' /\ scratch_is n C b'.
Proof.
  intros Hj Ho Hr Hm Hb Hc Hq Hnm Hsz Hh He Hen. unfold extract_file. pose proof (zlen_nonneg bytes).
  change (codes "Putting '%s' into the file system..." ++ [10]) with (codes "Putting '" ++ codes "%s" ++ (codes "' into the file system..." ++ [10])).
  erewrite bind_done by (apply say_run, (printf_string m q nm); [done|lia|lia|by_decide|by_decide]).
  erewrite bind_done by (apply in_mem_run, load_string_run; [exact Hc|lia]).
  assert (Forall (fun c => 0 < c < 256) nm) as Hch by apply Hc.
  destruct (create_cases cap a s junk nm (zlen bytes) Hr Hj Hch ltac:(lia)) as [(s1 & id & Hcr & Hv & Hfree & Hid & Hr1)|(s1 & Hcr & Href)];
    erewrite bind_done by (apply on_fs_run; exact Hcr); cbn [negb]; [right|left; split; [done|]; split; [done|by eexists]].
  erewrite bind_done by (apply in_mem_run, load_string_run; [exact Hc|lia]).
  destruct (open_named cap _ s1 nm id Hr1) as (f & s2 & Hop & Hf0 & Hff & Hr2); [cbn; by rewrite lookup_insert_eq|exact Ho|].
  erewrite bind_done by (apply on_fs_run; exact Hop). rewrite (proj2 (Z.eqb_neq f NULL)) by done. cbn [a_open with_file] in Hff.
  destruct (put_loop_run f id (sectors_fuel (zlen bytes)) bytes s2 m b e ap (co ++ entry_message (File nm bytes)) _ 0 (replicate (length bytes) 0) Hr2)
    as (s3 & m3 & b3 & Hput & Hr3 & Hm3 & Hb3); try done; cbn [a_open a_data a_names set_open with_file].
  - by rewrite lookup_insert_eq.
  - rewrite lookup_insert_eq. unfold zlen. by rewrite Nat2Z.id.
  - apply (not_denied_insert a). by apply (fresh_not_denied cap a s).
  - unfold zlen. rewrite length_replicate. lia.
  - unfold zlen in *. rewrite length_replicate. lia.
  - unfold sectors_fuel, bytes_to_sectors, sector_cnt. rewrite s32_small by lia. rewrite Z.quot_div_nonneg by lia.
    rewrite u32_small by dlia. replace (zlen bytes + 512 - 1) with (zlen bytes + 511) by lia. lia.
  - erewrite bind_done by exact Hput. cbn [a_names a_data a_open set_open with_file] in Hr3.
    destruct (close_named cap _ s3 f (mk_handle id (zlen (replicate (length bytes) 0)) false) nm Hr3) as (s4 & Hcl & Hr4); cbn [a_open a_names h_id]; [by rewrite lookup_insert_eq|by rewrite lookup_insert_eq|].
    exists s1, s4, m3, b3, id. split; [by apply on_fs_run|]. repeat (split; [done|]). split; [|done].
    cbn [a_names a_data a_open] in Hr4. rewrite !insert_insert_eq, delete_insert_eq, delete_id in Hr4 by done. exact Hr4.
Qed.

Lemma archive_below es : forall pos, archive lit C n pos es -> pos <= archive_end pos es < n.
Proof.
  induction es as [|[nm bytes|nm] es IH]; intros pos; cbn [archive archive_end]; [intros [? _]; lia| |].
  - intros (_ & _ & _ & Ha). pose proof (IH _ Ha). pose proof (sector_cnt_nonneg bytes). lia.
  - intros (_ & Ha). pose proof (IH _ Ha). lia.
Qed.

Lemma parse_zeros m h : bytes_at m h zero_sector -> ustar_parse_header lit h m = Done (Header NULL USTAR_EOF 0, m).
Proof.
  intros Hz. assert (forall x, h <= x < h + 512 -> m !! x = Some 0) as Ha.
  { intros x Hx. rewrite <- (bytes_at_lookup _ _ h (Z.to_nat (x - h)) 0 Hz); [f_equal; lia|]. apply lookup_replicate_2. lia. }
  unfold ustar_parse_header. change (sizeof_header =? USTAR_HEADER_SIZE) with true. erewrite bind_done by done.
  destruct (zeros_loop_total 512 m h) as (z & Hrun & Hall); [intros x Hx; exists 0; split; [by apply Ha|unfold is_byte; lia]|].
  unfold is_all_zeros. erewrite bind_done by exact Hrun. by rewrite (proj2 Hall Ha).
Qed.

(** Reading the header of an entry. *)
Lemma header_run s m b e ap co nm type sz : buffers m -> scratch_is n C b -> 0 <= e < n -> header_of lit (C e) nm type sz ->
  exists b' q, (forall B (k : parse_result -> M (util dev sdev) B), (sec ← next_extract; read_scratch sec header ;; r ← on_mem (ustar_parse_header lit header); k r)
      (mk_util s m (Some b) e ap co) = k (Header q type sz) (mk_util (dev := dev) s (stored m header (C e)) (Some b') (e + 1) ap co) :> outcome (B * _)) /\
    scratch_is n C b' /\ buffers (stored m header (C e)) /\ cstr (stored m header (C e)) q nm /\ 0 < q < 2 ^ 32 /\ zlen nm < 2 ^ 32.
Proof.
  intros Hm Hb He Hh. destruct (read_scratch_run n C s m b (e + 1) ap co e header Hb He (bf_header _ Hm)) as (b1 & Hrd & Hb1).
  assert (buffers (stored m header (C e))) as Hm1 by (apply buffers_stored; [done|by left|by eapply scratch_len]).
  destruct (Hh (stored m header (C e)) header (bf_lits _ Hm1) (proj1 Hheader) (stored_bytes _ _ _ (Hbytes e He))) as (q & Hp & Hc & Hq & Hpos).
  exists b1, q. split; [|split; [done|split; [done|split; [done|]]]].
  - intros B k. unfold next_extract. erewrite bind_done by done. cbn [extract_sector]. rewrite u32_small by lia.
    erewrite bind_done by exact Hrd. by erewrite bind_done by (apply in_mem_run; exact Hp).
  - change BLOCK_SECTOR_SIZE with 512 in Hpos. pose proof (zlen_nonneg nm). destruct Hpos as [->|]; [|lia].
    destruct (rodata_at lit _ "." (bf_lits _ Hm1)) as [_ Hd]; [cbn; tauto|]. rewrite (cstr_inj _ _ _ _ Hc Hd). split; [lia|done].
Qed.

(** Reading the end of the archive. *)
Lemma end_run s m b e ap co : buffers m -> scratch_is n C b -> 0 <= e < n -> C e = zero_sector ->
  exists b', (forall B (k : parse_result -> M (util dev sdev) B), (sec ← next_extract; read_scratch sec header ;; r ← on_mem (ustar_parse_header lit header); k r)
      (mk_util s m (Some b) e ap co) = k (Header NULL USTAR_EOF 0) (mk_util (dev := dev) s (stored m header (C e)) (Some b') (e + 1) ap co) :> outcome (B * _)) /\
    scratch_is n C b' /\ buffers (stored m header (C e)).
Proof.
  intros Hm Hb He Hz. destruct (read_scratch_run n C s m b (e + 1) ap co e header Hb He (bf_header _ Hm)) as (b1 & Hrd & Hb1).
  exists b1. split; [|split; [done|apply buffers_stored; [done|by left|by eapply scratch_len]]].
  intros B k. unfold next_extract. erewrite bind_done by done. cbn [extract_sector]. rewrite u32_small by lia.
  erewrite bind_done by exact Hrd. erewrite bind_done; [done|]. apply in_mem_run, parse_zeros. rewrite Hz. apply stored_bytes.
  rewrite <- Hz. by apply Hbytes.
Qed.

(** *** The turns of the loop *)

Lemma turn_bad junk s m b e ap co : buffers m -> scratch_is n C b -> 0 <= e < n ->
  (forall m h, rodata lit m -> 0 < h -> bytes_at m h (C e) -> exists message, ustar_parse_header lit h m = Done (Error message, m)) ->
  extract_turn lit junk header data (mk_util (dev := dev) s m (Some b) e ap co) = Panic.
Proof.
  intros Hm Hb He Hbad. destruct (read_scratch_run n C s m b (e + 1) ap co e header Hb He (bf_header _ Hm)) as (b1 & Hrd & Hb1).
  assert (buffers (stored m header (C e))) as Hm1 by (apply buffers_stored; [done|by left|by eapply scratch_len]).
  destruct (Hbad _ header (bf_lits _ Hm1) (proj1 Hheader) (stored_bytes _ _ _ (Hbytes e He))) as [msg Hp].
  unfold extract_turn, next_extract. erewrite bind_done by done. cbn [extract_sector]. rewrite u32_small by lia.
  erewrite bind_done by exact Hrd. by erewrite bind_done by (apply in_mem_run; exact Hp).
Qed.

Lemma turn_end junk s m b e ap co : buffers m -> scratch_is n C b -> 0 <= e < n -> C e = zero_sector ->
  exists b', extract_turn lit junk header data (mk_util (dev := dev) s m (Some b) e ap co) =
      Done (true, mk_util s (stored m header (C e)) (Some b') (e + 1) ap co) /\
    scratch_is n C b' /\ buffers (stored m header (C e)).
Proof.
  intros Hm Hb He Hz. destruct (end_run s m b e ap co Hm Hb He Hz) as (b1 & Hrun & Hrest).
  exists b1. split; [|done]. unfold extract_turn. by rewrite Hrun.
Qed.

Lemma turn_directory junk s m b e ap co nm : buffers m -> scratch_is n C b -> 0 <= e < n -> header_of lit (C e) nm USTAR_DIRECTORY 0 ->
  exists m' b', extract_turn lit junk header data (mk_util (dev := dev) s m (Some b) e ap co) =
      Done (false, mk_util s m' (Some b') (e + 1) ap (co ++ entry_message (Directory nm))) /\
    buffers m' /\ scratch_is n C b'.
Proof.
  intros Hm Hb He Hh. destruct (header_run s m b e ap co nm _ _ Hm Hb He Hh) as (b1 & q & Hrun & Hb1 & Hm1 & Hc & Hq & Hnl).
  exists (stored m header (C e)), b1. split; [|done]. unfold extract_turn. rewrite Hrun.
  change (USTAR_DIRECTORY =? USTAR_EOF) with false. change (USTAR_DIRECTORY =? USTAR_DIRECTORY) with true. cbn iota.
  change (codes "ignoring directory %s" ++ [10]) with (codes "ignoring directory " ++ codes "%s" ++ [10]).
  by erewrite bind_done by (apply say_run, (printf_string _ q nm); [done|lia|lia|by_decide|by_decide]).
Qed.

Lemma turn_file junk s m b e ap co a nm bytes : zlen junk = 20 -> Z.of_nat (base.size (a_open a)) < MAX_OPEN ->
  rep cap a s -> buffers m -> scratch_is n C b -> 0 <= e -> e + 1 + sector_cnt bytes <= n ->
  header_of lit (C e) nm USTAR_REGULAR (zlen bytes) -> zlen bytes < 2 ^ 31 - 512 -> holds_bytes C (e + 1) bytes ->
  (extract_turn lit junk header data (mk_util s m (Some b) e ap co) = Panic /\ refused cap (free_map s) a (File nm bytes) /\
   exists s1, filesys_create junk nm (zlen bytes) s = Done (false, s1)) \/
  exists s1 s' m' b' id, extract_turn lit junk header data (mk_util s m (Some b) e ap co) =
      Done (false, mk_util s' m' (Some b') (e + 1 + sector_cnt bytes) ap (co ++ entry_message (File nm bytes))) /\
    filesys_create junk nm (zlen bytes) s = Done (true, s1) /\
    valid_name nm /\ a_names a !! nm = None /\ a_data a !! id = None /\ rep cap (with_file nm id bytes a) s' /\
    buffers m' /\ scratch_is n C b'.
Proof.
  intros Hj Ho Hr Hm Hb He Hen Hh Hsz Hd. pose proof (sector_cnt_nonneg bytes).
  destruct (header_run s m b e ap co nm _ _ Hm Hb ltac:(lia) Hh) as (b1 & q & Hrun & Hb1 & Hm1 & Hc & Hq & Hnl).
  unfold extract_turn. rewrite Hrun.
  change (USTAR_REGULAR =? USTAR_EOF) with false. change (USTAR_REGULAR =? USTAR_DIRECTORY) with false.
  change (USTAR_REGULAR =? USTAR_REGULAR) with true. cbn iota.
  destruct (extract_file_run junk s _ b1 (e + 1) ap co a q nm bytes Hj Ho Hr Hm1 Hb1 Hc Hq Hnl Hsz Hd ltac:(lia) ltac:(lia))
    as [(Hp & Hrf)|(s1 & s2 & m2 & b2 & id & Hx & Hrest)].
  - left. split; [unfold bnd at 1, mbind, M_bind; by rewrite Hp|done].
  - right. exists s1, s2, m2, b2, id. split; [by erewrite bind_done by exact Hx|done].
Qed.

(** *** Archives that are not taken *)

(** The run from [u] comes to an entry that filesys_create refuses. *)
Fixpoint stops (junk : list Z) (es : list entry) u : Prop :=
  match es with
  | [] => False
  | File nm bytes :: es =>
      (exists s1, filesys_create junk nm (zlen bytes) (u_fs u) = Done (false, s1)) \/
      exists u1, extract_turn lit junk header data u = Done (false, u1) /\ stops junk es u1
  | Directory _ :: es => exists u1, extract_turn lit junk header data u = Done (false, u1) /\ stops junk es u1
  end.

(** The same with the reason: the files before it are there, and the entry has a
    name or a size that the file system in this state does not take. *)
Inductive refuses (junk : list Z) : list entry -> afs -> util dev sdev -> Prop :=
| Refuses_here nm bytes es a u : rep cap a (u_fs u) -> refused cap (free_map (u_fs u)) a (File nm bytes) ->
    refuses junk (File nm bytes :: es) a u
| Refuses_file nm bytes id es a u u1 : extract_turn lit junk header data u = Done (false, u1) ->
    valid_name nm -> a_names a !! nm = None -> a_data a !! id = None ->
    refuses junk es (with_file nm id bytes a) u1 -> refuses junk (File nm bytes :: es) a u
| Refuses_directory nm es a u u1 : extract_turn lit junk header data u = Done (false, u1) ->
    refuses junk es a u1 -> refuses junk (Directory nm :: es) a u.

Lemma extract_loop_run junk : zlen junk = 20 -> forall fuel es a s m b e ap co, Z.of_nat (base.size (a_open a)) < MAX_OPEN ->
  rep cap a s -> buffers m -> scratch_is n C b -> archive lit C n e es -> 0 <= e -> (Z.to_nat (n - e) < fuel)%nat ->
  let u := mk_util s m (Some b) e ap co in
  (extract_loop lit fuel junk header data u = Panic /\ stops junk es u /\ refuses junk es a u) \/
  ~ stops junk es u /\ exists s' m' b' a', extract_loop lit fuel junk header data u =
      Done (tt, mk_util s' m' (Some b') (archive_end e es + 1) ap (co ++ concat (map entry_message es))) /\
    unpacked es a a' /\ rep cap a' s' /\ buffers m' /\ scratch_is n C b'.
Proof.
  intros Hj. induction fuel as [|fuel IH]; intros es a s m b e ap co Ho Hr Hm Hb Ha He Hf u; [lia|]. subst u.
  pose proof (archive_below es e Ha) as Hend. cbn [extract_loop]. destruct es as [|[nm bytes|nm] es]; cbn [archive archive_end stops] in *.
  - destruct Ha as [Hen Hz]. destruct (turn_end junk s m b e ap co Hm Hb ltac:(lia) Hz) as (b1 & Hrun & Hb1 & Hm1). right. split; [tauto|].
    exists s, (stored m header (C e)), b1, a. erewrite bind_done by exact Hrun. cbn [map concat]. rewrite app_nil_r. split; [done|]. split; [constructor|done].
  - destruct Ha as (Hh & Hsz & Hd & Ha). pose proof (archive_below es _ Ha). pose proof (sector_cnt_nonneg bytes).
    destruct (turn_file junk s m b e ap co a nm bytes Hj Ho Hr Hm Hb He ltac:(lia) Hh Hsz Hd)
      as [(Hp & Hrf & Hcr)|(s1 & s2 & m2 & b2 & id & Hx & Hcr & Hv & Hfr & Hid & Hr2 & Hm2 & Hb2)].
    + left. split; [unfold bnd at 1, mbind, M_bind; by rewrite Hp|]. split; [by left|by apply Refuses_here].
    + erewrite bind_done by exact Hx. destruct (IH es (with_file nm id bytes a) s2 m2 b2 (e + 1 + sector_cnt bytes) ap (co ++ entry_message (File nm bytes)))
        as [(Hp & Hst & Hrf)|(Hst & s3 & m3 & b3 & a3 & Hx3 & Hu & Hrest)]; try done; try lia.
      * left. split; [done|]. split; [right; by eexists|by eapply Refuses_file].
      * right. split; [intros [[s4 E]|(u1 & E & Hu1)]; [cbn in E; congruence|rewrite Hx in E; injection E as <-; done]|].
        exists s3, m3, b3, a3. cbn [map concat]. rewrite app_assoc. split; [done|]. split; [by eapply Unpacked_file|done].
  - destruct Ha as (Hh & Ha). pose proof (archive_below es _ Ha).
    destruct (turn_directory junk s m b e ap co nm Hm Hb ltac:(lia) Hh) as (m1 & b1 & Hx & Hm1 & Hb1). erewrite bind_done by exact Hx.
    destruct (IH es a s m1 b1 (e + 1) ap (co ++ entry_message (Directory nm)))
      as [(Hp & Hst & Hrf)|(Hst & s3 & m3 & b3 & a3 & Hx3 & Hu & Hrest)]; try done; try lia.
    + left. split; [done|]. split; [by eexists|by eapply Refuses_directory].
    + right. split; [intros (u1 & E & Hu1); rewrite Hx in E; injection E as <-; done|].
      exists s3, m3, b3, a3. cbn [map concat]. rewrite app_assoc. split; [done|]. split; [by eapply Unpacked_directory|done].
Qed.

Lemma named_has_bytes a s nm id : rep cap a s -> a_names a !! nm = Some id -> is_Some (a_data a !! id).
Proof.
  intros [[L Hm] _ _] Hnm. destruct (md_named _ _ _ _ _ _ Hm nm id Hnm) as [Hid [d Hd]].
  rewrite (md_data _ _ _ _ _ _ Hm), Hd. rewrite (proj2 (Z.leb_gt _ _)) by lia. by eexists.
Qed.

(** The two blocks that end an archive are written at its start. *)
Lemma erase_run s m b e ap co : buffers m -> scratch_is n C b -> 2 <= n ->
  exists m' b', (_ ← on_mem (memset header 0 BLOCK_SECTOR_SIZE); write_scratch 0 header ;; write_scratch 1 header)
      (mk_util s m (Some b) e ap co) = Done (tt, mk_util (dev := dev) s m' (Some b') e ap co) /\ buffers m' /\
    scratch_is n (set_sector 1 zero_sector (set_sector 0 zero_sector C)) b'.
Proof.
  intros Hm Hb H2. set (m1 := stored m header zero_sector).
  assert (bytes_at m1 header zero_sector) as Hz by (apply stored_bytes, Forall_replicate; unfold is_byte; lia).
  destruct (write_scratch_run n C s m1 b e ap co 0 header zero_sector Hb ltac:(lia) Hz eq_refl) as (b1 & Hw1 & Hb1).
  destruct (write_scratch_run n _ s m1 b1 e ap co 1 header zero_sector Hb1 ltac:(lia) Hz eq_refl) as (b2 & Hw2 & Hb2).
  exists m1, b2. split; [|split; [apply buffers_stored; [done|by left|done]|done]].
  erewrite bind_done by (apply in_mem_run, (memset_correct m header 0 512); [lia|lia|apply Hm]).
  erewrite bind_done by exact Hw1. exact Hw2.
Qed.

(** What extraction prints before and after the entries. *)
Definition extract_start : list Z := codes "Extracting ustar archive from scratch device into file system..." ++ [10].
Definition extract_done : list Z := codes "Erasing ustar archive..." ++ [10].

(** The state in which the loop is entered. *)
Definition started u : util dev sdev :=
  mk_util (u_fs u) (u_mem u) (u_scratch u) (extract_sector u) (append_sector u) (console u ++ extract_start).

Lemma extract_run junk s m b e ap co a es : zlen junk = 20 -> Z.of_nat (base.size (a_open a)) < MAX_OPEN ->
  rep cap a s -> buffers m -> scratch_is n C b -> archive lit C n e es -> 0 <= e -> 2 <= n ->
  let u := mk_util s m (Some b) e ap (co ++ extract_start) in
  (fsutil_extract lit junk header data (mk_util s m (Some b) e ap co) = Panic /\ stops junk es u /\ refuses junk es a u) \/
  ~ stops junk es u /\ exists s' m' b' a', fsutil_extract lit junk header data (mk_util s m (Some b) e ap co) =
      Done (tt, mk_util s' m' (Some b') (archive_end e es + 1) ap (co ++ extract_start ++ concat (map entry_message es) ++ extract_done)) /\
    rep cap a' s' /\ buffers m' /\ scratch_is n (set_sector 1 zero_sector (set_sector 0 zero_sector C)) b' /\ a_open a' = a_open a /\
    forall nm, file_bytes a' nm = match entry_bytes es nm with Some bs => Some bs | None => file_bytes a nm end.
Proof.
  intros Hj Ho Hr Hm Hb Ha He H2 u. subst u. unfold fsutil_extract. rewrite (proj2 (Z.eqb_neq header NULL)), (proj2 (Z.eqb_neq data NULL)) by (unfold NULL; lia).
  cbn [orb]. unfold get_scratch. erewrite bind_done by by erewrite bind_done by done.
  change (codes "Extracting ustar archive from scratch device into file system..." ++ [10]) with extract_start.
  change (codes "Erasing ustar archive..." ++ [10]) with extract_done.
  erewrite bind_done by (apply say_plain; by_decide). erewrite bind_done by by apply on_scratch_run.
  unfold block_size. rewrite (sc_size _ _ _ Hb).
  destruct (extract_loop_run junk Hj (S (Z.to_nat n)) es a s m b e ap (co ++ extract_start) Ho Hr Hm Hb Ha He ltac:(lia))
    as [[Hp Hst]|(Hst & s1 & m1 & b1 & a1 & Hx & Hu & Hr1 & Hm1 & Hb1)].
  { left. split; [|done]. unfold bnd at 1, mbind, M_bind. by rewrite Hp. }
  right. split; [done|]. erewrite bind_done by exact Hx. erewrite bind_done by (apply say_plain; by_decide).
  destruct (erase_run s1 m1 b1 (archive_end e es + 1) ap (((co ++ extract_start) ++ concat (map entry_message es)) ++ extract_done) Hm1 Hb1 H2)
    as (m2 & b2 & Hz & Hm2 & Hb2).
  exists s1, m2, b2, a1. rewrite <- !app_assoc in Hz. split; [rewrite <- !app_assoc; exact Hz|]. split; [done|]. split; [done|]. split; [done|].
  destruct (unpacked_files _ _ _ Hu) as [Hop Hfb]. split; [done|]. intros nm. apply Hfb. intros id. by eapply named_has_bytes.
Qed.
End Extract.
