(* ===== verification/FsutilAppend.v ===== *)
(** * Appending a file to the archive on the scratch device

    What fsutil_append writes, and what extraction makes of it on another machine. *)

From Stdlib Require Import Ascii.
From Stdlib Require Import(notations) String.
From S2P Require Import Prelude Bitmap Block FileSys DirSpec FsAbstract FsMid FsRefine FsNames FsCreate FsCorrect Mem CString Stdio CStdlib Ustar Fsutil FsutilSpec.

(** ** Files that are read *)

Section ReadRuns.
Context {dev : Type} `{BlockDriver dev}.
Implicit Types (s : fs dev) (a : afs).

Lemma length_named cap a s f h l : rep cap a s -> a_open a !! f = Some h -> a_data a !! h_id h = Some l ->
  exists s', file_length f s = Done (zlen l, s') /\ rep cap a s'.
Proof.
  intros Hr Hf Hd. destruct (sim_length cap [] a s f Hr) as (r & s' & a' & Hrun & Hst & Hr'); [by eexists|].
  unfold run_op in Hrun. apply bind_done_inv in Hrun as (n & s1 & Hrun & [= <- <-]). exists s1. inversion Hst; simplify_eq. done.
Qed.

Lemma read_handle cap a s f id p dw l n : rep cap a s -> a_open a !! f = Some (mk_handle id p dw) -> a_data a !! id = Some l ->
  0 <= n -> p + n <= zlen l -> zlen l < 2 ^ 31 ->
  exists s', file_read f n s = Done (take (Z.to_nat n) (drop (Z.to_nat p) l), s') /\
    rep cap (set_open f (mk_handle id (p + n) dw) a) s'.
Proof.
  intros Hr Hf Hd Hn Hle Hl. pose proof (handle_pos _ _ _ _ _ _ _ Hr Hf) as Hp.
  destruct (sim_read cap [] a s f n Hr) as (r & s' & a' & Hrun & Hst & Hr'); [exists (mk_handle id p dw); cbn; repeat split; done || lia|].
  unfold run_op in Hrun. apply bind_done_inv in Hrun as (bs & s1 & Hrun & [= <- <-]). exists s1. inversion Hst; simplify_eq.
  split; [done|]. unfold FsAbstract.bytes_at in Hr'. unfold zlen in Hr' at 1. rewrite length_take, length_drop in Hr'.
  replace (Z.of_nat (Z.to_nat n `min` (length l - Z.to_nat p))) with n in Hr' by (unfold zlen in *; lia). done.
Qed.
End ReadRuns.

(** ** Headers *)

Section Headers.
Context (lit : String.string -> Z).

(** A header that was composed is read as one wherever its bytes are. *)
Lemma composed_header m0 h m bs nm sz : composed lit m0 h m nm USTAR_REGULAR sz -> bytes_at m h bs -> zlen bs = 512 ->
  zlen nm <= 99 -> safe_name nm -> 0 <= sz < 2 ^ 31 -> header_of lit bs nm USTAR_REGULAR sz.
Proof.
  intros Hc Hbs Hlen Hl Hsafe Hsz m1 h1 Hro Hh Hb1. assert (composed lit m1 h1 m1 nm USTAR_REGULAR sz) as Hc1.
  { eapply composed_shift; [exact Hc|lia|exact Hro|]. intros i Hi.
    destruct (lookup_lt_is_Some_2 bs (Z.to_nat i)) as [c Hx]; [unfold zlen in Hlen; lia|].
    pose proof (bytes_at_lookup _ _ _ _ _ Hbs Hx) as E1. pose proof (bytes_at_lookup _ _ _ _ _ Hb1 Hx) as E2.
    rewrite Z2Nat.id in E1, E2 by lia. congruence. }
  destruct (parse_composed lit m1 h1 m1 nm USTAR_REGULAR sz Hh Hc1 Hsafe (or_introl eq_refl) Hsz) as (q & Hp & Hq & Hq0 & Hpos).
  exists q. split; [exact Hp|]. split; [done|]. split; [done|]. change BLOCK_SECTOR_SIZE with 512. destruct Hpos as [?|[? ?]]; [by left|right; lia].
Qed.

(** A sector of zeros but for its last byte is no header. *)
Lemma parse_marker m h t : rodata lit m -> 0 < h -> bytes_at m h (replicate 511 0 ++ [t]) -> is_byte t -> t <> 0 ->
  exists message, ustar_parse_header lit h m = Done (Error message, m).
Proof.
  intros Hro Hh Hb Ht Hne. apply bytes_at_app in Hb as [Hz [Hl _]]. change (zlen (replicate 511 0)) with 511 in Hl.
  assert (forall x, h <= x < h + 511 -> m !! x = Some 0) as H0.
  { intros x Hx. rewrite <- (bytes_at_lookup _ _ h (Z.to_nat (x - h)) 0 Hz); [f_equal; lia|]. apply lookup_replicate_2. lia. }
  assert (block_at m h 512) as Hblk.
  { intros x Hx. destruct (decide (x = h + 511)) as [->|]; [by exists t|]. exists 0. split; [apply H0; lia|unfold is_byte; lia]. }
  destruct (parse_header_run lit m h Hro Hh Hblk) as ([q type sz|msg] & Hrun & Hg); [exfalso|by exists msg].
  destruct (decide (type = USTAR_EOF)) as [->|Hn].
  - destruct Hg as [(_ & _ & _ & Hall)|(nm & _ & _ & _ & _ & [?|[? _]])]; [|done|done]. specialize (Hall (h + 511) ltac:(lia)). congruence.
  - destruct (parse_header_inv lit m h q type sz Hro Hh Hblk Hrun Hn) as [Hu _]. rewrite H0 in Hu by lia. done.
Qed.
End Headers.

Lemma holds_bytes_intro C pos (bs rest : list Z) : 0 < zlen bs -> C pos = take (Z.to_nat (chunk (zlen bs))) bs ++ rest ->
  holds_bytes C (pos + 1) (drop (Z.to_nat (chunk (zlen bs))) bs) -> holds_bytes C pos bs.
Proof.
  intros Hp HC Hh k Hk. rewrite (sector_cnt_cons _ Hp) in Hk. destruct (decide (k = 0)) as [->|Hk0].
  - exists rest. rewrite Z.add_0_r, HC, chunk_take. done.
  - destruct (Hh (k - 1) ltac:(lia)) as [r Hr]. exists r. replace (pos + 1 + (k - 1)) with (pos + k) in Hr by lia. rewrite Hr. f_equal.
    rewrite drop_drop. do 2 f_equal. assert (chunk (zlen bs) = 512); [|lia]. unfold chunk in *. change BLOCK_SECTOR_SIZE with 512 in *.
    destruct (Z.ltb_spec 512 (zlen bs)); [done|]. rewrite drop_ge in Hk by (unfold zlen; lia). change (sector_cnt []) with 0 in Hk. lia.
Qed.

(** ** Appending *)

Section Append.
Context {dev sdev : Type} `{BlockDriver dev} `{BlockDriver sdev} (lit : String.string -> Z).
Implicit Types (s : fs dev) (m : mem) (b : block sdev) (a : afs) (C : Z -> list Z).

(** The buffer and the byte that follows it, which the last write reads. *)
Context (cap n buffer : Z) (Hbuffer : 0 < buffer /\ lits_apart lit buffer 512) (Hn : n < 2 ^ 32).

(** [m] has changed to [m'] in the buffer. *)
Record filled m m' : Prop := {
  fl_out : outside m m' buffer 512;
  fl_lits : rodata lit m';
  fl_map : mapped m' buffer 512
}.

Lemma filled_stored m m' p bs : filled m m' -> buffer <= p -> p + zlen bs <= buffer + 512 -> filled m (stored m' p bs).
Proof.
  intros [Ho Hl Hm] Hp Hle. assert (outside m' (stored m' p bs) buffer 512) as Ho'.
  { intros x Hx. apply stored_outside. lia. }
  split; [intros x Hx; by rewrite Ho', Ho by done| |by apply stored_mapped]. eapply rodata_frame; [exact Hl|apply Hbuffer|exact Ho'].
Qed.

(** The device [C'] differs from [C] at most between two sectors. *)
Definition same_but (C C' : Z -> list Z) (from to : Z) : Prop := forall x, ~ (from <= x < to) -> C' x = C x.

(** The sector of one turn: the bytes read, padded with zeros. *)
Definition padded (bs : list Z) : list Z := bs ++ replicate (Z.to_nat (512 - zlen bs)) 0.

Lemma pad_run m m' bs : filled m m' -> 0 < zlen bs <= 512 -> Forall is_byte bs ->
  store_bytes buffer bs m' = Done (tt, stored m' buffer bs) /\
  exists m2, memset (buffer + zlen bs) 0 (512 - zlen bs) (stored m' buffer bs) = Done (buffer + zlen bs, m2) /\ filled m m2 /\
    bytes_at m2 buffer (padded bs).
Proof.
  intros Hf Hl Hby. pose proof (fl_map _ _ Hf) as Hm. split; [apply store_bytes_run; intros x Hx; apply Hm; lia|].
  eexists. split; [apply memset_correct; [lia|lia|]|split].
  - apply stored_mapped. intros x Hx. apply Hm. lia.
  - apply filled_stored; [apply filled_stored; [done|lia|lia]|lia|]. unfold zlen. rewrite length_replicate. fold (zlen bs). lia.
  - apply bytes_at_app. split; [|apply stored_bytes, Forall_replicate; unfold is_byte; lia].
    eapply bytes_at_frame; [|by apply stored_bytes]. intros x Hx. apply stored_outside. lia.
Qed.

Lemma zlen_padded bs : zlen bs <= 512 -> zlen (padded bs) = 512.
Proof. intros Hl. unfold padded. rewrite zlen_app. unfold zlen at 2. rewrite length_replicate. lia. Qed.

Lemma get_loop_run f id l m0 : zlen l < 2 ^ 31 -> Forall is_byte l -> forall fuel s m b e ap co a p C,
  rep cap a s -> a_open a !! f = Some (mk_handle id p false) -> a_data a !! id = Some l -> p <= zlen l ->
  filled m0 m -> scratch_is n C b -> 0 <= ap -> ap + sector_cnt (drop (Z.to_nat p) l) <= n ->
  (Z.to_nat (sector_cnt (drop (Z.to_nat p) l)) < fuel)%nat ->
  exists s' m' b' C', get_loop fuel f buffer (zlen l - p) (mk_util s m (Some b) e ap co) =
      Done (tt, mk_util s' m' (Some b') e (ap + sector_cnt (drop (Z.to_nat p) l)) co) /\
    rep cap (set_open f (mk_handle id (zlen l) false) a) s' /\ filled m0 m' /\ scratch_is n C' b' /\
    holds_bytes C' ap (drop (Z.to_nat p) l) /\ same_but C C' ap (ap + sector_cnt (drop (Z.to_nat p) l)) /\
    forall x, Forall is_byte (C x) -> Forall is_byte (C' x).
Proof.
  intros Hl31 Hby. induction fuel as [|fuel IH]; intros s m b e ap co a p C Hr Hf Hd Hp Hm Hb Hap Hen Hfu; [lia|].
  pose proof (handle_pos _ _ _ _ _ _ _ Hr Hf) as Hp0. set (bs := drop (Z.to_nat p) l) in *.
  assert (zlen bs = zlen l - p) as Hlb by (unfold bs, zlen in *; rewrite length_drop; lia).
  cbn [get_loop]. rewrite <- Hlb. destruct (Z.ltb_spec 0 (zlen bs)) as [Hpos|Hz].
  2:{ exists s, m, b, C. assert (zlen l = p) as -> by lia. assert (bs = []) as -> by (destruct bs; [done|rewrite zlen_cons in Hz; pose proof (zlen_nonneg bs); lia]).
      change (sector_cnt []) with 0. rewrite Z.add_0_r. split; [done|]. split; [unfold set_open; rewrite insert_id by done; by destruct a|].
      split; [done|]. split; [done|]. split; [intros k Hk; change (sector_cnt []) with 0 in Hk; lia|by split]. }
  pose proof (sector_cnt_cons _ Hpos) as Hcnt. rewrite Hcnt in *. set (c := chunk (zlen bs)) in *.
  assert (0 < c <= 512 /\ c <= zlen bs) as Hc.
  { unfold c, chunk. change BLOCK_SECTOR_SIZE with 512. destruct (Z.ltb_spec 512 (zlen bs)); lia. }
  assert (drop (Z.to_nat c) bs = drop (Z.to_nat (p + c)) l) as Edr by (unfold bs; rewrite drop_drop; f_equal; lia).
  rewrite Edr in *. pose proof (sector_cnt_nonneg (drop (Z.to_nat (p + c)) l)).
  erewrite bind_done by done. cbn [append_sector]. erewrite bind_done by by apply on_scratch_run.
  unfold block_size. rewrite (sc_size _ _ _ Hb), (proj2 (Z.leb_gt _ _)) by lia.
  destruct (read_handle cap a s f id p false l c Hr Hf Hd) as (s1 & Hrd & Hr1); [lia|lia|done|]. fold bs in Hrd.
  erewrite bind_done by (apply on_fs_run; exact Hrd). set (bs1 := take (Z.to_nat c) bs) in *.
  assert (zlen bs1 = c) as Hl1 by (unfold bs1, zlen in *; rewrite length_take; lia).
  destruct (pad_run m0 m bs1 Hm) as (Hst & m2 & Hms & Hm2 & Hb2); [lia|by apply Forall_take, Forall_drop|].
  erewrite bind_done by (apply in_mem_run; exact Hst). rewrite <- Hl1, Z.eqb_refl. cbn [negb].
  erewrite bind_done by (apply in_mem_run; exact Hms). unfold next_append. erewrite bind_done by done. cbn [append_sector]. rewrite u32_small by lia.
  destruct (write_scratch_run n C s1 m2 b e (ap + 1) co ap buffer (padded bs1) Hb) as (b1 & Hw & Hb1); [lia|done|apply zlen_padded; lia|].
  erewrite bind_done by exact Hw. rewrite Hl1. replace (zlen bs - c) with (zlen l - (p + c)) by lia.
  edestruct (IH s1 m2 b1 e (ap + 1) co (set_open f (mk_handle id (p + c) false) a) (p + c)) as (s3 & m3 & b3 & C3 & Hx & Hr3 & Hm3 & Hb3 & Hh3 & Hs3 & Hby3);
    try done; try lia; [by cbn; rewrite lookup_insert_eq|].
  exists s3, m3, b3, C3. split; [rewrite Hx; do 3 f_equal; lia|]. split; [|split; [done|split; [done|split; [|split]]]].
  - unfold set_open in *. cbn [a_names a_data a_open] in Hr3. by rewrite insert_insert_eq in Hr3.
  - eapply (holds_bytes_intro C3 ap bs); [done| |fold c; by rewrite Edr]. rewrite (Hs3 ap) by lia. unfold set_sector. rewrite Z.eqb_refl. reflexivity.
  - intros x Hx'. rewrite Hs3 by lia. unfold set_sector. by rewrite (proj2 (Z.eqb_neq _ _)) by lia.
  - intros x Hx'. apply Hby3. unfold set_sector. destruct (x =? ap); [|done]. apply Forall_app. split; [by apply Forall_take, Forall_drop|].
    apply Forall_replicate. unfold is_byte. lia.
Qed.

(** The end-of-archive marker is written twice to the same sector, the second time
    from one byte into the buffer. *)
Lemma marker_run m0 m s b e ap co C t : filled m0 m -> scratch_is n C b -> 0 <= ap < n -> m !! (buffer + 512) = Some t ->
  exists m' b', (forall k : M (util dev sdev) unit, (_ ← on_mem (memset buffer 0 BLOCK_SECTOR_SIZE); sec ← gets append_sector;
      write_scratch sec buffer ;; write_scratch sec (buffer + 1) ;; k) (mk_util s m (Some b) e ap co) = k (mk_util s m' (Some b') e ap co)) /\
    filled m0 m' /\
    scratch_is n (set_sector ap (replicate 511 0 ++ [t]) (set_sector ap zero_sector C)) b'.
Proof.
  intros Hf Hb Hap Ht. set (m1 := stored m buffer zero_sector).
  assert (bytes_at m1 buffer zero_sector) as Hz by (apply stored_bytes, Forall_replicate; unfold is_byte; lia).
  assert (bytes_at m1 (buffer + 1) (replicate 511 0 ++ [t])) as Hz1.
  { apply bytes_at_app. split; [exact (proj2 Hz)|]. split; [|done]. rewrite <- Ht. change (zlen (replicate 511 0)) with 511.
    replace (buffer + 1 + 511) with (buffer + 512) by lia. apply stored_outside. change (zlen zero_sector) with 512. lia. }
  destruct (write_scratch_run n C s m1 b e ap co ap buffer zero_sector Hb Hap Hz eq_refl) as (b1 & Hw1 & Hb1).
  destruct (write_scratch_run n _ s m1 b1 e ap co ap (buffer + 1) (replicate 511 0 ++ [t]) Hb1 Hap Hz1 eq_refl) as (b2 & Hw2 & Hb2).
  exists m1, b2. split; [intros k|split; [apply filled_stored; [done|lia|change (zlen zero_sector) with 512; lia]|done]].
  erewrite bind_done by (apply in_mem_run, (memset_correct m buffer 0 512); [lia|lia|by apply Hf]).
  erewrite bind_done by done. cbn [append_sector]. erewrite bind_done by exact Hw1. by erewrite bind_done by exact Hw2.
Qed.

Definition append_message (nm : list Z) : list Z := codes "Appending '" ++ nm ++ codes "' to ustar archive on scratch device..." ++ [10].

(** What the device holds after a file [nm] with contents [l] has been appended at
    sector [ap] of [C], when [t] is the byte after the buffer. *)
Record appended (C C' : Z -> list Z) (ap : Z) (nm l : list Z) (t : Z) : Prop := {
  ad_header : header_of lit (C' ap) (clean_name nm) USTAR_REGULAR (zlen l);
  ad_bytes : holds_bytes C' (ap + 1) l;
  ad_marker : C' (ap + 1 + sector_cnt l) = replicate 511 0 ++ [t];
  ad_same : same_but C C' ap (ap + 1 + sector_cnt l + 1);
  ad_byte : forall x, 0 <= x < n -> Forall is_byte (C x) -> Forall is_byte (C' x)
}.

Lemma appended_intro C C3 ap nm l t hb : header_of lit hb (clean_name nm) USTAR_REGULAR (zlen l) -> Forall is_byte hb ->
  holds_bytes C3 (ap + 1) l -> same_but (set_sector ap hb C) C3 (ap + 1) (ap + 1 + sector_cnt l) ->
  (forall x, Forall is_byte (set_sector ap hb C x) -> Forall is_byte (C3 x)) -> is_byte t ->
  appended C (set_sector (ap + 1 + sector_cnt l) (replicate 511 0 ++ [t]) (set_sector (ap + 1 + sector_cnt l) zero_sector C3)) ap nm l t.
Proof.
  intros Hhd Hhby Hh3 Hs3 Hby3 Htb. set (C4 := set_sector _ _ _). pose proof (sector_cnt_nonneg l).
  assert (forall x, x <> ap + 1 + sector_cnt l -> C4 x = C3 x) as E4 by (intros x Hx; unfold C4, set_sector; by rewrite (proj2 (Z.eqb_neq _ _)) by lia).
  split.
  - rewrite E4, (Hs3 ap) by lia. unfold set_sector. by rewrite Z.eqb_refl.
  - intros k Hk. rewrite E4 by lia. by apply Hh3.
  - unfold C4, set_sector. by rewrite Z.eqb_refl.
  - intros x Hx. rewrite E4, (Hs3 x) by lia. unfold set_sector. by rewrite (proj2 (Z.eqb_neq _ _)) by lia.
  - intros x _ Hx. destruct (decide (x = ap + 1 + sector_cnt l)) as [->|Hne].
    + unfold C4, set_sector. rewrite Z.eqb_refl. apply Forall_app. split; [apply Forall_replicate; unfold is_byte; lia|by constructor].
    + rewrite E4 by done. apply Hby3. unfold set_sector. by destruct (x =? ap).
Qed.

Lemma append_run argv p nm id l t s m b e ap co a C : rep cap a s -> Z.of_nat (base.size (a_open a)) < MAX_OPEN ->
  a_names a !! nm = Some id -> a_data a !! id = Some l -> zlen l < 2 ^ 31 - 512 -> Forall is_byte l ->
  word_at m (argv + 4) p -> cstr m p nm -> 0 < p -> p + zlen nm < 2 ^ 32 -> buffer + 512 <= p \/ p + zlen nm < buffer ->
  rodata lit m -> mapped m buffer 512 -> m !! (buffer + 512) = Some t -> is_byte t -> zlen (clean_name nm) <= 99 ->
  scratch_is n C b -> 0 <= ap -> ap + 1 + sector_cnt l < n ->
  exists s' m' b' C', fsutil_append lit buffer argv (mk_util s m (Some b) e ap co) =
      Done (tt, mk_util s' m' (Some b') e (ap + 1 + sector_cnt l) (co ++ append_message nm)) /\
    rep cap a s' /\ outside m m' buffer 512 /\ scratch_is n C' b' /\ appended C C' ap nm l t.
Proof.
  intros Hr Ho Hnm Hl Hl31 Hby Harg Hc Hp Hp32 Hdis Hro Hmap Ht Htb Hcl Hb Hap Hen. pose proof (zlen_nonneg nm). pose proof (zlen_nonneg l).
  pose proof (sector_cnt_nonneg l). unfold fsutil_append, argv_1. erewrite bind_done by (apply in_mem_run, load32_word; exact Harg).
  change (codes "Appending '%s' to ustar archive on scratch device..." ++ [10])
    with (codes "Appending '" ++ codes "%s" ++ (codes "' to ustar archive on scratch device..." ++ [10])).
  erewrite bind_done by (apply say_run, (printf_string m p nm); [done|lia|lia|by_decide|by_decide]).
  rewrite (proj2 (Z.eqb_neq buffer NULL)) by (unfold NULL; lia).
  erewrite bind_done by (apply in_mem_run, load_string_run; [exact Hc|done]).
  destruct (open_named cap a s nm id Hr Hnm Ho) as (f & s1 & Hop & Hf0 & Hff & Hr1).
  erewrite bind_done by (apply on_fs_run; exact Hop). rewrite (proj2 (Z.eqb_neq f NULL)) by done.
  destruct (length_named cap _ s1 f (mk_handle id 0 false) l Hr1) as (s2 & Hlen & Hr2); [cbn; by rewrite lookup_insert_eq|done|].
  erewrite bind_done by (apply on_fs_run; exact Hlen). unfold get_scratch. erewrite bind_done by by erewrite bind_done by done.
  destruct (make_header_run lit m p nm USTAR_REGULAR (zlen l) buffer Hro (proj2 Hbuffer) Hc Hp Hdis (proj1 Hbuffer) Hmap (or_introl eq_refl)) as (m1 & Hmk & Hcomp); [lia|done|].
  erewrite bind_done by (apply in_mem_run; exact Hmk). cbn beta iota. unfold put_console. erewrite bind_done by done. cbn [negb u_fs u_mem u_scratch extract_sector append_sector console].
  pose proof (c_comp _ _ _ _ _ _ _ Hcomp) as [Hro1 Hblk Hout1]. rewrite app_nil_r.
  destruct (block_bytes m1 buffer 512 Hblk) as (hb & Hhl & Hhb & Hhby).
  unfold next_append. erewrite bind_done by by erewrite bind_done by done. cbn [append_sector]. rewrite u32_small by lia.
  assert (zlen hb = 512) as Hhl' by (unfold zlen; lia).
  destruct (write_scratch_run n C s2 m1 b e (ap + 1) (co ++ append_message nm) ap buffer hb Hb) as (b1 & Hw & Hb1); [lia|done|done|].
  erewrite bind_done by exact Hw.
  assert (filled m m1) as Hf1 by (split; [done|done|by apply block_mapped]).
  destruct (get_loop_run f id l m) with (fuel := sectors_fuel (zlen l)) (s := s2) (m := m1) (b := b1) (e := e) (ap := ap + 1) (co := co ++ append_message nm)
    (a := set_open f (mk_handle id 0 false) a) (p := 0) (C := set_sector ap hb C) as (s3 & m3 & b3 & C3 & Hg & Hr3 & Hf3 & Hb3 & Hh3 & Hs3 & Hby3); try done; try lia.
  - by cbn; rewrite lookup_insert_eq.
  - change (drop (Z.to_nat 0) l) with l. lia.
  - change (drop (Z.to_nat 0) l) with l. unfold sectors_fuel, bytes_to_sectors, sector_cnt. rewrite s32_small by lia. rewrite Z.quot_div_nonneg by lia.
    rewrite u32_small by dlia. replace (zlen l + 512 - 1) with (zlen l + 511) by lia. lia.
  - change (drop (Z.to_nat 0) l) with l in *. rewrite Z.sub_0_r in Hg. erewrite bind_done by exact Hg.
    destruct (marker_run m m3 s3 b3 e (ap + 1 + sector_cnt l) (co ++ append_message nm) C3 t Hf3 Hb3) as (m4 & b4 & Hmr & Hf4 & Hb4); [lia|rewrite (fl_out _ _ Hf3); [done|lia]|].
    rewrite Hmr. destruct (close_named cap _ s3 f (mk_handle id (zlen l) false) nm Hr3) as (s4 & Hcls & Hr4); [cbn; by rewrite lookup_insert_eq|done|].
    exists s4, m4, b4, (set_sector (ap + 1 + sector_cnt l) (replicate 511 0 ++ [t]) (set_sector (ap + 1 + sector_cnt l) zero_sector C3)).
    split; [by apply on_fs_run|]. split; [|split; [apply Hf4|split; [exact Hb4|]]].
    + cbn [a_names a_data a_open set_open] in Hr4. rewrite insert_insert_eq, delete_insert_eq, delete_id in Hr4 by done. by destruct a.
    + eapply appended_intro; try done. eapply composed_header; [exact Hcomp|done|done|done|apply clean_name_safe|lia].
Qed.
End Append.

(** ** From one machine to another *)

Section Machines.
Context {dev sdev : Type} `{BlockDriver dev} `{BlockDriver sdev} (lit : String.string -> Z).
Implicit Types (u : util dev sdev) (a : afs) (C : Z -> list Z).

(** A machine that can append the file [nm], whose contents are [l], to what its
    scratch device holds; [t] is the byte after the buffer. *)
Record sends (cap n buffer argv : Z) C a (nm l : list Z) (t : Z) u : Prop := {
  sn_rep : rep cap a (u_fs u);
  sn_few : Z.of_nat (base.size (a_open a)) < MAX_OPEN;
  sn_file : file_bytes a nm = Some l;
  sn_length : zlen l < 2 ^ 31 - 512;
  sn_bytes : Forall is_byte l;
  sn_name : exists p, word_at (u_mem u) (argv + 4) p /\ cstr (u_mem u) p nm /\ 0 < p /\ p + zlen nm < 2 ^ 32 /\
    (buffer + 512 <= p \/ p + zlen nm < buffer);
  sn_short : zlen (clean_name nm) <= 99;
  sn_lits : rodata lit (u_mem u);
  sn_apart : lits_apart lit buffer 512;
  sn_buffer : 0 < buffer /\ mapped (u_mem u) buffer 512;
  sn_after : u_mem u !! (buffer + 512) = Some t /\ is_byte t;
  sn_scratch : exists b, u_scratch u = Some b /\ scratch_is n C b;
  sn_room : 0 <= append_sector u /\ append_sector u + 1 + sector_cnt l < n < 2 ^ 32;
  sn_sectors : forall x, 0 <= x < n -> Forall is_byte (C x)
}.

(** A machine that can extract the archive its scratch device holds. *)
Record receives (cap n header data : Z) C a u : Prop := {
  rc_rep : rep cap a (u_fs u);
  rc_few : Z.of_nat (base.size (a_open a)) < MAX_OPEN;
  rc_header : 0 < header /\ header + 512 < 2 ^ 32 /\ lits_apart lit header 512;
  rc_data : 0 < data /\ lits_apart lit data 512;
  rc_lits : lit "." < 2 ^ 32;
  rc_buffers : buffers lit header data (u_mem u);
  rc_scratch : exists b, u_scratch u = Some b /\ scratch_is n C b;
  rc_sectors : forall x, 0 <= x < n -> Forall is_byte (C x);
  rc_size : 2 <= n < 2 ^ 32;
  rc_start : 0 <= extract_sector u
}.

Lemma send_run cap n buffer argv C a nm l t u : sends cap n buffer argv C a nm l t u ->
  exists u' C', fsutil_append lit buffer argv u = Done (tt, u') /\ rep cap a (u_fs u') /\
    (exists b, u_scratch u' = Some b /\ scratch_is n C' b) /\ appended lit n C C' (append_sector u) nm l t /\
    append_sector u' = append_sector u + 1 + sector_cnt l /\ outside (u_mem u) (u_mem u') buffer 512 /\
    console u' = console u ++ append_message nm.
Proof.
  intros [Hr Ho Hfile Hl Hby (p & Hw & Hc & Hp & Hp32 & Hdis) Hsh Hro Hap [Hb0 Hm] [Ht Htb] (b & Eb & Hb) [Hs0 Hs] _].
  destruct u as [s m ob e ap co]. cbn in *. subst ob. unfold file_bytes in Hfile.
  destruct (a_names a !! nm) as [id|] eqn:Hid; [|done]. cbn in Hfile.
  destruct (append_run lit cap n buffer (conj Hb0 Hap) ltac:(lia) argv p nm id l t s m b e ap co a C) as (s' & m' & b' & C' & Hrun & Hrest); try done; try lia.
  eexists _, C'. split; [exact Hrun|]. cbn. destruct Hrest as (? & ? & ? & ?). split; [done|]. split; [by exists b'|]. done.
Qed.

Lemma receive_run junk cap n header data C a es u : zlen junk = 20 -> receives cap n header data C a u -> archive lit C n (extract_sector u) es ->
  (fsutil_extract lit junk header data u = Panic /\ stops lit header data junk es (started u) /\
   refuses lit cap header data junk es a (started u)) \/
  ~ stops lit header data junk es (started u) /\
  exists u' a', fsutil_extract lit junk header data u = Done (tt, u') /\ rep cap a' (u_fs u') /\ a_open a' = a_open a /\
    (forall nm, file_bytes a' nm = match entry_bytes es nm with Some bs => Some bs | None => file_bytes a nm end) /\
    (exists b, u_scratch u' = Some b /\ scratch_is n (set_sector 1 zero_sector (set_sector 0 zero_sector C)) b) /\
    console u' = console u ++ extract_start ++ concat (map entry_message es) ++ extract_done.
Proof.
  intros Hj [Hr Ho Hh Hd Hlit Hbuf (b & Eb & Hb) Hby Hn He] Ha. destruct u as [s m ob e ap co]. cbn in *. subst ob.
  destruct (extract_run lit cap n C header data Hh Hd Hlit ltac:(lia) Hby junk s m b e ap co a es Hj Ho Hr Hbuf Hb Ha He ltac:(lia))
    as [?|(Hst & s' & m' & b' & a' & Hrun & Hrest)]; [by left|right; split; [exact Hst|]].
  eexists _, a'. split; [exact Hrun|]. cbn. destruct Hrest as (? & ? & ? & ? & ?). repeat (split; [done|]). split; [by exists b'|done].
Qed.

(** The name of an entry is a string. *)
Lemma archive_char cap n header data C a nm l es u : receives cap n header data C a u -> archive lit C n (extract_sector u) (File nm l :: es) ->
  Forall (fun c => 0 < c < 256) nm.
Proof.
  intros [_ _ Hh Hd Hlit Hbuf (b & _ & Hb) Hby Hn He] Ha. pose proof (archive_below lit n C _ _ Ha). destruct Ha as (Hhd & _).
  cbn [archive_end] in *. pose proof (sector_cnt_nonneg l).
  destruct (header_run lit n C header data Hh Hd Hlit ltac:(lia) Hby (u_fs u) (u_mem u) b (extract_sector u) 0 [] nm _ _ Hbuf Hb ltac:(lia) Hhd)
    as (_ & q & _ & _ & _ & Hc & _). apply Hc.
Qed.

(** An archive with one file. *)
Lemma single_run junk cap n header data C a nm l u : zlen junk = 20 -> receives cap n header data C a u ->
  archive lit C n (extract_sector u) [File nm l] ->
  (fsutil_extract lit junk header data u = Panic /\ (exists s, filesys_create junk nm (zlen l) (u_fs u) = Done (false, s)) /\
   refused cap (free_map (u_fs u)) a (File nm l)) \/
  (exists s, filesys_create junk nm (zlen l) (u_fs u) = Done (true, s)) /\
  exists u' a', fsutil_extract lit junk header data u = Done (tt, u') /\ rep cap a' (u_fs u') /\ a_open a' = a_open a /\
    (forall x, file_bytes a' x = match entry_bytes [File nm l] x with Some bs => Some bs | None => file_bytes a x end) /\
    (exists b, u_scratch u' = Some b /\ scratch_is n (set_sector 1 zero_sector (set_sector 0 zero_sector C)) b) /\
    console u' = console u ++ extract_start ++ concat (map entry_message [File nm l]) ++ extract_done.
Proof.
  intros Hj Hrc Ha. destruct (receive_run junk cap n header data C a _ u Hj Hrc Ha) as [(Hp & Hst & Hrf)|(Hst & Hok)].
  - left. split; [exact Hp|]. cbn [stops] in Hst. inversion Hrf as [? ? ? ? ? _ Hno| ? ? ? ? ? ? ? _ _ _ _ Hrf'|]; subst; [|inversion Hrf'].
    split; [|exact Hno]. by destruct Hst as [?|(u1 & _ & [])].
  - right. split; [|exact Hok]. pose proof Hrc as [Hr _ _ _ _ _ _ _ _ _]. cbn [stops] in Hst.
    assert (Forall (fun c => 0 < c < 256) nm) as Hnm by by eapply archive_char. destruct Ha as (_ & Hsz & _). pose proof (zlen_nonneg l).
    destruct (create_cases cap a (u_fs u) junk nm (zlen l) Hr Hj Hnm ltac:(lia)) as [(s' & id & Hc & _)|(s' & Hc & _)]; [by eexists|].
    exfalso. apply Hst. left. by eexists.
Qed.

(** The archive that appending to the start of a device leaves, if the byte after
    the buffer is 0. *)
Lemma appended_archive n C C' ap nm l : appended lit n C C' ap nm l 0 -> zlen l < 2 ^ 31 - 512 -> ap + 1 + sector_cnt l < n ->
  archive lit C' n ap [File (clean_name nm) l].
Proof. intros [Hh Hb Hm _ _] Hl Hn. repeat (split; [done|]). done. Qed.

(** Otherwise extraction panics at the end of the archive, if not before. *)
Lemma bad_marker_run junk cap n header data C C0 a nm l t u : zlen junk = 20 -> receives cap n header data C a u ->
  appended lit n C0 C (extract_sector u) nm l t -> zlen l < 2 ^ 31 - 512 -> extract_sector u + 1 + sector_cnt l < n -> is_byte t -> t <> 0 ->
  fsutil_extract lit junk header data u = Panic.
Proof.
  intros Hj [Hr Ho Hh Hd Hlit Hbuf (b & Eb & Hb) Hby Hn He] Had Hl Hend Htb Hne. destruct u as [s m ob e ap co]. cbn [u_fs u_mem u_scratch extract_sector] in *. subst ob.
  pose proof (sector_cnt_nonneg l). unfold fsutil_extract. rewrite (proj2 (Z.eqb_neq header NULL)), (proj2 (Z.eqb_neq data NULL)) by (unfold NULL; lia).
  cbn [orb]. unfold get_scratch. erewrite bind_done by by erewrite bind_done by done.
  erewrite bind_done by (apply say_plain; by_decide). erewrite bind_done by by apply on_scratch_run.
  unfold block_size. rewrite (sc_size _ _ _ Hb). change (codes "Extracting ustar archive from scratch device into file system..." ++ [10]) with extract_start.
  match goal with |- bnd ?loop _ ?st = _ => assert (loop st = Panic) as Hp; [|unfold bnd at 1, mbind, M_bind; by rewrite Hp] end.
  assert (exists j, Z.to_nat n = S j) as [j ->] by (exists (pred (Z.to_nat n)); lia).
  remember (S j) as j' eqn:Ej. cbn [extract_loop].
  destruct (turn_file lit cap n C header data Hh Hd Hlit ltac:(lia) Hby junk s m b e ap (co ++ extract_start) a (clean_name nm) l)
    as [[Hp _]|(s1 & s2 & m2 & b2 & id & Hx & _ & _ & _ & _ & _ & Hm2 & Hb2)]; try done; [lia|apply Had|apply Had| |].
  - unfold bnd at 1, mbind, M_bind. by rewrite Hp.
  - erewrite bind_done by exact Hx. subst j'. cbn [extract_loop].
    assert (extract_turn lit junk header data (mk_util s2 m2 (Some b2) (e + 1 + sector_cnt l) ap ((co ++ extract_start) ++ entry_message (File (clean_name nm) l))) = Panic) as Hp.
    { eapply (turn_bad lit n C header data); try done; try lia.
      intros m3 h3 Hro3 Hh3. rewrite (ad_marker _ _ _ _ _ _ _ _ Had). intros Hb3. by eapply parse_marker. }
    unfold bnd at 1, mbind, M_bind. by rewrite Hp.
Qed.

(** ** Theorems *)

(** Appending a file to the archive on the scratch device succeeds, leaves the
    file system and all other sectors as they are and writes the header, the
    contents and the end of the archive. *)
Theorem append_correct cap n buffer argv C a nm l t u : sends cap n buffer argv C a nm l t u ->
  exists u' C', fsutil_append lit buffer argv u = Done (tt, u') /\ rep cap a (u_fs u') /\
    (exists b, u_scratch u' = Some b /\ scratch_is n C' b) /\ appended lit n C C' (append_sector u) nm l t /\
    append_sector u' = append_sector u + 1 + sector_cnt l /\ outside (u_mem u) (u_mem u') buffer 512 /\
    console u' = console u ++ append_message nm.
Proof. apply send_run. Qed.

(** C24: Extracting the archive on the scratch device creates its files with their
    contents, keeps all others and every handle, ignores directories and erases
    the archive -- unless the run comes to a file that filesys_create refuses in the
    state it has reached: then, and only then, it panics, and the file has a name
    that is not valid or taken, or there is no room for it or for its name. *)
Theorem extract_correct junk cap n header data C a es u : zlen junk = 20 -> receives cap n header data C a u ->
  archive lit C n (extract_sector u) es ->
  (fsutil_extract lit junk header data u = Panic /\ stops lit header data junk es (started u) /\
   refuses lit cap header data junk es a (started u)) \/
  ~ stops lit header data junk es (started u) /\
  exists u' a', fsutil_extract lit junk header data u = Done (tt, u') /\ rep cap a' (u_fs u') /\ a_open a' = a_open a /\
    (forall nm, file_bytes a' nm = match entry_bytes es nm with Some bs => Some bs | None => file_bytes a nm end) /\
    (exists b, u_scratch u' = Some b /\ scratch_is n (set_sector 1 zero_sector (set_sector 0 zero_sector C)) b) /\
    console u' = console u ++ extract_start ++ concat (map entry_message es) ++ extract_done.
Proof. apply receive_run. Qed.

(** C19: A file that one machine appends to the start of the scratch device is there,
    byte for byte, on the machine that extracts the device, if filesys_create takes
    it there, and extraction panics exactly if it does not -- provided the byte that
    happens to follow the sender's buffer is 0; otherwise the archive has no end and
    extraction panics. *)
Theorem append_extract_roundtrip junk cap n buffer argv C a nm l t u cap2 header data a2 : zlen junk = 20 ->
  sends cap n buffer argv C a nm l t u ->
  exists u' C', fsutil_append lit buffer argv u = Done (tt, u') /\
    forall u2 : util dev sdev, receives cap2 n header data C' a2 u2 -> extract_sector u2 = append_sector u ->
      if t =? 0 then
        (fsutil_extract lit junk header data u2 = Panic /\
         (exists s, filesys_create junk (clean_name nm) (zlen l) (u_fs u2) = Done (false, s)) /\
         refused cap2 (free_map (u_fs u2)) a2 (File (clean_name nm) l)) \/
        (exists s, filesys_create junk (clean_name nm) (zlen l) (u_fs u2) = Done (true, s)) /\
        exists u2' a2', fsutil_extract lit junk header data u2 = Done (tt, u2') /\ rep cap2 a2' (u_fs u2') /\
          forall x, file_bytes a2' x = if decide (clean_name nm = x) then Some l else file_bytes a2 x
      else fsutil_extract lit junk header data u2 = Panic.
Proof.
  intros Hj Hs. destruct (send_run _ _ _ _ _ _ _ _ _ _ Hs) as (u' & C' & Hrun & _ & _ & Had & _). exists u', C'. split; [done|].
  intros u2 Hrc Hst. pose proof (sn_length _ _ _ _ _ _ _ _ _ _ Hs). pose proof (sn_room _ _ _ _ _ _ _ _ _ _ Hs). rewrite <- Hst in *.
  destruct (Z.eqb_spec t 0) as [->|Hne].
  - destruct (single_run junk cap2 n header data C' a2 (clean_name nm) l u2 Hj Hrc) as [?|[Hc (u3 & a3 & Hx & Hr3 & _ & Hf & _)]];
      [eapply appended_archive; [exact Had|done|lia]|by left|right].
    split; [exact Hc|]. exists u3, a3. split; [done|]. split; [done|]. intros x. rewrite Hf. cbn [entry_bytes]. by destruct (decide (clean_name nm = x)).
  - eapply bad_marker_run; try done; [lia|by apply Hs].
Qed.
End Machines.
