(* ===== verification/FsutilDemo.v ===== *)
(** * Moving a file between two machines

    The concrete inputs of the theorems on archives: a machine whose formatted RAM
    disk holds the file "ab" with three bytes, and one with an empty file system;
    both have a scratch device of 64 sectors. *)

From Stdlib Require Import Ascii.
From Stdlib Require Import(notations) String.
From S2P Require Import Prelude Bitmap Block FileSys DirSpec FsDemo FsAbstract FsMid FsRefine FsNames FsCreate FsCorrect Mem CString Stdio CStdlib Ustar Fsutil FsutilSpec FsutilAppend.

Definition demo_junk : list Z := replicate 20 7.
Definition ab : list Z := codes "ab".

Definition formatted : fs ramdisk := match filesys_init true blank_fs with Done (_, s) => s | _ => blank_fs end.

Lemma formatted_rep : rep 16 (mk_afs ∅ ∅ ∅) formatted.
Proof. destruct blank_formatted as (s & Hs & Hr). unfold formatted. by rewrite Hs. Qed.

(** The file "ab" of three bytes. *)
Lemma ab_created : exists s a, rep 16 a s /\ a_open a = ∅ /\ file_bytes a ab = Some [1; 2; 3].
Proof.
  destruct (create_cases 16 _ formatted demo_junk ab 3 formatted_rep) as [(s1 & id & _ & _ & _ & _ & Hr1)|(s1 & Hc & _)];
    [reflexivity|by_decide|lia| |].
  2:{ exfalso. assert (match filesys_create demo_junk ab 3 formatted with Done (ok, _) => ok | _ => true end = true) as H by (vm_compute; reflexivity).
      by rewrite Hc in H. }
  destruct (open_named 16 _ s1 ab id Hr1) as (f & s2 & _ & _ & _ & Hr2); [by vm_compute|by vm_compute|].
  destruct (write_handle 16 _ s2 f id 0 false [0; 0; 0] [1; 2; 3] Hr2) as (s3 & _ & Hr3).
  - cbn. by rewrite lookup_insert_eq.
  - cbn. by rewrite lookup_insert_eq.
  - apply not_true_iff_false. intros (f' & h & Hf & _ & Hd)%denied_true. cbn in Hf.
    apply lookup_insert_Some in Hf as [[<- <-]|[_ Hf]]; [done|]. by rewrite lookup_empty in Hf.
  - reflexivity.
  - reflexivity.
  - destruct (close_named 16 _ s3 f (mk_handle id 3 false) ab Hr3) as (s4 & _ & Hr4); [cbn; by rewrite lookup_insert_eq|by vm_compute|].
    eexists s4, _. split; [exact Hr4|]. cbn [a_open a_names a_data]. split.
    + cbn. rewrite insert_insert_eq, delete_insert_eq. apply delete_id. apply lookup_empty.
    + unfold file_bytes. cbn [a_names a_data set_open with_file]. rewrite lookup_insert_eq. cbn. by rewrite lookup_insert_eq.
Qed.

(** The literals, the argument vector at 96 and "ab" at 128, buffers at 1024 and
    2048, and zeros after the first. *)
Definition demo_mem : mem := stored (stored (stored (example_mem "ab") 1536 [0]) 2048 (replicate 512 0)) 100 (le_bytes 128).

Lemma demo_rodata : rodata example_lit demo_mem.
Proof. unfold rodata, literals. do 7 literal_in_memory. by apply Forall_nil. Qed.

Lemma demo_blocks : mapped demo_mem 1024 512 /\ mapped demo_mem 2048 512.
Proof. split; apply block_mapped, block_at_check; vm_compute; reflexivity. Qed.

Definition scratch : block ramdisk := mk_block [] BLOCK_SCRATCH 64 ∅ 0 0.
Definition blank_sectors (t : Z) : list Z := contents (∅ : ramdisk) t.

Lemma scratch_blank : scratch_is 64 blank_sectors scratch.
Proof. by split. Qed.

Lemma blank_bytes t : Forall is_byte (blank_sectors t).
Proof. by_decide. Qed.

Definition machine (s : fs ramdisk) (b : block ramdisk) : util ramdisk ramdisk := mk_util s demo_mem (Some b) 0 0 [].

Lemma demo_sends : exists s a, sends example_lit 16 64 1024 96 blank_sectors a ab [1; 2; 3] 0 (machine s scratch).
Proof.
  destruct ab_created as (s & a & Hr & Ho & Hf). exists s, a. split; try done.
  - by rewrite Ho.
  - by_decide.
  - exists 128. cbn [machine u_mem]. split; [split; [vm_compute; repeat split|unfold is_u32; lia]|].
    split; [split; [vm_compute; repeat split|unfold is_char; by_decide]|]. split; [lia|]. split; [reflexivity|right; reflexivity].
  - exact demo_rodata.
  - exact example_apart.
  - split; [lia|apply demo_blocks].
  - exists scratch. split; [done|apply scratch_blank].
  - intros x _. apply blank_bytes.
Qed.

Lemma demo_receives C b : scratch_is 64 C b -> (forall x, 0 <= x < 64 -> Forall is_byte (C x)) ->
  receives example_lit 16 64 1024 2048 C (mk_afs ∅ ∅ ∅) (machine formatted b).
Proof.
  intros Hb Hby. apply Build_receives; cbn [machine u_fs u_mem u_scratch extract_sector].
  - exact formatted_rep.
  - reflexivity.
  - split; [lia|]. split; [lia|exact example_apart].
  - split; [lia|by_decide].
  - reflexivity.
  - split; [exact demo_rodata|apply demo_blocks|apply demo_blocks].
  - by exists b.
  - exact Hby.
  - lia.
  - lia.
Qed.

Lemma append_correct_witness : exists s a u' C', fsutil_append example_lit 1024 96 (machine s scratch) = Done (tt, u') /\
  file_bytes a ab = Some [1; 2; 3] /\ rep 16 a (u_fs u') /\ appended example_lit 64 blank_sectors C' 0 ab [1; 2; 3] 0.
Proof.
  destruct demo_sends as (s & a & Hs). exists s, a.
  destruct (append_correct example_lit 16 64 1024 96 blank_sectors a ab [1; 2; 3] 0 (machine s scratch) Hs) as (u' & C' & Hrun & Hr & _ & Had & _).
  exists u', C'. split; [exact Hrun|]. split; [apply Hs|]. split; [exact Hr|exact Had].
Defined.

(** The empty file system takes the file, so extraction does not panic. *)
Lemma ab_taken nm sz s s' : nm = ab -> sz = 3 -> s = formatted -> filesys_create demo_junk nm sz s <> Done (false, s').
Proof.
  intros -> -> -> E. assert (match filesys_create demo_junk ab 3 formatted with Done (ok, _) => ok | _ => false end = true) as Ht by (vm_compute; reflexivity).
  by rewrite E in Ht.
Qed.

Lemma extract_correct_witness : exists C b u' a', scratch_is 64 C b /\ archive example_lit C 64 0 [File ab [1; 2; 3]] /\
  fsutil_extract example_lit demo_junk 1024 2048 (machine formatted b) = Done (tt, u') /\ rep 16 a' (u_fs u') /\
  file_bytes a' ab = Some [1; 2; 3] /\
  console u' = extract_start ++ codes "Putting 'ab' into the file system..." ++ [10] ++ extract_done.
Proof.
  destruct demo_sends as (s & a & Hs). destruct (send_run _ _ _ _ _ _ _ _ _ _ _ Hs) as (u1 & C' & _ & _ & (b & _ & Hb) & Had & _).
  assert (archive example_lit C' 64 0 [File ab [1; 2; 3]]) as Ha by (by apply (appended_archive example_lit 64 blank_sectors C' 0 ab [1; 2; 3] Had)).
  exists C', b.
  destruct (extract_correct example_lit demo_junk 16 64 1024 2048 C' (mk_afs ∅ ∅ ∅) [File ab [1; 2; 3]] (machine formatted b))
    as [(_ & [[s1 Hst]|(u2 & _ & [])] & _)|(_ & u' & a' & Hx & Hr & _ & Hf & _ & Hco)].
  - reflexivity.
  - apply demo_receives; [exact Hb|]. intros x Hx. apply (ad_byte _ _ _ _ _ _ _ _ Had x Hx), blank_bytes.
  - exact Ha.
  - exfalso; eapply ab_taken; [| | |exact Hst]; reflexivity.
  - exists u', a'. split; [exact Hb|]. split; [exact Ha|]. split; [exact Hx|]. split; [exact Hr|]. split; [by rewrite Hf|exact Hco].
Defined.

Lemma append_extract_roundtrip_witness : exists s u' C', fsutil_append example_lit 1024 96 (machine s scratch) = Done (tt, u') /\
  forall b, scratch_is 64 C' b -> (forall x, 0 <= x < 64 -> Forall is_byte (C' x)) ->
    exists u2 a2, fsutil_extract example_lit demo_junk 1024 2048 (machine formatted b) = Done (tt, u2) /\ rep 16 a2 (u_fs u2) /\
      forall x, file_bytes a2 x = if decide (ab = x) then Some [1; 2; 3] else file_bytes (mk_afs ∅ ∅ ∅) x.
Proof.
  destruct demo_sends as (s & a & Hs). exists s.
  destruct (append_extract_roundtrip example_lit demo_junk 16 64 1024 96 blank_sectors a ab [1; 2; 3] 0 (machine s scratch) 16 1024 2048 (mk_afs ∅ ∅ ∅) eq_refl Hs)
    as (u' & C' & Hrun & Hrest).
  exists u', C'. split; [exact Hrun|]. intros b Hb Hby.
  destruct (Hrest (machine formatted b)) as [(_ & [s1 Hc] & _)|[_ Hok]]; [by apply demo_receives|reflexivity|exfalso; eapply ab_taken; [| | |exact Hc]; reflexivity|exact Hok].
Defined.

(** The run itself: the file arrives. *)
Definition demo_trip (after : Z) : option (list Z) :=
  match (_ ← on_fs (filesys_create demo_junk ab 3); f ← on_fs (filesys_open ab); _ ← on_fs (file_write f [1; 2; 3] 3); on_fs (file_close f) ;;
         fsutil_append example_lit 1024 96) (mk_util formatted (<[1536 := after]> demo_mem) (Some scratch) 0 0 []) with
  | Done (_, u) =>
      match u_scratch u with
      | Some b =>
          match (fsutil_extract example_lit demo_junk 1024 2048 ;; f ← on_fs (filesys_open ab); on_fs (file_read f 9)) (machine formatted b) with
          | Done (bs, _) => Some bs
          | _ => None
          end
      | None => None
      end
  | _ => None
  end.

Example trip_arrives : demo_trip 0 = Some [1; 2; 3].
Proof. vm_compute. reflexivity. Qed.
Example trip_panics : demo_trip 12 = None.
Proof. vm_compute. reflexivity. Qed.
