(* ===== verification/Devices.v ===== *)
(** * devices/intq.c, input.c, serial.c, kbd.c: keys and the serial port

    Interrupt queues are circular buffers that interrupt handlers and sleeping
    threads share; the input buffer and the transmit queue of the serial port are
    two of them.  The state joins the threads of Kernel with the queues, what each
    thread has still to do in the functions of these files when it sleeps, and the
    hardware, which answers the port instructions ([Ports]).  A queue starts with
    its lock, so the address of the lock is that of the queue. *)

From Stdlib Require Import Ascii.
From Stdlib Require Import(notations) String.
From S2P Require Import Prelude KList Kernel Stdio.

(** The port instructions of threads/io.h. *)
Class Ports (hw : Type) := {
  port_in : Z -> hw -> Z * hw;           (* inb *)
  port_out : Z -> Z -> hw -> hw          (* outb *)
}.

Definition INTQ_BUFSIZE : Z := 64.

Record intq := mk_intq {
  not_full : Z;               (* thread waiting for not-full condition, or NULL *)
  not_empty : Z;              (* thread waiting for not-empty condition, or NULL *)
  q_buf : list Z;             (* buffer *)
  q_head : Z;                 (* new data is written here *)
  q_tail : Z                  (* old data is read here *)
}.

(** The two conditions of a queue. *)
Inductive condition := NotFull | NotEmpty.

#[export] Instance condition_eq : EqDecision condition.
Proof. solve_decision. Defined.

(** What is left of a call when its thread sleeps: the two halves of a turn of the
    loop of intq_getc or intq_putc after its test, the test itself, and the callers'
    last parts. *)
Inductive work :=
| WGet (q : Z)                    (* the loop of intq_getc *)
| WGetWait (q : Z)                (* ... with the lock: wait *)
| WGetRelease (q : Z)             (* ... awake again: lock_release *)
| WPut (q b : Z)
| WPutWait (q b : Z)
| WPutRelease (q b : Z)
| WInput (old_level : bool)       (* input_getc after intq_getc *)
| WSerial (old_level : bool).     (* serial_putc after intq_putc *)

Inductive serial_mode := UNINIT | POLL | QUEUE.

#[export] Instance serial_mode_eq : EqDecision serial_mode.
Proof. solve_decision. Defined.

(** The variables of kbd.c. *)
Record kbd := mk_kbd {
  left_shift : bool; right_shift : bool;
  left_alt : bool; right_alt : bool;
  left_ctrl : bool; right_ctrl : bool;
  caps_lock : bool;
  key_cnt : Z
}.

Record dev (hw : Type) := mk_dev {
  d_kern : K;
  d_queues : gmap Z intq;
  d_works : gmap Z (list work);    (* of each thread, innermost first *)
  d_ret : gmap Z Z;                (* the byte intq_getc last gave to each thread *)
  d_hw : hw;
  d_mode : serial_mode;            (* transmission mode *)
  d_kbd : kbd;
  d_reboot : bool                  (* shutdown_reboot has been called *)
}.
Arguments mk_dev {hw}.
Arguments d_kern {hw}.
Arguments d_queues {hw}.
Arguments d_works {hw}.
Arguments d_ret {hw}.
Arguments d_hw {hw}.
Arguments d_mode {hw}.
Arguments d_kbd {hw}.
Arguments d_reboot {hw}.

(** The position after [pos] within a queue. *)
Definition next (pos : Z) : Z := Z.rem (pos + 1) INTQ_BUFSIZE.

(** The linker decides the addresses of the input buffer and of the transmit queue. *)
Section Devices.
Context {hw : Type} `{Ports hw} (buffer txq : Z).
Abbreviation D := (dev hw).

Definition with_kern (k : K) (d : D) : D := mk_dev k (d_queues d) (d_works d) (d_ret d) (d_hw d) (d_mode d) (d_kbd d) (d_reboot d).
Definition with_queues m (d : D) : D := mk_dev (d_kern d) m (d_works d) (d_ret d) (d_hw d) (d_mode d) (d_kbd d) (d_reboot d).
Definition with_works m (d : D) : D := mk_dev (d_kern d) (d_queues d) m (d_ret d) (d_hw d) (d_mode d) (d_kbd d) (d_reboot d).
Definition with_ret m (d : D) : D := mk_dev (d_kern d) (d_queues d) (d_works d) m (d_hw d) (d_mode d) (d_kbd d) (d_reboot d).
Definition with_hw h (d : D) : D := mk_dev (d_kern d) (d_queues d) (d_works d) (d_ret d) h (d_mode d) (d_kbd d) (d_reboot d).
Definition with_mode m (d : D) : D := mk_dev (d_kern d) (d_queues d) (d_works d) (d_ret d) (d_hw d) m (d_kbd d) (d_reboot d).
Definition with_kbd s (d : D) : D := mk_dev (d_kern d) (d_queues d) (d_works d) (d_ret d) (d_hw d) (d_mode d) s (d_reboot d).
Definition rebooting (d : D) : D := mk_dev (d_kern d) (d_queues d) (d_works d) (d_ret d) (d_hw d) (d_mode d) (d_kbd d) true.

Definition on_kern {A} (m : M K A) : M D A := fun d => '(a, k) ← m (d_kern d); Done (a, with_kern k d).

Definition inb (port : Z) : M D Z := fun d => let '(v, h) := port_in port (d_hw d) in Done (u8 v, with_hw h d).
Definition outb (port v : Z) : M D unit := modify (fun d => with_hw (port_out port (u8 v) (d_hw d)) d).

Definition get_queue (q : Z) : M D intq := load (fun d => d_queues d !! q).
Definition put_queue (q : Z) (i : intq) : M D unit := modify (fun d => with_queues (<[q := i]> (d_queues d)) d).
Definition push_work (w : work) : M D unit :=
  t ← on_kern (gets current);
  modify (fun d => with_works (<[t := w :: default [] (d_works d !! t)]> (d_works d)) d).
Definition pop_work : M D unit :=
  t ← on_kern (gets current);
  modify (fun d => with_works (<[t := tail (default [] (d_works d !! t))]> (d_works d)) d).

(** ** intq.c *)

Definition intq_init (q : Z) : M D unit :=
  on_kern (lock_init q (q + 4)) ;;
  i ← get_queue q;
  put_queue q (mk_intq NULL NULL (q_buf i) 0 0).

Definition intq_empty (q : Z) : M D bool :=
  on_kern assert_intr_off ;; i ← get_queue q; mret (q_head i =? q_tail i).
Definition intq_full (q : Z) : M D bool :=
  on_kern assert_intr_off ;; i ← get_queue q; mret (next (q_head i) =? q_tail i).

(** The queue is not empty, or not full; and the thread waiting for it. *)
Definition holds (q : Z) (c : condition) : M D bool :=
  b ← match c with NotFull => intq_full q | NotEmpty => intq_empty q end; mret (negb b).
Definition waiter (c : condition) (i : intq) : Z := match c with NotFull => not_full i | NotEmpty => not_empty i end.
Definition set_waiter (c : condition) (t : Z) (i : intq) : intq :=
  match c with
  | NotFull => mk_intq t (not_empty i) (q_buf i) (q_head i) (q_tail i)
  | NotEmpty => mk_intq (not_full i) t (q_buf i) (q_head i) (q_tail i)
  end.

(** What follows [thread_block] must be pushed before. *)
Definition wait (q : Z) (c : condition) : M D unit :=
  on_kern assert_no_context ;;
  on_kern assert_intr_off ;;
  b ← holds q c; ASSERT (negb b) ;;
  t ← on_kern thread_current;
  i ← get_queue q; put_queue q (set_waiter c t i) ;;
  on_kern thread_block.

Definition signal (q : Z) (c : condition) : M D unit :=
  on_kern assert_intr_off ;;
  b ← holds q c; ASSERT b ;;
  i ← get_queue q;
  if negb (waiter c i =? NULL) then
    on_kern (thread_unblock (waiter c i)) ;;
    i ← get_queue q; put_queue q (set_waiter c NULL i)
  else mret tt.

(** The loop of intq_getc and what follows it: the byte, or nothing when the
    thread has to wait. *)
Definition intq_getc (q : Z) : M D (option Z) :=
  on_kern assert_intr_off ;;
  e ← intq_empty q;
  if e then
    on_kern assert_no_context ;;
    on_kern (lock_acquire q) ;;
    push_work (WGetWait q) ;;
    mret None
  else
    i ← get_queue q;
    byte ← load (fun _ => zget (q_buf i) (q_tail i));
    put_queue q (mk_intq (not_full i) (not_empty i) (q_buf i) (q_head i) (next (q_tail i))) ;;
    signal q NotFull ;;
    mret (Some byte).

Definition store_at (l : list Z) (i v : Z) : option (list Z) :=
  if (0 <=? i) && (i <? zlen l) then Some (zset l i (u8 v)) else None.

(** Whether the byte has been put. *)
Definition intq_putc (q byte : Z) : M D bool :=
  on_kern assert_intr_off ;;
  f ← intq_full q;
  if f then
    on_kern assert_no_context ;;
    on_kern (lock_acquire q) ;;
    push_work (WPutWait q byte) ;;
    mret false
  else
    i ← get_queue q;
    buf ← load (fun _ => store_at (q_buf i) (q_head i) byte);
    put_queue q (mk_intq (not_full i) (not_empty i) buf (next (q_head i)) (q_tail i)) ;;
    signal q NotEmpty ;;
    mret true.

(** ** The part of serial.c that input.c calls *)

Definition IO_BASE : Z := 0x3f8.
Definition RBR_REG : Z := IO_BASE + 0.
Definition THR_REG : Z := IO_BASE + 0.
Definition IER_REG : Z := IO_BASE + 1.
Definition LS_REG : Z := IO_BASE + 0.
Definition MS_REG : Z := IO_BASE + 1.
Definition IIR_REG : Z := IO_BASE + 2.
Definition FCR_REG : Z := IO_BASE + 2.
Definition LCR_REG : Z := IO_BASE + 3.
Definition MCR_REG : Z := IO_BASE + 4.
Definition LSR_REG : Z := IO_BASE + 5.
Definition IER_RECV : Z := 0x01.
Definition IER_XMIT : Z := 0x02.
Definition LCR_N81 : Z := 0x03.
Definition LCR_DLAB : Z := 0x80.
Definition MCR_OUT2 : Z := 0x08.
Definition LSR_DR : Z := 0x01.
Definition LSR_THRE : Z := 0x20.

Definition input_full : M D bool := on_kern assert_intr_off ;; intq_full buffer.

Definition write_ier : M D unit :=
  on_kern assert_intr_off ;;
  e ← intq_empty txq;
  let ier := if negb e then Z.lor 0 IER_XMIT else 0 in
  f ← input_full;
  let ier := if negb f then Z.lor ier IER_RECV else ier in
  outb IER_REG ier.

Definition serial_notify : M D unit :=
  on_kern assert_intr_off ;;
  mode ← gets d_mode;
  if decide (mode = QUEUE) then write_ier else mret tt.

(** ** input.c *)

Definition input_init : M D unit := intq_init buffer.

Definition input_putc (key : Z) : M D unit :=
  on_kern assert_intr_off ;;
  f ← intq_full buffer; ASSERT (negb f) ;;
  _ ← intq_putc buffer key;
  serial_notify.

(** A caller takes the key from [d_ret] when the work is done. *)
Definition input_getc : M D unit :=
  old_level ← on_kern intr_disable;
  push_work (WInput old_level) ;;
  push_work (WGet buffer).

(** ** serial.c *)

(** [base_rate / bps] for 9600 bits per second. *)
Definition set_serial (bps : Z) : M D unit :=
  let base_rate := 1843200 / 16 in
  let divisor := u16 (Z.quot base_rate bps) in
  ASSERT ((300 <=? bps) && (bps <=? 115200)) ;;
  outb LCR_REG (Z.lor LCR_N81 LCR_DLAB) ;;
  outb LS_REG (Z.land divisor 0xff) ;;
  outb MS_REG (Z.shiftr divisor 8) ;;
  outb LCR_REG LCR_N81.

Definition init_poll : M D unit :=
  m ← gets d_mode; ASSERT (bool_decide (m = UNINIT)) ;;
  outb IER_REG 0 ;;
  outb FCR_REG 0 ;;
  set_serial 9600 ;;
  outb MCR_REG MCR_OUT2 ;;
  intq_init txq ;;
  modify (with_mode POLL).

(** After [intr_register_ext]. *)
Definition serial_init_queue : M D unit :=
  m ← gets d_mode;
  (if decide (m = UNINIT) then init_poll else mret tt) ;;
  m ← gets d_mode; ASSERT (bool_decide (m = POLL)) ;;
  modify (with_mode QUEUE) ;;
  old_level ← on_kern intr_disable;
  write_ier ;;
  _ ← on_kern (intr_set_level old_level);
  mret tt.

(** The port is polled until it is ready. *)
Fixpoint poll_loop (fuel : nat) : M D unit :=
  match fuel with
  | O => nofuel
  | S fuel => s ← inb LSR_REG; if Z.land s LSR_THRE =? 0 then poll_loop fuel else mret tt
  end.

Definition putc_poll (fuel : nat) (byte : Z) : M D unit :=
  on_kern assert_intr_off ;;
  poll_loop fuel ;;
  outb THR_REG byte.

(** A byte of a queue that is not empty. *)
Definition take_byte (q : Z) : M D Z := r ← intq_getc q; match r with Some b => mret b | None => fault end.

Definition serial_end (old_level : bool) : M D unit := write_ier ;; _ ← on_kern (intr_set_level old_level); mret tt.

Definition serial_putc (fuel : nat) (byte : Z) : M D unit :=
  old_level ← on_kern intr_disable;
  m ← gets d_mode;
  if negb (bool_decide (m = QUEUE)) then
    (if decide (m = UNINIT) then init_poll else mret tt) ;;
    putc_poll fuel byte ;;
    _ ← on_kern (intr_set_level old_level);
    mret tt
  else
    f ← (if negb old_level then intq_full txq else mret false);
    (if f then b ← take_byte txq; putc_poll fuel b else mret tt) ;;
    push_work (WSerial old_level) ;;
    done ← intq_putc txq byte;
    if done then pop_work ;; serial_end old_level else mret tt.

Fixpoint flush_loop (n fuel : nat) : M D unit :=
  match n with
  | O => nofuel
  | S n =>
      e ← intq_empty txq;
      if e then mret tt else b ← take_byte txq; putc_poll fuel b ;; flush_loop n fuel
  end.

(** At most 63 bytes are queued. *)
Definition serial_flush (fuel : nat) : M D unit :=
  old_level ← on_kern intr_disable;
  flush_loop 64 fuel ;;
  _ ← on_kern (intr_set_level old_level);
  mret tt.

(** The two loops of the handler end when the input buffer is full or the transmit
    queue is empty, if not before. *)
Fixpoint receive_loop (n : nat) : M D unit :=
  match n with
  | O => nofuel
  | S n =>
      f ← input_full;
      if f then mret tt
      else
        s ← inb LSR_REG;
        if Z.land s LSR_DR =? 0 then mret tt
        else b ← inb RBR_REG; input_putc b ;; receive_loop n
  end.

Fixpoint transmit_loop (n : nat) : M D unit :=
  match n with
  | O => nofuel
  | S n =>
      e ← intq_empty txq;
      if e then mret tt
      else
        s ← inb LSR_REG;
        if Z.land s LSR_THRE =? 0 then mret tt
        else b ← take_byte txq; outb THR_REG b ;; transmit_loop n
  end.

Definition serial_interrupt : M D unit :=
  _ ← inb IIR_REG;
  receive_loop 64 ;;
  transmit_loop 64 ;;
  write_ier.

(** ** kbd.c *)

(** lib/ctype.h. *)
Definition isupper (c : Z) : bool := (chr "A" <=? c) && (c <=? chr "Z").
Definition tolower (c : Z) : Z := if isupper c then c - chr "A" + chr "a" else c.

Definition DATA_REG : Z := 0x60.

(** A keymap: the first scancode and the characters from it on. *)
Definition keymap : Type := Z * list Z.
Definition invariant_keymap : list keymap :=
  [(0x01, [27]); (0x0e, [8]); (0x0f, 9 :: codes "QWERTYUIOP"); (0x1c, [13]); (0x1e, codes "ASDFGHJKL");
   (0x2c, codes "ZXCVBNM"); (0x37, codes "*"); (0x39, codes " "); (0x53, [127])].
Definition unshifted_keymap : list keymap :=
  [(0x02, codes "1234567890-="); (0x1a, codes "[]"); (0x27, codes ";'`"); (0x2b, [92]); (0x33, codes ",./")].
Definition shifted_keymap : list keymap :=
  [(0x02, codes "!@#$%^&*()_+"); (0x1a, codes "{}"); (0x27, [58; 34; 126]); (0x2b, codes "|"); (0x33, codes "<>?")].

Fixpoint map_key (k : list keymap) (scancode : Z) : option Z :=
  match k with
  | [] => None
  | (first_scancode, chars) :: k =>
      if (first_scancode <=? scancode) && (scancode <? first_scancode + zlen chars)
      then zget chars (scancode - first_scancode)
      else map_key k scancode
  end.

(** The condition of the second [else if], and [c]. *)
Definition map_code (shift : bool) (code : Z) : option Z :=
  match map_key invariant_keymap code with
  | Some c => Some c
  | None => map_key (if shift then shifted_keymap else unshifted_keymap) code
  end.

Definition set_caps (b : bool) (s : kbd) : kbd :=
  mk_kbd (left_shift s) (right_shift s) (left_alt s) (right_alt s) (left_ctrl s) (right_ctrl s) b (key_cnt s).
Definition set_key_cnt (n : Z) (s : kbd) : kbd :=
  mk_kbd (left_shift s) (right_shift s) (left_alt s) (right_alt s) (left_ctrl s) (right_ctrl s) (caps_lock s) n.

(** The scan of [shift_keys]. *)
Definition shift_key (code : Z) (v : bool) (s : kbd) : kbd :=
  if code =? 0x2a then mk_kbd v (right_shift s) (left_alt s) (right_alt s) (left_ctrl s) (right_ctrl s) (caps_lock s) (key_cnt s)
  else if code =? 0x36 then mk_kbd (left_shift s) v (left_alt s) (right_alt s) (left_ctrl s) (right_ctrl s) (caps_lock s) (key_cnt s)
  else if code =? 0x38 then mk_kbd (left_shift s) (right_shift s) v (right_alt s) (left_ctrl s) (right_ctrl s) (caps_lock s) (key_cnt s)
  else if code =? 0xe038 then mk_kbd (left_shift s) (right_shift s) (left_alt s) v (left_ctrl s) (right_ctrl s) (caps_lock s) (key_cnt s)
  else if code =? 0x1d then mk_kbd (left_shift s) (right_shift s) (left_alt s) (right_alt s) v (right_ctrl s) (caps_lock s) (key_cnt s)
  else if code =? 0xe01d then mk_kbd (left_shift s) (right_shift s) (left_alt s) (right_alt s) (left_ctrl s) v (caps_lock s) (key_cnt s)
  else s.

(** Ctrl, Shift, Caps Lock and Alt applied to a character. *)
Definition modified (shift alt ctrl caps : bool) (c : Z) : Z :=
  let c := if ctrl && (0x40 <=? c) && (c <? 0x60) then u8 (c - 0x40)
           else if Bool.eqb shift caps then u8 (tolower c) else c in
  if alt then u8 (c + 0x80) else c.

(** [shutdown_reboot] does not return. *)
Definition keyboard_interrupt : M D unit :=
  s ← gets d_kbd;
  let shift := left_shift s || right_shift s in
  let alt := left_alt s || right_alt s in
  let ctrl := left_ctrl s || right_ctrl s in
  code ← inb DATA_REG;
  code ← (if code =? 0xe0 then b ← inb DATA_REG; mret (Z.lor (Z.shiftl code 8) b) else mret code);
  let release := negb (Z.land code 0x80 =? 0) in
  let code := Z.land code (u32 (Z.lnot 0x80)) in
  if code =? 0x3a then
    if negb release then modify (fun d => with_kbd (set_caps (negb (caps_lock s)) s) d) else mret tt
  else
    match map_code shift code with
    | Some c =>
        if release then mret tt
        else if (c =? 127) && ctrl && alt then modify rebooting
        else
          f ← input_full;
          if f then mret tt
          else
            modify (fun d => with_kbd (set_key_cnt (s64 (key_cnt s + 1)) s) d) ;;
            input_putc (modified shift alt ctrl (caps_lock s) c)
    | None => modify (fun d => with_kbd (shift_key code (negb release) s) d)
    end.

(** ** Threads in these functions *)

(** The current thread goes on: first with its calls of the kernel, then with
    what it has left to do here. *)
Definition run_work (w : work) : M D unit :=
  match w with
  | WGet q =>
      r ← intq_getc q;
      match r with
      | Some byte => modify (fun d => with_ret (<[current (d_kern d) := byte]> (d_ret d)) d)
      | None => mret tt
      end
  | WGetWait q => push_work (WGetRelease q) ;; wait q NotEmpty
  | WGetRelease q => on_kern (lock_release q) ;; push_work (WGet q)
  | WPut q b => _ ← intq_putc q b; mret tt
  | WPutWait q b => push_work (WPutRelease q b) ;; wait q NotFull
  | WPutRelease q b => on_kern (lock_release q) ;; push_work (WPut q b)
  | WInput old_level => serial_notify ;; _ ← on_kern (intr_set_level old_level); mret tt
  | WSerial old_level => serial_end old_level
  end.

Definition go_on : M D unit :=
  t ← on_kern (gets current);
  th ← on_kern (get_thread t);
  if bool_decide (frames th = []) then
    ws ← gets (fun d => default [] (d_works d !! t));
    match ws with
    | [] => mret tt
    | w :: ws => modify (fun d => with_works (<[t := ws]> (d_works d)) d) ;; run_work w
    end
  else on_kern resume.

(** An external interrupt: the processor and intr_handler around its handler. *)
Definition external_interrupt (handler : M D unit) : M D unit :=
  on ← on_kern intr_get_level; ASSERT on ;;
  on_kern (push_frame FIret) ;;
  on_kern (modify (fun k => set_intr false true false k)) ;;
  handler ;;
  on_kern (modify (fun k => set_intr false false (yield_on_return k) k)) ;;
  y ← on_kern (gets yield_on_return);
  if y then on_kern thread_yield else mret tt.
End Devices.
