(* ===== verification/DevicesSpec.v ===== *)
(** * Interrupt queues are bounded queues

    The operations of intq.c on the bytes a queue holds, oldest first; the handlers
    of the keyboard and of the serial port always end, whatever the hardware
    answers. *)

From S2P Require Import Prelude KList Kernel KernelRuns Sched KernelSpec Stdio Devices.

(** ** Contents *)

Record wf_queue (i : intq) : Prop := {
  wq_buf : zlen (q_buf i) = INTQ_BUFSIZE;
  wq_head : 0 <= q_head i < INTQ_BUFSIZE;
  wq_tail : 0 <= q_tail i < INTQ_BUFSIZE
}.

(** The bytes of a buffer, [n] of them from position [p] on. *)
Definition cell (buf : list Z) (p : Z) : Z := default 0 (zget buf (p mod INTQ_BUFSIZE)).
Definition cells (buf : list Z) (p : Z) (n : nat) : list Z := map (fun j => cell buf (p + j)) (seqZ 0 (Z.of_nat n)).
Definition count (i : intq) : Z := (q_head i - q_tail i) mod INTQ_BUFSIZE.
Definition bytes (i : intq) : list Z := cells (q_buf i) (q_tail i) (Z.to_nat (count i)).

Section Cells.
Implicit Types (buf : list Z) (i : intq).

Lemma cells_S buf p n : cells buf p (S n) = cell buf p :: cells buf (p + 1) n.
Proof.
  unfold cells. rewrite seqZ_cons by lia. cbn [map]. rewrite Z.add_0_r. f_equal.
  replace (Z.pred (Z.of_nat (S n))) with (Z.of_nat n) by lia. rewrite <- (Z.add_0_r (Z.succ 0)), <- fmap_add_seqZ, map_map.
  apply map_ext. intros j. f_equal. lia.
Qed.

Lemma cells_snoc buf n : forall p, cells buf p (S n) = cells buf p n ++ [cell buf (p + Z.of_nat n)].
Proof.
  induction n as [|n IH]; intros p; [rewrite cells_S; by rewrite Z.add_0_r|].
  rewrite cells_S, IH, cells_S. cbn [app]. do 4 f_equal. lia.
Qed.

Lemma cells_length buf p n : length (cells buf p n) = n.
Proof. unfold cells. rewrite length_map, length_seqZ. lia. Qed.

(** A store outside the cells. *)
Lemma cells_store buf v h n : forall p, 0 <= h < INTQ_BUFSIZE -> zlen buf = INTQ_BUFSIZE ->
  (forall j, 0 <= j < Z.of_nat n -> (p + j) mod INTQ_BUFSIZE <> h) -> cells (zset buf h v) p n = cells buf p n.
Proof.
  induction n as [|n IH]; intros p Hh Hl Hout; [done|]. rewrite !cells_S. f_equal.
  - unfold cell. rewrite zget_zset_ne; [done|]. intros E. apply (Hout 0); [lia|]. by rewrite Z.add_0_r.
  - apply IH; [done|done|]. intros j Hj. rewrite <- Z.add_assoc. apply Hout. lia.
Qed.

Lemma count_bound i : 0 <= count i < INTQ_BUFSIZE.
Proof. apply Z.mod_pos_bound. done. Qed.

Lemma bytes_count i : zlen (bytes i) = count i.
Proof. unfold zlen, bytes. rewrite cells_length. pose proof (count_bound i). lia. Qed.

Lemma next_mod p : 0 <= p < INTQ_BUFSIZE -> next p = (p + 1) mod INTQ_BUFSIZE /\ 0 <= next p < INTQ_BUFSIZE.
Proof.
  intros Hp. unfold next. rewrite Z.rem_mod_nonneg by (unfold INTQ_BUFSIZE in *; lia). split; [done|]. by apply Z.mod_pos_bound.
Qed.

(** The tests of intq.c. *)
Lemma empty_bytes i : wf_queue i -> (q_head i =? q_tail i) = bool_decide (bytes i = []).
Proof.
  intros [_ Hh Ht]. unfold bytes, count. destruct (Z.eqb_spec (q_head i) (q_tail i)) as [E|E].
  - rewrite E, Z.sub_diag. by rewrite bool_decide_true.
  - rewrite bool_decide_false; [done|]. intros H. apply (f_equal length) in H. rewrite cells_length in H. cbn in H. unfold INTQ_BUFSIZE in *.
    assert ((q_head i - q_tail i) mod 64 <> 0); [|pose proof (Z.mod_pos_bound (q_head i - q_tail i) 64); lia]. dlia.
Qed.

Lemma full_bytes i : wf_queue i -> (next (q_head i) =? q_tail i) = bool_decide (zlen (bytes i) = INTQ_BUFSIZE - 1).
Proof.
  intros [_ Hh Ht]. rewrite bytes_count. unfold count. destruct (next_mod _ Hh) as [-> _]. unfold INTQ_BUFSIZE in *.
  destruct (Z.eqb_spec ((q_head i + 1) mod 64) (q_tail i)); [rewrite bool_decide_true by dlia|rewrite bool_decide_false by dlia]; done.
Qed.

(** Taking the oldest byte. *)
Lemma take_bytes i : wf_queue i -> bytes i <> [] ->
  zget (q_buf i) (q_tail i) = Some (cell (q_buf i) (q_tail i)) /\
  forall nf ne, let i' := mk_intq nf ne (q_buf i) (q_head i) (next (q_tail i)) in
    wf_queue i' /\ bytes i = cell (q_buf i) (q_tail i) :: bytes i'.
Proof.
  intros [Hl Hh Ht] Hne. assert (count i <> 0) as Hc.
  { intros E. apply Hne. unfold bytes. by rewrite E. }
  pose proof (count_bound i). destruct (next_mod _ Ht) as [En Hn]. split.
  - unfold cell. rewrite Z.mod_small by done. destruct (zget_Some (q_buf i) (q_tail i)) as [a ->]; [lia|done].
  - intros nf ne. cbn zeta. split; [by split|]. unfold bytes at 1. replace (Z.to_nat (count i)) with (S (Z.to_nat (count i - 1))) by lia.
    rewrite cells_S. f_equal. unfold bytes. cbn [q_buf q_tail]. assert (count (mk_intq nf ne (q_buf i) (q_head i) (next (q_tail i))) = count i - 1) as ->.
    { unfold count in *. cbn [q_head q_tail]. rewrite En. unfold INTQ_BUFSIZE in *. dlia. }
    unfold cells. apply map_ext. intros j. unfold cell. do 2 f_equal. rewrite En. by rewrite Z.add_mod_idemp_l.
Qed.

(** Adding a byte. *)
Lemma put_bytes i b : wf_queue i -> zlen (bytes i) <> INTQ_BUFSIZE - 1 ->
  store_at (q_buf i) (q_head i) b = Some (zset (q_buf i) (q_head i) (u8 b)) /\
  forall nf ne, let i' := mk_intq nf ne (zset (q_buf i) (q_head i) (u8 b)) (next (q_head i)) (q_tail i) in
    wf_queue i' /\ bytes i' = bytes i ++ [u8 b].
Proof.
  intros [Hl Hh Ht] Hne. rewrite bytes_count in Hne. pose proof (count_bound i). destruct (next_mod _ Hh) as [En Hn]. split.
  - unfold store_at. rewrite (proj2 (Z.leb_le _ _)), (proj2 (Z.ltb_lt _ _)) by lia. done.
  - intros nf ne. cbn zeta. split; [split; [cbn [q_buf]; by rewrite zlen_zset|done|done]|]. unfold bytes. cbn [q_buf q_tail].
    assert (count (mk_intq nf ne (zset (q_buf i) (q_head i) (u8 b)) (next (q_head i)) (q_tail i)) = count i + 1) as ->.
    { unfold count in *. cbn [q_head q_tail]. rewrite En. unfold INTQ_BUFSIZE in *. dlia. }
    replace (Z.to_nat (count i + 1)) with (S (Z.to_nat (count i))) by lia. rewrite cells_snoc.
    assert ((q_tail i + count i) mod INTQ_BUFSIZE = q_head i) as Eh by (unfold count, INTQ_BUFSIZE in *; dlia).
    f_equal.
    + apply cells_store; [done|done|]. intros j Hj E. unfold count, INTQ_BUFSIZE in *. rewrite Z2Nat.id in Hj by lia. dlia.
    + unfold cell. rewrite Z2Nat.id by lia. rewrite Eh. rewrite zget_zset_eq by lia. done.
Qed.
End Cells.

(** ** Runs *)

(** The waiting thread goes to the end of the run queue. *)
Definition wake (t : Z) (k : K) : K := match threads k !! t with Some th => if t =? NULL then k else made_ready t th k | None => k end.

(** A waiter is blocked, or there is none. *)
Definition can_wake (k : K) (t : Z) : Prop :=
  t = NULL \/ exists th, threads k !! t = Some th /\ t_magic th = THREAD_MAGIC /\ status th = THREAD_BLOCKED.

Lemma unblock_off_run k t th : intr_on k = false -> t <> NULL -> threads k !! t = Some th -> t_magic th = THREAD_MAGIC ->
  status th = THREAD_BLOCKED -> thread_unblock t k = Done (tt, made_ready t th k).
Proof.
  intros Ho H0 Ht Hm Hb. unfold thread_unblock. erewrite bind_done by (unfold get_thread, load; by rewrite Ht).
  erewrite bind_done by (apply assert_done; unfold is_thread; rewrite Hm, Z.eqb_refl; by destruct (Z.eqb_spec t NULL)).
  erewrite bind_done by done. rewrite Ho. erewrite bind_done by (apply assert_done; by rewrite Hb). erewrite bind_done by done.
  erewrite bind_done by (unfold set_status; erewrite bind_done by (unfold get_thread, load; cbn; by rewrite Ht); done).
  erewrite bind_done by done. unfold made_ready. destruct k. cbn in Ho. subst. done.
Qed.

Lemma wake_intr t k : intr_on (wake t k) = intr_on k /\ in_external_intr (wake t k) = in_external_intr k.
Proof. unfold wake. destruct (threads k !! t); [|done]. by destruct (t =? NULL). Qed.

Section Runs.
Context {hw : Type} `{Ports hw}.
Implicit Types (d : dev hw) (i : intq) (q t : Z).

Lemma kern_run {A} (m : M K A) d a k' : m (d_kern d) = Done (a, k') -> on_kern m d = Done (a, with_kern k' d).
Proof. intros E. unfold on_kern. by rewrite E. Qed.

Lemma with_kern_id d : with_kern (d_kern d) d = d.
Proof. by destruct d. Qed.

(** Interrupts are off. *)
Definition off d : Prop := intr_on (d_kern d) = false.

Lemma assert_off_run d : off d -> on_kern assert_intr_off d = Done (tt, d).
Proof. intros Ho. erewrite kern_run by by apply intr_off_run. by rewrite with_kern_id. Qed.

Lemma get_queue_run d q i : d_queues d !! q = Some i -> get_queue q d = Done (i, d).
Proof. intros E. unfold get_queue, load. by rewrite E. Qed.

Lemma empty_run d q i : off d -> d_queues d !! q = Some i -> wf_queue i -> intq_empty q d = Done (bool_decide (bytes i = []), d).
Proof.
  intros Ho Hq Hw. unfold intq_empty. erewrite bind_done by by apply assert_off_run.
  erewrite bind_done by by apply get_queue_run. by rewrite empty_bytes.
Qed.

Lemma full_run d q i : off d -> d_queues d !! q = Some i -> wf_queue i ->
  intq_full q d = Done (bool_decide (zlen (bytes i) = INTQ_BUFSIZE - 1), d).
Proof.
  intros Ho Hq Hw. unfold intq_full. erewrite bind_done by by apply assert_off_run.
  erewrite bind_done by by apply get_queue_run. by rewrite full_bytes.
Qed.

(** The condition holds of the bytes. *)
Definition cond_holds (c : condition) i : bool :=
  match c with NotFull => negb (bool_decide (zlen (bytes i) = INTQ_BUFSIZE - 1)) | NotEmpty => negb (bool_decide (bytes i = [])) end.

Lemma holds_run d q i c : off d -> d_queues d !! q = Some i -> wf_queue i -> holds q c d = Done (cond_holds c i, d).
Proof.
  intros Ho Hq Hw. unfold holds. destruct c; [erewrite bind_done by by eapply full_run|erewrite bind_done by by eapply empty_run]; done.
Qed.

(** The waiting thread, if there is one, is made ready and forgotten. *)
Definition signalled q c i d : dev hw :=
  with_queues (<[q := set_waiter c NULL i]> (d_queues d)) (with_kern (wake (waiter c i) (d_kern d)) d).

Lemma signal_run d q i c : off d -> d_queues d !! q = Some i -> wf_queue i -> cond_holds c i = true -> can_wake (d_kern d) (waiter c i) ->
  signal q c d = Done (tt, signalled q c i d).
Proof.
  intros Ho Hq Hw Hc Hcan. unfold signal. erewrite bind_done by by apply assert_off_run.
  erewrite bind_done by by apply holds_run. erewrite bind_done by by apply assert_done. erewrite bind_done by by apply get_queue_run.
  unfold signalled, wake. destruct Hcan as [E|(th & Ht & Hm & Hb)].
  - rewrite E. cbn [negb Z.eqb NULL]. assert (set_waiter c NULL i = i) as -> by (rewrite <- E; by destruct c, i).
    rewrite insert_id by done. change (NULL =? NULL) with true. destruct (threads (d_kern d) !! NULL); by destruct d.
  - destruct (Z.eqb_spec (waiter c i) NULL) as [E|E]; cbn [negb].
    + rewrite E. assert (set_waiter c NULL i = i) as -> by (rewrite <- E; by destruct c, i).
      rewrite insert_id by done. destruct (threads (d_kern d) !! NULL); by destruct d.
    + erewrite bind_done by (apply kern_run, (unblock_off_run _ _ th); done). erewrite bind_done by by apply get_queue_run. by rewrite Ht.
Qed.

(** The queue after a byte has been taken or put, and its waiter woken. *)
Definition took q i d : dev hw :=
  signalled q NotFull (mk_intq (not_full i) (not_empty i) (q_buf i) (q_head i) (next (q_tail i)))
    (with_queues (<[q := mk_intq (not_full i) (not_empty i) (q_buf i) (q_head i) (next (q_tail i))]> (d_queues d)) d).
Definition gave q i b d : dev hw :=
  signalled q NotEmpty (mk_intq (not_full i) (not_empty i) (zset (q_buf i) (q_head i) (u8 b)) (next (q_head i)) (q_tail i))
    (with_queues (<[q := mk_intq (not_full i) (not_empty i) (zset (q_buf i) (q_head i) (u8 b)) (next (q_head i)) (q_tail i)]> (d_queues d)) d).

Lemma getc_run d q i b bs : off d -> d_queues d !! q = Some i -> wf_queue i -> bytes i = b :: bs -> can_wake (d_kern d) (not_full i) ->
  intq_getc q d = Done (Some b, took q i d).
Proof.
  intros Ho Hq Hw Hb Hcan. unfold intq_getc. erewrite bind_done by by apply assert_off_run. erewrite bind_done by by eapply empty_run.
  rewrite bool_decide_false by by rewrite Hb. erewrite bind_done by by apply get_queue_run.
  destruct (take_bytes i Hw) as [Hz Hrest]; [by rewrite Hb|]. destruct (Hrest (not_full i) (not_empty i)) as [Hw' Hb']. rewrite Hb in Hb'. injection Hb' as E1 E2.
  erewrite bind_done by (unfold load; by rewrite Hz). erewrite bind_done by done.
  erewrite bind_done; [by rewrite E1|]. apply signal_run; [done|cbn; apply lookup_insert_eq|done| |done].
  cbn [cond_holds]. rewrite bool_decide_false; [done|]. rewrite <- E2. pose proof (bytes_count i) as E. rewrite Hb, zlen_cons in E. pose proof (count_bound i). lia.
Qed.

Lemma putc_run d q i b : off d -> d_queues d !! q = Some i -> wf_queue i -> zlen (bytes i) <> INTQ_BUFSIZE - 1 -> can_wake (d_kern d) (not_empty i) ->
  intq_putc q b d = Done (true, gave q i b d).
Proof.
  intros Ho Hq Hw Hb Hcan. unfold intq_putc. erewrite bind_done by by apply assert_off_run. erewrite bind_done by by eapply full_run.
  rewrite bool_decide_false by done. erewrite bind_done by by apply get_queue_run.
  destruct (put_bytes i b Hw Hb) as [Hz Hrest]. destruct (Hrest (not_full i) (not_empty i)) as [Hw' Hb'].
  erewrite bind_done by (unfold load; by rewrite Hz). erewrite bind_done by done.
  erewrite bind_done; [done|]. apply signal_run; [done|cbn; apply lookup_insert_eq|done| |done].
  cbn [cond_holds]. rewrite bool_decide_false; [done|]. rewrite Hb'. by destruct (bytes i).
Qed.

(** *** Queues with nothing to take, or no room *)

(** The current thread runs and does not hold the lock. *)
Record may_sleep d q (th : thread) (lk : lock) : Prop := {
  ms_ext : in_external_intr (d_kern d) = false;
  ms_thread : threads (d_kern d) !! current (d_kern d) = Some th;
  ms_run : status th = THREAD_RUNNING;
  ms_magic : t_magic th = THREAD_MAGIC;
  ms_null : current (d_kern d) <> NULL;
  ms_lock : locks (d_kern d) !! q = Some lk;
  ms_free : holder lk <> current (d_kern d);
  ms_addr : q <> NULL
}.

(** It has asked for the lock, and will do [w] with it. *)
Definition asks q w th lk d : dev hw :=
  with_works (<[current (d_kern d) := w :: default [] (d_works d !! current (d_kern d))]> (d_works d))
    (with_kern (with_stack (FDown (l_sema lk) :: FHold q :: frames th) th (d_kern d)) d).

Lemma asks_run d q th lk w : may_sleep d q th lk ->
  (on_kern assert_no_context ;; on_kern (lock_acquire q) ;; push_work w) d = Done (tt, asks q w th lk d).
Proof.
  intros [He Ht Hr Hm Hn Hl Hf Hq]. erewrite bind_done by (apply kern_run; by apply no_context_run). rewrite with_kern_id.
  assert (lock_acquire q (d_kern d) = Done (tt, with_stack (FDown (l_sema lk) :: FHold q :: frames th) th (d_kern d))) as Ha.
  { unfold lock_acquire. erewrite bind_done by (apply assert_done; by destruct (Z.eqb_spec q NULL)).
    erewrite bind_done by by apply no_context_run. unfold lock_held_by_current_thread.
    erewrite bind_done; [|erewrite bind_done by (apply assert_done; by destruct (Z.eqb_spec q NULL));
      erewrite bind_done by (unfold get_lock, load; by rewrite Hl); by erewrite bind_done by by eapply thread_current_run].
    erewrite bind_done by (apply assert_done; by destruct (Z.eqb_spec (holder lk) (current (d_kern d)))).
    erewrite bind_done by (unfold get_lock, load; by rewrite Hl). erewrite bind_done by by apply push_frame_run.
    rewrite (push_frame_run _ _ (with_frames (FHold q :: frames th) th)) by (cbn; apply lookup_insert_eq). cbn [frames with_frames].
    by rewrite with_stack_frames, with_stack_stack. }
  erewrite bind_done by (apply kern_run; exact Ha). done.
Qed.
End Runs.


(** ** Bounded queues *)

(** The waiting threads can be woken, one after the other. *)
Definition can_signal (k : K) (i : intq) : Prop :=
  can_wake k (not_full i) /\ can_wake k (not_empty i) /\ (not_full i = NULL \/ not_full i <> not_empty i).

Lemma can_wake_other k t u : can_wake k t -> u = NULL \/ u <> t -> can_wake (wake u k) t.
Proof.
  intros [?|(th & Ht & Hm & Hb)] Hu; [by left|]. destruct (decide (u = NULL)) as [->|Hn].
  { unfold wake. change (NULL =? NULL) with true. right. exists th. by destruct (threads k !! NULL). }
  destruct Hu as [?|Hu]; [done|]. right. exists th. unfold wake. destruct (threads k !! u) as [tu|]; [|done].
  destruct (u =? NULL); [done|]. unfold made_ready. cbn. by rewrite lookup_insert_ne.
Qed.

Lemma can_wake_null k : can_wake k NULL.
Proof. by left. Qed.

(** A queue ready for use with interrupts off. *)
Record queue_at {hw} (q : Z) (i : intq) (d : dev hw) : Prop := {
  qa_off : off d;
  qa_queue : d_queues d !! q = Some i;
  qa_wf : wf_queue i;
  qa_wake : can_signal (d_kern d) i
}.

Inductive qop := Put (b : Z) | Get.

Definition spec_op (o : qop) (l : list Z) : option (list Z * list Z) :=
  match o, l with
  | Put b, _ => if decide (zlen l = INTQ_BUFSIZE - 1) then None else Some ([], l ++ [u8 b])
  | Get, b :: l => Some ([b], l)
  | Get, [] => None
  end.

Fixpoint spec_ops (ops : list qop) (l : list Z) : option (list Z * list Z) :=
  match ops with
  | [] => Some ([], l)
  | o :: ops => '(out, l) ← spec_op o l; '(outs, l) ← spec_ops ops l; Some (out ++ outs, l)
  end.

Section Queues.
Context {hw : Type} `{Ports hw}.
Implicit Types (d : dev hw) (i : intq) (q t : Z).

Definition queue_op (q : Z) (o : qop) : M (dev hw) (option (list Z)) :=
  match o with
  | Put b => done ← intq_putc q b; mret (if done : bool then Some [] else None)
  | Get => r ← intq_getc q; mret (match r with Some b => Some [b] | None => None end)
  end.

(** Up to the first call that has to wait. *)
Fixpoint queue_ops (q : Z) (ops : list qop) : M (dev hw) (option (list Z)) :=
  match ops with
  | [] => mret (Some [])
  | o :: ops =>
      r ← queue_op q o;
      match r with
      | None => mret None
      | Some out => r ← queue_ops q ops; mret (match r with Some outs => Some (out ++ outs) | None => None end)
      end
  end.

Definition same_devices q d d' : Prop :=
  (forall p, p <> q -> d_queues d' !! p = d_queues d !! p) /\ d_works d' = d_works d /\ d_ret d' = d_ret d /\
  d_hw d' = d_hw d /\ d_mode d' = d_mode d /\ d_kbd d' = d_kbd d /\ d_reboot d' = d_reboot d.

Lemma same_devices_refl q d : same_devices q d d.
Proof. by repeat split. Qed.

Lemma same_devices_trans q d d1 d2 : same_devices q d d1 -> same_devices q d1 d2 -> same_devices q d d2.
Proof.
  intros (A & B1 & B2 & B3 & B4 & B5 & B6) (A' & C1 & C2 & C3 & C4 & C5 & C6).
  split; [intros p Hp; by rewrite A', A|]. repeat split; congruence.
Qed.

Lemma took_at q i b bs d : queue_at q i d -> bytes i = b :: bs -> exists i', queue_at q i' (took q i d) /\ bytes i' = bs /\
  not_full i' = NULL /\ not_empty i' = not_empty i /\ d_kern (took q i d) = wake (not_full i) (d_kern d) /\ same_devices q d (took q i d).
Proof.
  intros [Ho Hq Hw [Hf [He Hd]]] Hb. destruct (take_bytes i Hw) as [_ Hrest]; [by rewrite Hb|].
  destruct (Hrest NULL (not_empty i)) as [Hw' Hb']. rewrite Hb in Hb'. injection Hb' as _ Eb.
  eexists. split; [|split; [symmetry; exact Eb|]].
  - split; [unfold off, took, signalled; cbn; by destruct (wake_intr (not_full i) (d_kern d)) as [-> _]
      |unfold took, signalled; cbn; apply lookup_insert_eq|done|].
    split; [apply can_wake_null|]. cbn [not_empty d_kern took signalled with_queues with_kern waiter not_full].
    split; [|by left]. by apply can_wake_other.
  - repeat split. unfold took, signalled. cbn. intros p Hp. by rewrite !lookup_insert_ne.
Qed.

Lemma gave_at q i b d : queue_at q i d -> zlen (bytes i) <> INTQ_BUFSIZE - 1 -> exists i', queue_at q i' (gave q i b d) /\
  bytes i' = bytes i ++ [u8 b] /\
  not_full i' = not_full i /\ not_empty i' = NULL /\ d_kern (gave q i b d) = wake (not_empty i) (d_kern d) /\ same_devices q d (gave q i b d).
Proof.
  intros [Ho Hq Hw [Hf [He Hd]]] Hb. destruct (put_bytes i b Hw Hb) as [_ Hrest].
  destruct (Hrest (not_full i) NULL) as [Hw' Hb'].
  eexists. split; [|split; [exact Hb'|]].
  - split; [unfold off, gave, signalled; cbn; by destruct (wake_intr (not_empty i) (d_kern d)) as [-> _]
      |unfold gave, signalled; cbn; apply lookup_insert_eq|done|].
    cbn [not_empty d_kern gave signalled with_queues with_kern waiter not_full].
    split; [|split; [apply can_wake_null|]]; cbn [not_full not_empty]; [|destruct (decide (not_full i = NULL)); auto].
    apply can_wake_other; [done|]. destruct (decide (not_empty i = NULL)); [by left|]. destruct (decide (not_full i = NULL)); [right; congruence|].
    right. destruct Hd; congruence.
  - repeat split. unfold gave, signalled. cbn. intros p Hp. by rewrite !lookup_insert_ne.
Qed.

(** A call in an interrupt handler that would have to wait. *)
Lemma context_panic d : in_external_intr (d_kern d) = true -> on_kern assert_no_context d = Panic.
Proof. intros He. unfold on_kern, assert_no_context, intr_context, bnd, mbind, M_bind, outcome_bind, gets, ASSERT. by rewrite He. Qed.

Lemma getc_handler_run q i d : queue_at q i d -> bytes i = [] -> in_external_intr (d_kern d) = true -> intq_getc q d = Panic.
Proof.
  intros [Ho Hq Hw _] Hb He. unfold intq_getc. erewrite bind_done by by apply assert_off_run. erewrite bind_done by by eapply empty_run.
  rewrite bool_decide_true by done. apply bind_panic. by apply context_panic.
Qed.

Lemma putc_handler_run q i b d : queue_at q i d -> zlen (bytes i) = INTQ_BUFSIZE - 1 -> in_external_intr (d_kern d) = true -> intq_putc q b d = Panic.
Proof.
  intros [Ho Hq Hw _] Hb He. unfold intq_putc. erewrite bind_done by by apply assert_off_run. erewrite bind_done by by eapply full_run.
  rewrite bool_decide_true by done. apply bind_panic. by apply context_panic.
Qed.

Lemma getc_sleep_run q i d th lk : queue_at q i d -> bytes i = [] -> may_sleep d q th lk ->
  intq_getc q d = Done (None, asks q (WGetWait q) th lk d).
Proof.
  intros [Ho Hq Hw _] Hb Hs. unfold intq_getc. erewrite bind_done by by apply assert_off_run. erewrite bind_done by by eapply empty_run.
  rewrite bool_decide_true by done. pose proof (asks_run d q th lk (WGetWait q) Hs) as E.
  revert E. unfold bnd, mbind, M_bind. destruct (on_kern assert_no_context d) as [[[] d1]| | |]; try done.
  destruct (on_kern (lock_acquire q) d1) as [[[] d2]| | |]; try done. by intros ->.
Qed.

Lemma queue_op_run q i d o : queue_at q i d ->
  match spec_op o (bytes i) with
  | Some (out, l) => exists d' i', queue_op q o d = Done (Some out, d') /\ queue_at q i' d' /\ bytes i' = l /\ same_devices q d d' /\
      in_external_intr (d_kern d') = in_external_intr (d_kern d)
  | None => in_external_intr (d_kern d) = true -> queue_op q o d = Panic
  end.
Proof.
  intros Hi. pose proof Hi as [Ho Hq Hw [Hf [He _]]]. destruct o as [b|]; cbn [spec_op queue_op].
  - case_decide as Hb.
    + intros Hx. apply bind_panic. by eapply putc_handler_run.
    + destruct (gave_at q i b d Hi Hb) as (i' & Hi' & Eb & _ & _ & Ek & Hs). exists (gave q i b d), i'.
      split; [by erewrite bind_done by by apply putc_run|]. split; [done|]. split; [done|]. split; [done|]. rewrite Ek. apply wake_intr.
  - destruct (bytes i) as [|b bs] eqn:Hb.
    + intros Hx. apply bind_panic. by eapply getc_handler_run.
    + destruct (took_at q i b bs d Hi Hb) as (i' & Hi' & Eb & _ & _ & Ek & Hs). exists (took q i d), i'.
      split; [by erewrite bind_done by by eapply getc_run|]. split; [done|]. split; [done|]. split; [done|]. rewrite Ek. apply wake_intr.
Qed.

(** C20: in an interrupt handler, a queue is a bounded queue of 63 bytes: any sequence of
    intq_putc and intq_getc that a first-in first-out list of at most 63 bytes allows
    returns the bytes the list gives and leaves the bytes the list holds, whatever
    threads wait for the queue, and touches no other queue and nothing else of the
    devices; a sequence that goes past the empty or the full list fails the
    assertion. *)
Theorem intq_refines q ops : forall d i (Hi : queue_at q i d) (Hx : in_external_intr (d_kern d) = true),
  match spec_ops ops (bytes i) with
  | Some (out, l) => exists d' i', queue_ops q ops d = Done (Some out, d') /\ queue_at q i' d' /\ bytes i' = l /\ same_devices q d d'
  | None => queue_ops q ops d = Panic
  end.
Proof.
  induction ops as [|o ops IH]; intros d i Hi Hx.
  { exists d, i. split; [done|]. split; [done|]. split; [done|]. apply same_devices_refl. }
  cbn [spec_ops queue_ops]. pose proof (queue_op_run q i d o Hi) as Hop.
  destruct (spec_op o (bytes i)) as [[out l]|]; cbn [bnd mbind option_bind]; [|apply bind_panic; auto].
  destruct Hop as (d1 & i1 & E1 & Hi1 & Eb & Hs & Ex). specialize (IH d1 i1 Hi1 ltac:(by rewrite Ex)). rewrite Eb in IH.
  destruct (spec_ops ops l) as [[outs l']|]; cbn.
  - destruct IH as (d' & i' & E2 & Hi2 & Eb2 & Hs2). exists d', i'.
    split; [erewrite bind_done by exact E1; cbn beta iota; by erewrite bind_done by exact E2|]. split; [done|]. split; [done|]. by eapply same_devices_trans.
  - erewrite bind_done by exact E1. by apply bind_panic.
Qed.

(** Intq_getc takes the oldest byte and wakes the thread that waits for room,
    which goes to the end of the run queue, and no other; on an empty queue a thread
    asks for the queue's lock, to wait with it, and an interrupt handler fails the
    assertion. *)
Theorem intq_getc_correct q i d (Hi : queue_at q i d) :
  match bytes i with
  | b :: bs => exists d' i', intq_getc q d = Done (Some b, d') /\ queue_at q i' d' /\ bytes i' = bs /\
      not_full i' = NULL /\ not_empty i' = not_empty i /\ d_kern d' = wake (not_full i) (d_kern d) /\ same_devices q d d'
  | [] => (forall th lk, may_sleep d q th lk -> intq_getc q d = Done (None, asks q (WGetWait q) th lk d)) /\
      (in_external_intr (d_kern d) = true -> intq_getc q d = Panic)
  end.
Proof.
  destruct (bytes i) as [|b bs] eqn:Hb.
  - split; [intros th lk; by eapply getc_sleep_run|by eapply getc_handler_run].
  - destruct (took_at q i b bs d Hi Hb) as (i' & Hi' & ?). exists (took q i d), i'.
    split; [|by split]. destruct Hi as [? ? ? [? _]]. by eapply getc_run.
Qed.
End Queues.
