(* ===== verification/Drivers.v ===== *)
(** * The handlers of the keyboard and of the serial port

    Whatever the hardware answers, the handlers end; on the bytes of the input
    buffer and of the transmit queue they are the functions of lists below.  A text
    typed on the keyboard arrives in the input buffer. *)

From Stdlib Require Import Ascii.
From Stdlib Require Import(notations) String.
From S2P Require Import Prelude KList Kernel KernelRuns Sched KernelSpec KernelDemo Stdio Devices DevicesSpec.

(** ** The two queues together *)

(** No thread waits for two things. *)
Definition apart (i j : intq) : Prop := forall c c', waiter c i = NULL \/ waiter c i <> waiter c' j.

Definition is_full (l : list Z) : bool := bool_decide (zlen l = INTQ_BUFSIZE - 1).
Definition is_nil (l : list Z) : bool := bool_decide (l = []).

(** The interrupts write_ier asks for, from the bytes of the input buffer and of the
    transmit queue. *)
Definition ier_of (rx tx : list Z) : Z := Z.lor (if is_nil tx then 0 else IER_XMIT) (if is_full rx then 0 else IER_RECV).

Section Drivers.
Context {hw : Type} `{Ports hw} (buffer txq : Z).
Hypothesis Hbt : buffer <> txq.
Implicit Types (d : dev hw) (i j : intq) (q t : Z).

Record ports_at (i j : intq) (d : dev hw) : Prop := {
  pa_in : queue_at buffer i d;
  pa_out : queue_at txq j d;
  pa_apart : apart i j;
  pa_mode : d_mode d = QUEUE
}.

Lemma inb_run p d : inb p d = Done (u8 (port_in p (d_hw d)).1, with_hw (port_in p (d_hw d)).2 d).
Proof. unfold inb. by destruct (port_in p (d_hw d)). Qed.

Lemma queue_at_hw q i h d : queue_at q i d -> queue_at q i (with_hw h d).
Proof. by intros [? ? ? ?]. Qed.

Lemma ports_at_hw i j h d : ports_at i j d -> ports_at i j (with_hw h d).
Proof. intros [? ? ? ?]. split; [by apply queue_at_hw|by apply queue_at_hw|done|done]. Qed.

Lemma queue_at_kbd q i s d : queue_at q i d -> queue_at q i (with_kbd s d).
Proof. by intros [? ? ? ?]. Qed.

Lemma ports_at_kbd i j s d : ports_at i j d -> ports_at i j (with_kbd s d).
Proof. intros [? ? ? ?]. split; [by apply queue_at_kbd|by apply queue_at_kbd|done|done]. Qed.

(** A queue while the other is used. *)
Lemma queue_at_other p q i d d' t : p <> q -> queue_at p i d -> off d' -> same_devices q d d' -> d_kern d' = wake t (d_kern d) ->
  (t = NULL \/ forall c, t <> waiter c i) -> queue_at p i d'.
Proof.
  intros Hpq [_ Hq Hw [Hf [He Hd]]] Ho' (Hs & _) Ek Ht. split; [done|by rewrite Hs|done|]. rewrite Ek.
  split; [|split; [|done]]; (apply can_wake_other; [done|]); (destruct Ht as [?|Ht]; [by left|right]);
    [apply (Ht NotFull)|apply (Ht NotEmpty)].
Qed.

Lemma write_ier_run i j d : ports_at i j d ->
  write_ier buffer txq d = Done (tt, with_hw (port_out IER_REG (ier_of (bytes i) (bytes j)) (d_hw d)) d).
Proof.
  intros [[Ho Hq Hw _] [_ Hq' Hw' _] _ _]. unfold write_ier. erewrite bind_done by by apply assert_off_run.
  erewrite bind_done by by eapply empty_run. unfold input_full.
  erewrite bind_done by (erewrite bind_done by (by apply assert_off_run); by eapply full_run).
  unfold outb, modify, ier_of, is_nil, is_full. do 4 f_equal. by repeat case_bool_decide.
Qed.

Lemma notify_run i j d : ports_at i j d ->
  serial_notify buffer txq d = Done (tt, with_hw (port_out IER_REG (ier_of (bytes i) (bytes j)) (d_hw d)) d).
Proof.
  intros Hp. pose proof Hp as [[Ho _ _ _] _ _ Hm]. unfold serial_notify. erewrite bind_done by by apply assert_off_run.
  erewrite bind_done by done. rewrite decide_True by done. by apply write_ier_run.
Qed.

Lemma apart_sym i j : apart i j -> apart j i.
Proof. intros Ha c c'. destruct (Ha c' c) as [E|E]; [|right; congruence]. destruct (decide (waiter c j = NULL)); [by left|right; congruence]. Qed.

(** A use of the input buffer that wakes a thread that waited for it. *)
Lemma ports_in i i' j c d d' : ports_at i j d -> queue_at buffer i' d' -> same_devices buffer d d' -> d_kern d' = wake (waiter c i) (d_kern d) ->
  (forall c', waiter c' i' = NULL \/ waiter c' i' = waiter c' i) -> ports_at i' j d'.
Proof.
  intros [Hi Hj Ha Hm] Hi' Hs Ek Hc. split; [done| | |].
  - eapply queue_at_other; [by apply not_eq_sym|exact Hj|apply Hi'|exact Hs|exact Ek|].
    destruct (decide (waiter c i = NULL)); [by left|right]. intros c'. by destruct (Ha c c').
  - intros c1 c2. destruct (Hc c1) as [->| ->]; [by left|apply Ha].
  - destruct Hs as (_ & _ & _ & _ & -> & _). done.
Qed.

(** The same for the transmit queue. *)
Lemma ports_out i j j' c d d' : ports_at i j d -> queue_at txq j' d' -> same_devices txq d d' -> d_kern d' = wake (waiter c j) (d_kern d) ->
  (forall c', waiter c' j' = NULL \/ waiter c' j' = waiter c' j) -> ports_at i j' d'.
Proof.
  intros [Hi Hj Ha Hm] Hj' Hs Ek Hc. apply apart_sym in Ha. split; [|done| |].
  - eapply queue_at_other; [exact Hbt|exact Hi|apply Hj'|exact Hs|exact Ek|].
    destruct (decide (waiter c j = NULL)); [by left|right]. intros c'. by destruct (Ha c c').
  - apply apart_sym. intros c1 c2. destruct (Hc c1) as [->| ->]; [by left|apply Ha].
  - destruct Hs as (_ & _ & _ & _ & -> & _). done.
Qed.

Lemma input_full_run i j d : ports_at i j d -> input_full buffer d = Done (is_full (bytes i), d).
Proof. intros [[Ho Hq Hw _] _ _ _]. unfold input_full. erewrite bind_done by by apply assert_off_run. by eapply full_run. Qed.

Lemma input_putc_ports i j b d : ports_at i j d -> is_full (bytes i) = false -> exists i' d',
  input_putc buffer txq b d = Done (tt, d') /\ ports_at i' j d' /\ bytes i' = bytes i ++ [u8 b] /\ not_empty i' = NULL /\
  d_hw d' = port_out IER_REG (ier_of (bytes i') (bytes j)) (d_hw d) /\
  d_kern d' = wake (not_empty i) (d_kern d) /\ d_kbd d' = d_kbd d /\ d_reboot d' = d_reboot d.
Proof.
  intros Hp Hf. pose proof Hp as [Hi Hj Ha Hm]. pose proof Hi as [Ho Hq Hw [_ [He _]]].
  assert (zlen (bytes i) <> INTQ_BUFSIZE - 1) as Hn by by apply bool_decide_eq_false in Hf.
  destruct (gave_at buffer i b d Hi Hn) as (i' & Hi' & Eb & Enf & Ene & Ek & Hs).
  assert (ports_at i' j (gave buffer i b d)) as Hp'.
  { eapply (ports_in i i' j NotEmpty d); try done. intros []; auto. }
  exists i', (with_hw (port_out IER_REG (ier_of (bytes i') (bytes j)) (d_hw d)) (gave buffer i b d)).
  split; [|split; [by apply ports_at_hw|]; by destruct Hs as (_ & _ & _ & _ & _ & ? & ?)].
  unfold input_putc. erewrite bind_done by by apply assert_off_run. erewrite bind_done by by eapply full_run.
  erewrite bind_done by (apply assert_done; by rewrite bool_decide_false).
  erewrite bind_done by by apply putc_run. erewrite notify_run by exact Hp'.
  destruct Hs as (_ & _ & _ & -> & _). done.
Qed.

(** ** The serial port *)

(** Bytes are received while the port has one and the input buffer has room. *)
Fixpoint received (room : nat) (rx tx : list Z) (h : hw) : list Z * hw :=
  match room with
  | O => (rx, h)
  | S room =>
      let '(s, h) := port_in LSR_REG h in
      if Z.land (u8 s) LSR_DR =? 0 then (rx, h)
      else
        let '(b, h) := port_in RBR_REG h in
        let rx := rx ++ [u8 b] in
        received room rx tx (port_out IER_REG (ier_of rx tx) h)
  end.

(** Bytes are sent, oldest first, while the port takes them. *)
Fixpoint transmitted (tx : list Z) (h : hw) : list Z * hw :=
  match tx with
  | [] => ([], h)
  | b :: tx' =>
      let '(s, h) := port_in LSR_REG h in
      if Z.land (u8 s) LSR_THRE =? 0 then (tx, h) else transmitted tx' (port_out THR_REG (u8 b) h)
  end.

Definition woken (t : Z) (before after : list Z) (k : K) : K := if decide (before = after) then k else wake t k.

Lemma u8_u8 z : u8 (u8 z) = u8 z.
Proof. apply u8_small, u8_range. Qed.

Lemma wake_null k : wake NULL k = k.
Proof. unfold wake. change (NULL =? NULL) with true. by destruct (threads k !! NULL). Qed.

Lemma received_prefix room : forall rx tx h, exists l, (received room rx tx h).1 = rx ++ l.
Proof.
  induction room as [|room IH]; intros rx tx h; [by exists []; rewrite app_nil_r|]. cbn. destruct (port_in LSR_REG h) as [s h1].
  case_match; [by exists []; rewrite app_nil_r|]. destruct (port_in RBR_REG h1) as [b h2].
  destruct (IH (rx ++ [u8 b]) tx (port_out IER_REG (ier_of (rx ++ [u8 b]) tx) h2)) as [l ->]. exists (u8 b :: l). by rewrite <- app_assoc.
Qed.

Lemma transmitted_suffix tx : forall h, exists l, tx = l ++ (transmitted tx h).1.
Proof.
  induction tx as [|b tx IH]; intros h; [by exists []|]. cbn. destruct (port_in LSR_REG h) as [s h1]. case_match; [by exists []|].
  destruct (IH (port_out THR_REG (u8 b) h1)) as [l El]. exists (b :: l). cbn. by f_equal.
Qed.

(** What is left of the devices besides the queues, the threads and the port. *)
Definition same_keys d d' : Prop := d_kbd d' = d_kbd d /\ d_reboot d' = d_reboot d.

Lemma receive_loop_run n : forall i j d, ports_at i j d -> (Z.to_nat (INTQ_BUFSIZE - 1 - zlen (bytes i)) < n)%nat -> exists i' d',
  let r := received (Z.to_nat (INTQ_BUFSIZE - 1 - zlen (bytes i))) (bytes i) (bytes j) (d_hw d) in
  receive_loop buffer txq n d = Done (tt, d') /\ ports_at i' j d' /\ bytes i' = r.1 /\ d_hw d' = r.2 /\
  d_kern d' = woken (not_empty i) (bytes i) r.1 (d_kern d) /\ same_keys d d'.
Proof.
  induction n as [|n IH]; intros i j d Hp Hn; [lia|]. cbn [receive_loop]. erewrite bind_done by by eapply input_full_run.
  pose proof (bytes_count i) as Ec. pose proof (count_bound i) as Hc.
  unfold is_full. case_bool_decide as Hf.
  { rewrite Hf. replace (Z.to_nat _) with O by (unfold INTQ_BUFSIZE; lia). cbn. exists i, d. unfold woken. by rewrite decide_True. }
  destruct (Z.to_nat (INTQ_BUFSIZE - 1 - zlen (bytes i))) as [|room] eqn:Er; [unfold INTQ_BUFSIZE in *; lia|]. cbn [received].
  erewrite bind_done by apply inb_run. destruct (port_in LSR_REG (d_hw d)) as [s h1]. cbn [fst snd].
  destruct (Z.land (u8 s) LSR_DR =? 0).
  { exists i, (with_hw h1 d). unfold woken. rewrite decide_True by done. split; [done|]. by split; [apply ports_at_hw|]. }
  erewrite bind_done by apply inb_run. cbn [d_hw with_hw]. destruct (port_in RBR_REG h1) as [b h2]. cbn [fst snd].
  destruct (input_putc_ports i j (u8 b) (with_hw h2 (with_hw h1 d))) as (i1 & d1 & E1 & Hp1 & Eb1 & En1 & Eh1 & Ek1 & Es1 & Er1);
    [by do 2 apply ports_at_hw|by unfold is_full; rewrite bool_decide_false|].
  erewrite bind_done by exact E1. rewrite u8_u8 in Eb1. assert (zlen (bytes i1) = zlen (bytes i) + 1) as El by (rewrite Eb1; unfold zlen; rewrite length_app; cbn; lia).
  assert (Z.to_nat (INTQ_BUFSIZE - 1 - zlen (bytes i1)) = room) as Er' by (unfold INTQ_BUFSIZE in *; lia).
  destruct (IH i1 j d1 Hp1) as (i' & d' & E2 & Hp2 & Eb2 & Eh2 & Ek2 & Es2); [lia|]. rewrite Er' in *. exists i', d'.
  rewrite Eh1, Eb1 in Eb2, Eh2, Ek2. cbn [d_hw with_hw] in Eb2, Eh2, Ek2.
  split; [exact E2|]. split; [done|]. split; [done|]. split; [done|]. split; [|destruct Es2; split; cbn in *; congruence].
  rewrite Ek2, Ek1, En1. destruct (received_prefix room (bytes i ++ [u8 b]) (bytes j) (port_out IER_REG (ier_of (bytes i ++ [u8 b]) (bytes j)) h2)) as [l ->].
  unfold woken. rewrite (decide_False (P := bytes i = _)); [by case_decide; rewrite ?wake_null|].
  intros E. apply (f_equal length) in E. rewrite !length_app in E. cbn in E. lia.
Qed.

Lemma transmit_loop_run n : forall i j d, ports_at i j d -> (length (bytes j) < n)%nat -> exists j' d',
  let r := transmitted (bytes j) (d_hw d) in
  transmit_loop txq n d = Done (tt, d') /\ ports_at i j' d' /\ bytes j' = r.1 /\ d_hw d' = r.2 /\
  d_kern d' = woken (not_full j) (bytes j) r.1 (d_kern d) /\ same_keys d d'.
Proof.
  induction n as [|n IH]; intros i j d Hp Hn; [lia|]. cbn [transmit_loop]. pose proof Hp as [_ Hj _ _]. pose proof Hj as [Ho Hq Hw [Hcf _]].
  erewrite bind_done by by eapply empty_run. destruct (bytes j) as [|b bs] eqn:Eb.
  { rewrite bool_decide_true by done. cbn. exists j, d. unfold woken. rewrite decide_True by done. done. }
  rewrite bool_decide_false by done. erewrite bind_done by apply inb_run. cbn [transmitted].
  destruct (port_in LSR_REG (d_hw d)) as [s h1]. cbn [fst snd].
  destruct (Z.land (u8 s) LSR_THRE =? 0).
  { exists j, (with_hw h1 d). unfold woken. rewrite decide_True by done. split; [done|]. by split; [apply ports_at_hw|]. }
  pose proof (queue_at_hw txq j h1 d Hj) as Hj1.
  destruct (took_at txq j b bs (with_hw h1 d) Hj1 Eb) as (j1 & Hj1' & Eb1 & Ef1 & Ee1 & Ek1 & Hs1).
  assert (ports_at i j1 (took txq j (with_hw h1 d))) as Hp1.
  { eapply (ports_out i j j1 NotFull (with_hw h1 d)); [by apply ports_at_hw|done|done|done|]. intros []; cbn; auto. }
  erewrite bind_done by (unfold take_byte; by erewrite bind_done by by eapply getc_run). erewrite bind_done by done.
  destruct (IH i j1 (with_hw (port_out THR_REG (u8 b) h1) (took txq j (with_hw h1 d)))) as (j' & d' & E2 & Hp2 & Eb2 & Eh2 & Ek2 & Es2);
    [by apply ports_at_hw|rewrite Eb1; cbn in Hn; lia|].
  rewrite Eb1 in Eb2, Eh2, Ek2. cbn [d_hw with_hw] in Eb2, Eh2, Ek2. exists j', d'.
  split; [by destruct Hs1 as (_ & _ & _ & -> & _)|]. split; [done|]. split; [done|]. split; [done|].
  split; [|destruct Es2, Hs1 as (_ & _ & _ & _ & _ & ? & ?); split; cbn in *; congruence].
  rewrite Ek2. cbn [d_kern with_hw]. rewrite Ek1, Ef1. destruct (transmitted_suffix bs (port_out THR_REG (u8 b) h1)) as [l El]. rewrite El at 1 3.
  unfold woken. rewrite (decide_False (P := b :: _ = _)); [by case_decide; rewrite ?wake_null|].
  intros E. apply (f_equal length) in E. cbn in E. rewrite length_app in E. lia.
Qed.

(** The interrupt, on lists. *)
Definition served (rx tx : list Z) (h : hw) : list Z * list Z * hw :=
  let '(_, h) := port_in IIR_REG h in
  let '(rx, h) := received (Z.to_nat (INTQ_BUFSIZE - 1 - zlen rx)) rx tx h in
  let '(tx, h) := transmitted tx h in
  (rx, tx, port_out IER_REG (ier_of rx tx) h).

(** C22: for any hardware, the handler of the serial port ends: it appends the bytes the
    port has to the input buffer, at most up to 63, sends the queued bytes oldest first
    while the port takes them, wakes the thread that waits for a byte if one came and
    the thread that waits for room if one left, and sets the interrupt enable register
    by the queues; it loses no byte and never sleeps. *)
Theorem serial_interrupt_correct i j d (Hp : ports_at i j d) : exists i' j' d',
  serial_interrupt buffer txq d = Done (tt, d') /\ ports_at i' j' d' /\
  (bytes i', bytes j', d_hw d') = served (bytes i) (bytes j) (d_hw d) /\
  d_kern d' = woken (not_full j) (bytes j) (bytes j') (woken (not_empty i) (bytes i) (bytes i') (d_kern d)) /\ same_keys d d'.
Proof.
  unfold serial_interrupt, served. erewrite bind_done by apply inb_run. destruct (port_in IIR_REG (d_hw d)) as [x h]. cbn [fst snd].
  pose proof (count_bound i) as Hci. pose proof (count_bound j) as Hcj. pose proof (bytes_count i) as Eci. pose proof (bytes_count j) as Ecj.
  unfold INTQ_BUFSIZE in *.
  destruct (receive_loop_run 64 i j (with_hw h d)) as (i' & d1 & E1 & Hp1 & Eb1 & Eh1 & Ek1 & Es1 & Er1); [by apply ports_at_hw|unfold INTQ_BUFSIZE; lia|].
  destruct (transmit_loop_run 64 i' j d1 Hp1) as (j' & d2 & E2 & Hp2 & Eb2 & Eh2 & Ek2 & Es2 & Er2); [unfold zlen in Ecj; lia|].
  erewrite bind_done by exact E1. erewrite bind_done by exact E2. cbn [d_hw d_kern with_hw] in Eb1, Eh1, Ek1. unfold INTQ_BUFSIZE in *.
  destruct (received _ _ _ h) as [rx h1]. cbn [fst snd] in *. subst rx. rewrite Eh1 in *.
  destruct (transmitted (bytes j) h1) as [tx h2]. cbn [fst snd] in *. subst tx.
  eexists i', j', _. split; [by apply write_ier_run|]. split; [by apply ports_at_hw|]. split; [by cbn; rewrite Eh2|].
  split; [by cbn; rewrite Ek2, Ek1|]. split; cbn in *; congruence.
Qed.

(** ** The keyboard *)

(** What a key does, given the scancode: a character for the input buffer, if it has
    one, and the state of the modifiers. *)
Inductive key_effect := KNothing | KState (s : kbd) | KReboot | KType (c : Z).

Definition press (s : kbd) (code : Z) : key_effect :=
  let shift := left_shift s || right_shift s in
  let alt := left_alt s || right_alt s in
  let ctrl := left_ctrl s || right_ctrl s in
  let release := negb (Z.land code 0x80 =? 0) in
  let code := Z.land code (u32 (Z.lnot 0x80)) in
  if code =? 0x3a then if release then KNothing else KState (set_caps (negb (caps_lock s)) s)
  else match map_code shift code with
       | Some c => if release then KNothing else if (c =? 127) && ctrl && alt then KReboot else KType (modified shift alt ctrl (caps_lock s) c)
       | None => KState (shift_key code (negb release) s)
       end.

(** A scancode of one byte, or two after 0xe0. *)
Definition scancode (h : hw) : Z * hw :=
  let '(code, h) := port_in DATA_REG h in
  if u8 code =? 0xe0 then let '(b, h) := port_in DATA_REG h in (Z.lor (Z.shiftl (u8 code) 8) (u8 b), h) else (u8 code, h).

(** The character is stored, unless the input buffer is full. *)
Definition typed (c : Z) (rx : list Z) : list Z := if is_full rx then rx else rx ++ [u8 c].

(** What the interrupt does, by the key. *)
Definition key_handled i j d i' d' : Prop :=
  let '(code, h) := scancode (d_hw d) in
  match press (d_kbd d) code with
  | KType c => bytes i' = typed c (bytes i) /\
      (if is_full (bytes i) then d' = with_hw h d
       else d_kbd d' = set_key_cnt (s64 (key_cnt (d_kbd d) + 1)) (d_kbd d) /\ d_reboot d' = d_reboot d /\
         d_kern d' = wake (not_empty i) (d_kern d) /\ d_hw d' = port_out IER_REG (ier_of (bytes i') (bytes j)) h)
  | KState s => i' = i /\ d' = with_kbd s (with_hw h d)
  | KReboot => i' = i /\ d' = rebooting (with_hw h d)
  | KNothing => i' = i /\ d' = with_hw h d
  end.

Lemma keyboard_run i j d : ports_at i j d -> exists i' d',
  keyboard_interrupt buffer txq d = Done (tt, d') /\ ports_at i' j d' /\ key_handled i j d i' d'.
Proof.
  intros Hp. unfold keyboard_interrupt, key_handled, scancode, press, typed. erewrite bind_done by done. erewrite bind_done by apply inb_run.
  destruct (port_in DATA_REG (d_hw d)) as [v h]. cbn [fst snd].
  assert (exists code h', (if u8 v =? 0xe0 then let '(b, h) := port_in DATA_REG h in (Z.lor (Z.shiftl (u8 v) 8) (u8 b), h) else (u8 v, h)) = (code, h') /\
    (if u8 v =? 0xe0 then b ← inb DATA_REG; mret (Z.lor (Z.shiftl (u8 v) 8) b) else mret (u8 v) : M (dev hw) Z) (with_hw h d) = Done (code, with_hw h' d))
    as (code & h' & -> & E).
  { destruct (u8 v =? 0xe0); [|by exists (u8 v), h]. erewrite bind_done by apply inb_run. cbn [d_hw with_hw].
    destruct (port_in DATA_REG h) as [b h1]. eexists _, _. by split. }
  erewrite bind_done by exact E. clear E. cbn zeta. pose proof (ports_at_hw i j h' d Hp) as Hp'.
  destruct (_ =? 0x3a).
  { destruct (negb (_ =? 0)); cbn [negb]; [by exists i, (with_hw h' d)|]. eexists i, _. split; [done|]. split; [by apply ports_at_kbd|done]. }
  destruct (map_code _ _) as [c|].
  2: { eexists i, _. split; [done|]. split; [by apply ports_at_kbd|done]. }
  destruct (negb (_ =? 0)); [by exists i, (with_hw h' d)|].
  destruct ((c =? 127) && _ && _).
  { eexists i, _. split; [done|]. split; [|done]. destruct Hp' as [[? ? ? ?] [? ? ? ?] ? ?]. split; [by split|by split|done|done]. }
  erewrite bind_done by (eapply input_full_run; exact Hp'). destruct (is_full (bytes i)) eqn:Ef; [by exists i, (with_hw h' d)|].
  erewrite bind_done by done.
  destruct (input_putc_ports i j (modified (left_shift (d_kbd d) || right_shift (d_kbd d)) (left_alt (d_kbd d) || right_alt (d_kbd d))
    (left_ctrl (d_kbd d) || right_ctrl (d_kbd d)) (caps_lock (d_kbd d)) c)
    (with_kbd (set_key_cnt (s64 (key_cnt (d_kbd d) + 1)) (d_kbd d)) (with_hw h' d)))
    as (i' & d' & E & Hp1 & Eb & _ & Eh & Ek & Es & Er); [by apply ports_at_kbd|done|].
  exists i', d'. repeat (split; [done|]). done.
Qed.

(** For any hardware, the handler of the keyboard ends: a key that gives a character
    appends it to the input buffer, wakes the thread that waits for a byte and is
    counted, unless the buffer is full, when it is dropped; Ctrl+Alt+Delete reboots;
    another key only changes the state of the modifiers. *)
Theorem keyboard_interrupt_correct i j d (Hp : ports_at i j d) : exists i' d',
  keyboard_interrupt buffer txq d = Done (tt, d') /\ ports_at i' j d' /\ key_handled i j d i' d'.
Proof. by apply keyboard_run. Qed.
End Drivers.

(** ** A text typed on the keyboard

    The scancodes a typist's keys send for a text of printable characters, and the
    round trip: the keyboard interrupts they raise put the text into the input
    buffer. *)

(** The scancode of a character in a keymap. *)
Fixpoint find_key (k : list keymap) (c : Z) : option Z :=
  match k with
  | [] => None
  | (first, chars) :: k =>
      match list_find (fun x => x = c) chars with Some (n, _) => Some (first + Z.of_nat n) | None => find_key k c end
  end.

(** A key goes down and up, alone or with the left shift key held. *)
Definition alone (code : Z) : list Z := [code; Z.lor code 0x80].
Definition with_shift (code : Z) : list Z := 0x2a :: alone code ++ [0xaa].

(** Letters are in the keymap in upper case. *)
Definition keystrokes (c : Z) : list Z :=
  if (chr "a" <=? c) && (c <=? chr "z") then default [] (alone <$> find_key invariant_keymap (c - 32))
  else if isupper c then default [] (with_shift <$> find_key invariant_keymap c)
  else match find_key invariant_keymap c, find_key unshifted_keymap c with
       | Some code, _ | None, Some code => alone code
       | None, None => default [] (with_shift <$> find_key shifted_keymap c)
       end.

(** No modifier is held but the left shift key, perhaps. *)
Definition fingers (shift : bool) (n : Z) : kbd := mk_kbd shift false false false false false false n.

(** The characters a sequence of scancodes of one byte gives. *)
Fixpoint strokes (shift : bool) (codes : list Z) : option (bool * list Z) :=
  match codes with
  | [] => Some (shift, [])
  | code :: codes =>
      if (0 <=? code) && (code <? 256) && negb (code =? 0xe0) then
        match press (fingers shift 0) code with
        | KNothing => strokes shift codes
        | KState (mk_kbd shift' false false false false false false 0) => strokes shift' codes
        | KType c => '(s, out) ← strokes shift codes; Some (s, u8 c :: out)
        | _ => None
        end
      else None
  end.

Lemma keystrokes_type : forall c, 32 <= c < 127 -> strokes false (keystrokes c) = Some (false, [c]).
Proof.
  assert (List.forallb (fun c => bool_decide (strokes false (keystrokes c) = Some (false, [c]))) (seqZ 32 95) = true) as Hall by by vm_compute.
  rewrite List.forallb_forall in Hall. intros c Hc. eapply bool_decide_eq_true_1, Hall, list_elem_of_In, elem_of_seqZ. lia.
Qed.

Lemma strokes_app : forall l s l' s1 out s2 out', strokes s l = Some (s1, out) -> strokes s1 l' = Some (s2, out') -> strokes s (l ++ l') = Some (s2, out ++ out').
Proof.
  induction l as [|code l IH]; intros s l' s1 out s2 out' E1 E2; [by injection E1 as -> <-|].
  cbn [app strokes] in *. destruct ((0 <=? code) && (code <? 256) && negb (code =? 0xe0)); [|done]. destruct (press (fingers s 0) code) as [|[? [] [] [] [] [] [] []]| |c]; try done;
    try (eapply IH; eassumption).
  destruct (strokes s l) as [[s3 o3]|] eqn:E3; cbn in E1; [|done]. injection E1 as -> <-.
  by rewrite (IH _ _ _ _ _ _ E3 E2).
Qed.

Lemma text_strokes text : Forall (fun c => 32 <= c < 127) text -> strokes false (concat (map keystrokes text)) = Some (false, text).
Proof.
  induction 1 as [|c text Hc _ IH]; [done|]. cbn [map concat]. change (c :: text) with ([c] ++ text). eapply strokes_app; [by apply keystrokes_type|done].
Qed.

(** Counting keys changes nothing else. *)
Definition counted (n : Z) (e : key_effect) : key_effect := match e with KState s => KState (set_key_cnt n s) | e => e end.

Lemma press_counted n s code : press (fingers s n) code = counted n (press (fingers s 0) code).
Proof.
  unfold press, fingers. cbn. destruct (_ =? 0x3a); [by case_match|]. destruct (map_code _ _) as [c|]; [by repeat case_match|].
  unfold shift_key. by repeat case_match.
Qed.

Section Typing.
Context {hw : Type} `{Ports hw} (buffer txq : Z).
Hypothesis Hbt : buffer <> txq.

(** The keyboard controller gives the scancodes in order; the serial port's registers
    do not change them. *)
Context (keys : hw -> list Z).
Hypothesis keys_read : forall h c cs, keys h = c :: cs -> u8 (port_in DATA_REG h).1 = c /\ keys (port_in DATA_REG h).2 = cs.
Hypothesis keys_ier : forall v h, keys (port_out IER_REG v h) = keys h.
Implicit Types (d : dev hw) (i j : intq).

Fixpoint keyboard_interrupts (n : nat) : M (dev hw) unit :=
  match n with O => mret tt | S n => keyboard_interrupt buffer txq ;; keyboard_interrupts n end.

Lemma strokes_run codes : forall s s' out i j d n rest, ports_at buffer txq i j d -> d_kbd d = fingers s n ->
  strokes s codes = Some (s', out) -> zlen (bytes i) + zlen out <= INTQ_BUFSIZE - 1 -> keys (d_hw d) = codes ++ rest ->
  exists i' d' n', keyboard_interrupts (length codes) d = Done (tt, d') /\ ports_at buffer txq i' j d' /\
    bytes i' = bytes i ++ out /\ keys (d_hw d') = rest /\ d_kbd d' = fingers s' n'.
Proof.
  induction codes as [|code codes IH]; intros s s' out i j d n rest Hp Hk Es Hroom Hkeys.
  { injection Es as <- <-. exists i, d, n. by rewrite app_nil_r. }
  cbn [strokes] in Es. destruct ((0 <=? code) && (code <? 256) && negb (code =? 0xe0)) eqn:Ec; [|done].
  destruct (keys_read _ _ _ Hkeys) as [Er Ek]. cbn [length keyboard_interrupts].
  destruct (keyboard_run buffer txq Hbt i j d Hp) as (i1 & d1 & E1 & Hp1 & Hd). erewrite bind_done by exact E1.
  unfold key_handled, scancode in Hd. destruct (port_in DATA_REG (d_hw d)) as [v h]. cbn [fst snd] in *. rewrite Er in Hd.
  assert ((code =? 0xe0) = false) as E0 by lia. rewrite E0, Hk, press_counted in Hd.
  destruct (press (fingers s 0) code) as [|[sh [] [] [] [] [] [] []]| |c]; cbn [counted] in Hd; try done.
  - destruct Hd as [-> ->]. by eapply IH.
  - destruct Hd as [-> ->]. by eapply IH.
  - destruct (strokes s codes) as [[s3 o3]|] eqn:E3; cbn in Es; [|done]. injection Es as -> <-. rewrite zlen_cons in Hroom.
    assert (is_full (bytes i) = false) as Ef by (unfold is_full; apply bool_decide_false; pose proof (zlen_nonneg o3); lia).
    rewrite Ef in Hd. destruct Hd as (Eb & Ekb & _ & _ & Eh). unfold typed in Eb. rewrite Ef in Eb.
    edestruct (IH s s' o3 i1 j d1 (s64 (n + 1)) rest) as (i' & d' & n' & E2 & Hp2 & Eb2 & Ek2 & Es2); try done.
    + rewrite Eb, zlen_app. change (zlen [u8 c]) with 1. lia.
    + by rewrite Eh, keys_ier.
    + exists i', d', n'. by rewrite Eb2, Eb, <- app_assoc.
Qed.

(** C21: round trip: when a text of printable characters is typed, and the input buffer
    has room for it, the keyboard interrupts its scancodes raise put exactly the text
    into the buffer, behind the bytes it had, and leave the modifiers as they were. *)
Theorem keyboard_types_text text i j d n rest (Hp : ports_at buffer txq i j d) (Hk : d_kbd d = fingers false n)
  (Ht : Forall (fun c => 32 <= c < 127) text) (Hroom : zlen (bytes i) + zlen text <= INTQ_BUFSIZE - 1)
  (Hkeys : keys (d_hw d) = concat (map keystrokes text) ++ rest) :
  exists i' d' n', keyboard_interrupts (length (concat (map keystrokes text))) d = Done (tt, d') /\ ports_at buffer txq i' j d' /\
    bytes i' = bytes i ++ text /\ keys (d_hw d') = rest /\ d_kbd d' = fingers false n'.
Proof. eapply strokes_run; try done. by apply text_strokes. Qed.
End Typing.
