(* ===== verification/DevicesDemo.v ===== *)
(** * A computer with a keyboard, and two readers

    The concrete inputs of the theorems on interrupt queues and their handlers: the
    hardware holds the scancodes typed and the bytes the serial port has received,
    and records what is written to its ports. *)

From Stdlib Require Import Ascii.
From Stdlib Require Import(notations) String.
From S2P Require Import Prelude KList Kernel KernelRuns Sched KernelSpec KernelDemo Stdio Devices DevicesSpec Drivers.

Record pc := mk_pc {
  pc_keys : list Z;            (* scancodes to read *)
  pc_line : list Z;            (* bytes received on the serial line *)
  pc_log : list (Z * Z)        (* ports written and their values, latest first *)
}.

#[export] Instance pc_ports : Ports pc := {
  port_in p h :=
    if p =? DATA_REG then
      match pc_keys h with k :: ks => (k, mk_pc ks (pc_line h) (pc_log h)) | [] => (0, h) end
    else if p =? LSR_REG then (if bool_decide (pc_line h = []) then LSR_THRE else Z.lor LSR_THRE LSR_DR, h)
    else if p =? RBR_REG then
      match pc_line h with b :: bs => (b, mk_pc (pc_keys h) bs (pc_log h)) | [] => (0, h) end
    else (0, h);
  port_out p v h := mk_pc (pc_keys h) (pc_line h) ((p, v) :: pc_log h)
}.

(** The input buffer and the transmit queue. *)
Definition demo_in : Z := 100.
Definition demo_tx : Z := 200.
Definition demo_queue (l : list Z) : intq := mk_intq NULL NULL (l ++ repeat 0 (64 - length l)%nat) (zlen l) 0.
Definition demo_dev (k : K) (rx tx : list Z) (h : pc) : dev pc :=
  mk_dev k {[demo_in := demo_queue rx; demo_tx := demo_queue tx]} ∅ ∅ h QUEUE (fingers false 0) false.

(** Two threads run in turn; the queues' locks are free. *)
Definition reader_threads : list (Z * thread) :=
  [(1, demo_thread 1 THREAD_RUNNING []); (2, demo_thread 2 THREAD_BLOCKED [FYield true]);
   (3, demo_thread 3 THREAD_READY [FYield true])].
Definition reader_kernel (on : bool) : K :=
  mk_kernel (list_to_map reader_threads) {[104 := mk_sema 1 []; 204 := mk_sema 1 []]} {[demo_in := mk_lock 0 104; demo_tx := mk_lock 0 204]} ∅
    [3] [1; 2; 3] 1 2 1 10 5 20 on false false 0 0 0 0.
Definition handler_kernel : K := set_intr false true false (reader_kernel true).

Fixpoint turns (n : nat) : M (dev pc) unit :=
  match n with O => mret tt | S n => go_on demo_in demo_tx ;; turns n end.

Fixpoint arrive (l : list Z) : M (dev pc) unit :=
  match l with [] => mret tt | b :: l => external_interrupt (input_putc demo_in demo_tx b) ;; turns 1 ;; arrive l end.

(** Thread 1 and then thread 3 ask for a key; then the keys arrive, in the idle
    thread; then thread 1 goes on, and thread 3 after it. *)
Definition two_readers (l : list Z) : M (dev pc) unit :=
  input_getc demo_in ;; turns 10 ;;
  input_getc demo_in ;; turns 10 ;;
  arrive l ;;
  on_kern idle_step ;; turns 10 ;;
  on_kern thread_yield ;; turns 10.

Definition demo_start : dev pc := demo_dev (reader_kernel true) [] [] (mk_pc [] [] []).

(** Two threads read keys: with one key, the first reader gets it and the second
    waits in its turn; with two keys that arrive before the first reader has run, the
    second reader finds the queue not empty when it gets the lock, and the assertion
    of wait stops the kernel. *)
Theorem second_reader_panics a b :
  (exists d, two_readers [a] demo_start = Done (tt, d) /\ d_ret d !! 1 = Some (u8 a) /\ d_ret d !! 3 = None /\
     not_empty <$> d_queues d !! demo_in = Some 3 /\ d_works d !! 3 = Some [WGetRelease demo_in; WInput true]) /\
  two_readers [a; b] demo_start = Panic.
Proof. split; [eexists; split; [vm_compute; reflexivity|by repeat split]|by vm_compute]. Qed.

(** ** Queues ready for use *)

Lemma demo_queue_at k rx tx h q l : intr_on k = false -> (length l < 64)%nat -> (q, l) ∈ [(demo_in, rx); (demo_tx, tx)] ->
  queue_at q (demo_queue l) (demo_dev k rx tx h).
Proof.
  intros Ho Hl Hq. split; [exact Ho| | |].
  - apply elem_of_cons in Hq as [[= -> ->]|Hq]; [done|]. by apply list_elem_of_singleton in Hq as [= -> ->].
  - unfold demo_queue. split; cbn [q_buf q_head q_tail]; unfold zlen, INTQ_BUFSIZE; [rewrite length_app, repeat_length; lia|lia|lia].
  - split; [by left|]. split; by left.
Qed.

Lemma demo_ports k rx tx h : intr_on k = false -> (length rx < 64)%nat -> (length tx < 64)%nat ->
  ports_at demo_in demo_tx (demo_queue rx) (demo_queue tx) (demo_dev k rx tx h).
Proof.
  intros Ho Hr Ht. split; [apply demo_queue_at; try done; by left|apply demo_queue_at; try done; right; by left| |done]. intros [] []; by left.
Qed.

Definition demo_handler (rx tx : list Z) (h : pc) : dev pc := demo_dev handler_kernel rx tx h.

(** A byte too large, one that fits, and one taken from a queue that holds a 5. *)
Lemma intq_refines_witness : spec_ops [Put 300; Put 7; Get] [5] = Some ([5], [44; 7]) /\
  exists d' i', queue_ops demo_in [Put 300; Put 7; Get] (demo_handler [5] [] (mk_pc [] [] [])) = Done (Some [5], d') /\
    queue_at demo_in i' d' /\ bytes i' = [44; 7] /\ same_devices demo_in (demo_handler [5] [] (mk_pc [] [] [])) d'.
Proof.
  split; [by vm_compute|].
  exact (intq_refines demo_in [Put 300; Put 7; Get] (demo_handler [5] [] (mk_pc [] [] [])) (demo_queue [5])
    (demo_queue_at handler_kernel [5] [] _ demo_in [5] eq_refl ltac:(cbn; lia) ltac:(by left)) eq_refl).
Defined.

(** Thread 4 waits for room. *)
Definition waited_queue : intq := mk_intq 4 NULL ([65; 66] ++ repeat 0 62) 2 0.
Definition waited_dev : dev pc :=
  mk_dev (set_intr false true false demo_kernel) {[demo_in := waited_queue]} ∅ ∅ (mk_pc [] [] []) QUEUE (fingers false 0) false.

Lemma waited_at : queue_at demo_in waited_queue waited_dev.
Proof.
  split; [done|done|by split|]. split; [right|split; [by left|right; done]].
  exists (demo_thread 4 THREAD_BLOCKED [FSema 14 true]). split; [by vm_compute|done].
Qed.

Lemma intq_getc_correct_witness : exists d' i', intq_getc demo_in waited_dev = Done (Some 65, d') /\ queue_at demo_in i' d' /\
  bytes i' = [66] /\ not_full i' = NULL /\ not_empty i' = NULL /\ d_kern d' = wake 4 (d_kern waited_dev) /\ same_devices demo_in waited_dev d'.
Proof. exact (intq_getc_correct demo_in waited_queue waited_dev waited_at). Defined.

(** Three bytes come and two leave. *)
Lemma serial_interrupt_correct_witness :
  exists i' j' d', serial_interrupt demo_in demo_tx (demo_handler [1] [8; 9] (mk_pc [] [2; 3; 4] [])) = Done (tt, d') /\
    ports_at demo_in demo_tx i' j' d' /\
    (bytes i', bytes j', d_hw d') = ([1; 2; 3; 4], [], mk_pc [] [] [(IER_REG, 1); (THR_REG, 9); (THR_REG, 8); (IER_REG, 3); (IER_REG, 3); (IER_REG, 3)]) /\
    d_kern d' = woken NULL [8; 9] (bytes j') (woken NULL [1] (bytes i') handler_kernel) /\
    same_keys (demo_handler [1] [8; 9] (mk_pc [] [2; 3; 4] [])) d'.
Proof.
  exact (serial_interrupt_correct demo_in demo_tx ltac:(done) (demo_queue [1]) (demo_queue [8; 9]) (demo_handler [1] [8; 9] (mk_pc [] [2; 3; 4] []))
    (demo_ports handler_kernel [1] [8; 9] _ eq_refl ltac:(cbn; lia) ltac:(cbn; lia))).
Defined.

(** The A key, without shift. *)
Lemma keyboard_interrupt_correct_witness :
  exists i' d', keyboard_interrupt demo_in demo_tx (demo_handler [] [] (mk_pc [0x1e] [] [])) = Done (tt, d') /\
    ports_at demo_in demo_tx i' (demo_queue []) d' /\ bytes i' = [97] /\ d_kbd d' = fingers false 1 /\ d_reboot d' = false /\
    d_kern d' = wake NULL handler_kernel /\ d_hw d' = port_out IER_REG (ier_of (bytes i') []) (mk_pc [] [] []).
Proof.
  exact (keyboard_interrupt_correct demo_in demo_tx ltac:(done) (demo_queue []) (demo_queue []) (demo_handler [] [] (mk_pc [0x1e] [] []))
    (demo_ports handler_kernel [] [] _ eq_refl ltac:(cbn; lia) ltac:(cbn; lia))).
Defined.

Definition hello : list Z := codes "Hello, *_* World!".
Definition hello_pc : pc := mk_pc (concat (map keystrokes hello)) [] [].

Definition pc_codes (h : pc) : list Z := map u8 (pc_keys h).

Lemma keyboard_types_text_witness : length (pc_keys hello_pc) = 42%nat /\ exists i' d' n',
  keyboard_interrupts demo_in demo_tx (length (concat (map keystrokes hello))) (demo_handler [13] [] hello_pc) = Done (tt, d') /\
  ports_at demo_in demo_tx i' (demo_queue []) d' /\ bytes i' = 13 :: hello /\ pc_codes (d_hw d') = [] /\ d_kbd d' = fingers false n'.
Proof.
  split; [by vm_compute|].
  apply (keyboard_types_text demo_in demo_tx ltac:(done) pc_codes) with (text := hello) (i := demo_queue [13]) (n := 0).
  - intros h c cs E. destruct h as [[|k ks] line log]; [done|]. by injection E as <- <-.
  - done.
  - by apply demo_ports; cbn; try lia.
  - done.
  - by_decide.
  - by vm_compute.
  - by vm_compute.
Defined.
