(* ===== verification/Ide.v ===== *)
(** * devices/ide.c: the driver of ATA disks

    The state holds the two channels, the interrupt flag, the console, the block
    devices registered and the hardware, which answers the port instructions, lets
    time pass and raises interrupts ([Ata]).  A channel is a position in [channels],
    a disk a channel with a position in its devices.  An interrupt is taken where the
    driver waits; its handler touches nothing the driver uses between two such
    places.  The lock of a channel is a flag: calls on a channel come one after the
    other. *)

From Stdlib Require Import Ascii.
From Stdlib Require Import(notations) String.
From S2P Require Import Prelude Block Mem Stdio Devices.

(** The instructions of threads/io.h on bytes and on 16-bit words, which are a low and
    a high byte of memory, the timer's sleeps, and interrupts. *)
Class Ata (hw : Type) := {
  ata_ports :: Ports hw;
  port_inw : Z -> hw -> Z * Z * hw;
  port_outw : Z -> Z * Z -> hw -> hw;
  hw_sleep : Z -> hw -> hw;              (* nanoseconds pass *)
  hw_next : hw -> hw;                    (* time passes while the processor has nothing to do *)
  hw_irq : hw -> option (Z * hw);        (* an interrupt it raises, with its vector *)
  hw_delay : hw -> nat                   (* how often [hw_next] comes before it, at most *)
}.

Record ata_disk := mk_ata_disk {
  d_name : list Z;            (* name, e.g. "hda" *)
  d_channel : Z;              (* channel that disk is attached to *)
  dev_no : Z;                 (* device 0 or 1 for master or slave *)
  is_ata : bool               (* is device an ATA disk? *)
}.

Record channel := mk_channel {
  c_name : list Z;            (* name, e.g. "ide0" *)
  reg_base : Z;               (* base I/O port *)
  irq : Z;                    (* interrupt in use *)
  c_locked : bool;            (* must acquire to access the controller *)
  expecting_interrupt : bool; (* an interrupt is expected *)
  completion_wait : Z;        (* the semaphore up'd by the interrupt handler *)
  devices : list ata_disk     (* the devices on this channel *)
}.

(** The arguments of block_register. *)
Record registration := mk_registration {
  r_name : list Z;
  r_extra : list Z;
  r_size : Z;
  r_disk : Z * Z
}.

Record ide (hw : Type) := mk_ide {
  channels : list channel;
  i_intr : bool;              (* interrupts are enabled *)
  i_console : list Z;
  i_blocks : list registration;
  i_hw : hw
}.
Arguments mk_ide {hw}.
Arguments channels {hw}.
Arguments i_intr {hw}.
Arguments i_console {hw}.
Arguments i_blocks {hw}.
Arguments i_hw {hw}.

(** The registers of a channel. *)
Definition reg_data (base : Z) : Z := base + 0.
Definition reg_error (base : Z) : Z := base + 1.
Definition reg_nsect (base : Z) : Z := base + 2.
Definition reg_lbal (base : Z) : Z := base + 3.
Definition reg_lbam (base : Z) : Z := base + 4.
Definition reg_lbah (base : Z) : Z := base + 5.
Definition reg_device (base : Z) : Z := base + 6.
Definition reg_status (base : Z) : Z := base + 7.
Definition reg_command (base : Z) : Z := reg_status base.
Definition reg_ctl (base : Z) : Z := base + 0x206.
Definition reg_alt_status (base : Z) : Z := reg_ctl base.

Definition STA_BSY : Z := 0x80.
Definition STA_DRDY : Z := 0x40.
Definition STA_DRQ : Z := 0x08.
Definition CTL_SRST : Z := 0x04.
Definition DEV_MBS : Z := 0xa0.
Definition DEV_LBA : Z := 0x40.
Definition DEV_DEV : Z := 0x10.
Definition CMD_IDENTIFY_DEVICE : Z := 0xec.
Definition CMD_READ_SECTOR_RETRY : Z := 0x20.
Definition CMD_WRITE_SECTOR_RETRY : Z := 0x30.
Definition CHANNEL_CNT : Z := 2.

(** ** Strings of the IDENTIFY data *)

(** Bytes [i] and [i + 1], [n] times from [i] on. *)
Fixpoint swap_loop (n : nat) (i size : Z) (s : list Z) : list Z :=
  match n with
  | O => s
  | S n =>
      if i + 1 <? size then
        swap_loop n (i + 2) size (zset (zset s i (default 0 (zget s (i + 1)))) (i + 1) (default 0 (zget s i)))
      else s
  end.

(** The second loop: [size] when it ends. *)
Fixpoint trim_loop (size : nat) (s : list Z) : nat :=
  match size with
  | O => O
  | S n =>
      let c := s8 (default 0 (zget s (Z.of_nat n))) in
      if negb (c =? 0) && negb (isspace c) then size else trim_loop n s
  end.

(** The [size] bytes at [string]. *)
Definition descramble_ata_string (s : list Z) (size : Z) : list Z :=
  let s := swap_loop (Z.to_nat size) 0 size s in
  zset s (Z.of_nat (trim_loop (Z.to_nat (size - 1)) s)) 0.

(** The string a buffer starts with. *)
Fixpoint c_string (s : list Z) : list Z :=
  match s with [] => [] | c :: s => if c =? 0 then [] else c :: c_string s end.

Section Ide.
Context {hw : Type} `{Ata hw}.
Abbreviation D := (ide hw).

Definition with_channels l (d : D) : D := mk_ide l (i_intr d) (i_console d) (i_blocks d) (i_hw d).
Definition with_ihw h (d : D) : D := mk_ide (channels d) (i_intr d) (i_console d) (i_blocks d) h.
Definition print (out : list Z) : M D unit :=
  modify (fun d => mk_ide (channels d) (i_intr d) (i_console d ++ out) (i_blocks d) (i_hw d)).
Definition add_block (r : registration) : M D unit :=
  modify (fun d => mk_ide (channels d) (i_intr d) (i_console d) (i_blocks d ++ [r]) (i_hw d)).

Definition ide_in (port : Z) : M D Z := fun d => let '(v, h) := port_in port (i_hw d) in Done (u8 v, with_ihw h d).
Definition ide_out (port v : Z) : M D unit := modify (fun d => with_ihw (port_out port (u8 v) (i_hw d)) d).

Definition get_channel (c : Z) : M D channel := load (fun d => zget (channels d) c).
Definition put_channel (c : Z) (ch : channel) : M D unit := modify (fun d => with_channels (zset (channels d) c ch) d).
Definition get_disk (c n : Z) : M D ata_disk := ch ← get_channel c; load (fun _ => zget (devices ch) n).
Definition put_disk (c n : Z) (dk : ata_disk) : M D unit :=
  ch ← get_channel c;
  put_channel c (mk_channel (c_name ch) (reg_base ch) (irq ch) (c_locked ch) (expecting_interrupt ch) (completion_wait ch) (zset (devices ch) n dk)).
Definition base_of (c : Z) : M D Z := ch ← get_channel c; mret (reg_base ch).

Definition set_sync (locked expecting : bool) (completion : Z) (ch : channel) : channel :=
  mk_channel (c_name ch) (reg_base ch) (irq ch) locked expecting completion (devices ch).

(** ** Interrupts and waiting *)

Fixpoint handler_loop (n : nat) (c vec_no : Z) : M D unit :=
  match n with
  | O => panic
  | S n =>
      ch ← get_channel c;
      if vec_no =? irq ch then
        if expecting_interrupt ch then
          _ ← ide_in (reg_status (reg_base ch));
          put_channel c (set_sync (c_locked ch) true (u32 (completion_wait ch + 1)) ch)
        else print (c_name ch ++ codes ": unexpected interrupt" ++ [10])
      else handler_loop n (c + 1) vec_no
  end.

Definition interrupt_handler (vec_no : Z) : M D unit := handler_loop (Z.to_nat CHANNEL_CNT) 0 vec_no.

Definition take_interrupt : M D unit :=
  h ← gets i_hw; on ← gets i_intr;
  match hw_irq h with
  | Some (vec_no, h) => if on : bool then modify (with_ihw h) ;; interrupt_handler vec_no else mret tt
  | None => mret tt
  end.

(** timer_nsleep, timer_usleep and timer_msleep, on nanoseconds. *)
Definition timer_nsleep (ns : Z) : M D unit :=
  on ← gets i_intr; ASSERT on ;;
  modify (fun d => with_ihw (hw_sleep ns (i_hw d)) d) ;;
  take_interrupt.
Definition timer_usleep (us : Z) : M D unit := timer_nsleep (1000 * us).
Definition timer_msleep (ms : Z) : M D unit := timer_nsleep (1000000 * ms).

(** sema_down on [completion_wait]: interrupts are taken until it has been up'd. *)
Fixpoint completion_loop (n : nat) (c : Z) : M D unit :=
  match n with
  | O => nofuel
  | S n =>
      ch ← get_channel c;
      if completion_wait ch =? 0 then
        take_interrupt ;;
        ch ← get_channel c;
        (if completion_wait ch =? 0 then modify (fun d => with_ihw (hw_next (i_hw d)) d) else mret tt) ;;
        completion_loop n c
      else put_channel c (set_sync (c_locked ch) (expecting_interrupt ch) (u32 (completion_wait ch - 1)) ch)
  end.

Definition completion_down (c : Z) : M D unit :=
  h ← gets i_hw; completion_loop (S (S (hw_delay h))) c.

Definition ide_lock (c : Z) : M D unit :=
  ch ← get_channel c; ASSERT (negb (c_locked ch)) ;;
  put_channel c (set_sync true (expecting_interrupt ch) (completion_wait ch) ch).
Definition ide_unlock (c : Z) : M D unit :=
  ch ← get_channel c; ASSERT (c_locked ch) ;;
  put_channel c (set_sync false (expecting_interrupt ch) (completion_wait ch) ch).

(** ** Low-level primitives *)

(** The loop, and whether it ended before its last turn. *)
Fixpoint idle_loop (n : nat) (c : Z) : M D bool :=
  match n with
  | O => mret false
  | S n =>
      base ← base_of c;
      s ← ide_in (reg_status base);
      if Z.land s (Z.lor STA_BSY STA_DRQ) =? 0 then mret true
      else timer_usleep 10 ;; idle_loop n c
  end.

Definition wait_until_idle (c n : Z) : M D unit :=
  ok ← idle_loop (Z.to_nat 1000) c;
  if ok then mret tt else dk ← get_disk c n; print (d_name dk ++ codes ": idle timeout" ++ [10]).

Fixpoint busy_loop (k : nat) (i c n : Z) : M D bool :=
  match k with
  | O => print (codes "failed" ++ [10]) ;; mret false
  | S k =>
      (if i =? 700 then dk ← get_disk c n; print (d_name dk ++ codes ": busy, waiting...") else mret tt) ;;
      base ← base_of c;
      s ← ide_in (reg_alt_status base);
      if Z.land s STA_BSY =? 0 then
        (if 700 <=? i then print (codes "ok" ++ [10]) else mret tt) ;;
        s ← ide_in (reg_alt_status base);
        mret (negb (Z.land s STA_DRQ =? 0))
      else timer_msleep 10 ;; busy_loop k (i + 1) c n
  end.

Definition wait_while_busy (c n : Z) : M D bool := busy_loop (Z.to_nat 3000) 0 c n.

Definition select_device (c n : Z) : M D unit :=
  dk ← get_disk c n;
  base ← base_of c;
  let dev := if dev_no dk =? 1 then Z.lor DEV_MBS DEV_DEV else DEV_MBS in
  ide_out (reg_device base) dev ;;
  _ ← ide_in (reg_alt_status base);
  timer_nsleep 400.

Definition select_device_wait (c n : Z) : M D unit :=
  wait_until_idle c n ;; select_device c n ;; wait_until_idle c n.

Definition select_sector (c n sec_no : Z) : M D unit :=
  ASSERT (sec_no <? Z.shiftl 1 28) ;;
  select_device_wait c n ;;
  dk ← get_disk c n;
  base ← base_of c;
  ide_out (reg_nsect base) 1 ;;
  ide_out (reg_lbal base) sec_no ;;
  ide_out (reg_lbam base) (Z.shiftr sec_no 8) ;;
  ide_out (reg_lbah base) (Z.shiftr sec_no 16) ;;
  ide_out (reg_device base)
    (Z.lor (Z.lor (Z.lor DEV_MBS DEV_LBA) (if dev_no dk =? 1 then DEV_DEV else 0)) (Z.shiftr sec_no 24)).

Definition issue_pio_command (c command : Z) : M D unit :=
  on ← gets i_intr; ASSERT on ;;
  ch ← get_channel c;
  put_channel c (set_sync (c_locked ch) true (completion_wait ch) ch) ;;
  ide_out (reg_command (reg_base ch)) command.

Definition inw (port : Z) : M D (Z * Z) := fun d => let '(w, h) := port_inw port (i_hw d) in Done (w, with_ihw h d).
Definition outw (port : Z) (w : Z * Z) : M D unit := modify (fun d => with_ihw (port_outw port w (i_hw d)) d).

Fixpoint insw (port : Z) (cnt : nat) : M D (list Z) :=
  match cnt with
  | O => mret []
  | S cnt => '(lo, hi) ← inw port; l ← insw port cnt; mret (lo :: hi :: l)
  end.

Fixpoint outsw (port : Z) (cnt : nat) (l : list Z) : M D unit :=
  match cnt with
  | O => mret tt
  | S cnt =>
      match l with
      | lo :: hi :: l => outw port (lo, hi) ;; outsw port cnt l
      | _ => fault
      end
  end.

Definition input_sector (c : Z) : M D (list Z) := base ← base_of c; insw (reg_data base) (Z.to_nat (BLOCK_SECTOR_SIZE / 2)).
Definition output_sector (c : Z) (sector : list Z) : M D unit :=
  base ← base_of c; outsw (reg_data base) (Z.to_nat (BLOCK_SECTOR_SIZE / 2)) sector.

(** ** Reading and writing *)

Definition ide_read (c n sec_no : Z) : M D (list Z) :=
  ide_lock c ;;
  select_sector c n sec_no ;;
  issue_pio_command c CMD_READ_SECTOR_RETRY ;;
  completion_down c ;;
  ok ← wait_while_busy c n;
  if negb ok then panic
  else buffer ← input_sector c; ide_unlock c ;; mret buffer.

Definition ide_write (c n sec_no : Z) (buffer : list Z) : M D unit :=
  ide_lock c ;;
  select_sector c n sec_no ;;
  issue_pio_command c CMD_WRITE_SECTOR_RETRY ;;
  ok ← wait_while_busy c n;
  if negb ok then panic
  else output_sector c buffer ;; completion_down c ;; ide_unlock c.

(** ** Detection *)

Definition set_is_ata (c n : Z) (b : bool) : M D unit :=
  dk ← get_disk c n; put_disk c n (mk_ata_disk (d_name dk) (d_channel dk) (dev_no dk) b).

Definition probe_present (c n : Z) : M D bool :=
  select_device c n ;;
  base ← base_of c;
  ide_out (reg_nsect base) 0x55 ;; ide_out (reg_lbal base) 0xaa ;;
  ide_out (reg_nsect base) 0xaa ;; ide_out (reg_lbal base) 0x55 ;;
  ide_out (reg_nsect base) 0x55 ;; ide_out (reg_lbal base) 0xaa ;;
  a ← ide_in (reg_nsect base);
  if a =? 0x55 then b ← ide_in (reg_lbal base); mret (b =? 0xaa) else mret false.

Fixpoint slave_loop (k : nat) (c : Z) : M D unit :=
  match k with
  | O => mret tt
  | S k =>
      base ← base_of c;
      a ← ide_in (reg_nsect base);
      b ← (if a =? 1 then b ← ide_in (reg_lbal base); mret (b =? 1) else mret false);
      if b : bool then mret tt else timer_msleep 10 ;; slave_loop k c
  end.

Definition reset_channel (c : Z) : M D unit :=
  present0 ← probe_present c 0;
  present1 ← probe_present c 1;
  base ← base_of c;
  ide_out (reg_ctl base) 0 ;;
  timer_usleep 10 ;;
  ide_out (reg_ctl base) CTL_SRST ;;
  timer_usleep 10 ;;
  ide_out (reg_ctl base) 0 ;;
  timer_msleep 150 ;;
  (if present0 : bool then select_device c 0 ;; _ ← wait_while_busy c 0; mret tt else mret tt) ;;
  (if present1 : bool then
     select_device c 1 ;; slave_loop (Z.to_nat 3000) c ;; _ ← wait_while_busy c 1; mret tt
   else mret tt).

Definition check_device_type (c n : Z) : M D bool :=
  select_device c n ;;
  base ← base_of c;
  error ← ide_in (reg_error base);
  lbam ← ide_in (reg_lbam base);
  lbah ← ide_in (reg_lbah base);
  status ← ide_in (reg_status base);
  dk ← get_disk c n;
  if (negb (error =? 1) && (negb (error =? 0x81) || (dev_no dk =? 1))) || (Z.land status STA_DRDY =? 0) || negb (Z.land status STA_BSY =? 0) then
    set_is_ata c n false ;; mret (negb (error =? 0x81))
  else
    set_is_ata c n (((lbam =? 0) && (lbah =? 0)) || ((lbam =? 0x3c) && (lbah =? 0xc3))) ;; mret true.

Definition human_size (size : Z) : M D (list Z) := fun d =>
  '(out, _) ← print_human_readable_size size ∅; Done (out, d).

(** [capacity * 512] is computed on 32 bits. *)
Definition identify_ata_device (c n : Z) : M D unit :=
  dk ← get_disk c n; ASSERT (is_ata dk) ;;
  select_device_wait c n ;;
  issue_pio_command c CMD_IDENTIFY_DEVICE ;;
  completion_down c ;;
  ok ← wait_while_busy c n;
  if negb ok then set_is_ata c n false
  else
    id ← input_sector c;
    let capacity := le_word (take 4 (drop (60 * 2) id)) in
    let model := c_string (descramble_ata_string (take 20 (drop (10 * 2) id)) 20) in
    let serial := c_string (descramble_ata_string (take 40 (drop (27 * 2) id)) 40) in
    let extra_info := codes "model " ++ [34] ++ model ++ [34] ++ codes ", serial " ++ [34] ++ serial ++ [34] in
    if 1024 * 1024 * 1024 / BLOCK_SECTOR_SIZE <=? capacity then
      size ← human_size (u32 (capacity * 512));
      print (d_name dk ++ codes ": ignoring " ++ size ++ codes "disk for safety" ++ [10]) ;;
      set_is_ata c n false
    else add_block (mk_registration (d_name dk) extra_info capacity (c, n)).

Definition new_disk (chan_no n : Z) : ata_disk :=
  mk_ata_disk (codes "hd" ++ [chr "a" + chan_no * 2 + n]) chan_no n false.

Definition new_channel (chan_no : Z) : channel :=
  mk_channel (codes "ide" ++ [chr "0" + chan_no]) (if chan_no =? 0 then 0x1f0 else 0x170) (if chan_no =? 0 then 14 + 0x20 else 15 + 0x20)
    false false 0 [new_disk chan_no 0; new_disk chan_no 1].

(** After [intr_register_ext]. *)
Definition init_channel (chan_no : Z) : M D unit :=
  put_channel chan_no (new_channel chan_no) ;;
  reset_channel chan_no ;;
  more ← check_device_type chan_no 0;
  (if more : bool then _ ← check_device_type chan_no 1; mret tt else mret tt) ;;
  dk ← get_disk chan_no 0;
  (if is_ata dk then identify_ata_device chan_no 0 else mret tt) ;;
  dk ← get_disk chan_no 1;
  if is_ata dk then identify_ata_device chan_no 1 else mret tt.

Definition ide_init : M D unit := init_channel 0 ;; init_channel 1.
End Ide.
