(* ===== verification/IdeSpec.v ===== *)
(** * The driver of ATA disks serves sectors

    What the driver relies on of an ATA channel ([AtaChannel], after ATA-3: the
    registers, the protocols of READ SECTOR and WRITE SECTOR with their interrupts
    and the busy times the standard bounds), and that ide_read and ide_write then
    meet the interface of a block device driver, against which the file system is
    proved. *)

From Stdlib Require Import(notations) String.
From S2P Require Import Prelude Block Stdio Devices Ide.

(** ** An ATA channel *)

(** What a channel is doing: READ SECTOR and WRITE SECTOR go through these phases. *)
Inductive phase :=
| Idle
| Reading (n s : Z)                (* the sector is fetched *)
| Sending (l : list Z)             (* the bytes left to read *)
| Preparing (n s : Z)              (* busy before it takes the sector *)
| Taking (n s : Z) (l : list Z)    (* the bytes taken so far *)
| Storing (n s : Z) (l : list Z).  (* the sector is stored *)

#[export] Instance phase_eq : EqDecision phase.
Proof. solve_decision. Defined.

Record view := mk_view {
  a_nsect : Z; a_lbal : Z; a_lbam : Z; a_lbah : Z; a_device : Z;     (* registers *)
  a_phase : phase;
  a_sect : Z -> Z -> list Z          (* the sectors of device 0 and device 1 *)
}.

Definition in_phase (p : phase) (w : view) : view := mk_view (a_nsect w) (a_lbal w) (a_lbam w) (a_lbah w) (a_device w) p (a_sect w).
Definition stored_view (n s : Z) (l : list Z) (w : view) : view :=
  mk_view (a_nsect w) (a_lbal w) (a_lbam w) (a_lbah w) (a_device w) Idle
    (fun n' s' => if (n' =? n) && (s' =? s) then l else a_sect w n' s').

(** A byte written to register [i] of the command block. *)
Definition set_reg (i x : Z) (w : view) : view :=
  if i =? 2 then mk_view x (a_lbal w) (a_lbam w) (a_lbah w) (a_device w) (a_phase w) (a_sect w)
  else if i =? 3 then mk_view (a_nsect w) x (a_lbam w) (a_lbah w) (a_device w) (a_phase w) (a_sect w)
  else if i =? 4 then mk_view (a_nsect w) (a_lbal w) x (a_lbah w) (a_device w) (a_phase w) (a_sect w)
  else if i =? 5 then mk_view (a_nsect w) (a_lbal w) (a_lbam w) x (a_device w) (a_phase w) (a_sect w)
  else mk_view (a_nsect w) (a_lbal w) (a_lbam w) (a_lbah w) x (a_phase w) (a_sect w).

(** The device selected, and the sector in LBA mode. *)
Definition selected (w : view) : Z := if Z.testbit (a_device w) 4 then 1 else 0.
Definition lba (w : view) : Z :=
  a_lbal w + Z.shiftl (a_lbam w) 8 + Z.shiftl (a_lbah w) 16 + Z.shiftl (Z.land (a_device w) 0x0f) 24.

(** One sector in LBA mode, within the device. *)
Definition addressed (size : Z -> Z) (w : view) : Prop :=
  a_nsect w = 1 /\ Z.testbit (a_device w) 6 = true /\ lba w < size (selected w).

Definition is_status (base p : Z) : Prop := p = reg_status base \/ p = reg_alt_status base.

#[export] Instance is_status_dec base p : Decision (is_status base p).
Proof. unfold is_status. apply _. Defined.

(** The channel at [base] with interrupt [vec], whose devices have [size] sectors. *)
Class AtaChannel (base vec : Z) (size : Z -> Z) (hw : Type) `{Ata hw} := {
  sees : hw -> view;
  idle_status h p : a_phase (sees h) = Idle -> is_status base p ->
    Z.land (u8 (port_in p h).1) (Z.lor STA_BSY STA_DRQ) = 0 /\ sees (port_in p h).2 = sees h;
  idle_register h i x : a_phase (sees h) = Idle -> 2 <= i <= 6 -> sees (port_out (base + i) x h) = set_reg i x (sees h);
  idle_sleep h ns : a_phase (sees h) = Idle -> sees (hw_sleep ns h) = sees h;
  idle_quiet h : a_phase (sees h) = Idle -> hw_irq h = None;
  read_command h : a_phase (sees h) = Idle -> addressed size (sees h) ->
    sees (port_out (reg_command base) CMD_READ_SECTOR_RETRY h) = in_phase (Reading (selected (sees h)) (lba (sees h))) (sees h);
  reading_time h n s : a_phase (sees h) = Reading n s -> hw_irq h = None ->
    sees (hw_next h) = sees h /\ (hw_delay (hw_next h) < hw_delay h)%nat;
  reading_done h n s x h' : a_phase (sees h) = Reading n s -> hw_irq h = Some (x, h') ->
    x = vec /\ sees h' = in_phase (Sending (a_sect (sees h) n s)) (sees h);
  sending_status h l p : a_phase (sees h) = Sending l -> is_status base p ->
    Z.land (u8 (port_in p h).1) STA_BSY = 0 /\ Z.land (u8 (port_in p h).1) STA_DRQ <> 0 /\ sees (port_in p h).2 = sees h;
  sending_data h lo hi l : a_phase (sees h) = Sending (lo :: hi :: l) ->
    (port_inw (reg_data base) h).1 = (lo, hi) /\
    sees (port_inw (reg_data base) h).2 = in_phase (if decide (l = []) then Idle else Sending l) (sees h);
  write_command h : a_phase (sees h) = Idle -> addressed size (sees h) ->
    let h' := port_out (reg_command base) CMD_WRITE_SECTOR_RETRY h in let n := selected (sees h) in let s := lba (sees h) in
    sees h' = in_phase (Taking n s []) (sees h) \/ sees h' = in_phase (Preparing n s) (sees h) /\ (hw_delay h' < 2999)%nat;
  preparing_status h n s : a_phase (sees h) = Preparing n s ->
    let h' := (port_in (reg_alt_status base) h).2 in
    Z.land (u8 (port_in (reg_alt_status base) h).1) STA_BSY <> 0 /\ sees h' = sees h /\ hw_delay h' = hw_delay h;
  preparing_time h n s ns : a_phase (sees h) = Preparing n s -> let h' := hw_sleep ns h in
    hw_irq h' = None /\
    (sees h' = in_phase (Taking n s []) (sees h) \/ sees h' = sees h /\ (hw_delay h' < hw_delay h)%nat);
  taking_status h n s l : a_phase (sees h) = Taking n s l ->
    let r := port_in (reg_alt_status base) h in
    Z.land (u8 r.1) STA_BSY = 0 /\ Z.land (u8 r.1) STA_DRQ <> 0 /\ sees r.2 = sees h;
  taking_data h n s l lo hi : a_phase (sees h) = Taking n s l -> let l' := l ++ [lo; hi] in
    sees (port_outw (reg_data base) (lo, hi) h) =
      in_phase (if decide (zlen l' = BLOCK_SECTOR_SIZE) then Storing n s l' else Taking n s l') (sees h);
  storing_time h n s l : a_phase (sees h) = Storing n s l -> hw_irq h = None ->
    sees (hw_next h) = sees h /\ (hw_delay (hw_next h) < hw_delay h)%nat;
  storing_done h n s l x h' : a_phase (sees h) = Storing n s l -> hw_irq h = Some (x, h') ->
    x = vec /\ sees h' = stored_view n s l (sees h)
}.

Section Driver.
Context {hw : Type} {base vec : Z} {size : Z -> Z} `{AtaChannel base vec size hw}.
Implicit Types (h : hw) (d : ide hw) (ch : channel).

(** ** A disk in service *)

(** Channel [c] is this one, free, and the processor takes interrupts. *)
Record on_channel (c : Z) (ch : channel) (d : ide hw) : Prop := {
  oc_ch : zget (channels d) c = Some ch;
  oc_base : reg_base ch = base;
  oc_irq : irq ch = vec;
  oc_first : c = 0 \/ c = 1 /\ exists ch0, zget (channels d) 0 = Some ch0 /\ irq ch0 <> vec;
  oc_on : i_intr d = true
}.

(** Disk [n] of the channel. *)
Definition is_disk (n : Z) (ch : channel) : Prop := (n = 0 \/ n = 1) /\ exists dk, zget (devices ch) n = Some dk /\ dev_no dk = n.

Definition sized (w : view) : Prop := forall n s, 0 <= s < size n -> zlen (a_sect w n s) = BLOCK_SECTOR_SIZE.

Definition in_service (c n : Z) (d : ide hw) : Prop :=
  exists ch, on_channel c ch d /\ is_disk n ch /\ c_locked ch = false /\ completion_wait ch = 0 /\
    a_phase (sees (i_hw d)) = Idle /\ sized (sees (i_hw d)).

(** The state while a call uses the channel. *)
Definition st (c : Z) (d : ide hw) (ch : channel) (h : hw) : ide hw :=
  mk_ide (zset (channels d) c ch) (i_intr d) (i_console d) (i_blocks d) h.

Section Calls.
Context (c n : Z) (d : ide hw) (ch0 : channel).
Hypothesis Hon : on_channel c ch0 d.
Hypothesis Hdisk : is_disk n ch0.

(** The channel with other flags. *)
Definition sync (l e : bool) (v : Z) : channel := set_sync l e v ch0.
Abbreviation S_ l e v h := (st c d (sync l e v) h).

Lemma st_start : d = S_ (c_locked ch0) (expecting_interrupt ch0) (completion_wait ch0) (i_hw d).
Proof.
  unfold st, sync, set_sync. destruct Hon as [Hc _ _ _ _]. destruct ch0, d. cbn in *. f_equal. symmetry. by apply zset_same.
Qed.

Lemma get_channel_run l e v h : get_channel c (S_ l e v h) = Done (sync l e v, S_ l e v h).
Proof.
  unfold get_channel, load, st. cbn. destruct Hon as [Hc _ _ _ _]. rewrite zget_zset_eq; [done|]. by apply zget_inv in Hc.
Qed.

Lemma put_channel_run l e v l' e' v' h : put_channel c (sync l' e' v') (S_ l e v h) = Done (tt, S_ l' e' v' h).
Proof. unfold put_channel, modify, with_channels, st. cbn. by rewrite zset_zset. Qed.

Lemma base_of_run l e v h : base_of c (S_ l e v h) = Done (base, S_ l e v h).
Proof. unfold base_of. erewrite bind_done by apply get_channel_run. cbn. by rewrite (oc_base _ _ _ Hon). Qed.

Lemma get_disk_run l e v h : exists dk, dev_no dk = n /\ get_disk c n (S_ l e v h) = Done (dk, S_ l e v h).
Proof.
  destruct Hdisk as [_ (dk & Hd & En)]. exists dk. split; [done|]. unfold get_disk. erewrite bind_done by apply get_channel_run.
  unfold load. cbn. by rewrite Hd.
Qed.

Lemma ide_in_run p l e v h : ide_in p (S_ l e v h) = Done (u8 (port_in p h).1, S_ l e v (port_in p h).2).
Proof. unfold ide_in. cbn. by destruct (port_in p h). Qed.

(** *** Waiting *)

Lemma sleep_idle ns l e v h : a_phase (sees h) = Idle -> timer_nsleep ns (S_ l e v h) = Done (tt, S_ l e v (hw_sleep ns h)).
Proof.
  intros Hi. unfold timer_nsleep. erewrite bind_done by done. erewrite bind_done by (apply assert_done; apply (oc_on _ _ _ Hon)).
  erewrite bind_done by done. unfold take_interrupt. do 2 (erewrite bind_done by done). cbn. rewrite idle_quiet; [done|]. by rewrite idle_sleep.
Qed.

Lemma until_idle_run l e v h : a_phase (sees h) = Idle -> exists h', wait_until_idle c n (S_ l e v h) = Done (tt, S_ l e v h') /\ sees h' = sees h.
Proof.
  intros Hi. destruct (idle_status h (reg_status base) Hi) as [Hs Hv]; [by left|]. exists (port_in (reg_status base) h).2. split; [|done].
  unfold wait_until_idle. change (Z.to_nat 1000) with (S 999). cbn [idle_loop].
  erewrite bind_done; [|erewrite bind_done by apply base_of_run; erewrite bind_done by apply ide_in_run; by rewrite Hs]. done.
Qed.

(** The value of the device register that selects the disk. *)
Definition device_byte (x : Z) : Z := Z.lor x (if n =? 1 then DEV_DEV else 0).

Lemma select_device_run l e v h : a_phase (sees h) = Idle -> exists h' x, select_device c n (S_ l e v h) = Done (tt, S_ l e v h') /\
  sees h' = set_reg 6 x (sees h).
Proof.
  intros Hi. unfold select_device. destruct (get_disk_run l e v h) as (dk & En & Ed). erewrite bind_done by exact Ed.
  erewrite bind_done by apply base_of_run. cbn zeta. rewrite En.
  assert (forall x, a_phase (set_reg 6 x (sees h)) = Idle) as Hs by done.
  set (x := u8 (if n =? 1 then Z.lor DEV_MBS DEV_DEV else DEV_MBS)). set (h1 := port_out (reg_device base) x h).
  assert (sees h1 = set_reg 6 x (sees h)) as E1 by (apply idle_register; [done|lia]).
  destruct (idle_status h1 (reg_alt_status base)) as [_ E2]; [by rewrite E1|by right|].
  exists (hw_sleep 400 (port_in (reg_alt_status base) h1).2), x. erewrite bind_done by (change (ide_out _ _ _) with (Done (tt, S_ l e v h1)); reflexivity).
  erewrite bind_done by apply ide_in_run. split; [apply sleep_idle; by rewrite E2, E1|]. by rewrite idle_sleep, E2, E1 by by rewrite E2, E1.
Qed.

Lemma select_wait_run l e v h : a_phase (sees h) = Idle -> exists h' x, select_device_wait c n (S_ l e v h) = Done (tt, S_ l e v h') /\
  sees h' = set_reg 6 x (sees h).
Proof.
  intros Hi. unfold select_device_wait. destruct (until_idle_run l e v h Hi) as (h1 & E1 & V1). erewrite bind_done by exact E1.
  destruct (select_device_run l e v h1) as (h2 & x & E2 & V2); [by rewrite V1|]. erewrite bind_done by exact E2.
  destruct (until_idle_run l e v h2) as (h3 & E3 & V3); [by rewrite V2, V1|]. exists h3, x. split; [done|]. by rewrite V3, V2, V1.
Qed.

(** *** Addresses *)

Definition device_value (k : Z) : Z := Z.lor (Z.lor (Z.lor DEV_MBS DEV_LBA) (if n =? 1 then DEV_DEV else 0)) k.

Lemma device_bits k : 0 <= k < 16 ->
  Z.testbit (u8 (device_value k)) 4 = (n =? 1) /\ Z.testbit (u8 (device_value k)) 6 = true /\ Z.land (u8 (device_value k)) 0x0f = k.
Proof.
  intros Hk. unfold device_value.
  assert (List.forallb (fun k => List.forallb (fun b : bool =>
    let v := u8 (Z.lor (Z.lor (Z.lor DEV_MBS DEV_LBA) (if b then DEV_DEV else 0)) k) in
    Bool.eqb (Z.testbit v 4) b && Z.testbit v 6 && (Z.land v 0x0f =? k)) [true; false]) (seqZ 0 16) = true) as Hall by by vm_compute.
  rewrite List.forallb_forall in Hall. specialize (Hall k). rewrite <- list_elem_of_In, elem_of_seqZ in Hall. specialize (Hall ltac:(lia)).
  rewrite List.forallb_forall in Hall. specialize (Hall (n =? 1) ltac:(destruct (n =? 1); cbn; auto)).
  cbn zeta in Hall. apply andb_prop in Hall as [Hall E3]. apply andb_prop in Hall as [E1 E2].
  apply Bool.eqb_prop in E1. apply Z.eqb_eq in E3. done.
Qed.

(** The registers hold the address of sector [s] of the disk. *)
Definition at_sector (s : Z) (w w' : view) : Prop :=
  a_phase w' = a_phase w /\ a_sect w' = a_sect w /\ a_nsect w' = 1 /\ Z.testbit (a_device w') 6 = true /\ lba w' = s /\ selected w' = n.

Lemma select_sector_run s l e v h : a_phase (sees h) = Idle -> 0 <= s < Z.shiftl 1 28 ->
  exists h', select_sector c n s (S_ l e v h) = Done (tt, S_ l e v h') /\ at_sector s (sees h) (sees h').
Proof.
  intros Hi Hs. unfold select_sector. erewrite bind_done by (apply assert_done; lia).
  destruct (select_wait_run l e v h Hi) as (h1 & x & E1 & V1). erewrite bind_done by exact E1.
  destruct (get_disk_run l e v h1) as (dk & En & Ed). erewrite bind_done by exact Ed. erewrite bind_done by apply base_of_run. rewrite En.
  assert (a_phase (sees h1) = Idle) as P1 by by rewrite V1.
  pose proof (idle_register h1 2 (u8 1) P1 ltac:(lia)) as V2. set (h2 := port_out (base + 2) (u8 1) h1) in *.
  assert (a_phase (sees h2) = Idle) as P2 by by rewrite V2.
  pose proof (idle_register h2 3 (u8 s) P2 ltac:(lia)) as V3. set (h3 := port_out (base + 3) (u8 s) h2) in *.
  assert (a_phase (sees h3) = Idle) as P3 by by rewrite V3.
  pose proof (idle_register h3 4 (u8 (Z.shiftr s 8)) P3 ltac:(lia)) as V4. set (h4 := port_out (base + 4) (u8 (Z.shiftr s 8)) h3) in *.
  assert (a_phase (sees h4) = Idle) as P4 by by rewrite V4.
  pose proof (idle_register h4 5 (u8 (Z.shiftr s 16)) P4 ltac:(lia)) as V5. set (h5 := port_out (base + 5) (u8 (Z.shiftr s 16)) h4) in *.
  assert (a_phase (sees h5) = Idle) as P5 by by rewrite V5.
  pose proof (idle_register h5 6 (u8 (device_value (Z.shiftr s 24))) P5 ltac:(lia)) as V6.
  exists (port_out (base + 6) (u8 (device_value (Z.shiftr s 24))) h5). split; [reflexivity|].
  assert (0 <= Z.shiftr s 24 < 16) as Hk by (rewrite Z.shiftr_div_pow2 by lia; change (Z.shiftl 1 28) with (2 ^ 28) in Hs; dlia).
  destruct (device_bits _ Hk) as (B4 & B6 & B0).
  unfold at_sector. rewrite V6, V5, V4, V3, V2, V1. unfold lba, selected. cbn -[Z.testbit]. rewrite B4, B6, B0.
  do 4 (split; [done|]). split; [|destruct Hdisk as [[-> | ->] _]; done].
  rewrite !Z.shiftr_div_pow2, !Z.shiftl_mul_pow2 by lia. unfold u8. change (Z.shiftl 1 28) with (2 ^ 28) in Hs. dlia.
Qed.

Lemma issue_run k l e v h : issue_pio_command c k (S_ l e v h) = Done (tt, S_ l true v (port_out (reg_command base) (u8 k) h)).
Proof.
  unfold issue_pio_command. erewrite bind_done by done. erewrite bind_done by (apply assert_done; apply (oc_on _ _ _ Hon)).
  erewrite bind_done by apply get_channel_run. erewrite bind_done by apply (put_channel_run l e v l true v). cbn. by rewrite (oc_base _ _ _ Hon).
Qed.

(** *** Interrupts *)

Lemma handler_skip k c' (d' : ide hw) ch' : zget (channels d') c' = Some ch' -> irq ch' <> vec ->
  handler_loop (S k) c' vec d' = handler_loop k (c' + 1) vec d'.
Proof.
  intros Hz Hi. cbn [handler_loop]. erewrite bind_done by (unfold get_channel, load; by rewrite Hz). by rewrite (proj2 (Z.eqb_neq _ _)) by congruence.
Qed.

Lemma handler_run l v h : interrupt_handler vec (S_ l true v h) = Done (tt, S_ l true (u32 (v + 1)) (port_in (reg_status base) h).2).
Proof.
  assert (forall k, handler_loop (S k) c vec (S_ l true v h) = Done (tt, S_ l true (u32 (v + 1)) (port_in (reg_status base) h).2)) as Hc.
  { intros k. cbn [handler_loop]. erewrite bind_done by apply get_channel_run. cbn [irq sync set_sync expecting_interrupt reg_base].
    rewrite (oc_irq _ _ _ Hon), Z.eqb_refl, (oc_base _ _ _ Hon). erewrite bind_done by apply ide_in_run. by apply (put_channel_run l true v). }
  unfold interrupt_handler. change (Z.to_nat CHANNEL_CNT) with 2%nat. destruct (oc_first _ _ _ Hon) as [E|(E & chf & Hf & Hirq)].
  - rewrite <- E at 1. apply Hc.
  - erewrite (handler_skip 1 0 _ chf); [|cbn; rewrite E, zget_zset_ne by lia; done|done]. change (0 + 1) with 1. rewrite <- E at 1. apply Hc.
Qed.

(** [w] is a view in which the channel works until it raises its interrupt and is
    then seen as [w']. *)
Record works_until (w w' : view) : Prop := {
  wu_time h : sees h = w -> hw_irq h = None -> sees (hw_next h) = w /\ (hw_delay (hw_next h) < hw_delay h)%nat;
  wu_done h x h' : sees h = w -> hw_irq h = Some (x, h') -> x = vec /\ sees h' = w';
  wu_status h : sees h = w' -> sees (port_in (reg_status base) h).2 = w'
}.

Lemma completion_run w w' l : works_until w w' -> forall k h, sees h = w -> (hw_delay h + 2 <= k)%nat ->
  exists h', completion_loop k c (S_ l true 0 h) = Done (tt, S_ l true 0 h') /\ sees h' = w'.
Proof.
  intros Hw. induction k as [|k IH]; intros h Hv Hk; [lia|]. cbn [completion_loop].
  erewrite bind_done by apply get_channel_run. cbn [completion_wait sync set_sync Z.eqb].
  destruct (hw_irq h) as [[x h']|] eqn:Ei.
  - destruct (wu_done _ _ Hw h x h' Hv Ei) as [-> Hv']. erewrite bind_done.
    2: { unfold take_interrupt. do 2 (erewrite bind_done by done). cbn [i_hw i_intr st]. rewrite Ei. rewrite (oc_on _ _ _ Hon).
         erewrite bind_done by done. apply (handler_run l 0 h'). }
    erewrite bind_done by apply get_channel_run. cbn [completion_wait sync set_sync]. change (u32 (0 + 1) =? 0) with false. cbn match.
    erewrite bind_done by done. destruct k as [|k]; [lia|]. cbn [completion_loop]. erewrite bind_done by apply get_channel_run.
    cbn [completion_wait sync set_sync]. change (u32 (0 + 1) =? 0) with false. cbn match. exists (port_in (reg_status base) h').2.
    split; [apply (put_channel_run l true _ l true 0)|]. by apply (wu_status _ _ Hw).
  - destruct (wu_time _ _ Hw h Hv Ei) as [Hv' Hd]. erewrite bind_done.
    2: { unfold take_interrupt. do 2 (erewrite bind_done by done). cbn [i_hw i_intr st]. by rewrite Ei. }
    erewrite bind_done by apply get_channel_run. cbn [completion_wait sync set_sync Z.eqb]. erewrite bind_done by done.
    apply IH; [done|cbn [i_hw st]; lia].
Qed.

Lemma completion_down_run w w' l h : works_until w w' -> sees h = w ->
  exists h', completion_down c (S_ l true 0 h) = Done (tt, S_ l true 0 h') /\ sees h' = w'.
Proof.
  intros Hw Hv. unfold completion_down. erewrite bind_done by done. eapply completion_run; [exact Hw|done|cbn; lia].
Qed.

(** *** Data *)

Lemma insw_run l e v w data : forall k h, a_phase (sees h) = Sending data -> in_phase Idle (sees h) = w -> zlen data = 2 * Z.of_nat (S k) ->
  exists h', insw (reg_data base) (S k) (S_ l e v h) = Done (data, S_ l e v h') /\ sees h' = w.
Proof.
  intros k. revert data. induction k as [|k IH]; intros data h Hp Hw Hl.
  all: destruct data as [|lo [|hi data]]; cbn [length] in Hl; try (unfold zlen in Hl; cbn in Hl; lia).
  all: destruct (sending_data h lo hi data Hp) as [Ew Ev]; rewrite !zlen_cons in Hl.
  all: change (insw (reg_data base) (S ?k) (S_ l e v h)) with
    (bnd (inw (reg_data base)) (fun '(lo, hi) => l ← insw (reg_data base) k; mret (lo :: hi :: l)) (S_ l e v h)).
  all: destruct (port_inw (reg_data base) h) as [[lo' hi'] h1] eqn:Ep; cbn [fst snd] in *; injection Ew as -> ->.
  all: erewrite bind_done by (unfold inw; cbn [i_hw st]; rewrite Ep; reflexivity).
  - destruct data; [|unfold zlen in Hl; cbn in Hl; lia]. exists h1. by rewrite Ev.
  - rewrite decide_False in Ev by (intros ->; unfold zlen in Hl; cbn in Hl; lia).
    destruct (IH data h1) as (h' & E & V); [by rewrite Ev|by rewrite Ev|lia|]. exists h'. split; [|done].
    by erewrite bind_done by exact E.
Qed.

Lemma outsw_run l e v w n' s : forall k data got h, a_phase (sees h) = Taking n' s got -> in_phase (Storing n' s (got ++ data)) (sees h) = w ->
  zlen got + zlen data = BLOCK_SECTOR_SIZE -> zlen data = 2 * Z.of_nat (S k) ->
  exists h', outsw (reg_data base) (S k) data (S_ l e v h) = Done (tt, S_ l e v h') /\ sees h' = w.
Proof.
  induction k as [|k IH]; intros data got h Hp Hw Hg Hl.
  all: destruct data as [|lo [|hi data]]; try (unfold zlen in Hl; cbn in Hl; lia).
  all: pose proof (taking_data h n' s got lo hi Hp) as Ev; cbn zeta in Ev; rewrite !zlen_cons in Hl; rewrite !zlen_cons in Hg.
  all: rewrite zlen_app in Ev; change (zlen [lo; hi]) with 2 in Ev.
  all: change (outsw (reg_data base) (S ?k) (lo :: hi :: data) (S_ l e v h)) with
    (outsw (reg_data base) k data (S_ l e v (port_outw (reg_data base) (lo, hi) h))).
  - destruct data; [|unfold zlen in Hl; cbn in Hl; lia]. eexists. split; [reflexivity|]. change (zlen []) with 0 in Hg.
    by rewrite Ev, decide_True by lia.
  - rewrite decide_False in Ev by lia. apply (IH data (got ++ [lo; hi])); rewrite ?Ev; [done| |rewrite zlen_app; change (zlen [lo; hi]) with 2; lia|lia].
    rewrite <- Hw. cbn. by rewrite <- app_assoc.
Qed.
End Calls.

(** ** Being busy *)

Definition talk (out : list Z) (d : ide hw) : ide hw := mk_ide (channels d) (i_intr d) (i_console d ++ out) (i_blocks d) (i_hw d).

Lemma talk_talk out out' d : talk out' (talk out d) = talk (out ++ out') d.
Proof. unfold talk. cbn. by rewrite app_assoc. Qed.

Lemma talk_nil d : talk [] d = d.
Proof. unfold talk. rewrite app_nil_r. by destruct d. Qed.

Lemma on_channel_talk c ch out d : on_channel c ch d -> on_channel c ch (talk out d).
Proof. by intros [? ? ? ? ?]. Qed.

Section Busy.
Context (c n : Z) (ch0 : channel) (l e : bool) (v : Z).
Hypothesis Hdisk : is_disk n ch0.
Abbreviation S_ d h := (st c d (sync ch0 l e v) h).

(** The channel wants to exchange data. *)
Definition wants_data (w : view) : Prop := forall h, sees h = w -> let r := port_in (reg_alt_status base) h in
  Z.land (u8 r.1) STA_BSY = 0 /\ Z.land (u8 r.1) STA_DRQ <> 0 /\ sees r.2 = w.

(** It does so at once, or was busy before. *)
Definition will_want (w : view) (k : nat) (h : hw) : Prop :=
  sees h = w \/ exists n' s, sees h = in_phase (Preparing n' s) w /\ w = in_phase (Taking n' s []) w /\ (S (hw_delay h) < k)%nat.

Lemma busy_run w (Hw : wants_data w) : forall k i d h, on_channel c ch0 d -> will_want w k h -> (0 < k)%nat ->
  exists out h', busy_loop k i c n (S_ d h) = Done (true, S_ (talk out d) h') /\ sees h' = w.
Proof.
  induction k as [|k IH]; intros i d h Hon Hv Hk; [lia|]. cbn [busy_loop].
  destruct (get_disk_run c n d ch0 Hon Hdisk l e v h) as (dk & _ & Ed).
  assert (exists out, (if i =? 700 then dk ← get_disk c n; print (d_name dk ++ codes ": busy, waiting...") else mret tt) (S_ d h) =
    Done (tt, S_ (talk out d) h)) as [out1 E1].
  { destruct (i =? 700); [|exists []; by rewrite talk_nil]. eexists. erewrite bind_done by exact Ed. reflexivity. }
  erewrite bind_done by exact E1. pose proof (on_channel_talk c ch0 out1 d Hon) as Hon1.
  erewrite bind_done by by apply base_of_run. erewrite bind_done by apply ide_in_run. destruct Hv as [Hv|(n' & s & Hv & Hwt & Hd)].
  - destruct (Hw h Hv) as (Hb & _ & Hv1). rewrite Hb. change (0 =? 0) with true. cbn match.
    assert (exists out, (if 700 <=? i then print (codes "ok" ++ [10]) else mret tt) (S_ (talk out1 d) (port_in (reg_alt_status base) h).2) =
      Done (tt, S_ (talk out (talk out1 d)) (port_in (reg_alt_status base) h).2)) as [out2 E2].
    { destruct (700 <=? i); [eexists; reflexivity|exists []; by rewrite talk_nil]. }
    erewrite bind_done by exact E2. erewrite bind_done by apply ide_in_run. destruct (Hw _ Hv1) as (_ & Hq & Hv2).
    rewrite (proj2 (Z.eqb_neq _ _) Hq). rewrite talk_talk. eexists _, _. split; [reflexivity|done].
  - destruct (preparing_status h n' s) as (Hb & Hv1 & Hd1); [by rewrite Hv|]. cbn zeta in *. rewrite (proj2 (Z.eqb_neq _ _) Hb).
    set (h1 := (port_in (reg_alt_status base) h).2) in *. destruct (preparing_time h1 n' s 10000000) as (Hi & Ht); [by rewrite Hv1, Hv|].
    cbn zeta in *. set (h2 := hw_sleep 10000000 h1) in *. erewrite bind_done.
    2: { unfold timer_msleep, timer_nsleep. erewrite bind_done by done. erewrite bind_done by (apply assert_done; apply (oc_on _ _ _ Hon)).
         change (1000000 * 10) with 10000000. erewrite bind_done by done. unfold take_interrupt. do 2 (erewrite bind_done by done).
         cbn [i_hw st with_ihw]. fold h1 h2. rewrite Hi. reflexivity. }
    change (with_ihw h2 (S_ (talk out1 d) h1)) with (S_ (talk out1 d) h2).
    destruct (IH (i + 1) (talk out1 d) h2 Hon1) as (out2 & h' & E2 & V2); [|destruct k; [|lia]|].
    + destruct Ht as [Ht|[Ht Hlt]]; [left|right; exists n', s].
      * by rewrite Ht, Hv1, Hv, Hwt.
      * rewrite Ht, Hv1. split; [done|]. split; [done|lia].
    + lia.
    + exists (out1 ++ out2), h'. by rewrite <- talk_talk.
Qed.
End Busy.

(** ** Reading and writing *)

(** Sector [s] of disk [n] can be addressed. *)
Definition has_sector (n s : Z) : Prop := 0 <= s < Z.shiftl 1 28 /\ s < size n.

Lemma at_sector_addressed n s w w' : at_sector n s w w' -> has_sector n s -> addressed size w'.
Proof. intros (_ & _ & En & E6 & El & Es) [_ Hs]. split; [done|]. split; [done|]. by rewrite El, Es. Qed.

Section Transfer.
Context (c n : Z) (ch : channel).
Hypothesis Hdisk : is_disk n ch.
Abbreviation S_ d l e v h := (st c d (sync ch l e v) h).

Lemma lock_run d e h : on_channel c ch d -> ide_lock c (S_ d false e 0 h) = Done (tt, S_ d true e 0 h).
Proof. intros Hon. unfold ide_lock. erewrite bind_done by by apply get_channel_run. erewrite bind_done by done. apply (put_channel_run c d ch false e 0 true e 0). Qed.

Lemma unlock_run d e h : on_channel c ch d -> ide_unlock c (S_ d true e 0 h) = Done (tt, S_ d false e 0 h).
Proof. intros Hon. unfold ide_unlock. erewrite bind_done by by apply get_channel_run. erewrite bind_done by done. apply (put_channel_run c d ch true e 0 false e 0). Qed.

(** The registers are set for sector [s] of the disk. *)
Lemma address_run d s e h : on_channel c ch d -> has_sector n s -> a_phase (sees h) = Idle -> exists h1,
  select_sector c n s (S_ d true e 0 h) = Done (tt, S_ d true e 0 h1) /\
  a_phase (sees h1) = Idle /\ a_sect (sees h1) = a_sect (sees h) /\ lba (sees h1) = s /\ selected (sees h1) = n /\ addressed size (sees h1).
Proof.
  intros Hon Hs Hi. destruct (select_sector_run c n d ch Hon Hdisk s true e 0 h Hi ltac:(apply Hs)) as (h1 & E1 & Ha).
  exists h1. split; [exact E1|]. pose proof (at_sector_addressed _ _ _ _ Ha Hs). destruct Ha as (-> & -> & _ & _ & -> & ->). done.
Qed.

Lemma reading_works w m t : a_phase w = Reading m t -> zlen (a_sect w m t) = BLOCK_SECTOR_SIZE ->
  works_until w (in_phase (Sending (a_sect w m t)) w).
Proof.
  intros Hp Hz. split.
  - intros h Hv Hi. rewrite <- Hv. eapply reading_time; [by rewrite Hv|done].
  - intros h x h' Hv Hi. rewrite <- Hv. eapply reading_done; [by rewrite Hv|done].
  - intros h Hv. rewrite <- Hv. eapply sending_status; [by rewrite Hv|by left].
Qed.

Lemma storing_works w m t data : a_phase w = Storing m t data -> works_until w (stored_view m t data w).
Proof.
  intros Hp. split.
  - intros h Hv Hi. rewrite <- Hv. eapply storing_time; [by rewrite Hv|done].
  - intros h x h' Hv Hi. rewrite <- Hv. eapply storing_done; [by rewrite Hv|done].
  - intros h Hv. rewrite <- Hv. eapply idle_status; [by rewrite Hv|by left].
Qed.

Lemma read_run d s e h : on_channel c ch d -> has_sector n s -> a_phase (sees h) = Idle -> sized (sees h) -> exists out h',
  ide_read c n s (S_ d false e 0 h) = Done (a_sect (sees h) n s, S_ (talk out d) false true 0 h') /\
  a_phase (sees h') = Idle /\ a_sect (sees h') = a_sect (sees h).
Proof.
  intros Hon Hs Hi Hsz. destruct (address_run d s e h Hon Hs Hi) as (h1 & E1 & P1 & C1 & L1 & N1 & A1).
  pose proof (read_command h1 P1 A1) as V2. rewrite L1, N1 in V2. set (w1 := sees h1) in *.
  set (h2 := port_out (reg_command base) CMD_READ_SECTOR_RETRY h1) in *.
  assert (zlen (a_sect w1 n s) = BLOCK_SECTOR_SIZE) as Hz by (rewrite C1; apply Hsz; destruct Hs; lia).
  destruct (completion_down_run c d ch Hon _ _ true h2 (reading_works (in_phase (Reading n s) w1) n s eq_refl Hz) V2) as (h3 & E3 & V3).
  destruct (busy_run c n ch true true 0 Hdisk (sees h3)) with (k := 3000%nat) (i := 0) (d := d) (h := h3) as (out & h4 & E4 & V4);
    [intros g Hg; rewrite <- Hg; eapply sending_status; [by rewrite Hg, V3|by right]|done|by left|lia|].
  pose proof (on_channel_talk c ch out d Hon) as Hon'.
  destruct (insw_run c (talk out d) ch true true 0 (in_phase Idle w1) (a_sect w1 n s) 255 h4) as (h5 & E5 & V5);
    [by rewrite V4, V3|by rewrite V4, V3|by rewrite Hz|].
  exists out, h5. split; [|by rewrite V5, <- C1]. unfold ide_read. erewrite bind_done by by apply lock_run. erewrite bind_done by exact E1.
  erewrite bind_done by by apply issue_run. erewrite bind_done by exact E3. erewrite bind_done by exact E4. cbn [negb].
  erewrite bind_done by (unfold input_sector; erewrite bind_done by (by apply base_of_run); exact E5).
  erewrite bind_done by by apply unlock_run. by rewrite <- C1.
Qed.

Lemma write_run d s e h data : on_channel c ch d -> has_sector n s -> a_phase (sees h) = Idle -> zlen data = BLOCK_SECTOR_SIZE -> exists out h',
  ide_write c n s data (S_ d false e 0 h) = Done (tt, S_ (talk out d) false true 0 h') /\
  a_phase (sees h') = Idle /\
  forall n' t, a_sect (sees h') n' t = if (n' =? n) && (t =? s) then data else a_sect (sees h) n' t.
Proof.
  intros Hon Hs Hi Hdata. destruct (address_run d s e h Hon Hs Hi) as (h1 & E1 & P1 & C1 & L1 & N1 & A1).
  pose proof (write_command h1 P1 A1) as V2. cbn zeta in V2. rewrite L1, N1 in V2. set (w1 := sees h1) in *.
  set (h2 := port_out (reg_command base) CMD_WRITE_SECTOR_RETRY h1) in *.
  destruct (busy_run c n ch true true 0 Hdisk (in_phase (Taking n s []) w1)) with (k := 3000%nat) (i := 0) (d := d) (h := h2) as (out & h3 & E3 & V3).
  { intros g Hg. rewrite <- Hg. eapply taking_status. by rewrite Hg. }
  { done. }
  { destruct V2 as [V2|[V2 Hd]]; [by left|right]. exists n, s. split; [done|]. split; [done|]. lia. }
  { lia. }
  pose proof (on_channel_talk c ch out d Hon) as Hon'.
  destruct (outsw_run c (talk out d) ch true true 0 (in_phase (Storing n s data) w1) n s 255 data [] h3) as (h4 & E4 & V4);
    [by rewrite V3|by rewrite V3|done|by rewrite Hdata|].
  destruct (completion_down_run c (talk out d) ch Hon' _ _ true h4 (storing_works (in_phase (Storing n s data) w1) n s data eq_refl) V4) as (h5 & E5 & V5).
  exists out, h5. split; [|rewrite V5, <- C1; split; done].
  unfold ide_write. erewrite bind_done by by apply lock_run. erewrite bind_done by exact E1.
  erewrite bind_done by by apply issue_run. erewrite bind_done by exact E3. cbn [negb].
  erewrite bind_done by (unfold output_sector; erewrite bind_done by (by apply base_of_run); exact E4).
  erewrite bind_done by exact E5. by apply unlock_run.
Qed.
End Transfer.

(** *** On a disk in service *)

Definition sectors (d : ide hw) : Z -> Z -> list Z := a_sect (sees (i_hw d)).

Lemma in_service_start c n d : in_service c n d -> exists ch, on_channel c ch d /\ is_disk n ch /\
  d = st c d (sync ch false (expecting_interrupt ch) 0) (i_hw d) /\ a_phase (sees (i_hw d)) = Idle /\ sized (sees (i_hw d)).
Proof.
  intros (ch & Hon & Hd & Hl & Hw & Hi). exists ch. split; [done|]. split; [done|]. split; [|done].
  rewrite (st_start c n d ch Hon Hd) at 1. by rewrite Hl, Hw.
Qed.

Lemma in_service_end c n ch out d h : on_channel c ch d -> a_phase (sees h) = Idle -> sized (sees h) -> is_disk n ch ->
  in_service c n (st c (talk out d) (sync ch false true 0) h).
Proof.
  intros [Hc Hb Hi Hf Ho] Hp Hz Hd. exists (sync ch false true 0). split; [|by split].
  split; [cbn; rewrite zget_zset_eq; [done|by apply zget_inv in Hc]|done|done| |done].
  destruct Hf as [->|(-> & chf & Hzf & Hne)]; [by left|right]. split; [done|]. exists chf. cbn. by rewrite zget_zset_ne.
Qed.

Lemma in_service_other c n' ch d : on_channel c ch d -> in_service c n' d -> is_disk n' ch.
Proof. intros [Hc _ _ _ _] (ch' & [Hc' _ _ _ _] & Hd & _). congruence. Qed.

Lemma ide_read_run c n d s : in_service c n d -> has_sector n s -> exists d',
  ide_read c n s d = Done (sectors d n s, d') /\ (forall n', in_service c n' d -> in_service c n' d') /\ sectors d' = sectors d.
Proof.
  intros Hs Hsec. destruct (in_service_start c n d Hs) as (ch & Hon & Hd & E & Hi & Hz).
  destruct (read_run c n ch Hd d s (expecting_interrupt ch) (i_hw d) Hon Hsec Hi Hz) as (out & h' & Er & Hi' & Hs').
  rewrite <- E in Er. eexists. split; [exact Er|]. split; [|done].
  intros n' Hn'. apply in_service_end; [done|done| |by eapply in_service_other]. intros m t Ht. rewrite Hs'. by apply Hz.
Qed.

Lemma ide_write_run c n d s data : in_service c n d -> has_sector n s -> zlen data = BLOCK_SECTOR_SIZE -> exists d',
  ide_write c n s data d = Done (tt, d') /\ (forall n', in_service c n' d -> in_service c n' d') /\
  forall n' t, sectors d' n' t = if (n' =? n) && (t =? s) then data else sectors d n' t.
Proof.
  intros Hs Hsec Hdata. destruct (in_service_start c n d Hs) as (ch & Hon & Hd & E & Hi & Hz).
  destruct (write_run c n ch Hd d s (expecting_interrupt ch) (i_hw d) data Hon Hsec Hi Hdata) as (out & h' & Er & Hi' & Hs').
  rewrite <- E in Er. eexists. split; [exact Er|]. split; [|done].
  intros n' Hn'. apply in_service_end; [done|done| |by eapply in_service_other].
  intros m t Ht. rewrite Hs'. case_match; [done|by apply Hz].
Qed.

(** C25: reading a sector of a disk in service waits for the disk's interrupt and gives
    the sector that was asked for, and the disks of the channel stay in service with
    the same sectors. *)
Theorem ide_read_correct c n d s (Hs : in_service c n d) (Hsec : has_sector n s) : exists d',
  ide_read c n s d = Done (sectors d n s, d') /\ (forall n', in_service c n' d -> in_service c n' d') /\ sectors d' = sectors d.
Proof. by apply ide_read_run. Qed.

(** C26: writing a sector of a disk in service replaces exactly this sector of this disk
    by the data, with its bytes in order, before it returns, however long the disk is
    busy within the time the standard allows. *)
Theorem ide_write_correct c n d s data (Hs : in_service c n d) (Hsec : has_sector n s) (Hdata : zlen data = BLOCK_SECTOR_SIZE) : exists d',
  ide_write c n s data d = Done (tt, d') /\ (forall n', in_service c n' d -> in_service c n' d') /\
  forall n' t, sectors d' n' t = if (n' =? n) && (t =? s) then data else sectors d n' t.
Proof. by apply ide_write_run. Qed.

(** ** The interface of the block layer *)

(** [ide_operations] with the disk they are called for. *)
Record drive := mk_drive { k_channel : Z; k_dev : Z; k_ide : ide hw }.

Definition drive_read (k : drive) (s : Z) : outcome (list Z * drive) :=
  '(bs, d) ← ide_read (k_channel k) (k_dev k) s (k_ide k); Done (bs, mk_drive (k_channel k) (k_dev k) d).
Definition drive_write (k : drive) (s : Z) (data : list Z) : outcome drive :=
  '(_, d) ← ide_write (k_channel k) (k_dev k) s data (k_ide k); Done (mk_drive (k_channel k) (k_dev k) d).
Definition drive_ready (k : drive) (s : Z) : Prop := in_service (k_channel k) (k_dev k) (k_ide k) /\ has_sector (k_dev k) s.

#[export] Program Instance ide_driver : BlockDriver drive := {
  op_read := drive_read;
  op_write := drive_write;
  contents := fun k s => sectors (k_ide k) (k_dev k) s;
  ready := drive_ready
}.
Next Obligation.
  intros k s [Hs Hsec]. destruct (ide_read_run _ _ _ _ Hs Hsec) as (d' & E & Hd & Hc). exists (mk_drive (k_channel k) (k_dev k) d').
  split; [unfold drive_read; by rewrite E|]. split; [|intros t _; cbn; by rewrite Hc]. intros t. unfold drive_ready. cbn.
  split; intros [? ?]; (split; [|done]); [done|by apply Hd].
Qed.
Next Obligation.
  intros k s data [Hs Hsec] Hdata. destruct (ide_write_run _ _ _ _ _ Hs Hsec Hdata) as (d' & E & Hd & Hc). exists (mk_drive (k_channel k) (k_dev k) d').
  split; [unfold drive_write; by rewrite E|]. split; [|intros t _; cbn; by rewrite Hc, Z.eqb_refl]. intros t. unfold drive_ready. cbn.
  split; intros [? ?]; (split; [|done]); [done|by apply Hd].
Qed.
Next Obligation. intros k s [(ch & _ & _ & _ & _ & _ & Hz) [Hs Hn]]. apply Hz. lia. Qed.
End Driver.
