(* ===== verification/IdeDemo.v ===== *)
(** * A simulated ATA channel

    A concrete channel that meets [AtaChannel], with a master disk of 64 sectors and
    busy times that are not zero: the driver finds the disk, reads and writes it, and
    a file system can be formatted on it. *)

From Stdlib Require Import(notations) String.
From S2P Require Import Prelude Bitmap Block FileSys FileSpec FsAbstract FsMid FsMount FsCorrect Stdio Devices Ide IdeSpec.

(** ** A partition of an ATA disk *)

Section IdeFs.
Context {hw : Type} {base vec : Z} {cap : Z -> Z} `{AtaChannel base vec cap hw}.

(** The partition lies within a disk in service. *)
Record on_disk (b : block (partition (drive (hw := hw)))) : Prop := {
  od_start : 0 <= p_start (aux b);
  od_end : p_start (aux b) + Block.size b <= Block.size (p_block (aux b));
  od_type : Block.type (p_block (aux b)) <> BLOCK_FOREIGN /\ Block.type b <> BLOCK_FOREIGN;
  od_disk : in_service (size := cap) (k_channel (aux (p_block (aux b)))) (k_dev (aux (p_block (aux b)))) (k_ide (aux (p_block (aux b))));
  od_sectors : Block.size (p_block (aux b)) <= cap (k_dev (aux (p_block (aux b)))) /\ Block.size (p_block (aux b)) <= Z.shiftl 1 28
}.

Lemma on_disk_usable b : on_disk b -> roomy (Block.size b) -> usable b.
Proof.
  intros [Hs He [Hf Hf'] Hd [Hc Hn]] [Hr Hr']. split; [done|pose proof (byte_cnt_val _ Hr); dlia|].
  intros t Ht. change (Z.shiftl 1 28) with 268435456 in Hn. cbn. unfold partition_ready, readable. cbn. unfold drive_ready, has_sector.
  change (Z.shiftl 1 28) with 268435456. split_and!; try done; lia.
Qed.

(** C27: formatting a partition of an ATA disk in service through the driver succeeds and
    gives the empty file system. *)
Theorem ide_format_correct s (Hb : booted s) (Hd : on_disk (fs_device s)) (Hr : roomy (Block.size (fs_device s))) :
  exists s', filesys_init true s = Done (tt, s') /\ rep 16 (mk_afs ∅ ∅ ∅) s'.
Proof. apply format_run; [done|by apply on_disk_usable|done]. Qed.
End IdeFs.

(** ** The simulation *)

Record sim := mk_sim { s_view : view; s_wait : nat }.

Definition sim_base : Z := 0x1f0.
Definition sim_vec : Z := 14 + 0x20.
Definition sim_size (n : Z) : Z := if n =? 0 then 64 else 0.

(** Bits 7, 6 and 3: busy, ready, data request. *)
Definition sim_status (p : phase) : Z :=
  match p with Idle => 0x40 | Sending _ | Taking _ _ _ => 0x48 | Reading _ _ | Preparing _ _ | Storing _ _ _ => 0x80 end.

Definition sim_in (p : Z) (h : sim) : Z * sim :=
  let w := s_view h in
  if decide (is_status sim_base p) then (sim_status (a_phase w), h)
  else if p =? sim_base + 1 then (if selected w =? 0 then 1 else 0, h)
  else if p =? sim_base + 2 then (a_nsect w, h)
  else if p =? sim_base + 3 then (a_lbal w, h)
  else if p =? sim_base + 4 then (0, h)
  else if p =? sim_base + 5 then (0, h)
  else (0xff, h).

(** The identification of a disk is kept as its sector -1. *)
Definition sim_command (x : Z) (h : sim) : sim :=
  let w := s_view h in
  if x =? CMD_READ_SECTOR_RETRY then mk_sim (in_phase (Reading (selected w) (lba w)) w) 2
  else if x =? CMD_WRITE_SECTOR_RETRY then mk_sim (in_phase (Preparing (selected w) (lba w)) w) 2
  else mk_sim (in_phase (Reading (selected w) (-1)) w) 2.

Definition sim_out (p x : Z) (h : sim) : sim :=
  if decide (a_phase (s_view h) = Idle) then
    if (sim_base + 2 <=? p) && (p <=? sim_base + 6) then mk_sim (set_reg (p - sim_base) x (s_view h)) (s_wait h)
    else if p =? reg_command sim_base then sim_command x h
    else h
  else h.

Definition sim_inw (p : Z) (h : sim) : Z * Z * sim :=
  match a_phase (s_view h) with
  | Sending (lo :: hi :: l) => (lo, hi, mk_sim (in_phase (if decide (l = []) then Idle else Sending l) (s_view h)) (s_wait h))
  | _ => (0, 0, h)
  end.

Definition sim_outw (p : Z) (w : Z * Z) (h : sim) : sim :=
  match a_phase (s_view h) with
  | Taking n s l =>
      let l' := l ++ [w.1; w.2] in
      mk_sim (in_phase (if decide (zlen l' = BLOCK_SECTOR_SIZE) then Storing n s l' else Taking n s l') (s_view h)) 2
  | _ => h
  end.

Definition sim_sleep (ns : Z) (h : sim) : sim :=
  match a_phase (s_view h), s_wait h with
  | Preparing n s, O => mk_sim (in_phase (Taking n s []) (s_view h)) O
  | Preparing n s, S k => mk_sim (s_view h) k
  | _, _ => h
  end.

Definition sim_irq (h : sim) : option (Z * sim) :=
  match a_phase (s_view h), s_wait h with
  | Reading n s, O => Some (sim_vec, mk_sim (in_phase (Sending (a_sect (s_view h) n s)) (s_view h)) O)
  | Storing n s l, O => Some (sim_vec, mk_sim (stored_view n s l (s_view h)) O)
  | _, _ => None
  end.

#[export] Instance sim_ata : Ata sim := {
  ata_ports := {| port_in := sim_in; port_out := sim_out |};
  port_inw := sim_inw;
  port_outw := sim_outw;
  hw_sleep := sim_sleep;
  hw_next h := mk_sim (s_view h) (pred (s_wait h));
  hw_irq := sim_irq;
  hw_delay := s_wait
}.

#[export] Program Instance sim_channel : AtaChannel sim_base sim_vec sim_size sim := { sees := s_view }.
Next Obligation. intros h p Hp Hs. cbn. unfold sim_in. rewrite decide_True by done. by rewrite Hp. Qed.
Next Obligation.
  intros h i x Hp Hi. cbn. unfold sim_out. rewrite decide_True by done. rewrite (proj2 (Z.leb_le _ _)), (proj2 (Z.leb_le _ _)) by lia. cbn.
  f_equal. lia.
Qed.
Next Obligation. intros h ns Hp. cbn. unfold sim_sleep. by rewrite Hp. Qed.
Next Obligation. intros h Hp. cbn. unfold sim_irq. by rewrite Hp. Qed.
Next Obligation. intros h Hp _. cbn. unfold sim_out. by rewrite decide_True by done. Qed.
Next Obligation. intros h n s Hp. cbn. unfold sim_irq. rewrite Hp. destruct (s_wait h) eqn:E; [done|]. intros _. split; [done|cbn; rewrite ?E; cbn; lia]. Qed.
Next Obligation. intros h n s x h' Hp. cbn. unfold sim_irq. rewrite Hp. destruct (s_wait h); [|done]. by intros [= <- <-]. Qed.
Next Obligation. intros h l p Hp Hs. cbn. unfold sim_in. rewrite decide_True by done. by rewrite Hp. Qed.
Next Obligation. intros h lo hi l Hp. cbn. unfold sim_inw. by rewrite Hp. Qed.
Next Obligation. intros h Hp _. cbn. right. unfold sim_out. rewrite decide_True by done. cbn. split; [done|vm_compute; lia]. Qed.
Next Obligation. intros h n s Hp. cbn. unfold sim_in. rewrite decide_True by by right. by rewrite Hp. Qed.
Next Obligation.
  intros h n s ns Hp. cbn. unfold sim_sleep, sim_irq. rewrite Hp. destruct (s_wait h) eqn:E; cbn; rewrite ?Hp; [auto|].
  split; [by destruct n0|]. right. split; [done|lia].
Qed.
Next Obligation. intros h n s l Hp. cbn. unfold sim_in. rewrite decide_True by by right. by rewrite Hp. Qed.
Next Obligation. intros h n s l lo hi Hp. cbn. unfold sim_outw. by rewrite Hp. Qed.
Next Obligation. intros h n s l Hp. cbn. unfold sim_irq. rewrite Hp. destruct (s_wait h) eqn:E; [done|]. intros _. split; [done|cbn; rewrite ?E; cbn; lia]. Qed.
Next Obligation. intros h n s l x h' Hp. cbn. unfold sim_irq. rewrite Hp. destruct (s_wait h); [|done]. by intros [= <- <-]. Qed.

(** ** A computer with this channel *)

(** IDENTIFY data: the capacity in words 60 and 61, strings with their bytes in
    pairs swapped. *)
Fixpoint swapped (s : list Z) : list Z := match s with a :: b :: s => b :: a :: swapped s | s => s end.
Definition sim_identity : list Z :=
  repeat 0 20 ++ swapped (codes "WD-123              ") ++ repeat 0 14 ++ swapped (codes "Pintos Disk                             ") ++ repeat 0 26 ++
  [64; 0; 0; 0] ++ repeat 0 388.
Definition sim_sector (n s : Z) : list Z := if s =? -1 then sim_identity else repeat s 512.
Definition sim_start : sim := mk_sim (mk_view 0 0 0 0 0 Idle sim_sector) 0.
Definition sim_pc : ide sim := mk_ide [new_channel 0; new_channel 1] true [] [] sim_start.

Definition after {S A} (o : outcome (A * S)) (s : S) : S := match o with Done (_, s') => s' | _ => s end.
Definition sim_booted : ide sim := after (ide_init sim_pc) sim_pc.

(** The driver finds the disk; what it prints as the model is the serial number, which
    ATA-3 has in words 10 to 19. *)
Example disk_found : i_blocks sim_booted =
  [mk_registration (codes "hda") (codes "model " ++ [34] ++ codes "WD-123" ++ [34] ++ codes ", serial " ++ [34] ++ codes "Pintos Disk" ++ [34]) 64 (0, 0)] /\
  i_console sim_booted = [].
Proof. split; by vm_compute. Qed.

Lemma sim_has s : 0 <= s < 64 -> has_sector (size := sim_size) 0 s.
Proof. intros Hs. unfold has_sector. change (Z.shiftl 1 28) with 268435456. change (sim_size 0) with 64. lia. Qed.

Definition demo_channel : channel := default (new_channel 0) (zget (channels sim_booted) 0).

Lemma sim_serves : in_service (size := sim_size) 0 0 sim_booted.
Proof.
  exists demo_channel. split; [split; [by vm_compute|by vm_compute|by vm_compute|by left|by vm_compute]|].
  split; [split; [by left|]; eexists; split; [vm_compute; reflexivity|done]|].
  split; [by vm_compute|]. split; [by vm_compute|]. split; [by vm_compute|].
  intros n s Hs. assert (forall n s, a_sect (sees (i_hw sim_booted)) n s = sim_sector n s) as ->.
  { intros n' s'. by vm_compute. }
  unfold sim_sector. rewrite (proj2 (Z.eqb_neq _ _)) by lia. unfold zlen. by rewrite repeat_length.
Qed.

Lemma ide_read_correct_witness : exists d', ide_read 0 0 7 sim_booted = Done (repeat 7 512, d') /\
  (forall n', in_service (size := sim_size) 0 n' sim_booted -> in_service (size := sim_size) 0 n' d') /\ sectors d' = sectors sim_booted.
Proof.
  exact (ide_read_correct 0 0 sim_booted 7 sim_serves (sim_has 7 ltac:(lia))).
Defined.

Lemma ide_write_correct_witness : exists d', ide_write 0 0 7 (repeat 9 512) sim_booted = Done (tt, d') /\
  (forall n', in_service (size := sim_size) 0 n' sim_booted -> in_service (size := sim_size) 0 n' d') /\
  forall n' t, sectors d' n' t = if (n' =? 0) && (t =? 7) then repeat 9 512 else sectors sim_booted n' t.
Proof.
  exact (ide_write_correct 0 0 sim_booted 7 (repeat 9 512) sim_serves (sim_has 7 ltac:(lia)) eq_refl).
Defined.

(** A partition of 40 sectors, from sector 10 of the disk on. *)
Definition sim_block : block (drive (hw := sim)) := mk_block (codes "hda") BLOCK_RAW 64 (mk_drive 0 0 sim_booted) 0 0.
Definition sim_partition : block (partition (drive (hw := sim))) := mk_block (codes "hda1") BLOCK_FILESYS 40 (mk_partition sim_block 10) 0 0.
Definition sim_fs : fs (partition (drive (hw := sim))) := mk_fs sim_partition (mk_bitmap 0 []) 0 [] ∅ ∅ ∅ [] 1.

Lemma ide_format_correct_witness : exists s', filesys_init true sim_fs = Done (tt, s') /\ rep 16 (mk_afs ∅ ∅ ∅) s'.
Proof.
  apply ide_format_correct.
  - by split.
  - split; [done|done|by split|exact sim_serves|by split].
  - by split.
Defined.

(** The last character of a string that fills its field is lost, and the size of a
    disk of 5 GB is told as 1 GB. *)
Example descramble_drops_last : c_string (descramble_ata_string (swapped (codes "SERIAL")) 6) = codes "SERIA".
Proof. by vm_compute. Qed.
Example human_size_wraps : human_size (u32 (10485760 * 512)) sim_pc = Done (codes "1 GB", sim_pc).
Proof. by vm_compute. Qed.
