(* ===== verification/Timer.v ===== *)
(** * devices/timer.c, pit.c, speaker.c: the timer and the speaker

    The state has the variables of timer.c, the interrupt flag, the console and the
    hardware ([Clock]), which also says how many timer interrupts come while a waiting
    loop turns and while other threads run.  A timer interrupt counts a tick; what else
    it does to the threads is Kernel's [timer_interrupt]. *)

From Stdlib Require Import Ascii.
From Stdlib Require Import(notations) String.
From S2P Require Import Prelude Vaddr Mem Stdio Devices.

(** The port instructions and the passing of time. *)
Class Clock (hw : Type) := {
  clock_ports :: Ports hw;
  hw_turn : hw -> nat * hw;      (* a turn of a waiting loop: timer interrupts meanwhile *)
  hw_yield : hw -> nat * hw;     (* thread_yield: timer interrupts until it returns *)
  turns_left : hw -> nat;        (* turns before the next timer interrupt, at most *)
  yields_left : Z -> hw -> nat   (* yields in which so many ticks pass, at most *)
}.

Record timer (hw : Type) := mk_timer {
  ticks : Z;                     (* number of timer ticks since OS booted *)
  loops_per_tick : Z;            (* number of loops per timer tick *)
  t_intr : bool;                 (* interrupts are enabled *)
  t_handlers : list (Z * list Z); (* vectors registered, with their names *)
  t_console : list Z;
  t_hw : hw
}.
Arguments mk_timer {hw}.
Arguments ticks {hw}.
Arguments loops_per_tick {hw}.
Arguments t_intr {hw}.
Arguments t_handlers {hw}.
Arguments t_console {hw}.
Arguments t_hw {hw}.

Definition TIMER_FREQ : Z := 100.
Definition PIT_PORT_CONTROL : Z := 0x43.
Definition PIT_PORT_COUNTER (channel : Z) : Z := 0x40 + channel.
Definition PIT_HZ : Z := 1193180.
Definition SPEAKER_PORT_GATE : Z := 0x61.
Definition SPEAKER_GATE_ENABLE : Z := 0x03.

Section Timer.
Context {hw : Type} `{Clock hw}.
Abbreviation T := (timer hw).

Definition with_ticks n (t : T) : T := mk_timer n (loops_per_tick t) (t_intr t) (t_handlers t) (t_console t) (t_hw t).
Definition with_loops n (t : T) : T := mk_timer (ticks t) n (t_intr t) (t_handlers t) (t_console t) (t_hw t).
Definition with_intr b (t : T) : T := mk_timer (ticks t) (loops_per_tick t) b (t_handlers t) (t_console t) (t_hw t).
Definition with_thw h (t : T) : T := mk_timer (ticks t) (loops_per_tick t) (t_intr t) (t_handlers t) (t_console t) h.
Definition with_console o (t : T) : T := mk_timer (ticks t) (loops_per_tick t) (t_intr t) (t_handlers t) o (t_hw t).

Definition inb (port : Z) : M T Z := fun t => let '(v, h) := port_in port (t_hw t) in Done (u8 v, with_thw h t).
Definition outb (port v : Z) : M T unit := modify (fun t => with_thw (port_out port (u8 v) (t_hw t)) t).

Definition intr_get_level : M T bool := gets t_intr.
Definition intr_set_level (level : bool) : M T unit := modify (with_intr level).
Definition intr_disable : M T bool := old ← intr_get_level; intr_set_level false ;; mret old.

(** A message without strings among its arguments. *)
Definition printf_console (format args : list Z) : M T unit := fun t =>
  '(out, _) ← printf format args ∅; Done (tt, with_console (t_console t ++ out) t).

(** ** pit.c *)

(** The value of the counter for a frequency. *)
Definition pit_count (frequency : Z) : Z :=
  if frequency <? 19 then 0
  else if PIT_HZ <? frequency then 2
  else u16 (Z.quot (PIT_HZ + Z.quot frequency 2) frequency).

Definition pit_configure_channel (channel mode frequency : Z) : M T unit :=
  ASSERT ((channel =? 0) || (channel =? 2)) ;;
  ASSERT ((mode =? 2) || (mode =? 3)) ;;
  let count := pit_count frequency in
  old_level ← intr_disable;
  outb PIT_PORT_CONTROL (Z.lor (Z.lor (Z.shiftl channel 6) 0x30) (Z.shiftl mode 1)) ;;
  outb (PIT_PORT_COUNTER channel) count ;;
  outb (PIT_PORT_COUNTER channel) (Z.shiftr count 8) ;;
  intr_set_level old_level.

(** ** timer.c *)

(** [ticks++] of the interrupt handler. *)
Definition timer_tick : M T unit := modify (fun t => with_ticks (s64 (ticks t + 1)) t).

Fixpoint interrupts (n : nat) : M T unit :=
  match n with O => mret tt | S n => timer_tick ;; interrupts n end.

(** A turn of a loop around [barrier]. *)
Definition turn : M T unit :=
  h ← gets t_hw;
  let '(n, h) := hw_turn h in
  modify (with_thw h) ;;
  on ← gets t_intr;
  if on : bool then interrupts n else mret tt.

Definition thread_yield : M T unit :=
  h ← gets t_hw;
  let '(n, h) := hw_yield h in
  modify (with_thw h) ;; interrupts n.

Fixpoint busy_loop (loops : nat) : M T unit :=
  match loops with O => mret tt | S loops => turn ;; busy_loop loops end.

Definition busy_wait (loops : Z) : M T unit := busy_loop (Z.to_nat loops).

(** [while (ticks == start)]. *)
Fixpoint wait_loop (n : nat) (start : Z) : M T unit :=
  match n with
  | O => nofuel
  | S n => now ← gets ticks; if now =? start then turn ;; wait_loop n start else mret tt
  end.

Definition too_many_loops (loops : Z) : M T bool :=
  start ← gets ticks;
  h ← gets t_hw;
  wait_loop (S (turns_left h)) start ;;
  start ← gets ticks;
  busy_wait loops ;;
  now ← gets ticks;
  mret (negb (start =? now)).

(** The loop that doubles [loops_per_tick]; 22 turns make it 0. *)
Fixpoint double_loop (n : nat) : M T unit :=
  match n with
  | O => nofuel
  | S n =>
      loops ← gets loops_per_tick;
      many ← too_many_loops (u32 (Z.shiftl loops 1));
      if many : bool then mret tt
      else
        let loops := u32 (Z.shiftl loops 1) in
        modify (with_loops loops) ;; ASSERT (negb (loops =? 0)) ;;
        double_loop n
  end.

(** The loop over [test_bit], which has at most 32 values. *)
Fixpoint refine_loop (n : nat) (high_bit test_bit : Z) : M T unit :=
  match n with
  | O => nofuel
  | S n =>
      if test_bit =? Z.shiftr high_bit 10 then mret tt
      else
        many ← too_many_loops (Z.lor high_bit test_bit);
        (if many : bool then mret tt else modify (fun t => with_loops (Z.lor (loops_per_tick t) test_bit) t)) ;;
        refine_loop n high_bit (Z.shiftr test_bit 1)
  end.

Definition timer_calibrate : M T unit :=
  on ← intr_get_level; ASSERT on ;;
  printf_console (codes "Calibrating timer...  ") [] ;;
  modify (with_loops (Z.shiftl 1 10)) ;;
  double_loop 22 ;;
  high_bit ← gets loops_per_tick;
  refine_loop 32 high_bit (Z.shiftr high_bit 1) ;;
  loops ← gets loops_per_tick;
  let rate := u64 (loops * TIMER_FREQ) in
  printf_console (codes "%'llu loops/s." ++ [10]) [u32 rate; Z.shiftr rate 32].

Definition timer_ticks : M T Z :=
  old_level ← intr_disable; t ← gets ticks; intr_set_level old_level ;; mret t.

Definition timer_elapsed (start : Z) : M T Z := now ← timer_ticks; mret (s64 (now - start)).

(** The loop of timer_sleep. *)
Fixpoint sleep_loop (n : nat) (start count : Z) : M T unit :=
  match n with
  | O => nofuel
  | S n => e ← timer_elapsed start; if e <? count then thread_yield ;; sleep_loop n start count else mret tt
  end.

Definition timer_sleep (count : Z) : M T unit :=
  start ← timer_ticks;
  on ← intr_get_level; ASSERT on ;;
  h ← gets t_hw;
  sleep_loop (S (yields_left count h)) start count.

(** [loops_per_tick * num] is a product of 64-bit integers. *)
Definition real_time_delay (num denom : Z) : M T unit :=
  ASSERT (Z.rem denom 1000 =? 0) ;;
  loops ← gets loops_per_tick;
  busy_wait (Z.quot (s64 (Z.quot (s64 (loops * num)) 1000 * TIMER_FREQ)) (Z.quot denom 1000)).

Definition real_time_sleep (num denom : Z) : M T unit :=
  let count := Z.quot (s64 (num * TIMER_FREQ)) denom in
  on ← intr_get_level; ASSERT on ;;
  if 0 <? count then timer_sleep count else real_time_delay num denom.

Definition timer_msleep (ms : Z) : M T unit := real_time_sleep ms 1000.
Definition timer_usleep (us : Z) : M T unit := real_time_sleep us (1000 * 1000).
Definition timer_nsleep (ns : Z) : M T unit := real_time_sleep ns (1000 * 1000 * 1000).
Definition timer_mdelay (ms : Z) : M T unit := real_time_delay ms 1000.
Definition timer_udelay (us : Z) : M T unit := real_time_delay us (1000 * 1000).
Definition timer_ndelay (ns : Z) : M T unit := real_time_delay ns (1000 * 1000 * 1000).

Definition timer_print_stats : M T unit :=
  t ← timer_ticks;
  printf_console (codes "Timer: %lld ticks" ++ [10]) [u32 t; u32 (Z.shiftr t 32)].

Definition timer_init : M T unit :=
  pit_configure_channel 0 2 TIMER_FREQ ;;
  modify (fun t => mk_timer (ticks t) (loops_per_tick t) (t_intr t) (t_handlers t ++ [(0x20, codes "8254 Timer")]) (t_console t) (t_hw t)).

(** ** speaker.c *)

Definition speaker_off : M T unit :=
  old_level ← intr_disable;
  gate ← inb SPEAKER_PORT_GATE;
  outb SPEAKER_PORT_GATE (Z.land gate (Z.lnot SPEAKER_GATE_ENABLE)) ;;
  intr_set_level old_level.

Definition speaker_on (frequency : Z) : M T unit :=
  if (20 <=? frequency) && (frequency <=? 20000) then
    old_level ← intr_disable;
    pit_configure_channel 2 3 frequency ;;
    gate ← inb SPEAKER_PORT_GATE;
    outb SPEAKER_PORT_GATE (Z.lor gate SPEAKER_GATE_ENABLE) ;;
    intr_set_level old_level
  else speaker_off.

Definition speaker_beep : M T unit :=
  on ← intr_get_level;
  if on : bool then speaker_on 440 ;; timer_msleep 250 ;; speaker_off else mret tt.
End Timer.

(** ** Ticks that pass *)

Lemma s64_s64_add a b : s64 (s64 a + b) = s64 (a + b).
Proof. unfold s64. f_equal. replace (_ - _ + b + 2 ^ 63) with ((a + 2 ^ 63) mod 2 ^ 64 + b) by lia. rewrite Zplus_mod_idemp_l. f_equal. lia. Qed.

Lemma s64_typed a : is_s64 (s64 a).
Proof. unfold is_s64, s64. pose proof (Z.mod_pos_bound (a + 2 ^ 63) (2 ^ 64)). lia. Qed.

Lemma s64_id a : is_s64 a -> s64 a = a.
Proof. apply s64_small. Qed.

(** The clock shows another time unless none has passed. *)
Lemma s64_moved a k : is_s64 a -> 0 <= k < 2 ^ 64 -> (a =? s64 (a + k)) = (k =? 0).
Proof.
  intros Ha Hk. destruct (Z.eqb_spec k 0) as [->|Hne]; [rewrite Z.add_0_r, s64_id by done; apply Z.eqb_refl|].
  apply Z.eqb_neq. unfold s64, is_s64 in *. intros E. assert ((a + k + 2 ^ 63) mod 2 ^ 64 = a + 2 ^ 63) as E' by lia. dlia.
Qed.

(** [k] times [f]: how many interrupts come, and the hardware afterwards. *)
Fixpoint passing {hw} (f : hw -> nat * hw) (k : nat) (h : hw) : nat * hw :=
  match k with
  | O => (O, h)
  | S k => let '(n, h) := f h in let '(m, h) := passing f k h in ((n + m)%nat, h)
  end.

Lemma passing_succ {hw} (f : hw -> nat * hw) k h :
  passing f (S k) h = (((f h).1 + (passing f k (f h).2).1)%nat, (passing f k (f h).2).2).
Proof. cbn [passing]. destruct (f h) as [n h1]. cbn [fst snd]. by destruct (passing f k h1). Qed.

Section Time.
Context {hw : Type} `{Clock hw}.
Abbreviation T := (timer hw).

(** [n] ticks later, with the hardware [h]. *)
Definition later (p : nat * hw) (t : T) : T := with_ticks (s64 (ticks t + Z.of_nat p.1)) (with_thw p.2 t).

Lemma later_later p q t : later q (later p t) = later ((p.1 + q.1)%nat, q.2) t.
Proof. destruct t. unfold later, with_ticks, with_thw. cbn. f_equal. rewrite s64_s64_add. f_equal. lia. Qed.

Lemma later_refl t : is_s64 (ticks t) -> later (O, t_hw t) t = t.
Proof. intros Ht. destruct t. unfold later, with_ticks, with_thw. cbn in *. rewrite Z.add_0_r. by rewrite s64_id. Qed.

Lemma interrupts_run n : forall t : T, is_s64 (ticks t) -> interrupts n t = Done (tt, with_ticks (s64 (ticks t + Z.of_nat n)) t).
Proof.
  induction n as [|n IH]; intros t Ht; cbn [interrupts]; [rewrite Z.add_0_r, s64_id by done; by destruct t|].
  erewrite bind_done by reflexivity. rewrite IH by apply s64_typed. cbn. rewrite s64_s64_add.
  replace (ticks t + 1 + Z.of_nat n) with (ticks t + Z.of_nat (S n)) by lia. done.
Qed.

Lemma turn_run (t : T) : is_s64 (ticks t) -> t_intr t = true -> turn t = Done (tt, later (hw_turn (t_hw t)) t).
Proof.
  intros Ht Hon. unfold turn. erewrite bind_done by reflexivity. destruct (hw_turn (t_hw t)) as [n h]. erewrite bind_done by reflexivity.
  erewrite bind_done by reflexivity. cbn [t_intr with_thw]. rewrite Hon. by rewrite interrupts_run.
Qed.

Lemma yield_run (t : T) : is_s64 (ticks t) -> thread_yield t = Done (tt, later (hw_yield (t_hw t)) t).
Proof.
  intros Ht. unfold thread_yield. erewrite bind_done by reflexivity. destruct (hw_yield (t_hw t)) as [n h]. erewrite bind_done by reflexivity.
  by rewrite interrupts_run.
Qed.

Lemma passing_S (f : hw -> nat * hw) k (t : T) : is_s64 (ticks t) -> later (passing f k (f (t_hw t)).2) (later (f (t_hw t)) t) = later (passing f (S k) (t_hw t)) t.
Proof. intros Ht. rewrite later_later. cbn. destruct (f (t_hw t)) as [n h]. cbn. by destruct (passing f k h) as [m h2]. Qed.

Lemma busy_loop_turns k : forall t : T, is_s64 (ticks t) -> t_intr t = true -> busy_loop k t = Done (tt, later (passing hw_turn k (t_hw t)) t).
Proof.
  induction k as [|k IH]; intros t Ht Hon; cbn [busy_loop]; [cbn; by rewrite later_refl|].
  erewrite bind_done by (by apply turn_run). rewrite IH; [|apply s64_typed|done]. f_equal. f_equal. cbn [t_hw later with_ticks with_thw]. by apply passing_S.
Qed.

Lemma busy_wait_run n (t : T) : is_s64 (ticks t) -> t_intr t = true -> busy_wait n t = Done (tt, later (passing hw_turn (Z.to_nat n) (t_hw t)) t).
Proof. apply busy_loop_turns. Qed.

Lemma timer_ticks_run (t : T) : timer_ticks t = Done (ticks t, t).
Proof. by destruct t. Qed.
End Time.

(** ** Sleeping *)

(** Time passes whatever the threads do: after [yields_left n] yields, [n] ticks have
    come.  A yield takes less than 2^32 ticks. *)
Class Live (hw : Type) `{Clock hw} := {
  yield_ticks h : Z.of_nat (hw_yield h).1 < 2 ^ 32;
  yield_progress n h : 0 < n -> (yields_left (n - Z.of_nat (hw_yield h).1) (hw_yield h).2 < yields_left n h)%nat
}.

Section Sleep.
Context {hw : Type} `{Live hw}.
Abbreviation T := (timer hw).

(** The first moment at which [n] ticks have come. *)
Definition slept (n : Z) (t t' : T) : Prop := exists k, t' = later (passing hw_yield k (t_hw t)) t /\
  n <= Z.of_nat (passing hw_yield k (t_hw t)).1 /\ forall j, (j < k)%nat -> Z.of_nat (passing hw_yield j (t_hw t)).1 < n.

Lemma elapsed_run a k (t : T) : is_s64 a -> ticks t = s64 (a + k) -> is_s64 k -> timer_elapsed a t = Done (k, t).
Proof.
  intros Ha Ht Hk. unfold timer_elapsed. erewrite bind_done by apply timer_ticks_run. rewrite Ht, <- Z.add_opp_r, s64_s64_add.
  replace (a + k + - a) with k by lia. by rewrite s64_id.
Qed.

Lemma sleep_loop_run fuel : forall (t : T) a passed count, is_s64 a -> ticks t = s64 (a + Z.of_nat passed) -> Z.of_nat passed < 2 ^ 62 + 2 ^ 32 -> count <= 2 ^ 62 ->
  (yields_left (count - Z.of_nat passed) (t_hw t) < fuel)%nat ->
  exists k, sleep_loop fuel a count t = Done (tt, later (passing hw_yield k (t_hw t)) t) /\
    count <= Z.of_nat passed + Z.of_nat (passing hw_yield k (t_hw t)).1 /\
    forall j, (j < k)%nat -> Z.of_nat passed + Z.of_nat (passing hw_yield j (t_hw t)).1 < count.
Proof.
  induction fuel as [|fuel IH]; intros t a p count Ha Ht Hp Hc Hf; [lia|]. cbn [sleep_loop].
  assert (is_s64 (ticks t)) as Htt by (rewrite Ht; apply s64_typed).
  erewrite bind_done by (apply (elapsed_run a (Z.of_nat p)); [done|done|unfold is_s64; lia]). destruct (Z.ltb_spec (Z.of_nat p) count).
  - erewrite bind_done by (by apply yield_run). pose proof (yield_ticks (t_hw t)). pose proof (yield_progress (count - Z.of_nat p) (t_hw t) ltac:(lia)).
    destruct (IH (later (hw_yield (t_hw t)) t) a (p + (hw_yield (t_hw t)).1)%nat count) as (k & Hr & Hk & Hj); try done.
    + cbn. rewrite Ht, s64_s64_add. f_equal. lia.
    + lia.
    + cbn. replace (count - Z.of_nat (p + (hw_yield (t_hw t)).1)) with (count - Z.of_nat p - Z.of_nat (hw_yield (t_hw t)).1) by lia. lia.
    + cbn [later t_hw with_ticks with_thw] in *. exists (S k). rewrite <- passing_S by done. split; [done|].
      rewrite passing_succ. cbn [fst]. split; [lia|]. intros [|j] Hlt; [cbn; lia|]. rewrite passing_succ. cbn [fst].
      specialize (Hj j ltac:(lia)). lia.
  - exists O. cbn. rewrite later_refl by done. split; [done|]. split; [lia|]. intros j Hj. lia.
Qed.

Lemma timer_sleep_run (t : T) n : is_s64 (ticks t) -> t_intr t = true -> n <= 2 ^ 62 -> exists t', timer_sleep n t = Done (tt, t') /\ slept n t t'.
Proof.
  intros Ht Hon Hn. unfold timer_sleep. erewrite bind_done by apply timer_ticks_run. erewrite bind_done by reflexivity. rewrite Hon.
  erewrite bind_done by reflexivity. erewrite bind_done by reflexivity.
  destruct (sleep_loop_run (S (yields_left n (t_hw t))) t (ticks t) 0 n) as (k & Hr & Hk & Hj); try done.
  - rewrite Z.add_0_r. by rewrite s64_id.
  - rewrite Z.sub_0_r. lia.
  - eexists. split; [exact Hr|]. by exists k.
Qed.

(** ** Sleeping for a time *)

(** The turns of the busy wait for [num / denom] seconds. *)
Definition delay_turns (loops num denom : Z) : Z := loops * num / 1000 * TIMER_FREQ / (denom / 1000).

Lemma real_time_delay_run num denom (t : T) : is_s64 (ticks t) -> t_intr t = true -> 0 <= num -> 0 < denom -> denom mod 1000 = 0 ->
  0 <= loops_per_tick t -> loops_per_tick t * num < 2 ^ 63 -> loops_per_tick t * num / 1000 * TIMER_FREQ < 2 ^ 63 ->
  real_time_delay num denom t = Done (tt, later (passing hw_turn (Z.to_nat (delay_turns (loops_per_tick t) num denom)) (t_hw t)) t).
Proof.
  intros Ht Hon Hn Hd Hm Hl Ho1 Ho2. unfold real_time_delay. rewrite Z.rem_mod_nonneg, Hm by lia. erewrite bind_done by reflexivity.
  erewrite bind_done by reflexivity. rewrite (s64_id (_ * num)) by (unfold is_s64; nia). rewrite (Z.quot_div_nonneg _ 1000) by nia.
  assert (0 <= loops_per_tick t * num / 1000) by (apply Z.div_pos; nia).
  rewrite s64_id by (unfold is_s64, TIMER_FREQ in *; lia). rewrite !Z.quot_div_nonneg; try (unfold TIMER_FREQ; dlia).
  by apply busy_wait_run.
Qed.

(** C32: a sleep of [num / denom] seconds ends at the first return from thread_yield at
    which all its whole ticks have come, or, when it is shorter than a tick, after the
    turns of a waiting loop that take no more than that part of a tick and fall short of
    it by rounding only; with interrupts off it stops the kernel. *)
Theorem real_time_sleep_correct (t : T) num denom (Ht : is_s64 (ticks t)) (Hn : 0 <= num) (Hover : num * TIMER_FREQ < 2 ^ 63)
    (Hd : 0 < denom < 2 ^ 31) (Hm : denom mod 1000 = 0) (Hl : 0 <= loops_per_tick t < 2 ^ 32) :
  let n := num * TIMER_FREQ / denom in
  let turns := delay_turns (loops_per_tick t) num denom in
  if t_intr t then exists t', real_time_sleep num denom t = Done (tt, t') /\
    if 0 <? n then slept n t t'
    else t' = later (passing hw_turn (Z.to_nat turns) (t_hw t)) t /\
      turns * denom <= loops_per_tick t * (num * TIMER_FREQ) < (turns + 1) * denom + 1000 * TIMER_FREQ
  else real_time_sleep num denom t = Panic.
Proof.
  cbv zeta. unfold real_time_sleep. destruct (t_intr t) eqn:Hon; [|erewrite bind_done by reflexivity; apply bind_panic; by rewrite Hon].
  erewrite bind_done by reflexivity. rewrite Hon. erewrite bind_done by reflexivity. unfold TIMER_FREQ in *.
  rewrite s64_id by (unfold is_s64; lia). rewrite Z.quot_div_nonneg by lia. destruct (Z.ltb_spec 0 (num * 100 / denom)) as [Hlt|Hge].
  - apply timer_sleep_run; [done|done|]. assert (1000 <= denom) by dlia. assert (num * 100 / denom <= num * 100 / 1000) by (apply Z.div_le_compat_l; lia). dlia.
  - assert (num * 100 < denom) as Hs by dnia. assert (loops_per_tick t * num < 2 ^ 58).
    { apply Z.le_lt_trans with (2 ^ 32 * 2 ^ 25); [apply Z.mul_le_mono_nonneg; lia|reflexivity]. }
    assert (loops_per_tick t * num / 1000 * 100 < 2 ^ 63) by (apply Z.le_lt_trans with (2 ^ 58 / 1000 * 100); [apply Z.mul_le_mono_nonneg_r; [lia|apply Z.div_le_mono; lia]|reflexivity]).
    eexists. split; [apply real_time_delay_run; unfold TIMER_FREQ; (done || lia)|]. split; [done|]. unfold delay_turns, TIMER_FREQ.
    assert (denom = 1000 * (denom / 1000)) as Ed by dlia. set (D := denom / 1000) in *. assert (0 < D) by lia.
    set (q := loops_per_tick t * num / 1000) in *. assert (1000 * q <= loops_per_tick t * num < 1000 * q + 1000) by (unfold q; dlia).
    pose proof (Z.mul_div_le (q * 100) D ltac:(lia)). pose proof (Z.mul_succ_div_gt (q * 100) D ltac:(lia)). rewrite Ed. nia.
Qed.
End Sleep.

(** ** Calibration *)

(** A processor that runs [period] turns of a waiting loop between two timer
    interrupts; [phase] of them since the last one. *)
Class Steady (period : Z) (hw : Type) `{Clock hw} := {
  phase : hw -> Z;
  steady_phase h : 0 <= phase h < period;
  steady_turn h : (hw_turn h).1 = (if phase h + 1 =? period then 1%nat else O) /\
    phase (hw_turn h).2 = if phase h + 1 =? period then 0 else phase h + 1;
  steady_left h : period - phase h <= Z.of_nat (turns_left h)
}.

(** The bits of a refinement from bit [b] on, which fit when [d] turns more do. *)
Definition high_bits (d b : Z) : Z := if d <? 2 ^ b then 0 else 2 ^ (Z.log2 d + 1) - 2 ^ b.

Lemma high_bits_step d b : 0 <= b -> high_bits d b = high_bits d (b + 1) + if 2 ^ b <=? d then 2 ^ b else 0.
Proof.
  intros Hb. unfold high_bits. assert (2 ^ (b + 1) = 2 * 2 ^ b) as E by (rewrite Z.pow_add_r; lia).
  destruct (Z.ltb_spec d (2 ^ b)), (Z.ltb_spec d (2 ^ (b + 1))), (Z.leb_spec (2 ^ b) d); try lia.
  rewrite (Z.log2_unique d b) by lia. lia.
Qed.

Lemma high_bits_multiple d b : 0 <= b -> exists q, high_bits d b = q * 2 ^ b.
Proof.
  intros Hb. unfold high_bits. destruct (Z.ltb_spec d (2 ^ b)); [by exists 0|]. assert (b <= Z.log2 d) by (apply Z.log2_le_pow2; lia).
  exists (2 ^ (Z.log2 d + 1 - b) - 1). rewrite Z.mul_sub_distr_r, <- Z.pow_add_r by lia. f_equal; [f_equal|]; lia.
Qed.

(** What [timer_calibrate] finds: the power of two below [period], and then bits. *)
Definition calibrated (period : Z) : Z :=
  let h := Z.max 10 (Z.log2 (period - 1)) in 2 ^ h + high_bits (period - 1 - 2 ^ h) (h - 9).

Section Calibrate.
Context (period : Z) {hw : Type} `{Steady period hw}.
Abbreviation T := (timer hw).

Lemma steady_passing k : forall h : hw, Z.of_nat (passing hw_turn k h).1 = (phase h + Z.of_nat k) / period /\
  phase (passing hw_turn k h).2 = (phase h + Z.of_nat k) mod period.
Proof.
  induction k as [|k IH]; intros h; pose proof (steady_phase h).
  - cbn. rewrite Z.add_0_r. split; [symmetry; by apply Z.div_small|symmetry; by apply Z.mod_small].
  - rewrite passing_succ. cbn [fst snd]. destruct (IH (hw_turn h).2) as [E1 E2]. destruct (steady_turn h) as [F1 F2]. rewrite E2, Nat2Z.inj_add, E1, F1, F2.
    destruct (Z.eqb_spec (phase h + 1) period) as [E|E].
    + replace (phase h + Z.of_nat (S k)) with (0 + Z.of_nat k + 1 * period) by lia. rewrite Z_div_plus, Z_mod_plus by lia. split; lia.
    + replace (phase h + Z.of_nat (S k)) with (phase h + 1 + Z.of_nat k) by lia. split; lia.
Qed.

(** Waiting for a tick. *)
Lemma wait_for_tick fuel : forall t : T, is_s64 (ticks t) -> t_intr t = true -> period - phase (t_hw t) < Z.of_nat fuel ->
  exists p, wait_loop fuel (ticks t) t = Done (tt, later p t) /\ phase p.2 = 0.
Proof.
  enough (forall k fuel (t : T), is_s64 (ticks t) -> t_intr t = true -> period - phase (t_hw t) = Z.of_nat (S k) -> (S k < fuel)%nat ->
    exists p, wait_loop fuel (ticks t) t = Done (tt, later p t) /\ phase p.2 = 0) as Hk.
  { intros t Ht Hon Hf. pose proof (steady_phase (t_hw t)). apply (Hk (Z.to_nat (period - phase (t_hw t) - 1))); [done|done|lia|lia]. }
  clear fuel. induction k as [|k IH]; intros [|fuel] t Ht Hon Hp Hf; try lia; cbn [wait_loop]; erewrite bind_done by reflexivity;
    rewrite Z.eqb_refl; erewrite bind_done by (by apply turn_run); destruct (steady_turn (t_hw t)) as [F1 F2].
  - rewrite (proj2 (Z.eqb_eq _ period)) in F1, F2 by lia. destruct fuel as [|fuel]; [lia|]. cbn [wait_loop]. erewrite bind_done by reflexivity.
    cbn [ticks later with_ticks]. rewrite F1, Z.eqb_sym, s64_moved by (done || lia). exists (hw_turn (t_hw t)). split; [done|]. done.
  - rewrite (proj2 (Z.eqb_neq _ period)) in F1, F2 by lia.
    destruct (IH fuel (later (hw_turn (t_hw t)) t)) as (p & Hr & Hp0); [apply s64_typed|done|cbn; lia|lia|].
    cbn [ticks later with_ticks] in Hr. rewrite F1 in Hr. change (Z.of_nat 0) with 0 in Hr. rewrite Z.add_0_r, s64_id in Hr by done.
    rewrite later_later in Hr. eexists. split; [exact Hr|done].
Qed.

Lemma too_many_run loops (t : T) : is_s64 (ticks t) -> t_intr t = true -> 0 <= loops < 2 ^ 32 ->
  exists p, too_many_loops loops t = Done (period <=? loops, later p t).
Proof.
  intros Ht Hon Hl. pose proof (steady_phase (t_hw t)). unfold too_many_loops. erewrite bind_done by reflexivity. erewrite bind_done by reflexivity.
  destruct (wait_for_tick (S (turns_left (t_hw t))) t Ht Hon) as (p & Hr & Hp). { pose proof (steady_left (t_hw t)). lia. }
  erewrite bind_done by exact Hr. erewrite bind_done by reflexivity. erewrite bind_done by (by apply busy_wait_run; [apply s64_typed|]).
  erewrite bind_done by reflexivity. rewrite later_later. eexists. unfold mret, M_ret. f_equal. f_equal.
  cbn [ticks later with_ticks with_thw t_hw fst snd]. rewrite Nat2Z.inj_add, Z.add_assoc, <- (s64_s64_add (ticks t + _)).
  destruct (steady_passing (Z.to_nat loops) p.2) as [E _]. rewrite Hp, Z2Nat.id, Z.add_0_l in E by lia. rewrite E.
  rewrite s64_moved; [|apply s64_typed|].
  - destruct (Z.leb_spec period loops); [rewrite (proj2 (Z.eqb_neq _ 0))|rewrite (proj2 (Z.eqb_eq _ 0))]; try done; dnia.
  - split; [apply Z.div_pos; lia|]. apply Z.le_lt_trans with loops; [|lia]. apply Z.div_le_upper_bound; nia.
Qed.

(** [loops_per_tick] is set to [l] while time passes. *)
Definition adjusted (l : Z) (t t' : T) : Prop := exists p, t' = with_loops l (later p t).

Lemma adjusted_trans l1 l2 t t1 t2 : adjusted l1 t t1 -> adjusted l2 t1 t2 -> adjusted l2 t t2.
Proof.
  intros [p ->] [q ->]. exists ((p.1 + q.1)%nat, q.2). rewrite <- later_later. by destruct t.
Qed.

Lemma adjusted_same p t : adjusted (loops_per_tick t) t (later p t).
Proof. exists p. by destruct t. Qed.

Lemma adjusted_ticks l t t' : adjusted l t t' -> is_s64 (ticks t') /\ t_intr t' = t_intr t /\ loops_per_tick t' = l /\ t_console t' = t_console t.
Proof. intros [p ->]. split; [apply s64_typed|]. by destruct t. Qed.

Lemma pow_shift h : 10 <= h <= 31 -> u32 (Z.shiftl (2 ^ h) 1) = if h =? 31 then 0 else 2 ^ (h + 1).
Proof.
  intros Hh. rewrite Z.shiftl_mul_pow2, <- Z.pow_add_r by lia. destruct (Z.eqb_spec h 31) as [->|Hne]; [done|].
  apply u32_small. split; [lia|]. apply Z.pow_lt_mono_r; lia.
Qed.

Lemma double_loop_run n : forall t h, is_s64 (ticks t) -> t_intr t = true -> loops_per_tick t = 2 ^ h -> 10 <= h <= 31 -> h = 10 \/ 2 ^ h < period ->
  32 <= h + Z.of_nat n ->
  if 2 ^ 31 <? period then double_loop n t = Panic
  else exists k t', double_loop n t = Done (tt, t') /\ adjusted (2 ^ k) t t' /\ 10 <= k <= 31 /\ (k = 10 \/ 2 ^ k < period) /\ period <= 2 ^ (k + 1).
Proof.
  induction n as [|n IH]; intros t h Ht Hon Hl Hh Hlow Hn; [lia|]. cbn [double_loop]. erewrite bind_done by reflexivity. rewrite Hl, pow_shift by done.
  pose proof (steady_phase (t_hw t)). destruct (Z.eqb_spec h 31) as [->|Hne].
  - destruct (too_many_run 0 t Ht Hon ltac:(lia)) as [p Hp]. erewrite bind_done by exact Hp. rewrite (proj2 (Z.leb_gt _ 0)) by lia. by rewrite (proj2 (Z.ltb_lt _ _)) by lia.
  - assert (2 ^ (h + 1) <= 2 ^ 31) as Hpow by (apply Z.pow_le_mono_r; lia).
    destruct (too_many_run (2 ^ (h + 1)) t Ht Hon ltac:(lia)) as [p Hp]. erewrite bind_done by exact Hp. destruct (Z.leb_spec period (2 ^ (h + 1))) as [Hle|Hgt].
    + rewrite (proj2 (Z.ltb_ge _ _)) by lia. exists h, (later p t). split; [done|]. split; [rewrite <- Hl; apply adjusted_same|]. lia.
    + cbn zeta. erewrite bind_done by reflexivity. assert (0 < 2 ^ (h + 1)) as Hpos by lia. rewrite (proj2 (Z.eqb_neq (2 ^ (h + 1)) 0)) by lia. erewrite bind_done by reflexivity.
      assert (adjusted (2 ^ (h + 1)) t (with_loops (2 ^ (h + 1)) (later p t))) as Ha by by exists p.
      specialize (IH (with_loops (2 ^ (h + 1)) (later p t)) (h + 1)). destruct (2 ^ 31 <? period); [apply IH; try done; try lia; apply s64_typed|].
      destruct IH as (k & t' & Hr & Ht' & Hk); try done; try lia; [apply s64_typed|]. exists k, t'. split; [exact Hr|]. split; [by eapply adjusted_trans|exact Hk].
Qed.

Lemma refine_loop_run h i : forall fuel t, 10 <= h <= 31 -> Z.of_nat i <= 9 -> (i < fuel)%nat -> is_s64 (ticks t) -> t_intr t = true ->
  let d := period - 1 - 2 ^ h in loops_per_tick t = 2 ^ h + high_bits d (h - 9 + Z.of_nat i) ->
  exists t', refine_loop fuel (2 ^ h) (2 ^ (h - 10 + Z.of_nat i)) t = Done (tt, t') /\ adjusted (2 ^ h + high_bits d (h - 9)) t t'.
Proof.
  induction i as [|i IH]; intros [|fuel] t Hh Hi Hf Ht Hon d Hl; try lia; cbn [refine_loop];
    assert (Z.shiftr (2 ^ h) 10 = 2 ^ (h - 10)) as -> by (rewrite Z.shiftr_div_pow2, <- Z.pow_sub_r by lia; done).
  - change (Z.of_nat 0) with 0 in *. rewrite Z.add_0_r in *. rewrite Z.eqb_refl. exists t. split; [done|]. rewrite <- Hl.
    pose proof (adjusted_same (O, t_hw t) t) as Ha. by rewrite later_refl in Ha.
  - set (b := h - 10 + Z.of_nat (S i)) in *. assert (2 ^ (h - 10) < 2 ^ b < 2 ^ h) as Hb by (split; apply Z.pow_lt_mono_r; unfold b; lia).
    rewrite (proj2 (Z.eqb_neq (2 ^ b) _)) by lia. assert (2 ^ h <= 2 ^ 31) as Hmax by (apply Z.pow_le_mono_r; lia).
    assert (Z.lor (2 ^ h) (2 ^ b) = 2 ^ h + 2 ^ b) as -> by (rewrite <- (Z.mul_1_l (2 ^ h)) at 1; rewrite lor_low by lia; lia).
    destruct (too_many_run (2 ^ h + 2 ^ b) t Ht Hon ltac:(lia)) as [p Hp']. erewrite bind_done by exact Hp'.
    replace (Z.shiftr (2 ^ b) 1) with (2 ^ (h - 10 + Z.of_nat i)) by (rewrite Z.shiftr_div_pow2, <- Z.pow_sub_r by (unfold b; lia); f_equal; unfold b; lia).
    pose proof (high_bits_step d (h - 9 + Z.of_nat i) ltac:(lia)) as Hstep. replace (h - 9 + Z.of_nat i) with b in Hstep by (unfold b; lia).
    replace (h - 9 + Z.of_nat (S i)) with (b + 1) in Hl by (unfold b; lia).
    destruct (Z.leb_spec period (2 ^ h + 2 ^ b)).
    + erewrite bind_done by reflexivity. rewrite (proj2 (Z.leb_gt (2 ^ b) d)), Z.add_0_r in Hstep by lia.
      destruct (IH fuel (later p t)) as (t' & Hr & Ht'); try done; try lia; [apply s64_typed| |].
      { cbn [loops_per_tick later with_ticks with_thw]. rewrite Hl. f_equal. replace (h - 9 + Z.of_nat i) with b by (unfold b; lia). fold d. by rewrite Hstep. }
      exists t'. split; [exact Hr|]. eapply adjusted_trans; [apply adjusted_same|exact Ht'].
    + erewrite bind_done by reflexivity. rewrite (proj2 (Z.leb_le (2 ^ b) d)) in Hstep by lia.
      destruct (IH fuel (with_loops (Z.lor (loops_per_tick (later p t)) (2 ^ b)) (later p t))) as (t' & Hr & Ht'); try done; try lia; [apply s64_typed| |].
      { cbn [loops_per_tick with_loops later with_ticks with_thw]. rewrite Hl. destruct (high_bits_multiple d (b + 1)) as [q Hq]; [unfold b; lia|].
        replace (h - 9 + Z.of_nat i) with b by (unfold b; lia). fold d. rewrite Hstep, Hq.
        assert (2 ^ h + q * 2 ^ (b + 1) = (2 ^ (h - (b + 1)) + q) * 2 ^ (b + 1)) as E.
        { rewrite Z.mul_add_distr_r, <- Z.pow_add_r by (unfold b; lia). f_equal. f_equal. lia. }
        rewrite E, lor_low, <- E; [lia|unfold b; lia|]. split; [lia|]. apply Z.pow_lt_mono_r; unfold b; lia. }
      exists t'. split; [exact Hr|]. eapply adjusted_trans; [by exists p|exact Ht'].
Qed.

Lemma rate_printed lo hi (t : T) :
  exists out, printf_console (codes "%'llu loops/s." ++ [10]) [lo; hi] t = Done (tt, with_console (t_console t ++ out) t).
Proof.
  assert (exists out, printf (codes "%'llu loops/s." ++ [10]) [lo; hi] ∅ = Done (out, ∅)) as [out E].
  - evaluate_format. eapply (prints_unsigned _ _ [39; 108; 108] 117 _ _ _ _ (u64 (lo + 2 ^ 32 * hi)));
      [by vm_compute|done|done|vm_compute; reflexivity|reflexivity|apply u64_range|done|printing].
  - exists out. unfold printf_console. unfold bnd, mbind, outcome_bind. by rewrite E.
Qed.

(** The power of two that the first loop finds. *)
Lemma calibrated_eq k : 10 <= k <= 31 -> k = 10 \/ 2 ^ k < period -> period <= 2 ^ (k + 1) -> Z.max 10 (Z.log2 (period - 1)) = k.
Proof.
  intros Hk Hlow Hhigh. destruct (decide (2 ^ k < period)) as [Hlt|Hge].
  - rewrite (Z.log2_unique (period - 1) k) by lia. lia.
  - assert (k = 10) as -> by tauto. apply Z.max_l. destruct (decide (period - 1 <= 0)); [by rewrite Z.log2_nonpos by lia|].
    assert (Z.log2 (period - 1) < 10); [|lia]. apply Z.log2_lt_pow2; [lia|]. change (2 ^ 10) with 1024 in *. lia.
Qed.

Lemma calibrated_bounds : 2 ^ 10 < period -> period / 2 <= calibrated period < 2 * period.
Proof.
  intros Hp. unfold calibrated. assert (10 <= Z.log2 (period - 1)) as Hl by (apply Z.log2_le_pow2; lia). rewrite Z.max_r by done.
  set (h := Z.log2 (period - 1)) in *. destruct (Z.log2_spec (period - 1)) as [H1 H2]; [lia|]. fold h in H1, H2.
  assert (2 ^ Z.succ h = 2 * 2 ^ h) as E by (rewrite Z.pow_succ_r; lia). set (d := period - 1 - 2 ^ h).
  unfold high_bits. destruct (Z.ltb_spec d (2 ^ (h - 9))) as [Hd|Hd]; [dlia|].
  assert (0 < 2 ^ (h - 9)) by (apply Z.pow_pos_nonneg; lia). destruct (Z.log2_spec d) as [D1 D2]; [lia|].
  assert (2 ^ (Z.log2 d + 1) = 2 * 2 ^ Z.log2 d) as E' by (rewrite Z.pow_add_r; [lia|apply Z.log2_nonneg|lia]).
  assert (2 ^ (h - 9) <= 2 ^ Z.log2 d) by (apply Z.pow_le_mono_r; [lia|]; apply Z.log2_le_pow2; lia). split; dlia.
Qed.

(** C31: calibration ends on every processor that runs [period] turns of a loop in a tick,
    with the greatest power of two below [period] and all the bits from the first one that
    fits on: a value up to twice the number of turns.  It panics when interrupts are off or
    when the loop would need more than 2^31 turns. *)
Theorem timer_calibrate_correct (t : T) (Ht : is_s64 (ticks t)) :
  if t_intr t && (period <=? 2 ^ 31) then
    exists t', timer_calibrate t = Done (tt, t') /\ loops_per_tick t' = calibrated period /\ t_intr t' = true /\
      (2 ^ 10 < period -> period / 2 <= loops_per_tick t' < 2 * period)
  else timer_calibrate t = Panic.
Proof.
  unfold timer_calibrate. erewrite bind_done by reflexivity. destruct (t_intr t) eqn:Hon; [|by apply bind_panic].
  erewrite bind_done by reflexivity. erewrite bind_done by reflexivity. erewrite bind_done by reflexivity. change (Z.shiftl 1 10) with (2 ^ 10). cbn [andb].
  set (t0 := with_loops _ _). assert (is_s64 (ticks t0)) as Ht0 by done. assert (t_intr t0 = true) as Hon0 by done.
  pose proof (double_loop_run 22 t0 10 Ht0 Hon0 eq_refl ltac:(lia) ltac:(by left) ltac:(lia)) as Hdbl.
  rewrite Z.leb_antisym. destruct (2 ^ 31 <? period); cbn [negb]; [by apply bind_panic|]. destruct Hdbl as (k & t1 & Hr & Ha & Hk & Hlow & Hhigh).
  destruct (adjusted_ticks _ _ _ Ha) as (Ht1 & Hon1 & Hl1 & _). erewrite bind_done by exact Hr. erewrite bind_done by reflexivity. rewrite Hl1.
  assert (Z.shiftr (2 ^ k) 1 = 2 ^ (k - 10 + Z.of_nat 9)) as -> by (rewrite Z.shiftr_div_pow2, <- Z.pow_sub_r by lia; f_equal; lia).
  destruct (refine_loop_run k 9 32 t1) as (t2 & Hr2 & Ha2); try done; try lia.
  { rewrite Hon1. done. }
  { rewrite Hl1. replace (k - 9 + Z.of_nat 9) with k by lia. unfold high_bits. rewrite (proj2 (Z.ltb_lt _ _)); [lia|].
    rewrite Z.pow_add_r in Hhigh by lia. lia. }
  erewrite bind_done by exact Hr2. erewrite bind_done by reflexivity. destruct (adjusted_ticks _ _ _ Ha2) as (_ & Hon2 & Hl2 & _).
  cbv zeta. match goal with |- context [[?lo; ?hi]] => destruct (rate_printed lo hi t2) as [out Hout] end. eexists. split; [exact Hout|].
  cbn [loops_per_tick t_intr with_console]. assert (loops_per_tick t2 = calibrated period) as El by (rewrite Hl2; unfold calibrated; by rewrite (calibrated_eq k)).
  split; [done|]. split; [congruence|]. intros Hp. rewrite El. by apply calibrated_bounds.
Qed.
End Calibrate.

(** ** The counters *)

Section Pit.
Context {hw : Type} `{Clock hw}.
Abbreviation T := (timer hw).

Lemma outb_run port v (t : T) : outb port v t = Done (tt, with_thw (port_out port (u8 v) (t_hw t)) t).
Proof. done. Qed.

(** A counter is set to the nearest number of cycles to the period asked for, which
    fits its 16 bits; frequencies below 19 Hz get 0, which counts as 65536, those above the
    clock's get 2.  From 795454 Hz up to the clock's frequency the counter is 1. *)
Theorem pit_configure_correct (t : T) channel mode frequency :
  (if decide ((channel = 0 \/ channel = 2) /\ (mode = 2 \/ mode = 3)) then
     let count := pit_count frequency in
     pit_configure_channel channel mode frequency t =
       Done (tt, with_thw (port_out (0x40 + channel) (count / 2 ^ 8) (port_out (0x40 + channel) (count mod 2 ^ 8)
                             (port_out 0x43 (channel * 2 ^ 6 + 0x30 + mode * 2) (t_hw t)))) t)
   else pit_configure_channel channel mode frequency t = Panic) /\
  0 <= pit_count frequency < 2 ^ 16 /\
  if frequency <? 19 then pit_count frequency = 0
  else if PIT_HZ <? frequency then pit_count frequency = 2
  else 1 <= pit_count frequency /\ 2 * Z.abs (pit_count frequency * frequency - PIT_HZ) <= frequency /\
    (pit_count frequency = 1 <-> 795454 <= frequency).
Proof.
  assert (0 <= pit_count frequency < 2 ^ 16 /\ if frequency <? 19 then pit_count frequency = 0 else if PIT_HZ <? frequency then pit_count frequency = 2
    else 1 <= pit_count frequency /\ 2 * Z.abs (pit_count frequency * frequency - PIT_HZ) <= frequency /\ (pit_count frequency = 1 <-> 795454 <= frequency)) as Hc.
  { unfold pit_count, PIT_HZ. destruct (Z.ltb_spec frequency 19); [done|]. destruct (Z.ltb_spec 1193180 frequency); [done|].
    rewrite !Z.quot_div_nonneg by dlia. set (c := (1193180 + frequency / 2) / frequency).
    assert (c * frequency <= 1193180 + frequency / 2 < c * frequency + frequency) by (unfold c; dnia).
    assert (0 <= c < 2 ^ 16) by (split; [|apply Z.nle_gt; intros ?]; dnia). change (u16 c) with (c mod 2 ^ 16). rewrite (Z.mod_small c) by done. repeat split; dnia. }
  split; [|exact Hc]. destruct (proj1 Hc) as [Hlo Hhi]. case_decide as Hd.
  - cbv zeta. unfold pit_configure_channel. set (count := pit_count frequency) in *.
    assert (u8 count = count mod 2 ^ 8 /\ u8 (Z.shiftr count 8) = count / 2 ^ 8) as [E1 E2].
    { split; [done|]. rewrite Z.shiftr_div_pow2 by done. apply u8_small. dlia. }
    destruct Hd as [[->| ->] [->| ->]]; unfold bnd, mbind, M_bind, intr_disable, intr_set_level, intr_get_level, modify, gets, outb, mret, M_ret;
      cbn [orb Z.eqb ASSERT]; rewrite E1, E2; by destruct t.
  - unfold pit_configure_channel. destruct (decide (channel = 0 \/ channel = 2)) as [Hch|Hch].
    + erewrite bind_done by (apply assert_done; destruct Hch as [->| ->]; done). apply bind_panic. unfold ASSERT.
      rewrite !(proj2 (Z.eqb_neq _ _)) by tauto. done.
    + apply bind_panic. unfold ASSERT. rewrite !(proj2 (Z.eqb_neq _ _)) by tauto. done.
Qed.
End Pit.

(** ** The speaker *)

Section Speaker.
Context {hw : Type} `{Live hw}.
Abbreviation T := (timer hw).

Lemma speaker_off_run (t : T) : exists h, speaker_off t = Done (tt, with_thw h t).
Proof.
  unfold speaker_off, intr_disable, intr_get_level, intr_set_level, inb, outb, bnd, mbind, M_bind, gets, modify, mret, M_ret. cbn.
  destruct (port_in SPEAKER_PORT_GATE (t_hw t)) as [x h]. cbn. eexists. by destruct t.
Qed.

Lemma speaker_on_run (t : T) : exists h, speaker_on 440 t = Done (tt, with_thw h t).
Proof.
  unfold speaker_on. cbn [Z.leb andb]. change ((20 <=? 440) && (440 <=? 20000)) with true. cbn iota.
  unfold pit_configure_channel, intr_disable, intr_get_level, intr_set_level, inb, outb, bnd, mbind, M_bind, gets, modify, mret, M_ret. cbn -[pit_count u8].
  match goal with |- context [port_in SPEAKER_PORT_GATE ?h] => destruct (port_in SPEAKER_PORT_GATE h) as [x h2] end. cbn -[pit_count u8]. eexists. by destruct t.
Qed.

(** A beep ends, and leaves the interrupt level. *)
Lemma speaker_beep_run (t : T) : is_s64 (ticks t) -> exists t', speaker_beep t = Done (tt, t') /\ t_intr t' = t_intr t /\ is_s64 (ticks t').
Proof.
  intros Ht. unfold speaker_beep. erewrite bind_done by reflexivity. destruct (t_intr t) eqn:Hon; [|by exists t].
  destruct (speaker_on_run t) as [h1 R1]. erewrite bind_done by exact R1.
  destruct (timer_sleep_run (with_thw h1 t) 25) as (t2 & R2 & k & -> & _); [done|done|lia|].
  assert (timer_msleep 250 (with_thw h1 t) = Done (tt, later (passing hw_yield k (t_hw (with_thw h1 t))) (with_thw h1 t))) as R2'.
  { unfold timer_msleep, real_time_sleep. change (Z.quot (s64 (250 * TIMER_FREQ)) 1000) with 25. erewrite bind_done by reflexivity.
    cbn [t_intr with_thw]. rewrite Hon. by erewrite bind_done by reflexivity. }
  erewrite bind_done by exact R2'. destruct (speaker_off_run (later (passing hw_yield k (t_hw (with_thw h1 t))) (with_thw h1 t))) as [h3 R3].
  eexists. split; [exact R3|]. split; [done|apply s64_typed].
Qed.
End Speaker.

(** ** A processor with a tick every 1600 turns *)

#[export] Instance counter_ports : Ports Z := { port_in p h := (0, h); port_out p v h := h }.

#[export] Instance counter_clock : Clock Z := {
  hw_turn h := (if h mod 1600 + 1 =? 1600 then 1%nat else O, h + 1);
  hw_yield h := (1%nat, h);
  turns_left h := 1600%nat;
  yields_left n h := Z.to_nat n
}.

#[export] Program Instance counter_steady : Steady 1600 Z := { phase h := h mod 1600 }.
Next Obligation. intros h. cbn. by apply Z.mod_pos_bound. Qed.
Next Obligation. intros h. cbn. split; [done|]. destruct (Z.eqb_spec (h mod 1600 + 1) 1600); dlia. Qed.
Next Obligation. intros h. cbn. pose proof (Z.mod_pos_bound h 1600). lia. Qed.

#[export] Program Instance counter_live : Live Z := {}.
Next Obligation. done. Qed.
Next Obligation. intros n h Hn. cbn. lia. Qed.

Definition start : timer Z := mk_timer 7 0 true [] [] 0.

(** The refinement makes 2046 of 1600: 1024 + 512 turns fit, and so the smaller bits are
    set too. *)
Lemma timer_calibrate_correct_witness : exists t', timer_calibrate start = Done (tt, t') /\ loops_per_tick t' = 2046 /\ 800 <= loops_per_tick t' < 3200.
Proof.
  destruct (timer_calibrate_correct 1600 start) as (t' & Hr & Hl & _ & Hb); [unfold is_s64; cbn; lia|].
  exists t'. split; [exact Hr|]. split; [rewrite Hl; reflexivity|]. specialize (Hb ltac:(lia)). change (1600 / 2) with 800 in Hb. lia.
Defined.

(** 250 ms are 25 ticks; 3 ms are less than one, and take 480 of the 1600 turns. *)
Lemma real_time_sleep_correct_witness : (exists t', real_time_sleep 250 1000 start = Done (tt, t') /\ slept 25 start t') /\
  exists t', real_time_sleep 3000000 1000000000 (with_loops 1600 start) = Done (tt, t') /\ ticks t' = 7 /\ t_hw t' = 480.
Proof.
  assert (is_s64 (ticks start)) as Ht by (unfold is_s64; cbn; lia). split.
  - exact (real_time_sleep_correct start 250 1000 Ht ltac:(lia) ltac:(reflexivity) ltac:(lia) ltac:(reflexivity) ltac:(cbn; lia)).
  - destruct (real_time_sleep_correct (with_loops 1600 start) 3000000 1000000000 Ht ltac:(lia) ltac:(reflexivity) ltac:(lia) ltac:(reflexivity) ltac:(cbn; lia))
      as (t' & Hr & -> & _).
    eexists. split; [exact Hr|]. split; vm_compute; reflexivity.
Defined.
