(* ===== verification/Vga.v ===== *)
(** * devices/vga.c: the text display

    The state is the memory, in which the frame buffer lies, the variables of vga.c and
    the timer's state, which has the interrupt flag and the hardware.  [screen] is the
    display as its user sees it: a cell for each place, and where the next character
    goes.  While the speaker beeps nothing else is written to the display. *)

From S2P Require Import Prelude Vaddr Mem CString Devices Timer.

(** [outw] of threads/io.h. *)
Class Display (hw : Type) := {
  display_clock :: Clock hw;
  port_outw : Z -> Z -> hw -> hw
}.

Definition COL_CNT : Z := 80.
Definition ROW_CNT : Z := 25.
Definition GRAY_ON_BLACK : Z := 0x07.

Record vga (hw : Type) := mk_vga {
  v_mem : mem;
  fb : Z;                        (* frame buffer *)
  cx : Z; cy : Z;                (* current cursor position *)
  inited : bool;
  v_timer : timer hw
}.
Arguments mk_vga {hw}.
Arguments v_mem {hw}.
Arguments fb {hw}.
Arguments cx {hw}.
Arguments cy {hw}.
Arguments inited {hw}.
Arguments v_timer {hw}.

Section Vga.
Context {hw : Type} `{Display hw}.
Abbreviation V := (vga hw).

Definition with_vmem m (v : V) : V := mk_vga m (fb v) (cx v) (cy v) (inited v) (v_timer v).
Definition with_xy x y (v : V) : V := mk_vga (v_mem v) (fb v) x y (inited v) (v_timer v).
Definition with_timer t (v : V) : V := mk_vga (v_mem v) (fb v) (cx v) (cy v) (inited v) t.

Definition on_vmem {A} (m : M mem A) : M V A := fun v => '(a, m) ← m (v_mem v); Done (a, with_vmem m v).
Definition on_timer {A} (m : M (timer hw) A) : M V A := fun v => '(a, t) ← m (v_timer v); Done (a, with_timer t v).

Definition outw (port v : Z) : M V unit :=
  on_timer (modify (fun t => with_thw (port_outw port (u16 v) (t_hw t)) t)).

(** The cursor position the hardware has. *)
Definition find_cursor : M V (Z * Z) :=
  on_timer (outb 0x3d4 0x0e) ;;
  high ← on_timer (inb 0x3d5);
  let cp := u16 (Z.shiftl high 8) in
  on_timer (outb 0x3d4 0x0f) ;;
  low ← on_timer (inb 0x3d5);
  let cp := u16 (Z.lor cp low) in
  mret (cp mod COL_CNT, cp / COL_CNT).

Definition move_cursor : M V unit :=
  x ← gets cx; y ← gets cy;
  let cp := u16 (x + COL_CNT * y) in
  outw 0x3d4 (Z.lor 0x0e (Z.land cp 0xff00)) ;;
  outw 0x3d4 (Z.lor 0x0f (Z.shiftl cp 8)).

Definition init : M V unit :=
  on ← gets inited;
  if on : bool then mret tt
  else
    p ← liftO (ptov 0xb8000);
    modify (fun v => mk_vga (v_mem v) p (cx v) (cy v) (inited v) (v_timer v)) ;;
    '(x, y) ← find_cursor;
    modify (fun v => mk_vga (v_mem v) (fb v) x y true (v_timer v)).

(** [fb[y][x][i]]. *)
Definition put_cell (y x i c : Z) : M V unit :=
  p ← gets fb; on_vmem (store8 (p + (y * COL_CNT + x) * 2 + i) c).

Definition clear_row (y : Z) : M V unit :=
  for_z COL_CNT (fun x => put_cell y x 0 32 ;; put_cell y x 1 GRAY_ON_BLACK).

Definition cls : M V unit :=
  for_z ROW_CNT clear_row ;;
  modify (with_xy 0 0) ;;
  move_cursor.

Definition newline : M V unit :=
  modify (fun v => with_xy 0 (u32 (cy v + 1)) v) ;;
  y ← gets cy;
  if ROW_CNT <=? y then
    modify (with_xy 0 (ROW_CNT - 1)) ;;
    p ← gets fb;
    _ ← on_vmem (memmove p (p + COL_CNT * 2) (COL_CNT * 2 * (ROW_CNT - 1)));
    clear_row (ROW_CNT - 1)
  else mret tt.

(** The switch over the character, with the level that interrupts had. *)
Definition vga_switch (old_level : bool) (c : Z) : M V unit :=
  if c =? 10 then newline
  else if c =? 12 then cls
  else if c =? 8 then modify (fun v => with_xy (if 0 <? cx v then cx v - 1 else cx v) (cy v) v)
  else if c =? 13 then modify (fun v => with_xy 0 (cy v) v)
  else if c =? 9 then
    modify (fun v => with_xy (ROUND_UP (cx v + 1) 8) (cy v) v) ;;
    x ← gets cx; if COL_CNT <=? x then newline else mret tt
  else if c =? 7 then
    on_timer (intr_set_level old_level) ;;
    on_timer speaker_beep ;;
    _ ← on_timer intr_disable; mret tt
  else
    x ← gets cx; y ← gets cy;
    put_cell y x 0 c ;; put_cell y x 1 GRAY_ON_BLACK ;;
    modify (with_xy (x + 1) y) ;;
    if COL_CNT <=? x + 1 then newline else mret tt.

Definition vga_putc (c : Z) : M V unit :=
  old_level ← on_timer intr_disable;
  init ;;
  vga_switch old_level c ;;
  move_cursor ;;
  on_timer (intr_set_level old_level).
End Vga.

(** ** The display as its user sees it *)

Record screen := mk_screen {
  cell : Z -> Z -> Z * Z;        (* by row and column: character and attribute *)
  col : Z;
  row : Z
}.

Definition blank : Z * Z := (32, GRAY_ON_BLACK).

(** To the start of the next line; the last line makes the others move up. *)
Definition next_line (s : screen) : screen :=
  if row s =? 24 then mk_screen (fun y x => if y =? 24 then blank else cell s (y + 1) x) 0 24
  else mk_screen (cell s) 0 (row s + 1).

Definition move_to (x : Z) (s : screen) : screen := if x <? 80 then mk_screen (cell s) x (row s) else next_line s.

Definition draw (c : Z) (s : screen) : screen :=
  mk_screen (fun y x => if decide (y = row s /\ x = col s) then (c, GRAY_ON_BLACK) else cell s y x) (col s) (row s).

Definition screen_putc (c : Z) (s : screen) : screen :=
  if c =? 10 then next_line s                              (* new line *)
  else if c =? 12 then mk_screen (fun _ _ => blank) 0 0    (* form feed: clear *)
  else if c =? 8 then move_to (Z.max 0 (col s - 1)) s      (* backspace *)
  else if c =? 13 then move_to 0 s                         (* carriage return *)
  else if c =? 9 then move_to ((col s / 8 + 1) * 8) s      (* tab *)
  else if c =? 7 then s                                    (* bell *)
  else move_to (col s + 1) (draw c s).

(** The frame buffer. *)
Definition FB : Z := 0xc00b8000.
Definition place (y x i : Z) : Z := FB + (y * COL_CNT + x) * 2 + i.
Definition on_screen (y x : Z) : Prop := 0 <= y < 25 /\ 0 <= x < 80.

Definition shows (m : mem) (f : Z -> Z -> Z * Z) : Prop := forall y x, on_screen y x ->
  m !! place y x 0 = Some (f y x).1 /\ m !! place y x 1 = Some (f y x).2 /\ is_byte (f y x).1 /\ is_byte (f y x).2.

Lemma place_inj y x i y' x' i' : on_screen y x -> on_screen y' x' -> 0 <= i < 2 -> 0 <= i' < 2 -> place y x i = place y' x' i' -> y = y' /\ x = x' /\ i = i'.
Proof. unfold place, on_screen, COL_CNT. lia. Qed.

Lemma place_inside y x i : on_screen y x -> 0 <= i < 2 -> FB <= place y x i < FB + 4000.
Proof. unfold place, on_screen, COL_CNT. lia. Qed.

Lemma shows_byte m f a : shows m f -> FB <= a < FB + 4000 -> exists b, m !! a = Some b /\ is_byte b.
Proof.
  intros Hm Ha. set (k := a - FB). assert (on_screen (k / 160) (k mod 160 / 2)) as Hp by (unfold on_screen, k; dlia).
  destruct (Hm _ _ Hp) as (H1 & H2 & H3 & H4). destruct (decide (k mod 2 = 0)).
  - replace (place _ _ 0) with a in H1 by (unfold place, COL_CNT; unfold k in *; dlia). by eexists.
  - replace (place _ _ 1) with a in H2 by (unfold place, COL_CNT; unfold k in *; dlia). by eexists.
Qed.

Lemma shows_ext m f g : (forall y x, on_screen y x -> f y x = g y x) -> shows m f -> shows m g.
Proof. intros He Hm y x Hp. rewrite <- He by done. by apply Hm. Qed.

(** One cell. *)
Lemma shows_put m f y x c a : shows m f -> on_screen y x -> is_byte c -> is_byte a ->
  shows (<[place y x 1 := a]> (<[place y x 0 := c]> m)) (fun y' x' => if decide (y' = y /\ x' = x) then (c, a) else f y' x').
Proof.
  intros Hm Hp Hc Ha y' x' Hp'. destruct (Hm y' x' Hp') as (H1 & H2 & H3 & H4). case_decide as Hd.
  - destruct Hd as [-> ->]. split; [|split; [|done]].
    + rewrite lookup_insert_ne by (unfold place; lia). apply lookup_insert_eq.
    + apply lookup_insert_eq.
  - assert (forall i j, 0 <= i < 2 -> 0 <= j < 2 -> place y x i <> place y' x' j) as Hn.
    { intros i j Hi Hj E. apply Hd. destruct (place_inj y x i y' x' j) as (-> & -> & _); done. }
    rewrite !lookup_insert_ne by (apply Hn; lia). done.
Qed.

(** memmove within bytes that can be read. *)
Lemma memmove_lookup m dst src n : 0 <= n -> (forall a, src <= a < src + n -> exists b, m !! a = Some b /\ is_byte b) -> mapped m dst n -> 0 < dst -> 0 < src ->
  exists r m', memmove dst src n m = Done (r, m') /\ (forall i, 0 <= i < n -> m' !! (dst + i) = m !! (src + i)) /\ outside m m' dst n.
Proof.
  intros Hn Hs Hd Hd0 Hs0. set (bs := map (fun i => default 0 (m !! (src + Z.of_nat i))) (seq 0 (Z.to_nat n))).
  assert (zlen bs = n) as Hl by (unfold zlen, bs; rewrite length_map, length_seq; lia).
  assert (forall i, (i < Z.to_nat n)%nat -> bs !! i = Some (default 0 (m !! (src + Z.of_nat i)))) as Hb.
  { intros i Hi. unfold bs. rewrite list_lookup_fmap, lookup_seq_lt by done. done. }
  assert (bytes_at m src bs) as Hsrc.
  { apply bytes_at_intro. intros i b Hi. pose proof (lookup_lt_Some _ _ _ Hi) as Hlt. unfold zlen in Hl. rewrite Hb in Hi by lia. injection Hi as <-.
    destruct (Hs (src + Z.of_nat i) ltac:(lia)) as (b & -> & _). done. }
  assert (Forall is_byte bs) as Hby.
  { apply Forall_lookup. intros i b Hi. pose proof (lookup_lt_Some _ _ _ Hi) as Hlt. unfold zlen in Hl. rewrite Hb in Hi by lia. injection Hi as <-.
    destruct (Hs (src + Z.of_nat i) ltac:(lia)) as (b & -> & Hx). exact Hx. }
  rewrite <- Hl in Hd. destruct (memmove_correct m dst src bs Hsrc Hby Hd Hd0 Hs0) as (m' & Hr & Hm' & Hout). rewrite Hl in *.
  eexists _, m'. split; [exact Hr|]. split; [|done]. intros i Hi.
  pose proof (bytes_at_lookup _ _ _ _ _ Hm' (Hb (Z.to_nat i) ltac:(lia))) as E. rewrite Z2Nat.id in E by lia. rewrite E.
  by destruct (Hs (src + i) ltac:(lia)) as (b & -> & _).
Qed.

(** ** The operations *)

(** The cursor position the display has, in its registers 14 and 15: they are selected
    by a byte at 0x3d4 and read at 0x3d5, or written together with their number. *)
Class Cursor (hw : Type) `{Display hw} := {
  cursor : hw -> Z;
  cursor_range h : 0 <= cursor h < 2 ^ 16;
  cursor_high h : let h1 := port_out 0x3d4 0x0e h in (port_in 0x3d5 h1).1 = cursor h / 2 ^ 8 /\ cursor (port_in 0x3d5 h1).2 = cursor h;
  cursor_low h : let h1 := port_out 0x3d4 0x0f h in (port_in 0x3d5 h1).1 = cursor h mod 2 ^ 8 /\ cursor (port_in 0x3d5 h1).2 = cursor h;
  cursor_set_high h b : 0 <= b < 2 ^ 8 -> cursor (port_outw 0x3d4 (b * 2 ^ 8 + 0x0e) h) = b * 2 ^ 8 + cursor h mod 2 ^ 8;
  cursor_set_low h b : 0 <= b < 2 ^ 8 -> cursor (port_outw 0x3d4 (b * 2 ^ 8 + 0x0f) h) = cursor h / 2 ^ 8 * 2 ^ 8 + b
}.

Section Runs.
Context {hw : Type} `{Cursor hw}.
Abbreviation V := (vga hw).

Definition hardware (v : V) : hw := t_hw (v_timer v).

(** Only the frame buffer, the cursor and the time change. *)
Definition keeps (v v' : V) : Prop := outside (v_mem v) (v_mem v') FB 4000 /\ t_intr (v_timer v') = t_intr (v_timer v) /\
  (is_s64 (ticks (v_timer v)) -> is_s64 (ticks (v_timer v'))).

#[export] Instance keeps_preorder : PreOrder keeps.
Proof.
  split; [by intros v|]. intros v1 v2 v3 (A1 & A2 & A3) (B1 & B2 & B3). split; [|split; [congruence|auto]].
  intros a Ha. rewrite B1, A1; done.
Qed.

(** The display is set up and shows [f]. *)
Definition painted (f : Z -> Z -> Z * Z) (v : V) : Prop := fb v = FB /\ inited v = true /\ shows (v_mem v) f.

(** [v'] has other memory than [v], and shows [f]. *)
Definition paints (v : V) (f : Z -> Z -> Z * Z) (v' : V) : Prop := painted f v' /\ outside (v_mem v) (v_mem v') FB 4000 /\ v' = with_vmem (v_mem v') v.

Lemma paints_refl f v : painted f v -> paints v f v.
Proof. intros Hp. split; [done|]. split; [done|]. by destruct v. Qed.

Lemma paints_trans v f v1 g v2 : paints v f v1 -> paints v1 g v2 -> paints v g v2.
Proof.
  intros (A1 & A2 & A3) (B1 & B2 & B3). split; [done|]. split; [intros a Ha; by rewrite B2, A2|]. rewrite B3, A3. done.
Qed.

Lemma paints_ext v f g v' : (forall y x, on_screen y x -> f y x = g y x) -> paints v f v' -> paints v g v'.
Proof. intros He ((H1 & H2 & H3) & H4). split; [|done]. split; [done|]. split; [done|]. by eapply shows_ext. Qed.

Lemma paints_keeps v f v' : paints v f v' -> keeps v v'.
Proof. intros (_ & Ho & ->). done. Qed.

Lemma put_cell_run y x i c (v : V) b : fb v = FB -> v_mem v !! place y x i = Some b -> is_byte c ->
  put_cell y x i c v = Done (tt, with_vmem (<[place y x i := c]> (v_mem v)) v).
Proof.
  intros Hf Hb Hc. unfold put_cell. erewrite bind_done by reflexivity. rewrite Hf. unfold on_vmem, place in *.
  rewrite (store8_run _ _ _ (mk_is_Some _ _ Hb)). rewrite u8_small by exact Hc. done.
Qed.

(** A character and its attribute. *)
Lemma draw_run y x c a (v : V) f : painted f v -> on_screen y x -> is_byte c -> is_byte a ->
  exists v', (put_cell y x 0 c ;; put_cell y x 1 a) v = Done (tt, v') /\
    paints v (fun y' x' => if decide (y' = y /\ x' = x) then (c, a) else f y' x') v'.
Proof.
  intros (Hf & Hi & Hs) Hp Hc Ha. destruct (Hs y x Hp) as (H1 & H2 & _). eexists. erewrite bind_done by (by eapply put_cell_run). split.
  - eapply put_cell_run; [done| |done]. cbn [v_mem with_vmem]. rewrite lookup_insert_ne by (unfold place; lia). exact H2.
  - split; [|split]; cbn [v_mem with_vmem].
    + split; [done|]. split; [done|]. by apply shows_put.
    + intros b Hb. pose proof (place_inside y x 0 Hp ltac:(lia)). pose proof (place_inside y x 1 Hp ltac:(lia)). rewrite !lookup_insert_ne by lia. done.
    + done.
Qed.

Lemma clear_row_run y (v : V) f : painted f v -> 0 <= y < 25 ->
  exists v', clear_row y v = Done (tt, v') /\ paints v (fun y' x' => if decide (y' = y) then blank else f y' x') v'.
Proof.
  intros Hp Hy. destruct (for_from_inv (fun i => paints v (fun y' x' => if decide (y' = y /\ x' < i) then blank else f y' x'))
    (fun x => put_cell y x 0 32 ;; put_cell y x 1 GRAY_ON_BLACK) 80 0 v) as (v' & Hr & Hv').
  - eapply paints_ext; [|by apply paints_refl]. intros y' x' [_ Hx]. cbn beta. rewrite decide_False by lia. done.
  - intros j v1 Hj Hv1. destruct (draw_run y j 32 GRAY_ON_BLACK v1 _ (proj1 Hv1)) as (v2 & R2 & Hv2); [split; lia|done|done|].
    exists v2. split; [exact R2|]. eapply paints_ext; [|by eapply paints_trans]. intros y' x' _. cbn beta.
    repeat case_decide; try done; lia.
  - exists v'. split; [exact Hr|]. eapply paints_ext; [|exact Hv']. intros y' x' [_ Hx]. cbn beta. change (0 + Z.of_nat 80) with 80.
    repeat case_decide; try done; lia.
Qed.

Lemma on_timer_run {A} (m : M (timer hw) A) (v : V) a t : m (v_timer v) = Done (a, t) -> on_timer m v = Done (a, with_timer t v).
Proof. intros E. unfold on_timer, bnd, mbind, outcome_bind. by rewrite E. Qed.

(** The display is as [s] says, but for the column. *)
Definition on_line (s : screen) (v : V) : Prop := painted (cell s) v /\ cy v = row s /\ 0 <= row s < 25.

(** ... and set up. *)
Definition drawn (s : screen) (v : V) : Prop := on_line s v /\ cx v = col s /\ 0 <= col s < 80.

Lemma newline_run (v : V) s : on_line s v -> exists v', newline v = Done (tt, v') /\ drawn (next_line s) v' /\ keeps v v'.
Proof.
  intros ((Hf & Hi & Hs) & Hy & Hr). unfold newline. erewrite bind_done by reflexivity. erewrite bind_done by reflexivity. cbn [cy with_xy]. rewrite Hy.
  rewrite u32_small by lia. unfold next_line. destruct (Z.leb_spec ROW_CNT (row s + 1)) as [Hlast|Hmore]; unfold ROW_CNT in *.
  - assert (row s = 24) as E by lia. rewrite E. change (24 =? 24) with true. cbn iota. erewrite bind_done by reflexivity. erewrite bind_done by reflexivity.
    cbn [fb with_xy]. rewrite Hf. change (COL_CNT * 2 * (25 - 1)) with 3840. change (COL_CNT * 2) with 160.
    destruct (memmove_lookup (v_mem v) FB (FB + 160) 3840) as (r & m' & Hm & Hl & Hout); try done.
    { intros a Ha. apply (shows_byte _ _ _ Hs). lia. }
    { intros a Ha. destruct (shows_byte _ _ a Hs) as (b & -> & _); [lia|by eexists]. }
    erewrite bind_done by (unfold on_vmem, bnd, mbind, outcome_bind; cbn [v_mem with_xy]; rewrite Hm; reflexivity).
    set (v1 := with_vmem m' _).
    assert (painted (fun y x => if y =? 24 then cell s y x else cell s (y + 1) x) v1) as Hp1.
    { split; [done|]. split; [done|]. intros y x Hp. cbn [v_mem v1 with_vmem]. destruct (Z.eqb_spec y 24) as [->|Hne].
      - destruct (Hs 24 x Hp) as (H1 & H2 & H3). unfold place, FB, COL_CNT in *. unfold on_screen in Hp. rewrite !Hout by lia. done.
      - assert (on_screen (y + 1) x) as Hp' by (unfold on_screen in *; lia). destruct (Hs (y + 1) x Hp') as (H1 & H2 & H3). unfold on_screen in Hp.
        replace (place y x 0) with (FB + (y * 80 + x) * 2) by (unfold place, COL_CNT; lia). replace (place y x 1) with (FB + ((y * 80 + x) * 2 + 1)) by (unfold place, COL_CNT; lia).
        rewrite !Hl by lia. replace (FB + 160 + (y * 80 + x) * 2) with (place (y + 1) x 0) by (unfold place, COL_CNT; lia).
        replace (FB + 160 + ((y * 80 + x) * 2 + 1)) with (place (y + 1) x 1) by (unfold place, COL_CNT; lia). done. }
    destruct (clear_row_run 24 v1 _ Hp1 ltac:(lia)) as (v2 & R2 & Hv2). exists v2. split; [exact R2|].
    pose proof (paints_keeps _ _ _ Hv2) as Hk. destruct Hv2 as (Hp2 & Ho2 & Ev2). rewrite Ev2 in *. split.
    + split; [|split; [done|cbn; lia]]. split; [|split; [done|cbn; lia]]. destruct Hp2 as (P1 & P2 & P3). split; [done|]. split; [done|].
      eapply shows_ext; [|exact P3]. intros y x [Hy' _]. cbn. destruct (Z.eqb_spec y 24); [by rewrite decide_True|by rewrite decide_False].
    + etransitivity; [|exact Hk]. split; [|done]. intros a Ha. cbn. apply Hout. lia.
  - eexists. split; [reflexivity|]. rewrite (proj2 (Z.eqb_neq (row s) 24)) by lia. split; [|done]. split; [|split; [done|cbn; lia]].
    split; [done|]. split; [done|cbn; lia].
Qed.

(** The bytes of a cursor position. *)
Lemma cursor_bytes cp : 0 <= cp < 2 ^ 16 -> Z.lor 0x0e (Z.land cp 0xff00) = cp / 2 ^ 8 * 2 ^ 8 + 0x0e /\
  u16 (Z.lor 0x0f (Z.shiftl cp 8)) = cp mod 2 ^ 8 * 2 ^ 8 + 0x0f.
Proof.
  intros Hc. assert (Z.land cp 0xff00 = cp / 2 ^ 8 * 2 ^ 8) as ->.
  { change 0xff00 with (Z.shiftl 0xff 8). rewrite <- Z.shiftr_div_pow2, <- Z.shiftl_mul_pow2 by lia. apply Z.bits_inj'. intros n Hn.
    rewrite Z.land_spec, !Z.shiftl_spec by lia. destruct (Z.ltb_spec n 8); [rewrite !(Z.testbit_neg_r _ (n - 8)) by lia; apply andb_false_r|].
    rewrite Z.shiftr_spec by lia. replace (n - 8 + 8) with n by lia. change 0xff with (Z.ones 8). destruct (Z.ltb_spec n 16).
    - rewrite Z.ones_spec_low by lia. apply andb_true_r.
    - rewrite Z.ones_spec_high, andb_false_r by lia. symmetry. apply (Z.bounded_iff_bits_nonneg' 16); lia. }
  rewrite Z.lor_comm, lor_low by lia. split; [done|]. rewrite Z.shiftl_mul_pow2, Z.lor_comm, lor_low by lia. unfold u16. dlia.
Qed.

Lemma move_cursor_run (v : V) : 0 <= cx v + 80 * cy v < 2 ^ 16 ->
  exists h, move_cursor v = Done (tt, with_timer (with_thw h (v_timer v)) v) /\ cursor h = cx v + 80 * cy v.
Proof.
  intros Hc. unfold move_cursor. erewrite bind_done by reflexivity. erewrite bind_done by reflexivity. change COL_CNT with 80. set (cp := cx v + 80 * cy v) in *.
  assert (u16 cp = cp) as -> by by apply Z.mod_small. destruct (cursor_bytes cp Hc) as [E1 E2]. erewrite bind_done by reflexivity.
  unfold outw at 1. erewrite on_timer_run by reflexivity. rewrite E1, E2. eexists. split; [reflexivity|].
  cbn [with_timer v_timer t_hw with_thw]. assert (u16 (cp / 2 ^ 8 * 2 ^ 8 + 14) = cp / 2 ^ 8 * 2 ^ 8 + 14) as -> by (apply Z.mod_small; dlia).
  rewrite cursor_set_low by dlia. rewrite cursor_set_high by dlia. pose proof (Z.mod_pos_bound (cursor (t_hw (v_timer v))) (2 ^ 8)). dlia.
Qed.

Lemma find_cursor_run (v : V) : exists h, find_cursor v = Done ((cursor (hardware v) mod 80, cursor (hardware v) / 80), with_timer (with_thw h (v_timer v)) v) /\
  cursor h = cursor (hardware v).
Proof.
  unfold find_cursor, hardware. set (t := v_timer v). erewrite bind_done by (apply on_timer_run; reflexivity).
  destruct (cursor_high (t_hw t)) as [A1 A2]. destruct (port_in 0x3d5 (port_out 0x3d4 0x0e (t_hw t))) as [x h1] eqn:E1. cbn [fst snd] in A1, A2.
  erewrite bind_done. 2: { apply on_timer_run. unfold inb. cbn [v_timer with_timer t_hw with_thw]. change (u8 14) with 14. fold t. rewrite E1. reflexivity. }
  erewrite bind_done by (apply on_timer_run; reflexivity). destruct (cursor_low h1) as [B1 B2]. destruct (port_in 0x3d5 (port_out 0x3d4 0x0f h1)) as [y h2] eqn:E2. cbn [fst snd] in B1, B2.
  erewrite bind_done. 2: { apply on_timer_run. unfold inb. cbn [v_timer with_timer t_hw with_thw]. change (u8 15) with 15. rewrite E2. reflexivity. }
  pose proof (cursor_range (t_hw t)). rewrite A2 in B1, B2. subst x y.
  assert (u16 (Z.lor (u16 (Z.shiftl (u8 (cursor (t_hw t) / 2 ^ 8)) 8)) (u8 (cursor (t_hw t) mod 2 ^ 8))) = cursor (t_hw t)) as ->.
  { rewrite !u8_small by dlia. rewrite Z.shiftl_mul_pow2 by lia. assert (u16 (cursor (t_hw t) / 2 ^ 8 * 2 ^ 8) = cursor (t_hw t) / 2 ^ 8 * 2 ^ 8) as -> by (apply Z.mod_small; dlia).
    rewrite lor_low by dlia. unfold u16. dlia. }
  exists h2. split; [by destruct v|done].
Qed.


Lemma cls_run (v : V) f : painted f v -> exists v', cls v = Done (tt, v') /\ drawn (mk_screen (fun _ _ => blank) 0 0) v' /\ keeps v v'.
Proof.
  intros Hp. unfold cls. destruct (for_from_inv (fun i => paints v (fun y x => if decide (y < i) then blank else f y x)) clear_row 25 0 v) as (v1 & R1 & H1).
  - eapply paints_ext; [|by apply paints_refl]. intros y x [Hy _]. cbn beta. rewrite decide_False by lia. done.
  - intros j v1 Hj Hv1. destruct (clear_row_run j v1 _ (proj1 Hv1) ltac:(lia)) as (v2 & R2 & Hv2). exists v2. split; [exact R2|].
    eapply paints_ext; [|by eapply paints_trans]. intros y x _. cbn beta. repeat case_decide; try done; lia.
  - erewrite bind_done by exact R1. erewrite bind_done by reflexivity. destruct (move_cursor_run (with_xy 0 0 v1)) as (h & Rh & _); [cbn; lia|].
    eexists. split; [exact Rh|]. pose proof (paints_keeps _ _ _ H1) as Hk. destruct H1 as ((P1 & P2 & P3) & Ho & Ev). split.
    + split; [|split; [done|cbn; lia]]. split; [|split; [done|cbn; lia]]. split; [done|]. split; [done|].
      eapply shows_ext; [|exact P3]. intros y x [Hy _]. cbn beta. rewrite decide_True; [done|change (0 + Z.of_nat 25) with 25; lia].
    + etransitivity; [exact Hk|done].
Qed.

(** What the display shows, and that its cursor is where the next character goes; the
    variables of vga.c say so too, once they are initialized. *)
Definition displays (v : V) (s : screen) : Prop :=
  shows (v_mem v) (cell s) /\ on_screen (row s) (col s) /\ cursor (hardware v) = col s + 80 * row s /\
  (inited v = true -> fb v = FB /\ cx v = col s /\ cy v = row s).

Lemma init_run (v : V) s : displays v s -> exists v', init v = Done (tt, v') /\ drawn s v' /\ keeps v v'.
Proof.
  intros (Hs & (Hr & Hc) & Hcur & Hin). unfold init. erewrite bind_done by reflexivity. destruct (inited v) eqn:Ei.
  - destruct (Hin eq_refl) as (E1 & E2 & E3). exists v. done.
  - erewrite bind_done by (apply (liftO_run _ _ FB); reflexivity). erewrite bind_done by reflexivity.
    set (v1 := mk_vga (v_mem v) _ _ _ _ _). destruct (find_cursor_run v1) as (h & Rh & Eh). erewrite bind_done by exact Rh. eexists. split; [reflexivity|].
    change (hardware v1) with (hardware v). rewrite Hcur.
    replace ((col s + 80 * row s) mod 80) with (col s) by dlia. replace ((col s + 80 * row s) / 80) with (row s) by dlia. done.
Qed.

(** Where a character leaves the cursor. *)
Lemma move_to_run x (v : V) s : drawn s v -> 0 <= x <= 80 ->
  exists v', (modify (with_xy x (cy v)) ;; if COL_CNT <=? x then newline else mret tt) v = Done (tt, v') /\ drawn (move_to x s) v' /\ keeps v v'.
Proof.
  intros (((Hf & Hi & Hs) & Hy & Hr) & Hx & Hc) Hlt. erewrite bind_done by reflexivity. unfold move_to, COL_CNT. destruct (Z.leb_spec 80 x).
  - rewrite (proj2 (Z.ltb_ge _ _)) by lia. destruct (newline_run (with_xy x (cy v) v) s) as (v' & Rv & Hv & Hk); [by split|]. by exists v'.
  - rewrite (proj2 (Z.ltb_lt _ _)) by lia. eexists. split; [reflexivity|]. split; [|done]. split; [done|]. split; [done|cbn; lia].
Qed.

Lemma switch_run `{!Live hw} old c (v : V) s : drawn s v -> is_byte c -> is_s64 (ticks (v_timer v)) -> t_intr (v_timer v) = false ->
  exists v', vga_switch old c v = Done (tt, v') /\ drawn (screen_putc c s) v' /\ keeps v v'.
Proof.
  intros Hd Hb Ht Hoff. pose proof Hd as (((Hf & Hi & Hs) & Hy & Hr) & Hx & Hc). unfold screen_putc, vga_switch.
  destruct (c =? 10); [by apply newline_run|]. destruct (c =? 12); [by eapply cls_run|].
  destruct (c =? 8).
  { destruct (move_to_run (Z.max 0 (col s - 1)) v s Hd ltac:(lia)) as (v' & Rv & Hv). exists v'. split; [|done]. rewrite <- Rv. erewrite bind_done by reflexivity.
    unfold COL_CNT. rewrite (proj2 (Z.leb_gt _ _)) by lia. unfold modify, mret, M_ret. rewrite Hx. f_equal. f_equal. f_equal. destruct (Z.ltb_spec 0 (col s)); lia. }
  destruct (c =? 13).
  { destruct (move_to_run 0 v s Hd ltac:(lia)) as (v' & Rv & Hv). by exists v'. }
  destruct (c =? 9).
  { destruct (move_to_run ((col s / 8 + 1) * 8) v s Hd ltac:(dlia)) as (v' & Rv & Hv). exists v'. split; [|done]. rewrite <- Rv.
    assert (ROUND_UP (cx v + 1) 8 = (col s / 8 + 1) * 8) as E by (unfold ROUND_UP; rewrite Hx; dlia).
    erewrite bind_done by reflexivity. erewrite bind_done by reflexivity. cbn [cx with_xy]. by rewrite E. }
  destruct (c =? 7).
  { erewrite bind_done by (apply on_timer_run; reflexivity). destruct (speaker_beep_run (with_intr old (v_timer v))) as (t & Rt & _ & Ht'); [done|].
    erewrite bind_done by (apply on_timer_run; exact Rt). eexists. split; [reflexivity|]. split; [done|]. done. }
  erewrite bind_done by reflexivity. erewrite bind_done by reflexivity. rewrite Hx, Hy.
  destruct (draw_run (row s) (col s) c GRAY_ON_BLACK v (cell s)) as (v1 & R1 & Hv1); [done|done|done|done|].
  pose proof (paints_keeps _ _ _ Hv1) as Hk1. destruct Hv1 as (Hp1 & _ & Ev1).
  assert (drawn (draw c s) v1) as Hd1 by (rewrite Ev1 in *; done).
  destruct (move_to_run (col s + 1) v1 (draw c s) Hd1 ltac:(lia)) as (v2 & R2 & Hd2 & Hk2). exists v2. split; [|split; [exact Hd2|by etransitivity]].
  rewrite <- R2. apply bind_done_inv in R1 as ([] & va & Ra & Rb). erewrite bind_done by exact Ra. erewrite bind_done by exact Rb.
  by replace (cy v1) with (row s) by (by rewrite Ev1).
Qed.

Lemma on_screen_putc c s : on_screen (row s) (col s) -> on_screen (row (screen_putc c s)) (col (screen_putc c s)).
Proof.
  assert (forall x, on_screen (row s) (col s) -> 0 <= x -> forall s', row s' = row s -> on_screen (row (move_to x s')) (col (move_to x s'))) as Hm.
  { intros x Hp Hx s' E. unfold move_to, next_line, on_screen in *. rewrite !E. destruct (Z.ltb_spec x 80); [cbn; lia|]. destruct (Z.eqb_spec (row s) 24); cbn; lia. }
  intros Hp. unfold screen_putc. destruct (c =? 10). { unfold next_line, on_screen in *. destruct (Z.eqb_spec (row s) 24); cbn; lia. }
  pose proof Hp as [_ Hcol]. destruct (c =? 12); [done|]. destruct (c =? 8); [apply Hm; [done|lia|done]|]. destruct (c =? 13); [by apply Hm|].
  destruct (c =? 9); [apply Hm; [done|dlia|done]|]. destruct (c =? 7); [done|]. apply Hm; [done|lia|done].
Qed.

(** C30: a character, printable or not, does to the display what a terminal does with it:
    it is drawn at the cursor, in gray; the cursor moves on, wraps to the next line and
    keeps inside the display, whose lines move up when the last one is full; new line,
    carriage return, backspace, tab, form feed and bell have their effects.  Nothing but the
    frame buffer changes in memory, the hardware's cursor follows, and interrupts are on
    afterwards as before. *)
Theorem vga_putc_correct `{!Live hw} (v : V) s c (Hv : displays v s) (Hc : is_byte c) (Ht : is_s64 (ticks (v_timer v))) :
  exists v', vga_putc c v = Done (tt, v') /\ displays v' (screen_putc c s) /\ inited v' = true /\
    outside (v_mem v) (v_mem v') FB (2 * 80 * 25) /\ t_intr (v_timer v') = t_intr (v_timer v) /\ is_s64 (ticks (v_timer v')).
Proof.
  unfold vga_putc. erewrite bind_done by (apply on_timer_run; reflexivity).
  set (v0 := with_timer (with_intr false (v_timer v)) v). assert (displays v0 s) as Hv0 by exact Hv.
  destruct (init_run v0 s Hv0) as (v1 & R1 & D1 & (O1 & I1 & T1)). erewrite bind_done by exact R1.
  destruct (switch_run (t_intr (v_timer v)) c v1 s D1 Hc (T1 Ht)) as (v2 & R2 & D2 & (O2 & I2 & T2)). { rewrite I1. done. }
  erewrite bind_done by exact R2. destruct D2 as (((F2 & N2 & S2) & Y2 & _) & X2 & _).
  pose proof (on_screen_putc c s (proj1 (proj2 Hv))) as Hp. destruct (move_cursor_run v2) as (h & R3 & Hh). { rewrite X2, Y2. unfold on_screen in Hp. lia. }
  erewrite bind_done by exact R3. erewrite on_timer_run by reflexivity. eexists. split; [reflexivity|]. split.
  - split; [exact S2|]. split; [exact Hp|]. split; [cbn; by rewrite Hh, X2, Y2|done].
  - split; [exact N2|]. split; [intros a Ha; cbn; by rewrite O2, O1|]. split; [done|]. cbn. auto.
Qed.
End Runs.

(** ** A display *)

(** The register selected, and the cursor position. *)
Record crt := mk_crt { register : Z; position : Z }.

#[export] Instance crt_ports : Ports crt := {
  port_in p h := (if register h =? 0x0e then position h mod 2 ^ 16 / 2 ^ 8 else position h mod 2 ^ 8, h);
  port_out p v h := if p =? 0x3d4 then mk_crt v (position h) else h
}.

#[export] Instance crt_clock : Clock crt := {
  hw_turn h := (1%nat, h);
  hw_yield h := (1%nat, h);
  turns_left h := 1%nat;
  yields_left n h := Z.to_nat n
}.

#[export] Instance crt_display : Display crt := {
  port_outw p w h :=
    let pos := position h mod 2 ^ 16 in
    mk_crt (w mod 2 ^ 8) (if w mod 2 ^ 8 =? 0x0e then w / 2 ^ 8 * 2 ^ 8 + pos mod 2 ^ 8 else pos / 2 ^ 8 * 2 ^ 8 + w / 2 ^ 8)
}.

#[export] Program Instance crt_live : Live crt := {}.
Next Obligation. done. Qed.
Next Obligation. intros n h Hn. cbn. lia. Qed.

#[export] Program Instance crt_cursor : Cursor crt := { cursor h := position h mod 2 ^ 16 }.
Next Obligation. intros h. by apply Z.mod_pos_bound. Qed.
Next Obligation. intros h. done. Qed.
Next Obligation. intros h. cbn -[Z.pow]. split; [dlia|done]. Qed.
Next Obligation. intros h b Hb. cbn -[Z.pow Z.modulo Z.div]. replace ((b * 2 ^ 8 + 14) mod 2 ^ 8) with 14 by dlia. change (14 =? 14) with true. cbn iota. dlia. Qed.
Next Obligation. intros h b Hb. cbn -[Z.pow Z.modulo Z.div]. replace ((b * 2 ^ 8 + 15) mod 2 ^ 8) with 15 by dlia. change (15 =? 14) with false. cbn iota. dlia. Qed.

(** An empty display, not yet initialized, with the cursor in the last place. *)
Definition empty_buffer : mem := stored ∅ FB (concat (replicate 2000 [32; 7])).
Definition corner : vga crt := mk_vga empty_buffer 0 0 0 false (mk_timer 0 0 true [] [] (mk_crt 0 1999)).
Definition corner_screen : screen := mk_screen (fun _ _ => blank) 79 24.

Lemma pairs_lookup n : forall i (a b : Z), (i < n)%nat -> concat (replicate n [a; b]) !! (2 * i)%nat = Some a /\ concat (replicate n [a; b]) !! S (2 * i) = Some b.
Proof.
  induction n as [|n IH]; intros [|i] a b Hi; try lia; cbn [replicate concat app]; [done|].
  destruct (IH i a b ltac:(lia)) as [H1 H2]. replace (2 * S i)%nat with (S (S (2 * i))) by lia. done.
Qed.

Lemma pairs_at n m p i a b : bytes_at m p (concat (replicate n [a; b])) -> (i < n)%nat ->
  m !! (p + Z.of_nat (2 * i)) = Some a /\ m !! (p + Z.of_nat (S (2 * i))) = Some b.
Proof. intros Hb Hi. destruct (pairs_lookup n i a b Hi) as [H1 H2]. split; eapply bytes_at_lookup; eauto. Qed.

Lemma corner_displays : displays corner corner_screen.
Proof.
  split; [|done]. intros y x [Hy Hx]. cbn [cell corner_screen v_mem corner fst snd blank].
  assert (bytes_at empty_buffer FB (concat (replicate 2000 [32; 7]))) as Hb.
  { apply stored_bytes. rewrite Forall_concat. apply Forall_replicate. by repeat constructor. }
  destruct (pairs_at 2000 empty_buffer FB (Z.to_nat (y * 80 + x)) 32 7 Hb ltac:(lia)) as [H1 H2]. split; [|split; [|clear; unfold is_byte, GRAY_ON_BLACK; cbn; lia]].
  - replace (place y x 0) with (FB + Z.of_nat (2 * Z.to_nat (y * 80 + x))) by (unfold place, COL_CNT; lia). exact H1.
  - replace (place y x 1) with (FB + Z.of_nat (S (2 * Z.to_nat (y * 80 + x)))) by (unfold place, COL_CNT; lia). exact H2.
Qed.

(** A letter in the last place moves all lines up. *)
Lemma vga_putc_correct_witness : exists v', vga_putc 65 corner = Done (tt, v') /\ v_mem v' !! place 23 79 0 = Some 65 /\
  v_mem v' !! place 24 79 0 = Some 32 /\ cx v' = 0 /\ cy v' = 24 /\ cursor (hardware v') = 24 * 80.
Proof.
  assert (on_screen 23 79 /\ on_screen 24 79) as [P1 P2] by (unfold on_screen; lia).
  destruct (vga_putc_correct corner corner_screen 65 corner_displays) as (v' & Hr & (Hs & _ & Hcur & Hin) & Hi & _); [done|done|].
  exists v'. split; [exact Hr|]. destruct (Hin Hi) as (_ & Hx & Hy). destruct (Hs 23 79 P1) as (H1 & _). destruct (Hs 24 79 P2) as (H2 & _).
  split; [exact H1|]. split; [exact H2|]. split; [exact Hx|]. split; [exact Hy|exact Hcur].
Defined.

