(* ===== verification/Jobs.v ===== *)
(** * Project 1/jobManager.c: the job table of the shell

    A shell with job control, a program of its own.  [shell.jobs] is an array of
    pointers to job structures; a job holds the processes of a pipeline.  Job
    structures are entries of a finite map from addresses, the list of processes
    behind [root] is a Rocq list, a field that is not initialized is [None].
    What the system answers to the calls of the shell is an input of the state
    ([os]), and the calls it makes are recorded in order ([calls]). *)

From Stdlib Require Import Ascii.
From Stdlib Require Import(notations) String.
From stdpp Require Import pretty.
From S2P Require Import Prelude Stdio.

(** ** constants.h *)

Definition NR_JOBS : Z := 20.
Definition COMMAND_BUFSIZE : Z := 2000.

Definition BACKGROUND_EXECUTION : Z := 0.
Definition FOREGROUND_EXECUTION : Z := 1.
Definition PIPELINE_EXECUTION : Z := 2.

Definition COMMAND_EXTERNAL : Z := 0.
Definition COMMAND_JOBS : Z := 1.
Definition COMMAND_FG : Z := 2.
Definition COMMAND_BG : Z := 3.

Definition PRINT_OPTIONS_COMPLETED_JOBS : Z := 0.
Definition PRINT_OPTIONS_COMMAND_FG : Z := 2.
Definition PRINT_OPTIONS_COMMAND_BG : Z := 3.

Definition STATUS_RUNNING : Z := 0.
Definition STATUS_DONE : Z := 1.
Definition STATUS_SUSPENDED : Z := 2.
Definition STATUS_CONTINUED : Z := 0.
Definition STATUS_TERMINATED : Z := 1.

Definition PROC_FILTER_ALL : Z := 0.
Definition PROC_FILTER_DONE : Z := 1.
Definition PROC_FILTER_REMAINING : Z := 2.

Definition STATUS_STRING : list (list Z) :=
  [codes "Running"; codes "Done"; codes "Stopped"; codes "Continued"; codes "Terminated"].

Record process := mk_proc {
  command : list Z;
  argc : Z;
  argv : list (list Z);             (* without its final NULL *)
  input_path : option (list Z);
  output_path : option (list Z);
  error_path : option (list Z);
  pid : Z;
  ptype : Z;
  status : option Z
}.

Record job := mk_job {
  jid : option Z;                   (* set by insert_job *)
  root : list process;
  jcommand : list Z;
  pgid : Z;
  mode : Z;
  bgcommand : Z
}.

(** ** The system *)

(** What the calls return, in order. *)
Record os := mk_os {
  forks : list Z;
  opens : list Z;
  pipes : list (Z * Z);
  reports : list (Z * Z);           (* of waitpid: a process and its status *)
  kills : list Z
}.

(** A call that is made.  [Spawn] is what a forked child does before it
    becomes the program of [argv]. *)
Inductive event :=
  | Spawn (pid pgid : Z) (argv : list (list Z)) (in_fd out_fd error_fd : Z)
  | Setpgid (pid pgid : Z)
  | Tcsetpgrp (pgid : Z)
  | Waitpid (pid : Z)
  | Kill (pid : Z)
  | Open (path : list Z)
  | Pipe (fds : Z * Z)
  | Close (fd : Z).

(** What [getchar] comes to: a character, the end of the input, or a signal. *)
Inductive key := Key (c : Z) | Eof | Interrupted.

Record shell := mk_shell {
  jobs : list Z;                    (* addresses of jobs, 0 is NULL *)
  heap : gmap Z job;
  next_addr : Z;                    (* of the next job structure *)
  out : list Z;
  err : list Z;
  calls : list event;
  sys : os;
  input : list key;
  signal_recieved : bool;
  self : Z;                         (* getpid () *)
  garbage : list Z                  (* the string in a buffer malloc returns *)
}.

Definition with_jobs js (s : shell) := mk_shell js (heap s) (next_addr s) (out s) (err s) (calls s) (sys s) (input s) (signal_recieved s) (self s) (garbage s).
Definition with_heap h (s : shell) := mk_shell (jobs s) h (next_addr s) (out s) (err s) (calls s) (sys s) (input s) (signal_recieved s) (self s) (garbage s).
Definition with_next a (s : shell) := mk_shell (jobs s) (heap s) a (out s) (err s) (calls s) (sys s) (input s) (signal_recieved s) (self s) (garbage s).
Definition with_out o (s : shell) := mk_shell (jobs s) (heap s) (next_addr s) o (err s) (calls s) (sys s) (input s) (signal_recieved s) (self s) (garbage s).
Definition with_err e (s : shell) := mk_shell (jobs s) (heap s) (next_addr s) (out s) e (calls s) (sys s) (input s) (signal_recieved s) (self s) (garbage s).
Definition with_calls c (s : shell) := mk_shell (jobs s) (heap s) (next_addr s) (out s) (err s) c (sys s) (input s) (signal_recieved s) (self s) (garbage s).
Definition with_sys o (s : shell) := mk_shell (jobs s) (heap s) (next_addr s) (out s) (err s) (calls s) o (input s) (signal_recieved s) (self s) (garbage s).
Definition with_input i f (s : shell) := mk_shell (jobs s) (heap s) (next_addr s) (out s) (err s) (calls s) (sys s) i f (self s) (garbage s).

Definition printf (text : list Z) : M shell unit := modify (fun s => with_out (out s ++ text) s).
Definition fprintf_stderr (text : list Z) : M shell unit := modify (fun s => with_err (err s ++ text) s).
Definition call (e : event) : M shell unit := modify (fun s => with_calls (calls s ++ [e]) s).

(** "%d" *)
Definition dec (n : Z) : list Z := codes (pretty n).

(** <sys/wait.h> *)
Definition WIFEXITED (st : Z) : bool := Z.land st 127 =? 0.
Definition WIFSIGNALED (st : Z) : bool := 0 <? Z.shiftr (s8 (Z.land st 127 + 1)) 1.
Definition WSTOPSIG (st : Z) : Z := Z.shiftr (Z.land st 65280) 8.
Definition WIFSTOPPED (st : Z) : bool := Z.land st 255 =? 127.
Definition WIFCONTINUED (st : Z) : bool := st =? 65535.

(** The process reported and the new value of the caller's [status], which an
    error or an empty report leaves alone. *)
Definition waitpid (p status : Z) : M shell (Z * Z) := fun s =>
  let s := with_calls (calls s ++ [Waitpid p]) s in
  match reports (sys s) with
  | [] => Done ((-1, status), s)
  | (q, st) :: rs =>
      let o := sys s in
      Done ((q, if 0 <? q then st else status), with_sys (mk_os (forks o) (opens o) (pipes o) rs (kills o)) s)
  end.

(** ** Access to the table and the structures *)

(** [shell->jobs[i]] *)
Definition slot (i : Z) : M shell Z := load (fun s => zget (jobs s) i).
Definition set_slot (i p : Z) : M shell unit := fun s =>
  match zget (jobs s) i with Some _ => Done (tt, with_jobs (zset (jobs s) i p) s) | None => Fault end.

Definition job_at (p : Z) : M shell job := load (fun s => heap s !! p).
Definition put_job (p : Z) (j : job) : M shell unit := fun s =>
  match heap s !! p with Some _ => Done (tt, with_heap (<[p := j]> (heap s)) s) | None => Fault end.

Definition with_jid i (j : job) := mk_job (Some i) (root j) (jcommand j) (pgid j) (mode j) (bgcommand j).
Definition with_root r (j : job) := mk_job (jid j) r (jcommand j) (pgid j) (mode j) (bgcommand j).
Definition with_pgid g (j : job) := mk_job (jid j) (root j) (jcommand j) g (mode j) (bgcommand j).
Definition with_status st (p : process) :=
  mk_proc (command p) (argc p) (argv p) (input_path p) (output_path p) (error_path p) (pid p) (ptype p) (Some st).
Definition with_pid n (p : process) :=
  mk_proc (command p) (argc p) (argv p) (input_path p) (output_path p) (error_path p) n (ptype p) (status p).

(** [proc->status]; what is read before it is set has no value. *)
Definition get_status (p : process) : outcome Z := match status p with Some st => Done st | None => Fault end.

(** [for (i = 1; i <= NR_JOBS; i++)] with a body that may return. *)
Fixpoint for_jobs {A} (n : nat) (i : Z) (body : Z -> M shell (option A)) : M shell (option A) :=
  match n with
  | O => mret None
  | S n => r ← body i; match r with Some a => mret (Some a) | None => for_jobs n (i + 1) body end
  end.

(** [if (id > NR_JOBS || shell->jobs[id] == NULL) return e;] *)
Definition unless_no_job {A} (id : Z) (e : A) (k : Z -> M shell A) : M shell A :=
  if NR_JOBS <? id then mret e
  else p ← slot id; if p =? NULL then mret e else k p.

(** ** Operations *)

Definition get_job_id_by_pid (n : Z) : M shell Z :=
  r ← for_jobs 20 1 (fun i =>
    p ← slot i;
    if p =? NULL then mret None
    else j ← job_at p; if existsb (fun q => pid q =? n) (root j) then mret (Some i) else mret None);
  mret (default (-1) r).

Definition get_last_job_id : M shell Z :=
  r ← for_jobs 20 1 (fun i => p ← slot i; mret (if p =? NULL then Some (i - 1) else None));
  mret (default (-1) r).

Definition get_job_by_id (id : Z) : M shell Z := if NR_JOBS <? id then mret NULL else slot id.

Definition get_pgid_by_job_id (id : Z) : M shell Z :=
  p ← get_job_by_id id;
  if p =? NULL then mret (-1) else j ← job_at p; mret (pgid j).

Fixpoint count_procs (filter : Z) (procs : list process) : outcome Z :=
  match procs with
  | [] => Done 0
  | q :: procs =>
      hit ← (if filter =? PROC_FILTER_ALL then Done true
             else st ← get_status q;
                  Done ((filter =? PROC_FILTER_DONE) && (st =? STATUS_DONE) ||
                        (filter =? PROC_FILTER_REMAINING) && negb (st =? STATUS_DONE)));
      n ← count_procs filter procs;
      Done ((if hit : bool then 1 else 0) + n)
  end.

Definition get_proc_count (id filter : Z) : M shell Z :=
  unless_no_job id (-1) (fun p => j ← job_at p; liftO (count_procs filter (root j))).

Definition get_next_job_id : M shell Z :=
  r ← for_jobs 20 1 (fun i => p ← slot i; mret (if p =? NULL then Some i else None));
  mret (default (-1) r).

Definition print_processes_of_job (id : Z) : M shell Z :=
  unless_no_job id (-1) (fun p =>
    printf (codes "[" ++ dec id ++ codes "]") ;;
    j ← job_at p;
    printf (concat (map (fun q => codes " " ++ dec (pid q)) (root j))) ;;
    printf [10] ;;
    mret 0).

(** strcat to a buffer of 2 * COMMAND_BUFSIZE bytes. *)
Definition strcat (buf s : list Z) : outcome (list Z) :=
  if zlen buf + zlen s <? 2 * COMMAND_BUFSIZE then Done (buf ++ s) else Fault.

(** The loop that composes the command, and the text of the last status. *)
Fixpoint full_command (procs : list process) (buf : list Z) : outcome (list Z * option (list Z)) :=
  match procs with
  | [] => Done (buf, None)
  | [q] =>
      buf ← strcat buf (command q);
      st ← get_status q;
      match zget STATUS_STRING st with Some text => Done (buf, Some text) | None => Fault end
  | q :: procs =>
      buf ← strcat buf (codes " ");
      buf ← strcat buf (command q);
      buf ← strcat buf (codes " | ");
      full_command procs buf
  end.

(** [printf] of a string that may not be set. *)
Definition text_of (s : option (list Z)) : M shell (list Z) := match s with Some t => mret t | None => fault end.

Definition print_job_status (id printOptions : Z) : M shell Z :=
  unless_no_job id (-1) (fun p =>
    j ← job_at p;
    s ← get;
    '(fullCommand, status) ← liftO (full_command (root j) (garbage s));
    last ← get_last_job_id;
    let sign := if negb (last =? id) then codes "- " else codes "+ " in
    (if printOptions =? PRINT_OPTIONS_COMMAND_FG then printf fullCommand
     else if printOptions =? PRINT_OPTIONS_COMMAND_BG then
       printf (codes "[" ++ dec id ++ codes "]" ++ sign ++ fullCommand ++ codes " &")
     else if printOptions =? PRINT_OPTIONS_COMPLETED_JOBS then
       status ← text_of status;
       printf (codes "[" ++ dec id ++ codes "]" ++ sign ++ status ++ [9] ++ fullCommand)
     else mret tt) ;;
    printf [10] ;;
    mret 0).

(** The structures go; the table still holds the address. *)
Definition release_job (id : Z) : M shell Z :=
  unless_no_job id (-1) (fun p => _ ← job_at p; modify (fun s => with_heap (delete p (heap s)) s) ;; mret 0).

(** [job] is an address. *)
Definition insert_job (p : Z) : M shell Z :=
  id ← get_next_job_id;
  if id <? 0 then mret (-1)
  else j ← job_at p; put_job p (with_jid id j) ;; set_slot id p ;; mret id.

Definition remove_job (id : Z) : M shell Z :=
  unless_no_job id (-1) (fun _ => _ ← release_job id; set_slot id NULL ;; mret 0).

Fixpoint all_done (procs : list process) : outcome bool :=
  match procs with
  | [] => Done true
  | q :: procs => st ← get_status q; if negb (st =? STATUS_DONE) then Done false else all_done procs
  end.

Definition is_job_completed (id : Z) : M shell bool :=
  unless_no_job id false (fun p => j ← job_at p; liftO (all_done (root j))).

(** The first process with the number. *)
Fixpoint set_first (n st : Z) (procs : list process) : option (list process) :=
  match procs with
  | [] => None
  | q :: procs => if pid q =? n then Some (with_status st q :: procs) else procs ← set_first n st procs; Some (q :: procs)
  end.

Definition set_process_status (n st : Z) : M shell Z :=
  r ← for_jobs 20 1 (fun i =>
    p ← slot i;
    if p =? NULL then mret None
    else
      j ← job_at p;
      match set_first n st (root j) with
      | Some procs => put_job p (with_root procs j) ;; mret (Some 0)
      | None => mret None
      end);
  mret (default (-1) r).

Fixpoint set_remaining (st : Z) (procs : list process) : outcome (list process) :=
  match procs with
  | [] => Done []
  | q :: procs =>
      old ← get_status q;
      rest ← set_remaining st procs;
      Done ((if negb (old =? STATUS_DONE) then with_status st q else q) :: rest)
  end.

Definition set_job_status (id st : Z) : M shell Z :=
  unless_no_job id (-1) (fun p =>
    j ← job_at p; procs ← liftO (set_remaining st (root j)); put_job p (with_root procs j) ;; mret 0).

Definition wait_for_pid (n : Z) : M shell Z :=
  '(_, status) ← waitpid n 0;
  if WIFEXITED status then _ ← set_process_status n STATUS_DONE; mret status
  else if WIFSIGNALED status then _ ← set_process_status n STATUS_TERMINATED; mret status
  else if negb (WSTOPSIG status =? 0) then _ ← set_process_status n STATUS_SUSPENDED; mret (-1)
  else mret status.

(** The loop of [wait_for_job]: [wait_count] turns are behind it. *)
Fixpoint wait_loop (fuel : nat) (id proc_count wait_count status : Z) : M shell Z :=
  match fuel with
  | O => nofuel
  | S fuel =>
      p ← slot id;
      j ← job_at p;
      '(wait_pid, status) ← waitpid (- pgid j) status;
      let wait_count := wait_count + 1 in
      status ←
        (if WIFEXITED status then _ ← set_process_status wait_pid STATUS_DONE; mret status
         else if WIFSIGNALED status then _ ← set_process_status wait_pid STATUS_TERMINATED; mret status
         else if negb (WSTOPSIG status =? 0) then
           _ ← set_process_status wait_pid STATUS_SUSPENDED;
           (if wait_count =? proc_count then _ ← print_job_status id PRINT_OPTIONS_COMPLETED_JOBS; mret tt else mret tt) ;;
           mret (-1)
         else mret status);
      if wait_count <? proc_count then wait_loop fuel id proc_count wait_count status else mret status
  end.

Definition wait_for_job (id : Z) : M shell Z :=
  unless_no_job id (-1) (fun _ =>
    proc_count ← get_proc_count id PROC_FILTER_REMAINING;
    wait_loop (S (Z.to_nat proc_count)) id proc_count 0 0).

Fixpoint check_loop (fuel : nat) (status : Z) : M shell unit :=
  match fuel with
  | O => nofuel
  | S fuel =>
      '(n, status) ← waitpid (-1) status;
      if 0 <? n then
        (if WIFEXITED status then _ ← set_process_status n STATUS_DONE; mret tt
         else if WIFSTOPPED status then _ ← set_process_status n STATUS_SUSPENDED; mret tt
         else if WIFCONTINUED status then _ ← set_process_status n STATUS_CONTINUED; mret tt
         else mret tt) ;;
        job_id ← get_job_id_by_pid n;
        completed ← (if 0 <? job_id then is_job_completed job_id else mret false);
        (if completed : bool then
           _ ← print_job_status job_id PRINT_OPTIONS_COMPLETED_JOBS; _ ← remove_job job_id; mret tt
         else mret tt) ;;
        check_loop fuel status
      else mret tt
  end.

(** Every turn but the last takes a report. *)
Definition check_jobs : M shell unit := s ← get; check_loop (S (length (reports (sys s)))) 0.
