(* ===== verification/JobsSpec.v ===== *)
(** * The job table as a map from numbers to jobs

    [tbl s i] is the job with number [i].  [table_ok] is the invariant of the table;
    every operation of Jobs has the effect on [tbl] that is stated here. *)

From Stdlib Require Import Ascii.
From Stdlib Require Import(notations) String.
From S2P Require Import Prelude Stdio Jobs.

Definition tbl (s : shell) (i : Z) : option job :=
  match zget (jobs s) i with Some p => if p =? NULL then None else heap s !! p | None => None end.

Record table_ok (s : shell) : Prop := {
  ok_len : zlen (jobs s) = NR_JOBS + 1;
  ok_zero : zget (jobs s) 0 = Some NULL;
  ok_slot : forall i p, zget (jobs s) i = Some p -> p <> NULL -> exists j, heap s !! p = Some j /\ jid j = Some i
}.

Section Table.
Implicit Types (s : shell) (j : job) (i id p : Z).

Lemma tbl_inv s i j : tbl s i = Some j -> exists p, zget (jobs s) i = Some p /\ p <> NULL /\ heap s !! p = Some j.
Proof. unfold tbl. destruct (zget (jobs s) i) as [p|]; [|done]. destruct (Z.eqb_spec p NULL); [done|]. by exists p. Qed.

Lemma tbl_intro s i p j : zget (jobs s) i = Some p -> p <> NULL -> heap s !! p = Some j -> tbl s i = Some j.
Proof. unfold tbl. intros -> Hp Hj. by rewrite (proj2 (Z.eqb_neq p NULL)). Qed.

Lemma tbl_none s i : table_ok s -> 0 <= i <= NR_JOBS -> tbl s i = None -> zget (jobs s) i = Some NULL.
Proof.
  intros Hok Hi H. destruct (zget_Some (jobs s) i) as [p Hp]; [rewrite (ok_len s Hok); lia|].
  destruct (decide (p = NULL)) as [->|Hne]; [done|]. destruct (ok_slot s Hok i p Hp Hne) as (j & Hj & _).
  by rewrite (tbl_intro s i p j) in H.
Qed.

Lemma tbl_range s i j : table_ok s -> tbl s i = Some j -> 1 <= i <= NR_JOBS /\ jid j = Some i.
Proof.
  intros Hok H. apply tbl_inv in H as (p & Hp & Hne & Hj). pose proof (zget_inv _ _ _ Hp) as Hr. rewrite (ok_len s Hok) in Hr.
  destruct (ok_slot s Hok i p Hp Hne) as (j' & Hj' & Hid). rewrite Hj in Hj'. injection Hj' as <-. split; [|done].
  destruct (decide (i = 0)) as [->|]; [|lia]. rewrite (ok_zero s Hok) in Hp. congruence.
Qed.

(** Two numbers never share a structure. *)
Lemma slots_distinct s i k p : table_ok s -> zget (jobs s) i = Some p -> zget (jobs s) k = Some p -> p <> NULL -> i = k.
Proof.
  intros Hok Hi Hk Hp. destruct (ok_slot s Hok i p Hi Hp) as (j & Hj & Hji), (ok_slot s Hok k p Hk Hp) as (j' & Hj' & Hjk). congruence.
Qed.

(** A table that differs in one job. *)
Definition tbl_upd s i (o : option job) (k : Z) : option job := if decide (k = i) then o else tbl s k.

Lemma put_job_run s i p j' : table_ok s -> zget (jobs s) i = Some p -> p <> NULL -> jid j' = Some i ->
  exists s', put_job p j' s = Done (tt, s') /\ s' = with_heap (<[p := j']> (heap s)) s /\ table_ok s' /\ forall k, tbl s' k = tbl_upd s i (Some j') k.
Proof.
  intros Hok Hp Hne Hid. destruct (ok_slot s Hok i p Hp Hne) as (j & Hj & _). unfold put_job. rewrite Hj. eexists. split; [done|]. split; [done|]. split.
  - destruct Hok as [H1 H2 H3]. split; [done|done|]. cbn. intros k q Hk Hq. destruct (decide (q = p)) as [->|Hqp].
    + rewrite lookup_insert_eq. exists j'. split; [done|]. destruct (H3 k p Hk Hne) as (jk & Hjk & Hkid), (H3 i p Hp Hne) as (ji & Hji & Hiid). congruence.
    + rewrite lookup_insert_ne by done. by apply H3.
  - intros k. unfold tbl_upd, tbl. cbn. case_decide as Hk.
    + subst k. rewrite Hp, (proj2 (Z.eqb_neq p NULL)) by done. apply lookup_insert_eq.
    + destruct (zget (jobs s) k) as [q|] eqn:Hq; [|done]. destruct (Z.eqb_spec q NULL); [done|].
      apply lookup_insert_ne. intros <-. apply Hk. by eapply slots_distinct.
Qed.

Lemma slot_run s i p : zget (jobs s) i = Some p -> slot i s = Done (p, s).
Proof. unfold slot, load. by intros ->. Qed.

Lemma job_at_run s p j : heap s !! p = Some j -> job_at p s = Done (j, s).
Proof. unfold job_at, load. by intros ->. Qed.

(** ** [for_jobs] *)

Lemma for_from_first {A} (body : Z -> M shell (option A)) s k (a : A) s' : forall n i, i <= k -> k < i + Z.of_nat n ->
  (forall l, i <= l < k -> body l s = Done (None, s)) -> body k s = Done (Some a, s') -> for_jobs n i body s = Done (Some a, s').
Proof.
  induction n as [|n IH]; intros i H1 H2 Hb Hk; [lia|]. cbn [for_jobs]. destruct (decide (i = k)) as [->|].
  - by erewrite bind_done by exact Hk.
  - erewrite bind_done by (apply Hb; lia). apply IH; [lia|lia| |done]. intros l Hl. apply Hb. lia.
Qed.

Lemma for_from_none {A} (body : Z -> M shell (option A)) s : forall n i,
  (forall l, i <= l < i + Z.of_nat n -> body l s = Done (None, s)) -> for_jobs n i body s = Done (None, s).
Proof.
  induction n as [|n IH]; intros i Hb; cbn [for_jobs]; [done|]. erewrite bind_done by (apply Hb; lia). apply IH. intros l Hl. apply Hb. lia.
Qed.


Lemma first_at_spec (P : Z -> bool) :
  (exists k, 1 <= k <= 20 /\ P k = true /\ (forall l, 1 <= l < k -> P l = false)) \/ (forall l, 1 <= l <= 20 -> P l = false).
Proof.
  assert (forall n, (exists k, 1 <= k <= Z.of_nat n /\ P k = true /\ (forall l, 1 <= l < k -> P l = false)) \/
    (forall l, 1 <= l <= Z.of_nat n -> P l = false)) as H; [|exact (H 20%nat)].
  induction n as [|n [(k & Hk & HP & Hl)|IH]]; [right; intros; lia|left; exists k; split; [lia|done]|].
  destruct (P (Z.of_nat (S n))) eqn:E.
  - left. exists (Z.of_nat (S n)). split; [lia|]. split; [done|]. intros l Hl. apply IH. lia.
  - right. intros l Hl. destruct (decide (l = Z.of_nat (S n))) as [->|]; [done|]. apply IH. lia.
Qed.

(** ** Looking up *)

Lemma no_job_run {A} s id (e : A) k : table_ok s -> 0 <= id -> tbl s id = None -> unless_no_job id e k s = Done (e, s).
Proof.
  intros Hok Hid H. unfold unless_no_job. destruct (Z.ltb_spec NR_JOBS id); [done|].
  erewrite bind_done by (apply slot_run, tbl_none; done || lia). done.
Qed.

Lemma some_job_run s id j : table_ok s -> tbl s id = Some j ->
  exists p, zget (jobs s) id = Some p /\ p <> NULL /\ heap s !! p = Some j /\ forall A (e : A) k, unless_no_job id e k s = k p s.
Proof.
  intros Hok H. pose proof (tbl_range s id j Hok H) as [Hr _]. apply tbl_inv in H as (p & Hp & Hne & Hj). exists p.
  split; [done|]. split; [done|]. split; [done|]. intros A e k. unfold unless_no_job. rewrite (proj2 (Z.ltb_ge _ _)) by lia.
  erewrite bind_done by by apply slot_run. by rewrite (proj2 (Z.eqb_neq p NULL)).
Qed.

(** The slot of a number between 1 and 20. *)
Lemma slot_cases s i : table_ok s -> 1 <= i <= 20 ->
  (tbl s i = None /\ slot i s = Done (NULL, s)) \/
  (exists p j, tbl s i = Some j /\ slot i s = Done (p, s) /\ zget (jobs s) i = Some p /\ (p =? NULL) = false /\ heap s !! p = Some j).
Proof.
  intros Hok Hi. destruct (tbl s i) as [j|] eqn:E; [right|left].
  - apply tbl_inv in E as (p & Hp & Hne & Hj). exists p, j. split; [done|]. split; [by apply slot_run|]. split; [done|]. split; [|done]. by apply Z.eqb_neq.
  - split; [done|]. apply slot_run, tbl_none; [done|unfold NR_JOBS; lia|done].
Qed.

(** The first number without a job. *)
Definition first_free s (k : Z) : Prop := 1 <= k <= 20 /\ tbl s k = None /\ forall l, 1 <= l < k -> is_Some (tbl s l).
Definition full s : Prop := forall l, 1 <= l <= 20 -> is_Some (tbl s l).

Lemma free_cases s : (exists k, first_free s k) \/ full s.
Proof.
  destruct (first_at_spec (fun i => bool_decide (tbl s i = None))) as [(k & Hk & HP & Hl)|Hall].
  - left. exists k. apply bool_decide_eq_true in HP. split; [done|]. split; [done|]. intros l Hl'. apply Hl in Hl'.
    apply bool_decide_eq_false in Hl'. by apply not_eq_None_Some.
  - right. intros l Hl. apply Hall in Hl. apply bool_decide_eq_false in Hl. by apply not_eq_None_Some.
Qed.

Lemma free_scan (f : Z -> Z) s : table_ok s ->
  (forall k, first_free s k -> for_jobs 20 1 (fun i => p ← slot i; mret (if p =? NULL then Some (f i) else None)) s = Done (Some (f k), s)) /\
  (full s -> for_jobs 20 1 (fun i => p ← slot i; mret (if p =? NULL then Some (f i) else None)) s = Done (None, s)).
Proof.
  intros Hok.
  assert (forall l, 1 <= l <= 20 -> is_Some (tbl s l) -> (p ← slot l; mret (if p =? NULL then Some (f l) else None)) s = Done (None, s)) as Hocc.
  { intros l Hl [j Hj]. destruct (slot_cases s l Hok Hl) as [[? _]|(p & j' & _ & Hs & _ & Hp & _)]; [congruence|].
    erewrite bind_done by exact Hs. by rewrite Hp. }
  split.
  - intros k (Hk & Hn & Hl). apply (for_from_first _ s k); [lia|lia|intros l Hl'; apply Hocc; [lia|by apply Hl]|].
    destruct (slot_cases s k Hok Hk) as [[_ Hs]|(p & j' & ? & _)]; [|congruence]. by erewrite bind_done by exact Hs.
  - intros Hf. apply for_from_none. intros l Hl. apply Hocc; [lia|apply Hf; lia].
Qed.

Lemma get_next_job_id_run s : table_ok s ->
  (forall k, first_free s k -> get_next_job_id s = Done (k, s)) /\ (full s -> get_next_job_id s = Done (-1, s)).
Proof.
  intros Hok. destruct (free_scan (fun i => i) s Hok) as [H1 H2]. split.
  - intros k Hk. unfold get_next_job_id. by erewrite bind_done by by apply H1.
  - intros Hf. unfold get_next_job_id. by erewrite bind_done by by apply H2.
Qed.

Lemma get_last_job_id_run s : table_ok s ->
  (forall k, first_free s k -> get_last_job_id s = Done (k - 1, s)) /\ (full s -> get_last_job_id s = Done (-1, s)).
Proof.
  intros Hok. destruct (free_scan (fun i => i - 1) s Hok) as [H1 H2]. split.
  - intros k Hk. unfold get_last_job_id. by erewrite bind_done by by apply H1.
  - intros Hf. unfold get_last_job_id. by erewrite bind_done by by apply H2.
Qed.

Lemma get_last_job_id_done s : table_ok s -> exists k, get_last_job_id s = Done (k, s).
Proof.
  intros Hok. destruct (get_last_job_id_run s Hok) as [H1 H2]. destruct (free_cases s) as [(k & Hk)|Hf]; [exists (k - 1); by apply H1|exists (-1); by apply H2].
Qed.

(** Job [i] is the first with a process [n]. *)
Definition has_pid (n : Z) j : bool := existsb (fun q => pid q =? n) (root j).
Definition owner s (n i : Z) j : Prop :=
  tbl s i = Some j /\ has_pid n j = true /\ forall l j', 1 <= l < i -> tbl s l = Some j' -> has_pid n j' = false.
Definition no_owner s (n : Z) : Prop := forall l j, 1 <= l <= 20 -> tbl s l = Some j -> has_pid n j = false.

Lemma owner_cases s n : (exists i j, owner s n i j) \/ no_owner s n.
Proof.
  destruct (first_at_spec (fun i => match tbl s i with Some j => has_pid n j | None => false end)) as [(k & Hk & HP & Hl)|Hall].
  - left. destruct (tbl s k) as [j|] eqn:E; [|done]. exists k, j. split; [done|]. split; [done|]. intros l j' Hl' Hj'.
    specialize (Hl l Hl'). by rewrite Hj' in Hl.
  - right. intros l j Hl Hj. specialize (Hall l Hl). by rewrite Hj in Hall.
Qed.

(** The rule of the loops that look for a process. *)
Lemma owner_scan {A} s n (found : Z -> job -> Z -> M shell (option A)) : table_ok s ->
  let body := fun i => p ← slot i; if p =? NULL then mret None else j ← job_at p; if has_pid n j then found i j p else mret None in
  (forall i j a s', owner s n i j -> (forall p, zget (jobs s) i = Some p -> p <> NULL -> heap s !! p = Some j -> found i j p s = Done (Some a, s')) ->
    for_jobs 20 1 body s = Done (Some a, s')) /\
  (no_owner s n -> for_jobs 20 1 body s = Done (None, s)).
Proof.
  intros Hok body.
  assert (forall l, 1 <= l <= 20 -> (forall j, tbl s l = Some j -> has_pid n j = false) -> body l s = Done (None, s)) as Hno.
  { intros l Hl Hn. unfold body. destruct (slot_cases s l Hok Hl) as [[_ Hs]|(p & j & Hj & Hs & _ & Hp & Hh)]; erewrite bind_done by exact Hs; [done|].
    rewrite Hp. erewrite bind_done by by apply job_at_run. by rewrite Hn. }
  split.
  - intros i j a s' (Hj & Hp & Hl) Hf. pose proof (tbl_range s i j Hok Hj) as [Hr _]. unfold NR_JOBS in Hr.
    apply (for_from_first _ s i); [lia|lia|intros l Hl'; apply Hno; [lia|intros j' Hj'; by apply (Hl l)]|].
    unfold body. destruct (slot_cases s i Hok Hr) as [[? _]|(p & j' & Hj' & Hs & Hz & Hpn & Hh)]; [congruence|]. rewrite Hj in Hj'. injection Hj' as <-.
    erewrite bind_done by exact Hs. rewrite Hpn. erewrite bind_done by by apply job_at_run. rewrite Hp. apply Hf; [done|by apply Z.eqb_neq|done].
  - intros Hn. apply for_from_none. intros l Hl. apply Hno; [lia|]. intros j. apply Hn. lia.
Qed.

Lemma get_job_id_by_pid_run s n : table_ok s ->
  (forall i j, owner s n i j -> get_job_id_by_pid n s = Done (i, s)) /\ (no_owner s n -> get_job_id_by_pid n s = Done (-1, s)).
Proof.
  intros Hok. destruct (owner_scan s n (fun i _ _ => mret (Some i)) Hok) as [H1 H2]. split.
  - intros i j Ho. unfold get_job_id_by_pid. erewrite bind_done by (by eapply H1). done.
  - intros Hn. unfold get_job_id_by_pid. by erewrite bind_done by by apply H2.
Qed.

(** ** Changing the status of a process *)

Lemma for_jobs_ext {A} (body body' : Z -> M shell (option A)) : (forall i t, body i t = body' i t) ->
  forall n i t, for_jobs n i body t = for_jobs n i body' t.
Proof.
  intros E n. induction n as [|n IH]; intros i t; cbn [for_jobs]; [done|]. unfold bnd, mbind, M_bind. rewrite E.
  destruct (body' i t) as [[[a|] t']| | |]; done || apply IH.
Qed.

Lemma set_first_some n st procs : existsb (fun q => pid q =? n) procs = true ->
  exists l1 q l2, procs = l1 ++ q :: l2 /\ pid q = n /\ Forall (fun r => pid r <> n) l1 /\ set_first n st procs = Some (l1 ++ with_status st q :: l2).
Proof.
  induction procs as [|q procs IH]; cbn [existsb set_first]; [done|]. destruct (Z.eqb_spec (pid q) n) as [E|E]; cbn [orb]; intros H.
  - by exists [], q, procs.
  - destruct (IH H) as (l1 & r & l2 & -> & Hr & HF & ->). exists (q :: l1), r, l2. repeat split; try done. by constructor.
Qed.

Lemma set_first_none n st procs : existsb (fun q => pid q =? n) procs = false -> set_first n st procs = None.
Proof.
  induction procs as [|q procs IH]; cbn [existsb set_first]; [done|]. destruct (pid q =? n); [done|]. intros H. by rewrite (IH H).
Qed.

(** Nothing but the heap differs. *)
Definition heap_only s s' : Prop := s' = with_heap (heap s') s.

Lemma set_process_status_run s n st : table_ok s ->
  (forall i j, owner s n i j -> exists l1 q l2 s', root j = l1 ++ q :: l2 /\ pid q = n /\ Forall (fun r => pid r <> n) l1 /\
     set_process_status n st s = Done (0, s') /\ heap_only s s' /\ table_ok s' /\
     forall k, tbl s' k = tbl_upd s i (Some (with_root (l1 ++ with_status st q :: l2) j)) k) /\
  (no_owner s n -> set_process_status n st s = Done (-1, s)).
Proof.
  intros Hok. set (found := fun (i : Z) j p => match set_first n st (root j) with
    | Some procs => put_job p (with_root procs j) ;; mret (Some 0) | None => mret None end).
  destruct (owner_scan s n found Hok) as [H1 H2].
  assert (forall r s', for_jobs 20 1 (fun i => p ← slot i; if p =? NULL then mret None else j ← job_at p; if has_pid n j then found i j p else mret None) s = Done (r, s') ->
    set_process_status n st s = Done (default (-1) r, s')) as Hext.
  { intros r s' H. unfold set_process_status. rewrite (bind_done _ _ s r s'); [done|]. rewrite <- H. apply for_jobs_ext. intros i t.
    unfold bnd, mbind, M_bind. destruct (slot i t) as [[p t1]| | |]; try done. destruct (p =? NULL); [done|].
    destruct (job_at p t1) as [[j t2]| | |]; try done. unfold found, has_pid. destruct (existsb _ (root j)) eqn:E; [done|].
    by rewrite (set_first_none n st _ E). }
  split.
  - intros i j Ho. pose proof Ho as (Hj & Hp & _). destruct (set_first_some n st (root j) Hp) as (l1 & q & l2 & Er & Hq & HF & Es).
    pose proof (tbl_range s i j Hok Hj) as [_ Hid]. pose proof (tbl_inv s i j Hj) as (p & Hz & Hne & Hh).
    destruct (put_job_run s i p (with_root (l1 ++ with_status st q :: l2) j) Hok Hz Hne Hid) as (s' & Hput & Es' & Hok' & Ht).
    exists l1, q, l2, s'. split; [done|]. split; [done|]. split; [done|]. split; [|split; [by rewrite Es'|by split]].
    apply (Hext (Some 0)). apply (H1 i j 0 s' Ho). intros p' Hz' _ _. assert (p' = p) as -> by congruence.
    unfold found. rewrite Es. by erewrite bind_done by exact Hput.
  - intros Hn. apply (Hext None). by apply H2.
Qed.

(** ** Inserting and removing *)

Definition in_table s p : Prop := exists i, zget (jobs s) i = Some p.

Lemma insert_job_run s p j : table_ok s -> p <> NULL -> heap s !! p = Some j -> ~ in_table s p ->
  (forall k, first_free s k -> exists s', insert_job p s = Done (k, s') /\ table_ok s' /\
     s' = with_jobs (zset (jobs s) k p) (with_heap (<[p := with_jid k j]> (heap s)) s) /\
     forall l, tbl s' l = tbl_upd s k (Some (with_jid k j)) l) /\
  (full s -> insert_job p s = Done (-1, s)).
Proof.
  intros Hok Hp Hj Hnew. destruct (get_next_job_id_run s Hok) as [H1 H2]. split; [|intros Hf; unfold insert_job; by erewrite bind_done by by apply H2].
  intros k Hk. pose proof Hk as (Hr & Hn & _). unfold insert_job. erewrite bind_done by by apply H1. rewrite (proj2 (Z.ltb_ge _ _)) by lia.
  erewrite bind_done by by apply job_at_run. eexists. split.
  { erewrite bind_done by (unfold put_job; by rewrite Hj).
    erewrite bind_done by (unfold set_slot; cbn [jobs with_heap]; by rewrite (tbl_none s k Hok) by (done || unfold NR_JOBS; lia)). reflexivity. }
  assert (0 <= k < zlen (jobs s)) as Hk' by (rewrite (ok_len s Hok); unfold NR_JOBS; lia).
  assert (forall l q, zget (jobs s) l = Some q -> q <> p) as Hnp by (intros l q Hl ->; apply Hnew; by exists l).
  split; [|split; [done|]].
  - destruct Hok as [L0 L1 L2]. split; cbn; [by rewrite zlen_zset|rewrite zget_zset_ne by lia; done|]. intros i q Hi Hq. rewrite zget_zset in Hi by done.
    case_decide as Hik; [injection Hi as <-; subst i; rewrite lookup_insert_eq; by eexists|]. rewrite lookup_insert_ne by (symmetry; by eapply Hnp). by apply L2.
  - intros l. unfold tbl_upd, tbl. cbn. rewrite zget_zset by done. destruct (decide (k = l)) as [->|Hne].
    + rewrite decide_True by done. rewrite (proj2 (Z.eqb_neq p NULL)) by done. apply lookup_insert_eq.
    + rewrite decide_False by done. destruct (zget (jobs s) l) as [q|] eqn:Hq; [|done]. destruct (q =? NULL); [done|].
      apply lookup_insert_ne. symmetry. by eapply Hnp.
Qed.

Lemma release_job_run s id j : table_ok s -> tbl s id = Some j ->
  exists p, zget (jobs s) id = Some p /\ p <> NULL /\ heap s !! p = Some j /\ release_job id s = Done (0, with_heap (delete p (heap s)) s).
Proof.
  intros Hok Hj. unfold release_job.
  destruct (some_job_run s id j Hok Hj) as (p & Hz & Hne & Hh & E).
  exists p. split; [done|]. split; [done|]. split; [done|]. rewrite E. by erewrite bind_done by by apply job_at_run.
Qed.

Lemma remove_job_run s id j : table_ok s -> tbl s id = Some j ->
  exists p s', zget (jobs s) id = Some p /\ remove_job id s = Done (0, s') /\ table_ok s' /\
    s' = with_jobs (zset (jobs s) id NULL) (with_heap (delete p (heap s)) s) /\ forall k, tbl s' k = tbl_upd s id None k.
Proof.
  intros Hok Hj. unfold remove_job. pose proof (tbl_range s id j Hok Hj) as [Hr _].
  destruct (some_job_run s id j Hok Hj) as (p' & Hz' & _ & _ & ->).
  destruct (release_job_run s id j Hok Hj) as (p & Hz & Hne & Hh & E). assert (0 <= id < zlen (jobs s)) as Hid by (by eapply zget_inv).
  erewrite bind_done by exact E. exists p. eexists. split; [done|].
  split; [erewrite bind_done by (unfold set_slot; cbn [jobs with_heap]; by rewrite Hz); reflexivity|]. split; [|split; [done|]].
  - pose proof Hok as [L0 L1 L2]. split; cbn; [by rewrite zlen_zset|rewrite zget_zset_ne by lia; done|]. intros i q Hi Hq. rewrite zget_zset in Hi by done.
    case_decide; [congruence|]. rewrite lookup_delete_ne; [by apply L2|]. intros ->. assert (i = id) by (by eapply slots_distinct). congruence.
  - intros k. unfold tbl_upd, tbl. cbn. rewrite zget_zset by done. destruct (decide (id = k)) as [->|Hne'].
    + by rewrite decide_True.
    + rewrite decide_False by done. destruct (zget (jobs s) k) as [q|] eqn:Hq; [|done]. destruct (Z.eqb_spec q NULL); [done|].
      apply lookup_delete_ne. intros ->. apply Hne'. by eapply slots_distinct.
Qed.

Lemma table_ok_ext s s' : jobs s' = jobs s -> heap s' = heap s -> table_ok s -> table_ok s' /\ forall k, tbl s' k = tbl s k.
Proof.
  intros Ej Eh [H1 H2 H3]. split; [split; rewrite ?Ej, ?Eh; done|]. intros k. unfold tbl. by rewrite Ej, Eh.
Qed.

(** ** Printing *)

Definition valid_status (q : process) : Prop := exists st, status q = Some st /\ 0 <= st < 5.

(** What the composed command adds to the buffer. *)
Fixpoint command_text (procs : list process) : list Z :=
  match procs with
  | [] => []
  | [q] => command q
  | q :: procs => codes " " ++ command q ++ codes " | " ++ command_text procs
  end.

(** The statuses are set and the command fits in the buffer, with the garbage
    that is in it. *)
Definition printable (g : list Z) j : Prop :=
  root j <> [] /\ Forall valid_status (root j) /\ zlen g + zlen (command_text (root j)) < 2 * COMMAND_BUFSIZE.

Lemma full_command_run procs : forall buf, procs <> [] -> Forall valid_status procs -> zlen buf + zlen (command_text procs) < 2 * COMMAND_BUFSIZE ->
  exists st text, full_command procs buf = Done (buf ++ command_text procs, Some text) /\ (exists q, last procs = Some q /\ status q = Some st) /\ zget STATUS_STRING st = Some text.
Proof.
  induction procs as [|q procs IH]; intros buf Hne HF Hl; [done|]. apply Forall_cons in HF as [(st & Hst & Hr) HF].
  assert (forall b c, zlen b + zlen c < 2 * COMMAND_BUFSIZE -> strcat b c = Done (b ++ c)) as Hcat.
  { intros b c H. unfold strcat. by rewrite (proj2 (Z.ltb_lt _ _)). }
  destruct procs as [|q' procs].
  - cbn [full_command command_text] in *. rewrite (obind_done _ _ _ (Hcat _ _ Hl)). unfold get_status. rewrite Hst.
    destruct (zget_Some STATUS_STRING st) as [text Ht]; [done|]. exists st, text. split; [|split; [by exists q|done]].
    rewrite (obind_done _ _ st) by done. by rewrite Ht.
  - change (command_text (q :: q' :: procs)) with (codes " " ++ command q ++ codes " | " ++ command_text (q' :: procs)) in *.
    rewrite !zlen_app in Hl. change (zlen (codes " ")) with 1 in Hl. change (zlen (codes " | ")) with 3 in Hl.
    pose proof (zlen_nonneg (command_text (q' :: procs))). pose proof (zlen_nonneg (command q)).
    destruct (IH (((buf ++ codes " ") ++ command q) ++ codes " | ")) as (st' & text & Hr' & (ql & Hql & Hqs) & Ht); [done|done| |].
    { rewrite !zlen_app. change (zlen (codes " ")) with 1. change (zlen (codes " | ")) with 3. lia. }
    exists st', text. split; [|split; [by exists ql|done]].
    change (full_command (q :: q' :: procs) buf) with (buf ← strcat buf (codes " "); buf ← strcat buf (command q); buf ← strcat buf (codes " | "); full_command (q' :: procs) buf).
    rewrite (obind_done _ _ _ (Hcat buf (codes " ") ltac:(change (zlen (codes " ")) with 1; lia))).
    rewrite (obind_done _ _ _ (Hcat (buf ++ codes " ") (command q) ltac:(rewrite zlen_app; change (zlen (codes " ")) with 1; lia))).
    rewrite (obind_done _ _ _ (Hcat ((buf ++ codes " ") ++ command q) (codes " | ") ltac:(rewrite !zlen_app; change (zlen (codes " ")) with 1; change (zlen (codes " | ")) with 3; lia))).
    by rewrite Hr', <- !app_assoc.
Qed.

Lemma print_job_status_run s id j opt : table_ok s -> tbl s id = Some j -> printable (garbage s) j ->
  exists text, print_job_status id opt s = Done (0, with_out (out s ++ text) s).
Proof.
  intros Hok Hj (Hne & HF & Hl). unfold print_job_status.
  destruct (some_job_run s id j Hok Hj) as (p & _ & _ & Hh & ->).
  erewrite bind_done by by apply job_at_run. erewrite bind_done by done.
  destruct (full_command_run (root j) (garbage s) Hne HF Hl) as (st & text & Hf & _ & Ht). erewrite bind_done by (apply liftO_run; exact Hf).
  destruct (get_last_job_id_done s Hok) as [last Hlast]. cbn beta iota. erewrite bind_done by exact Hlast. cbv zeta.
  destruct (opt =? PRINT_OPTIONS_COMMAND_FG); [|destruct (opt =? PRINT_OPTIONS_COMMAND_BG); [|destruct (opt =? PRINT_OPTIONS_COMPLETED_JOBS)]];
    eexists; unfold bnd, mbind, M_bind, printf, modify, text_of; cbn; rewrite <- ?app_assoc; try reflexivity.
Qed.
End Table.
