(* ===== verification/JobsCorrect.v ===== *)
(** * Waiting for processes: the job table stays correct

    [done_in] changes the processes that were reported; [wait_for_job] and
    [check_jobs] are related to it. *)

From Stdlib Require Import Ascii.
From Stdlib Require Import(notations) String.
From S2P Require Import Prelude Stdio Jobs JobsSpec.

(** The processes with number [n] get the status [st]. *)
Definition mark (n st : Z) (procs : list process) : list process :=
  map (fun q => if pid q =? n then with_status st q else q) procs.

Definition pids (j : job) : list Z := map pid (root j).

(** The numbers of the processes of job [i] are its own: no other job has one of
    them, and the job has each once. *)
Definition own_pids (s : shell) (i : Z) : Prop :=
  forall j, tbl s i = Some j -> NoDup (pids j) /\
    forall k j', k <> i -> tbl s k = Some j' -> forall n, In n (pids j) -> ~ In n (pids j').

Section Wait.
Implicit Types (s : shell) (j : job) (i id n : Z).

Lemma has_pid_in n j : has_pid n j = true <-> In n (pids j).
Proof.
  unfold has_pid, pids. rewrite existsb_exists, in_map_iff. split; intros (q & H1 & H2); exists q; [|split; [done|by apply Z.eqb_eq]].
  split; [by apply Z.eqb_eq|done].
Qed.

Lemma own_owner s i j n : table_ok s -> own_pids s i -> tbl s i = Some j -> In n (pids j) -> owner s n i j.
Proof.
  intros Hok Hown Hj Hn. split; [done|]. split; [by apply has_pid_in|]. intros l j' Hl Hj'. destruct (has_pid n j') eqn:E; [|done].
  apply has_pid_in in E. destruct (Hown j Hj) as [_ Ho]. exfalso. apply (Ho l j') with n; try done. lia.
Qed.

Lemma mark_other n st procs : ~ In n (map pid procs) -> mark n st procs = procs.
Proof.
  intros H. unfold mark. rewrite <- (map_id procs) at 2. apply map_ext_in. intros q Hq. destruct (Z.eqb_spec (pid q) n) as [<-|]; [|done].
  exfalso. apply H. by apply in_map.
Qed.

Lemma mark_split n st l1 q l2 : pid q = n -> NoDup (map pid (l1 ++ q :: l2)) -> l1 ++ with_status st q :: l2 = mark n st (l1 ++ q :: l2).
Proof.
  intros Hq Hd. rewrite map_app, map_cons in Hd. apply NoDup_app in Hd as (_ & Hx & Hd). apply NoDup_cons in Hd as [Hq2 _].
  unfold mark. rewrite map_app, map_cons, Hq, Z.eqb_refl. f_equal; [|f_equal].
  - symmetry. apply mark_other. intros Hin. apply (Hx n); [by apply list_elem_of_In|]. rewrite Hq. apply list_elem_of_here.
  - symmetry. apply mark_other. rewrite <- Hq. by rewrite <- list_elem_of_In.
Qed.

Lemma mark_pids n st procs : map pid (mark n st procs) = map pid procs.
Proof. unfold mark. rewrite map_map. apply map_ext. intros q. by destruct (pid q =? n). Qed.

Lemma mark_command n st procs : command_text (mark n st procs) = command_text procs.
Proof.
  induction procs as [|q procs IH]; [done|]. unfold mark. rewrite map_cons. fold (mark n st procs).
  assert (command (if pid q =? n then with_status st q else q) = command q) as E by by destruct (pid q =? n).
  destruct procs as [|q' procs]; [cbn; by rewrite E|]. destruct (mark n st (q' :: procs)) as [|r rs] eqn:Em; [done|].
  change (command_text (?a :: r :: rs)) with (codes " " ++ command a ++ codes " | " ++ command_text (r :: rs)).
  change (command_text (q :: q' :: procs)) with (codes " " ++ command q ++ codes " | " ++ command_text (q' :: procs)). by rewrite E, IH.
Qed.

Lemma printable_mark g j n st : 0 <= st < 5 -> printable g j -> printable g (with_root (mark n st (root j)) j).
Proof.
  intros Hst (Hne & HF & Hl). split; [cbn; by destruct (root j)|]. split; [|cbn; by rewrite mark_command].
  cbn. unfold mark. rewrite List.Forall_map. eapply Forall_impl; [exact HF|]. intros q Hq. destruct (pid q =? n); [by exists st|done].
Qed.

(** [set_process_status] of a process of a job whose numbers are its own. *)
Lemma set_own_run s i j n st : table_ok s -> own_pids s i -> tbl s i = Some j -> In n (pids j) ->
  exists s', set_process_status n st s = Done (0, s') /\ heap_only s s' /\ table_ok s' /\
    forall k, tbl s' k = tbl_upd s i (Some (with_root (mark n st (root j)) j)) k.
Proof.
  intros Hok Hown Hj Hn. destruct (set_process_status_run s n st Hok) as [H _].
  destruct (H i j) as (l1 & q & l2 & s' & Er & Hq & _ & Hrun & Hh & Hok' & Ht); [by apply own_owner|].
  exists s'. split; [done|]. split; [done|]. split; [done|]. rewrite Er, <- (mark_split n st l1 q l2 Hq); [done|].
  rewrite <- Er. by apply (Hown j Hj).
Qed.

Lemma own_pids_upd s s' i j n st : tbl s i = Some j -> own_pids s i ->
  (forall k, tbl s' k = tbl_upd s i (Some (with_root (mark n st (root j)) j)) k) -> own_pids s' i.
Proof.
  intros Hj Hown Ht j1 Hj1. rewrite Ht in Hj1. unfold tbl_upd in Hj1. rewrite decide_True in Hj1 by done. injection Hj1 as <-.
  destruct (Hown j Hj) as [Hd Ho]. unfold pids in *. cbn. rewrite mark_pids. split; [done|]. intros k j' Hk Hj'. rewrite Ht in Hj'.
  unfold tbl_upd in Hj'. rewrite decide_False in Hj' by done. by apply (Ho k).
Qed.

(** A report takes its place in the log and leaves the queue. *)
Definition with_report (p : Z) rs s : shell :=
  let o := sys s in with_sys (mk_os (forks o) (opens o) (pipes o) rs (kills o)) (with_calls (calls s ++ [Waitpid p]) s).

Lemma waitpid_run s p n st status rs : reports (sys s) = (n, st) :: rs -> 0 < n -> waitpid p status s = Done ((n, st), with_report p rs s).
Proof. intros H Hn. unfold waitpid. cbn. rewrite H. by rewrite (proj2 (Z.ltb_lt 0 n)). Qed.

(** [n] reports about group [g] taken, [rest] left. *)
Definition after_reports (n : nat) (g : Z) rest s : shell :=
  let o := sys s in with_sys (mk_os (forks o) (opens o) (pipes o) rest (kills o)) (with_calls (calls s ++ replicate n (Waitpid (- g))) s).

(** The process ended: it called exit or a signal killed it. *)
Definition ended (st : Z) : bool := WIFEXITED st || WIFSIGNALED st.

Lemma ended_status st : ended st = true ->
  forall (A : Type) (a b c : A), (if WIFEXITED st then a else if WIFSIGNALED st then a else b) = a.
Proof. unfold ended. intros H A a b c. by destruct (WIFEXITED st), (WIFSIGNALED st). Qed.

(** The job with all its processes done. *)
Definition finished (j : job) : job := with_root (map (with_status STATUS_DONE) (root j)) j.

Lemma finished_mark n j : finished (with_root (mark n STATUS_DONE (root j)) j) = finished j.
Proof.
  unfold finished, with_root. cbn. f_equal. unfold mark. rewrite map_map. apply map_ext. intros q. by destruct (pid q =? n).
Qed.

Lemma finished_done j : Forall (fun q => status q = Some STATUS_DONE) (root j) -> finished j = j.
Proof.
  destruct j as [i r c g m b]. cbn. intros HF. unfold finished, with_root. cbn. f_equal.
  induction HF as [|q r Hq _ IH]; [done|]. cbn. rewrite IH. f_equal. destruct q. cbn in *. by rewrite Hq.
Qed.

(** Every process has ended or is among the reported ones. *)
Definition awaited (j : job) (rs : list (Z * Z)) : Prop :=
  Forall (fun q => status q = Some STATUS_DONE \/ In (pid q) (map fst rs)) (root j).

Lemma wait_loop_run rs : forall s id j fuel count st rest, table_ok s -> own_pids s id -> tbl s id = Some j -> rs <> [] ->
  reports (sys s) = rs ++ rest -> (length rs <= fuel)%nat -> awaited j rs ->
  Forall (fun r => 0 < fst r /\ In (fst r) (pids j) /\ ended (snd r) = true) rs ->
  exists s', wait_loop fuel id (count + zlen rs) count st s = Done (default st (snd <$> last rs), s') /\ table_ok s' /\
    (forall k, tbl s' k = tbl_upd s id (Some (finished j)) k) /\ s' = with_heap (heap s') (after_reports (length rs) (pgid j) rest s).
Proof.
  induction rs as [|[n w] rs IH]; intros s id j fuel count st rest Hok Hown Hj Hne Hrep Hf Ha HF; [done|].
  destruct fuel as [|fuel]; [cbn in Hf; lia|]. apply Forall_cons in HF as [(Hn & Hin & Hend) HF]. cbn [fst snd] in *.
  cbn [wait_loop]. pose proof (tbl_inv s id j Hj) as (p & Hz & _ & Hh).
  erewrite bind_done by by apply slot_run. erewrite bind_done by by apply job_at_run.
  erewrite bind_done by by apply (waitpid_run s _ n w st (rs ++ rest)). cbn beta iota zeta. set (s1 := with_report (- pgid j) (rs ++ rest) s).
  destruct (table_ok_ext s s1 eq_refl eq_refl Hok) as [Hok1 Ht1].
  destruct (set_own_run s1 id j n STATUS_DONE Hok1) as (s2 & Hset & Hh2 & Hok2 & Ht2); [intros j0 Hj0; rewrite Ht1 in Hj0; destruct (Hown j0 Hj0) as [Hd Ho];
    split; [done|]; intros k j'; rewrite Ht1; apply Ho|by rewrite Ht1|done|].
  erewrite (bind_done _ _ s1 w s2); [|change STATUS_TERMINATED with STATUS_DONE; rewrite (ended_status w Hend _ _ _ nofuel); by erewrite bind_done by exact Hset].
  assert (forall k, tbl s2 k = tbl_upd s id (Some (with_root (mark n STATUS_DONE (root j)) j)) k) as Ht.
  { intros k. rewrite Ht2. unfold tbl_upd. by rewrite Ht1. }
  assert (awaited (with_root (mark n STATUS_DONE (root j)) j) rs) as Ha'.
  { unfold awaited in *. cbn. unfold mark. rewrite List.Forall_map. eapply Forall_impl; [exact Ha|]. intros q Hq. cbn in Hq.
    destruct (Z.eqb_spec (pid q) n); [by left|]. destruct Hq as [Hq|[Hq|Hq]]; [by left|congruence|by right]. }
  assert (reports (sys s2) = rs ++ rest) as Hr2 by (by rewrite Hh2).
  destruct rs as [|r rs].
  - change (zlen [(n, w)]) with 1. rewrite Z.ltb_irrefl. exists s2. split; [done|]. split; [done|].
    split; [|by rewrite Hh2]. rewrite <- (finished_mark n j), finished_done; [done|]. eapply Forall_impl; [exact Ha'|]. by intros q [?|[]].
  - rewrite zlen_cons. rewrite (proj2 (Z.ltb_lt _ _)) by (rewrite zlen_cons; pose proof (zlen_nonneg rs); lia).
    destruct (IH s2 id (with_root (mark n STATUS_DONE (root j)) j) fuel (count + 1) w rest) as (s' & Hrun & Hok' & Ht' & Hs'); try done.
    + by eapply own_pids_upd.
    + rewrite Ht. unfold tbl_upd. by rewrite decide_True.
    + cbn in Hf |- *. lia.
    + unfold pids in *. cbn. by rewrite mark_pids.
    + exists s'. replace (count + (1 + zlen (r :: rs))) with (count + 1 + zlen (r :: rs)) by lia. rewrite Hrun.
      split; [|split; [done|split]].
      * f_equal. change (last ((n, w) :: r :: rs)) with (last (r :: rs)). destruct (last (r :: rs)) eqn:E; [done|]. by apply last_None in E.
      * intros k. rewrite Ht', finished_mark. unfold tbl_upd. case_decide; [done|]. rewrite Ht. unfold tbl_upd. by rewrite decide_False.
      * rewrite Hs', Hh2. unfold after_reports, s1, with_report, with_heap, with_sys, with_calls. cbn. by rewrite <- app_assoc.
Qed.

Lemma count_remaining procs : Forall valid_status procs ->
  count_procs PROC_FILTER_REMAINING procs = Done (zlen (List.filter (fun q => negb (bool_decide (status q = Some STATUS_DONE))) procs)).
Proof.
  induction 1 as [|q procs (st & Hst & _) HF IH]; [done|]. cbn [count_procs]. change (PROC_FILTER_REMAINING =? PROC_FILTER_ALL) with false.
  cbn iota. unfold get_status at 1. rewrite Hst. cbn [List.filter]. rewrite Hst.
  change (PROC_FILTER_REMAINING =? PROC_FILTER_DONE) with false. change (PROC_FILTER_REMAINING =? PROC_FILTER_REMAINING) with true. cbn [andb orb].
  rewrite (obind_done _ _ (negb (st =? STATUS_DONE))) by done. rewrite (obind_done _ _ _ IH).
  assert (bool_decide (Some st = Some STATUS_DONE) = (st =? STATUS_DONE)) as ->.
  { destruct (Z.eqb_spec st STATUS_DONE) as [->|]; [by apply bool_decide_true|]. apply bool_decide_false. congruence. }
  destruct (st =? STATUS_DONE); cbn [negb]; [done|]. by rewrite zlen_cons.
Qed.

(** The processes [wait_for_job] waits for. *)
Definition remaining (j : job) : list process := List.filter (fun q => negb (bool_decide (status q = Some STATUS_DONE))) (root j).

Lemma wait_for_job_run s id j rs rest : table_ok s -> own_pids s id -> tbl s id = Some j -> Forall valid_status (root j) ->
  remaining j <> [] -> reports (sys s) = rs ++ rest -> map fst rs ≡ₚ map pid (remaining j) ->
  Forall (fun r => 0 < fst r /\ ended (snd r) = true) rs ->
  exists s', wait_for_job id s = Done (default 0 (snd <$> last rs), s') /\ table_ok s' /\
    (forall k, tbl s' k = tbl_upd s id (Some (finished j)) k) /\ s' = with_heap (heap s') (after_reports (length rs) (pgid j) rest s).
Proof.
  intros Hok Hown Hj HV Hne Hrep Hperm HF. unfold wait_for_job. destruct (some_job_run s id j Hok Hj) as (p & _ & _ & Hh & E). rewrite E.
  unfold get_proc_count. erewrite bind_done; [|rewrite E; erewrite bind_done by (by apply job_at_run); apply liftO_run; by apply count_remaining].
  fold (remaining j). assert (length rs = length (remaining j)) as Hlen by (rewrite <- (length_map fst rs), <- (length_map pid), Hperm; done).
  assert (zlen (remaining j) = 0 + zlen rs) as -> by (unfold zlen; lia).
  assert (forall n, In n (map fst rs) <-> In n (map pid (remaining j))) as Hin by (intros n; rewrite <- !list_elem_of_In; by rewrite Hperm).
  apply (wait_loop_run rs s id j); try done.
  - intros ->. by destruct (remaining j).
  - unfold zlen. lia.
  - apply List.Forall_forall. intros q Hq. destruct (decide (status q = Some STATUS_DONE)) as [Hd|Hd]; [by left|right].
    apply Hin, in_map. unfold remaining. apply filter_In. split; [done|]. by rewrite bool_decide_false.
  - apply List.Forall_forall. intros r Hr. rewrite List.Forall_forall in HF. destruct (HF r Hr) as [H1 H2]. split; [done|]. split; [|done].
    apply (in_map fst), Hin, in_map_iff in Hr as (q & Hq & Hqr). unfold remaining in Hqr. apply filter_In in Hqr as [Hqr _]. rewrite <- Hq. by apply in_map.
Qed.

(** Waiting for a job takes one report for each process that is left, in
    whatever order they end; then every process of the job is done, and the other
    jobs and the reports behind are as they were. *)
Theorem wait_for_job_correct s id j rs rest : table_ok s -> own_pids s id -> tbl s id = Some j -> Forall valid_status (root j) ->
  remaining j <> [] -> reports (sys s) = rs ++ rest -> map fst rs ≡ₚ map pid (remaining j) ->
  Forall (fun r => 0 < fst r /\ ended (snd r) = true) rs ->
  exists s', wait_for_job id s = Done (default 0 (snd <$> last rs), s') /\ table_ok s' /\
    (forall k, tbl s' k = tbl_upd s id (Some (finished j)) k) /\ s' = with_heap (heap s') (after_reports (length rs) (pgid j) rest s).
Proof. apply wait_for_job_run. Qed.

(** ** [check_jobs] *)

(** The status a report stands for; a process that a signal killed has none. *)
Definition reported (w : Z) : option Z :=
  if WIFEXITED w then Some STATUS_DONE else if WIFSTOPPED w then Some STATUS_SUSPENDED
  else if WIFCONTINUED w then Some STATUS_CONTINUED else None.

Definition job_done (j : job) : bool := forallb (fun q => bool_decide (status q = Some STATUS_DONE)) (root j).

(** What a report does to a job: a job that is complete leaves the table. *)
Definition report_job (j : job) (r : Z * Z) : option job :=
  if has_pid (fst r) j then
    let j' := match reported (snd r) with Some st => with_root (mark (fst r) st (root j)) j | None => j end in
    if job_done j' then None else Some j'
  else Some j.

Definition report_all (o : option job) (rs : list (Z * Z)) : option job :=
  fold_left (fun o r => match o with Some j => report_job j r | None => None end) rs o.

(** The jobs can be printed and have numbers of their own. *)
Record jobs_ok s : Prop := {
  jo_table : table_ok s;
  jo_print : forall i j, tbl s i = Some j -> printable (garbage s) j;
  jo_own : forall i, own_pids s i
}.

Lemma reported_range w st : reported w = Some st -> 0 <= st < 5.
Proof. unfold reported. destruct (WIFEXITED w), (WIFSTOPPED w), (WIFCONTINUED w); intros [= <-]; done. Qed.

Lemma all_done_run procs : Forall valid_status procs -> all_done procs = Done (forallb (fun q => bool_decide (status q = Some STATUS_DONE)) procs).
Proof.
  induction 1 as [|q procs (st & Hst & _) HF IH]; [done|]. cbn [all_done forallb]. unfold get_status. rewrite Hst, (obind_done _ _ st) by done.
  destruct (Z.eqb_spec st STATUS_DONE) as [->|]; cbn [negb]; [rewrite bool_decide_true by done; by rewrite IH|].
  rewrite bool_decide_false by congruence. done.
Qed.

Lemma jobs_ok_ext s s' : jobs s' = jobs s -> heap s' = heap s -> garbage s' = garbage s -> jobs_ok s -> jobs_ok s' /\ forall k, tbl s' k = tbl s k.
Proof.
  intros Ej Eh Eg [H1 H2 H3]. destruct (table_ok_ext s s' Ej Eh H1) as [Hok Ht]. split; [|done]. split; [done| |].
  - intros i j. rewrite Ht, Eg. apply H2.
  - intros i j. rewrite Ht. intros Hj. destruct (H3 i j Hj) as [Hd Ho]. split; [done|]. intros k j'. rewrite Ht. apply Ho.
Qed.

(** A smaller table, or one with a job that has the same numbers. *)
Lemma jobs_ok_sub s s' : jobs_ok s -> table_ok s' -> garbage s' = garbage s ->
  (forall i j', tbl s' i = Some j' -> printable (garbage s) j' /\ exists j, tbl s i = Some j /\ pids j' = pids j) -> jobs_ok s'.
Proof.
  intros [H1 H2 H3] Hok Eg H. split; [done| |].
  - intros i j' Hj'. rewrite Eg. by destruct (H i j' Hj').
  - intros i j' Hj'. destruct (H i j' Hj') as (_ & j & Hj & ->). destruct (H3 i j Hj) as [Hd Ho]. split; [done|].
    intros k jk Hk Hjk n Hn. destruct (H k jk Hjk) as (_ & jk' & Hjk' & ->). by apply (Ho k jk').
Qed.

(** The new status, in the table. *)
Lemma mark_reported_run s n w : jobs_ok s ->
  exists s', (if WIFEXITED w then _ ← set_process_status n STATUS_DONE; mret tt
    else if WIFSTOPPED w then _ ← set_process_status n STATUS_SUSPENDED; mret tt
    else if WIFCONTINUED w then _ ← set_process_status n STATUS_CONTINUED; mret tt
    else mret tt) s = Done (tt, s') /\ heap_only s s' /\ jobs_ok s' /\
    forall i, tbl s' i = match tbl s i with
      | Some j => Some (match reported w with Some st => if has_pid n j then with_root (mark n st (root j)) j else j | None => j end)
      | None => None end.
Proof.
  intros Hok. destruct (reported w) as [st|] eqn:E; last first.
  { exists s. unfold reported in E. destruct (WIFEXITED w), (WIFSTOPPED w), (WIFCONTINUED w); try done.
    split; [done|]. split; [by destruct s|]. split; [done|]. intros i. by destruct (tbl s i). }
  assert ((if WIFEXITED w then _ ← set_process_status n STATUS_DONE; mret tt
    else if WIFSTOPPED w then _ ← set_process_status n STATUS_SUSPENDED; mret tt
    else if WIFCONTINUED w then _ ← set_process_status n STATUS_CONTINUED; mret tt
    else mret tt) = (_ ← set_process_status n st; mret tt)) as ->.
  { unfold reported in E. destruct (WIFEXITED w), (WIFSTOPPED w), (WIFCONTINUED w); (discriminate E || by injection E as <-). }
  pose proof (jo_table s Hok) as Htab. destruct (owner_cases s n) as [(i & j & Ho)|Hno].
  - pose proof Ho as (Hj & Hp & _). apply has_pid_in in Hp.
    destruct (set_own_run s i j n st Htab (jo_own s Hok i) Hj Hp) as (s' & Hr & Hh & Hok' & Ht). exists s'.
    split; [by erewrite bind_done by exact Hr|]. split; [done|].
    assert (forall k, tbl s' k = match tbl s k with Some j => Some (if has_pid n j then with_root (mark n st (root j)) j else j) | None => None end) as Ht'.
    { intros k. rewrite Ht. unfold tbl_upd. case_decide as Hk; [subst k; rewrite Hj; by rewrite (proj2 (has_pid_in n j) Hp)|].
      destruct (tbl s k) as [jk|] eqn:Ek; [|done]. destruct (has_pid n jk) eqn:En; [|done]. apply has_pid_in in En.
      destruct (jo_own s Hok i j Hj) as [_ Hx]. exfalso. by apply (Hx k jk Hk Ek n). }
    split; [|done]. apply (jobs_ok_sub s); [done|done|by rewrite Hh|]. intros k j' Hj'. rewrite Ht' in Hj'.
    destruct (tbl s k) as [jk|] eqn:Ek; [|done]. injection Hj' as <-. pose proof (jo_print s Hok k jk Ek) as Hpr.
    destruct (has_pid n jk); [|split; [done|by exists jk]]. split; [apply printable_mark; [by eapply reported_range|done]|].
    exists jk. split; [done|]. apply mark_pids.
  - destruct (set_process_status_run s n st Htab) as [_ H]. exists s. split; [by erewrite bind_done by exact (H Hno)|]. split; [by destruct s|]. split; [done|].
    intros i. destruct (tbl s i) as [j|] eqn:Ei; [|done]. pose proof (tbl_range s i j Htab Ei) as [Hr _]. unfold NR_JOBS in Hr. by rewrite (Hno i j Hr Ei).
Qed.

(** One turn of [check_jobs] on a report of process [n]. *)
Lemma check_turn_run s n w : jobs_ok s ->
  exists s', (r ← (if WIFEXITED w then _ ← set_process_status n STATUS_DONE; mret tt
      else if WIFSTOPPED w then _ ← set_process_status n STATUS_SUSPENDED; mret tt
      else if WIFCONTINUED w then _ ← set_process_status n STATUS_CONTINUED; mret tt
      else mret tt);
    job_id ← get_job_id_by_pid n;
    completed ← (if 0 <? job_id then is_job_completed job_id else mret false);
    if completed : bool then _ ← print_job_status job_id PRINT_OPTIONS_COMPLETED_JOBS; _ ← remove_job job_id; mret tt else mret tt) s = Done (tt, s') /\
    jobs_ok s' /\ sys s' = sys s /\ garbage s' = garbage s /\ forall i, tbl s' i = match tbl s i with Some j => report_job j (n, w) | None => None end.
Proof.
  intros Hok. destruct (mark_reported_run s n w Hok) as (s1 & Hr & Hh & Hok1 & Ht). erewrite bind_done by exact Hr. clear Hr.
  assert (sys s1 = sys s /\ garbage s1 = garbage s) as [Hs Hg] by (by rewrite Hh). pose proof (jo_table s1 Hok1) as Htab.
  set (f := fun j => match reported w with Some st => if has_pid n j then with_root (mark n st (root j)) j else j | None => j end) in *.
  assert (forall j, has_pid n (f j) = has_pid n j) as Hf.
  { intros j. unfold f. destruct (reported w) as [st|]; [|done]. destruct (has_pid n j) eqn:E; [|done]. apply has_pid_in in E. apply has_pid_in.
    unfold pids in *. cbn. by rewrite mark_pids. }
  destruct (get_job_id_by_pid_run s1 n Htab) as [Hown Hno]. destruct (owner_cases s1 n) as [(i & j1 & Ho)|Hn].
  - erewrite bind_done by by eapply Hown. pose proof Ho as (Hj1 & Hp & _). pose proof (tbl_range s1 i j1 Htab Hj1) as [Hi _].
    rewrite (proj2 (Z.ltb_lt 0 i)) by lia. pose proof (jo_print s1 Hok1 i j1 Hj1) as Hpr. pose proof Hpr as (_ & HV & _).
    assert (is_job_completed i s1 = Done (job_done j1, s1)) as Hc.
    { unfold is_job_completed. destruct (some_job_run s1 i j1 Htab Hj1) as (p & _ & _ & Hx & E). rewrite E.
      erewrite bind_done by (by apply job_at_run). apply liftO_run. by apply all_done_run. }
    erewrite bind_done by exact Hc. destruct (tbl s i) as [j|] eqn:Ej; [|by rewrite Ht, Ej in Hj1].
    assert (j1 = f j) as -> by (rewrite Ht, Ej in Hj1; by injection Hj1). rewrite Hf in Hp.
    assert (report_job j (n, w) = if job_done (f j) then None else Some (f j)) as Erep.
    { unfold report_job. cbn [fst snd]. rewrite Hp. unfold f. destruct (reported w) as [st|]; [by rewrite Hp|done]. }
    assert (forall k, k <> i -> tbl s1 k = match tbl s k with Some j => report_job j (n, w) | None => None end) as Hother.
    { intros k Hk. rewrite Ht. destruct (tbl s k) as [jk|] eqn:Ek; [|done]. assert (has_pid n jk = false) as E.
      { destruct (has_pid n jk) eqn:E; [|done]. apply has_pid_in in E, Hp. destruct (jo_own s Hok i j Ej) as [_ Hx]. exfalso. by apply (Hx k jk Hk Ek n). }
      unfold report_job, f. cbn [fst snd]. rewrite E. by destruct (reported w). }
    destruct (job_done (f j)) eqn:Ed.
    + destruct (print_job_status_run s1 i (f j) PRINT_OPTIONS_COMPLETED_JOBS Htab Hj1 Hpr) as (text & Hpt). erewrite bind_done by exact Hpt.
      set (s2 := with_out (out s1 ++ text) s1). destruct (jobs_ok_ext s1 s2 eq_refl eq_refl eq_refl Hok1) as [Hok2 Ht2].
      destruct (remove_job_run s2 i (f j) (jo_table s2 Hok2)) as (p & s3 & _ & Hrm & Hok3 & E3 & Ht3); [by rewrite Ht2|].
      erewrite bind_done by exact Hrm. exists s3. split; [done|].
      assert (sys s3 = sys s /\ garbage s3 = garbage s) as [Hs3 Hg3] by (rewrite E3; by split). split; [|split; [done|split; [done|]]].
      * apply (jobs_ok_sub s1); [done|done|by rewrite Hg3, Hg|]. intros k j' Hj'. rewrite Ht3 in Hj'. unfold tbl_upd in Hj'. case_decide; [done|].
        rewrite Ht2 in Hj'. split; [by eapply jo_print|by exists j'].
      * intros k. rewrite Ht3. unfold tbl_upd. case_decide as Hk; [subst k; by rewrite Ej, Erep|]. rewrite Ht2. by apply Hother.
    + exists s1. split; [done|]. split; [done|]. split; [done|]. split; [done|]. intros k. destruct (decide (k = i)) as [->|Hk]; [|by apply Hother].
      by rewrite Hj1, Ej, Erep.
  - erewrite bind_done by by apply Hno. erewrite bind_done by done. exists s1. split; [done|]. split; [done|]. split; [done|]. split; [done|].
    intros i. rewrite Ht. destruct (tbl s i) as [j|] eqn:Ej; [|done]. assert (has_pid n j = false) as E.
    { rewrite <- Hf. assert (tbl s1 i = Some (f j)) as E1 by by rewrite Ht, Ej. pose proof (tbl_range s1 i _ Htab E1) as [Hr _]. by apply (Hn i). }
    unfold report_job, f. cbn [fst snd]. rewrite E. by destruct (reported w).
Qed.

Lemma check_loop_run rs : forall s fuel st rest, jobs_ok s -> reports (sys s) = rs ++ rest -> Forall (fun r => 0 < fst r) rs ->
  match rest with [] => True | r :: _ => fst r <= 0 end -> (length rs < fuel)%nat ->
  exists s', check_loop fuel st s = Done (tt, s') /\ jobs_ok s' /\ reports (sys s') = tail rest /\ forall i, tbl s' i = report_all (tbl s i) rs.
Proof.
  induction rs as [|[n w] rs IH]; intros s [|fuel] st rest Hok Hrep HF Hend Hfu; cbn in Hfu; try lia; cbn [check_loop].
  - cbn [app] in Hrep. destruct rest as [|[m w] rest].
    + erewrite bind_done by (unfold waitpid; cbn; by rewrite Hrep). cbn beta iota. change (0 <? -1) with false. eexists. split; [done|].
      destruct (jobs_ok_ext s (with_calls (calls s ++ [Waitpid (-1)]) s) eq_refl eq_refl eq_refl Hok) as [Hok' Ht]. split; [done|]. split; [done|exact Ht].
    + cbn in Hend. erewrite bind_done by (unfold waitpid; cbn; rewrite Hrep; done). cbn beta iota. rewrite (proj2 (Z.ltb_ge 0 m)) by lia.
      eexists. split; [done|]. destruct (jobs_ok_ext s (with_report (-1) rest s) eq_refl eq_refl eq_refl Hok) as [Hok' Ht]. split; [done|]. split; [done|exact Ht].
  - apply Forall_cons in HF as [Hn HF]. cbn [fst] in Hn. erewrite bind_done by by apply (waitpid_run s (-1) n w st (rs ++ rest)). cbn beta iota.
    rewrite (proj2 (Z.ltb_lt 0 n)) by done. set (s1 := with_report (-1) (rs ++ rest) s).
    destruct (jobs_ok_ext s s1 eq_refl eq_refl eq_refl Hok) as [Hok1 Ht1]. destruct (check_turn_run s1 n w Hok1) as (s2 & Hr & Hok2 & Hs2 & _ & Ht2).
    apply bind_done_inv in Hr as ([] & t1 & Hr1 & Hr). apply bind_done_inv in Hr as (id & t2 & Hr2 & Hr). apply bind_done_inv in Hr as (c & t3 & Hr3 & Hr).
    erewrite bind_done by exact Hr1. erewrite bind_done by exact Hr2. erewrite bind_done by exact Hr3. erewrite bind_done by exact Hr.
    destruct (IH s2 fuel w rest Hok2) as (s' & Hrun & Hok' & Hrep' & Ht'); [by rewrite Hs2|done|done|lia|].
    exists s'. split; [done|]. split; [done|]. split; [done|]. intros i. rewrite Ht', Ht2, Ht1. cbn [report_all fold_left]. done.
Qed.

(** [check_jobs] takes every report there is and ends; each job sees the
    reports of its own processes in order and leaves the table when all of them
    are done, and the invariant of the table holds. *)
Theorem check_jobs_correct s rs rest : jobs_ok s -> reports (sys s) = rs ++ rest -> Forall (fun r => 0 < fst r) rs ->
  match rest with [] => True | r :: _ => fst r <= 0 end ->
  exists s', check_jobs s = Done (tt, s') /\ jobs_ok s' /\ reports (sys s') = tail rest /\ forall i, tbl s' i = report_all (tbl s i) rs.
Proof.
  intros Hok Hrep HF Hend. unfold check_jobs. erewrite bind_done by done. apply (check_loop_run rs s _ 0 rest); try done.
  rewrite Hrep, length_app. lia.
Qed.

(** A status of a process that a signal killed stands for nothing. *)
Lemma killed_unreported w : WIFEXITED w = false -> WIFSIGNALED w = true -> reported w = None.
Proof.
  intros H1 H2. unfold reported. rewrite H1. unfold WIFSIGNALED, WIFSTOPPED, WIFCONTINUED in *. destruct (Z.eqb_spec (Z.land w 255) 127) as [E|_].
  - exfalso. assert (Z.land w 127 = 127) as E'.
    { rewrite <- (Z.land_diag 127) at 1. change (Z.land 127 127) with (Z.land 255 127). rewrite Z.land_assoc, E. done. }
    by rewrite E' in H2.
  - destruct (Z.eqb_spec w 65535) as [->|]; [by vm_compute in H2|done].
Qed.

(** A job in the background that a signal killed stays in the table as it was:
    [check_jobs] takes the report and changes nothing. *)
Theorem killed_in_background_stays s n w : jobs_ok s -> reports (sys s) = [(n, w)] -> 0 < n -> WIFEXITED w = false -> WIFSIGNALED w = true ->
  (forall i j, tbl s i = Some j -> job_done j = false) ->
  exists s', check_jobs s = Done (tt, s') /\ reports (sys s') = [] /\ forall i, tbl s' i = tbl s i.
Proof.
  intros Hok Hr Hn H1 H2 Hd. unfold check_jobs. erewrite bind_done by done.
  destruct (check_loop_run [(n, w)] s (S (length (reports (sys s)))) 0 []) as (s' & Hrun & _ & Hr' & Ht); [done|done|by constructor|done|rewrite Hr; cbn; lia|].
  exists s'. split; [done|]. split; [done|]. intros i. rewrite Ht. unfold report_all, fold_left. destruct (tbl s i) as [j|] eqn:E; [|done].
  unfold report_job. cbn [fst snd]. rewrite (killed_unreported w H1 H2). destruct (has_pid n j); [|done]. by rewrite (Hd i j E).
Qed.
End Wait.
