(* ===== verification/Shell.v ===== *)
(** * Project 1/customCommands.c and newSimpleTerm.c: running commands

    The parent's side of a fork; what the child does before it becomes another
    program is the event [Spawn].  A literal has one address wherever it is
    written, so that comparing the addresses of two equal literals compares them. *)

From Stdlib Require Import Ascii.
From Stdlib Require Import(notations) String.
From S2P Require Import Prelude Stdio Jobs.

(** Messages of constants.h. *)
Definition FILEDIRECTORY_ERROR : list Z := codes "no such file or directory:" ++ [10].
Definition FG_COMMAND_ERROR : list Z := codes "usage: fg " ++ [10].
Definition BG_COMMAND_ERROR : list Z := codes "usage: bg " ++ [10].
Definition JOBEXISIT_ERROR : list Z := codes "no such job" ++ [10].

(** ** The system *)

(** [kill (-pid, SIGCONT)], [fork], [open] and [pipe]; an answer that is missing is
    an error. *)
Definition kill (p : Z) : M shell Z := fun s =>
  let o := sys s in let s := with_calls (calls s ++ [Kill p]) s in
  match kills o with
  | [] => Done (-1, s)
  | r :: ks => Done (r, with_sys (mk_os (forks o) (opens o) (pipes o) (reports o) ks) s)
  end.

Definition fork : M shell Z := fun s =>
  let o := sys s in
  match forks o with
  | [] => Done (-1, s)
  | r :: fs => Done (r, with_sys (mk_os fs (opens o) (pipes o) (reports o) (kills o)) s)
  end.

Definition open_file (path : list Z) : M shell Z := fun s =>
  let o := sys s in let s := with_calls (calls s ++ [Open path]) s in
  match opens o with
  | [] => Done (-1, s)
  | r :: os => Done (r, with_sys (mk_os (forks o) os (pipes o) (reports o) (kills o)) s)
  end.

(** The two ends; after an error the array keeps what it had. *)
Definition pipe (old : Z * Z) : M shell (Z * Z) := fun s =>
  let o := sys s in
  match pipes o with
  | [] => Done (old, s)
  | r :: ps => Done (r, with_sys (mk_os (forks o) (opens o) ps (reports o) (kills o)) (with_calls (calls s ++ [Pipe r]) s))
  end.

(** [tcsetpgrp (0, getpid ())] *)
Definition take_terminal : M shell unit := s ← get; call (Tcsetpgrp (self s)).

(** ** customCommands.c *)

(** The turn of [command_jobs] for number [i]. *)
Definition show_job (i : Z) : M shell unit :=
  p ← slot i;
  if p =? NULL then mret tt
  else
    j ← job_at p;
    s ← get;
    '(fullCommand, status) ← liftO (full_command (root j) (garbage s));
    fullCommand ← (if mode j =? BACKGROUND_EXECUTION then liftO (strcat fullCommand (codes " &")) else mret fullCommand);
    next ← slot (i + 1);
    status ← text_of status;
    printf (codes "[" ++ dec i ++ codes "]" ++ (if negb (next =? NULL) then codes "-" else codes "+") ++ status ++ [9] ++ fullCommand) ;;
    (if bool_decide (status = codes "Done") then _ ← remove_job i; mret tt else mret tt) ;;
    printf [10].

Definition command_jobs : M shell Z := for_z NR_JOBS show_job ;; mret 0.

Definition command_fg (argc : Z) : M shell Z :=
  if negb (argc =? 1) then fprintf_stderr FG_COMMAND_ERROR ;; mret (-1)
  else
    job_id ← get_last_job_id;
    pid ← get_pgid_by_job_id job_id;
    if pid <? 0 then fprintf_stderr JOBEXISIT_ERROR ;; mret (-1)
    else
      r ← kill (- pid);
      if r <? 0 then fprintf_stderr JOBEXISIT_ERROR ;; mret (-1)
      else
        call (Tcsetpgrp pid) ;;
        (if 0 <? job_id then
           _ ← set_job_status job_id STATUS_CONTINUED;
           _ ← print_job_status job_id PRINT_OPTIONS_COMMAND_FG;
           w ← wait_for_job job_id;
           if 0 <=? w then _ ← remove_job job_id; mret tt else mret tt
         else _ ← wait_for_pid pid; mret tt) ;;
        take_terminal ;;
        mret 0.

Definition command_bg (argc : Z) : M shell Z :=
  if negb (argc =? 1) then fprintf_stderr BG_COMMAND_ERROR ;; mret (-1)
  else
    job_id ← get_last_job_id;
    pid ← get_pgid_by_job_id job_id;
    if pid <? 0 then fprintf_stderr JOBEXISIT_ERROR ;; mret (-1)
    else
      r ← kill (- pid);
      if r <? 0 then fprintf_stderr JOBEXISIT_ERROR ;; mret (-1)
      else
        (if 0 <? job_id then
           _ ← set_job_status job_id STATUS_CONTINUED;
           _ ← print_job_status job_id PRINT_OPTIONS_COMMAND_BG;
           mret tt
         else mret tt) ;;
        mret 0.

(** ** newSimpleTerm.c: starting the processes of a job *)

(** 1 when the process is one of the shell's own commands. *)
Definition launch_custom_commands (proc : process) : M shell Z :=
  if ptype proc =? COMMAND_JOBS then _ ← command_jobs; mret 1
  else if ptype proc =? COMMAND_FG then _ ← command_fg (argc proc); mret 1
  else if ptype proc =? COMMAND_BG then _ ← command_bg (argc proc); mret 1
  else mret 0.

(** Process [k] of the job at [p], and writing it back. *)
Definition proc_at (p k : Z) : M shell process := load (fun s => j ← heap s !! p; zget (root j) k).
Definition put_proc (p k : Z) (q : process) : M shell unit :=
  j ← job_at p; put_job p (with_root (zset (root j) k q) j).

(** Wait for the job at [job], which has the terminal meanwhile. *)
Definition wait_in_foreground (job : Z) : M shell Z :=
  j ← job_at job;
  call (Tcsetpgrp (pgid j)) ;;
  id ← (match jid j with Some id => mret id | None => fault end);
  status ← wait_for_job id;
  take_terminal ;;
  mret status.

Definition launch_command_helper (job k in_fd out_fd error_fd mode : Z) : M shell Z :=
  proc ← proc_at job k;
  put_proc job k (with_status STATUS_RUNNING proc) ;;
  custom ← (if negb (ptype proc =? COMMAND_EXTERNAL) then launch_custom_commands proc else mret 0);
  if negb (custom =? 0) then mret 0
  else
    childpid ← fork;
    if childpid <? 0 then mret (-1)
    else
      j ← job_at job;
      call (Spawn childpid (if 0 <? pgid j then pgid j else childpid) (argv proc) in_fd out_fd error_fd) ;;
      proc ← proc_at job k;
      put_proc job k (with_pid childpid proc) ;;
      j ← job_at job;
      (if 0 <? pgid j then call (Setpgid childpid (pgid j))
       else put_job job (with_pgid childpid j) ;; call (Setpgid childpid childpid)) ;;
      if mode =? FOREGROUND_EXECUTION then wait_in_foreground job else mret 0.

(** The last process of a pipeline: its files, its start. *)
Definition launch_last (job k in_fd : Z) (proc : process) : M shell Z :=
  out_fd ← (match output_path proc with None => mret 1 | Some path => fd ← open_file path; mret (if fd <? 0 then 1 else fd) end);
  error_fd ← (match error_path proc with None => mret 2 | Some path => fd ← open_file path; mret (if fd <? 0 then 2 else fd) end);
  j ← job_at job;
  launch_command_helper job k in_fd out_fd error_fd (mode j).

(** The loop over the processes from number [k] on, [n] of them; [None] when the
    input file of the first cannot be opened. *)
Fixpoint launch_loop (n : nat) (job job_id k in_fd : Z) (fd : Z * Z) (status : Z) : M shell (option Z) :=
  match n with
  | O => mret (Some status)
  | S n =>
      proc ← proc_at job k;
      in_fd ← (match (if k =? 0 then input_path proc else None) with
               | None => mret (Some in_fd)
               | Some path =>
                   in_fd ← open_file path;
                   if in_fd <? 0 then
                     fprintf_stderr (FILEDIRECTORY_ERROR ++ codes " " ++ path ++ [10]) ;;
                     _ ← remove_job job_id;
                     mret None
                   else mret (Some in_fd)
               end);
      match in_fd with
      | None => mret None
      | Some in_fd =>
          match n with
          | O => status ← launch_last job k in_fd proc; mret (Some status)
          | S _ =>
              fd ← pipe fd;
              status ← launch_command_helper job k in_fd (snd fd) 2 PIPELINE_EXECUTION;
              call (Close (snd fd)) ;;
              launch_loop n job job_id (k + 1) (fst fd) fd status
          end
      end
  end.

(** The end of [launch_commander]. *)
Definition settle (job job_id status : Z) : M shell Z :=
  j ← job_at job;
  first ← proc_at job 0;
  (if ptype first =? COMMAND_EXTERNAL then
     if (0 <=? status) && (mode j =? FOREGROUND_EXECUTION) then _ ← remove_job job_id; mret tt
     else if mode j =? BACKGROUND_EXECUTION then _ ← print_processes_of_job job_id; mret tt
     else mret tt
   else mret tt) ;;
  mret status.

(** [job] is the address of a job that was just parsed; the array [fd] is not
    initialized, its values are an argument. *)
Definition launch_commander (job : Z) (fd : Z * Z) : M shell Z :=
  check_jobs ;;
  j ← job_at job;
  first ← proc_at job 0;
  job_id ← (if ptype first =? COMMAND_EXTERNAL then insert_job job else mret (-1));
  r ← launch_loop (length (root j)) job job_id 0 0 fd 0;
  match r with None => mret (-1) | Some status => settle job job_id status end.
