(* ===== verification/ShellSpec.v ===== *)
(** * Running a pipeline

    What launch_commander does to the system and to the job table when a pipeline
    of programs is started, in the foreground and in the background, and what the
    commands fg and bg find. *)

From Stdlib Require Import Ascii.
From Stdlib Require Import(notations) String.
From S2P Require Import Prelude Stdio Jobs JobsSpec JobsCorrect Shell.

(** ** The processes and the calls of a pipeline *)

Definition start_process (q : process) (f : Z) : process := with_pid f (with_status STATUS_RUNNING q).

(** The group of the job when its next process is [f]. *)
Definition group (j : job) (f : Z) : Z := if 0 <? pgid j then pgid j else f.

(** The calls that start the processes with the numbers [fs]: each but the last
    writes to a pipe that the next one reads. *)
Fixpoint plumbing (procs : list process) (fs : list Z) (ps : list (Z * Z)) (g in_fd : Z) : list event :=
  match procs, fs with
  | [q], f :: _ => [Spawn f g (argv q) in_fd 1 2; Setpgid f g]
  | q :: procs, f :: fs =>
      match ps with
      | (r, w) :: ps => [Pipe (r, w); Spawn f g (argv q) in_fd w 2; Setpgid f g; Close w] ++ plumbing procs fs ps g r
      | [] => []
      end
  | _, _ => []
  end.

(** A program without redirections. *)
Definition plain (q : process) : Prop :=
  ptype q = COMMAND_EXTERNAL /\ input_path q = None /\ output_path q = None /\ error_path q = None.

(** The state with [j'] at [p], after the calls [evs], with [fs] and [ps] left. *)
Definition started (s : shell) (p : Z) (j' : job) (fs : list Z) (ps : list (Z * Z)) (evs : list event) : shell :=
  with_calls (calls s ++ evs) (with_sys (mk_os fs (opens (sys s)) ps (reports (sys s)) (kills (sys s))) (with_heap (<[p := j']> (heap s)) s)).

Section Launch.
Implicit Types (s : shell) (j : job) (p k f : Z).

Lemma put_proc_run s p k q j : heap s !! p = Some j ->
  put_proc p k q s = Done (tt, with_heap (<[p := with_root (zset (root j) k q) j]> (heap s)) s).
Proof.
  intros Hj. unfold put_proc. erewrite bind_done by by apply job_at_run. unfold put_job. by rewrite Hj.
Qed.

Lemma proc_at_run s p k q j : heap s !! p = Some j -> zget (root j) k = Some q -> proc_at p k s = Done (q, s).
Proof. intros Hj Hq. unfold proc_at, load. rewrite Hj. cbn. by rewrite Hq. Qed.

Lemma helper_run s p k j q f fs i o e m : heap s !! p = Some j -> zget (root j) k = Some q -> ptype q = COMMAND_EXTERNAL ->
  forks (sys s) = f :: fs -> 0 < f ->
  launch_command_helper p k i o e m s = (if m =? FOREGROUND_EXECUTION then wait_in_foreground p else mret 0)
    (started s p (with_pgid (group j f) (with_root (zset (root j) k (start_process q f)) j)) fs (pipes (sys s))
       [Spawn f (group j f) (argv q) i o e; Setpgid f (group j f)]).
Proof.
  intros Hj Hq Hty Hf Hpos. pose proof (zget_inv _ _ _ Hq) as Hk. unfold launch_command_helper. erewrite bind_done by by eapply proc_at_run.
  erewrite bind_done by by apply put_proc_run. rewrite Hty. change (negb (COMMAND_EXTERNAL =? COMMAND_EXTERNAL)) with false. cbn iota.
  erewrite bind_done by done. change (negb (0 =? 0)) with false. cbn iota. set (j1 := with_root (zset (root j) k (with_status STATUS_RUNNING q)) j).
  erewrite bind_done by (unfold fork; cbn; rewrite Hf; reflexivity). rewrite (proj2 (Z.ltb_ge f 0)) by lia.
  erewrite bind_done by (apply job_at_run; cbn; apply lookup_insert_eq). erewrite bind_done by done.
  assert (zget (root j1) k = Some (with_status STATUS_RUNNING q)) as Hq1 by by apply zget_zset_eq.
  erewrite bind_done by (eapply proc_at_run; [cbn; apply lookup_insert_eq|exact Hq1]).
  erewrite bind_done by (apply put_proc_run; cbn; apply lookup_insert_eq). cbn [heap with_heap with_calls with_sys]. rewrite insert_insert_eq.
  assert (with_root (zset (root j1) k (with_pid f (with_status STATUS_RUNNING q))) j1 = with_root (zset (root j) k (start_process q f)) j) as ->
    by (unfold j1, with_root; cbn; by rewrite zset_zset).
  erewrite bind_done by (apply job_at_run; cbn; apply lookup_insert_eq).
  unfold started, group. cbn [pgid with_root]. destruct (Z.ltb_spec 0 (pgid j)) as [Hg|Hg].
  - erewrite bind_done by reflexivity. f_equal. unfold with_calls, with_sys, with_heap. cbn.
    rewrite <- app_assoc, (proj2 (Z.ltb_lt 0 (pgid j))) by done. by destruct j.
  - erewrite bind_done; [|erewrite bind_done by (unfold put_job; cbn; rewrite lookup_insert_eq; reflexivity); reflexivity].
    f_equal. unfold with_calls, with_sys, with_heap. cbn. rewrite insert_insert_eq, <- app_assoc, (proj2 (Z.ltb_ge 0 (pgid j))) by done. done.
Qed.

Lemma zset_middle {A} (l1 l2 : list A) a b : zset (l1 ++ a :: l2) (zlen l1) b = l1 ++ b :: l2.
Proof. unfold zset, zlen. rewrite decide_True by lia. rewrite Nat2Z.id. apply insert_middle. Qed.

Lemma zget_middle {A} (l1 l2 : list A) a : zget (l1 ++ a :: l2) (zlen l1) = Some a.
Proof. unfold zget, zlen. rewrite decide_True, Nat2Z.id by lia. by apply list_lookup_middle. Qed.

Lemma started_started s p j1 fs1 ps1 evs1 j2 fs2 ps2 evs2 :
  started (started s p j1 fs1 ps1 evs1) p j2 fs2 ps2 evs2 = started s p j2 fs2 ps2 (evs1 ++ evs2).
Proof. unfold started, with_calls, with_sys, with_heap. cbn. by rewrite insert_insert_eq, <- app_assoc. Qed.

Lemma started_call s p j fs ps evs e :
  with_calls (calls (started s p j fs ps evs) ++ [e]) (started s p j fs ps evs) = started s p j fs ps (evs ++ [e]).
Proof. unfold started. destruct s. cbn. unfold with_calls. cbn. by rewrite <- app_assoc. Qed.

(** A pipe that was taken before. *)
Definition piped s (r : Z * Z) ps : shell :=
  with_sys (mk_os (forks (sys s)) (opens (sys s)) ps (reports (sys s)) (kills (sys s))) (with_calls (calls s ++ [Pipe r]) s).

Lemma started_piped s p j fs ps evs r ps1 : started (piped s r ps1) p j fs ps evs = started s p j fs ps (Pipe r :: evs).
Proof. unfold started, piped. destruct s. cbn. unfold with_calls. cbn. by rewrite <- app_assoc. Qed.

(** The end of a pipeline: the last process, and the wait for the job. *)
Definition finish_launch p j : M shell (option Z) :=
  status ← (if mode j =? FOREGROUND_EXECUTION then wait_in_foreground p else mret 0); mret (Some status).

Lemma launch_loop_run procs : forall s p id j ready fs ft ps pt in_fd fd st, heap s !! p = Some j -> root j = ready ++ procs ->
  procs <> [] -> Forall plain procs -> forks (sys s) = fs ++ ft -> length fs = length procs -> Forall (fun f => 0 < f) fs ->
  pipes (sys s) = ps ++ pt -> S (length ps) = length procs ->
  let g := group j (hd 0 fs) in
  launch_loop (length procs) p id (zlen ready) in_fd fd st s =
    finish_launch p j (started s p (with_pgid g (with_root (ready ++ zip_with start_process procs fs) j)) ft pt (plumbing procs fs ps g in_fd)).
Proof.
  induction procs as [|q procs IH]; intros s p id j ready fs ft ps pt in_fd fd st Hj Hr Hne HF Hfk Hlf Hpos Hps Hlp g; [done|].
  apply Forall_cons in HF as [(Hty & Hin & Hout & Herr) HF]. destruct fs as [|f fs]; [done|]. apply Forall_cons in Hpos as [Hf Hpos]. cbn [hd] in g.
  assert (zget (root j) (zlen ready) = Some q) as Hq by (rewrite Hr; apply zget_middle).
  assert (forall x, zset (root j) (zlen ready) x = ready ++ x :: procs) as Hset by (intros x; rewrite Hr; apply zset_middle).
  cbn [length launch_loop]. erewrite bind_done by by eapply proc_at_run.
  assert ((if zlen ready =? 0 then input_path q else None) = None) as -> by (rewrite Hin; by destruct (zlen ready =? 0)).
  erewrite bind_done by done. destruct procs as [|q' procs]; cbn [length].
  - destruct fs; [|done]. destruct ps; [|done]. unfold launch_last. rewrite Hout, Herr. unfold finish_launch, bnd, mbind, M_bind, mret, M_ret.
    rewrite (job_at_run s p j Hj). rewrite (helper_run s p (zlen ready) j q f ft in_fd 1 2 (mode j) Hj Hq Hty Hfk Hf). rewrite Hset, Hps. done.
  - destruct ps as [|[r w] ps]; [done|].
    set (s1 := piped s (r, w) (ps ++ pt)).
    erewrite (bind_done _ _ s (r, w) s1) by (unfold pipe; by rewrite Hps). cbn [fst snd].
    set (j1 := with_pgid g (with_root (zset (root j) (zlen ready) (start_process q f)) j)).
    erewrite bind_done; [|rewrite (helper_run s1 p (zlen ready) j q f (fs ++ ft) in_fd w 2 PIPELINE_EXECUTION Hj Hq Hty Hfk Hf); reflexivity].
    erewrite bind_done by done. fold g. fold j1.
    set (s2 := started s1 p j1 (fs ++ ft) (pipes (sys s1)) [Spawn f g (argv q) in_fd w 2; Setpgid f g]). fold s2. change (S (length procs)) with (length (q' :: procs)).
    assert (0 < g) as Hg by (unfold g, group; destruct (Z.ltb_spec 0 (pgid j)); lia).
    assert (zlen ready + 1 = zlen (ready ++ [start_process q f])) as -> by by rewrite zlen_app.
    rewrite (IH (with_calls (calls s2 ++ [Close w]) s2) p id j1 (ready ++ [start_process q f]) fs ft ps pt r (r, w) 0);
      [|cbn; apply lookup_insert_eq|unfold j1; cbn; rewrite Hset, <- app_assoc; done|done|done|done|cbn in Hlf; cbn; lia|done|done|cbn in Hlp; cbn; lia].
    assert (group j1 (hd 0 fs) = g) as -> by (unfold group, j1; cbn; by rewrite (proj2 (Z.ltb_lt 0 g))).
    assert (finish_launch p j1 = finish_launch p j) as -> by (unfold finish_launch; by assert (mode j1 = mode j) as -> by done).
    apply (f_equal (finish_launch p j)). unfold s2. rewrite started_call, started_started. unfold s1. rewrite started_piped.
    f_equal. unfold j1, with_pgid, with_root. cbn [jid root jcommand pgid mode bgcommand zip_with]. by rewrite <- app_assoc.
Qed.

(** ** A pipeline that is ready to start *)

(** A parsed job of programs without redirections, a free number for it, and a
    system that starts its processes, whose numbers no other process has. *)
Record ready s p j (id : Z) (fs ft : list Z) (ps pt : list (Z * Z)) : Prop := {
  rd_table : table_ok s;
  rd_ptr : p <> NULL;
  rd_job : heap s !! p = Some j;
  rd_new : ~ in_table s p;
  rd_procs : root j <> [];
  rd_plain : Forall plain (root j);
  rd_group : pgid j <= 0;
  rd_free : first_free s id;
  rd_forks : forks (sys s) = fs ++ ft;
  rd_count : length fs = length (root j);
  rd_pos : Forall (fun f => 0 < f) fs;
  rd_nodup : NoDup fs;
  rd_fresh : forall i j' n, tbl s i = Some j' -> In n fs -> ~ In n (pids j');
  rd_pipes : pipes (sys s) = ps ++ pt;
  rd_pcount : S (length ps) = length (root j)
}.

(** The job with number [id] and its processes started. *)
Definition running j (id : Z) (fs : list Z) : job :=
  with_pgid (hd 0 fs) (with_root (zip_with start_process (root j) fs) (with_jid id j)).

Lemma running_pids j id fs : length fs = length (root j) -> pids (running j id fs) = fs.
Proof.
  unfold pids, running. cbn. generalize (root j). induction fs as [|f fs IH]; intros [|q l] Hl; try done. cbn. f_equal. apply IH. by injection Hl.
Qed.

Lemma running_status j id fs : Forall (fun q => status q = Some STATUS_RUNNING) (root (running j id fs)).
Proof.
  unfold running. cbn. generalize (root j). induction fs as [|f fs IH]; intros [|q l]; cbn; try constructor; [done|apply IH].
Qed.

Lemma running_first j id fs q l f fs' : root j = q :: l -> fs = f :: fs' -> zget (root (running j id fs)) 0 = Some (start_process q f).
Proof. intros Hr ->. unfold running. cbn. rewrite Hr. done. Qed.

(** Up to the last process, nothing else having been reported. *)
Lemma commander_run s p j id fs ft ps pt w rest fd : ready s p j id fs ft ps pt -> reports (sys s) = (0, w) :: rest ->
  exists s3, launch_commander p fd s = (r ← finish_launch p j; match r with None => mret (-1) | Some status => settle p id status end) s3 /\
    table_ok s3 /\ (forall k, tbl s3 k = tbl_upd s id (Some (running j id fs)) k) /\ zget (jobs s3) id = Some p /\
    sys s3 = mk_os ft (opens (sys s)) pt rest (kills (sys s)) /\ out s3 = out s /\ self s3 = self s /\
    calls s3 = calls s ++ Waitpid (-1) :: plumbing (root j) fs ps (hd 0 fs) 0.
Proof.
  intros [Hok Hp Hj Hnew Hne HF Hg Hfree Hfk Hc Hpos _ _ Hps Hpc] Hrep. set (s1 := with_report (-1) rest s).
  destruct (table_ok_ext s s1 eq_refl eq_refl Hok) as [Hok1 Ht1].
  destruct (insert_job_run s1 p j Hok1 Hp Hj Hnew) as [Hins _]. destruct (Hins id) as (s2 & Hi & Hok2 & Es2 & Ht2).
  { destruct Hfree as (H1 & H2 & H3). split; [done|]. split; [by rewrite Ht1|]. intros l Hl. rewrite Ht1. by apply H3. }
  destruct (root j) as [|q l] eqn:Er; [done|]. destruct fs as [|f fs]; [done|].
  assert (zget (jobs s2) id = Some p) as Hz.
  { rewrite Es2. cbn. apply zget_zset_eq. rewrite (ok_len s Hok). destruct Hfree as (? & _). unfold NR_JOBS. lia. }
  assert (heap s2 !! p = Some (with_jid id j)) as Hj2 by (rewrite Es2; cbn; apply lookup_insert_eq).
  destruct (put_job_run s2 id p (running j id (f :: fs)) Hok2 Hz Hp eq_refl) as (s3 & _ & E3 & Hok3 & Ht3).
  exists (started s2 p (running j id (f :: fs)) ft pt (plumbing (root j) (f :: fs) ps f 0)). split; [|split; [|split; [|split; [done|]]]].
  - unfold launch_commander. erewrite bind_done.
    2: { unfold check_jobs. erewrite bind_done by done. cbn [check_loop]. erewrite bind_done by (unfold waitpid; cbn; rewrite Hrep; done). cbn beta iota.
         change (0 <? 0) with false. reflexivity. }
    fold s1. erewrite bind_done by (by apply job_at_run). erewrite bind_done by (eapply proc_at_run; [exact Hj|by rewrite Er]).
    pose proof HF as [(Hty & _) _]%Forall_cons. rewrite Hty. change (COMMAND_EXTERNAL =? COMMAND_EXTERNAL) with true. cbn iota.
    erewrite bind_done by exact Hi. unfold bnd at 1, mbind, M_bind. rewrite Er.
    change (launch_loop (length (q :: l)) p id 0 0 fd 0 s2) with (launch_loop (length (q :: l)) p id (zlen (@nil process)) 0 fd 0 s2).
    rewrite (launch_loop_run (q :: l) s2 p id (with_jid id j) [] (f :: fs) ft ps pt 0 fd 0); try done; [|by rewrite Es2..].
    assert (group (with_jid id j) (hd 0 (f :: fs)) = f) as -> by (unfold group; cbn; by rewrite (proj2 (Z.ltb_ge 0 (pgid j)))).
    unfold running. rewrite Er. reflexivity.
  - destruct (table_ok_ext s3 (started s2 p (running j id (f :: fs)) ft pt (plumbing (root j) (f :: fs) ps f 0))) as [H _]; [by rewrite E3|by rewrite E3|done|exact H].
  - intros k. destruct (table_ok_ext s3 (started s2 p (running j id (f :: fs)) ft pt (plumbing (root j) (f :: fs) ps f 0))) as [_ Ht]; [by rewrite E3|by rewrite E3|done|].
    rewrite Ht, Ht3. unfold tbl_upd. case_decide; [done|]. rewrite Ht2. unfold tbl_upd. by rewrite decide_False, Ht1.
  - rewrite Es2. unfold s1, started. cbn. rewrite <- app_assoc, Er. done.
Qed.

(** ** In the foreground and in the background *)

Lemma tbl_slot s id p j : zget (jobs s) id = Some p -> tbl s id = Some j -> p <> NULL /\ heap s !! p = Some j.
Proof. intros Hz H. apply tbl_inv in H as (p' & Hz' & Hne & Hj). assert (p' = p) as -> by congruence. done. Qed.

Lemma running_valid j id fs : Forall valid_status (root (running j id fs)).
Proof. eapply Forall_impl; [apply running_status|]. intros q Hq. by exists STATUS_RUNNING. Qed.

Lemma running_remaining j id fs : remaining (running j id fs) = root (running j id fs).
Proof.
  unfold remaining. pose proof (running_status j id fs) as H. induction H as [|q l Hq _ IH]; [done|]. cbn [List.filter].
  rewrite Hq, bool_decide_false by done. cbn [negb]. by rewrite IH.
Qed.

Lemma wait_in_foreground_run s3 p id j3 rs rest : table_ok s3 -> own_pids s3 id -> tbl s3 id = Some j3 -> zget (jobs s3) id = Some p ->
  Forall valid_status (root j3) -> remaining j3 <> [] -> reports (sys s3) = rs ++ rest -> map fst rs ≡ₚ map pid (remaining j3) ->
  Forall (fun r => 0 < fst r /\ ended (snd r) = true) rs ->
  exists s4, wait_in_foreground p s3 = Done (default 0 (snd <$> last rs), s4) /\ table_ok s4 /\
    (forall k, tbl s4 k = tbl_upd s3 id (Some (finished j3)) k) /\ zget (jobs s4) id = Some p /\
    reports (sys s4) = rest /\ out s4 = out s3 /\
    calls s4 = calls s3 ++ Tcsetpgrp (pgid j3) :: replicate (length rs) (Waitpid (- pgid j3)) ++ [Tcsetpgrp (self s3)].
Proof.
  intros Hok Hown Hj Hz HV Hne Hrep Hperm HF. pose proof (tbl_slot s3 id p j3 Hz Hj) as [_ Hh]. pose proof (tbl_range s3 id j3 Hok Hj) as [_ Hid].
  unfold wait_in_foreground. erewrite bind_done by by apply job_at_run. erewrite bind_done by done. rewrite Hid. erewrite bind_done by done.
  set (s1 := with_calls (calls s3 ++ [Tcsetpgrp (pgid j3)]) s3). destruct (table_ok_ext s3 s1 eq_refl eq_refl Hok) as [Hok1 Ht1].
  destruct (wait_for_job_run s1 id j3 rs rest Hok1) as (s2 & Hw & Hok2 & Ht2 & E2); try done.
  erewrite bind_done by exact Hw. set (s4 := with_calls (calls s2 ++ [Tcsetpgrp (self s2)]) s2). exists s4. split; [reflexivity|].
  destruct (table_ok_ext s2 s4 eq_refl eq_refl Hok2) as [Hok4 Ht4]. split; [done|]. split.
  - intros k. rewrite Ht4, Ht2. unfold tbl_upd. by rewrite Ht1.
  - subst s4. rewrite E2. unfold after_reports. cbn. split; [done|]. split; [done|]. split; [done|]. by rewrite <- !app_assoc.
Qed.

Lemma foreground_run s p j id fs ft ps pt w rs rest fd : ready s p j id fs ft ps pt -> mode j = FOREGROUND_EXECUTION ->
  reports (sys s) = (0, w) :: rs ++ rest -> map fst rs ≡ₚ fs -> Forall (fun r => ended (snd r) = true) rs ->
  0 <= default 0 (snd <$> last rs) ->
  exists s', launch_commander p fd s = Done (default 0 (snd <$> last rs), s') /\ table_ok s' /\
    (forall k, tbl s' k = tbl s k) /\ heap s' !! p = None /\ reports (sys s') = rest /\ out s' = out s /\
    calls s' = calls s ++ Waitpid (-1) :: plumbing (root j) fs ps (hd 0 fs) 0 ++
      Tcsetpgrp (hd 0 fs) :: replicate (length rs) (Waitpid (- hd 0 fs)) ++ [Tcsetpgrp (self s)].
Proof.
  intros Hr Hm Hrep Hperm HE Hst. pose proof Hr as [Hok Hp Hj _ Hne HF _ Hfree _ Hc Hpos Hnd Hfresh _ _].
  destruct (commander_run s p j id fs ft ps pt w (rs ++ rest) fd Hr Hrep) as (s3 & Hrun & Hok3 & Ht3 & Hz3 & Hs3 & Ho3 & Hself & Hcalls).
  assert (tbl s3 id = Some (running j id fs)) as Hj3 by (rewrite Ht3; unfold tbl_upd; by rewrite decide_True).
  pose proof (running_pids j id fs Hc) as Epids.
  assert (remaining (running j id fs) = root (running j id fs)) as Erem by apply running_remaining.
  destruct (wait_in_foreground_run s3 p id (running j id fs) rs rest Hok3) as (s4 & Hw & Hok4 & Ht4 & Hz4 & Hs4 & Ho4 & Hc4); try done.
  - intros j1 Hj1. assert (j1 = running j id fs) as -> by congruence. rewrite Epids. split; [done|]. intros k j' Hk Hj' n Hn.
    rewrite Ht3 in Hj'. unfold tbl_upd in Hj'. rewrite decide_False in Hj' by done. by eapply Hfresh.
  - apply running_valid.
  - rewrite Erem. intros E. unfold pids in Epids. rewrite E in Epids. cbn in Epids. rewrite <- Epids in Hc. by destruct (root j).
  - by rewrite Hs3.
  - rewrite Erem. change (map pid (root (running j id fs))) with (pids (running j id fs)). by rewrite Epids.
  - apply List.Forall_forall. intros r Hin. rewrite List.Forall_forall in HE, Hpos. split; [|by apply HE].
    apply Hpos. apply (in_map fst), list_elem_of_In in Hin. rewrite Hperm in Hin. by apply list_elem_of_In.
  - assert (tbl s4 id = Some (finished (running j id fs))) as Hj4 by (rewrite Ht4; unfold tbl_upd; by rewrite decide_True).
    pose proof (tbl_slot s4 id p _ Hz4 Hj4) as [_ Hh4].
    destruct (remove_job_run s4 id _ Hok4 Hj4) as (p' & s5 & Hz' & Hrm & Hok5 & E5 & Ht5). assert (p' = p) as -> by congruence.
    exists s5. split; [|split; [done|split; [|rewrite E5; cbn]]].
    + rewrite Hrun. unfold finish_launch. rewrite Hm. change (FOREGROUND_EXECUTION =? FOREGROUND_EXECUTION) with true. cbn iota.
      erewrite bind_done by (erewrite bind_done by exact Hw; reflexivity). cbn beta iota. unfold settle. erewrite bind_done by by apply job_at_run.
      destruct (root j) as [|q l] eqn:Er; [done|]. destruct fs as [|f fs']; [done|].
      erewrite bind_done. 2: { eapply proc_at_run; [exact Hh4|]. unfold finished. cbn [root with_root]. unfold running. cbn. rewrite Er. reflexivity. }
      pose proof HF as [(Hty & _) _]%Forall_cons. assert (ptype (with_status STATUS_DONE (start_process q f)) = COMMAND_EXTERNAL) as -> by done.
      change (COMMAND_EXTERNAL =? COMMAND_EXTERNAL) with true. cbn iota. rewrite (proj2 (Z.leb_le _ _)) by done.
      assert (mode (finished (running j id (f :: fs'))) = FOREGROUND_EXECUTION) as -> by done. change (FOREGROUND_EXECUTION =? FOREGROUND_EXECUTION) with true. cbn [andb].
      erewrite bind_done; [reflexivity|]. by erewrite bind_done by exact Hrm.
    + intros k. rewrite Ht5. unfold tbl_upd. case_decide as Hk; [subst k; symmetry; apply Hfree|]. rewrite Ht4. unfold tbl_upd. rewrite decide_False by done.
      rewrite Ht3. unfold tbl_upd. by rewrite decide_False.
    + split; [apply lookup_delete_eq|]. split; [done|]. split; [by rewrite Ho4|]. rewrite Hc4, Hcalls, Hself.
      change (pgid (running j id fs)) with (hd 0 fs). by rewrite <- app_assoc.
Qed.

(** C37: A pipeline in the foreground starts its programs in one group, each
    writing to a pipe that the next reads, gives the group the terminal, waits for
    all of them in whatever order they end, takes the terminal back and leaves the
    job table as it was. *)
Theorem launch_foreground_correct s p j id fs ft ps pt w rs rest fd : ready s p j id fs ft ps pt -> mode j = FOREGROUND_EXECUTION ->
  reports (sys s) = (0, w) :: rs ++ rest -> map fst rs ≡ₚ fs -> Forall (fun r => ended (snd r) = true) rs ->
  0 <= default 0 (snd <$> last rs) ->
  exists s', launch_commander p fd s = Done (default 0 (snd <$> last rs), s') /\ table_ok s' /\
    (forall k, tbl s' k = tbl s k) /\ heap s' !! p = None /\ reports (sys s') = rest /\ out s' = out s /\
    calls s' = calls s ++ Waitpid (-1) :: plumbing (root j) fs ps (hd 0 fs) 0 ++
      Tcsetpgrp (hd 0 fs) :: replicate (length rs) (Waitpid (- hd 0 fs)) ++ [Tcsetpgrp (self s)].
Proof. apply foreground_run. Qed.

Lemma print_processes_run s id j : table_ok s -> tbl s id = Some j ->
  print_processes_of_job id s = Done (0, with_out (out s ++ codes "[" ++ dec id ++ codes "]" ++
    concat (map (fun q => codes " " ++ dec (pid q)) (root j)) ++ [10]) s).
Proof.
  intros Hok Hj. destruct (some_job_run s id j Hok Hj) as (p & _ & _ & Hh & E). unfold print_processes_of_job. rewrite E.
  erewrite bind_done by done. erewrite bind_done by (by apply job_at_run). erewrite bind_done by done. erewrite bind_done by done.
  unfold mret, M_ret, with_out. cbn [out jobs heap next_addr err calls sys input signal_recieved self garbage]. by rewrite <- !app_assoc.
Qed.

(** A pipeline in the background starts the same way and is not waited for: it
    stays in the table under the first free number, which is printed with the
    numbers of its processes. *)
Theorem launch_background_correct s p j id fs ft ps pt w rest fd : ready s p j id fs ft ps pt -> mode j = BACKGROUND_EXECUTION ->
  reports (sys s) = (0, w) :: rest ->
  exists s', launch_commander p fd s = Done (0, s') /\ table_ok s' /\
    (forall k, tbl s' k = tbl_upd s id (Some (running j id fs)) k) /\ reports (sys s') = rest /\
    out s' = out s ++ codes "[" ++ dec id ++ codes "]" ++ concat (map (fun f => codes " " ++ dec f) fs) ++ [10] /\
    calls s' = calls s ++ Waitpid (-1) :: plumbing (root j) fs ps (hd 0 fs) 0.
Proof.
  intros Hr Hm Hrep. pose proof Hr as [_ _ _ _ Hne HF _ _ _ Hc _ _ _ _ _].
  destruct (commander_run s p j id fs ft ps pt w rest fd Hr Hrep) as (s3 & Hrun & Hok3 & Ht3 & Hz3 & Hs3 & Ho3 & Hself & Hcalls).
  assert (tbl s3 id = Some (running j id fs)) as Hj3 by (rewrite Ht3; unfold tbl_upd; by rewrite decide_True).
  pose proof (tbl_slot s3 id p _ Hz3 Hj3) as [_ Hh3]. pose proof (print_processes_run s3 id _ Hok3 Hj3) as Hpr.
  destruct (table_ok_ext s3 (with_out (out s3 ++ codes "[" ++ dec id ++ codes "]" ++
    concat (map (fun q => codes " " ++ dec (pid q)) (root (running j id fs))) ++ [10]) s3) eq_refl eq_refl Hok3) as [Hok4 Ht4].
  eexists. split; [|split; [exact Hok4|split; [intros k; by rewrite Ht4, Ht3|]]].
  - rewrite Hrun. unfold finish_launch. rewrite Hm. change (BACKGROUND_EXECUTION =? FOREGROUND_EXECUTION) with false. cbn iota.
    erewrite bind_done by (erewrite bind_done by done; reflexivity). cbn beta iota. unfold settle. erewrite bind_done by by apply job_at_run.
    destruct (root j) as [|q l] eqn:Er; [done|]. destruct fs as [|f fs']; [done|].
    erewrite bind_done by (eapply proc_at_run; [exact Hh3|by eapply running_first]).
    pose proof HF as [(Hty & _) _]%Forall_cons. assert (ptype (start_process q f) = COMMAND_EXTERNAL) as -> by done.
    change (COMMAND_EXTERNAL =? COMMAND_EXTERNAL) with true. cbn iota. assert (mode (running j id (f :: fs')) = BACKGROUND_EXECUTION) as -> by done.
    change (BACKGROUND_EXECUTION =? FOREGROUND_EXECUTION) with false. change (BACKGROUND_EXECUTION =? BACKGROUND_EXECUTION) with true. rewrite andb_false_r. cbn iota.
    erewrite bind_done; [reflexivity|]. by erewrite bind_done by exact Hpr.
  - cbn. rewrite Hs3. split; [done|]. split; [|done]. rewrite Ho3. do 4 f_equal. f_equal.
    rewrite <- (running_pids j id fs Hc) at 2. unfold pids. by rewrite map_map.
Qed.

(** ** fg *)

(** Every process that is left gets the status [st]. *)
Definition resume_procs (st : Z) (procs : list process) : list process :=
  map (fun q => if bool_decide (status q = Some STATUS_DONE) then q else with_status st q) procs.

Lemma set_remaining_run st procs : Forall valid_status procs -> set_remaining st procs = Done (resume_procs st procs).
Proof.
  induction 1 as [|q procs (old & Hq & _) HF IH]; [done|]. cbn [set_remaining resume_procs map]. unfold get_status. rewrite Hq.
  rewrite (obind_done _ _ old) by done. rewrite (obind_done _ _ _ IH). do 2 f_equal.
  destruct (Z.eqb_spec old STATUS_DONE) as [->|Hne]; cbn [negb]; [by rewrite bool_decide_true|]. rewrite bool_decide_false by congruence. done.
Qed.

Lemma resumed_pids st procs : map pid (resume_procs st procs) = map pid procs.
Proof. unfold resume_procs. rewrite map_map. apply map_ext. intros q. by case_bool_decide. Qed.

Lemma resumed_command st procs : command_text (resume_procs st procs) = command_text procs.
Proof.
  induction procs as [|q procs IH]; [done|]. unfold resume_procs. rewrite map_cons. fold (resume_procs st procs). set (q1 := if bool_decide _ then q else _).
  assert (command q1 = command q) as E by (unfold q1; by case_bool_decide). clearbody q1.
  destruct procs as [|q' procs]; [cbn; by rewrite E|]. destruct (resume_procs st (q' :: procs)) as [|r rs] eqn:Em; [done|].
  change (command_text (?a :: r :: rs)) with (codes " " ++ command a ++ codes " | " ++ command_text (r :: rs)).
  change (command_text (q :: q' :: procs)) with (codes " " ++ command q ++ codes " | " ++ command_text (q' :: procs)). by rewrite E, IH.
Qed.

Lemma resumed_valid st procs : 0 <= st < 5 -> Forall valid_status procs -> Forall valid_status (resume_procs st procs).
Proof.
  intros Hst HF. unfold resume_procs. rewrite List.Forall_map. eapply Forall_impl; [exact HF|]. intros q Hq. case_bool_decide; [done|by exists st].
Qed.

Lemma resumed_remaining j : map pid (remaining (with_root (resume_procs STATUS_CONTINUED (root j)) j)) = map pid (remaining j).
Proof.
  unfold remaining. cbn. induction (root j) as [|q l IH]; [done|]. cbn [resume_procs map List.filter]. fold (resume_procs STATUS_CONTINUED l).
  destruct (bool_decide (status q = Some STATUS_DONE)) eqn:E; [rewrite E; cbn [negb]; exact IH|]. cbn [status with_status]. rewrite bool_decide_false by done.
  cbn [negb map]. by rewrite IH.
Qed.

Lemma set_job_status_run s id j st : table_ok s -> tbl s id = Some j -> Forall valid_status (root j) ->
  exists s', set_job_status id st s = Done (0, s') /\ heap_only s s' /\ table_ok s' /\
    forall k, tbl s' k = tbl_upd s id (Some (with_root (resume_procs st (root j)) j)) k.
Proof.
  intros Hok Hj HV. pose proof (tbl_range s id j Hok Hj) as [_ Hid]. unfold set_job_status.
  destruct (some_job_run s id j Hok Hj) as (p & Hz & Hne & Hh & E). rewrite E.
  destruct (put_job_run s id p (with_root (resume_procs st (root j)) j) Hok Hz Hne Hid) as (s' & Hput & Es & Hok' & Ht).
  exists s'. split; [|split; [by rewrite Es|by split]]. erewrite bind_done by by apply job_at_run.
  erewrite bind_done by (apply liftO_run; by apply set_remaining_run). by erewrite bind_done by exact Hput.
Qed.

(** The part of [command_fg] for a job of the table. *)
Lemma resume_and_wait s id j rs rest : table_ok s -> own_pids s id -> tbl s id = Some j -> printable (garbage s) j ->
  remaining j <> [] -> reports (sys s) = rs ++ rest -> map fst rs ≡ₚ map pid (remaining j) ->
  Forall (fun r => 0 < fst r /\ ended (snd r) = true) rs -> 0 <= default 0 (snd <$> last rs) ->
  exists s', (_ ← set_job_status id STATUS_CONTINUED; _ ← print_job_status id PRINT_OPTIONS_COMMAND_FG;
      w ← wait_for_job id; if 0 <=? w then _ ← remove_job id; mret tt else mret tt) s = Done (tt, s') /\
    table_ok s' /\ (forall k, tbl s' k = tbl_upd s id None k) /\ reports (sys s') = rest.
Proof.
  intros Hok Hown Hj (Hne & HV & Hlen) Hrem Hrep Hperm HF Hst.
  destruct (set_job_status_run s id j STATUS_CONTINUED Hok Hj HV) as (s1 & R1 & E1 & Hok1 & Ht1). erewrite bind_done by exact R1.
  set (j1 := with_root (resume_procs STATUS_CONTINUED (root j)) j) in *.
  assert (tbl s1 id = Some j1) as Hj1 by (rewrite Ht1; unfold tbl_upd; by rewrite decide_True).
  assert (printable (garbage s1) j1) as Hpr.
  { split; [unfold j1; cbn; by destruct (root j)|]. split; [by apply resumed_valid|]. unfold j1. cbn [root with_root]. rewrite resumed_command, E1. done. }
  destruct (print_job_status_run s1 id j1 PRINT_OPTIONS_COMMAND_FG Hok1 Hj1 Hpr) as (text & R2). erewrite bind_done by exact R2.
  set (s2 := with_out (out s1 ++ text) s1). destruct (table_ok_ext s1 s2 eq_refl eq_refl Hok1) as [Hok2 Ht2].
  destruct (wait_for_job_run s2 id j1 rs rest Hok2) as (s3 & R3 & Hok3 & Ht3 & E3).
  - intros j0 Hj0. rewrite Ht2, Hj1 in Hj0. injection Hj0 as <-. destruct (Hown j Hj) as [Hd Ho]. unfold pids, j1. cbn. rewrite resumed_pids.
    split; [done|]. intros k j' Hk Hj'. rewrite Ht2, Ht1 in Hj'. unfold tbl_upd in Hj'. rewrite decide_False in Hj' by done. by apply (Ho k j').
  - by rewrite Ht2.
  - apply Hpr.
  - intros E. apply (f_equal (map pid)) in E. unfold j1 in E. rewrite resumed_remaining in E. by destruct (remaining j).
  - unfold s2. cbn. by rewrite E1.
  - unfold j1. by rewrite resumed_remaining.
  - done.
  - erewrite bind_done by exact R3. rewrite (proj2 (Z.leb_le _ _)) by done.
    assert (tbl s3 id = Some (finished j1)) as Hj3 by (rewrite Ht3; unfold tbl_upd; by rewrite decide_True).
    destruct (remove_job_run s3 id _ Hok3 Hj3) as (p & s4 & _ & R4 & Hok4 & E4 & Ht4). exists s4. split; [by erewrite bind_done by exact R4|].
    split; [done|]. split; [|rewrite E4; cbn; by rewrite E3]. intros k. rewrite Ht4. unfold tbl_upd. case_decide; [done|].
    rewrite Ht3. unfold tbl_upd. rewrite decide_False by done. rewrite Ht2, Ht1. unfold tbl_upd. by rewrite decide_False.
Qed.

Lemma fg_pid s id j : table_ok s -> tbl s id = Some j -> get_pgid_by_job_id id s = Done (pgid j, s).
Proof.
  intros Hok Hj. pose proof (tbl_range s id j Hok Hj) as [Hr _]. apply tbl_inv in Hj as (p & Hz & Hne & Hh).
  unfold get_pgid_by_job_id, get_job_by_id. rewrite (proj2 (Z.ltb_ge _ _)) by lia. erewrite bind_done by by apply slot_run.
  rewrite (proj2 (Z.eqb_neq p NULL)) by done. by erewrite bind_done by by apply job_at_run.
Qed.

(** fg with the jobs 1 to [id] in the table: it continues job [id], waits for its
    processes and removes it; the other jobs stay. *)
Theorem fg_correct s id j r ks rs rest : table_ok s -> own_pids s id -> tbl s id = Some j -> first_free s (id + 1) ->
  printable (garbage s) j -> 0 < pgid j -> kills (sys s) = r :: ks -> 0 <= r -> remaining j <> [] ->
  reports (sys s) = rs ++ rest -> map fst rs ≡ₚ map pid (remaining j) ->
  Forall (fun r => 0 < fst r /\ ended (snd r) = true) rs -> 0 <= default 0 (snd <$> last rs) ->
  exists s', command_fg 1 s = Done (0, s') /\ table_ok s' /\ (forall k, tbl s' k = tbl_upd s id None k) /\ reports (sys s') = rest.
Proof.
  intros Hok Hown Hj Hfree Hpr Hg Hk Hr Hrem Hrep Hperm HF Hst. unfold command_fg. change (negb (1 =? 1)) with false. cbn iota.
  destruct (get_last_job_id_run s Hok) as [Hl _]. erewrite bind_done by (by apply Hl). replace (id + 1 - 1) with id by lia.
  erewrite bind_done by by apply fg_pid. rewrite (proj2 (Z.ltb_ge (pgid j) 0)) by lia.
  erewrite bind_done by (unfold kill; rewrite Hk; reflexivity). rewrite (proj2 (Z.ltb_ge r 0)) by lia. erewrite bind_done by done.
  set (s1 := with_calls _ _). destruct (table_ok_ext s s1 eq_refl eq_refl Hok) as [Hok1 Ht1].
  pose proof (tbl_range s id j Hok Hj) as [Hid _]. rewrite (proj2 (Z.ltb_lt 0 id)) by lia.
  destruct (resume_and_wait s1 id j rs rest Hok1) as (s2 & R & Hok2 & Ht2 & Hr2); try done.
  erewrite bind_done by exact R. set (s3 := with_calls (calls s2 ++ [Tcsetpgrp (self s2)]) s2).
  destruct (table_ok_ext s2 s3 eq_refl eq_refl Hok2) as [Hok3 Ht3]. exists s3. split; [reflexivity|]. split; [done|]. split; [|done].
  intros k. rewrite Ht3, Ht2. unfold tbl_upd. by rewrite Ht1.
Qed.

(** fg looks for the job before the first free number, not for the last job: when
    number 1 is free it finds none, whatever jobs there are. *)
Theorem fg_misses_jobs s : table_ok s -> tbl s 1 = None ->
  command_fg 1 s = Done (-1, with_err (err s ++ JOBEXISIT_ERROR) s) /\ command_bg 1 s = Done (-1, with_err (err s ++ JOBEXISIT_ERROR) s).
Proof.
  intros Hok H1. destruct (get_last_job_id_run s Hok) as [Hl _].
  assert (first_free s 1) as Hf by (split; [lia|]; split; [done|]; intros; lia). specialize (Hl 1 Hf). change (1 - 1) with 0 in Hl.
  assert (get_pgid_by_job_id 0 s = Done (-1, s)) as Hg.
  { unfold get_pgid_by_job_id, get_job_by_id. change (NR_JOBS <? 0) with false. cbn iota. erewrite bind_done by (apply slot_run, ok_zero; done). done. }
  split; [unfold command_fg|unfold command_bg]; change (negb (1 =? 1)) with false; cbn iota;
    (erewrite bind_done by exact Hl); (erewrite bind_done by exact Hg); change (-1 <? 0) with true; cbn iota; reflexivity.
Qed.

(** With all twenty numbers in use, fg and bg read the element before the table. *)
Theorem fg_full_table_faults s : table_ok s -> full s -> command_fg 1 s = Fault /\ command_bg 1 s = Fault.
Proof.
  intros Hok Hf. destruct (get_last_job_id_run s Hok) as [_ Hl]. specialize (Hl Hf).
  split; [unfold command_fg|unfold command_bg]; change (negb (1 =? 1)) with false; cbn iota; (erewrite bind_done by exact Hl); reflexivity.
Qed.
End Launch.
