(* ===== verification/Cmdline.v ===== *)
(** * Project 1/newSimpleTerm.c: reading and parsing a command line

    A line is the list of its characters together with the size of the buffer it
    is in.  [strtok] is the words of CString; [glob] is a function of the file
    system, an argument. *)

From Stdlib Require Import Ascii.
From Stdlib Require Import(notations) String.
From S2P Require Import Prelude CString Stdio Jobs Shell.

Definition TOKEN_BUFSIZE : Z := 64.
Definition TOKEN_DELIMITERS : list Z := [32; 9; 13; 10; 7].
Definition PROMPT : list Z := codes "# ".

Definition get_process_type (cmd : list Z) : Z :=
  if bool_decide (cmd = codes "jobs") then COMMAND_JOBS
  else if bool_decide (cmd = codes "fg") then COMMAND_FG
  else if bool_decide (cmd = codes "bg") then COMMAND_BG
  else COMMAND_EXTERNAL.

Definition is_redirect (t : list Z) : bool := bool_decide (t = codes ">" \/ t = codes "<" \/ t = codes "2>").

(** The tokens before the first redirection. *)
Fixpoint arguments (tokens : list (list Z)) : list (list Z) :=
  match tokens with
  | [] => []
  | t :: tokens => if is_redirect t then [] else t :: arguments tokens
  end.

(** The loop over the redirections; the token behind the last one is not set.
    Other tests in the loop cannot fail: the token was just compared. *)
Fixpoint redirections (tokens : list (list Z)) (inp outp errp : option (list Z))
    : outcome (option (list Z) * option (list Z) * option (list Z)) :=
  match tokens with
  | [] => Done (inp, outp, errp)
  | t :: tokens =>
      if is_redirect t then
        match tokens with
        | [] => Fault
        | path :: tokens =>
            if bool_decide (t = codes "<") then redirections tokens (Some path) outp errp
            else if bool_decide (t = codes ">") then redirections tokens inp (Some path) errp
            else redirections tokens inp outp (Some path)
        end
      else Done (inp, outp, errp)
  end.

Section Parsing.
Context (glob : list Z -> list (list Z)).

Definition has_wildcard (t : list Z) : bool := bool_decide (42 ∈ t) || bool_decide (63 ∈ t).

(** The loop over the tokens; the array has [bufsize] elements. *)
Fixpoint collect (ws tokens : list (list Z)) (bufsize : Z) : outcome (list (list Z) * Z) :=
  match ws with
  | [] => Done (tokens, bufsize)
  | w :: ws =>
      let paths := if has_wildcard w then glob w else [] in
      let glob_count := zlen paths in
      let bufsize := if bufsize <=? zlen tokens + glob_count then bufsize + TOKEN_BUFSIZE + glob_count else bufsize in
      let new := if 0 <? glob_count then paths else [w] in
      if zlen tokens + zlen new <=? bufsize then collect ws (tokens ++ new) bufsize else Fault
  end.

Definition parse_segment_commander (segment : list Z) : outcome process :=
  '(tokens, bufsize) ← collect (words TOKEN_DELIMITERS segment) [] TOKEN_BUFSIZE;
  let args := arguments tokens in
  '(inp, outp, errp) ← redirections (drop (length args) tokens) None None None;
  (* tokens[position] = NULL *)
  if zlen tokens <? bufsize then
    match args with
    | [] => Fault
    | cmd :: _ => Done (mk_proc segment (zlen args) args inp outp errp (-1) (get_process_type cmd) None)
    end
  else Fault.

(** Blanks at the end stay: the loop that should drop them starts at the
    terminator.  The byte behind the terminator is written. *)
Definition helper_strtrim (line : list Z) (size : Z) : outcome (list Z) :=
  if zlen line + 1 <? size then Done (span (fun c => c =? 32) line).2 else Fault.

(** The loop of [parse_commander]: [c] is what is left of the line, [seg] the part
    of the segment before it. *)
Fixpoint split_loop (fuel : nat) (c seg : list Z) (procs : list process) : outcome (list process) :=
  match fuel with
  | O => NoFuel
  | S fuel =>
      match c with
      | [] => q ← parse_segment_commander seg; Done (procs ++ [q])
      | x :: rest =>
          if x =? 124 then
            q ← parse_segment_commander seg;
            split_loop fuel (span (fun c => c =? 32) rest).2 [] (procs ++ [q])
          else split_loop fuel rest (seg ++ [x]) procs
      end
  end.

Definition drop_last (s : list Z) : list Z := take (length s - 1) s.

(** The job without its address. *)
Definition parse_line (line : list Z) (size : Z) : outcome job :=
  line ← helper_strtrim line size;
  let background := bool_decide (last line = Some 38) in
  let mode := if background then BACKGROUND_EXECUTION else FOREGROUND_EXECUTION in
  let bg := if background then BACKGROUND_EXECUTION else -1 in
  let text := if background then drop_last line else line in
  procs ← split_loop (S (length text)) text [] [];
  Done (mk_job None procs line (-1) mode bg).

Definition parse_commander (line : list Z) (size : Z) : M shell Z :=
  j ← liftO (parse_line line size);
  s ← get;
  put (with_next (next_addr s + 1) (with_heap (<[next_addr s := j]> (heap s)) s)) ;;
  mret (next_addr s).

(** [None] is the line "EXIT" of the end of the input.  A signal makes getchar
    return EOF after its handler has run. *)
Fixpoint read_loop (n : nat) (buffer : list Z) (bufsize : Z) : M shell (option (list Z * Z)) :=
  match n with
  | O => nofuel
  | S n =>
      s ← get;
      match input s with
      | [] => if signal_recieved s then put (with_input [] false s) ;; mret (Some (buffer, bufsize)) else mret None
      | k :: rest =>
          match k with
          | Interrupted =>
              put (with_input rest false (with_out (out s ++ [10]) s)) ;; mret (Some (buffer, bufsize))
          | Eof =>
              if signal_recieved s then put (with_input rest false s) ;; mret (Some (buffer, bufsize))
              else put (with_input rest (signal_recieved s) s) ;; mret None
          | Key c =>
              if (c =? 10) || (c =? 0) then put (with_input rest false s) ;; mret (Some (buffer, bufsize))
              else
                put (with_input rest (signal_recieved s) s) ;;
                let buffer := buffer ++ [c] in
                let bufsize := if bufsize <=? zlen buffer then bufsize + COMMAND_BUFSIZE else bufsize in
                read_loop n buffer bufsize
          end
      end
  end.

(** Every turn takes a key. *)
Definition read_line : M shell (option (list Z * Z)) :=
  s ← get; read_loop (S (length (input s))) [] COMMAND_BUFSIZE.

(** [fd] stands for the array of [launch_commander] before it is set. *)
Fixpoint session_loop (n : nat) (fd : Z * Z) : M shell unit :=
  match n with
  | O => nofuel
  | S n =>
      printf PROMPT ;;
      line ← read_line;
      match line with
      | None => mret tt
      | Some ([], _) => check_jobs ;; session_loop n fd
      | Some (text, size) =>
          job ← parse_commander text size;
          _ ← launch_commander job fd;
          session_loop n fd
      end
  end.

(** Every turn but the last takes a key. *)
Definition process_loop (fd : Z * Z) : M shell unit := s ← get; session_loop (S (length (input s))) fd.
End Parsing.

(** The state [init] leaves: the last element of the table is not set, [junk] is
    what the memory held. *)
Definition init (junk : Z) (o : os) (keys : list key) (me : Z) (g : list Z) : shell :=
  mk_shell (replicate 20 NULL ++ [junk]) ∅ 1 [] [] [Setpgid me me; Tcsetpgrp me] o keys false me g.

Definition no_glob (t : list Z) : list (list Z) := [].
Definition keys (s : String.string) : list key := map Key (codes s).

Example session : exists s, process_loop no_glob (0, 0) (init 0 (mk_os [101; 102; 103] [] [(3, 4)] [(0, 0); (102, 0); (101, 256); (0, 0)] [])
    (keys "ls -l | wc" ++ [Key 10] ++ keys "sleep 9 &" ++ [Key 10]) 50 []) = Done (tt, s) /\
  out s = codes "# # [1] 103" ++ [10] ++ codes "# " /\ err s = [] /\ jobs s = [0; 2] ++ replicate 19 0 /\
  calls s = [Setpgid 50 50; Tcsetpgrp 50; Waitpid (-1); Pipe (3, 4); Spawn 101 101 [codes "ls"; codes "-l"] 0 4 2; Setpgid 101 101; Close 4;
    Spawn 102 101 [codes "wc"] 3 1 2; Setpgid 102 101; Tcsetpgrp 101; Waitpid (-101); Waitpid (-101); Tcsetpgrp 50;
    Waitpid (-1); Spawn 103 103 [codes "sleep"; codes "9"] 0 1 2; Setpgid 103 103].
Proof. eexists. vm_compute. repeat split. Qed.

Example blank_line : parse_line no_glob (codes "  ") 2000 = Fault.
Proof. vm_compute. reflexivity. Qed.
Example open_redirection : parse_line no_glob (codes "ls >") 2000 = Fault.
Proof. vm_compute. reflexivity. Qed.
Example blank_after_ampersand : exists j, parse_line no_glob (codes "ls & ") 2000 = Done j /\ mode j = FOREGROUND_EXECUTION /\
  map argv (root j) = [[codes "ls"; codes "&"]].
Proof. eexists. vm_compute. repeat split. Qed.

(** ** Command lines: what is written is what is parsed

    A pipeline is written as a line; [parse_commander] reads it back, and
    [read_line] returns the line that was typed. *)

(** ** Writing a pipeline *)

Record simple_command := mk_cmd {
  c_args : list (list Z);
  c_in : option (list Z);
  c_out : option (list Z);
  c_err : option (list Z)
}.

Definition redirect_tokens (op : list Z) (path : option (list Z)) : list (list Z) :=
  match path with Some p => [op; p] | None => [] end.
Definition command_tokens (c : simple_command) : list (list Z) :=
  c_args c ++ redirect_tokens (codes "<") (c_in c) ++ redirect_tokens (codes ">") (c_out c) ++ redirect_tokens (codes "2>") (c_err c).

(** Tokens with a blank after each. *)
Definition unwords (ts : list (list Z)) : list Z := concat (map (fun t => t ++ codes " ") ts).

Fixpoint pipeline_text (cs : list simple_command) : list Z :=
  match cs with
  | [] => []
  | [c] => unwords (command_tokens c)
  | c :: cs => unwords (command_tokens c) ++ codes "| " ++ pipeline_text cs
  end.

Definition pipeline_line (cs : list simple_command) (background : bool) : list Z :=
  pipeline_text cs ++ (if background then codes "&" else []).

(** A word without blanks, bars and wildcards. *)
Definition is_word (w : list Z) : Prop := w <> [] /\ Forall (fun c => c ∉ TOKEN_DELIMITERS ++ [124; 42; 63]) w.
Definition is_command (c : simple_command) : Prop :=
  c_args c <> [] /\ Forall (fun t => is_redirect t = false) (c_args c) /\ Forall is_word (command_tokens c) /\ zlen (command_tokens c) < TOKEN_BUFSIZE.

(** The process of a command, written as [text]. *)
Definition process_of (c : simple_command) (text : list Z) : process :=
  mk_proc text (zlen (c_args c)) (c_args c) (c_in c) (c_out c) (c_err c) (-1) (get_process_type (hd [] (c_args c))) None.
Definition processes_of (cs : list simple_command) : list process := map (fun c => process_of c (unwords (command_tokens c))) cs.

Section Spec.
Context (glob : list Z -> list (list Z)).
Implicit Types (ts ws : list (list Z)) (c : simple_command).

Lemma delim_word w : is_word w -> Forall (fun x => delim TOKEN_DELIMITERS x = false) w.
Proof.
  intros [_ HF]. eapply Forall_impl; [exact HF|]. intros x Hx. apply bool_decide_false. intros H. apply Hx. apply elem_of_app. by left.
Qed.

Lemma words_unwords ts : Forall is_word ts -> words TOKEN_DELIMITERS (unwords ts) = ts.
Proof.
  induction 1 as [|t ts Ht _ IH]; [done|]. unfold unwords. cbn [map concat]. fold (unwords ts). rewrite <- app_assoc.
  unfold words. rewrite (words_token TOKEN_DELIMITERS t (codes " " ++ unwords ts) []).
  - cbn [app tail]. by rewrite <- IH at 2.
  - by apply delim_word.
  - by destruct Ht.
  - done.
Qed.

Lemma collect_word t ts tokens : is_word t -> zlen tokens < TOKEN_BUFSIZE ->
  collect glob (t :: ts) tokens TOKEN_BUFSIZE = collect glob ts (tokens ++ [t]) TOKEN_BUFSIZE.
Proof.
  intros [_ Ht] Hl. cbn [collect]. assert (has_wildcard t = false) as ->.
  { unfold has_wildcard. rewrite Forall_forall in Ht. apply orb_false_iff. split; apply bool_decide_false; intros H; apply (Ht _ H); by_decide. }
  change (zlen (@nil (list Z))) with 0. cbv zeta. rewrite (proj2 (Z.leb_gt TOKEN_BUFSIZE (zlen tokens + 0))) by lia.
  change (0 <? 0) with false. cbn iota. change (zlen [t]) with 1. by rewrite (proj2 (Z.leb_le (zlen tokens + 1) TOKEN_BUFSIZE)) by lia.
Qed.

Lemma collect_plain ts : forall tokens, Forall is_word ts -> zlen tokens + zlen ts <= TOKEN_BUFSIZE ->
  collect glob ts tokens TOKEN_BUFSIZE = Done (tokens ++ ts, TOKEN_BUFSIZE).
Proof.
  induction ts as [|t ts IH]; intros tokens HF Hl; [cbn; by rewrite app_nil_r|]. apply Forall_cons in HF as [Ht HF].
  rewrite zlen_cons in Hl. pose proof (zlen_nonneg ts). rewrite collect_word by (done || lia). rewrite IH; [by rewrite <- app_assoc|done|].
  rewrite zlen_app. change (zlen [t]) with 1. lia.
Qed.

Lemma arguments_app args ts : Forall (fun t => is_redirect t = false) args -> match ts with [] => True | t :: _ => is_redirect t = true end ->
  arguments (args ++ ts) = args.
Proof.
  induction 1 as [|t args Ht _ IH]; intros Hts; cbn [arguments app]; [destruct ts as [|t ts]; [done|cbn; by rewrite Hts]|].
  rewrite Ht. by rewrite IH.
Qed.

Lemma redirections_run i o e : redirections (redirect_tokens (codes "<") i ++ redirect_tokens (codes ">") o ++ redirect_tokens (codes "2>") e) None None None = Done (i, o, e).
Proof. by destruct i, o, e. Qed.

Lemma parse_segment_run c : is_command c -> parse_segment_commander glob (unwords (command_tokens c)) = Done (process_of c (unwords (command_tokens c))).
Proof.
  intros (Hne & Hargs & HF & Hl). unfold parse_segment_commander. rewrite words_unwords by done.
  rewrite (obind_done _ _ (command_tokens c, TOKEN_BUFSIZE)) by (apply (collect_plain (command_tokens c) []); [done|change (zlen (@nil (list Z))) with 0; lia]). cbn beta iota zeta.
  assert (arguments (command_tokens c) = c_args c) as Ea.
  { apply arguments_app; [done|]. by destruct (c_in c), (c_out c), (c_err c). }
  rewrite Ea. assert (drop (length (c_args c)) (command_tokens c) = redirect_tokens (codes "<") (c_in c) ++ redirect_tokens (codes ">") (c_out c) ++ redirect_tokens (codes "2>") (c_err c)) as ->
    by apply drop_app_length.
  rewrite (obind_done _ _ _ (redirections_run _ _ _)). cbn beta iota. rewrite (proj2 (Z.ltb_lt _ _)) by done. unfold process_of. by destruct (c_args c).
Qed.

(** A segment has no bar. *)
Lemma unwords_no_bar ts : Forall is_word ts -> Forall (fun x => x <> 124) (unwords ts).
Proof.
  induction 1 as [|t ts [_ Ht] _ IH]; [constructor|]. unfold unwords. cbn [map concat]. fold (unwords ts). repeat (apply Forall_app; split); [|by repeat constructor|done].
  eapply Forall_impl; [exact Ht|]. intros x Hx ->. apply Hx. by_decide.
Qed.

Lemma split_segment s : forall fuel rest seg procs, Forall (fun x => x <> 124) s ->
  split_loop glob (length s + fuel) (s ++ rest) seg procs = split_loop glob fuel rest (seg ++ s) procs.
Proof.
  induction s as [|x s IH]; intros fuel rest seg procs HF; [by rewrite app_nil_r|]. apply Forall_cons in HF as [Hx HF].
  cbn [length Nat.add app split_loop]. rewrite (proj2 (Z.eqb_neq x 124)) by done. rewrite IH by done. by rewrite <- app_assoc.
Qed.

(** A line begins with a word. *)
Lemma unwords_no_blank c r : is_command c -> (span (fun x => x =? 32) (unwords (command_tokens c) ++ r)).2 = unwords (command_tokens c) ++ r.
Proof.
  intros (Hne & _ & HF & _). unfold command_tokens in *. destruct (c_args c) as [|a args]; [done|]. cbn [app] in *. apply Forall_cons in HF as [[Ha HF] _].
  destruct a as [|x a]; [done|]. apply Forall_cons in HF as [Hx _]. unfold unwords. cbn [map concat app span].
  rewrite (proj2 (Z.eqb_neq x 32)); [done|]. intros ->. apply Hx. by_decide.
Qed.

Lemma pipeline_no_blank c cs r : is_command c -> (span (fun x => x =? 32) (pipeline_text (c :: cs) ++ r)).2 = pipeline_text (c :: cs) ++ r.
Proof.
  intros Hc. destruct cs as [|c' cs]; [by apply unwords_no_blank|]. change (pipeline_text (c :: c' :: cs)) with (unwords (command_tokens c) ++ codes "| " ++ pipeline_text (c' :: cs)).
  rewrite <- app_assoc. by apply unwords_no_blank.
Qed.

Lemma split_pipeline cs : forall fuel procs, cs <> [] -> Forall is_command cs -> (length (pipeline_text cs) < fuel)%nat ->
  split_loop glob fuel (pipeline_text cs) [] procs = Done (procs ++ processes_of cs).
Proof.
  induction cs as [|c cs IH]; intros fuel procs Hne HF Hf; [done|]. apply Forall_cons in HF as [Hc HF]. pose proof Hc as (_ & _ & Hw & _).
  pose proof (unwords_no_bar _ Hw) as Hbar. destruct cs as [|c' cs].
  - change (pipeline_text [c]) with (unwords (command_tokens c)) in *. replace fuel with (length (unwords (command_tokens c)) + (fuel - length (unwords (command_tokens c))))%nat by lia.
    pose proof (split_segment _ (fuel - length (unwords (command_tokens c))) [] [] procs Hbar) as Es. rewrite app_nil_r in Es. rewrite Es.
    destruct (fuel - _)%nat as [|k] eqn:E; [lia|]. cbn [split_loop app].
    by rewrite (obind_done _ _ _ (parse_segment_run c Hc)).
  - change (pipeline_text (c :: c' :: cs)) with (unwords (command_tokens c) ++ codes "| " ++ pipeline_text (c' :: cs)) in *.
    rewrite !length_app in Hf. change (length (codes "| ")) with 2%nat in Hf.
    replace fuel with (length (unwords (command_tokens c)) + (fuel - length (unwords (command_tokens c))))%nat by lia. rewrite split_segment by done.
    destruct (fuel - _)%nat as [|k] eqn:E; [lia|]. change (codes "| " ++ pipeline_text (c' :: cs)) with (124 :: 32 :: pipeline_text (c' :: cs)). cbn [split_loop app].
    change (124 =? 124) with true. cbn iota. rewrite (obind_done _ _ _ (parse_segment_run c Hc)). cbn [span]. change (32 =? 32) with true. cbn iota.
    pose proof HF as [Hc' _]%Forall_cons. pose proof (pipeline_no_blank c' cs [] Hc') as Hb. rewrite app_nil_r in Hb.
    destruct (span (fun x => x =? 32) (pipeline_text (c' :: cs))) as [b1 b2]. cbn [snd] in *. subst b2.
    rewrite (IH k (procs ++ [process_of c (unwords (command_tokens c))])) by (done || lia). by rewrite <- app_assoc.
Qed.

Lemma last_blank cs : cs <> [] -> Forall is_command cs -> exists s, pipeline_text cs = s ++ [32].
Proof.
  intros Hne HF. induction HF as [|c cs (Ha & _) HF IH]; [done|]. destruct cs as [|c' cs].
  - cbn [pipeline_text]. assert (forall ts, ts <> [] -> exists s, unwords ts = s ++ [32]) as H.
    { intros ts. induction ts as [|t ts IH']; [done|]. intros _. unfold unwords. cbn [map concat]. fold (unwords ts). destruct ts as [|t' ts].
      - exists t. unfold unwords. cbn. by rewrite app_nil_r.
      - destruct IH' as [s ->]; [done|]. exists (t ++ codes " " ++ s). by rewrite <- !app_assoc. }
    apply H. unfold command_tokens. by destruct (c_args c).
  - destruct IH as [s Hs]; [done|]. change (pipeline_text (c :: c' :: cs)) with (unwords (command_tokens c) ++ codes "| " ++ pipeline_text (c' :: cs)).
    rewrite Hs. exists (unwords (command_tokens c) ++ codes "| " ++ s). by rewrite <- !app_assoc.
Qed.

Lemma parse_line_run cs background size : cs <> [] -> Forall is_command cs -> zlen (pipeline_line cs background) + 1 < size ->
  parse_line glob (pipeline_line cs background) size =
    Done (mk_job None (processes_of cs) (pipeline_line cs background) (-1)
      (if background then BACKGROUND_EXECUTION else FOREGROUND_EXECUTION) (if background then BACKGROUND_EXECUTION else -1)).
Proof.
  intros Hne HF Hsize. unfold parse_line, helper_strtrim. rewrite (proj2 (Z.ltb_lt _ _)) by done.
  assert ((span (fun x => x =? 32) (pipeline_line cs background)).2 = pipeline_line cs background) as ->.
  { destruct cs as [|c cs]; [done|]. apply pipeline_no_blank. by apply Forall_cons in HF as [? _]. }
  rewrite (obind_done _ _ (pipeline_line cs background)) by done. destruct (last_blank cs Hne HF) as [s Hs].
  assert (bool_decide (last (pipeline_line cs background) = Some 38) = background) as Eb.
  { unfold pipeline_line. destruct background.
    - change (codes "&") with [38]. rewrite last_snoc. by apply bool_decide_true.
    - rewrite app_nil_r, Hs, last_snoc. by apply bool_decide_false. }
  rewrite Eb. cbv zeta. assert ((if background then drop_last (pipeline_line cs background) else pipeline_line cs background) = pipeline_text cs) as ->.
  { unfold pipeline_line, drop_last. destruct background; [|by rewrite app_nil_r]. rewrite length_app. change (length (codes "&")) with 1%nat.
    rewrite Nat.add_sub. by rewrite take_app_length. }
  by rewrite (obind_done _ _ _ (split_pipeline cs (S (length (pipeline_text cs))) [] Hne HF ltac:(lia))).
Qed.

(** C38: A pipeline of at most 63 words per command, written with or without "&",
    parses to its commands: their words and redirections in order, the mode, and
    no process number yet. *)
Theorem parse_commander_roundtrip s cs background size : cs <> [] -> Forall is_command cs -> zlen (pipeline_line cs background) + 1 < size ->
  exists s', parse_commander glob (pipeline_line cs background) size s = Done (next_addr s, s') /\
    heap s' = <[next_addr s := mk_job None (processes_of cs) (pipeline_line cs background) (-1)
      (if background then BACKGROUND_EXECUTION else FOREGROUND_EXECUTION) (if background then BACKGROUND_EXECUTION else -1)]> (heap s) /\
    jobs s' = jobs s /\ sys s' = sys s.
Proof.
  intros Hne HF Hsize. unfold parse_commander. erewrite bind_done by (apply liftO_run; by apply parse_line_run).
  erewrite bind_done by done. eexists. split; [reflexivity|]. done.
Qed.

(** ** Reading a line *)

Lemma read_loop_run line : forall s buffer bufsize n rest, input s = map Key line ++ Key 10 :: rest -> (length line < n)%nat ->
  Forall (fun x => x <> 10 /\ x <> 0) line -> zlen buffer < bufsize ->
  exists size, read_loop n buffer bufsize s = Done (Some (buffer ++ line, size), with_input rest false s) /\ zlen (buffer ++ line) < size.
Proof.
  induction line as [|c line IH]; intros s buffer bufsize [|n] rest Hin Hn HF Hb; cbn in Hn; try lia; cbn [read_loop].
  - erewrite bind_done by done. rewrite Hin. cbn [map app]. exists bufsize. rewrite app_nil_r. split; [reflexivity|done].
  - apply Forall_cons in HF as [[H1 H2] HF]. erewrite bind_done by done. rewrite Hin. cbn [map app].
    rewrite (proj2 (Z.eqb_neq c 10)), (proj2 (Z.eqb_neq c 0)) by done. cbn [orb]. erewrite bind_done by done. cbv zeta.
    set (size' := if bufsize <=? zlen (buffer ++ [c]) then _ else _).
    destruct (IH (with_input (map Key line ++ Key 10 :: rest) (signal_recieved s) s) (buffer ++ [c]) size' n rest) as (size & Hr & Hl); [done|lia|done| |].
    { unfold size', COMMAND_BUFSIZE. rewrite zlen_app in *. change (zlen [c]) with 1 in *. destruct (Z.leb_spec bufsize (zlen buffer + 1)); lia. }
    exists size. rewrite Hr. rewrite <- app_assoc in *. split; [reflexivity|done].
Qed.

(** A typed line is returned as it was typed, in a buffer that has room for it, and
    the keys behind it stay. *)
Theorem read_line_correct s line rest : input s = map Key line ++ Key 10 :: rest -> Forall (fun x => x <> 10 /\ x <> 0) line ->
  exists size, read_line s = Done (Some (line, size), with_input rest false s) /\ zlen line < size.
Proof.
  intros Hin HF. unfold read_line. erewrite bind_done by done. apply (read_loop_run line s [] COMMAND_BUFSIZE _ rest); try done.
  rewrite Hin, length_app, length_map. cbn. lia.
Qed.

(** A line of blanks, 64 words and a redirection at the end of the line take the
    parser out of its arrays. *)
Lemma words_blank n : words TOKEN_DELIMITERS (replicate n 32) = [].
Proof. rewrite <- (app_nil_r (replicate n 32)), words_skip; [done|]. by apply Forall_replicate. Qed.

Theorem blank_line_faults n size : parse_line glob (replicate n 32) size = Fault.
Proof.
  unfold parse_line, helper_strtrim. destruct (_ <? size); [|done].
  assert ((span (fun x => x =? 32) (replicate n 32)).2 = []) as ->.
  { induction n as [|n IH]; [done|]. cbn [replicate span]. change (32 =? 32) with true. cbn iota. by destruct (span _ (replicate n 32)). }
  done.
Qed.

Theorem sixty_four_words_fault ts : Forall is_word ts -> zlen ts = TOKEN_BUFSIZE -> Forall (fun t => is_redirect t = false) ts ->
  parse_segment_commander glob (unwords ts) = Fault.
Proof.
  intros HF Hl Hr. unfold parse_segment_commander. rewrite words_unwords by done.
  rewrite (obind_done _ _ (ts, TOKEN_BUFSIZE)) by (apply (collect_plain ts []); [done|change (zlen (@nil (list Z))) with 0; lia]). cbn beta iota zeta.
  pose proof (arguments_app ts [] Hr I) as Ea. rewrite app_nil_r in Ea. rewrite Ea.
  rewrite drop_all. rewrite (obind_done _ _ (None, None, None)) by done. cbn beta iota.
  by rewrite (proj2 (Z.ltb_ge (zlen ts) TOKEN_BUFSIZE)) by lia.
Qed.
End Spec.
