(* ===== verification/ShellDemo.v ===== *)
(** * The shell on concrete inputs

    A shell with one job of two processes in the background, and a pipeline that is
    ready to start: the inputs of the witnesses of JobsCorrect, ShellSpec and
    Cmdline. *)

From Stdlib Require Import Ascii.
From Stdlib Require Import(notations) String.
From S2P Require Import Prelude CString Stdio Jobs JobsSpec JobsCorrect Shell ShellSpec Cmdline.

Definition demo_proc (name : String.string) (n : Z) : process :=
  mk_proc (codes name) 1 [codes name] None None None n COMMAND_EXTERNAL (if 0 <? n then Some STATUS_RUNNING else None).

(** Job 1: "make | tee" in the background, with group 101. *)
Definition demo_job : job := mk_job (Some 1) [demo_proc "make" 101; demo_proc "tee" 102] (codes "make | tee") 101 BACKGROUND_EXECUTION 0.
(** "ls | wc", parsed and not started. *)
Definition demo_new : job := mk_job None [demo_proc "ls" (-1); demo_proc "wc" (-1)] (codes "ls | wc") (-1) FOREGROUND_EXECUTION (-1).

Definition demo_shell (o : os) : shell :=
  mk_shell ([NULL; 7] ++ replicate 19 NULL) {[7 := demo_job; 8 := demo_new]} 9 [] [] [] o [] false 50 [].

Lemma demo_ok o : table_ok (demo_shell o).
Proof.
  split; [done|done|]. intros i p Hi Hp. pose proof (zget_inv _ _ _ Hi) as Hr. change (zlen (jobs (demo_shell o))) with 21 in Hr.
  destruct (decide (i = 1)) as [->|Hne]; [injection Hi as <-; exists demo_job; by split|]. exfalso. apply Hp.
  destruct (decide (i = 0)) as [->|]; [by injection Hi|]. change (jobs (demo_shell o)) with ([NULL; 7] ++ replicate 19 NULL) in Hi.
  unfold zget in Hi. rewrite decide_True in Hi by lia. rewrite lookup_app_r in Hi by (cbn; lia). by apply lookup_replicate in Hi as [? _].
Qed.

Lemma demo_tbl o i j : tbl (demo_shell o) i = Some j -> i = 1 /\ j = demo_job.
Proof.
  intros H. pose proof (tbl_inv _ _ _ H) as (p & Hi & Hp & Hj). pose proof (zget_inv _ _ _ Hi) as Hr. change (zlen (jobs (demo_shell o))) with 21 in Hr.
  destruct (decide (i = 1)) as [->|Hne]; [injection Hi as <-; injection Hj as <-; done|]. exfalso. apply Hp.
  destruct (decide (i = 0)) as [->|]; [by injection Hi|]. change (jobs (demo_shell o)) with ([NULL; 7] ++ replicate 19 NULL) in Hi.
  unfold zget in Hi. rewrite decide_True in Hi by lia. rewrite lookup_app_r in Hi by (cbn; lia). by apply lookup_replicate in Hi as [? _].
Qed.

Lemma demo_own o i : own_pids (demo_shell o) i.
Proof.
  intros j Hj. apply demo_tbl in Hj as [-> ->]. split; [by_decide|]. intros k j' Hk Hj'. by apply demo_tbl in Hj' as [-> _].
Qed.

Lemma demo_printable : printable [] demo_job.
Proof. split; [done|]. split; [repeat constructor; by exists 0|by vm_compute]. Qed.

Lemma demo_jobs_ok o : jobs_ok (demo_shell o).
Proof. split; [apply demo_ok| |apply demo_own]. intros i j Hj. apply demo_tbl in Hj as [_ ->]. apply demo_printable. Qed.

Lemma demo_tbl1 o : tbl (demo_shell o) 1 = Some demo_job.
Proof. reflexivity. Qed.

(** The second process exits, the first is killed. *)
Definition demo_waits : os := mk_os [] [] [] ([(102, 0); (101, 15)] ++ [(0, 0)]) [1].

Lemma wait_for_job_correct_witness : exists s', wait_for_job 1 (demo_shell demo_waits) = Done (15, s') /\ table_ok s' /\
  forall k, tbl s' k = tbl_upd (demo_shell demo_waits) 1 (Some (finished demo_job)) k.
Proof.
  destruct (wait_for_job_correct (demo_shell demo_waits) 1 demo_job [(102, 0); (101, 15)] [(0, 0)]) as (s' & H1 & H2 & H3 & _);
    [apply demo_ok|apply demo_own|reflexivity|apply demo_printable|discriminate|reflexivity|apply Permutation_swap| |exists s'; exact (conj H1 (conj H2 H3))].
  repeat constructor.
Defined.

(** Both exit: the job leaves the table. *)
Lemma check_jobs_correct_witness : exists s', check_jobs (demo_shell (mk_os [] [] [] [(102, 0); (101, 256)] [])) = Done (tt, s') /\ jobs_ok s' /\
  forall i, tbl s' i = report_all (tbl (demo_shell (mk_os [] [] [] [(102, 0); (101, 256)] [])) i) [(102, 0); (101, 256)].
Proof.
  destruct (check_jobs_correct (demo_shell (mk_os [] [] [] [(102, 0); (101, 256)] [])) [(102, 0); (101, 256)] []) as (s' & H1 & H2 & _ & H3);
    [apply demo_jobs_ok|reflexivity|repeat constructor|exact I|exists s'; exact (conj H1 (conj H2 H3))].
Defined.

Example demo_reaped : report_all (Some demo_job) [(102, 0); (101, 256)] = None.
Proof. reflexivity. Qed.

Lemma killed_in_background_stays_witness : exists s', check_jobs (demo_shell (mk_os [] [] [] [(101, 9)] [])) = Done (tt, s') /\
  reports (sys s') = [] /\ forall i, tbl s' i = tbl (demo_shell (mk_os [] [] [] [(101, 9)] [])) i.
Proof.
  apply (killed_in_background_stays _ 101 9); [apply demo_jobs_ok|reflexivity|lia|reflexivity|reflexivity|].
  intros i j Hj. apply demo_tbl in Hj as [_ ->]. reflexivity.
Defined.

(** Forks, a pipe, and the reports of the two processes. *)
Definition demo_launch : os := mk_os ([201; 202] ++ [203]) [] ([(3, 4)] ++ []) ((0, 0) :: [(201, 0); (202, 256)] ++ [(0, 0)]) [].

Lemma demo_ready : ready (demo_shell demo_launch) 8 demo_new 2 [201; 202] [203] [(3, 4)] [].
Proof.
  split; try done; try apply demo_ok.
  - intros (i & Hi). pose proof (zget_inv _ _ _ Hi) as Hr. change (zlen (jobs (demo_shell demo_launch))) with 21 in Hr.
    assert (tbl (demo_shell demo_launch) i = Some demo_new) as H by by apply (tbl_intro _ _ 8). by apply demo_tbl in H as [_ ?].
  - repeat constructor.
  - split; [lia|]. split; [reflexivity|]. intros l Hl. assert (l = 1) as -> by lia. by exists demo_job.
  - repeat constructor.
  - by_decide.
  - intros i j n Hj Hn. apply demo_tbl in Hj as [_ ->]. destruct Hn as [<-|[<-|[]]]; intros H; cbn in H; lia.
Qed.

Lemma launch_foreground_correct_witness : exists s', launch_commander 8 (0, 0) (demo_shell demo_launch) = Done (256, s') /\ table_ok s' /\
  (forall k, tbl s' k = tbl (demo_shell demo_launch) k) /\
  calls s' = [Waitpid (-1); Pipe (3, 4); Spawn 201 201 [codes "ls"] 0 4 2; Setpgid 201 201; Close 4; Spawn 202 201 [codes "wc"] 3 1 2; Setpgid 202 201;
    Tcsetpgrp 201; Waitpid (-201); Waitpid (-201); Tcsetpgrp 50].
Proof.
  destruct (launch_foreground_correct (demo_shell demo_launch) 8 demo_new 2 [201; 202] [203] [(3, 4)] [] 0 [(201, 0); (202, 256)] [(0, 0)] (0, 0))
    as (s' & H1 & H2 & H3 & _ & _ & _ & H4); [apply demo_ready|reflexivity|reflexivity|reflexivity|repeat constructor|vm_compute; discriminate|].
  exists s'. exact (conj H1 (conj H2 (conj H3 H4))).
Defined.

Definition demo_background : job := mk_job None (root demo_new) (codes "ls | wc &") (-1) BACKGROUND_EXECUTION 0.

Lemma launch_background_correct_witness : exists s',
  launch_commander 8 (0, 0) (with_heap (<[8 := demo_background]> (heap (demo_shell demo_launch))) (demo_shell demo_launch)) = Done (0, s') /\
  tbl s' 2 = Some (running demo_background 2 [201; 202]) /\ out s' = codes "[2] 201 202" ++ [10].
Proof.
  destruct (launch_background_correct (with_heap (<[8 := demo_background]> (heap (demo_shell demo_launch))) (demo_shell demo_launch)) 8 demo_background 2
    [201; 202] [203] [(3, 4)] [] 0 ([(201, 0); (202, 256)] ++ [(0, 0)]) (0, 0)) as (s' & H1 & _ & H2 & _ & H3 & _); [|reflexivity|reflexivity|].
  - assert (forall i, tbl (with_heap (<[8 := demo_background]> (heap (demo_shell demo_launch))) (demo_shell demo_launch)) i = tbl (demo_shell demo_launch) i) as Ht.
    { intros i. unfold tbl. cbn [jobs with_heap heap]. destruct (zget (jobs (demo_shell demo_launch)) i) as [p|] eqn:Hi; [|done]. destruct (Z.eqb_spec p NULL) as [|Hp]; [done|].
      destruct (ok_slot _ (demo_ok demo_launch) i p Hi Hp) as (j & Hj & Hid). apply lookup_insert_ne. intros <-.
      assert (tbl (demo_shell demo_launch) i = Some j) as H by by apply (tbl_intro _ _ 8). apply demo_tbl in H as [-> ->]. done. }
    destruct demo_ready as [[K1 K2 K3] A2 A3 A4 A5 A6 A7 A8 A9 A10 A11 A12 A13 A14 A15]. split.
    + split; [done|done|]. intros i p Hi Hp. destruct (K3 i p Hi Hp) as (j & Hj & Hid). exists j. split; [|done]. cbn [heap with_heap].
      rewrite lookup_insert_ne; [done|]. intros <-. apply A4. by exists i.
    + done.
    + reflexivity.
    + exact A4.
    + done.
    + exact A6.
    + done.
    + split; [apply A8|]. split; [rewrite Ht; apply A8|]. intros l Hl. rewrite Ht. by apply A8.
    + exact A9.
    + exact A10.
    + exact A11.
    + exact A12.
    + intros i j n. rewrite Ht. apply A13.
    + exact A14.
    + exact A15.
  - exists s'. split; [exact H1|]. split; [by rewrite H2|exact H3].
Defined.

Lemma fg_correct_witness : exists s', command_fg 1 (demo_shell demo_waits) = Done (0, s') /\ table_ok s' /\
  (forall k, tbl s' k = tbl_upd (demo_shell demo_waits) 1 None k) /\ reports (sys s') = [(0, 0)].
Proof.
  apply (fg_correct (demo_shell demo_waits) 1 demo_job 1 [] [(102, 0); (101, 15)] [(0, 0)]);
    [apply demo_ok|apply demo_own|reflexivity| |apply demo_printable|reflexivity|reflexivity|lia|discriminate|reflexivity|apply Permutation_swap|repeat constructor|vm_compute; discriminate].
  split; [lia|]. split; [reflexivity|]. intros l Hl. assert (l = 1) as -> by lia. by exists demo_job.
Defined.

(** After job 1 has ended, job 2 is not found. *)
Definition gap_shell : shell :=
  mk_shell ([NULL; NULL; 7] ++ replicate 18 NULL) {[7 := with_jid 2 demo_job]} 8 [] [] [] (mk_os [] [] [] [] [1]) [] false 50 [].

Lemma gap_ok : table_ok gap_shell.
Proof.
  split; [done|done|]. intros i p Hi Hp. pose proof (zget_inv _ _ _ Hi) as Hr. change (zlen (jobs gap_shell)) with 21 in Hr.
  destruct (decide (i = 2)) as [->|Hne]; [injection Hi as <-; exists (with_jid 2 demo_job); by split|]. exfalso. apply Hp.
  destruct (decide (i < 2)); [assert (i = 0 \/ i = 1) as [-> | ->] by lia; by injection Hi|]. change (jobs gap_shell) with ([NULL; NULL; 7] ++ replicate 18 NULL) in Hi.
  unfold zget in Hi. rewrite decide_True in Hi by lia. rewrite lookup_app_r in Hi by (cbn; lia). by apply lookup_replicate in Hi as [? _].
Qed.

Lemma fg_misses_jobs_witness : is_Some (tbl gap_shell 2) /\
  command_fg 1 gap_shell = Done (-1, with_err (err gap_shell ++ JOBEXISIT_ERROR) gap_shell) /\
  command_bg 1 gap_shell = Done (-1, with_err (err gap_shell ++ JOBEXISIT_ERROR) gap_shell).
Proof. split; [by eexists|]. apply (fg_misses_jobs gap_shell); [apply gap_ok|reflexivity]. Defined.

(** "sort -r < data | uniq > out &" *)
Definition demo_pipeline : list simple_command :=
  [mk_cmd [codes "sort"; codes "-r"] (Some (codes "data")) None None; mk_cmd [codes "uniq"] None (Some (codes "out")) None].

Lemma demo_commands : Forall is_command demo_pipeline.
Proof.
  assert (forall w, bool_decide (w <> [] /\ Forall (fun c => c ∉ TOKEN_DELIMITERS ++ [124; 42; 63]) w) = true -> is_word w) as H.
  { intros w Hw. by apply bool_decide_eq_true in Hw. }
  repeat (apply Forall_cons; split); [| |by apply Forall_nil]; (split; [done|]); (split; [repeat constructor|]); (split; [|done]);
    unfold command_tokens; cbn [c_args c_in c_out c_err redirect_tokens app]; repeat (apply Forall_cons; split; [by apply H|]); by apply Forall_nil.
Qed.

Lemma parse_commander_roundtrip_witness : exists s',
  parse_commander no_glob (pipeline_line demo_pipeline true) 2000 (demo_shell demo_launch) = Done (9, s') /\
  heap s' = <[9 := mk_job None (processes_of demo_pipeline) (pipeline_line demo_pipeline true) (-1) BACKGROUND_EXECUTION BACKGROUND_EXECUTION]> (heap (demo_shell demo_launch)) /\
  jobs s' = jobs (demo_shell demo_launch) /\ sys s' = demo_launch.
Proof. apply (parse_commander_roundtrip no_glob (demo_shell demo_launch) demo_pipeline true 2000); [discriminate|apply demo_commands|vm_compute; reflexivity]. Defined.
