(* ===== verification/Palloc.v ===== *)
(** * threads/palloc.c: the page allocator

    Two pools of pages, each a bitmap of used pages and the address of its first
    page, and the bytes of memory.  A pool's bitmap is kept apart from the bytes:
    it lies in pages before [base].  A pool's lock is held within one function
    only, around one bitmap operation, and is left to Kernel. *)

From S2P Require Import Prelude Vaddr Bitmap Mem CString.

Definition PAL_ASSERT : Z := 1.
Definition PAL_ZERO : Z := 2.
Definition PAL_USER : Z := 4.

Record pool := mk_pool {
  used_map : bitmap;          (* bitmap of free pages *)
  base : Z                    (* base of pool *)
}.

Record ram := mk_ram {
  kernel_pool : pool;
  user_pool : pool;
  bytes : mem
}.

(** Run an operation on the bytes of memory. *)
Definition on_bytes {A} (c : M mem A) : M ram A := fun s =>
  '(a, m) ← c (bytes s); Done (a, mk_ram (kernel_pool s) (user_pool s) m).

Definition get_pool (user : bool) (s : ram) : pool := if user then user_pool s else kernel_pool s.
Definition set_pool (user : bool) (p : pool) (s : ram) : ram :=
  if user then mk_ram (kernel_pool s) p (bytes s) else mk_ram p (user_pool s) (bytes s).

(** Run an operation on the bitmap of a pool. *)
Definition on_used_map {A} (user : bool) (c : M bitmap A) : M ram A := fun s =>
  '(a, b) ← c (used_map (get_pool user s)); Done (a, set_pool user (mk_pool b (base (get_pool user s))) s).

(** [flags & f] *)
Definition has (flags f : Z) : bool := negb (Z.land flags f =? 0).

Definition palloc_get_multiple (flags page_cnt : Z) : M ram Z :=
  let pool := has flags PAL_USER in
  if page_cnt =? 0 then mret NULL
  else
    page_idx ← on_used_map pool (bitmap_scan_and_flip 0 page_cnt false);
    b ← gets (fun s => base (get_pool pool s));
    let pages := if negb (page_idx =? BITMAP_ERROR) then u32 (b + PGSIZE * page_idx) else NULL in
    (if negb (pages =? NULL) then
       if has flags PAL_ZERO then on_bytes (memset pages 0 (u32 (PGSIZE * page_cnt))) ;; mret tt else mret tt
     else if has flags PAL_ASSERT then panic else mret tt) ;;
    mret pages.

Definition palloc_get_page (flags : Z) : M ram Z := palloc_get_multiple flags 1.

Definition page_from_pool (p : pool) (page : Z) : bool :=
  let page_no := pg_no page in
  let start_page := pg_no (base p) in
  let end_page := u32 (start_page + bitmap_size (used_map p)) in
  (start_page <=? page_no) && (page_no <? end_page).

Definition palloc_free_multiple (pages page_cnt : Z) : M ram unit :=
  ASSERT (pg_ofs pages =? 0) ;;
  if (pages =? NULL) || (page_cnt =? 0) then mret tt
  else
    s ← get;
    pool ← (if page_from_pool (kernel_pool s) pages then mret false
            else if page_from_pool (user_pool s) pages then mret true
            else panic);
    let page_idx := u32 (pg_no pages - pg_no (base (get_pool pool s))) in
    on_bytes (memset pages 0xcc (u32 (PGSIZE * page_cnt))) ;;
    all ← on_used_map pool (bitmap_all page_idx page_cnt); ASSERT all ;;
    on_used_map pool (bitmap_set_multiple page_idx page_cnt false).

Definition palloc_free_page (page : Z) : M ram unit := palloc_free_multiple page 1.

(** [block] is what the pages of the bitmap hold, in words. *)
Definition init_pool (block : list Z) (b page_cnt : Z) : outcome pool :=
  let bm_pages := DIV_ROUND_UP (bitmap_buf_size page_cnt) PGSIZE in
  if page_cnt <? bm_pages then Panic
  else
    let page_cnt := page_cnt - bm_pages in
    map ← bitmap_create_in_buf page_cnt block (bm_pages * PGSIZE);
    Done (mk_pool map (u32 (b + bm_pages * PGSIZE))).

Definition palloc_init (kblock ublock : list Z) (init_ram_pages user_page_limit : Z) (m : mem) : outcome ram :=
  free_start ← ptov (1024 * 1024);
  free_end ← ptov (u32 (init_ram_pages * PGSIZE));
  let free_pages := u32 (free_end - free_start) / PGSIZE in
  let user_pages := free_pages / 2 in
  let user_pages := if user_page_limit <? user_pages then user_page_limit else user_pages in
  let kernel_pages := free_pages - user_pages in
  k ← init_pool kblock free_start kernel_pages;
  u ← init_pool ublock (u32 (free_start + kernel_pages * PGSIZE)) user_pages;
  Done (mk_ram k u m).

(** ** What the operations promise *)

(** The address after a pool's pages. *)
Definition pool_end (p : pool) : Z := base p + PGSIZE * bit_cnt (used_map p).

Record pool_ok (m : mem) (p : pool) : Prop := {
  pool_map : wf (used_map p);
  pool_page : base p mod PGSIZE = 0;
  pool_low : PHYS_BASE <= base p;
  pool_high : pool_end p <= 2 ^ 32;
  pool_bytes : mapped m (base p) (PGSIZE * bit_cnt (used_map p))
}.

Record ram_ok (s : ram) : Prop := {
  ram_kernel : pool_ok (bytes s) (kernel_pool s);
  ram_user : pool_ok (bytes s) (user_pool s);
  ram_apart : pool_end (kernel_pool s) <= base (user_pool s)
}.

(** Page [i] of a pool is in use. *)
Definition used (user : bool) (s : ram) (i : Z) : bool := bit (used_map (get_pool user s)) i.
Definition pool_size (user : bool) (s : ram) : Z := bit_cnt (used_map (get_pool user s)).
Definition page_at (user : bool) (s : ram) (i : Z) : Z := base (get_pool user s) + PGSIZE * i.

(** [s'] has the pools of [s], with the pages [cnt] from [idx] on marked [v]. *)
Record marked (user : bool) (idx cnt : Z) (v : bool) (s s' : ram) : Prop := {
  marked_base : forall u, base (get_pool u s') = base (get_pool u s);
  marked_size : forall u, pool_size u s' = pool_size u s;
  marked_other : get_pool (negb user) s' = get_pool (negb user) s;
  marked_used : forall i, 0 <= i -> used user s' i = if in_range idx cnt i then v else used user s i
}.

Section Palloc.
Implicit Types (s : ram) (m : mem).

Lemma on_bytes_run {A} (c : M mem A) s a m : c (bytes s) = Done (a, m) ->
  on_bytes c s = Done (a, mk_ram (kernel_pool s) (user_pool s) m).
Proof. intros H. unfold on_bytes. by rewrite (obind_done _ _ _ H). Qed.

Lemma on_used_map_run {A} u (c : M bitmap A) s a b : c (used_map (get_pool u s)) = Done (a, b) ->
  on_used_map u c s = Done (a, set_pool u (mk_pool b (base (get_pool u s))) s).
Proof. intros H. unfold on_used_map. by rewrite (obind_done _ _ _ H). Qed.

Lemma get_set_pool u v p s : get_pool u (set_pool v p s) = if Bool.eqb u v then p else get_pool u s.
Proof. by destruct u, v. Qed.

Lemma bytes_set_pool u p s : bytes (set_pool u p s) = bytes s.
Proof. by destruct u. Qed.

Lemma ram_pool s u : ram_ok s -> pool_ok (bytes s) (get_pool u s).
Proof. intros []. by destruct u. Qed.

(** Replacing a pool's bitmap by one of the same size. *)
Lemma marked_set u idx cnt v s b m :
  let s' := set_pool u (mk_pool b (base (get_pool u s))) s in
  ram_ok s -> wf b -> bit_cnt b = pool_size u s -> (forall a, is_Some (bytes s !! a) -> is_Some (m !! a)) ->
  (forall j, 0 <= j -> bit b j = if in_range idx cnt j then v else used u s j) ->
  let s'' := mk_ram (kernel_pool s') (user_pool s') m in ram_ok s'' /\ marked u idx cnt v s s''.
Proof.
  intros s' [[H1 H2 H3 H4 H5] [H1' H2' H3' H4' H5'] Hd] Hb Hc Hm Hj s''. unfold pool_end, pool_size in *.
  assert (forall p n, mapped (bytes s) p n -> mapped m p n) as Hmap by (intros p n H a Ha; by apply Hm, H).
  split.
  - destruct u; split; cbn in *; try (split; cbn in *; unfold pool_end; cbn; rewrite ?Hc; auto);
      unfold pool_end; cbn; rewrite ?Hc; auto.
  - destruct u; split; cbn; try done; intros [] *; cbn; done.
Qed.

Lemma pg_no_page b i : b mod PGSIZE = 0 -> pg_no (b + PGSIZE * i) = b / PGSIZE + i.
Proof.
  intros H. rewrite pg_no_div. rewrite (Z.mul_comm PGSIZE i), Z.div_add; [done|]. done.
Qed.

Lemma page_range s u i : ram_ok s -> 0 <= i < pool_size u s -> 0 < page_at u s i < 2 ^ 32.
Proof.
  intros H Hi. destruct (ram_pool s u H) as [_ _ Hl Hh _]. unfold page_at, pool_end, pool_size, PHYS_BASE in *.
  assert (PGSIZE = 4096) as E by done. rewrite E in *. lia.
Qed.

Lemma palloc_get_run s flags cnt : ram_ok s -> 0 < cnt < 2 ^ 20 -> has flags PAL_ASSERT = false ->
  let u := has flags PAL_USER in
  exists p s', palloc_get_multiple flags cnt s = Done (p, s') /\ ram_ok s' /\
    ((p = NULL /\ s' = s /\ forall k, 0 <= k -> ~ group (used_map (get_pool u s)) k cnt false) \/
     (exists idx, p = page_at u s idx /\ 0 <= idx /\ idx + cnt <= pool_size u s /\
        (forall i, idx <= i < idx + cnt -> used u s i = false) /\ marked u idx cnt true s s' /\
        (if has flags PAL_ZERO then bytes_at (bytes s') p (replicate (Z.to_nat (PGSIZE * cnt)) 0) /\
                                    outside (bytes s) (bytes s') p (PGSIZE * cnt)
         else bytes s' = bytes s))).
Proof.
  intros H Hc Ha u. unfold palloc_get_multiple. fold u. dec. destruct (ram_pool s u H) as [Hwf Hp Hl Hh Hm].
  destruct (bitmap_scan_and_flip_spec (used_map (get_pool u s)) 0 cnt false) as (r & b & Hr & Hwf' & Hn & Hcase);
    [done|destruct Hwf; lia|lia|].
  erewrite bind_done by (by apply on_used_map_run). erewrite bind_done by done.
  rewrite get_set_pool, eqb_reflx. cbn [base].
  destruct Hcase as [(Hne & Hr0 & Hg & _ & Hb)|(-> & -> & Hno)].
  - rewrite (proj2 (Z.eqb_neq _ _) Hne). cbn [negb]. destruct Hg as [Hin Hfree].
    assert (0 < page_at u s r < 2 ^ 32) as Hrange by (apply page_range; unfold pool_size; lia || done).
    unfold page_at in Hrange. rewrite (u32_small (_ + _)) by lia.
    unfold NULL at 1. dec. exists (page_at u s r).
    assert (PGSIZE = 4096) as Epg by done.
    destruct (has flags PAL_ZERO) eqn:Ez.
    + rewrite (u32_small (PGSIZE * cnt)) by (rewrite Epg; lia).
      set (a := base (get_pool u s) + PGSIZE * r) in *.
      assert (memset a 0 (PGSIZE * cnt) (bytes s) = Done (a, stored (bytes s) a (replicate (Z.to_nat (PGSIZE * cnt)) 0))) as Hset.
      { apply memset_correct; [lia|lia|]. intros x Hx. apply Hm. unfold a in Hx. rewrite Epg in *. lia. }
      eexists. erewrite bind_done; [|erewrite bind_done by (apply on_bytes_run; rewrite bytes_set_pool; exact Hset); done].
      split; [done|].
      destruct (marked_set u r cnt true s b (stored (bytes s) a (replicate (Z.to_nat (PGSIZE * cnt)) 0)))
        as [Hok Hmk]; [done..|apply stored_is_Some|done|].
      split; [done|]. right. exists r. split; [done|]. split; [lia|]. split; [exact Hin|]. split; [exact Hfree|]. split; [exact Hmk|]. split.
      * apply stored_bytes. apply Forall_replicate. done.
      * intros x Hx. apply stored_outside. unfold zlen. rewrite length_replicate. unfold page_at in Hx. lia.
    + erewrite bind_done by done. eexists. split; [done|].
      destruct (marked_set u r cnt true s b (bytes s)) as [Hok Hmk]; [done..|].
      assert (forall t, mk_ram (kernel_pool t) (user_pool t) (bytes t) = t) as Eta by by intros [].
      rewrite <- (bytes_set_pool u (mk_pool b (base (get_pool u s))) s), Eta in Hok, Hmk.
      split; [done|]. right. exists r. split; [done|]. split; [lia|]. split; [exact Hin|]. split; [exact Hfree|]. split; [exact Hmk|]. by rewrite bytes_set_pool.
  - cbn [Z.eqb negb]. rewrite Z.eqb_refl. cbn [negb NULL Z.eqb]. rewrite Ha. erewrite bind_done by done.
    exists NULL, s. assert (set_pool u (mk_pool (used_map (get_pool u s)) (base (get_pool u s))) s = s) as ->
      by by destruct s as [[] [] ?], u.
    split; [done|]. split; [done|]. by left.
Qed.

(** Palloc_get_multiple either finds no group of [cnt] free pages, changes
    nothing and returns NULL, or returns the first such group, marks exactly its
    pages used, and clears them when PAL_ZERO asks for it; no other byte changes. *)
Theorem palloc_get_multiple_correct s flags cnt : ram_ok s -> 0 < cnt < 2 ^ 20 -> has flags PAL_ASSERT = false ->
  let u := has flags PAL_USER in
  exists p s', palloc_get_multiple flags cnt s = Done (p, s') /\ ram_ok s' /\
    ((p = NULL /\ s' = s /\ forall k, 0 <= k -> ~ group (used_map (get_pool u s)) k cnt false) \/
     (exists idx, p = page_at u s idx /\ 0 <= idx /\ idx + cnt <= pool_size u s /\
        (forall i, idx <= i < idx + cnt -> used u s i = false) /\ marked u idx cnt true s s' /\
        (if has flags PAL_ZERO then bytes_at (bytes s') p (replicate (Z.to_nat (PGSIZE * cnt)) 0) /\
                                    outside (bytes s) (bytes s') p (PGSIZE * cnt)
         else bytes s' = bytes s))).
Proof. apply palloc_get_run. Qed.
(** The page numbers of a pool. *)
Lemma page_from_pool_spec m p page : pool_ok m p -> page mod PGSIZE = 0 ->
  page_from_pool p page = true <-> base p <= page < pool_end p.
Proof.
  intros [Hw Hb Hl Hh _] Hp. unfold page_from_pool, pool_end, bitmap_size in *. destruct Hw as [Hc _].
  rewrite !pg_no_div. assert (PGSIZE = 4096) as Epg by done. unfold PHYS_BASE in Hl. rewrite Epg in *.
  rewrite (u32_small (_ + _)) by dlia. rewrite andb_true_iff, Z.leb_le, Z.ltb_lt. dlia.
Qed.

Lemma find_pool s u page : ram_ok s -> page mod PGSIZE = 0 ->
  base (get_pool u s) <= page < pool_end (get_pool u s) ->
  (if page_from_pool (kernel_pool s) page then mret false
   else if page_from_pool (user_pool s) page then mret true else panic) s = Done (u, s).
Proof.
  intros [Hk Hu Ha] Hp Hin.
  pose proof (page_from_pool_spec _ _ page Hk Hp) as Ek. pose proof (page_from_pool_spec _ _ page Hu Hp) as Eu.
  destruct u; cbn [get_pool] in Hin.
  - rewrite (proj2 Eu) by done. destruct (page_from_pool (kernel_pool s) page); [|done].
    destruct (proj1 Ek eq_refl). lia.
  - by rewrite (proj2 Ek).
Qed.

Lemma page_at_aligned s u idx : ram_ok s -> page_at u s idx mod PGSIZE = 0.
Proof.
  intros H. destruct (ram_pool s u H) as [_ Hp _ _ _]. unfold page_at. rewrite (Z.mul_comm PGSIZE), Z.mod_add; done.
Qed.

Lemma bitmap_all_spec b i c : wf b -> 0 <= i -> 0 <= c -> i + c <= bit_cnt b ->
  exists r, bitmap_all i c b = Done (r, b) /\ (r = true <-> forall j, i <= j < i + c -> bit b j = true).
Proof.
  intros Hw Hi Hc Hb. unfold bitmap_all. destruct (contains_spec b i c false Hw Hi Hc Hb) as (r & Hr & E).
  exists (negb r). erewrite bind_done by exact Hr. split; [done|]. destruct r; cbn [negb]; split; try done.
  - intros Hall. destruct E as [(j & Hj & Ej) _]; [done|]. rewrite Hall in Ej; done.
  - intros _ j Hj. destruct (bit b j) eqn:Ej; [done|]. destruct E as [_ E]. discriminate E. by exists j.
Qed.

(** What freeing pages leaves in memory. *)
Definition freed (s : ram) (p cnt : Z) : mem := stored (bytes s) p (replicate (Z.to_nat (PGSIZE * cnt)) 0xcc).

Lemma palloc_free_steps s u idx cnt : ram_ok s -> 0 <= idx -> 0 < cnt < 2 ^ 20 -> idx + cnt <= pool_size u s ->
  let s1 := mk_ram (kernel_pool s) (user_pool s) (freed s (page_at u s idx) cnt) in
  palloc_free_multiple (page_at u s idx) cnt s =
    (all ← on_used_map u (bitmap_all idx cnt); ASSERT all ;; on_used_map u (bitmap_set_multiple idx cnt false)) s1.
Proof.
  intros H Hi Hc Hs s1. destruct (ram_pool s u H) as [Hwf Hp Hl Hh Hm]. unfold palloc_free_multiple.
  assert (0 < page_at u s idx < 2 ^ 32) as Hr by (apply page_range; [done|lia]).
  pose proof (page_at_aligned s u idx H) as Hal.
  rewrite pg_ofs_mod, Hal. erewrite bind_done by done. unfold NULL. dec. dec. erewrite bind_done by done.
  assert (PGSIZE = 4096) as Epg by done. destruct Hwf as [Hcnt _]. unfold pool_end, pool_size, PHYS_BASE in *.
  erewrite bind_done by (apply (find_pool s u); [done|done|unfold pool_end, page_at; rewrite Epg in *; lia]).
  assert (pg_no (page_at u s idx) - pg_no (base (get_pool u s)) = idx) as ->.
  { unfold page_at. rewrite pg_no_page, pg_no_div by done. lia. }
  rewrite (u32_small idx), (u32_small (PGSIZE * cnt)) by (rewrite Epg in *; lia).
  erewrite bind_done; [done|]. apply (on_bytes_run _ s (page_at u s idx)). apply memset_correct; [lia|lia|].
  intros a Ha. apply Hm. unfold page_at in *. rewrite Epg in *. lia.
Qed.

Lemma palloc_free_run s u idx cnt : ram_ok s -> 0 <= idx -> 0 < cnt < 2 ^ 20 -> idx + cnt <= pool_size u s ->
  ((forall i, idx <= i < idx + cnt -> used u s i = true) ->
   exists s', palloc_free_multiple (page_at u s idx) cnt s = Done (tt, s') /\ ram_ok s' /\
     marked u idx cnt false s s' /\ bytes s' = freed s (page_at u s idx) cnt) /\
  (~ (forall i, idx <= i < idx + cnt -> used u s i = true) ->
   palloc_free_multiple (page_at u s idx) cnt s = Panic).
Proof.
  intros H Hi Hc Hs. rewrite palloc_free_steps by done. destruct (ram_pool s u H) as [Hwf Hp Hl Hh Hm].
  set (s1 := mk_ram _ _ _). assert (get_pool u s1 = get_pool u s) as Eg by by destruct u.
  destruct (bitmap_all_spec (used_map (get_pool u s)) idx cnt) as (r & Hr & E); [done|done|lia|done|].
  assert (on_used_map u (bitmap_all idx cnt) s1 = Done (r, s1)) as Hr1.
  { rewrite <- Eg in Hr. rewrite (on_used_map_run _ _ _ _ _ Hr). do 2 f_equal. by destruct s as [[] [] ?], u. }
  erewrite bind_done by exact Hr1. split; intros Hu.
  - rewrite (proj2 E Hu). erewrite bind_done by done.
    destruct (set_multiple_spec (used_map (get_pool u s)) idx cnt false) as (b & Hb & Hwf' & Hn & Hbit); [done|done|lia|done|].
    destruct (marked_set u idx cnt false s b (freed s (page_at u s idx) cnt)) as [Hok Hmk]; [done..|apply stored_is_Some|done|].
    eexists. rewrite <- Eg in Hb. rewrite (on_used_map_run _ _ _ _ _ Hb). split; [done|].
    destruct u; repeat split; apply Hok || apply Hmk.
  - destruct r; [by destruct Hu; apply E|]. done.
Qed.

(** Freeing pages that are in use marks exactly them free and fills them with
    0xcc; freeing a group that has a page not in use panics. *)
Theorem palloc_free_multiple_correct s u idx cnt : ram_ok s -> 0 <= idx -> 0 < cnt < 2 ^ 20 -> idx + cnt <= pool_size u s ->
  ((forall i, idx <= i < idx + cnt -> used u s i = true) ->
   exists s', palloc_free_multiple (page_at u s idx) cnt s = Done (tt, s') /\ ram_ok s' /\
     marked u idx cnt false s s' /\ bytes s' = freed s (page_at u s idx) cnt) /\
  (~ (forall i, idx <= i < idx + cnt -> used u s i = true) ->
   palloc_free_multiple (page_at u s idx) cnt s = Panic).
Proof. apply palloc_free_run. Qed.

(** Two groups of pages allocated one after the other do not overlap, whatever
    pools they come from. *)
Theorem palloc_disjoint s flags flags' cnt cnt' p p' s1 s2 : ram_ok s ->
  0 < cnt < 2 ^ 20 -> 0 < cnt' < 2 ^ 20 -> has flags PAL_ASSERT = false -> has flags' PAL_ASSERT = false ->
  palloc_get_multiple flags cnt s = Done (p, s1) -> palloc_get_multiple flags' cnt' s1 = Done (p', s2) ->
  p <> NULL -> p' <> NULL -> p + PGSIZE * cnt <= p' \/ p' + PGSIZE * cnt' <= p.
Proof.
  intros H Hc Hc' Ha Ha' H1 H2 Hp Hp'.
  destruct (palloc_get_run s flags cnt H Hc Ha) as (q & t1 & Hq & Hok & [[-> _]|(i & -> & Hi & Hin & Hfree & Hmk & _)]);
    rewrite H1 in Hq; simplify_eq.
  destruct (palloc_get_run t1 flags' cnt' Hok Hc' Ha') as (q & t2 & Hq & _ & [[-> _]|(j & -> & Hj & Hjn & Hfree' & _ & _)]);
    rewrite H2 in Hq; simplify_eq.
  set (u := has flags PAL_USER) in *. set (u' := has flags' PAL_USER) in *.
  destruct Hmk as [Hbase Hsize _ Hused]. unfold page_at. rewrite Hbase, Hsize in *.
  assert (PGSIZE = 4096) as Epg by done. destruct (Bool.eqb u u') eqn:E.
  - apply eqb_prop in E. rewrite <- E in *. rewrite Epg. destruct (decide (i + cnt <= j \/ j + cnt' <= i)); [lia|]. exfalso.
    specialize (Hfree' (Z.max i j)). rewrite Hused in Hfree' by lia. unfold in_range in Hfree'.
    rewrite (proj2 (Z.leb_le _ _)), (proj2 (Z.ltb_lt _ _)) in Hfree' by lia. cbn in Hfree'. discriminate Hfree'. lia.
  - destruct H as [_ _ Hap]. unfold pool_end, pool_size in *. rewrite Epg in *.
    destruct u, u'; try done; cbn [get_pool] in *; lia.
Qed.
End Palloc.

(** ** A small memory: three kernel pages and two user pages *)

Definition demo_bytes : mem := stored ∅ 0xc0000000 (replicate 20480 0).

Lemma demo_bytes_mapped : mapped demo_bytes 0xc0000000 20480.
Proof.
  change 20480 with (Z.of_nat 20480). rewrite <- (length_replicate 20480 0). apply bytes_at_mapped, stored_bytes.
  apply Forall_replicate. done.
Qed.

Lemma demo_bytes_zero : bytes_at demo_bytes 0xc0000000 (replicate 20480 0).
Proof. apply stored_bytes. apply Forall_replicate. done. Qed.

#[global] Opaque demo_bytes.

(** The kernel pages in use are the bits of [w]. *)
Definition demo_ram (w : Z) (m : mem) : ram :=
  mk_ram (mk_pool (mk_bitmap 3 [w]) 0xc0000000) (mk_pool (mk_bitmap 2 [0]) 0xc0003000) m.

Lemma demo_ram_ok w m : mapped m 0xc0000000 20480 -> ram_ok (demo_ram w m).
Proof.
  intros Hm. split; [split|split|]; try done; intros a Ha; apply Hm;
    change (PGSIZE * _) with 12288 in Ha || change (PGSIZE * _) with 8192 in Ha; cbn in Ha; lia.
Qed.

Lemma palloc_get_multiple_correct_witness : ram_ok (demo_ram 0 demo_bytes) /\
  exists p s', palloc_get_multiple PAL_ZERO 2 (demo_ram 0 demo_bytes) = Done (p, s') /\ ram_ok s'.
Proof.
  pose proof (demo_ram_ok 0 _ demo_bytes_mapped) as Hok. split; [exact Hok|].
  destruct (palloc_get_multiple_correct (demo_ram 0 demo_bytes) PAL_ZERO 2 Hok) as (p & s' & H1 & H2 & _);
    [by_decide|reflexivity|]. exists p, s'. exact (conj H1 H2).
Defined.

Lemma palloc_free_multiple_correct_witness :
  exists s', palloc_free_multiple 0xc0001000 1 (demo_ram 3 demo_bytes) = Done (tt, s') /\ ram_ok s'.
Proof.
  destruct (palloc_free_multiple_correct (demo_ram 3 demo_bytes) false 1 1 (demo_ram_ok _ _ demo_bytes_mapped)) as [H _];
    [done|done|done|].
  destruct H as (s' & H1 & H2 & _); [|exists s'; exact (conj H1 H2)].
  intros i Hi. assert (i = 1) as -> by lia. reflexivity.
Defined.

Lemma demo_get w cnt w' p :
  (forall m, palloc_get_multiple 0 cnt (demo_ram w m) = Done (p, demo_ram w' m)) ->
  palloc_get_multiple 0 cnt (demo_ram w demo_bytes) = Done (p, demo_ram w' demo_bytes).
Proof. intros H. apply H. Qed.

Lemma palloc_disjoint_witness : 0xc0000000 + PGSIZE * 1 <= 0xc0001000 \/ 0xc0001000 + PGSIZE * 2 <= 0xc0000000.
Proof.
  apply (palloc_disjoint (demo_ram 0 demo_bytes) 0 0 1 2 0xc0000000 0xc0001000 (demo_ram 1 demo_bytes) (demo_ram 7 demo_bytes));
    [exact (demo_ram_ok _ _ demo_bytes_mapped)|done|done|reflexivity|reflexivity| | |done|done].
  - apply demo_get. intros m. vm_compute. reflexivity.
  - apply demo_get. intros m. vm_compute. reflexivity.
Defined.
