(* ===== verification/Malloc.v ===== *)
(** * threads/malloc.c: the block allocator

    The state is the array [descs] and the pages of Palloc.  An arena's header lies
    in the bytes of its page, at the offsets of its fields; [descs_at] is the
    address the linker gives to the array [descs], so that the field [desc] of an
    arena is a word as in the code.  A free list is the sequence of its blocks, as
    list.c implements it (KList); the links, which lie in the free blocks, are not
    stored in the bytes.  [descs] has the [desc_cnt] descriptors in use.  The lock
    of a descriptor is held within one function only and is left to Kernel. *)

From S2P Require Import Prelude Vaddr Bitmap Mem CString Palloc.

Record desc := mk_desc {
  d_block_size : Z;           (* size of each element in bytes *)
  d_blocks_per_arena : Z;     (* number of blocks in an arena *)
  d_free_list : list Z        (* list of free blocks *)
}.

Record heap := mk_heap {
  descs : list desc;
  pages : ram
}.

Definition ARENA_MAGIC : Z := 0x9a548eed.

(** struct arena: [magic] at 0, [desc] at 4, [free_cnt] at 8. *)
Definition ARENA_SIZE : Z := 12.
(** sizeof (struct desc) *)
Definition DESC_SIZE : Z := 48.

Definition on_pages {A} (c : M ram A) : M heap A := fun h =>
  '(a, r) ← c (pages h); Done (a, mk_heap (descs h) r).
Definition on_mem {A} (c : M mem A) : M heap A := on_pages (on_bytes c).

Definition set_free_list (s : desc) (l : list Z) : desc := mk_desc (d_block_size s) (d_blocks_per_arena s) l.

(** ** Descriptors *)

(** [for (block_size = 16; block_size < PGSIZE / 2; block_size *= 2)] *)
Fixpoint init_descs (fuel : nat) (block_size : Z) : M heap unit :=
  match fuel with
  | O => nofuel
  | S fuel =>
      if block_size <? PGSIZE / 2 then
        h ← get;
        let desc_cnt := zlen (descs h) + 1 in
        ASSERT (desc_cnt <=? 10) ;;
        put (mk_heap (descs h ++ [mk_desc block_size ((PGSIZE - ARENA_SIZE) / block_size) []]) (pages h)) ;;
        init_descs fuel (u32 (block_size * 2))
      else mret tt
  end.

Definition malloc_init : M heap unit := init_descs 8 16.

Section Malloc.
Context (descs_at : Z).

Definition desc_ptr (i : Z) : Z := descs_at + DESC_SIZE * i.

(** The index of the descriptor at [d]. *)
Definition desc_idx (d : Z) : Z := (d - descs_at) / DESC_SIZE.

Definition get_desc (d : Z) : M heap desc :=
  load (fun h => if (d - descs_at) mod DESC_SIZE =? 0 then zget (descs h) (desc_idx d) else None).
Definition set_desc (d : Z) (s : desc) : M heap unit :=
  modify (fun h => mk_heap (zset (descs h) (desc_idx d) s) (pages h)).

Definition list_push_back (d b : Z) : M heap unit :=
  s ← get_desc d; set_desc d (set_free_list s (d_free_list s ++ [b])).
Definition list_push_front (d b : Z) : M heap unit :=
  s ← get_desc d; set_desc d (set_free_list s (b :: d_free_list s)).
Definition list_pop_front (d : Z) : M heap Z :=
  s ← get_desc d;
  match d_free_list s with
  | [] => panic
  | b :: l => set_desc d (set_free_list s l) ;; mret b
  end.
Definition list_remove (d b : Z) : M heap unit :=
  s ← get_desc d;
  if decide (b ∈ d_free_list s) then set_desc d (set_free_list s (filter (fun x => x <> b) (d_free_list s))) else fault.

(** ** Arenas and blocks *)

Definition block_to_arena (b : Z) : M heap Z :=
  let a := pg_round_down b in
  ASSERT (negb (a =? NULL)) ;;
  magic ← on_mem (load32 a); ASSERT (magic =? ARENA_MAGIC) ;;
  d ← on_mem (load32 (a + 4));
  (if d =? NULL then mret tt
   else s ← get_desc d; ASSERT (u32 (pg_ofs b - ARENA_SIZE) mod d_block_size s =? 0)) ;;
  ASSERT (negb (d =? NULL) || (pg_ofs b =? ARENA_SIZE)) ;;
  mret a.

Definition arena_to_block (a idx : Z) : M heap Z :=
  ASSERT (negb (a =? NULL)) ;;
  magic ← on_mem (load32 a); ASSERT (magic =? ARENA_MAGIC) ;;
  d ← on_mem (load32 (a + 4));
  s ← get_desc d;
  ASSERT (idx <? d_blocks_per_arena s) ;;
  mret (a + ARENA_SIZE + idx * d_block_size s).

(** Write the header of an arena. *)
Definition init_arena (a d free_cnt : Z) : M heap unit :=
  on_mem (store32 a ARENA_MAGIC) ;; on_mem (store32 (a + 4) d) ;; on_mem (store32 (a + 8) free_cnt).

(** ** malloc *)

(** [for (d = descs; d < descs + desc_cnt; d++)] *)
Fixpoint find_desc (ds : list desc) (d size : Z) : Z :=
  match ds with
  | [] => d
  | s :: ds => if size <=? d_block_size s then d else find_desc ds (d + DESC_SIZE) size
  end.

Definition malloc_big (size : Z) : M heap Z :=
  let page_cnt := u32 (u32 (size + ARENA_SIZE) + PGSIZE - 1) / PGSIZE in
  a ← on_pages (palloc_get_multiple 0 page_cnt);
  if a =? NULL then mret NULL
  else init_arena a NULL page_cnt ;; mret (a + ARENA_SIZE).

(** A new page of blocks for the descriptor [d]; false if there is none. *)
Definition new_arena (d : Z) : M heap bool :=
  a ← on_pages (palloc_get_page 0);
  if a =? NULL then mret false
  else
    s ← get_desc d;
    init_arena a d (d_blocks_per_arena s) ;;
    for_z (d_blocks_per_arena s) (fun i => b ← arena_to_block a i; list_push_back d b) ;;
    mret true.

(** Take a block from the free list of [d]. *)
Definition take_block (d : Z) : M heap Z :=
  b ← list_pop_front d;
  a ← block_to_arena b;
  free_cnt ← on_mem (load32 (a + 8));
  on_mem (store32 (a + 8) (u32 (free_cnt - 1))) ;;
  mret b.

Definition malloc (size : Z) : M heap Z :=
  if size =? 0 then mret NULL
  else
    ds ← gets descs;
    let d := find_desc ds descs_at size in
    if d =? desc_ptr (zlen ds) then malloc_big size
    else
      s ← get_desc d;
      ok ← match d_free_list s with [] => new_arena d | _ => mret true end;
      if negb ok then mret NULL else take_block d.

Definition calloc (a b : Z) : M heap Z :=
  let size := u32 (a * b) in
  if (size <? a) || (size <? b) then mret NULL
  else
    p ← malloc size;
    (if negb (p =? NULL) then on_mem (memset p 0 size) ;; mret tt else mret tt) ;;
    mret p.

(** ** free *)

(** Give an arena whose blocks are all free back to the page allocator. *)
Definition release_arena (a d : Z) : M heap unit :=
  s ← get_desc d;
  for_z (d_blocks_per_arena s) (fun i => b ← arena_to_block a i; list_remove d b) ;;
  on_pages (palloc_free_page a).

Definition free (p : Z) : M heap unit :=
  if negb (p =? NULL) then
    a ← block_to_arena p;
    d ← on_mem (load32 (a + 4));
    if negb (d =? NULL) then
      s ← get_desc d;
      on_mem (memset p 0xcc (d_block_size s)) ;;
      list_push_front d p ;;
      free_cnt ← on_mem (load32 (a + 8));
      let free_cnt := u32 (free_cnt + 1) in
      on_mem (store32 (a + 8) free_cnt) ;;
      if d_blocks_per_arena s <=? free_cnt then
        ASSERT (free_cnt =? d_blocks_per_arena s) ;;
        release_arena a d
      else mret tt
    else
      free_cnt ← on_mem (load32 (a + 8));
      on_pages (palloc_free_multiple a free_cnt)
  else mret tt.

(** ** realloc *)

Definition block_size (block : Z) : M heap Z :=
  a ← block_to_arena block;
  d ← on_mem (load32 (a + 4));
  if negb (d =? NULL) then s ← get_desc d; mret (d_block_size s)
  else free_cnt ← on_mem (load32 (a + 8)); mret (u32 (PGSIZE * free_cnt - pg_ofs block)).

Definition realloc (old_block new_size : Z) : M heap Z :=
  if new_size =? 0 then free old_block ;; mret NULL
  else
    new_block ← malloc new_size;
    (if negb (old_block =? NULL) && negb (new_block =? NULL) then
       old_size ← block_size old_block;
       let min_size := if new_size <? old_size then new_size else old_size in
       on_mem (memcpy new_block old_block min_size) ;;
       free old_block
     else mret tt) ;;
    mret new_block.
End Malloc.
