(* ===== verification/Arena.v ===== *)
(** * threads/malloc.c: arenas and free lists

    The invariant of the block allocator: every arena lies in pages of the kernel
    pool that are in use, with its header; the free lists hold blocks of arenas,
    each once; an arena's free count is the number of its blocks on the free list.
    [inv_step] is the one lemma by which an operation on one arena keeps it. *)

From S2P Require Import Prelude Vaddr Bitmap Mem CString Palloc Malloc.

(** What a page, or a group of pages, is used for: blocks of one descriptor, or
    one big block. *)
Inductive arena := Small (i : Z) | Big (n : Z).

Definition arena_pages (x : arena) : Z := match x with Small _ => 1 | Big n => n end.

Abbreviation memory h := (bytes (pages h)).

Definition block_at (s : desc) (a k : Z) : Z := a + ARENA_SIZE + k * d_block_size s.
Definition is_block (s : desc) (a b : Z) : Prop := exists k, 0 <= k < d_blocks_per_arena s /\ b = block_at s a k.

Definition in_page (a b : Z) : Prop := a <= b < a + PGSIZE.
#[export] Instance in_page_dec a b : Decision (in_page a b).
Proof. unfold in_page. apply _. Defined.

(** The blocks of arena [a] on a free list. *)
Definition free_count (s : desc) (a : Z) : Z := zlen (filter (in_page a) (d_free_list s)).

Definition header (m : mem) (a d cnt : Z) : Prop :=
  word_at m a ARENA_MAGIC /\ word_at m (a + 4) d /\ word_at m (a + 8) cnt.

(** [n] pages of the kernel pool from [a] on, all in use. *)
Definition placed (r : ram) (a n : Z) : Prop := exists idx, 0 <= idx /\ idx + n <= pool_size false r /\
  a = page_at false r idx /\ forall j, idx <= j < idx + n -> used false r j = true.

Definition shaped (i : Z) (s : desc) : Prop :=
  d_block_size s = 2 ^ (4 + i) /\ d_blocks_per_arena s = (PGSIZE - ARENA_SIZE) / d_block_size s.

Definition apart (a n a' n' : Z) : Prop := a + PGSIZE * n <= a' \/ a' + PGSIZE * n' <= a.

Section Arena.
Context (descs_at : Z).
Implicit Types (A : gmap Z arena) (h : heap) (r : ram).
Local Abbreviation desc_ptr := (desc_ptr descs_at).

Definition arena_ok (h : heap) (a : Z) (x : arena) : Prop :=
  match x with
  | Small i => exists s, zget (descs h) i = Some s /\ header (memory h) a (desc_ptr i) (free_count s a)
  | Big n => header (memory h) a NULL n /\ 0 < n < 2 ^ 20
  end.

Record heap_inv (A : gmap Z arena) (h : heap) : Prop := {
  hi_ram : ram_ok (pages h);
  hi_len : zlen (descs h) = 7;
  hi_desc : forall i s, zget (descs h) i = Some s -> shaped i s /\ NoDup (d_free_list s);
  hi_arena : forall a x, A !! a = Some x -> placed (pages h) a (arena_pages x) /\ arena_ok h a x;
  hi_apart : forall a a' x x', A !! a = Some x -> A !! a' = Some x' -> a <> a' ->
    apart a (arena_pages x) a' (arena_pages x');
  hi_free : forall i s b, zget (descs h) i = Some s -> b ∈ d_free_list s ->
    exists a, A !! a = Some (Small i) /\ is_block s a b
}.

(** An arena has a block that is not free. *)
Definition busy (A : gmap Z arena) (h : heap) (a : Z) : Prop := forall i s,
  A !! a = Some (Small i) -> zget (descs h) i = Some s -> free_count s a < d_blocks_per_arena s.

Definition heap_ok (A : gmap Z arena) (h : heap) : Prop := heap_inv A h /\ forall a, busy A h a.

(** ** Allocated blocks: [n] bytes from [p] on, in arena [a] *)

Definition live_in (A : gmap Z arena) (h : heap) (a p n : Z) : Prop :=
  match A !! a with
  | Some (Small i) => exists s, zget (descs h) i = Some s /\ is_block s a p /\ p ∉ d_free_list s /\ n = d_block_size s
  | Some (Big c) => p = a + ARENA_SIZE /\ n = PGSIZE * c - ARENA_SIZE
  | None => False
  end.

Definition live (A : gmap Z arena) (h : heap) (p n : Z) : Prop := exists a, live_in A h a p n.

(** ** Sizes and positions *)

Lemma shaped_bounds i s : 0 <= i < 7 -> shaped i s ->
  16 <= d_block_size s <= 1024 /\ d_block_size s mod 4 = 0 /\
  ARENA_SIZE + d_blocks_per_arena s * d_block_size s <= PGSIZE /\ 3 <= d_blocks_per_arena s <= 255.
Proof.
  intros Hi [-> ->]. assert (i = 0 \/ i = 1 \/ i = 2 \/ i = 3 \/ i = 4 \/ i = 5 \/ i = 6) as Hc by lia.
  repeat (destruct Hc as [->|Hc]; [by vm_compute|]). subst i. by vm_compute.
Qed.

Lemma desc_range A h i s : heap_inv A h -> zget (descs h) i = Some s -> 0 <= i < 7.
Proof. intros H Hs. apply zget_inv in Hs. by rewrite (hi_len _ _ H) in Hs. Qed.

Lemma desc_bounds A h i s : heap_inv A h -> zget (descs h) i = Some s ->
  16 <= d_block_size s <= 1024 /\ d_block_size s mod 4 = 0 /\
  ARENA_SIZE + d_blocks_per_arena s * d_block_size s <= PGSIZE /\ 3 <= d_blocks_per_arena s <= 255.
Proof. intros H Hs. apply (shaped_bounds i); [by eapply desc_range|apply (hi_desc _ _ H i s Hs)]. Qed.

Lemma shaped_page i s a b : 0 <= i < 7 -> shaped i s -> is_block s a b -> in_page a b.
Proof.
  intros Hi Hs (k & Hk & ->). pose proof (shaped_bounds i s Hi Hs). unfold in_page, block_at, ARENA_SIZE in *. nia.
Qed.

Lemma is_block_inside A h i s a b : heap_inv A h -> zget (descs h) i = Some s -> is_block s a b ->
  a + ARENA_SIZE <= b /\ b + d_block_size s <= a + PGSIZE.
Proof. intros H Hs (k & Hk & ->). pose proof (desc_bounds _ _ _ _ H Hs). unfold block_at. nia. Qed.

Lemma is_block_page A h i s a b : heap_inv A h -> zget (descs h) i = Some s -> is_block s a b -> in_page a b.
Proof.
  intros H Hs Hb. pose proof (is_block_inside _ _ _ _ _ _ H Hs Hb). pose proof (desc_bounds _ _ _ _ H Hs).
  unfold in_page, ARENA_SIZE in *. lia.
Qed.

(** A page of the kernel pool. *)
Definition page_ok (a n : Z) : Prop := a mod PGSIZE = 0 /\ PHYS_BASE <= a /\ a + PGSIZE * n <= 2 ^ 32.

Lemma placed_page r a n : ram_ok r -> placed r a n -> page_ok a n.
Proof.
  intros H (i & Hi & Hn & -> & _). split; [by apply page_at_aligned|].
  destruct (ram_pool r false H) as [_ _ Hl Hh _]. unfold page_at, pool_end, pool_size in *.
  assert (PGSIZE = 4096) as E by done. rewrite E in *. lia.
Qed.

Lemma placed_mapped r a n : ram_ok r -> placed r a n -> mapped (bytes r) a (PGSIZE * n).
Proof.
  intros H (i & Hi & Hn & -> & _). destruct (ram_pool r false H) as [_ _ _ _ Hm].
  intros x Hx. apply Hm. unfold page_at, pool_size in *. assert (PGSIZE = 4096) as E by done. rewrite E in *. lia.
Qed.

Lemma arena_page A h a x : heap_inv A h -> A !! a = Some x -> page_ok a (arena_pages x).
Proof. intros H Hx. apply (placed_page (pages h)); [apply H|]. by apply (hi_arena _ _ H). Qed.

Lemma arena_pages_pos A h a x : heap_inv A h -> A !! a = Some x -> 0 < arena_pages x.
Proof. intros H Hx. destruct x; cbn; [lia|]. apply (hi_arena _ _ H) in Hx as [_ [_ ?]]. lia. Qed.

Lemma desc_ptr_u32 i : 0 < descs_at /\ descs_at + 10 * DESC_SIZE <= 2 ^ 32 -> 0 <= i < 7 -> is_u32 (desc_ptr i) /\ desc_ptr i <> NULL.
Proof. unfold is_u32, Malloc.desc_ptr, DESC_SIZE, NULL in *. lia. Qed.

(** Pages that differ share no block. *)
Lemma pages_differ a a' b : a mod PGSIZE = 0 -> a' mod PGSIZE = 0 -> in_page a b -> in_page a' b -> a = a'.
Proof. change PGSIZE with 4096. unfold in_page. change PGSIZE with 4096. intros. dlia. Qed.

(** A block on a free list belongs to the arena of its page. *)
Lemma free_block A h i s a b : heap_inv A h -> zget (descs h) i = Some s -> b ∈ d_free_list s -> in_page a b ->
  a mod PGSIZE = 0 -> A !! a = Some (Small i) /\ is_block s a b.
Proof.
  intros H Hs Hb Hp Ha. destruct (hi_free _ _ H i s b Hs Hb) as (a' & HA & Hk).
  assert (a' = a) as ->; [|done]. apply (pages_differ _ _ b); [by apply (arena_page _ _ _ _ H HA)|done| |done].
  by eapply is_block_page.
Qed.

(** ** One arena changes *)

Record pages_step (a n : Z) (r r' : ram) : Prop := {
  ps_ok : ram_ok r';
  ps_base : base (kernel_pool r') = base (kernel_pool r);
  ps_size : pool_size false r' = pool_size false r;
  ps_used : forall j, 0 <= j -> ~ (a <= page_at false r j < a + PGSIZE * n) -> used false r' j = used false r j;
  ps_bytes : forall x, ~ (a <= x < a + PGSIZE * n) -> bytes r' !! x = bytes r !! x
}.

Record lists_step (a : Z) (h h' : heap) : Prop := {
  ls_len : zlen (descs h') = zlen (descs h);
  ls_desc : forall i s s', zget (descs h) i = Some s -> zget (descs h') i = Some s' ->
    d_block_size s' = d_block_size s /\ d_blocks_per_arena s' = d_blocks_per_arena s /\
    NoDup (d_free_list s') /\ forall b, ~ in_page a b -> b ∈ d_free_list s' <-> b ∈ d_free_list s
}.

Record arena_step (a n : Z) (A A' : gmap Z arena) (h h' : heap) : Prop := {
  as_page : a mod PGSIZE = 0 /\ 0 < n;
  as_pages : pages_step a n (pages h) (pages h');
  as_lists : lists_step a h h';
  as_other : forall a', a' <> a -> A' !! a' = A !! a';
  as_apart : forall a' x, a' <> a -> A !! a' = Some x -> apart a n a' (arena_pages x)
}.

Section Step.
Context (a n : Z) (A A' : gmap Z arena) (h h' : heap) (H : heap_inv A h) (Hs : arena_step a n A A' h h').

Lemma step_desc i s' : zget (descs h') i = Some s' -> exists s, zget (descs h) i = Some s /\
  d_block_size s' = d_block_size s /\ d_blocks_per_arena s' = d_blocks_per_arena s /\
  NoDup (d_free_list s') /\ forall b, ~ in_page a b -> b ∈ d_free_list s' <-> b ∈ d_free_list s.
Proof.
  destruct Hs as [_ _ [Hl Hd] _ _]. intros Hs'. pose proof (zget_inv _ _ _ Hs') as Hi. rewrite Hl in Hi.
  destruct (zget_Some (descs h) i Hi) as [s Es]. exists s. split; [done|]. by apply (Hd i).
Qed.

Lemma step_count a' s s' i : a' mod PGSIZE = 0 -> a' <> a -> zget (descs h) i = Some s -> zget (descs h') i = Some s' ->
  free_count s' a' = free_count s a'.
Proof.
  intros Ha' Hne E E'. destruct (step_desc i s' E') as (s0 & E0 & _ & _ & Hnd & Hb). rewrite E in E0. injection E0 as <-.
  unfold free_count, zlen. f_equal. apply Permutation_length. apply NoDup_Permutation.
  - by apply NoDup_filter.
  - apply NoDup_filter, (hi_desc _ _ H i s E).
  - intros b. rewrite !list_elem_of_filter. split; intros [Hp Hin]; (split; [done|]); apply Hb; try done;
      intros Hq; apply Hne; eapply pages_differ; eauto; apply Hs.
Qed.

Lemma step_header a' d cnt x : a' <> a -> A !! a' = Some x -> header (memory h) a' d cnt -> header (memory h') a' d cnt.
Proof.
  intros Hne Hx (H1 & H2 & H3). pose proof (as_apart _ _ _ _ _ _ Hs a' x Hne Hx) as Hap.
  pose proof (arena_pages_pos _ _ _ _ H Hx). destruct Hs as [[_ Hn] [_ _ _ _ Hb] _ _ _]. unfold apart in Hap.
  assert (PGSIZE = 4096) as E by done. rewrite E in *.
  repeat split; try apply H1; try apply H2; try apply H3; (eapply word_at_frame; [|eassumption]); intros y Hy; apply Hb; lia.
Qed.

Lemma step_placed a' x : a' <> a -> A !! a' = Some x -> placed (pages h') a' (arena_pages x).
Proof.
  intros Hne Hx. pose proof (as_apart _ _ _ _ _ _ Hs a' x Hne Hx) as Hap.
  destruct (hi_arena _ _ H a' x Hx) as [(idx & Hi & Hn & Ea & Hu) _]. destruct Hs as [[_ Hn0] [_ Eb Es Eu _] _ _ _].
  exists idx. rewrite Es. unfold page_at in *. cbn [get_pool] in *. rewrite Eb. split; [done|]. split; [done|]. split; [done|].
  intros j Hj. rewrite Eu; [by apply Hu|lia|]. unfold apart in Hap. assert (PGSIZE = 4096) as E by done. rewrite E in *. lia.
Qed.

Lemma step_arena a' x : a' <> a -> A !! a' = Some x -> arena_ok h' a' x.
Proof.
  intros Hne Hx. destruct (hi_arena _ _ H a' x Hx) as [_ Hok]. destruct x as [i|c].
  - destruct Hok as (s & Es & Hh). pose proof (zget_inv _ _ _ Es) as Hi. destruct Hs as [_ _ [Hl _] _ _].
    rewrite <- Hl in Hi. destruct (zget_Some _ _ Hi) as [s' Es']. exists s'. split; [done|].
    rewrite (step_count a' s s' i); [by eapply step_header|by apply (arena_page _ _ _ _ H Hx)|done..].
  - destruct Hok as [Hh Hc]. split; [by eapply step_header|done].
Qed.

(** An operation on one arena keeps the invariant if it keeps it of that arena. *)
Lemma inv_step :
  (forall x, A' !! a = Some x -> arena_pages x = n /\ placed (pages h') a n /\ arena_ok h' a x) ->
  (forall i s b, zget (descs h') i = Some s -> b ∈ d_free_list s -> in_page a b ->
     A' !! a = Some (Small i) /\ is_block s a b) ->
  heap_inv A' h'.
Proof.
  intros Hnew Hfree. pose proof (as_other _ _ _ _ _ _ Hs) as Ho. split.
  - apply Hs.
  - rewrite (ls_len _ _ _ (as_lists _ _ _ _ _ _ Hs)). apply H.
  - intros i s' E'. destruct (step_desc i s' E') as (s & E & E1 & E2 & Hnd & _). split; [|done].
    destruct (hi_desc _ _ H i s E) as [[H1 H2] _]. split; congruence.
  - intros a' x Hx. destruct (decide (a' = a)) as [->|Hne].
    + destruct (Hnew x Hx) as (<- & ? & ?). done.
    + rewrite Ho in Hx by done. split; [by apply step_placed|by apply step_arena].
  - intros a1 a2 x1 x2 H1 H2 Hne. unfold apart. pose proof (as_apart _ _ _ _ _ _ Hs) as Hap.
    destruct (decide (a1 = a)) as [->|N1]; [|rewrite Ho in H1 by done]; (destruct (decide (a2 = a)) as [->|N2]; [|rewrite Ho in H2 by done]).
    + done.
    + destruct (Hnew x1 H1) as (-> & _). apply (Hap a2); done.
    + destruct (Hnew x2 H2) as (-> & _). specialize (Hap a1 x1 N1 H1). unfold apart in Hap. tauto.
    + by apply (hi_apart _ _ H).
  - intros i s' b E' Hb. destruct (decide (in_page a b)) as [Hp|Hp].
    + exists a. by apply Hfree.
    + destruct (step_desc i s' E') as (s & E & E1 & E2 & _ & Hmem). apply Hmem in Hb; [|done].
      destruct (hi_free _ _ H i s b E Hb) as (a' & HA & Hk). exists a'. rewrite Ho.
      * split; [done|]. unfold is_block, block_at in *. by rewrite E1, E2.
      * intros ->. apply Hp. by eapply is_block_page.
Qed.

Lemma step_busy a' : a' <> a -> busy A h a' -> busy A' h' a'.
Proof.
  intros Hne Hb i s' HA E'. rewrite (as_other _ _ _ _ _ _ Hs) in HA by done.
  destruct (step_desc i s' E') as (s & E & _ & -> & _). rewrite (step_count a' s s' i); try done.
  - by apply (Hb i).
  - by apply (arena_page _ _ _ _ H HA).
Qed.

Lemma step_live a' p m : a' <> a -> live_in A' h' a' p m <-> live_in A h a' p m.
Proof.
  intros Hne. unfold live_in. rewrite (as_other _ _ _ _ _ _ Hs) by done. destruct (A !! a') as [[i|c]|] eqn:EA; try done.
  assert (forall s, zget (descs h) i = Some s -> is_block s a' p -> ~ in_page a p) as Hout.
  { intros s Es Hk Hp. apply Hne. apply (pages_differ _ _ p); try done; [|apply Hs|by eapply is_block_page].
    by apply (arena_page _ _ _ _ H EA). }
  assert (forall s s', d_block_size s' = d_block_size s -> d_blocks_per_arena s' = d_blocks_per_arena s ->
    is_block s' a' p <-> is_block s a' p) as Hsame by (intros s s' E1 E2; unfold is_block, block_at; by rewrite E1, E2).
  split.
  - intros (s' & E' & Hk & Hn & ->). destruct (step_desc i s' E') as (s & E & E1 & E2 & _ & Hm). exists s.
    apply (Hsame s s' E1 E2) in Hk. repeat split; try done. by rewrite <- Hm by by eapply Hout.
  - intros (s & E & Hk & Hn & ->). pose proof (zget_inv _ _ _ E) as Hi. rewrite <- (ls_len _ _ _ (as_lists _ _ _ _ _ _ Hs)) in Hi.
    destruct (zget_Some _ _ Hi) as [s' E']. exists s'. destruct (step_desc i s' E') as (s0 & E0 & E1 & E2 & _ & Hm).
    rewrite E in E0. injection E0 as <-. repeat split; try done; [by apply (Hsame s)|]. by rewrite Hm by by eapply Hout.
Qed.
End Step.
End Arena.
