(* ===== verification/MallocRuns.v ===== *)
(** * threads/malloc.c: runs of the operations on arenas

    The state that each small operation of Malloc leaves: taking a block from a
    free list, adding a page of blocks, allocating a big block; each is a step of
    one arena ([Arena.arena_step]) that keeps the invariant. *)

From S2P Require Import Prelude Vaddr Bitmap Mem CString Palloc Malloc Arena.

(** ** The runs of the small operations *)

Definition with_mem (h : heap) (m : mem) : heap :=
  mk_heap (descs h) (mk_ram (kernel_pool (pages h)) (user_pool (pages h)) m).
Definition with_list (h : heap) (i : Z) (s : desc) (l : list Z) : heap :=
  mk_heap (zset (descs h) i (set_free_list s l)) (pages h).

(** The pages of [h] with the word [v] stored at [p]. *)
Definition put_word (p v : Z) (h : heap) : heap := with_mem h (stored (memory h) p (le_bytes v)).

Section Spec.
Context (descs_at : Z) (Hat : 0 < descs_at /\ descs_at + 10 * DESC_SIZE <= 2 ^ 32).
Implicit Types (A : gmap Z arena) (h : heap) (r : ram) (s : desc).
Local Abbreviation desc_ptr := (desc_ptr descs_at).
Local Abbreviation heap_inv := (heap_inv descs_at).
Local Abbreviation heap_ok := (heap_ok descs_at).

Lemma heap_pages_run {X} (c : M ram X) h x r : c (pages h) = Done (x, r) -> on_pages c h = Done (x, mk_heap (descs h) r).
Proof. intros E. unfold on_pages. by rewrite (obind_done _ _ _ E). Qed.

Lemma on_mem_run {X} (c : M mem X) h x m : c (memory h) = Done (x, m) -> on_mem c h = Done (x, with_mem h m).
Proof. intros E. by apply heap_pages_run, on_bytes_run. Qed.

Lemma with_mem_same h : with_mem h (memory h) = h.
Proof. by destruct h as [? []]. Qed.

Lemma load_run h p v : word_at (memory h) p v -> on_mem (load32 p) h = Done (v, h).
Proof. intros E. rewrite (on_mem_run _ _ _ _ (load32_word _ _ _ E)). by rewrite with_mem_same. Qed.

Lemma store_run h p v : mapped (memory h) p 4 -> on_mem (store32 p v) h = Done (tt, put_word p v h).
Proof. intros E. by apply on_mem_run, store32_run. Qed.

Lemma get_desc_run h i s : zget (descs h) i = Some s -> get_desc descs_at (desc_ptr i) h = Done (s, h).
Proof.
  intros E. unfold get_desc, load, desc_idx, Malloc.desc_ptr. replace (descs_at + DESC_SIZE * i - descs_at) with (i * DESC_SIZE) by lia.
  rewrite Z.mod_mul, Z.div_mul by done. by rewrite E.
Qed.

Lemma set_desc_run h i s l : set_desc descs_at (desc_ptr i) (set_free_list s l) h = Done (tt, with_list h i s l).
Proof.
  unfold set_desc, modify, desc_idx, Malloc.desc_ptr. replace (descs_at + DESC_SIZE * i - descs_at) with (i * DESC_SIZE) by lia.
  by rewrite Z.div_mul by done.
Qed.

Lemma push_back_run h i s b : zget (descs h) i = Some s ->
  list_push_back descs_at (desc_ptr i) b h = Done (tt, with_list h i s (d_free_list s ++ [b])).
Proof. intros E. unfold list_push_back. erewrite bind_done by by apply get_desc_run. apply set_desc_run. Qed.

Lemma push_front_run h i s b : zget (descs h) i = Some s ->
  list_push_front descs_at (desc_ptr i) b h = Done (tt, with_list h i s (b :: d_free_list s)).
Proof. intros E. unfold list_push_front. erewrite bind_done by by apply get_desc_run. apply set_desc_run. Qed.

Lemma pop_front_run h i s b l : zget (descs h) i = Some s -> d_free_list s = b :: l ->
  list_pop_front descs_at (desc_ptr i) h = Done (b, with_list h i s l).
Proof.
  intros E El. unfold list_pop_front. erewrite bind_done by by apply get_desc_run. rewrite El.
  by erewrite bind_done by apply set_desc_run.
Qed.

Lemma remove_run h i s b : zget (descs h) i = Some s -> b ∈ d_free_list s ->
  list_remove descs_at (desc_ptr i) b h = Done (tt, with_list h i s (filter (fun x => x <> b) (d_free_list s))).
Proof.
  intros E Hb. unfold list_remove. erewrite bind_done by by apply get_desc_run. rewrite decide_True by done. apply set_desc_run.
Qed.

(** The fixed part of an arena's header. *)
Definition arena_at h (a d : Z) : Prop :=
  page_ok a 1 /\ word_at (memory h) a ARENA_MAGIC /\ word_at (memory h) (a + 4) d.

Lemma inv_arena_at A h a i : heap_inv A h -> A !! a = Some (Small i) -> exists s, zget (descs h) i = Some s /\
  arena_at h a (desc_ptr i) /\ word_at (memory h) (a + 8) (free_count s a).
Proof.
  intros H Ha. destruct (hi_arena _ _ _ H a _ Ha) as [Hp (s & Es & H1 & H2 & H3)]. exists s. split; [done|].
  split; [|done]. split; [|done]. by apply (placed_page _ _ _ (hi_ram _ _ _ H)) in Hp.
Qed.

Lemma round_down_block a b : page_ok a 1 -> in_page a b -> pg_round_down b = a /\ pg_ofs b = b - a /\ negb (a =? NULL) = true.
Proof.
  intros (H1 & H2 & H3) Hb. unfold in_page, PHYS_BASE, NULL in *. assert (PGSIZE = 4096) as E by done. rewrite E in *.
  rewrite pg_round_down_eq by (unfold is_u32; lia). rewrite pg_ofs_mod, E. repeat split; [dlia..|].
  by rewrite (proj2 (Z.eqb_neq a 0)) by lia.
Qed.

Lemma block_to_arena_small h a i s b : 0 <= i < 7 -> shaped i s -> zget (descs h) i = Some s ->
  arena_at h a (desc_ptr i) -> is_block s a b -> block_to_arena descs_at b h = Done (a, h).
Proof.
  intros Hi Hsh Es (Hp & Hm & Hd) Hb. pose proof (shaped_page _ _ _ _ Hi Hsh Hb) as Hin.
  destruct (round_down_block a b Hp Hin) as (E1 & E2 & E3). destruct (shaped_bounds _ _ Hi Hsh) as (Hbs & _ & Htot & Hn).
  destruct (desc_ptr_u32 descs_at i Hat) as [_ Hnn]; [done|].
  unfold block_to_arena. rewrite E1, E2, E3. erewrite bind_done by done. erewrite bind_done by by apply load_run.
  erewrite bind_done by done. erewrite bind_done by by apply load_run. rewrite (proj2 (Z.eqb_neq _ _) Hnn).
  destruct Hb as (k & Hk & ->). unfold block_at.
  erewrite bind_done; [done|]. erewrite bind_done by by apply get_desc_run.
  replace (a + ARENA_SIZE + k * d_block_size s - a - ARENA_SIZE) with (k * d_block_size s) by lia.
  assert (PGSIZE = 4096) as E by done. rewrite E in *. unfold ARENA_SIZE in *.
  rewrite u32_small by nia. rewrite Z.mod_mul by lia. done.
Qed.

Lemma block_to_arena_big h a : arena_at h a NULL -> block_to_arena descs_at (a + ARENA_SIZE) h = Done (a, h).
Proof.
  intros (Hp & Hm & Hd). destruct (round_down_block a (a + ARENA_SIZE) Hp) as (E1 & E2 & E3).
  { unfold in_page, ARENA_SIZE. change PGSIZE with 4096. lia. }
  unfold block_to_arena. rewrite E1, E2, E3. erewrite bind_done by done. erewrite bind_done by by apply load_run.
  erewrite bind_done by done. erewrite bind_done by by apply load_run. erewrite bind_done by done.
  replace (a + ARENA_SIZE - a) with ARENA_SIZE by lia. done.
Qed.

Lemma arena_to_block_run h a i s k : arena_at h a (desc_ptr i) -> zget (descs h) i = Some s -> k < d_blocks_per_arena s ->
  arena_to_block descs_at a k h = Done (block_at s a k, h).
Proof.
  intros ((_ & Hl & _) & Hm & Hd) Es Hk. unfold arena_to_block. unfold PHYS_BASE in Hl.
  assert (negb (a =? NULL) = true) as -> by (unfold NULL; by rewrite (proj2 (Z.eqb_neq a 0)) by lia).
  erewrite bind_done by done. erewrite bind_done by by apply load_run. erewrite bind_done by done.
  erewrite bind_done by by apply load_run. erewrite bind_done by by apply get_desc_run.
  rewrite (proj2 (Z.ltb_lt _ _) Hk). done.
Qed.

(** ** Steps within one arena *)

Lemma ram_ok_mem r m : ram_ok r -> (forall x, is_Some (bytes r !! x) -> is_Some (m !! x)) ->
  ram_ok (mk_ram (kernel_pool r) (user_pool r) m).
Proof.
  intros [[H1 H2 H3 H4 H5] [H1' H2' H3' H4' H5'] Hap] Hm.
  split; [split|split|]; try done; intros x Hx; apply Hm; [by apply H5|by apply H5'].
Qed.

Lemma pages_step_mem a n r m : ram_ok r -> (forall x, is_Some (bytes r !! x) -> is_Some (m !! x)) ->
  (forall x, ~ (a <= x < a + PGSIZE * n) -> m !! x = bytes r !! x) ->
  pages_step a n r (mk_ram (kernel_pool r) (user_pool r) m).
Proof. intros H Hm Ho. split; try done. by apply ram_ok_mem. Qed.

(** One free list changes, only by blocks of arena [a]. *)
Lemma lists_step_set A h r a i s l : heap_inv A h -> zget (descs h) i = Some s -> NoDup l ->
  (forall b, ~ in_page a b -> b ∈ l <-> b ∈ d_free_list s) ->
  lists_step a h (mk_heap (zset (descs h) i (set_free_list s l)) r).
Proof.
  intros H Es Hnd Hl. pose proof (zget_inv _ _ _ Es) as Hi. split; [apply zlen_zset|]. cbn [descs].
  intros j s1 s' E1 E'. rewrite zget_zset in E' by done. case_decide as Hj.
  - subst j. rewrite Es in E1. injection E1 as <-. injection E' as <-. done.
  - rewrite E1 in E'. injection E' as <-. split; [done|]. split; [done|]. split; [|done]. apply (hi_desc _ _ _ H _ _ E1).
Qed.

Lemma lists_step_same A h r a : heap_inv A h -> lists_step a h (mk_heap (descs h) r).
Proof.
  intros H. split; [done|]. cbn [descs]. intros j s1 s' E1 E'. rewrite E1 in E'. injection E' as <-.
  repeat split; try done. apply (hi_desc _ _ _ H _ _ E1).
Qed.

(** The arena stays; its free list and its bytes after the fixed header change. *)
Lemma small_step A h a i s l m : heap_inv A h -> A !! a = Some (Small i) -> zget (descs h) i = Some s -> NoDup l ->
  (forall b, ~ in_page a b -> b ∈ l <-> b ∈ d_free_list s) -> (forall b, b ∈ l -> in_page a b -> is_block s a b) ->
  (forall x, is_Some (memory h !! x) -> is_Some (m !! x)) ->
  (forall x, x < a + 8 \/ a + PGSIZE <= x -> m !! x = memory h !! x) ->
  word_at m (a + 8) (free_count (set_free_list s l) a) ->
  let h' := with_mem (with_list h i s l) m in arena_step a 1 A A h h' /\ heap_inv A h'.
Proof.
  intros H HA Es Hnd Hout Hin Hm Hmo Hcnt h'. pose proof (arena_page _ _ _ _ _ H HA) as Hp.
  pose proof (zget_inv _ _ _ Es) as Hi.
  assert (arena_step a 1 A A h h') as Hs.
  { split; [split; [apply Hp|lia]| |by eapply lists_step_set|done|].
    - apply pages_step_mem; [apply H|done|]. intros x Hx. apply Hmo. change PGSIZE with 4096 in *. lia.
    - intros a' x Hne Hx. by apply (hi_apart _ _ _ H a a' (Small i)). }
  split; [exact Hs|]. eapply inv_step; [exact H|exact Hs|..].
  - intros x Hx. rewrite HA in Hx. injection Hx as <-. split; [done|].
    destruct (hi_arena _ _ _ H a _ HA) as [Hpl (s0 & Es0 & H1 & H2 & _)]. split; [exact Hpl|].
    exists (set_free_list s l). split; [cbn; by rewrite zget_zset_eq|].
    split; [|split; [|done]]; (eapply word_at_frame; [|eassumption]); intros x Hx; apply Hmo; lia.
  - intros j s' b E' Hb Hpb. cbn [h' descs with_mem with_list] in E'. rewrite zget_zset in E' by done. case_decide as Hj.
    + subst j. injection E' as <-. split; [done|]. by apply Hin.
    + destruct (free_block _ _ _ _ _ a _ H E' Hb Hpb) as [HA' _]; [apply Hp|]. rewrite HA in HA'. congruence.
Qed.

(** The first [n] blocks of an arena. *)
Definition blocks s a (n : Z) : list Z := (fun k => block_at s a (Z.of_nat k)) <$> seq 0 (Z.to_nat n).

Lemma elem_blocks s a n b : b ∈ blocks s a n <-> exists k, 0 <= k < n /\ b = block_at s a k.
Proof.
  unfold blocks. rewrite list_elem_of_fmap. split.
  - intros (k & -> & Hk%elem_of_seq). exists (Z.of_nat k). split; [lia|done].
  - intros (k & Hk & ->). exists (Z.to_nat k). rewrite Z2Nat.id by lia. split; [done|]. apply elem_of_seq. lia.
Qed.

Lemma blocks_succ s a n : 0 <= n -> blocks s a (n + 1) = blocks s a n ++ [block_at s a n].
Proof.
  intros Hn. unfold blocks. replace (Z.to_nat (n + 1)) with (S (Z.to_nat n)) by lia.
  rewrite seq_S, fmap_app. cbn. by rewrite Z2Nat.id by lia.
Qed.

Lemma blocks_NoDup s a n : 0 < d_block_size s -> NoDup (blocks s a n).
Proof. intros Hs. apply NoDup_fmap_2; [|apply NoDup_seq]. intros i j E. unfold block_at in E. nia. Qed.

Lemma zlen_blocks s a n : 0 <= n -> zlen (blocks s a n) = n.
Proof. intros Hn. unfold zlen, blocks. rewrite length_fmap, length_seq. lia. Qed.

Lemma blocks_is_block s a b : b ∈ blocks s a (d_blocks_per_arena s) <-> is_block s a b.
Proof. by rewrite elem_blocks. Qed.

(** The free blocks of an arena are among its blocks. *)
Lemma free_blocks_sub A h a i s : heap_inv A h -> A !! a = Some (Small i) -> zget (descs h) i = Some s ->
  filter (in_page a) (d_free_list s) ⊆+ blocks s a (d_blocks_per_arena s).
Proof.
  intros H HA Es. apply NoDup_submseteq; [apply NoDup_filter, (hi_desc _ _ _ H i s Es)|].
  intros b [Hp Hb]%list_elem_of_filter. apply blocks_is_block. eapply free_block; [exact H|exact Es|done|done|].
  by apply (arena_page _ _ _ _ _ H HA).
Qed.

Lemma count_range A h a i s : heap_inv A h -> A !! a = Some (Small i) -> zget (descs h) i = Some s ->
  0 <= free_count s a <= d_blocks_per_arena s.
Proof.
  intros H HA Es. split; [apply zlen_nonneg|]. destruct (desc_bounds _ _ _ _ _ H Es) as (_ & _ & _ & Hn).
  pose proof (submseteq_length _ _ (free_blocks_sub A h a i s H HA Es)). pose proof (zlen_blocks s a (d_blocks_per_arena s)).
  unfold free_count, zlen in *. lia.
Qed.

Lemma put_word_is_Some p v h x : is_Some (memory h !! x) -> is_Some (memory (put_word p v h) !! x).
Proof. apply stored_is_Some. Qed.

Lemma put_word_outside p v h x : x < p \/ p + 4 <= x -> memory (put_word p v h) !! x = memory h !! x.
Proof. intros Hx. apply stored_outside. change (zlen (le_bytes v)) with 4. lia. Qed.

(** What taking the first block of a free list leaves. *)
Definition taken h i s l a : heap := put_word (a + 8) (free_count s a - 1) (with_list h i s l).

Lemma take_block_run A h i s b l : heap_inv A h -> zget (descs h) i = Some s -> d_free_list s = b :: l ->
  exists a, A !! a = Some (Small i) /\ is_block s a b /\
    take_block descs_at (desc_ptr i) h = Done (b, taken h i s l a) /\
    arena_step a 1 A A h (taken h i s l a) /\ heap_inv A (taken h i s l a) /\
    free_count (set_free_list s l) a = free_count s a - 1.
Proof.
  intros H Es El. destruct (hi_free _ _ _ H i s b Es) as (a & HA & Hb); [rewrite El; by left|].
  pose proof (hi_desc _ _ _ H i s Es) as [_ Hnd]. rewrite El in Hnd. apply NoDup_cons in Hnd as [Hbl Hnd].
  destruct (inv_arena_at A h a i H HA) as (s' & Es' & Hat' & Hc). rewrite Es in Es'. injection Es' as <-.
  pose proof (is_block_page _ _ _ _ _ _ _ H Es Hb) as Hpb.
  assert (free_count (set_free_list s l) a = free_count s a - 1) as Ecnt.
  { unfold free_count. rewrite El. cbn [d_free_list set_free_list]. rewrite filter_cons_True by done. rewrite zlen_cons. lia. }
  pose proof (count_range _ _ _ _ _ H HA Es) as Hcr. destruct (desc_bounds _ _ _ _ _ H Es) as (_ & _ & _ & Hn).
  assert (0 <= free_count s a - 1) as Hpos by (rewrite <- Ecnt; apply zlen_nonneg).
  exists a. split; [done|]. split; [done|]. split.
  - unfold take_block. erewrite bind_done by by eapply pop_front_run.
    pose proof (zget_inv _ _ _ Es) as Hi.
    erewrite bind_done.
    2:{ apply (block_to_arena_small _ a i (set_free_list s l)); [by eapply desc_range|by apply (hi_desc _ _ _ H i s Es)| | |done].
        - cbn. by apply zget_zset_eq.
        - exact Hat'. }
    erewrite bind_done by by apply load_run. rewrite u32_small by lia.
    erewrite bind_done; [done|]. apply store_run. by eapply word_mapped.
  - destruct (small_step A h a i s l (memory (taken h i s l a)) H HA Es Hnd) as [H1 H2].
    + intros c Hnc. rewrite El, elem_of_cons. split; [by right|]. intros [->|?]; done.
    + intros c Hin Hpc. eapply free_block; [done|done|rewrite El; by right|done|]. by apply (arena_page _ _ _ _ _ H HA).
    + intros x. apply (put_word_is_Some _ _ (with_list h i s l)).
    + intros x Hx. apply (put_word_outside _ _ (with_list h i s l)). change PGSIZE with 4096 in Hx. lia.
    + rewrite Ecnt. apply store32_word. unfold is_u32. lia.
    + done.
Qed.

(** ** New pages *)

Lemma pages_step_get r r' idx cnt : 0 < cnt -> ram_ok r' -> marked false idx cnt true r r' -> bytes r' = bytes r ->
  pages_step (page_at false r idx) cnt r r'.
Proof.
  intros Hc Hok [Hb Hs _ Hu] Hm. split; [done|apply (Hb false)|apply Hs| |by rewrite Hm].
  intros j Hj Hout. rewrite Hu by done. unfold in_range, page_at in *.
  assert (PGSIZE = 4096) as E by done. rewrite E in *.
  destruct (idx <=? j) eqn:E1, (j <? idx + cnt) eqn:E2; try done. apply Z.leb_le in E1. apply Z.ltb_lt in E2. lia.
Qed.

Lemma placed_get r r' idx cnt : 0 <= idx -> idx + cnt <= pool_size false r -> marked false idx cnt true r r' ->
  placed r' (page_at false r idx) cnt.
Proof.
  intros Hi Hn [Hb Hs _ Hu]. exists idx. unfold page_at. rewrite Hb, Hs. repeat split; try done.
  intros j Hj. rewrite Hu by lia. unfold in_range.
  by rewrite (proj2 (Z.leb_le _ _)), (proj2 (Z.ltb_lt _ _)) by lia.
Qed.

(** Free pages belong to no arena. *)
Lemma apart_get A h idx cnt a x : heap_inv A h -> 0 < cnt ->
  (forall j, idx <= j < idx + cnt -> used false (pages h) j = false) -> A !! a = Some x ->
  apart (page_at false (pages h) idx) cnt a (arena_pages x).
Proof.
  intros H Hc Hfree Hx. pose proof (arena_pages_pos _ _ _ _ _ H Hx) as Hn.
  destruct (hi_arena _ _ _ H a x Hx) as [(j & Hj & Hjn & -> & Hused) _]. unfold apart, page_at.
  assert (PGSIZE = 4096) as E by done. rewrite E.
  destruct (decide (idx + cnt <= j \/ j + arena_pages x <= idx)); [lia|]. exfalso.
  assert (used false (pages h) (Z.max idx j) = true) as E1 by (apply Hused; lia).
  rewrite Hfree in E1 by lia. done.
Qed.

Lemma fresh_get A h idx cnt : heap_inv A h -> 0 < cnt ->
  (forall j, idx <= j < idx + cnt -> used false (pages h) j = false) -> A !! page_at false (pages h) idx = None.
Proof.
  intros H Hc Hfree. destruct (A !! _) as [x|] eqn:E; [|done]. pose proof (apart_get _ _ _ _ _ _ H Hc Hfree E) as Hap.
  pose proof (arena_pages_pos _ _ _ _ _ H E). unfold apart in Hap. assert (PGSIZE = 4096) as E1 by done. rewrite E1 in *. lia.
Qed.

(** The state with the header of arena [a] written. *)
Definition with_header (a d cnt : Z) h : heap := put_word (a + 8) cnt (put_word (a + 4) d (put_word a ARENA_MAGIC h)).

Lemma with_header_mem a d cnt h x : x < a \/ a + ARENA_SIZE <= x -> memory (with_header a d cnt h) !! x = memory h !! x.
Proof. intros Hx. unfold with_header, ARENA_SIZE in *. by rewrite !put_word_outside by lia. Qed.

Lemma with_header_is_Some a d cnt h x : is_Some (memory h !! x) -> is_Some (memory (with_header a d cnt h) !! x).
Proof. intros Hx. unfold with_header. by do 3 apply put_word_is_Some. Qed.

Lemma put_word_header h p v q w : q + 4 <= p \/ p + 4 <= q -> word_at (memory h) q w -> word_at (memory (put_word p v h)) q w.
Proof. intros Hd. apply word_at_frame. intros x Hx. apply put_word_outside. lia. Qed.

Lemma with_header_spec a d cnt h : is_u32 d -> is_u32 cnt -> header (memory (with_header a d cnt h)) a d cnt.
Proof.
  intros Hd Hc. unfold with_header. split; [|split].
  - do 2 (apply put_word_header; [lia|]). by apply store32_word.
  - apply put_word_header; [lia|]. by apply store32_word.
  - by apply store32_word.
Qed.

Lemma init_arena_run a d cnt h : mapped (memory h) a PGSIZE -> init_arena a d cnt h = Done (tt, with_header a d cnt h).
Proof.
  intros Hm. change PGSIZE with 4096 in Hm.
  assert (forall h', (forall x, is_Some (memory h !! x) -> is_Some (memory h' !! x)) -> forall p v, a <= p <= a + 8 ->
    on_mem (store32 p v) h' = Done (tt, put_word p v h')) as Hst.
  { intros h' Hh p v Hp. apply store_run. intros x Hx. apply Hh, Hm. lia. }
  unfold init_arena. erewrite bind_done by (apply Hst; [done|lia]).
  erewrite bind_done by (apply Hst; [intros; by apply put_word_is_Some|lia]).
  apply Hst; [intros; by do 2 apply put_word_is_Some|lia].
Qed.

Lemma with_list_twice h i s l l' : with_list (with_list h i s l) i (set_free_list s l) l' = with_list h i s l'.
Proof. unfold with_list. cbn. by rewrite zset_zset. Qed.

Lemma with_list_same h i s : zget (descs h) i = Some s -> with_list h i s (d_free_list s) = h.
Proof. intros E. unfold with_list. destruct s, h. cbn in *. by rewrite zset_same. Qed.

Lemma get_with_list h i s l : zget (descs h) i = Some s -> zget (descs (with_list h i s l)) i = Some (set_free_list s l).
Proof. intros E. cbn. apply zget_zset_eq. by eapply zget_inv. Qed.

(** The loop that adds the blocks of a new arena to the free list. *)
Lemma add_blocks_run h a i s n : arena_at h a (desc_ptr i) -> zget (descs h) i = Some s -> d_free_list s = [] ->
  0 <= n <= d_blocks_per_arena s ->
  for_z n (fun k => b ← arena_to_block descs_at a k; list_push_back descs_at (desc_ptr i) b) h =
    Done (tt, with_list h i s (blocks s a n)).
Proof.
  intros Ha Es El Hn.
  destruct (for_from_inv (fun j h' => h' = with_list h i s (blocks s a j))
    (fun k => b ← arena_to_block descs_at a k; list_push_back descs_at (desc_ptr i) b) (Z.to_nat n) 0 h) as (h' & Hr & ->).
  - change (blocks s a 0) with (@nil Z). by rewrite <- El, with_list_same.
  - intros j h1 Hj ->. eexists. split; [|reflexivity].
    erewrite bind_done.
    2:{ apply (arena_to_block_run _ a i (set_free_list s (blocks s a j)) j); [exact Ha|by apply get_with_list|cbn; lia]. }
    erewrite push_back_run by by apply get_with_list.
    by rewrite with_list_twice, blocks_succ by lia.
  - unfold for_z. rewrite Hr. do 2 f_equal. by rewrite Z2Nat.id by lia.
Qed.

Lemma placed_pools r r' a n : kernel_pool r' = kernel_pool r -> placed r a n -> placed r' a n.
Proof. intros E. unfold placed, pool_size, page_at, used. cbn [get_pool]. by rewrite E. Qed.

(** New pages, with a header written, become an arena. *)
Lemma fresh_step A h h' r idx cnt d c x : heap_inv A h -> 0 < cnt -> 0 <= idx -> idx + cnt <= pool_size false (pages h) ->
  (forall j, idx <= j < idx + cnt -> used false (pages h) j = false) ->
  ram_ok r -> marked false idx cnt true (pages h) r -> bytes r = bytes (pages h) ->
  let a := page_at false (pages h) idx in
  pages h' = pages (with_header a d c (mk_heap (descs h) r)) -> lists_step a h h' ->
  arena_step a cnt A (<[a := x]> A) h h' /\ A !! a = None /\ placed (pages h') a cnt.
Proof.
  intros H Hc Hi Hn Hfree Hok Hmk Hb a Ep Hl. assert (0 < PGSIZE) as Hpg by done.
  pose proof (pages_step_get _ _ _ _ Hc Hok Hmk Hb) as [S1 S2 S3 S4 S5].
  split; [|split; [by apply (fresh_get A h idx cnt)|]].
  - split; [split; [apply page_at_aligned, H|done]| |done| |].
    + rewrite Ep. split; [|done..|].
      * apply (ram_ok_mem r); [done|]. intros y Hy. by apply (with_header_is_Some _ _ _ (mk_heap (descs h) r)).
      * intros y Hy. rewrite <- S5 by done. apply (with_header_mem a d c (mk_heap (descs h) r)).
        unfold ARENA_SIZE, a. change PGSIZE with 4096 in *. lia.
    + intros a' Hne. by rewrite lookup_insert_ne.
    + intros a' y Hne Hy. by eapply apart_get.
  - rewrite Ep. apply (placed_pools r); [done|]. by apply placed_get.
Qed.

Lemma filter_blocks a s l : (forall b, b ∈ l -> in_page a b) -> free_count (set_free_list s l) a = zlen l.
Proof.
  intros Hl. unfold free_count. cbn [d_free_list set_free_list]. induction l as [|b l IH]; [done|].
  rewrite filter_cons_True by (apply Hl; left). rewrite !zlen_cons, IH; [done|]. intros c Hc. apply Hl. by right.
Qed.

(** No group of [cnt] free pages. *)
Definition no_pages h (cnt : Z) : Prop := forall k, 0 <= k -> ~ group (used_map (kernel_pool (pages h))) k cnt false.

(** What a new arena for descriptor [i] leaves, [r] being the pages once its page is taken. *)
Definition fresh_small h r a i s : heap :=
  with_list (with_header a (desc_ptr i) (d_blocks_per_arena s) (mk_heap (descs h) r)) i s (blocks s a (d_blocks_per_arena s)).

Lemma fresh_small_inv A h r idx i s : heap_inv A h -> zget (descs h) i = Some s -> d_free_list s = [] ->
  0 <= idx -> idx + 1 <= pool_size false (pages h) ->
  (forall j, idx <= j < idx + 1 -> used false (pages h) j = false) ->
  ram_ok r -> marked false idx 1 true (pages h) r -> bytes r = bytes (pages h) ->
  let a := page_at false (pages h) idx in let h' := fresh_small h r a i s in
  A !! a = None /\ arena_step a 1 A (<[a := Small i]> A) h h' /\ heap_inv (<[a := Small i]> A) h' /\ page_ok a 1.
Proof.
  intros H Es El Hi Hin Hfree Hok Hmk Hb a h'. destruct (desc_bounds _ _ _ _ _ H Es) as (Hbs & _ & Htot & Hn).
  destruct (desc_ptr_u32 descs_at i Hat) as [Hdp _]; [by eapply desc_range|]. set (n := d_blocks_per_arena s) in *.
  assert (forall b, b ∈ blocks s a n -> in_page a b) as Hpage.
  { intros b Hb'. eapply is_block_page; [exact H|exact Es|by apply blocks_is_block]. }
  assert (lists_step a h h') as Hl.
  { change h' with (mk_heap (zset (descs h) i (set_free_list s (blocks s a n))) (pages h')).
    eapply lists_step_set; [exact H|done|apply blocks_NoDup; lia|]. intros b Hnb. rewrite El. split; [|by intros ?%elem_of_nil].
    intros Hb'. by apply Hpage in Hb'. }
  destruct (fresh_step A h h' r idx 1 (desc_ptr i) n (Small i)) as (Hs & HA & Hpl); try done.
  pose proof (placed_page _ _ _ (ps_ok _ _ _ _ (as_pages _ _ _ _ _ _ Hs)) Hpl) as Hpo.
  assert (is_u32 n) as Hn32 by (unfold is_u32; lia).
  pose proof (with_header_spec a (desc_ptr i) n (mk_heap (descs h) r) Hdp Hn32) as Hhd.
  split; [done|]. split; [exact Hs|]. split; [|done]. eapply inv_step; [exact H|exact Hs| |].
  - intros x Hx. rewrite lookup_insert_eq in Hx. injection Hx as <-. split; [done|]. split; [done|].
    exists (set_free_list s (blocks s a n)). split; [by apply get_with_list|].
    by rewrite filter_blocks, zlen_blocks by (done || lia).
  - intros j s' b E' Hb' Hpb. rewrite lookup_insert_eq. cbn in E'. rewrite zget_zset in E' by by eapply zget_inv.
    case_decide as Hj; [subst j; injection E' as <-; split; [done|by apply blocks_is_block]|].
    destruct (free_block _ _ _ _ _ a _ H E' Hb' Hpb) as [HA' _]; [apply Hpo|]. discriminate (eq_trans (eq_sym HA) HA').
Qed.

Lemma new_arena_run A h i s : heap_inv A h -> zget (descs h) i = Some s -> d_free_list s = [] ->
  (new_arena descs_at (desc_ptr i) h = Done (false, h) /\ no_pages h 1) \/
  (exists a h', new_arena descs_at (desc_ptr i) h = Done (true, h') /\ A !! a = None /\
     arena_step a 1 A (<[a := Small i]> A) h h' /\ heap_inv (<[a := Small i]> A) h' /\
     zget (descs h') i = Some (set_free_list s (blocks s a (d_blocks_per_arena s)))).
Proof.
  intros H Es El. destruct (desc_bounds _ _ _ _ _ H Es) as (Hbs & _ & Htot & Hn).
  destruct (palloc_get_run (pages h) 0 1) as (p & r & Hr & Hok & [(-> & -> & Hno)|(idx & -> & Hi & Hin & Hfree & Hmk & Hb)]);
    [apply H|lia|done|left|right].
  { split; [|exact Hno]. unfold new_arena. erewrite bind_done by (apply heap_pages_run; exact Hr). by destruct h. }
  change (has 0 PAL_USER) with false in *. change (has 0 PAL_ZERO) with false in Hb. cbn iota in Hb.
  destruct (fresh_small_inv A h r idx i s) as (HA & Hs & Hinv & Hpo); try done.
  set (a := page_at false (pages h) idx) in *. exists a, (fresh_small h r a i s).
  split; [|split; [done|split; [exact Hs|split; [exact Hinv|by apply get_with_list]]]].
  unfold new_arena. erewrite bind_done by (apply heap_pages_run; exact Hr).
  destruct (page_range (pages h) false idx) as [Ha _]; [apply H|lia|]. change (0 < a) in Ha. unfold NULL. dec.
  erewrite bind_done by by apply get_desc_run.
  erewrite bind_done; [|apply init_arena_run; cbn].
  2:{ rewrite <- (Z.mul_1_r PGSIZE). apply placed_mapped; [done|]. by apply placed_get. }
  destruct (desc_ptr_u32 descs_at i Hat) as [Hdp _]; [exact (desc_range _ _ _ _ _ H Es)|].
  destruct (with_header_spec a (desc_ptr i) (d_blocks_per_arena s) (mk_heap (descs h) r) Hdp) as (H1 & H2 & _); [unfold is_u32; lia|].
  erewrite bind_done; [done|]. apply add_blocks_run; [by split|done|done|lia].
Qed.

(** ** Big blocks *)

Definition fresh_big h r a n : heap := with_header a NULL n (mk_heap (descs h) r).

Lemma fresh_big_inv A h r idx n : heap_inv A h -> 0 < n < 2 ^ 20 -> 0 <= idx -> idx + n <= pool_size false (pages h) ->
  (forall j, idx <= j < idx + n -> used false (pages h) j = false) ->
  ram_ok r -> marked false idx n true (pages h) r -> bytes r = bytes (pages h) ->
  let a := page_at false (pages h) idx in let h' := fresh_big h r a n in
  A !! a = None /\ arena_step a n A (<[a := Big n]> A) h h' /\ heap_inv (<[a := Big n]> A) h'.
Proof.
  intros H Hn Hi Hin Hfree Hok Hmk Hb a h'.
  assert (lists_step a h h') as Hl by exact (lists_step_same A h (pages h') a H).
  destruct (fresh_step A h h' r idx n NULL n (Big n)) as (Hs & HA & Hpl); try done; [lia|].
  split; [done|]. split; [exact Hs|]. eapply inv_step; [exact H|exact Hs| |].
  - intros x Hx. rewrite lookup_insert_eq in Hx. injection Hx as <-. split; [done|]. split; [done|]. split; [|done].
    apply with_header_spec; unfold is_u32, NULL; lia.
  - intros j s' b E' Hb' Hpb. destruct (free_block _ _ _ _ _ a _ H E' Hb' Hpb) as [HA' _]; [apply page_at_aligned, H|].
    discriminate (eq_trans (eq_sym HA) HA').
Qed.

(** The pages that malloc asks for, as the code computes them in 32 bits. *)
Definition big_pages (size : Z) : Z := u32 (u32 (size + ARENA_SIZE) + PGSIZE - 1) / PGSIZE.

Lemma big_pages_small size : 0 < size <= 2 ^ 32 - PGSIZE - ARENA_SIZE ->
  big_pages size = (size + ARENA_SIZE + PGSIZE - 1) / PGSIZE /\
  0 < big_pages size < 2 ^ 20 /\ size <= PGSIZE * big_pages size - ARENA_SIZE.
Proof.
  assert (PGSIZE = 4096) as E by done. unfold big_pages, ARENA_SIZE. intros Hs.
  rewrite (u32_small (size + 12)), u32_small by (rewrite E in *; lia). split; [done|]. rewrite E in *. dlia.
Qed.

Lemma malloc_big_run A h size : heap_inv A h -> 0 < big_pages size < 2 ^ 20 ->
  let n := big_pages size in
  (malloc_big size h = Done (NULL, h) /\ no_pages h n) \/
  (exists a h', malloc_big size h = Done (a + ARENA_SIZE, h') /\ A !! a = None /\
     arena_step a n A (<[a := Big n]> A) h h' /\ heap_inv (<[a := Big n]> A) h').
Proof.
  intros H Hn n. assert (PGSIZE = 4096) as E by done. unfold malloc_big. fold (big_pages size). fold n. fold n in Hn.
  destruct (palloc_get_run (pages h) 0 n) as (p & r & Hr & Hok & [(-> & -> & Hno)|(idx & -> & Hi & Hin & Hfree & Hmk & Hb)]);
    [apply H|lia|done|left|right].
  { split; [|exact Hno]. erewrite bind_done by (apply heap_pages_run; exact Hr). by destruct h. }
  change (has 0 PAL_USER) with false in *. change (has 0 PAL_ZERO) with false in Hb. cbn iota in Hb.
  destruct (fresh_big_inv A h r idx n) as (HA & Hs & Hinv); try done.
  set (a := page_at false (pages h) idx) in *. exists a, (fresh_big h r a n).
  split; [|done]. erewrite bind_done by (apply heap_pages_run; exact Hr).
  destruct (page_range (pages h) false idx) as [Ha _]; [apply H|lia|]. change (0 < a) in Ha. unfold NULL. dec.
  erewrite bind_done; [done|]. apply init_arena_run. cbn. intros x Hx.
  apply (placed_mapped r a n); [done|by apply placed_get|]. rewrite E in *. lia.
Qed.
End Spec.
