(* ===== verification/MallocSpec.v ===== *)
(** * threads/malloc.c: malloc, free and realloc are correct

    On the invariant of Arena: malloc gives out bytes that no other block has and
    that are enough for the request, free takes back exactly the block given, and
    neither changes the bytes of another block. *)

From S2P Require Import Prelude Vaddr Bitmap Mem CString Palloc Malloc Arena MallocRuns.

Section Spec.
Context (descs_at : Z) (Hat : 0 < descs_at /\ descs_at + 10 * DESC_SIZE <= 2 ^ 32).
Implicit Types (A : gmap Z arena) (h : heap) (r : ram) (s : desc).
Local Abbreviation desc_ptr := (desc_ptr descs_at).
Local Abbreviation heap_inv := (heap_inv descs_at).
Local Abbreviation heap_ok := (heap_ok descs_at).

(** ** Where allocated blocks lie *)

Lemma live_inside A h a p n : heap_inv A h -> live_in A h a p n -> exists x, A !! a = Some x /\
  a + ARENA_SIZE <= p /\ 0 < n /\ p + n <= a + PGSIZE * arena_pages x.
Proof.
  intros H Hl. unfold live_in in Hl. destruct (A !! a) as [x|] eqn:E; [|done]. exists x. split; [done|].
  pose proof (arena_pages_pos _ _ _ _ _ H E) as Hpos. assert (PGSIZE = 4096) as Epg by done.
  destruct x as [i|c]; cbn [arena_pages] in *.
  - destruct Hl as (s & Es & Hk & _ & ->). pose proof (is_block_inside _ _ _ _ _ _ _ H Es Hk).
    pose proof (desc_bounds _ _ _ _ _ H Es). lia.
  - destruct Hl as [-> ->]. rewrite Epg. unfold ARENA_SIZE. lia.
Qed.

(** Two blocks of one arena are the same or do not overlap. *)
Lemma live_in_apart A h a p n q m : heap_inv A h -> live_in A h a p n -> live_in A h a q m ->
  (p = q /\ n = m) \/ p + n <= q \/ q + m <= p.
Proof.
  unfold live_in. intros H. destruct (A !! a) as [[i|c]|]; try done.
  - intros (s & Es & (k & Hk & ->) & _ & ->) (s' & Es' & (k' & Hk' & ->) & _ & ->). rewrite Es in Es'. injection Es' as <-.
    pose proof (desc_bounds _ _ _ _ _ H Es). unfold block_at. destruct (Z.lt_trichotomy k k') as [|[->|]]; [right; left; nia|by left|right; right; nia].
  - intros [-> ->] [-> ->]. by left.
Qed.

Lemma live_disjoint A h p n q m : heap_inv A h -> live A h p n -> live A h q m ->
  (p = q /\ n = m) \/ p + n <= q \/ q + m <= p.
Proof.
  intros H [a Ha] [a' Ha']. destruct (decide (a = a')) as [->|Hne]; [by eapply live_in_apart|]. right.
  destruct (live_inside _ _ _ _ _ H Ha) as (x & Hx & ? & ? & ?). destruct (live_inside _ _ _ _ _ H Ha') as (x' & Hx' & ? & ? & ?).
  pose proof (hi_apart _ _ _ H a a' x x' Hx Hx' Hne) as Hap. unfold apart, ARENA_SIZE in *. lia.
Qed.

(** An allocated block holds no header. *)
Lemma live_header A h a x q m y : heap_inv A h -> A !! a = Some x -> live A h q m -> q <= y < q + m ->
  y < a \/ a + ARENA_SIZE <= y.
Proof.
  intros H Hx [a' Hl] Hy. destruct (live_inside _ _ _ _ _ H Hl) as (x' & Hx' & Hq & _ & Hm).
  destruct (decide (a = a')) as [->|Hne]; [lia|]. pose proof (hi_apart _ _ _ H a a' x x' Hx Hx' Hne) as Hap.
  pose proof (arena_pages_pos _ _ _ _ _ H Hx). unfold apart, ARENA_SIZE in *. assert (PGSIZE = 4096) as E by done. rewrite E in *. lia.
Qed.

Section Step.
Context (a n : Z) (A A' : gmap Z arena) (h h' : heap) (H : heap_inv A h) (Hs : arena_step a n A A' h h').

(** A step of an arena keeps the blocks of the others, and their bytes. *)
Lemma step_bytes a' q m y : a' <> a -> live_in A h a' q m -> q <= y < q + m -> memory h' !! y = memory h !! y.
Proof.
  intros Hne Hl Hy. destruct (live_inside _ _ _ _ _ H Hl) as (x & Hx & Hq & _ & Hm).
  apply (ps_bytes _ _ _ _ (as_pages _ _ _ _ _ _ Hs)). pose proof (as_apart _ _ _ _ _ _ Hs a' x Hne Hx) as Hap.
  unfold apart, ARENA_SIZE in *. lia.
Qed.

(** The blocks after the step, given those of the arena that changed. *)
Lemma step_lives_add (P : Z -> Z -> Prop) : (forall q m, live_in A' h' a q m <-> live_in A h a q m \/ P q m) ->
  forall q m, live A' h' q m <-> live A h q m \/ P q m.
Proof.
  intros Ha q m. pose proof (fun a' => step_live _ _ _ _ _ _ _ H Hs a' q m) as Ho. split.
  - intros [a' Hl]. destruct (decide (a' = a)) as [->|Hne].
    + apply Ha in Hl as [Hl|Hp]; [left; by exists a|by right].
    + left. exists a'. by apply Ho.
  - intros [[a' Hl]|Hp]; [|exists a; apply Ha; by right]. exists a'. destruct (decide (a' = a)) as [->|Hne].
    + apply Ha. by left.
    + by apply Ho.
Qed.

Lemma step_lives_remove p n0 : live_in A h a p n0 -> (forall q m, live_in A' h' a q m <-> live_in A h a q m /\ q <> p) ->
  forall q m, live A' h' q m <-> live A h q m /\ q <> p.
Proof.
  intros Hp Ha q m. pose proof (fun a' => step_live _ _ _ _ _ _ _ H Hs a' q m) as Ho. split.
  - intros [a' Hl]. destruct (decide (a' = a)) as [->|Hne].
    + apply Ha in Hl as [Hl Hn]. split; [by exists a|done].
    + apply Ho in Hl; [|done]. split; [by exists a'|]. intros ->.
      destruct (live_inside _ _ _ _ _ H Hl) as (x & Hx & ? & ? & ?), (live_inside _ _ _ _ _ H Hp) as (y & Hy & ? & ? & ?).
      pose proof (hi_apart _ _ _ H a' a x y Hx Hy Hne) as Hap. unfold apart, ARENA_SIZE in *. lia.
  - intros [[a' Hl] Hn]. exists a'. destruct (decide (a' = a)) as [->|Hne]; [by apply Ha|by apply Ho].
Qed.

(** Pages that were no arena's hold no allocated block. *)
Lemma fresh_not_live p m : A !! a = None -> a <= p < a + PGSIZE * n -> ~ live A h p m.
Proof.
  intros HA Hp [a' Hl]. destruct (live_inside _ _ _ _ _ H Hl) as (x & Hx & ? & ? & ?).
  assert (a' <> a) as Hne by congruence. pose proof (as_apart _ _ _ _ _ _ Hs a' x Hne Hx). unfold apart, ARENA_SIZE in *. lia.
Qed.
End Step.

(** ** malloc *)

(** [h'] is [h] with [n] more bytes allocated at [p]. *)
Record allocated A h A' h' (p n : Z) : Prop := {
  al_inv : heap_inv A' h';
  al_live : forall q m, live A' h' q m <-> live A h q m \/ (q = p /\ m = n);
  al_new : forall m, ~ live A h p m;
  al_bytes : forall q m y, live A h q m -> q <= y < q + m -> memory h' !! y = memory h !! y
}.

Lemma free_not_live A h i s b m : heap_inv A h -> zget (descs h) i = Some s -> b ∈ d_free_list s -> ~ live A h b m.
Proof.
  intros H Es Hb [a' Hl]. destruct (hi_free _ _ _ H i s b Es Hb) as (a & HA & Hk).
  destruct (live_inside _ _ _ _ _ H Hl) as (x & Hx & Hle & Hm & Hle'). pose proof (is_block_inside _ _ _ _ _ _ _ H Es Hk).
  destruct (desc_bounds _ _ _ _ _ H Es) as (Hbs & _). destruct (decide (a' = a)) as [->|Hne].
  - unfold live_in in Hl. rewrite HA in Hl. destruct Hl as (s0 & Es0 & _ & Hnb & _). rewrite Es in Es0. by injection Es0 as <-.
  - pose proof (hi_apart _ _ _ H a' a x _ Hx HA Hne) as Hap. unfold apart, ARENA_SIZE in *. cbn in Hap. lia.
Qed.

Lemma take_live A h h' i s b l a q m : zget (descs h) i = Some s -> d_free_list s = b :: l -> NoDup (b :: l) ->
  A !! a = Some (Small i) -> is_block s a b -> zget (descs h') i = Some (set_free_list s l) ->
  live_in A h' a q m <-> live_in A h a q m \/ (q = b /\ m = d_block_size s).
Proof.
  intros Es El [Hbl _]%NoDup_cons HA Hk Es'. unfold live_in. rewrite HA, Es, Es'. split.
  - intros (s0 & [= <-] & Hq & Hnq & ->). cbn in Hnq. destruct (decide (q = b)) as [->|Hne]; [by right|left].
    exists s. rewrite El, elem_of_cons. split; [done|]. split; [exact Hq|]. split; [by intros [?|?]|done].
  - intros [(s0 & [= <-] & Hq & Hnq & ->)|[-> ->]]; exists (set_free_list s l); (split; [done|]).
    + rewrite El, elem_of_cons in Hnq. split; [exact Hq|]. split; [cbn; tauto|done].
    + split; [exact Hk|]. by split.
Qed.

Lemma block_aligned A h i s a b : heap_inv A h -> zget (descs h) i = Some s -> A !! a = Some (Small i) -> is_block s a b -> b mod 4 = 0.
Proof.
  intros H Es HA (k & _ & ->). destruct (desc_bounds _ _ _ _ _ H Es) as (_ & Hm & _). destruct (arena_page _ _ _ _ _ H HA) as (Ha & _).
  unfold block_at, ARENA_SIZE. change PGSIZE with 4096 in Ha.
  apply Z.mod_divide in Hm as [c Hc]; [|done]. apply Z.mod_divide in Ha as [d Hd]; [|done]. rewrite Hc, Hd.
  replace (d * 4096 + 12 + k * (c * 4)) with ((d * 1024 + 3 + k * c) * 4) by lia. by apply Z.mod_mul.
Qed.

Lemma take_allocated A h i s b l : heap_inv A h -> zget (descs h) i = Some s -> d_free_list s = b :: l ->
  (forall a, ~ in_page a b -> busy A h a) ->
  exists h', take_block descs_at (desc_ptr i) h = Done (b, h') /\ heap_ok A h' /\ allocated A h A h' b (d_block_size s) /\ b mod 4 = 0.
Proof.
  intros H Es El Hbusy. destruct (take_block_run descs_at Hat A h i s b l H Es El) as (a & HA & Hk & Hrun & Hs & Hinv & Hcnt).
  set (h' := taken h i s l a) in *. exists h'. split; [done|].
  pose proof (is_block_page _ _ _ _ _ _ _ H Es Hk) as Hpb. pose proof (arena_page _ _ _ _ _ H HA) as (Hal & _).
  pose proof (hi_desc _ _ _ H i s Es) as [_ Hnd]. rewrite El in Hnd.
  assert (zget (descs h') i = Some (set_free_list s l)) as Es' by by apply (get_with_list h i s l Es).
  split; [split; [done|]|split; [split; try done|by eapply block_aligned]].
  - intros a'. destruct (decide (a' = a)) as [->|Hne].
    + intros j s0 HA0 Es0. rewrite HA in HA0. injection HA0 as <-. rewrite Es' in Es0. injection Es0 as <-.
      rewrite Hcnt. pose proof (count_range _ _ _ _ _ _ H HA Es). cbn. lia.
    + eapply step_busy; [exact H|exact Hs|done|]. intros j s0 HA0. apply Hbusy; [|done]. intros Hp. apply Hne.
      eapply pages_differ; [|done|exact Hp|done]. by apply (arena_page _ _ _ _ _ H HA0).
  - apply (step_lives_add _ _ _ _ _ _ H Hs). intros q m. by apply (take_live A h h' i s b l a).
  - intros m. eapply free_not_live; [exact H|exact Es|]. rewrite El. by left.
  - intros q m y Hl Hy. pose proof (live_header _ _ _ _ _ _ y H HA Hl Hy).
    apply (put_word_outside _ _ (with_list h i s l)). unfold ARENA_SIZE in *. lia.
Qed.

(** A step that adds an arena without allocated blocks, or with one. *)
Lemma fresh_allocated_none A h h' a i s : heap_inv A h -> A !! a = None -> arena_step a 1 A (<[a := Small i]> A) h h' ->
  zget (descs h') i = Some (set_free_list s (blocks s a (d_blocks_per_arena s))) ->
  forall q m, live (<[a := Small i]> A) h' q m <-> live A h q m.
Proof.
  intros H HA Hs Es q m. rewrite (step_lives_add a 1 A (<[a := Small i]> A) h h' H Hs (fun _ _ => False)); [tauto|].
  intros q' m'. unfold live_in. rewrite lookup_insert_eq, HA. split; [|by intros [?|?]].
  intros (s0 & Es0 & Hk & Hn & _). rewrite Es in Es0. injection Es0 as <-. exfalso. apply Hn. by apply blocks_is_block.
Qed.

(** The head of the free list of a new arena. *)
Lemma blocks_head s a n : 0 < n -> exists l, blocks s a n = block_at s a 0 :: l.
Proof.
  intros Hn. unfold blocks. replace (Z.to_nat n) with (S (Z.to_nat (n - 1))) by lia. cbn. eauto.
Qed.

Lemma malloc_small_run A h i s : heap_ok A h -> zget (descs h) i = Some s ->
  let run := (ok ← match d_free_list s with [] => new_arena descs_at (desc_ptr i) | _ => mret true end;
              if negb ok then mret NULL else take_block descs_at (desc_ptr i)) h in
  (run = Done (NULL, h) /\ no_pages h 1) \/
  (exists p A' h', run = Done (p, h') /\ heap_ok A' h' /\ allocated A h A' h' p (d_block_size s) /\ p mod 4 = 0).
Proof.
  intros [H Hbusy] Es run. subst run. destruct (d_free_list s) as [|b l] eqn:El.
  2:{ right. destruct (take_allocated A h i s b l H Es El) as (h' & Hr & Hok); [intros; apply Hbusy|].
      exists b, A, h'. by erewrite bind_done by done. }
  destruct (new_arena_run descs_at Hat A h i s H Es El) as [[Hr Hno]|(a & h1 & Hr & HA & Hs & Hinv & Es1)].
  { left. by erewrite bind_done by exact Hr. }
  right. erewrite bind_done by exact Hr. cbn [negb]. destruct (desc_bounds _ _ _ _ _ H Es) as (Hbs & _ & _ & Hn).
  set (s1 := set_free_list s _) in *. destruct (blocks_head s a (d_blocks_per_arena s)) as [l El1]; [lia|].
  destruct (take_allocated _ h1 i s1 (block_at s a 0) l Hinv Es1 El1) as (h2 & Hr2 & Hok & [_ Hl Hnew Hb] & Hal).
  { intros a' Hp. eapply step_busy; [exact H|exact Hs| |apply Hbusy]. intros ->. apply Hp.
    eapply is_block_page; [exact H|exact Es|]. exists 0. split; [lia|done]. }
  exists (block_at s a 0), (<[a := Small i]> A), h2. split; [exact Hr2|]. split; [exact Hok|].
  pose proof (fresh_allocated_none A h h1 a i s H HA Hs Es1) as Hsame. split; [|done]. split.
  - apply Hok.
  - intros q m. by rewrite Hl, Hsame.
  - intros m. by rewrite <- Hsame.
  - intros q m y Hq Hy. rewrite (Hb q m y) by (by apply Hsame || done). destruct Hq as [a' Hq].
    eapply (step_bytes a 1 A _ h h1 H Hs a'); [|exact Hq|done]. intros ->. unfold live_in in Hq. by rewrite HA in Hq.
Qed.

Lemma malloc_big_allocated A h size : heap_ok A h -> 0 < big_pages size < 2 ^ 20 ->
  let n := big_pages size in
  (malloc_big size h = Done (NULL, h) /\ no_pages h n) \/
  (exists p A' h', malloc_big size h = Done (p, h') /\ heap_ok A' h' /\
     allocated A h A' h' p (PGSIZE * n - ARENA_SIZE) /\ p mod 4 = 0).
Proof.
  intros [H Hbusy] Hn n. destruct (malloc_big_run descs_at A h size H Hn) as [Hr|(a & h' & Hr & HA & Hs & Hinv)]; [by left|right].
  fold n in Hs, Hinv, Hn. exists (a + ARENA_SIZE), (<[a := Big n]> A), h'. split; [done|].
  assert (forall m, ~ live A h (a + ARENA_SIZE) m) as Hnew.
  { intros m. eapply (fresh_not_live a n A _ h h' H Hs); [done|]. unfold ARENA_SIZE. change PGSIZE with 4096. lia. }
  split; [split; [done|]|split; [split; try done|]].
  - intros a'. destruct (decide (a' = a)) as [->|Hne].
    + intros i s HA'. by rewrite lookup_insert_eq in HA'.
    + eapply step_busy; [exact H|exact Hs|done|apply Hbusy].
  - apply (step_lives_add a n A _ h h' H Hs). intros q m. unfold live_in. rewrite lookup_insert_eq, HA. tauto.
  - intros q m y [a' Hq] Hy. eapply (step_bytes a n A _ h h' H Hs a'); [|exact Hq|done].
    intros ->. unfold live_in in Hq. by rewrite HA in Hq.
  - destruct Hs as [[Ha _] _ _ _ _]. change PGSIZE with 4096 in Ha. unfold ARENA_SIZE. dlia.
Qed.

(** The search finds the first descriptor whose blocks are large enough. *)
Lemma find_desc_spec size ds : forall d,
  (exists k s, ds !! k = Some s /\ size <= d_block_size s /\
     (forall j s', (j < k)%nat -> ds !! j = Some s' -> d_block_size s' < size) /\
     find_desc ds d size = d + DESC_SIZE * Z.of_nat k) \/
  (Forall (fun s => d_block_size s < size) ds /\ find_desc ds d size = d + DESC_SIZE * zlen ds).
Proof.
  induction ds as [|s ds IH]; intros d; cbn [find_desc].
  - right. split; [constructor|]. unfold zlen. cbn. lia.
  - destruct (Z.leb_spec size (d_block_size s)) as [Hle|Hlt].
    + left. exists O, s. split; [done|]. split; [done|]. split; [lia|]. cbn. lia.
    + destruct (IH (d + DESC_SIZE)) as [(k & s' & Hk & Hs' & Hmin & ->)|[Hall ->]].
      * left. exists (S k), s'. split; [done|]. split; [done|]. split; [|lia].
        intros [|j] s0 Hj Hs0; [by injection Hs0 as <-|]. apply (Hmin j); [lia|done].
      * right. split; [by constructor|]. rewrite zlen_cons. lia.
Qed.

(** The pages that malloc may have to ask for. *)
Definition pages_for (size : Z) : Z := if size <=? 1024 then 1 else big_pages size.

Lemma malloc_run A h size : heap_ok A h -> 0 < size <= 2 ^ 32 - PGSIZE - ARENA_SIZE ->
  (malloc descs_at size h = Done (NULL, h) /\ no_pages h (pages_for size)) \/
  (exists p n A' h', malloc descs_at size h = Done (p, h') /\ size <= n /\ p mod 4 = 0 /\
     heap_ok A' h' /\ allocated A h A' h' p n).
Proof.
  intros Hok Hsz. pose proof Hok as [H _]. unfold malloc. dec. erewrite bind_done by done. unfold pages_for.
  destruct (find_desc_spec size (descs h) descs_at) as [(k & s & Hk & Hle & _ & ->)|[Hall ->]].
  - assert (zget (descs h) (Z.of_nat k) = Some s) as Es by by rewrite zget_nat.
    pose proof (zget_inv _ _ _ Es) as Hkr. destruct (desc_bounds _ _ _ _ _ H Es) as (Hbs & _).
    change (descs_at + DESC_SIZE * Z.of_nat k) with (desc_ptr (Z.of_nat k)).
    assert ((desc_ptr (Z.of_nat k) =? desc_ptr (zlen (descs h))) = false) as -> by (apply Z.eqb_neq; unfold Malloc.desc_ptr, DESC_SIZE; lia).
    erewrite bind_done by by apply get_desc_run. dec. destruct (malloc_small_run A h (Z.of_nat k) s Hok Es) as [Hr|(p & A' & h' & Hr & Hok' & Hal & Hm)]; [by left|right].
    exists p, (d_block_size s), A', h'. done.
  - change (descs_at + DESC_SIZE * zlen (descs h)) with (desc_ptr (zlen (descs h))). rewrite Z.eqb_refl.
    assert (1024 < size) as Hbig.
    { destruct (zget_Some (descs h) 6) as [s Es]; [rewrite (hi_len _ _ _ H); lia|].
      destruct (hi_desc _ _ _ H 6 s Es) as [[Hs _] _]. rewrite Forall_lookup in Hall. change 6 with (Z.of_nat 6) in Es.
      rewrite zget_nat in Es. apply Hall in Es. rewrite Hs in Es. done. }
    dec. destruct (big_pages_small size Hsz) as (_ & Hn & Hle).
    destruct (malloc_big_allocated A h size Hok Hn) as [Hr|(p & A' & h' & Hr & Hok' & Hal & Hm)]; [by left|right].
    exists p, (PGSIZE * big_pages size - ARENA_SIZE), A', h'. done.
Qed.
End Spec.

(** ** threads/malloc.c: free is correct

    Freeing a block gives back exactly that block; an arena without allocated
    blocks goes back to the page allocator. *)

Section Free.
Context (descs_at : Z) (Hat : 0 < descs_at /\ descs_at + 10 * DESC_SIZE <= 2 ^ 32).
Implicit Types (A : gmap Z arena) (h : heap) (r : ram) (s : desc).
Local Abbreviation desc_ptr := (desc_ptr descs_at).
Local Abbreviation heap_inv := (heap_inv descs_at).
Local Abbreviation heap_ok := (heap_ok descs_at).

(** ** Writing to an allocated block *)

Lemma write_step A h m a x : heap_inv A h -> A !! a = Some x ->
  (forall y, is_Some (memory h !! y) -> is_Some (m !! y)) ->
  (forall y, ~ (a + ARENA_SIZE <= y < a + PGSIZE * arena_pages x) -> m !! y = memory h !! y) ->
  arena_step a (arena_pages x) A A h (with_mem h m) /\ heap_inv A (with_mem h m).
Proof.
  intros H HA Hm Ho. pose proof (arena_page _ _ _ _ _ H HA) as Hp.
  assert (arena_step a (arena_pages x) A A h (with_mem h m)) as Hs.
  { split; [split; [apply Hp|by eapply arena_pages_pos]| |by eapply lists_step_same|done|].
    - apply pages_step_mem; [apply H|done|]. intros y Hy. apply Ho. unfold ARENA_SIZE. lia.
    - intros a' y Hne Hy. by apply (hi_apart _ _ _ H a a'). }
  split; [exact Hs|]. eapply inv_step; [exact H|exact Hs|..].
  - intros y Hy. rewrite HA in Hy. injection Hy as <-. split; [done|].
    destruct (hi_arena _ _ _ H a _ HA) as [Hpl Hok]. split; [exact Hpl|].
    assert (forall d c, header (memory h) a d c -> header m a d c) as Hhd.
    { intros d c (H1 & H2 & H3). split; [|split]; (eapply word_at_frame; [|eassumption]); intros z Hz; apply Ho; unfold ARENA_SIZE; lia. }
    destruct x as [i|c]; cbn in *; [|destruct Hok; eauto]. destruct Hok as (s & Es & Hh). eauto.
  - intros i s b Es Hb Hpb. eapply free_block; [exact H|exact Es|done|done|apply Hp].
Qed.

(** Writes to an allocated block leave the allocator as it is. *)
Lemma write_ok A h m p n : heap_inv A h -> live A h p n -> (forall y, is_Some (memory h !! y) -> is_Some (m !! y)) ->
  (forall y, ~ (p <= y < p + n) -> m !! y = memory h !! y) -> heap_inv A (with_mem h m).
Proof.
  intros H [a Hl] Hm Ho. destruct (live_inside _ _ _ _ _ _ H Hl) as (x & Hx & ? & ? & ?).
  apply (write_step A h m a x H Hx Hm). intros y Hy. apply Ho. lia.
Qed.

Lemma live_mapped A h p n : heap_inv A h -> live A h p n -> mapped (memory h) p n /\ 0 < p /\ 0 < n /\ p + n <= 2 ^ 32.
Proof.
  intros H [a Hl]. destruct (live_inside _ _ _ _ _ _ H Hl) as (x & Hx & ? & ? & ?).
  destruct (hi_arena _ _ _ H a x Hx) as [Hpl _]. pose proof (placed_mapped _ _ _ (hi_ram _ _ _ H) Hpl) as Hm.
  destruct (arena_page _ _ _ _ _ H Hx) as (_ & Hlow & Hhigh). unfold PHYS_BASE, ARENA_SIZE in *.
  split; [|lia]. intros y Hy. apply Hm. lia.
Qed.

(** ** Giving an arena back *)

Lemma pages_step_free r r' idx cnt : 0 < cnt -> marked false idx cnt false r r' -> ram_ok r' ->
  bytes r' = freed r (page_at false r idx) cnt -> pages_step (page_at false r idx) cnt r r'.
Proof.
  intros Hc [Hb Hs _ Hu] Hok Hm. split; [done|apply (Hb false)|apply Hs| |].
  - intros j Hj Hout. rewrite Hu by done. unfold in_range, page_at in *. assert (PGSIZE = 4096) as E by done. rewrite E in *.
    destruct (idx <=? j) eqn:E1, (j <? idx + cnt) eqn:E2; try done. apply Z.leb_le in E1. apply Z.ltb_lt in E2. lia.
  - intros x Hx. rewrite Hm. apply stored_outside. unfold zlen. rewrite length_replicate.
    assert (PGSIZE = 4096) as E by done. rewrite E in *. lia.
Qed.

(** The [n] pages that [h] has at [a] are not in use in [h']. *)
Definition unused h (a n : Z) h' : Prop :=
  forall j, a <= page_at false (pages h) j < a + PGSIZE * n -> used false (pages h') j = false.

Lemma page_at_between r i n j : page_at false r i <= page_at false r j < page_at false r i + PGSIZE * n -> i <= j < i + n.
Proof. unfold page_at. assert (PGSIZE = 4096) as -> by done. lia. Qed.

(** The pages of an arena go back; no free block is left in them. *)
Lemma give_back A h h1 a x : heap_inv A h -> A !! a = Some x -> pages h1 = pages h -> lists_step a h h1 ->
  0 < arena_pages x < 2 ^ 20 ->
  (forall i s b, zget (descs h1) i = Some s -> b ∈ d_free_list s -> ~ in_page a b) ->
  exists h', on_pages (palloc_free_multiple a (arena_pages x)) h1 = Done (tt, h') /\
    arena_step a (arena_pages x) A (delete a A) h h' /\ heap_inv (delete a A) h' /\ memory h' = freed (pages h) a (arena_pages x) /\
    unused h a (arena_pages x) h'.
Proof.
  intros H HA Ep Hl Hn Hnone. pose proof (arena_page _ _ _ _ _ H HA) as (Hal & _).
  destruct (hi_arena _ _ _ H a x HA) as [(idx & Hi & Hin & Ea & Hu) _].
  destruct (palloc_free_run (pages h) false idx (arena_pages x)) as [Hfree _]; [apply H|done|lia|done|].
  destruct (Hfree Hu) as (r & Hr & Hok & Hmk & Hb). rewrite <- Ea in Hr.
  exists (mk_heap (descs h1) r). split; [apply heap_pages_run; by rewrite Ep|].
  assert (arena_step a (arena_pages x) A (delete a A) h (mk_heap (descs h1) r)) as Hs.
  { split; [split; [done|lia]|rewrite Ea; apply pages_step_free; [lia|done..]| | |].
    - destruct Hl as [H1 H2]. by split.
    - intros a' Hne. by rewrite lookup_delete_ne.
    - intros a' y Hne Hy. by apply (hi_apart _ _ _ H a a'). }
  split; [exact Hs|]. split; [|split; [by rewrite Ea|]].
  - eapply inv_step; [exact H|exact Hs|..].
    + intros y Hy. by rewrite lookup_delete_eq in Hy.
    + intros i s b Es Hb' Hpb. destruct (Hnone i s b Es Hb' Hpb).
  - intros j Hj. rewrite Ea in Hj. apply page_at_between in Hj. cbn [pages]. rewrite (marked_used _ _ _ _ _ _ Hmk) by lia.
    unfold in_range. by rewrite (proj2 (Z.leb_le _ _)), (proj2 (Z.ltb_lt _ _)) by lia.
Qed.

(** An arena whose count is full has all its blocks on the free list. *)
Lemma all_blocks_free A h a i s b : heap_inv A h -> A !! a = Some (Small i) -> zget (descs h) i = Some s ->
  free_count s a = d_blocks_per_arena s -> is_block s a b -> b ∈ d_free_list s.
Proof.
  intros H HA Es Hc Hb. pose proof (free_blocks_sub _ A h a i s H HA Es) as Hsub.
  apply submseteq_length_Permutation in Hsub.
  - apply blocks_is_block in Hb. rewrite <- Hsub in Hb. by apply list_elem_of_filter in Hb as [_ Hb].
  - destruct (desc_bounds _ _ _ _ _ H Es) as (_ & _ & _ & Hn). pose proof (zlen_blocks s a (d_blocks_per_arena s)).
    unfold free_count, zlen in *. lia.
Qed.

Lemma filter_all (P : Z -> Prop) `{!forall x, Decision (P x)} (l : list Z) : (forall b, b ∈ l -> P b) -> filter P l = l.
Proof.
  induction l as [|b l IH]; intros Hl; [done|]. rewrite filter_cons_True by (apply Hl; by left).
  f_equal. apply IH. intros c Hc. apply Hl. by right.
Qed.

(** The loop that takes the blocks of an arena off the free list. *)
Lemma remove_blocks_run h a i s n : arena_at h a (desc_ptr i) -> zget (descs h) i = Some s -> 0 < d_block_size s ->
  (forall b, is_block s a b -> b ∈ d_free_list s) -> 0 <= n <= d_blocks_per_arena s ->
  for_z n (fun k => b ← arena_to_block descs_at a k; list_remove descs_at (desc_ptr i) b) h =
    Done (tt, with_list h i s (filter (fun b => b ∉ blocks s a n) (d_free_list s))).
Proof.
  intros Ha Es Hbs Hall Hn.
  destruct (for_from_inv (fun j h' => h' = with_list h i s (filter (fun b => b ∉ blocks s a j) (d_free_list s)))
    (fun k => b ← arena_to_block descs_at a k; list_remove descs_at (desc_ptr i) b) (Z.to_nat n) 0 h) as (h' & Hr & ->).
  - change (blocks s a 0) with (@nil Z). rewrite filter_all; [by rewrite with_list_same|].
    intros b _. apply not_elem_of_nil.
  - intros j h1 Hj ->. eexists. split; [|reflexivity]. erewrite bind_done.
    2:{ eapply (arena_to_block_run descs_at _ a i _ j); [exact Ha|by apply get_with_list|cbn; lia]. }
    change (block_at (set_free_list s _) a j) with (block_at s a j).
    rewrite (remove_run descs_at _ i (set_free_list s (filter (fun b => b ∉ blocks s a j) (d_free_list s)))).
    + rewrite with_list_twice. cbn [d_free_list set_free_list]. do 3 f_equal. rewrite list_filter_filter.
      apply list_filter_iff. intros b. rewrite blocks_succ by lia. rewrite elem_of_app, list_elem_of_singleton. tauto.
    + by apply get_with_list.
    + cbn. apply list_elem_of_filter. split; [|apply Hall; exists j; split; [lia|done]].
      intros (k & Hk & Ek)%elem_blocks. unfold block_at in Ek. nia.
  - unfold for_z. rewrite Hr. do 2 f_equal. by rewrite Z2Nat.id by lia.
Qed.

Lemma release_run A h a i s : heap_inv A h -> A !! a = Some (Small i) -> zget (descs h) i = Some s ->
  free_count s a = d_blocks_per_arena s ->
  exists h', release_arena descs_at a (desc_ptr i) h = Done (tt, h') /\
    arena_step a 1 A (delete a A) h h' /\ heap_inv (delete a A) h' /\ unused h a 1 h'.
Proof.
  intros H HA Es Hc. pose proof (arena_page _ _ _ _ _ H HA) as (Hal & _).
  destruct (desc_bounds _ _ _ _ _ H Es) as (Hbs & _ & _ & Hn). destruct (hi_desc _ _ _ H i s Es) as [_ Hnd].
  destruct (inv_arena_at _ A h a i H HA) as (s0 & Es0 & Ha & _). rewrite Es in Es0. injection Es0 as <-.
  set (l := filter (fun b => b ∉ blocks s a (d_blocks_per_arena s)) (d_free_list s)).
  assert (forall b, is_block s a b -> b ∈ d_free_list s) as Hall by (intros b Hb; by eapply all_blocks_free).
  assert (lists_step a h (with_list h i s l)) as Hl.
  { eapply lists_step_set; [exact H|done|by apply NoDup_filter|]. intros b Hnb. unfold l. rewrite list_elem_of_filter.
    split; [by intros [_ ?]|]. intros Hb. split; [|done]. intros Hb'%blocks_is_block. apply Hnb. by eapply is_block_page. }
  destruct (give_back A h (with_list h i s l) a (Small i)) as (h' & Hr & Hs & Hinv & _ & Hun); try done.
  { intros j s' b Es' Hb Hpb. cbn in Es'. rewrite zget_zset in Es' by by eapply zget_inv. case_decide as Hj.
    - subst j. injection Es' as <-. cbn in Hb. unfold l in Hb. apply list_elem_of_filter in Hb as [Hnb Hb]. apply Hnb, blocks_is_block.
      by eapply free_block.
    - destruct (free_block _ _ _ _ _ a _ H Es' Hb Hpb Hal) as [HA' _]. congruence. }
  exists h'. split; [|done]. unfold release_arena. erewrite bind_done by by apply get_desc_run.
  erewrite bind_done; [exact Hr|]. apply remove_blocks_run; try done; lia.
Qed.

(** ** free *)

(** What putting a block on the free list of its descriptor leaves. *)
Definition given_back h i s a p : heap :=
  put_word (a + 8) (free_count s a + 1)
    (with_list (with_mem h (stored (memory h) p (replicate (Z.to_nat (d_block_size s)) 0xcc))) i s (p :: d_free_list s)).

Lemma given_back_mem h i s a p y : 0 <= d_block_size s -> ~ (p <= y < p + d_block_size s) -> y < a + 8 \/ a + ARENA_SIZE <= y ->
  memory (given_back h i s a p) !! y = memory h !! y.
Proof.
  intros Hbs Hp Ha. unfold given_back, ARENA_SIZE in *. rewrite put_word_outside by lia. apply stored_outside.
  unfold zlen. rewrite length_replicate. lia.
Qed.

Lemma given_back_inv A h a i s p : heap_inv A h -> A !! a = Some (Small i) -> zget (descs h) i = Some s ->
  is_block s a p -> p ∉ d_free_list s ->
  arena_step a 1 A A h (given_back h i s a p) /\ heap_inv A (given_back h i s a p) /\
  zget (descs (given_back h i s a p)) i = Some (set_free_list s (p :: d_free_list s)) /\
  free_count (set_free_list s (p :: d_free_list s)) a = free_count s a + 1 /\ free_count s a + 1 <= d_blocks_per_arena s.
Proof.
  intros H HA Es Hk Hp. pose proof (is_block_page _ _ _ _ _ _ _ H Es Hk) as Hpb.
  pose proof (is_block_inside _ _ _ _ _ _ _ H Es Hk) as Hin. destruct (desc_bounds _ _ _ _ _ H Es) as (Hbs & _ & _ & Hn).
  destruct (hi_desc _ _ _ H i s Es) as [_ Hnd]. pose proof (count_range _ _ _ _ _ _ H HA Es) as Hcr.
  assert (free_count (set_free_list s (p :: d_free_list s)) a = free_count s a + 1) as Ec.
  { unfold free_count. cbn [d_free_list set_free_list]. rewrite filter_cons_True by done. rewrite zlen_cons. lia. }
  destruct (small_step descs_at A h a i s (p :: d_free_list s) (memory (given_back h i s a p)) H HA Es) as [Hs Hinv].
  - by apply NoDup_cons.
  - intros b Hnb. rewrite elem_of_cons. split; [by intros [->|?]|by right].
  - intros b [->|Hb]%elem_of_cons Hb'; [done|]. eapply free_block; [exact H|exact Es|done|done|]. by apply (arena_page _ _ _ _ _ H HA).
  - intros y Hy. unfold given_back. apply put_word_is_Some. by apply stored_is_Some.
  - intros y Hy. apply given_back_mem; unfold ARENA_SIZE in *; change PGSIZE with 4096 in *; lia.
  - rewrite Ec. apply store32_word. unfold is_u32. lia.
  - change (with_mem (with_list h i s (p :: d_free_list s)) (memory (given_back h i s a p))) with (given_back h i s a p) in *.
    assert (zget (descs (given_back h i s a p)) i = Some (set_free_list s (p :: d_free_list s))) as Es' by by apply (get_with_list h).
    split; [exact Hs|]. split; [exact Hinv|]. split; [exact Es'|]. split; [exact Ec|]. rewrite <- Ec.
    apply (count_range _ _ _ _ _ _ Hinv HA Es').
Qed.

Lemma free_small_prefix A h a i s p : heap_inv A h -> A !! a = Some (Small i) -> zget (descs h) i = Some s ->
  is_block s a p -> free_count s a < d_blocks_per_arena s ->
  free descs_at p h = (if d_blocks_per_arena s <=? free_count s a + 1 then
    ASSERT (free_count s a + 1 =? d_blocks_per_arena s) ;; release_arena descs_at a (desc_ptr i) else mret tt) (given_back h i s a p).
Proof.
  intros H HA Es Hk Hc. destruct (inv_arena_at _ A h a i H HA) as (s0 & Es0 & Ha & Hcnt). rewrite Es in Es0. injection Es0 as <-.
  pose proof (is_block_inside _ _ _ _ _ _ _ H Es Hk) as Hin. destruct (desc_bounds _ _ _ _ _ H Es) as (Hbs & _ & _ & Hn).
  pose proof (desc_range _ _ _ _ _ H Es) as Hi. destruct (desc_ptr_u32 descs_at i Hat Hi) as [_ Hnn].
  destruct (hi_arena _ _ _ H a _ HA) as [Hpl _]. pose proof (placed_mapped _ _ _ (hi_ram _ _ _ H) Hpl) as Hmap.
  pose proof Ha as ((Hal & Hlow & Hhigh) & Hmg & Hd). unfold PHYS_BASE, ARENA_SIZE in *. cbn [arena_pages] in Hmap.
  pose proof (zlen_nonneg (filter (in_page a) (d_free_list s))) as Hpos. fold (free_count s a) in Hpos.
  unfold free. assert (negb (p =? NULL) = true) as -> by (unfold NULL; by rewrite (proj2 (Z.eqb_neq p 0)) by lia).
  erewrite bind_done by (eapply (block_to_arena_small descs_at Hat _ a i s); [done|by apply (hi_desc _ _ _ H i s Es)|done|exact Ha|done]).
  erewrite bind_done by by apply load_run. rewrite (proj2 (Z.eqb_neq _ _) Hnn). cbn [negb].
  erewrite bind_done by by apply get_desc_run.
  erewrite bind_done by (apply on_mem_run, memset_correct; [lia|lia|]; intros y Hy; apply Hmap; lia).
  erewrite bind_done by by apply push_front_run.
  erewrite bind_done.
  2:{ apply load_run. eapply word_at_frame; [|exact Hcnt]. intros y Hy. cbn. apply stored_outside.
      unfold zlen. rewrite length_replicate. lia. }
  rewrite u32_small by lia. erewrite bind_done; [done|]. apply store_run. intros y Hy. apply stored_is_Some, Hmap.
  change PGSIZE with 4096. lia.
Qed.

Record freed_block A h A' h' (p : Z) : Prop := {
  fb_ok : heap_ok A' h';
  fb_live : forall q m, live A' h' q m <-> live A h q m /\ q <> p;
  fb_bytes : forall q m y, live A h q m -> q <> p -> q <= y < q + m -> memory h' !! y = memory h !! y
}.

(** Every arena has an allocated block. *)
Lemma arena_has_block A h a x : heap_ok A h -> A !! a = Some x -> exists p n, live_in A h a p n.
Proof.
  intros [H Hbusy] HA. destruct x as [i|c].
  2:{ exists (a + ARENA_SIZE), (PGSIZE * c - ARENA_SIZE). unfold live_in. by rewrite HA. }
  destruct (inv_arena_at _ A h a i H HA) as (s & Es & _). pose proof (Hbusy a i s HA Es) as Hc.
  destruct (desc_bounds _ _ _ _ _ H Es) as (_ & _ & _ & Hn).
  destruct (decide (Forall (fun b => b ∈ d_free_list s) (blocks s a (d_blocks_per_arena s)))) as [Hall|Hsome].
  - exfalso. rewrite Forall_forall in Hall.
    assert (blocks s a (d_blocks_per_arena s) ⊆+ filter (in_page a) (d_free_list s)) as Hsub.
    { apply NoDup_submseteq; [apply blocks_NoDup; destruct (desc_bounds _ _ _ _ _ H Es); lia|].
      intros b Hb. apply list_elem_of_filter. split; [|by apply Hall]. eapply is_block_page; [exact H|exact Es|by apply blocks_is_block]. }
    apply submseteq_length in Hsub. pose proof (zlen_blocks s a (d_blocks_per_arena s)). unfold free_count, zlen in *. lia.
  - apply not_Forall_Exists, Exists_exists in Hsome as (b & Hb%blocks_is_block & Hn'); [|apply _].
    exists b, (d_block_size s). unfold live_in. rewrite HA. by exists s.
Qed.

(** Which pages [free (p)] leaves in use: those of an arena exactly if it has
    another allocated block; all other pages are as they were. *)
Record freed_pages A h A' h' (p : Z) : Prop := {
  fp_arenas : forall a x, A' !! a = Some x <-> A !! a = Some x /\ exists q m, live_in A h a q m /\ q <> p;
  fp_base : base (kernel_pool (pages h')) = base (kernel_pool (pages h));
  fp_size : pool_size false (pages h') = pool_size false (pages h);
  fp_used : forall a x j, A !! a = Some x -> a <= page_at false (pages h) j < a + PGSIZE * arena_pages x ->
    used false (pages h') j = true <-> exists q m, live_in A h a q m /\ q <> p;
  fp_other : forall j, 0 <= j -> (forall a x, A !! a = Some x -> ~ (a <= page_at false (pages h) j < a + PGSIZE * arena_pages x)) ->
    used false (pages h') j = used false (pages h) j
}.

Lemma placed_used r a n j : placed r a n -> a <= page_at false r j < a + PGSIZE * n -> 0 <= j /\ used false r j = true.
Proof. intros (i & Hi & _ & -> & Hu) Hj%page_at_between. split; [lia|by apply Hu]. Qed.

Lemma pages_step_trans a n r r1 r' : pages_step a n r r1 -> pages_step a n r1 r' -> pages_step a n r r'.
Proof.
  intros [_ Eb1 Es1 Hu1 Hm1] [Hok Eb2 Es2 Hu2 Hm2]. split; [done|congruence|congruence| |].
  - intros j Hj Hout. rewrite Hu2, Hu1; try done. unfold page_at in *. cbn [get_pool] in *. by rewrite Eb1.
  - intros x Hx. by rewrite Hm2, Hm1.
Qed.

(** A block lies in one arena. *)
Lemma live_in_one A h a a' p n m : heap_inv A h -> live_in A h a p n -> live_in A h a' p m -> a = a'.
Proof.
  intros H Hl Hl'. destruct (live_inside _ _ _ _ _ _ H Hl) as (x & Hx & ? & ? & ?), (live_inside _ _ _ _ _ _ H Hl') as (y & Hy & ? & ? & ?).
  destruct (decide (a = a')) as [|Hne]; [done|]. destruct (hi_apart _ _ _ H a a' x y Hx Hy Hne); unfold ARENA_SIZE in *; lia.
Qed.

(** The arena of the block is kept with its pages, or gone. *)
Lemma freed_pages_intro A h A' h' a x p n : heap_ok A h -> A !! a = Some x -> live_in A h a p n ->
  pages_step a (arena_pages x) (pages h) (pages h') -> (forall a', a' <> a -> A' !! a' = A !! a') ->
  (A' !! a = Some x /\ (exists q m, live_in A h a q m /\ q <> p) /\
    (forall j, used false (pages h') j = used false (pages h) j)) \/
  (A' !! a = None /\ (forall q m, live_in A h a q m -> q = p) /\ unused h a (arena_pages x) h') ->
  freed_pages A h A' h' p.
Proof.
  intros Hok Hx Hl [_ Hb Hs Hu _] Ho Hcase. pose proof Hok as [H _].
  assert (forall a' y, a' <> a -> A !! a' = Some y -> exists q m, live_in A h a' q m /\ q <> p) as Hothers.
  { intros a' y Hne Hy. destruct (arena_has_block A h a' y Hok Hy) as (q & m & Hq). exists q, m. split; [done|].
    intros ->. apply Hne. by eapply live_in_one. }
  split; [|done|done| |].
  - intros a' y. destruct (decide (a' = a)) as [->|Hne].
    + destruct Hcase as [(-> & Hq & _)|(-> & Hq & _)]; [naive_solver|]. split; [done|]. intros (_ & q & m & Hq' & []). by eapply Hq.
    + rewrite Ho by done. naive_solver.
  - intros a' y j Hy Hj. destruct (hi_arena _ _ _ H a' y Hy) as [Hpl _]. destruct (placed_used _ _ _ _ Hpl Hj) as [Hj0 Hused].
    destruct (decide (a' = a)) as [->|Hne].
    + rewrite Hx in Hy. injection Hy as <-. destruct Hcase as [(_ & Hq & Hsame)|(_ & Hq & Hun)].
      * rewrite Hsame, Hused. naive_solver.
      * rewrite (Hun j Hj). split; [done|]. intros (q & m & Hq' & []). by eapply Hq.
    + rewrite Hu; [|done|]; [rewrite Hused; naive_solver|]. pose proof (hi_apart _ _ _ H a' a y x Hy Hx Hne). unfold apart in *. lia.
  - intros j Hj Hout. apply Hu; [done|]. by apply Hout.
Qed.

Lemma given_back_live A h a i s p q m : A !! a = Some (Small i) -> zget (descs h) i = Some s ->
  live_in A (given_back h i s a p) a q m <-> live_in A h a q m /\ q <> p.
Proof.
  intros HA Es. unfold live_in. rewrite HA, Es.
  assert (zget (descs (given_back h i s a p)) i = Some (set_free_list s (p :: d_free_list s))) as -> by by apply (get_with_list h).
  split.
  - intros (s0 & [= <-] & Hk & Hn & ->). cbn in Hn. rewrite elem_of_cons in Hn. split; [|tauto]. exists s. tauto.
  - intros [(s0 & [= <-] & Hk & Hn & ->) Hq]. exists (set_free_list s (p :: d_free_list s)). split; [done|].
    split; [exact Hk|]. split; [|done]. cbn. rewrite elem_of_cons. tauto.
Qed.

(** The bytes of the other blocks while a block is put on its free list. *)
Lemma given_back_bytes A h a i s p q m y : heap_inv A h -> A !! a = Some (Small i) -> zget (descs h) i = Some s ->
  is_block s a p -> p ∉ d_free_list s -> live A h q m -> q <> p -> q <= y < q + m ->
  memory (given_back h i s a p) !! y = memory h !! y.
Proof.
  intros H HA Es Hk Hp Hl Hq Hy. destruct (desc_bounds _ _ _ _ _ H Es) as (Hbs & _). apply given_back_mem; [lia| |].
  - assert (live A h p (d_block_size s)) as Hl' by (exists a; unfold live_in; rewrite HA; by exists s).
    destruct (live_disjoint _ _ _ _ _ _ _ H Hl Hl') as [[? _]|]; [done|lia].
  - pose proof (live_header _ _ _ _ _ _ _ y H HA Hl Hy). lia.
Qed.

Lemma free_small_run A h a i s p : heap_ok A h -> A !! a = Some (Small i) -> zget (descs h) i = Some s ->
  is_block s a p -> p ∉ d_free_list s ->
  exists A' h', free descs_at p h = Done (tt, h') /\ freed_block A h A' h' p /\ freed_pages A h A' h' p.
Proof.
  intros Hok HA Es Hk Hp. pose proof Hok as [H Hbusy]. pose proof (Hbusy a i s HA Es) as Hc.
  rewrite (free_small_prefix A h a i s p H HA Es Hk Hc). set (h1 := given_back h i s a p).
  destruct (given_back_inv A h a i s p H HA Es Hk Hp) as (Hs & Hinv & Es1 & Ec & Hle). fold h1 in Hs, Hinv, Es1.
  assert (live_in A h a p (d_block_size s)) as Hl by (unfold live_in; rewrite HA; by exists s).
  assert (forall q m, live A h1 q m <-> live A h q m /\ q <> p) as Hlive.
  { eapply step_lives_remove; [exact H|exact Hs|exact Hl|]. intros q m. by apply given_back_live. }
  assert (forall q m y, live A h q m -> q <> p -> q <= y < q + m -> memory h1 !! y = memory h !! y) as Hbytes.
  { intros q m y. by apply given_back_bytes with (A := A). }
  assert (forall a', a' <> a -> busy A h1 a') as Hothers by (intros a' Hne; eapply step_busy; [exact H|exact Hs|done|apply Hbusy]).
  destruct (Z.leb_spec (d_blocks_per_arena s) (free_count s a + 1)) as [Hfull|Hnot].
  - erewrite bind_done by by apply assert_done, Z.eqb_eq; lia.
    destruct (release_run A h1 a i _ Hinv HA Es1) as (h2 & Hr & Hs2 & Hinv2 & Hun); [cbn; lia|].
    exists (delete a A), h2. split; [exact Hr|].
    assert (forall q m, ~ live_in A h1 a q m) as Hnone.
    { intros q m Hq. unfold live_in in Hq. rewrite HA in Hq. destruct Hq as (s0 & Es0 & Hk0 & Hn0 & _).
      rewrite Es1 in Es0. injection Es0 as <-. apply Hn0.
      eapply all_blocks_free; [exact Hinv|exact HA|exact Es1| |exact Hk0]. cbn. lia. }
    split; [split; [split; [done|]| |]|].
    + intros a'. destruct (decide (a' = a)) as [->|Hne]; [|eapply step_busy; [exact Hinv|exact Hs2|done|by apply Hothers]].
      intros j s0 HA'. by rewrite lookup_delete_eq in HA'.
    + intros q m. rewrite <- Hlive.
      rewrite (step_lives_add _ a 1 A (delete a A) h1 h2 Hinv Hs2 (fun _ _ => False)); [tauto|].
      intros q' m'. split; [unfold live_in at 1; by rewrite lookup_delete_eq|]. intros [Hq|[]]. by destruct (Hnone q' m').
    + intros q m y Hq Hne Hy. rewrite <- (Hbytes q m y Hq Hne Hy).
      assert (live A h1 q m) as [a' Hq1] by by apply Hlive. eapply step_bytes; [exact Hinv|exact Hs2| |exact Hq1|done].
      intros ->. by destruct (Hnone q m).
    + apply (freed_pages_intro A h _ h2 a (Small i) p _ Hok HA Hl).
      * eapply pages_step_trans; [apply (as_pages _ _ _ _ _ _ Hs)|apply (as_pages _ _ _ _ _ _ Hs2)].
      * intros a' Hne. by apply lookup_delete_ne.
      * right. split; [apply lookup_delete_eq|]. split; [|exact Hun]. intros q m Hq. destruct (decide (q = p)) as [|Hne]; [done|].
        destruct (Hnone q m). by apply given_back_live.
  - assert (heap_ok A h1) as Hok1.
    { split; [done|]. intros a'. destruct (decide (a' = a)) as [->|Hne]; [|by apply Hothers].
      intros j s0 HA0 Es0. rewrite HA in HA0. injection HA0 as <-. rewrite Es1 in Es0. injection Es0 as <-. cbn. lia. }
    exists A, h1. split; [done|]. split; [by split|].
    apply (freed_pages_intro A h A h1 a (Small i) p _ Hok HA Hl); [apply Hs|done|left]. split; [done|]. split; [|done].
    destruct (arena_has_block A h1 a (Small i) Hok1 HA) as (q & m & Hq). exists q, m. by apply given_back_live with (i := i) (s := s).
Qed.

Lemma big_arena_at A h a n : heap_inv A h -> A !! a = Some (Big n) -> arena_at h a NULL.
Proof.
  intros H HA. destruct (arena_page _ _ _ _ _ H HA) as (? & ? & ?). destruct (hi_arena _ _ _ H a _ HA) as [_ [(Hm & Hd & _) Hn]].
  split; [|done]. split; [done|]. split; [done|]. cbn [arena_pages] in *. assert (PGSIZE = 4096) as E by done. rewrite E in *. lia.
Qed.

Lemma free_big_run A h a n : heap_ok A h -> A !! a = Some (Big n) ->
  exists h', free descs_at (a + ARENA_SIZE) h = Done (tt, h') /\ freed_block A h (delete a A) h' (a + ARENA_SIZE) /\
    freed_pages A h (delete a A) h' (a + ARENA_SIZE) /\ memory h' = freed (pages h) a n.
Proof.
  intros Hok HA. pose proof Hok as [H Hbusy]. pose proof (arena_page _ _ _ _ _ H HA) as Hp. cbn [arena_pages] in Hp.
  destruct (hi_arena _ _ _ H a _ HA) as [_ [(Hm & Hd & Hc) Hn]].
  destruct (give_back A h h a (Big n) H HA) as (h' & Hr & Hs & Hinv & Hmem & Hun); [done|pose proof (lists_step_same _ A h (pages h) a H); by destruct h|done| |].
  { intros i s b Es Hb Hpb. destruct (free_block _ _ _ _ _ a _ H Es Hb Hpb) as [HA' _]; [apply Hp|]. congruence. }
  cbn [arena_pages] in *. exists h'. split; [|split; [|split; [|done]]].
  - pose proof (big_arena_at A h a n H HA) as Ha.
    unfold free. destruct Hp as (_ & Hlow & Hhigh). unfold PHYS_BASE in Hlow.
    assert (negb (a + ARENA_SIZE =? NULL) = true) as -> by (unfold NULL, ARENA_SIZE; by rewrite (proj2 (Z.eqb_neq (a + 12) 0)) by lia).
    erewrite bind_done by by apply block_to_arena_big.
    erewrite bind_done by by apply load_run. cbn [NULL Z.eqb negb]. by erewrite bind_done by by apply load_run.
  - split; [split; [done|]| |].
    + intros a'. destruct (decide (a' = a)) as [->|Hne]; [|eapply step_busy; [exact H|exact Hs|done|apply Hbusy]].
      intros j s0 HA'. by rewrite lookup_delete_eq in HA'.
    + eapply (step_lives_remove _ a n _ _ _ _ H Hs _ (PGSIZE * n - ARENA_SIZE)); [unfold live_in; by rewrite HA|].
      intros q m. unfold live_in. rewrite lookup_delete_eq, HA. split; [done|]. intros [[-> _] Hne]. done.
    + intros q m y [a' Hq] Hne Hy. eapply step_bytes; [exact H|exact Hs| |exact Hq|done].
      intros ->. unfold live_in in Hq. rewrite HA in Hq. destruct Hq as [-> _]. done.
  - apply (freed_pages_intro A h _ h' a (Big n) _ (PGSIZE * n - ARENA_SIZE) Hok HA); [unfold live_in; by rewrite HA|apply Hs| |right].
    + intros a' Hne. by apply lookup_delete_ne.
    + split; [apply lookup_delete_eq|]. split; [|exact Hun]. intros q m. unfold live_in. rewrite HA. by intros [-> _].
Qed.

Lemma free_run A h p n : heap_ok A h -> live A h p n ->
  exists A' h', free descs_at p h = Done (tt, h') /\ freed_block A h A' h' p /\ freed_pages A h A' h' p.
Proof.
  intros Hok [a Hl]. unfold live_in in Hl. destruct (A !! a) as [[i|c]|] eqn:HA; [| |done].
  - destruct Hl as (s & Es & Hk & Hp & _). by eapply free_small_run.
  - destruct Hl as [-> _]. destruct (free_big_run A h a c Hok HA) as (h' & Hr & Hf & Hfp & _). by exists (delete a A), h'.
Qed.

(** A big block freed twice: the second time its header is gone. *)
Lemma double_free_run A h a n : heap_ok A h -> A !! a = Some (Big n) ->
  exists h', free descs_at (a + ARENA_SIZE) h = Done (tt, h') /\ free descs_at (a + ARENA_SIZE) h' = Panic.
Proof.
  intros Hok HA. destruct (free_big_run A h a n Hok HA) as (h' & Hr & _ & _ & Hmem). exists h'. split; [done|].
  pose proof Hok as [H _]. destruct (arena_page _ _ _ _ _ H HA) as (Hal & Hlow & Hhigh). cbn [arena_pages] in Hhigh.
  pose proof (arena_pages_pos _ _ _ _ _ H HA) as Hpos. cbn in Hpos. unfold PHYS_BASE in Hlow. assert (PGSIZE = 4096) as E by done.
  assert (pg_round_down (a + ARENA_SIZE) = a) as Ert.
  { rewrite pg_round_down_eq by (unfold is_u32, ARENA_SIZE; rewrite E in *; lia). rewrite E in *. unfold ARENA_SIZE. dlia. }
  assert (bytes_at (memory h') a [0xcc; 0xcc; 0xcc; 0xcc]) as Hcc.
  { rewrite Hmem. unfold freed. replace (Z.to_nat (PGSIZE * n)) with (4 + Z.to_nat (PGSIZE * n - 4))%nat by (rewrite E; lia).
    rewrite replicate_add. apply (bytes_at_app _ [0xcc; 0xcc; 0xcc; 0xcc] _ (replicate (Z.to_nat (PGSIZE * n - 4)) 0xcc)).
    apply (stored_bytes ([0xcc; 0xcc; 0xcc; 0xcc] ++ _)). apply Forall_app. split; [all_bytes|by apply Forall_replicate]. }
  unfold free. assert (negb (a + ARENA_SIZE =? NULL) = true) as -> by (unfold NULL, ARENA_SIZE; by rewrite (proj2 (Z.eqb_neq (a + 12) 0)) by lia).
  unfold block_to_arena. rewrite Ert.
  assert (negb (a =? NULL) = true) as -> by (unfold NULL; by rewrite (proj2 (Z.eqb_neq a 0)) by lia).
  unfold bnd at 1 2, mbind, M_bind. cbn [ASSERT].
  rewrite (bind_done _ _ h' (le_word [0xcc; 0xcc; 0xcc; 0xcc]) h'); [done|].
  erewrite on_mem_run by by apply load32_run. by rewrite with_mem_same.
Qed.
End Free.
