(* ===== verification/MallocCorrect.v ===== *)
(** * threads/malloc.c: what the block allocator promises

    malloc, calloc, realloc and free against the abstract state [live]: the
    allocated blocks, each an address and a size. *)

From S2P Require Import Prelude Vaddr Bitmap Mem CString Palloc Malloc Arena MallocRuns MallocSpec.

(** The largest request whose page count does not wrap. *)
Definition max_size : Z := 2 ^ 32 - PGSIZE - ARENA_SIZE.

Section Correct.
Context (descs_at : Z) (Hat : 0 < descs_at /\ descs_at + 10 * DESC_SIZE <= 2 ^ 32).
Implicit Types (A : gmap Z arena) (h : heap) (r : ram) (s : desc).
Local Abbreviation desc_ptr := (desc_ptr descs_at).
Local Abbreviation heap_inv := (heap_inv descs_at).
Local Abbreviation heap_ok := (heap_ok descs_at).
Local Abbreviation allocated := (allocated descs_at).
Local Abbreviation freed_block := (freed_block descs_at).

(** ** Initialization *)

Definition fresh_descs : list desc :=
  (fun k => mk_desc (2 ^ (4 + Z.of_nat k)) ((PGSIZE - ARENA_SIZE) / 2 ^ (4 + Z.of_nat k)) []) <$> seq 0 7.

Lemma malloc_init_run r : ram_ok r ->
  malloc_init (mk_heap [] r) = Done (tt, mk_heap fresh_descs r) /\ heap_ok ∅ (mk_heap fresh_descs r).
Proof.
  intros H. split; [reflexivity|]. split; [|intros a i s E; by rewrite lookup_empty in E].
  assert (forall i s, zget fresh_descs i = Some s -> shaped i s /\ d_free_list s = []) as Hd.
  { intros i s E. pose proof (zget_inv _ _ _ E) as Hi. change (zlen fresh_descs) with 7 in Hi.
    assert (i = 0 \/ i = 1 \/ i = 2 \/ i = 3 \/ i = 4 \/ i = 5 \/ i = 6) as Hc by lia.
    repeat (destruct Hc as [->|Hc]; [vm_compute in E; injection E as <-; done|]). subst i. vm_compute in E. by injection E as <-. }
  split; cbn [descs pages]; try done.
  - intros i s E. destruct (Hd i s E) as [? ->]. split; [done|constructor].
  - intros i s b E Hb. destruct (Hd i s E) as [_ Ef]. rewrite Ef in Hb. by apply elem_of_nil in Hb.
Qed.

(** ** malloc *)

(** C6: malloc either gives a block of at least [size] bytes at a word boundary
    that overlaps no allocated block, leaves the bytes of all of them and adds
    exactly this block to them; or it changes nothing and returns NULL, and then
    the pages it needs are not there. *)
Theorem malloc_correct A h size : heap_ok A h -> 0 <= size <= max_size ->
  (malloc descs_at size h = Done (NULL, h) /\ (size = 0 \/ no_pages h (pages_for size))) \/
  (exists p n A' h', malloc descs_at size h = Done (p, h') /\ size <= n /\ p mod 4 = 0 /\
     heap_ok A' h' /\ allocated A h A' h' p n).
Proof.
  intros Hok Hs. destruct (decide (size = 0)) as [->|Hne]; [left; split; [done|by left]|].
  destruct (malloc_run descs_at Hat A h size Hok) as [[Hr Hno]|Hr]; [unfold max_size in Hs; lia| |by right].
  left. split; [done|by right].
Qed.

(** Allocated blocks never overlap. *)
Theorem blocks_disjoint A h p n q m : heap_ok A h -> live A h p n -> live A h q m ->
  (p = q /\ n = m) \/ p + n <= q \/ q + m <= p.
Proof. intros [H _]. by apply (live_disjoint descs_at). Qed.

(** ** free *)

(** C7: free of an allocated block ends, takes exactly this block from the
    allocated ones and leaves the bytes of all others.  The pages of an arena are in
    use afterwards exactly if another allocated block is in it: the arena of the last
    block goes back to the page allocator, all others stay, and no other page
    changes.  A big block freed twice stops the kernel. *)
Theorem free_correct A h p n : heap_ok A h -> live A h p n ->
  (exists A' h', free descs_at p h = Done (tt, h') /\ freed_block A h A' h' p /\ freed_pages A h A' h' p) /\
  (forall a c, A !! a = Some (Big c) -> p = a + ARENA_SIZE ->
     exists h', free descs_at p h = Done (tt, h') /\ free descs_at p h' = Panic).
Proof.
  intros Hok Hl. split; [by eapply free_run|]. intros a c HA ->. by eapply double_free_run.
Qed.

(** ** realloc *)

Lemma block_size_run A h p n : heap_inv A h -> live A h p n -> block_size descs_at p h = Done (n, h).
Proof.
  intros H [a Hl]. unfold live_in in Hl. destruct (A !! a) as [[i|c]|] eqn:HA; [| |done].
  - destruct Hl as (s & Es & Hk & _ & ->). destruct (inv_arena_at _ A h a i H HA) as (s0 & Es0 & Ha & _). rewrite Es in Es0. injection Es0 as <-.
    pose proof (desc_range _ _ _ _ _ H Es) as Hi. destruct (desc_ptr_u32 descs_at i Hat Hi) as [_ Hnn].
    unfold block_size. erewrite bind_done by (eapply (block_to_arena_small descs_at Hat _ a i s); [done|by apply (hi_desc _ _ _ H i s Es)|done|exact Ha|done]).
    destruct Ha as (_ & _ & Hd). erewrite bind_done by by apply load_run. rewrite (proj2 (Z.eqb_neq _ _) Hnn).
    cbn [negb]. by erewrite bind_done by by apply get_desc_run.
  - destruct Hl as [-> ->]. destruct (hi_arena _ _ _ H a _ HA) as [_ [(Hm & Hd & Hc) Hn]].
    pose proof (arena_page _ _ _ _ _ H HA) as Hp. pose proof (big_arena_at descs_at A h a c H HA) as Ha.
    unfold block_size. erewrite bind_done by by apply block_to_arena_big.
    erewrite bind_done by by apply load_run. cbn [NULL Z.eqb negb]. erewrite bind_done by by apply load_run.
    destruct (round_down_block a (a + ARENA_SIZE)) as (_ & -> & _); [apply Ha|unfold in_page, ARENA_SIZE; change PGSIZE with 4096; lia|].
    assert (PGSIZE = 4096) as E by done. destruct Hp as (_ & Hlow & Hhigh). cbn [arena_pages] in Hhigh. unfold PHYS_BASE, ARENA_SIZE in *. rewrite E in *.
    rewrite u32_small by lia. by replace (4096 * c - (a + 12 - a)) with (4096 * c - 12) by lia.
Qed.

(** [h'] is [h] with the block at [old] moved to [m] bytes at [p]. *)
Record moved A h A' h' (old p m : Z) : Prop := {
  mv_ok : heap_ok A' h';
  mv_live : forall q k, live A' h' q k <-> (live A h q k /\ q <> old) \/ (q = p /\ k = m);
  mv_bytes : forall q k y, live A h q k -> q <> old -> q <= y < q + k -> memory h' !! y = memory h !! y
}.

Lemma move_run A h A1 h1 old n p m len bs : heap_ok A h -> live A h old n -> heap_ok A1 h1 -> allocated A h A1 h1 p m ->
  zlen bs = len -> len <= n -> len <= m -> bytes_at (memory h) old bs -> Forall is_byte bs ->
  exists A' h', (on_mem (memcpy p old len) ;; free descs_at old) h1 = Done (tt, h') /\
    moved A h A' h' old p m /\ bytes_at (memory h') p bs.
Proof.
  intros [H _] Hold [H1 Hb1] [_ Hl1 Hnew Hb] <- Hln Hlm Hbs Hby.
  assert (live A1 h1 old n) as Hold1 by (apply Hl1; by left).
  assert (live A1 h1 p m) as Hp1 by (apply Hl1; by right).
  assert (p <> old) as Hne by (intros ->; by apply (Hnew n)).
  destruct (live_disjoint descs_at A1 h1 old n p m H1 Hold1 Hp1) as [[? _]|Hap]; [done|].
  destruct (live_mapped descs_at _ _ _ _ H1 Hp1) as (Hmp & Hp0 & _ & _), (live_mapped descs_at _ _ _ _ H1 Hold1) as (_ & Ho0 & _ & _).
  set (m2 := stored (memory h1) p bs).
  assert (heap_ok A1 (with_mem h1 m2)) as Hok2.
  { split; [|exact Hb1]. apply (write_ok descs_at A1 h1 m2 p m); [done|done|intros y; apply stored_is_Some|].
    intros y Hy. apply stored_outside. lia. }
  destruct (free_run descs_at Hat A1 (with_mem h1 m2) old n Hok2 Hold1) as (A' & h' & Hr & [Hok' Hl' Hb'] & _).
  assert (forall q k, live A1 (with_mem h1 m2) q k <-> live A1 h1 q k) as Hsame by done.
  exists A', h'. split; [|split; [split; [done| |]|]].
  - erewrite bind_done; [exact Hr|]. apply on_mem_run, memcpy_run; [|done|intros y Hy; apply Hmp; lia|done|done|lia].
    apply (bytes_at_frame (memory h)); [|done]. intros y Hy. apply (Hb old n); [done|lia].
  - intros q k. rewrite Hl', Hsame, Hl1. naive_solver.
  - intros q k y Hq Hqo Hy. assert (live A1 h1 q k) as Hq1 by (apply Hl1; by left).
    rewrite (Hb' q k y Hq1 Hqo Hy). cbn. unfold m2. rewrite stored_outside; [by apply (Hb q k)|].
    destruct (live_disjoint descs_at A1 h1 q k p m H1 Hq1 Hp1) as [[-> _]|]; [by destruct (Hnew k)|lia].
  - apply (bytes_at_frame m2); [|by apply stored_bytes]. intros y Hy. apply (Hb' p m y Hp1 Hne). lia.
Qed.

(** C23: realloc either gives a block of at least [new_size] bytes that starts
    with the bytes of the old block, as many as both have, and frees the old one,
    leaving all other blocks; or it returns NULL and changes nothing. *)
Theorem realloc_correct A h old n new_size bs : heap_ok A h -> live A h old n -> 0 < new_size <= max_size ->
  zlen bs = Z.min new_size n -> bytes_at (memory h) old bs -> Forall is_byte bs ->
  (realloc descs_at old new_size h = Done (NULL, h) /\ no_pages h (pages_for new_size)) \/
  (exists p m A' h', realloc descs_at old new_size h = Done (p, h') /\ new_size <= m /\
     moved A h A' h' old p m /\ bytes_at (memory h') p bs).
Proof.
  intros Hok Hl Hs Hlen Hbs Hby. pose proof Hok as [H _].
  destruct (live_mapped descs_at A h old n H Hl) as (_ & Ho & Hn & _). unfold realloc, max_size in *. dec.
  destruct (malloc_run descs_at Hat A h new_size Hok Hs) as [[Hr Hno]|(p & m & A1 & h1 & Hr & Hle & _ & Hok1 & Hal)].
  - left. split; [|done]. erewrite bind_done by exact Hr. unfold NULL. dec. done.
  - right. pose proof Hok1 as [H1 _]. pose proof (al_live _ _ _ _ _ _ _ Hal) as Hl1.
    assert (live A1 h1 p m) as Hp by (apply Hl1; by right). destruct (live_mapped descs_at _ _ _ _ H1 Hp) as (_ & Hp0 & _).
    destruct (move_run A h A1 h1 old n p m (Z.min new_size n) bs) as (A' & h' & Hr' & Hmv & Hb'); try done; [lia..|].
    exists p, m, A', h'. split; [|done]. erewrite bind_done by exact Hr. unfold NULL. do 2 dec.
    erewrite bind_done; [done|]. erewrite bind_done by (eapply block_size_run; [done|apply Hl1; by left]).
    replace (if new_size <? n then new_size else n) with (Z.min new_size n); [exact Hr'|].
    destruct (Z.ltb_spec new_size n); lia.
Qed.

Lemma calloc_run A h a b : heap_ok A h -> 0 < a -> 0 < b -> a * b <= max_size ->
  (calloc descs_at a b h = Done (NULL, h) /\ no_pages h (pages_for (a * b))) \/
  (exists p n A' h', calloc descs_at a b h = Done (p, h') /\ a * b <= n /\ heap_ok A' h' /\ allocated A h A' h' p n /\
     bytes_at (memory h') p (replicate (Z.to_nat (a * b)) 0)).
Proof.
  intros Hok Ha Hb Hs. unfold calloc, max_size in *. assert (0 < a * b) as Hpos by nia.
  rewrite u32_small by (change PGSIZE with 4096 in Hs; unfold ARENA_SIZE in Hs; lia).
  rewrite (proj2 (Z.ltb_ge (a * b) a)), (proj2 (Z.ltb_ge (a * b) b)) by nia. cbn [orb].
  destruct (malloc_run descs_at Hat A h (a * b) Hok) as [[Hr Hno]|(p & n & A' & h' & Hr & Hle & _ & [Hi Hbz] & [_ Hl Hnew Hbytes])]; [lia|left|right].
  { split; [|done]. by erewrite bind_done by exact Hr. }
  assert (live A' h' p n) as Hp by (apply Hl; by right). destruct (live_mapped descs_at _ _ _ _ Hi Hp) as (Hm & Hp0 & _).
  set (m := stored (memory h') p (replicate (Z.to_nat (a * b)) 0)).
  assert (forall y, ~ (p <= y < p + n) -> m !! y = memory h' !! y) as Hout.
  { intros y Hy. apply stored_outside. unfold zlen. rewrite length_replicate. lia. }
  assert (heap_inv A' (with_mem h' m)) as Hi2 by (apply (write_ok descs_at A' h' m p n); try done; intros y; apply stored_is_Some).
  exists p, n, A', (with_mem h' m). split; [|split; [done|split; [by split|split; [split; try done|]]]].
  - erewrite bind_done by exact Hr. unfold NULL. dec. erewrite bind_done; [done|]. erewrite bind_done; [done|].
    apply on_mem_run, memset_correct; [done|lia|]. intros y Hy. apply Hm. lia.
  - intros q k y Hq Hy. cbn. rewrite Hout; [by apply (Hbytes q k)|].
    assert (live A' h' q k) as Hq' by (apply Hl; by left).
    destruct (live_disjoint descs_at A' h' q k p n Hi Hq' Hp) as [[-> _]|]; [by destruct (Hnew k)|lia].
  - apply stored_bytes. by apply Forall_replicate.
Qed.

(** Calloc of a product that fits gives a block of zeros, as malloc does. *)
Theorem calloc_correct A h a b : heap_ok A h -> 0 < a -> 0 < b -> a * b <= max_size ->
  (calloc descs_at a b h = Done (NULL, h) /\ no_pages h (pages_for (a * b))) \/
  (exists p n A' h', calloc descs_at a b h = Done (p, h') /\ a * b <= n /\ heap_ok A' h' /\ allocated A h A' h' p n /\
     bytes_at (memory h') p (replicate (Z.to_nat (a * b)) 0)).
Proof. apply calloc_run. Qed.

(** ** Requests that overflow *)

Lemma malloc_large A h size : heap_inv A h -> 1024 < size -> malloc descs_at size h = malloc_big size h.
Proof.
  intros H Hs. unfold malloc. dec. erewrite bind_done by done.
  destruct (find_desc_spec size (descs h) descs_at) as [(k & s & Hk & Hle & _)|[_ ->]].
  - exfalso. assert (zget (descs h) (Z.of_nat k) = Some s) as Es by by rewrite zget_nat.
    destruct (desc_bounds _ _ _ _ _ H Es) as (Hbs & _). lia.
  - change (descs_at + DESC_SIZE * zlen (descs h)) with (desc_ptr (zlen (descs h))). by rewrite Z.eqb_refl.
Qed.

Lemma malloc_pages A h size n : heap_ok A h -> 1024 < size -> big_pages size = n -> 0 < n < 2 ^ 20 -> ~ no_pages h n ->
  exists p A' h', malloc descs_at size h = Done (p, h') /\ heap_ok A' h' /\ live A' h' p (PGSIZE * n - ARENA_SIZE).
Proof.
  intros Hok Hs <- Hn Hno. pose proof Hok as [H _]. rewrite (malloc_large A h size H Hs).
  destruct (malloc_big_allocated descs_at Hat A h size Hok Hn) as [[_ ?]|(p & A' & h' & Hr & Hok' & Hal & _)]; [done|].
  exists p, A', h'. split; [done|]. split; [done|]. apply (al_live _ _ _ _ _ _ _ Hal). by right.
Qed.

(** Requests near 4 GB wrap.  malloc answers each of the last 11 sizes with
    one page when there is one, and calloc's test misses products such as
    65537 * 65537: the block has 135156 bytes. *)
Theorem large_requests_wrap A h : heap_ok A h ->
  (forall size, 2 ^ 32 - ARENA_SIZE < size < 2 ^ 32 -> ~ no_pages h 1 ->
     exists p A' h', malloc descs_at size h = Done (p, h') /\ live A' h' p 4084) /\
  (~ no_pages h 33 -> exists p A' h', calloc descs_at 65537 65537 h = Done (p, h') /\ live A' h' p 135156).
Proof.
  intros Hok. split.
  - intros size Hs Hno. unfold ARENA_SIZE in Hs.
    destruct (malloc_pages A h size 1) as (p & A' & h' & Hr & _ & Hl); [done|lia| |lia|done|by exists p, A', h'].
    unfold big_pages, ARENA_SIZE. assert (PGSIZE = 4096) as -> by done. unfold u32.
    rewrite <- (Z.mod_add (size + 12) (-1)), (Z.mod_small (size + 12 + _)) by lia.
    rewrite (Z.mod_small (size + 12 + -1 * 2 ^ 32 + 4096 - 1)) by lia. dlia.
  - intros Hno. unfold calloc. change (u32 (65537 * 65537)) with 131073. change (131073 <? 65537) with false. cbn [orb].
    destruct (malloc_pages A h 131073 33) as (p & A' & h' & Hr & [H' Hbz] & Hl); [done|lia|reflexivity|lia|done|].
    change (PGSIZE * 33 - ARENA_SIZE) with 135156 in Hl. destruct (live_mapped descs_at _ _ _ _ H' Hl) as (Hm & Hp & _).
    exists p, A', (with_mem h' (stored (memory h') p (replicate (Z.to_nat 131073) 0))). split; [|done].
    erewrite bind_done by exact Hr. unfold NULL. dec.
    erewrite bind_done; [done|]. erewrite bind_done; [done|]. apply on_mem_run, memset_correct; [done|lia|].
    intros y Hy. apply Hm. lia.
Qed.
End Correct.

(** ** Witnesses: the small memory of Palloc, with the array [descs] at 0xc0100000 *)

Definition demo_descs : Z := 0xc0100000.
Definition demo_heap : heap := mk_heap fresh_descs (demo_ram 0 demo_bytes).

Lemma demo_at : 0 < demo_descs /\ demo_descs + 10 * DESC_SIZE <= 2 ^ 32.
Proof. by_decide. Qed.

Lemma demo_heap_ok : heap_ok demo_descs ∅ demo_heap.
Proof. apply malloc_init_run, demo_ram_ok, demo_bytes_mapped. Qed.

Lemma demo_pages n : 0 <= n <= 3 -> ~ no_pages demo_heap n.
Proof.
  intros Hn Hno. apply (Hno 0); [lia|]. split; [change (bit_cnt _) with 3; lia|]. intros i Hi.
  assert (i = 0 \/ i = 1 \/ i = 2) as [->|[->| ->]] by lia; reflexivity.
Qed.

(** A first block. *)
Lemma demo_block size : 0 < size <= 5000 -> exists p n A h, malloc demo_descs size demo_heap = Done (p, h) /\
  heap_ok demo_descs A h /\ live A h p n.
Proof.
  intros Hs. destruct (malloc_run demo_descs demo_at ∅ demo_heap size demo_heap_ok) as [[_ Hno]|(p & n & A & h & Hr & _ & _ & Hok & Hal)].
  - change PGSIZE with 4096. unfold ARENA_SIZE. lia.
  - exfalso. revert Hno. apply demo_pages. unfold pages_for. destruct (size <=? 1024); [lia|].
    unfold big_pages, ARENA_SIZE. change PGSIZE with 4096. rewrite (u32_small (size + 12)), u32_small by lia. dlia.
  - exists p, n, A, h. split; [done|]. split; [done|]. apply (al_live _ _ _ _ _ _ _ Hal). by right.
Qed.

Lemma malloc_correct_witness : heap_ok demo_descs ∅ demo_heap /\
  ((malloc demo_descs 100 demo_heap = Done (NULL, demo_heap) /\ (100 = 0 \/ no_pages demo_heap (pages_for 100))) \/
   (exists p n A' h', malloc demo_descs 100 demo_heap = Done (p, h') /\ 100 <= n /\ p mod 4 = 0 /\
     heap_ok demo_descs A' h' /\ allocated demo_descs ∅ demo_heap A' h' p n)).
Proof. split; [exact demo_heap_ok|]. apply (malloc_correct demo_descs demo_at); [exact demo_heap_ok|by_decide]. Defined.

Lemma calloc_correct_witness : heap_ok demo_descs ∅ demo_heap /\
  ((calloc demo_descs 5 20 demo_heap = Done (NULL, demo_heap) /\ no_pages demo_heap (pages_for 100)) \/
   (exists p n A' h', calloc demo_descs 5 20 demo_heap = Done (p, h') /\ 100 <= n /\ heap_ok demo_descs A' h' /\
     allocated demo_descs ∅ demo_heap A' h' p n /\ bytes_at (memory h') p (replicate (Z.to_nat 100) 0))).
Proof.
  split; [exact demo_heap_ok|]. apply (calloc_correct demo_descs demo_at ∅ demo_heap 5 20); [exact demo_heap_ok|reflexivity|reflexivity|by_decide].
Defined.

Lemma blocks_disjoint_witness : exists p n A h, heap_ok demo_descs A h /\ live A h p n /\
  ((p = p /\ n = n) \/ p + n <= p \/ p + n <= p).
Proof.
  destruct (demo_block 100 ltac:(by_decide)) as (p & n & A & h & _ & Hok & Hl). exists p, n, A, h.
  split; [exact Hok|]. split; [exact Hl|]. exact (blocks_disjoint demo_descs A h p n p n Hok Hl Hl).
Defined.

(** The pages in use after a first block, and after freeing it. *)
Definition demo_used (h : heap) : list bool := map (fun j => used false (pages h) j) [0; 1; 2].

Lemma demo_used_run p h h' : malloc demo_descs 100 demo_heap = Done (p, h) -> free demo_descs p h = Done (tt, h') ->
  demo_used h = [true; false; false] /\ demo_used h' = [false; false; false].
Proof.
  intros Hm Hf.
  assert (match malloc demo_descs 100 demo_heap with
          | Done (p, h) => match free demo_descs p h with Done (_, h') => (demo_used h, demo_used h') | _ => ([], []) end
          | _ => ([], []) end = ([true; false; false], [false; false; false])) as E by (vm_compute; reflexivity).
  rewrite Hm, Hf in E. exact (conj (f_equal fst E) (f_equal snd E)).
Qed.

Lemma free_correct_witness : exists p n A h, heap_ok demo_descs A h /\ live A h p n /\ demo_used h = [true; false; false] /\
  exists A' h', free demo_descs p h = Done (tt, h') /\ freed_block demo_descs A h A' h' p /\ freed_pages A h A' h' p /\
    demo_used h' = [false; false; false].
Proof.
  destruct (demo_block 100 ltac:(by_decide)) as (p & n & A & h & Hm & Hok & Hl). exists p, n, A, h.
  destruct (free_correct demo_descs demo_at A h p n Hok Hl) as [(A' & h' & Hf & Hb & Hp) _].
  destruct (demo_used_run p h h' Hm Hf) as [Hu Hu'].
  split; [exact Hok|]. split; [exact Hl|]. split; [exact Hu|]. exists A', h'. split; [exact Hf|]. split; [exact Hb|]. split; [exact Hp|exact Hu'].
Defined.

Lemma large_requests_wrap_witness : heap_ok demo_descs ∅ demo_heap /\
  exists p A' h', malloc demo_descs (2 ^ 32 - 1) demo_heap = Done (p, h') /\ live A' h' p 4084.
Proof.
  split; [exact demo_heap_ok|]. destruct (large_requests_wrap demo_descs demo_at ∅ demo_heap demo_heap_ok) as [H _].
  apply H; [by_decide|apply demo_pages; by_decide].
Defined.

Lemma realloc_correct_witness : exists old n A h, heap_ok demo_descs A h /\ live A h old n /\
  ((realloc demo_descs old 50 h = Done (NULL, h) /\ no_pages h (pages_for 50)) \/
   (exists p m A' h', realloc demo_descs old 50 h = Done (p, h') /\ 50 <= m /\
      moved demo_descs A h A' h' old p m /\ bytes_at (memory h') p (replicate 50 0))).
Proof.
  destruct (calloc_run demo_descs demo_at ∅ demo_heap 5 20 demo_heap_ok) as [[_ Hno]|(old & n & A & h & _ & Hn & Hok & Hal & Hb)];
    [by_decide|by_decide|by_decide|exfalso; revert Hno; apply demo_pages; by_decide|].
  assert (live A h old n) as Hl by (apply (al_live _ _ _ _ _ _ _ Hal); by right).
  exists old, n, A, h. split; [exact Hok|]. split; [exact Hl|].
  apply (realloc_correct demo_descs demo_at A h old n 50 (replicate 50 0) Hok Hl).
  - by_decide.
  - change (zlen (replicate 50 0)) with 50. lia.
  - change (replicate (Z.to_nat (5 * 20)) 0) with (replicate 50 0 ++ replicate 50 0) in Hb. by apply bytes_at_app in Hb as [Hb _].
  - by apply Forall_replicate.
Defined.
