(* ===== verification/Pagedir.v ===== *)
(** * userprog/pagedir.c: page directories

    Page directories and page tables are pages of the memory of Palloc, read and
    written as 32-bit words.  [cr3] is the page directory base register. *)

From S2P Require Import Prelude Vaddr Bitmap Mem CString Palloc.

Record mmu := mk_mmu {
  pages : ram;
  cr3 : Z;                    (* physical address of the active page directory *)
  init_page_dir : Z;          (* page directory with kernel mappings only *)
  init_ram_pages : Z          (* number of physical pages *)
}.

(** Run an operation of the page allocator. *)
Definition on_pages {A} (c : M ram A) : M mmu A := fun s =>
  '(a, p) ← c (pages s); Done (a, mk_mmu p (cr3 s) (init_page_dir s) (init_ram_pages s)).
Definition rd (p : Z) : M mmu Z := on_pages (on_bytes (load32 p)).
Definition wr (p v : Z) : M mmu unit := on_pages (on_bytes (store32 p v)).

Definition pagedir_activate (pd : Z) : M mmu unit :=
  s ← get;
  let pd := if pd =? NULL then init_page_dir s else pd in
  phys ← liftO (vtop pd);
  put (mk_mmu (pages s) phys (init_page_dir s) (init_ram_pages s)).

Definition active_pd : M mmu Z := pd ← gets cr3; liftO (ptov pd).

Definition invalidate_pagedir (pd : Z) : M mmu unit :=
  a ← active_pd;
  if a =? pd then pagedir_activate pd else mret tt.

Definition pagedir_create : M mmu Z :=
  pd ← on_pages (palloc_get_page 0);
  (if negb (pd =? NULL) then
     init ← gets init_page_dir; on_pages (on_bytes (memcpy pd init PGSIZE)) ;; mret tt
   else mret tt) ;;
  mret pd.

Definition pagedir_destroy (pd : Z) : M mmu unit :=
  if pd =? NULL then mret tt
  else
    init ← gets init_page_dir; ASSERT (negb (pd =? init)) ;;
    for_z (pd_no PHYS_BASE) (fun i =>
      pde ← rd (pd + 4 * i);
      if negb (Z.land pde PTE_P =? 0) then
        pt ← liftO (pde_get_pt pde);
        for_z (PGSIZE / 4) (fun j =>
          pte ← rd (pt + 4 * j);
          if negb (Z.land pte PTE_P =? 0) then
            page ← liftO (pte_get_page pte); on_pages (palloc_free_page page)
          else mret tt) ;;
        on_pages (palloc_free_page pt)
      else mret tt) ;;
    on_pages (palloc_free_page pd).

Definition lookup_page (pd vaddr : Z) (create : bool) : M mmu Z :=
  ASSERT (negb (pd =? NULL)) ;;
  ASSERT (negb create || is_user_vaddr vaddr) ;;
  let pde := pd + 4 * pd_no vaddr in
  w ← rd pde;
  ok ← (if w =? 0 then
          if create then
            pt ← on_pages (palloc_get_page PAL_ZERO);
            if pt =? NULL then mret false
            else e ← liftO (pde_create pt); wr pde e ;; mret true
          else mret false
        else mret true);
  if negb ok then mret NULL
  else
    w ← rd pde;
    pt ← liftO (pde_get_pt w);
    mret (pt + 4 * pt_no vaddr).

Definition pagedir_set_page (pd upage kpage : Z) (writable : bool) : M mmu bool :=
  ASSERT (pg_ofs upage =? 0) ;;
  ASSERT (pg_ofs kpage =? 0) ;;
  ASSERT (is_user_vaddr upage) ;;
  phys ← liftO (vtop kpage);
  n ← gets init_ram_pages; ASSERT (Z.shiftr phys PTSHIFT <? n) ;;
  init ← gets init_page_dir; ASSERT (negb (pd =? init)) ;;
  pte ← lookup_page pd upage true;
  if negb (pte =? NULL) then
    w ← rd pte; ASSERT (Z.land w PTE_P =? 0) ;;
    e ← liftO (pte_create_user kpage writable);
    wr pte e ;;
    mret true
  else mret false.

Definition pagedir_get_page (pd uaddr : Z) : M mmu Z :=
  ASSERT (is_user_vaddr uaddr) ;;
  pte ← lookup_page pd uaddr false;
  if pte =? NULL then mret NULL
  else
    w ← rd pte;
    if negb (Z.land w PTE_P =? 0) then
      page ← liftO (pte_get_page w); mret (page + pg_ofs uaddr)
    else mret NULL.

Definition pagedir_clear_page (pd upage : Z) : M mmu unit :=
  ASSERT (pg_ofs upage =? 0) ;;
  ASSERT (is_user_vaddr upage) ;;
  pte ← lookup_page pd upage false;
  if pte =? NULL then mret tt
  else
    w ← rd pte;
    if negb (Z.land w PTE_P =? 0) then
      wr pte (Z.land w (not32 PTE_P)) ;; invalidate_pagedir pd
    else mret tt.

(** The bit [f] of the entry for [vpage]. *)
Definition get_flag (f pd vpage : Z) : M mmu bool :=
  pte ← lookup_page pd vpage false;
  if pte =? NULL then mret false else w ← rd pte; mret (negb (Z.land w f =? 0)).

Definition set_flag (f pd vpage : Z) (v : bool) : M mmu unit :=
  pte ← lookup_page pd vpage false;
  if pte =? NULL then mret tt
  else
    w ← rd pte;
    if v then wr pte (Z.lor w f)
    else wr pte (Z.land w (not32 f)) ;; invalidate_pagedir pd.

Definition pagedir_is_dirty (pd vpage : Z) : M mmu bool := get_flag PTE_D pd vpage.
Definition pagedir_set_dirty (pd vpage : Z) (dirty : bool) : M mmu unit := set_flag PTE_D pd vpage dirty.
Definition pagedir_is_accessed (pd vpage : Z) : M mmu bool := get_flag PTE_A pd vpage.
Definition pagedir_set_accessed (pd vpage : Z) (accessed : bool) : M mmu unit := set_flag PTE_A pd vpage accessed.

(** ** What a page directory represents *)

(** The page at [p] holds the words [f 0 .. f 1023]. *)
Definition table (m : mem) (p : Z) (f : Z -> Z) : Prop := forall i, 0 <= i < 1024 -> word_at m (p + 4 * i) (f i).

(** A page of the kernel pool that is in use. *)
Definition kernel_page (s : ram) (p : Z) : Prop :=
  exists i, 0 <= i < pool_size false s /\ p = page_at false s i /\ used false s i = true.

(** The page table a page directory entry points to. *)
Definition pt_of (pde : Z) : Z := Z.land pde PTE_ADDR + PHYS_BASE.

(** [pd] is a page directory with entries [d]; the page table of its entry [i] has
    the entries [e i], which are 0 where there is no page table. *)
Record pagedir (s : ram) (pd : Z) (d : Z -> Z) (e : Z -> Z -> Z) : Prop := {
  pd_page : kernel_page s pd;
  pd_table : table (bytes s) pd d;
  pd_absent : forall i j, 0 <= i < 768 -> d i = 0 -> e i j = 0;
  pd_present : forall i, 0 <= i < 768 -> d i <> 0 ->
    kernel_page s (pt_of (d i)) /\ pde_get_pt (d i) = Done (pt_of (d i)) /\ pt_of (d i) <> pd /\
    table (bytes s) (pt_of (d i)) (e i);
  pd_apart : forall i j, 0 <= i < 768 -> 0 <= j < 768 -> d i <> 0 -> d j <> 0 -> i <> j -> pt_of (d i) <> pt_of (d j)
}.

(** The address of the entry for [va]. *)
Definition entry_at (d : Z -> Z) (va : Z) : Z := pt_of (d (pd_no va)) + 4 * pt_no va.

(** The entries after the one for [va] has been set. *)
Definition set_entry (e : Z -> Z -> Z) (va v : Z) : Z -> Z -> Z := fun i j =>
  if decide (i = pd_no va /\ j = pt_no va) then v else e i j.

Section Pagedir.
Implicit Types (s : mmu) (r : ram) (m : mem).

Lemma on_pages_run {A} (c : M ram A) s a p : c (pages s) = Done (a, p) ->
  on_pages c s = Done (a, mk_mmu p (cr3 s) (init_page_dir s) (init_ram_pages s)).
Proof. intros H. unfold on_pages. by rewrite (obind_done _ _ _ H). Qed.

Lemma same_pages s : mk_mmu (pages s) (cr3 s) (init_page_dir s) (init_ram_pages s) = s.
Proof. by destruct s. Qed.

Lemma rd_run s p v : word_at (bytes (pages s)) p v -> rd p s = Done (v, s).
Proof.
  intros H. unfold rd. erewrite on_pages_run by (apply on_bytes_run, load32_word, H). by destruct s as [[] ?].
Qed.

(** The memory after a word has been stored. *)
Definition put_word (p v : Z) (r : ram) : ram :=
  mk_ram (kernel_pool r) (user_pool r) (stored (bytes r) p (le_bytes v)).
Definition with_pages (r : ram) s : mmu := mk_mmu r (cr3 s) (init_page_dir s) (init_ram_pages s).

Lemma wr_run s p v : mapped (bytes (pages s)) p 4 -> wr p v s = Done (tt, with_pages (put_word p v (pages s)) s).
Proof. intros H. unfold wr. by erewrite on_pages_run by (apply on_bytes_run, store32_run, H). Qed.

Lemma pd_index va : is_user_vaddr va = true -> 0 <= va -> 0 <= pd_no va < 768.
Proof. unfold is_user_vaddr, PHYS_BASE. intros H%Z.ltb_lt Hv. rewrite pd_no_div. dlia. Qed.

Lemma pt_index va : is_user_vaddr va = true -> 0 <= va -> 0 <= pt_no va < 1024.
Proof.
  unfold is_user_vaddr, PHYS_BASE. intros H%Z.ltb_lt Hv. rewrite pt_no_div by (unfold is_u32; lia).
  apply Z.mod_pos_bound. lia.
Qed.

Lemma kernel_page_range r p : ram_ok r -> kernel_page r p ->
  p mod PGSIZE = 0 /\ PHYS_BASE <= p /\ p + PGSIZE <= 2 ^ 32.
Proof.
  intros H (i & Hi & -> & _). split; [by apply page_at_aligned|].
  destruct (ram_pool r false H) as [_ _ Hl Hh _]. unfold page_at, pool_end, pool_size in *.
  assert (PGSIZE = 4096) as E by done. rewrite E in *. lia.
Qed.

Lemma pages_apart p q i j : p mod PGSIZE = 0 -> q mod PGSIZE = 0 -> p <> q -> 0 <= i < 1024 -> 0 <= j < 1024 ->
  p + 4 * i + 4 <= q + 4 * j \/ q + 4 * j + 4 <= p + 4 * i.
Proof. change PGSIZE with 4096. intros. dlia. Qed.

Lemma table_put r p q f i v : p mod PGSIZE = 0 -> q mod PGSIZE = 0 -> p <> q -> 0 <= i < 1024 ->
  table (bytes r) p f -> table (bytes (put_word (q + 4 * i) v r)) p f.
Proof.
  intros Hp Hq Hne Hi Ht j Hj. apply (word_at_frame (bytes r)); [|by apply Ht].
  intros a Ha. apply stored_outside. change (zlen (le_bytes v)) with 4. pose proof (pages_apart p q j i Hp Hq Hne Hj Hi). lia.
Qed.

Lemma table_set r p f i v : 0 <= i < 1024 -> is_u32 v -> table (bytes r) p f ->
  table (bytes (put_word (p + 4 * i) v r)) p (fun j => if decide (j = i) then v else f j).
Proof.
  intros Hi Hv Ht j Hj. case_decide as E; [subst; by apply store32_word|].
  apply (word_at_frame (bytes r)); [|by apply Ht]. intros a Ha. apply stored_outside.
  change (zlen (le_bytes v)) with 4. lia.
Qed.
(** A page-directory entry made for a page table points to it. *)
Lemma pde_roundtrip pt : is_u32 pt -> is_kernel_vaddr pt = true -> pg_ofs pt = 0 ->
  exists w, pde_create pt = Done w /\ is_u32 w /\ w <> 0 /\ pde_get_pt w = Done pt /\ pt_of w = pt.
Proof.
  intros Hp Hk Ho. destruct (vtop_page pt) as (q & Hv & Hq & ->); [done..|].
  destruct (pte_bits q 7 Hq) as [Ha Hf]; [lia|]. exists (q * 2 ^ 12 + 7).
  assert (Z.land (q * 2 ^ 12 + 7) PTE_P = 1) as Hpres.
  { change PTE_P with (2 ^ 1 - 1). rewrite land_low by lia. dlia. }
  split; [|split; [unfold is_u32; lia|split; [lia|]]].
  - unfold pde_create. rewrite Ho, Hv. osimpl. rewrite <- !Z.lor_assoc. f_equal. by apply (lor_low q 12).
  - unfold pde_get_pt, pt_of. rewrite Hpres, Ha. osimpl. by rewrite ptov_frame.
Qed.

Lemma zero_word m p n i : bytes_at m p (replicate n 0) -> 0 <= i -> 4 * i + 4 <= Z.of_nat n -> word_at m (p + 4 * i) 0.
Proof.
  intros H Hi Hn. split; [|done]. apply bytes_at_intro. intros j b Hj.
  assert (j < 4)%nat as Hj4 by (by apply lookup_lt_Some in Hj).
  replace b with 0 by (destruct j as [|[|[|[|]]]]; cbn in Hj; try lia; by injection Hj).
  replace (p + 4 * i + Z.of_nat j) with (p + Z.of_nat (Z.to_nat (4 * i) + j)) by lia.
  apply (bytes_at_lookup m (replicate n 0)); [done|]. apply lookup_replicate_2. lia.
Qed.

Lemma table_frame m m' p f : table m p f -> (forall a, p <= a < p + PGSIZE -> m' !! a = m !! a) -> table m' p f.
Proof.
  intros H E i Hi. apply (word_at_frame m); [|by apply H]. intros a Ha. apply E. change PGSIZE with 4096. lia.
Qed.

(** What allocating a kernel page keeps. *)
Definition user_kept r r' : Prop :=
  user_pool r' = user_pool r /\ forall a, base (user_pool r) <= a -> bytes r' !! a = bytes r !! a.

Lemma user_kept_trans r1 r2 r3 : user_kept r1 r2 -> user_kept r2 r3 -> user_kept r1 r3.
Proof. intros [H1 H2] [H3 H4]. split; [congruence|]. intros a Ha. rewrite H4, H2; [done|done|by rewrite H1]. Qed.

(** A zeroed page from the kernel pool is none of the pages in use. *)
Lemma fresh_table r : ram_ok r ->
  exists p r', palloc_get_page PAL_ZERO r = Done (p, r') /\ ram_ok r' /\
    ((p = NULL /\ r' = r) \/
     (p <> NULL /\ kernel_page r' p /\ table (bytes r') p (fun _ => 0) /\ user_kept r r' /\
      (forall q, kernel_page r q -> q <> p /\ kernel_page r' q) /\
      forall q f, q mod PGSIZE = 0 -> q <> p -> table (bytes r) q f -> table (bytes r') q f)).
Proof.
  intros H. destruct (palloc_get_run r PAL_ZERO 1 H) as (p & r' & Hr & Hok & Hcase); [done|done|].
  change (has PAL_ZERO PAL_USER) with false in *. change (has PAL_ZERO PAL_ZERO) with true in *. cbv zeta iota in Hcase.
  exists p, r'. split; [exact Hr|]. split; [done|].
  destruct Hcase as [(-> & -> & _)|(i & -> & Hi & Hin & Hfree & [Hb Hs Ho Hu] & Hz & Hout)]; [by left|right].
  pose proof (page_at_aligned r false i H) as Hal. assert (PGSIZE = 4096) as Epg by done.
  assert (kernel_page r' (page_at false r i)) as Hk.
  { exists i. rewrite Hs. split; [lia|]. split; [unfold page_at; by rewrite Hb|]. rewrite Hu by done.
    unfold in_range. rewrite (proj2 (Z.leb_le _ _)), (proj2 (Z.ltb_lt _ _)) by lia. done. }
  pose proof (kernel_page_range r' _ Hok Hk) as (_ & Hlow & _). unfold PHYS_BASE in Hlow.
  split; [unfold NULL; lia|]. split; [done|]. split; [|split; [|split]].
  - intros j Hj. apply (zero_word _ _ _ j Hz); [lia|]. rewrite Epg. lia.
  - split; [exact Ho|]. intros a Ha. apply Hout. destruct H as [_ _ Hap]. unfold pool_end, page_at, pool_size in *.
    cbn [get_pool] in *. rewrite Epg in *. lia.
  - intros q (j & Hj & -> & Hused). split.
    + intros E. assert (i = j) as <- by (unfold page_at in E; rewrite Epg in E; lia). rewrite Hfree in Hused by lia. done.
    + exists j. rewrite Hs. split; [done|]. split; [unfold page_at; by rewrite Hb|]. rewrite Hu, Hused by lia. by case_match.
  - intros q f Hq Hne Ht. apply (table_frame (bytes r)); [done|]. intros a Ha. apply Hout. rewrite Epg in *. dlia.
Qed.

Lemma ram_ok_put r q v : ram_ok r -> ram_ok (put_word q v r).
Proof.
  intros [[] [] Ha]. split; [split|split|]; try done; by apply stored_mapped.
Qed.

Lemma user_kept_put r q v : ram_ok r -> kernel_page r q -> forall i, 0 <= i < 1024 -> user_kept r (put_word (q + 4 * i) v r).
Proof.
  intros [_ _ Hap] (k & Hk & -> & _) i Hi. split; [done|]. intros a Ha. apply stored_outside.
  change (zlen (le_bytes v)) with 4. unfold pool_end, page_at, pool_size in *. cbn [get_pool] in *.
  assert (PGSIZE = 4096) as E by done. rewrite E in *. lia.
Qed.

(** Looking an address up. *)
Lemma lookup_page_run s pd va d e : pagedir (pages s) pd d e -> ram_ok (pages s) -> is_user_vaddr va = true -> 0 <= va ->
  lookup_page pd va false s = Done (if d (pd_no va) =? 0 then NULL else entry_at d va, s).
Proof.
  intros [Hpage Ht Ha Hp _] Hok Hu Hv. pose proof (pd_index va Hu Hv) as Hi.
  pose proof (kernel_page_range _ _ Hok Hpage) as (_ & Hlow & _). unfold PHYS_BASE in Hlow.
  unfold lookup_page. unfold NULL at 1. dec. erewrite bind_done by done. cbn [orb negb]. erewrite bind_done by done.
  assert (word_at (bytes (pages s)) (pd + 4 * pd_no va) (d (pd_no va))) as Hw by (apply Ht; lia).
  erewrite bind_done by (by apply rd_run). destruct (Z.eqb_spec (d (pd_no va)) 0) as [|Hne].
  - by erewrite bind_done by done.
  - erewrite bind_done by done. cbn [negb]. erewrite bind_done by (by apply rd_run).
    destruct (Hp _ Hi Hne) as (_ & Hg & _). by erewrite bind_done by (by apply liftO_run).
Qed.

Lemma lookup_page_create s pd va d e : pagedir (pages s) pd d e -> ram_ok (pages s) -> is_user_vaddr va = true -> 0 <= va ->
  exists a s', lookup_page pd va true s = Done (a, s') /\
    ((a = NULL /\ s' = s) \/
     (exists d' r', s' = with_pages r' s /\ a = entry_at d' va /\ d' (pd_no va) <> 0 /\ ram_ok r' /\ pagedir r' pd d' e /\
        user_kept (pages s) r')).
Proof.
  intros Hpd Hok Hu Hv. pose proof Hpd as [Hpage Ht Ha Hp Hap]. pose proof (pd_index va Hu Hv) as Hi.
  pose proof (kernel_page_range _ _ Hok Hpage) as (Hal & Hlow & _). unfold PHYS_BASE in Hlow.
  unfold lookup_page. unfold NULL at 1. dec. erewrite bind_done by done. rewrite Hu. erewrite bind_done by done.
  set (i := pd_no va) in *.
  assert (word_at (bytes (pages s)) (pd + 4 * i) (d i)) as Hw by (apply Ht; lia).
  erewrite bind_done by (by apply rd_run). destruct (Z.eqb_spec (d i) 0) as [Hz|Hne].
  - destruct (fresh_table (pages s) Hok) as (pt & r' & Hr & Hok' & [[-> ->]|(Hne & Hk & Hzt & Hkept & Hq & Hfr)]).
    + exists NULL, s. erewrite bind_done; [|erewrite bind_done by (by apply on_pages_run); by rewrite same_pages].
      split; [done|by left].
    + pose proof (kernel_page_range r' _ Hok' Hk) as (Halt & Hlt & Hht).
      destruct (pde_roundtrip pt) as (w & Hw1 & Hw2 & Hw3 & Hw4 & Hw5).
      { unfold is_u32, PHYS_BASE in *. change PGSIZE with 4096 in *. lia. }
      { by apply Z.leb_le. }
      { by rewrite pg_ofs_mod. }
      assert (table (bytes r') pd d) as Ht' by (apply Hfr; [done|by apply Hq|done]).
      set (r'' := put_word (pd + 4 * i) w r'). set (d' := fun j => if decide (j = i) then w else d j).
      assert (d' i = w) as Edi by (unfold d'; by rewrite decide_True).
      assert (table (bytes r'') pd d') as Ht'' by (apply table_set; [lia|done|done]).
      exists (entry_at d' va), (with_pages r'' s). erewrite bind_done; last first.
      { erewrite bind_done by (by apply on_pages_run). rewrite (proj2 (Z.eqb_neq pt NULL)) by done.
        erewrite bind_done by (by apply liftO_run). erewrite bind_done; [done|]. apply (wr_run (with_pages r' s)).
        eapply word_mapped. apply Ht'. lia. }
      cbn [negb]. erewrite bind_done by (apply rd_run; apply Ht''; lia). rewrite Edi.
      erewrite bind_done by (by apply liftO_run). unfold entry_at. fold i. rewrite Edi, Hw5.
      split; [done|]. right. exists d', r''. split; [done|]. split; [by rewrite Edi, Hw5|]. split; [by rewrite Edi|].
      split; [by apply ram_ok_put|]. split; [split|].
      * by apply Hq.
      * done.
      * intros j k Hj. unfold d'. case_decide; [done|]. by apply Ha.
      * intros j Hj. unfold d'. case_decide as E.
        -- intros _. subst j. rewrite Hw5. split; [done|]. split; [done|]. split; [intros ->; by destruct (Hq pd)|].
           apply table_put; [done|done|intros ->; by destruct (Hq pd)|lia|]. intros k Hk'. rewrite Ha by done. by apply Hzt.
        -- intros Hdj. destruct (Hp j Hj Hdj) as (H1 & H2 & H3 & H4). destruct (kernel_page_range _ _ Hok H1) as (H5 & _ & _).
           split; [by apply Hq|]. split; [done|]. split; [done|]. apply table_put; [done..|lia|]. apply Hfr; [done|by apply Hq|done].
      * intros j k Hj Hk'. unfold d'. do 2 case_decide; [congruence| | |by apply Hap].
        -- intros _ Hdk _ E. rewrite Hw5 in E. destruct (Hp k Hk' Hdk) as (H1 & _). by destruct (Hq _ H1).
        -- intros Hdj _ _ E. rewrite Hw5 in E. destruct (Hp j Hj Hdj) as (H1 & _). by destruct (Hq _ H1).
      * eapply user_kept_trans; [exact Hkept|]. apply user_kept_put; [done|by apply Hq|lia].
  - exists (entry_at d va), s. erewrite bind_done by done. cbn [negb]. erewrite bind_done by (by apply rd_run).
    destruct (Hp _ Hi Hne) as (_ & Hg & _). erewrite bind_done by (by apply liftO_run). split; [done|]. right.
    exists d, (pages s). split; [by destruct s|]. split; [done|]. split; [done|]. split; [done|]. split; [exact Hpd|]. by split.
Qed.

(** Storing an entry. *)
Lemma store_entry r pd d e va v : pagedir r pd d e -> ram_ok r -> is_user_vaddr va = true -> 0 <= va -> d (pd_no va) <> 0 -> is_u32 v ->
  pagedir (put_word (entry_at d va) v r) pd d (set_entry e va v) /\ user_kept r (put_word (entry_at d va) v r).
Proof.
  intros [Hpage Ht Ha Hp Hap] Hok Hu Hv Hne Hv32. pose proof (pd_index va Hu Hv) as Hi. pose proof (pt_index va Hu Hv) as Hj.
  destruct (Hp _ Hi Hne) as (Hk & Hg & Hd & Hti). destruct (kernel_page_range _ _ Hok Hk) as (Hal & _ & _).
  destruct (kernel_page_range _ _ Hok Hpage) as (Halp & _ & _). unfold entry_at. split; [split|].
  - done.
  - by apply table_put.
  - intros i j Hi' Hz. unfold set_entry. rewrite decide_False; [by apply Ha|]. intros [-> _]. done.
  - intros i Hi' Hdi. destruct (Hp _ Hi' Hdi) as (H1 & H2 & H3 & H4). destruct (kernel_page_range _ _ Hok H1) as (H5 & _ & _).
    split; [done|]. split; [done|]. split; [done|]. destruct (decide (i = pd_no va)) as [->|Hii].
    + intros j Hj'. pose proof (table_set r (pt_of (d (pd_no va))) _ (pt_no va) v Hj Hv32 H4 j Hj') as Hw.
      unfold set_entry. cbn beta in Hw. destruct (decide (j = pt_no va)); [by rewrite decide_True|].
      rewrite decide_False; [done|naive_solver].
    + assert (table (bytes r) (pt_of (d i)) (set_entry e va v i)) as H4'.
      { intros j Hj'. unfold set_entry. rewrite decide_False by naive_solver. by apply H4. }
      apply table_put; [done|done| |lia|done]. apply Hap; done.
  - done.
  - by apply user_kept_put.
Qed.
(** The kernel address that the entry [w] gives the address [va]. *)
Definition entry_page (w va : Z) : outcome Z :=
  if negb (Z.land w PTE_P =? 0) then page ← pte_get_page w; mret (page + pg_ofs va) else mret NULL.

Lemma entry_word r pd d e va : pagedir r pd d e -> is_user_vaddr va = true -> 0 <= va -> d (pd_no va) <> 0 ->
  word_at (bytes r) (entry_at d va) (e (pd_no va) (pt_no va)).
Proof.
  intros [_ _ _ Hp _] Hu Hv Hne. destruct (Hp _ (pd_index va Hu Hv) Hne) as (_ & _ & _ & H4).
  apply H4, pt_index; done.
Qed.

Lemma entry_nonnull r pd d e va : pagedir r pd d e -> ram_ok r -> is_user_vaddr va = true -> 0 <= va -> d (pd_no va) <> 0 ->
  entry_at d va <> NULL.
Proof.
  intros [_ _ _ Hp _] Hok Hu Hv Hne. destruct (Hp _ (pd_index va Hu Hv) Hne) as (H1 & _).
  destruct (kernel_page_range _ _ Hok H1) as (_ & Hl & _). pose proof (pt_index va Hu Hv).
  unfold entry_at, NULL, PHYS_BASE in *. lia.
Qed.

Lemma get_page_run s pd d e va : pagedir (pages s) pd d e -> ram_ok (pages s) -> is_user_vaddr va = true -> 0 <= va ->
  pagedir_get_page pd va s = liftO (entry_page (e (pd_no va) (pt_no va)) va) s.
Proof.
  intros Hpd Hok Hu Hv. unfold pagedir_get_page. rewrite Hu. erewrite bind_done by done.
  erewrite bind_done by (by eapply lookup_page_run). destruct (Z.eqb_spec (d (pd_no va)) 0) as [Hz|Hne].
  - pose proof (pd_absent _ _ _ _ Hpd (pd_no va) (pt_no va) (pd_index va Hu Hv) Hz) as ->. done.
  - rewrite (proj2 (Z.eqb_neq _ NULL)) by (by apply (entry_nonnull (pages s) pd d e)).
    erewrite bind_done by (by eapply rd_run, entry_word). unfold entry_page. case_match; [|done].
    unfold bnd, mbind, M_bind, outcome_bind, liftO. by destruct (pte_get_page _).
Qed.

Definition page_ok (s : mmu) (kpage : Z) : Prop :=
  is_u32 kpage /\ is_kernel_vaddr kpage = true /\ pg_ofs kpage = 0 /\ (kpage - PHYS_BASE) / PGSIZE < init_ram_pages s.

Lemma same_page va upage : is_user_vaddr va = true -> is_user_vaddr upage = true -> 0 <= va -> 0 <= upage ->
  (pd_no va = pd_no upage /\ pt_no va = pt_no upage) <-> va / PGSIZE = upage / PGSIZE.
Proof.
  unfold is_user_vaddr, PHYS_BASE. intros H1%Z.ltb_lt H2%Z.ltb_lt H3 H4.
  rewrite !pd_no_div, !pt_no_div by (unfold is_u32; lia). change PGSIZE with 4096. split; [intros [E1 E2]; dlia|].
  intros E. replace (2 ^ 22) with (4096 * 2 ^ 10) by done. rewrite <- !Z.div_div by done.
  change (2 ^ 12) with 4096. by rewrite E.
Qed.

(** Adding a page to a page directory either fails for want of memory and
    changes nothing, or makes every address of the page translate to the frame's
    address with the same offset, and leaves the translation of every other
    address as it was. *)
Theorem pagedir_set_page_correct s pd d e upage kpage writable :
  pagedir (pages s) pd d e -> ram_ok (pages s) -> pd <> init_page_dir s ->
  is_user_vaddr upage = true -> 0 <= upage -> pg_ofs upage = 0 -> page_ok s kpage ->
  Z.land (e (pd_no upage) (pt_no upage)) PTE_P = 0 ->
  exists ok s', pagedir_set_page pd upage kpage writable s = Done (ok, s') /\
    ((ok = false /\ s' = s) \/
     (ok = true /\ ram_ok (pages s') /\ user_kept (pages s) (pages s') /\
      (exists d' w, pagedir (pages s') pd d' (set_entry e upage w) /\ pte_create_user kpage writable = Done w) /\
      forall va, is_user_vaddr va = true -> 0 <= va ->
        if decide (va / PGSIZE = upage / PGSIZE) then pagedir_get_page pd va s' = Done (kpage + pg_ofs va, s')
        else exists o, pagedir_get_page pd va s = liftO o s /\ pagedir_get_page pd va s' = liftO o s')).
Proof.
  intros Hpd Hok Hinit Hu Hv Ho (Hk1 & Hk2 & Hk3 & Hk4) Hfree. unfold pagedir_set_page.
  rewrite Ho, Hk3, Hu. do 3 (erewrite bind_done by done).
  erewrite bind_done by (apply liftO_run, (ptov_vtop kpage Hk1 Hk2)). erewrite bind_done by done.
  rewrite Z.shiftr_div_pow2 by done. change (2 ^ PTSHIFT) with PGSIZE. dec. erewrite bind_done by done.
  erewrite bind_done by done. dec. erewrite bind_done by done.
  destruct (lookup_page_create s pd upage d e) as (a & s' & Hl & [[-> ->]|(d' & r' & -> & -> & Hne & Hok' & Hpd' & Hkept)]); [done..| |].
  - exists false, s. erewrite bind_done by exact Hl. split; [done|by left].
  - erewrite bind_done by exact Hl. rewrite (proj2 (Z.eqb_neq _ NULL)) by (by apply (entry_nonnull r' pd d' e)).
    pose proof (entry_word r' pd d' e upage Hpd' Hu Hv Hne) as Hw. cbn [negb].
    erewrite bind_done by (by apply rd_run). rewrite Hfree. erewrite bind_done by done.
    destruct (pte_user_roundtrip_run kpage writable) as (w & Hw1 & Hw2 & Hw3 & Hw4); [done..|].
    erewrite bind_done by (by apply liftO_run).
    erewrite bind_done by (apply wr_run; by eapply word_mapped). eexists true, _. split; [done|]. right. split; [done|].
    destruct (store_entry r' pd d' e upage w) as [Hpd'' Hkept'']; [done..|].
    assert (ram_ok (put_word (entry_at d' upage) w r')) as Hok'' by by apply ram_ok_put.
    split; [done|]. split; [by eapply user_kept_trans|]. split; [by exists d', w|].
    intros va Hva Hva0. rewrite (get_page_run _ pd d' (set_entry e upage w)) by done.
    pose proof (same_page va upage Hva Hu Hva0 Hv) as Hsame. unfold set_entry. case_decide as Hd.
    + rewrite decide_True by by apply Hsame. unfold entry_page. rewrite Hw4. cbn [negb].
      by rewrite (obind_done _ _ _ Hw3).
    + rewrite decide_False by (intros E; by apply Hd, Hsame). eexists. split; [by apply get_page_run with d|done].
Qed.
(** The register holds the address of a page directory. *)
Definition cr3_ok (s : mmu) : Prop := 0 <= cr3 s < 2 ^ 30.

Lemma invalidate_run s pd : cr3_ok s -> is_u32 pd -> is_kernel_vaddr pd = true -> pd <> NULL ->
  exists c, invalidate_pagedir pd s = Done (tt, mk_mmu (pages s) c (init_page_dir s) (init_ram_pages s)) /\ 0 <= c < 2 ^ 30.
Proof.
  intros Hc Hp Hk Hn. unfold invalidate_pagedir, active_pd, cr3_ok in *.
  erewrite bind_done; [|erewrite bind_done by done; apply liftO_run; unfold ptov, PHYS_BASE; rewrite (proj2 (Z.ltb_lt _ _)) by lia; done].
  case_match; [|exists (cr3 s); by destruct s].
  exists (pd - PHYS_BASE). unfold pagedir_activate. erewrite bind_done by done. rewrite (proj2 (Z.eqb_neq _ _) Hn).
  erewrite bind_done by (apply liftO_run, (ptov_vtop pd Hp Hk)). split; [done|].
  unfold is_kernel_vaddr, PHYS_BASE, is_u32 in *. bool_to_prop. lia.
Qed.

Lemma clear_bit w : is_u32 w -> is_u32 (Z.land w (not32 PTE_P)) /\ Z.land (Z.land w (not32 PTE_P)) PTE_P = 0.
Proof.
  intros Hw. change (not32 PTE_P) with (2 ^ 32 - 2 ^ 1). rewrite land_high by (unfold is_u32 in *; lia).
  change PTE_P with (2 ^ 1 - 1). rewrite land_low by lia. unfold is_u32 in *. split; dlia.
Qed.

(** Clearing a page makes every address of it translate to NULL and leaves
    the translation of every other address. *)
Theorem pagedir_clear_page_correct s pd d e upage :
  pagedir (pages s) pd d e -> ram_ok (pages s) -> cr3_ok s -> is_user_vaddr upage = true -> 0 <= upage -> pg_ofs upage = 0 ->
  exists s', pagedir_clear_page pd upage s = Done (tt, s') /\ ram_ok (pages s') /\
    forall va, is_user_vaddr va = true -> 0 <= va ->
      if decide (va / PGSIZE = upage / PGSIZE) then pagedir_get_page pd va s' = Done (NULL, s')
      else exists o, pagedir_get_page pd va s = liftO o s /\ pagedir_get_page pd va s' = liftO o s'.
Proof.
  intros Hpd Hok Hc Hu Hv Ho. unfold pagedir_clear_page. rewrite Ho, Hu. do 2 (erewrite bind_done by done).
  erewrite bind_done by (by eapply lookup_page_run).
  assert (Z.land (e (pd_no upage) (pt_no upage)) PTE_P = 0 -> forall va, is_user_vaddr va = true -> 0 <= va ->
    if decide (va / PGSIZE = upage / PGSIZE) then pagedir_get_page pd va s = Done (NULL, s)
    else exists o, pagedir_get_page pd va s = liftO o s /\ pagedir_get_page pd va s = liftO o s) as Hsame.
  { intros Hz va Hva Hva0. rewrite (get_page_run s pd d e) by done. case_decide as Hd; [|by eexists].
    apply same_page in Hd as [-> ->]; [|done..]. unfold entry_page. by rewrite Hz. }
  destruct (Z.eqb_spec (d (pd_no upage)) 0) as [Hz|Hne].
  { exists s. split; [done|]. split; [done|]. apply Hsame.
    by rewrite (pd_absent _ _ _ _ Hpd (pd_no upage) (pt_no upage) (pd_index upage Hu Hv) Hz). }
  rewrite (proj2 (Z.eqb_neq _ NULL)) by (by apply (entry_nonnull (pages s) pd d e)).
  pose proof (entry_word (pages s) pd d e upage Hpd Hu Hv Hne) as Hw. erewrite bind_done by (by apply rd_run).
  set (w := e (pd_no upage) (pt_no upage)) in *. destruct (Z.eqb_spec (Z.land w PTE_P) 0) as [Hz|Hp]; cbn [negb].
  { exists s. split; [done|]. split; [done|]. by apply Hsame. }
  destruct (clear_bit w (proj2 Hw)) as [Hw' Hz']. erewrite bind_done by (apply wr_run; by eapply word_mapped).
  destruct (store_entry (pages s) pd d e upage _ Hpd Hok Hu Hv Hne Hw') as [Hpd' _].
  pose proof (kernel_page_range _ _ Hok (pd_page _ _ _ _ Hpd)) as (Hal & Hl & Hh).
  destruct (invalidate_run (with_pages (put_word (entry_at d upage) (Z.land w (not32 PTE_P)) (pages s)) s) pd) as (c & Hinv & _).
  { done. }
  { unfold is_u32, PHYS_BASE in *. change PGSIZE with 4096 in *. lia. }
  { by apply Z.leb_le. }
  { unfold NULL, PHYS_BASE in *. lia. }
  eexists. split; [exact Hinv|]. split; [by apply ram_ok_put|]. intros va Hva Hva0.
  rewrite (get_page_run _ pd d (set_entry e upage (Z.land w (not32 PTE_P)))) by (done || by apply ram_ok_put).
  pose proof (same_page va upage Hva Hu Hva0 Hv) as Hs. unfold set_entry. case_decide as Hd.
  - rewrite decide_True by by apply Hs. unfold entry_page. by rewrite Hz'.
  - rewrite decide_False by (intros E; by apply Hd, Hs). eexists. split; [by apply get_page_run with d|done].
Qed.
End Pagedir.

(** ** An empty page directory in the memory of Palloc's example *)

Definition demo_mmu : mmu := mk_mmu (demo_ram 1 demo_bytes) 0x1000 0xc0001000 5.

Lemma demo_pagedir : pagedir (pages demo_mmu) 0xc0000000 (fun _ => 0) (fun _ _ => 0).
Proof.
  split.
  - by exists 0.
  - intros i Hi. apply (zero_word _ _ 20480); [exact demo_bytes_zero|lia|].
    assert (Z.of_nat 20480 = 20480) as -> by (vm_compute; reflexivity). lia.
  - intros. reflexivity.
  - intros i _ H. by destruct H.
  - intros i j _ _ H. by destruct H.
Qed.

Lemma pagedir_set_page_correct_witness : exists ok s',
  pagedir_set_page 0xc0000000 0x8048000 0xc0003000 true demo_mmu = Done (ok, s').
Proof.
  destruct (pagedir_set_page_correct demo_mmu 0xc0000000 _ _ 0x8048000 0xc0003000 true demo_pagedir) as (ok & s' & H & _);
    [exact (demo_ram_ok _ _ demo_bytes_mapped)|done|reflexivity|done|reflexivity|by_decide|reflexivity|].
  exists ok, s'. exact H.
Defined.

Lemma pagedir_clear_page_correct_witness : exists s', pagedir_clear_page 0xc0000000 0x8048000 demo_mmu = Done (tt, s').
Proof.
  destruct (pagedir_clear_page_correct demo_mmu 0xc0000000 _ _ 0x8048000 demo_pagedir) as (s' & H & _);
    [exact (demo_ram_ok _ _ demo_bytes_mapped)|by_decide|reflexivity|done|reflexivity|].
  exists s'. exact H.
Defined.
