(* ===== verification/PagedirFree.v ===== *)
(** * userprog/pagedir.c: destroying a page directory

    pagedir_destroy gives back every page that the directory reaches, and no other:
    its user pages, its page tables and itself. *)

From S2P Require Import Prelude Vaddr Bitmap Mem CString Palloc Pagedir.

(** Page [p] is page [i] of a pool, in use. *)
Definition pool_page_of (r : ram) (p : Z) : Prop :=
  exists u i, 0 <= i < pool_size u r /\ p = page_at u r i /\ used u r i = true.

(** [r'] is [r] after the pages of [F] have been freed. *)
Record released (F : Z -> Prop) (r r' : ram) : Prop := {
  rl_ok : ram_ok r';
  rl_size : forall u, pool_size u r' = pool_size u r;
  rl_base : forall u, base (get_pool u r') = base (get_pool u r);
  rl_used : forall u i, 0 <= i < pool_size u r ->
    used u r' i = true <-> used u r i = true /\ ~ F (page_at u r i);
  rl_bytes : forall a, (forall p, F p -> ~ (p <= a < p + PGSIZE)) -> bytes r' !! a = bytes r !! a
}.

(** The entry for page [j] of page table [i] maps a page. *)
Definition maps (d : Z -> Z) (e : Z -> Z -> Z) (i j : Z) : Prop :=
  0 <= i < 768 /\ 0 <= j < 1024 /\ d i <> 0 /\ Z.land (e i j) PTE_P <> 0.

(** The kernel address of that page. *)
Definition frame_at (e : Z -> Z -> Z) (i j : Z) : Z := Z.land (e i j) PTE_ADDR + PHYS_BASE.

(** The user pages of the directory: pages of the user pool, in use, each mapped once. *)
Record user_frames (r : ram) (d : Z -> Z) (e : Z -> Z -> Z) : Prop := {
  uf_page : forall i j, maps d e i j -> pte_get_page (e i j) = Done (frame_at e i j) /\
    exists k, 0 <= k < pool_size true r /\ frame_at e i j = page_at true r k /\ used true r k = true;
  uf_once : forall i j i' j', maps d e i j -> maps d e i' j' -> frame_at e i j = frame_at e i' j' -> i = i' /\ j = j'
}.

(** The pages the directory reaches, up to entry [n] of the directory and entry [m]
    of the page table there. *)
Definition reached (d : Z -> Z) (e : Z -> Z -> Z) (n m : Z) (p : Z) : Prop :=
  (exists i, 0 <= i < n /\ i < 768 /\ d i <> 0 /\ p = pt_of (d i)) \/
  (exists i j, maps d e i j /\ (i < n \/ i = n /\ j < m) /\ p = frame_at e i j).

Section Destroy.
Context (r : ram) (Hr : ram_ok r).

Lemma released_none : released (fun _ => False) r r.
Proof. split; try done. intros u i Hi. naive_solver. Qed.

Lemma released_iff F G r' : (forall p, F p <-> G p) -> released F r r' -> released G r r'.
Proof.
  intros E [H1 H2 H3 H4 H5]. split; try done.
  - intros u i Hi. rewrite <- E. by apply H4.
  - intros a Ha. apply H5. intros p Hp. apply Ha. by apply E.
Qed.

(** Pages of the pools are apart. *)
Lemma page_at_inj u i u' i' : 0 <= i < pool_size u r -> 0 <= i' < pool_size u' r -> page_at u r i = page_at u' r i' -> u = u' /\ i = i'.
Proof.
  unfold page_at, pool_size. intros Hi Hi' E. pose proof (ram_apart r Hr) as Ha. unfold pool_end in Ha.
  assert (PGSIZE = 4096) as Epg by done. rewrite Epg in *. destruct u, u'; cbn [get_pool] in *; split; try done; lia.
Qed.

Lemma page_range_apart p q a : pool_page_of r p -> pool_page_of r q -> p <> q -> p <= a < p + PGSIZE -> ~ (q <= a < q + PGSIZE).
Proof.
  intros (u & i & Hi & -> & _) (u' & i' & Hi' & -> & _) Hne.
  pose proof (page_at_aligned r u i Hr) as H1. pose proof (page_at_aligned r u' i' Hr) as H2.
  change PGSIZE with 4096 in *. dlia.
Qed.

Lemma free_one F r' p : released F r r' -> pool_page_of r p -> ~ F p ->
  exists r'', palloc_free_page p r' = Done (tt, r'') /\ released (fun q => F q \/ q = p) r r''.
Proof.
  intros [Hok Hsize Hbase Hused Hbytes] (u & i & Hi & -> & Hu) HF.
  assert (page_at u r i = page_at u r' i) as Epage by (unfold page_at; by rewrite Hbase).
  destruct (palloc_free_run r' u i 1 Hok) as [Hrun _]; [lia|done|rewrite Hsize; lia|].
  destruct Hrun as (r'' & Hrun & Hok'' & [Mb Ms Mo Mu] & Hb).
  { intros j Hj. assert (j = i) as -> by lia. by apply Hused. }
  exists r''. unfold palloc_free_page. rewrite Epage, Hrun. split; [done|]. rewrite <- Epage. split; [exact Hok''| | | |].
  - intros v. rewrite Ms. apply Hsize.
  - intros v. rewrite Mb. apply Hbase.
  - clear Hrun Hb Hbytes. intros v j Hj. destruct (decide (v = u)) as [->|Hv].
    + rewrite Mu by lia. unfold in_range. destruct (decide (j = i)) as [->|Hji].
      * rewrite (proj2 (Z.leb_le i i)), (proj2 (Z.ltb_lt i (i + 1))) by lia. cbn. split; [done|]. intros [_ Hn]. destruct Hn. by right.
      * replace ((i <=? j) && (j <? i + 1)) with false by (symmetry; apply andb_false_iff; rewrite Z.leb_gt, Z.ltb_ge; lia).
        rewrite Hused by done. split; [intros [H1 H2]; split; [exact H1|]; intros [HF'|E]; [exact (H2 HF')|]|intros [H1 H2]; split; [exact H1|]; intros HF'; apply H2; by left].
        apply page_at_inj in E as [_ ->]; [exact (Hji eq_refl)|exact Hj|exact Hi].
    + assert (v = negb u) as -> by (destruct u, v; done). unfold used. rewrite Mo. fold (used (negb u) r' j).
      rewrite Hused by done. split; [intros [H1 H2]; split; [exact H1|]; intros [HF'|E]; [exact (H2 HF')|]|intros [H1 H2]; split; [exact H1|]; intros HF'; apply H2; by left].
      apply page_at_inj in E as [E _]; [by destruct u|exact Hj|exact Hi].
  - intros a Ha. rewrite Hb. unfold freed. rewrite stored_outside.
    + apply Hbytes. intros p Hp. apply Ha. by left.
    + rewrite <- Epage. intros Hin. apply (Ha (page_at u r i)); [by right|]. 
      unfold zlen in Hin. rewrite length_replicate in Hin. change (Z.of_nat (Z.to_nat (PGSIZE * 1))) with PGSIZE in Hin. lia.
Qed.
End Destroy.

Section Directory.
Context (s : mmu) (pd : Z) (d : Z -> Z) (e : Z -> Z -> Z).
Abbreviation r := (pages s).
Context (Hpd : pagedir r pd d e) (Hr : ram_ok r) (Huf : user_frames r d e).

Lemma kernel_pool_page p : kernel_page r p -> pool_page_of r p.
Proof. intros (i & Hi & -> & Hu). by exists false, i. Qed.

Lemma frame_pool_page i j : maps d e i j -> pool_page_of r (frame_at e i j).
Proof. intros Hm. destruct (uf_page _ _ _ Huf i j Hm) as (_ & k & Hk & E & Hu). by exists true, k. Qed.

Lemma frame_not_kernel i j p : maps d e i j -> kernel_page r p -> frame_at e i j <> p.
Proof.
  intros Hm (i' & Hi' & -> & _) E. destruct (uf_page _ _ _ Huf i j Hm) as (_ & k & Hk & E' & _). rewrite E' in E.
  by apply (page_at_inj r Hr) in E as [? _].
Qed.

Lemma table_page i : 0 <= i < 768 -> d i <> 0 -> kernel_page r (pt_of (d i)).
Proof. intros Hi Hd. apply (pd_present _ _ _ _ Hpd i Hi Hd). Qed.

Lemma reached_page n m p : reached d e n m p -> pool_page_of r p.
Proof.
  intros [(i & Hi & Hi' & Hd & ->)|(i & j & Hm & _ & ->)]; [apply kernel_pool_page, table_page; [lia|done]|by apply frame_pool_page].
Qed.

(** The directory and the tables still to be visited have not been freed. *)
Lemma not_reached_pd n m : ~ reached d e n m pd.
Proof.
  intros [(i & Hi & Hi' & Hd & E)|(i & j & Hm & _ & E)].
  - destruct (pd_present _ _ _ _ Hpd i) as (_ & _ & Hne & _); [lia|done|]. congruence.
  - symmetry in E. revert E. apply frame_not_kernel; [done|]. apply (pd_page _ _ _ _ Hpd).
Qed.

Lemma not_reached_table n m i : n <= i < 768 -> 0 <= i -> d i <> 0 -> ~ reached d e n m (pt_of (d i)).
Proof.
  intros Hi H0 Hd [(i' & Hi' & Hi'' & Hd' & E)|(i' & j & Hm & _ & E)].
  - revert E. apply (pd_apart _ _ _ _ Hpd); [lia|lia|done|done|lia].
  - symmetry in E. revert E. apply frame_not_kernel; [done|]. apply table_page; [lia|done].
Qed.

Lemma not_reached_frame n m : maps d e n m -> ~ reached d e n m (frame_at e n m).
Proof.
  intros Hm [(i & Hi & Hi' & Hd & E)|(i & j & Hm' & Hlt & E)].
  - revert E. apply frame_not_kernel; [done|]. apply table_page; [lia|done].
  - apply (uf_once _ _ _ Huf) in E; [|done|done]. lia.
Qed.

Lemma word_kept n m r' p v i : released (reached d e n m) r r' -> kernel_page r p -> ~ reached d e n m p -> 0 <= i < 1024 ->
  word_at (bytes r) (p + 4 * i) v -> word_at (bytes r') (p + 4 * i) v.
Proof.
  intros [_ _ _ _ Hb] Hk Hn Hi. apply word_at_frame. intros a Ha. apply Hb. intros q Hq.
  apply (page_range_apart r Hr p q a); [by apply kernel_pool_page|by eapply reached_page|by intros ->|].
  change PGSIZE with 4096. lia.
Qed.

Abbreviation at_ n m := (fun s' => exists r', s' = with_pages r' s /\ released (reached d e n m) r r').

Lemma free_step n m r' p n' m' : released (reached d e n m) r r' -> pool_page_of r p -> ~ reached d e n m p ->
  (forall q, reached d e n' m' q <-> reached d e n m q \/ q = p) ->
  exists s', on_pages (palloc_free_page p) (with_pages r' s) = Done (tt, s') /\ at_ n' m' s'.
Proof.
  intros Hrel Hp Hn Hiff. destruct (free_one r Hr _ r' p Hrel Hp Hn) as (r'' & Hrun & Hrel').
  exists (with_pages r'' s). split; [exact (on_pages_run (palloc_free_page p) (with_pages r' s) tt r'' Hrun)|]. exists r''. split; [done|].
  eapply released_iff; [|exact Hrel']. intros q. symmetry. apply Hiff.
Qed.

Lemma maps_flag n m : 0 <= n < 768 -> 0 <= m < 1024 -> d n <> 0 -> (Z.land (e n m) PTE_P =? 0) = false -> maps d e n m.
Proof. intros Hn Hm Hd Hp%Z.eqb_neq. done. Qed.

Lemma reached_skip n m q : ~ maps d e n m -> reached d e n (m + 1) q <-> reached d e n m q.
Proof.
  intros Hno. split; (intros [Ht|(i & j & Hm & Hlt & E)]; [by left|right; exists i, j; split; [done|]; split; [|done]]).
  - destruct Hlt as [|[-> Hj]]; [by left|right; split; [done|]]. destruct (decide (j = m)) as [->|]; [done|lia].
  - lia.
Qed.

Lemma reached_next n m q : maps d e n m -> reached d e n (m + 1) q <-> reached d e n m q \/ q = frame_at e n m.
Proof.
  intros Hm. split.
  - intros [Ht|(i & j & Hm' & Hlt & E)]; [by left; left|]. destruct (decide (i = n /\ j = m)) as [[-> ->]|]; [by right|].
    left. right. exists i, j. split; [done|]. split; [lia|done].
  - intros [[Ht|(i & j & Hm' & Hlt & E)]| ->]; [by left|right; exists i, j; split; [done|]; split; [lia|done]|].
    right. exists n, m. split; [done|]. split; [lia|done].
Qed.

(** One page of a page table. *)
Lemma free_entry n m s' : 0 <= n < 768 -> 0 <= m < 1024 -> d n <> 0 -> at_ n m s' ->
  exists s'', (pte ← rd (pt_of (d n) + 4 * m);
    if negb (Z.land pte PTE_P =? 0) then page ← liftO (pte_get_page pte); on_pages (palloc_free_page page) else mret tt) s' =
      Done (tt, s'') /\ at_ n (m + 1) s''.
Proof.
  intros Hn Hm Hd (r' & -> & Hrel). destruct (pd_present _ _ _ _ Hpd n Hn Hd) as (Hk & _ & _ & Ht).
  erewrite bind_done.
  2: { apply rd_run. apply (word_kept n m); [done|done|apply not_reached_table; [lia|lia|done]|done|by apply Ht]. }
  destruct (Z.land (e n m) PTE_P =? 0) eqn:Hp; cbn [negb].
  - eexists. split; [done|]. exists r'. split; [done|]. eapply released_iff; [|exact Hrel]. intros q. symmetry. apply reached_skip.
    intros (_ & _ & _ & Hne). apply Z.eqb_eq in Hp. done.
  - pose proof (maps_flag n m Hn Hm Hd Hp) as Hmaps. destruct (uf_page _ _ _ Huf n m Hmaps) as [Hg _].
    erewrite bind_done by (by apply liftO_run).
    apply (free_step n m r' (frame_at e n m)); [done|by apply frame_pool_page|by apply not_reached_frame|].
    intros q. by apply reached_next.
Qed.

Lemma reached_table n q : 0 <= n < 768 -> d n <> 0 -> reached d e (n + 1) 0 q <-> reached d e n 1024 q \/ q = pt_of (d n).
Proof.
  intros Hn Hd. split.
  - intros [(i & Hi & Hi' & Hdi & E)|(i & j & Hm & Hlt & E)].
    + destruct (decide (i = n)) as [->|]; [by right|]. left. left. exists i. split; [lia|done].
    + left. right. exists i, j. split; [done|]. split; [|done]. destruct Hm as (_ & Hj & _). lia.
  - intros [[(i & Hi & Hi' & Hdi & E)|(i & j & Hm & Hlt & E)]| ->].
    + left. exists i. split; [lia|done].
    + right. exists i, j. split; [done|]. split; [|done]. lia.
    + left. exists n. split; [lia|]. split; [lia|done].
Qed.

Lemma reached_no_table n q : d n = 0 -> reached d e (n + 1) 0 q <-> reached d e n 0 q.
Proof.
  intros Hd. split.
  - intros [(i & Hi & Hi' & Hdi & E)|(i & j & Hm & Hlt & E)].
    + destruct (decide (i = n)) as [->|]; [done|]. left. exists i. split; [lia|done].
    + right. exists i, j. split; [done|]. split; [|done]. destruct Hm as (_ & Hj & Hdi & _).
      destruct (decide (i = n)) as [->|]; [done|lia].
  - intros [(i & Hi & Hi' & Hdi & E)|(i & j & Hm & Hlt & E)].
    + left. exists i. split; [lia|done].
    + right. exists i, j. split; [done|]. split; [|done]. lia.
Qed.

(** One entry of the directory. *)
Lemma free_table n s' : 0 <= n < 768 -> at_ n 0 s' ->
  exists s'', (pde ← rd (pd + 4 * n);
      if negb (Z.land pde PTE_P =? 0) then
        pt ← liftO (pde_get_pt pde);
        for_z (PGSIZE / 4) (fun j =>
          pte ← rd (pt + 4 * j);
          if negb (Z.land pte PTE_P =? 0) then
            page ← liftO (pte_get_page pte); on_pages (palloc_free_page page)
          else mret tt) ;;
        on_pages (palloc_free_page pt)
      else mret tt) s' = Done (tt, s'') /\ at_ (n + 1) 0 s''.
Proof.
  intros Hn (r' & -> & Hrel). pose proof Hpd as [Hpage Ht Ha Hp Hap].
  erewrite bind_done.
  2: { apply rd_run. apply (word_kept n 0); [done|done|apply not_reached_pd|lia|apply Ht; lia]. }
  destruct (decide (d n = 0)) as [Hz|Hd].
  - rewrite Hz. change (Z.land 0 PTE_P =? 0) with true. cbn [negb]. eexists. split; [done|]. exists r'. split; [done|].
    eapply released_iff; [|exact Hrel]. intros q. symmetry. by apply reached_no_table.
  - destruct (Hp n Hn Hd) as (Hk & Hg & _).
    assert ((Z.land (d n) PTE_P =? 0) = false) as ->.
    { unfold pde_get_pt in Hg. destruct (Z.land (d n) PTE_P =? 0); done. }
    cbn [negb]. erewrite bind_done by (by apply liftO_run).
    destruct (for_from_inv (fun m s1 => at_ n m s1) (fun j =>
          pte ← rd (pt_of (d n) + 4 * j);
          if negb (Z.land pte PTE_P =? 0) then
            page ← liftO (pte_get_page pte); on_pages (palloc_free_page page)
          else mret tt) (Z.to_nat 1024) 0 (with_pages r' s)) as (s1 & Hrun & (r1 & -> & Hrel1)); [by exists r'| |].
    { intros j s1 Hj Hat. apply free_entry; [done|lia|done|done]. }
    erewrite bind_done by exact Hrun. change (0 + Z.of_nat (Z.to_nat 1024)) with 1024 in Hrel1.
    apply (free_step n 1024 r1 (pt_of (d n))); [done|by apply kernel_pool_page|apply not_reached_table; [lia|lia|done]|].
    intros q. by apply reached_table.
Qed.

Lemma pagedir_destroy_run : pd <> init_page_dir s ->
  exists s', pagedir_destroy pd s = Done (tt, s') /\ ram_ok (pages s') /\
    forall u i, 0 <= i < pool_size u r -> used u (pages s') i = true <->
      used u r i = true /\ ~ (page_at u r i = pd \/ reached d e 768 0 (page_at u r i)).
Proof.
  intros Hinit. pose proof Hpd as [Hpage _ _ _ _]. destruct (kernel_page_range _ _ Hr Hpage) as (_ & Hl & _).
  unfold pagedir_destroy. rewrite (proj2 (Z.eqb_neq pd NULL)) by (unfold NULL, PHYS_BASE in *; lia).
  erewrite bind_done by done. rewrite (proj2 (Z.eqb_neq _ _) Hinit). erewrite bind_done by done.
  destruct (for_from_inv (fun n s1 => at_ n 0 s1) (fun i =>
      pde ← rd (pd + 4 * i);
      if negb (Z.land pde PTE_P =? 0) then
        pt ← liftO (pde_get_pt pde);
        for_z (PGSIZE / 4) (fun j =>
          pte ← rd (pt + 4 * j);
          if negb (Z.land pte PTE_P =? 0) then
            page ← liftO (pte_get_page pte); on_pages (palloc_free_page page)
          else mret tt) ;;
        on_pages (palloc_free_page pt)
      else mret tt) (Z.to_nat 768) 0 s) as (s1 & Hrun & (r1 & -> & Hrel)).
  { exists r. split; [by destruct s|]. eapply released_iff; [|apply released_none, Hr].
    intros q. split; [done|]. intros [(i & Hi & _)|(i & j & Hm & Hlt & _)]; [lia|]. destruct Hm as (? & ? & _). lia. }
  { intros j s1 Hj Hat. apply free_table; [lia|done]. }
  erewrite bind_done by exact Hrun. change (0 + Z.of_nat (Z.to_nat 768)) with 768 in Hrel.
  destruct (free_one r Hr _ r1 pd Hrel) as (r2 & Hrun2 & [Hok _ _ Hu _]); [by apply kernel_pool_page|apply not_reached_pd|].
  exists (with_pages r2 s). split; [exact (on_pages_run (palloc_free_page pd) (with_pages r1 s) tt r2 Hrun2)|]. split; [done|].
  intros u i Hi. rewrite (Hu u i Hi). split; intros [H1 H2]; (split; [exact H1|]); intros [E|E]; apply H2; [by right|by left|by right|by left].
Qed.

(** C13: Destroying a page directory always succeeds and leaks nothing: a page of
    the pools is in use afterwards exactly if it was before and is none of the
    directory, its page tables and the user pages they map. *)
Theorem pagedir_destroy_correct : pd <> init_page_dir s ->
  exists s', pagedir_destroy pd s = Done (tt, s') /\ ram_ok (pages s') /\
    forall u i, 0 <= i < pool_size u r -> used u (pages s') i = true <->
      used u r i = true /\ ~ (page_at u r i = pd \/ reached d e 768 0 (page_at u r i)).
Proof. apply pagedir_destroy_run. Qed.
End Directory.
