(* ===== verification/Paging.v ===== *)
(** * threads/init.c: the kernel's page tables

    paging_init builds the page directory all others are copies of.  [walk] is the
    translation of an address by the processor: what page tables mean; [free_pages]
    counts the pages there are for the tables. *)

From S2P Require Import Prelude Vaddr Bitmap Mem CString Palloc Pagedir.

Section Paging.
Context (start end_kernel_text : Z).

(** The loop; [pt] is the page table of the last page. *)
Fixpoint paging_loop (n : nat) (page pd pt : Z) : M mmu unit :=
  match n with
  | O => mret tt
  | S n =>
      let paddr := u32 (page * PGSIZE) in
      vaddr ← liftO (ptov paddr);
      let pde_idx := pd_no vaddr in
      let pte_idx := pt_no vaddr in
      let in_kernel_text := (start <=? vaddr) && (vaddr <? end_kernel_text) in
      pde ← rd (pd + 4 * pde_idx);
      pt ← (if pde =? 0 then
              pt ← on_pages (palloc_get_page (Z.lor PAL_ASSERT PAL_ZERO));
              w ← liftO (pde_create pt); wr (pd + 4 * pde_idx) w ;; mret pt
            else mret pt);
      w ← liftO (pte_create_kernel vaddr (negb in_kernel_text));
      wr (pt + 4 * pte_idx) w ;;
      paging_loop n (page + 1) pd pt
  end.

Definition paging_init : M mmu unit :=
  pd ← on_pages (palloc_get_page (Z.lor PAL_ASSERT PAL_ZERO));
  modify (fun s => mk_mmu (pages s) (cr3 s) pd (init_ram_pages s)) ;;
  n ← gets init_ram_pages;
  paging_loop (Z.to_nat n) 0 pd NULL ;;
  phys ← liftO (vtop pd);
  modify (fun s => mk_mmu (pages s) phys (init_page_dir s) (init_ram_pages s)).
End Paging.

(** ** What page tables mean *)

Definition word_of (m : mem) (p : Z) : option Z := match load32 p m with Done (w, _) => Some w | _ => None end.

(** The physical address, whether it may be written, and whether user code may use it. *)
Definition walk (m : mem) (cr3 va : Z) : option (Z * bool * bool) :=
  match word_of m (cr3 + PHYS_BASE + 4 * pd_no va) with
  | Some pde =>
      if Z.land pde PTE_P =? 0 then None
      else match word_of m (Z.land pde PTE_ADDR + PHYS_BASE + 4 * pt_no va) with
           | Some pte =>
               if Z.land pte PTE_P =? 0 then None
               else Some (Z.land pte PTE_ADDR + pg_ofs va, negb (Z.land pde PTE_W =? 0) && negb (Z.land pte PTE_W =? 0),
                          negb (Z.land pde PTE_U =? 0) && negb (Z.land pte PTE_U =? 0))
           | None => None
           end
  | None => None
  end.


(** ** An allocation that may not fail *)

Lemma get_page_assert r : palloc_get_page (Z.lor PAL_ASSERT PAL_ZERO) r =
  match palloc_get_page PAL_ZERO r with Done (p, r') => if p =? NULL then Panic else Done (p, r') | o => o end.
Proof.
  unfold palloc_get_page, palloc_get_multiple. change (has (Z.lor PAL_ASSERT PAL_ZERO) PAL_USER) with false. change (has PAL_ZERO PAL_USER) with false.
  change (has (Z.lor PAL_ASSERT PAL_ZERO) PAL_ZERO) with true. change (has PAL_ZERO PAL_ZERO) with true.
  change (has (Z.lor PAL_ASSERT PAL_ZERO) PAL_ASSERT) with true. change (has PAL_ZERO PAL_ASSERT) with false. change (1 =? 0) with false. cbn iota.
  unfold bnd, mbind, M_bind. destruct (on_used_map _ _ r) as [[idx r1]| | |]; try done. unfold gets. cbn [mbind outcome_bind].
  set (p := if negb (idx =? BITMAP_ERROR) then _ else _). destruct (p =? NULL) eqn:E; cbn [negb].
  - cbn. by rewrite E.
  - destruct (on_bytes _ r1) as [[x r2]| | |]; try done. cbn. by rewrite E.
Qed.

(** ** Counting free pages *)

(** The pages of the kernel pool that are not in use. *)
Definition free_pages (r : ram) : Z := zlen (filter (fun i => used false r i = false) (seqZ 0 (pool_size false r))).

(** The page tables for the first [n] pages. *)
Definition tables_for (n : Z) : Z := (n + 1023) / 1024.

Lemma free_pages_nonneg r : 0 <= free_pages r.
Proof. apply zlen_nonneg. Qed.

Lemma free_pages_zero r : (forall i, 0 <= i < pool_size false r -> used false r i = true) -> free_pages r = 0.
Proof.
  intros Hall. unfold free_pages. destruct (filter _ _) as [|i l] eqn:E; [done|]. exfalso.
  assert (i ∈ i :: l) as Hin by left. rewrite <- E in Hin. apply list_elem_of_filter in Hin as [Hi Hs%elem_of_seqZ].
  rewrite Hall in Hi by lia. done.
Qed.

Lemma seqZ_rest m n : 0 < n -> m :: seqZ (m + 1) (n - 1) = seqZ m n.
Proof. intros Hn. rewrite (seqZ_cons m n) by done. by rewrite <- Z.add_1_r, <- Z.sub_1_r. Qed.

(** A page that is taken is one free page less. *)
Lemma free_pages_taken r r' idx : marked false idx 1 true r r' -> 0 <= idx < pool_size false r -> used false r idx = false ->
  free_pages r = free_pages r' + 1.
Proof.
  intros [_ Hs _ Hu] Hi Hf. unfold free_pages. rewrite Hs.
  assert (seqZ 0 (pool_size false r) = seqZ 0 idx ++ idx :: seqZ (idx + 1) (pool_size false r - idx - 1)) as ->.
  { rewrite seqZ_rest by lia. rewrite <- (Z.add_0_l idx) at 2. rewrite <- seqZ_app by lia. f_equal. lia. }
  assert (forall l : list Z, (forall i, i ∈ l -> 0 <= i /\ i <> idx) ->
    filter (fun i => used false r' i = false) l = filter (fun i => used false r i = false) l) as Hsame.
  { induction l as [|i l IH]; intros Hl; [done|]. assert (used false r' i = used false r i) as E.
    { destruct (Hl i) as [? ?]; [by left|]. rewrite Hu by lia. unfold in_range.
      destruct (Z.leb_spec idx i), (Z.ltb_spec i (idx + 1)); cbn [andb]; try done. lia. }
    rewrite !filter_cons, E, IH by (intros j Hj; apply Hl; by right). done. }
  assert (used false r' idx = true) as Ht.
  { rewrite Hu by lia. unfold in_range. by rewrite (proj2 (Z.leb_le _ _)), (proj2 (Z.ltb_lt _ _)) by lia. }
  rewrite !filter_app, filter_cons_True by done. rewrite (filter_cons_False _ idx) by (by rewrite Ht).
  rewrite !zlen_app, zlen_cons, !Hsame; [lia|intros i Hin%elem_of_seqZ; lia..].
Qed.

(** The allocation fails exactly if no page is free. *)
Lemma get_page_count r p r' : ram_ok r -> palloc_get_page PAL_ZERO r = Done (p, r') ->
  (p = NULL -> free_pages r = 0) /\ (p <> NULL -> free_pages r = free_pages r' + 1).
Proof.
  intros H Hp. destruct (palloc_get_run r PAL_ZERO 1 H) as (p' & r1 & Hr & _ & Hcase); [done|done|].
  unfold palloc_get_page in Hp. rewrite Hp in Hr. injection Hr as <- <-. change (has PAL_ZERO PAL_USER) with false in *.
  destruct Hcase as [(-> & _ & Hno)|(i & -> & Hi & Hin & Hfree & Hmk & _)].
  - split; [intros _|done]. apply free_pages_zero. intros i Hi. apply not_false_iff_true. intros Hf.
    apply (Hno i); [lia|]. split; [unfold pool_size in Hi; lia|]. intros j Hj. assert (j = i) as -> by lia. exact Hf.
  - assert (0 < page_at false r i < 2 ^ 32) as Hpos by (apply page_range; [done|lia]). split; [unfold NULL; lia|intros _].
    apply (free_pages_taken r r' i Hmk); [lia|apply Hfree; lia].
Qed.

(** ** Entries *)

Definition kernel_flags (writable : bool) : Z := if writable then 3 else 1.

Lemma pte_create_kernel_eq q w : 0 <= q < 2 ^ 18 -> pte_create_kernel (q * 2 ^ 12 + PHYS_BASE) w = Done (q * 2 ^ 12 + kernel_flags w).
Proof.
  intros Hq. unfold pte_create_kernel. rewrite pg_ofs_mod.
  assert ((q * 2 ^ 12 + PHYS_BASE) mod PGSIZE = 0) as -> by (change PGSIZE with (2 ^ 12); unfold PHYS_BASE; dlia).
  destruct (ptov_vtop (q * 2 ^ 12 + PHYS_BASE)) as [-> _]; [unfold is_u32, PHYS_BASE; lia|unfold is_kernel_vaddr, PHYS_BASE; apply Z.leb_le; lia|].
  replace (q * 2 ^ 12 + PHYS_BASE - PHYS_BASE) with (q * 2 ^ 12) by lia. osimpl. rewrite <- Z.lor_assoc. f_equal.
  destruct w; [change (Z.lor PTE_P PTE_W) with 3|change (Z.lor PTE_P 0) with 1]; by apply (lor_low q 12).
Qed.

Lemma pde_create_eq q : 0 <= q < 2 ^ 18 -> pde_create (q * 2 ^ 12 + PHYS_BASE) = Done (q * 2 ^ 12 + 7).
Proof.
  intros Hq. unfold pde_create. rewrite pg_ofs_mod.
  assert ((q * 2 ^ 12 + PHYS_BASE) mod PGSIZE = 0) as -> by (change PGSIZE with (2 ^ 12); unfold PHYS_BASE; dlia).
  destruct (ptov_vtop (q * 2 ^ 12 + PHYS_BASE)) as [-> _]; [unfold is_u32, PHYS_BASE; lia|unfold is_kernel_vaddr, PHYS_BASE; apply Z.leb_le; lia|].
  replace (q * 2 ^ 12 + PHYS_BASE - PHYS_BASE) with (q * 2 ^ 12) by lia. osimpl. rewrite <- !Z.lor_assoc. f_equal. by apply (lor_low q 12).
Qed.

(** The flags of an entry, one by one. *)
Lemma entry_flag q fl b : 0 <= q < 2 ^ 18 -> 0 <= fl < 2 ^ 12 -> Z.land PTE_FLAGS b = b -> Z.land (q * 2 ^ 12 + fl) b = Z.land fl b.
Proof. intros Hq Hf Hb. destruct (pte_bits q fl Hq Hf) as [_ E]. rewrite <- Hb at 1. by rewrite Z.land_assoc, E. Qed.

Lemma word_at_read m p v : word_at m p v -> word_of m p = Some v.
Proof. intros H. unfold word_of. by rewrite (load32_word m p v H). Qed.

(** The fields of a kernel address. *)
Lemma kernel_fields n : 0 <= n < 2 ^ 18 -> ptov (u32 (n * PGSIZE)) = Done (n * 2 ^ 12 + PHYS_BASE) /\
  pd_no (n * 2 ^ 12 + PHYS_BASE) = 768 + n / 1024 /\ pt_no (n * 2 ^ 12 + PHYS_BASE) = n mod 1024.
Proof.
  intros Hn. split; [|split].
  - change PGSIZE with (2 ^ 12). rewrite u32_small by lia. by apply ptov_frame.
  - rewrite pd_no_div. unfold PHYS_BASE. dlia.
  - rewrite pt_no_div by (unfold is_u32, PHYS_BASE; lia). unfold PHYS_BASE. dlia.
Qed.

(** ** The tables while they grow

    [k] page tables with the entries of the first [n] pages. *)

Section Grow.
Context (start end_kernel_text : Z).
Definition text_page (n : Z) : bool := (start <=? n * 2 ^ 12 + PHYS_BASE) && (n * 2 ^ 12 + PHYS_BASE <? end_kernel_text).
Definition kernel_entry (n : Z) : Z := n * 2 ^ 12 + kernel_flags (negb (text_page n)).

Record kernel_map (r : ram) (pd : Z) (d : Z -> Z) (e : Z -> Z -> Z) (k n : Z) : Prop := {
  km_ram : ram_ok r;
  km_page : kernel_page r pd;
  km_dir : table (bytes r) pd d;
  km_some : forall i, 0 <= i < 1024 -> (d i <> 0 <-> 768 <= i < 768 + k);
  km_table : forall i, 0 <= i < 1024 -> d i <> 0 -> kernel_page r (pt_of (d i)) /\ pt_of (d i) <> pd /\ table (bytes r) (pt_of (d i)) (e i) /\
    exists q, 0 <= q < 2 ^ 18 /\ d i = q * 2 ^ 12 + 7 /\ pt_of (d i) = q * 2 ^ 12 + PHYS_BASE;
  km_entry : forall i j, 0 <= i < 1024 -> 0 <= j < 1024 ->
    e i j = if decide (768 <= i /\ (i - 768) * 1024 + j < n) then kernel_entry ((i - 768) * 1024 + j) else 0;
  km_apart : forall i j, 0 <= i < 1024 -> 0 <= j < 1024 -> d i <> 0 -> d j <> 0 -> i <> j -> pt_of (d i) <> pt_of (d j)
}.

Lemma kernel_entry_u32 n : 0 <= n < 2 ^ 18 -> is_u32 (kernel_entry n).
Proof. intros Hn. unfold is_u32, kernel_entry, kernel_flags. destruct (negb _); lia. Qed.

(** A frame of a kernel page. *)
Lemma kernel_page_frame r p : ram_ok r -> kernel_page r p -> exists q, 0 <= q < 2 ^ 18 /\ p = q * 2 ^ 12 + PHYS_BASE.
Proof.
  intros Hok Hk. destruct (kernel_page_range r p Hok Hk) as (Ha & Hl & Hh). change PGSIZE with (2 ^ 12) in *. unfold PHYS_BASE in *.
  exists (p / 2 ^ 12 - 0xc0000). dlia.
Qed.

(** One more page table. *)
Lemma grow_table r pd d e k : kernel_map r pd d e k (1024 * k) -> 0 <= k < 256 ->
  (palloc_get_page (Z.lor PAL_ASSERT PAL_ZERO) r = Panic /\ free_pages r = 0) \/
  exists pt r' w, palloc_get_page (Z.lor PAL_ASSERT PAL_ZERO) r = Done (pt, r') /\ free_pages r = free_pages r' + 1 /\ pde_create pt = Done w /\ mapped (bytes r') (pd + 4 * (768 + k)) 4 /\
    let d' i := if decide (i = 768 + k) then w else d i in
    pt_of (d' (768 + k)) = pt /\ kernel_map (put_word (pd + 4 * (768 + k)) w r') pd d' e (k + 1) (1024 * k).
Proof.
  intros [Hok Hpage Hdir Hsome Htab Hent Hap] Hk. rewrite get_page_assert.
  destruct (fresh_table r Hok) as (pt & r' & Hr & Hok' & Hcase). destruct (get_page_count r pt r' Hok Hr) as [Hfull Hone].
  destruct Hcase as [[-> ->]|(Hne & Hkp & Hzt & _ & Hq & Hfr)]; rewrite Hr; [left; split; [done|by apply Hfull]|right].
  rewrite (proj2 (Z.eqb_neq pt NULL)) by done. destruct (kernel_page_frame r' pt Hok' Hkp) as (q & Hqr & ->).
  set (pt := q * 2 ^ 12 + PHYS_BASE) in *. set (w := q * 2 ^ 12 + 7). exists pt, r', w.
  split; [done|]. split; [by apply Hone|]. split; [by apply pde_create_eq|]. destruct (kernel_page_range r pd Hok Hpage) as (Halp & _ & _).
  destruct (kernel_page_range r' pt Hok' Hkp) as (Halt & _ & _).
  assert (table (bytes r') pd d) as Hdir' by (apply Hfr; [done|by apply Hq|done]).
  split; [eapply word_mapped, Hdir'; lia|]. cbv zeta. set (d' := fun i => if decide (i = 768 + k) then w else d i).
  assert (pt_of w = pt) as Ew by (unfold pt_of, w; by rewrite (proj1 (pte_bits q 7 Hqr ltac:(lia)))).
  assert (d' (768 + k) = w) as Ed by (unfold d'; by rewrite decide_True). rewrite Ed. split; [done|].
  assert (pt <> pd) as Hpp by (intros E; destruct (Hq pd Hpage) as [Hn _]; by apply Hn).
  assert (d (768 + k) = 0) as Hd0. { destruct (decide (d (768 + k) = 0)) as [|Hn]; [done|]. apply Hsome in Hn; lia. }
  split.
  - by apply ram_ok_put.
  - by apply Hq.
  - apply table_set; [lia|unfold is_u32, w; lia|done].
  - intros i Hi. unfold d'. case_decide as E; [subst i; split; [lia|intros _; unfold w; lia]|]. rewrite Hsome by done. lia.
  - intros i Hi. unfold d'. case_decide as E.
    + subst i. rewrite Ew. intros _. split; [done|]. split; [done|]. split.
      * apply table_put; [done|done|done|lia|]. intros j Hj. rewrite Hent by lia. rewrite decide_False by lia. by apply Hzt.
      * by exists q.
    + intros Hd. destruct (Htab i Hi Hd) as (H1 & H2 & H3 & H4). destruct (kernel_page_range r _ Hok H1) as (H5 & _ & _).
      split; [by apply Hq|]. split; [done|]. split; [|done]. apply table_put; [done|done|done|lia|]. apply Hfr; [done|by apply Hq|done].
  - done.
  - intros i j Hi Hj. unfold d'. do 2 case_decide; intros Hdi Hdj Hij; subst; try lia.
    + rewrite Ew. destruct (Htab j Hj Hdj) as (H1 & _). intros E. destruct (Hq _ H1) as [Hn _]. by apply Hn.
    + rewrite Ew. destruct (Htab i Hi Hdi) as (H1 & _). by apply (Hq _ H1).
    + by apply Hap.
Qed.

(** One more page. *)
Lemma grow_entry r pd d e k n : kernel_map r pd d e k n -> 0 <= n < 2 ^ 18 -> n / 1024 < k ->
  let i := 768 + n / 1024 in let p := pt_of (d i) + 4 * (n mod 1024) in
  d i <> 0 /\ mapped (bytes r) p 4 /\
  kernel_map (put_word p (kernel_entry n) r) pd d (fun a b => if decide (a = i /\ b = n mod 1024) then kernel_entry n else e a b) k (n + 1).
Proof.
  intros [Hok Hpage Hdir Hsome Htab Hent Hap] Hn Hk i p. assert (0 <= n mod 1024 < 1024) as Hj by (apply Z.mod_pos_bound; lia).
  assert (768 <= i < 1024) as Hi by (unfold i; dlia). assert (d i <> 0) as Hd by (apply Hsome; unfold i; lia).
  split; [done|]. destruct (Htab i ltac:(lia) Hd) as (H1 & H2 & H3 & H4). split; [eapply word_mapped, H3; lia|].
  destruct (kernel_page_range r _ Hok H1) as (Hal & _ & _). destruct (kernel_page_range r pd Hok Hpage) as (Halp & _ & _). split.
  - by apply ram_ok_put.
  - done.
  - apply table_put; [done|done|done|lia|done].
  - done.
  - intros a Ha Hda. destruct (Htab a Ha Hda) as (G1 & G2 & G3 & G4). split; [done|]. split; [done|]. split; [|done].
    destruct (kernel_page_range r _ Hok G1) as (Hala & _ & _). destruct (decide (a = i)) as [->|Hne].
    + intros b Hb. pose proof (table_set r (pt_of (d i)) (e i) (n mod 1024) (kernel_entry n) Hj (kernel_entry_u32 n Hn) H3 b Hb) as Hw. cbn beta in Hw.
      destruct (decide (b = n mod 1024)); [by rewrite decide_True|]. rewrite decide_False; [done|naive_solver].
    + assert (table (bytes r) (pt_of (d a)) (fun b => if decide (a = i /\ b = n mod 1024) then kernel_entry n else e a b)) as G3'.
      { intros b Hb. rewrite decide_False by naive_solver. by apply G3. }
      apply table_put; [done|done| |lia|done]. apply Hap; [done|lia|done|done|done].
  - intros a b Ha Hb. cbn beta. destruct (decide (a = i /\ b = n mod 1024)) as [[-> ->]|Hne].
    + rewrite decide_True by (unfold i; dlia). f_equal. unfold i. dlia.
    + rewrite Hent by done. assert ((a - 768) * 1024 + b <> n \/ a < 768) as Hx.
      { destruct (decide (a < 768)); [by right|left]. intros E. apply Hne. unfold i. rewrite <- E. split; dlia. }
      destruct (decide (768 <= a /\ (a - 768) * 1024 + b < n)); [rewrite decide_True by lia; done|rewrite decide_False by lia; done].
  - done.
Qed.

(** ** The loop *)

(** The page table of page [p], allocated if there is none. *)
Lemma page_table_run pd pt s d e k p : kernel_map (pages s) pd d e k p -> 0 <= k -> 0 <= p < 2 ^ 18 -> 1024 * (k - 1) < p <= 1024 * k ->
  (p < 1024 * k -> pt = pt_of (d (768 + p / 1024))) ->
  let get := (if d (768 + p / 1024) =? 0 then
      pt ← on_pages (palloc_get_page (Z.lor PAL_ASSERT PAL_ZERO)); w ← liftO (pde_create pt); wr (pd + 4 * (768 + p / 1024)) w ;; mret pt
    else mret pt : M mmu Z) in
  (get s = Panic /\ p = 1024 * k /\ free_pages (pages s) = 0) \/
  exists r1 d1 k1, get s = Done (pt_of (d1 (768 + p / 1024)), with_pages r1 s) /\ kernel_map r1 pd d1 e k1 p /\ p / 1024 < k1 /\
    1024 * (k1 - 1) < p + 1 <= 1024 * k1 /\ free_pages (pages s) = free_pages r1 + (k1 - k).
Proof.
  intros Hmap Hk0 Hp Hk Hpt get. subst get. assert (0 <= p / 1024 < 256) as Hi by dlia. destruct (decide (p = 1024 * k)) as [->|Hne].
  - replace (1024 * k / 1024) with k in * by dlia. assert (d (768 + k) = 0) as Hd0.
    { destruct (decide (d (768 + k) = 0)) as [|Hn]; [done|]. apply (km_some _ _ _ _ _ _ Hmap) in Hn; lia. }
    rewrite Hd0. change (0 =? 0) with true. cbn iota.
    destruct (grow_table (pages s) pd d e k Hmap ltac:(lia)) as [[Ep Ef]|(q & r1 & w & Er & Ef & Ew & Hmp & Hq & Hmap1)].
    + left. split; [|done]. apply bind_panic. unfold on_pages. by rewrite Ep.
    + right. eexists _, _, (k + 1). split; [|split; [exact Hmap1|]].
      * erewrite bind_done by (by apply on_pages_run). erewrite bind_done by (by apply liftO_run).
        erewrite bind_done by (by apply (wr_run (with_pages r1 s))). unfold mret, M_ret. by rewrite Hq.
      * change (free_pages (put_word (pd + 4 * (768 + k)) w r1)) with (free_pages r1). lia.
  - right. exists (pages s), d, k. assert (p / 1024 < k) as Hlt by dlia. split; [|split; [exact Hmap|lia]].
    assert (d (768 + p / 1024) <> 0) as Hd by (apply (km_some _ _ _ _ _ _ Hmap); lia). rewrite (proj2 (Z.eqb_neq _ _) Hd).
    rewrite <- Hpt by lia. unfold mret, M_ret. by destruct s.
Qed.

Lemma paging_loop_run m : forall p pd pt s d e k, kernel_map (pages s) pd d e k p -> 0 <= k -> 0 <= p -> 1024 * (k - 1) < p <= 1024 * k ->
  (p < 1024 * k -> pt = pt_of (d (768 + p / 1024))) -> p + Z.of_nat m <= 2 ^ 18 ->
  let k' := tables_for (p + Z.of_nat m) in
  (paging_loop start end_kernel_text m p pd pt s = Panic /\ free_pages (pages s) < k' - k) \/
  exists r' d' e', paging_loop start end_kernel_text m p pd pt s = Done (tt, with_pages r' s) /\ kernel_map r' pd d' e' k' (p + Z.of_nat m) /\
    free_pages (pages s) = free_pages r' + (k' - k).
Proof.
  induction m as [|m IH]; intros p pd pt s d e k Hmap Hk0 Hp0 Hk Hpt Hm k'; subst k'; cbn [paging_loop].
  { right. exists (pages s), d, e. change (Z.of_nat 0) with 0. rewrite Z.add_0_r. assert (tables_for p = k) as -> by (unfold tables_for; dlia).
    split; [by destruct s|]. split; [done|lia]. }
  destruct (kernel_fields p ltac:(lia)) as (Ev & Ed & Et). erewrite bind_done by (apply liftO_run; exact Ev). cbv zeta. rewrite Ed, Et.
  change ((start <=? p * 2 ^ 12 + PHYS_BASE) && (p * 2 ^ 12 + PHYS_BASE <? end_kernel_text)) with (text_page p).
  assert (0 <= p / 1024 < 256) as Hi by dlia. erewrite bind_done by (apply rd_run, (km_dir _ _ _ _ _ _ Hmap); lia).
  assert (p + Z.of_nat (S m) = p + 1 + Z.of_nat m) as Epm by lia. rewrite Epm.
  destruct (page_table_run pd pt s d e k p Hmap Hk0 ltac:(lia) Hk Hpt) as [(E & -> & Ef)|(r1 & d1 & k1 & E & Hmap1 & Hk1 & Hk1' & Ef)].
  { left. split; [by apply bind_panic|]. rewrite Ef. unfold tables_for. dlia. }
  erewrite bind_done by exact E. erewrite bind_done by (apply liftO_run, pte_create_kernel_eq; lia). fold (kernel_entry p).
  destruct (grow_entry r1 pd d1 e k1 p Hmap1 ltac:(lia) Hk1) as (Hd1 & Hmp & Hmap2). erewrite bind_done by (by apply (wr_run (with_pages r1 s))).
  set (r2 := put_word (pt_of (d1 (768 + p / 1024)) + 4 * (p mod 1024)) (kernel_entry p) r1) in *.
  destruct (IH (p + 1) pd (pt_of (d1 (768 + p / 1024))) (with_pages r2 s) d1 _ k1 Hmap2) as [[Hp Hf]|(r' & d' & e' & Hr & Hmap' & Hf)]; try lia.
  { intros Hlt. replace ((p + 1) / 1024) with (p / 1024) by dlia. done. }
  - left. split; [exact Hp|]. change (free_pages (pages (with_pages r2 s))) with (free_pages r1) in Hf. lia.
  - right. exists r', d', e'. split; [exact Hr|]. split; [exact Hmap'|]. change (free_pages (pages (with_pages r2 s))) with (free_pages r1) in Hf. lia.
Qed.

(** What the processor makes of the finished tables. *)
Lemma walk_kernel_map r pd d e k n va : kernel_map r pd d e k n -> 1024 * (k - 1) < n <= 1024 * k -> 0 <= n <= 2 ^ 18 -> is_u32 va ->
  walk (bytes r) (pd - PHYS_BASE) va = if (PHYS_BASE <=? va) && (va <? PHYS_BASE + PGSIZE * n)
    then Some (va - PHYS_BASE, negb (text_page ((va - PHYS_BASE) / PGSIZE)), false) else None.
Proof.
  intros [Hok Hpage Hdir Hsome Htab Hent Hap] Hk Hn Hva. unfold walk. replace (pd - PHYS_BASE + PHYS_BASE) with pd by lia.
  change PGSIZE with 4096. assert (0 <= pd_no va < 1024 /\ 0 <= pt_no va < 1024) as [Hi Hj].
  { rewrite pd_no_div, pt_no_div by done. unfold is_u32 in Hva. dlia. }
  assert (va = pd_no va * 2 ^ 22 + pt_no va * 2 ^ 12 + pg_ofs va) as Eva by by apply va_fields.
  assert (0 <= pg_ofs va < 4096) as Ho by (rewrite pg_ofs_mod; by apply Z.mod_pos_bound).
  rewrite (word_at_read _ _ _ (Hdir _ Hi)). revert Eva Hi Hj Ho. generalize (pd_no va) (pt_no va) (pg_ofs va). intros i j o -> Hi Hj Ho. unfold PHYS_BASE.
  destruct (decide (d i = 0)) as [Hd|Hd].
  - rewrite Hd. change (Z.land 0 PTE_P =? 0) with true. cbn iota. assert (~ (768 <= i < 768 + k)) as Hout by (rewrite <- Hsome by done; tauto).
    destruct (Z.leb_spec 0xc0000000 (i * 2 ^ 22 + j * 2 ^ 12 + o)); [|done]. by rewrite (proj2 (Z.ltb_ge _ _)) by lia.
  - destruct (Htab i Hi Hd) as (_ & _ & Ht & q & Hq & Ed & Ept). pose proof (proj1 (Hsome i Hi) Hd) as Hin.
    assert (forall b, Z.land PTE_FLAGS b = b -> Z.land (d i) b = Z.land 7 b) as Hfl by (intros b Hb; rewrite Ed; apply entry_flag; [done|lia|done]).
    rewrite !Hfl by reflexivity. change (Z.land 7 PTE_P =? 0) with false. cbn iota.
    change (Z.land (d i) PTE_ADDR + 0xc0000000) with (pt_of (d i)). rewrite (word_at_read _ _ _ (Ht _ Hj)), Hent by done.
    rewrite (proj2 (Z.leb_le _ _)) by lia. cbn [andb].
    destruct (decide (768 <= i /\ (i - 768) * 1024 + j < n)) as [Hlt|Hlt].
    + rewrite (proj2 (Z.ltb_lt _ _)) by lia. set (m := (i - 768) * 1024 + j) in *. unfold kernel_entry. set (w := negb (text_page m)).
      assert (0 <= m < 2 ^ 18) as Hm by lia. assert (0 <= kernel_flags w < 2 ^ 12) as Hfw by (unfold kernel_flags; destruct w; lia).
      destruct (pte_bits m (kernel_flags w) Hm Hfw) as [-> _].
      assert (forall b, Z.land PTE_FLAGS b = b -> Z.land (m * 2 ^ 12 + kernel_flags w) b = Z.land (kernel_flags w) b) as Hfe by (intros; by apply entry_flag).
      rewrite !Hfe by reflexivity.
      replace ((i * 2 ^ 22 + j * 2 ^ 12 + o - 0xc0000000) / 4096) with m by (unfold m; dlia). fold w.
      assert (m * 2 ^ 12 + o = i * 2 ^ 22 + j * 2 ^ 12 + o - 0xc0000000) as -> by (unfold m; lia). rewrite (Hfl PTE_W), (Hfl PTE_U) by reflexivity. clearbody w. by destruct w.
    + rewrite (proj2 (Z.ltb_ge _ _)) by lia. done.
Qed.
End Grow.

(** C14: paging_init needs one free page for the directory and one for every 1024 pages
    of memory.  If there are fewer it panics; otherwise it takes just these and leaves
    a page directory under which the processor translates exactly the addresses of
    physical memory at PHYS_BASE and above, each to its own place, out of reach of user
    code and with the kernel's text read-only. *)
Theorem paging_init_correct start end_kernel_text s (Hok : ram_ok (pages s)) (Hn : 0 <= init_ram_pages s <= 2 ^ 18) :
  let needed := 1 + tables_for (init_ram_pages s) in
  if decide (needed <= free_pages (pages s)) then
    exists s', paging_init start end_kernel_text s = Done (tt, s') /\ ram_ok (pages s') /\ kernel_page (pages s') (init_page_dir s') /\
      cr3 s' = init_page_dir s' - PHYS_BASE /\ init_ram_pages s' = init_ram_pages s /\
      free_pages (pages s') = free_pages (pages s) - needed /\
      forall va, is_u32 va -> walk (bytes (pages s')) (cr3 s') va =
        if (PHYS_BASE <=? va) && (va <? PHYS_BASE + PGSIZE * init_ram_pages s)
        then Some (va - PHYS_BASE, negb (text_page start end_kernel_text ((va - PHYS_BASE) / PGSIZE)), false) else None
  else paging_init start end_kernel_text s = Panic.
Proof.
  intros needed. subst needed. assert (0 <= tables_for (init_ram_pages s)) as Ht0 by (unfold tables_for; dlia).
  unfold paging_init. destruct (fresh_table (pages s) Hok) as (pd & r & Hr & Hok1 & Hcase). destruct (get_page_count _ _ _ Hok Hr) as [Hfull Hone].
  destruct Hcase as [[-> ->]|(Hne & Hk & Hzt & _)].
  { rewrite decide_False by (rewrite Hfull by done; lia). apply bind_panic. unfold on_pages. by rewrite get_page_assert, Hr. }
  specialize (Hone Hne).
  erewrite bind_done by (apply on_pages_run; rewrite get_page_assert, Hr, (proj2 (Z.eqb_neq pd NULL)) by done; reflexivity).
  erewrite bind_done by reflexivity. erewrite bind_done by reflexivity. cbn [init_ram_pages].
  set (s1 := mk_mmu (pages _) (cr3 _) pd (init_ram_pages _)).
  assert (kernel_map start end_kernel_text (pages s1) pd (fun _ => 0) (fun _ _ => 0) 0 0) as Hmap.
  { split; try done; [lia|]. intros i j Hi Hj. rewrite decide_False by lia. done. }
  destruct (paging_loop_run start end_kernel_text (Z.to_nat (init_ram_pages s)) 0 pd NULL s1 _ _ 0 Hmap) as [[Hp Hf]|(r' & d' & e' & Hrun & Hmap' & Hf)];
    [lia|lia|lia|lia|lia| |]; rewrite Z.add_0_l, Z2Nat.id in * by lia; change (free_pages (pages s1)) with (free_pages r) in Hf.
  { rewrite decide_False by lia. by apply bind_panic. }
  pose proof (free_pages_nonneg r'). rewrite decide_True by lia. erewrite bind_done by exact Hrun.
  pose proof (km_page _ _ _ _ _ _ _ _ Hmap') as Hkp. pose proof (km_ram _ _ _ _ _ _ _ _ Hmap') as Hok'.
  destruct (kernel_page_frame r' pd Hok' Hkp) as (q & Hq & Epd).
  assert (vtop pd = Done (pd - PHYS_BASE)) as Hv by (apply ptov_vtop; rewrite Epd; unfold is_kernel_vaddr, is_u32, PHYS_BASE; [lia|apply Z.leb_le; lia]).
  erewrite bind_done by (apply liftO_run; exact Hv). eexists. split; [reflexivity|]. cbn [pages init_page_dir cr3 init_ram_pages with_pages].
  split; [done|]. split; [done|]. split; [done|]. split; [done|]. split; [lia|]. intros va Hva.
  eapply walk_kernel_map; [exact Hmap'|unfold tables_for; dlia|lia|done].
Qed.

(** ** A small machine *)

Definition demo_mmu (n : Z) : mmu := mk_mmu (demo_ram 0 demo_bytes) 0 NULL n.

(** Its kernel pool has three pages.  1025 pages of memory need all three, for the
    directory and two tables, and 2049 one more; the second page is kernel text. *)
Lemma paging_init_correct_witness : (exists s', paging_init 0xc0001000 0xc0002000 (demo_mmu 1025) = Done (tt, s') /\ free_pages (pages s') = 0 /\
    walk (bytes (pages s')) (cr3 s') 0xc0001234 = Some (0x1234, false, false) /\
    walk (bytes (pages s')) (cr3 s') 0xc0400fff = Some (0x400fff, true, false) /\
    walk (bytes (pages s')) (cr3 s') 0xc0401000 = None /\ walk (bytes (pages s')) (cr3 s') 0x1234 = None) /\
  paging_init 0xc0001000 0xc0002000 (demo_mmu 2049) = Panic.
Proof.
  assert (ram_ok (demo_ram 0 demo_bytes)) as Hok by apply demo_ram_ok, demo_bytes_mapped. split.
  - destruct (paging_init_correct 0xc0001000 0xc0002000 (demo_mmu 1025) Hok) as (s' & Hr & _ & _ & _ & _ & Hf & Hw); [cbn; lia|].
    exists s'. split; [exact Hr|]. split; [rewrite Hf; reflexivity|]. repeat (split; [rewrite Hw by by_decide; reflexivity|]). rewrite Hw by by_decide. reflexivity.
  - apply (paging_init_correct 0xc0001000 0xc0002000 (demo_mmu 2049) Hok). cbn. lia.
Defined.
