(* ===== verification/ArgStack.v ===== *)
(** * userprog/process.c: the arguments of a new process on its stack

    [format_stack_args] runs on the address space it sees, the bytes of Mem.  Its
    two local buffers of 100 bytes lie at [buf1] and [buf2] and the literal of one
    space at [space].  The page under [esp] is zeroed, as setup_stack makes it. *)

From S2P Require Import Prelude Mem CString.

(** [while (token != NULL)]: argc and byte_count. *)
Fixpoint count_args (fuel : nat) (space token save argc byte_count : Z) : M mem (Z * Z) :=
  match fuel with
  | O => nofuel
  | S fuel =>
      if negb (token =? NULL) then
        len ← strlen token;
        '(token, save) ← strtok_r NULL space save;
        count_args fuel space token save (argc + 1) (byte_count + (len + 1))
      else mret (argc, byte_count)
  end.

(** [for (i = 0; i < padding; i++)]: both [i] and [esp_data] advance. *)
Fixpoint write_padding (n : nat) (i esp_data : Z) : M mem Z :=
  match n with
  | O => mret esp_data
  | S n => store8 (esp_data + i) 0 ;; write_padding n (i + 1) (esp_data + 1)
  end.

(** [for (i = 0; i < argc; i++)] *)
Fixpoint place_args (n : nat) (space i esp_word esp_data token save : Z) : M mem unit :=
  match n with
  | O => mret tt
  | S n =>
      store32 (esp_word + 4 * (3 + i)) esp_data ;;
      len ← strlen token;
      _ ← strlcpy esp_data token (len + 1);
      len ← strlen token;
      let esp_data := esp_data + len in
      store8 esp_data 0 ;;
      '(token, save) ← strtok_r NULL space save;
      place_args n space (i + 1) esp_word (esp_data + 1) token save
  end.

(** The two initialised buffers and the copies of the command in them. *)
Definition copy_commands (buf1 buf2 cmdStr : Z) : M mem Z :=
  _ ← memset buf1 0 100;
  _ ← memset buf2 0 100;
  n ← strlen cmdStr; _ ← strlcpy buf1 cmdStr (n + 1);
  n ← strlen cmdStr; strlcpy buf2 cmdStr (n + 1).

(** The tokens of the first copy. *)
Definition count_tokens (buf space : Z) : M mem (Z * Z) :=
  '(token, save) ← strtok_r buf space buf;
  fuel ← scan_fuel;
  count_args fuel space token save 0 0.

(** The return address, argc and argv. *)
Definition write_header (esp_word argc : Z) : M mem unit :=
  store32 esp_word 0 ;;
  store32 (esp_word + 4) argc ;;
  store32 (esp_word + 8) (esp_word + 12).

(** The tokens of the second copy. *)
Definition write_args (buf space argc esp_word esp_data : Z) : M mem unit :=
  '(token, save) ← strtok_r buf space buf;
  place_args (Z.to_nat argc) space 0 esp_word esp_data token save.

Definition format_stack_args (buf1 buf2 space cmdStr esp : Z) : M mem Z :=
  _ ← copy_commands buf1 buf2 cmdStr;
  '(argc, byte_count) ← count_tokens buf1 space;
  let padding := if byte_count mod 4 =? 0 then 0 else 4 - byte_count mod 4 in
  let esp_data := esp - (byte_count + padding) in
  let esp_word := esp_data - 4 * (argc + 4) in
  write_header esp_word argc ;;
  esp_data ← write_padding (Z.to_nat padding) 0 esp_data;
  write_args buf2 space argc esp_word esp_data ;;
  mret esp_word.

(** ** The layout a new process expects *)

(** The bytes of the arguments with their terminators. *)
Fixpoint arg_bytes (ws : list (list Z)) : Z :=
  match ws with [] => 0 | w :: ws => zlen w + 1 + arg_bytes ws end.

(** Slots from [slot] on point to the arguments, which lie one after the other
    from [a] on. *)
Fixpoint args_at (m : mem) (slot a : Z) (ws : list (list Z)) : Prop :=
  match ws with
  | [] => True
  | w :: ws => word_at m slot a /\ cstr m a w /\ args_at m (slot + 4) (a + zlen w + 1) ws
  end.

(** Blocks of [n] bytes at [p] and [k] bytes at [q] do not overlap. *)
Definition apart (p n q k : Z) : Prop := p + n <= q \/ q + k <= p.

Section Arguments.
Implicit Types (m : mem) (ws : list (list Z)).

Lemma arg_bytes_nonneg ws : zlen ws <= arg_bytes ws.
Proof. induction ws as [|w ws IH]; [done|]. cbn. rewrite zlen_cons. pose proof (zlen_nonneg w). lia. Qed.

Lemma words_from_bytes ds s : forall w, arg_bytes (words_from ds w s) <= zlen w + zlen s + 1.
Proof.
  induction s as [|c s IH]; intros w; cbn; [destruct w as [|x w]; cbn [arg_bytes]; rewrite ?zlen_cons; change (zlen (@nil Z)) with 0; try pose proof (zlen_nonneg s); lia|].
  rewrite zlen_cons. destruct (delim ds c).
  - specialize (IH []). change (zlen []) with 0 in IH. destruct w; [change (zlen []) with 0; lia|]. cbn [arg_bytes]. lia.
  - specialize (IH (w ++ [c])). rewrite zlen_app in IH. change (zlen [c]) with 1 in IH. lia.
Qed.

Lemma words_bytes ds s : arg_bytes (words ds s) <= zlen s + 1.
Proof. pose proof (words_from_bytes ds s []). done. Qed.

(** Counting. *)
Lemma count_args_run ws : forall fuel m space t save lo hi argc bytes,
  (length ws < fuel)%nat -> token_at m [32] lo hi t save ws -> 0 < lo -> cstr m space [32] -> 0 < space ->
  space + 1 < lo \/ hi < space ->
  exists m', count_args fuel space t save argc bytes m = Done ((argc + zlen ws, bytes + arg_bytes ws), m') /\
    outside m m' lo (hi - lo).
Proof.
  induction ws as [|w ws IH]; intros [|fuel] m space t save lo hi argc bytes Hf Ht Hlo Hs Hsp Hdis; cbn in Hf; try lia; cbn [count_args].
  - destruct Ht as [[_ ->]|(? & ? & ? & _)]; [|done]. exists m. change (zlen []) with 0. cbn. by rewrite !Z.add_0_r.
  - pose proof Ht as [[? _]|(w' & rest & [= <- _] & Hnn & Hlen & Hl & Hh & Hw & _)]; [done|].
    rewrite (proj2 (Z.eqb_neq t NULL)) by done. cbn [negb]. erewrite bind_done by (apply strlen_correct; [done|lia]).
    destruct (strtok_again m lo hi t save space [32] w ws) as (m1 & t' & save' & Hr & Hout & Ht'); try done.
    erewrite bind_done by exact Hr. cbn beta iota.
    destruct (IH fuel m1 space t' save' lo hi (argc + 1) (bytes + (zlen w + 1))) as (m2 & Hr2 & Hout2); try done; [lia| |].
    + apply (cstr_frame m); [|done]. intros a Ha. apply Hout. change (zlen [32]) with 1 in Ha. lia.
    + exists m2. rewrite Hr2, zlen_cons. cbn [arg_bytes]. split; [do 3 f_equal; lia|].
      intros a Ha. rewrite Hout2 by done. by apply Hout.
Qed.
Lemma write_padding_run n : forall i e m, mapped m (e + i) (2 * Z.of_nat n) ->
  exists m', write_padding n i e m = Done (e + Z.of_nat n, m') /\
    forall a, m' !! a = m !! a \/ (e + i <= a < e + i + 2 * Z.of_nat n /\ m' !! a = Some 0).
Proof.
  induction n as [|n IH]; intros i e m H; cbn [write_padding].
  - exists m. change (Z.of_nat 0) with 0. rewrite Z.add_0_r. split; [done|by left].
  - erewrite bind_done by (apply store8_run, H; lia).
    destruct (IH (i + 1) (e + 1) (<[e + i := u8 0]> m)) as (m' & Hr & Hm').
    { apply mapped_insert. intros x Hx. apply H. lia. }
    exists m'. rewrite Hr. split; [do 2 f_equal; lia|]. intros a. destruct (Hm' a) as [E|[Hin E]].
    + rewrite E. destruct (decide (a = e + i)) as [->|]; [right|left; by rewrite lookup_insert_ne].
      rewrite lookup_insert_eq. split; [lia|done].
    + right. split; [lia|done].
Qed.

(** Placing the arguments. *)
Definition changes_only (m m' : mem) (ps : list (Z * Z)) : Prop :=
  forall a, Forall (fun p => ~ (p.1 <= a < p.1 + p.2)) ps -> m' !! a = m !! a.

Lemma args_at_frame m m' ws : forall slot a, (forall x, slot <= x < slot + 4 * zlen ws -> m' !! x = m !! x) ->
  (forall x, a <= x < a + arg_bytes ws -> m' !! x = m !! x) -> args_at m slot a ws -> args_at m' slot a ws.
Proof.
  induction ws as [|w ws IH]; intros slot a Hs Ha H; [done|]. destruct H as (H1 & H2 & H3). rewrite zlen_cons in Hs.
  pose proof (zlen_nonneg w). pose proof (zlen_nonneg ws). pose proof (arg_bytes_nonneg ws). cbn [arg_bytes] in Ha. split; [|split].
  - apply (word_at_frame m); [|done]. intros x Hx. apply Hs. lia.
  - apply (cstr_frame m); [|done]. intros x Hx. apply Ha. lia.
  - apply IH; [|intros x Hx; apply Ha; lia|done]. intros x Hx. apply Hs. lia.
Qed.

Lemma place_args_run ws : forall m space t save lo hi i sp a,
  let slot := sp + 4 * (3 + i) in
  token_at m [32] lo hi t save ws -> 0 < lo <= hi -> cstr m space [32] -> 0 < space ->
  mapped m slot (4 * zlen ws) -> mapped m a (arg_bytes ws) -> 0 < slot -> slot + 4 * zlen ws <= a ->
  a + arg_bytes ws <= 2 ^ 32 -> apart slot (a + arg_bytes ws - slot) lo (hi - lo + 1) ->
  apart slot (a + arg_bytes ws - slot) space 2 -> apart lo (hi - lo + 1) space 2 ->
  exists m', place_args (length ws) space i sp a t save m = Done (tt, m') /\ args_at m' slot a ws /\
    changes_only m m' [(slot, 4 * zlen ws); (a, arg_bytes ws); (lo, hi - lo)].
Proof.
  induction ws as [|w ws IH]; intros m space t save lo hi i sp a slot Ht Hlo Hsp Hsp0 Hms Hma Hslot Hsep Hub Hap1 Hap2 Hap3;
    [by exists m|].
  pose proof Ht as [[? _]|(w' & rest & [= <- _] & Hnn & Hlen & Hl & Hh & Hw & _)]; [done|].
  cbn [length place_args arg_bytes] in *. fold slot. rewrite zlen_cons in *.
  pose proof (zlen_nonneg ws). pose proof (arg_bytes_nonneg ws). unfold apart in *.
  set (m1 := stored m slot (le_bytes a)).
  assert (forall x, ~ (slot <= x < slot + 4) -> m1 !! x = m !! x) as E1 by (intros x Hx; by apply stored_outside).
  erewrite bind_done by (apply store32_run; intros x Hx; apply Hms; lia). fold m1.
  assert (cstr m1 t w) as Hw1 by (apply (cstr_frame m); [intros; apply E1; lia|done]).
  erewrite bind_done by (apply strlen_correct; [done|lia]).
  destruct (strlcpy_run m1 a t w (zlen w + 1)) as (m2 & Hr2 & Hc2 & Hout2); [done|lia|lia|lia| |lia|].
  { apply stored_mapped. intros x Hx. apply Hma. lia. }
  erewrite bind_done by exact Hr2. rewrite Z.add_simpl_r, take_ge in Hc2 by (rewrite zlen_to_nat; lia).
  assert (forall x, ~ (slot <= x < slot + 4) -> ~ (a <= x < a + zlen w + 1) -> m2 !! x = m !! x) as E2.
  { intros x Hx1 Hx2. rewrite Hout2 by lia. by apply E1. }
  assert (cstr m2 t w) as Hw2 by (apply (cstr_frame m); [intros; apply E2; lia|done]).
  erewrite bind_done by (apply strlen_correct; [done|lia]). cbv zeta.
  assert (m2 !! (a + zlen w) = Some 0) as Hz by (apply cstr_nil, (cstr_drop m2 a w []); by rewrite app_nil_r).
  erewrite bind_done by (apply store8_run; by eexists). change (u8 0) with 0. rewrite (insert_id m2) by done.
  assert (token_at m2 [32] lo hi t save (w :: ws)) as Ht2 by (apply (token_at_frame m); [intros; apply E2; lia|done]).
  assert (cstr m2 space [32]) as Hsp2 by (apply (cstr_frame m); [|done]; change (zlen [32]) with 1; intros; apply E2; lia).
  destruct (strtok_again m2 lo hi t save space [32] w ws) as (m3 & t' & save' & Hr3 & Hout3 & Ht3);
    [done|lia|done|done|change (zlen [32]) with 1; lia|].
  erewrite bind_done by exact Hr3. cbn beta iota.
  assert (forall x, ~ (slot <= x < slot + 4) -> ~ (a <= x < a + zlen w + 1) -> ~ (lo <= x < hi) -> m3 !! x = m !! x) as E3.
  { intros x Hx1 Hx2 Hx3. rewrite Hout3 by lia. by apply E2. }
  destruct (IH m3 space t' save' lo hi (i + 1) sp (a + zlen w + 1)) as (m4 & Hr4 & Hargs & Hch); unfold apart; try done; try lia.
  - apply (cstr_frame m); [|done]. change (zlen [32]) with 1. intros. apply E3; lia.
  - intros x Hx. rewrite E3 by lia. apply Hms. lia.
  - intros x Hx. rewrite E3 by lia. apply Hma. lia.
  - exists m4. rewrite Hr4. split; [done|].
    replace (sp + 4 * (3 + (i + 1))) with (slot + 4) in * by lia.
    assert (forall x, ~ (slot + 4 <= x < slot + 4 + 4 * zlen ws) -> ~ (a + zlen w + 1 <= x < a + zlen w + 1 + arg_bytes ws) ->
      ~ (lo <= x < hi) -> m4 !! x = m3 !! x) as E4.
    { intros x Hx1 Hx2 Hx3. apply Hch. repeat constructor; cbn; lia. }
    split; [split; [|split; [|done]]|].
    + apply (word_at_frame m1); [|apply store32_word; unfold is_u32; lia]. intros x Hx.
      rewrite E4, Hout3, Hout2 by lia. done.
    + apply (cstr_frame m2); [|done]. intros x Hx. rewrite E4, Hout3 by lia. done.
    + intros x Hx. rewrite !Forall_cons in Hx. cbn in Hx. destruct Hx as (Hx1 & Hx2 & Hx3 & _).
      rewrite E4, E3 by lia. done.
Qed.
(** A copy of the command in a buffer. *)
Lemma copy_command m buf cmd s : cstr m cmd s -> zlen s < 100 -> mapped m buf 100 -> 0 < buf -> 0 < cmd ->
  apart buf 100 cmd (zlen s + 1) ->
  exists m', strlcpy buf cmd (zlen s + 1) m = Done (zlen s, m') /\ cstr m' buf s /\
    forall x, ~ (buf <= x < buf + 100) -> m' !! x = m !! x.
Proof.
  intros Hc Hl Hm Hb Hp Hap. pose proof (zlen_nonneg s). unfold apart in Hap.
  destruct (strlcpy_run m buf cmd s (zlen s + 1)) as (m' & Hr & Hc' & Hout); [done|done|done|lia| |lia|].
  { intros x Hx. apply Hm. lia. }
  rewrite Z.add_simpl_r, take_ge in Hc' by (rewrite zlen_to_nat; lia).
  exists m'. split; [done|]. split; [done|]. intros x Hx. apply Hout. lia.
Qed.

(** Pairwise apart. *)
Fixpoint all_apart (l : list (Z * Z)) : Prop :=
  match l with
  | [] => True
  | b :: l => Forall (fun c => apart b.1 b.2 c.1 c.2) l /\ all_apart l
  end.

Record arg_layout (m : mem) (buf1 buf2 space cmd esp : Z) (s : list Z) : Prop := {
  al_cmd : cstr m cmd s;
  al_len : zlen s < 100;
  al_space : cstr m space [32];
  al_buf1 : mapped m buf1 100;
  al_buf2 : mapped m buf2 100;
  al_stack : bytes_at m (esp - 4096) (replicate 4096 0);
  al_pos : 0 < buf1 /\ 0 < buf2 /\ 0 < space /\ 0 < cmd /\ 4096 < esp <= 2 ^ 32;
  al_apart : all_apart [(buf1, 100); (buf2, 100); (space, 2); (cmd, zlen s + 1); (esp - 4096, 4096)]
}.

(** The first half of the function: the two copies, and what is counted. *)
Lemma copies_run m buf1 buf2 space cmd esp s : arg_layout m buf1 buf2 space cmd esp s ->
  exists m', copy_commands buf1 buf2 cmd m = Done (zlen s, m') /\
    cstr m' buf1 s /\ cstr m' buf2 s /\
    forall x, ~ (buf1 <= x < buf1 + 100) -> ~ (buf2 <= x < buf2 + 100) -> m' !! x = m !! x.
Proof.
  intros [Hc Hl Hs Hb1 Hb2 Hz (P1 & P2 & P3 & P4 & P5) Hap]. unfold all_apart in Hap.
  rewrite !Forall_cons in Hap. cbn [fst snd] in Hap. destruct Hap as ((A1 & A2 & A3 & A4 & _) & (B1 & B2 & B3 & _) & _).
  unfold apart in *. pose proof (zlen_nonneg s).
  unfold copy_commands. erewrite bind_done by (apply memset_correct; [done|done|done]).
  set (m1 := stored m buf1 _). assert (forall x, ~ (buf1 <= x < buf1 + 100) -> m1 !! x = m !! x) as E1 by (intros x Hx; by apply stored_outside).
  erewrite bind_done by (apply memset_correct; [done|done|by apply stored_mapped]).
  set (m2 := stored m1 buf2 _). assert (forall x, ~ (buf2 <= x < buf2 + 100) -> m2 !! x = m1 !! x) as E2 by (intros x Hx; by apply stored_outside).
  assert (cstr m2 cmd s) as Hc2 by (apply (cstr_frame m); [intros; rewrite E2, E1 by lia; done|done]).
  erewrite bind_done by (apply strlen_correct; done).
  destruct (copy_command m2 buf1 cmd s) as (m3 & Hr3 & Hc3 & E3); [done|done|by do 2 apply stored_mapped|done|done|unfold apart; lia|].
  erewrite bind_done by exact Hr3.
  assert (cstr m3 cmd s) as Hcc by (apply (cstr_frame m2); [intros; rewrite E3 by lia; done|done]).
  erewrite bind_done by (apply strlen_correct; done).
  destruct (copy_command m3 buf2 cmd s) as (m4 & Hr4 & Hc4 & E4); [done|done| |done|done|unfold apart; lia|].
  { assert (mapped m2 buf2 100) as Hm2 by (do 2 apply stored_mapped; done). intros x Hx. rewrite E3 by lia. by apply Hm2. }
  exists m4. split; [exact Hr4|]. split; [|split; [done|]].
  - apply (cstr_frame m3); [|done]. intros. apply E4. lia.
  - intros x Hx1 Hx2. rewrite E4, E3, E2, E1 by done. done.
Qed.

Lemma arg_bytes_two ds s : arg_bytes (words ds s) = 0 \/ 2 <= arg_bytes (words ds s).
Proof.
  pose proof (words_from_nonempty ds s []) as H. unfold words. destruct (words_from ds [] s) as [|w ws]; [by left|right].
  apply Forall_cons in H as [Hw _]. cbn. pose proof (arg_bytes_nonneg ws). pose proof (zlen_nonneg ws).
  destruct w as [|c w]; [done|]. rewrite zlen_cons. pose proof (zlen_nonneg w). lia.
Qed.

Definition arg_padding (n : Z) : Z := if n mod 4 =? 0 then 0 else 4 - n mod 4.

(** A buffer that holds the string, clear of the literal. *)
Definition buffer_ok (m : mem) (buf space : Z) (s : list Z) : Prop :=
  cstr m buf s /\ cstr m space [32] /\ 0 < buf /\ 0 < space /\ apart buf (zlen s + 1) space 2.

Lemma buffer_frame m m' buf space s : buffer_ok m buf space s -> (forall x, buf <= x <= buf + zlen s -> m' !! x = m !! x) ->
  (forall x, space <= x < space + 2 -> m' !! x = m !! x) -> buffer_ok m' buf space s.
Proof.
  intros (H1 & H2 & H3) E1 E2. split; [by apply (cstr_frame m)|]. split; [|done].
  apply (cstr_frame m); [|done]. change (zlen [32]) with 1. intros. apply E2. lia.
Qed.

Lemma count_tokens_run m buf space s q : buffer_ok m buf space s -> cstr m q s -> apart q (zlen s + 1) buf (zlen s + 1) ->
  exists m', count_tokens buf space m = Done ((zlen (words [32] s), arg_bytes (words [32] s)), m') /\ outside m m' buf (zlen s).
Proof.
  intros (Hc & Hs & Hb & Hp & Hap) Hq Hqb. unfold apart in *. pose proof (zlen_nonneg s).
  pose proof (words_bytes [32] s) as Hwb. pose proof (arg_bytes_nonneg (words [32] s)) as Hwl.
  destruct (strtok_start m buf space [32] s) as (m2 & t & save & Hr2 & Hout2 & Ht2);
    [done|done|done|done|unfold disjoint_from; change (zlen [32]) with 1; lia|].
  assert (cstr m2 q s) as Hq2 by (apply (cstr_frame m); [intros; apply Hout2; lia|done]).
  assert (cstr m2 space [32]) as Hs2 by (apply (cstr_frame m); [|done]; change (zlen [32]) with 1; intros; apply Hout2; lia).
  destruct (count_args_run (words [32] s) (S (size m2)) m2 space t save buf (buf + zlen s) 0 0) as (m3 & Hr3 & Hout3);
    [apply cstr_size in Hq2; unfold zlen in *; lia|done|done|done|done|lia|].
  exists m3. split; [|intros x Hx; rewrite Hout3, Hout2 by lia; done].
  unfold count_tokens. erewrite bind_done by exact Hr2. cbn beta iota. erewrite bind_done by done. exact Hr3.
Qed.

Lemma write_header_run m sp n : mapped m sp 12 -> is_u32 n -> 0 <= sp < 2 ^ 32 - 12 ->
  exists m', write_header sp n m = Done (tt, m') /\ word_at m' sp 0 /\ word_at m' (sp + 4) n /\ word_at m' (sp + 8) (sp + 12) /\
    outside m m' sp 12.
Proof.
  intros Hm Hn Hsp. unfold write_header.
  do 2 (erewrite bind_done by (apply store32_run; repeat apply stored_mapped; intros x Hx; apply Hm; lia)).
  eexists. split; [apply store32_run; repeat apply stored_mapped; intros x Hx; apply Hm; lia|].
  assert (forall v, zlen (le_bytes v) = 4) as E4 by done. split; [|split; [|split]].
  - eapply word_at_frame; [|by apply store32_word]. intros x Hx. rewrite !stored_outside by (rewrite ?E4; lia). done.
  - eapply word_at_frame; [|by apply store32_word]. intros x Hx. rewrite stored_outside by (rewrite ?E4; lia). done.
  - apply store32_word. unfold is_u32. lia.
  - intros x Hx. rewrite !stored_outside by (rewrite ?E4; lia). done.
Qed.

Lemma write_args_run m buf space s sp a : buffer_ok m buf space s ->
  let ws := words [32] s in
  mapped m (sp + 12) (4 * zlen ws) -> mapped m a (arg_bytes ws) -> 0 < sp -> sp + 12 + 4 * zlen ws <= a -> a + arg_bytes ws <= 2 ^ 32 ->
  apart (sp + 12) (a + arg_bytes ws - (sp + 12)) buf (zlen s + 1) -> apart (sp + 12) (a + arg_bytes ws - (sp + 12)) space 2 ->
  exists m', write_args buf space (zlen ws) sp a m = Done (tt, m') /\ args_at m' (sp + 12) a ws /\
    changes_only m m' [(sp + 12, 4 * zlen ws); (a, arg_bytes ws); (buf, zlen s)].
Proof.
  intros (Hc & Hs & Hb & Hp & Hap) ws Hm1 Hm2 Hsp Ha Hub Hd1 Hd2. unfold apart in *. pose proof (zlen_nonneg s).
  pose proof (zlen_nonneg ws). pose proof (arg_bytes_nonneg ws).
  destruct (strtok_start m buf space [32] s) as (m8 & t2 & save2 & Hr8 & Hout8 & Ht8);
    [done|done|done|done|unfold disjoint_from; change (zlen [32]) with 1; lia|]. fold ws in Ht8.
  destruct (place_args_run ws m8 space t2 save2 buf (buf + zlen s) 0 sp a) as (m9 & Hr9 & Hargs & Hch);
    unfold apart; try done; try lia.
  - apply (cstr_frame m); [|done]. change (zlen [32]) with 1. intros. apply Hout8. lia.
  - intros x Hx. rewrite Hout8 by lia. apply Hm1. lia.
  - intros x Hx. rewrite Hout8 by lia. apply Hm2. lia.
  - replace (sp + 4 * (3 + 0)) with (sp + 12) in * by lia. replace (buf + zlen s - buf) with (zlen s) in Hch by lia.
    exists m9. split; [|split; [done|]].
    + unfold write_args. erewrite bind_done by exact Hr8. cbn beta iota. by rewrite zlen_to_nat.
    + intros x Hx. rewrite Hch by done. apply Hout8. rewrite !Forall_cons in Hx. cbn in Hx. lia.
Qed.

(** Bytes, padding and slots of the arguments. *)
Lemma arg_sizes s : let ws := words [32] s in let pad := arg_padding (arg_bytes ws) in
  0 <= zlen ws <= zlen s + 1 /\ 0 <= arg_bytes ws <= zlen s + 1 /\ 0 <= pad <= 3 /\ (arg_bytes ws + pad) mod 4 = 0 /\ pad <= arg_bytes ws.
Proof.
  cbv zeta. pose proof (words_bytes [32] s). pose proof (arg_bytes_nonneg (words [32] s)).
  pose proof (arg_bytes_two [32] s) as H2. pose proof (zlen_nonneg (words [32] s)).
  split; [lia|]. split; [lia|]. unfold arg_padding. revert H2. generalize (arg_bytes (words [32] s)). clear. intros n H2.
  destruct (Z.eqb_spec (n mod 4) 0); dlia.
Qed.

Lemma zero_word_at m p : (forall x, p <= x < p + 4 -> m !! x = Some 0) -> word_at m p 0.
Proof.
  intros H. split; [|done]. apply bytes_at_intro. intros j b Hj.
  assert (j < 4)%nat as Hj4 by (by apply lookup_lt_Some in Hj). rewrite H by lia.
  destruct j as [|[|[|[|]]]]; cbn in Hj; try lia; done.
Qed.

(** C12: On a zeroed stack page format_stack_args leaves, from the new stack
    pointer on, a return address of 0, the number of words of the command, the
    address of argv, and argv: pointers to the words in order, each terminated,
    and a null pointer after the last.  The new stack pointer is aligned as the
    old one was. *)
Theorem format_stack_args_correct m buf1 buf2 space cmd esp s : arg_layout m buf1 buf2 space cmd esp s ->
  let ws := words [32] s in
  let pad := arg_padding (arg_bytes ws) in
  let sp := esp - (arg_bytes ws + pad) - 4 * (zlen ws + 4) in
  exists m', format_stack_args buf1 buf2 space cmd esp m = Done (sp, m') /\
    word_at m' sp 0 /\ word_at m' (sp + 4) (zlen ws) /\ word_at m' (sp + 8) (sp + 12) /\
    args_at m' (sp + 12) (esp - arg_bytes ws) ws /\ word_at m' (sp + 12 + 4 * zlen ws) 0 /\
    esp - 4096 <= sp /\ (sp - esp) mod 4 = 0.
Proof.
  intros Hlay ws pad sp. destruct (copies_run _ _ _ _ _ _ _ Hlay) as (m1 & Hr1 & Hc1 & Hc2 & E1).
  destruct Hlay as [Hc Hl Hs Hb1 Hb2 Hz (P1 & P2 & P3 & P4 & P5) Hap]. unfold all_apart in Hap.
  rewrite !Forall_cons in Hap. cbn [fst snd] in Hap.
  destruct Hap as ((A1 & A2 & A3 & A4 & _) & (B1 & B2 & B3 & _) & (C1 & C2 & _) & _). unfold apart in *.
  destruct (arg_sizes s) as (Hn & Hby & Hpad & Hmod & Hpb). fold ws pad in Hn, Hby, Hpad, Hmod, Hpb. pose proof (zlen_nonneg s).
  set (data := esp - (arg_bytes ws + pad)). assert (sp = data - 4 * (zlen ws + 4)) as Esp by done.
  assert (cstr m1 space [32]) as Hs1 by (apply (cstr_frame m); [|done]; change (zlen [32]) with 1; intros; apply E1; lia).
  assert (forall buf, 0 < buf -> cstr m1 buf s -> apart buf 100 space 2 -> buffer_ok m1 buf space s) as Hbuf.
  { unfold apart. intros buf Hb0 Hcb Hab. split; [done|]. split; [done|]. split; [done|]. split; [done|]. unfold apart. lia. }
  destruct (count_tokens_run m1 buf1 space s buf2) as (m3 & Hr3 & E3); [by apply Hbuf|done|unfold apart; lia|].
  assert (forall x, esp - 4096 <= x < esp -> m3 !! x = Some 0) as Hzero.
  { intros x Hx. rewrite E3, E1 by lia. replace x with (esp - 4096 + Z.of_nat (Z.to_nat (x - (esp - 4096)))) by lia.
    apply (bytes_at_lookup _ _ _ _ 0 Hz). apply lookup_replicate_2. lia. }
  destruct (write_header_run m3 sp (zlen ws)) as (m6 & Hr6 & W1 & W2 & W3 & E6);
    [intros x Hx; rewrite Hzero by lia; by eexists|unfold is_u32; lia|lia|].
  destruct (write_padding_run (Z.to_nat pad) 0 data m6) as (m7 & Hr7 & E7).
  { intros x Hx. rewrite E6, Hzero by lia. by eexists. }
  rewrite Z2Nat.id in Hr7, E7 by lia.
  assert (forall x, ~ (data <= x < esp) -> m7 !! x = m6 !! x) as E7' by (intros x Hx; destruct (E7 x) as [|[? _]]; [done|lia]).
  assert (forall x, data <= x < esp -> m7 !! x = Some 0) as Z7.
  { intros x Hx. destruct (E7 x) as [->|[_ ->]]; [|done]. rewrite E6 by lia. apply Hzero. lia. }
  destruct (write_args_run m7 buf2 space s sp (data + pad)) as (m9 & Hr9 & Hargs & Hch); unfold apart; fold ws; try lia.
  { apply (buffer_frame m1); [by apply Hbuf| |]; intros x Hx; rewrite E7', E6, E3 by lia; done. }
  { intros x Hx. rewrite E7', E6, Hzero by lia. by eexists. }
  { intros x Hx. rewrite Z7 by lia. by eexists. }
  fold ws in Hargs, Hch.
  assert (forall x, sp <= x < sp + 12 \/ data - 4 <= x < data -> m9 !! x = m6 !! x) as E9.
  { intros x Hx. rewrite Hch by (rewrite !Forall_cons, Forall_nil; cbn [fst snd]; lia). apply E7'. lia. }
  exists m9. split; [|split; [|split; [|split; [|split; [|split; [|split; [lia|]]]]]]].
  - unfold format_stack_args. erewrite bind_done by exact Hr1. erewrite bind_done by exact Hr3. cbn beta iota.
    fold ws. cbv zeta. fold (arg_padding (arg_bytes ws)). fold pad data. change (data - 4 * (zlen ws + 4)) with sp.
    erewrite bind_done by exact Hr6. erewrite bind_done by exact Hr7. by erewrite bind_done by exact Hr9.
  - apply (word_at_frame m6); [|done]. intros x Hx. apply E9. lia.
  - apply (word_at_frame m6); [|done]. intros x Hx. apply E9. lia.
  - apply (word_at_frame m6); [|done]. intros x Hx. apply E9. lia.
  - by replace (data + pad) with (esp - arg_bytes ws) in Hargs by lia.
  - replace (sp + 12 + 4 * zlen ws) with (data - 4) by lia. apply zero_word_at. intros x Hx. rewrite E9, E6 by lia. apply Hzero. lia.
  - rewrite Esp. unfold data. clear - Hmod. revert Hmod. generalize (arg_bytes ws + pad) (zlen ws). intros. dlia.
Qed.
End Arguments.

(** ** The command [ls -l] *)

Definition demo_zeros : mem := stored ∅ 1000 (replicate (Z.to_nat 7192) 0).
Definition demo_command : mem := stored (stored demo_zeros 1400 [32]) 1500 [108; 115; 32; 45; 108].

Lemma demo_zero x : 1000 <= x < 8192 -> demo_zeros !! x = Some 0.
Proof.
  intros Hx. replace x with (1000 + Z.of_nat (Z.to_nat (x - 1000))) by lia.
  apply (bytes_at_lookup _ (replicate (Z.to_nat 7192) 0)); [apply stored_bytes, Forall_replicate; done|].
  apply lookup_replicate_2. lia.
Qed.

#[global] Opaque demo_zeros.

Lemma demo_command_zero x : 1000 <= x < 8192 -> ~ (1400 <= x < 1401) -> ~ (1500 <= x < 1505) -> demo_command !! x = Some 0.
Proof.
  intros Hx H1 H2. unfold demo_command.
  rewrite stored_outside by (change (zlen _) with 5; lia). rewrite stored_outside by (change (zlen _) with 1; lia).
  by apply demo_zero.
Qed.

Lemma demo_arg_layout : arg_layout demo_command 1000 1200 1400 1500 8192 [108; 115; 32; 45; 108].
Proof.
  assert (forall p n, 1000 <= p -> p + n <= 8192 -> mapped demo_command p n) as Hm.
  { intros p n Hp Hn x Hx. apply stored_mapped with (q := x) (n := 1); [|lia]. apply stored_mapped.
    intros y Hy. rewrite demo_zero by lia. eexists. reflexivity. }
  split.
  - split; [|all_bytes]. apply bytes_at_app. split; [apply stored_bytes; all_bytes|].
    split; [|done]. change (zlen _) with 5. apply demo_command_zero; lia.
  - done.
  - split; [|all_bytes]. split; [|split; [|done]].
    + unfold demo_command. rewrite stored_outside by (change (zlen _) with 5; lia). cbn. apply lookup_insert_eq.
    + apply demo_command_zero; lia.
  - apply Hm; lia.
  - apply Hm; lia.
  - apply bytes_at_intro. intros i b Hi. apply lookup_replicate in Hi as [-> Hi]. apply demo_command_zero; lia.
  - lia.
  - unfold all_apart. rewrite !Forall_cons, !Forall_nil. unfold apart. cbn [fst snd]. change (zlen _) with 5. lia.
Qed.

Lemma format_stack_args_correct_witness :
  exists m', format_stack_args 1000 1200 1400 1500 8192 demo_command = Done (8160, m') /\
    word_at m' 8164 2 /\ args_at m' 8172 8186 [[108; 115]; [45; 108]].
Proof.
  destruct (format_stack_args_correct _ _ _ _ _ _ _ demo_arg_layout) as (m' & H1 & _ & H2 & _ & H3 & _).
  exists m'. exact (conj H1 (conj H2 H3)).
Defined.
