(* ===== verification/Process.v ===== *)
(** * userprog/process.c: the state of processes and loading a program

    The state of the whole system: the kernel of Kernel, the file system of FileSys,
    the memory of Pagedir, and what process.c and struct thread keep for
    processes.  Kernel addresses are addresses of memory; a user address goes
    through the active page directory.  The local buffers and literals lie at
    the addresses of [locals].  [thread_current ()] is the kernel's. *)

From S2P Require Import Prelude Vaddr KList Bitmap Block FileSys Kernel.
From S2P Require Import Mem CString Stdio Palloc Pagedir ArgStack.
From Stdlib Require Import(notations) String.

(** An entry of [procList]; its two list fields are never used. *)
Record sProcType := mk_proc {
  p_tid : Z;
  parent_tid : Z;
  sem_list_idx : Z;
  exit_status : Z
}.
Definition no_proc : sProcType := mk_proc 0 0 0 0.

(** The calls of process.c and syscall.c a thread is in when it makes a call of the
    kernel that may switch threads; what it has still to do after it. *)
Inductive uframe :=
  | UStart (command : Z)                  (* a new thread: start_process (command) *)
  | UCreated (cmd_copy : Z)               (* process_execute after thread_create *)
  | ULaunched (tid : Z)                   (* process_execute after sema_down (launched) *)
  | UWaited (p idx : Z)                   (* process_wait after sema_down (exiting) *)
  | UBody (nr : Z) (args : list Z)        (* a system call that holds filesys_lock *)
  | UStore                                (* f->eax = the value the call returned *)
  | URelease                              (* the lock_release after it *)
  | UExit.                                (* thread_exit after process_exit *)

(** The fields of struct thread that belong to processes. *)
Record uthread := mk_uthread {
  u_pagedir : Z;                          (* page directory *)
  fdt : list Z;                           (* fdh.fdt[i].pFile *)
  file_to_exe : Z;                        (* the executable, open *)
  todo : list uframe;                     (* unfinished calls, innermost first *)
  eax : Z;                                (* the value the last call returned *)
  user_eax : Z;                           (* interrupt frame: the registers of user code *)
  user_eip : Z;
  user_esp : Z
}.
Definition new_uthread (us : list uframe) : uthread := mk_uthread NULL (replicate 128 NULL) NULL us 0 0 0 0.

Record sys (dev : Type) := mk_sys {
  kern : kernel;
  store : fs dev;
  vm : mmu;
  uthreads : gmap Z uthread;
  procList : list sProcType;
  semList : list bool;                    (* semList[i].present *)
  semList_at : Z;                         (* the address of its semaphores *)
  first_pass : bool;
  filesys_lock : Z;
  console : list Z;                       (* characters written *)
  keyboard : list Z;                      (* keys to be read *)
  powered : bool
}.
Arguments mk_sys {dev}. Arguments kern {dev}. Arguments store {dev}. Arguments vm {dev}. Arguments uthreads {dev}.
Arguments procList {dev}. Arguments semList {dev}. Arguments semList_at {dev}. Arguments first_pass {dev}.
Arguments filesys_lock {dev}. Arguments console {dev}. Arguments keyboard {dev}. Arguments powered {dev}.

(** Addresses of local buffers and of string literals. *)
Record locals := mk_locals {
  load_buf : Z;                           (* cmdstrCpy1 of load *)
  args_buf1 : Z;                          (* cmdStrCpy1 of format_stack_args *)
  args_buf2 : Z;
  exit_buf : Z;                           (* nameSingle of sys_exit *)
  proc_locks : list (Z * Z);              (* list_lock, sem_list_lock, thread_create_lock and their semaphores *)
  lit_space : Z;                          (* " " *)
  lit_blanks : Z                          (* " \t\n" *)
}.

Section Setters.
Context {dev : Type}.
Implicit Types s : sys dev.

Definition set_kern k s := mk_sys k (store s) (vm s) (uthreads s) (procList s) (semList s) (semList_at s) (first_pass s) (filesys_lock s) (console s) (keyboard s) (powered s).
Definition set_store (f : fs dev) s := mk_sys (kern s) f (vm s) (uthreads s) (procList s) (semList s) (semList_at s) (first_pass s) (filesys_lock s) (console s) (keyboard s) (powered s).
Definition set_vm m s := mk_sys (kern s) (store s) m (uthreads s) (procList s) (semList s) (semList_at s) (first_pass s) (filesys_lock s) (console s) (keyboard s) (powered s).
Definition set_uthreads u s := mk_sys (kern s) (store s) (vm s) u (procList s) (semList s) (semList_at s) (first_pass s) (filesys_lock s) (console s) (keyboard s) (powered s).
Definition set_procs p s := mk_sys (kern s) (store s) (vm s) (uthreads s) p (semList s) (semList_at s) (first_pass s) (filesys_lock s) (console s) (keyboard s) (powered s).
Definition set_sems l s := mk_sys (kern s) (store s) (vm s) (uthreads s) (procList s) l (semList_at s) (first_pass s) (filesys_lock s) (console s) (keyboard s) (powered s).
Definition set_first_pass b s := mk_sys (kern s) (store s) (vm s) (uthreads s) (procList s) (semList s) (semList_at s) b (filesys_lock s) (console s) (keyboard s) (powered s).
Definition set_console c k s := mk_sys (kern s) (store s) (vm s) (uthreads s) (procList s) (semList s) (semList_at s) (first_pass s) (filesys_lock s) c k (powered s).
Definition power_off s := mk_sys (kern s) (store s) (vm s) (uthreads s) (procList s) (semList s) (semList_at s) (first_pass s) (filesys_lock s) (console s) (keyboard s) false.
End Setters.

Section Process.
Context {dev : Type} `{BlockDriver dev}.
Abbreviation Sys := (sys dev).

(** Run an operation of another component on its part of the state. *)
Definition on_kern {A} (c : M kernel A) : M Sys A := fun s => '(a, k) ← c (kern s); Done (a, set_kern k s).
Definition on_store {A} (c : M (fs dev) A) : M Sys A := fun s => '(a, f) ← c (store s); Done (a, set_store f s).
Definition on_vm {A} (c : M mmu A) : M Sys A := fun s => '(a, m) ← c (vm s); Done (a, set_vm m s).
Definition on_ram {A} (c : M ram A) : M Sys A := on_vm (on_pages c).
(** An operation on kernel addresses. *)
Definition on_mem {A} (c : M mem A) : M Sys A := on_ram (on_bytes c).

Definition get_uthread (t : Z) : M Sys uthread := load (fun s => uthreads s !! t).
Definition put_uthread (t : Z) (u : uthread) : M Sys unit := modify (fun s => set_uthreads (<[t := u]> (uthreads s)) s).
(** [thread_current ()], as a pointer and as its fields. *)
Definition current_thread : M Sys Z := on_kern thread_current.
Definition current_tid : M Sys Z := on_kern thread_tid.
Definition current_uthread : M Sys uthread := t ← current_thread; get_uthread t.
Definition update_current (f : uthread -> uthread) : M Sys unit :=
  t ← current_thread; u ← get_uthread t; put_uthread t (f u).

Definition with_pagedir pd u := mk_uthread pd (fdt u) (file_to_exe u) (todo u) (eax u) (user_eax u) (user_eip u) (user_esp u).
Definition with_fdt l u := mk_uthread (u_pagedir u) l (file_to_exe u) (todo u) (eax u) (user_eax u) (user_eip u) (user_esp u).
Definition with_exe f u := mk_uthread (u_pagedir u) (fdt u) f (todo u) (eax u) (user_eax u) (user_eip u) (user_esp u).
Definition with_todo l u := mk_uthread (u_pagedir u) (fdt u) (file_to_exe u) l (eax u) (user_eax u) (user_eip u) (user_esp u).
Definition with_eax v u := mk_uthread (u_pagedir u) (fdt u) (file_to_exe u) (todo u) v (user_eax u) (user_eip u) (user_esp u).
Definition with_user ax ip sp u := mk_uthread (u_pagedir u) (fdt u) (file_to_exe u) (todo u) (eax u) ax ip sp.

(** ** User memory

    The processor translates a user address with the active page directory; a
    write needs a writable page.  Where it would fault, so does the model. *)

Definition translate (write : bool) (a : Z) : M Sys Z :=
  if is_user_vaddr a then
    on_vm (pd ← active_pd;
           k ← pagedir_get_page pd a;
           if k =? NULL then fault
           else if write then w ← get_flag PTE_W pd a; if w then mret k else fault
           else mret k)
  else mret a.

Definition vload8 (a : Z) : M Sys Z := k ← translate false a; on_mem (load8 k).
Definition vstore8 (a v : Z) : M Sys unit := k ← translate true a; on_mem (store8 k v).

Fixpoint vload_bytes (n : nat) (a : Z) : M Sys (list Z) :=
  match n with
  | O => mret []
  | S n => b ← vload8 a; bs ← vload_bytes n (u32 (a + 1)); mret (b :: bs)
  end.
Fixpoint vstore_bytes (a : Z) (bs : list Z) : M Sys unit :=
  match bs with
  | [] => mret tt
  | b :: bs => vstore8 a b ;; vstore_bytes (u32 (a + 1)) bs
  end.

(** The string at [a]: no string is longer than the address space. *)
Definition read_vstring (a : Z) : M Sys (list Z) :=
  n ← loop (2 ^ 32) (fun i => c ← vload8 (u32 (a + i)); mret (if c =? 0 then inr i else inl (i + 1))) 0;
  vload_bytes (Z.to_nat n) a.

(** A word, byte by byte: it may cross a page. *)
Definition vload32 (a : Z) : M Sys Z :=
  bs ← vload_bytes 4 a; mret (le_word bs).

(** ** Process and semaphore tables *)

Definition at_tid (tid : Z) (p : sProcType) : bool := p_tid p =? tid.

(** The first index from [i] on whose element passes [f]. *)
Fixpoint first_index {A} (f : A -> bool) (i : Z) (l : list A) : option Z :=
  match l with
  | [] => None
  | a :: l => if f a then Some i else first_index f (i + 1) l
  end.

(** The index of the entry; [None] for NULL. *)
Definition fetch_process (tid : Z) : M Sys (option Z) := gets (fun s => first_index (at_tid tid) 0 (procList s)).

Definition add_proc_list_entry (process : sProcType) : M Sys Z :=
  i ← gets (fun s => first_index (at_tid 0) 0 (procList s));
  match i with
  | Some i => modify (fun s => set_procs (zset (procList s) i process) s) ;; mret i
  | None => mret (-1)
  end.

Definition launched (s : Sys) (i : Z) : Z := semList_at s + 2 * i.
Definition exiting (s : Sys) (i : Z) : Z := semList_at s + 2 * i + 1.

Definition add_sem_list_entry : M Sys Z :=
  i ← gets (fun s => first_index negb 0 (semList s));
  match i with
  | Some i =>
      s ← get;
      on_kern (sema_init (launched s i) 0) ;;
      on_kern (sema_init (exiting s i) 0) ;;
      modify (fun s => set_sems (zset (semList s) i true) s) ;; mret i
  | None => mret (-1)
  end.

(** ** Page directories of processes *)

(** [t->pagedir = pd]; the scheduler asks whether it is NULL. *)
Definition set_pagedir (pd : Z) : M Sys unit :=
  update_current (with_pagedir pd) ;;
  t ← current_thread;
  on_kern (th ← get_thread t;
           put_thread t (mk_thread (tid th) (status th) (t_name th) (stack th) (priority th) (negb (pd =? NULL)) (t_magic th) (frames th))).

(** [tss_update] is left out. *)
Definition process_activate : M Sys unit :=
  u ← current_uthread; on_vm (pagedir_activate (u_pagedir u)).

Definition install_page (upage kpage : Z) (writable : bool) : M Sys bool :=
  u ← current_uthread;
  k ← on_vm (pagedir_get_page (u_pagedir u) upage);
  if k =? NULL then on_vm (pagedir_set_page (u_pagedir u) upage kpage writable) else mret false.

(** ** Program headers *)

Record Elf32_Phdr := mk_phdr {
  p_type : Z;
  p_offset : Z;
  p_vaddr : Z;
  p_filesz : Z;
  p_memsz : Z;
  p_flags : Z
}.

Definition word_in (bs : list Z) (i : nat) : Z := le_word (take 4 (drop i bs)).
Definition half_in (bs : list Z) (i : nat) : Z :=
  match drop i bs with a :: b :: _ => a + b * 2 ^ 8 | _ => 0 end.

Definition phdr_of (bs : list Z) : Elf32_Phdr :=
  mk_phdr (word_in bs 0) (word_in bs 4) (word_in bs 8) (word_in bs 16) (word_in bs 20) (word_in bs 24).

(** [len] is [file_length (file)]. *)
Definition validate_segment (ph : Elf32_Phdr) (len : Z) : bool :=
  if negb (Z.land (p_offset ph) PGMASK =? Z.land (p_vaddr ph) PGMASK) then false
  else if u32 len <? p_offset ph then false
  else if p_memsz ph <? p_filesz ph then false
  else if p_memsz ph =? 0 then false
  else if negb (is_user_vaddr (p_vaddr ph)) then false
  else if negb (is_user_vaddr (u32 (p_vaddr ph + p_memsz ph))) then false
  else if u32 (p_vaddr ph + p_memsz ph) <? p_vaddr ph then false
  else if p_vaddr ph <? PGSIZE then false
  else true.

(** [printf]: the characters go to the console. *)
Definition print (format args : list Z) : M Sys unit :=
  out ← on_mem (printf format args); modify (fun s => set_console (console s ++ out) (keyboard s) s).

(** The characters of a kernel string; NULL makes the directory layer panic. *)
Definition read_string (p : Z) : M Sys (list Z) :=
  if p =? NULL then panic
  else n ← on_mem (strlen p); on_mem (load_bytes (Z.to_nat n) p).

(** ** Loading a segment *)

Fixpoint load_segment_loop (fuel : nat) (file upage read_bytes zero_bytes : Z) (writable : bool) : M Sys bool :=
  match fuel with
  | O => nofuel
  | S fuel =>
      if (0 <? read_bytes) || (0 <? zero_bytes) then
        let page_read_bytes := if read_bytes <? PGSIZE then read_bytes else PGSIZE in
        let page_zero_bytes := PGSIZE - page_read_bytes in
        kpage ← on_ram (palloc_get_page PAL_USER);
        if kpage =? NULL then mret false
        else
          bs ← on_store (file_read file page_read_bytes);
          on_mem (store_bytes kpage bs) ;;
          if negb (zlen bs =? page_read_bytes) then on_ram (palloc_free_page kpage) ;; mret false
          else
            _ ← on_mem (memset (kpage + page_read_bytes) 0 page_zero_bytes);
            ok ← install_page upage kpage writable;
            if negb ok then on_ram (palloc_free_page kpage) ;; mret false
            else
              load_segment_loop fuel file (u32 (upage + PGSIZE)) (u32 (read_bytes - page_read_bytes))
                (u32 (zero_bytes - page_zero_bytes)) writable
      else mret true
  end.

(** Every turn fills one page. *)
Definition load_segment (file ofs upage read_bytes zero_bytes : Z) (writable : bool) : M Sys bool :=
  ASSERT (u32 (read_bytes + zero_bytes) mod PGSIZE =? 0) ;;
  ASSERT (pg_ofs upage =? 0) ;;
  ASSERT (ofs mod PGSIZE =? 0) ;;
  on_store (file_seek file ofs) ;;
  load_segment_loop (S (Z.to_nat (u32 (read_bytes + zero_bytes) / PGSIZE))) file upage read_bytes zero_bytes writable.

(** ** The stack *)

(** Run a function that uses the one user page at [upage], which [kpage] holds: the
    function sees the page's bytes at the user addresses. *)
Definition in_user_page {A} (upage kpage : Z) (c : M mem A) : M mem A := fun m =>
  let addresses := seqZ upage PGSIZE in
  let see a (m' : mem) := match m !! (kpage + (a - upage)) with Some b => <[a := b]> m' | None => m' end in
  '(r, m1) ← c (foldr see m addresses);
  let back a (m' : mem) := match m1 !! a with Some b => <[kpage + (a - upage) := b]> (delete a m') | None => m' end in
  Done (r, foldr back m1 addresses).

Definition setup_stack (ls : locals) (cmdstr : Z) : M Sys (option Z) :=
  kpage ← on_ram (palloc_get_page (Z.lor PAL_USER PAL_ZERO));
  if kpage =? NULL then mret None
  else
    success ← install_page (PHYS_BASE - PGSIZE) kpage true;
    if success then
      esp ← on_mem (in_user_page (PHYS_BASE - PGSIZE) kpage
                      (format_stack_args (args_buf1 ls) (args_buf2 ls) (lit_space ls) cmdstr PHYS_BASE));
      mret (Some esp)
    else on_ram (palloc_free_page kpage) ;; mret None.
End Process.

(** ** Which segments are accepted *)

Record phdr_ok (ph : Elf32_Phdr) : Prop := {
  ph_offset : is_u32 (p_offset ph);
  ph_vaddr : is_u32 (p_vaddr ph);
  ph_filesz : is_u32 (p_filesz ph);
  ph_memsz : is_u32 (p_memsz ph)
}.

(** Validate_segment accepts a header exactly when offset and address agree
    within a page, the offset is in the file, the segment is not empty and at
    least as long as its part of the file, and its addresses, as numbers that do
    not wrap, lie between the first page and the kernel. *)
Theorem validate_segment_correct ph len : phdr_ok ph -> 0 <= len < 2 ^ 31 ->
  validate_segment ph len = true <->
  (p_offset ph mod PGSIZE = p_vaddr ph mod PGSIZE /\ p_offset ph <= len /\ p_filesz ph <= p_memsz ph /\
   0 < p_memsz ph /\ PGSIZE <= p_vaddr ph /\ p_vaddr ph + p_memsz ph < PHYS_BASE).
Proof.
  intros [Ho Hv Hf Hm] Hl. unfold validate_segment. change (Z.land (p_offset ph) PGMASK) with (pg_ofs (p_offset ph)).
  change (Z.land (p_vaddr ph) PGMASK) with (pg_ofs (p_vaddr ph)). rewrite !pg_ofs_mod.
  unfold is_user_vaddr, is_u32, PHYS_BASE in *. rewrite (u32_small len) by lia.
  assert (PGSIZE = 4096) as Epg by done. rewrite Epg.
  assert (u32 (p_vaddr ph + p_memsz ph) = p_vaddr ph + p_memsz ph \/
    (2 ^ 32 <= p_vaddr ph + p_memsz ph /\ u32 (p_vaddr ph + p_memsz ph) = p_vaddr ph + p_memsz ph - 2 ^ 32)) as Hw.
  { destruct (decide (p_vaddr ph + p_memsz ph < 2 ^ 32)); [left; apply u32_small; lia|right].
    split; [lia|]. unfold u32. rewrite <- (Z.mod_unique _ _ 1 (p_vaddr ph + p_memsz ph - 2 ^ 32)); lia. }
  repeat match goal with
  | |- context [negb (?a =? ?b)] => destruct (Z.eqb_spec a b); cbn [negb]
  | |- context [negb (?a <? ?b)] => destruct (Z.ltb_spec a b); cbn [negb]
  | |- context [if ?a <? ?b then _ else _] => destruct (Z.ltb_spec a b)
  | |- context [if ?a =? ?b then _ else _] => destruct (Z.eqb_spec a b)
  end; split; intros; try done; lia.
Qed.

Lemma validate_segment_correct_witness :
  validate_segment (mk_phdr 1 0x1000 0x8048000 0x234 0x300 5) 0x2000 = true <->
  (0x1000 mod PGSIZE = 0x8048000 mod PGSIZE /\ 0x1000 <= 0x2000 /\ 0x234 <= 0x300 /\ 0 < 0x300 /\ PGSIZE <= 0x8048000 /\
   0x8048000 + 0x300 < PHYS_BASE).
Proof.
  apply (validate_segment_correct (mk_phdr 1 0x1000 0x8048000 0x234 0x300 5) 0x2000); [split; by_decide|lia].
Defined.
