(* ===== verification/Syscall.v ===== *)
(** * userprog/syscall.c and process.c: calls that end, start and wait for processes

    A call that makes the kernel switch threads leaves what it has still to do on
    the [todo] of its thread and makes the kernel call; [run_todo] takes it up when
    the kernel's own frames of the thread are done.  [Gone] is the result of a
    call that does not return because the process has begun to exit. *)

From Stdlib Require Import Ascii.
From Stdlib Require Import(notations) String.
From S2P Require Import Prelude Vaddr KList Bitmap Block FileSys Kernel.
From S2P Require Import Mem CString Stdio Palloc Pagedir ArgStack Process.

(** lib/syscall-nr.h *)
Definition SYS_HALT : Z := 0.
Definition SYS_EXIT : Z := 1.
Definition SYS_EXEC : Z := 2.
Definition SYS_WAIT : Z := 3.
Definition SYS_CREATE : Z := 4.
Definition SYS_REMOVE : Z := 5.
Definition SYS_OPEN : Z := 6.
Definition SYS_FILESIZE : Z := 7.
Definition SYS_READ : Z := 8.
Definition SYS_WRITE : Z := 9.
Definition SYS_SEEK : Z := 10.
Definition SYS_TELL : Z := 11.
Definition SYS_CLOSE : Z := 12.

Inductive ctl (A : Type) := Next (a : A) | Gone.
Arguments Next {A} a.
Arguments Gone {A}.

Section Calls.
Context {dev : Type} `{BlockDriver dev} (ls : locals) (junk : list Z).
Abbreviation Sys := (sys dev).

(** A call of the kernel that may switch threads, and what comes after it. *)
Definition kernel_call (c : call) : M Sys unit := on_kern (run_call c).
Definition later (f : uframe) : M Sys unit := update_current (fun u => with_todo (f :: todo u) u).
Definition return_value (v : Z) : M Sys unit := update_current (with_eax v).

(** ** File descriptors *)

Definition descriptor (fd : Z) : M Sys Z := u ← current_uthread; load (fun _ => zget (fdt u) fd).
Definition set_descriptor (fd f : Z) : M Sys unit := update_current (fun u => with_fdt (zset (fdt u) fd f) u).
Definition valid_fd (fd : Z) : bool := (1 <? fd) && (fd <? 128).

Definition add_fdt_entry (pFile : Z) : M Sys Z :=
  u ← current_uthread;
  match first_index (fun f => f =? NULL) 2 (drop 2 (fdt u)) with
  | Some i => set_descriptor i pFile ;; mret i
  | None => mret (-1)
  end.

Definition sys_close (fd : Z) : M Sys unit :=
  if valid_fd fd then
    pFile ← descriptor fd;
    if negb (pFile =? NULL) then on_store (file_close pFile) ;; set_descriptor fd NULL else mret tt
  else mret tt.

Definition sys_filesize (fd : Z) : M Sys Z :=
  if valid_fd fd then
    pFile ← descriptor fd;
    if negb (pFile =? NULL) then on_store (file_length pFile) else mret (-1)
  else mret (-1).

(** [input_getc]; the keys come from outside. *)
Definition input_getc : M Sys Z := fun s =>
  match keyboard s with
  | k :: ks => Done (k, set_console (console s) ks s)
  | [] => NoFuel
  end.

Fixpoint read_keys (n : nat) (buffer : Z) : M Sys unit :=
  match n with
  | O => mret tt
  | S n => k ← input_getc; vstore8 buffer k ;; read_keys n (u32 (buffer + 1))
  end.

Definition sys_read (fd buffer size : Z) : M Sys Z :=
  if fd =? 1 then mret 0
  else if fd =? 0 then read_keys (Z.to_nat size) buffer ;; mret size
  else if valid_fd fd then
    pFile ← descriptor fd;
    if negb (pFile =? NULL) then
      bs ← on_store (file_read pFile (s32 size)); vstore_bytes buffer bs ;; mret (zlen bs)
    else mret (-1)
  else mret (-1).

(** [putbuf] *)
Definition putbuf (buffer size : Z) : M Sys unit :=
  out ← vload_bytes (Z.to_nat size) buffer; modify (fun s => set_console (console s ++ out) (keyboard s) s).

Definition sys_write (fd buffer size : Z) : M Sys Z :=
  if fd =? 0 then mret 0
  else if fd =? 1 then putbuf buffer size ;; mret size
  else if valid_fd fd then
    pFile ← descriptor fd;
    if negb (pFile =? NULL) then
      bs ← vload_bytes (Z.to_nat size) buffer; on_store (file_write pFile bs (s32 size))
    else mret (-1)
  else mret (-1).

Definition sys_seek (fd position : Z) : M Sys unit :=
  if valid_fd fd then
    pFile ← descriptor fd;
    if negb (pFile =? NULL) then on_store (file_seek pFile (s32 position)) else mret tt
  else mret tt.

Definition sys_tell (fd : Z) : M Sys Z :=
  if valid_fd fd then
    pFile ← descriptor fd;
    if negb (pFile =? NULL) then p ← on_store (file_tell pFile); mret (u32 p) else mret 0
  else mret 0.

Definition bad_name (nm : list Z) : bool := (NAME_MAX <? zlen nm) || (zlen nm =? 0).

Definition sys_create (file initial_size : Z) : M Sys bool :=
  nm ← read_vstring file;
  if bad_name nm then mret false else on_store (filesys_create junk nm (s32 initial_size)).

Definition sys_remove (file : Z) : M Sys bool :=
  nm ← read_vstring file;
  if bad_name nm then mret false else on_store (filesys_remove nm).

Definition sys_open (file : Z) : M Sys Z :=
  nm ← read_vstring file;
  if bad_name nm then mret (-1)
  else
    pFile ← on_store (filesys_open nm);
    if negb (pFile =? NULL) then add_fdt_entry pFile else mret (-1).

Definition sys_halt : M Sys unit := modify power_off.

(** ** Exit *)

Definition get_proc (i : Z) : M Sys sProcType := load (fun s => zget (procList s) i).
Definition put_proc (i : Z) (p : sProcType) : M Sys unit := modify (fun s => set_procs (zset (procList s) i p) s).

Definition process_exit : M Sys unit :=
  u ← current_uthread;
  let pd := u_pagedir u in
  (if negb (pd =? NULL) then
     set_pagedir NULL ;; on_vm (pagedir_activate NULL) ;; on_vm (pagedir_destroy pd)
   else mret tt) ;;
  tid ← current_tid;
  p ← fetch_process tid;
  idx ← (match p with Some i => q ← get_proc i; mret (sem_list_idx q) | None => mret (-1) end);
  if negb (idx =? -1) then s ← get; kernel_call (CSemaUp (exiting s idx)) else mret tt.

(** [thread_exit]: the rest is [UExit]. *)
Definition thread_exit_process : M Sys unit := on_kern assert_no_context ;; later UExit ;; process_exit.

(** Leave the exit status where process_wait finds it. *)
Definition record_exit (status : Z) : M Sys unit :=
  tid ← current_tid;
  p ← fetch_process tid;
  match p with
  | Some i => q ← get_proc i; put_proc i (mk_proc (p_tid q) (parent_tid q) (sem_list_idx q) status)
  | None => mret tt
  end.

(** The name is copied to the local buffer by strlcpy. *)
Definition sys_exit (status : Z) : M Sys unit :=
  t ← current_thread; th ← on_kern (get_thread t);
  _ ← on_mem (memset (exit_buf ls) 0 100);
  on_mem (store_bytes (exit_buf ls) (t_name th ++ [0])) ;;
  '(token, _) ← on_mem (strtok_r (exit_buf ls) (lit_space ls) (exit_buf ls));
  print (codes "%s: exit(%d)" ++ [10]) [token; u32 status] ;;
  for_z 128 sys_close ;;
  u ← current_uthread;
  (if negb (file_to_exe u =? NULL) then
     on_store (file_close (file_to_exe u)) ;; update_current (with_exe NULL)
   else mret tt) ;;
  record_exit status ;;
  thread_exit_process.

(** ** Loading a program *)

Definition sizeof_ehdr : Z := 52.
Definition sizeof_phdr : Z := 32.

Definition bad_header (hdr : list Z) : bool :=
  negb (zlen hdr =? sizeof_ehdr)
  || negb (bool_decide (take 7 hdr = [127; 69; 76; 70; 1; 1; 1]))
  || negb (half_in hdr 16 =? 2)
  || negb (half_in hdr 18 =? 3)
  || negb (word_in hdr 20 =? 1)
  || negb (half_in hdr 42 =? sizeof_phdr)
  || (1024 <? half_in hdr 44).

(** The arguments of load_segment for a header that has been accepted. *)
Definition segment_pages (ph : Elf32_Phdr) : Z * Z * Z * Z :=
  let file_page := Z.land (p_offset ph) (not32 PGMASK) in
  let mem_page := Z.land (p_vaddr ph) (not32 PGMASK) in
  let page_offset := Z.land (p_vaddr ph) PGMASK in
  let rounded := u32 (u32 (page_offset + p_memsz ph) + PGSIZE - 1) / PGSIZE * PGSIZE in
  if 0 <? p_filesz ph then
    let read_bytes := u32 (page_offset + p_filesz ph) in
    (file_page, mem_page, read_bytes, u32 (rounded - read_bytes))
  else (file_page, mem_page, 0, rounded).

(** The program headers that are left. *)
Fixpoint load_headers (n : nat) (file file_ofs : Z) : M Sys bool :=
  match n with
  | O => mret true
  | S n =>
      len ← on_store (file_length file);
      if (file_ofs <? 0) || (len <? file_ofs) then mret false
      else
        on_store (file_seek file file_ofs) ;;
        bs ← on_store (file_read file sizeof_phdr);
        if negb (zlen bs =? sizeof_phdr) then mret false
        else
          let ph := phdr_of bs in
          let file_ofs := s32 (file_ofs + sizeof_phdr) in
          if (p_type ph =? 2) || (p_type ph =? 3) || (p_type ph =? 5) then mret false
          else if p_type ph =? 1 then
            len ← on_store (file_length file);
            if validate_segment ph len then
              let writable := negb (Z.land (p_flags ph) 2 =? 0) in
              let '(file_page, mem_page, read_bytes, zero_bytes) := segment_pages ph in
              ok ← load_segment file (s32 file_page) mem_page read_bytes zero_bytes writable;
              if ok then load_headers n file file_ofs else mret false
            else mret false
          else load_headers n file file_ofs
  end.

(** The entry point and the stack pointer, or [None] for failure. *)
Definition load_program (cmdstr : Z) : M Sys (ctl (option (Z * Z))) :=
  _ ← on_mem (memset (load_buf ls) 0 100);
  pd ← on_vm pagedir_create;
  set_pagedir pd ;;
  if pd =? NULL then mret (Next None)
  else
    process_activate ;;
    n ← on_mem (strlen cmdstr);
    _ ← on_mem (strlcpy (load_buf ls) cmdstr (n + 1));
    '(file_name, _) ← on_mem (strtok_r (load_buf ls) (lit_blanks ls) (load_buf ls));
    nm ← read_string file_name;
    file ← on_store (filesys_open nm);
    if file =? NULL then
      print (codes "load: %s: open failed" ++ [10]) [file_name] ;; mret (Next None)
    else
      hdr ← on_store (file_read file sizeof_ehdr);
      if bad_header hdr then
        print (codes "load: %s: error loading executable" ++ [10]) [file_name] ;;
        sys_exit 12 ;; mret Gone
      else
        ok ← load_headers (Z.to_nat (half_in hdr 44)) file (s32 (word_in hdr 28));
        esp ← (if ok then setup_stack ls cmdstr else mret None);
        on_store (file_close file) ;;
        match esp with
        | Some esp =>
            nm ← read_string file_name;
            exe ← on_store (filesys_open nm);
            update_current (with_exe exe) ;;
            on_store (file_deny_write exe) ;;
            mret (Next (Some (word_in hdr 24, esp)))
        | None => mret (Next None)
        end.

(** The last act of start_process is the jump to user code. *)
Definition start_process (command : Z) : M Sys unit :=
  r ← load_program command;
  match r with
  | Gone => mret tt
  | Next r =>
      on_ram (palloc_free_page command) ;;
      match r with
      | None => sys_exit (-1)
      | Some (eip, esp) =>
          update_current (with_user 0 eip esp) ;;
          tid ← current_tid;
          p ← fetch_process tid;
          match p with
          | None => fault
          | Some i => q ← get_proc i; s ← get; kernel_call (CSemaUp (launched s (sem_list_idx q)))
          end
      end
  end.

(** ** Starting a process

    [command] may be a user address.  [page] is the page thread_create gets. *)

Fixpoint init_locks (l : list (Z * Z)) : M Sys unit :=
  match l with [] => mret tt | (lk, s) :: l => on_kern (lock_init lk s) ;; init_locks l end.

Definition process_execute (page : option Z) (command : Z) : M Sys unit :=
  fp ← gets first_pass;
  (if fp then init_locks (proc_locks ls) else mret tt) ;;
  cmd_copy ← on_ram (palloc_get_page 0);
  if cmd_copy =? NULL then return_value TID_ERROR
  else
    str ← read_vstring command;
    on_mem (store_bytes cmd_copy (take (Z.to_nat (PGSIZE - 1)) str ++ [0])) ;;
    later (UCreated cmd_copy) ;;
    (match page with
     | Some t => put_uthread t (new_uthread [UStart cmd_copy])
     | None => return_value TID_ERROR
     end) ;;
    kernel_call (CCreate page str PRI_DEFAULT).

(** After thread_create, which returned [tid]. *)
Definition process_created (cmd_copy tid : Z) : M Sys unit :=
  if tid =? TID_ERROR then
    on_ram (palloc_free_page cmd_copy) ;; modify (set_first_pass false) ;; return_value tid
  else
    fp ← gets first_pass;
    parent ← (if fp then mret 0 else current_tid);
    idx ← add_sem_list_entry;
    _ ← add_proc_list_entry (mk_proc tid parent idx 0);
    if idx <? 0 then fault
    else s ← get; later (ULaunched tid) ;; kernel_call (CSemaDown (launched s idx)).

Definition process_launched (tid : Z) : M Sys unit := modify (set_first_pass false) ;; return_value tid.

(** ** Waiting *)

Definition wait_done (i : Z) : M Sys unit :=
  p ← get_proc i; put_proc i no_proc ;; return_value (exit_status p).

Definition process_wait (child_tid : Z) : M Sys unit :=
  p ← fetch_process child_tid;
  match p with
  | None => return_value (-1)
  | Some i =>
      q ← get_proc i;
      let idx := sem_list_idx q in
      if negb (idx =? -1) then s ← get; later (UWaited i idx) ;; kernel_call (CSemaDown (exiting s idx))
      else wait_done i
  end.

Definition process_waited (i idx : Z) : M Sys unit :=
  modify (fun s => set_sems (zset (semList s) idx false) s) ;; wait_done i.

Definition sys_wait (pid : Z) : M Sys unit := process_wait pid.

(** [fn_cp] is a copy of the command on the heap; strtok_r cuts its first word. *)
Definition sys_exec (page : option Z) (cmd_line : Z) : M Sys unit :=
  str ← read_vstring cmd_line;
  fn_cp ← on_store malloc;
  ASSERT (negb (fn_cp =? NULL)) ;;
  match words [32] str with
  | [] => panic
  | w :: _ =>
      f ← on_store (filesys_open w);
      if f =? NULL then return_value (-1)
      else on_store (file_close f) ;; process_execute page cmd_line
  end.

(** ** The checks of arguments *)

Definition usr_ptr_check (ptr : Z) : M Sys bool :=
  if (ptr =? NULL) || negb (is_user_vaddr ptr) then mret false
  else u ← current_uthread; k ← on_vm (pagedir_get_page (u_pagedir u) ptr); mret (negb (k =? NULL)).

Definition str_check (str : Z) : M Sys bool :=
  loop (2 ^ 32) (fun idx =>
    ok ← usr_ptr_check (u32 (str + idx));
    if ok then c ← vload8 (u32 (str + idx)); mret (if c =? 0 then inr true else inl (idx + 1))
    else mret (inr false)) 0.

Definition buf_check (buffer size : Z) : M Sys bool :=
  loop (2 ^ 32) (fun idx =>
    ok ← usr_ptr_check (u32 (buffer + idx));
    if ok then mret (if (size =? 0) || (idx =? u32 (size - 1)) then inr true else inl (idx + 1))
    else mret (inr false)) 0.

(** Checks combined with [||] in the source: the first that fails ends them. *)
Fixpoint all_checks (cs : list (M Sys bool)) : M Sys bool :=
  match cs with [] => mret true | c :: cs => ok ← c; if ok then all_checks cs else mret false end.

(** The word at [f->esp + n]. *)
Definition argument (esp n : Z) : M Sys Z := vload32 (u32 (esp + n)).

(** A call under filesys_lock, or the end of the process. *)
Definition locked_call (checks : list (M Sys bool)) (nr : Z) (args : M Sys (list Z)) : M Sys unit :=
  ok ← all_checks checks;
  if ok then
    l ← gets filesys_lock; a ← args;
    later (UBody nr a) ;; kernel_call (CAcquire l)
  else sys_exit (-1).

Definition args1 (esp : Z) : M Sys (list Z) := a ← argument esp 4; mret [a].
Definition args2 (esp : Z) : M Sys (list Z) := a ← argument esp 4; b ← argument esp 8; mret [a; b].
Definition args3 (esp : Z) : M Sys (list Z) :=
  a ← argument esp 4; b ← argument esp 8; c ← argument esp 12; mret [a; b; c].

(** [usr_ptr_check (f->esp + 4 * i)] for the first [n] arguments. *)
Definition ptrs (esp : Z) (n : nat) : list (M Sys bool) :=
  (fun i => usr_ptr_check (u32 (esp + 4 * Z.of_nat i))) <$> seq 1 n.
Definition str_arg (esp : Z) : M Sys bool := a ← argument esp 4; str_check a.
Definition buf_arg (esp : Z) : M Sys bool := b ← argument esp 8; n ← argument esp 12; buf_check b n.

Definition syscall_handler (esp : Z) : M Sys unit :=
  ok ← usr_ptr_check esp;
  if negb ok then sys_exit (-1)
  else
    nr ← vload32 esp;
    if nr =? SYS_HALT then sys_halt
    else if nr =? SYS_EXIT then
      ok ← all_checks (ptrs esp 1);
      if ok then status ← argument esp 4; sys_exit (s32 status) else sys_exit (-1)
    else if nr =? SYS_EXEC then locked_call (ptrs esp 1 ++ [str_arg esp]) nr (args1 esp)
    else if nr =? SYS_WAIT then
      ok ← all_checks (ptrs esp 1);
      if ok then pid ← argument esp 4; later UStore ;; sys_wait (s32 pid) else sys_exit (-1)
    else if nr =? SYS_CREATE then locked_call (ptrs esp 2 ++ [str_arg esp]) nr (args2 esp)
    else if nr =? SYS_REMOVE then locked_call (ptrs esp 1 ++ [str_arg esp]) nr (args1 esp)
    else if nr =? SYS_OPEN then locked_call (ptrs esp 1 ++ [str_arg esp]) nr (args1 esp)
    else if nr =? SYS_FILESIZE then locked_call (ptrs esp 1) nr (args1 esp)
    else if nr =? SYS_READ then locked_call (ptrs esp 3 ++ [buf_arg esp]) nr (args3 esp)
    else if nr =? SYS_WRITE then locked_call (ptrs esp 3 ++ [buf_arg esp]) nr (args3 esp)
    else if nr =? SYS_SEEK then locked_call (ptrs esp 2) nr (args2 esp)
    else if nr =? SYS_TELL then locked_call (ptrs esp 1) nr (args1 esp)
    else if nr =? SYS_CLOSE then
      ok ← all_checks (ptrs esp 1);
      if ok then fd ← argument esp 4; sys_close (s32 fd) else sys_exit (-1)
    else print (codes "Unknown Sys Call!") [] ;; thread_exit_process.

(** The body of a call that holds the lock; [f->eax] is set from its value. *)
Definition store_value {A} (f : A -> Z) (c : M Sys A) : M Sys unit := v ← c; return_value (f v) ;; later UStore.

Definition run_body (page : option Z) (nr : Z) (args : list Z) : M Sys unit :=
  later URelease ;;
  match args with
  | [a] =>
      if nr =? SYS_EXEC then later UStore ;; sys_exec page a
      else if nr =? SYS_REMOVE then store_value Z.b2z (sys_remove a)
      else if nr =? SYS_OPEN then store_value (fun v => v) (sys_open a)
      else if nr =? SYS_FILESIZE then store_value (fun v => v) (sys_filesize (s32 a))
      else _ ← sys_tell (s32 a); mret tt
  | [a; b] =>
      if nr =? SYS_CREATE then store_value Z.b2z (sys_create a b)
      else sys_seek (s32 a) b
  | [a; b; c] =>
      if nr =? SYS_READ then store_value (fun v => v) (sys_read (s32 a) b c)
      else store_value (fun v => v) (sys_write (s32 a) b c)
  | _ => fault
  end.

(** ** Going on with an unfinished call *)

Definition run_frame (page : option Z) (f : uframe) : M Sys unit :=
  match f with
  | UStart command => start_process command
  | UCreated cmd_copy => u ← current_uthread; process_created cmd_copy (eax u)
  | ULaunched tid => process_launched tid
  | UWaited i idx => process_waited i idx
  | UBody nr args => run_body page nr args
  | UStore => update_current (fun u => with_user (eax u) (user_eip u) (user_esp u) u)
  | URelease => l ← gets filesys_lock; kernel_call (CRelease l)
  | UExit => kernel_call CExit
  end.

Definition run_todo (page : option Z) : M Sys unit :=
  u ← current_uthread;
  match todo u with
  | [] => fault
  | f :: fs => update_current (with_todo fs) ;; run_frame page f
  end.

(** A kernel frame of the running thread; [thread_create] returns the identifier
    it reads. *)
Definition run_kernel_frame : M Sys unit :=
  t ← gets (fun s => current (kern s));
  th ← on_kern (get_thread t);
  (match frames th with
   | FResult n :: _ => new ← on_kern (get_thread n); update_current (with_eax (tid new))
   | _ => mret tt
   end) ;;
  on_kern resume.

(** ** The whole system, step by step *)

Definition kernel_frames (s : Sys) : list frame :=
  match threads (kern s) !! current (kern s) with Some th => frames th | None => [] end.
Definition todo_of (s : Sys) : list uframe :=
  match uthreads s !! current (kern s) with Some u => todo u | None => [] end.

Inductive sstep (s s' : Sys) : Prop :=
  | ss_kernel : kernel_frames s <> [] -> run_kernel_frame s = Done (tt, s') -> sstep s s'
  | ss_timer : on_kern timer_interrupt s = Done (tt, s') -> sstep s s'
  | ss_idle : kernel_frames s = [] -> current (kern s) = idle_thread (kern s) -> on_kern idle_step s = Done (tt, s') -> sstep s s'
  | ss_todo page : kernel_frames s = [] -> todo_of s <> [] -> run_todo page s = Done (tt, s') -> sstep s s'
  | ss_syscall esp : kernel_frames s = [] -> todo_of s = [] -> is_Some (uthreads s !! current (kern s)) ->
      syscall_handler esp s = Done (tt, s') -> sstep s s'.
End Calls.
