(* ===== verification/UserMem.v ===== *)
(** * userprog/syscall.c: what the checks of user pointers guarantee

    The address space of a process as the map from user addresses to bytes that its
    page directory defines; the checks of syscall.c decide what is in it, and what
    they accept the kernel reads without a fault. *)

From S2P Require Import Prelude Vaddr KList Bitmap Block FileSys Kernel.
From S2P Require Import Mem CString Stdio Palloc Pagedir ArgStack Process Syscall.

(** The page table entry for [va]. *)
Definition entry (e : Z -> Z -> Z) (va : Z) : Z := e (pd_no va) (pt_no va).

Definition present (e : Z -> Z -> Z) (va : Z) : bool :=
  is_user_vaddr va && negb (Z.land (entry e va) PTE_P =? 0).

(** Addresses that the checks accept: the page at 0 is never among them. *)
Definition accessible (e : Z -> Z -> Z) (va : Z) : bool := negb (va =? NULL) && present e va.

(** The kernel address of the byte at [va]. *)
Definition frame_of (e : Z -> Z -> Z) (va : Z) : option Z :=
  match pte_get_page (entry e va) with Done k => Some (k + pg_ofs va) | _ => None end.

(** The page directory [pd] of the running process is active; [e] are the entries of
    its page tables, and the pages that are present hold bytes. *)
Record address_space {dev} (s : sys dev) (pd : Z) (d : Z -> Z) (e : Z -> Z -> Z) : Prop := {
  as_current : exists t u, thread_current (kern s) = Done (t, kern s) /\ uthreads s !! t = Some u /\ u_pagedir u = pd;
  as_active : active_pd (vm s) = Done (pd, vm s);
  as_dir : pagedir (pages (vm s)) pd d e;
  as_ram : ram_ok (pages (vm s));
  as_frames : forall va, 0 <= va -> present e va = true ->
    exists k c, frame_of e va = Some k /\ 0 < k /\ bytes (pages (vm s)) !! k = Some c
}.

Definition user_byte {dev} (s : sys dev) (e : Z -> Z -> Z) (va : Z) : option Z :=
  k ← frame_of e va; bytes (pages (vm s)) !! k.

(** The string [cs] with its terminator lies at [p], all of it accessible. *)
Definition user_string {dev} (s : sys dev) (e : Z -> Z -> Z) (p : Z) (cs : list Z) : Prop :=
  0 ∉ cs /\ forall i c, (cs ++ [0]) !! i = Some c ->
    accessible e (p + Z.of_nat i) = true /\ user_byte s e (p + Z.of_nat i) = Some c.

Section UserMem.
Context {dev : Type} `{BlockDriver dev} (s : sys dev) (pd : Z) (d : Z -> Z) (e : Z -> Z -> Z).
Context (Has : address_space s pd d e).

Lemma same_kern : set_kern (kern s) s = s.
Proof. by destruct s. Qed.
Lemma same_vm : set_vm (vm s) s = s.
Proof. by destruct s. Qed.

Lemma on_vm_same {A} (c : M mmu A) a : c (vm s) = Done (a, vm s) -> on_vm c s = Done (a, s).
Proof. intros E. unfold on_vm. rewrite (obind_done _ _ _ E). by rewrite same_vm. Qed.

Lemma on_kern_same {A} (c : M kernel A) a : c (kern s) = Done (a, kern s) -> on_kern c s = Done (a, s).
Proof. intros E. unfold on_kern. rewrite (obind_done _ _ _ E). by rewrite same_kern. Qed.

Lemma current_uthread_run : exists u, current_uthread s = Done (u, s) /\ u_pagedir u = pd.
Proof.
  destruct (as_current _ _ _ _ Has) as (t & u & Ht & Hu & Hpd). exists u. split; [|done].
  unfold current_uthread, current_thread. erewrite bind_done by (by apply on_kern_same).
  unfold get_uthread, load. by rewrite Hu.
Qed.

Lemma accessible_user va : accessible e va = true -> va <> NULL /\ is_user_vaddr va = true /\ present e va = true.
Proof.
  unfold accessible. intros [Hn Hp]%andb_prop. split_and!; [by apply Z.eqb_neq, negb_true_iff| |done].
  by apply andb_prop in Hp as [? _].
Qed.

Lemma frame_page va : 0 <= va -> present e va = true ->
  exists k c, pagedir_get_page pd va (vm s) = Done (k, vm s) /\ (k =? NULL) = false /\
    frame_of e va = Some k /\ bytes (pages (vm s)) !! k = Some c.
Proof.
  intros Hv Hp. destruct (as_frames _ _ _ _ Has va Hv Hp) as (k & c & Hf & Hk & Hc). exists k, c.
  unfold present in Hp. apply andb_prop in Hp as [Hu Hp]. split_and!; [|by apply Z.eqb_neq; unfold NULL; lia|done|done].
  rewrite (get_page_run (vm s) pd d e va (as_dir _ _ _ _ Has) (as_ram _ _ _ _ Has) Hu Hv).
  unfold frame_of, entry in *. unfold entry_page. rewrite Hp.
  destruct (pte_get_page (e (pd_no va) (pt_no va))); [|done..]. by injection Hf as <-.
Qed.

Lemma usr_ptr_check_run va : 0 <= va -> usr_ptr_check va s = Done (accessible e va, s).
Proof.
  intros Hv. unfold usr_ptr_check, accessible. destruct (va =? NULL); [done|]. destruct (is_user_vaddr va) eqn:Hu; cbn [orb negb andb].
  2: { unfold present. by rewrite Hu. }
  destruct current_uthread_run as (u & Hrun & Hpd). erewrite bind_done by exact Hrun. rewrite Hpd.
  destruct (present e va) eqn:Hp.
  - destruct (frame_page va Hv Hp) as (k & c & Hk & Hn & _). erewrite bind_done by (by apply on_vm_same). by rewrite Hn.
  - erewrite bind_done; [|apply on_vm_same; rewrite (get_page_run (vm s) pd d e va (as_dir _ _ _ _ Has) (as_ram _ _ _ _ Has) Hu Hv)].
    2: { unfold present, entry in Hp. rewrite Hu in Hp. cbn [andb] in Hp. unfold entry_page. by rewrite Hp. }
    done.
Qed.

Lemma translate_read va : 0 <= va -> accessible e va = true -> exists k c, translate false va s = Done (k, s) /\
  frame_of e va = Some k /\ bytes (pages (vm s)) !! k = Some c.
Proof.
  intros Hv (_ & Hu & Hp)%accessible_user. destruct (frame_page va Hv Hp) as (k & c & Hk & Hn & Hf & Hc). exists k, c.
  split; [|done]. unfold translate. rewrite Hu. apply on_vm_same. erewrite bind_done by apply (as_active _ _ _ _ Has).
  erewrite bind_done by exact Hk. by rewrite Hn.
Qed.

Lemma vload8_run va : 0 <= va -> accessible e va = true -> exists c, user_byte s e va = Some c /\ vload8 va s = Done (c, s).
Proof.
  intros Hv Ha. destruct (translate_read va Hv Ha) as (k & c & Ht & Hf & Hc). exists c.
  split; [unfold user_byte; by rewrite Hf|]. unfold vload8. erewrite bind_done by exact Ht. unfold on_mem, on_ram. apply on_vm_same.
  erewrite on_pages_run by (apply on_bytes_run; by apply load8_run). by destruct (vm s) as [[] ?].
Qed.

Lemma user_byte_some va c : 0 <= va -> accessible e va = true -> user_byte s e va = Some c -> vload8 va s = Done (c, s).
Proof. intros Hv Ha Hc. destruct (vload8_run va Hv Ha) as (c' & Hc' & ->). congruence. Qed.

Lemma accessible_range va : accessible e va = true -> va < PHYS_BASE.
Proof. intros (_ & Hu & _)%accessible_user. by apply Z.ltb_lt. Qed.

Lemma not_accessible va : PHYS_BASE <= va -> accessible e va = false.
Proof. intros Hv. destruct (accessible e va) eqn:E; [|done]. apply accessible_range in E. lia. Qed.

(** The least number that passes a test which some number passes. *)
Lemma least_such (P : Z -> Prop) `{!forall i, Decision (P i)} n : 0 <= n -> P n ->
  exists k, 0 <= k <= n /\ P k /\ forall i, 0 <= i < k -> ~ P i.
Proof.
  intros Hn HP. assert (forall m, (m <= Z.to_nat n)%nat -> (exists k, 0 <= k <= n /\ P k /\ forall i, 0 <= i < k -> ~ P i) \/
    forall i, 0 <= i < Z.of_nat m -> ~ P i) as Hm.
  { induction m as [|m IH]; intros Hle; [right; lia|]. destruct IH as [IH|IH]; [lia|by left|].
    destruct (decide (P (Z.of_nat m))) as [HPm|HPm]; [left; exists (Z.of_nat m); split_and!; [lia|lia|done|done]|right].
    intros i Hi. destruct (decide (i = Z.of_nat m)) as [->|]; [done|]. apply IH. lia. }
  destruct (Hm (Z.to_nat n)) as [Hk|Hno]; [lia|done|]. exists n. split_and!; [lia|lia|done|]. intros i Hi. apply Hno. lia.
Qed.

(** ** Strings *)

Lemma vload_bytes_run cs : forall p, 0 <= p ->
  (forall i c, cs !! i = Some c -> accessible e (p + Z.of_nat i) = true /\ user_byte s e (p + Z.of_nat i) = Some c) ->
  vload_bytes (length cs) p s = Done (cs, s).
Proof.
  induction cs as [|c cs IH]; intros p Hp Hcs; [done|]. cbn [vload_bytes length].
  destruct (Hcs 0%nat c) as [Ha Hc]; [done|]. rewrite Z.add_0_r in *. erewrite bind_done by (by apply user_byte_some).
  apply accessible_range in Ha as Hr. unfold PHYS_BASE in Hr. rewrite u32_small by lia.
  erewrite bind_done; [done|]. apply IH; [lia|]. intros i c' Hi. replace (p + 1 + Z.of_nat i) with (p + Z.of_nat (S i)) by lia.
  by apply Hcs.
Qed.

(** [b]: the check passes; the string is then what the kernel reads. *)
Lemma str_check_run p : 0 <= p < 2 ^ 32 -> exists b, str_check p s = Done (b, s) /\
  (b = true <-> exists cs, user_string s e p cs) /\
  (b = true -> exists cs, user_string s e p cs /\ read_vstring p s = Done (cs, s)).
Proof.
  intros Hp. set (stops i := accessible e (p + i) = false \/ user_byte s e (p + i) = Some 0).
  destruct (least_such stops (2 ^ 32 - 1)) as (k & Hk & Hstop & Hgo); [done|left; apply not_accessible; unfold PHYS_BASE; lia|].
  assert (forall i, 0 <= i < k -> accessible e (p + i) = true /\ exists c, user_byte s e (p + i) = Some c /\ c <> 0 /\ vload8 (p + i) s = Done (c, s)) as Hbefore.
  { intros i Hi. specialize (Hgo i Hi). unfold stops in Hgo. destruct (accessible e (p + i)) eqn:Ha; [|naive_solver]. split; [done|].
    destruct (vload8_run (p + i)) as (c & Hc & Hl); [lia|done|]. exists c. split_and!; [done| |done]. intros ->. naive_solver. }
  assert (forall i, 0 <= i <= k -> p + i < 2 ^ 32) as Hw.
  { intros i Hi. destruct (decide (i = 0)); [lia|]. destruct (Hbefore (i - 1)) as [Ha _]; [lia|].
    apply accessible_range in Ha. unfold PHYS_BASE in Ha. lia. }
  assert (forall cs, user_string s e p cs -> accessible e (p + k) = true) as Hstr.
  { intros cs [Hcs Hb]. destruct (accessible e (p + k)) eqn:Ha; [done|]. exfalso.
    destruct (decide (k < Z.of_nat (length (cs ++ [0])))) as [Hlt|Hge].
    - destruct (lookup_lt_is_Some_2 (cs ++ [0]) (Z.to_nat k)) as [c Hc]; [lia|]. apply Hb in Hc as [Hc _].
      rewrite Z2Nat.id in Hc by lia. congruence.
    - rewrite length_app in Hge. cbn in Hge. destruct (Hb (length cs) 0) as [_ Hz]; [by rewrite list_lookup_middle|].
      destruct (Hbefore (Z.of_nat (length cs))) as [_ (c & Hc & Hne & _)]; [lia|]. congruence. }
  exists (accessible e (p + k)).
  assert (str_check p s = Done (accessible e (p + k), s)) as Hrun.
  { apply loop_counted with k; [lia| |].
    - intros i Hi. destruct (Hbefore i Hi) as (Ha & c & _ & Hne & Hl). rewrite u32_small by (specialize (Hw i); lia).
      erewrite bind_done by (apply usr_ptr_check_run; lia). rewrite Ha. erewrite bind_done by exact Hl.
      by rewrite (proj2 (Z.eqb_neq c 0)).
    - rewrite u32_small by (specialize (Hw k); lia). erewrite bind_done by (apply usr_ptr_check_run; lia).
      destruct (accessible e (p + k)) eqn:Ha; [|done]. destruct Hstop as [Hstop|Hz]; [congruence|].
      erewrite bind_done by (by apply user_byte_some; [lia|..]). done. }
  split; [done|]. assert (accessible e (p + k) = true -> exists cs, user_string s e p cs /\ read_vstring p s = Done (cs, s)) as Hread.
  { intros Ha. destruct Hstop as [Hstop|Hz]; [congruence|].
    set (cs := (fun i => default 0 (user_byte s e (p + i))) <$> seqZ 0 k). exists cs.
    assert (forall i c, cs !! i = Some c -> 0 <= Z.of_nat i < k /\ accessible e (p + Z.of_nat i) = true /\ user_byte s e (p + Z.of_nat i) = Some c /\ c <> 0) as Hcs.
    { intros i c Hi. unfold cs in Hi. apply list_lookup_fmap_Some in Hi as (j & -> & Hj). apply lookup_seqZ in Hj as [-> Hj].
      rewrite Z.add_0_l. destruct (Hbefore (Z.of_nat i)) as (Hai & c & Hc & Hne & _); [lia|]. rewrite Hc. by split_and!; [lia|lia|..]. }
    assert (length cs = Z.to_nat k) as Hlen by (unfold cs; by rewrite length_fmap, length_seqZ).
    split; [split|].
    - intros (i & Hi)%list_elem_of_lookup. apply Hcs in Hi. naive_solver.
    - intros i c Hi. destruct (decide (i < length cs)%nat) as [Hlt|Hge].
      + rewrite lookup_app_l in Hi by lia. apply Hcs in Hi. naive_solver.
      + apply lookup_lt_Some in Hi as Hlt. rewrite length_app in Hlt. cbn in Hlt. assert (i = length cs) as -> by lia.
        rewrite list_lookup_middle in Hi by done. injection Hi as <-. rewrite Hlen, Z2Nat.id by lia. done.
    - unfold read_vstring. erewrite bind_done; [rewrite <- Hlen; apply vload_bytes_run; [lia|naive_solver]|].
      apply loop_counted with k; [lia| |].
      + intros i Hi. destruct (Hbefore i Hi) as (_ & c & _ & Hne & Hl). rewrite u32_small by (specialize (Hw i); lia).
        erewrite bind_done by exact Hl. by rewrite (proj2 (Z.eqb_neq c 0)).
      + rewrite u32_small by (specialize (Hw k); lia). erewrite bind_done by (by apply user_byte_some; [lia|..]). done. }
  split; [|done]. split; [intros Ha; destruct (Hread Ha) as (cs & Hs & _); by exists cs|]. intros (cs & Hs). by apply (Hstr cs).
Qed.

(** C10: str_check ends for every pointer a program passes, never faults and
    changes nothing; it accepts exactly the pointers to a string all of whose
    characters, the terminator included, the process can access, and the kernel
    then reads that string without a fault. *)
Theorem str_check_correct p : 0 <= p < 2 ^ 32 -> exists b, str_check p s = Done (b, s) /\
  (b = true <-> exists cs, user_string s e p cs) /\
  (b = true -> exists cs, user_string s e p cs /\ read_vstring p s = Done (cs, s)).
Proof. apply str_check_run. Qed.

(** ** Buffers *)

(** The bytes [buf_check] looks at: an empty buffer has one. *)
Definition checked_bytes (size : Z) : Z := Z.max 1 size.

Lemma buf_check_run p size : 0 <= p < 2 ^ 32 -> 0 <= size < 2 ^ 32 -> exists b, buf_check p size s = Done (b, s) /\
  (b = true <-> forall i, 0 <= i < checked_bytes size -> accessible e (p + i) = true).
Proof.
  intros Hp Hsz. set (stops i := accessible e (p + i) = false \/ i = checked_bytes size - 1).
  destruct (least_such stops (checked_bytes size - 1)) as (k & Hk & Hstop & Hgo); [unfold checked_bytes; lia|by right|].
  assert (forall i, 0 <= i < k -> accessible e (p + i) = true /\ i < checked_bytes size - 1) as Hbefore.
  { intros i Hi. specialize (Hgo i Hi). unfold stops in Hgo. destruct (accessible e (p + i)) eqn:Ha; [|naive_solver]. split; [done|].
    destruct (decide (i = checked_bytes size - 1)); [naive_solver|lia]. }
  assert (forall i, 0 <= i <= k -> p + i < 2 ^ 32) as Hw.
  { intros i Hi. destruct (decide (i = 0)); [lia|]. destruct (Hbefore (i - 1)) as [Ha _]; [lia|].
    apply accessible_range in Ha. unfold PHYS_BASE in Ha. lia. }
  assert (forall i, 0 <= i -> (size =? 0) || (i =? u32 (size - 1)) = (i =? checked_bytes size - 1) \/ checked_bytes size - 1 < i) as Hlast.
  { intros i Hi. unfold checked_bytes. destruct (Z.eqb_spec size 0) as [->|Hne]; cbn [orb].
    - destruct (Z.eqb_spec i (Z.max 1 0 - 1)); [by left|right; lia].
    - left. rewrite u32_small by lia. f_equal. lia. }
  exists (accessible e (p + k)). split.
  - apply loop_counted with k; [unfold checked_bytes in *; lia| |].
    + intros i Hi. destruct (Hbefore i Hi) as (Ha & Hne). rewrite u32_small by (specialize (Hw i); lia).
      erewrite bind_done by (apply usr_ptr_check_run; lia). rewrite Ha. destruct (Hlast i) as [->|]; [lia| |lia].
      by rewrite (proj2 (Z.eqb_neq _ _)) by lia.
    + rewrite u32_small by (specialize (Hw k); lia). erewrite bind_done by (apply usr_ptr_check_run; lia).
      destruct (accessible e (p + k)) eqn:Ha; [|done]. destruct Hstop as [Hstop|Hz]; [congruence|].
      destruct (Hlast k) as [->|]; [lia| |lia]. by rewrite (proj2 (Z.eqb_eq _ _) Hz).
  - split.
    + intros Ha i Hi. destruct Hstop as [Hstop|Hz]; [congruence|]. destruct (decide (i = k)) as [->|]; [done|].
      apply Hbefore. lia.
    + intros Hall. apply Hall. lia.
Qed.

Lemma checked_buffer_read p n : 0 <= p -> (forall i, 0 <= i < Z.of_nat n -> accessible e (p + i) = true) ->
  exists bs, vload_bytes n p s = Done (bs, s) /\ length bs = n /\
    forall i c, bs !! i = Some c -> user_byte s e (p + Z.of_nat i) = Some c.
Proof.
  intros Hp Hall. set (bs := (fun i => default 0 (user_byte s e (p + i))) <$> seqZ 0 (Z.of_nat n)).
  assert (length bs = n) as Hlen by (unfold bs; rewrite length_fmap, length_seqZ; lia).
  assert (forall i c, bs !! i = Some c -> accessible e (p + Z.of_nat i) = true /\ user_byte s e (p + Z.of_nat i) = Some c) as Hbs.
  { intros i c Hi. unfold bs in Hi. apply list_lookup_fmap_Some in Hi as (j & -> & Hj). apply lookup_seqZ in Hj as [-> Hj].
    rewrite Z.add_0_l. destruct (vload8_run (p + Z.of_nat i)) as (c & Hc & _); [lia|apply Hall; lia|]. rewrite Hc.
    split; [apply Hall; lia|done]. }
  exists bs. split; [rewrite <- Hlen at 1; by apply vload_bytes_run|]. split; [done|]. naive_solver.
Qed.

(** Buf_check ends for every pointer and size, never faults and changes
    nothing; it accepts exactly the buffers all of whose bytes the process can
    access (of an empty buffer it asks for one byte), so that the kernel reads an
    accepted buffer, as sys_write does, without a fault. *)
Theorem buf_check_correct p size : 0 <= p < 2 ^ 32 -> 0 <= size < 2 ^ 32 -> exists b, buf_check p size s = Done (b, s) /\
  (b = true <-> forall i, 0 <= i < checked_bytes size -> accessible e (p + i) = true) /\
  (b = true -> exists bs, vload_bytes (Z.to_nat size) p s = Done (bs, s) /\ zlen bs = size).
Proof.
  intros Hp Hsz. destruct (buf_check_run p size Hp Hsz) as (b & Hrun & Hiff). exists b. split; [done|]. split; [done|].
  intros Hb. destruct (checked_buffer_read p (Z.to_nat size)) as (bs & Hl & Hlen & _); [lia| |].
  { intros i Hi. apply Hiff; [done|]. unfold checked_bytes. lia. }
  exists bs. split; [done|]. unfold zlen. lia.
Qed.

(** ** Read-only pages *)

Lemma vstore8_read_only va v : 0 <= va -> accessible e va = true -> Z.land (entry e va) PTE_W = 0 -> vstore8 va v s = Fault.
Proof.
  intros Hv (_ & Hu & Hp)%accessible_user Hw. destruct (frame_page va Hv Hp) as (k & c & Hk & Hn & Hf & Hc).
  unfold vstore8, bnd at 1, mbind, M_bind. replace (translate true va s) with (@Fault (Z * sys dev)); [done|].
  unfold translate. rewrite Hu. unfold on_vm. rewrite (bind_done _ _ _ _ _ (as_active _ _ _ _ Has)).
  rewrite (bind_done _ _ _ _ _ Hk), Hn. unfold get_flag.
  erewrite bind_done; [|erewrite bind_done by exact (lookup_page_run (vm s) pd va d e (as_dir _ _ _ _ Has) (as_ram _ _ _ _ Has) Hu Hv)].
  2: { destruct (Z.eqb_spec (d (pd_no va)) 0) as [Hz|Hne]; [done|].
    rewrite (proj2 (Z.eqb_neq _ NULL)) by (by apply (entry_nonnull (pages (vm s)) pd d e); [apply Has|apply Has|..]).
    erewrite bind_done by (by eapply rd_run, entry_word; [apply Has|..]). unfold entry in Hw. by rewrite Hw. }
  done.
Qed.

End UserMem.

Lemma address_space_console {dev} (s : sys dev) pd d e c k : address_space s pd d e -> address_space (set_console c k s) pd d e.
Proof. intros []. by split. Qed.

(** The check of sys_read's buffer does not ask whether the process may
    write there: reading a key into a page that is read-only passes the check, and
    then the kernel itself faults. *)
Theorem read_only_buffer_faults {dev} `{BlockDriver dev} (s : sys dev) pd d e p k ks : address_space s pd d e -> 0 <= p < 2 ^ 32 ->
  accessible e p = true -> Z.land (entry e p) PTE_W = 0 -> keyboard s = k :: ks ->
  buf_check p 1 s = Done (true, s) /\ sys_read 0 p 1 s = Fault.
Proof.
  intros Has Hp Ha Hw Hk. split.
  - destruct (buf_check_run s pd d e Has p 1 Hp) as (b & Hrun & Hiff); [lia|]. rewrite Hrun.
    replace b with true; [done|]. symmetry. apply Hiff. intros i Hi. unfold checked_bytes in Hi. replace (p + i) with p by lia. done.
  - unfold sys_read. cbn [Z.eqb]. change (Z.to_nat 1) with 1%nat. cbn [read_keys].
    assert (input_getc s = Done (k, set_console (console s) ks s)) as Hin by (unfold input_getc; by rewrite Hk).
    unfold bnd at 1 2, mbind, M_bind. rewrite Hin. unfold bnd at 1, mbind, M_bind.
    by rewrite (vstore8_read_only _ pd d e (address_space_console s pd d e _ _ Has)) by (done || lia).
Qed.
