(* ===== verification/Fdtable.v ===== *)
(** * userprog/syscall.c: the table of file descriptors

    Each process has 128 slots; 0 and 1 are the console.  What the calls on
    descriptors do to the table, and what they do with descriptors that are not open. *)

From S2P Require Import Prelude Vaddr KList Bitmap Block FileSys Kernel.
From S2P Require Import Mem CString Stdio Palloc Pagedir ArgStack Process Syscall.

(** Thread [t] runs and has the process fields [u]. *)
Record running {dev} (s : sys dev) (t : Z) (u : uthread) : Prop := {
  run_current : thread_current (kern s) = Done (t, kern s);
  run_fields : uthreads s !! t = Some u
}.

(** The file behind a descriptor, if it is open. *)
Definition open_file (u : uthread) (fd : Z) : option Z :=
  if valid_fd fd then
    match zget (fdt u) fd with
    | Some f => if f =? NULL then None else Some f
    | None => None
    end
  else None.

(** [s] after the running thread's slot [fd] has been set. *)
Definition with_slot {dev} (t fd f : Z) (u : uthread) (s : sys dev) : sys dev :=
  set_uthreads (<[t := with_fdt (zset (fdt u) fd f) u]> (uthreads s)) s.

Lemma first_index_run {A} (f : A -> bool) l : forall i,
  match first_index f i l with
  | Some j => i <= j < i + zlen l /\ (exists a, zget l (j - i) = Some a /\ f a = true) /\
      forall k a, i <= k < j -> zget l (k - i) = Some a -> f a = false
  | None => forall a, a ∈ l -> f a = false
  end.
Proof.
  induction l as [|a l IH]; intros i; cbn [first_index]; [intros a Ha; by apply elem_of_nil in Ha|].
  assert (forall k, i < k -> zget (a :: l) (k - i) = zget l (k - (i + 1))) as Hs.
  { intros k Hk. unfold zget. rewrite !decide_True by lia. replace (Z.to_nat (k - i)) with (S (Z.to_nat (k - (i + 1)))) by lia. done. }
  destruct (f a) eqn:Ha.
  - rewrite zlen_cons. pose proof (zlen_nonneg l). split; [lia|]. split; [exists a; by rewrite Z.sub_diag|]. intros k b Hk. lia.
  - specialize (IH (i + 1)). destruct (first_index f (i + 1) l) as [j|].
    + destruct IH as (Hj & (b & Hb & Hfb) & Hlow). rewrite zlen_cons. split; [lia|].
      split; [exists b; by rewrite Hs by lia|]. intros k c Hk Hc. destruct (decide (k = i)) as [->|].
      * rewrite Z.sub_diag in Hc. injection Hc as <-. done.
      * rewrite Hs in Hc by lia. by apply (Hlow k); [lia|].
    + intros b [->|Hb]%elem_of_cons; [done|by apply IH].
Qed.

Section Fdtable.
Context {dev : Type} `{BlockDriver dev}.
Implicit Types (s : sys dev) (u : uthread).

Lemma set_kern_same s : set_kern (kern s) s = s.
Proof. by destruct s. Qed.
Lemma set_store_same s : set_store (store s) s = s.
Proof. by destruct s. Qed.

Lemma current_thread_run s t u : running s t u -> current_thread s = Done (t, s).
Proof. intros [Ht _]. unfold current_thread, on_kern. rewrite (obind_done _ _ _ Ht). by rewrite set_kern_same. Qed.

Lemma current_fields_run s t u : running s t u -> current_uthread s = Done (u, s).
Proof.
  intros Hr. unfold current_uthread. rewrite (bind_done _ _ _ _ _ (current_thread_run s t u Hr)).
  unfold get_uthread, load. by rewrite (run_fields _ _ _ Hr).
Qed.

Lemma update_current_run s t u f : running s t u ->
  update_current f s = Done (tt, set_uthreads (<[t := f u]> (uthreads s)) s).
Proof.
  intros Hr. unfold update_current. rewrite (bind_done _ _ _ _ _ (current_thread_run s t u Hr)).
  erewrite bind_done by (unfold get_uthread, load; by rewrite (run_fields _ _ _ Hr)). done.
Qed.

Lemma running_update s t u v : running s t u -> running (set_uthreads (<[t := v]> (uthreads s)) s) t v.
Proof. intros [H1 H2]. split; [done|]. apply lookup_insert_eq. Qed.

Lemma running_store s t u f : running s t u -> running (set_store f s) t u.
Proof. intros []. by split. Qed.

Lemma descriptor_run s t u fd f : running s t u -> zget (fdt u) fd = Some f -> descriptor fd s = Done (f, s).
Proof.
  intros Hr Hf. unfold descriptor. rewrite (bind_done _ _ _ _ _ (current_fields_run s t u Hr)). unfold load. by rewrite Hf.
Qed.

Lemma on_store_done {A} s (c : M (fs dev) A) a st : c (store s) = Done (a, st) -> on_store c s = Done (a, set_store st s).
Proof. intros E. unfold on_store. by rewrite (obind_done _ _ _ E). Qed.

Lemma open_file_slot u fd f : open_file u fd = Some f -> valid_fd fd = true /\ zget (fdt u) fd = Some f /\ (f =? NULL) = false.
Proof. unfold open_file. destruct (valid_fd fd), (zget (fdt u) fd) as [g|]; try done. destruct (g =? NULL) eqn:E; [done|]. by intros [= ->]. Qed.

Lemma closed_slot u fd : length (fdt u) = 128%nat -> valid_fd fd = true -> open_file u fd = None -> zget (fdt u) fd = Some NULL.
Proof.
  unfold open_file, valid_fd. intros Hl Hv. rewrite Hv. apply andb_prop in Hv as [H1%Z.ltb_lt H2%Z.ltb_lt].
  destruct (zget_Some (fdt u) fd) as [f Hf]; [unfold zlen; lia|]. rewrite Hf. destruct (Z.eqb_spec f NULL) as [->|]; done.
Qed.

Lemma add_fdt_entry_run s t u f : running s t u -> length (fdt u) = 128%nat -> 
  (add_fdt_entry f s = Done (-1, s) /\ forall fd, valid_fd fd = true -> open_file u fd <> None) \/
  exists fd, add_fdt_entry f s = Done (fd, with_slot t fd f u s) /\ valid_fd fd = true /\ zget (fdt u) fd = Some NULL /\
    forall fd', 1 < fd' < fd -> open_file u fd' <> None.
Proof.
  intros Hr Hl. unfold add_fdt_entry. rewrite (bind_done _ _ _ _ _ (current_fields_run s t u Hr)).
  assert (forall k, 2 <= k -> zget (drop 2 (fdt u)) (k - 2) = zget (fdt u) k) as Hd.
  { intros k Hk. unfold zget. rewrite !decide_True by lia. rewrite lookup_drop. f_equal. lia. }
  assert (zlen (drop 2 (fdt u)) = 126) as Hz by (unfold zlen; rewrite length_drop, Hl; done).
  pose proof (first_index_run (fun f => f =? NULL) (drop 2 (fdt u)) 2) as Hfi. rewrite Hz in Hfi.
  destruct (first_index _ 2 _) as [fd|].
  - right. exists fd. destruct Hfi as (Hfd & (a & Ha & Ea) & Hlow). rewrite Hd in Ha by lia. apply Z.eqb_eq in Ea as ->.
    split; [unfold set_descriptor; by rewrite (bind_done _ _ _ _ _ (update_current_run s t u _ Hr))|].
    assert (valid_fd fd = true) as Hv by (apply andb_true_intro; split; apply Z.ltb_lt; lia).
    split; [done|]. split; [done|]. intros fd' Hfd' E. assert (valid_fd fd' = true) as Hv' by (apply andb_true_intro; split; apply Z.ltb_lt; lia).
    apply (closed_slot u fd' Hl Hv') in E. specialize (Hlow fd' NULL). rewrite Hd in Hlow by lia. by specialize (Hlow ltac:(lia) E).
  - left. split; [done|]. intros fd Hv E. apply (closed_slot u fd Hl Hv) in E. apply andb_prop in Hv as [H1%Z.ltb_lt H2%Z.ltb_lt].
    rewrite <- Hd in E by lia. assert (NULL ∈ drop 2 (fdt u)) as Hin.
    { apply list_elem_of_lookup. exists (Z.to_nat (fd - 2)). unfold zget in E. by rewrite decide_True in E by lia. }
    apply Hfi in Hin. done.
Qed.

Lemma sys_close_run s t u fd f st : running s t u -> open_file u fd = Some f -> file_close f (store s) = Done (tt, st) ->
  sys_close fd s = Done (tt, with_slot t fd NULL u (set_store st s)).
Proof.
  intros Hr (Hv & Hf & Hn)%open_file_slot Hc. unfold sys_close. rewrite Hv.
  rewrite (bind_done _ _ _ _ _ (descriptor_run s t u fd f Hr Hf)), Hn. cbn [negb].
  rewrite (bind_done _ _ _ _ _ (on_store_done s _ _ _ Hc)). unfold set_descriptor.
  by rewrite (update_current_run _ t u _ (running_store s t u st Hr)).
Qed.

Lemma sys_close_closed s t u fd : running s t u -> length (fdt u) = 128%nat -> open_file u fd = None -> sys_close fd s = Done (tt, s).
Proof.
  intros Hr Hl Ho. unfold sys_close. destruct (valid_fd fd) eqn:Hv; [|done].
  by rewrite (bind_done _ _ _ _ _ (descriptor_run s t u fd NULL Hr (closed_slot u fd Hl Hv Ho))).
Qed.

Lemma zset_twice {A} (l : list A) i a b : zget l i = Some b -> zset (zset l i a) i b = l.
Proof.
  intros Hb. pose proof (zget_inv _ _ _ Hb) as Hi. apply zlist_eq; [by rewrite !zlen_zset|].
  rewrite !zlen_zset. intros j Hj. rewrite zget_zset by (by rewrite zlen_zset).
  case_decide as E; [by subst|]. by rewrite zget_zset_ne.
Qed.

(** C15: Opening a file takes the lowest descriptor that is free, or returns -1
    and changes nothing when the table is full; the new descriptor stands for the
    file and the others for what they stood for; closing it gives the file back and
    restores the table, and closing it twice does nothing. *)
Theorem descriptor_roundtrip s t u f : running s t u -> length (fdt u) = 128%nat -> f <> NULL ->
  (add_fdt_entry f s = Done (-1, s) /\ forall fd, valid_fd fd = true -> open_file u fd <> None) \/
  exists fd s1 u1, add_fdt_entry f s = Done (fd, s1) /\ running s1 t u1 /\ store s1 = store s /\
    open_file u fd = None /\ (forall fd', 1 < fd' < fd -> open_file u fd' <> None) /\
    open_file u1 fd = Some f /\ (forall fd', fd' <> fd -> open_file u1 fd' = open_file u fd') /\
    forall st, file_close f (store s) = Done (tt, st) ->
      exists s2, sys_close fd s1 = Done (tt, s2) /\ running s2 t u /\ store s2 = st /\ sys_close fd s2 = Done (tt, s2).
Proof.
  intros Hr Hl Hf. destruct (add_fdt_entry_run s t u f Hr Hl) as [Hfull|(fd & Hadd & Hv & Hslot & Hlow)]; [by left|right].
  pose proof (zget_inv _ _ _ Hslot) as Hin. set (u1 := with_fdt (zset (fdt u) fd f) u). exists fd, (with_slot t fd f u s), u1.
  assert (running (with_slot t fd f u s) t u1) as Hr1 by exact (running_update s t u _ Hr).
  assert (open_file u1 fd = Some f) as Ho1.
  { unfold open_file. rewrite Hv. cbn [u1 with_fdt fdt]. rewrite zget_zset_eq by done. by rewrite (proj2 (Z.eqb_neq _ _) Hf). }
  assert (open_file u fd = None) as Ho by (unfold open_file; by rewrite Hv, Hslot).
  split_and!; try done.
  - intros fd' Hne. unfold open_file. cbn [u1 with_fdt fdt]. by rewrite zget_zset_ne.
  - intros st Hc. eexists. split; [by apply (sys_close_run _ t u1 fd f)|].
    assert (running (with_slot t fd NULL u1 (set_store st (with_slot t fd f u s))) t u) as Hr2.
    { destruct Hr as [Hr1' Hr2']. split; [done|]. unfold with_slot. cbn [uthreads set_uthreads set_store].
      rewrite lookup_insert_eq. f_equal. unfold u1, with_fdt. cbn. rewrite zset_twice by done. by destruct u. }
    split; [done|]. split; [done|]. by apply (sys_close_closed _ t u).
Qed.

(** A call on a descriptor that is not open, whatever its number, returns its
    error value (-1, or 0 for tell) and changes nothing; on an open one it is the
    operation on the file. *)
Theorem descriptor_calls s t u fd buffer size : running s t u -> length (fdt u) = 128%nat ->
  match open_file u fd with
  | None =>
      sys_close fd s = Done (tt, s) /\ sys_filesize fd s = Done (-1, s) /\ sys_seek fd size s = Done (tt, s) /\
      sys_tell fd s = Done (0, s) /\
      (fd <> 0 -> fd <> 1 -> sys_read fd buffer size s = Done (-1, s) /\ sys_write fd buffer size s = Done (-1, s))
  | Some f =>
      sys_filesize fd s = on_store (file_length f) s /\ sys_seek fd size s = on_store (file_seek f (s32 size)) s /\
      sys_read fd buffer size s = (bs ← on_store (file_read f (s32 size)); vstore_bytes buffer bs ;; mret (zlen bs)) s /\
      sys_write fd buffer size s = (bs ← vload_bytes (Z.to_nat size) buffer; on_store (file_write f bs (s32 size))) s
  end.
Proof.
  intros Hr Hl. destruct (open_file u fd) as [f|] eqn:Ho.
  - apply open_file_slot in Ho as (Hv & Hf & Hn). pose proof (descriptor_run s t u fd f Hr Hf) as Hd.
    assert ((fd =? 0) = false /\ (fd =? 1) = false) as [H0 H1].
    { unfold valid_fd in Hv. apply andb_prop in Hv as [?%Z.ltb_lt ?]. split; apply Z.eqb_neq; lia. }
    unfold sys_filesize, sys_seek, sys_read, sys_write. rewrite Hv, H0, H1, !(bind_done _ _ _ _ _ Hd), Hn. done.
  - split; [by apply (sys_close_closed s t u)|]. unfold sys_filesize, sys_seek, sys_tell, sys_read, sys_write.
    destruct (valid_fd fd) eqn:Hv.
    + pose proof (descriptor_run s t u fd NULL Hr (closed_slot u fd Hl Hv Ho)) as Hd.
      rewrite !(bind_done _ _ _ _ _ Hd). split_and!; try done. intros H0 H1.
      rewrite (proj2 (Z.eqb_neq fd 0)), (proj2 (Z.eqb_neq fd 1)) by done. by rewrite !(bind_done _ _ _ _ _ Hd).
    + split_and!; try done. intros H0 H1. by rewrite (proj2 (Z.eqb_neq fd 0)), (proj2 (Z.eqb_neq fd 1)).
Qed.

(** Seek takes any unsigned position, and the kernel panics on the upper half
    of them: a process can stop the machine with one call on any open file. *)
Theorem seek_panics s t u fd f position : running s t u -> open_file u fd = Some f -> 2 ^ 31 <= position < 2 ^ 32 ->
  sys_seek fd position s = Panic.
Proof.
  intros Hr (Hv & Hf & Hn)%open_file_slot Hp. unfold sys_seek. rewrite Hv.
  rewrite (bind_done _ _ _ _ _ (descriptor_run s t u fd f Hr Hf)), Hn. cbn [negb]. unfold on_store, file_seek.
  rewrite Hn. erewrite (bind_done (ASSERT (negb false))) by done. replace (0 <=? s32 position) with false; [done|].
  symmetry. apply Z.leb_gt. unfold s32. rewrite <- (Z.mod_unique (position + 2 ^ 31) (2 ^ 32) 1 (position + 2 ^ 31 - 2 ^ 32)); lia.
Qed.
End Fdtable.
