(* ===== verification/Wait.v ===== *)
(** * userprog/process.c: exit and wait

    The protocol between a process that ends and the one that waits for it, over
    the kernel's semaphores: the slot of the process table, the semaphore
    [exiting] of its slot, and the threads. *)

From S2P Require Import Prelude Vaddr KList Bitmap Block FileSys Kernel KernelRuns Sched KernelSteps KernelSpec.
From S2P Require Import Mem CString Stdio Palloc Pagedir ArgStack Process Syscall Fdtable.

(** A process that runs between two calls, in a kernel whose invariant holds. *)
Record user_thread {dev} (s : sys dev) (t : Z) (u : uthread) : Prop := {
  ut_sched : sched (kern s) true None;
  ut_context : in_external_intr (kern s) = false;
  ut_current : current (kern s) = t;
  ut_process : t <> idle_thread (kern s);
  ut_frames : kernel_frames s = [];
  ut_fields : uthreads s !! t = Some u
}.

(** Slot [i] of the process table belongs to the process [c]; [idx] is its slot in
    the semaphore table and [sm] its semaphore [exiting]. *)
Record slot {dev} `{BlockDriver dev} (s : sys dev) (c i idx st : Z) (sm : semaphore) : Prop := {
  slot_first : first_index (at_tid c) 0 (procList s) = Some i;
  slot_entry : exists parent, zget (procList s) i = Some (mk_proc c parent idx st);
  slot_sem : idx <> -1;
  slot_at : exiting s idx <> NULL;
  slot_sema : semas (kern s) !! exiting s idx = Some sm
}.

(** No other slot belongs to [c]. *)
Definition one_slot {dev} (s : sys dev) (c i : Z) : Prop :=
  forall j p, zget (procList s) j = Some p -> p_tid p = c -> j = i.

Section Wait.
Context {dev : Type} `{BlockDriver dev} (ls : locals) (junk : list Z).
Implicit Types (s : sys dev) (u : uthread) (k : kernel).
Abbreviation sstep := (sstep ls junk).
Abbreviation run_todo := (run_todo ls junk).

(** ** Runs of the operations *)

Lemma user_thread_running s t u : user_thread s t u -> running s t u /\
  exists th, threads (kern s) !! t = Some th /\ frames th = [] /\ current_tid s = Done (tid th, s).
Proof.
  intros [Hs Hx Hc Hi Hf Hu]. destruct (KernelSpec.current_thread (kern s) Hs) as (th & Ht & Hr & Hm & H0).
  assert (thread_current (kern s) = Done (t, kern s)) as Hcur by (rewrite <- Hc; by apply (thread_current_run (kern s) th)).
  split; [by split|]. exists th. unfold kernel_frames in Hf. rewrite Hc in *. rewrite Ht in Hf. split; [done|]. split; [done|].
  enough (thread_tid (kern s) = Done (tid th, kern s)) as E.
  { unfold current_tid, on_kern. rewrite (obind_done _ _ _ E). by rewrite set_kern_same. }
  unfold thread_tid. erewrite bind_done by exact Hcur. unfold get_thread, load. erewrite bind_done by (by rewrite Ht). done.
Qed.

Lemma on_kern_run {A} s (c : M kernel A) a k : c (kern s) = Done (a, k) -> on_kern c s = Done (a, set_kern k s).
Proof. intros E. unfold on_kern. by rewrite (obind_done _ _ _ E). Qed.

Lemma fetch_run s c o : first_index (at_tid c) 0 (procList s) = o -> fetch_process c s = Done (o, s).
Proof. by intros <-. Qed.

Lemma get_proc_run s i p : zget (procList s) i = Some p -> get_proc i s = Done (p, s).
Proof. intros Hp. unfold get_proc, load. by rewrite Hp. Qed.

(** The frames of the running thread. *)
Definition with_frame (fr : list frame) (th : thread) (s : sys dev) : sys dev := set_kern (with_stack fr th (kern s)) s.

Lemma with_stack_same k th : threads k !! current k = Some th -> with_stack (frames th) th k = k.
Proof.
  intros Ht. unfold with_stack, with_thread. replace (with_frames (frames th) th) with th by (by destruct th).
  rewrite insert_id by done. by destruct k.
Qed.

Lemma kernel_call_push s th f c : threads (kern s) !! current (kern s) = Some th -> run_call c = push_frame f ->
  kernel_call c s = Done (tt, with_frame (f :: frames th) th s).
Proof. intros Ht Hc. unfold kernel_call. rewrite Hc. by erewrite on_kern_run by (by apply push_frame_run). Qed.

(** Taking up the innermost frame, which the kernel runs to [k']. *)
Lemma run_frame_run s th f fr k' : threads (kern s) !! current (kern s) = Some th -> frames th = f :: fr ->
  (forall n, f <> FResult n) -> resume_frame f (with_stack fr th (kern s)) = Done (tt, k') ->
  run_kernel_frame s = Done (tt, set_kern k' s).
Proof.
  intros Ht Hfr Hf Hrun. unfold run_kernel_frame. erewrite bind_done by done.
  erewrite bind_done by (apply on_kern_run; unfold get_thread, load; by rewrite Ht). rewrite set_kern_same, Hfr.
  erewrite bind_done; [|by destruct f; try done; destruct (Hf t)]. erewrite (on_kern_run _ resume _ k'); [done|].
  unfold resume. erewrite bind_done by done. erewrite bind_done by (unfold get_thread, load; by rewrite Ht).
  rewrite Hfr. by erewrite bind_done by done.
Qed.

Lemma run_kernel_frame_run s th f k' : threads (kern s) !! current (kern s) = Some th -> frames th = [] ->
  (forall n, f <> FResult n) -> resume_frame f (kern s) = Done (tt, k') ->
  run_kernel_frame (with_frame [f] th s) = Done (tt, set_kern k' s).
Proof.
  intros Ht Hfr Hf Hrun. unfold with_frame. set (k1 := with_stack [f] th (kern s)).
  rewrite (run_frame_run (set_kern k1 s) (with_frames [f] th) f [] k'); [done|apply lookup_insert_eq|done|done|].
  cbn [kern set_kern]. replace (with_stack [] (with_frames [f] th) k1) with (kern s); [done|]. unfold k1. rewrite with_stack_stack.
  change (with_stack [] (with_frames [f] th) (kern s)) with (with_stack [] th (kern s)).
  rewrite <- Hfr. by rewrite with_stack_same.
Qed.

Lemma update_current_at s t u f : running s t u -> update_current f s = Done (tt, set_uthreads (<[t := f u]> (uthreads s)) s).
Proof. apply update_current_run. Qed.

Lemma first_index_none {A} (f : A -> bool) l : forall i, (forall a, a ∈ l -> f a = false) -> first_index f i l = None.
Proof.
  induction l as [|a l IH]; intros i Hf; [done|]. cbn. rewrite (Hf a) by left. apply IH. intros b Hb. apply Hf. by right.
Qed.

Lemma slot_gone s c i : c <> 0 -> one_slot s c i -> first_index (at_tid c) 0 (zset (procList s) i no_proc) = None.
Proof.
  intros Hc Hone. apply first_index_none. intros p (j & Hj)%list_elem_of_lookup. apply Z.eqb_neq. intros E.
  rewrite <- zget_nat in Hj. destruct (decide (Z.of_nat j = i)) as [Ej|Ej].
  - rewrite Ej in Hj. pose proof (zget_inv _ _ _ Hj) as Hr. rewrite zlen_zset in Hr. rewrite zget_zset_eq in Hj by done.
    injection Hj as <-. cbn in E. lia.
  - rewrite zget_zset_ne in Hj by done. destruct Ej. by apply (Hone _ p).
Qed.

(** ** Waiting *)

(** [s] with the call of process_wait under way: the kernel's sema_down is next. *)
Definition waiting (t i idx : Z) (u : uthread) (th : thread) (s : sys dev) : sys dev :=
  with_frame [FDown (exiting s idx)] th (set_uthreads (<[t := with_todo (UWaited i idx :: todo u) u]> (uthreads s)) s).

Lemma process_wait_run s t u c i idx st sm : user_thread s t u -> slot s c i idx st sm ->
  exists th, threads (kern s) !! current (kern s) = Some th /\ frames th = [] /\ process_wait c s = Done (tt, waiting t i idx u th s).
Proof.
  intros Hut [Hfirst (parent & Hent) Hidx Hat Hsm]. destruct (user_thread_running s t u Hut) as (Hr & th & Ht & Hfr & _).
  rewrite <- (ut_current _ _ _ Hut) in Ht. exists th. split; [done|]. split; [done|]. unfold process_wait.
  erewrite bind_done by (by apply fetch_run). cbn beta iota.
  erewrite bind_done by (by apply get_proc_run). cbn [sem_list_idx].
  rewrite (proj2 (Z.eqb_neq _ _) Hidx). cbn [negb]. erewrite bind_done by done.
  erewrite bind_done by (by apply (update_current_at s t u)).
  erewrite (kernel_call_push _ th (FDown (exiting s idx))) by done. by rewrite Hfr.
Qed.

(** What process_wait leaves when it has returned [st]. *)
Record waited (s s' : sys dev) (t i idx st : Z) (u : uthread) : Prop := {
  wd_result : uthreads s' = <[t := with_eax st u]> (uthreads s);
  wd_procs : procList s' = zset (procList s) i no_proc;
  wd_sems : semList s' = zset (semList s) idx false;
  wd_store : store s' = store s;
  wd_vm : vm s' = vm s
}.

Lemma process_waited_run s t u c i idx st sm k : slot s c i idx st sm ->
  thread_current k = Done (t, k) ->
  exists s', (forall page, run_todo page (set_kern k (set_uthreads (<[t := with_todo (UWaited i idx :: todo u) u]> (uthreads s)) s)) = Done (tt, s')) /\
    kern s' = k /\ waited s s' t i idx st u.
Proof.
  intros [Hfirst (parent & Hent) Hidx Hat Hsm] Hcur. set (u1 := with_todo (UWaited i idx :: todo u) u).
  set (s2 := set_kern k _). assert (running s2 t u1) as Hr by (split; [done|apply lookup_insert_eq]).
  assert (forall v s0, thread_current (kern s0) = Done (t, kern s0) -> uthreads s0 = <[t := v]> (uthreads s) -> running s0 t v) as Hrun.
  { intros v s0 H1 H2. split; [done|]. rewrite H2. apply lookup_insert_eq. }
  eexists. split.
  - intros page. unfold Syscall.run_todo. erewrite bind_done by (by apply (current_fields_run s2 t u1)). cbn [todo u1 with_todo].
    erewrite bind_done by (by apply (update_current_at s2 t u1)). cbn [run_frame]. unfold process_waited.
    erewrite bind_done by done. unfold wait_done. erewrite bind_done by (by apply (get_proc_run _ i (mk_proc c parent idx st))).
    erewrite bind_done by done. unfold return_value. apply (update_current_at _ t u). apply Hrun; [done|].
    cbn. rewrite insert_insert_eq. f_equal. by destruct u.
  - split; [done|]. split; try done. cbn. by rewrite !insert_insert_eq.
Qed.

(** C9: process_wait for a child that has ended returns the child's exit status
    without blocking, frees both table slots, and takes the token of the semaphore;
    waiting for the same child again returns -1.  For a child that has not ended it
    blocks: the process joins the waiters of the child's semaphore and the kernel
    runs another thread. *)
Theorem process_wait_correct s t u c i idx st sm : user_thread s t u -> slot s c i idx st sm -> c <> 0 -> one_slot s c i ->
  exists s1, process_wait c s = Done (tt, s1) /\
    (value sm <> 0 -> exists s2 s', run_kernel_frame s1 = Done (tt, s2) /\ (forall page, run_todo page s2 = Done (tt, s')) /\
       rtc sstep s1 s' /\ waited s s' t i idx st u /\
       kern s' = with_sema (exiting s idx) (mk_sema (u32 (value sm - 1)) (waiters sm)) (kern s) /\
       process_wait c s' = Done (tt, set_uthreads (<[t := with_eax (-1) u]> (uthreads s)) s')) /\
    (value sm = 0 -> exists s', run_kernel_frame s1 = Done (tt, s') /\ sstep s1 s' /\ sched (kern s') true None /\
       semas (kern s') !! exiting s idx = Some (mk_sema 0 (waiters sm ++ [t])) /\ current (kern s') <> t /\
       procList s' = procList s /\ uthreads s' = <[t := with_todo (UWaited i idx :: todo u) u]> (uthreads s)).
Proof.
  intros Hut Hslot Hc Hone. destruct (process_wait_run s t u c i idx st sm Hut Hslot) as (th & Ht & Hfr & Hw).
  exists (waiting t i idx u th s). split; [done|].
  destruct (sema_down_run (kern s) (exiting s idx) sm (ut_sched _ _ _ Hut) (ut_context _ _ _ Hut) (slot_at _ _ _ _ _ _ Hslot))
    as [Hpos Hzero]; [rewrite (ut_current _ _ _ Hut); exact (ut_process _ _ _ Hut)|apply Hslot|].
  assert (kernel_frames (waiting t i idx u th s) <> []) as Hkf.
  { unfold kernel_frames, waiting, with_frame. cbn. by rewrite lookup_insert_eq. }
  assert (forall k', resume_frame (FDown (exiting s idx)) (kern s) = Done (tt, k') -> run_kernel_frame (waiting t i idx u th s) =
    Done (tt, set_kern k' (set_uthreads (<[t := with_todo (UWaited i idx :: todo u) u]> (uthreads s)) s))) as Hres.
  { intros k' Hk'. unfold waiting. by erewrite run_kernel_frame_run by done. }
  split; intros Hv.
  - specialize (Hpos Hv). specialize (Hres _ Hpos). set (k' := with_sema _ _ _) in *.
    destruct (KernelSpec.current_thread (kern s) (ut_sched _ _ _ Hut)) as (th' & Ht' & Hr' & Hm' & H0').
    assert (thread_current k' = Done (t, k')) as Hcur.
    { rewrite <- (ut_current _ _ _ Hut). by apply (thread_current_run k' th'). }
    destruct (process_waited_run s t u c i idx st sm k' Hslot Hcur) as (s' & Hrun & Hk & Hwd).
    eexists _, s'. split; [exact Hres|]. split; [exact Hrun|]. split_and!; [|done|done|].
    + eapply rtc_l; [by apply ss_kernel|]. eapply rtc_l; [|apply rtc_refl]. apply (ss_todo _ _ _ _ None); [| |exact (Hrun None)].
      * unfold kernel_frames. cbn. rewrite Ht. done.
      * unfold todo_of. cbn. rewrite (ut_current _ _ _ Hut), lookup_insert_eq. done.
    + destruct Hwd as [Hwu Hwp _ _ _]. unfold process_wait. erewrite bind_done by (apply fetch_run; rewrite Hwp; by apply slot_gone).
      unfold return_value. rewrite (update_current_at s' t (with_eax st u)).
      * rewrite Hwu, insert_insert_eq. do 4 f_equal. 
      * split; [by rewrite Hk|]. rewrite Hwu. apply lookup_insert_eq.
  - destruct (Hzero Hv) as (th' & k' & Ht' & Hd & Hsw & Hs'). specialize (Hres _ Hd). eexists. split; [exact Hres|].
    split; [by apply ss_kernel|]. split; [done|]. cbn [kern set_kern semas]. split_and!; try done.
    + rewrite (sw_semas _ _ Hsw). cbn. by rewrite lookup_insert_eq, (ut_current _ _ _ Hut), Hv.
    + intros E. cbn in E.
      assert (is_status k' t THREAD_RUNNING) as Hrn by (rewrite <- E; by apply (current_running k' None)).
      destruct (sc_wait _ _ _ Hs' (exiting s idx) (mk_sema 0 (waiters sm ++ [t])) t) as (_ & th2 & o & fr & Ht2 & Hb & _).
      { rewrite (sw_semas _ _ Hsw). cbn. by rewrite lookup_insert_eq, (ut_current _ _ _ Hut), Hv. }
      { cbn. apply elem_of_app. right. by left. }
      destruct Hrn as (th3 & Ht3 & Hr3). congruence.
Qed.

(** ** Exit *)

(** What becomes of the memory when a process with the fields [u] ends. *)
Definition directory_freed (u : uthread) (m m' : mmu) : Prop :=
  if u_pagedir u =? NULL then m' = m
  else (pagedir_activate NULL ;; pagedir_destroy (u_pagedir u)) m = Done (tt, m').

Definition ended (t : Z) (u : uthread) (s : sys dev) : gmap Z uthread :=
  <[t := with_todo (UExit :: todo u) (with_pagedir NULL u)]> (uthreads s).

Lemma slot_exit s c i idx st sm status : slot s c i idx st sm -> exists parent,
  zget (procList s) i = Some (mk_proc c parent idx st) /\
  first_index (at_tid c) 0 (zset (procList s) i (mk_proc c parent idx status)) = Some i /\
  zget (zset (procList s) i (mk_proc c parent idx status)) i = Some (mk_proc c parent idx status).
Proof.
  intros [Hfirst (parent & Hent) _ _ _]. exists parent. split; [done|]. pose proof (zget_inv _ _ _ Hent) as Hi.
  split; [|by apply zget_zset_eq]. generalize (mk_proc c parent idx status) (eq_refl : p_tid (mk_proc c parent idx status) = c).
  intros p Hp. revert Hfirst. clear -Hp. replace (zset (procList s) i p) with (zset (procList s) (i - 0) p) by (f_equal; lia).
  generalize 0. induction (procList s) as [|q l IH]; intros j Hf; [done|]. cbn [first_index] in Hf.
  assert (at_tid c p = true) as Hpt by (by apply Z.eqb_eq). destruct (at_tid c q) eqn:E.
  - injection Hf as ->. unfold zset. rewrite decide_True by lia. replace (Z.to_nat (i - i)) with 0%nat by lia. cbn. by rewrite Hpt.
  - pose proof (first_index_run (at_tid c) l (j + 1)) as Hr. rewrite Hf in Hr. destruct Hr as (Hr & _).
    unfold zset. rewrite decide_True by lia. replace (Z.to_nat (i - j)) with (S (Z.to_nat (i - (j + 1)))) by lia. cbn. rewrite E.
    specialize (IH (j + 1) Hf). unfold zset in IH. by rewrite decide_True in IH by lia.
Qed.

Lemma free_directory_run s t u m' : user_thread s t u -> directory_freed u (vm s) m' ->
  exists k, sched k true None /\ in_external_intr k = false /\ current k = t /\ idle_thread k = idle_thread (kern s) /\
    semas k = semas (kern s) /\ ready_list k = ready_list (kern s) /\
    (forall t', frames_of k t' = frames_of (kern s) t') /\ (tid <$> threads k !! t) = (tid <$> threads (kern s) !! t) /\
    (if negb (u_pagedir u =? NULL) then
       set_pagedir NULL ;; on_vm (pagedir_activate NULL) ;; on_vm (pagedir_destroy (u_pagedir u))
     else mret tt) s = Done (tt, set_kern k (set_vm m' (set_uthreads (<[t := with_pagedir NULL u]> (uthreads s)) s))).
Proof.
  intros Hut Hm. destruct (user_thread_running s t u Hut) as (Hr & th & Ht & Hfr & _). pose proof Hut as [Hs Hx Hc Hi Hf Hu].
  unfold directory_freed in Hm. destruct (Z.eqb_spec (u_pagedir u) NULL) as [E|E]; cbn [negb].
  - exists (kern s). split_and!; try done. subst m'. unfold mret, M_ret. do 2 f_equal.
    replace (with_pagedir NULL u) with u by (rewrite <- E; by destruct u). rewrite insert_id by done. by destruct s.
  - set (th' := mk_thread (tid th) (status th) (t_name th) (stack th) (priority th) (negb (NULL =? NULL)) (t_magic th) (frames th)).
    exists (with_thread t th' (kern s)). split_and!; try done.
    + rewrite <- Hc in *. by apply (sched_current (kern s) th th').
    + intros t'. by rewrite (frames_of_keep (kern s) t th th').
    + cbn. by rewrite lookup_insert_eq, Ht.
    + erewrite bind_done.
      2: { unfold set_pagedir. erewrite bind_done by (by apply (update_current_at s t u)).
        erewrite bind_done by (eapply current_thread_run, running_update, Hr).
        apply on_kern_run. cbn [kern set_uthreads]. erewrite bind_done by (unfold get_thread, load; by rewrite Ht). done. }
      apply bind_done_inv in Hm as ([] & m1 & Ha & Hd).
      unfold on_vm at 1. unfold bnd at 1, mbind at 1, M_bind at 1. cbn [vm set_kern set_uthreads]. rewrite (obind_done _ _ _ Ha).
      unfold on_vm. cbn [vm set_vm]. rewrite (obind_done _ _ _ Hd). done.
Qed.

Lemma user_thread_same s s' t u u' : user_thread s t u -> kern s' = kern s -> uthreads s' !! t = Some u' -> user_thread s' t u'.
Proof.
  intros [Hs Hx Hc Hi Hf Hu] Hk Hu'. split; unfold kernel_frames in *; rewrite ?Hk; try done.
Qed.

Lemma sema_up_token k x sm : sched k true None -> in_external_intr k = false -> x <> NULL -> semas k !! x = Some sm ->
  exists k', sema_up x k = Done (tt, k') /\ sched k' true None /\ current k' = current k /\
    semas k' !! x = Some (mk_sema (u32 (value sm + 1)) (tail (waiters sm))) /\
    ready_list k' = ready_list k ++ take 1 (waiters sm).
Proof.
  intros Hs Hx Hn Hsm. pose proof (sema_up_run k x sm Hs Hx Hn Hsm) as Hrun. eexists. split; [exact Hrun|].
  split; [by apply (keep_sema_up k Hs x tt)|]. destruct (waiters sm) as [|w ws] eqn:Hw.
  - cbn. by rewrite lookup_insert_eq, app_nil_r.
  - destruct (sc_wait _ _ _ Hs x sm w Hsm) as (_ & th & _ & _ & Ht & _); [rewrite Hw; by left|]. rewrite Ht.
    cbn. by rewrite lookup_insert_eq.
Qed.

Lemma record_exit_run s t u th i idx st sm status : user_thread s t u -> threads (kern s) !! t = Some th ->
  slot s (tid th) i idx st sm -> exists s', record_exit status s = Done (tt, s') /\ slot s' (tid th) i idx status sm /\
    kern s' = kern s /\ uthreads s' = uthreads s /\ vm s' = vm s.
Proof.
  intros Hut Ht Hslot. destruct (user_thread_running s t u Hut) as (Hr & th0 & Ht0 & Hfr & Htid). rewrite Ht in Ht0. injection Ht0 as <-.
  destruct (slot_exit s (tid th) i idx st sm status Hslot) as (parent & Hent & Hfirst' & Hent').
  exists (set_procs (zset (procList s) i (mk_proc (tid th) parent idx status)) s). split; [|split; [|done]].
  - unfold record_exit. erewrite bind_done by exact Htid. erewrite bind_done by (apply fetch_run, Hslot). cbn beta iota.
    by erewrite bind_done by (by apply get_proc_run).
  - destruct Hslot. split; try done. by exists parent.
Qed.

Lemma process_exit_run s t u th i idx st sm m' : user_thread s t u -> threads (kern s) !! t = Some th ->
  slot s (tid th) i idx st sm -> directory_freed u (vm s) m' ->
  exists k thc, process_exit s = Done (tt, with_frame [FUp (exiting s idx)] thc
      (set_kern k (set_vm m' (set_uthreads (<[t := with_pagedir NULL u]> (uthreads s)) s)))) /\
    sched k true None /\ in_external_intr k = false /\ current k = t /\ threads k !! t = Some thc /\ frames thc = [] /\
    semas k = semas (kern s) /\ ready_list k = ready_list (kern s).
Proof.
  intros Hut Ht Hslot Hm. destruct (free_directory_run s t u m' Hut Hm) as (k & Hks & Hkx & Hkc & Hki & Hksem & Hkr & Hkf & Hkt & Hrun).
  set (sc := set_kern k (set_vm m' (set_uthreads (<[t := with_pagedir NULL u]> (uthreads s)) s))) in *.
  assert (user_thread sc t (with_pagedir NULL u)) as Huc.
  { split; [exact Hks|exact Hkx|exact Hkc|change (t <> idle_thread k); rewrite Hki; exact (ut_process _ _ _ Hut)| |apply lookup_insert_eq].
    pose proof (ut_frames _ _ _ Hut) as Hfb. unfold kernel_frames, sc in *. cbn [kern set_kern] in *. rewrite Hkc.
    specialize (Hkf t). unfold frames_of in Hkf. rewrite Hkf, <- (ut_current _ _ _ Hut). exact Hfb. }
  destruct (user_thread_running sc t _ Huc) as (_ & thc & Htc & Hfrc & Htidc). change (kern sc) with k in Htc.
  assert (tid thc = tid th) as Hcc by (rewrite Htc, Ht in Hkt; by injection Hkt).
  exists k, thc. split; [|done]. destruct Hslot as [Hfirst (parent & Hent) Hidx _ _]. unfold process_exit.
  erewrite bind_done by (exact (current_fields_run s t u (proj1 (user_thread_running s t u Hut)))). cbn zeta.
  erewrite bind_done by exact Hrun. erewrite bind_done by exact Htidc. rewrite Hcc.
  erewrite bind_done by (by apply fetch_run). cbn beta iota.
  erewrite bind_done by (erewrite bind_done by (by apply get_proc_run); done).
  cbn [sem_list_idx]. rewrite (proj2 (Z.eqb_neq _ _) Hidx). cbn [negb]. erewrite bind_done by done. rewrite <- Hkc in Htc.
  erewrite (kernel_call_push sc thc (FUp (exiting s idx))) by done. by rewrite Hfrc.
Qed.

(** The end of a process: the status in its slot is not touched. *)
Lemma thread_exit_run s t u th i idx st sm m' : user_thread s t u ->
  threads (kern s) !! t = Some th -> slot s (tid th) i idx st sm -> directory_freed u (vm s) m' ->
  exists s1 s2, thread_exit_process s = Done (tt, s1) /\ run_kernel_frame s1 = Done (tt, s2) /\
    slot s2 (tid th) i idx st (mk_sema (u32 (value sm + 1)) (tail (waiters sm))) /\ sstep s1 s2 /\
    ready_list (kern s2) = ready_list (kern s) ++ take 1 (waiters sm) /\ sched (kern s2) true None /\
    uthreads s2 = ended t u s /\ vm s2 = m' /\ current (kern s2) = t /\ store s2 = store s.
Proof.
  intros Hut Ht Hslot Hm. set (ub := with_todo (UExit :: todo u) u). set (sb := set_uthreads (<[t := ub]> (uthreads s)) s).
  assert (user_thread sb t ub) as Hub by (apply (user_thread_same s sb t u); [done|done|apply lookup_insert_eq]).
  assert (slot sb (tid th) i idx st sm) as Hsb by (destruct Hslot; by split).
  destruct (process_exit_run sb t ub th i idx st sm m' Hub Ht Hsb Hm) as (k & thc & Hrun & Hks & Hkx & Hkc & Htc & Hfrc & Hsem & Hrl).
  set (sc := set_kern k _) in Hrun. pose proof Hsb as [Hfirst Hent Hidx Hat Hsm]. rewrite <- Hsem in Hsm. rewrite <- Hkc in Htc.
  destruct (sema_up_token k (exiting sb idx) sm Hks Hkx Hat Hsm) as (k' & Hup & Hs' & Hc' & Hsm' & Hrl').
  assert (run_kernel_frame (with_frame [FUp (exiting sb idx)] thc sc) = Done (tt, set_kern k' sc)) as Hres
    by by apply run_kernel_frame_run.
  exists (with_frame [FUp (exiting sb idx)] thc sc), (set_kern k' sc). split; [|split; [exact Hres|split_and!]]; try done.
  - unfold thread_exit_process. erewrite bind_done by (apply on_kern_run, no_context_run, Hut). rewrite set_kern_same.
    assert (running s t u) as Hra by apply (user_thread_running s t u Hut).
    by erewrite bind_done by (exact (update_current_at s t u (fun u => with_todo (UExit :: todo u) u) Hra)).
  - apply ss_kernel; [|done]. unfold kernel_frames, with_frame. cbn. by rewrite lookup_insert_eq.
  - change (kern s) with (kern sb). by rewrite <- Hrl.
  - unfold ended. cbn. by rewrite insert_insert_eq.
  - cbn. by rewrite Hc'.
Qed.

(** C8: A process that ends leaves its exit status in its slot, frees its memory
    and gives the token of its semaphore: if its parent waits there it goes to the
    end of the run queue.  The parent cannot see the token before the status. *)
Theorem exit_publishes_status s t u th i idx st sm status m' : user_thread s t u ->
  threads (kern s) !! t = Some th -> slot s (tid th) i idx st sm -> directory_freed u (vm s) m' ->
  exists s1 s2, (record_exit status ;; thread_exit_process) s = Done (tt, s1) /\ run_kernel_frame s1 = Done (tt, s2) /\
    slot s2 (tid th) i idx status (mk_sema (u32 (value sm + 1)) (tail (waiters sm))) /\ sstep s1 s2 /\
    ready_list (kern s2) = ready_list (kern s) ++ take 1 (waiters sm) /\ sched (kern s2) true None /\
    uthreads s2 = ended t u s /\ vm s2 = m' /\ current (kern s2) = t.
Proof.
  intros Hut Ht Hslot Hm. destruct (record_exit_run s t u th i idx st sm status Hut Ht Hslot) as (sa & Hrec & Hslot' & Ek & Eu & Ev).
  assert (user_thread sa t u) as Hua by (apply (user_thread_same s sa t u); [done|done|rewrite Eu; apply Hut]).
  rewrite <- Ev in Hm. rewrite <- Ek in Ht.
  destruct (thread_exit_run sa t u th i idx status sm m' Hua Ht Hslot' Hm) as (s1 & s2 & Hx & Hrun & Hs2 & Hstep & Hrl & Hsc & Hu2 & Hv & Hcu & _).
  exists s1, s2. split_and!; try done.
  - by erewrite bind_done by exact Hrec.
  - by rewrite Hrl, Ek.
  - rewrite Hu2. unfold ended. by rewrite Eu.
Qed.

(** C39: When the process that waits is woken it takes the token, and process_wait
    returns the status that is in the slot by then. *)
Theorem waiter_gets_status s t u th c i idx st sm old : sched (kern s) true None -> in_external_intr (kern s) = false ->
  current (kern s) = t -> threads (kern s) !! t = Some th -> frames th = [FSema (exiting s idx) old] ->
  uthreads s !! t = Some (with_todo (UWaited i idx :: todo u) u) -> slot s c i idx st sm -> value sm <> 0 ->
  exists s1 s', run_kernel_frame s = Done (tt, s1) /\ (forall page, run_todo page s1 = Done (tt, s')) /\
    uthreads s' = <[t := with_eax st u]> (uthreads s) /\ procList s' = zset (procList s) i no_proc /\
    semas (kern s') !! exiting s idx = Some (mk_sema (u32 (value sm - 1)) (waiters sm)) /\ intr_on (kern s') = old.
Proof.
  intros Hs Hx Hc Ht Hfr Hu Hslot Hv. set (x := exiting s idx) in *. subst t. set (t := current (kern s)) in *.
  set (k0 := with_stack [] th (kern s)). assert (sched k0 true None) as Hs0 by (apply sched_stack; [done|done|by rewrite Hfr]).
  assert (semas k0 !! x = Some sm) as Hsm by apply Hslot.
  destruct (intr_set_level_run old (with_sema x (mk_sema (u32 (value sm - 1)) (waiters sm)) k0)) as [o Ho]; [done|].
  set (k' := with_intr old _) in Ho. assert (resume_frame (FSema x old) k0 = Done (tt, k')) as Hres.
  { cbn [resume_frame]. unfold sema_down_loop. erewrite bind_done by (unfold get_sema, load; by rewrite Hsm).
    rewrite (proj2 (Z.eqb_neq _ _) Hv). erewrite bind_done by done. by erewrite bind_done by exact Ho. }
  destruct (KernelSpec.current_thread k0 Hs0) as (th' & Ht' & Hr' & Hm' & H0').
  assert (thread_current k' = Done (t, k')) as Hcur by (by apply (thread_current_run k' th')).
  set (s0 := set_uthreads (<[t := u]> (uthreads s)) s).
  destruct (process_waited_run s0 t u c i idx st sm k') as (s' & Hrun & Hk & [Hw1 Hw2 Hw3 Hw4 Hw5]); [by destruct Hslot; split|done|].
  exists (set_kern k' s), s'. split; [by apply (run_frame_run s th (FSema x old) [])|]. split_and!.
  - intros page. rewrite <- (Hrun page). f_equal. unfold s0. cbn. rewrite insert_insert_eq, insert_id by done. by destruct s.
  - rewrite Hw1. cbn. by rewrite insert_insert_eq.
  - by rewrite Hw2.
  - rewrite Hk. cbn. by rewrite lookup_insert_eq.
  - by rewrite Hk.
Qed.

(** ** Slots that are used again *)

(** The semaphore of a slot that is given away again is initialized even if a
    process still waits on it: that process stays blocked and no semaphore knows
    it, so nothing can wake it.  (Two processes may wait for one child: only one
    of them is woken, and it frees the slot.) *)
Theorem reused_slot_loses_waiter s idx sm t : sched (kern s) true None ->
  first_index negb 0 (semList s) = Some idx -> launched s idx <> NULL -> exiting s idx <> NULL ->
  semas (kern s) !! exiting s idx = Some sm -> t ∈ waiters sm ->
  exists s', add_sem_list_entry s = Done (idx, s') /\ is_status (kern s') t THREAD_BLOCKED /\
    (forall x sm', semas (kern s') !! x = Some sm' -> t ∉ waiters sm') /\ ~ sched (kern s') true None.
Proof.
  intros Hs Hfree Hl He Hsm Hin.
  destruct (sc_wait _ _ _ Hs _ _ _ Hsm Hin) as (Hni & th & o & fr & Ht & Hb & Hfr).
  set (k' := with_sema (exiting s idx) (mk_sema 0 []) (with_sema (launched s idx) (mk_sema 0 []) (kern s))).
  exists (set_sems (zset (semList s) idx true) (set_kern k' s)).
  assert (forall x sm', semas k' !! x = Some sm' -> t ∉ waiters sm') as Hno.
  { intros x sm' Hx Hin'. cbn in Hx. apply lookup_insert_Some in Hx as [[<- <-]|[Hne Hx]]; [by apply elem_of_nil in Hin'|].
    apply lookup_insert_Some in Hx as [[<- <-]|[_ Hx]]; [by apply elem_of_nil in Hin'|].
    destruct (sc_wait _ _ _ Hs _ _ _ Hx Hin') as (_ & th' & o' & fr' & Ht' & _ & Hfr'). congruence. }
  split; [|split; [by exists th|split; [exact Hno|]]].
  - unfold add_sem_list_entry. erewrite bind_done by done. rewrite Hfree. erewrite bind_done by done.
    assert (forall x s0, x <> NULL -> on_kern (sema_init x 0) s0 = Done (tt, set_kern (with_sema x (mk_sema 0 []) (kern s0)) s0)) as Hinit.
    { intros x s0 Hx. apply on_kern_run. unfold sema_init. rewrite (proj2 (Z.eqb_neq _ _) Hx). by erewrite bind_done by done. }
    erewrite bind_done by (by apply Hinit). erewrite bind_done by (by apply Hinit). done.
  - intros Hs'. destruct (sc_blocked _ _ _ Hs' t) as [E|[E|[(x & sm' & Hx & Hin')|(t' & th' & Ht' & Hc)]]].
    + by exists th.
    + done.
    + done.
    + by apply (Hno x sm').
    + destruct (sc_created _ _ _ Hs' t' th' t Ht' Hc) as (_ & th2 & Ht2 & _ & Hfr2). cbn in Ht2. congruence.
Qed.
End Wait.
