(* ===== verification/SysDemo.v ===== *)
(** * A system with one user process

    Inputs for the theorems on user memory and processes: thread 1 of the kernel of
    KernelDemo is a process with two pages, a read-only one at 0x8048000 and a
    writable one at 0x8049000 that holds a string; thread 3 is its child. *)

From S2P Require Import Prelude Vaddr KList Bitmap Block FileSys FsDemo Kernel KernelRuns Sched KernelSteps KernelDemo.
From S2P Require Import Mem CString Stdio Palloc Pagedir PagedirFree ArgStack Process Syscall UserMem Fdtable Wait.

(** ** The page tables *)

Definition demo_string : list Z := [108; 115; 0].
Definition string_bytes : mem := stored demo_bytes 0xc0004000 demo_string.

Definition demo_pd : Z := 0xc0000000.
Definition demo_pt : Z := 0xc0001000.
Definition text_entry : Z := 0x3005.
Definition data_entry : Z := 0x4007.
Definition demo_d (i : Z) : Z := if decide (i = 32) then 0x1007 else 0.
Definition demo_e : Z -> Z -> Z := set_entry (set_entry (fun _ _ => 0) 0x8048000 text_entry) 0x8049000 data_entry.

(** Two kernel pages and both user pages are in use. *)
Definition used_ram : ram :=
  mk_ram (mk_pool (mk_bitmap 3 [3]) 0xc0000000) (mk_pool (mk_bitmap 2 [3]) 0xc0003000) string_bytes.
Definition ram0 : ram := put_word (demo_pd + 4 * 32) 0x1007 used_ram.
Definition demo_user_ram : ram := put_word (demo_pt + 4 * 73) data_entry (put_word (demo_pt + 4 * 72) text_entry ram0).

Lemma string_mapped : mapped string_bytes 0xc0000000 20480.
Proof. apply stored_mapped, demo_bytes_mapped. Qed.

Lemma zero_table p : p = demo_pd \/ p = demo_pt -> table string_bytes p (fun _ => 0).
Proof.
  intros Hp. assert (Z.of_nat 20480 = 20480) as E by (vm_compute; reflexivity). assert (0xc0000000 <= p /\ p + 4096 <= 0xc0002000) as Hr by (unfold demo_pd, demo_pt in Hp; lia).
  assert (p mod 4 = 0) as Hm by (destruct Hp; by subst). intros i Hi. apply (word_at_frame demo_bytes).
  - intros a Ha. unfold string_bytes. apply stored_outside. lia.
  - replace (p + 4 * i) with (0xc0000000 + 4 * ((p - 0xc0000000) / 4 + i)) by dlia.
    apply (zero_word _ _ 20480); [exact demo_bytes_zero|dlia|rewrite E; dlia].
Qed.

Lemma used_ram_ok : ram_ok used_ram.
Proof.
  split; [split|split|]; try done; intros a Ha; apply string_mapped;
    change (PGSIZE * _) with 12288 in Ha || change (PGSIZE * _) with 8192 in Ha; cbn in Ha; lia.
Qed.

Lemma demo_dir0 : pagedir ram0 demo_pd demo_d (fun _ _ => 0).
Proof.
  assert (table (bytes ram0) demo_pt (fun _ => 0)) as Hpt.
  { apply table_put; [reflexivity|reflexivity|discriminate|lia|]. apply zero_table. by right. }
  split.
  - exists 0. split_and!; [by_decide|by_decide|reflexivity|reflexivity].
  - intros i Hi. apply (table_set used_ram demo_pd (fun _ => 0) 32 0x1007); [lia|by_decide| |lia].
    apply zero_table. by left.
  - reflexivity.
  - intros i Hi Hd. unfold demo_d in *. case_decide; [|done]. split_and!; [|reflexivity|discriminate|exact Hpt].
    exists 1. split_and!; [by_decide|by_decide|reflexivity|reflexivity].
  - intros i j Hi Hj Hdi Hdj Hij. unfold demo_d in *. case_decide; [|done]. case_decide; [|done]. lia.
Qed.

Lemma ram0_ok : ram_ok ram0.
Proof. apply ram_ok_put, used_ram_ok. Qed.

Lemma demo_dir : pagedir demo_user_ram demo_pd demo_d demo_e.
Proof.
  destruct (store_entry ram0 demo_pd demo_d (fun _ _ => 0) 0x8048000 text_entry) as [H1 _];
    [exact demo_dir0|exact ram0_ok|reflexivity|lia|discriminate|by_decide|].
  destruct (store_entry _ demo_pd demo_d _ 0x8049000 data_entry H1) as [H2 _];
    [apply ram_ok_put, ram0_ok|reflexivity|lia|discriminate|by_decide|]. exact H2.
Qed.

Lemma demo_user_ram_ok : ram_ok demo_user_ram.
Proof. do 2 apply ram_ok_put. apply ram0_ok. Qed.

Lemma user_page_byte a : 0xc0003000 <= a < 0xc0005000 -> bytes demo_user_ram !! a = string_bytes !! a.
Proof.
  intros Ha. unfold demo_user_ram, ram0, put_word, demo_pd, demo_pt. cbn [bytes used_ram].
  rewrite !stored_outside; [done|change (zlen (le_bytes _)) with 4; lia..].
Qed.

Lemma user_page_some a : 0xc0003000 <= a < 0xc0005000 -> is_Some (bytes demo_user_ram !! a).
Proof. intros Ha. rewrite user_page_byte by done. apply string_mapped. lia. Qed.

#[global] Opaque string_bytes.

(** The kernel address of the byte at a user address. *)
Lemma demo_frame va : 0 <= va -> present demo_e va = true ->
  exists k, frame_of demo_e va = Some k /\ 0xc0003000 <= k < 0xc0005000.
Proof.
  intros Hv Hp. unfold present, frame_of, demo_e, entry, set_entry in *. apply andb_prop in Hp as [_ Hp].
  assert (0 <= pg_ofs va < 4096) as Ho by (rewrite pg_ofs_mod; apply Z.mod_pos_bound; reflexivity).
  case_decide; [exists (0xc0004000 + pg_ofs va)|case_decide; [exists (0xc0003000 + pg_ofs va)|done]];
    (split; [reflexivity|lia]).
Qed.

(** ** The system *)

Definition demo_mmu2 : mmu := mk_mmu demo_user_ram 0 0xc0002000 5.

Definition demo_process : uthread := with_pagedir demo_pd (with_fdt (zset (replicate 128 NULL) 2 39) (new_uthread [])).

(** The semaphores [exiting] of the slots 0 and 1 of the semaphore table are at 16 and 18. *)
Definition demo_kernel2 (up : semaphore) : kernel :=
  set_semas (<[18 := up]> (<[16 := mk_sema 0 []]> (semas demo_kernel))) demo_kernel.

(** Descriptor 2 of the process is the open file of FsDemo; its child 3 has ended
    with status 7, or has not ended. *)
Definition demo_sys_with (up : semaphore) : sys ramdisk :=
  mk_sys (demo_kernel2 up) demo_fs demo_mmu2 {[1 := demo_process; 3 := new_uthread []]}
    (mk_proc 1 0 0 0 :: mk_proc 3 1 1 7 :: replicate 98 no_proc) (true :: true :: replicate 98 false) 15 false 12 [] [65; 66] true.
Definition demo_sys : sys ramdisk := demo_sys_with (mk_sema 1 []).

#[global] Opaque demo_fs.

Lemma demo_space : address_space demo_sys demo_pd demo_d demo_e.
Proof.
  split.
  - exists 1, demo_process. split_and!; vm_compute; reflexivity.
  - reflexivity.
  - exact demo_dir.
  - exact demo_user_ram_ok.
  - intros va Hv Hp. destruct (demo_frame va Hv Hp) as (k & Hf & Hk). destruct (user_page_some k Hk) as [c Hc].
    exists k, c. split_and!; [exact Hf|lia|exact Hc].
Qed.

Lemma str_check_correct_witness : exists b, str_check 0x8049000 demo_sys = Done (b, demo_sys).
Proof.
  destruct (str_check_correct demo_sys demo_pd demo_d demo_e demo_space 0x8049000) as (b & H & _); [by_decide|].
  exists b. exact H.
Defined.

Lemma buf_check_correct_witness : exists b, buf_check 0x8048ff0 32 demo_sys = Done (b, demo_sys).
Proof.
  destruct (buf_check_correct demo_sys demo_pd demo_d demo_e demo_space 0x8048ff0 32) as (b & H & _); [by_decide|by_decide|].
  exists b. exact H.
Defined.

Lemma read_only_buffer_faults_witness : buf_check 0x8048010 1 demo_sys = Done (true, demo_sys) /\ sys_read 0 0x8048010 1 demo_sys = Fault.
Proof.
  apply (read_only_buffer_faults demo_sys demo_pd demo_d demo_e 0x8048010 65 [66] demo_space); [by_decide|reflexivity..].
Defined.

(** ** The end of the process *)

Lemma demo_maps i j : maps demo_d demo_e i j -> i = 32 /\ (j = 72 \/ j = 73).
Proof.
  intros (_ & _ & Hd & He). unfold demo_d, demo_e, set_entry in *. destruct (decide (i = 32)) as [->|]; [|done].
  split; [done|]. destruct (decide (j = 73)) as [->|H73]; [by right|]. destruct (decide (j = 72)) as [->|H72]; [by left|].
  rewrite decide_False in He by (intros [_ E]; exact (H73 E)). rewrite decide_False in He by (intros [_ E]; exact (H72 E)).
  by destruct He.
Qed.

Lemma demo_user_frames : user_frames demo_user_ram demo_d demo_e.
Proof.
  split.
  - intros i j Hm. apply demo_maps in Hm as [-> [-> | ->]].
    + split; [reflexivity|]. exists 0. split_and!; [by_decide|by_decide|reflexivity|reflexivity].
    + split; [reflexivity|]. exists 1. split_and!; [by_decide|by_decide|reflexivity|reflexivity].
  - intros i j i' j' Hm Hm' E. apply demo_maps in Hm as [-> Hj]. apply demo_maps in Hm' as [-> Hj']. split; [reflexivity|].
    destruct Hj as [-> | ->], Hj' as [-> | ->]; [reflexivity|discriminate|discriminate|reflexivity].
Qed.

Lemma pagedir_destroy_correct_witness : exists s', pagedir_destroy demo_pd demo_mmu2 = Done (tt, s') /\
  used true (pages s') 1 = false.
Proof.
  destruct (pagedir_destroy_correct demo_mmu2 demo_pd demo_d demo_e demo_dir demo_user_ram_ok demo_user_frames) as (s' & H & _ & Hu);
    [discriminate|]. exists s'. split; [exact H|]. apply not_true_is_false. intros Ht.
  apply Hu in Ht as [_ Hn]; [|split; by_decide]. apply Hn. right. right. exists 32, 73.
  split; [|split; [left; lia|reflexivity]]. split_and!; [by_decide|by_decide|by_decide|by_decide|discriminate|discriminate].
Defined.

Lemma demo_sched2 up : waiters up = [] -> sched (demo_kernel2 up) true None.
Proof.
  intros Hup. apply (sched_same demo_kernel); [|exact demo_sched]. split; try reflexivity.
  - intros x sm Hx. cbn [demo_kernel2 semas set_semas] in Hx. apply lookup_insert_Some in Hx as [[<- <-]|[_ Hx]]; [by left|].
    apply lookup_insert_Some in Hx as [[<- <-]|[_ Hx]]; [by left|]. right. by exists sm.
  - intros x sm Hx Hw. exists sm. split; [|reflexivity]. cbn [demo_kernel2 semas set_semas].
    destruct (decide (x = 18)) as [->|H18]; [by vm_compute in Hx|]. destruct (decide (x = 16)) as [->|H16]; [by vm_compute in Hx|].
    by rewrite !lookup_insert_ne.
  - intros x Hx Hn. cbn in Hx. cbn [demo_kernel2 semas set_semas]. by rewrite !lookup_insert_ne by lia.
Qed.

Lemma demo_user_thread up : waiters up = [] -> user_thread (demo_sys_with up) 1 demo_process.
Proof. intros Hup. split; [by apply demo_sched2|reflexivity..|discriminate|reflexivity|reflexivity]. Qed.

Lemma demo_slot up : slot (demo_sys_with up) 3 1 1 7 up.
Proof. split; [reflexivity|by exists 1|discriminate|discriminate|]. apply lookup_insert_eq. Qed.

Lemma demo_one_slot up : one_slot (demo_sys_with up) 3 1.
Proof.
  intros j p Hp Ht. unfold zget in Hp. case_decide; [|done].
  destruct (Z.to_nat j) as [|[|n]] eqn:E; [injection Hp as <-; discriminate|lia|].
  cbn [procList demo_sys_with lookup list_lookup] in Hp. apply lookup_replicate in Hp as [-> _]. discriminate.
Qed.

Lemma process_wait_correct_witness : exists s1 s2 s',
  process_wait 3 demo_sys = Done (tt, s1) /\ run_kernel_frame s1 = Done (tt, s2) /\
  waited demo_sys s' 1 1 1 7 demo_process.
Proof.
  destruct (process_wait_correct (mk_locals 0 0 0 0 [] 0 0) [] demo_sys 1 demo_process 3 1 1 7 (mk_sema 1 [])
    (demo_user_thread (mk_sema 1 []) eq_refl) (demo_slot (mk_sema 1 []))) as (s1 & H1 & H2 & _); [discriminate|apply demo_one_slot|].
  destruct H2 as (s2 & s' & H2 & _ & _ & H3 & _); [discriminate|]. exists s1, s2, s'. exact (conj H1 (conj H2 H3)).
Defined.

(** The child, thread 3, waits for its parent to give it the processor; here it is
    the process that ends: slot 0 is its own. *)
Lemma exit_publishes_status_witness : exists s1 s2, let s := demo_sys_with (mk_sema 0 []) in
  (record_exit 5 ;; thread_exit_process) s = Done (tt, s1) /\ run_kernel_frame s1 = Done (tt, s2) /\
  slot s2 1 0 0 5 (mk_sema 1 []).
Proof.
  set (m0 := mk_mmu demo_user_ram 0x2000 0xc0002000 5).
  destruct (pagedir_destroy_run m0 demo_pd demo_d demo_e demo_dir demo_user_ram_ok demo_user_frames) as (m' & Hm & _); [discriminate|].
  assert (slot (demo_sys_with (mk_sema 0 [])) 1 0 0 0 (mk_sema 0 [])) as Hslot
    by (split; [reflexivity|by exists 0|discriminate|discriminate|reflexivity]).
  destruct (exit_publishes_status (mk_locals 0 0 0 0 [] 0 0) [] (demo_sys_with (mk_sema 0 [])) 1 demo_process (demo_thread 1 THREAD_RUNNING [])
    0 0 0 (mk_sema 0 []) 5 m' (demo_user_thread (mk_sema 0 []) eq_refl) eq_refl Hslot) as (s1 & s2 & H1 & H2 & H3 & _).
  { unfold directory_freed. cbn [demo_process u_pagedir]. rewrite <- Hm. reflexivity. }
  exists s1, s2. exact (conj H1 (conj H2 H3)).
Defined.

(** The parent, woken: its stack is in the loop of sema_down. *)
Definition woken : thread := demo_thread 1 THREAD_RUNNING [FSema 18 true].
Definition woken_sys : sys ramdisk :=
  set_uthreads (<[1 := with_todo [UWaited 1 1] demo_process]> (uthreads demo_sys))
    (set_kern (with_stack [FSema 18 true] (demo_thread 1 THREAD_RUNNING []) (demo_kernel2 (mk_sema 1 []))) demo_sys).

Lemma waiter_gets_status_witness : exists s1 s' : sys ramdisk, run_kernel_frame woken_sys = Done (tt, s1) /\
  uthreads s' = <[1 := with_eax 7 demo_process]> (uthreads woken_sys).
Proof.
  destruct (waiter_gets_status (mk_locals 0 0 0 0 [] 0 0) [] woken_sys 1 demo_process woken 3 1 1 7 (mk_sema 1 []) true)
    as (s1 & s' & H1 & _ & H2 & _); [|reflexivity..| |discriminate|].
  - apply sched_stack; [by apply demo_sched2|reflexivity|reflexivity].
  - split; [reflexivity|by exists 1|discriminate|discriminate|reflexivity].
  - exists s1, s'. exact (conj H1 H2).
Defined.

(** Thread 4 of the kernel sleeps on the semaphore at 14, here [exiting] of slot 0,
    which is free. *)
Definition reuse_sys : sys ramdisk :=
  mk_sys demo_kernel demo_fs demo_mmu2 {[1 := demo_process]} (replicate 100 no_proc) (replicate 100 false) 13 false 12 [] [] true.

Lemma reused_slot_loses_waiter_witness : exists s' : sys ramdisk, add_sem_list_entry reuse_sys = Done (0, s') /\
  is_status (kern s') 4 THREAD_BLOCKED /\ ~ sched (kern s') true None.
Proof.
  destruct (reused_slot_loses_waiter reuse_sys 0 (mk_sema 0 [4]) 4 demo_sched) as (s' & H1 & H2 & _ & H3);
    [reflexivity|discriminate|discriminate|reflexivity|by_decide|exists s'; exact (conj H1 (conj H2 H3))].
Defined.

(** ** Descriptors *)

Lemma demo_running : running demo_sys 1 demo_process.
Proof. split; reflexivity. Qed.

Lemma descriptor_roundtrip_witness : exists (s1 : sys ramdisk) u1, add_fdt_entry 50 demo_sys = Done (3, s1) /\ running s1 1 u1 /\ open_file u1 2 = Some 39.
Proof.
  destruct (descriptor_roundtrip demo_sys 1 demo_process 50 demo_running eq_refl) as [[_ Hfull]|H]; [discriminate| |].
  - destruct (Hfull 3); reflexivity.
  - destruct H as (fd & s1 & u1 & H1 & H2 & _ & H3 & H4 & _ & H5 & _). exists s1, u1.
    assert (fd = 3) as ->; [|split; [exact H1|split; [exact H2|rewrite H5; [reflexivity|discriminate]]]].
    assert (add_fdt_entry 50 demo_sys = Done (3, with_slot 1 3 50 demo_process demo_sys)) as E by reflexivity.
    rewrite E in H1. injection H1. intros _ ->. reflexivity.
Defined.

Lemma descriptor_calls_witness : sys_filesize 5 demo_sys = Done (-1, demo_sys).
Proof. exact (proj1 (proj2 (descriptor_calls demo_sys 1 demo_process 5 0 0 demo_running eq_refl))). Defined.

Lemma seek_panics_witness : sys_seek 2 0x80000000 demo_sys = Panic.
Proof. apply (seek_panics demo_sys 1 demo_process 2 39 0x80000000 demo_running eq_refl). by_decide. Defined.
