(* ===== verification/Segments.v ===== *)
(** * userprog/gdt.c, userprog/tss.c and threads/interrupt.c: descriptors and gates

    A descriptor of a segment and a gate of an interrupt are 64 bits.  The tables and
    the registers that hold their addresses are the state [cpu]; the task state segment
    is a page of the memory of Palloc.  [stub] gives the addresses of the assembly
    stubs, [at_] that of the tables and [lit] that of the names; a handler is the
    address of a function. *)

From Stdlib Require Import Ascii.
From Stdlib Require Import(notations) String.
From S2P Require Import Prelude Vaddr Bitmap Mem CString Palloc Stdio Devices DevicesSpec.

(** threads/loader.h and userprog/gdt.h *)
Definition SEL_NULL : Z := 0x00.
Definition SEL_KCSEG : Z := 0x08.
Definition SEL_KDSEG : Z := 0x10.
Definition SEL_UCSEG : Z := 0x1B.
Definition SEL_UDSEG : Z := 0x23.
Definition SEL_TSS : Z := 0x28.
Definition SEL_CNT : Z := 6.

Inductive seg_class := CLS_SYSTEM | CLS_CODE_DATA.
Inductive seg_granularity := GRAN_BYTE | GRAN_PAGE.
Definition class_no (c : seg_class) : Z := match c with CLS_SYSTEM => 0 | CLS_CODE_DATA => 1 end.
Definition granularity_no (g : seg_granularity) : Z := match g with GRAN_BYTE => 0 | GRAN_PAGE => 1 end.

(** ** Segments *)

Definition make_seg_desc (base limit : Z) (class : seg_class) (type dpl : Z) (granularity : seg_granularity) : outcome Z :=
  assert_ok (limit <=? 0xfffff) ;;
  assert_ok ((0 <=? type) && (type <=? 15)) ;;
  assert_ok ((0 <=? dpl) && (dpl <=? 3)) ;;
  let e0 := Z.lor (Z.land limit 0xffff) (u32 (Z.shiftl base 16)) in
  let e1 := Z.land (Z.shiftr base 16) 0xff in
  let e1 := Z.lor e1 (Z.shiftl type 8) in
  let e1 := Z.lor e1 (Z.shiftl (class_no class) 12) in
  let e1 := Z.lor e1 (Z.shiftl dpl 13) in
  let e1 := Z.lor e1 (Z.shiftl 1 15) in
  let e1 := Z.lor e1 (Z.land limit 0xf0000) in
  let e1 := Z.lor e1 (Z.shiftl 1 22) in
  let e1 := Z.lor e1 (Z.shiftl (granularity_no granularity) 23) in
  let e1 := Z.lor e1 (Z.land base 0xff000000) in
  Done (Z.lor e0 (u64 (Z.shiftl (u32 e1) 32))).

Definition make_code_desc (dpl : Z) : outcome Z := make_seg_desc 0 0xfffff CLS_CODE_DATA 10 dpl GRAN_PAGE.
Definition make_data_desc (dpl : Z) : outcome Z := make_seg_desc 0 0xfffff CLS_CODE_DATA 2 dpl GRAN_PAGE.
Definition make_tss_desc (laddr : Z) : outcome Z := make_seg_desc laddr 0x67 CLS_SYSTEM 9 0 GRAN_BYTE.
Definition make_gdtr_operand (limit base : Z) : Z := Z.lor (u16 limit) (u64 (Z.shiftl base 16)).

(** ** Gates *)

Definition make_gate (function dpl type : Z) : outcome Z :=
  assert_ok (negb (function =? NULL)) ;;
  assert_ok ((0 <=? dpl) && (dpl <=? 3)) ;;
  assert_ok ((0 <=? type) && (type <=? 15)) ;;
  let e0 := Z.lor (Z.land function 0xffff) (Z.shiftl SEL_KCSEG 16) in
  let e1 := Z.land function 0xffff0000 in
  let e1 := Z.lor e1 (Z.shiftl 1 15) in
  let e1 := Z.lor e1 (Z.shiftl dpl 13) in
  let e1 := Z.lor e1 (Z.shiftl 0 12) in
  let e1 := Z.lor e1 (Z.shiftl type 8) in
  Done (Z.lor e0 (u64 (Z.shiftl (u32 e1) 32))).

Definition make_intr_gate (function dpl : Z) : outcome Z := make_gate function dpl 14.
Definition make_trap_gate (function dpl : Z) : outcome Z := make_gate function dpl 15.
Definition make_idtr_operand (limit base : Z) : Z := Z.lor (u16 limit) (u64 (Z.shiftl base 16)).

(** ** The task state segment *)

(** Offsets of the fields of struct tss that are used. *)
Definition tss_esp0 : Z := 4.
Definition tss_ss0 : Z := 8.
Definition tss_bitmap : Z := 102.

Definition store16 (p v : Z) : M mem unit := store_bytes p [u8 v; u8 (Z.shiftr v 8)].

(** [cur] is [thread_current ()]. *)
Definition tss_update (tss cur : Z) : M ram unit :=
  ASSERT (negb (tss =? NULL)) ;; on_bytes (store32 (tss + tss_esp0) (u32 (cur + PGSIZE))).

Definition tss_init (cur : Z) : M ram Z :=
  tss ← palloc_get_page (Z.lor PAL_ASSERT PAL_ZERO);
  on_bytes (store16 (tss + tss_ss0) SEL_KDSEG) ;;
  on_bytes (store16 (tss + tss_bitmap) 0xdfff) ;;
  tss_update tss cur ;;
  mret tss.

(** ** The tables *)

Definition INTR_CNT : Z := 256.

(** The names and handlers are addresses, NULL for none. *)
Record cpu (hw : Type) := mk_cpu {
  gdt : list Z;
  idt : list Z;
  intr_handlers : list Z;
  intr_names : list Z;
  unexpected_cnt : list Z;
  gdtr : Z;                   (* the operands of lgdt, lidt and ltr *)
  idtr : Z;
  task_register : Z;
  c_hw : hw
}.
Arguments mk_cpu {hw}.
Arguments gdt {hw}.
Arguments idt {hw}.
Arguments intr_handlers {hw}.
Arguments intr_names {hw}.
Arguments unexpected_cnt {hw}.
Arguments gdtr {hw}.
Arguments idtr {hw}.
Arguments task_register {hw}.
Arguments c_hw {hw}.

Section Tables.
Context {hw : Type} `{Ports hw} (stub : Z -> Z) (lit : String.string -> Z) (gdt_at idt_at : Z).
Abbreviation C := (cpu hw).

Definition set_gdt l (c : C) : C := mk_cpu l (idt c) (intr_handlers c) (intr_names c) (unexpected_cnt c) (gdtr c) (idtr c) (task_register c) (c_hw c).
Definition set_idt l (c : C) : C := mk_cpu (gdt c) l (intr_handlers c) (intr_names c) (unexpected_cnt c) (gdtr c) (idtr c) (task_register c) (c_hw c).
Definition set_handlers l (c : C) : C := mk_cpu (gdt c) (idt c) l (intr_names c) (unexpected_cnt c) (gdtr c) (idtr c) (task_register c) (c_hw c).
Definition set_names l (c : C) : C := mk_cpu (gdt c) (idt c) (intr_handlers c) l (unexpected_cnt c) (gdtr c) (idtr c) (task_register c) (c_hw c).
Definition set_counts l (c : C) : C := mk_cpu (gdt c) (idt c) (intr_handlers c) (intr_names c) l (gdtr c) (idtr c) (task_register c) (c_hw c).
Definition lgdt_ltr g t (c : C) : C := mk_cpu (gdt c) (idt c) (intr_handlers c) (intr_names c) (unexpected_cnt c) g (idtr c) t (c_hw c).
Definition lidt v (c : C) : C := mk_cpu (gdt c) (idt c) (intr_handlers c) (intr_names c) (unexpected_cnt c) (gdtr c) v (task_register c) (c_hw c).
Definition set_ports h (c : C) : C := mk_cpu (gdt c) (idt c) (intr_handlers c) (intr_names c) (unexpected_cnt c) (gdtr c) (idtr c) (task_register c) h.

Definition out_port (port v : Z) : M C unit := modify (fun c => set_ports (port_out port (u8 v) (c_hw c)) c).

(** [gdt[sel / sizeof *gdt] = desc] *)
Definition put_desc (sel : Z) (desc : outcome Z) : M C unit := d ← liftO desc; modify (fun c => set_gdt (zset (gdt c) (Z.quot sel 8) d) c).

(** [tss] is what tss_get returns. *)
Definition gdt_init (tss : Z) : M C unit :=
  put_desc SEL_NULL (Done 0) ;;
  put_desc SEL_KCSEG (make_code_desc 0) ;;
  put_desc SEL_KDSEG (make_data_desc 0) ;;
  put_desc SEL_UCSEG (make_code_desc 3) ;;
  put_desc SEL_UDSEG (make_data_desc 3) ;;
  ASSERT (negb (tss =? NULL)) ;;
  put_desc SEL_TSS (make_tss_desc tss) ;;
  modify (lgdt_ltr (make_gdtr_operand (8 * SEL_CNT - 1) gdt_at) SEL_TSS).

Definition PIC0_CTRL : Z := 0x20.
Definition PIC0_DATA : Z := 0x21.
Definition PIC1_CTRL : Z := 0xa0.
Definition PIC1_DATA : Z := 0xa1.

Definition pic_init : M C unit :=
  out_port PIC0_DATA 0xff ;; out_port PIC1_DATA 0xff ;;
  out_port PIC0_CTRL 0x11 ;; out_port PIC0_DATA 0x20 ;; out_port PIC0_DATA 0x04 ;; out_port PIC0_DATA 0x01 ;;
  out_port PIC1_CTRL 0x11 ;; out_port PIC1_DATA 0x28 ;; out_port PIC1_DATA 0x02 ;; out_port PIC1_DATA 0x01 ;;
  out_port PIC0_DATA 0x00 ;; out_port PIC1_DATA 0x00.

Definition pic_end_of_interrupt (irq : Z) : M C unit :=
  ASSERT ((0x20 <=? irq) && (irq <? 0x30)) ;;
  out_port 0x20 0x20 ;;
  if 0x28 <=? irq then out_port 0xa0 0x20 else mret tt.

(** The loop that fills the table with gates of level 0. *)
Definition init_gates : M C unit :=
  for_z INTR_CNT (fun i => g ← liftO (make_intr_gate (stub i) 0); modify (fun c => set_idt (zset (idt c) i g) c)).

Definition name_intr (i : Z) (s : String.string) : M C unit := modify (fun c => set_names (zset (intr_names c) i (lit s)) c).

Definition intr_init : M C unit :=
  pic_init ;;
  init_gates ;;
  modify (lidt (make_idtr_operand (8 * INTR_CNT - 1) idt_at)) ;;
  for_z INTR_CNT (fun i => name_intr i "unknown") ;;
  name_intr 0 "#DE Divide Error" ;; name_intr 1 "#DB Debug Exception" ;; name_intr 2 "NMI Interrupt" ;;
  name_intr 3 "#BP Breakpoint Exception" ;; name_intr 4 "#OF Overflow Exception" ;; name_intr 5 "#BR BOUND Range Exceeded Exception" ;;
  name_intr 6 "#UD Invalid Opcode Exception" ;; name_intr 7 "#NM Device Not Available Exception" ;;
  name_intr 8 "#DF Double Fault Exception" ;; name_intr 9 "Coprocessor Segment Overrun" ;; name_intr 10 "#TS Invalid TSS Exception" ;;
  name_intr 11 "#NP Segment Not Present" ;; name_intr 12 "#SS Stack Fault Exception" ;; name_intr 13 "#GP General Protection Exception" ;;
  name_intr 14 "#PF Page-Fault Exception" ;; name_intr 16 "#MF x87 FPU Floating-Point Error" ;; name_intr 17 "#AC Alignment Check Exception" ;;
  name_intr 18 "#MC Machine-Check Exception" ;; name_intr 19 "#XF SIMD Floating-Point Exception".

(** [on] is the level: INTR_ON or INTR_OFF. *)
Definition register_handler (vec_no dpl : Z) (on : bool) (handler name : Z) : M C unit :=
  h ← load (fun c => zget (intr_handlers c) vec_no);
  ASSERT (h =? NULL) ;;
  g ← liftO (if on then make_trap_gate (stub vec_no) dpl else make_intr_gate (stub vec_no) dpl);
  modify (fun c => set_idt (zset (idt c) vec_no g) c) ;;
  modify (fun c => set_handlers (zset (intr_handlers c) vec_no handler) c) ;;
  modify (fun c => set_names (zset (intr_names c) vec_no name) c).

Definition intr_register_ext (vec_no handler name : Z) : M C unit :=
  ASSERT ((0x20 <=? vec_no) && (vec_no <=? 0x2f)) ;; register_handler vec_no 0 false handler name.
Definition intr_register_int (vec_no dpl : Z) (on : bool) (handler name : Z) : M C unit :=
  ASSERT ((vec_no <? 0x20) || (0x2f <? vec_no)) ;; register_handler vec_no dpl on handler name.

Definition intr_name (vec : Z) : M C Z := load (fun c => zget (intr_names c) vec).

(** userprog/exception.c: [kill] and [page_fault] are the addresses of the handlers. *)
Definition exception_init (kill page_fault : Z) : M C unit :=
  intr_register_int 3 3 true kill (lit "#BP Breakpoint Exception") ;;
  intr_register_int 4 3 true kill (lit "#OF Overflow Exception") ;;
  intr_register_int 5 3 true kill (lit "#BR BOUND Range Exceeded Exception") ;;
  intr_register_int 0 0 true kill (lit "#DE Divide Error") ;;
  intr_register_int 1 0 true kill (lit "#DB Debug Exception") ;;
  intr_register_int 6 0 true kill (lit "#UD Invalid Opcode Exception") ;;
  intr_register_int 7 0 true kill (lit "#NM Device Not Available Exception") ;;
  intr_register_int 11 0 true kill (lit "#NP Segment Not Present") ;;
  intr_register_int 12 0 true kill (lit "#SS Stack Fault Exception") ;;
  intr_register_int 13 0 true kill (lit "#GP General Protection Exception") ;;
  intr_register_int 16 0 true kill (lit "#MF x87 FPU Floating-Point Error") ;;
  intr_register_int 19 0 true kill (lit "#XF SIMD Floating-Point Exception") ;;
  intr_register_int 14 0 false page_fault (lit "#PF Page-Fault Exception").

(** userprog/syscall.c *)
Definition syscall_init (syscall_handler : Z) : M C unit := intr_register_int 0x30 3 true syscall_handler (lit "syscall").

(** The part of main of threads/init.c that fills the tables: the registrations of
    timer_init, kbd_init and serial_init_queue among them. *)
Definition main_tables (tss timer_interrupt keyboard_interrupt kill page_fault syscall_handler serial_interrupt : Z) : M C unit :=
  gdt_init tss ;;
  intr_init ;;
  intr_register_ext 0x20 timer_interrupt (lit "8254 Timer") ;;
  intr_register_ext 0x21 keyboard_interrupt (lit "8042 Keyboard") ;;
  exception_init kill page_fault ;;
  syscall_init syscall_handler ;;
  intr_register_ext (0x20 + 4) serial_interrupt (lit "serial").

(** An unexpected interrupt: whether it is reported. *)
Definition unexpected_interrupt (vec_no : Z) : M C bool :=
  n ← load (fun c => zget (unexpected_cnt c) vec_no);
  let n := u32 (n + 1) in
  modify (fun c => set_counts (zset (unexpected_cnt c) vec_no n) c) ;;
  mret (Z.land n (u32 (n - 1)) =? 0).
End Tables.

(** ** What descriptors and gates mean, and what the tables hold after boot

    The fields of a descriptor are read back at the places the processor has them.
    After the initializations of boot the interrupt table holds, for every vector, a
    gate to its stub in the kernel's code segment; user code may invoke four of them. *)

(** ** Fields *)

Definition field (d lo n : Z) : Z := (d / 2 ^ lo) mod 2 ^ n.

(** A segment descriptor. *)
Definition seg_base (d : Z) : Z := field d 16 24 + field d 56 8 * 2 ^ 24.
Definition seg_limit (d : Z) : Z := field d 0 16 + field d 48 4 * 2 ^ 16.
Definition seg_type (d : Z) : Z := field d 40 4.
Definition seg_code_data (d : Z) : Z := field d 44 1.
Definition seg_dpl (d : Z) : Z := field d 45 2.
Definition seg_present (d : Z) : Z := field d 47 1.
Definition seg_32bit (d : Z) : Z := field d 54 1.
Definition seg_pages (d : Z) : Z := field d 55 1.

(** A gate. *)
Definition gate_offset (d : Z) : Z := field d 0 16 + field d 48 16 * 2 ^ 16.
Definition gate_selector (d : Z) : Z := field d 16 16.
Definition gate_type (d : Z) : Z := field d 40 4.
Definition gate_system (d : Z) : Z := field d 44 1.
Definition gate_dpl (d : Z) : Z := field d 45 2.
Definition gate_present (d : Z) : Z := field d 47 1.

(** ** Disjoint bits are added *)

Lemma lor_above b q k : 0 <= k -> 0 <= b < 2 ^ k -> Z.lor b (q * 2 ^ k) = b + q * 2 ^ k.
Proof. intros. rewrite Z.lor_comm, lor_low by done. lia. Qed.

Lemma land_field x lo n : 0 <= lo -> 0 <= n -> Z.land x ((2 ^ n - 1) * 2 ^ lo) = field x lo n * 2 ^ lo.
Proof.
  intros Hl Hn. replace ((2 ^ n - 1) * 2 ^ lo) with (Z.shiftl (Z.ones n) lo) by (rewrite Z.shiftl_mul_pow2, Z.ones_equiv by done; lia).
  replace (field x lo n * 2 ^ lo) with (Z.shiftl (Z.land (Z.shiftr x lo) (Z.ones n)) lo)
    by (unfold field; by rewrite Z.shiftl_mul_pow2, Z.land_ones, Z.shiftr_div_pow2 by done).
  apply Z.bits_inj'. intros i Hi. rewrite Z.land_spec, !Z.shiftl_spec, Z.land_spec by done.
  destruct (decide (i < lo)); [rewrite !(Z.testbit_neg_r _ (i - lo)) by lia; by rewrite !andb_false_r|].
  rewrite Z.shiftr_spec by lia. do 2 f_equal; lia.
Qed.

(** The parts of an address or a limit. *)
Lemma field_parts x a b : 0 <= a -> 0 <= b -> 0 <= x < 2 ^ (a + b) -> x = field x 0 a + field x a b * 2 ^ a.
Proof.
  intros Ha Hb Hx. unfold field. rewrite Z.pow_0_r, Z.div_1_r. rewrite Z.pow_add_r in Hx by done.
  rewrite (Z.mod_small (x / 2 ^ a)); [|split; [apply Z.div_pos; lia|apply Z.div_lt_upper_bound; lia]].
  pose proof (Z.div_mod x (2 ^ a) ltac:(lia)). lia.
Qed.

Lemma field_bound d lo n : 0 <= n -> 0 <= field d lo n < 2 ^ n.
Proof. intros Hn. apply Z.mod_pos_bound. lia. Qed.

(** Take a disjunction of bits of a number and higher ones for a sum. *)
Ltac add_bits :=
  match goal with |- context [Z.lor ?b (?q * 2 ^ ?k)] => lazymatch b with context [Z.lor _ _] => fail | _ => rewrite (lor_above b q k) by lia end end.

(** A field of a sum. *)
Lemma field_mid d low x high lo n : 0 <= lo -> 0 <= n -> d = low + x * 2 ^ lo + high * 2 ^ (lo + n) -> 0 <= low < 2 ^ lo -> 0 <= x < 2 ^ n -> field d lo n = x.
Proof.
  intros Hlo Hn -> Hl Hx. unfold field. rewrite Z.pow_add_r by done.
  replace (low + x * 2 ^ lo + high * (2 ^ lo * 2 ^ n)) with (low + (x + high * 2 ^ n) * 2 ^ lo) by lia.
  rewrite Z.div_add, Z.div_small by lia. rewrite Z.add_0_l, Z.mod_add by lia. by apply Z.mod_small.
Qed.

(** The descriptor as a sum. *)
Lemma make_seg_desc_sum base limit class type dpl g : is_u32 base -> 0 <= limit < 2 ^ 20 -> 0 <= type < 16 -> 0 <= dpl < 4 ->
  make_seg_desc base limit class type dpl g = Done
    (field limit 0 16 + field base 0 16 * 2 ^ 16 + field base 16 8 * 2 ^ 32 + type * 2 ^ 40 + class_no class * 2 ^ 44 + dpl * 2 ^ 45 + 2 ^ 47 +
     field limit 16 4 * 2 ^ 48 + 2 ^ 54 + granularity_no g * 2 ^ 55 + field base 24 8 * 2 ^ 56).
Proof.
  intros Hb Hl Ht Hd. unfold make_seg_desc. rewrite (proj2 (Z.leb_le _ _)) by lia.
  rewrite !(proj2 (Z.leb_le _ _)) by lia. cbn [andb assert_ok]. osimpl. cbv zeta.
  assert (0 <= class_no class < 2 /\ 0 <= granularity_no g < 2) as [Hc Hg] by (destruct class, g; cbn; lia).
  change 0xffff with ((2 ^ 16 - 1) * 2 ^ 0). change 0xf0000 with ((2 ^ 4 - 1) * 2 ^ 16). change 0xff000000 with ((2 ^ 8 - 1) * 2 ^ 24).
  assert (Z.land (Z.shiftr base 16) 0xff = field base 16 8) as -> by (change 0xff with (2 ^ 8 - 1); by rewrite land_low, Z.shiftr_div_pow2 by lia).
  rewrite !land_field by lia. rewrite !Z.shiftl_mul_pow2 by lia.
  assert (u32 (base * 2 ^ 16) = field base 0 16 * 2 ^ 16) as ->.
  { unfold u32, field. change (2 ^ 32) with (2 ^ 16 * 2 ^ 16). rewrite (Z.mul_comm base), (Z.mul_mod_distr_l base) by lia. rewrite Z.div_1_r. lia. }
  pose proof (field_bound limit 0 16). pose proof (field_bound base 0 16). pose proof (field_bound base 16 8).
  pose proof (field_bound limit 16 4). pose proof (field_bound base 24 8). rewrite Z.pow_0_r, Z.mul_1_r.
  repeat add_bits. unfold u32, u64. rewrite (Z.mod_small _ (2 ^ 32)), Z.mod_small by lia. add_bits. f_equal. lia.
Qed.

Lemma make_seg_fields base limit class type dpl g : is_u32 base -> 0 <= limit < 2 ^ 20 -> 0 <= type < 16 -> 0 <= dpl < 4 ->
  let d := field limit 0 16 + field base 0 16 * 2 ^ 16 + field base 16 8 * 2 ^ 32 + type * 2 ^ 40 + class_no class * 2 ^ 44 + dpl * 2 ^ 45 + 2 ^ 47 +
     field limit 16 4 * 2 ^ 48 + 2 ^ 54 + granularity_no g * 2 ^ 55 + field base 24 8 * 2 ^ 56 in
  0 <= d < 2 ^ 64 /\ seg_base d = base /\ seg_limit d = limit /\ seg_pages d = granularity_no g /\ seg_code_data d = class_no class /\
  seg_type d = type /\ seg_dpl d = dpl /\ seg_present d = 1 /\ seg_32bit d = 1.
Proof.
  intros Hb Hl Ht Hd. cbv zeta.
  pose proof (field_bound limit 0 16). pose proof (field_bound base 0 16). pose proof (field_bound base 16 8).
  pose proof (field_bound limit 16 4). pose proof (field_bound base 24 8).
  assert (0 <= class_no class < 2 /\ 0 <= granularity_no g < 2) as [Hc Hg] by (destruct class, g; cbn; lia).
  assert (base = field base 0 16 + field base 16 8 * 2 ^ 16 + field base 24 8 * 2 ^ 24) as Eb by (unfold field, is_u32 in *; dlia).
  assert (limit = field limit 0 16 + field limit 16 4 * 2 ^ 16) as El by (unfold field, is_u32 in *; dlia).
  unfold seg_base, seg_limit, seg_code_data, seg_type, seg_dpl, seg_pages, seg_present, seg_32bit.
  revert Eb El. set (l0 := field limit 0 16) in *. set (l1 := field limit 16 4) in *. set (b0 := field base 0 16) in *.
  set (b1 := field base 16 8) in *. set (b2 := field base 24 8) in *. clearbody l0 l1 b0 b1 b2.
  set (c := class_no class) in *. set (gr := granularity_no g) in *. clearbody c gr. intros Eb El. 
  split; [lia|]. split_and!.
  - rewrite (field_mid _ l0 (b0 + b1 * 2 ^ 16) (type + c * 2 ^ 4 + dpl * 2 ^ 5 + 2 ^ 7 + l1 * 2 ^ 8 + 2 ^ 14 + gr * 2 ^ 15 + b2 * 2 ^ 16)) by lia.
    rewrite (field_mid _ (l0 + b0 * 2 ^ 16 + b1 * 2 ^ 32 + type * 2 ^ 40 + c * 2 ^ 44 + dpl * 2 ^ 45 + 2 ^ 47 + l1 * 2 ^ 48 + 2 ^ 54 + gr * 2 ^ 55) b2 0) by lia. lia.
  - rewrite (field_mid _ 0 l0 (b0 + b1 * 2 ^ 16 + type * 2 ^ 24 + c * 2 ^ 28 + dpl * 2 ^ 29 + 2 ^ 31 + l1 * 2 ^ 32 + 2 ^ 38 + gr * 2 ^ 39 + b2 * 2 ^ 40)) by lia.
    rewrite (field_mid _ (l0 + b0 * 2 ^ 16 + b1 * 2 ^ 32 + type * 2 ^ 40 + c * 2 ^ 44 + dpl * 2 ^ 45 + 2 ^ 47) l1 (2 ^ 2 + gr * 2 ^ 3 + b2 * 2 ^ 4)) by lia. lia.
  - apply (field_mid _ (l0 + b0 * 2 ^ 16 + b1 * 2 ^ 32 + type * 2 ^ 40 + c * 2 ^ 44 + dpl * 2 ^ 45 + 2 ^ 47 + l1 * 2 ^ 48 + 2 ^ 54) gr b2); lia.
  - apply (field_mid _ (l0 + b0 * 2 ^ 16 + b1 * 2 ^ 32 + type * 2 ^ 40) c (dpl + 2 ^ 2 + l1 * 2 ^ 3 + 2 ^ 9 + gr * 2 ^ 10 + b2 * 2 ^ 11)); lia.
  - apply (field_mid _ (l0 + b0 * 2 ^ 16 + b1 * 2 ^ 32) type (c + dpl * 2 + 2 ^ 3 + l1 * 2 ^ 4 + 2 ^ 10 + gr * 2 ^ 11 + b2 * 2 ^ 12)); lia.
  - apply (field_mid _ (l0 + b0 * 2 ^ 16 + b1 * 2 ^ 32 + type * 2 ^ 40 + c * 2 ^ 44) dpl (1 * 2 ^ 0 + l1 * 2 + 2 ^ 7 + gr * 2 ^ 8 + b2 * 2 ^ 9)); lia.
  - apply (field_mid _ (l0 + b0 * 2 ^ 16 + b1 * 2 ^ 32 + type * 2 ^ 40 + c * 2 ^ 44 + dpl * 2 ^ 45) 1 (l1 + 2 ^ 6 + gr * 2 ^ 7 + b2 * 2 ^ 8)); lia.
  - apply (field_mid _ (l0 + b0 * 2 ^ 16 + b1 * 2 ^ 32 + type * 2 ^ 40 + c * 2 ^ 44 + dpl * 2 ^ 45 + 2 ^ 47 + l1 * 2 ^ 48) 1 (gr + b2 * 2)); lia.
Qed.

(** The fields of a segment descriptor are those make_seg_desc was given, for every
    base, limit, type and level that fit; other arguments fail an assertion. *)
Theorem seg_desc_roundtrip base limit class type dpl g (Hb : is_u32 base) (Hl : is_u32 limit) :
  if (limit <=? 0xfffff) && (0 <=? type) && (type <=? 15) && (0 <=? dpl) && (dpl <=? 3)
  then exists d, make_seg_desc base limit class type dpl g = Done d /\ 0 <= d < 2 ^ 64 /\
    seg_base d = base /\ seg_limit d = limit /\ seg_code_data d = class_no class /\ seg_type d = type /\ seg_dpl d = dpl /\
    seg_pages d = granularity_no g /\ seg_present d = 1 /\ seg_32bit d = 1
  else make_seg_desc base limit class type dpl g = Panic.
Proof.
  destruct (_ && _) eqn:E.
  - apply andb_true_iff in E as [[[[E1 E2]%andb_true_iff E3]%andb_true_iff E4]%andb_true_iff E5].
    rewrite make_seg_desc_sum by (unfold is_u32 in *; lia). eexists. split; [reflexivity|].
    destruct (make_seg_fields base limit class type dpl g) as (? & ? & ? & ? & ? & ? & ? & ? & ?); try done; try (unfold is_u32 in *; lia).
  - unfold make_seg_desc. unfold is_u32 in *.
    destruct (limit <=? 0xfffff); [|done]. destruct ((0 <=? type) && (type <=? 15)) eqn:Et; [|done]. destruct ((0 <=? dpl) && (dpl <=? 3)) eqn:Ed; [|done].
    apply andb_true_iff in Et as [Et1 Et2], Ed as [Ed1 Ed2]. by rewrite Et1, Et2, Ed1, Ed2 in E.
Qed.

(** ** Gates *)

(** A gate of the kernel to [f]: who may invoke it, and whether interrupts stay on. *)
Record is_gate (g f dpl type : Z) : Prop := {
  g_u64 : 0 <= g < 2 ^ 64;
  g_offset : gate_offset g = f;
  g_selector : gate_selector g = SEL_KCSEG;
  g_type : gate_type g = type;
  g_system : gate_system g = 0;
  g_dpl : gate_dpl g = dpl;
  g_present : gate_present g = 1
}.

Lemma make_gate_run f dpl type : is_u32 f -> f <> NULL -> 0 <= dpl < 4 -> 0 <= type < 16 ->
  exists g, make_gate f dpl type = Done g /\ is_gate g f dpl type.
Proof.
  intros Hf Hn Hd Ht. unfold make_gate. rewrite (proj2 (Z.eqb_neq _ _) Hn). rewrite !(proj2 (Z.leb_le _ _)) by lia. cbn [andb negb assert_ok]. osimpl. cbv zeta.
  change 0xffff with ((2 ^ 16 - 1) * 2 ^ 0). change 0xffff0000 with ((2 ^ 16 - 1) * 2 ^ 16). change (Z.shiftl SEL_KCSEG 16) with (8 * 2 ^ 16).
  change (Z.shiftl 0 12) with 0. rewrite Z.lor_0_r.
  rewrite !land_field by lia. rewrite !Z.shiftl_mul_pow2 by lia. rewrite Z.pow_0_r, Z.mul_1_r.
  assert (f = field f 0 16 + field f 16 16 * 2 ^ 16) as Ef by (unfold field, is_u32 in *; dlia).
  pose proof (field_bound f 0 16) as B0. pose proof (field_bound f 16 16) as B1. revert Ef. set (f0 := field f 0 16) in *. set (f1 := field f 16 16) in *.
  clearbody f0 f1. intros Ef.
  replace (Z.lor (Z.lor (Z.lor (f1 * 2 ^ 16) (1 * 2 ^ 15)) (dpl * 2 ^ 13)) (type * 2 ^ 8))
    with (type * 2 ^ 8 + dpl * 2 ^ 13 + 1 * 2 ^ 15 + f1 * 2 ^ 16).
  2: { rewrite (Z.lor_comm (f1 * 2 ^ 16)), Z.lor_comm, (Z.lor_comm _ (dpl * 2 ^ 13)), (Z.lor_comm (1 * 2 ^ 15)), !Z.lor_assoc.
       rewrite <- (Z.lor_assoc _ (f1 * 2 ^ 16)), (Z.lor_comm (f1 * 2 ^ 16)), !Z.lor_assoc. repeat add_bits. lia. }
  add_bits. unfold u32, u64. rewrite (Z.mod_small _ (2 ^ 32)), Z.mod_small by lia. add_bits.
  eexists. split; [reflexivity|]. split; unfold gate_offset, gate_selector, gate_type, gate_system, gate_dpl, gate_present; [lia|..].
  - rewrite (field_mid _ 0 f0 (8 + type * 2 ^ 24 + dpl * 2 ^ 29 + 1 * 2 ^ 31 + f1 * 2 ^ 32)) by lia.
    rewrite (field_mid _ (f0 + 8 * 2 ^ 16 + type * 2 ^ 40 + dpl * 2 ^ 45 + 1 * 2 ^ 47) f1 0) by lia. lia.
  - apply (field_mid _ f0 8 (type * 2 ^ 8 + dpl * 2 ^ 13 + 1 * 2 ^ 15 + f1 * 2 ^ 16)); lia.
  - apply (field_mid _ (f0 + 8 * 2 ^ 16) type (dpl * 2 + 1 * 2 ^ 3 + f1 * 2 ^ 4)); lia.
  - apply (field_mid _ (f0 + 8 * 2 ^ 16 + type * 2 ^ 40) 0 (dpl + 1 * 2 ^ 2 + f1 * 2 ^ 3)); lia.
  - apply (field_mid _ (f0 + 8 * 2 ^ 16 + type * 2 ^ 40) dpl (1 + f1 * 2)); lia.
  - apply (field_mid _ (f0 + 8 * 2 ^ 16 + type * 2 ^ 40 + dpl * 2 ^ 45) 1 f1); lia.
Qed.

(** ** The tables *)

Section Tables.
Context {hw : Type} `{Ports hw} (stub : Z -> Z) (lit : String.string -> Z) (gdt_at idt_at : Z).
Context (Hstub : forall v, 0 <= v < 256 -> is_u32 (stub v) /\ stub v <> NULL).
Implicit Types (c : cpu hw).

(** A registration; [r_on] is the level. *)
Record registration := mk_reg { r_vec : Z; r_dpl : Z; r_on : bool; r_handler : Z }.

(** The entry of a vector after registrations: level, type of the gate and handler. *)
Definition entry (l : list registration) (v : Z) : Z * Z * Z :=
  match List.find (fun r => r_vec r =? v) l with
  | Some r => (r_dpl r, if r_on r then 15 else 14, r_handler r)
  | None => (0, 14, NULL)
  end.

(** The tables hold the registrations; every other vector has a gate of level 0 and no handler. *)
Definition tables c (l : list registration) : Prop :=
  length (idt c) = 256%nat /\ length (intr_handlers c) = 256%nat /\ length (intr_names c) = 256%nat /\
  forall v, 0 <= v < 256 -> let '(dpl, type, h) := entry l v in
    (exists g, zget (idt c) v = Some g /\ is_gate g (stub v) dpl type) /\ zget (intr_handlers c) v = Some h.

Lemma zget_set_eq {A} (l : list A) i a : 0 <= i < zlen l -> zget (zset l i a) i = Some a.
Proof. intros Hi. by apply zget_zset_eq. Qed.

Definition good_registration (r : registration) : Prop := 0 <= r_vec r < 256 /\ 0 <= r_dpl r < 4.

(** A handler is registered once. *)
Lemma register_handler_run c l r name : tables c l -> good_registration r -> List.find (fun q => r_vec q =? r_vec r) l = None ->
  exists c', register_handler stub (r_vec r) (r_dpl r) (r_on r) (r_handler r) name c = Done (tt, c') /\ tables c' (r :: l) /\ gdt c' = gdt c /\ idtr c' = idtr c.
Proof.
  intros (Li & Lh & Ln & Ht) [Hv Hd] Hfresh. pose proof (Ht _ Hv) as Hentry. unfold entry in Hentry. rewrite Hfresh in Hentry.
  destruct Hentry as (_ & Hh). destruct (Hstub _ Hv) as [Hs Hn]. unfold register_handler.
  erewrite bind_done by (unfold load; by rewrite Hh). change (NULL =? NULL) with true. erewrite bind_done by reflexivity.
  destruct (make_gate_run (stub (r_vec r)) (r_dpl r) (if r_on r then 15 else 14) Hs Hn Hd) as (g & Eg & Hg); [destruct (r_on r); lia|].
  assert ((if r_on r then make_trap_gate (stub (r_vec r)) (r_dpl r) else make_intr_gate (stub (r_vec r)) (r_dpl r)) = Done g) as -> by (destruct (r_on r); exact Eg).
  erewrite bind_done by reflexivity. erewrite bind_done by reflexivity. erewrite bind_done by reflexivity.
  eexists. split; [reflexivity|]. split; [|done]. unfold tables. cbn [idt intr_handlers intr_names set_idt set_handlers set_names].
  split; [by rewrite <- Li, length_zset|]. split; [by rewrite <- Lh, length_zset|]. split; [by rewrite <- Ln, length_zset|].
  intros v Hvv. unfold entry. cbn [List.find]. destruct (Z.eqb_spec (r_vec r) v) as [<-|Hne].
  - split; [exists g; split; [|done]|]; apply zget_set_eq; unfold zlen; lia.
  - rewrite !zget_zset_ne by lia. exact (Ht v Hvv).
Qed.
(** The computation registers exactly the list, on tables without its vectors. *)
Definition registers (m : M (cpu hw) unit) (l : list registration) : Prop := forall c l0, tables c l0 -> NoDup (map r_vec l0 ++ map r_vec l) ->
  exists c', m c = Done (tt, c') /\ tables c' (rev l ++ l0) /\ gdt c' = gdt c.

Lemma fresh_find l v : v ∉ map r_vec l -> List.find (fun q => r_vec q =? v) l = None.
Proof.
  induction l as [|r l IH]; intros Hv; [done|]. cbn [map List.find] in *. apply not_elem_of_cons in Hv as [Hne Hv].
  rewrite (proj2 (Z.eqb_neq _ _)) by congruence. by apply IH.
Qed.

Lemma registers_one r name : good_registration r -> registers (register_handler stub (r_vec r) (r_dpl r) (r_on r) (r_handler r) name) [r].
Proof.
  intros Hr c l0 Ht Hnd. cbn in Hnd. apply NoDup_app in Hnd as (_ & Hd & _).
  destruct (register_handler_run c l0 r name Ht Hr) as (c' & E & Ht' & Hg & _); [apply fresh_find; intros Hin; apply (Hd _ Hin); by left|].
  by exists c'.
Qed.

Lemma registers_int v dpl on h name : 0 <= v < 256 -> (v < 0x20 \/ 0x2f < v) -> 0 <= dpl < 4 -> registers (intr_register_int stub v dpl on h name) [mk_reg v dpl on h].
Proof.
  intros Hv Ho Hd c l0 Ht Hnd. unfold intr_register_int.
  assert ((v <? 0x20) || (0x2f <? v) = true) as -> by (apply orb_true_iff; by rewrite !Z.ltb_lt).
  erewrite bind_done by reflexivity. by apply (registers_one (mk_reg v dpl on h)).
Qed.

Lemma registers_ext v h name : 0x20 <= v <= 0x2f -> registers (intr_register_ext stub v h name) [mk_reg v 0 false h].
Proof.
  intros Hv c l0 Ht Hnd. unfold intr_register_ext. rewrite !(proj2 (Z.leb_le _ _)) by lia.
  erewrite bind_done by reflexivity. apply (registers_one (mk_reg v 0 false h)); [split; cbn; lia|done|done].
Qed.

Lemma registers_seq m m' l l' : registers m l -> registers m' l' -> registers (m ;; m') (l ++ l').
Proof.
  intros Hm Hm' c l0 Ht Hnd. rewrite map_app, app_assoc in Hnd. pose proof Hnd as Hnd2. apply NoDup_app in Hnd2 as (Hnd1 & _ & _).
  destruct (Hm c l0 Ht Hnd1) as (c1 & E1 & T1 & G1).
  assert (NoDup (map r_vec (rev l ++ l0) ++ map r_vec l')) as Hp.
  { enough (map r_vec (rev l ++ l0) ≡ₚ map r_vec l0 ++ map r_vec l) as -> by done.
    rewrite map_app, map_rev, <- Permutation_rev. apply Permutation_app_comm. }
  destruct (Hm' c1 (rev l ++ l0) T1 Hp) as (c2 & E2 & T2 & G2). exists c2. rewrite rev_app_distr, <- app_assoc, <- G1. split; [|done].
  by erewrite bind_done by exact E1.
Qed.

(** ** Boot *)

(** Static tables before main has run: zeros of the right lengths. *)
Definition blank_tables c : Prop :=
  length (gdt c) = 6%nat /\ length (idt c) = 256%nat /\ intr_handlers c = replicate 256 NULL /\ length (intr_names c) = 256%nat.

Lemma pic_init_run c : exists h, pic_init c = Done (tt, set_ports h c).
Proof. unfold pic_init. do 11 (erewrite bind_done by reflexivity). eexists. reflexivity. Qed.

Lemma init_gates_run c : length (idt c) = 256%nat -> exists l, init_gates stub c = Done (tt, set_idt l c) /\ length l = 256%nat /\
  forall v, 0 <= v < 256 -> exists g, zget l v = Some g /\ is_gate g (stub v) 0 14.
Proof.
  intros Hl. unfold init_gates, for_z.
  destruct (for_from_inv (fun i c' => exists l, c' = set_idt l c /\ length l = 256%nat /\
      forall v, 0 <= v < i -> exists g, zget l v = Some g /\ is_gate g (stub v) 0 14)
    (fun i => g ← liftO (make_intr_gate (stub i) 0); modify (fun c => set_idt (zset (idt c) i g) c)) (Z.to_nat INTR_CNT) 0 c) as (c' & E & l & -> & Hlen & Hg).
  - exists (idt c). split; [by destruct c|]. split; [done|]. lia.
  - intros j c1 Hj (l & -> & Hlen & Hg). change (Z.of_nat (Z.to_nat INTR_CNT)) with 256 in Hj. destruct (Hstub j ltac:(lia)) as [Hs Hn].
    destruct (make_gate_run (stub j) 0 14 Hs Hn ltac:(lia) ltac:(lia)) as (g & Eg & Hgate). eexists. split.
    { erewrite bind_done by (unfold liftO, make_intr_gate; by rewrite Eg). reflexivity. }
    exists (zset l j g). split; [done|]. split; [by rewrite length_zset|]. intros v Hv. destruct (decide (v = j)) as [->|Hne].
    + exists g. split; [|done]. apply zget_zset_eq. unfold zlen. lia.
    + rewrite zget_zset_ne by done. apply Hg. lia.
  - exists l. split; [exact E|]. split; [done|]. exact Hg.
Qed.

Definition named_only c c' : Prop := exists l, c' = set_names l c /\ length l = length (intr_names c).

Lemma name_intr_run i t c c0 : named_only c0 c -> exists c', name_intr lit i t c = Done (tt, c') /\ named_only c0 c'.
Proof.
  intros (l & -> & Hl). eexists. split; [reflexivity|]. exists (zset l i (lit t)). split; [done|]. by rewrite length_zset.
Qed.

Lemma names_seq (m : M (cpu hw) unit) i t c0 : (forall c, named_only c0 c -> exists c', m c = Done (tt, c') /\ named_only c0 c') ->
  forall c, named_only c0 c -> exists c', (name_intr lit i t ;; m) c = Done (tt, c') /\ named_only c0 c'.
Proof.
  intros Hm c Hc. destruct (name_intr_run i t c c0 Hc) as (c1 & E1 & H1). destruct (Hm c1 H1) as (c2 & E2 & H2).
  exists c2. split; [|done]. by erewrite bind_done by exact E1.
Qed.

Lemma intr_init_run c : blank_tables c -> exists c', intr_init stub lit idt_at c = Done (tt, c') /\ tables c' [] /\ gdt c' = gdt c.
Proof.
  intros (_ & Hi & Hh & Hn). unfold intr_init. destruct (pic_init_run c) as (h & E1). erewrite bind_done by exact E1.
  destruct (init_gates_run (set_ports h c) Hi) as (l & E2 & Hl & Hg). erewrite bind_done by exact E2. erewrite bind_done by reflexivity.
  set (c1 := lidt _ _). assert (named_only c1 c1) as H1 by (exists (intr_names c1); split; [by destruct c1|done]).
  destruct (for_from_inv (fun _ => named_only c1) (fun i => name_intr lit i "unknown") (Z.to_nat INTR_CNT) 0 c1 H1) as (c2 & E3 & H2).
  { intros j c3 _ H3. by apply name_intr_run. }
  unfold for_z. erewrite bind_done by exact E3. match goal with |- exists c', ?m c2 = _ /\ _ => assert (exists c', m c2 = Done (tt, c') /\ named_only c1 c') as (c' & E & l' & -> & Hl') end.
  { revert c2 E3 H2. intros c2 _. revert c2. repeat apply names_seq. intros c2. apply name_intr_run. }
  eexists. split; [exact E|]. split; [|done]. split; [done|]. split; [cbn; by rewrite Hh|]. split; [cbn; by rewrite Hl'|].
  intros v Hv. cbn. split; [by apply Hg|]. rewrite Hh. unfold zget. rewrite decide_True by lia. apply lookup_replicate. split; [done|lia].
Qed.

(** What main registers, latest first. *)
Definition boot_registrations (tm kb kl pf sys ser : Z) : list registration :=
  rev ([mk_reg 0x20 0 false tm; mk_reg 0x21 0 false kb] ++
    [mk_reg 3 3 true kl; mk_reg 4 3 true kl; mk_reg 5 3 true kl; mk_reg 0 0 true kl; mk_reg 1 0 true kl; mk_reg 6 0 true kl; mk_reg 7 0 true kl;
     mk_reg 11 0 true kl; mk_reg 12 0 true kl; mk_reg 13 0 true kl; mk_reg 16 0 true kl; mk_reg 19 0 true kl; mk_reg 14 0 false pf] ++
    [mk_reg 0x30 3 true sys; mk_reg 0x24 0 false ser]).

(** The descriptor of a selector: all of memory, for code or data, at a level. *)
Definition flat_segment c (sel type dpl : Z) : Prop := exists d, zget (gdt c) (sel / 8) = Some d /\
  seg_base d = 0 /\ seg_limit d = 0xfffff /\ seg_pages d = 1 /\ seg_code_data d = 1 /\ seg_type d = type /\ seg_dpl d = dpl /\ seg_present d = 1.

Definition gdt_ready c (tss : Z) : Prop :=
  flat_segment c SEL_KCSEG 10 0 /\ flat_segment c SEL_KDSEG 2 0 /\ flat_segment c SEL_UCSEG 10 3 /\ flat_segment c SEL_UDSEG 2 3 /\
  exists d, zget (gdt c) (SEL_TSS / 8) = Some d /\ seg_base d = tss /\ seg_limit d = 0x67 /\ seg_pages d = 0 /\ seg_code_data d = 0 /\ seg_type d = 9 /\ seg_dpl d = 0.

Lemma gdt_init_run tss c : length (gdt c) = 6%nat -> is_u32 tss -> tss <> NULL ->
  exists c', gdt_init gdt_at tss c = Done (tt, c') /\ gdt_ready c' tss /\ (exists g t l, c' = lgdt_ltr g t (set_gdt l c) /\ length l = 6%nat).
Proof.
  intros Hl Ht Hn. pose proof (make_seg_desc_sum tss 0x67 CLS_SYSTEM 9 0 GRAN_BYTE Ht ltac:(lia) ltac:(lia) ltac:(lia)) as Etss.
  set (d := _ + _) in Etss. pose proof (make_seg_fields tss 0x67 CLS_SYSTEM 9 0 GRAN_BYTE Ht ltac:(lia) ltac:(lia) ltac:(lia)) as Hd. cbv zeta in Hd. fold d in Hd.
  destruct c as [g i h n u gr ir tr p]. cbn [gdt] in Hl. do 6 (destruct g as [|? g]; [done|]). destruct g; [|done].
  unfold gdt_init. do 5 (erewrite bind_done by reflexivity). rewrite (proj2 (Z.eqb_neq _ _) Hn). erewrite bind_done by reflexivity.
  erewrite bind_done by (unfold put_desc, make_tss_desc; erewrite bind_done by (unfold liftO; rewrite Etss; reflexivity); reflexivity).
  eexists. split; [reflexivity|]. split; [|by eexists _, _, _; split].
  do 4 (split; [eexists; split; [reflexivity|by vm_compute]|]). exists d. split; [reflexivity|]. by destruct Hd as (_ & ? & ? & ? & ? & ? & ? & _).
Qed.

Lemma exception_init_registers kl pf : registers (exception_init stub lit kl pf)
  [mk_reg 3 3 true kl; mk_reg 4 3 true kl; mk_reg 5 3 true kl; mk_reg 0 0 true kl; mk_reg 1 0 true kl; mk_reg 6 0 true kl; mk_reg 7 0 true kl;
   mk_reg 11 0 true kl; mk_reg 12 0 true kl; mk_reg 13 0 true kl; mk_reg 16 0 true kl; mk_reg 19 0 true kl; mk_reg 14 0 false pf].
Proof.
  unfold exception_init. do 12 (match goal with |- registers _ (?r :: ?l) => change (r :: l) with ([r] ++ l) end; apply registers_seq; [apply registers_int; lia|]).
  apply registers_int; lia.
Qed.

Lemma blank_after_gdt c g t l : blank_tables c -> length l = 6%nat -> blank_tables (lgdt_ltr g t (set_gdt l c)).
Proof. intros (_ & Hi & Hh & Hn) Hl. by split. Qed.

(** What the registrations say of a vector. *)
Lemma boot_entry tm kb kl pf sys ser v : entry (boot_registrations tm kb kl pf sys ser) v =
  (if bool_decide (v ∈ [3; 4; 5; 0x30]) then 3 else 0, if bool_decide (v ∈ [0; 1; 3; 4; 5; 6; 7; 11; 12; 13; 16; 19; 0x30]) then 15 else 14,
   if bool_decide (v ∈ [0; 1; 3; 4; 5; 6; 7; 11; 12; 13; 16; 19]) then kl else if v =? 14 then pf else if v =? 0x30 then sys
           else if v =? 0x20 then tm else if v =? 0x21 then kb else if v =? 0x24 then ser else NULL).
Proof.
  destruct (decide (v ∈ map r_vec (boot_registrations tm kb kl pf sys ser))) as [Hin|Hout].
  - cbn in Hin. repeat (apply elem_of_cons in Hin as [->|Hin]; [by vm_compute|]). by apply elem_of_nil in Hin.
  - unfold entry. rewrite fresh_find by done. cbn in Hout. rewrite !not_elem_of_cons in Hout. destruct_and!.
    rewrite !bool_decide_false by (rewrite !elem_of_cons, elem_of_nil; lia). rewrite !(proj2 (Z.eqb_neq _ _)) by lia. done.
Qed.

(** C34: after the tables are filled at boot, every vector has a gate to its own stub in
    the kernel's code segment; user code may invoke breakpoint, overflow, bound and
    system calls and nothing else; interrupts are turned off on the way in exactly for
    devices, page faults and vectors without a handler; the segments of the kernel and
    of user code cover all of memory at their levels, and the task segment is the
    kernel's. *)
Theorem boot_tables_correct c tss tm kb kl pf sys ser (Hc : blank_tables c) (Ht : is_u32 tss) (Hn : tss <> NULL) :
  exists c', main_tables stub lit gdt_at idt_at tss tm kb kl pf sys ser c = Done (tt, c') /\ gdt_ready c' tss /\
    forall v, 0 <= v < 256 -> exists g h, zget (idt c') v = Some g /\ zget (intr_handlers c') v = Some h /\
      is_gate g (stub v) (if bool_decide (v ∈ [3; 4; 5; 0x30]) then 3 else 0)
        (if bool_decide (v ∈ [0; 1; 3; 4; 5; 6; 7; 11; 12; 13; 16; 19; 0x30]) then 15 else 14) /\
      h = (if bool_decide (v ∈ [0; 1; 3; 4; 5; 6; 7; 11; 12; 13; 16; 19]) then kl else if v =? 14 then pf else if v =? 0x30 then sys
           else if v =? 0x20 then tm else if v =? 0x21 then kb else if v =? 0x24 then ser else NULL).
Proof.
  pose proof Hc as (Hg & _). unfold main_tables. destruct (gdt_init_run tss c Hg Ht Hn) as (c1 & E1 & Hg1 & g & t & l & -> & Hl).
  erewrite bind_done by exact E1. destruct (intr_init_run _ (blank_after_gdt c g t l Hc Hl)) as (c2 & E2 & T2 & G2). erewrite bind_done by exact E2.
  assert (registers (intr_register_ext stub 0x20 tm (lit "8254 Timer") ;; intr_register_ext stub 0x21 kb (lit "8042 Keyboard") ;; exception_init stub lit kl pf ;;
    syscall_init stub lit sys ;; intr_register_ext stub (0x20 + 4) ser (lit "serial")) (rev (boot_registrations tm kb kl pf sys ser))) as Hreg.
  { unfold boot_registrations. rewrite rev_involutive. apply (registers_seq _ _ [_]); [by apply registers_ext|]. apply (registers_seq _ _ [_]); [by apply registers_ext|].
    apply registers_seq; [apply exception_init_registers|]. apply (registers_seq _ _ [_] [_]); [apply registers_int; lia|by apply registers_ext]. }
  destruct (Hreg c2 [] T2) as (c3 & E3 & T3 & G3); [cbn; apply (bool_decide_unpack _); by vm_compute|].
  exists c3. split; [exact E3|]. split; [unfold gdt_ready, flat_segment in *; by rewrite G3, G2|].
  rewrite rev_involutive, app_nil_r in T3. destruct T3 as (_ & _ & _ & Hv). intros v Hvv. specialize (Hv v Hvv).
  destruct (entry _ v) as [[dpl type] h] eqn:En. destruct Hv as ((gt & Hgt & Hgate) & Hh). exists gt, h. split; [done|]. split; [done|].
  rewrite (boot_entry tm kb kl pf sys ser v) in En. by injection En as <- <- <-.
Qed.
End Tables.

(** ** Concrete tables *)

Lemma seg_desc_roundtrip_witness : exists d, make_seg_desc 0xc0123456 0x67 CLS_SYSTEM 9 0 GRAN_BYTE = Done d /\ seg_base d = 0xc0123456 /\ seg_type d = 9.
Proof.
  destruct (seg_desc_roundtrip 0xc0123456 0x67 CLS_SYSTEM 9 0 GRAN_BYTE ltac:(by_decide) ltac:(by_decide)) as (d & Hd & _ & Hb & _ & _ & Ht & _).
  exists d. exact (conj Hd (conj Hb Ht)).
Defined.

(** Hardware that answers nothing. *)
#[local] Instance silent_ports : Ports unit := { port_in _ h := (0, h); port_out _ _ h := h }.

Definition blank_cpu : cpu unit := mk_cpu (replicate 6 0) (replicate 256 0) (replicate 256 NULL) (replicate 256 NULL) (replicate 256 0) 0 0 0 tt.

Lemma boot_tables_correct_witness : exists c' g h,
  main_tables (fun v => 0xc0020000 + 16 * v) (fun _ => 1) 0xc0030000 0xc0031000 0xc0004000 21 22 23 24 25 26 blank_cpu = Done (tt, c') /\
  zget (idt c') 0x30 = Some g /\ zget (intr_handlers c') 0x30 = Some h /\ gate_dpl g = 3 /\ gate_offset g = 0xc0020300 /\ h = 25.
Proof.
  assert (forall v, 0 <= v < 256 -> is_u32 (0xc0020000 + 16 * v) /\ 0xc0020000 + 16 * v <> NULL) as Hs by (unfold is_u32, NULL; lia).
  destruct (boot_tables_correct (fun v => 0xc0020000 + 16 * v) (fun _ => 1) 0xc0030000 0xc0031000 Hs blank_cpu 0xc0004000 21 22 23 24 25 26)
    as (c' & Hr & _ & Hv); [by split|by_decide|done|].
  destruct (Hv 0x30 ltac:(lia)) as (g & h & Hg & Hh & Hgate & Eh). exists c', g, h.
  split; [exact Hr|]. split; [exact Hg|]. split; [exact Hh|]. split; [exact (g_dpl _ _ _ _ Hgate)|]. split; [exact (g_offset _ _ _ _ Hgate)|exact Eh].
Defined.
