(* ===== verification/Exceptions.v ===== *)
(** * userprog/exception.c: what ends a process by force

    The handlers of exceptions on the system of Process: page faults are counted, a
    process that faults exits with status -1, any other exception kills the process
    without an exit status, and an exception of the kernel stops it.  [names] is the
    table of the names of interrupts, [cr2] the register with the address of a fault. *)

From Stdlib Require Import Ascii.
From Stdlib Require Import(notations) String.
From S2P Require Import Prelude Vaddr KList Bitmap Block FileSys Kernel KernelRuns Sched KernelSteps KernelSpec KernelDemo FsDemo PagedirFree.
From S2P Require Import Mem CString Stdio Ustar Devices DevicesSpec Palloc Pagedir Segments ArgStack Process Syscall UserMem Fdtable Wait SysDemo.

(** [struct intr_frame], the words the processor and the stubs have pushed. *)
Record intr_frame := mk_intr_frame {
  edi : Z; esi : Z; ebp : Z; ebx : Z; edx : Z; ecx : Z; reg_eax : Z;
  gs : Z; fs_ : Z; es : Z; ds : Z;
  vec_no : Z; error_code : Z;
  eip : Z; cs : Z; eflags : Z; esp : Z; ss : Z
}.

(** Error code bits of a page fault. *)
Definition PF_P : Z := 0x1.
Definition PF_W : Z := 0x2.
Definition PF_U : Z := 0x4.

Record traps (dev : Type) := mk_traps { t_sys : sys dev; page_fault_cnt : Z }.
Arguments mk_traps {dev}.
Arguments t_sys {dev}.
Arguments page_fault_cnt {dev}.

Section Exceptions.
Context {dev : Type} `{BlockDriver dev} (ls : locals) (lit : String.string -> Z) (names : list Z) (cr2 : Z).
Abbreviation T := (traps dev).

Definition on_sys {A} (c : M (sys dev) A) : M T A := fun s => '(a, k) ← c (t_sys s); Done (a, mk_traps k (page_fault_cnt s)).

(** [intr_names[f->vec_no]] *)
Definition name_of (vec : Z) : M (sys dev) Z := load (fun _ => zget names vec).

Definition intr_dump_frame (f : intr_frame) : M (sys dev) unit :=
  name ← name_of (vec_no f);
  print (codes "Interrupt %#04x (%s) at eip=%p" ++ [10]) [vec_no f; name; eip f] ;;
  print (codes " cr2=%08x error=%08x" ++ [10]) [cr2; error_code f] ;;
  print (codes " eax=%08x ebx=%08x ecx=%08x edx=%08x" ++ [10]) [reg_eax f; ebx f; ecx f; edx f] ;;
  print (codes " esi=%08x edi=%08x esp=%08x ebp=%08x" ++ [10]) [esi f; edi f; esp f; ebp f] ;;
  print (codes " cs=%04hx ds=%04hx es=%04hx ss=%04hx" ++ [10]) [cs f; ds f; es f; ss f].

(** [thread_name ()] is a field of struct thread: the message is printed in two parts. *)
Definition print_thread_name : M (sys dev) unit :=
  t ← current_thread; th ← on_kern (get_thread t);
  modify (fun s => set_console (console s ++ t_name th) (keyboard s) s).

Definition kill (f : intr_frame) : M (sys dev) unit :=
  if cs f =? SEL_UCSEG then
    print_thread_name ;;
    name ← name_of (u8 (vec_no f));
    print (codes ": dying due to interrupt %#04x (%s)." ++ [10]) [vec_no f; name] ;;
    intr_dump_frame f ;;
    thread_exit_process
  else if cs f =? SEL_KCSEG then intr_dump_frame f ;; panic
  else
    name ← name_of (u8 (vec_no f));
    print (codes "Interrupt %#04x (%s) in unknown segment %04x" ++ [10]) [vec_no f; name; cs f] ;;
    thread_exit_process.

(** [sys_exit] does not return. *)
Definition page_fault (f : intr_frame) : M T unit :=
  let fault_addr := cr2 in
  _ ← on_sys (on_kern intr_enable);
  modify (fun s => mk_traps (t_sys s) (s64 (page_fault_cnt s + 1))) ;;
  let not_present := Z.land (error_code f) PF_P =? 0 in
  let write := negb (Z.land (error_code f) PF_W =? 0) in
  let user := negb (Z.land (error_code f) PF_U =? 0) in
  if user then on_sys (sys_exit ls (-1))
  else
    on_sys (print (codes "Page fault at %p: %s error %s page in %s context." ++ [10])
      [fault_addr; lit (if not_present then "not present" else "rights violation"); lit (if write then "writing" else "reading"); lit "kernel"]) ;;
    on_sys (kill f).

(** ** Messages are printed *)

(** A name in memory. *)
Definition name_in (m : mem) (p : Z) : Prop := exists str, cstr m p str /\ 0 < p < 2 ^ 32 /\ zlen str < 2 ^ 32.

(** ** Messages on the console *)

(** Nothing but the console changes. *)
Definition says (c : M (sys dev) unit) (s : sys dev) : Prop := exists out, c s = Done (tt, set_console (console s ++ out) (keyboard s) s).

Definition kmem (s : sys dev) : mem := bytes (pages (vm s)).

Lemma print_says fmt args s : (exists out, printf fmt args (kmem s) = Done (out, kmem s)) -> says (print fmt args) s.
Proof.
  intros [out E]. exists out. unfold print. erewrite bind_done; [reflexivity|].
  unfold on_mem, on_ram, on_vm, on_pages, on_bytes. unfold kmem in E. rewrite E. cbn. by destruct s as [? ? [[] ? ? ?]].
Qed.

Lemma says_then (c : M (sys dev) unit) c' s : says c s -> (forall o, says c' (set_console o (keyboard s) s)) -> says (c ;; c') s.
Proof.
  intros [out E] Hc'. destruct (Hc' (console s ++ out)) as [out' E']. exists (out ++ out'). erewrite bind_done by exact E.
  rewrite E'. cbn. by rewrite app_assoc.
Qed.

(** The names of the table are strings, and the frame holds words. *)
Definition named (f : intr_frame) (s : sys dev) : Prop := 0 <= vec_no f < 256 /\ is_u32 (eip f) /\
  exists p, zget names (vec_no f) = Some p /\ name_in (kmem s) p.

Lemma name_run f s : named f s -> exists p, name_of (vec_no f) s = Done (p, s) /\ name_of (u8 (vec_no f)) s = Done (p, s) /\ name_in (kmem s) p.
Proof.
  intros (Hv & _ & p & Hp & Hn). exists p. assert (u8 (vec_no f) = vec_no f) as -> by (unfold u8; by apply Z.mod_small).
  unfold name_of, load. by rewrite Hp.
Qed.

Lemma intr_dump_frame_says f s : named f s -> says (intr_dump_frame f) s.
Proof.
  intros Hf. destruct (name_run f s Hf) as (p & Hp & _ & Hn). pose proof Hf as (_ & He & _).
  assert (forall c : M (sys dev) unit, says c s -> says (name ← name_of (vec_no f); c) s) as Hbind.
  { intros c [out E]. exists out. by erewrite bind_done by exact Hp. }
  destruct Hn as (str & Hn1 & Hn2 & Hn3).
  assert (says (print (codes "Interrupt %#04x (%s) at eip=%p" ++ [10]) [vec_no f; p; eip f] ;;
    print (codes " cr2=%08x error=%08x" ++ [10]) [cr2; error_code f] ;;
    print (codes " eax=%08x ebx=%08x ecx=%08x edx=%08x" ++ [10]) [reg_eax f; ebx f; ecx f; edx f] ;;
    print (codes " esi=%08x edi=%08x esp=%08x ebp=%08x" ++ [10]) [esi f; edi f; esp f; ebp f] ;;
    print (codes " cs=%04hx ds=%04hx es=%04hx ss=%04hx" ++ [10]) [cs f; ds f; es f; ss f]) s) as [out E].
  { repeat (apply says_then; [apply print_says; evaluate_format; printing|intros ?]). apply print_says. evaluate_format. printing. }
  exists out. unfold intr_dump_frame. by erewrite bind_done by exact Hp.
Qed.

(** ** Killed processes *)

Lemma print_thread_name_run s t u th : user_thread s t u -> threads (kern s) !! t = Some th ->
  print_thread_name s = Done (tt, set_console (console s ++ t_name th) (keyboard s) s).
Proof.
  intros Hut Ht. destruct (user_thread_running s t u Hut) as (Hr & th0 & Ht0 & _). rewrite Ht in Ht0. injection Ht0 as <-.
  unfold print_thread_name. erewrite bind_done by (eapply current_thread_run, Hr).
  erewrite bind_done by (apply on_kern_run; unfold get_thread, load; rewrite Ht; reflexivity). rewrite set_kern_same. done.
Qed.

(** C35: an exception of user code, other than a page fault, ends the process: its memory
    is freed and its parent is woken, but its exit status stays what it was and its
    files stay open.  An exception of the kernel stops the kernel. *)
Theorem kill_correct f s t u th i idx st sm m' (Hut : user_thread s t u) (Hf : named f s) (Ht : threads (kern s) !! t = Some th)
  (Hslot : slot s (tid th) i idx st sm) (Hm : directory_freed u (vm s) m') :
  (cs f = SEL_UCSEG -> exists s1 s2, kill f s = Done (tt, s1) /\ run_kernel_frame s1 = Done (tt, s2) /\
    slot s2 (tid th) i idx st (mk_sema (u32 (value sm + 1)) (tail (waiters sm))) /\
    ready_list (kern s2) = ready_list (kern s) ++ take 1 (waiters sm) /\ sched (kern s2) true None /\
    uthreads s2 = <[t := with_todo (UExit :: todo u) (with_pagedir NULL u)]> (uthreads s) /\ vm s2 = m' /\ store s2 = store s) /\
  (cs f = SEL_KCSEG -> kill f s = Panic).
Proof.
  split; intros Hcs; unfold kill; rewrite Hcs.
  - change (SEL_UCSEG =? SEL_UCSEG) with true. cbn iota. erewrite bind_done by exact (print_thread_name_run s t u th Hut Ht).
    set (sa := set_console _ _ s). assert (named f sa) as Hfa by exact Hf. destruct (name_run f sa Hfa) as (p & _ & Hp & Hn).
    erewrite bind_done by exact Hp. destruct Hn as (str & Hn1 & Hn2 & Hn3).
    destruct (print_says (codes ": dying due to interrupt %#04x (%s)." ++ [10]) [vec_no f; p] sa) as [o1 E1]; [evaluate_format; printing|].
    erewrite bind_done by exact E1. set (sb := set_console _ _ sa). destruct (intr_dump_frame_says f sb Hf) as [o2 E2].
    erewrite bind_done by exact E2. set (sc := set_console _ _ sb).
    assert (user_thread sc t u) as Huc by (apply (user_thread_same s sc t u); [done|done|apply Hut]).
    assert (slot sc (tid th) i idx st sm) as Hsc by (destruct Hslot; by split).
    destruct (thread_exit_run ls [] sc t u th i idx st sm m' Huc Ht Hsc Hm) as (s1 & s2 & Hx & Hrun & Hs2 & _ & Hrl & Hsch & Hu2 & Hv & _ & Hst).
    exists s1, s2. by split_and!.
  - change (SEL_KCSEG =? SEL_UCSEG) with false. change (SEL_KCSEG =? SEL_KCSEG) with true. cbn iota.
    destruct (intr_dump_frame_says f s Hf) as [out E]. by erewrite bind_done by exact E.
Qed.

(** A page fault is counted with interrupts on again; user code that faults exits
    with status -1, and a fault of the kernel stops it. *)
Theorem page_fault_correct f (ts : traps dev) (Hx : in_external_intr (kern (t_sys ts)) = false)
  (Hl : forall l, In l ["not present"; "rights violation"; "writing"; "reading"; "kernel"]%string -> name_in (kmem (t_sys ts)) (lit l))
  (Hf : named f (t_sys ts)) (Hc : is_u32 cr2) :
  let k := kern (t_sys ts) in
  let ts' := mk_traps (set_kern (set_intr true (in_external_intr k) (yield_on_return k) k) (t_sys ts)) (s64 (page_fault_cnt ts + 1)) in
  if Z.land (error_code f) PF_U =? 0 then cs f = SEL_KCSEG -> page_fault f ts = Panic
  else page_fault f ts = on_sys (sys_exit ls (-1)) ts'.
Proof.
  cbv zeta. unfold page_fault. set (k' := set_intr _ _ _ _). set (sa := set_kern k' (t_sys ts)).
  assert (on_sys (on_kern intr_enable) ts = Done (intr_on (kern (t_sys ts)), mk_traps sa (page_fault_cnt ts))) as Ei.
  { unfold on_sys. rewrite (on_kern_run (t_sys ts) intr_enable (intr_on (kern (t_sys ts))) k'); [done|]. unfold intr_enable.
    erewrite bind_done by reflexivity. erewrite bind_done by (unfold intr_context, gets; by rewrite Hx). by erewrite bind_done by reflexivity. }
  erewrite bind_done by exact Ei. erewrite bind_done by reflexivity. cbn [t_sys page_fault_cnt].
  destruct (Z.land (error_code f) PF_U =? 0); cbn [negb]; [|done]. intros Hcs.
  set (a := lit (if Z.land _ _ =? 0 then _ else _)). set (b := lit (if negb _ then _ else _)).
  assert (name_in (kmem sa) a /\ name_in (kmem sa) b /\ name_in (kmem sa) (lit "kernel")) as ((sta & A1 & A2 & A3) & (stb & B1 & B2 & B3) & (stk & K1 & K2 & K3)).
  { split_and!; apply Hl; unfold a, b; repeat destruct (_ =? 0); cbn; auto 10. }
  assert (says (print (codes "Page fault at %p: %s error %s page in %s context." ++ [10]) [cr2; a; b; lit "kernel"]) sa) as [out E].
  { apply print_says. clearbody a b. evaluate_format. printing. }
  erewrite bind_done by (unfold on_sys; cbn [t_sys]; rewrite E; reflexivity). unfold on_sys. cbn [t_sys].
  unfold kill. rewrite Hcs. change (SEL_KCSEG =? SEL_UCSEG) with false. change (SEL_KCSEG =? SEL_KCSEG) with true. cbn iota.
  destruct (intr_dump_frame_says f (set_console (console sa ++ out) (keyboard sa) sa) Hf) as [out' E']. erewrite bind_done by exact E'. done.
Qed.
End Exceptions.

(** ** A process that divides by zero *)

Definition demo_names : list Z := replicate 256 0xc0004000.
Definition demo_frame_at (cs vec err : Z) : intr_frame := mk_intr_frame 0 0 0 0 0 0 0 0 0 0 0 vec err 0x8048000 cs 0 0 0.

Lemma demo_name_in : name_in (bytes demo_user_ram) 0xc0004000.
Proof.
  exists [108; 115]. split; [|split; [lia|vm_compute; reflexivity]]. split; [|by_decide].
  apply bytes_at_intro. intros i b Hi. rewrite user_page_byte by (apply lookup_lt_Some in Hi; cbn in Hi; lia).
  pose proof (stored_bytes demo_string demo_bytes 0xc0004000 ltac:(by_decide)) as Hb. exact (bytes_at_lookup _ _ _ _ _ Hb Hi).
Qed.

Lemma demo_named cs vec err sm : 0 <= vec < 256 -> named demo_names (demo_frame_at cs vec err) (demo_sys_with sm).
Proof.
  intros Hv. split; [done|]. split; [by_decide|]. exists 0xc0004000. split; [|exact demo_name_in].
  unfold demo_names, zget. cbn [vec_no demo_frame_at]. rewrite decide_True by lia. apply lookup_replicate. split; [done|lia].
Qed.

(** The status in the slot is 0 before and after. *)
Lemma kill_correct_witness : exists s1 s2, let s := demo_sys_with (mk_sema 0 []) in
  kill demo_names 0 (demo_frame_at SEL_UCSEG 0 0) s = Done (tt, s1) /\ run_kernel_frame s1 = Done (tt, s2) /\
  slot s2 1 0 0 0 (mk_sema 1 []).
Proof.
  set (m0 := mk_mmu demo_user_ram 0x2000 0xc0002000 5).
  destruct (pagedir_destroy_run m0 demo_pd demo_d demo_e demo_dir demo_user_ram_ok demo_user_frames) as (m' & Hm & _); [discriminate|].
  assert (slot (demo_sys_with (mk_sema 0 [])) 1 0 0 0 (mk_sema 0 [])) as Hslot
    by (split; [reflexivity|by exists 0|discriminate|discriminate|reflexivity]).
  destruct (kill_correct (mk_locals 0 0 0 0 [] 0 0) demo_names 0 (demo_frame_at SEL_UCSEG 0 0) (demo_sys_with (mk_sema 0 [])) 1 demo_process
    (demo_thread 1 THREAD_RUNNING []) 0 0 0 (mk_sema 0 []) m' (demo_user_thread (mk_sema 0 []) eq_refl)
    (demo_named _ 0 0 _ ltac:(lia)) eq_refl Hslot) as [Hk _].
  { unfold directory_freed. cbn [demo_process u_pagedir]. rewrite <- Hm. reflexivity. }
  destruct (Hk eq_refl) as (s1 & s2 & H1 & H2 & H3 & _). exists s1, s2. exact (conj H1 (conj H2 H3)).
Defined.

Lemma page_fault_correct_witness :
  page_fault (mk_locals 0 0 0 0 [] 0 0) (fun _ => 0xc0004000) demo_names 0 (demo_frame_at SEL_KCSEG 14 PF_W) (mk_traps (demo_sys_with (mk_sema 0 [])) 0) = Panic.
Proof.
  exact (page_fault_correct (mk_locals 0 0 0 0 [] 0 0) (fun _ => 0xc0004000) demo_names 0 (demo_frame_at SEL_KCSEG 14 PF_W) (mk_traps (demo_sys_with (mk_sema 0 [])) 0)
    eq_refl (fun l _ => demo_name_in) (demo_named _ 14 _ _ ltac:(lia)) ltac:(by_decide) eq_refl).
Defined.
