(* ===== verification/Boot.v ===== *)
(** * threads/init.c: the kernel's command line

    The words of the command line are read from the boot sector, the options set the
    variables of the kernel, and the actions run one after the other on the state of
    Fsutil.  The option -h prints its help and powers the machine off as shutdown.c
    does, with the statistics of the parts.  Pointers to words are addresses of the memory of Mem; string literals
    are strings in memory at the addresses [lit] the linker decides.  rtc.c gives the
    time that seeds the random numbers.  The build is that of userprog: USERPROG and
    FILESYS are defined, VM is not. *)

From Stdlib Require Import Ascii.
From Stdlib Require Import(notations) String.
From S2P Require Import Prelude Vaddr Block FileSys Mem CString Stdio CStdlib Random Ustar Fsutil Devices.

(** enum shutdown_type *)
Inductive shutdown_type := SHUTDOWN_NONE | SHUTDOWN_POWER_OFF | SHUTDOWN_REBOOT.

(** The counters of timer.c, thread.c, kbd.c and exception.c. *)
Record stats := mk_stats {
  s_ticks : Z;
  idle_ticks : Z;
  kernel_ticks : Z;
  user_ticks : Z;
  s_key_cnt : Z;
  page_fault_cnt : Z
}.

Record boot (hw dev : Type) := mk_boot {
  b_mem : mem;
  b_hw : hw;
  b_rnd : rc4;
  b_console : list Z;
  b_off : bool;               (* the machine has been powered off *)
  how : shutdown_type;        (* how to shut down *)
  format_filesys : bool;      (* -f *)
  filesys_bdev_name : Z;      (* -filesys *)
  scratch_bdev_name : Z;      (* -scratch *)
  thread_mlfqs : bool;        (* -mlfqs *)
  user_page_limit : Z;        (* -ul *)
  b_fs : fs dev;
  b_blocks : registry dev;
  b_stats : stats
}.
Arguments mk_boot {hw dev}.
Arguments b_mem {hw dev}.
Arguments b_hw {hw dev}.
Arguments b_rnd {hw dev}.
Arguments b_console {hw dev}.
Arguments b_off {hw dev}.
Arguments how {hw dev}.
Arguments format_filesys {hw dev}.
Arguments filesys_bdev_name {hw dev}.
Arguments scratch_bdev_name {hw dev}.
Arguments thread_mlfqs {hw dev}.
Arguments user_page_limit {hw dev}.
Arguments b_fs {hw dev}.
Arguments b_blocks {hw dev}.
Arguments b_stats {hw dev}.

(** threads/loader.h *)
Definition LOADER_END : Z := 0x7e00.
Definition LOADER_SIG_LEN : Z := 2.
Definition LOADER_PARTS_LEN : Z := 64.
Definition LOADER_ARGS_LEN : Z := 128.
Definition LOADER_ARG_CNT_LEN : Z := 4.
Definition LOADER_SIG : Z := LOADER_END - LOADER_SIG_LEN.
Definition LOADER_PARTS : Z := LOADER_SIG - LOADER_PARTS_LEN.
Definition LOADER_ARGS : Z := LOADER_PARTS - LOADER_ARGS_LEN.
Definition LOADER_ARG_CNT : Z := LOADER_ARGS - LOADER_ARG_CNT_LEN.

(** ** devices/rtc.c *)

Definition CMOS_REG_SET : Z := 0x70.
Definition CMOS_REG_IO : Z := 0x71.
Definition RTC_REG_SEC : Z := 0.
Definition RTC_REG_MIN : Z := 2.
Definition RTC_REG_HOUR : Z := 4.
Definition RTC_REG_MDAY : Z := 7.
Definition RTC_REG_MON : Z := 8.
Definition RTC_REG_YEAR : Z := 9.

Definition bcd_to_bin (x : Z) : Z := Z.land x 0x0f + Z.shiftr x 4 * 10.

Definition days_per_month : list Z := [31; 28; 31; 30; 31; 30; 31; 31; 30; 31; 30; 31].

Record rtc_time := mk_rtc { t_sec : Z; t_min : Z; t_hour : Z; t_mday : Z; t_mon : Z; t_year : Z }.

(** The loop over the months. *)
Fixpoint month_loop (n : nat) (i time : Z) : outcome Z :=
  match n with
  | O => Done time
  | S n =>
      match zget days_per_month (i - 1) with
      | Some d => month_loop n (i + 1) (u32 (time + d * 24 * 60 * 60))
      | None => Fault
      end
  end.

(** The part after the registers have been read: [int] is 32 bits wide, [time_t]
    unsigned and as wide. *)
Definition rtc_seconds (r : rtc_time) : outcome Z :=
  let year := if t_year r <? 70 then t_year r + 100 else t_year r in
  let year := year - 70 in
  let time := u32 (s32 ((year * 365 + Z.quot (year - 1) 4) * 24 * 60 * 60)) in
  time ← month_loop (Z.to_nat (t_mon r)) 1 time;
  let time := if (2 <? t_mon r) && (Z.rem year 4 =? 0) then u32 (time + 24 * 60 * 60) else time in
  let time := u32 (time + (t_mday r - 1) * 24 * 60 * 60) in
  let time := u32 (time + t_hour r * 60 * 60) in
  let time := u32 (time + t_min r * 60) in
  Done (u32 (time + t_sec r)).

Section Boot.
Context {hw dev : Type} `{Ports hw} `{BlockDriver dev} (lit : String.string -> Z).
Abbreviation B := (boot hw dev).

Definition set_mem m (b : B) : B := mk_boot m (b_hw b) (b_rnd b) (b_console b) (b_off b) (how b) (format_filesys b) (filesys_bdev_name b) (scratch_bdev_name b) (thread_mlfqs b) (user_page_limit b) (b_fs b) (b_blocks b) (b_stats b).
Definition set_hw h (b : B) : B := mk_boot (b_mem b) h (b_rnd b) (b_console b) (b_off b) (how b) (format_filesys b) (filesys_bdev_name b) (scratch_bdev_name b) (thread_mlfqs b) (user_page_limit b) (b_fs b) (b_blocks b) (b_stats b).
Definition set_rnd r (b : B) : B := mk_boot (b_mem b) (b_hw b) r (b_console b) (b_off b) (how b) (format_filesys b) (filesys_bdev_name b) (scratch_bdev_name b) (thread_mlfqs b) (user_page_limit b) (b_fs b) (b_blocks b) (b_stats b).
Definition set_out o (b : B) : B := mk_boot (b_mem b) (b_hw b) (b_rnd b) o (b_off b) (how b) (format_filesys b) (filesys_bdev_name b) (scratch_bdev_name b) (thread_mlfqs b) (user_page_limit b) (b_fs b) (b_blocks b) (b_stats b).
Definition set_off o (b : B) : B := mk_boot (b_mem b) (b_hw b) (b_rnd b) (b_console b) o (how b) (format_filesys b) (filesys_bdev_name b) (scratch_bdev_name b) (thread_mlfqs b) (user_page_limit b) (b_fs b) (b_blocks b) (b_stats b).
Definition set_how h (b : B) : B := mk_boot (b_mem b) (b_hw b) (b_rnd b) (b_console b) (b_off b) h (format_filesys b) (filesys_bdev_name b) (scratch_bdev_name b) (thread_mlfqs b) (user_page_limit b) (b_fs b) (b_blocks b) (b_stats b).
Definition set_format f (b : B) : B := mk_boot (b_mem b) (b_hw b) (b_rnd b) (b_console b) (b_off b) (how b) f (filesys_bdev_name b) (scratch_bdev_name b) (thread_mlfqs b) (user_page_limit b) (b_fs b) (b_blocks b) (b_stats b).
Definition set_filesys p (b : B) : B := mk_boot (b_mem b) (b_hw b) (b_rnd b) (b_console b) (b_off b) (how b) (format_filesys b) p (scratch_bdev_name b) (thread_mlfqs b) (user_page_limit b) (b_fs b) (b_blocks b) (b_stats b).
Definition set_scratch p (b : B) : B := mk_boot (b_mem b) (b_hw b) (b_rnd b) (b_console b) (b_off b) (how b) (format_filesys b) (filesys_bdev_name b) p (thread_mlfqs b) (user_page_limit b) (b_fs b) (b_blocks b) (b_stats b).
Definition set_mlfqs f (b : B) : B := mk_boot (b_mem b) (b_hw b) (b_rnd b) (b_console b) (b_off b) (how b) (format_filesys b) (filesys_bdev_name b) (scratch_bdev_name b) f (user_page_limit b) (b_fs b) (b_blocks b) (b_stats b).
Definition set_limit n (b : B) : B := mk_boot (b_mem b) (b_hw b) (b_rnd b) (b_console b) (b_off b) (how b) (format_filesys b) (filesys_bdev_name b) (scratch_bdev_name b) (thread_mlfqs b) n (b_fs b) (b_blocks b) (b_stats b).

Definition set_fs f (b : B) : B := mk_boot (b_mem b) (b_hw b) (b_rnd b) (b_console b) (b_off b) (how b) (format_filesys b) (filesys_bdev_name b) (scratch_bdev_name b) (thread_mlfqs b) (user_page_limit b) f (b_blocks b) (b_stats b).

Definition at_mem {A} (m : M mem A) : M B A := fun b => '(a, m) ← m (b_mem b); Done (a, set_mem m b).
Definition at_rnd {A} (m : M rc4 A) : M B A := fun b => '(a, r) ← m (b_rnd b); Done (a, set_rnd r b).
Definition at_fs {A} (m : M (fs dev) A) : M B A := fun b => '(a, s) ← m (b_fs b); Done (a, set_fs s b).
Definition type_out (out : list Z) : M B unit := modify (fun b => set_out (b_console b ++ out) b).
Definition tell (format args : list Z) : M B unit := out ← at_mem (printf format args); type_out out.
Definition boot_in (port : Z) : M B Z := fun b => let '(v, h) := port_in port (b_hw b) in Done (u8 v, set_hw h b).
Definition boot_out (port v : Z) : M B unit := modify (fun b => set_hw (port_out port (u8 v) (b_hw b)) b).

(** ** The time *)

Definition cmos_read (index : Z) : M B Z := boot_out CMOS_REG_SET index ;; boot_in CMOS_REG_IO.

Fixpoint rtc_read (fuel : nat) : M B rtc_time :=
  match fuel with
  | O => nofuel
  | S fuel =>
      sec ← cmos_read RTC_REG_SEC; min ← cmos_read RTC_REG_MIN; hour ← cmos_read RTC_REG_HOUR;
      mday ← cmos_read RTC_REG_MDAY; mon ← cmos_read RTC_REG_MON; year ← cmos_read RTC_REG_YEAR;
      again ← cmos_read RTC_REG_SEC;
      if bcd_to_bin sec =? bcd_to_bin again then
        mret (mk_rtc (bcd_to_bin sec) (bcd_to_bin min) (bcd_to_bin hour) (bcd_to_bin mday) (bcd_to_bin mon) (bcd_to_bin year))
      else rtc_read fuel
  end.

Definition rtc_get_time (fuel : nat) : M B Z := r ← rtc_read fuel; liftO (rtc_seconds r).

(** ** Reading the command line *)

(** [argv] is the address of the static array.  Every turn passes at least a byte of
    the 128. *)
Fixpoint read_words (fuel : nat) (argv i argc p last : Z) : M B unit :=
  match fuel with
  | O => nofuel
  | S fuel =>
      if i <? argc then
        if last <=? p then panic
        else
          at_mem (store32 (argv + 4 * i) p) ;;
          n ← at_mem (strnlen p (last - p));
          read_words fuel argv (i + 1) argc (p + n + 1) last
      else mret tt
  end.

Fixpoint print_words (fuel : nat) (argv i argc : Z) : M B unit :=
  match fuel with
  | O => mret tt
  | S fuel =>
      if i <? argc then
        p ← at_mem (load32 (argv + 4 * i));
        q ← at_mem (strchr p (chr " "));
        (if q =? NULL then tell (codes " %s") [p] else tell (codes " '%s'") [p]) ;;
        print_words fuel argv (i + 1) argc
      else mret tt
  end.

Definition read_command_line (argv : Z) : M B Z :=
  a ← liftO (ptov LOADER_ARG_CNT);
  w ← at_mem (load32 a);
  let argc := s32 w in
  p ← liftO (ptov LOADER_ARGS);
  read_words (Z.to_nat LOADER_ARGS_LEN + 1) argv 0 argc p (p + LOADER_ARGS_LEN) ;;
  at_mem (store32 (argv + 4 * argc) NULL) ;;
  tell (codes "Kernel command line:") [] ;;
  print_words (Z.to_nat argc) argv 0 argc ;;
  tell [10] [] ;;
  mret argv.

(** ** Shutting down *)

Definition shutdown_configure (type : shutdown_type) : M B unit := modify (set_how type).

(** An argument of 64 bits. *)
Definition lld (v : Z) : list Z := [u32 v; u32 (Z.shiftr v 32)].

Definition timer_print_stats : M B unit := st ← gets b_stats; tell (codes "Timer: %lld ticks" ++ [10]) (lld (s_ticks st)).

Definition thread_print_stats : M B unit :=
  st ← gets b_stats;
  tell (codes "Thread: %lld idle ticks, %lld kernel ticks, %lld user ticks" ++ [10])
    (lld (idle_ticks st) ++ lld (kernel_ticks st) ++ lld (user_ticks st)).

(** The loop over [block_by_role]. *)
Fixpoint role_loop (roles : list (option Z)) : M B unit :=
  match roles with
  | [] => mret tt
  | None :: roles => role_loop roles
  | Some i :: roles =>
      block ← load (fun b => zget (all_blocks (b_blocks b)) i);
      type_out (Block.block_name block ++ codes " (" ++ block_type_name (Block.type block) ++ codes "): ") ;;
      tell (codes "%llu reads, %llu writes" ++ [10]) (lld (Block.read_cnt block) ++ lld (Block.write_cnt block)) ;;
      role_loop roles
  end.
Definition block_print_stats : M B unit := r ← gets b_blocks; role_loop (block_by_role r).

(** The static [write_cnt] of console.c: the characters written since it was cleared. *)
Definition write_cnt (b : B) : Z := zlen (b_console b).
Definition console_print_stats : M B unit := n ← gets write_cnt; tell (codes "Console: %lld characters output" ++ [10]) (lld n).

Definition kbd_print_stats : M B unit := st ← gets b_stats; tell (codes "Keyboard: %lld keys pressed" ++ [10]) (lld (s_key_cnt st)).

Definition exception_print_stats : M B unit :=
  st ← gets b_stats; tell (codes "Exception: %lld page faults" ++ [10]) (lld (page_fault_cnt st)).

Definition print_stats : M B unit :=
  timer_print_stats ;; thread_print_stats ;; block_print_stats ;; console_print_stats ;; kbd_print_stats ;; exception_print_stats.

(** [for (p = s; *p != 0; p++) outb (port, *p)] *)
Fixpoint out_string (port : Z) (s : list Z) : M B unit :=
  match s with [] => mret tt | c :: s => boot_out port c ;; out_string port s end.

(** The processor halts with interrupts off.  What is printed is on the console at once:
    when -h is read printf still sends every character itself, and the queue that
    [serial_flush] empties holds none. *)
Definition shutdown_power_off : M B unit :=
  at_fs filesys_done ;;
  print_stats ;;
  tell (codes "Powering off..." ++ [10]) [] ;;
  out_string 0x8900 (codes "Shutdown") ;;
  boot_out 0x501 0x31 ;;
  modify (set_off true).

(** ** Options *)

Definition usage_text : list (list Z) :=
  [codes "Command line syntax: [OPTION...] [ACTION...]"; codes "Options must precede actions.";
   codes "Actions are executed in the order specified."; []; codes "Available actions:";
   codes "  run 'PROG [ARG...]' Run PROG and wait for it to complete.";
   codes "  ls                 List files in the root directory."; codes "  cat FILE           Print FILE to the console.";
   codes "  rm FILE            Delete FILE."; codes "Use these actions indirectly via `pintos' -g and -p options:";
   codes "  extract            Untar from scratch device into file system."; codes "  append FILE        Append FILE to tar file on scratch device.";
   []; codes "Options:"; codes "  -h                 Print this help message and power off."; codes "  -q                 Power off VM after actions or on panic.";
   codes "  -r                 Reboot after actions."; codes "  -f                 Format file system device during startup.";
   codes "  -filesys=BDEV      Use BDEV for file system instead of default."; codes "  -scratch=BDEV      Use BDEV for scratch instead of default.";
   codes "  -rs=SEED           Set random number seed to SEED."; codes "  -mlfqs             Use multi-level feedback queue scheduler.";
   codes "  -ul=COUNT          Limit user memory to COUNT pages."].

Definition usage : M B unit :=
  tell ([10] ++ concat (map (fun l => l ++ [10]) usage_text)) [] ;; shutdown_power_off.

(** [!strcmp (p, "s")] *)
Definition string_is (p : Z) (s : String.string) : M B bool := r ← at_mem (strcmp p (lit s)); mret (r =? 0).

(** The chain of ifs of the loop: whether it goes on. *)
Definition one_option (name value : Z) : M B bool :=
  b ← string_is name "-h"; if b : bool then usage ;; mret false else
  b ← string_is name "-q"; if b : bool then shutdown_configure SHUTDOWN_POWER_OFF ;; mret true else
  b ← string_is name "-r"; if b : bool then shutdown_configure SHUTDOWN_REBOOT ;; mret true else
  b ← string_is name "-f"; if b : bool then modify (set_format true) ;; mret true else
  b ← string_is name "-filesys"; if b : bool then modify (set_filesys value) ;; mret true else
  b ← string_is name "-scratch"; if b : bool then modify (set_scratch value) ;; mret true else
  b ← string_is name "-rs"; if b : bool then n ← at_mem (atoi value); at_rnd (random_init (u32 n)) ;; mret true else
  b ← string_is name "-mlfqs"; if b : bool then modify (set_mlfqs true) ;; mret true else
  b ← string_is name "-ul"; if b : bool then n ← at_mem (atoi value); modify (set_limit (u32 n)) ;; mret true else
  panic.

(** The first word that is no option, or nothing when the machine is off. *)
Fixpoint options_loop (fuel : nat) (argv : Z) : M B (option Z) :=
  match fuel with
  | O => nofuel
  | S fuel =>
      p ← at_mem (load32 argv);
      opt ← (if p =? NULL then mret false else c ← at_mem (load8 p); mret (c =? chr "-"));
      if opt : bool then
        '(name, save) ← at_mem (strtok_r p (lit "=") 0);
        '(value, _) ← at_mem (strtok_r NULL (lit "") save);
        more ← one_option name value;
        if more : bool then options_loop fuel (argv + 4) else mret None
      else mret (Some argv)
  end.

(** [rtc_fuel] bounds the reads of the clock. *)
Definition parse_options (rtc_fuel : nat) (argv : Z) : M B (option Z) :=
  fuel ← at_mem scan_fuel;
  r ← options_loop fuel argv;
  match r with
  | None => mret None
  | Some argv => t ← rtc_get_time rtc_fuel; at_rnd (random_init t) ;; mret (Some argv)
  end.
End Boot.

(** ** Block devices *)

Section Locate.
Context {dev : Type}.

(** The first block of the type, in probe order. *)
Fixpoint probe_loop (n : nat) (role : block_type) (block : option Z) : M (registry dev) (option Z) :=
  match n with
  | O => mret None
  | S n =>
      match block with
      | None => mret None
      | Some i =>
          b ← load (fun r => zget (all_blocks r) i);
          if bool_decide (Block.type b = role) then mret (Some i) else block ← block_next i; probe_loop n role block
      end
  end.

(** What is printed. *)
Definition locate_block_device (role : block_type) (name : option (list Z)) : M (registry dev) (list Z) :=
  block ← match name with
          | Some nm => b ← block_get_by_name nm; match b with None => panic | Some _ => mret b end
          | None => b ← block_first; n ← gets (fun r => length (all_blocks r)); probe_loop (S n) role b
          end;
  match block with
  | None => mret []
  | Some i =>
      b ← load (fun r => zget (all_blocks r) i);
      block_set_role role (Some i) ;;
      mret (block_type_name role ++ codes ": using " ++ Block.block_name b ++ [10])
  end.

Definition locate_block_devices (filesys_name scratch_name : option (list Z)) : M (registry dev) (list Z) :=
  out ← locate_block_device BLOCK_FILESYS filesys_name;
  out' ← locate_block_device BLOCK_SCRATCH scratch_name;
  mret (out ++ out').
End Locate.

(** ** Actions *)

Section Actions.
Context {dev sdev : Type} `{BlockDriver dev} `{BlockDriver sdev} (lit : String.string -> Z).
Abbreviation U := (util dev sdev).

(** process_wait (process_execute (task)) on this state, and the answers of malloc,
    palloc and the contents of an uninitialised local. *)
Context (execute : Z -> M U unit) (page_ok : bool) (junk : list Z) (header data buffer : Z).

Definition run_task (argv : Z) : M U unit :=
  task ← argv_1 argv;
  say (codes "Executing '%s':" ++ [10]) [task] ;;
  execute task ;;
  say (codes "Execution of '%s' complete." ++ [10]) [task].

Record action := mk_action { a_name : String.string; a_argc : Z; a_function : Z -> M U unit }.

Definition actions : list action :=
  [mk_action "run" 2 run_task; mk_action "ls" 1 (fun _ => fsutil_ls); mk_action "cat" 2 (fsutil_cat page_ok);
   mk_action "rm" 2 fsutil_rm; mk_action "extract" 1 (fun _ => fsutil_extract lit junk header data); mk_action "append" 2 (fsutil_append lit buffer)].

Fixpoint find_action (l : list action) (p : Z) : M U action :=
  match l with
  | [] => panic
  | a :: l => r ← on_mem (strcmp p (lit (a_name a))); if r =? 0 then mret a else find_action l p
  end.

(** The required arguments, from [i] on. *)
Fixpoint check_arguments (n : nat) (argv i : Z) : M U unit :=
  match n with
  | O => mret tt
  | S n => p ← on_mem (load32 (argv + 4 * i)); if p =? NULL then panic else check_arguments n argv (i + 1)
  end.

Fixpoint actions_loop (fuel : nat) (argv : Z) : M U unit :=
  match fuel with
  | O => nofuel
  | S fuel =>
      p ← on_mem (load32 argv);
      if p =? NULL then mret tt
      else
        a ← find_action actions p;
        check_arguments (Z.to_nat (a_argc a - 1)) argv 1 ;;
        a_function a argv ;;
        actions_loop fuel (argv + 4 * a_argc a)
  end.

Definition run_actions (argv : Z) : M U unit := fuel ← on_mem scan_fuel; actions_loop fuel argv.
End Actions.
