(* ===== verification/BootSpec.v ===== *)
(** * What the options of the command line mean

    The words of the command line lie in memory, apart from each other and from the
    literals; parse_options cuts each option at its '=', sets the kernel's variables
    as [spec_options] says and returns the first word that is no option; -h prints the
    help and the statistics and powers the machine off. *)

From Stdlib Require Import Ascii.
From Stdlib Require Import(notations) String.
From S2P Require Import Prelude Block FileSys Mem CString Stdio CStdlib Random Ustar Devices DevicesSpec Boot.

(** ** Meaning *)

Record settings := mk_settings {
  w_how : shutdown_type;
  w_format : bool;
  w_filesys : option (list Z);
  w_scratch : option (list Z);
  w_mlfqs : bool;
  w_limit : Z
}.

(** The kernel goes on, is switched off after printing its help, or panics. *)
Inductive verdict := Go (st : settings) (options : nat) | Off | Fails.

(** An option up to its '=', and the text behind, if there is any. *)
Definition option_name (s : list Z) : list Z := (span (fun c => negb (delim (codes "=") c)) s).1.
Definition option_value (s : list Z) : option (list Z) :=
  match tail (span (fun c => negb (delim (codes "=") c)) s).2 with [] => None | v => Some v end.

Definition spec_option (name : list Z) (value : option (list Z)) (st : settings) : verdict :=
  let named (l : String.string) := bool_decide (name = codes l) in
  if named "-h"%string then Off
  else if named "-q"%string then Go (mk_settings SHUTDOWN_POWER_OFF (w_format st) (w_filesys st) (w_scratch st) (w_mlfqs st) (w_limit st)) 1
  else if named "-r"%string then Go (mk_settings SHUTDOWN_REBOOT (w_format st) (w_filesys st) (w_scratch st) (w_mlfqs st) (w_limit st)) 1
  else if named "-f"%string then Go (mk_settings (w_how st) true (w_filesys st) (w_scratch st) (w_mlfqs st) (w_limit st)) 1
  else if named "-filesys"%string then Go (mk_settings (w_how st) (w_format st) value (w_scratch st) (w_mlfqs st) (w_limit st)) 1
  else if named "-scratch"%string then Go (mk_settings (w_how st) (w_format st) (w_filesys st) value (w_mlfqs st) (w_limit st)) 1
  else if named "-rs"%string then match value with Some _ => Go st 1 | None => Fails end
  else if named "-mlfqs"%string then Go (mk_settings (w_how st) (w_format st) (w_filesys st) (w_scratch st) true (w_limit st)) 1
  else if named "-ul"%string then
    match value with Some v => Go (mk_settings (w_how st) (w_format st) (w_filesys st) (w_scratch st) (w_mlfqs st) (decimal_value v)) 1 | None => Fails end
  else Fails.

Definition is_option (s : list Z) : bool := bool_decide (head s = Some (chr "-")).

Fixpoint spec_options (args : list (list Z)) (st : settings) : verdict :=
  match args with
  | [] => Go st 0
  | s :: args =>
      if is_option s then
        match spec_option (option_name s) (option_value s) st with
        | Go st _ => match spec_options args st with Go st k => Go st (S k) | v => v end
        | v => v
        end
      else Go st 0
  end.

(** Numbers are digits and fit an int. *)
Definition numeric (v : list Z) : Prop := is_digits v /\ v <> [] /\ decimal_value v < 2 ^ 31.
Definition good_option (s : list Z) : Prop :=
  option_name s = codes "-rs" \/ option_name s = codes "-ul" -> match option_value s with Some v => numeric v | None => True end.

(** ** Numbers that are printed *)

Fixpoint digits_of (fuel : nat) (n : Z) : list Z :=
  match fuel with
  | O => []
  | S fuel => if n <? 10 then [48 + n] else digits_of fuel (n / 10) ++ [48 + n mod 10]
  end.
Definition decimal (n : Z) : list Z := digits_of 20 n.

Lemma digits_of_run k : forall fuel n cnt buf, 0 < n < 10 ^ Z.of_nat k -> (length buf + k <= 64)%nat -> (k < fuel)%nat ->
  digit_loop fuel false base_d n cnt buf = Done (digits_of k n ++ buf).
Proof.
  induction k as [|k IH]; intros [|fuel] n cnt buf Hn Hl Hf; try lia.
  rewrite Nat2Z.inj_succ, Z.pow_succ_r in Hn by lia. cbn [digit_loop digits_of]. rewrite (proj2 (Z.ltb_lt 0 n)) by lia.
  cbn [andb]. rewrite (obind_done _ _ _ (eq_refl : Done buf = Done buf)). rewrite (obind_done _ _ _ (push_run _ buf ltac:(lia))).
  change (ibase base_d) with 10. assert (0 <= n mod 10 < 10) as Hm by (apply Z.mod_pos_bound; lia).
  assert (nth (Z.to_nat (n mod 10)) (Stdio.digits base_d) 0 = 48 + n mod 10) as ->.
  { revert Hm. generalize (n mod 10). intros d Hd. assert (d = 0 \/ d = 1 \/ d = 2 \/ d = 3 \/ d = 4 \/ d = 5 \/ d = 6 \/ d = 7 \/ d = 8 \/ d = 9) as Hc by lia.
    repeat (destruct Hc as [->|Hc]; [reflexivity|]). by subst d. }
  destruct (Z.ltb_spec n 10) as [Hlt|Hge].
  - rewrite Z.div_small, Z.mod_small by lia. destruct fuel; [lia|]. reflexivity.
  - rewrite IH; [by rewrite <- app_assoc|dlia|cbn; lia|lia].
Qed.

(** A conversion without flags. *)
Lemma format_decimal is_signed n ty : 0 <= n < 2 ^ 64 -> format_integer n is_signed false base_d (mk_conv 0 0 (-1) ty) = Done (decimal n).
Proof.
  intros Hn. unfold format_integer, render_digits. change (flag _ _) with false. cbn [andb precision Z.ltb Z.compare].
  destruct (decide (n = 0)) as [->|H0]; [by destruct is_signed|].
  pose proof (digits_of_run 20 65 n 0 [] ltac:(change (10 ^ Z.of_nat 20) with (10 ^ 20); lia) ltac:(cbn; lia) ltac:(lia)) as Hr.
  rewrite app_nil_r in Hr. fold (decimal n) in Hr. rewrite (obind_done _ _ _ Hr). pose proof (zlen_nonneg (decimal n)).
  assert (0 < zlen (decimal n)) as Hpos.
  { unfold decimal. cbn [digits_of]. destruct (n <? 10); [done|]. rewrite zlen_app. change (zlen [48 + n mod 10]) with 1. pose proof (zlen_nonneg (digits_of 19 (n / 10))).
    cbn [digits_of] in *. lia. }
  assert (zero_loop 65 1 (decimal n) = Done (decimal n)) as Hz by (cbn [zero_loop]; by rewrite (proj2 (Z.ltb_ge _ _)) by lia).
  rewrite (obind_done _ _ _ Hz). cbn [bnd mbind outcome_bind width negb andb]. unfold sign_of. change (flag _ _) with false.
  assert ((if is_signed then 0 else 0) = 0) as E0 by by destruct is_signed. cbn [xchar base_d andb Z.eqb].
  destruct is_signed; cbn [Z.eqb]; rewrite (proj2 (Z.ltb_lt _ _)) by lia; cbn [output_dup replicate Z.to_nat app]; by rewrite app_nil_r.
Qed.

(** With [k] turns or more the format gives [out]. *)
Definition outputs (m : mem) (k : nat) (fmt args out : list Z) : Prop :=
  forall fuel, (k <= fuel)%nat -> __vprintf_loop fuel fmt args m = Done (out, m).

Lemma outputs_nil m args : outputs m 1 [] args [].
Proof. intros [|fuel] Hf; [lia|done]. Qed.

Lemma outputs_plain m k pre fmt args out : Forall (fun c => c <> chr "%") pre -> outputs m k fmt args out ->
  outputs m (length pre + k) (pre ++ fmt) args (pre ++ out).
Proof.
  intros HF Ho. induction HF as [|c pre Hc _ IH]; [exact Ho|]. intros [|fuel] Hf; cbn in Hf; [lia|].
  cbn [app __vprintf_loop]. rewrite (proj2 (Z.eqb_neq _ _) Hc). cbn [negb]. by erewrite bind_done by (apply IH; lia).
Qed.

Lemma outputs_end m pre args : Forall (fun c => c <> chr "%") pre -> outputs m (length pre + 1) pre args pre.
Proof. intros HF. rewrite <- (app_nil_r pre) at 2 3. apply outputs_plain; [done|apply outputs_nil]. Qed.

Lemma lld_value n : 0 <= n < 2 ^ 64 -> u32 n + 2 ^ 32 * u32 (Z.shiftr n 32) = n.
Proof. intros Hn. rewrite Z.shiftr_div_pow2 by lia. unfold u32. dlia. Qed.

Lemma signed_lld n args : 0 <= n < 2 ^ 63 -> signed_arg LONGLONG (lld n ++ args) = Done (n, args).
Proof.
  intros Hn. change (signed_arg LONGLONG (lld n ++ args)) with (Done (s64 (u32 n + 2 ^ 32 * u32 (Z.shiftr n 32)), args) : outcome (Z * list Z)).
  by rewrite lld_value, s64_small by lia.
Qed.

Lemma unsigned_lld n args : 0 <= n < 2 ^ 64 -> unsigned_arg LONGLONG (lld n ++ args) = Done (n, args).
Proof.
  intros Hn. change (unsigned_arg LONGLONG (lld n ++ args)) with (Done (u64 (u32 n + 2 ^ 32 * u32 (Z.shiftr n 32)), args) : outcome (Z * list Z)).
  by rewrite lld_value, u64_small by lia.
Qed.

(** %lld and %llu. *)
Lemma outputs_long m k f n fmt args out : f = chr "d" /\ n < 2 ^ 63 \/ f = chr "u" -> 0 <= n < 2 ^ 64 -> outputs m k fmt args out ->
  outputs m (S k) (codes "%ll" ++ f :: fmt) (lld n ++ args) (decimal n ++ out).
Proof.
  intros Hf Hn Ho [|fuel] Hk; [lia|]. change (codes "%ll") with [chr "%"; chr "l"; chr "l"]. cbn [app __vprintf_loop].
  rewrite Z.eqb_refl. cbn [negb head]. rewrite bool_decide_false by done.
  erewrite bind_done by (apply (liftO_run _ _ (mk_conv 0 0 (-1) LONGLONG, f :: fmt, lld n ++ args)); by destruct Hf as [[-> _]| ->]).
  cbn iota beta. destruct Hf as [[-> Hlt]| ->].
  - change (one_of (chr "d") "di") with true. cbn iota. cbn [Stdio.type]. erewrite bind_done.
    2: { erewrite bind_done by (apply (liftO_run _ _ (n, args)), signed_lld; lia).
         cbn iota beta. rewrite (proj2 (Z.ltb_ge n 0)) by lia. by erewrite bind_done by (apply liftO_run, format_decimal; lia). }
    cbn iota beta. by erewrite bind_done by (apply Ho; lia).
  - change (one_of (chr "u") "di") with false. change (one_of (chr "u") "ouxX") with true. cbn iota. cbn [Stdio.type]. erewrite bind_done.
    2: { erewrite bind_done by (by apply (liftO_run _ _ (n, args)), unsigned_lld).
         cbn iota beta. change (unsigned_base (chr "u")) with base_d. by erewrite bind_done by (apply liftO_run, format_decimal; lia). }
    cbn iota beta. by erewrite bind_done by (apply Ho; lia).
Qed.

Lemma outputs_printf m k fmt args out : outputs m k fmt args out -> (k <= length fmt + 30)%nat -> printf fmt args m = Done (out, m).
Proof. intros Ho Hk. by apply Ho. Qed.

(** ** Memory *)

(** The places of two strings with their terminators do not meet. *)
Definition apart (p n q k : Z) : Prop := p + n < q \/ q + k < p.

Definition boot_literals : list String.string :=
  ["="; ""; "-h"; "-q"; "-r"; "-f"; "-filesys"; "-scratch"; "-rs"; "-mlfqs"; "-ul"]%string.

Section Options.
Context {hw dev : Type} `{Ports hw} `{BlockDriver dev} (lit : String.string -> Z).
Implicit Types (b : boot hw dev) (m : mem).

Definition literals_at m : Prop := forall l, In l boot_literals -> 0 < lit l /\ cstr m (lit l) (codes l).

(** The words, and the array of their addresses that ends with NULL.  Each word is
    apart from the literals, from what follows in the array and from the words behind. *)
Fixpoint laid m (argv : Z) (ps : list Z) (args : list (list Z)) : Prop :=
  match ps, args with
  | [], [] => word_at m argv NULL
  | p :: ps, s :: args =>
      word_at m argv p /\ 0 < p /\ cstr m p s /\
      (forall l, In l boot_literals -> apart p (zlen s) (lit l) (zlen (codes l))) /\
      apart p (zlen s) (argv + 4) (4 * zlen ps + 3) /\
      Forall2 (fun q t => apart p (zlen s) q (zlen t)) ps args /\
      laid m (argv + 4) ps args
  | _, _ => False
  end.

(** Nothing but the string at [p] changes. *)
Definition only m m' (p : Z) (s : list Z) : Prop := forall a, a < p \/ p + zlen s < a -> m' !! a = m !! a.

Lemma only_trans m m1 m2 p s : only m m1 p s -> only m1 m2 p s -> only m m2 p s.
Proof. intros H1 H2 a Ha. by rewrite H2, H1. Qed.

Lemma literals_only m m' p s : literals_at m -> only m m' p s -> (forall l, In l boot_literals -> apart p (zlen s) (lit l) (zlen (codes l))) -> literals_at m'.
Proof.
  intros Hl Ho Ha l Hin. destruct (Hl l Hin) as [Hp Hc]. split; [done|]. apply (cstr_frame m); [|done].
  intros a Hx. apply Ho. specialize (Ha l Hin). unfold apart in Ha. lia.
Qed.

Lemma laid_only m m' p s : only m m' p s -> forall ps args argv, laid m argv ps args -> apart p (zlen s) argv (4 * zlen ps + 3) ->
  Forall2 (fun q t => apart p (zlen s) q (zlen t)) ps args -> laid m' argv ps args.
Proof.
  intros Ho. induction ps as [|q ps IH]; intros [|t args] argv Hl Ha HF; try done; cbn [laid] in *.
  - eapply word_at_frame; [|exact Hl]. intros a Hx. apply Ho. unfold apart in Ha. change (zlen []) with 0 in Ha. lia.
  - destruct Hl as (Hw & Hq & Hc & Hli & Hav & HF2 & Hl). apply Forall2_cons in HF as [Hqt HF]. rewrite zlen_cons in Ha. pose proof (zlen_nonneg ps).
    split; [|split; [done|split; [|split; [done|split; [done|split; [done|]]]]]].
    + eapply word_at_frame; [|exact Hw]. intros a Hx. apply Ho. unfold apart in Ha. lia.
    + eapply cstr_frame; [|exact Hc]. intros a Hx. apply Ho. unfold apart in Hqt. lia.
    + apply IH; [done| |done]. unfold apart in *. lia.
Qed.

(** ** One option *)

Lemma next_token_all t : next_token (codes "") t = ([], t, []).
Proof.
  unfold next_token. assert (forall u, span (delim (codes "")) u = ([], u)) as -> by by destruct u.
  assert (forall u, span (fun c => negb (delim (codes "") c)) u = (u, [])) as ->; [|done].
  induction u as [|c u IH]; [done|]. cbn [span]. change (negb (delim (codes "") c)) with true. by rewrite IH.
Qed.

(** The two calls of strtok_r. *)
Lemma cut_option m p s : cstr m p s -> 0 < p -> literals_at m -> is_option s = true ->
  (forall l, In l boot_literals -> apart p (zlen s) (lit l) (zlen (codes l))) ->
  exists save m1 value x m', strtok_r p (lit "=") 0 m = Done ((p, save), m1) /\ strtok_r NULL (lit "") save m1 = Done ((value, x), m') /\
    only m m' p s /\ cstr m' p (option_name s) /\
    match option_value s with
    | None => value = NULL
    | Some v => cstr m' value v /\ p <= value /\ value + zlen v <= p + zlen s
    end.
Proof.
  intros Hs Hp Hl Ho Ha. apply bool_decide_eq_true in Ho. destruct s as [|c s]; [done|]. injection Ho as ->.
  assert (next_token (codes "=") (chr "-" :: s) = ([], option_name (chr "-" :: s), (span (fun c => negb (delim (codes "=") c)) (chr "-" :: s)).2)) as En.
  { unfold next_token, option_name. change (span (delim (codes "=")) (chr "-" :: s)) with ([] : list Z, chr "-" :: s). cbn beta iota.
    by destruct (span (fun c => negb (delim (codes "=") c)) (chr "-" :: s)). }
  destruct (Hl "="%string) as [Hq Hqc]; [by left|]. pose proof (Ha "="%string ltac:(by left)) as Haq.
  pose proof (strtok_r_run m p (lit "=") (codes "=") 0 (chr "-" :: s)) as R1. cbv zeta in R1.
  rewrite (proj2 (Z.eqb_neq p NULL)) in R1 by (unfold NULL; lia). specialize (R1 Hs Hp Hqc Hq ltac:(unfold disjoint_from; unfold apart in Haq; lia)).
  rewrite En in R1. destruct R1 as (m1 & R1 & O1 & N1 & V1). rewrite !Z.add_0_r in N1. change (zlen []) with 0 in R1, V1. rewrite !Z.add_0_r in R1. rewrite (Z.add_0_r p) in V1.
  assert (option_name (chr "-" :: s) = chr "-" :: (span (fun c => negb (delim (codes "=") c)) s).1) as Hne.
  { unfold option_name. cbn [span]. change (delim (codes "=") (chr "-")) with false. cbn [negb]. by destruct (span _ s). }
  pose proof (span_app (fun c => negb (delim (codes "=") c)) (chr "-" :: s)) as Es. fold (option_name (chr "-" :: s)) in Es.
  unfold option_value. remember (span (fun c => negb (delim (codes "=") c)) (chr "-" :: s)).2 as suf eqn:Ev. clear Ev.
  set (nm := option_name (chr "-" :: s)) in *. apply (f_equal zlen) in Es. rewrite zlen_app in Es.
  set (save := p + zlen nm + (if suf is [] then 0 else 1)) in *.
  assert (strtok_r p (lit "=") 0 m = Done ((p, save), m1)) as E1 by (rewrite R1, Hne; unfold save; done).
  assert (literals_at m1) as Hl1. { eapply literals_only; [exact Hl| |exact Ha]. intros a Hx. apply O1. lia. }
  destruct (Hl1 ""%string) as [Hq2 Hc2]; [right; by left|]. pose proof (Ha ""%string ltac:(right; by left)) as Ha2.
  pose proof (zlen_nonneg nm). pose proof (zlen_nonneg (tail suf)).
  assert (save + zlen (tail suf) = p + zlen (chr "-" :: s)) as Esave.
  { unfold save. destruct suf as [|e v]; [cbn [tail] in *; change (zlen (@nil Z)) with 0 in *; lia|]. rewrite (zlen_cons e v) in Es. cbn [tail]. lia. }
  assert (p <= save) as Hps by (unfold save; destruct suf; lia).
  pose proof (strtok_r_run m1 NULL (lit "") (codes "") save (tail suf)) as R2. cbv zeta in R2. change (NULL =? NULL) with true in R2. cbn iota in R2.
  specialize (R2 V1 ltac:(unfold save; destruct suf; lia) Hc2 Hq2 ltac:(unfold disjoint_from; unfold apart in Ha2; lia)).
  rewrite next_token_all in R2. destruct R2 as (m2 & R2 & O2 & N2 & _). change (zlen []) with 0 in R2, N2. rewrite !Z.add_0_r in R2, N2.
  assert (only m m2 p (chr "-" :: s)) as Ho2.
  { apply (only_trans m m1); intros a Hx; [apply O1; lia|]. apply O2. lia. }
  assert (cstr m2 p nm) as N3.
  { eapply cstr_frame; [|exact N1]. intros a Hx. apply O2. unfold save. destruct suf; cbn [tail]; change (zlen (@nil Z)) with 0; lia. }
  destruct (tail suf) as [|x v] eqn:Et.
  - eexists _, _, _, _, _. split; [exact E1|]. split; [exact R2|]. by split.
  - eexists _, _, _, _, _. split; [exact E1|]. split; [exact R2|]. split; [done|]. split; [done|]. split; [done|]. unfold save in *. destruct suf; lia.
Qed.
(** ** Settings in the state *)

Definition named_at m (p : Z) (o : option (list Z)) : Prop := match o with None => p = NULL | Some v => 0 < p /\ cstr m p v end.

(** A name that is kept is apart from the words still to come. *)
Definition kept (ps : list Z) (args : list (list Z)) (p : Z) (o : option (list Z)) : Prop :=
  match o with None => True | Some v => Forall2 (fun q t => apart q (zlen t) p (zlen v)) ps args end.

Record shows (ps : list Z) (args : list (list Z)) b (st : settings) : Prop := {
  sh_how : how b = w_how st;
  sh_format : format_filesys b = w_format st;
  sh_mlfqs : thread_mlfqs b = w_mlfqs st;
  sh_limit : user_page_limit b = w_limit st;
  sh_filesys : named_at (b_mem b) (filesys_bdev_name b) (w_filesys st) /\ kept ps args (filesys_bdev_name b) (w_filesys st);
  sh_scratch : named_at (b_mem b) (scratch_bdev_name b) (w_scratch st) /\ kept ps args (scratch_bdev_name b) (w_scratch st);
  sh_rnd : zlen (s (b_rnd b)) = 256
}.

Lemma at_mem_run {A} (f : M mem A) b a m : f (b_mem b) = Done (a, m) -> at_mem f b = Done (a, set_mem m b).
Proof. intros E. unfold at_mem. by rewrite E. Qed.

Lemma set_mem_id b : set_mem (b_mem b) b = b.
Proof. by destruct b. Qed.

Lemma at_mem_reads {A} (f : M mem A) b a : f (b_mem b) = Done (a, b_mem b) -> at_mem f b = Done (a, b).
Proof. intros E. rewrite <- (set_mem_id b) at 2. by apply at_mem_run. Qed.

Lemma string_is_run b p nm l : cstr (b_mem b) p nm -> 0 < p -> literals_at (b_mem b) -> In l boot_literals ->
  string_is lit p l b = Done (bool_decide (nm = codes l), b).
Proof.
  intros Hn Hp Hl Hin. destruct (Hl l Hin) as [Hq Hc]. unfold string_is.
  erewrite bind_done by by apply at_mem_reads, strcmp_correct. 
  pose proof (str_compare_eq nm (codes l)). destruct (Z.eqb_spec (str_compare nm (codes l)) 0); [rewrite bool_decide_true by tauto|rewrite bool_decide_false by tauto]; done.
Qed.

Lemma digits_value v : is_digits v -> 0 <= decimal_value v.
Proof.
  intros Hd. unfold decimal_value. assert (forall w, 0 <= w -> 0 <= fold_left (fun v c => v * 10 + (c - 48)) v w) as Hf; [|by apply Hf].
  induction Hd as [|x v Hx Hd IH]; intros w Hw; cbn; [done|]. apply IH. lia.
Qed.

Lemma atoi_numeric m p v : cstr m p v -> 0 < p -> numeric v -> atoi p m = Done (decimal_value v, m).
Proof. intros Hc Hp (Hd & Hne & Hb). apply (atoi_run m p false v); try done. lia. Qed.

Lemma atoi_null m : atoi NULL m = Panic.
Proof. done. Qed.

Lemma random_init_done t r : zlen (s r) = 256 -> exists r', random_init t r = Done (tt, r') /\ zlen (s r') = 256 /\
  forall r2, zlen (s r2) = 256 -> random_init t r2 = Done (tt, r').
Proof.
  intros Hr. destruct (random_init_run t) as (l & Hp & Hi). exists (mk_rc4 l 0 0 true). split; [by apply Hi|]. split; [by apply perm_len|done].
Qed.

Lemma tell_plain b format : Forall (fun c => c <> chr "%") format -> tell format [] b = Done (tt, set_out (b_console b ++ format) b).
Proof.
  intros HF. unfold tell. erewrite bind_done; [reflexivity|]. apply at_mem_reads. unfold printf, __vprintf. apply vprintf_plain; [done|lia].
Qed.

(** ** Powering off *)

Definition role_line (bs : list (block dev)) (r : option Z) : list Z :=
  match r with
  | Some i =>
      match zget bs i with
      | Some d => Block.name d ++ codes " (" ++ block_type_name (Block.type d) ++ codes "): " ++
          decimal (Block.read_cnt d) ++ codes " reads, " ++ decimal (Block.write_cnt d) ++ codes " writes" ++ [10]
      | None => []
      end
  | None => []
  end.

(** The lines in front of the console's, and what all statistics are when [n]
    characters have been printed before them. *)
Definition first_lines (bs : registry dev) (st : stats) : list Z :=
  (codes "Timer: " ++ decimal (s_ticks st) ++ codes " ticks" ++ [10]) ++
  (codes "Thread: " ++ decimal (idle_ticks st) ++ codes " idle ticks, " ++ decimal (kernel_ticks st) ++ codes " kernel ticks, " ++
    decimal (user_ticks st) ++ codes " user ticks" ++ [10]) ++
  concat (map (role_line (all_blocks bs)) (block_by_role bs)).
Definition statistics (n : Z) (bs : registry dev) (st : stats) : list Z :=
  first_lines bs st ++ (codes "Console: " ++ decimal (n + zlen (first_lines bs st)) ++ codes " characters output" ++ [10]) ++
  (codes "Keyboard: " ++ decimal (s_key_cnt st) ++ codes " keys pressed" ++ [10]) ++
  codes "Exception: " ++ decimal (page_fault_cnt st) ++ codes " page faults" ++ [10].

Definition help : list Z := [10] ++ concat (map (fun l => l ++ [10]) usage_text).

(** What -h prints when [n] characters have been printed before. *)
Definition farewell (n : Z) (bs : registry dev) (st : stats) : list Z :=
  help ++ statistics (n + zlen help) bs st ++ codes "Powering off..." ++ [10].

(** The port writes that switch the machine off. *)
Definition switched_off (h : hw) : hw :=
  port_out 0x501 0x31 (fold_left (fun h c => port_out 0x8900 c h) (codes "Shutdown") h).

(** The counters are in range. *)
Definition counter (n : Z) : Prop := 0 <= n < 2 ^ 63.
Record printable b : Prop := {
  pr_stats : Forall counter [s_ticks (b_stats b); idle_ticks (b_stats b); kernel_ticks (b_stats b); user_ticks (b_stats b);
    s_key_cnt (b_stats b); page_fault_cnt (b_stats b)];
  pr_roles : forall i, Some i ∈ block_by_role (b_blocks b) -> exists d, zget (all_blocks (b_blocks b)) i = Some d /\
    counter (Block.read_cnt d) /\ counter (Block.write_cnt d);
  pr_console : counter (zlen (b_console b) + zlen (first_lines (b_blocks b) (b_stats b)))
}.

Lemma tell_outputs b k fmt args out : outputs (b_mem b) k fmt args out -> (k <= length fmt + 30)%nat ->
  tell fmt args b = Done (tt, set_out (b_console b ++ out) b).
Proof. intros Ho Hk. unfold tell. by erewrite bind_done by by eapply at_mem_reads, outputs_printf. Qed.

Lemma tell_long b pre n post : counter n -> Forall (fun c => c <> chr "%") pre -> Forall (fun c => c <> chr "%") post ->
  tell (pre ++ codes "%lld" ++ post) (lld n) b = Done (tt, set_out (b_console b ++ pre ++ decimal n ++ post) b).
Proof.
  intros Hn H1 H2. unfold counter in Hn. rewrite <- (app_nil_r (lld n)). apply (tell_outputs b (length pre + S (length post + 1))).
  - apply outputs_plain; [done|]. apply (outputs_long _ _ (chr "d")); [left; split; [done|lia]|lia|]. by apply outputs_end.
  - rewrite !length_app. cbn. lia.
Qed.

Lemma thread_stats_run b i k u : counter i -> counter k -> counter u ->
  tell (codes "Thread: %lld idle ticks, %lld kernel ticks, %lld user ticks" ++ [10]) (lld i ++ lld k ++ lld u) b =
  Done (tt, set_out (b_console b ++ codes "Thread: " ++ decimal i ++ codes " idle ticks, " ++ decimal k ++ codes " kernel ticks, " ++
    decimal u ++ codes " user ticks" ++ [10]) b).
Proof.
  unfold counter. intros Hi Hk Hu.
  change (codes "Thread: %lld idle ticks, %lld kernel ticks, %lld user ticks" ++ [10]) with (codes "Thread: " ++ codes "%ll" ++ chr "d" ::
    codes " idle ticks, " ++ codes "%ll" ++ chr "d" :: codes " kernel ticks, " ++ codes "%ll" ++ chr "d" :: codes " user ticks" ++ [10]).
  rewrite <- (app_nil_r (lld u)). eapply tell_outputs.
  - apply outputs_plain; [by_decide|]. apply outputs_long; [left; split; [done|lia]|lia|]. apply outputs_plain; [by_decide|]. apply outputs_long; [left; split; [done|lia]|lia|].
    apply outputs_plain; [by_decide|]. apply outputs_long; [left; split; [done|lia]|lia|]. apply outputs_end. by_decide.
  - cbn. lia.
Qed.

Lemma set_out_twice b o o' : set_out o' (set_out o b) = set_out o' b.
Proof. done. Qed.

Lemma role_loop_run roles : forall b, (forall i, Some i ∈ roles -> exists d, zget (all_blocks (b_blocks b)) i = Some d /\
    counter (Block.read_cnt d) /\ counter (Block.write_cnt d)) ->
  role_loop roles b = Done (tt, set_out (b_console b ++ concat (map (role_line (all_blocks (b_blocks b))) roles)) b).
Proof.
  induction roles as [|[i|] roles IH]; intros b Hr; cbn [role_loop map concat].
  - rewrite app_nil_r. by destruct b.
  - destruct (Hr i) as (d & Ed & Hrd & Hwr); [by left|]. unfold counter in *. erewrite bind_done by (unfold load; by rewrite Ed).
    erewrite bind_done by done. erewrite bind_done.
    2: { change (codes "%llu reads, %llu writes" ++ [10]) with (codes "%ll" ++ chr "u" :: codes " reads, " ++ codes "%ll" ++ chr "u" :: codes " writes" ++ [10]).
         rewrite <- (app_nil_r (lld (Block.write_cnt d))). eapply tell_outputs.
         - apply outputs_long; [by right|lia|]. apply outputs_plain; [by_decide|]. apply outputs_long; [by right|lia|]. apply outputs_end. by_decide.
         - cbn. lia. }
    rewrite IH by (intros j Hj; apply Hr; by right). cbn [b_console set_out b_blocks]. rewrite !set_out_twice. 
    unfold role_line at 2. rewrite Ed.
    unfold block_name. do 3 f_equal. by rewrite <- !app_assoc.
  - rewrite IH by (intros j Hj; apply Hr; by right). done.
Qed.

Lemma print_stats_run b : printable b ->
  print_stats b = Done (tt, set_out (b_console b ++ statistics (zlen (b_console b)) (b_blocks b) (b_stats b)) b).
Proof.
  intros [Hst Hro Hco]. repeat (apply Forall_cons in Hst as [? Hst]).
  unfold print_stats, timer_print_stats, thread_print_stats, block_print_stats, console_print_stats, kbd_print_stats, exception_print_stats.
  erewrite bind_done by (erewrite bind_done by reflexivity; apply (tell_long _ (codes "Timer: ") _ (codes " ticks" ++ [10])); [done|by_decide|by_decide]).
  erewrite bind_done by (erewrite bind_done by reflexivity; by apply thread_stats_run).
  erewrite bind_done by (erewrite bind_done by reflexivity; by apply role_loop_run). rewrite !set_out_twice. cbn [b_console set_out b_blocks b_stats].
  erewrite bind_done.
  2: { erewrite bind_done by reflexivity. apply (tell_long _ (codes "Console: ") _ (codes " characters output" ++ [10])); [|by_decide|by_decide].
       unfold write_cnt. cbn [b_console set_out]. rewrite <- !app_assoc, zlen_app. unfold first_lines in Hco. by rewrite <- !app_assoc in Hco. }
  unfold write_cnt. rewrite !set_out_twice. cbn [b_console set_out].
  erewrite bind_done by (erewrite bind_done by reflexivity; apply (tell_long _ (codes "Keyboard: ") _ (codes " keys pressed" ++ [10])); [done|by_decide|by_decide]).
  erewrite bind_done by reflexivity. erewrite (tell_long _ (codes "Exception: ") _ (codes " page faults" ++ [10])); [|done|by_decide|by_decide].
  rewrite !set_out_twice. cbn [b_console set_out]. unfold statistics, first_lines. do 3 f_equal. rewrite <- !app_assoc.
  repeat f_equal. by rewrite !zlen_app.
Qed.

(** Everything is printed and the ports are written before the processor halts. *)
Lemma shutdown_power_off_run b f : filesys_done (b_fs b) = Done (tt, f) -> printable b ->
  shutdown_power_off b = Done (tt, set_off true (set_hw (switched_off (b_hw b))
    (set_out (b_console b ++ statistics (zlen (b_console b)) (b_blocks b) (b_stats b) ++ codes "Powering off..." ++ [10]) (set_fs f b)))).
Proof.
  intros Hd Hp. unfold shutdown_power_off. erewrite bind_done by (unfold at_fs; rewrite Hd; reflexivity).
  erewrite bind_done by (apply (print_stats_run (set_fs f b)); by destruct Hp).
  erewrite bind_done by (apply tell_plain; by_decide). cbn [b_console set_out set_fs b_blocks b_stats]. by rewrite <- app_assoc.
Qed.

(** The machine [b] has printed its help and stopped; [f] is left of its file system. *)
Record stopped b (f : fs dev) b' : Prop := {
  sp_off : b_off b' = true;
  sp_console : b_console b' = b_console b ++ farewell (zlen (b_console b)) (b_blocks b) (b_stats b);
  sp_hw : b_hw b' = switched_off (b_hw b);
  sp_fs : b_fs b' = f
}.

Lemma usage_run b f : filesys_done (b_fs b) = Done (tt, f) -> printable (set_out (b_console b ++ help) b) ->
  exists b', usage b = Done (tt, b') /\ stopped b f b'.
Proof.
  intros Hd Hp. unfold usage. fold help. erewrite bind_done by (apply tell_plain; by_decide).
  eexists. split; [by apply shutdown_power_off_run|]. split; try done.
  cbn [b_console set_out set_off set_hw b_blocks b_stats]. unfold farewell. by rewrite <- app_assoc, zlen_app.
Qed.

(** Only the settings, the memory and the random numbers change. *)
Record quiet b b' : Prop := {
  qt_hw : b_hw b' = b_hw b;
  qt_console : b_console b' = b_console b;
  qt_fs : b_fs b' = b_fs b;
  qt_blocks : b_blocks b' = b_blocks b;
  qt_stats : b_stats b' = b_stats b
}.

Lemma quiet_mem m b : quiet b (set_mem m b).
Proof. done. Qed.

Lemma quiet_trans b b1 b' : quiet b b1 -> quiet b1 b' -> quiet b b'.
Proof. intros [] []. split; congruence. Qed.

Lemma stopped_quiet b b1 f b' : quiet b b1 -> stopped b1 f b' -> stopped b f b'.
Proof. intros [Q1 Q2 Q3 Q4 Q5] [S1 S2 S3 S4]. split; [done| | |done]; congruence. Qed.

Lemma printable_quiet b b1 t : quiet b b1 -> printable (set_out (b_console b ++ t) b) -> printable (set_out (b_console b1 ++ t) b1).
Proof.
  intros [_ Q2 _ Q4 Q5] [P1 P2 P3]. cbn [b_stats b_blocks b_console set_out] in *. split; cbn [b_stats b_blocks b_console set_out]; by rewrite ?Q2, ?Q4, ?Q5.
Qed.

Lemma one_option_run ps args b p nm value o st : cstr (b_mem b) p nm -> 0 < p -> literals_at (b_mem b) ->
  named_at (b_mem b) value o -> kept ps args value o ->
  (nm = codes "-rs" \/ nm = codes "-ul" -> match o with Some v => numeric v | None => True end) -> shows ps args b st ->
  match spec_option nm o st with
  | Go st' _ => exists b', one_option lit p value b = Done (true, b') /\ shows ps args b' st' /\ b_mem b' = b_mem b /\ quiet b b'
  | Off => forall f, filesys_done (b_fs b) = Done (tt, f) -> printable (set_out (b_console b ++ help) b) ->
      exists b', one_option lit p value b = Done (false, b') /\ stopped b f b'
  | Fails => one_option lit p value b = Panic
  end.
Proof.
  intros Hn Hp Hl Hv Hk Hnum Hs. unfold one_option, spec_option. cbv zeta.
  assert (forall l, In l boot_literals -> string_is lit p l b = Done (bool_decide (nm = codes l), b)) as Hname by (intros; by apply string_is_run).
  erewrite bind_done by (apply Hname; cbn; tauto). case_bool_decide as E1.
  { intros f Hd Hpr. destruct (usage_run b f Hd Hpr) as (b' & Hu & Hst). exists b'. split; [by erewrite bind_done by exact Hu|done]. }
  pose proof Hs as [S1 S2 S3 S4 [S5 S5'] [S6 S6'] S7].
  do 3 (erewrite bind_done by (apply Hname; cbn; tauto); case_bool_decide as E; [eexists; split; [reflexivity|by repeat split]|clear E]).
  do 2 (erewrite bind_done by (apply Hname; cbn; tauto); case_bool_decide as E; [eexists; split; [reflexivity|by repeat split]|clear E]).
  erewrite bind_done by (apply Hname; cbn; tauto). case_bool_decide as E.
  { destruct o as [v|]; cbn [named_at] in Hv; [|subst value; apply bind_panic; unfold at_mem; by rewrite atoi_null].
    destruct Hv as [Hv0 Hv]. erewrite bind_done by (by apply at_mem_reads, atoi_numeric; auto).
    destruct (random_init_done (u32 (decimal_value v)) (b_rnd b) S7) as (r' & Er & Hr' & _).
    eexists. split; [erewrite bind_done by (unfold at_rnd; rewrite Er; reflexivity); reflexivity|by repeat split]. }
  clear E. erewrite bind_done by (apply Hname; cbn; tauto). case_bool_decide as E; [eexists; split; [reflexivity|by repeat split]|clear E].
  erewrite bind_done by (apply Hname; cbn; tauto). case_bool_decide as E; [|done].
  destruct o as [v|]; cbn [named_at] in Hv; [|subst value; apply bind_panic; unfold at_mem; by rewrite atoi_null].
  destruct Hv as [Hv0 Hv]. destruct Hnum as (Hd & Hne & Hb); [by right|]. pose proof (digits_value v Hd).
  erewrite bind_done by (by apply at_mem_reads, atoi_numeric; auto).
  eexists. split; [reflexivity|]. split; [|done]. split; try done. cbn. rewrite u32_small by lia. done.
Qed.
(** ** All options *)

Lemma shows_tail p ps t args b st : shows (p :: ps) (t :: args) b st -> shows ps args b st.
Proof.
  intros [S1 S2 S3 S4 [S5 S5'] [S6 S6'] S7]. split; try done.
  - split; [done|]. destruct (w_filesys st); [|done]. by apply Forall2_cons in S5' as [_ ?].
  - split; [done|]. destruct (w_scratch st); [|done]. by apply Forall2_cons in S6' as [_ ?].
Qed.

(** Cutting a word leaves the names that are kept. *)
Lemma named_only m m' p t x o : only m m' p t -> named_at m x o -> kept [p] [t] x o -> named_at m' x o.
Proof.
  intros Ho Hn Hk. destruct o as [v|]; [|done]. destruct Hn as [Hx Hc]. split; [done|]. apply Forall2_cons in Hk as [Ha _].
  eapply cstr_frame; [|exact Hc]. intros a Hax. apply Ho. unfold apart in Ha. lia.
Qed.

Lemma kept_head p ps t args x o : kept (p :: ps) (t :: args) x o -> kept [p] [t] x o.
Proof. destruct o; [|done]. intros [? _]%Forall2_cons. by constructor. Qed.

Lemma first_is_dash b p t : cstr (b_mem b) p t -> 0 < p ->
  (if p =? NULL then mret false else c ← at_mem (load8 p); mret (c =? chr "-") : M (boot hw dev) bool) b = Done (is_option t, b).
Proof.
  intros Hc Hp. rewrite (proj2 (Z.eqb_neq _ _)) by (unfold NULL; lia). unfold is_option. destruct t as [|c t].
  - apply cstr_nil in Hc. erewrite bind_done by (apply at_mem_reads, load8_run; exact Hc). done.
  - apply cstr_cons in Hc as (Hc & _). erewrite bind_done by (apply at_mem_reads, load8_run; exact Hc). unfold mret, M_ret. do 2 f_equal.
    cbn [head]. destruct (Z.eqb_spec c (chr "-")) as [->|Hne]; [by rewrite bool_decide_true|rewrite bool_decide_false; congruence].
Qed.

Lemma options_loop_run : forall args ps argv b st fuel, laid (b_mem b) argv ps args -> literals_at (b_mem b) -> shows ps args b st ->
  Forall good_option args -> (length args < fuel)%nat ->
  match spec_options args st with
  | Go st' k => exists b', options_loop lit fuel argv b = Done (Some (argv + 4 * Z.of_nat k), b') /\ shows (drop k ps) (drop k args) b' st' /\
      laid (b_mem b') (argv + 4 * Z.of_nat k) (drop k ps) (drop k args) /\ quiet b b'
  | Off => forall f, filesys_done (b_fs b) = Done (tt, f) -> printable (set_out (b_console b ++ help) b) ->
      exists b', options_loop lit fuel argv b = Done (None, b') /\ stopped b f b'
  | Fails => options_loop lit fuel argv b = Panic
  end.
Proof.
  induction args as [|t args IH]; intros [|p ps] argv b st [|fuel] Hl Hlit Hs Hg Hf; try done; cbn [length] in Hf; try lia; cbn [options_loop spec_options].
  { erewrite bind_done by (apply at_mem_reads, load32_word; exact Hl). change (NULL =? NULL) with true. cbn iota. erewrite bind_done by done.
    exists b. rewrite Z.add_0_r. done. }
  destruct Hl as (Hw & Hp & Hc & Hli & Hav & HF & Hl). apply Forall_cons in Hg as [Hgt Hg].
  erewrite bind_done by (apply at_mem_reads, load32_word; exact Hw). erewrite bind_done by by apply first_is_dash.
  destruct (is_option t) eqn:Eo; [|exists b; rewrite Z.add_0_r; by repeat (split; [done|])].
  destruct (cut_option (b_mem b) p t Hc Hp Hlit Eo Hli) as (save & m1 & value & x & m2 & R1 & R2 & Ho & Hn & Hv).
  cbn iota. erewrite bind_done by by apply at_mem_run. cbn iota beta. erewrite bind_done by by apply (at_mem_run _ (set_mem m1 b)). cbn iota beta.
  change (set_mem m2 (set_mem m1 b)) with (set_mem m2 b).
  pose proof (laid_only (b_mem b) m2 p t Ho ps args (argv + 4) Hl Hav HF) as Hl2.
  pose proof (literals_only (b_mem b) m2 p t Hlit Ho Hli) as Hlit2.
  assert (shows ps args (set_mem m2 b) st) as Hs2.
  { pose proof (shows_tail p ps t args b st Hs) as [T1 T2 T3 T4 [_ T5] [_ T6] T7]. destruct Hs as [_ _ _ _ [N5 K5] [N6 K6] _].
    split; try done; (split; [|done]); (eapply named_only; [exact Ho|done|by eapply kept_head]). }
  pose proof (one_option_run ps args (set_mem m2 b) p (option_name t) value (option_value t) st Hn Hp Hlit2) as Hone.
  assert (named_at m2 value (option_value t) /\ kept ps args value (option_value t)) as [Hnv Hkv].
  { destruct (option_value t) as [v|]; [|done]. destruct Hv as (Hcv & Hlo & Hhi). split; [split; [lia|done]|].
    eapply Forall2_impl; [exact HF|]. cbn. intros q u Ha. unfold apart in *. lia. }
  specialize (Hone Hnv Hkv Hgt Hs2). destruct (spec_option (option_name t) (option_value t) st) as [st1 k1| |].
  - destruct Hone as (b1 & R3 & Hs3 & Em & Eh'). assert (quiet b b1) as Eh by (by destruct Eh'). erewrite bind_done by exact R3.
    assert (Hl3 : laid (b_mem b1) (argv + 4) ps args) by (by rewrite Em). assert (Hlit3 : literals_at (b_mem b1)) by (by rewrite Em).
    specialize (IH ps (argv + 4) b1 st1 fuel Hl3 Hlit3 Hs3 Hg ltac:(lia)). destruct (spec_options args st1) as [st2 k| |]; try done.
    2: { intros f Hd Hpr. destruct (IH f) as (b2 & R4 & Hst); [by rewrite (qt_fs _ _ Eh)|by eapply printable_quiet|].
         exists b2. split; [done|]. by eapply stopped_quiet. }
    destruct IH as (b2 & R4 & Hs4 & Hl4 & Eh4). exists b2. replace (argv + 4 * Z.of_nat (S k)) with (argv + 4 + 4 * Z.of_nat k) by lia.
    cbn [drop]. split; [exact R4|]. split; [done|]. split; [done|]. by apply (quiet_trans b b1).
  - intros f Hd Hpr. destruct (Hone f Hd (printable_quiet _ _ _ (quiet_mem m2 b) Hpr)) as (b1 & R3 & Hst). exists b1.
    split; [by erewrite bind_done by exact R3|]. eapply stopped_quiet; [apply quiet_mem|exact Hst].
  - by apply bind_panic.
Qed.

Lemma laid_size m : forall ps args argv, laid m argv ps args -> (length args < base.size m)%nat.
Proof.
  intros ps args argv Hl. assert (forall ps args argv, laid m argv ps args -> mapped m argv (4 * zlen args + 4)) as Hm.
  { clear. induction ps as [|p ps IH]; intros [|t args] argv Hl; try done.
    - by apply word_mapped in Hl.
    - destruct Hl as (Hw & _ & _ & _ & _ & _ & Hl). apply IH in Hl. apply word_mapped in Hw. rewrite zlen_cons. pose proof (zlen_nonneg args).
      intros a Ha. destruct (decide (a < argv + 4)); [apply Hw|apply Hl]; lia. }
  specialize (Hm ps args argv Hl). pose proof (mapped_size m argv (4 * length args + 4)) as Hz. unfold zlen in Hm.
  replace (Z.of_nat (4 * length args + 4)) with (4 * Z.of_nat (length args) + 4) in Hz by lia. specialize (Hz Hm). lia.
Qed.

(** The clock, read from the hardware. *)
Definition clock (fuel : nat) (h : hw) (t : Z) (h' : hw) : Prop := forall b, b_hw b = h -> rtc_get_time fuel b = Done (t, set_hw h' b).

(** C28: parse_options sets the kernel's variables as its options mean and returns the
    first word that is no option, with the words behind still in place; -h prints the
    help, the statistics and its farewell and powers the machine off, an unknown option
    or a missing number panics.  The random numbers are always those of the clock: a
    seed given by -rs has no effect. *)
Theorem parse_options_correct rtc_fuel argv ps args b st t h' (Hl : laid (b_mem b) argv ps args) (Hlit : literals_at (b_mem b))
  (Hs : shows ps args b st) (Hg : Forall good_option args) (Hc : clock rtc_fuel (b_hw b) t h') :
  match spec_options args st with
  | Go st' k => exists b', parse_options lit rtc_fuel argv b = Done (Some (argv + 4 * Z.of_nat k), b') /\
      shows (drop k ps) (drop k args) b' st' /\ laid (b_mem b') (argv + 4 * Z.of_nat k) (drop k ps) (drop k args) /\
      b_console b' = b_console b /\ random_init t (b_rnd b) = Done (tt, b_rnd b')
  | Off => forall f, filesys_done (b_fs b) = Done (tt, f) -> printable (set_out (b_console b ++ help) b) ->
      exists b', parse_options lit rtc_fuel argv b = Done (None, b') /\ b_off b' = true /\
        b_console b' = b_console b ++ farewell (zlen (b_console b)) (b_blocks b) (b_stats b) /\
        b_hw b' = switched_off (b_hw b) /\ b_fs b' = f
  | Fails => parse_options lit rtc_fuel argv b = Panic
  end.
Proof.
  unfold parse_options. erewrite bind_done by (by apply at_mem_reads).
  pose proof (options_loop_run args ps argv b st (S (base.size (b_mem b))) Hl Hlit Hs Hg) as Hrun. specialize (Hrun ltac:(apply laid_size in Hl; lia)).
  destruct (spec_options args st) as [st' k| |].
  - destruct Hrun as (b1 & R1 & Hs1 & Hl1 & Eh). erewrite bind_done by exact R1.
    destruct (random_init_done t (b_rnd b1) (sh_rnd _ _ _ _ Hs1)) as (r' & Er & Hr' & Hany).
    exists (set_rnd r' (set_hw h' b1)). split; [|split; [|split; [done|split; [apply Eh|]]]].
    + erewrite bind_done by (apply Hc; apply Eh). by erewrite bind_done by (unfold at_rnd; cbn [b_rnd set_hw]; by rewrite Er).
    + by destruct Hs1.
    + apply Hany, Hs.
  - intros f Hd Hpr. destruct (Hrun f Hd Hpr) as (b1 & R1 & [S1 S2 S3 S4]). exists b1. split; [by erewrite bind_done by exact R1|done].
  - by apply bind_panic.
Qed.
End Options.
