(* ===== verification/BootWords.v ===== *)
(** * Words, block devices, actions and the time

    The words of the command line are found where the loader has left them; the
    block devices are chosen by name or by type; the actions run in order; and the
    time the clock gives is compared with the calendar. *)

From Stdlib Require Import Ascii.
From Stdlib Require Import(notations) String.
From S2P Require Import Prelude Vaddr Block FileSys Mem CString Stdio CStdlib Random Ustar Fsutil FsutilSpec Devices DevicesSpec Boot BootSpec.

(** ** The words of the command line *)

(** Strings one behind the other, each with its terminator, and where they begin. *)
Definition joined (args : list (list Z)) : list Z := concat (map (fun s => s ++ [0]) args).
Fixpoint places (p : Z) (args : list (list Z)) : list Z :=
  match args with [] => [] | s :: args => p :: places (p + zlen s + 1) args end.

(** How the words are shown. *)
Definition quoted (s : list Z) : list Z :=
  if bool_decide (chr " " ∈ s) then codes " '" ++ s ++ codes "'" else codes " " ++ s.

Lemma joined_cons s args : joined (s :: args) = s ++ [0] ++ joined args.
Proof. unfold joined. cbn [map concat]. by rewrite <- app_assoc. Qed.

Lemma joined_length s args : zlen (joined (s :: args)) = zlen s + 1 + zlen (joined args).
Proof. rewrite joined_cons, !zlen_app. change (zlen [0]) with 1. lia. Qed.

Lemma places_length args : forall p, zlen (places p args) = zlen args.
Proof. induction args as [|s args IH]; intros p; [done|]. cbn [places]. by rewrite !zlen_cons, IH. Qed.

(** The array with the addresses of the words. *)
Fixpoint array_at (m : mem) (argv : Z) (ps : list Z) : Prop :=
  match ps with [] => word_at m argv NULL | p :: ps => word_at m argv p /\ array_at m (argv + 4) ps end.

Section Words.
Context {hw dev : Type} `{Ports hw}.
Implicit Types (b : boot hw dev) (m : mem).

Lemma joined_cstr m p s args : bytes_at m p (joined (s :: args)) -> Forall is_char s -> cstr m p s /\ bytes_at m (p + zlen s + 1) (joined args).
Proof.
  intros Hb Hs. rewrite joined_cons, app_assoc in Hb. apply bytes_at_app in Hb as [Hb1 Hb2]. rewrite zlen_app in Hb2. change (zlen [0]) with 1 in Hb2.
  rewrite Z.add_assoc in Hb2. done.
Qed.

Lemma read_words_run args : forall fuel argv i argc p last b, argc = i + zlen args -> Forall (Forall is_char) args ->
  bytes_at (b_mem b) p (joined args) -> 0 < p -> p + zlen (joined args) <= last -> last < 2 ^ 32 -> 
  mapped (b_mem b) (argv + 4 * i) (4 * zlen args) -> apart p (zlen (joined args)) (argv + 4 * i) (4 * zlen args) -> (length args < fuel)%nat ->
  exists m', read_words fuel argv i argc p last b = Done (tt, set_mem m' b) /\
    outside (b_mem b) m' (argv + 4 * i) (4 * zlen args) /\
    forall k q, places p args !! k = Some q -> word_at m' (argv + 4 * (i + Z.of_nat k)) q.
Proof.
  induction args as [|s args IH]; intros [|fuel] argv i argc p last b Hc HF Hb Hp Hl Hlast Hm Ha Hf; cbn [length] in Hf; try lia; cbn [read_words].
  { change (zlen []) with 0 in Hc. rewrite (proj2 (Z.ltb_ge _ _)) by lia. exists (b_mem b). rewrite set_mem_id. split; [done|]. split; [done|]. done. }
  pose proof (joined_length s args) as Ej. pose proof (zlen_nonneg s). pose proof (zlen_nonneg args). pose proof (zlen_nonneg (joined args)).
  rewrite !zlen_cons in *. rewrite (proj2 (Z.ltb_lt _ _)) by lia. rewrite (proj2 (Z.leb_gt _ _)) by lia.
  apply Forall_cons in HF as [Hs HF]. destruct (joined_cstr _ _ _ _ Hb Hs) as [Hcs Hrest].
  set (m1 := stored (b_mem b) (argv + 4 * i) (le_bytes p)).
  assert (outside (b_mem b) m1 (argv + 4 * i) 4) as Ho1 by apply (stored_outside (le_bytes p)).
  erewrite bind_done by (apply at_mem_run, store32_run; intros a Hx; apply Hm; lia). fold m1.
  assert (cstr m1 p s) as Hcs1.
  { eapply cstr_frame; [|exact Hcs]. intros a Hx. apply Ho1. unfold apart in Ha. lia. }
  assert (bytes_at m1 (p + zlen s + 1) (joined args)) as Hrest1.
  { eapply bytes_at_frame; [|exact Hrest]. intros a Hx. apply Ho1. unfold apart in Ha. lia. }
  erewrite bind_done.
  2: { apply (at_mem_reads _ (set_mem m1 b)). cbn [b_mem set_mem]. unfold strnlen, scan_fuel. erewrite bind_done by done.
       apply (strnlen_run s m1 p _ _ 0 []); [done|done|lia|by eapply cstr_fuel]. }
  rewrite Z.add_0_l.
  destruct (IH fuel argv (i + 1) argc (p + zlen s + 1) last (set_mem m1 b)) as (m' & E & Ho & Hw); try done; try lia.
  - intros a Hx. apply stored_is_Some, Hm. lia.
  - unfold apart in *. lia.
  - exists m'. split; [rewrite E; by destruct b|]. cbn [b_mem set_mem] in Ho. split.
    + intros a Hx. rewrite Ho by lia. apply Ho1. lia.
    + intros [|k] q Hq; cbn [places] in Hq.
      * injection Hq as <-. rewrite Z.add_0_r. apply (word_at_frame m1); [intros a Hx; apply Ho; lia|]. apply store32_word. unfold is_u32. lia.
      * cbn in Hq. specialize (Hw k q Hq). by replace (i + Z.of_nat (S k)) with (i + 1 + Z.of_nat k) by lia.
Qed.

Lemma print_words_run all : forall args ps fuel argv i argc b, argc = i + zlen args -> Forall2 (fun q s => 0 < q < 2 ^ 32 /\ cstr (b_mem b) q s /\ zlen s < 2 ^ 32) ps args ->
  (forall k q, ps !! k = Some q -> word_at (b_mem b) (argv + 4 * (i + Z.of_nat k)) q) -> (length args <= fuel)%nat -> b_console b = all ->
  print_words fuel argv i argc b = Done (tt, set_out (all ++ concat (map quoted args)) b).
Proof.
  revert all. intros all args. revert all. induction args as [|s args IH]; intros all ps fuel argv i argc b Hc HF Hw Hf Hall.
  { rewrite app_nil_r, <- Hall. change (zlen []) with 0 in Hc. assert (set_out (b_console b) b = b) as -> by by destruct b.
    destruct fuel; [done|]. cbn [print_words]. by rewrite (proj2 (Z.ltb_ge _ _)) by lia. }
  destruct ps as [|q ps]; [by apply Forall2_length in HF|]. apply Forall2_cons in HF as [(Hq & Hcs & Hz) HF].
  destruct fuel as [|fuel]; [cbn in Hf; lia|]. cbn [print_words length] in *. rewrite zlen_cons in Hc. pose proof (zlen_nonneg args).
  rewrite (proj2 (Z.ltb_lt _ _)) by lia. pose proof (Hw 0%nat q eq_refl) as Hw0. rewrite Z.add_0_r in Hw0.
  erewrite bind_done by (apply at_mem_reads, load32_word; exact Hw0).
  destruct (strchr_test (b_mem b) q (chr " ") s Hcs ltac:(lia)) as (x & Ex & Exn); [unfold is_byte; by vm_compute|].
  erewrite bind_done by (apply at_mem_reads; exact Ex). rewrite Exn.
  assert (forall pre suf, Forall (fun c => c <> chr "%") pre -> Forall (fun c => c <> chr "%") suf ->
    tell (pre ++ codes "%s" ++ suf) [q] b = Done (tt, set_out (all ++ pre ++ s ++ suf) b)) as Htell.
  { intros pre suf Hpre Hsuf. unfold tell. erewrite bind_done by (apply at_mem_reads, (printf_string _ q s); [exact Hcs|done|done|done|done]).
    unfold type_out, modify. by rewrite Hall. }
  assert ((if negb (bool_decide (chr " " ∈ 0 :: s)) then tell (codes " %s") [q] else tell (codes " '%s'") [q]) b = Done (tt, set_out (all ++ quoted s) b)) as Et.
  { unfold quoted. destruct (decide (chr " " ∈ s)) as [Hin|Hin].
    - rewrite (bool_decide_true (_ ∈ 0 :: s)) by by right. rewrite (bool_decide_true (_ ∈ s)) by done. apply (Htell (codes " '") (codes "'")); by_decide.
    - rewrite (bool_decide_false (_ ∈ 0 :: s)) by by (rewrite elem_of_cons; intros [?|?]). rewrite (bool_decide_false (_ ∈ s)) by done.
      rewrite <- (app_nil_r s) at 1. apply (Htell (codes " ") []); by_decide. }
  erewrite bind_done by exact Et. rewrite (IH (all ++ quoted s) ps fuel argv (i + 1) argc (set_out (all ++ quoted s) b)); try done; try lia.
  - cbn [map concat]. by rewrite <- app_assoc.
  - intros k q' Hk. specialize (Hw (S k) q' Hk). by replace (i + 1 + Z.of_nat k) with (i + Z.of_nat (S k)) by lia.
Qed.

Lemma joined_count args : zlen args <= zlen (joined args).
Proof. induction args as [|t args IH]; [done|]. rewrite joined_length, zlen_cons. pose proof (zlen_nonneg t). lia. Qed.

Lemma places_cstr m args : forall p, Forall (Forall is_char) args -> bytes_at m p (joined args) -> Forall2 (cstr m) (places p args) args.
Proof.
  induction args as [|t args IH]; intros p HF Hb; [constructor|]. apply Forall_cons in HF as [Ht HF].
  destruct (joined_cstr _ _ _ _ Hb Ht) as [Hc Hr]. cbn [places]. constructor; [done|by apply IH].
Qed.

Lemma places_range args : forall p q k, places p args !! k = Some q -> p <= q < p + zlen (joined args).
Proof.
  induction args as [|t args IH]; intros p q [|k] Hk; try done; rewrite joined_length; pose proof (zlen_nonneg t); pose proof (zlen_nonneg (joined args)).
  - injection Hk as <-. lia.
  - specialize (IH _ _ _ Hk). lia.
Qed.

Lemma array_intro m argv ps : (forall k q, ps !! k = Some q -> word_at m (argv + 4 * Z.of_nat k) q) -> word_at m (argv + 4 * zlen ps) NULL -> array_at m argv ps.
Proof.
  revert argv. induction ps as [|p ps IH]; intros argv Hk He; cbn [array_at].
  - change (zlen []) with 0 in He. by rewrite Z.add_0_r in He.
  - split; [specialize (Hk 0%nat p eq_refl); by rewrite Z.add_0_r in Hk|]. apply IH.
    + intros k q Hq. specialize (Hk (S k) q Hq). by replace (argv + 4 + 4 * Z.of_nat k) with (argv + 4 * Z.of_nat (S k)) by lia.
    + rewrite zlen_cons in He. by replace (argv + 4 + 4 * zlen ps) with (argv + 4 * (1 + zlen ps)) by lia.
Qed.

(** Where the kernel sees what the loader has left. *)
Definition args_at : Z := LOADER_ARGS + PHYS_BASE.
Definition count_at : Z := LOADER_ARG_CNT + PHYS_BASE.

(** C29: read_command_line finds the words the loader has left, each ended by its
    terminator, stores their addresses and NULL behind them in the array, and prints
    them in order, those with a space in quotes; it changes nothing but the array. *)
Theorem read_command_line_correct args argv b (Hcnt : word_at (b_mem b) count_at (zlen args)) (HF : Forall (Forall is_char) args)
  (Hb : bytes_at (b_mem b) args_at (joined args)) (Hl : zlen (joined args) <= LOADER_ARGS_LEN)
  (Hm : mapped (b_mem b) argv (4 * zlen args + 4)) (Ha : apart args_at (zlen (joined args)) argv (4 * zlen args + 3)) :
  exists m', read_command_line argv b =
      Done (argv, set_out (b_console b ++ codes "Kernel command line:" ++ concat (map quoted args) ++ [10]) (set_mem m' b)) /\
    array_at m' argv (places args_at args) /\ Forall2 (cstr m') (places args_at args) args /\
    outside (b_mem b) m' argv (4 * zlen args + 4).
Proof.
  pose proof (joined_count args) as Hn. pose proof (zlen_nonneg args) as H0. unfold LOADER_ARGS_LEN in *.
  assert (args_at = 0xc0007d3e) as Ea by done. unfold read_command_line.
  change (ptov LOADER_ARG_CNT) with (Done count_at). erewrite bind_done by done. erewrite bind_done by by apply at_mem_reads, load32_word. cbv zeta.
  rewrite s32_small by lia. change (ptov LOADER_ARGS) with (Done args_at). erewrite bind_done by done.
  destruct (read_words_run args (Z.to_nat 128 + 1) argv 0 (zlen args) args_at (args_at + 128) b) as (m1 & E1 & Ho1 & Hw1); try done; try lia.
  { rewrite Z.mul_0_r, Z.add_0_r. intros a Hx. apply Hm. lia. }
  { rewrite Z.mul_0_r, Z.add_0_r. unfold apart in *. lia. }
  { unfold zlen in Hn, Hl. lia. }
  rewrite Z.mul_0_r, Z.add_0_r in Ho1. erewrite bind_done by exact E1.
  set (m2 := stored m1 (argv + 4 * zlen args) (le_bytes NULL)).
  assert (outside m1 m2 (argv + 4 * zlen args) 4) as Ho2 by apply (stored_outside (le_bytes NULL)).
  assert (outside (b_mem b) m2 argv (4 * zlen args + 4)) as Ho.
  { intros a Hx. rewrite Ho2 by lia. apply Ho1. lia. }
  assert (bytes_at m2 args_at (joined args)) as Hb2.
  { eapply bytes_at_frame; [|exact Hb]. intros a Hx. apply Ho. unfold apart in Ha. lia. }
  assert (forall k q, places args_at args !! k = Some q -> word_at m2 (argv + 4 * (0 + Z.of_nat k)) q) as Hw2.
  { intros k q Hk. eapply word_at_frame; [|by apply Hw1]. intros a Hx. apply Ho2. apply lookup_lt_Some in Hk. pose proof (places_length args args_at).
    unfold zlen in *. lia. }
  erewrite bind_done.
  2: { apply at_mem_run, store32_run. cbn [b_mem set_mem]. intros a Hx. destruct (decide (argv <= a < argv + 4 * zlen args)) as [Hin|Hin]; [lia|].
       rewrite Ho1 by lia. apply Hm. lia. }
  change (set_mem _ (set_mem m1 b)) with (set_mem m2 b). erewrite bind_done by (apply tell_plain; by_decide). cbn [b_console set_mem].
  erewrite bind_done.
  2: { apply (print_words_run (b_console b ++ codes "Kernel command line:") args (places args_at args)); try done; [|unfold zlen; lia].
       apply Forall2_same_length_lookup_2; [pose proof (places_length args args_at); unfold zlen in *; lia|]. intros k q t Hq Ht.
       pose proof (places_range _ _ _ _ Hq). split; [lia|]. pose proof (places_cstr m2 args args_at HF Hb2) as HF2.
       pose proof (Forall2_lookup_lr _ _ _ _ _ _ HF2 Hq Ht) as Hc. split; [exact Hc|].
       apply list_elem_of_lookup_2, list_elem_of_split in Ht as (a1 & a2 & ->). clear -Hl. unfold joined in Hl. rewrite map_app, concat_app, zlen_app in Hl.
       cbn [map concat] in Hl. rewrite !zlen_app in Hl. pose proof (zlen_nonneg (concat (map (fun s => s ++ [0]) a1))).
       pose proof (zlen_nonneg (concat (map (fun s => s ++ [0]) a2))). change (zlen [0]) with 1 in Hl. lia. }
  erewrite bind_done by (apply tell_plain; by_decide). exists m2. split; [|split; [|split; [by apply places_cstr|done]]].
  - cbn [b_console set_out]. rewrite <- !app_assoc. by destruct b.
  - apply array_intro; [exact Hw2|]. rewrite places_length. by apply store32_word.
Qed.
End Words.

(** ** The time *)

(** The calendar: days from 1 January 1970 to the first of a month. *)
Definition leap (y : Z) : bool := (y mod 4 =? 0) && negb (y mod 100 =? 0) || (y mod 400 =? 0).
Definition month_length (y m : Z) : Z := default 0 (zget days_per_month (m - 1)) + if (m =? 2) && leap y then 1 else 0.
Definition year_length (y : Z) : Z := if leap y then 366 else 365.
Definition sum (l : list Z) : Z := fold_right Z.add 0 l.
Definition calendar_days (y m : Z) : Z := sum (map year_length (seqZ 1970 (y - 1970))) + sum (map (month_length y) (seqZ 1 (m - 1))).

(** Seconds since the epoch. *)
Definition epoch_seconds (y m mday hour min sec : Z) : Z := (calendar_days y m + (mday - 1)) * 86400 + hour * 3600 + min * 60 + sec.

Definition valid_rtc (y : Z) (r : rtc_time) : Prop :=
  1970 <= y < 2038 /\ t_year r = y mod 100 /\ 1 <= t_mon r <= 12 /\ 1 <= t_mday r <= 31 /\
  0 <= t_hour r < 24 /\ 0 <= t_min r < 60 /\ 0 <= t_sec r < 60.

Lemma sum_nonneg l : Forall (fun d => 0 <= d) l -> 0 <= sum l.
Proof. unfold sum. induction 1; cbn [fold_right]; lia. Qed.

Lemma months_sum m : 1 <= m <= 12 -> 0 <= sum (take (Z.to_nat m) days_per_month) <= 365.
Proof.
  intros Hm. assert (List.forallb (fun m => (0 <=? sum (take (Z.to_nat m) days_per_month)) && (sum (take (Z.to_nat m) days_per_month) <=? 365)) (seqZ 1 12) = true)
    as Hall by by vm_compute.
  rewrite List.forallb_forall in Hall. specialize (Hall m). rewrite <- list_elem_of_In, elem_of_seqZ in Hall. specialize (Hall ltac:(lia)). lia.
Qed.

Lemma month_loop_run n : forall i time, 0 <= i -> i + Z.of_nat n <= 12 -> 0 <= time ->
  time + sum (take n (drop (Z.to_nat i) days_per_month)) * 86400 < 2 ^ 32 ->
  month_loop n (i + 1) time = Done (time + sum (take n (drop (Z.to_nat i) days_per_month)) * 86400).
Proof.
  induction n as [|n IH]; intros i time Hi Hn Ht Hb; cbn [month_loop]; [by rewrite Z.add_0_r|].
  destruct (lookup_lt_is_Some_2 days_per_month (Z.to_nat i)) as [d Ed]; [cbn; lia|].
  replace (i + 1 - 1) with i by lia. unfold zget. rewrite decide_True by lia. rewrite Ed.
  rewrite (drop_S _ _ _ Ed) in *. cbn [take sum fold_right] in *. fold (sum (take n (drop (S (Z.to_nat i)) days_per_month))) in *.
  replace (S (Z.to_nat i)) with (Z.to_nat (i + 1)) in * by lia.
  assert (0 <= d /\ 0 <= sum (take n (drop (Z.to_nat (i + 1)) days_per_month))) as [Hd Hs].
  { assert (Forall (fun d => 0 <= d) days_per_month) as HF by by_decide. split; [by eapply Forall_lookup_1 in HF|].
    by apply sum_nonneg, Forall_take, Forall_drop. }
  rewrite u32_small by lia. rewrite IH by lia. f_equal. lia.
Qed.

Lemma month_loop_days m time : 1 <= m <= 12 -> 0 <= time < 2 ^ 32 - 366 * 86400 ->
  month_loop (Z.to_nat m) 1 time = Done (time + sum (take (Z.to_nat m) days_per_month) * 86400).
Proof.
  intros Hm Ht. apply (month_loop_run (Z.to_nat m) 0 time); try lia. change (drop (Z.to_nat 0) days_per_month) with days_per_month.
  pose proof (months_sum m Hm). lia.
Qed.

Definition code_days (yr m : Z) : Z :=
  yr * 365 + Z.quot (yr - 1) 4 + sum (take (Z.to_nat m) days_per_month) + if (2 <? m) && (Z.rem yr 4 =? 0) then 1 else 0.

Lemma code_days_ahead y m : 1970 <= y < 2038 -> 1 <= m <= 12 -> 27 <= code_days (y - 1970) m - calendar_days y m <= 32.
Proof.
  intros Hy Hm.
  assert (List.forallb (fun y => List.forallb (fun m => (27 <=? code_days (y - 1970) m - calendar_days y m) && (code_days (y - 1970) m - calendar_days y m <=? 32))
    (seqZ 1 12)) (seqZ 1970 68) = true) as Hall by by vm_compute.
  rewrite List.forallb_forall in Hall. specialize (Hall y). rewrite <- list_elem_of_In, elem_of_seqZ in Hall. specialize (Hall ltac:(lia)).
  rewrite List.forallb_forall in Hall. specialize (Hall m). rewrite <- list_elem_of_In, elem_of_seqZ in Hall. specialize (Hall ltac:(lia)). lia.
Qed.

(** C33: the time is wrong at every moment before 2038: it is 27 to 32 days ahead of the
    calendar, since the current month is counted as past and the leap years are not
    where the formula has them. *)
Theorem rtc_time_ahead y r (Hr : valid_rtc y r) : exists days, 27 <= days <= 32 /\
  rtc_seconds r = Done (epoch_seconds y (t_mon r) (t_mday r) (t_hour r) (t_min r) (t_sec r) + days * 86400).
Proof.
  destruct Hr as (Hy & Eyr & Hmon & Hmday & Hhour & Hmin & Hsec). pose proof (code_days_ahead y (t_mon r) Hy Hmon) as Ha.
  exists (code_days (y - 1970) (t_mon r) - calendar_days y (t_mon r)). split; [done|]. unfold rtc_seconds. rewrite Eyr.
  assert ((if y mod 100 <? 70 then y mod 100 + 100 else y mod 100) = y - 1900) as -> by (destruct (Z.ltb_spec (y mod 100) 70); dlia).
  replace (y - 1900 - 70) with (y - 1970) by lia. cbv zeta. unfold code_days, epoch_seconds in *. set (yr := y - 1970) in *.
  assert (0 <= yr * 365 + Z.quot (yr - 1) 4 <= 24500 - 29) as Hd.
  { destruct (decide (yr = 0)) as [->|]; [by vm_compute|]. rewrite Z.quot_div_nonneg by lia. dlia. }
  rewrite s32_small, u32_small by lia.
  erewrite obind_done by (apply month_loop_days; lia).
  pose proof (months_sum (t_mon r) Hmon) as Hs.
  destruct ((2 <? t_mon r) && (Z.rem yr 4 =? 0));
    repeat match goal with |- context [u32 ?x] => lazymatch x with context [u32 _] => fail | _ => rewrite (u32_small x) by lia end end; f_equal; lia.
Qed.

Lemma rtc_time_ahead_witness : exists days, 27 <= days <= 32 /\ rtc_seconds (mk_rtc 0 0 0 1 1 70) = Done (0 + days * 86400).
Proof. exact (rtc_time_ahead 1970 (mk_rtc 0 0 0 1 1 70) ltac:(repeat split; done)). Defined.

(** ** Which block devices, and which actions

    The file system and the scratch device are the first blocks of the given name or,
    without one, of their type; an action runs when its name and its arguments are
    there. *)

(** ** Block devices *)

Section Choice.
Context {dev : Type}.
Implicit Types (r : registry dev) (role : block_type) (nm : option (list Z)).

(** The block with the name, or of the type. *)
Definition wanted role nm (b : block dev) : Prop :=
  match nm with Some s => s = Block.name b | None => Block.type b = role end.
#[export] Instance wanted_dec role nm b : Decision (wanted role nm b).
Proof. destruct nm; cbn; apply _. Defined.

Definition choice r role nm : option (nat * block dev) := list_find (wanted role nm) (all_blocks r).

(** The role after the choice, and what is shown. *)
Definition assigned r role nm : registry dev :=
  match choice r role nm with
  | Some (i, _) => mk_registry (all_blocks r) (<[Z.to_nat (type_no role) := Some (Z.of_nat i)]> (block_by_role r))
  | None => r
  end.
Definition announced r role nm : list Z :=
  match choice r role nm with Some (_, b) => block_type_name role ++ codes ": using " ++ Block.name b ++ [10] | None => [] end.

Lemma find_by_name_find s bs : forall i,
  find_by_name s i bs = (fun p : nat * block dev => i + Z.of_nat p.1) <$> list_find (wanted BLOCK_RAW (Some s)) bs.
Proof.
  induction bs as [|b bs IH]; intros i; [done|]. cbn [find_by_name list_find]. unfold wanted at 1. case_bool_decide as E.
  - rewrite decide_True by done. cbn. f_equal. lia.
  - rewrite decide_False by done. rewrite IH. destruct (list_find _ bs) as [[j b']|]; [|done]. cbn. f_equal. lia.
Qed.

Lemma zget_nth {A} (l : list A) (i : nat) : zget l (Z.of_nat i) = l !! i.
Proof. unfold zget. rewrite decide_True by lia. by rewrite Nat2Z.id. Qed.

(** The loop in probe order, from the block at [i]. *)
Lemma probe_loop_run r role : forall n i, (i <= length (all_blocks r))%nat -> (length (all_blocks r) < i + n)%nat ->
  probe_loop n role (list_elem_to_block r (Z.of_nat i)) r =
    Done ((fun p : nat * block dev => Z.of_nat (i + p.1)) <$> list_find (wanted role None) (drop i (all_blocks r)), r).
Proof.
  induction n as [|n IH]; intros i Hi Hn; [lia|]. unfold list_elem_to_block, zlen. destruct (decide (i = length (all_blocks r))) as [->|Hne].
  { rewrite Z.eqb_refl, drop_ge by lia. done. }
  rewrite (proj2 (Z.eqb_neq _ _)) by lia. cbn [probe_loop]. destruct (lookup_lt_is_Some_2 (all_blocks r) i) as [b Eb]; [lia|].
  erewrite bind_done by (unfold load, gets; by rewrite zget_nth, Eb). rewrite (drop_S _ _ _ Eb). cbn [list_find]. unfold wanted at 1.
  case_bool_decide as E.
  - rewrite decide_True by done. unfold mret, M_ret. cbn. do 3 f_equal. lia.
  - rewrite decide_False by done. erewrite bind_done by reflexivity. replace (Z.of_nat i + 1) with (Z.of_nat (S i)) by lia.
    rewrite IH by lia. destruct (list_find _ _) as [[j b']|]; [|done]. cbn. do 3 f_equal. lia.
Qed.

Lemma locate_run r role nm : length (block_by_role r) = 4%nat -> type_no role < BLOCK_ROLE_CNT ->
  locate_block_device role nm r =
    if decide (nm <> None /\ choice r role nm = None) then Panic else Done (announced r role nm, assigned r role nm).
Proof.
  intros Hlen Hrole. unfold locate_block_device.
  assert (forall i b, all_blocks r !! i = Some b ->
    (b' ← load (fun r => zget (all_blocks r) (Z.of_nat i)); block_set_role role (Some (Z.of_nat i)) ;;
      mret (block_type_name role ++ codes ": using " ++ Block.block_name b' ++ [10]) : M (registry dev) (list Z)) r =
    Done (block_type_name role ++ codes ": using " ++ Block.name b ++ [10],
      mk_registry (all_blocks r) (<[Z.to_nat (type_no role) := Some (Z.of_nat i)]> (block_by_role r)))) as Hset.
  { intros i b Hb. erewrite bind_done by (unfold load, gets; by rewrite zget_nth, Hb). unfold block_set_role.
    rewrite (proj2 (Z.ltb_lt _ _)) by done. 
    assert (forall l (x : option Z), zset l (type_no role) x = <[Z.to_nat (type_no role) := x]> l) as Ez.
    { intros. unfold zset. by rewrite decide_True by by destruct role. }
    rewrite <- Ez. reflexivity. }
  unfold announced, assigned. destruct nm as [s|].
  - unfold block_get_by_name, gets.
    assert (find_by_name s 0 (all_blocks r) = (fun p : nat * block dev => Z.of_nat p.1) <$> choice r role (Some s)) as Ef.
    { rewrite find_by_name_find. unfold choice. reflexivity. }
    destruct (choice r role (Some s)) as [[i b]|] eqn:Ec.
    + rewrite decide_False by (intros [_ [=]]). erewrite bind_done by (erewrite bind_done by (by rewrite Ef); reflexivity).
      apply Hset. by apply list_find_Some in Ec as (? & _).
    + rewrite decide_True by done. apply bind_panic. by erewrite bind_done by (by rewrite Ef).
  - rewrite decide_False by (intros [[] _]; done). erewrite bind_done.
    2: { erewrite bind_done by reflexivity. erewrite bind_done by reflexivity. apply (probe_loop_run r role _ 0); lia. }
    rewrite drop_0. fold (choice r role None). destruct (choice r role None) as [[i b]|] eqn:Ec; [|done].
    apply Hset. by apply list_find_Some in Ec as (? & _).
Qed.

Lemma assigned_blocks r role nm : all_blocks (assigned r role nm) = all_blocks r.
Proof. unfold assigned. by destruct (choice r role nm) as [[]|]. Qed.

Lemma assigned_roles r role nm : length (block_by_role r) = 4%nat -> length (block_by_role (assigned r role nm)) = 4%nat.
Proof. intros Hl. unfold assigned. destruct (choice r role nm) as [[]|]; [|done]. cbn. by rewrite length_insert. Qed.

Lemma assigned_get r role nm other : length (block_by_role r) = 4%nat -> type_no role < BLOCK_ROLE_CNT -> type_no other < BLOCK_ROLE_CNT ->
  block_get_role other (assigned r role nm) =
    Done (if decide (other = role) then match choice r role nm with Some (i, _) => Some (Z.of_nat i) | None => default None (block_by_role r !! Z.to_nat (type_no role)) end
      else default None (block_by_role r !! Z.to_nat (type_no other)), assigned r role nm).
Proof.
  intros Hlen Hr Ho. unfold block_get_role. rewrite (proj2 (Z.ltb_lt _ _)) by done. erewrite bind_done by reflexivity.
  assert (forall t, 0 <= type_no t) as H0 by by destruct t.
  assert (exists x, block_by_role r !! Z.to_nat (type_no other) = Some x) as [x Hx].
  { apply lookup_lt_is_Some_2. specialize (H0 other). unfold BLOCK_ROLE_CNT in Ho. lia. }
  unfold load, gets, zget. rewrite decide_True by done. unfold assigned. destruct (decide (other = role)) as [->|Hne].
  - destruct (choice r role nm) as [[i b]|]; cbn [block_by_role].
    + rewrite list_lookup_insert_eq; [done|]. by apply lookup_lt_Some in Hx.
    + by rewrite Hx.
  - destruct (choice r role nm) as [[i b]|]; cbn [block_by_role]; [|by rewrite Hx].
    rewrite list_lookup_insert_ne; [by rewrite Hx|]. intros E. apply Hne. clear -E. by destruct other, role.
Qed.
End Choice.

(** Locate_block_devices gives the roles of the file system and of the scratch
    device to the first blocks of the names the options gave, or without a name to the
    first of the type in probe order; it says so, leaves the role as it was when there
    is none of the type, and panics when there is none of the name. *)
Theorem locate_block_devices_correct {dev} (r : registry dev) filesys scratch (Hlen : length (block_by_role r) = 4%nat) :
  if decide ((filesys <> None /\ choice r BLOCK_FILESYS filesys = None) \/ (scratch <> None /\ choice r BLOCK_SCRATCH scratch = None))
  then locate_block_devices filesys scratch r = Panic
  else exists r', locate_block_devices filesys scratch r = Done (announced r BLOCK_FILESYS filesys ++ announced r BLOCK_SCRATCH scratch, r') /\
    all_blocks r' = all_blocks r /\
    forall role, type_no role < BLOCK_ROLE_CNT ->
      let before := default None (block_by_role r !! Z.to_nat (type_no role)) in
      let now nm := match choice r role nm with Some (i, _) => Some (Z.of_nat i) | None => before end in
      block_get_role role r' = Done (match role with BLOCK_FILESYS => now filesys | BLOCK_SCRATCH => now scratch | _ => before end, r').
Proof.
  unfold locate_block_devices. set (r1 := assigned r BLOCK_FILESYS filesys).
  assert (all_blocks r1 = all_blocks r) as E1 by apply assigned_blocks.
  assert (length (block_by_role r1) = 4%nat) as L1 by by apply assigned_roles.
  assert (choice r1 BLOCK_SCRATCH scratch = choice r BLOCK_SCRATCH scratch) as Ec by (unfold choice; by rewrite E1).
  pose proof (locate_run r BLOCK_FILESYS filesys Hlen eq_refl) as R1. pose proof (locate_run r1 BLOCK_SCRATCH scratch L1 eq_refl) as R2. rewrite Ec in R2.
  destruct (decide (filesys <> None /\ choice r BLOCK_FILESYS filesys = None)) as [H1|H1].
  { rewrite decide_True by by left. by apply bind_panic. }
  destruct (decide (scratch <> None /\ choice r BLOCK_SCRATCH scratch = None)) as [H2|H2].
  { rewrite decide_True by by right. erewrite bind_done by exact R1. by apply bind_panic. }
  rewrite decide_False by tauto. exists (assigned r1 BLOCK_SCRATCH scratch).
  assert (announced r1 BLOCK_SCRATCH scratch = announced r BLOCK_SCRATCH scratch) as Ea by (unfold announced; by rewrite Ec).
  split; [erewrite bind_done by exact R1; erewrite bind_done by exact R2; by rewrite Ea|]. split; [by rewrite assigned_blocks|].
  intros role Hrole. cbv zeta. rewrite (assigned_get r1 BLOCK_SCRATCH scratch role) by done. rewrite Ec.
  pose proof (assigned_get r BLOCK_FILESYS filesys role Hlen eq_refl Hrole) as G. fold r1 in G.
  pose proof (assigned_get r BLOCK_FILESYS filesys BLOCK_SCRATCH Hlen eq_refl eq_refl) as Gs. fold r1 in Gs.
  assert (forall t, type_no t < BLOCK_ROLE_CNT -> t <> BLOCK_FILESYS -> block_by_role r1 !! Z.to_nat (type_no t) = block_by_role r !! Z.to_nat (type_no t)) as Hother.
  { intros t Ht Hne. unfold r1, assigned. destruct (choice r BLOCK_FILESYS filesys) as [[]|]; [|done]. cbn [block_by_role].
    apply list_lookup_insert_ne. intros E. apply Hne. clear -E Ht. by destruct t. }
  assert (default None (block_by_role r1 !! Z.to_nat (type_no BLOCK_FILESYS)) =
    match choice r BLOCK_FILESYS filesys with Some (i, _) => Some (Z.of_nat i) | None => default None (block_by_role r !! Z.to_nat (type_no BLOCK_FILESYS)) end) as Hfs.
  { unfold r1, assigned. destruct (choice r BLOCK_FILESYS filesys) as [[]|]; [|done]. cbn [block_by_role]. rewrite list_lookup_insert_eq; [done|]. cbn. lia. }
  do 2 f_equal. destruct role; try done; destruct (decide _) as [E|E]; try done; clear E; by rewrite ?Hfs, ?Hother by done.
Qed.

(** ** Actions *)

Section Dispatch.
Context {dev sdev : Type} `{BlockDriver dev} `{BlockDriver sdev} (lit : String.string -> Z).
Context (execute : Z -> M (util dev sdev) unit) (page_ok : bool) (junk : list Z) (header data buffer : Z).
Implicit Types (u : util dev sdev).
Abbreviation the_actions := (actions lit execute page_ok junk header data buffer).
Abbreviation loop := (actions_loop lit execute page_ok junk header data buffer).

(** The words from [argv] on, up to NULL. *)
Fixpoint words_at (m : mem) (argv : Z) (ps : list Z) : Prop :=
  match ps with [] => word_at m argv NULL | p :: ps => word_at m argv p /\ p <> NULL /\ words_at m (argv + 4) ps end.

Definition names_at (m : mem) : Prop := Forall (fun l => 0 < lit l /\ cstr m (lit l) (codes l)) ["run"; "ls"; "cat"; "rm"; "extract"; "append"]%string.

Lemma on_mem_reads {A} (f : M mem A) u a : f (u_mem u) = Done (a, u_mem u) -> on_mem f u = Done (a, u).
Proof. intros E. unfold on_mem. rewrite E. cbn. by destruct u. Qed.

Lemma find_action_run p s u : cstr (u_mem u) p s -> 0 < p -> forall l, Forall (fun a : action => 0 < lit (a_name a) /\ cstr (u_mem u) (lit (a_name a)) (codes (a_name a))) l ->
  find_action lit l p u = match List.find (fun a => bool_decide (s = codes (a_name a))) l with Some a => Done (a, u) | None => Panic end.
Proof.
  intros Hs Hp l HF. induction HF as [|a l [Ha Hc] HF IH]; [done|]. cbn [find_action List.find].
  erewrite bind_done by (apply on_mem_reads, strcmp_correct; [exact Hs|exact Hc|done|done]).
  pose proof (str_compare_eq s (codes (a_name a))). destruct (Z.eqb_spec (str_compare s (codes (a_name a))) 0);
    [rewrite bool_decide_true by tauto|rewrite bool_decide_false by tauto]; done.
Qed.

Lemma words_get m ps : forall argv i, words_at m argv ps -> (i <= length ps)%nat ->
  exists p, word_at m (argv + 4 * Z.of_nat i) p /\ (p = NULL <-> i = length ps).
Proof.
  induction ps as [|p ps IH]; intros argv i Hw Hi; cbn [length] in *.
  - exists NULL. replace i with 0%nat by lia. by rewrite Z.add_0_r.
  - destruct Hw as (Hw & Hp & Hws). destruct i as [|i]; [exists p; rewrite Z.add_0_r; split; [done|split; [done|lia]]|].
    destruct (IH (argv + 4) i Hws ltac:(lia)) as (q & Hq & Hn). exists q. replace (argv + 4 * Z.of_nat (S i)) with (argv + 4 + 4 * Z.of_nat i) by lia.
    split; [done|]. rewrite Hn. lia.
Qed.

(** The required arguments are there, or the kernel panics. *)
Lemma check_arguments_run ps argv u : words_at (u_mem u) argv ps -> forall n i, (i <= length ps)%nat ->
  check_arguments n argv (Z.of_nat i) u = if (i + n <=? length ps)%nat then Done (tt, u) else Panic.
Proof.
  intros Hw. induction n as [|n IH]; intros i Hi; cbn [check_arguments]; [by rewrite Nat.add_0_r, (proj2 (Nat.leb_le _ _))|].
  destruct (words_get _ _ _ _ Hw Hi) as (p & Hp & Hn). erewrite bind_done by (apply on_mem_reads, load32_word; exact Hp).
  destruct (Z.eqb_spec p NULL) as [E|E].
  - apply Hn in E. rewrite (proj2 (Nat.leb_gt _ _)) by lia. done.
  - assert (i <> length ps) by tauto. replace (Z.of_nat i + 1) with (Z.of_nat (S i)) by lia. rewrite IH by lia.
    replace (S i + n)%nat with (i + S n)%nat by lia. done.
Qed.

(** Run_actions stops at the end of the words; otherwise the first word must be the
    name of an action with all its arguments behind it, or the kernel panics before
    anything is done: the action's function is called on the words, and the next
    action is looked for behind its arguments. *)
Theorem next_action_correct fuel argv ps u (Hw : words_at (u_mem u) argv ps) (Hn : names_at (u_mem u))
  (Hc : forall p, head ps = Some p -> 0 < p /\ exists s, cstr (u_mem u) p s) :
  match ps with
  | [] => loop (S fuel) argv u = Done (tt, u)
  | p :: args => exists s, cstr (u_mem u) p s /\
      match List.find (fun a => bool_decide (s = codes (a_name a))) the_actions with
      | Some a => if a_argc a - 1 <=? zlen args
          then loop (S fuel) argv u = (a_function a argv ;; loop fuel (argv + 4 * a_argc a)) u
          else loop (S fuel) argv u = Panic
      | None => loop (S fuel) argv u = Panic
      end
  end.
Proof.
  cbn [actions_loop]. destruct ps as [|p args].
  { erewrite bind_done by (apply on_mem_reads, load32_word; exact Hw). done. }
  destruct (Hc p eq_refl) as (Hp & s & Hs). exists s. split; [done|]. pose proof Hw as (Hw0 & Hp0 & _).
  assert (Forall (fun a : action => 0 < lit (a_name a) /\ cstr (u_mem u) (lit (a_name a)) (codes (a_name a))) the_actions) as HF.
  { unfold names_at in Hn. rewrite !Forall_cons in Hn. unfold actions. rewrite !Forall_cons. cbn [a_name]. by repeat split; try apply Hn. }
  assert (forall a, In a the_actions -> 1 <= a_argc a) as Hargc by (intros a Hin; cbn in Hin; repeat destruct Hin as [<-|Hin]; cbn; done || lia).
  pose proof (find_action_run p s u Hs Hp the_actions HF) as Hfind.
  destruct (List.find _ the_actions) as [a|] eqn:Ef.
  - apply List.find_some in Ef as [Hin _]. specialize (Hargc a Hin). pose proof (check_arguments_run _ _ _ Hw (Z.to_nat (a_argc a - 1)) 1) as Hck.
    cbn [length] in Hck. specialize (Hck ltac:(lia)). change (Z.of_nat 1) with 1 in Hck. unfold zlen. destruct (Z.leb_spec (a_argc a - 1) (Z.of_nat (length args))) as [Hle|Hle].
    + erewrite bind_done by (apply on_mem_reads, load32_word; exact Hw0). rewrite (proj2 (Z.eqb_neq _ _)) by done. erewrite bind_done by exact Hfind.
      erewrite bind_done; [reflexivity|]. rewrite Hck. by rewrite (proj2 (Nat.leb_le _ _)) by lia.
    + erewrite bind_done by (apply on_mem_reads, load32_word; exact Hw0). rewrite (proj2 (Z.eqb_neq _ _)) by done. erewrite bind_done by exact Hfind.
      apply bind_panic. rewrite Hck. by rewrite (proj2 (Nat.leb_gt _ _)) by lia.
  - erewrite bind_done by (apply on_mem_reads, load32_word; exact Hw0). rewrite (proj2 (Z.eqb_neq _ _)) by done. by apply bind_panic.
Qed.
End Dispatch.
