(* ===== verification/BootDemo.v ===== *)
(** * A command line

    The concrete inputs of the theorems on the command line: a machine with a clock,
    the words a loader leaves, the options of a user who wants a fresh file system, and
    a registry with two disks. *)

From Stdlib Require Import Ascii.
From Stdlib Require Import(notations) String.
From S2P Require Import Prelude Vaddr Block FileSys FsDemo Mem CString Stdio CStdlib Random Ustar Fsutil Devices Boot BootSpec BootWords.

(** A clock: the register that is selected, and the registers. *)
Record cmos := mk_cmos { selected : Z; registers : list (Z * Z) }.

#[export] Instance cmos_ports : Ports cmos := {
  port_in p h := (if p =? CMOS_REG_IO then default 0 (snd <$> List.find (fun r => r.1 =? selected h) (registers h)) else 0, h);
  port_out p v h := if p =? CMOS_REG_SET then mk_cmos v (registers h) else h
}.

(** 24 December 2020, 18:30:00, as the registers have it. *)
Definition christmas : cmos := mk_cmos 0 [(0, 0x00); (2, 0x30); (4, 0x18); (7, 0x24); (8, 0x12); (9, 0x20)].

Lemma christmas_clock : clock (dev := ramdisk) 1 christmas 1611426600 (mk_cmos 0 (registers christmas)).
Proof. intros b Hb. destruct b. cbn in Hb. subst. vm_compute. reflexivity. Qed.

Definition boot_lit (s : String.string) : Z :=
  let fix go l a := match l with [] => 0 | t :: l => if String.eqb s t then a else go l (a + 16) end in go boot_literals 16.

(** The words "-f", "-filesys=hdb1", "-ul=9" and "ls" behind each other at 512, and the
    array at 1024. *)
Definition cmdline : list (list Z) := [codes "-f"; codes "-filesys=hdb1"; codes "-ul=9"; codes "ls"].

Definition boot_mem (words : list (list Z)) : mem :=
  let m := foldr (fun l m => stored m (boot_lit l) (codes l ++ [0])) ∅ boot_literals in
  let m := stored m 512 (joined words) in
  stored m 1024 (concat (map le_bytes (places 512 words ++ [NULL]))).

(** Another one asks for help. *)
Definition help_line : list (list Z) := [codes "-f"; codes "-h"; codes "ls"].

(** The variables of the kernel are cleared, no device is known and no file system mounted. *)
Definition boot_start (m : mem) : boot cmos ramdisk :=
  mk_boot m christmas (mk_rc4 (replicate 256 0) 0 0 false) [] false SHUTDOWN_NONE false NULL NULL false (2 ^ 32 - 1)
    blank_fs (mk_registry [] (replicate 4 None)) (mk_stats 0 0 0 0 0 0).

Definition defaults : settings := mk_settings SHUTDOWN_NONE false None None false (2 ^ 32 - 1).

Ltac in_memory := split; [vm_compute; repeat split|try (unfold is_char; by_decide); unfold is_u32; lia].

Ltac laid_words :=
  cbn [places laid];
  repeat match goal with |- _ /\ _ => split end; try in_memory; try (unfold zlen; cbn; lia); try (cbn; repeat constructor; unfold apart, zlen; cbn; lia);
  (let l := fresh in let Hin := fresh in intros l Hin; cbn in Hin; repeat destruct Hin as [<-|Hin]; try done; right; vm_compute; reflexivity).

Ltac literals_of :=
  let l := fresh in let Hin := fresh in intros l Hin; cbn in Hin; repeat destruct Hin as [<-|Hin]; try done;
    (split; [reflexivity|]); (split; [vm_compute; repeat split|unfold is_char; by_decide]).

Ltac no_number := let H := fresh in intros [H|H]; vm_compute in H; discriminate H.

Lemma boot_literals_at : literals_at boot_lit (boot_mem cmdline) /\ literals_at boot_lit (boot_mem help_line).
Proof. split; literals_of. Qed.

Lemma cmdline_laid : laid boot_lit (boot_mem cmdline) 1024 (places 512 cmdline) cmdline.
Proof. unfold cmdline. laid_words. Qed.

Lemma help_line_laid : laid boot_lit (boot_mem help_line) 1024 (places 512 help_line) help_line.
Proof. unfold help_line. laid_words. Qed.

Lemma start_printable m : printable (set_out (b_console (boot_start m) ++ help) (boot_start m)).
Proof.
  split.
  - repeat (apply Forall_cons; split; [by split|]). constructor.
  - intros i Hi. cbn in Hi. set_solver.
  - vm_compute. by split.
Qed.

(** The words of [cmdline] set the file system's device, its formatting and the limit;
    those of [help_line] end with the help, the statistics and the farewell. *)
Lemma parse_options_correct_witness :
  (exists b', parse_options boot_lit 1 1024 (boot_start (boot_mem cmdline)) = Done (Some 1036, b') /\
    shows (drop 3 (places 512 cmdline)) [codes "ls"] b' (mk_settings SHUTDOWN_NONE true (Some (codes "hdb1")) None false 9)) /\
  (exists b', parse_options boot_lit 1 1024 (boot_start (boot_mem help_line)) = Done (None, b') /\ b_off b' = true /\
    b_console b' = help ++ codes "Timer: 0 ticks" ++ [10] ++ codes "Thread: 0 idle ticks, 0 kernel ticks, 0 user ticks" ++ [10] ++
      codes "Console: 1130 characters output" ++ [10] ++ codes "Keyboard: 0 keys pressed" ++ [10] ++
      codes "Exception: 0 page faults" ++ [10] ++ codes "Powering off..." ++ [10]).
Proof.
  split.
  - destruct (parse_options_correct boot_lit 1 1024 (places 512 cmdline) cmdline (boot_start (boot_mem cmdline)) defaults 1611426600 (mk_cmos 0 (registers christmas))
      cmdline_laid (proj1 boot_literals_at)) as (b' & Hr & Hs & _).
    + by split.
    + unfold cmdline, good_option. do 2 (apply Forall_cons; split; [no_number|]).
      apply Forall_cons; split; [|apply Forall_cons; split; [no_number|constructor]]. intros _.
      change (numeric [57]). split; [|split; [done|reflexivity]]. constructor; [lia|constructor].
    + exact christmas_clock.
    + exists b'. split; [exact Hr|exact Hs].
  - destruct (parse_options_correct boot_lit 1 1024 (places 512 help_line) help_line (boot_start (boot_mem help_line)) defaults 1611426600 (mk_cmos 0 (registers christmas))
      help_line_laid (proj2 boot_literals_at)) with (f := blank_fs) as (b' & Hr & Ho & Hc & _).
    + by split.
    + unfold help_line, good_option. repeat (apply Forall_cons; split; [no_number|]). constructor.
    + exact christmas_clock.
    + reflexivity.
    + apply start_printable.
    + exists b'. split; [exact Hr|]. split; [exact Ho|]. rewrite Hc. vm_compute. reflexivity.
Defined.

(** ** The words the loader leaves *)

Definition loaded_mem : mem :=
  let m := stored ∅ count_at (le_bytes 4) in
  let m := stored m args_at (joined [codes "-q"; codes "run"; codes "echo x"; codes "ls"]) in
  stored m 0xc0020000 (replicate 20 7).

Lemma read_command_line_correct_witness : exists m',
  read_command_line 0xc0020000 (boot_start loaded_mem) =
    Done (0xc0020000, set_out (codes "Kernel command line: -q run 'echo x' ls" ++ [10]) (set_mem m' (boot_start loaded_mem))) /\
  array_at m' 0xc0020000 [0xc0007d3e; 0xc0007d41; 0xc0007d45; 0xc0007d4c].
Proof.
  destruct (read_command_line_correct [codes "-q"; codes "run"; codes "echo x"; codes "ls"] 0xc0020000 (boot_start loaded_mem)) as (m' & Hr & Ha & _).
  - in_memory.
  - unfold is_char. by_decide.
  - vm_compute. by repeat split.
  - by vm_compute.
  - apply block_mapped, block_at_check. vm_compute. reflexivity.
  - left. by vm_compute.
  - exists m'. split; [exact Hr|exact Ha].
Defined.

(** ** Two disks *)

Definition two_disks : registry ramdisk :=
  mk_registry [mk_block (codes "hda1") BLOCK_KERNEL 100 ∅ 0 0; mk_block (codes "hda2") BLOCK_FILESYS 200 ∅ 0 0; mk_block (codes "hdb1") BLOCK_FILESYS 300 ∅ 0 0]
    (replicate 4 None).

Lemma locate_block_devices_correct_witness :
  (exists r', locate_block_devices (Some (codes "hdb1")) None two_disks = Done (codes "filesys: using hdb1" ++ [10], r') /\
    block_get_role BLOCK_FILESYS r' = Done (Some 2, r')) /\
  locate_block_devices (Some (codes "hdc1")) None two_disks = Panic.
Proof.
  split; [|exact (locate_block_devices_correct two_disks (Some (codes "hdc1")) None eq_refl)].
  destruct (locate_block_devices_correct two_disks (Some (codes "hdb1")) None eq_refl) as (r' & Hr & _ & Hrole).
  exists r'. split; [exact Hr|]. exact (Hrole BLOCK_FILESYS eq_refl).
Defined.

(** ** An action without its file *)

Definition action_lit (s : String.string) : Z :=
  let fix go l a := match l with [] => 0 | t :: l => if String.eqb s t then a else go l (a + 16) end in
  go ["run"; "ls"; "cat"; "rm"; "extract"; "append"]%string 16.

(** The words "ls" and "cat" and nothing behind. *)
Definition action_mem : mem :=
  let m := foldr (fun l m => stored m (action_lit l) (codes l ++ [0])) ∅ ["run"; "ls"; "cat"; "rm"; "extract"; "append"]%string in
  stored (stored m 512 (joined [codes "ls"; codes "cat"])) 1024 (concat (map le_bytes [512; 515; 0])).

Definition action_start : util ramdisk ramdisk := mk_util blank_fs action_mem None 0 0 [].

(** "ls" runs, and then "cat" stops the kernel. *)
Lemma next_action_correct_witness :
  let loop := actions_loop action_lit (fun _ => mret tt) true [] 0 0 0 in
  loop 5%nat 1024 action_start = (fsutil_ls ;; loop 4%nat 1028) action_start /\
  loop 4%nat 1028 action_start = Panic.
Proof.
  assert (names_at action_lit action_mem) as Hn.
  { unfold names_at. repeat (apply Forall_cons; split; [split; [reflexivity|in_memory]|]). constructor. }
  assert (words_at action_mem 1024 [512; 515] /\ words_at action_mem 1028 [515]) as [Hw Hw'].
  { cbn [words_at]. repeat match goal with |- _ /\ _ => split end; try in_memory; done. }
  assert (cstr action_mem 512 (codes "ls") /\ cstr action_mem 515 (codes "cat")) as [Hc Hc'] by (split; in_memory).
  split.
  - destruct (next_action_correct action_lit (fun _ => mret tt) true [] 0 0 0 4 1024 [512; 515] action_start Hw Hn) as (s & Hs & H).
    { intros p [= <-]. split; [reflexivity|by exists (codes "ls")]. }
    rewrite <- (cstr_inj _ _ _ _ Hc Hs) in H. exact H.
  - destruct (next_action_correct action_lit (fun _ => mret tt) true [] 0 0 0 3 1028 [515] action_start Hw' Hn) as (s & Hs & H).
    { intros p [= <-]. split; [reflexivity|by exists (codes "cat")]. }
    rewrite <- (cstr_inj _ _ _ _ Hc' Hs) in H. exact H.
Defined.

(** The statistics of a disk with a role. *)
Example disk_statistics : role_line (all_blocks two_disks) (Some 2) = codes "hdb1 (filesys): 0 reads, 0 writes" ++ [10].
Proof. vm_compute. reflexivity. Qed.
